(* ===== verification/_CoqProject ===== *)
-Q . S2P
Prelude.v
PQueue.v
ChannelModel.v
Config.v
SsdParams.v
Ssd.v
Nvme.v
ConvFtl.v
Geometry.v
Media.v
Lines.v
ConvInv.v
ConvWp.v
ConvMark.v
ConvWrite.v
ConvInit.v
ConvGc.v
ConvCollect.v
ConvSelect.v
ConvFlow.v
ConvNs.v
ConvTheorems.v
Prp.v
ZnsFtl.v
ZnsInv.v
ZnsMgmt.v
ZnsIo.v
ZnsWrite.v
ZnsNs.v
ZnsTheorems.v
WorkQueue.v
IoWorker.v
IoQueue.v
Dispatch.v
SimpleFtl.v
Namespaces.v
Perform.v
DataPath.v
IoTheorems.v
KvAlloc.v
KvFtl.v
KvTable.v
KvStore.v
KvIter.v
KvBatch.v
KvNs.v
KvTheorems.v
CLayout.v
PciRegs.v
PciConfig.v
PciTheorems.v
Device.v
Bar.v
Admin.v
AdminSpec.v
Main.v
MainSpec.v
AdminTurn.v
HostTheorems.v
WorkerTurn.v
WorkerSpec.v
WorkerTheorems.v
Session.v
Proc.v
ProcTheorems.v
Dma.v
DmaTheorems.v
Wire.v
WireTheorems.v
Memory.v
Lifetime.v
LifetimeSpec.v
Loaded.v
LoadedSpec.v
LoadedTheorems.v
