(* ===== verification/Prelude.v ===== *)
(** * NVMeVirt with an SLC cache: verification development

    NVMeVirt is a kernel module that emulates an NVMe device.  A dispatcher thread
    polls the doorbells, takes commands from the submission queues and hands each to
    its namespace; the namespace (an FTL) computes when a real device would have
    finished it; an I/O worker thread moves the data and posts the completion when
    that time comes.  This repository adds an SLC cache to the conventional FTL.

    ** Parts, and where they are modelled

    - pqueue/pqueue.c, the heap of victim lines: PQueue.v.  The heap stores handles
      and reaches priority and position through callbacks ([PQAccess]), so that heap
      and line array share one store.
    - channel_model.c, the credit ring of a link: ChannelModel.v.
    - ssd_config.h and the parameters of ssd.c: Config.v, SsdParams.v.
    - ssd.c, the NAND array, write buffer and timing: Ssd.v.
    - conv_ftl.c, the page-mapping FTL with its SLC area, migration and collection:
      data and operations in ConvFtl.v; page coordinates in Geometry.v; block and page
      status in Media.v; free, full and victim lines in Lines.v; the invariant of a
      partition in ConvInv.v; one operation group each in ConvWp.v (write pointers),
      ConvMark.v (invalidation), ConvWrite.v (mapping a page), ConvInit.v, ConvGc.v and
      ConvCollect.v (collection), ConvSelect.v (victims), ConvFlow.v (write credits and
      foreground collection), ConvNs.v (commands over all partitions); the properties in
      ConvTheorems.v.
    - zns_ftl.c, zns_read_write.c, zns_mgmt_send.c, zns_mgmt_recv.c, the zoned FTL: data
      and operations in ZnsFtl.v; the resource invariant in ZnsInv.v; the zone machine in
      ZnsMgmt.v; reads and writes in ZnsIo.v and ZnsWrite.v; the namespace and its abstract
      machine in ZnsNs.v; the properties in ZnsTheorems.v.
    - nvme.h, nvmev.h, the request interface: Nvme.v.  The PRP walk that three functions
      repeat: Prp.v.
    - io.c: the work queue of a worker in WorkQueue.v, the worker against the dispatcher
      in IoWorker.v, completion queues in IoQueue.v, the dispatcher in Dispatch.v, data
      movement with and without a DMA engine in Perform.v, its effect on memory in
      DataPath.v; the properties in IoTheorems.v and DataPath.v.  A turn of a worker on the
      device, completions and interrupts included, in WorkerTurn.v, WorkerSpec.v; with the
      dispatcher, from doorbell to completion, in WorkerTheorems.v.
    - simple_ftl.c, the namespace of parallel I/O units: SimpleFtl.v.
    - kv_ftl.c, bitmap.c, append_only.c, the key-value FTL: the allocators in KvAlloc.v; data
      and operations in KvFtl.v; the hash table and its chains in KvTable.v; commands of one
      key in KvStore.v, iterators in KvIter.v, batches in KvBatch.v; the namespace and its
      abstract store in KvNs.v; the properties in KvTheorems.v.
    - pci.h, pci.c: the rules of C structure layout in CLayout.v; the structures in PciRegs.v;
      the configuration space and its accesses in PciConfig.v, the properties in
      PciTheorems.v; the device record in Device.v; the controller registers and the poll of
      the dispatcher in Bar.v.
    - admin.c: the handlers and the admin ring in Admin.v, the abstract controller in
      AdminSpec.v.
    - main.c: parameters, namespaces, doorbells, a turn of the dispatcher and /proc in Main.v,
      lemmas about a turn in MainSpec.v, about one in which the admin doorbell rang in
      AdminTurn.v; the properties of registers, admin queue, dispatcher and set-up in
      HostTheorems.v, from power-on to the first answers in Session.v.  Writing and reading
      the /proc files: Proc.v, ProcTheorems.v.
    - what the module takes from the kernel and gives back (memory, threads, files, regions,
      the bus): the heap of blocks and what it means to own some of them in Memory.v; the
      set-up and removal of each namespace (ssd.c, pqueue.c and the FTLs) in Lifetime.v,
      their specifications in LifetimeSpec.v; [NVMeV_init], [NVMeV_exit] and the queues made
      and deleted in between in Loaded.v, LoadedSpec.v, LoadedTheorems.v.
    - dma.c, the client of the DMA engine: Dma.v, DmaTheorems.v.
    - nvme.h, nvme_zns.h, nvme_kv.h, the structures on the link: Wire.v, WireTheorems.v.

    ** How they interact

    [proc_io_cmd] of [struct nvmev_ns] is the class [Namespace] of Dispatch.v, and what
    the dispatcher may rely on is [ServableNamespace].  The dispatcher is proved against
    the class; SimpleFtl.v and Namespaces.v give the instances, whose proofs are the
    session theorems of the FTLs.  A turn of [nvmev_dispatcher] polls the registers (Bar.v),
    serves the admin doorbell (Admin.v) and then each queue (Dispatch.v, IoQueue.v); admin
    commands make the queues that the others serve.  [HostMemory] is what the pages of the
    host hold when a queue is mapped, [NamespaceInfo] what identify asks of a namespace,
    [DmaEngine] what the kernel offers.  [Allocator] is the interface between the key-value
    FTL and its two allocators; key-value commands take effect when the worker performs
    them, not when the dispatcher schedules them.  [PQAccess] is the interface between the heap and the
    lines.  A namespace posts write-buffer releases in an outbox in the order of
    [schedule_internal_operation]'s calls; Dispatch.v turns them into queue entries.

    ** How C is written here

    Pure code that can fail is a function to [res], whose [fault] names the way it fails:
    a failed assertion, an access out of bounds, a null or uninitialised value, a division
    by zero, an intrusive list corrupted.  Code that reads the clock or changes a device
    through many calls is in the state monad [M] over the component's record.  The clock is
    a function from the number of readings so far to a time, an argument of every theorem;
    most hold for any clock, those that need [clk] bounded or steady say so.  Machine
    integers are [Z] with their wrap-around written out ([u8] to [u64], [i32], [i64]).
    Arrays are lists under [zget], [zset] and their checked forms [aget], [aset].

    ** What is shown

    A theorem about a session or a turn says under which conditions it runs to its end, and,
    where the code does not refuse the rest, which fault the rest ends in.

    - Conventional FTL: a session of host commands and buffer releases on a fresh
      namespace meets no fault while the host writes less than the space allows and no
      more at once than the write buffer holds, and
      every command has the effect it should on the mapping; each page operation, victim
      selection, collection and migration keeps the invariant; and where the code cannot
      keep its promise: a write larger than the whole buffer, and a write pointer at the last page of an
      area without a free line, end in an assertion, and filling the logical range gets there.
    - Zoned FTL: a session refines the abstract zone machine, or stops at its first write larger than
      the buffer or report that the code cannot copy; every command's effect,
      reports; and two ways a host makes the device fail or starve.
    - Key-value FTL: a session whose stores find a slot and room refines a finite map from keys to
      values; delete, batches and iterators; and what a full table does.
    - Host interface: enumeration and the read-only bits of the configuration space; a driver
      brings the controller up however the polls fall between its writes, and the queues it
      then creates work, from power-on to the first I/O completions; the admin queue
      refines an abstract controller of queues and answers, also in the turns of the dispatcher
      that follow, for commands whose identifiers the code can take; a turn serves the queue that has
      news and nothing else; what is loaded from parameters, and that
      namespaces, when their initialisers accept the sizes they are given, do not overlap; commands mean the same through every structure they are
      read through, and identify answers read at the specification's offsets are true.
    - Life of the module: whatever queues the host makes and deletes, unloading gives back
      every block that loading and the host's commands took, once each, but for those it
      lists as leaked, as long as the host names queues there can be; a load that fails leaves
      its namespaces and /proc files behind without the structure they use, or writes through a
      null pointer.  A write to a /proc file changes the units and times it names as the
      driver may rely on, except the values that make the next request divide by zero.
    - DMA: exactly the channels of the given name are taken and given back; a transfer is
      done only when the engine said so.
    - I/O path: each accepted operation is finished exactly once and not before its time,
      whatever the interleaving; a late enough pass finishes all; a turn of a worker posts
      what it finished to the queues and raises the interrupts due; the commands of a ring
      come back to the host, one completion each, through namespace and worker; completion
      entries reach the host once each and in order; a read returns the bytes that were written, by DMA
      or by CPU copies, which move the same bytes.
    - Below them: the heap keeps order and contents, the credit ring conserves credits and
      never answers early, an address survives packing, NAND timing touches nothing else,
      the write buffer never gives out more than it has.
    ** Bounds and fuel

    Loops that are not structural carry fuel and end in the fault [OutOfFuel] when it runs
    out; every theorem that says a call returns [Ok] says that it does not.  The walks over
    the index-linked lists of io.c have [scan_fuel], one more than the entries of the queue,
    enough because the lists have no duplicates; heap sifting has the heap's size; the
    credit search the ring's length; the transfer loops the number of transfers plus one;
    the page loops of the zoned FTL the number of pages of the command.  Loops of the
    conventional FTL over channels, dies and pages are folds over ranges.  Walks along the
    chains of the key-value table have one more than its slots; its search for a free slot has
    none that is enough when the table is full, and a theorem says so.  Channel requests have
    one more than the engine's channels.  Witnesses run on small devices (four SLC and four TLC lines) or on the shipped profiles.

    ** Atomic steps

    IoWorker.v takes a visit of one entry by the worker, an insertion and a reclaim by the
    dispatcher as atomic, in every order.  Bar.v takes a poll of the registers as atomic
    between the writes of the host; MainSpec.v a turn of the dispatcher, so doorbells rung
    during a turn count for the next.  WorkerTurn.v takes a turn of a worker as one step; that
    a pass in smaller steps does the same is [visit_entries_posts] of WorkerSpec.v, and that
    other steps may come between them IoWorker.v.  Memory-ordering races inside one such step are not
    covered; the code relies on [mb()] and on the order of its stores there.

    ** Not modelled

    - Kernel services: what a thread, an interrupt or a mapping does once it is made,
      registering the PCI bus.  In the functional models allocation does not fail (the -ENOMEM branches
      of dma.c and the array of a new io_units are among what that leaves out); in
      Memory.v whether it does is an argument ([KernelAlloc]), and the theorems there assume
      that it does not, but for the one about [VDEV_INIT].  The search of bitmap.c for clear
      bits, the firmware's memory map, number parsing, [sscanf] and [strim] are arguments, and
      so is whether [pci_scan_bus] finds a bus.
    - What the pages of a queue hold is read when the queue is mapped: a host that writes
      entries later is a later device state.  A page of the configuration space and the
      64 bytes of a command are one little-endian number each.
    - In Lifetime.v a block is its kind and its address, not what it holds: the iterators a
      host leaves open in a key-value namespace, and their buffers, are not in its account.
    - The text that reading a /proc file prints, debug printing, [PERF_DEBUG] statistics of
      io.c, and [adjust_ftl_latency] of ssd.c, whose body is disabled.
    - PRP lists that continue on a second page: the code does not follow them either.
    - The successful write path of a zone with a random write area: no shipped profile gives
      the device such an area, and the proof there is that the path divides by zero. *)

From Stdlib Require Import ZArith Lia.
From stdpp Require Import base list numbers.

#[global] Open Scope Z_scope.

(** ** Outcomes of C code

    A call either returns or reaches a point where the kernel would stop or the
    C standard gives no meaning; the constructor of [fault] says which. *)
Inductive fault : Type :=
| BugOn          (* a failed [NVMEV_ASSERT] / [BUG_ON] *)
| OutOfBounds    (* an array access outside its allocation *)
| NullDeref      (* a dereference of a null pointer *)
| Uninit         (* a read of an uninitialised variable *)
| DivByZero      (* an integer division by zero *)
| ListCorrupt    (* an intrusive list entry linked twice *)
| BadPointer     (* freeing or using memory that is not allocated *)
| OutOfFuel.     (* the model's own loop bound; theorems show it is not reached *)

#[export] Instance fault_eq_dec : EqDecision fault.
Proof. solve_decision. Defined.

Inductive res (A : Type) : Type :=
| Ok (a : A)
| Err (f : fault).
Arguments Ok {A} a.
Arguments Err {A} f.

Definition rbind {A B} (m : res A) (k : A -> res B) : res B :=
  match m with Ok a => k a | Err f => Err f end.

Definition rmap {A B} (f : A -> B) (m : res A) : res B :=
  rbind m (fun a => Ok (f a)).

(** [NVMEV_ASSERT(b)] *)
Definition rassert (b : bool) : res unit := if b then Ok tt else Err BugOn.

Definition of_opt {A} (f : fault) (o : option A) : res A :=
  match o with Some a => Ok a | None => Err f end.

Declare Scope res_scope.
Delimit Scope res_scope with res.
Notation "'let!' x := m 'in' k" := (rbind m (fun x => k))
  (at level 10, x pattern, m at level 200, k at level 200,
   format "'[' 'let!'  x  :=  m  'in'  '//' k ']'") : res_scope.
Notation "m ;;; k" := (rbind m (fun _ => k))
  (at level 100, right associativity) : res_scope.

(** [is_ok m]: the call returns. *)
Definition is_ok {A} (m : res A) : Prop := exists a, m = Ok a.

Section ResLemmas.
Context {A B : Type}.

Lemma rbind_ok (m : res A) (k : A -> res B) b :
  rbind m k = Ok b <-> exists a, m = Ok a /\ k a = Ok b.
Proof.
  destruct m as [a|f]; simpl; split.
  - eauto.
  - by intros (? & [= <-] & ?).
  - done.
  - by intros (? & ? & _).
Qed.

Lemma of_opt_ok f (o : option A) a : of_opt f o = Ok a <-> o = Some a.
Proof. destruct o; simpl; naive_solver. Qed.
End ResLemmas.

(** Decompose a hypothesis [m = Ok x] along its binds. *)
Ltac inv_res :=
  repeat match goal with
  | H : Ok _ = Ok _ |- _ => injection H as H; subst
  | H : Err _ = Ok _ |- _ => discriminate H
  | H : Ok _ = Err _ |- _ => discriminate H
  | H : rbind ?m _ = Ok _ |- _ =>
      let a := fresh "r" in let E := fresh "E" in
      apply rbind_ok in H as (a & E & H)
  | H : of_opt _ _ = Ok _ |- _ => apply of_opt_ok in H
  | H : rassert ?b = Ok _ |- _ =>
      let E := fresh "Ha" in
      unfold rassert in H; destruct b eqn:E; [|discriminate H]
  end.

(** ** Machine integers: a [w]-bit value is the integer in [0, 2^w) *)
Definition u8 (x : Z) : Z := x mod 2 ^ 8.
Definition u16 (x : Z) : Z := x mod 2 ^ 16.
Definition u32 (x : Z) : Z := x mod 2 ^ 32.
Definition u64 (x : Z) : Z := x mod 2 ^ 64.

(** [int]: two's complement; the kernel is built with wrapping signed arithmetic. *)
Definition i32 (x : Z) : Z := (x + 2 ^ 31) mod 2 ^ 32 - 2 ^ 31.

Definition i64 (x : Z) : Z := (x + 2 ^ 63) mod 2 ^ 64 - 2 ^ 63.

(** [DIV_ROUND_UP] of the kernel, in [uint64_t]. *)
Definition DIV_ROUND_UP (n d : Z) : Z := u64 (n + d - 1) / d.

(** [KB], [MB], [GB], [BYTE_TO_*] of nvmev.h. *)
Definition KB (k : Z) : Z := Z.shiftl k 10.
Definition MB (m : Z) : Z := Z.shiftl m 20.
Definition GB (g : Z) : Z := Z.shiftl g 30.
Definition NS_PER_SEC (s : Z) : Z := s * 1000 * 1000 * 1000.

(** ** Arrays indexed by C integers *)
Abbreviation zlen l := (Z.of_nat (length l)).

Lemma u8_id x : 0 <= x < 2 ^ 8 -> u8 x = x.
Proof. apply Z.mod_small. Qed.
Lemma u16_id x : 0 <= x < 2 ^ 16 -> u16 x = x.
Proof. apply Z.mod_small. Qed.
Lemma u32_id x : 0 <= x < 2 ^ 32 -> u32 x = x.
Proof. apply Z.mod_small. Qed.
Lemma u64_id x : 0 <= x < 2 ^ 64 -> u64 x = x.
Proof. apply Z.mod_small. Qed.
Lemma i32_id x : - 2 ^ 31 <= x < 2 ^ 31 -> i32 x = x.
Proof. intros. unfold i32. rewrite Z.mod_small; lia. Qed.
Lemma i32_range x : - 2 ^ 31 <= i32 x < 2 ^ 31.
Proof. unfold i32. pose proof (Z.mod_pos_bound (x + 2 ^ 31) (2 ^ 32)). lia. Qed.
Lemma u8_range x : 0 <= u8 x < 2 ^ 8.
Proof. by apply Z.mod_pos_bound. Qed.
Lemma u32_range x : 0 <= u32 x < 2 ^ 32.
Proof. by apply Z.mod_pos_bound. Qed.
Lemma u64_range x : 0 <= u64 x < 2 ^ 64.
Proof. by apply Z.mod_pos_bound. Qed.

(** Remove, innermost first, the wrap-arounds [lia] shows to be the identity. *)
Ltac wrap_free x :=
  lazymatch x with
  | context [u8 _] => fail
  | context [u16 _] => fail
  | context [u32 _] => fail
  | context [u64 _] => fail
  | context [i32 _] => fail
  | _ => idtac
  end.
Ltac unwrap :=
  repeat match goal with
  | |- context [i32 ?x] => wrap_free x; rewrite (i32_id x) by lia
  | |- context [u64 ?x] => wrap_free x; rewrite (u64_id x) by lia
  | |- context [u32 ?x] => wrap_free x; rewrite (u32_id x) by lia
  | |- context [u16 ?x] => wrap_free x; rewrite (u16_id x) by lia
  | |- context [u8 ?x] => wrap_free x; rewrite (u8_id x) by lia
  end.

Create HintDb wrap discriminated.
#[export] Hint Rewrite u8_id u16_id u32_id u64_id i32_id using (try lia) : wrap.

Section Arrays.
Context {A : Type}.

(** [a[i]] *)
Definition zget (l : list A) (i : Z) : option A :=
  if i <? 0 then None else l !! Z.to_nat i.
Definition aget (l : list A) (i : Z) : res A := of_opt OutOfBounds (zget l i).

(** [a[i] = x] *)
Definition zset (l : list A) (i : Z) (x : A) : list A :=
  if i <? 0 then l else <[Z.to_nat i := x]> l.
Definition aset (l : list A) (i : Z) (x : A) : res (list A) :=
  if (0 <=? i) && (i <? zlen l) then Ok (zset l i x) else Err OutOfBounds.

(** [a[i] op= ...] *)
Definition amod (l : list A) (i : Z) (f : A -> A) : res (list A) :=
  rbind (aget l i) (fun x => aset l i (f x)).

Implicit Types (l : list A) (i j : Z).

Lemma zget_range l i x : zget l i = Some x -> 0 <= i < zlen l.
Proof.
  unfold zget. destruct (Z.ltb_spec i 0) as [?|?]; [done|].
  intros Hl%lookup_lt_Some. lia.
Qed.

Lemma zget_Some l i : 0 <= i < zlen l -> exists x, zget l i = Some x.
Proof.
  intros [? ?]. unfold zget. destruct (Z.ltb_spec i 0) as [?|_]; [lia|].
  apply lookup_lt_is_Some_2. lia.
Qed.

Lemma zget_None l i : ~ (0 <= i < zlen l) -> zget l i = None.
Proof.
  intros Hi. unfold zget. destruct (Z.ltb_spec i 0) as [?|?]; [done|].
  apply lookup_ge_None_2. lia.
Qed.

Lemma length_zset l i x : length (zset l i x) = length l.
Proof. unfold zset. destruct (i <? 0); [done|]. apply length_insert. Qed.

Lemma zget_zset_eq l i x : 0 <= i < zlen l -> zget (zset l i x) i = Some x.
Proof.
  intros [? ?]. unfold zget, zset. destruct (Z.ltb_spec i 0) as [?|_]; [lia|].
  apply list_lookup_insert_eq. lia.
Qed.

Lemma zget_zset_ne l i j x : i <> j -> zget (zset l i x) j = zget l j.
Proof.
  intros Hne. unfold zget, zset.
  destruct (Z.ltb_spec j 0) as [?|?]; [done|].
  destruct (Z.ltb_spec i 0) as [?|?]; [done|].
  apply list_lookup_insert_ne. lia.
Qed.

Lemma zget_zset l i j x :
  0 <= i < zlen l ->
  zget (zset l i x) j = if decide (i = j) then Some x else zget l j.
Proof.
  intros Hi. case_decide as Hij; subst.
  - by apply zget_zset_eq.
  - by apply zget_zset_ne.
Qed.

Lemma zset_zset l i x y : zset (zset l i x) i y = zset l i y.
Proof. unfold zset. case_match; [done|]. apply list_insert_insert_eq. Qed.

Lemma zset_same l i x : zget l i = Some x -> zset l i x = l.
Proof. unfold zget, zset. destruct (i <? 0); [done|]. apply list_insert_id. Qed.

Lemma zset_comm l i j x y : i <> j -> zset (zset l i x) j y = zset (zset l j y) i x.
Proof.
  intros Hne. unfold zset. destruct (Z.ltb_spec i 0), (Z.ltb_spec j 0); try done.
  apply list_insert_insert_ne. lia.
Qed.

Lemma aget_ok l i x : aget l i = Ok x <-> zget l i = Some x.
Proof. apply of_opt_ok. Qed.

Lemma aset_ok l i x l' :
  aset l i x = Ok l' <-> 0 <= i < zlen l /\ l' = zset l i x.
Proof.
  unfold aset. case_match eqn:Hb.
  - apply andb_true_iff in Hb as [?%Z.leb_le ?%Z.ltb_lt].
    split; [by intros [= <-]|by intros [_ ->]].
  - split; [done|]. intros [Hr _]. apply andb_false_iff in Hb as [?%Z.leb_gt|?%Z.ltb_ge]; lia.
Qed.

Lemma aget_in l i : 0 <= i < zlen l -> exists x, aget l i = Ok x /\ zget l i = Some x.
Proof. intros (x & Hx)%zget_Some. exists x. by rewrite aget_ok. Qed.

Lemma aset_in l i x : 0 <= i < zlen l -> aset l i x = Ok (zset l i x).
Proof. intros Hi. by apply aset_ok. Qed.

Lemma amod_ok l i f l' :
  amod l i f = Ok l' <-> exists x, zget l i = Some x /\ l' = zset l i (f x).
Proof.
  unfold amod. rewrite rbind_ok. setoid_rewrite aget_ok. setoid_rewrite aset_ok.
  split.
  - intros (x & ? & ? & ->). eauto.
  - intros (x & Hx & ->). exists x. split; [done|]. by split; [eapply zget_range|].
Qed.
End Arrays.

(** The same checked accesses at a [size_t] index that is already a natural number. *)
Definition lget {A} (l : list A) (i : nat) : res A := of_opt OutOfBounds (l !! i).
Definition lset {A} (l : list A) (i : nat) (x : A) : res (list A) :=
  if decide (i < length l)%nat then Ok (<[i := x]> l) else Err OutOfBounds.

Lemma lget_ok {A} (l : list A) i x : lget l i = Ok x <-> l !! i = Some x.
Proof. apply of_opt_ok. Qed.

Lemma lset_ok {A} (l : list A) i x l' :
  lset l i x = Ok l' <-> (i < length l)%nat /\ l' = <[i := x]> l.
Proof. unfold lset. case_decide; (split; [|intros [? ->]]); try done; by intros [= <-]. Qed.

(** ** Stateful code

    A handler reads kernel clocks and updates the state [S] of its component.
    [clock c n] is what the [n]-th read (of any clock) returns when clock [c]
    is asked; the counter of reads is threaded through the run.  Theorems
    quantify over every clock. *)
Inductive clk_id : Type :=
| CPU_CLOCK      (* cpu_clock(cpu_nr_dispatcher) *)
| KTIME_NS       (* ktime_get_ns() *)
| LOCAL_CLOCK.   (* local_clock() *)

Definition clock : Type := clk_id -> nat -> Z.

Definition M (S A : Type) : Type := clock -> nat -> S -> res (A * nat * S).

Section Monad.
Context {S A B : Type}.
Definition ret (a : A) : M S A := fun _ t s => Ok (a, t, s).
Definition bind (m : M S A) (k : A -> M S B) : M S B := fun c t s =>
  match m c t s with Ok (a, t', s') => k a c t' s' | Err f => Err f end.
Definition fail (f : fault) : M S A := fun _ _ _ => Err f.
Definition lift (r : res A) : M S A := fun _ t s =>
  match r with Ok a => Ok (a, t, s) | Err f => Err f end.
Definition get : M S S := fun _ t s => Ok (s, t, s).
Definition gets (f : S -> A) : M S A := fun _ t s => Ok (f s, t, s).
Definition modify (f : S -> S) : M S unit := fun _ t s => Ok (tt, t, f s).
Definition read_clock (c : clk_id) : M S Z := fun clk t s => Ok (clk c t, Datatypes.S t, s).
(** [NVMEV_ASSERT] *)
Definition assert (b : bool) : M S unit := fun _ t s => if b then Ok (tt, t, s) else Err BugOn.
End Monad.

(** Run an operation of a component [T] that is a part of the state [S]. *)
Definition zoom {S T A} (get : S -> T) (put : S -> T -> S) (m : M T A) : M S A := fun c t s =>
  match m c t (get s) with Ok (a, t', x) => Ok (a, t', put s x) | Err f => Err f end.

Declare Scope st_scope.
Delimit Scope st_scope with st.
Notation "'let*' x := m 'in' k" := (bind m (fun x => k))
  (at level 10, x pattern, m at level 200, k at level 200,
   format "'[' 'let*'  x  :=  m  'in'  '//' k ']'") : st_scope.
Notation "m ;; k" := (bind m (fun _ => k))
  (at level 100, right associativity) : st_scope.
Open Scope res_scope.
Open Scope st_scope.

(** [for (x in l) body] *)
Fixpoint for_each {S X} (l : list X) (body : X -> M S unit) : M S unit :=
  match l with
  | [] => ret tt
  | x :: l' => body x ;; for_each l' body
  end.

Definition when {S} (b : bool) (m : M S unit) : M S unit := if b then m else ret tt.

(** A step given as a function of the state. *)
Definition update {S} (f : S -> res S) : M S unit := fun _ t s =>
  match f s with Ok s' => Ok (tt, t, s') | Err e => Err e end.
Definition update_get {S A} (f : S -> res (A * S)) : M S A := fun _ t s =>
  match f s with Ok (a, s') => Ok (a, t, s') | Err e => Err e end.

(** [0, 1, ..., n-1] *)
Definition zseq (n : Z) : list Z := seqZ 0 n.

Lemma length_zseq n : length (zseq n) = Z.to_nat n.
Proof. apply length_seqZ. Qed.

Lemma zseq_add a b : 0 <= a -> 0 <= b -> zseq (a + b) = zseq a ++ ((fun i => a + i) <$> zseq b).
Proof.
  intros Ha Hb. unfold zseq. rewrite seqZ_app by lia. f_equal. rewrite fmap_add_seqZ. f_equal. lia.
Qed.

(** Running a program one step at a time. *)
Section Run.
Context {S A B : Type}.
Implicit Types (c : clock) (t : nat) (s : S).

Lemma run_bind (m : M S A) (k : A -> M S B) c t s a t' s' :
  m c t s = Ok (a, t', s') -> bind m k c t s = k a c t' s'.
Proof. intros E. unfold bind. by rewrite E. Qed.

Lemma run_get (k : S -> M S B) c t s : bind get k c t s = k s c t s.
Proof. done. Qed.

Lemma run_lift (r : res A) (k : A -> M S B) c t s a : r = Ok a -> bind (lift r) k c t s = k a c t s.
Proof. by intros ->. Qed.

Lemma run_ret (a : A) (k : A -> M S B) c t s : bind (ret a) k c t s = k a c t s.
Proof. done. Qed.

Lemma run_update f (k : unit -> M S B) c t s s' : f s = Ok s' -> bind (update f) k c t s = k tt c t s'.
Proof. intros E. unfold bind, update. by rewrite E. Qed.

Lemma run_update_get (f : S -> res (A * S)) (k : A -> M S B) c t s a s' :
  f s = Ok (a, s') -> bind (update_get f) k c t s = k a c t s'.
Proof. intros E. unfold bind, update_get. by rewrite E. Qed.

Lemma run_modify f (k : unit -> M S B) c t s : bind (modify f) k c t s = k tt c t (f s).
Proof. done. Qed.

Lemma run_clock ci (k : Z -> M S B) c t s : bind (read_clock ci) k c t s = k (c ci t) c (Datatypes.S t) s.
Proof. done. Qed.

Lemma run_assert b (k : unit -> M S B) c t s : b = true -> bind (assert b) k c t s = k tt c t s.
Proof. by intros ->. Qed.

Lemma run_bind_assoc {D} (m : M S A) (k : A -> M S B) (h : B -> M S D) c t s :
  bind (bind m k) h c t s = bind m (fun a => bind (k a) h) c t s.
Proof. unfold bind. by destruct (m c t s) as [[[a t'] s']|]. Qed.
End Run.

(** *** Total-correctness triples: the run meets no fault and ends in [Q] *)
Definition hoare {S A} (P : S -> Prop) (m : M S A) (Q : A -> S -> Prop) : Prop :=
  forall c t s, P s -> exists a t' s', m c t s = Ok (a, t', s') /\ Q a s'.

Section HoareRules.
Context {S : Type}.
Implicit Types (P : S -> Prop).

Lemma hoare_conseq {A} P P' (Q Q' : A -> S -> Prop) m :
  hoare P' m Q' -> (forall s, P s -> P' s) -> (forall a s, Q' a s -> Q a s) -> hoare P m Q.
Proof. intros Hm HP HQ c t s Hs. destruct (Hm c t s) as (a&t'&s'&?&?); eauto 6. Qed.

Lemma hoare_ret {A} (a : A) (Q : A -> S -> Prop) : hoare (Q a) (ret a) Q.
Proof. intros c t s Hs. unfold ret. eauto. Qed.

Lemma hoare_bind {A B} P (m : M S A) R (k : A -> M S B) Q :
  hoare P m R -> (forall a, hoare (R a) (k a) Q) -> hoare P (bind m k) Q.
Proof.
  intros Hm Hk c t s Hs. destruct (Hm c t s Hs) as (a&t'&s'&E&HR).
  destruct (Hk a c t' s' HR) as (b&t''&s''&E'&HQ).
  exists b, t'', s''. unfold bind. by rewrite E.
Qed.

Lemma hoare_gets {A} (f : S -> A) (Q : A -> S -> Prop) : hoare (fun s => Q (f s) s) (gets f) Q.
Proof. intros c t s Hs. unfold gets. eauto. Qed.

Lemma hoare_modify (f : S -> S) (Q : unit -> S -> Prop) :
  hoare (fun s => Q tt (f s)) (modify f) Q.
Proof. intros c t s Hs. unfold modify. eauto. Qed.

Lemma hoare_assert b (Q : unit -> S -> Prop) :
  hoare (fun s => b = true /\ Q tt s) (assert b) Q.
Proof. intros c t s [-> Hs]. unfold assert. eauto. Qed.

Lemma hoare_lift {A} (r : res A) (Q : A -> S -> Prop) :
  hoare (fun s => exists a, r = Ok a /\ Q a s) (lift r) Q.
Proof. intros c t s (a & -> & Hs). unfold lift. eauto. Qed.

Lemma hoare_clock ci (Q : Z -> S -> Prop) :
  hoare (fun s => forall z, Q z s) (read_clock ci) Q.
Proof. intros c t s Hs. unfold read_clock. eauto. Qed.

Lemma hoare_pre {A} P (m : M S A) Q :
  (forall s, P s -> hoare (fun s' => s' = s) m Q) -> hoare P m Q.
Proof. intros H c t s Hs. by apply (H s Hs c t s). Qed.

(** Loops: the invariant [I] is indexed by the elements already done. *)
Lemma hoare_for_each {X} (I : list X -> S -> Prop) (body : X -> M S unit) l done :
  (forall pre x, (exists post, l = pre ++ x :: post) ->
     hoare (I (done ++ pre)) (body x) (fun _ => I (done ++ pre ++ [x]))) ->
  hoare (I done) (for_each l body) (fun _ => I (done ++ l)).
Proof.
  revert done. induction l as [|x l IH]; intros done Hb; simpl.
  - intros c t s Hs. exists tt, t, s. by rewrite app_nil_r.
  - eapply hoare_bind.
    + pose proof (Hb [] x ltac:(by exists l)) as Hx. rewrite app_nil_r in Hx. exact Hx.
    + intros []. simpl. replace (done ++ x :: l) with ((done ++ [x]) ++ l) by (by rewrite <- app_assoc).
      apply IH. intros pre y (post & ->).
      pose proof (Hb (x :: pre) y ltac:(by exists post)) as Hy.
      rewrite <- !app_assoc. exact Hy.
Qed.
(** A loop over [0 .. n-1]: the invariant is indexed by the iterations done. *)
Lemma hoare_range_from (I : Z -> S -> Prop) (body : Z -> M S unit) i n :
  0 <= n -> (forall j, i <= j < i + n -> hoare (I j) (body j) (fun _ => I (j + 1))) ->
  hoare (I i) (for_each (seqZ i n) body) (fun _ => I (i + n)).
Proof.
  intros Hn. replace n with (Z.of_nat (Z.to_nat n)) by lia. set (m := Z.to_nat n). clearbody m. clear Hn n.
  revert i. induction m as [|m IH]; intros i Hb.
  - cbn. rewrite Z.add_0_r. intros c t s Hs. by exists tt, t, s.
  - rewrite seqZ_cons by lia. cbn [for_each]. eapply hoare_bind; [apply Hb; lia|]. intros [].
    replace (Z.pred (Z.of_nat (Datatypes.S m))) with (Z.of_nat m) by lia.
    replace (i + Z.of_nat (Datatypes.S m)) with (Z.succ i + Z.of_nat m) by lia.
    replace (i + 1) with (Z.succ i) by lia. apply IH. intros j Hj. apply Hb. lia.
Qed.

Lemma hoare_range (I : Z -> S -> Prop) (body : Z -> M S unit) n :
  0 <= n -> (forall j, 0 <= j < n -> hoare (I j) (body j) (fun _ => I (j + 1))) ->
  hoare (I 0) (for_each (zseq n) body) (fun _ => I n).
Proof. intros Hn Hb. apply (hoare_range_from I body 0 n Hn). intros j Hj. apply Hb. lia. Qed.

Lemma for_each_app {X} (l l' : list X) (body : X -> M S unit) c t s :
  for_each (l ++ l') body c t s = bind (for_each l body) (fun _ => for_each l' body) c t s.
Proof.
  revert t s. induction l as [|x l IH]; intros t s; [done|]. cbn [app for_each].
  rewrite run_bind_assoc. unfold bind at 1 2. destruct (body x c t s) as [[[[] t'] s']|]; [apply IH|done].
Qed.

Lemma for_each_bind {X Y} (l : list X) (h : X -> list Y) (body : Y -> M S unit) c t s :
  for_each (l ≫= h) body c t s = for_each l (fun x => for_each (h x) body) c t s.
Proof.
  revert t s. induction l as [|x l IH]; intros t s; [done|]. cbn [mbind list_bind for_each].
  rewrite for_each_app. unfold bind. destruct (for_each (h x) body c t s) as [[[[] t'] s']|]; [apply IH|done].
Qed.

Lemma hoare_for_bind {X Y} P (l : list X) (h : X -> list Y) (body : Y -> M S unit) Q :
  hoare P (for_each l (fun x => for_each (h x) body)) Q -> hoare P (for_each (l ≫= h) body) Q.
Proof. intros Hh c t s Hs. rewrite for_each_bind. by apply Hh. Qed.
End HoareRules.
