(* ===== verification/PQueue.v ===== *)
(** * pqueue/pqueue.c: the binary-heap priority queue of victim lines

    The queue stores [void *] handles; the priority and the heap position live
    in the pointed-to objects and are reached through callbacks.  A handle is an
    index ([ptr]) into a store [S] shared with the owner of the objects, and the
    callbacks are the class [PQAccess]: the heap and its client alias the same
    objects.  Invariants and specifications of every operation follow. *)

From Stdlib Require Import ZArith Lia.
From stdpp Require Import base list numbers.
From S2P Require Import Prelude.

Abbreviation ptr := nat.

(** The callbacks [getpri], [setpri], [getpos], [setpos], [cmppri]. *)
Class PQAccess (S : Type) : Type := {
  getpri : S -> ptr -> Z;
  setpri : S -> ptr -> Z -> S;
  getpos : S -> ptr -> nat;
  setpos : S -> ptr -> nat -> S;
  cmppri : Z -> Z -> bool;     (* cmppri next curr *)
}.

(** [pqueue_t]; [d] is the array allocated by [pqueue_init], [n + 1] slots. *)
Record pqueue : Type := mk_pqueue {
  size : nat;
  avail : nat;
  step : nat;
  d : list ptr;
}.

Definition left (i : nat) : nat := (2 * i)%nat.
Definition right (i : nat) : nat := (2 * i + 1)%nat.
Definition parent (i : nat) : nat := (i / 2)%nat.

Section Ops.
Context {S : Type} `{PQAccess S}.

(** The fresh array holds whatever [kmalloc] returned: [junk]. *)
Definition pqueue_init (junk : nat -> ptr) (n : nat) : pqueue :=
  mk_pqueue 1 (n + 1) (n + 1) (junk <$> seq 0 (n + 1)).

Definition pqueue_size (q : pqueue) : nat := (size q - 1)%nat.

(** The [for] loop of [bubble_up]: the hole moves from [i] to its parent. *)
Fixpoint bubble_up_loop (fuel : nat) (a : list ptr) (s : S) (i : nat) (moving_pri : Z)
    : res (list ptr * S * nat) :=
  match fuel with
  | O => Err OutOfFuel
  | Datatypes.S fuel =>
      if (1 <? i)%nat then
        let! p := lget a (parent i) in
        if cmppri (getpri s p) moving_pri then
          let! a' := lset a i p in
          bubble_up_loop fuel a' (setpos s p i) (parent i) moving_pri
        else Ok (a, s, i)
      else Ok (a, s, i)
  end.

Definition bubble_up (q : pqueue) (s : S) (i : nat) : res (pqueue * S) :=
  let! moving_node := lget (d q) i in
  let moving_pri := getpri s moving_node in
  let! (a, s', i') := bubble_up_loop (Datatypes.S i) (d q) s i moving_pri in
  let! a' := lset a i' moving_node in
  Ok (mk_pqueue (size q) (avail q) (step q) a', setpos s' moving_node i').

Definition maxchild (sz : nat) (a : list ptr) (s : S) (i : nat) : res nat :=
  let child_node := left i in
  if (sz <=? child_node)%nat then Ok O
  else
    if (child_node + 1 <? sz)%nat then
      let! l := lget a child_node in
      let! r := lget a (child_node + 1) in
      if cmppri (getpri s l) (getpri s r) then Ok (child_node + 1)%nat else Ok child_node
    else Ok child_node.

Fixpoint percolate_down_loop (fuel : nat) (sz : nat) (a : list ptr) (s : S) (i : nat)
    (moving_pri : Z) : res (list ptr * S * nat) :=
  match fuel with
  | O => Err OutOfFuel
  | Datatypes.S fuel =>
      let! child_node := maxchild sz a s i in
      if (child_node =? 0)%nat then Ok (a, s, i)
      else
        let! c := lget a child_node in
        if cmppri moving_pri (getpri s c) then
          let! a' := lset a i c in
          percolate_down_loop fuel sz a' (setpos s c i) child_node moving_pri
        else Ok (a, s, i)
  end.

(** The hole index at least doubles at every turn, so [size q] turns are enough. *)
Definition percolate_down (q : pqueue) (s : S) (i : nat) : res (pqueue * S) :=
  let! moving_node := lget (d q) i in
  let moving_pri := getpri s moving_node in
  let! (a, s', i') := percolate_down_loop (Datatypes.S (size q)) (size q) (d q) s i moving_pri in
  let! a' := lset a i' moving_node in
  Ok (mk_pqueue (size q) (avail q) (step q) a', setpos s' moving_node i').

(** A full queue is reported and then written past its end. *)
Definition pqueue_insert (q : pqueue) (s : S) (x : ptr) : res (pqueue * S) :=
  let i := size q in
  let! a := lset (d q) i x in
  bubble_up (mk_pqueue (size q + 1) (avail q) (step q) a) s i.

Definition pqueue_change_priority (q : pqueue) (s : S) (new_pri : Z) (x : ptr)
    : res (pqueue * S) :=
  let old_pri := getpri s x in
  let s' := setpri s x new_pri in
  let posn := getpos s' x in
  if cmppri old_pri new_pri then bubble_up q s' posn else percolate_down q s' posn.

Definition pqueue_remove (q : pqueue) (s : S) (x : ptr) : res (pqueue * S) :=
  let posn := getpos s x in
  let! l := lget (d q) (size q - 1) in
  let! a := lset (d q) posn l in
  let q' := mk_pqueue (size q - 1) (avail q) (step q) a in
  if cmppri (getpri s x) (getpri s l) then bubble_up q' s posn
  else percolate_down q' s posn.

Definition pqueue_pop (q : pqueue) (s : S) : res (option ptr * pqueue * S) :=
  if (size q =? 1)%nat then Ok (None, q, s)
  else
    let! head := lget (d q) 1 in
    let! l := lget (d q) (size q - 1) in
    let! a := lset (d q) 1 l in
    let! (q', s') := percolate_down (mk_pqueue (size q - 1) (avail q) (step q) a) s 1 in
    Ok (Some head, q', s').

Definition pqueue_peek (q : pqueue) : res (option ptr) :=
  if (size q =? 1)%nat then Ok None
  else let! x := lget (d q) 1 in Ok (Some x).

(** Fuel [size q - pos] bounds the depth: the index at least doubles. *)
Fixpoint subtree_is_valid (fuel : nat) (q : pqueue) (s : S) (pos : nat) : res bool :=
  match fuel with
  | O => Err OutOfFuel
  | Datatypes.S fuel =>
      let check (child : nat) : res bool :=
        if (child <? size q)%nat then
          let! p := lget (d q) pos in
          let! c := lget (d q) child in
          if cmppri (getpri s p) (getpri s c) then Ok false
          else subtree_is_valid fuel q s child
        else Ok true in
      let! bl := check (left pos) in
      if bl then check (right pos) else Ok false
  end.

Definition pqueue_is_valid (q : pqueue) (s : S) : res bool :=
  subtree_is_valid (Datatypes.S (size q)) q s 1.
End Ops.

(** ** Laws of the callbacks

    [pvalid s x]: the handle designates an object of the store. *)
Class PQLaws (S : Type) `{PQAccess S} : Type := {
  pvalid : S -> ptr -> Prop;
  pri_ok : Z -> Prop;    (* priorities the objects can hold *)
  pvalid_setpos s x i y : pvalid (setpos s x i) y <-> pvalid s y;
  pvalid_setpri s x v y : pvalid (setpri s x v) y <-> pvalid s y;
  getpos_setpos s x i y :
    pvalid s x -> getpos (setpos s x i) y = if decide (x = y) then i else getpos s y;
  getpri_setpos s x i y : getpri (setpos s x i) y = getpri s y;
  getpos_setpri s x v y : getpos (setpri s x v) y = getpos s y;
  getpri_setpri s x v y :
    pvalid s x -> pri_ok v -> getpri (setpri s x v) y = if decide (x = y) then v else getpri s y;
  (** [cmppri] is a strict weak order: its complement is a total preorder. *)
  cmppri_asym a b : cmppri a b = true -> cmppri b a = false;
  cmppri_ntrans a b c : cmppri a b = false -> cmppri b c = false -> cmppri a c = false;
}.

(** [x] sits in the queue. *)
Definition pq_elem (q : pqueue) (x : ptr) : Prop :=
  exists i, (1 <= i < size q)%nat /\ d q !! i = Some x.

(** The elements, in array order. *)
Definition pq_elems (q : pqueue) : list ptr := drop 1 (take (size q) (d q)).

(** Stores that differ in the recorded positions of handles of [E] only. *)
Inductive pos_steps {S} `{PQAccess S} (E : ptr -> Prop) : S -> S -> Prop :=
| pos_refl s : pos_steps E s s
| pos_step s s' x i : E x -> pos_steps E s s' -> pos_steps E s (setpos s' x i).

(** Well-formed queue: it fits its array, every element records its own index,
    and no element should precede its parent. *)
Record pq_wf {S} `{PQLaws S} (q : pqueue) (s : S) : Prop := {
  pq_size : (1 <= size q <= avail q)%nat;
  pq_len : length (d q) = avail q;
  pq_pos i x : (1 <= i < size q)%nat -> d q !! i = Some x -> pvalid s x /\ getpos s x = i;
  pq_heap i p x : (2 <= i < size q)%nat -> d q !! parent i = Some p -> d q !! i = Some x ->
    cmppri (getpri s p) (getpri s x) = false;
}.

Lemma parent_bounds j : (2 <= j)%nat -> (1 <= parent j < j)%nat.
Proof. unfold parent. intros. pose proof (Nat.div_mod_eq j 2). pose proof (Nat.mod_upper_bound j 2). lia. Qed.

Lemma parent_child i j : parent j = i -> j = left i \/ j = right i.
Proof. unfold parent, left, right. intros <-. pose proof (Nat.div_mod_eq j 2). pose proof (Nat.mod_upper_bound j 2). lia. Qed.

Lemma parent_left i : parent (left i) = i.
Proof. unfold parent, left. symmetry. apply Nat.div_unique with 0%nat; lia. Qed.

Lemma parent_right i : parent (right i) = i.
Proof.
  unfold parent, right. symmetry. apply Nat.div_unique with 1%nat; lia.
Qed.

Section PosSteps.
Context {S : Type} `{PQLaws S}.

Lemma pos_steps_trans (E : ptr -> Prop) s1 s2 s3 :
  pos_steps E s1 s2 -> pos_steps E s2 s3 -> pos_steps E s1 s3.
Proof. intros H12 H23. induction H23; eauto using pos_steps. Qed.

Lemma pos_steps_weaken (E E' : ptr -> Prop) s1 s2 :
  (forall x, E x -> E' x) -> pos_steps E s1 s2 -> pos_steps E' s1 s2.
Proof. intros HE Hs. induction Hs; eauto using pos_steps. Qed.

Lemma pos_steps_pri E s s' x : pos_steps E s s' -> getpri s' x = getpri s x.
Proof. induction 1 as [|s s' y i _ _ IH]; [done|]. by rewrite getpri_setpos. Qed.

Lemma pos_steps_valid E s s' x : pos_steps E s s' -> pvalid s' x <-> pvalid s x.
Proof. induction 1 as [|s s' y i _ _ IH]; [done|]. by rewrite pvalid_setpos. Qed.

Lemma pos_steps_pos E s s' x :
  pos_steps E s s' -> (forall y, E y -> pvalid s y) -> ~ E x -> getpos s' x = getpos s x.
Proof.
  intros Hs HE Hx. induction Hs as [|s s' y i Hy Hs IH]; [done|].
  rewrite getpos_setpos by (rewrite pos_steps_valid by done; auto).
  rewrite decide_False by (by intros ->). auto.
Qed.
End PosSteps.

(** ** The two sifting loops

    The array with a hole at [i] stands for the function [f] that reads the
    moving element there.  [sift_inv] is what both loops keep. *)
Section Sift.
Context {S : Type} `{PQLaws S}.
Implicit Types (f : nat -> ptr) (s : S) (a : list ptr).

Definition le_pri s (x y : ptr) : Prop := cmppri (getpri s x) (getpri s y) = false.

Definition view a (i : nat) (m : ptr) : nat -> ptr := fun j => if decide (j = i) then m else a !!! j.

Record sift_inv (sz : nat) f s (i : nat) (m : ptr) : Prop := {
  si_hole : f i = m;
  si_range : (1 <= i < sz)%nat;
  si_valid j : (1 <= j < sz)%nat -> pvalid s (f j);
  si_pos j : (1 <= j < sz)%nat -> j <> i -> getpos s (f j) = j;
  si_moving j : (1 <= j < sz)%nat -> j <> i -> f j <> m;
  (* order between every pair not involving the hole *)
  si_heap j : (2 <= j < sz)%nat -> j <> i -> parent j <> i -> le_pri s (f (parent j)) (f j);
  (* the hole's parent precedes the hole's children *)
  si_grand j : (2 <= j < sz)%nat -> parent j = i -> (2 <= i)%nat -> le_pri s (f (parent i)) (f j);
}.

(** The moving element precedes the hole's children (bubbling up) or follows
    the hole's parent (percolating down). *)
Definition above_children sz f s i m : Prop :=
  forall j, (2 <= j < sz)%nat -> parent j = i -> le_pri s m (f j).
Definition below_parent f s i m : Prop := (2 <= i)%nat -> le_pri s (f (parent i)) m.

Definition full_heap sz f s : Prop := forall j, (2 <= j < sz)%nat -> le_pri s (f (parent j)) (f j).

Definition same_elems sz f f' : Prop :=
  forall x, (exists j, (1 <= j < sz)%nat /\ f j = x) <-> (exists j, (1 <= j < sz)%nat /\ f' j = x).

(** One turn: the element at [k] moves into the hole at [i]. *)
Definition move f i k m : nat -> ptr :=
  fun j => if decide (j = k) then m else if decide (j = i) then f k else f j.

Lemma le_pri_refl s x : le_pri s x x.
Proof.
  unfold le_pri. destruct (cmppri (getpri s x) (getpri s x)) eqn:E; [|done].
  rewrite <- E. by apply cmppri_asym.
Qed.

Lemma le_pri_trans s x y z : le_pri s x y -> le_pri s y z -> le_pri s x z.
Proof. apply cmppri_ntrans. Qed.

Lemma le_pri_setpos s p i x y : le_pri (setpos s p i) x y <-> le_pri s x y.
Proof. unfold le_pri. by rewrite !getpri_setpos. Qed.

Lemma lt_pri_le s x y : cmppri (getpri s x) (getpri s y) = true -> le_pri s y x.
Proof. apply cmppri_asym. Qed.

Lemma move_same sz f i k m :
  f i = m -> (1 <= i < sz)%nat -> (1 <= k < sz)%nat -> i <> k -> same_elems sz f (move f i k m).
Proof.
  intros Hi ?? Hik x. unfold move. split; intros (j & Hj & Hx).
  - destruct (decide (j = i)) as [->|?].
    { exists k. rewrite decide_True by done. split; [done|congruence]. }
    destruct (decide (j = k)) as [->|?].
    { exists i. rewrite decide_False, decide_True by done. eauto. }
    exists j. rewrite !decide_False by done. eauto.
  - destruct (decide (j = k)); [exists i; split; [done|congruence]|].
    destruct (decide (j = i)); eauto.
Qed.

Lemma sift_finish sz f s i m :
  sift_inv sz f s i m -> above_children sz f s i m -> below_parent f s i m -> full_heap sz f s.
Proof.
  intros Hi Ha Hb j Hj. destruct (decide (j = i)) as [->|?].
  - rewrite (si_hole _ _ _ _ _ Hi). apply Hb. lia.
  - destruct (decide (parent j = i)) as [Hp|?].
    + rewrite Hp, (si_hole _ _ _ _ _ Hi). by apply Ha.
    + by apply (si_heap _ _ _ _ _ Hi).
Qed.

Ltac solve_sift Hi :=
  try (apply (si_valid _ _ _ _ _ Hi); lia); try lia; try done.

Lemma move_hole_valid sz f s i k m j :
  sift_inv sz f s i m -> (1 <= k < sz)%nat -> (1 <= j < sz)%nat -> pvalid s (move f i k m j).
Proof.
  intros Hi ??. unfold move. pose proof (si_range _ _ _ _ _ Hi).
  case_decide; [rewrite <- (si_hole _ _ _ _ _ Hi)|case_decide];
    apply (si_valid _ _ _ _ _ Hi); lia.
Qed.

Lemma move_pos sz f s i k m j :
  sift_inv sz f s i m -> (1 <= k < sz)%nat -> k <> i -> (1 <= j < sz)%nat -> j <> k ->
  getpos (setpos s (f k) i) (move f i k m j) = j /\ move f i k m j <> m.
Proof.
  intros Hi ??? Hjk. pose proof (si_range _ _ _ _ _ Hi).
  rewrite getpos_setpos by solve_sift Hi.
  unfold move. rewrite (decide_False (P := j = k)) by done.
  destruct (decide (j = i)) as [->|?].
  - rewrite decide_True by done. split; [done|]. by apply (si_moving _ _ _ _ _ Hi).
  - split; [|by apply (si_moving _ _ _ _ _ Hi)].
    rewrite decide_False; [by apply (si_pos _ _ _ _ _ Hi)|].
    intros Heq. apply Hjk.
    rewrite <- (si_pos _ _ _ _ _ Hi j), <- (si_pos _ _ _ _ _ Hi k) by solve_sift Hi.
    by rewrite Heq.
Qed.

Lemma up_turn sz f s i m :
  let k := parent i in
  sift_inv sz f s i m -> above_children sz f s i m -> (2 <= i)%nat ->
  cmppri (getpri s (f k)) (getpri s m) = true ->
  sift_inv sz (move f i k m) (setpos s (f k) i) k m /\
  above_children sz (move f i k m) (setpos s (f k) i) k m.
Proof.
  intros k Hi Ha Hi2 Hlt. pose proof (parent_bounds i Hi2) as Hk. fold k in Hk.
  pose proof (si_range _ _ _ _ _ Hi) as Hr. pose proof (si_hole _ _ _ _ _ Hi) as Hm.
  assert (le_pri s m (f k)) as Hmk by (by apply lt_pri_le).
  assert (forall j, (2 <= j < sz)%nat -> parent j = k -> j <> i -> le_pri s (f k) (f j)) as Hsib.
  { intros j Hj Hp Hji. rewrite <- Hp. apply (si_heap _ _ _ _ _ Hi); [done|done|lia]. }
  split; [split|].
  - unfold move. by rewrite decide_True.
  - lia.
  - intros j Hj. rewrite pvalid_setpos. eapply move_hole_valid; [done|lia|done].
  - intros j Hj Hjk. eapply (proj1 (move_pos _ _ _ _ k _ _ Hi ltac:(lia) ltac:(lia) Hj Hjk)).
  - intros j Hj Hjk. eapply (proj2 (move_pos _ _ _ _ k _ _ Hi ltac:(lia) ltac:(lia) Hj Hjk)).
  - intros j Hj Hjk Hpk. rewrite le_pri_setpos. unfold move.
    rewrite (decide_False (P := j = k)), (decide_False (P := parent j = k)) by done.
    destruct (decide (j = i)) as [->|?]; [by fold k in Hpk|].
    destruct (decide (parent j = i)) as [Hp|?].
    + apply (si_grand _ _ _ _ _ Hi j); [done|done|lia].
    + by apply (si_heap _ _ _ _ _ Hi).
  - intros j Hj Hp Hk2. rewrite le_pri_setpos. pose proof (parent_bounds k Hk2).
    unfold move. rewrite (decide_False (P := parent k = k)), (decide_False (P := parent k = i)) by lia.
    rewrite (decide_False (P := j = k)) by (pose proof (parent_bounds j); lia).
    assert (le_pri s (f (parent k)) (f k)) by (apply (si_heap _ _ _ _ _ Hi); lia).
    case_decide; [done|]. eapply le_pri_trans; [done|]. by apply Hsib.
  - intros j Hj Hp. rewrite le_pri_setpos. unfold move.
    rewrite (decide_False (P := j = k)) by (pose proof (parent_bounds j); lia).
    case_decide; [done|]. eapply le_pri_trans; [done|]. by apply Hsib.
Qed.

Lemma down_turn sz f s i k m :
  sift_inv sz f s i m -> below_parent f s i m -> (2 <= k < sz)%nat -> parent k = i ->
  (forall j, (2 <= j < sz)%nat -> parent j = i -> le_pri s (f k) (f j)) ->
  cmppri (getpri s m) (getpri s (f k)) = true ->
  sift_inv sz (move f i k m) (setpos s (f k) i) k m /\
  below_parent (move f i k m) (setpos s (f k) i) k m.
Proof.
  intros Hi Hb Hk Hpk Hmin Hlt. pose proof (parent_bounds k ltac:(lia)) as Hik.
  pose proof (si_range _ _ _ _ _ Hi) as Hr. rewrite Hpk in Hik.
  assert (le_pri s (f k) m) as Hkm by (by apply lt_pri_le).
  split; [split|].
  - unfold move. by rewrite decide_True.
  - lia.
  - intros j Hj. rewrite pvalid_setpos. eapply move_hole_valid; [done|lia|done].
  - intros j Hj Hjk. eapply (proj1 (move_pos _ _ _ _ k _ _ Hi ltac:(lia) ltac:(lia) Hj Hjk)).
  - intros j Hj Hjk. eapply (proj2 (move_pos _ _ _ _ k _ _ Hi ltac:(lia) ltac:(lia) Hj Hjk)).
  - intros j Hj Hjk Hpjk. rewrite le_pri_setpos. unfold move.
    rewrite (decide_False (P := j = k)), (decide_False (P := parent j = k)) by done.
    destruct (decide (parent j = i)) as [Hp|?].
    + rewrite (decide_False (P := j = i)) by (pose proof (parent_bounds j); lia). by apply Hmin.
    + destruct (decide (j = i)) as [->|?].
      * apply (si_grand _ _ _ _ _ Hi k); [lia|done|lia].
      * by apply (si_heap _ _ _ _ _ Hi).
  - intros j Hj Hp _. rewrite le_pri_setpos, Hpk. unfold move.
    pose proof (parent_bounds j ltac:(lia)).
    rewrite (decide_False (P := i = k)), (decide_True (P := i = i)) by lia.
    rewrite (decide_False (P := j = k)), (decide_False (P := j = i)) by lia.
    rewrite <- Hp at 1. apply (si_heap _ _ _ _ _ Hi); lia.
  - intros _. rewrite le_pri_setpos, Hpk. unfold move.
    by rewrite (decide_False (P := i = k)), (decide_True (P := i = i)) by lia.
Qed.
End Sift.

Section Loops.
Context {S : Type} `{PQLaws S}.
Implicit Types (f : nat -> ptr) (s : S) (a : list ptr).

(** The array agrees with [f] on the heap, except at the hole. *)
Definition repr (sz : nat) a (i : nat) f : Prop :=
  forall j, (1 <= j < sz)%nat -> j <> i -> a !! j = Some (f j).

Definition elems_of (sz : nat) f (x : ptr) : Prop := exists j, (1 <= j < sz)%nat /\ f j = x.

Lemma repr_move sz a i f k m :
  repr sz a i f -> (i < length a)%nat -> repr sz (<[i := f k]> a) k (move f i k m).
Proof.
  intros Hr Hi j Hj Hjk. unfold move. rewrite (decide_False (P := j = k)) by done.
  case_decide as Hji; [subst j; by apply list_lookup_insert_eq|].
  rewrite list_lookup_insert_ne by done. by apply Hr.
Qed.

(** What both loops deliver. *)
Definition sifted (sz : nat) a f s m (out : list ptr * S * nat) : Prop :=
  let '(a', s', i') := out in
  exists f', sift_inv sz f' s' i' m /\ full_heap sz f' s' /\ repr sz a' i' f' /\
    length a' = length a /\ same_elems sz f f' /\ pos_steps (elems_of sz f) s s'.

Lemma sifted_here sz a f s i m :
  sift_inv sz f s i m -> above_children sz f s i m -> below_parent f s i m -> repr sz a i f ->
  sifted sz a f s m (a, s, i).
Proof.
  intros Hi Ha Hb Hr. exists f. split; [done|]. split; [by eapply sift_finish|].
  split; [done|]. split; [done|]. split; [done|constructor].
Qed.

Lemma sifted_step sz a f s i k m out :
  sift_inv sz f s i m -> (1 <= k < sz)%nat -> i <> k ->
  sifted sz (<[i := f k]> a) (move f i k m) (setpos s (f k) i) m out -> sifted sz a f s m out.
Proof.
  intros Hi Hk Hik. destruct out as [[a' s'] i'].
  pose proof (move_same sz f i k m (si_hole _ _ _ _ _ Hi) (si_range _ _ _ _ _ Hi) Hk Hik) as Hsame.
  intros (f' & ? & ? & ? & Hlen & Hs & Hst). exists f'. repeat (split; [done|]).
  split; [by rewrite Hlen, length_insert|]. split; [intros x; by rewrite (Hsame x)|].
  eapply pos_steps_trans with (setpos s (f k) i).
  - constructor; [by exists k|constructor].
  - eapply pos_steps_weaken; [|done]. intros x. apply Hsame.
Qed.

Lemma bubble_up_loop_spec fuel sz a f s i m :
  (i <= fuel)%nat -> (sz <= length a)%nat -> sift_inv sz f s i m -> above_children sz f s i m ->
  repr sz a i f ->
  exists out, bubble_up_loop (Datatypes.S fuel) a s i (getpri s m) = Ok out /\ sifted sz a f s m out.
Proof.
  revert a f s i. induction fuel as [|fuel IH]; intros a f s i Hf Hsz Hi Ha Hr;
    pose proof (si_range _ _ _ _ _ Hi) as Hrange; [lia|].
  remember (Datatypes.S fuel) as n. simpl. subst n.
  destruct (Nat.ltb_spec 1 i) as [Hi2|Hi2].
  - pose proof (parent_bounds i ltac:(lia)) as Hp.
    assert (a !! parent i = Some (f (parent i))) as Hpa by (apply Hr; lia).
    unfold lget. rewrite Hpa. simpl of_opt. simpl rbind.
    destruct (cmppri (getpri s (f (parent i))) (getpri s m)) eqn:Hc.
    + rewrite (proj2 (lset_ok a i _ _)) by (split; [lia|reflexivity]). simpl rbind.
      destruct (up_turn sz f s i m Hi Ha ltac:(lia) Hc) as [Hi' Ha'].
      destruct (IH (<[i := f (parent i)]> a) _ _ (parent i) ltac:(lia) ltac:(by rewrite length_insert) Hi' Ha')
        as (out & Hout & Hsift).
      { apply repr_move; [done|lia]. }
      exists out. split; [by rewrite getpri_setpos in Hout|].
      eapply (sifted_step _ _ _ _ _ (parent i)); [done|lia|lia|done].
    + exists (a, s, i). split; [done|]. apply sifted_here; [done..| |done].
      intros _. exact Hc.
  - exists (a, s, i). split; [done|]. apply sifted_here; [done..| |done].
    intros ?. lia.
Qed.

Lemma maxchild_spec sz a f s i m :
  sift_inv sz f s i m -> repr sz a i f ->
  exists k, maxchild sz a s i = Ok k /\
    ((k = 0%nat /\ forall j, (2 <= j < sz)%nat -> parent j <> i) \/
     ((2 <= k < sz)%nat /\ parent k = i /\
      forall j, (2 <= j < sz)%nat -> parent j = i -> le_pri s (f k) (f j))).
Proof.
  intros Hi Hr. pose proof (si_range _ _ _ _ _ Hi) as Hrange. unfold maxchild.
  pose proof (parent_left i) as Hpl. pose proof (parent_right i) as Hpr.
  assert (right i = left i + 1)%nat as Hlr by (unfold left, right; lia).
  assert (i < left i)%nat as Hil by (unfold left; lia).
  destruct (Nat.leb_spec sz (left i)) as [Hno|Hyes].
  { exists 0%nat. split; [done|]. left. split; [done|]. intros j Hj Hp.
    destruct (parent_child i j Hp); lia. }
  destruct (Nat.ltb_spec (left i + 1) sz) as [Htwo|Hone].
  - unfold lget. rewrite (Hr (left i)) by lia. rewrite (Hr (left i + 1)%nat) by lia. simpl rbind.
    rewrite <- Hlr in *.
    destruct (cmppri (getpri s (f (left i))) (getpri s (f (right i)))) eqn:Hc;
      eexists; (split; [reflexivity|]); right; (split; [lia|]); (split; [done|]); intros j Hj Hp;
      (destruct (parent_child i j Hp) as [-> | ->]); try apply le_pri_refl.
    + by apply lt_pri_le.
    + exact Hc.
  - exists (left i). split; [done|]. right. split; [lia|]. split; [done|]. intros j Hj Hp.
    destruct (parent_child i j Hp) as [-> | ->]; [apply le_pri_refl|lia].
Qed.

Lemma percolate_down_loop_spec fuel sz a f s i m :
  (sz < fuel + i)%nat -> (sz <= length a)%nat -> sift_inv sz f s i m -> below_parent f s i m ->
  repr sz a i f ->
  exists out, percolate_down_loop fuel sz a s i (getpri s m) = Ok out /\ sifted sz a f s m out.
Proof.
  revert a f s i. induction fuel as [|fuel IH]; intros a f s i Hf Hsz Hi Hb Hr;
    pose proof (si_range _ _ _ _ _ Hi) as Hrange; [lia|].
  simpl. destruct (maxchild_spec sz a f s i m Hi Hr) as (k & -> & [[-> Hno]|(Hk & Hpk & Hmin)]);
    simpl rbind.
  - exists (a, s, i). split; [done|]. apply sifted_here; [done| |done|done].
    intros j Hj Hp. by destruct (Hno j Hj).
  - pose proof (parent_bounds k ltac:(lia)) as Hki. rewrite Hpk in Hki.
    destruct (Nat.eqb_spec k 0) as [?|_]; [lia|].
    unfold lget. rewrite (Hr k) by lia. simpl of_opt. simpl rbind.
    destruct (cmppri (getpri s m) (getpri s (f k))) eqn:Hc.
    + rewrite (proj2 (lset_ok a i _ _)) by (split; [lia|reflexivity]). simpl rbind.
      destruct (down_turn sz f s i k m Hi Hb Hk Hpk Hmin Hc) as [Hi' Hb'].
      destruct (IH (<[i := f k]> a) _ _ k ltac:(lia) ltac:(by rewrite length_insert) Hi' Hb')
        as (out & Hout & Hsift).
      { apply repr_move; [done|lia]. }
      exists out. split; [by rewrite getpri_setpos in Hout|].
      eapply (sifted_step _ _ _ _ _ k); [done|lia|lia|done].
    + exists (a, s, i). split; [done|]. apply sifted_here; [done| |done|done].
      intros j Hj Hp. eapply le_pri_trans; [exact Hc|]. by apply Hmin.
Qed.
End Loops.

(** ** The operations *)
Section Specs.
Context {S : Type} `{PQLaws S}.
Implicit Types (q : pqueue) (s : S) (x y : ptr).

Definition heap_fn q : nat -> ptr := fun j => d q !!! j.

(** The facts about [q'] and [s'] that every operation's specification has. *)
Record pq_step (E : ptr -> Prop) (els : ptr -> Prop) q s q' s' : Prop := {
  ps_wf : pq_wf q' s';
  ps_avail : avail q' = avail q;
  ps_elems x : pq_elem q' x <-> els x;
  ps_store : pos_steps E s s';
}.

Lemma elems_pq_elem sz q f :
  repr sz (d q) sz f -> size q = sz -> forall x, elems_of sz f x <-> pq_elem q x.
Proof.
  intros Hr Hsz x. split; intros (j & Hj & Hx).
  - exists j. rewrite Hsz, (Hr j) by lia. split; [done|congruence].
  - exists j. rewrite Hsz in Hj. rewrite (Hr j) in Hx by lia. split; [done|congruence].
Qed.

(** Storing the moving element in the hole completes a queue. *)
Lemma sifted_close sz av st a f s m a' s' i' :
  (sz <= av)%nat -> length a = av -> sifted sz a f s m (a', s', i') ->
  lset a' i' m = Ok (<[i' := m]> a') /\
  let q' := mk_pqueue sz av st (<[i' := m]> a') in
  pq_wf q' (setpos s' m i') /\ (forall x, pq_elem q' x <-> elems_of sz f x) /\
  pos_steps (elems_of sz f) s (setpos s' m i').
Proof.
  intros Hsz Hlen (f' & Hi & Hh & Hr & Hlen' & Hs & Hst).
  pose proof (si_range _ _ _ _ _ Hi) as Hrange.
  pose proof (si_hole _ _ _ _ _ Hi) as Hm.
  assert (forall j, (1 <= j < sz)%nat -> <[i' := m]> a' !! j = Some (f' j)) as Hall.
  { intros j Hj. destruct (decide (j = i')) as [->|?].
    - rewrite Hm. apply list_lookup_insert_eq. lia.
    - rewrite list_lookup_insert_ne by done. by apply Hr. }
  assert (pvalid s' m) as Hvm.
  { rewrite <- Hm. by apply (si_valid _ _ _ _ _ Hi). }
  split; [apply lset_ok; split; [lia|done]|]. simpl. split; [split; simpl|split].
  - lia.
  - rewrite length_insert. lia.
  - intros j x Hj. rewrite (Hall j Hj). intros [= <-]. rewrite pvalid_setpos.
    split; [by apply (si_valid _ _ _ _ _ Hi)|].
    rewrite getpos_setpos by done. case_decide as Hmj.
    + destruct (decide (j = i')) as [->|?]; [done|].
      by destruct (si_moving _ _ _ _ _ Hi j).
    + apply (si_pos _ _ _ _ _ Hi); [done|]. intros ->. by rewrite Hm in Hmj.
  - intros j p x Hj. pose proof (parent_bounds j ltac:(lia)).
    rewrite (Hall (parent j)), (Hall j) by lia. intros [= <-] [= <-].
    rewrite !getpri_setpos. by apply Hh.
  - intros x. rewrite <- (elems_pq_elem sz _ f') ; [|intros j Hj _; by apply Hall|done].
    symmetry. apply Hs.
  - constructor; [|done]. apply Hs. exists i'. done.
Qed.

Lemma bubble_up_spec q s i m f :
  (size q <= avail q)%nat -> length (d q) = avail q -> d q !! i = Some m ->
  repr (size q) (d q) i f -> sift_inv (size q) f s i m -> above_children (size q) f s i m ->
  exists q' s', bubble_up q s i = Ok (q', s') /\ size q' = size q /\
    pq_step (elems_of (size q) f) (elems_of (size q) f) q s q' s'.
Proof.
  intros Hsz Hlen Hm Hr Hi Ha. unfold bubble_up.
  rewrite (proj2 (lget_ok _ _ _) Hm). cbn [rbind].
  destruct (bubble_up_loop_spec i (size q) (d q) f s i m) as ([[a' s'] i'] & -> & Hsift);
    [lia|lia|done..|]. cbn [rbind].
  destruct (sifted_close _ (avail q) (step q) _ _ _ _ _ _ _ Hsz Hlen Hsift) as (-> & Hwf & He & Hst).
  cbn [rbind]. do 2 eexists. split; [reflexivity|]. split; [done|]. by split.
Qed.

Lemma percolate_down_spec q s i m f :
  (size q <= avail q)%nat -> length (d q) = avail q -> d q !! i = Some m ->
  repr (size q) (d q) i f -> sift_inv (size q) f s i m -> below_parent f s i m ->
  exists q' s', percolate_down q s i = Ok (q', s') /\ size q' = size q /\
    pq_step (elems_of (size q) f) (elems_of (size q) f) q s q' s'.
Proof.
  intros Hsz Hlen Hm Hr Hi Ha. unfold percolate_down.
  rewrite (proj2 (lget_ok _ _ _) Hm). cbn [rbind].
  pose proof (si_range _ _ _ _ _ Hi).
  destruct (percolate_down_loop_spec (Datatypes.S (size q)) (size q) (d q) f s i m)
    as ([[a' s'] i'] & -> & Hsift); [lia|lia|done..|]. cbn [rbind].
  destruct (sifted_close _ (avail q) (step q) _ _ _ _ _ _ _ Hsz Hlen Hsift) as (-> & Hwf & He & Hst).
  cbn [rbind]. do 2 eexists. split; [reflexivity|]. split; [done|]. by split.
Qed.

(** A well-formed queue read through [heap_fn]. *)
Lemma wf_fn q s j : pq_wf q s -> (1 <= j < size q)%nat -> d q !! j = Some (heap_fn q j).
Proof.
  intros Hwf Hj. pose proof (pq_size _ _ Hwf). pose proof (pq_len _ _ Hwf).
  destruct (d q !! j) as [x|] eqn:Hx; [|apply lookup_ge_None in Hx; lia].
  unfold heap_fn. by rewrite (list_lookup_total_correct _ _ _ Hx).
Qed.

Lemma wf_heap q s : pq_wf q s -> full_heap (size q) (heap_fn q) s.
Proof.
  intros Hwf j Hj. pose proof (parent_bounds j ltac:(lia)).
  by apply (pq_heap _ _ Hwf j); [done|eapply wf_fn; [done|lia]..].
Qed.

Lemma wf_pos q s j :
  pq_wf q s -> (1 <= j < size q)%nat -> pvalid s (heap_fn q j) /\ getpos s (heap_fn q j) = j.
Proof. intros Hwf Hj. apply (pq_pos _ _ Hwf); [done|by eapply wf_fn]. Qed.

Lemma wf_elem q s x : pq_wf q s ->
  pq_elem q x <-> (1 <= getpos s x < size q)%nat /\ heap_fn q (getpos s x) = x.
Proof.
  intros Hwf. split.
  - intros (i & Hi & Hx). destruct (pq_pos _ _ Hwf i x Hi Hx) as [_ ->].
    split; [done|]. rewrite (wf_fn _ _ _ Hwf Hi) in Hx. congruence.
  - intros [Hi Hx]. exists (getpos s x). split; [done|].
    rewrite (wf_fn _ _ _ Hwf Hi). congruence.
Qed.

Lemma wf_elem_valid q s x : pq_wf q s -> pq_elem q x -> pvalid s x.
Proof. intros Hwf (i & Hi & Hx). by destruct (pq_pos _ _ Hwf i x Hi Hx). Qed.

(** Replacing the element at [i] leaves a queue with a hole there. *)
Lemma hole_inv q s s2 i m sz :
  pq_wf q s -> (sz <= size q)%nat -> (1 <= i < sz)%nat -> pvalid s2 m ->
  (forall x, pvalid s2 x <-> pvalid s x) -> (forall x, getpos s2 x = getpos s x) ->
  (forall j, (1 <= j < sz)%nat -> j <> i -> heap_fn q j <> m /\
     getpri s2 (heap_fn q j) = getpri s (heap_fn q j)) ->
  let f := fun j => if decide (j = i) then m else heap_fn q j in
  sift_inv sz f s2 i m.
Proof.
  intros Hwf Hsz Hi Hm Hval Hpos Hpri f. pose proof (wf_heap q s Hwf) as Hh.
  assert (forall j k, (1 <= j < sz)%nat -> (1 <= k < sz)%nat -> j <> i -> k <> i ->
    le_pri s (heap_fn q j) (heap_fn q k) -> le_pri s2 (heap_fn q j) (heap_fn q k)) as Hle.
  { unfold le_pri. intros j k Hj Hk Hji Hki. by rewrite (proj2 (Hpri j Hj Hji)), (proj2 (Hpri k Hk Hki)). }
  split; unfold f.
  - by rewrite decide_True.
  - done.
  - intros j Hj. case_decide; [done|]. rewrite Hval. apply (wf_pos q s j Hwf). lia.
  - intros j Hj ?. rewrite decide_False by done. rewrite Hpos. apply (wf_pos q s j Hwf). lia.
  - intros j Hj ?. rewrite decide_False by done. by apply Hpri.
  - intros j Hj ??. pose proof (parent_bounds j ltac:(lia)).
    rewrite !decide_False by done. apply Hle; [lia..|]. apply Hh. lia.
  - intros j Hj Hp Hi2. pose proof (parent_bounds i ltac:(lia)). pose proof (parent_bounds j ltac:(lia)).
    rewrite !decide_False by lia. apply Hle; [lia..|].
    eapply le_pri_trans; [apply Hh; lia|]. rewrite <- Hp at 1. apply Hh. lia.
Qed.
End Specs.

Section OpSpecs.
Context {S : Type} `{PQLaws S}.
Implicit Types (q : pqueue) (s : S) (x y : ptr).

Lemma insert_spec q s x :
  pq_wf q s -> (size q < avail q)%nat -> pvalid s x -> ~ pq_elem q x ->
  exists q' s', pqueue_insert q s x = Ok (q', s') /\ size q' = (size q + 1)%nat /\
    pq_step (fun y => y = x \/ pq_elem q y) (fun y => y = x \/ pq_elem q y) q s q' s'.
Proof.
  intros Hwf Hroom Hx Hnew. unfold pqueue_insert. cbv zeta.
  pose proof (pq_size _ _ Hwf) as Hsz. pose proof (pq_len _ _ Hwf) as Hlen.
  rewrite (proj2 (lset_ok (d q) (size q) x _)) by (split; [lia|reflexivity]). cbn [rbind].
  set (f := fun j => if decide (j = size q) then x else heap_fn q j).
  set (q1 := mk_pqueue (size q + 1) (avail q) (step q) (<[size q := x]> (d q))).
  assert (repr (size q + 1) (d q1) (size q) f) as Hr.
  { intros j Hj Hjn. unfold f. simpl. rewrite decide_False by done.
    rewrite list_lookup_insert_ne by done. apply (wf_fn _ _ _ Hwf). lia. }
  assert (forall j, (1 <= j < size q)%nat -> heap_fn q j <> x) as Hne.
  { intros j Hj <-. apply Hnew. exists j. split; [done|]. by apply (wf_fn _ _ _ Hwf). }
  assert (sift_inv (size q + 1) f s (size q) x) as Hi.
  { pose proof (wf_heap _ _ Hwf) as Hh. unfold f. split.
    - by rewrite decide_True.
    - lia.
    - intros j Hj. case_decide; [done|]. apply (wf_pos q s j Hwf). lia.
    - intros j Hj ?. rewrite decide_False by done. apply (wf_pos q s j Hwf). lia.
    - intros j Hj ?. rewrite decide_False by done. apply Hne. lia.
    - intros j Hj ??. pose proof (parent_bounds j ltac:(lia)).
      rewrite !decide_False by lia. apply Hh. lia.
    - intros j Hj Hp. pose proof (parent_bounds j ltac:(lia)). lia. }
  destruct (bubble_up_spec q1 s (size q) x f) as (q' & s' & E & Hsz' & Hstep);
    [simpl; lia|simpl; by rewrite length_insert|apply list_lookup_insert_eq; lia|exact Hr|exact Hi| |].
  { intros j Hj Hp. pose proof (parent_bounds j ltac:(lia)). simpl in Hj. lia. }
  exists q', s'. split; [exact E|]. split; [exact Hsz'|].
  assert (forall y, elems_of (size q1) f y <-> y = x \/ pq_elem q y) as He.
  { intros y. unfold elems_of, f. simpl. split.
    - intros (j & Hj & Hy). case_decide; [by left|right]. exists j. split; [lia|].
      rewrite (wf_fn _ _ _ Hwf) by lia. congruence.
    - intros [->|(j & Hj & Hy)]; [exists (size q)|exists j].
      + split; [lia|by rewrite decide_True].
      + rewrite decide_False by lia. rewrite (wf_fn _ _ _ Hwf Hj) in Hy. split; [lia|congruence]. }
  destruct Hstep as [Hw Ha Hel Hst]. split; [exact Hw|exact Ha| |].
  - intros y. by rewrite Hel, He.
  - eapply pos_steps_weaken; [|done]. intros y. by rewrite He.
Qed.

(** Replacing the element of a queue of size [sz] at [i] by [m] and sifting. *)
Lemma resift_spec q s s2 (q1 : pqueue) i m :
  pq_wf q s -> (size q1 <= size q)%nat -> avail q1 = avail q -> length (d q1) = avail q1 ->
  (1 <= i < size q1)%nat -> pvalid s2 m ->
  (forall x, pvalid s2 x <-> pvalid s x) -> (forall x, getpos s2 x = getpos s x) ->
  (forall j, (1 <= j < size q1)%nat -> j <> i -> d q1 !! j = d q !! j /\ heap_fn q j <> m /\
     getpri s2 (heap_fn q j) = getpri s (heap_fn q j)) ->
  d q1 !! i = Some m ->
  forall (old : Z), old = getpri s (heap_fn q i) ->
  exists q' s',
    (if cmppri old (getpri s2 m) then bubble_up q1 s2 i else percolate_down q1 s2 i) = Ok (q', s') /\
    size q' = size q1 /\
    pq_step (pq_elem q1) (pq_elem q1) q1 s2 q' s'.
Proof.
  intros Hwf Hsz Hav Hlen Hi Hm Hval Hpos Hoth Hdi old Hold.
  set (f := fun j => if decide (j = i) then m else heap_fn q j).
  pose proof (pq_size _ _ Hwf) as Hszq. pose proof (wf_heap _ _ Hwf) as Hh.
  assert (sift_inv (size q1) f s2 i m) as Hinv.
  { apply (hole_inv q s s2 i m (size q1)); try done.
    intros j Hj Hji. by destruct (Hoth j Hj Hji) as (_ & ? & ?). }
  assert (repr (size q1) (d q1) i f) as Hr.
  { intros j Hj Hji. destruct (Hoth j Hj Hji) as (-> & _ & _). unfold f.
    rewrite decide_False by done. apply (wf_fn _ _ _ Hwf). lia. }
  assert (forall y, elems_of (size q1) f y <-> pq_elem q1 y) as He.
  { apply elems_pq_elem; [|done]. intros j Hj _. unfold f. case_decide; [by subst|].
    rewrite (proj1 (Hoth j Hj ltac:(done))). apply (wf_fn _ _ _ Hwf). lia. }
  assert (forall j, (1 <= j < size q1)%nat -> j <> i -> getpri s2 (heap_fn q j) = getpri s (heap_fn q j))
    as Hpri by (intros j Hj Hji; apply (Hoth j Hj Hji)).
  destruct (cmppri old (getpri s2 m)) eqn:Hc; subst old.
  - destruct (bubble_up_spec q1 s2 i m f) as (q' & s' & E & Hs' & [Hw Ha Hel Hst]);
      [lia|done|done|done|done| |].
    { intros j Hj Hp. pose proof (parent_bounds j ltac:(lia)). unfold le_pri, f.
      rewrite decide_False by lia. rewrite Hpri by lia.
      eapply cmppri_ntrans; [by apply cmppri_asym|]. rewrite <- Hp at 1. apply Hh. lia. }
    exists q', s'. split; [done|]. split; [done|]. split; [done|done| |].
    + intros y. by rewrite Hel.
    + eapply pos_steps_weaken; [|done]. intros y. by rewrite He.
  - destruct (percolate_down_spec q1 s2 i m f) as (q' & s' & E & Hs' & [Hw Ha Hel Hst]);
      [lia|done|done|done|done| |].
    { intros Hi2. pose proof (parent_bounds i Hi2). unfold le_pri, f.
      rewrite decide_False by lia. rewrite Hpri by lia.
      eapply cmppri_ntrans; [apply Hh; lia|exact Hc]. }
    exists q', s'. split; [done|]. split; [done|]. split; [done|done| |].
    + intros y. by rewrite Hel.
    + eapply pos_steps_weaken; [|done]. intros y. by rewrite He.
Qed.

Lemma change_priority_spec q s v x :
  pq_wf q s -> pq_elem q x -> pri_ok v ->
  exists q' s', pqueue_change_priority q s v x = Ok (q', s') /\ size q' = size q /\
    pq_step (pq_elem q) (pq_elem q) q (setpri s x v) q' s'.
Proof.
  intros Hwf Hx Hok. pose proof (wf_elem_valid _ _ _ Hwf Hx) as Hv.
  destruct (proj1 (wf_elem _ _ _ Hwf) Hx) as [Hi Hfx]. unfold pqueue_change_priority. cbv zeta.
  rewrite getpos_setpri.
  pose proof (resift_spec q s (setpri s x v) q (getpos s x) x Hwf) as Hsift.
  assert (getpri (setpri s x v) x = v) as Hnew by (rewrite getpri_setpri by done; by rewrite decide_True).
  rewrite Hnew in Hsift. apply Hsift; try done.
  - apply (pq_len _ _ Hwf).
  - by apply pvalid_setpri.
  - intros y. by rewrite pvalid_setpri.
  - intros y. apply getpos_setpri.
  - intros j Hj Hji.
    assert (heap_fn q j <> x) as Hjx.
    { intros Heq. apply Hji. rewrite <- Heq. symmetry. by apply (wf_pos q s j Hwf). }
    split; [done|]. split; [done|].
    rewrite getpri_setpri by done. by rewrite decide_False by congruence.
  - rewrite (wf_fn _ _ _ Hwf Hi). congruence.
  - congruence.
Qed.

(** Taking the element at [i] out: the last element is moved there and sifted,
    or the queue just shrinks when [i] was last. *)
Lemma wf_shrink q s x :
  pq_wf q s -> pq_elem q x -> getpos s x = (size q - 1)%nat ->
  exists q' s', percolate_down (mk_pqueue (size q - 1) (avail q) (step q) (d q)) s (size q - 1) = Ok (q', s') /\
    size q' = (size q - 1)%nat /\
    pq_step (pq_elem q) (fun y => pq_elem q y /\ y <> x) q s q' s'.
Proof.
  intros Hwf Hx Hpos. pose proof (wf_elem_valid _ _ _ Hwf Hx) as Hv.
  destruct (proj1 (wf_elem _ _ _ Hwf) Hx) as [Hi Hfx]. rewrite Hpos in Hi, Hfx.
  pose proof (wf_fn _ _ _ Hwf Hi) as Hdi. rewrite Hfx in Hdi.
  pose proof (pq_size _ _ Hwf) as Hsz. pose proof (pq_len _ _ Hwf) as Hlen.
  unfold percolate_down. cbn [d size avail step]. rewrite (proj2 (lget_ok _ _ _) Hdi). cbn [rbind].
  cbn [percolate_down_loop]. unfold maxchild.
  replace (size q - 1 <=? left (size q - 1))%nat with true
    by (symmetry; apply Nat.leb_le; unfold left; lia).
  cbn [rbind Nat.eqb]. rewrite (proj2 (lset_ok (d q) (size q - 1) x _)) by (split; [lia|reflexivity]).
  cbn [rbind]. rewrite list_insert_id by done.
  do 2 eexists. split; [reflexivity|]. split; [done|].
  assert (forall j y, (1 <= j < size q - 1)%nat -> d q !! j = Some y -> y <> x) as Hne.
  { intros j y Hj Hy ->. destruct (pq_pos _ _ Hwf j x) as [_ ?]; [lia|done|lia]. }
  split; cbn [d size avail step].
  - split; cbn [d size avail step]; [lia|done| |].
    + intros j y Hj Hy. rewrite pvalid_setpos, getpos_setpos by done.
      pose proof (Hne _ _ Hj Hy). rewrite decide_False by done.
      apply (pq_pos _ _ Hwf); [lia|done].
    + intros j p y Hj Hp Hy. rewrite !getpri_setpos. apply (pq_heap _ _ Hwf j); [lia|done|done].
  - done.
  - intros y. split.
    + intros (j & Hj & Hy). simpl in *. split; [exists j; split; [lia|done]|]. by eapply Hne.
    + intros [(j & Hj & Hy) Hyx]. exists j. simpl. split; [|done].
      destruct (decide (j = size q - 1)%nat) as [->|]; [congruence|lia].
  - constructor; [done|constructor].
Qed.

Lemma take_out_spec q s x :
  pq_wf q s -> pq_elem q x ->
  let i := getpos s x in
  exists l a q' s',
    lget (d q) (size q - 1) = Ok l /\ lset (d q) i l = Ok a /\
    (let q1 := mk_pqueue (size q - 1) (avail q) (step q) a in
     (if cmppri (getpri s x) (getpri s l) then bubble_up q1 s i else percolate_down q1 s i)) = Ok (q', s') /\
    size q' = (size q - 1)%nat /\
    pq_step (pq_elem q) (fun y => pq_elem q y /\ y <> x) q s q' s'.
Proof.
  intros Hwf Hx i. destruct (proj1 (wf_elem _ _ _ Hwf) Hx) as [Hi Hfx]. fold i in Hi, Hfx.
  pose proof (pq_size _ _ Hwf) as Hsz. pose proof (pq_len _ _ Hwf) as Hlen.
  set (n := (size q - 1)%nat). set (l := heap_fn q n).
  assert (d q !! n = Some l) as Hl by (apply (wf_fn _ _ _ Hwf); lia).
  exists l, (<[i := l]> (d q)).
  destruct (decide (i = n)) as [Hin|Hin].
  - assert (l = x) as Hlx by (unfold l; by rewrite <- Hin).
    destruct (wf_shrink q s x Hwf Hx Hin) as (q' & s' & E & ? & ?).
    exists q', s'. split; [by apply lget_ok|]. split; [apply lset_ok; split; [lia|done]|].
    cbv zeta. rewrite Hlx, list_insert_id by (rewrite Hin; congruence).
    replace (cmppri (getpri s x) (getpri s x)) with false by (symmetry; apply le_pri_refl).
    rewrite Hin. done.
  - set (q1 := mk_pqueue (size q - 1) (avail q) (step q) (<[i := l]> (d q))).
    destruct (resift_spec q s s q1 i l Hwf) with (old := getpri s (heap_fn q i))
      as (q' & s' & E & ? & [Hw Ha He Hst]); try done.
    + simpl. lia.
    + simpl. by rewrite length_insert.
    + simpl. lia.
    + apply (wf_pos q s n Hwf). lia.
    + intros j Hj Hji. simpl in Hj. simpl. rewrite list_lookup_insert_ne by done.
      split; [done|]. split; [|done]. intros Heq.
      pose proof (proj2 (wf_pos q s j Hwf ltac:(lia))) as Hp1.
      pose proof (proj2 (wf_pos q s n Hwf ltac:(lia))) as Hp2.
      fold l in Hp2. rewrite Heq in Hp1. lia.
    + simpl. apply list_lookup_insert_eq. lia.
    + rewrite Hfx in E.
      assert (forall y, pq_elem q1 y <-> pq_elem q y /\ y <> x) as Hq1.
      { intros y. split.
        - intros (j & Hj & Hy). simpl in *. destruct (decide (j = i)) as [->|Hji].
          + rewrite list_lookup_insert_eq in Hy by lia. injection Hy as <-.
            split; [exists n; split; [lia|done]|]. intros Heq. apply Hin. unfold i.
            rewrite <- Heq. apply (wf_pos q s n Hwf). lia.
          + rewrite list_lookup_insert_ne in Hy by done.
            destruct (pq_pos _ _ Hwf j y ltac:(lia) Hy) as [_ Hpy].
            split; [exists j; split; [lia|done]|]. intros ->. by unfold i in Hji.
        - intros [(j & Hj & Hy) Hyx]. destruct (decide (j = n)) as [->|Hjn].
          + exists i. simpl. split; [lia|]. rewrite list_lookup_insert_eq by lia. congruence.
          + exists j. simpl. split; [lia|]. rewrite list_lookup_insert_ne; [done|].
            intros <-. rewrite (wf_fn _ _ _ Hwf Hi), Hfx in Hy. congruence. }
      exists q', s'. split; [by apply lget_ok|]. split; [apply lset_ok; split; [lia|done]|].
      split; [exact E|]. split; [done|]. split; [done|done| |].
      * intros y. by rewrite He, Hq1.
      * eapply pos_steps_weaken; [|done]. intros y. rewrite Hq1. by intros [? _].
Qed.

Lemma remove_spec q s x :
  pq_wf q s -> pq_elem q x ->
  exists q' s', pqueue_remove q s x = Ok (q', s') /\ size q' = (size q - 1)%nat /\
    pq_step (pq_elem q) (fun y => pq_elem q y /\ y <> x) q s q' s'.
Proof.
  intros Hwf Hx. destruct (take_out_spec q s x Hwf Hx) as (l & a & q' & s' & El & Ea & E & ? & ?).
  exists q', s'. unfold pqueue_remove. rewrite El. cbn [rbind]. rewrite Ea. cbn [rbind]. done.
Qed.

(** The root precedes every element. *)
Lemma root_min q s y :
  pq_wf q s -> pq_elem q y -> le_pri s (heap_fn q 1) y.
Proof.
  intros Hwf (j & Hj & Hy). rewrite (wf_fn _ _ _ Hwf Hj) in Hy. injection Hy as <-.
  revert Hj. induction (lt_wf j) as [j _ IH]. intros Hj.
  destruct (decide (j = 1%nat)) as [->|]; [apply le_pri_refl|].
  pose proof (parent_bounds j ltac:(lia)). eapply le_pri_trans; [apply (IH (parent j)); lia|].
  apply (wf_heap _ _ Hwf). lia.
Qed.

Lemma peek_spec q s :
  pq_wf q s ->
  if (size q =? 1)%nat then pqueue_peek q = Ok None
  else exists x, pqueue_peek q = Ok (Some x) /\ pq_elem q x /\ getpos s x = 1%nat /\
    forall y, pq_elem q y -> le_pri s x y.
Proof.
  intros Hwf. pose proof (pq_size _ _ Hwf). unfold pqueue_peek.
  destruct (Nat.eqb_spec (size q) 1) as [|Hn]; [done|].
  pose proof (wf_fn q s 1 Hwf ltac:(lia)) as Hd1.
  rewrite (proj2 (lget_ok _ _ _) Hd1). cbn [rbind]. exists (heap_fn q 1). split; [done|].
  split; [exists 1%nat; split; [lia|done]|]. split; [apply (wf_pos q s 1 Hwf); lia|].
  intros y Hy. by apply root_min.
Qed.

Lemma pop_spec q s :
  pq_wf q s -> size q <> 1%nat ->
  exists x q' s', pqueue_pop q s = Ok (Some x, q', s') /\ pqueue_peek q = Ok (Some x) /\
    pq_elem q x /\ size q' = (size q - 1)%nat /\
    pq_step (pq_elem q) (fun y => pq_elem q y /\ y <> x) q s q' s'.
Proof.
  intros Hwf Hn. pose proof (peek_spec q s Hwf) as Hp.
  destruct (Nat.eqb_spec (size q) 1) as [|_]; [done|].
  destruct Hp as (x & Epeek & Hx & Hpos & Hmin).
  destruct (take_out_spec q s x Hwf Hx) as (l & a & q' & s' & El & Ea & E & Hsz & Hstep).
  assert (cmppri (getpri s x) (getpri s l) = false) as Hc.
  { apply Hmin. exists (size q - 1)%nat. pose proof (pq_size _ _ Hwf).
    split; [lia|by apply lget_ok]. }
  cbv zeta in E. rewrite Hc in E. rewrite Hpos in Ea, E.
  exists x, q', s'. split; [|done]. unfold pqueue_pop, pqueue_peek in *.
  destruct (Nat.eqb_spec (size q) 1) as [|_]; [done|].
  apply rbind_ok in Epeek as (x' & Ex & [= ->]). rewrite Ex. cbn [rbind].
  rewrite El. cbn [rbind]. rewrite Ea. cbn [rbind]. rewrite E. done.
Qed.

Lemma init_spec junk n s : pq_wf (pqueue_init junk n) s.
Proof. split; simpl; [lia|by rewrite length_fmap, length_seq|lia..]. Qed.

(** The queue only depends on what the store says of its elements. *)
Lemma wf_ext q s s' :
  pq_wf q s ->
  (forall x, pq_elem q x -> pvalid s x -> pvalid s' x /\ getpos s' x = getpos s x /\ getpri s' x = getpri s x) ->
  pq_wf q s'.
Proof.
  intros Hwf He. pose proof Hwf as [Hs Hl Hp Hh].
  assert (Hin : forall i x, (1 <= i < size q)%nat -> d q !! i = Some x ->
    pvalid s' x /\ getpos s' x = getpos s x /\ getpri s' x = getpri s x).
  { intros i x Hi Hx. apply He; [by exists i|]. by destruct (Hp i x Hi Hx). }
  split; try done.
  - intros i x Hi Hx. destruct (Hin i x Hi Hx) as (? & -> & _). split; [done|]. by destruct (Hp i x Hi Hx).
  - intros i p x Hi Hpp Hx. pose proof (parent_bounds i ltac:(lia)).
    destruct (Hin (parent i) p ltac:(lia) Hpp) as (_ & _ & ->).
    destruct (Hin i x ltac:(lia) Hx) as (_ & _ & ->). by apply (Hh i).
Qed.

Lemma init_empty junk n x : ~ pq_elem (pqueue_init junk n) x.
Proof. intros (i & Hi & _). simpl in Hi. lia. Qed.
End OpSpecs.

(** ** The queue as a bag, and the checker [pqueue_is_valid] *)
Section Bag.
Context {S : Type} `{PQLaws S}.
Implicit Types (q : pqueue) (s : S) (x y : ptr).

Lemma elem_of_pq_elems q x : x ∈ pq_elems q <-> pq_elem q x.
Proof.
  unfold pq_elems, pq_elem. rewrite list_elem_of_lookup. split.
  - intros (i & Hi). rewrite lookup_drop in Hi. apply lookup_take_Some in Hi as [? ?].
    exists (1 + i)%nat. split; [lia|done].
  - intros (i & Hi & Hx). exists (i - 1)%nat. rewrite lookup_drop, lookup_take_lt by lia.
    by replace (1 + (i - 1))%nat with i by lia.
Qed.

Lemma pq_elems_nodup q s : pq_wf q s -> NoDup (pq_elems q).
Proof.
  intros Hwf. apply NoDup_alt. intros i j x. unfold pq_elems. rewrite !lookup_drop.
  intros [Hi ?]%lookup_take_Some [Hj ?]%lookup_take_Some.
  destruct (pq_pos _ _ Hwf (1 + i) x) as [_ Hpi]; [lia|done|].
  destruct (pq_pos _ _ Hwf (1 + j) x) as [_ Hpj]; [lia|done|]. lia.
Qed.

Lemma length_pq_elems q s : pq_wf q s -> length (pq_elems q) = pqueue_size q.
Proof.
  intros Hwf. pose proof (pq_size _ _ Hwf). pose proof (pq_len _ _ Hwf).
  unfold pq_elems, pqueue_size. rewrite length_drop, length_take. lia.
Qed.

Lemma pq_elems_perm q s l :
  pq_wf q s -> NoDup l -> (forall x, pq_elem q x <-> x ∈ l) -> pq_elems q ≡ₚ l.
Proof.
  intros Hwf Hl He. apply NoDup_Permutation; [by eapply pq_elems_nodup|done|].
  intros x. by rewrite elem_of_pq_elems.
Qed.

Lemma pq_elems_take_out q s q' s' x :
  pq_wf q s -> pq_wf q' s' -> pq_elem q x ->
  (forall y, pq_elem q' y <-> pq_elem q y /\ y <> x) -> pq_elems q ≡ₚ x :: pq_elems q'.
Proof.
  intros Hwf Hwf' Hx He. eapply pq_elems_perm; [done| |].
  - constructor; [|by eapply pq_elems_nodup].
    rewrite elem_of_pq_elems, He. naive_solver.
  - intros y. rewrite elem_of_cons, elem_of_pq_elems, He.
    destruct (decide (y = x)); naive_solver.
Qed.

(** [j] lies in the subtree rooted at [pos]. *)
Definition below (pos j : nat) : Prop := exists n, Nat.iter n parent j = pos.

Lemma below_split pos j :
  (1 <= pos)%nat -> below pos j <-> j = pos \/ below (left pos) j \/ below (right pos) j.
Proof.
  intros Hpos. split.
  - intros ([|n] & Hn); [by left|]. right. simpl in Hn.
    destruct (parent_child _ _ Hn); [left|right]; by exists n.
  - intros [->|[(n & Hn)|(n & Hn)]]; [by exists 0%nat|exists (1 + n)%nat..]; simpl; rewrite Hn.
    + apply parent_left.
    + apply parent_right.
Qed.

Lemma below_le pos j : below pos j -> (pos <= j)%nat.
Proof.
  intros (n & <-). induction n as [|n IH]; simpl; [done|].
  etrans; [|exact IH]. unfold parent. apply Nat.Div0.div_le_upper_bound; lia.
Qed.

Lemma below_root j : (1 <= j)%nat -> below 1 j.
Proof.
  induction (lt_wf j) as [j _ IH]. intros Hj.
  destruct (decide (j = 1%nat)) as [->|?]; [by exists 0%nat|].
  pose proof (parent_bounds j ltac:(lia)). destruct (IH (parent j)) as (k & Hn); [lia|lia|].
  exists (k + 1)%nat. rewrite Nat.iter_add. exact Hn.
Qed.

Definition subtree_heap q s (pos : nat) : Prop :=
  forall j, (2 <= j < size q)%nat -> below pos (parent j) ->
    le_pri s (heap_fn q (parent j)) (heap_fn q j).

Lemma subtree_heap_split q s pos :
  (1 <= pos)%nat ->
  subtree_heap q s pos <->
    ((left pos < size q)%nat -> le_pri s (heap_fn q pos) (heap_fn q (left pos)) /\ subtree_heap q s (left pos)) /\
    ((right pos < size q)%nat -> le_pri s (heap_fn q pos) (heap_fn q (right pos)) /\ subtree_heap q s (right pos)).
Proof.
  intros Hpos. pose proof (parent_left pos) as Hl. pose proof (parent_right pos) as Hr.
  assert (2 <= left pos)%nat by (unfold left; lia). assert (2 <= right pos)%nat by (unfold right; lia).
  split.
  - intros Hs. split; intros Hlt; (split; [|intros j Hj Hb; apply Hs; [done|];
      apply below_split; [done|]; tauto]).
    + rewrite <- Hl at 1. apply Hs; [lia|]. rewrite Hl. by exists 0%nat.
    + rewrite <- Hr at 1. apply Hs; [lia|]. rewrite Hr. by exists 0%nat.
  - intros [HL HR] j Hj Hb. pose proof (parent_bounds j ltac:(lia)).
    apply below_split in Hb as [Hp|[Hb|Hb]]; [| | |done].
    + rewrite Hp. destruct (parent_child _ _ Hp) as [-> | ->]; [apply HL|apply HR]; lia.
    + pose proof (below_le _ _ Hb). apply HL; [lia|done|done].
    + pose proof (below_le _ _ Hb). apply HR; [lia|done|done].
Qed.

Lemma subtree_is_valid_spec fuel q s pos :
  (size q <= length (d q))%nat -> (1 <= pos < size q)%nat -> (size q < fuel + pos)%nat ->
  exists b, subtree_is_valid fuel q s pos = Ok b /\ (b = true <-> subtree_heap q s pos).
Proof.
  revert pos. induction fuel as [|fuel IH]; intros pos Hlen Hpos Hf; [lia|].
  assert (forall j, (j < size q)%nat -> lget (d q) j = Ok (heap_fn q j)) as Hget.
  { intros j Hj. apply lget_ok. unfold heap_fn.
    destruct (lookup_lt_is_Some_2 (d q) j) as [x Hx]; [lia|].
    by rewrite (list_lookup_total_correct _ _ _ Hx). }
  assert (forall c, (pos < c)%nat -> exists b,
    (if (c <? size q)%nat then
       let! p := lget (d q) pos in
       let! x := lget (d q) c in
       if cmppri (getpri s p) (getpri s x) then Ok false else subtree_is_valid fuel q s c
     else Ok true) = Ok b /\
    (b = true <-> ((c < size q)%nat -> le_pri s (heap_fn q pos) (heap_fn q c) /\ subtree_heap q s c)))
    as Hchild.
  { intros c Hc. destruct (Nat.ltb_spec c (size q)) as [Hlt|Hge].
    - rewrite (Hget pos), (Hget c) by lia. cbn [rbind].
      destruct (cmppri (getpri s (heap_fn q pos)) (getpri s (heap_fn q c))) eqn:Hcmp.
      + exists false. split; [done|]. split; [done|]. intros Hh. destruct (Hh Hlt) as [Hle _].
        unfold le_pri in Hle. congruence.
      + destruct (IH c Hlen ltac:(lia) ltac:(lia)) as (b & -> & Hb). exists b. split; [done|].
        rewrite Hb. naive_solver.
    - exists true. split; [done|]. split; [lia|done]. }
  destruct (Hchild (left pos)) as (bl & El & Hbl); [unfold left; lia|].
  destruct (Hchild (right pos)) as (br & Er & Hbr); [unfold right; lia|].
  cbn [subtree_is_valid]. cbv zeta. rewrite El. cbn [rbind].
  pose proof (subtree_heap_split q s pos ltac:(lia)) as Hs. destruct bl.
  - exists br. split; [exact Er|]. tauto.
  - exists false. split; [done|]. split; [done|]. intros [HL _]%Hs. by apply Hbl.
Qed.
End Bag.

(** ** Properties *)
Section Properties.
Context {S : Type} `{PQLaws S}.

(** C38: [pqueue_insert] of an object that is not yet queued, while a slot is
    free, returns; the result is a heap whose elements record their positions
    (so later changes of priority find them), holds exactly the old elements
    and the new one, and no field of any object but the recorded positions of
    these elements has changed. *)
Theorem pqueue_insert_correct (q : pqueue) (s : S) (x : ptr) :
  pq_wf q s -> (size q < avail q)%nat -> pvalid s x -> ~ pq_elem q x ->
  exists q' s', pqueue_insert q s x = Ok (q', s') /\ pq_wf q' s' /\
    pq_elems q' ≡ₚ x :: pq_elems q /\ pqueue_size q' = Datatypes.S (pqueue_size q) /\
    pos_steps (fun y => y = x \/ pq_elem q y) s s'.
Proof.
  intros Hwf Hroom Hv Hx. destruct (insert_spec q s x Hwf Hroom Hv Hx) as (q'&s'&E&Hsz&[Hw _ He Hst]).
  exists q', s'. split; [done|]. split; [done|]. pose proof (pq_size _ _ Hwf).
  split; [|split; [unfold pqueue_size; lia|done]].
  apply (pq_elems_perm _ s'); [done|constructor|].
  - by rewrite elem_of_pq_elems.
  - by eapply pq_elems_nodup.
  - intros y. by rewrite elem_of_cons, elem_of_pq_elems, He.
Qed.

(** C39: [pqueue_pop] of a non-empty queue returns an element that no other
    element should precede, and leaves a well-formed queue with exactly the
    other elements; on an empty queue it returns NULL and changes nothing. *)
Theorem pqueue_pop_correct (q : pqueue) (s : S) :
  pq_wf q s ->
  if (pqueue_size q =? 0)%nat then pqueue_pop q s = Ok (None, q, s)
  else exists x q' s', pqueue_pop q s = Ok (Some x, q', s') /\ pq_wf q' s' /\
    pq_elems q ≡ₚ x :: pq_elems q' /\
    (forall y, y ∈ pq_elems q -> cmppri (getpri s x) (getpri s y) = false) /\
    pos_steps (pq_elem q) s s'.
Proof.
  intros Hwf. pose proof (pq_size _ _ Hwf). unfold pqueue_size.
  destruct (Nat.eqb_spec (size q - 1) 0) as [Hz|Hn].
  - unfold pqueue_pop. by replace (size q) with 1%nat by lia.
  - destruct (pop_spec q s Hwf ltac:(lia)) as (x&q'&s'&E&Ep&Hx&_&[Hw _ He Hst]).
    exists x, q', s'. split; [done|]. split; [done|]. split; [by eapply pq_elems_take_out|].
    split; [|done]. intros y Hy%elem_of_pq_elems. pose proof (peek_spec q s Hwf) as Hp.
    destruct (Nat.eqb_spec (size q) 1); [lia|]. destruct Hp as (x'&Ep'&_&_&Hmin).
    rewrite Ep in Ep'. injection Ep' as ->. by apply Hmin.
Qed.

(** [pqueue_change_priority] of a queued object gives it the new priority,
    keeps the elements and restores the heap; besides that priority only
    recorded positions of queued objects change. *)
Theorem pqueue_change_priority_correct (q : pqueue) (s : S) (v : Z) (x : ptr) :
  pq_wf q s -> pq_elem q x -> pri_ok v ->
  exists q' s', pqueue_change_priority q s v x = Ok (q', s') /\ pq_wf q' s' /\
    pq_elems q' ≡ₚ pq_elems q /\ getpri s' x = v /\
    pos_steps (pq_elem q) (setpri s x v) s'.
Proof.
  intros Hwf Hx Hok. destruct (change_priority_spec q s v x Hwf Hx Hok) as (q'&s'&E&_&[Hw _ He Hst]).
  exists q', s'. split; [done|]. split; [done|]. split; [|split; [|done]].
  - apply (pq_elems_perm _ s'); [done|by eapply pq_elems_nodup|].
    intros y. by rewrite He, elem_of_pq_elems.
  - rewrite (pos_steps_pri _ _ _ _ Hst), getpri_setpri by (done || by eapply wf_elem_valid).
    by rewrite decide_True.
Qed.

(** [pqueue_remove] of a queued object, wherever it sits (the last slot
    included), takes out exactly that object and restores the heap. *)
Theorem pqueue_remove_correct (q : pqueue) (s : S) (x : ptr) :
  pq_wf q s -> pq_elem q x ->
  exists q' s', pqueue_remove q s x = Ok (q', s') /\ pq_wf q' s' /\
    pq_elems q ≡ₚ x :: pq_elems q' /\ pos_steps (pq_elem q) s s'.
Proof.
  intros Hwf Hx. destruct (remove_spec q s x Hwf Hx) as (q'&s'&E&_&[Hw _ He Hst]).
  exists q', s'. split; [done|]. split; [done|]. split; [|done]. by eapply pq_elems_take_out.
Qed.

(** the checker [pqueue_is_valid], on a queue of at least one element that
    fits its array, terminates without leaving the array and answers whether
    no element should precede its parent. *)
Theorem pqueue_is_valid_correct (q : pqueue) (s : S) :
  (2 <= size q <= length (d q))%nat ->
  exists b, pqueue_is_valid q s = Ok b /\
    (b = true <-> forall j, (2 <= j < size q)%nat ->
       cmppri (getpri s (d q !!! parent j)) (getpri s (d q !!! j)) = false).
Proof.
  intros Hsz. unfold pqueue_is_valid.
  destruct (subtree_is_valid_spec (Datatypes.S (size q)) q s 1) as (b & -> & Hb); [lia|lia|lia|].
  exists b. split; [done|]. rewrite Hb. split; intros Hh j Hj; [|intros _]; apply Hh; [done| |done].
  apply below_root. pose proof (parent_bounds j ltac:(lia)). lia.
Qed.
End Properties.

(** ** A concrete store: a list of (priority, position) objects, smallest first *)
#[export] Instance obj_access : PQAccess (list (Z * nat)) := {
  getpri s x := (s !!! x).1;
  setpri s x v := alter (fun o => (v, o.2)) x s;
  getpos s x := (s !!! x).2;
  setpos s x i := alter (fun o => (o.1, i)) x s;
  cmppri next curr := curr <? next;
}.

Lemma total_alter {A} `{Inhabited A} (f : A -> A) (l : list A) i j :
  (i < length l)%nat -> alter f i l !!! j = if decide (i = j) then f (l !!! j) else l !!! j.
Proof.
  intros Hi. rewrite !list_lookup_total_alt. case_decide as Hij; subst.
  - rewrite list_lookup_alter_eq. destruct (lookup_lt_is_Some_2 l j Hi) as [x ->]. done.
  - by rewrite list_lookup_alter_ne.
Qed.

Lemma total_alter_id {A B} `{Inhabited A} (g : A -> B) (f : A -> A) (l : list A) i j :
  (forall x, g (f x) = g x) -> g (alter f i l !!! j) = g (l !!! j).
Proof.
  intros Hg. rewrite !list_lookup_total_alt. destruct (decide (i = j)) as [->|].
  - rewrite list_lookup_alter_eq. by destruct (l !! j); simpl.
  - by rewrite list_lookup_alter_ne.
Qed.

#[export] Instance obj_laws : PQLaws (list (Z * nat)).
Proof.
  refine {| pvalid s x := (x < length s)%nat; pri_ok v := 0 <= v < 2 ^ 64 |}; simpl; intros.
  - by rewrite length_alter.
  - by rewrite length_alter.
  - rewrite total_alter by done. repeat case_decide; done.
  - apply (total_alter_id fst). done.
  - apply (total_alter_id snd). done.
  - rewrite total_alter by done. repeat case_decide; done.
  - apply Z.ltb_ge. apply Z.ltb_lt in H. lia.
  - apply Z.ltb_ge. apply Z.ltb_ge in H, H0. lia.
Defined.

(** Three queued objects and a fourth one outside the queue. *)
Definition demo_store : list (Z * nat) := [(5, 1%nat); (8, 2%nat); (6, 3%nat); (3, 0%nat)].
Definition demo_queue : pqueue := mk_pqueue 4 6 6 [0; 0; 1; 2; 0; 0]%nat.

Lemma demo_wf : pq_wf demo_queue demo_store.
Proof.
  split; [simpl; lia|done| |].
  - intros i x Hi. simpl in Hi.
    assert (i = 1 \/ i = 2 \/ i = 3)%nat as [-> | [-> | ->]] by lia; intros [= <-];
      (split; [simpl; lia|done]).
  - intros i p x Hi. simpl in Hi.
    assert (i = 2 \/ i = 3)%nat as [-> | ->] by lia; intros [= <-] [= <-]; done.
Qed.

Lemma demo_elem_1 : pq_elem demo_queue 1%nat.
Proof. exists 2%nat. simpl. split; [lia|done]. Qed.

Lemma demo_elem_3 : ~ pq_elem demo_queue 3%nat.
Proof. rewrite <- elem_of_pq_elems. rewrite list_elem_of_In. vm_compute. lia. Qed.

Example pqueue_insert_correct_witness :
  exists q' s', pqueue_insert demo_queue demo_store 3%nat = Ok (q', s') /\ pq_elems q' ≡ₚ [3; 0; 1; 2]%nat.
Proof.
  destruct (pqueue_insert_correct demo_queue demo_store 3%nat) as (q'&s'&E&_&Hp&_);
    [exact demo_wf|simpl; lia|simpl; lia|exact demo_elem_3|].
  exists q', s'. split; [exact E|exact Hp].
Defined.

Example pqueue_pop_correct_witness :
  exists x q' s', pqueue_pop demo_queue demo_store = Ok (Some x, q', s') /\ [0; 1; 2]%nat ≡ₚ x :: pq_elems q'.
Proof.
  destruct (pqueue_pop_correct demo_queue demo_store demo_wf) as (x&q'&s'&E&_&Hp&_).
  exists x, q', s'. split; [exact E|exact Hp].
Defined.

Example pqueue_change_priority_correct_witness :
  exists q' s', pqueue_change_priority demo_queue demo_store 1 1%nat = Ok (q', s') /\ getpri s' 1%nat = 1.
Proof.
  destruct (pqueue_change_priority_correct demo_queue demo_store 1 1%nat demo_wf demo_elem_1 ltac:(simpl; lia))
    as (q'&s'&E&_&_&Hp&_).
  exists q', s'. split; [exact E|exact Hp].
Defined.

Example pqueue_remove_correct_witness :
  exists q' s', pqueue_remove demo_queue demo_store 1%nat = Ok (q', s') /\ [0; 1; 2]%nat ≡ₚ 1%nat :: pq_elems q'.
Proof.
  destruct (pqueue_remove_correct demo_queue demo_store 1%nat demo_wf demo_elem_1) as (q'&s'&E&_&Hp&_).
  exists q', s'. split; [exact E|exact Hp].
Defined.

Example pqueue_is_valid_correct_witness :
  exists b, pqueue_is_valid demo_queue demo_store = Ok b /\ b = true.
Proof.
  destruct (pqueue_is_valid_correct demo_queue demo_store) as (b&E&Hb); [simpl; lia|].
  exists b. split; [exact E|]. vm_compute in E. congruence.
Defined.
