(* ===== verification/ChannelModel.v ===== *)
(** * channel_model.c / channel_model.h: credit-based bandwidth model

    A channel is a ring of [NR_CREDIT_ENTRIES] time slots of
    [UNIT_TIME_INTERVAL] ns; a slot holds the transfer credits left in its
    interval.  [chmodel_request] advances the ring to the wall clock, takes the
    credits a transfer needs from the slot of its start time on, and returns the
    completion time.  Shown: the ring invariant is preserved and the search loop
    ends; the credits taken are exactly those requested unless the ring is full;
    a transfer never completes before it started, nor earlier than its raw
    transfer time. *)

From Stdlib Require Import ZArith Lia.
From stdpp Require Import base list numbers.
From S2P Require Import Prelude.

Definition NR_CREDIT_ENTRIES : Z := 1024 * 96.
Definition UNIT_TIME_INTERVAL : Z := 4000.
Definition UNIT_XFER_SIZE : Z := 128.
Definition UNIT_XFER_CREDITS : Z := 1.

Definition BANDWIDTH_TO_TX_TIME (mb_s : Z) : Z := (UNIT_XFER_SIZE * NS_PER_SEC 1) / MB mb_s.
Definition BANDWIDTH_TO_MAX_CREDITS (mb_s : Z) : Z :=
  MB mb_s * UNIT_TIME_INTERVAL / NS_PER_SEC 1 / UNIT_XFER_SIZE * UNIT_XFER_CREDITS.

Record channel_model : Type := mk_channel_model {
  cur_time : Z;          (* uint64_t *)
  head : Z;              (* uint32_t *)
  valid_len : Z;         (* uint32_t *)
  max_credits : Z;       (* uint32_t *)
  command_credits : Z;   (* uint32_t *)
  xfer_lat : Z;          (* uint32_t *)
  avail_credits : list Z;  (* credit_t[NR_CREDIT_ENTRIES], credit_t = uint8_t *)
}.

(** [MEMSET(&a[i], value, length)]: bytes, [SIZE_OF_CREDIT_T] is 1. *)
Definition MEMSET (a : list Z) (i value len : Z) : res (list Z) :=
  if (0 <=? i) && (0 <=? len) && (i + len <=? zlen a) then
    Ok (take (Z.to_nat i) a ++ replicate (Z.to_nat len) (u8 value) ++ drop (Z.to_nat (i + len)) a)
  else Err OutOfBounds.

Definition chmodel_init (bandwidth : Z) : channel_model :=
  let max := u32 (BANDWIDTH_TO_MAX_CREDITS bandwidth) in
  {| cur_time := 0; head := 0; valid_len := 0;
     max_credits := max; command_credits := 0;
     xfer_lat := u32 (BANDWIDTH_TO_TX_TIME bandwidth);
     avail_credits := replicate (Z.to_nat NR_CREDIT_ENTRIES) (u8 max) |}.

(** The first part of [chmodel_request]: move the head to [now], giving the
    slots it passes back their full credit. *)
Definition chmodel_advance (ch : channel_model) (now : Z) : res channel_model :=
  let offs := u32 (now / UNIT_TIME_INTERVAL - cur_time ch / UNIT_TIME_INTERVAL) in
  let cur_time_offs := if offs <? valid_len ch then offs else valid_len ch in
  let! a :=
    if NR_CREDIT_ENTRIES <=? u32 (head ch + cur_time_offs) then
      let! a1 := MEMSET (avail_credits ch) (head ch) (max_credits ch) (NR_CREDIT_ENTRIES - head ch) in
      MEMSET a1 0 (max_credits ch) (cur_time_offs - (NR_CREDIT_ENTRIES - head ch))
    else MEMSET (avail_credits ch) (head ch) (max_credits ch) cur_time_offs in
  let vl := u32 (valid_len ch - cur_time_offs) in
  rassert (negb (NR_CREDIT_ENTRIES <? vl)) ;;;
  Ok {| cur_time := now;
        head := u32 (head ch + cur_time_offs) mod NR_CREDIT_ENTRIES;
        valid_len := vl;
        max_credits := max_credits ch; command_credits := command_credits ch;
        xfer_lat := xfer_lat ch; avail_credits := a |}.

(** The [while (1)] loop: result is the slots, the last position and [delay]. *)
Fixpoint consume_credits (fuel : nat) (hd : Z) (a : list Z) (pos remaining delay : Z)
    : res (list Z * Z * Z) :=
  match fuel with
  | O => Err OutOfFuel
  | S fuel =>
      let! avail := aget a pos in
      let consumed := if remaining <=? avail then remaining else avail in
      let! a' := aset a pos (u8 (avail - consumed)) in
      let remaining' := u32 (remaining - consumed) in
      if remaining' =? 0 then Ok (a', pos, delay)
      else
        let next_pos := u32 (pos + 1) mod NR_CREDIT_ENTRIES in
        if next_pos =? hd then Ok (a', pos, delay)
        else consume_credits fuel hd a' next_pos remaining' (u32 (delay + 1))
  end.

(** The second part: reserve credits from the slot of [request_time] on. *)
Definition chmodel_reserve (ch : channel_model) (request_time request_time_offs length : Z)
    : res (Z * channel_model) :=
  let units_to_xfer := u32 (DIV_ROUND_UP length UNIT_XFER_SIZE) in
  let pos := u32 (head ch + request_time_offs) mod NR_CREDIT_ENTRIES in
  let remaining_credits := u32 (u32 (units_to_xfer * UNIT_XFER_CREDITS) + command_credits ch) in
  if max_credits ch =? 0 then Err DivByZero
  else
    let default_delay := remaining_credits / max_credits ch in
    let! (a, pos', delay) :=
      consume_credits (Z.to_nat NR_CREDIT_ENTRIES) (head ch) (avail_credits ch) pos remaining_credits 0 in
    let valid_length :=
      if head ch <=? pos' then u32 (pos' - head ch + 1)
      else u32 (NR_CREDIT_ENTRIES - (head ch - pos' - 1)) in
    let vl := if valid_len ch <? valid_length then valid_length else valid_len ch in
    let delay' := if default_delay <? delay then delay - default_delay else 0 in
    let total_latency := u64 (u32 (xfer_lat ch * units_to_xfer) + delay' * UNIT_TIME_INTERVAL) in
    Ok (u64 (request_time + total_latency),
        {| cur_time := cur_time ch; head := head ch; valid_len := vl;
           max_credits := max_credits ch; command_credits := command_credits ch;
           xfer_lat := xfer_lat ch; avail_credits := a |}).

(** [chmodel_request]; the caller supplies the wall clock it reads first. *)
Definition chmodel_request_at (now : Z) (ch : channel_model) (request_time length : Z)
    : res (Z * channel_model) :=
  let! ch := chmodel_advance ch now in
  if request_time <? now then Ok (request_time, ch)
  else
    let request_time_offs :=
      u32 (request_time / UNIT_TIME_INTERVAL - now / UNIT_TIME_INTERVAL) in
    if NR_CREDIT_ENTRIES <=? request_time_offs then Ok (request_time, ch)
    else chmodel_reserve ch request_time request_time_offs length.

Definition chmodel_request (request_time length : Z) : M channel_model Z := fun c t ch =>
  match chmodel_request_at (c CPU_CLOCK t) ch request_time length with
  | Ok (z, ch') => Ok (z, S t, ch')
  | Err f => Err f
  end.

(** ** Invariant *)

(** Slots after the head, going round. *)
Definition dist (hd i : Z) : Z := (i - hd) mod NR_CREDIT_ENTRIES.

Definition total (a : list Z) : Z := foldr Z.add 0 a.

Record ring_wf (mx hd vl : Z) (a : list Z) : Prop := {
  ring_len : zlen a = NR_CREDIT_ENTRIES;
  ring_head : 0 <= hd < NR_CREDIT_ENTRIES;
  ring_valid : 0 <= vl <= NR_CREDIT_ENTRIES;
  ring_slot i x : zget a i = Some x -> 0 <= x <= u8 mx;
  (* beyond the valid window every slot has its full credit *)
  ring_fresh i x : zget a i = Some x -> vl <= dist hd i -> x = u8 mx;
}.

Record chmodel_wf (ch : channel_model) : Prop := {
  cw_ring : ring_wf (max_credits ch) (head ch) (valid_len ch) (avail_credits ch);
  cw_max : 0 < max_credits ch;
}.

Section Arith.

Lemma dist_cases hd i :
  0 <= hd < NR_CREDIT_ENTRIES -> 0 <= i < NR_CREDIT_ENTRIES ->
  dist hd i = if hd <=? i then i - hd else i - hd + NR_CREDIT_ENTRIES.
Proof.
  intros Hh Hi. unfold dist. destruct (Z.leb_spec hd i).
  - apply Z.mod_small. lia.
  - rewrite <- (Z_mod_plus_full _ 1). apply Z.mod_small. lia.
Qed.

Lemma dist_range hd i : 0 <= dist hd i < NR_CREDIT_ENTRIES.
Proof. by apply Z.mod_pos_bound. Qed.

Lemma NR_range : 0 < NR_CREDIT_ENTRIES < 2 ^ 31.
Proof. unfold NR_CREDIT_ENTRIES. lia. Qed.

(** Position and slot arithmetic of the ring, by cases. *)
Ltac ring_lia :=
  pose proof NR_range; unfold NR_CREDIT_ENTRIES in *; repeat case_match; Z.to_euclidean_division_equations; lia.

Lemma next_slot hd pos :
  0 <= hd < NR_CREDIT_ENTRIES -> 0 <= pos < NR_CREDIT_ENTRIES ->
  let next := u32 (pos + 1) mod NR_CREDIT_ENTRIES in
  0 <= next < NR_CREDIT_ENTRIES /\
  (if next =? hd then dist hd pos = NR_CREDIT_ENTRIES - 1 else dist hd next = dist hd pos + 1).
Proof.
  intros Hh Hp next. unfold next. rewrite u32_id by (unfold NR_CREDIT_ENTRIES in *; lia).
  assert (Hn : 0 <= (pos + 1) mod NR_CREDIT_ENTRIES < NR_CREDIT_ENTRIES) by (by apply Z.mod_pos_bound).
  split; [done|]. rewrite !dist_cases by done.
  assert (Hm : (pos + 1) mod NR_CREDIT_ENTRIES = if pos + 1 =? NR_CREDIT_ENTRIES then 0 else pos + 1).
  { destruct (Z.eqb_spec (pos + 1) NR_CREDIT_ENTRIES) as [->|]; [by apply Z.mod_same|].
    apply Z.mod_small; lia. }
  rewrite Hm in *. clear Hm. repeat case_match; lia.
Qed.

Lemma slot_at hd off :
  0 <= hd < NR_CREDIT_ENTRIES -> 0 <= off < NR_CREDIT_ENTRIES ->
  let pos := u32 (hd + off) mod NR_CREDIT_ENTRIES in
  0 <= pos < NR_CREDIT_ENTRIES /\ dist hd pos = off.
Proof.
  intros Hh Ho pos. unfold pos. pose proof NR_range. rewrite u32_id by lia.
  split; [by apply Z.mod_pos_bound|].
  unfold dist. rewrite Zminus_mod_idemp_l. replace (hd + off - hd) with off by lia.
  by apply Z.mod_small.
Qed.

Lemma dist_inj hd i j :
  0 <= hd < NR_CREDIT_ENTRIES -> 0 <= i < NR_CREDIT_ENTRIES -> 0 <= j < NR_CREDIT_ENTRIES ->
  dist hd i = dist hd j -> i = j.
Proof. intros. rewrite !dist_cases in * by done. repeat case_match; lia. Qed.

End Arith.

Lemma total_zset a i x y :
  zget a i = Some x -> total (zset a i y) = total a - x + y.
Proof.
  intros Hg. pose proof (zget_range _ _ _ Hg) as Hr. unfold zget, zset in *.
  destruct (Z.ltb_spec i 0) as [|_]; [done|].
  set (n := Z.to_nat i) in *. clearbody n. clear Hr i. revert n Hg.
  induction a as [|b a IH]; intros [|n] Hg; simplify_eq/=; [lia|].
  rewrite (IH n Hg). lia.
Qed.

(** ** The search loop

    [consumed a pos a' pos']: credits were taken from [pos] to [pos'] only, every
    slot before [pos'] is used up. *)
Record consumed (hd : Z) (a : list Z) (pos rem : Z) (a' : list Z) (pos' delay : Z) : Prop := {
  co_len : length a' = length a;
  co_pos : 0 <= pos' < NR_CREDIT_ENTRIES;
  co_order : dist hd pos' = dist hd pos + delay;
  co_delay : 0 <= delay;
  co_same i : dist hd i < dist hd pos \/ dist hd pos' < dist hd i -> zget a' i = zget a i;
  co_slot i x : zget a' i = Some x -> exists y, zget a i = Some y /\ x <= y /\ (0 <= y -> 0 <= x);
  (* all the credits were found, or the ring is used up from [pos] to its end *)
  co_total : total a = total a' + rem \/
    (total a <= total a' + rem /\ forall i x, zget a' i = Some x -> dist hd pos <= dist hd i -> x = 0);
  co_bound m : 0 <= m ->
    (forall i x, zget a i = Some x -> dist hd pos <= dist hd i -> m <= x) -> m * delay <= rem;
}.

Section Consume.
Context (hd : Z) (Hhd : 0 <= hd < NR_CREDIT_ENTRIES).

(** One turn takes [con] credits from the slot [pos]. *)
Lemma consumed_last a pos rem x con :
  zlen a = NR_CREDIT_ENTRIES -> zget a pos = Some x -> 0 <= con <= x ->
  (con = rem \/ (con <= rem /\ con = x /\ dist hd pos = NR_CREDIT_ENTRIES - 1)) ->
  consumed hd a pos rem (zset a pos (x - con)) pos 0.
Proof.
  intros Hl Hx Hc Hcase. pose proof (zget_range _ _ _ Hx) as Hr.
  split; try lia.
  - by rewrite length_zset.
  - intros i Hi. rewrite zget_zset by done. case_decide; [subst; lia|done].
  - intros i y. rewrite zget_zset by done. case_decide.
    + intros [= <-]; subst. exists x. split; [done|lia].
    + intros Hy. exists y. split; [done|lia].
  - rewrite (total_zset _ _ x) by done. destruct Hcase as [->|(?&->&Hd)]; [left; lia|right].
    split; [lia|]. intros i y Hy Hdi. pose proof (zget_range _ _ _ Hy) as Hri. rewrite length_zset in Hri.
    pose proof (dist_range hd i). assert (i = pos) as -> by (apply (dist_inj hd); lia).
    rewrite zget_zset_eq in Hy by done. injection Hy. lia.
Qed.

(** A used-up slot in front of a run of the rest of the loop. *)
Lemma consumed_step a pos rem x next a' pos' delay :
  zlen a = NR_CREDIT_ENTRIES -> zget a pos = Some x -> 0 <= x < rem ->
  0 <= next < NR_CREDIT_ENTRIES -> dist hd next = dist hd pos + 1 ->
  consumed hd (zset a pos 0) next (rem - x) a' pos' delay ->
  consumed hd a pos rem a' pos' (delay + 1).
Proof.
  intros Hl Hx Hxr Hn Hd [C1 C2 C3 C4 C5 C6 C7 C8].
  pose proof (zget_range _ _ _ Hx) as Hr.
  split; try lia.
  - by rewrite C1, length_zset.
  - intros i Hi. rewrite C5 by lia. rewrite zget_zset by done. case_decide; [subst; lia|done].
  - intros i y Hy. destruct (C6 i y Hy) as (z & Hz & Hle). rewrite zget_zset in Hz by done.
    case_decide; [|by exists z]. injection Hz as <-. subst. exists x. split; [done|lia].
  - rewrite (total_zset _ _ x) in C7 by done. destruct C7 as [C7|[C7 C7']]; [left; lia|right].
    split; [lia|]. intros i y Hy Hdi. destruct (decide (i = pos)) as [->|Hne].
    + destruct (C6 _ _ Hy) as (z & Hz & ?). rewrite zget_zset_eq in Hz by done. injection Hz as <-. lia.
    + apply (C7' i); [done|]. assert (dist hd i <> dist hd pos); [|lia].
      intros Heq. apply Hne. apply (dist_inj hd); try lia.
      apply zget_range in Hy. rewrite C1, length_zset in Hy. lia.
  - intros m Hm Hall. assert (m <= x) by (by apply (Hall pos); [|lia]).
    assert (m * delay <= rem - x); [|lia]. apply C8; [done|].
    intros i y. rewrite zget_zset by done. case_decide; [subst; lia|].
    intros Hy Hdi. apply (Hall i); [done|lia].
Qed.

Lemma consume_credits_spec fuel a pos rem delay :
  zlen a = NR_CREDIT_ENTRIES -> 0 <= pos < NR_CREDIT_ENTRIES -> 0 <= rem < 2 ^ 32 ->
  (forall i x, zget a i = Some x -> 0 <= x < 2 ^ 8) ->
  NR_CREDIT_ENTRIES - dist hd pos <= Z.of_nat fuel ->
  0 <= delay -> delay <= dist hd pos ->
  exists a' pos' k, consume_credits fuel hd a pos rem delay = Ok (a', pos', delay + k) /\
    consumed hd a pos rem a' pos' k.
Proof.
  revert a pos rem delay. induction fuel as [|fuel IH]; intros a pos rem delay Hl Hp Hrem Hs Hf Hd Hdd.
  { pose proof (dist_range hd pos). lia. }
  destruct (zget_Some a pos ltac:(lia)) as [x Hx]. pose proof (Hs _ _ Hx) as Hxr.
  cbn [consume_credits]. unfold aget. rewrite Hx. cbn [of_opt rbind].
  set (con := if rem <=? x then rem else x).
  assert (Hcon : con = Z.min rem x) by (unfold con; case_match; lia).
  rewrite (u8_id (x - con)), (u32_id (rem - con)) by lia.
  rewrite aset_in by lia. cbn [rbind].
  destruct (next_slot hd pos Hhd Hp) as [Hn Hcases].
  destruct (Z.eqb_spec (rem - con) 0) as [Hz|Hz].
  { exists (zset a pos (x - con)), pos, 0. split; [f_equal; f_equal; lia|].
    apply consumed_last; try done; lia. }
  assert (Hcx : con = x) by lia.
  destruct (Z.eqb_spec (u32 (pos + 1) mod NR_CREDIT_ENTRIES) hd) as [Heq|Hne].
  { exists (zset a pos (x - con)), pos, 0. split; [f_equal; f_equal; lia|].
    apply consumed_last; try done; lia. }
  pose proof (dist_range hd (u32 (pos + 1) mod NR_CREDIT_ENTRIES)) as Hdr.
  pose proof NR_range. rewrite (u32_id (delay + 1)) by lia.
  destruct (IH (zset a pos 0) (u32 (pos + 1) mod NR_CREDIT_ENTRIES) (rem - x) (delay + 1))
    as (a' & pos' & k & HE & HC); try lia.
  - by rewrite length_zset.
  - intros i y. rewrite zget_zset by lia. case_decide; [intros [= <-]; lia|]. apply Hs.
  - exists a', pos', (k + 1). split.
    + rewrite Hcx, Z.sub_diag, HE. by replace (delay + 1 + k) with (delay + (k + 1)) by lia.
    + eapply (consumed_step _ _ _ x); [done|exact Hx|lia|exact Hn|exact Hcases|exact HC].
Qed.
End Consume.

(** ** Advancing the ring *)
Lemma MEMSET_spec a i v n :
  0 <= i -> 0 <= n -> i + n <= zlen a ->
  exists a', MEMSET a i v n = Ok a' /\ length a' = length a /\
    forall j, zget a' j = if (i <=? j) && (j <? i + n) then Some (u8 v) else zget a j.
Proof.
  intros Hi Hn Hin. unfold MEMSET.
  replace ((0 <=? i) && (0 <=? n) && (i + n <=? zlen a)) with true by lia.
  eexists; split; [done|]. split.
  { rewrite !length_app, length_take, length_replicate, length_drop. lia. }
  intros j. unfold zget. destruct (Z.ltb_spec j 0) as [|Hj].
  { replace (i <=? j) with false by lia. done. }
  destruct (Z.leb_spec i j) as [Hij|Hij]; [destruct (Z.ltb_spec j (i + n)) as [Hjn|Hjn]|]; cbn [andb].
  - rewrite lookup_app_r by (rewrite length_take; lia).
    rewrite lookup_app_l by (rewrite length_take, length_replicate; lia).
    apply lookup_replicate. split; [done|]. rewrite length_take; lia.
  - rewrite lookup_app_r by (rewrite length_take; lia).
    rewrite lookup_app_r by (rewrite length_take, length_replicate; lia).
    rewrite lookup_drop, length_take, length_replicate. f_equal. lia.
  - rewrite lookup_app_l by (rewrite length_take; lia).
    apply lookup_take_lt. lia.
Qed.

(** The slots a head move by [offs] passes are the ones made fresh. *)
Lemma advance_slots mx hd vl a offs :
  ring_wf mx hd vl a -> 0 <= offs <= vl ->
  exists a', (if NR_CREDIT_ENTRIES <=? u32 (hd + offs) then
      let! a1 := MEMSET a hd mx (NR_CREDIT_ENTRIES - hd) in
      MEMSET a1 0 mx (offs - (NR_CREDIT_ENTRIES - hd))
    else MEMSET a hd mx offs) = Ok a' /\ length a' = length a /\
    forall j, 0 <= j < NR_CREDIT_ENTRIES ->
      zget a' j = if dist hd j <? offs then Some (u8 mx) else zget a j.
Proof.
  intros [Hl Hh Hv _ _] Ho. pose proof NR_range. rewrite u32_id by lia.
  destruct (Z.leb_spec NR_CREDIT_ENTRIES (hd + offs)).
  - destruct (MEMSET_spec a hd mx (NR_CREDIT_ENTRIES - hd)) as (a1 & -> & Hl1 & H1); [lia..|].
    cbn [rbind].
    destruct (MEMSET_spec a1 0 mx (offs - (NR_CREDIT_ENTRIES - hd))) as (a2 & -> & Hl2 & H2); [lia..|].
    exists a2. split; [done|]. split; [congruence|]. intros j Hj.
    rewrite H2, H1, dist_cases by lia. repeat case_match; try done; lia.
  - destruct (MEMSET_spec a hd mx offs) as (a1 & -> & Hl1 & H1); [lia..|].
    exists a1. split; [done|]. split; [done|]. intros j Hj.
    rewrite H1, dist_cases by lia. repeat case_match; try done; lia.
Qed.

Lemma dist_moved hd offs j :
  0 <= hd < NR_CREDIT_ENTRIES -> 0 <= offs <= NR_CREDIT_ENTRIES -> 0 <= j < NR_CREDIT_ENTRIES ->
  dist (u32 (hd + offs) mod NR_CREDIT_ENTRIES) j =
    if dist hd j <? offs then dist hd j - offs + NR_CREDIT_ENTRIES else dist hd j - offs.
Proof.
  intros Hh Ho Hj. pose proof NR_range. pose proof (dist_range hd j). rewrite u32_id by lia.
  unfold dist at 1. rewrite Zminus_mod_idemp_r.
  assert (E : (j - (hd + offs)) mod NR_CREDIT_ENTRIES = (dist hd j - offs) mod NR_CREDIT_ENTRIES).
  { unfold dist. rewrite Zminus_mod_idemp_l. f_equal. lia. }
  rewrite E. destruct (Z.ltb_spec (dist hd j) offs).
  - rewrite <- (Z_mod_plus_full _ 1). rewrite Z.mod_small by lia. lia.
  - apply Z.mod_small. lia.
Qed.

Lemma ring_advance mx hd vl a a' offs :
  ring_wf mx hd vl a -> 0 <= offs <= vl -> length a' = length a ->
  (forall j, 0 <= j < NR_CREDIT_ENTRIES ->
     zget a' j = if dist hd j <? offs then Some (u8 mx) else zget a j) ->
  ring_wf mx (u32 (hd + offs) mod NR_CREDIT_ENTRIES) (vl - offs) a'.
Proof.
  intros Hw Ho Hla Ha. destruct Hw as [Hl Hh Hv Hs Hf]. pose proof (u8_range mx). split; try lia.
  - pose proof NR_range. apply Z.mod_pos_bound. lia.
  - intros i x Hx. pose proof (zget_range _ _ _ Hx). rewrite Ha in Hx by lia.
    case_match; [injection Hx; lia|by apply (Hs i)].
  - intros i x Hx Hd. pose proof (zget_range _ _ _ Hx). rewrite Ha in Hx by lia.
    rewrite dist_moved in Hd by lia. case_match; [by injection Hx as <-|].
    apply (Hf i); [done|lia].
Qed.

(** [chmodel_advance] meets no fault; nothing but the clock and the ring moves. *)
Lemma chmodel_advance_spec ch now :
  chmodel_wf ch ->
  exists ch', chmodel_advance ch now = Ok ch' /\ chmodel_wf ch' /\ cur_time ch' = now /\
    max_credits ch' = max_credits ch /\ xfer_lat ch' = xfer_lat ch /\
    command_credits ch' = command_credits ch /\ valid_len ch' <= valid_len ch.
Proof.
  intros [Hr Hm]. unfold chmodel_advance.
  set (offs0 := u32 (now / UNIT_TIME_INTERVAL - cur_time ch / UNIT_TIME_INTERVAL)).
  set (offs := if offs0 <? valid_len ch then offs0 else valid_len ch).
  assert (Ho : 0 <= offs <= valid_len ch).
  { unfold offs. assert (0 <= offs0) by apply u32_range.
    pose proof (ring_valid _ _ _ _ Hr). case_match; lia. }
  destruct (advance_slots _ _ _ _ offs Hr Ho) as (a' & -> & Hl & Ha). cbn [rbind].
  pose proof (ring_valid _ _ _ _ Hr). pose proof NR_range.
  rewrite (u32_id (valid_len ch - offs)) by lia.
  replace (NR_CREDIT_ENTRIES <? valid_len ch - offs) with false by lia. cbn.
  eexists; split; [done|]. split_and!; try done; cbn; [|lia]. split; [|done].
  by eapply (ring_advance _ _ (valid_len ch)).
Qed.

(** ** Reserving credits *)

(** What a request for [credits] credits from slot offset [offs] on does. *)
Record reserved (ch ch' : channel_model) (offs credits delay : Z) : Prop := {
  rv_wf : chmodel_wf ch';
  rv_time : cur_time ch' = cur_time ch;
  rv_head : head ch' = head ch;
  rv_max : max_credits ch' = max_credits ch;
  rv_lat : xfer_lat ch' = xfer_lat ch;
  rv_delay : 0 <= delay < NR_CREDIT_ENTRIES;
  (* no slot gains credits, and slots before the start are not touched *)
  rv_slot i x : zget (avail_credits ch') i = Some x ->
    exists y, zget (avail_credits ch) i = Some y /\ 0 <= x <= y;
  rv_before i : dist (head ch) i < offs -> zget (avail_credits ch') i = zget (avail_credits ch) i;
  (* exactly the credits asked for, unless the ring is exhausted from the start slot on *)
  rv_total : total (avail_credits ch) = total (avail_credits ch') + credits \/
    (total (avail_credits ch) <= total (avail_credits ch') + credits /\
     forall i x, zget (avail_credits ch') i = Some x -> offs <= dist (head ch) i -> x = 0);
  rv_idle : (forall i x, zget (avail_credits ch) i = Some x -> offs <= dist (head ch) i ->
      x = u8 (max_credits ch)) -> u8 (max_credits ch) * delay <= credits;
}.

Definition units_of (length : Z) : Z := u32 (DIV_ROUND_UP length UNIT_XFER_SIZE).
Definition credits_of (ch : channel_model) (length : Z) : Z :=
  u32 (u32 (units_of length * UNIT_XFER_CREDITS) + command_credits ch).

Lemma chmodel_reserve_spec ch req offs length :
  chmodel_wf ch -> 0 <= offs < NR_CREDIT_ENTRIES ->
  exists ch' delay,
    chmodel_reserve ch req offs length =
      Ok (u64 (req + u64 (u32 (xfer_lat ch * units_of length) +
            Z.max 0 (delay - credits_of ch length / max_credits ch) * UNIT_TIME_INTERVAL)), ch') /\
    reserved ch ch' offs (credits_of ch length) delay.
Proof.
  intros Hw Ho. destruct Hw as [Hr Hm]. destruct Hr as [Hl Hh Hv Hs Hf].
  unfold chmodel_reserve. fold (units_of length). fold (credits_of ch length).
  replace (max_credits ch =? 0) with false by lia.
  destruct (slot_at (head ch) offs Hh Ho) as [Hp Hd].
  set (pos := u32 (head ch + offs) mod NR_CREDIT_ENTRIES) in *.
  pose proof (u32_range (u32 (units_of length * UNIT_XFER_CREDITS) + command_credits ch)) as Hcr.
  fold (credits_of ch length) in Hcr. pose proof NR_range. pose proof (u8_range (max_credits ch)).
  destruct (consume_credits_spec (head ch) Hh (Z.to_nat NR_CREDIT_ENTRIES) (avail_credits ch) pos
    (credits_of ch length) 0) as (a' & pos' & k & HE & [C1 C2 C3 C4 C5 C6 C7 C8]); try lia.
  { intros i x Hx. pose proof (Hs _ _ Hx). lia. }
  rewrite HE. cbn [rbind]. rewrite Z.add_0_l. pose proof (dist_range (head ch) pos') as Hd'.
  set (vlen := if head ch <=? pos' then _ else _).
  assert (Hvl : vlen = dist (head ch) pos' + 1).
  { unfold vlen. rewrite dist_cases by lia. case_match; rewrite u32_id; lia. }
  eexists _, k. split.
  { f_equal. f_equal. f_equal. f_equal. f_equal. f_equal. case_match; lia. }
  split; cbn; try done; try lia.
  - split; cbn; [|done]. split; try lia.
    + case_match; lia.
    + intros i x Hx. destruct (C6 _ _ Hx) as (y & Hy & Hle & Hpos). pose proof (Hs _ _ Hy). lia.
    + intros i x Hx Hdi. rewrite C5 in Hx by (case_match; lia). apply (Hf i); [done|]. case_match; lia.
  - intros i x Hx. destruct (C6 _ _ Hx) as (y & Hy & Hle & Hpos). pose proof (Hs _ _ Hy).
    exists y. split; [done|]. lia.
  - intros i Hi. apply C5. lia.
  - destruct C7 as [?|[? C7]]; [by left|right]. split; [done|]. intros i x Hx Hi. apply (C7 i); [done|lia].
  - intros Hidle. apply C8; [lia|]. intros i x Hx Hi. rewrite (Hidle i x Hx); [done|lia].
Qed.

(** ** Initial state *)
Lemma max_credits_pos bw : 31 <= bw -> 1 <= BANDWIDTH_TO_MAX_CREDITS bw.
Proof.
  intros Hb. unfold BANDWIDTH_TO_MAX_CREDITS, MB, UNIT_TIME_INTERVAL, UNIT_XFER_SIZE, UNIT_XFER_CREDITS, NS_PER_SEC.
  rewrite Z.shiftl_mul_pow2 by lia. rewrite Z.mul_1_r. Z.to_euclidean_division_equations. lia.
Qed.

Lemma max_credits_bound bw : 0 <= bw < 2 ^ 30 -> 0 <= BANDWIDTH_TO_MAX_CREDITS bw < 2 ^ 32.
Proof.
  intros Hb. unfold BANDWIDTH_TO_MAX_CREDITS, MB, UNIT_TIME_INTERVAL, UNIT_XFER_SIZE, UNIT_XFER_CREDITS, NS_PER_SEC.
  rewrite Z.shiftl_mul_pow2 by lia. rewrite Z.mul_1_r. Z.to_euclidean_division_equations. lia.
Qed.

Lemma zget_replicate {A} n (x y : A) i : zget (replicate n x) i = Some y -> y = x.
Proof. unfold zget. case_match; [done|]. by intros [-> _]%lookup_replicate. Qed.

Lemma init_ring bw : ring_wf (u32 (BANDWIDTH_TO_MAX_CREDITS bw)) 0 0 (avail_credits (chmodel_init bw)).
Proof.
  pose proof NR_range. unfold chmodel_init. cbn [avail_credits]. split; try lia.
  - rewrite length_replicate. lia.
  - intros i x ->%zget_replicate. pose proof (u8_range (u32 (BANDWIDTH_TO_MAX_CREDITS bw))). lia.
  - by intros i x ->%zget_replicate.
Qed.

Lemma chmodel_init_wf bw : 31 <= bw < 2 ^ 30 -> chmodel_wf (chmodel_init bw).
Proof.
  intros Hb. split; [apply init_ring|]. cbn. pose proof (max_credits_pos bw). pose proof (max_credits_bound bw).
  rewrite u32_id; lia.
Qed.

(** ** The request handler *)

(** The slot offset of a request, and whether it lies in the ring's window. *)
Definition req_offs (now req : Z) : Z := u32 (req / UNIT_TIME_INTERVAL - now / UNIT_TIME_INTERVAL).
Definition in_window (now req : Z) : bool := (now <=? req) && (req_offs now req <? NR_CREDIT_ENTRIES).

(** Every request, at any clock, returns and leaves a well-formed ring; what it
    returns and does to the credits, by cases. *)
Lemma chmodel_request_spec now ch req length :
  chmodel_wf ch ->
  exists z ch' mid, chmodel_request_at now ch req length = Ok (z, ch') /\ chmodel_wf ch' /\
    chmodel_advance ch now = Ok mid /\ max_credits mid = max_credits ch /\
    xfer_lat mid = xfer_lat ch /\ chmodel_wf mid /\ valid_len mid <= valid_len ch /\
    if in_window now req then
      exists delay, reserved mid ch' (req_offs now req) (credits_of ch length) delay /\
        z = u64 (req + u64 (u32 (xfer_lat ch * units_of length) +
          Z.max 0 (delay - credits_of ch length / max_credits ch) * UNIT_TIME_INTERVAL))
    else z = req /\ ch' = mid.
Proof.
  intros Hw. destruct (chmodel_advance_spec ch now Hw) as (mid & Ha & Hwm & Ht & Hmx & Hx & Hc & Hv).
  assert (Hcr : credits_of mid length = credits_of ch length) by (unfold credits_of; by rewrite Hc).
  unfold chmodel_request_at, in_window. rewrite Ha. cbn [rbind].
  destruct (Z.ltb_spec req now).
  { replace (now <=? req) with false by lia. exists req, mid, mid. by split_and!. }
  replace (now <=? req) with true by lia. fold (req_offs now req).
  destruct (Z.leb_spec NR_CREDIT_ENTRIES (req_offs now req)).
  { replace (req_offs now req <? NR_CREDIT_ENTRIES) with false by lia.
    exists req, mid, mid. by split_and!. }
  replace (req_offs now req <? NR_CREDIT_ENTRIES) with true by lia. cbn [andb].
  assert (0 <= req_offs now req) by apply u32_range.
  destruct (chmodel_reserve_spec mid req (req_offs now req) length Hwm) as (ch' & delay & -> & Hr); [lia|].
  eexists _, ch', mid. split; [done|]. pose proof (rv_wf _ _ _ _ _ Hr).
  do 6 (split; [done|]). exists delay. rewrite Hcr, Hx, Hmx in *. done.
Qed.

Lemma chmodel_request_hoare req length :
  hoare chmodel_wf (chmodel_request req length) (fun _ => chmodel_wf).
Proof.
  intros c t ch Hw. unfold chmodel_request.
  destruct (chmodel_request_spec (c CPU_CLOCK t) ch req length Hw) as (z & ch' & mid & -> & Hw' & _).
  eauto 6.
Qed.

(** [chmodel_request] is total from a well-formed ring: at every clock value,
    request time and length the credit search ends without fault and the ring
    invariant holds again (slots outside the valid window have full credit). *)
Theorem chmodel_request_safe now ch req length :
  chmodel_wf ch ->
  exists z ch', chmodel_request_at now ch req length = Ok (z, ch') /\ chmodel_wf ch'.
Proof.
  intros Hw. destruct (chmodel_request_spec now ch req length Hw) as (z & ch' & mid & E & Hw' & _). eauto.
Qed.

Lemma chmodel_request_safe_witness :
  chmodel_wf (chmodel_init 800) /\
  exists z ch', chmodel_request_at 5 (chmodel_init 800) 7 4096 = Ok (z, ch') /\ chmodel_wf ch'.
Proof.
  assert (H : chmodel_wf (chmodel_init 800)) by (apply chmodel_init_wf; lia).
  split; [exact H|]. exact (chmodel_request_safe 5 (chmodel_init 800) 7 4096 H).
Defined.

(** C40: bandwidth is conserved: a request inside the window takes exactly the
    credits of its length out of the slots at and after its start, adds none
    anywhere, leaves the earlier slots alone; it takes fewer only when it has
    used up every slot from its start to the end of the ring. *)
Theorem chmodel_request_conserves now ch mid req length z ch' :
  chmodel_wf ch -> in_window now req = true ->
  chmodel_advance ch now = Ok mid -> chmodel_request_at now ch req length = Ok (z, ch') ->
  (total (avail_credits mid) = total (avail_credits ch') + credits_of ch length \/
   (total (avail_credits mid) <= total (avail_credits ch') + credits_of ch length /\
    forall i x, zget (avail_credits ch') i = Some x -> req_offs now req <= dist (head ch') i -> x = 0)) /\
  (forall i x, zget (avail_credits ch') i = Some x ->
     exists y, zget (avail_credits mid) i = Some y /\ 0 <= x <= y) /\
  (forall i, dist (head ch') i < req_offs now req ->
     zget (avail_credits ch') i = zget (avail_credits mid) i).
Proof.
  intros Hw Hin Ha Hq.
  destruct (chmodel_request_spec now ch req length Hw) as (z' & c' & m' & E & _ & Ea & _ & _ & _ & _ & Hc).
  rewrite Hin in Hc. destruct Hc as (delay & Hr & _).
  rewrite Ha in Ea. rewrite Hq in E. injection Ea as <-. injection E as <- <-.
  rewrite (rv_head _ _ _ _ _ Hr). split; [|split].
  - exact (rv_total _ _ _ _ _ Hr).
  - exact (rv_slot _ _ _ _ _ Hr).
  - exact (rv_before _ _ _ _ _ Hr).
Qed.

(** a request in the window never completes before its raw transfer time
    (when no 32/64-bit product wraps), and on a channel whose slots from the
    start time on are all unused it completes at exactly that time. *)
Theorem chmodel_request_latency now ch mid req length z ch' :
  chmodel_wf ch -> max_credits ch < 2 ^ 8 -> 0 <= req < 2 ^ 62 -> in_window now req = true ->
  xfer_lat ch * units_of length < 2 ^ 32 -> 0 <= xfer_lat ch ->
  chmodel_advance ch now = Ok mid -> chmodel_request_at now ch req length = Ok (z, ch') ->
  req + xfer_lat ch * units_of length <= z /\
  ((forall i x, zget (avail_credits mid) i = Some x -> req_offs now req <= dist (head mid) i ->
      x = max_credits ch) ->
   z = req + xfer_lat ch * units_of length).
Proof.
  intros Hw Hmx Hreq Hin Hlat Hx0 Ha Hq. pose proof (cw_max _ Hw) as Hpos.
  destruct (chmodel_request_spec now ch req length Hw) as (z' & c' & m' & E & _ & Ea & Em & _ & _ & _ & Hc).
  rewrite Hin in Hc. destruct Hc as (delay & Hr & Hz).
  rewrite Ha in Ea. rewrite Hq in E. injection Ea as <-. injection E as <- <-. rewrite Hz. clear Hz.
  assert (0 <= units_of length) by apply u32_range.
  assert (0 <= credits_of ch length) by apply u32_range.
  pose proof (rv_delay _ _ _ _ _ Hr) as Hd. pose proof NR_range.
  set (base := xfer_lat ch * units_of length) in *. assert (0 <= base) by (unfold base; lia).
  set (extra := Z.max 0 (delay - credits_of ch length / max_credits ch)) in *.
  assert (He : 0 <= extra < 2 ^ 31).
  { unfold extra. pose proof (Z.div_pos (credits_of ch length) (max_credits ch)). lia. }
  rewrite (u32_id base) by lia. unfold UNIT_TIME_INTERVAL. rewrite (u64_id (base + _)), u64_id by lia.
  split; [lia|]. intros Hidle.
  assert (extra = 0); [|lia]. unfold extra.
  pose proof (rv_idle _ _ _ _ _ Hr) as Hi. rewrite Em, u8_id in Hi by lia. specialize (Hi Hidle).
  pose proof (Z.div_le_lower_bound (credits_of ch length) (max_credits ch) delay). lia.
Qed.

Section Witnesses.

Let c := chmodel_init 800.

Lemma demo_model_wf : chmodel_wf c.
Proof. apply chmodel_init_wf. lia. Qed.

Lemma demo_idle mid i x :
  chmodel_wf mid -> valid_len mid <= valid_len c -> max_credits mid = max_credits c ->
  zget (avail_credits mid) i = Some x -> x = max_credits c.
Proof.
  intros [Hr _] Hv Hm Hx. rewrite (ring_fresh _ _ _ _ Hr i x Hx), Hm.
  - by vm_compute.
  - pose proof (dist_range (head mid) i). change (valid_len c) with 0 in Hv. lia.
Qed.

End Witnesses.

(** 4 KiB on a fresh 800 MB/s channel: 32 units of 152 ns each. *)
Lemma chmodel_request_latency_witness :
  exists mid ch',
    chmodel_advance (chmodel_init 800) 5 = Ok mid /\
    chmodel_request_at 5 (chmodel_init 800) 7 4096 = Ok (7 + 152 * 32, ch').
Proof.
  destruct (chmodel_request_spec 5 _ 7 4096 demo_model_wf)
    as (z & ch' & mid & E & _ & Ea & Em & _ & Hw & Hv & _).
  exists mid, ch'. split; [exact Ea|]. rewrite E.
  destruct (chmodel_request_latency 5 _ mid 7 4096 z ch' demo_model_wf) as [_ Hz];
    [by vm_compute|lia|by vm_compute|by vm_compute|by vm_compute|exact Ea|exact E|].
  rewrite Hz; [reflexivity|]. intros i x Hx _. by apply (demo_idle mid i).
Defined.

Lemma chmodel_request_conserves_witness :
  exists mid z ch',
    chmodel_advance (chmodel_init 800) 5 = Ok mid /\
    chmodel_request_at 5 (chmodel_init 800) 7 4096 = Ok (z, ch') /\
    (total (avail_credits mid) = total (avail_credits ch') + 32 \/
     (total (avail_credits mid) <= total (avail_credits ch') + 32 /\
      forall i x, zget (avail_credits ch') i = Some x -> 0 <= dist (head ch') i -> x = 0)).
Proof.
  destruct (chmodel_request_spec 5 _ 7 4096 demo_model_wf) as (z & ch' & mid & E & _ & Ea & _).
  exists mid, z, ch'. split; [exact Ea|]. split; [exact E|].
  exact (proj1 (chmodel_request_conserves 5 _ mid 7 4096 z ch' demo_model_wf eq_refl Ea E)).
Defined.
