(* ===== verification/Config.v ===== *)
(** * ssd_config.h: the device profiles, and the constants of ssd.h

    A build selects one profile ([BASE_SSD]); a profile is a record of the
    macros the modelled code reads.  [SLC_PORTION] and the SLC latencies exist
    in the 970 PRO profile only; the other profiles hold 0 there and the code
    that reads them is not built with those profiles. *)

From Stdlib Require Import ZArith Lia.
From stdpp Require Import base list numbers.
From S2P Require Import Prelude.

(** Cell modes. *)
Definition CELL_MODE_UNKNOWN : Z := 0.
Definition CELL_MODE_SLC : Z := 1.
Definition CELL_MODE_MLC : Z := 2.
Definition CELL_MODE_TLC : Z := 3.
Definition CELL_MODE_QLC : Z := 4.

Definition ENABLE_SLC_CACHE : bool := true.

Definition LBA_BITS : Z := 9.
Definition LBA_SIZE : Z := Z.shiftl 1 LBA_BITS.
Definition LBA_TO_BYTE (lba : Z) : Z := Z.shiftl lba LBA_BITS.
Definition BYTE_TO_LBA (b : Z) : Z := Z.shiftr b LBA_BITS.

Record ssd_config : Type := mk_config {
  CELL_MODE : Z;
  SSD_PARTITIONS : Z;
  NAND_CHANNELS : Z;
  LUNS_PER_NAND_CH : Z;
  PLNS_PER_LUN : Z;
  FLASH_PAGE_SIZE : Z;
  ONESHOT_PAGE_SIZE : Z;
  BLKS_PER_PLN : Z;
  BLK_SIZE : Z;
  MAX_CH_XFER_SIZE : Z;
  WRITE_UNIT_SIZE : Z;
  NAND_CHANNEL_BANDWIDTH : Z;
  PCIE_BANDWIDTH : Z;
  NAND_4KB_READ_LATENCY : list Z;   (* LSB, MSB, CSB *)
  NAND_READ_LATENCY : list Z;       (* LSB, MSB, CSB *)
  NAND_PROG_LATENCY : Z;
  NAND_ERASE_LATENCY : Z;
  SLC_PORTION : Z;
  SLC_ONESHOT_PAGE_SIZE : Z;
  NAND_4KB_READ_LATENCY_SLC : Z;
  NAND_READ_LATENCY_SLC : Z;
  NAND_PROG_LATENCY_SLC : Z;
  NAND_ERASE_LATENCY_SLC : Z;
  FW_4KB_READ_LATENCY : Z;
  FW_READ_LATENCY : Z;
  FW_WBUF_LATENCY0 : Z;
  FW_WBUF_LATENCY1 : Z;
  FW_CH_XFER_LATENCY : Z;
  OP_AREA_PERCENT_x100 : Z;         (* 100 * OP_AREA_PERCENT *)
  GLOBAL_WB_SIZE : Z;
  WRITE_EARLY_COMPLETION : bool;
  DIES_PER_ZONE : Z;
  ZONE_SIZE : Z;
  ZONE_WB_SIZE : Z;
  MAX_ZRWA_ZONES : Z;
  ZRWAFG_SIZE : Z;
  ZRWA_SIZE : Z;
  ZRWA_BUFFER_SIZE : Z;
}.

Definition SAMSUNG_970PRO : ssd_config := {|
  CELL_MODE := CELL_MODE_TLC;
  SSD_PARTITIONS := 4;
  NAND_CHANNELS := 4;
  LUNS_PER_NAND_CH := 4;
  PLNS_PER_LUN := 1;
  FLASH_PAGE_SIZE := KB 16;
  ONESHOT_PAGE_SIZE := KB 16 * 3;
  BLKS_PER_PLN := 1024;
  BLK_SIZE := 0;
  MAX_CH_XFER_SIZE := KB 16;
  WRITE_UNIT_SIZE := 512;
  NAND_CHANNEL_BANDWIDTH := 800;
  PCIE_BANDWIDTH := 3360;
  NAND_4KB_READ_LATENCY := [35760 - 6000; 35760 + 6000; 35760];
  NAND_READ_LATENCY := [36013 - 6000; 36013 + 6000; 36013];
  NAND_PROG_LATENCY := 185000;
  NAND_ERASE_LATENCY := 0;
  SLC_PORTION := 10;
  SLC_ONESHOT_PAGE_SIZE := KB 16;
  NAND_4KB_READ_LATENCY_SLC := 16254;
  NAND_READ_LATENCY_SLC := 16369;
  NAND_PROG_LATENCY_SLC := 40547;
  NAND_ERASE_LATENCY_SLC := 0;
  FW_4KB_READ_LATENCY := 21500;
  FW_READ_LATENCY := 30490;
  FW_WBUF_LATENCY0 := 4000;
  FW_WBUF_LATENCY1 := 460;
  FW_CH_XFER_LATENCY := 0;
  OP_AREA_PERCENT_x100 := 7;
  GLOBAL_WB_SIZE := 4 * 4 * (KB 16 * 3) * 2;
  WRITE_EARLY_COMPLETION := true;
  DIES_PER_ZONE := 0;
  ZONE_SIZE := 0;
  ZONE_WB_SIZE := 0;
  MAX_ZRWA_ZONES := 0;
  ZRWAFG_SIZE := 0;
  ZRWA_SIZE := 0;
  ZRWA_BUFFER_SIZE := 0;
|}.

Definition ZNS_PROTOTYPE : ssd_config := {|
  CELL_MODE := CELL_MODE_TLC;
  SSD_PARTITIONS := 1;
  NAND_CHANNELS := 8;
  LUNS_PER_NAND_CH := 16;
  PLNS_PER_LUN := 1;
  FLASH_PAGE_SIZE := KB 64;
  ONESHOT_PAGE_SIZE := KB 64 * 2;
  BLKS_PER_PLN := 0;
  BLK_SIZE := MB 32 / 1;
  MAX_CH_XFER_SIZE := KB 64;
  WRITE_UNIT_SIZE := KB 64 * 2;
  NAND_CHANNEL_BANDWIDTH := 800;
  PCIE_BANDWIDTH := 3200;
  NAND_4KB_READ_LATENCY := [25485; 25485; 25485];
  NAND_READ_LATENCY := [40950; 40950; 40950];
  NAND_PROG_LATENCY := 1913640;
  NAND_ERASE_LATENCY := 0;
  SLC_PORTION := 0;
  SLC_ONESHOT_PAGE_SIZE := 0;
  NAND_4KB_READ_LATENCY_SLC := 0;
  NAND_READ_LATENCY_SLC := 0;
  NAND_PROG_LATENCY_SLC := 0;
  NAND_ERASE_LATENCY_SLC := 0;
  FW_4KB_READ_LATENCY := 37540 - 7390 + 2000;
  FW_READ_LATENCY := 37540 - 7390 + 2000;
  FW_WBUF_LATENCY0 := 0;
  FW_WBUF_LATENCY1 := 0;
  FW_CH_XFER_LATENCY := 413;
  OP_AREA_PERCENT_x100 := 0;
  GLOBAL_WB_SIZE := 8 * 16 * (KB 64 * 2) * 2;
  WRITE_EARLY_COMPLETION := false;
  DIES_PER_ZONE := 1;
  ZONE_SIZE := MB 32;
  ZONE_WB_SIZE := 0;
  MAX_ZRWA_ZONES := 0;
  ZRWAFG_SIZE := 0;
  ZRWA_SIZE := 0;
  ZRWA_BUFFER_SIZE := 0;
|}.

Definition WD_ZN540 : ssd_config := {|
  CELL_MODE := CELL_MODE_TLC;
  SSD_PARTITIONS := 1;
  NAND_CHANNELS := 8;
  LUNS_PER_NAND_CH := 4;
  PLNS_PER_LUN := 1;
  FLASH_PAGE_SIZE := KB 32;
  ONESHOT_PAGE_SIZE := KB 32 * 3;
  BLKS_PER_PLN := 0;
  BLK_SIZE := GB 2 / (8 * 4);
  MAX_CH_XFER_SIZE := KB 32;
  WRITE_UNIT_SIZE := 512;
  NAND_CHANNEL_BANDWIDTH := 450;
  PCIE_BANDWIDTH := 3050;
  NAND_4KB_READ_LATENCY := [50000; 50000; 50000];
  NAND_READ_LATENCY := [58000; 58000; 58000];
  NAND_PROG_LATENCY := 561000;
  NAND_ERASE_LATENCY := 0;
  SLC_PORTION := 0;
  SLC_ONESHOT_PAGE_SIZE := 0;
  NAND_4KB_READ_LATENCY_SLC := 0;
  NAND_READ_LATENCY_SLC := 0;
  NAND_PROG_LATENCY_SLC := 0;
  NAND_ERASE_LATENCY_SLC := 0;
  FW_4KB_READ_LATENCY := 20000;
  FW_READ_LATENCY := 13000;
  FW_WBUF_LATENCY0 := 5600;
  FW_WBUF_LATENCY1 := 600;
  FW_CH_XFER_LATENCY := 0;
  OP_AREA_PERCENT_x100 := 0;
  GLOBAL_WB_SIZE := 0;
  WRITE_EARLY_COMPLETION := true;
  DIES_PER_ZONE := 8 * 4;
  ZONE_SIZE := GB 2;
  ZONE_WB_SIZE := 10 * (KB 32 * 3);
  MAX_ZRWA_ZONES := 0;
  ZRWAFG_SIZE := 0;
  ZRWA_SIZE := 0;
  ZRWA_BUFFER_SIZE := 0;
|}.
