(* ===== verification/SsdParams.v ===== *)
(** * ssd.h / ssd.c: the geometry and timing parameters of an SSD instance

    [ssdparams] is [struct ssdparams]; [ssd_init_params] and
    [ssd_init_params_slc] fill it from a profile, the capacity and the number of
    partitions.  The structure lives on the caller's stack: the fields a
    function does not assign keep what was there, so the initial contents are
    an argument.  [slc_geometry] is what the conventional FTL relies on;
    [ssd_init_params_slc_geometry] establishes it for the 970 PRO profile. *)

From Stdlib Require Import ZArith Lia.
From stdpp Require Import base list numbers.
From S2P Require Import Prelude Config.

Record ssdparams : Type := mk_ssdparams {
  secsz : Z;
  secs_per_pg : Z;
  pgsz : Z;
  pgs_per_flashpg : Z;
  flashpgs_per_blk : Z;
  pgs_per_oneshotpg : Z;
  oneshotpgs_per_blk : Z;
  pgs_per_blk : Z;
  blks_per_pl : Z;
  pls_per_lun : Z;
  luns_per_ch : Z;
  nchs : Z;
  cell_mode : Z;

  write_unit_size : Z;
  write_early_completion : bool;

  pg_4kb_rd_lat : list Z;    (* [MAX_CELL_TYPES] *)
  pg_rd_lat : list Z;        (* [MAX_CELL_TYPES] *)
  pg_wr_lat : Z;
  blk_er_lat : Z;
  max_ch_xfer_size : Z;

  fw_4kb_rd_lat : Z;
  fw_rd_lat : Z;
  fw_wbuf_lat0 : Z;
  fw_wbuf_lat1 : Z;
  fw_ch_xfer_lat : Z;

  ch_bandwidth : Z;
  pcie_bandwidth : Z;

  secs_per_blk : Z;
  secs_per_pl : Z;
  secs_per_lun : Z;
  secs_per_ch : Z;
  tt_secs : Z;

  pgs_per_pl : Z;
  pgs_per_lun : Z;
  pgs_per_ch : Z;
  tt_pgs : Z;

  blks_per_lun : Z;
  blks_per_ch : Z;
  tt_blks : Z;

  secs_per_line : Z;
  pgs_per_line : Z;
  blks_per_line : Z;
  tt_lines : Z;

  pls_per_ch : Z;
  tt_pls : Z;
  tt_luns : Z;

  pg_4kb_rd_lat_slc : Z;
  pg_rd_lat_slc : Z;
  pg_wr_lat_slc : Z;
  blk_er_lat_slc : Z;

  flashpgs_per_blk_slc : Z;
  oneshotpgs_per_blk_slc : Z;
  pgs_per_oneshotpg_slc : Z;
  pgs_per_blk_slc : Z;
  secs_per_blk_slc : Z;
  secs_per_line_slc : Z;
  pgs_per_line_slc : Z;
  tt_lines_tlc : Z;
  tt_lines_slc : Z;

  write_buffer_size : Z;
}.

(** Block count and size: one is configured, the other follows from the capacity. *)
Definition init_blocks (cfg : ssd_config) (capacity chs : Z) : res (Z * Z) :=
  let per_blk := i32 (i32 (PLNS_PER_LUN cfg * LUNS_PER_NAND_CH cfg) * chs) in
  if 0 <? BLKS_PER_PLN cfg then
    let d := u64 (i32 (BLKS_PER_PLN cfg * per_blk)) in
    if d =? 0 then Err DivByZero
    else Ok (i32 (BLKS_PER_PLN cfg), DIV_ROUND_UP capacity d)
  else
    rassert (0 <? BLK_SIZE cfg) ;;;
    let d := u64 (BLK_SIZE cfg * per_blk) in
    if d =? 0 then Err DivByZero
    else Ok (i32 (DIV_ROUND_UP capacity d), BLK_SIZE cfg).

(** [ssd_init_params]; [spp] is the structure before the call. *)
Definition ssd_init_params (cfg : ssd_config) (spp : ssdparams) (capacity nparts : Z) : res ssdparams :=
  let secsz' := LBA_SIZE in
  let secs_per_pg' := 4096 / LBA_SIZE in
  let pgsz' := i32 (secsz' * secs_per_pg') in
  if nparts =? 0 then Err DivByZero else
  rassert (u32 (NAND_CHANNELS cfg) mod nparts =? 0) ;;;
  let nchs' := i32 (u32 (NAND_CHANNELS cfg) / nparts) in
  let capacity := capacity / nparts in
  let! (blks_per_pl', blk_size) := init_blocks cfg capacity nchs' in
  rassert ((ONESHOT_PAGE_SIZE cfg mod pgsz' =? 0) && (FLASH_PAGE_SIZE cfg mod pgsz' =? 0)) ;;;
  rassert (ONESHOT_PAGE_SIZE cfg mod FLASH_PAGE_SIZE cfg =? 0) ;;;
  let pgs_per_oneshotpg' := ONESHOT_PAGE_SIZE cfg / pgsz' in
  let oneshotpgs_per_blk' := i32 (DIV_ROUND_UP blk_size (ONESHOT_PAGE_SIZE cfg)) in
  let pgs_per_flashpg' := FLASH_PAGE_SIZE cfg / pgsz' in
  let flashpgs_per_blk' := i32 (ONESHOT_PAGE_SIZE cfg / FLASH_PAGE_SIZE cfg * oneshotpgs_per_blk') in
  let pgs_per_blk' := i32 (pgs_per_oneshotpg' * oneshotpgs_per_blk') in
  let pls_per_lun' := PLNS_PER_LUN cfg in
  let luns_per_ch' := LUNS_PER_NAND_CH cfg in
  let secs_per_blk' := u64 (i32 (secs_per_pg' * pgs_per_blk')) in
  let secs_per_pl' := u64 (secs_per_blk' * blks_per_pl') in
  let secs_per_lun' := u64 (secs_per_pl' * pls_per_lun') in
  let secs_per_ch' := u64 (secs_per_lun' * luns_per_ch') in
  let tt_secs' := u64 (secs_per_ch' * nchs') in
  let pgs_per_pl' := u64 (i32 (pgs_per_blk' * blks_per_pl')) in
  let pgs_per_lun' := u64 (pgs_per_pl' * pls_per_lun') in
  let pgs_per_ch' := u64 (pgs_per_lun' * luns_per_ch') in
  let tt_pgs' := u64 (pgs_per_ch' * nchs') in
  let blks_per_lun' := u64 (i32 (blks_per_pl' * pls_per_lun')) in
  let blks_per_ch' := u64 (blks_per_lun' * luns_per_ch') in
  let tt_blks' := u64 (blks_per_ch' * nchs') in
  let pls_per_ch' := u64 (i32 (pls_per_lun' * luns_per_ch')) in
  let tt_pls' := u64 (pls_per_ch' * nchs') in
  let tt_luns' := u64 (i32 (luns_per_ch' * nchs')) in
  let blks_per_line' := tt_luns' in
  let pgs_per_line' := u64 (blks_per_line' * pgs_per_blk') in
  let secs_per_line' := u64 (pgs_per_line' * secs_per_pg') in
  Ok {|
    secsz := secsz';
    secs_per_pg := secs_per_pg';
    pgsz := pgsz';
    pgs_per_flashpg := pgs_per_flashpg';
    flashpgs_per_blk := flashpgs_per_blk';
    pgs_per_oneshotpg := pgs_per_oneshotpg';
    oneshotpgs_per_blk := oneshotpgs_per_blk';
    pgs_per_blk := pgs_per_blk';
    blks_per_pl := blks_per_pl';
    pls_per_lun := pls_per_lun';
    luns_per_ch := luns_per_ch';
    nchs := nchs';
    cell_mode := CELL_MODE cfg;
    write_unit_size := WRITE_UNIT_SIZE cfg;
    write_early_completion := WRITE_EARLY_COMPLETION cfg;
    pg_4kb_rd_lat := NAND_4KB_READ_LATENCY cfg;
    pg_rd_lat := NAND_READ_LATENCY cfg;
    pg_wr_lat := NAND_PROG_LATENCY cfg;
    blk_er_lat := NAND_ERASE_LATENCY cfg;
    max_ch_xfer_size := MAX_CH_XFER_SIZE cfg;
    fw_4kb_rd_lat := FW_4KB_READ_LATENCY cfg;
    fw_rd_lat := FW_READ_LATENCY cfg;
    fw_wbuf_lat0 := FW_WBUF_LATENCY0 cfg;
    fw_wbuf_lat1 := FW_WBUF_LATENCY1 cfg;
    fw_ch_xfer_lat := FW_CH_XFER_LATENCY cfg;
    ch_bandwidth := NAND_CHANNEL_BANDWIDTH cfg;
    pcie_bandwidth := PCIE_BANDWIDTH cfg;
    secs_per_blk := secs_per_blk';
    secs_per_pl := secs_per_pl';
    secs_per_lun := secs_per_lun';
    secs_per_ch := secs_per_ch';
    tt_secs := tt_secs';
    pgs_per_pl := pgs_per_pl';
    pgs_per_lun := pgs_per_lun';
    pgs_per_ch := pgs_per_ch';
    tt_pgs := tt_pgs';
    blks_per_lun := blks_per_lun';
    blks_per_ch := blks_per_ch';
    tt_blks := tt_blks';
    secs_per_line := secs_per_line';
    pgs_per_line := pgs_per_line';
    blks_per_line := blks_per_line';
    tt_lines := blks_per_lun';
    pls_per_ch := pls_per_ch';
    tt_pls := tt_pls';
    tt_luns := tt_luns';
    (* not assigned by this function *)
    pg_4kb_rd_lat_slc := pg_4kb_rd_lat_slc spp;
    pg_rd_lat_slc := pg_rd_lat_slc spp;
    pg_wr_lat_slc := pg_wr_lat_slc spp;
    blk_er_lat_slc := blk_er_lat_slc spp;
    flashpgs_per_blk_slc := flashpgs_per_blk_slc spp;
    oneshotpgs_per_blk_slc := oneshotpgs_per_blk_slc spp;
    pgs_per_oneshotpg_slc := pgs_per_oneshotpg_slc spp;
    pgs_per_blk_slc := pgs_per_blk_slc spp;
    secs_per_blk_slc := secs_per_blk_slc spp;
    secs_per_line_slc := secs_per_line_slc spp;
    pgs_per_line_slc := pgs_per_line_slc spp;
    tt_lines_tlc := tt_lines_tlc spp;
    tt_lines_slc := tt_lines_slc spp;
    write_buffer_size := GLOBAL_WB_SIZE cfg;
  |}.

(** [ssd_init_params_slc]: the blocks below [tt_lines_slc] of every plane are SLC
    blocks, with as many oneshot pages of a smaller size. *)
Definition ssd_init_params_slc (cfg : ssd_config) (capacity nparts : Z) : res ssdparams :=
  let secsz' := LBA_SIZE in
  let secs_per_pg' := 4096 / LBA_SIZE in
  let pgsz' := i32 (secsz' * secs_per_pg') in
  if nparts =? 0 then Err DivByZero else
  rassert (u32 (NAND_CHANNELS cfg) mod nparts =? 0) ;;;
  let nchs' := i32 (u32 (NAND_CHANNELS cfg) / nparts) in
  let capacity := capacity / nparts in
  let! (blks_per_pl', blk_size) := init_blocks cfg capacity nchs' in
  let tt_lines' := u64 blks_per_pl' in
  rassert ((ONESHOT_PAGE_SIZE cfg mod pgsz' =? 0) && (FLASH_PAGE_SIZE cfg mod pgsz' =? 0)) ;;;
  rassert (ONESHOT_PAGE_SIZE cfg mod FLASH_PAGE_SIZE cfg =? 0) ;;;
  let pgs_per_oneshotpg' := ONESHOT_PAGE_SIZE cfg / pgsz' in
  let oneshotpgs_per_blk' := i32 (DIV_ROUND_UP blk_size (ONESHOT_PAGE_SIZE cfg)) in
  let pgs_per_flashpg' := FLASH_PAGE_SIZE cfg / pgsz' in
  let flashpgs_per_blk' := i32 (ONESHOT_PAGE_SIZE cfg / FLASH_PAGE_SIZE cfg * oneshotpgs_per_blk') in
  let pgs_per_blk' := i32 (pgs_per_oneshotpg' * oneshotpgs_per_blk') in
  let pls_per_lun' := PLNS_PER_LUN cfg in
  let luns_per_ch' := LUNS_PER_NAND_CH cfg in
  let oneshotpgs_per_blk_slc' := oneshotpgs_per_blk' in
  let pgs_per_oneshotpg_slc' := SLC_ONESHOT_PAGE_SIZE cfg / pgsz' in
  let flashpgs_per_blk_slc' :=
    i32 (SLC_ONESHOT_PAGE_SIZE cfg / FLASH_PAGE_SIZE cfg * oneshotpgs_per_blk_slc') in
  let pgs_per_blk_slc' := i32 (pgs_per_oneshotpg_slc' * oneshotpgs_per_blk_slc') in
  let tt_lines_slc' := i32 (u64 (tt_lines' * SLC_PORTION cfg) / 100) in
  let tt_lines_tlc' := i32 (u64 (tt_lines' - tt_lines_slc')) in
  let secs_per_blk' := u64 (i32 (secs_per_pg' * pgs_per_blk')) in
  let secs_per_blk_slc' := i32 (secs_per_pg' * pgs_per_blk_slc') in
  let secs_per_pl' := u64 (secs_per_blk' * tt_lines_tlc' + i32 (secs_per_blk_slc' * tt_lines_slc')) in
  let secs_per_lun' := u64 (secs_per_pl' * pls_per_lun') in
  let secs_per_ch' := u64 (secs_per_lun' * luns_per_ch') in
  let tt_secs' := u64 (secs_per_ch' * nchs') in
  let pgs_per_pl' :=
    u64 (i32 (i32 (pgs_per_blk_slc' * tt_lines_slc') + i32 (pgs_per_blk' * tt_lines_tlc'))) in
  let pgs_per_lun' := u64 (pgs_per_pl' * pls_per_lun') in
  let pgs_per_ch' := u64 (pgs_per_lun' * luns_per_ch') in
  let tt_pgs' := u64 (pgs_per_ch' * nchs') in
  let blks_per_lun' := u64 (i32 (blks_per_pl' * pls_per_lun')) in
  let blks_per_ch' := u64 (blks_per_lun' * luns_per_ch') in
  let tt_blks' := u64 (blks_per_ch' * nchs') in
  let pls_per_ch' := u64 (i32 (pls_per_lun' * luns_per_ch')) in
  let tt_pls' := u64 (pls_per_ch' * nchs') in
  let tt_luns' := u64 (i32 (luns_per_ch' * nchs')) in
  let blks_per_line' := tt_luns' in
  let pgs_per_line_slc' := i32 (u64 (blks_per_line' * pgs_per_blk_slc')) in
  let secs_per_line_slc' := i32 (secs_per_pg' * pgs_per_line_slc') in
  let pgs_per_line' := u64 (blks_per_line' * pgs_per_blk') in
  let secs_per_line' := u64 (pgs_per_line' * secs_per_pg') in
  rassert (BLKS_PER_PLN cfg =? tt_lines') ;;;
  Ok {|
    secsz := secsz';
    secs_per_pg := secs_per_pg';
    pgsz := pgsz';
    pgs_per_flashpg := pgs_per_flashpg';
    flashpgs_per_blk := flashpgs_per_blk';
    pgs_per_oneshotpg := pgs_per_oneshotpg';
    oneshotpgs_per_blk := oneshotpgs_per_blk';
    pgs_per_blk := pgs_per_blk';
    blks_per_pl := blks_per_pl';
    pls_per_lun := pls_per_lun';
    luns_per_ch := luns_per_ch';
    nchs := nchs';
    cell_mode := CELL_MODE cfg;
    write_unit_size := WRITE_UNIT_SIZE cfg;
    write_early_completion := WRITE_EARLY_COMPLETION cfg;
    pg_4kb_rd_lat := NAND_4KB_READ_LATENCY cfg;
    pg_rd_lat := NAND_READ_LATENCY cfg;
    pg_wr_lat := NAND_PROG_LATENCY cfg;
    blk_er_lat := NAND_ERASE_LATENCY cfg;
    max_ch_xfer_size := MAX_CH_XFER_SIZE cfg;
    fw_4kb_rd_lat := FW_4KB_READ_LATENCY cfg;
    fw_rd_lat := FW_READ_LATENCY cfg;
    fw_wbuf_lat0 := FW_WBUF_LATENCY0 cfg;
    fw_wbuf_lat1 := FW_WBUF_LATENCY1 cfg;
    fw_ch_xfer_lat := FW_CH_XFER_LATENCY cfg;
    ch_bandwidth := NAND_CHANNEL_BANDWIDTH cfg;
    pcie_bandwidth := PCIE_BANDWIDTH cfg;
    secs_per_blk := secs_per_blk';
    secs_per_pl := secs_per_pl';
    secs_per_lun := secs_per_lun';
    secs_per_ch := secs_per_ch';
    tt_secs := tt_secs';
    pgs_per_pl := pgs_per_pl';
    pgs_per_lun := pgs_per_lun';
    pgs_per_ch := pgs_per_ch';
    tt_pgs := tt_pgs';
    blks_per_lun := blks_per_lun';
    blks_per_ch := blks_per_ch';
    tt_blks := tt_blks';
    secs_per_line := secs_per_line';
    pgs_per_line := pgs_per_line';
    blks_per_line := blks_per_line';
    tt_lines := tt_lines';
    pls_per_ch := pls_per_ch';
    tt_pls := tt_pls';
    tt_luns := tt_luns';
    pg_4kb_rd_lat_slc := NAND_4KB_READ_LATENCY_SLC cfg;
    pg_rd_lat_slc := NAND_READ_LATENCY_SLC cfg;
    pg_wr_lat_slc := NAND_PROG_LATENCY_SLC cfg;
    blk_er_lat_slc := NAND_ERASE_LATENCY_SLC cfg;
    flashpgs_per_blk_slc := flashpgs_per_blk_slc';
    oneshotpgs_per_blk_slc := oneshotpgs_per_blk_slc';
    pgs_per_oneshotpg_slc := pgs_per_oneshotpg_slc';
    pgs_per_blk_slc := pgs_per_blk_slc';
    secs_per_blk_slc := secs_per_blk_slc';
    secs_per_line_slc := secs_per_line_slc';
    pgs_per_line_slc := pgs_per_line_slc';
    tt_lines_tlc := tt_lines_tlc';
    tt_lines_slc := tt_lines_slc';
    write_buffer_size := GLOBAL_WB_SIZE cfg;
  |}.

(** ** The geometry the SLC-cached FTL relies on *)
Record slc_geometry (spp : ssdparams) : Prop := {
  geo_nchs : 1 <= nchs spp < 2 ^ 8;
  geo_luns : 1 <= luns_per_ch spp < 2 ^ 8;
  geo_pls : pls_per_lun spp = 1;
  geo_tt_lines : tt_lines spp = blks_per_pl spp;
  geo_lines : blks_per_pl spp = tt_lines_slc spp + tt_lines_tlc spp;
  geo_blks : blks_per_pl spp < 2 ^ 16;
  geo_slc : 4 <= tt_lines_slc spp;
  geo_tlc : 4 <= tt_lines_tlc spp;
  geo_flash : 1 <= pgs_per_flashpg spp;
  geo_oneshot : 1 <= pgs_per_oneshotpg spp;
  geo_oneshot_slc : 1 <= pgs_per_oneshotpg_slc spp;
  geo_wordlines : 1 <= oneshotpgs_per_blk spp;
  geo_wordlines_slc : 1 <= oneshotpgs_per_blk_slc spp;
  geo_blk : pgs_per_blk spp = pgs_per_oneshotpg spp * oneshotpgs_per_blk spp;
  geo_blk_slc : pgs_per_blk_slc spp = pgs_per_oneshotpg_slc spp * oneshotpgs_per_blk_slc spp;
  geo_flash_blk : flashpgs_per_blk spp * pgs_per_flashpg spp = pgs_per_blk spp;
  geo_flash_blk_slc : flashpgs_per_blk_slc spp * pgs_per_flashpg spp = pgs_per_blk_slc spp;
  geo_slc_smaller : pgs_per_blk_slc spp <= pgs_per_blk spp;
  geo_pg_bits : pgs_per_blk spp <= 2 ^ 16;
  geo_line : pgs_per_line spp = luns_per_ch spp * nchs spp * pgs_per_blk spp;
  geo_line_slc : pgs_per_line_slc spp = luns_per_ch spp * nchs spp * pgs_per_blk_slc spp;
  geo_pl : pgs_per_pl spp = pgs_per_blk_slc spp * tt_lines_slc spp + pgs_per_blk spp * tt_lines_tlc spp;
  geo_lun : pgs_per_lun spp = pgs_per_pl spp;
  geo_ch : pgs_per_ch spp = pgs_per_lun spp * luns_per_ch spp;
  geo_tt : tt_pgs spp = pgs_per_ch spp * nchs spp;
  geo_tt_int : tt_pgs spp < 2 ^ 31;
  geo_secs : 1 <= secs_per_pg spp;
  geo_pgsz : 1 <= pgsz spp;
  geo_flash_size : pgsz spp * pgs_per_flashpg spp < 2 ^ 31;
  geo_cost : pgs_per_line spp * 250 < 2 ^ 31;
  geo_cell : 1 <= cell_mode spp <= 3;
  geo_lat : length (pg_rd_lat spp) = 3%nat;
  geo_lat4 : length (pg_4kb_rd_lat spp) = 3%nat;
  geo_xfer : 0 < max_ch_xfer_size spp;
  geo_bw : 31 <= ch_bandwidth spp < 2 ^ 30;
  geo_pcie : 31 <= pcie_bandwidth spp < 2 ^ 30;
}.

(** The largest capacity a 970 PRO profile addresses: 16-bit page numbers. *)
Definition MAX_CAPACITY_970 : Z := 4 * (1024 * 4) * (5461 * (KB 16 * 3)).

(** Wordlines (oneshot pages) per block for a capacity, in the 970 PRO profile. *)
Definition wordlines_970 (capacity : Z) : Z :=
  DIV_ROUND_UP (DIV_ROUND_UP (capacity / 4) 4096) 49152.

Lemma wordlines_970_range capacity :
  4 <= capacity <= MAX_CAPACITY_970 -> 1 <= wordlines_970 capacity <= 5461.
Proof.
  intros Hc. unfold MAX_CAPACITY_970, KB in Hc. rewrite Z.shiftl_mul_pow2 in Hc by lia.
  unfold wordlines_970, DIV_ROUND_UP.
  assert (1 <= capacity / 4 <= 1099444518912) by (Z.to_euclidean_division_equations; lia).
  rewrite (u64_id (capacity / 4 + 4096 - 1)) by lia.
  assert (1 <= (capacity / 4 + 4096 - 1) / 4096 <= 268419072) by (Z.to_euclidean_division_equations; lia).
  rewrite u64_id by lia. Z.to_euclidean_division_equations; lia.
Qed.

(** The result in closed form: everything is a multiple of the wordline count. *)
Lemma ssd_init_params_slc_970 capacity :
  4 <= capacity <= MAX_CAPACITY_970 ->
  exists spp, ssd_init_params_slc SAMSUNG_970PRO capacity 4 = Ok spp /\
    let n := wordlines_970 capacity in
    (nchs spp, luns_per_ch spp, pls_per_lun spp, blks_per_pl spp) = (1, 4, 1, 1024) /\
    (tt_lines spp, tt_lines_slc spp, tt_lines_tlc spp) = (1024, 102, 922) /\
    (pgs_per_flashpg spp, pgs_per_oneshotpg spp, pgs_per_oneshotpg_slc spp) = (4, 12, 4) /\
    (oneshotpgs_per_blk spp, oneshotpgs_per_blk_slc spp) = (n, n) /\
    (pgs_per_blk spp, pgs_per_blk_slc spp) = (12 * n, 4 * n) /\
    (flashpgs_per_blk spp, flashpgs_per_blk_slc spp) = (3 * n, n) /\
    (pgs_per_line spp, pgs_per_line_slc spp) = (48 * n, 16 * n) /\
    (pgs_per_pl spp, pgs_per_lun spp, pgs_per_ch spp, tt_pgs spp) =
      (11472 * n, 11472 * n, 45888 * n, 45888 * n) /\
    (tt_secs spp = 367104 * n) /\
    (secsz spp, secs_per_pg spp, pgsz spp, cell_mode spp) = (512, 8, 4096, 3) /\
    (pg_rd_lat spp, pg_4kb_rd_lat spp) = (NAND_READ_LATENCY SAMSUNG_970PRO, NAND_4KB_READ_LATENCY SAMSUNG_970PRO) /\
    (max_ch_xfer_size spp, ch_bandwidth spp, pcie_bandwidth spp) = (16384, 800, 3360) /\
    (write_buffer_size spp, write_early_completion spp, fw_ch_xfer_lat spp) = (1572864, true, 0).
Proof.
  intros Hc. pose proof (wordlines_970_range _ Hc) as Hn.
  set (n := wordlines_970 capacity) in *.
  eexists. split.
  - unfold ssd_init_params_slc. change (4 =? 0) with false. cbv iota.
    change (i32 (u32 (NAND_CHANNELS SAMSUNG_970PRO) / 4)) with 1.
    change (init_blocks SAMSUNG_970PRO (capacity / 4) 1)
      with (@Ok (Z * Z) (1024, DIV_ROUND_UP (capacity / 4) 4096)).
    cbn [rbind]. change (ONESHOT_PAGE_SIZE SAMSUNG_970PRO) with 49152.
    fold (wordlines_970 capacity). fold n. reflexivity.
  - cbn -[Z.mul Z.add Z.div i32 u64 u32].
    change (4096 / LBA_SIZE) with 8. change (i32 (LBA_SIZE * 8)) with 4096.
    change (KB 16) with 16384. change (49152 / 16384) with 3. change (16384 / 16384) with 1.
    change (49152 / 4096) with 12. change (16384 / 4096) with 4.
    change (i32 (u64 (u64 1024 * 10) / 100)) with 102. change (u64 1024) with 1024.
    unwrap. rewrite !pair_equal_spec. split_and!; first [reflexivity|lia].
Qed.

Lemma ssd_init_params_slc_geom capacity :
  4 <= capacity <= MAX_CAPACITY_970 ->
  exists spp, ssd_init_params_slc SAMSUNG_970PRO capacity 4 = Ok spp /\
    slc_geometry spp /\ max_ch_xfer_size spp = 16384.
Proof.
  intros Hc. destruct (ssd_init_params_slc_970 capacity Hc) as (spp & E & H).
  exists spp. split; [exact E|]. pose proof (wordlines_970_range _ Hc). cbv zeta in H.
  destruct H as (H1 & H2 & H3 & H4 & H5 & H6 & H7 & H8 & H9 & H10 & H11 & H12 & _).
  injection H1 as ? ? ? ?. injection H2 as ? ? ?. injection H3 as ? ? ?. injection H4 as ? ?.
  injection H5 as ? ?. injection H6 as ? ?. injection H7 as ? ?. injection H8 as ? ? ? ?.
  injection H10 as ? ? ? ?. injection H11 as Hrd Hrd4. injection H12 as ? ? ?.
  split; [|done]. split; rewrite ?Hrd, ?Hrd4; try reflexivity; nia.
Qed.

(** for every capacity the profile can address, [ssd_init_params_slc] gives the
    970 PRO profile a consistent geometry: no intermediate product wraps, blocks
    are whole wordlines and flash pages, lines are one block of every die, the
    SLC and TLC lines partition the blocks, and the page totals are the sums of
    the two areas. *)
Theorem ssd_init_params_slc_geometry capacity :
  4 <= capacity <= MAX_CAPACITY_970 ->
  exists spp, ssd_init_params_slc SAMSUNG_970PRO capacity (SSD_PARTITIONS SAMSUNG_970PRO) = Ok spp /\
    slc_geometry spp.
Proof.
  intros Hc. destruct (ssd_init_params_slc_geom capacity Hc) as (spp & E & G & _). by exists spp.
Qed.

Lemma ssd_init_params_slc_geometry_witness :
  exists spp, ssd_init_params_slc SAMSUNG_970PRO (GB 8) (SSD_PARTITIONS SAMSUNG_970PRO) = Ok spp /\
    slc_geometry spp.
Proof. apply ssd_init_params_slc_geometry. split; vm_compute; discriminate. Defined.

(** the SLC cache costs more space than the profile reserves: on a capacity of
    whole wordlines, the physical pages of all partitions hold fewer bytes than
    the logical size [conv_init_namespace] derives (100/107 of the capacity). *)
Theorem slc_capacity_shortfall k spp :
  1 <= k <= 5461 ->
  ssd_init_params_slc SAMSUNG_970PRO (k * (4 * 4096 * 49152)) 4 = Ok spp ->
  4 * (tt_pgs spp * pgsz spp) < k * (4 * 4096 * 49152) * 100 / 107.
Proof.
  intros Hk E.
  destruct (ssd_init_params_slc_970 (k * (4 * 4096 * 49152))) as (spp' & E' & H).
  { unfold MAX_CAPACITY_970, KB. rewrite Z.shiftl_mul_pow2 by lia. lia. }
  rewrite E in E'. injection E' as <-. cbv zeta in H.
  destruct H as (_ & _ & _ & _ & _ & _ & _ & H8 & _ & H10 & _).
  injection H8 as _ _ _ ->. injection H10 as _ _ -> _.
  assert (wordlines_970 (k * (4 * 4096 * 49152)) = k) as ->.
  { unfold wordlines_970, DIV_ROUND_UP.
    assert (k * (4 * 4096 * 49152) / 4 = k * (4096 * 49152)) as -> by (Z.to_euclidean_division_equations; lia).
    rewrite (u64_id (_ + 4096 - 1)) by lia.
    assert ((k * (4096 * 49152) + 4096 - 1) / 4096 = k * 49152) as -> by (Z.to_euclidean_division_equations; lia).
    rewrite u64_id by lia. Z.to_euclidean_division_equations; lia. }
  Z.to_euclidean_division_equations; lia.
Qed.

Lemma slc_capacity_shortfall_witness :
  exists spp, ssd_init_params_slc SAMSUNG_970PRO (10 * (4 * 4096 * 49152)) 4 = Ok spp /\
    4 * (tt_pgs spp * pgsz spp) < 10 * (4 * 4096 * 49152) * 100 / 107.
Proof.
  eexists. split; [vm_compute; reflexivity|].
  apply (slc_capacity_shortfall 10); [lia|vm_compute; reflexivity].
Defined.

(** ** A small device for concrete runs: two dies, four SLC and six TLC lines *)
Definition small_params : ssdparams := {|
  secsz := 512; secs_per_pg := 8; pgsz := 4096; pgs_per_flashpg := 1; flashpgs_per_blk := 6;
  pgs_per_oneshotpg := 3; oneshotpgs_per_blk := 2; pgs_per_blk := 6; blks_per_pl := 10; pls_per_lun := 1;
  luns_per_ch := 2; nchs := 1; cell_mode := 3; write_unit_size := 512; write_early_completion := true;
  pg_4kb_rd_lat := [35760; 35760; 35760]; pg_rd_lat := [36013; 36013; 36013]; pg_wr_lat := 185000; blk_er_lat := 0;
  max_ch_xfer_size := 16384; fw_4kb_rd_lat := 21500; fw_rd_lat := 30490; fw_wbuf_lat0 := 4000; fw_wbuf_lat1 := 460;
  fw_ch_xfer_lat := 0; ch_bandwidth := 800; pcie_bandwidth := 3360;
  secs_per_blk := 48; secs_per_pl := 352; secs_per_lun := 352; secs_per_ch := 704; tt_secs := 704;
  pgs_per_pl := 44; pgs_per_lun := 44; pgs_per_ch := 88; tt_pgs := 88;
  blks_per_lun := 10; blks_per_ch := 20; tt_blks := 20; secs_per_line := 96; pgs_per_line := 12;
  blks_per_line := 2; tt_lines := 10; pls_per_ch := 2; tt_pls := 2; tt_luns := 2;
  pg_4kb_rd_lat_slc := 20000; pg_rd_lat_slc := 20000; pg_wr_lat_slc := 40000; blk_er_lat_slc := 0;
  flashpgs_per_blk_slc := 2; oneshotpgs_per_blk_slc := 2; pgs_per_oneshotpg_slc := 1; pgs_per_blk_slc := 2;
  secs_per_blk_slc := 16; secs_per_line_slc := 32; pgs_per_line_slc := 4; tt_lines_tlc := 6; tt_lines_slc := 4;
  write_buffer_size := 65536 |}.

Lemma small_geometry : slc_geometry small_params.
Proof. split; cbn; first [done | lia]. Qed.
