(* ===== verification/Ssd.v ===== *)
(** * ssd.h / ssd.c: the NAND array, the write buffer and the timing model

    The array is the nested structure of the source (channels of dies of planes
    of blocks of pages).  [ppa] is the bit field of [struct ppa].  Timing
    operations run in the state monad over [ssd] and read the clock.  The write
    buffer and the PCIe link are fields of [ssd]; an FTL that shares them among
    its partitions says so where it composes partitions.

    Shown: a physical address survives packing into 64 bits; the write buffer
    never hands out more than it has; NAND commands on an address of the array
    meet no fault, change nothing but timing state, and leave the die busy no
    earlier than before; [ssd_next_idle_time] bounds every die. *)

From Stdlib Require Import ZArith Lia.
From stdpp Require Import base list numbers.
From S2P Require Import Prelude Config SsdParams.
From S2P Require ChannelModel.
Import ChannelModel (channel_model, chmodel_init, chmodel_request, chmodel_wf, chmodel_request_hoare).

(** ** Physical addresses *)
Definition PAGE_BITS : Z := 16.
Definition BLK_BITS : Z := 16.
Definition PL_BITS : Z := 8.
Definition LUN_BITS : Z := 8.
Definition CH_BITS : Z := 8.
Definition RSB_BITS : Z := 8.

Record ppa : Type := mk_ppa {
  g_pg : Z;
  g_blk : Z;
  g_pl : Z;
  g_lun : Z;
  g_ch : Z;
  g_rsv : Z;
}.

#[global] Instance ppa_eq_dec : EqDecision ppa.
Proof. solve_decision. Defined.

(** The union's views: the whole word, and [h.blk_in_ssd]. *)
Definition pack (lo w hi : Z) : Z := Z.lor lo (Z.shiftl hi w).

Definition ppa_word (p : ppa) : Z :=
  pack (g_pg p) PAGE_BITS (pack (g_blk p) BLK_BITS (pack (g_pl p) PL_BITS
    (pack (g_lun p) LUN_BITS (pack (g_ch p) CH_BITS (g_rsv p))))).

Definition ppa_of_word (w : Z) : ppa := {|
  g_pg := w mod 2 ^ 16;
  g_blk := Z.shiftr w 16 mod 2 ^ 16;
  g_pl := Z.shiftr w 32 mod 2 ^ 8;
  g_lun := Z.shiftr w 40 mod 2 ^ 8;
  g_ch := Z.shiftr w 48 mod 2 ^ 8;
  g_rsv := Z.shiftr w 56 mod 2 ^ 8;
|}.

Definition h_blk_in_ssd (p : ppa) : Z := Z.shiftr (ppa_word p) 16 mod 2 ^ 40.

Definition UNMAPPED_PPA : Z := 2 ^ 64 - 1.
Definition INVALID_PPA : Z := 2 ^ 64 - 1.
Definition INVALID_LPN : Z := 2 ^ 64 - 1.

(** ** The array *)
Inductive page_status : Type := PG_FREE | PG_INVALID | PG_VALID.

#[global] Instance page_status_eq_dec : EqDecision page_status.
Proof. solve_decision. Defined.

Definition SEC_FREE : Z := 0.

Record nand_page : Type := mk_page {
  sec : list Z;
  nsecs : Z;
  status : page_status;
}.

Record nand_block : Type := mk_block {
  pg : list nand_page;
  npgs : Z;
  ipc : Z;
  vpc : Z;
  erase_cnt : Z;
  blk_wp : Z;
}.

(** A [None] is memory no one has written yet. *)
Record nand_plane : Type := mk_plane {
  blk : list nand_block;
  next_pln_avail_time : option Z;
  nblks : Z;
}.

Record nand_lun : Type := mk_lun {
  pl : list nand_plane;
  npls : Z;
  next_lun_avail_time : Z;
  busy : bool;
  gc_endtime : option Z;
}.

Record ssd_channel : Type := mk_ch {
  lun : list nand_lun;
  nluns : Z;
  ch_gc_endtime : option Z;
  perf_model : channel_model;
}.

Record buffer : Type := mk_buffer { size : Z; remaining : Z }.

Record ssd : Type := mk_ssd {
  sp : ssdparams;
  ch : list ssd_channel;
  pcie : channel_model;         (* pcie->perf_model *)
  write_buffer : buffer;
  cpu_nr_dispatcher : Z;
}.

Definition set_ch (s : ssd) (x : list ssd_channel) : ssd :=
  mk_ssd (sp s) x (pcie s) (write_buffer s) (cpu_nr_dispatcher s).
Definition set_pcie (s : ssd) (x : channel_model) : ssd :=
  mk_ssd (sp s) (ch s) x (write_buffer s) (cpu_nr_dispatcher s).
Definition set_write_buffer (s : ssd) (x : buffer) : ssd :=
  mk_ssd (sp s) (ch s) (pcie s) x (cpu_nr_dispatcher s).
Definition set_lun (c : ssd_channel) (x : list nand_lun) : ssd_channel :=
  mk_ch x (nluns c) (ch_gc_endtime c) (perf_model c).
Definition set_perf_model (c : ssd_channel) (x : channel_model) : ssd_channel :=
  mk_ch (lun c) (nluns c) (ch_gc_endtime c) x.
Definition set_pl (l : nand_lun) (x : list nand_plane) : nand_lun :=
  mk_lun x (npls l) (next_lun_avail_time l) (busy l) (gc_endtime l).
Definition set_next_lun_avail_time (l : nand_lun) (t : Z) : nand_lun :=
  mk_lun (pl l) (npls l) t (busy l) (gc_endtime l).
Definition set_gc_endtime (l : nand_lun) (t : Z) : nand_lun :=
  mk_lun (pl l) (npls l) (next_lun_avail_time l) (busy l) (Some t).
Definition set_blk (p : nand_plane) (x : list nand_block) : nand_plane :=
  mk_plane x (next_pln_avail_time p) (nblks p).
Definition set_pg (b : nand_block) (x : list nand_page) : nand_block :=
  mk_block x (npgs b) (ipc b) (vpc b) (erase_cnt b) (blk_wp b).
Definition set_status (p : nand_page) (st : page_status) : nand_page :=
  mk_page (sec p) (nsecs p) st.

(** The accessors of ssd.h. *)
Definition get_ch (s : ssd) (p : ppa) : res ssd_channel := aget (ch s) (g_ch p).
Definition get_lun (s : ssd) (p : ppa) : res nand_lun := let! c := get_ch s p in aget (lun c) (g_lun p).
Definition get_pl (s : ssd) (p : ppa) : res nand_plane := let! l := get_lun s p in aget (pl l) (g_pl p).
Definition get_blk (s : ssd) (p : ppa) : res nand_block := let! x := get_pl s p in aget (blk x) (g_blk p).
Definition get_pg (s : ssd) (p : ppa) : res nand_page := let! b := get_blk s p in aget (pg b) (g_pg p).

Definition get_cell (s : ssd) (p : ppa) : res Z :=
  if pgs_per_flashpg (sp s) =? 0 then Err DivByZero
  else if cell_mode (sp s) =? 0 then Err DivByZero
  else Ok (u32 (Z.rem (Z.quot (g_pg p) (pgs_per_flashpg (sp s))) (cell_mode (sp s)))).

(** Writes through the pointers those accessors return. *)
Definition amodr {A} (l : list A) (i : Z) (f : A -> res A) : res (list A) :=
  let! x := aget l i in let! y := f x in aset l i y.

Definition mod_ch (s : ssd) (p : ppa) (f : ssd_channel -> res ssd_channel) : res ssd :=
  let! x := amodr (ch s) (g_ch p) f in Ok (set_ch s x).
Definition mod_lun (s : ssd) (p : ppa) (f : nand_lun -> res nand_lun) : res ssd :=
  mod_ch s p (fun c => let! x := amodr (lun c) (g_lun p) f in Ok (set_lun c x)).
Definition mod_pl (s : ssd) (p : ppa) (f : nand_plane -> res nand_plane) : res ssd :=
  mod_lun s p (fun l => let! x := amodr (pl l) (g_pl p) f in Ok (set_pl l x)).
Definition mod_blk (s : ssd) (p : ppa) (f : nand_block -> res nand_block) : res ssd :=
  mod_pl s p (fun x => let! y := amodr (blk x) (g_blk p) f in Ok (set_blk x y)).
Definition mod_pg (s : ssd) (p : ppa) (f : nand_page -> res nand_page) : res ssd :=
  mod_blk s p (fun b => let! x := amodr (pg b) (g_pg p) f in Ok (set_pg b x)).

(** ** The write buffer *)
Definition buffer_init (n : Z) : buffer := mk_buffer n n.

Definition buffer_allocate (buf : buffer) (n : Z) : res (Z * buffer) :=
  rassert (n <=? size buf) ;;;
  let n := if remaining buf <? n then 0 else n in
  Ok (u32 n, mk_buffer (size buf) (remaining buf - n)).

Definition buffer_release (buf : buffer) (n : Z) : bool * buffer :=
  (true, mk_buffer (size buf) (u64 (remaining buf + n))).

Definition buffer_refill (buf : buffer) : buffer := mk_buffer (size buf) (size buf).

(** ** Construction *)
Definition ssd_init_nand_page (spp : ssdparams) : nand_page :=
  mk_page (replicate (Z.to_nat (secs_per_pg spp)) SEC_FREE) (secs_per_pg spp) PG_FREE.

Definition ssd_init_nand_blk (spp : ssdparams) : nand_block :=
  mk_block (replicate (Z.to_nat (pgs_per_blk spp)) (ssd_init_nand_page spp)) (pgs_per_blk spp) 0 0 0 0.

Definition ssd_init_nand_blk_slc (spp : ssdparams) : nand_block :=
  mk_block (replicate (Z.to_nat (pgs_per_blk_slc spp)) (ssd_init_nand_page spp))
    (pgs_per_blk_slc spp) 0 0 0 0.

Definition ssd_init_nand_plane (spp : ssdparams) : nand_plane :=
  mk_plane ((fun i => if i <? tt_lines_slc spp then ssd_init_nand_blk_slc spp else ssd_init_nand_blk spp)
      <$> zseq (blks_per_pl spp))
    None (blks_per_pl spp).

Definition ssd_init_nand_lun (spp : ssdparams) : nand_lun :=
  mk_lun (replicate (Z.to_nat (pls_per_lun spp)) (ssd_init_nand_plane spp)) (pls_per_lun spp) 0 false None.

Definition add_xfer_lat (m : channel_model) (d : Z) : channel_model :=
  ChannelModel.mk_channel_model (ChannelModel.cur_time m) (ChannelModel.head m)
    (ChannelModel.valid_len m) (ChannelModel.max_credits m) (ChannelModel.command_credits m)
    (u32 (ChannelModel.xfer_lat m + d)) (ChannelModel.avail_credits m).

Definition ssd_init_ch (spp : ssdparams) : ssd_channel :=
  mk_ch (replicate (Z.to_nat (luns_per_ch spp)) (ssd_init_nand_lun spp)) (luns_per_ch spp) None
    (add_xfer_lat (chmodel_init (ch_bandwidth spp))
       (u64 (fw_ch_xfer_lat spp * ChannelModel.UNIT_XFER_SIZE) / KB 4)).

Definition ssd_init_pcie (spp : ssdparams) : channel_model := chmodel_init (pcie_bandwidth spp).

Definition ssd_init (spp : ssdparams) (cpu : Z) : ssd :=
  mk_ssd spp (replicate (Z.to_nat (nchs spp)) (ssd_init_ch spp)) (ssd_init_pcie spp)
    (buffer_init (write_buffer_size spp)) cpu.

(** ** Timing *)
Definition NAND_READ : Z := 0.
Definition NAND_WRITE : Z := 1.
Definition NAND_ERASE : Z := 2.
Definition NAND_NOP : Z := 3.
Definition USER_IO : Z := 0.
Definition GC_IO : Z := 1.

(** [nc_xfer_size] is [None] where the source leaves it unassigned. *)
Record nand_cmd : Type := mk_cmd {
  nc_type : Z;
  nc_cmd : Z;
  nc_xfer_size : option Z;
  nc_stime : Z;
  nc_interleave_pci_dma : bool;
  nc_ppa : ppa;
}.

(** Requests to the performance model of a channel and of the PCIe link. *)
Definition on_perf_model {A} (c : Z) (m : M channel_model A) : M ssd A := fun clk t s =>
  match aget (ch s) c with
  | Err f => Err f
  | Ok x =>
      match m clk t (perf_model x) with
      | Ok (a, t', pm) => Ok (a, t', set_ch s (zset (ch s) c (set_perf_model x pm)))
      | Err f => Err f
      end
  end.

Definition ssd_advance_pcie (request_time length : Z) : M ssd Z :=
  zoom pcie set_pcie (chmodel_request request_time length).

Definition ssd_advance_write_buffer (request_time length : Z) : M ssd Z :=
  let* spp := gets sp in
  let nsecs_latest := u64 (request_time + fw_wbuf_lat0 spp) in
  let nsecs_latest := u64 (nsecs_latest + fw_wbuf_lat1 spp * DIV_ROUND_UP length (KB 4)) in
  ssd_advance_pcie nsecs_latest length.

(** The transfer loop of a read: result is [(chnl_etime, completed_time)]. *)
Fixpoint read_xfer (fuel : nat) (c unit : Z) (interleave : bool) (remaining chnl_stime : Z)
    (last : option (Z * Z)) : M ssd (option (Z * Z)) :=
  if remaining =? 0 then ret last
  else match fuel with
  | O => fail OutOfFuel
  | S fuel =>
      let xfer_size := Z.min remaining unit in
      let* chnl_etime := on_perf_model c (chmodel_request chnl_stime xfer_size) in
      let* completed_time :=
        if interleave then ssd_advance_pcie chnl_etime xfer_size else ret chnl_etime in
      read_xfer fuel c unit interleave (remaining - xfer_size) chnl_etime
        (Some (chnl_etime, completed_time))
  end.

Definition set_lun_time (p : ppa) (t : Z) : M ssd unit := fun _ n s =>
  match mod_lun s p (fun l => Ok (set_next_lun_avail_time l t)) with
  | Ok s' => Ok (tt, n, s')
  | Err f => Err f
  end.

(** The latencies by area: [ENABLE_SLC_CACHE] is compared against at every use. *)
Definition in_slc_area (s : ssd) (p : ppa) : bool := ENABLE_SLC_CACHE && (g_blk p <? tt_lines_slc (sp s)).

Definition read_latency (s : ssd) (p : ppa) (cell xfer_size : Z) : res Z :=
  if xfer_size =? 4096 then
    if in_slc_area s p then Ok (pg_4kb_rd_lat_slc (sp s)) else aget (pg_4kb_rd_lat (sp s)) cell
  else
    if in_slc_area s p then Ok (pg_rd_lat_slc (sp s)) else aget (pg_rd_lat (sp s)) cell.

Definition prog_latency (s : ssd) (p : ppa) : Z :=
  if in_slc_area s p then pg_wr_lat_slc (sp s) else pg_wr_lat (sp s).
Definition erase_latency (s : ssd) (p : ppa) : Z :=
  if in_slc_area s p then blk_er_lat_slc (sp s) else blk_er_lat (sp s).

Definition xfer_fuel (s : ssd) (n : Z) : nat := S (Z.to_nat (n / max_ch_xfer_size (sp s))).

Definition advance_read (ncmd : nand_cmd) (stime cell : Z) : M ssd Z :=
  let p := nc_ppa ncmd in
  let* s := get in
  let* n := lift (of_opt Uninit (nc_xfer_size ncmd)) in
  let* l := lift (get_lun s p) in
  let nand_stime := Z.max (next_lun_avail_time l) stime in
  let* lat := lift (read_latency s p cell n) in
  let nand_etime := u64 (nand_stime + lat) in
  let* last := read_xfer (xfer_fuel s n) (g_ch p) (u64 (max_ch_xfer_size (sp s)))
                 (nc_interleave_pci_dma ncmd) n nand_etime None in
  let* times := lift (of_opt Uninit last) in
  set_lun_time p (fst times) ;;
  ret (snd times).

Definition advance_write (ncmd : nand_cmd) (stime : Z) : M ssd Z :=
  let p := nc_ppa ncmd in
  let* s := get in
  let* n := lift (of_opt Uninit (nc_xfer_size ncmd)) in
  let* l := lift (get_lun s p) in
  let* chnl_etime := on_perf_model (g_ch p) (chmodel_request (Z.max (next_lun_avail_time l) stime) n) in
  let nand_etime := u64 (chnl_etime + prog_latency s p) in
  set_lun_time p nand_etime ;;
  ret nand_etime.

(** [delay] is the erase latency, or 0 for [NAND_NOP]. *)
Definition advance_lun (ncmd : nand_cmd) (stime : Z) (delay : ssd -> ppa -> Z) : M ssd Z :=
  let p := nc_ppa ncmd in
  let* s := get in
  let* l := lift (get_lun s p) in
  let nand_etime := u64 (Z.max (next_lun_avail_time l) stime + delay s p) in
  set_lun_time p nand_etime ;;
  ret nand_etime.

Definition ssd_advance_nand (ncmd : nand_cmd) : M ssd Z :=
  let* cmd_stime := if nc_stime ncmd =? 0 then read_clock CPU_CLOCK else ret (nc_stime ncmd) in
  if ppa_word (nc_ppa ncmd) =? UNMAPPED_PPA then ret cmd_stime
  else
    let* s := get in
    let* cell := lift (get_cell s (nc_ppa ncmd)) in
    if nc_cmd ncmd =? NAND_READ then advance_read ncmd cmd_stime cell
    else if nc_cmd ncmd =? NAND_WRITE then advance_write ncmd cmd_stime
    else if nc_cmd ncmd =? NAND_ERASE then advance_lun ncmd cmd_stime erase_latency
    else if nc_cmd ncmd =? NAND_NOP then advance_lun ncmd cmd_stime (fun _ _ => 0)
    else ret 0.

(** [ssd_next_idle_time]: the dies are visited channel by channel. *)
Definition ssd_next_idle_time : M ssd Z :=
  let* now := read_clock CPU_CLOCK in
  let* s := get in
  let spp := sp s in
  lift (foldl (fun acc i =>
      let! latest := acc in
      let! c := aget (ch s) i in
      foldl (fun acc j =>
        let! latest := acc in
        let! l := aget (lun c) j in
        Ok (Z.max latest (next_lun_avail_time l))) (Ok latest) (zseq (luns_per_ch spp)))
    (Ok now) (zseq (nchs spp))).

(** ** Lemmas on addresses *)
Lemma pack_add lo w hi : 0 <= w -> 0 <= lo < 2 ^ w -> pack lo w hi = lo + hi * 2 ^ w.
Proof.
  intros Hw Hlo. unfold pack. rewrite <- Z.add_lor_land, <- Z.shiftl_mul_pow2 by done.
  assert (Z.land lo (Z.shiftl hi w) = 0) as ->; [|lia].
  apply Z.bits_inj'. intros n Hn. rewrite Z.land_spec, Z.bits_0, Z.shiftl_spec by done.
  destruct (Z.ltb_spec n w).
  - rewrite (Z.testbit_neg_r hi) by lia. apply andb_false_r.
  - replace (Z.testbit lo n) with false; [done|]. symmetry.
    destruct (decide (lo = 0)) as [->|]; [apply Z.bits_0|].
    apply Z.bits_above_log2; [lia|]. assert (Z.log2 lo < w) by (apply Z.log2_lt_pow2; lia). lia.
Qed.

Record ppa_ok (p : ppa) : Prop := {
  po_pg : 0 <= g_pg p < 2 ^ 16;
  po_blk : 0 <= g_blk p < 2 ^ 16;
  po_pl : 0 <= g_pl p < 2 ^ 8;
  po_lun : 0 <= g_lun p < 2 ^ 8;
  po_ch : 0 <= g_ch p < 2 ^ 8;
  po_rsv : 0 <= g_rsv p < 2 ^ 8;
}.

Lemma ppa_word_sum p :
  ppa_ok p ->
  ppa_word p = g_pg p + 2 ^ 16 * (g_blk p + 2 ^ 16 * (g_pl p + 2 ^ 8 * (g_lun p + 2 ^ 8 * (g_ch p + 2 ^ 8 * g_rsv p)))).
Proof.
  intros [Hpg Hblk Hpl Hlun Hch Hrsv].
  unfold ppa_word, PAGE_BITS, BLK_BITS, PL_BITS, LUN_BITS, CH_BITS.
  rewrite !pack_add by lia. lia.
Qed.

Lemma unmapped_word p : ppa_ok p -> ppa_word p = UNMAPPED_PPA <->
  p = mk_ppa 65535 65535 255 255 255 255.
Proof.
  intros Hp. rewrite ppa_word_sum by done. destruct Hp, p as [a b c d e f]; cbn in *.
  unfold UNMAPPED_PPA. split; [|intros [= -> -> -> -> -> ->]; lia].
  intros Hw. f_equal; lia.
Qed.

Lemma blk_in_ssd_sum p :
  ppa_ok p -> h_blk_in_ssd p = g_blk p + 2 ^ 16 * (g_pl p + 2 ^ 8 * (g_lun p + 2 ^ 8 * g_ch p)).
Proof.
  intros Hp. unfold h_blk_in_ssd. rewrite ppa_word_sum by done. rewrite Z.shiftr_div_pow2 by lia.
  destruct Hp. Z.to_euclidean_division_equations. lia.
Qed.

(** the packed word of a physical address loses nothing: unpacking the bit
    fields of [ppa] gives the address back, and the word fits 64 bits. *)
Theorem ppa_roundtrip p : ppa_ok p -> ppa_of_word (ppa_word p) = p /\ 0 <= ppa_word p < 2 ^ 64.
Proof.
  intros Hp. rewrite ppa_word_sum by done. destruct Hp, p as [a b c d e f]; cbn in *.
  split; [|lia]. unfold ppa_of_word. rewrite !Z.shiftr_div_pow2 by lia.
  f_equal; Z.to_euclidean_division_equations; lia.
Qed.

Lemma ppa_roundtrip_witness :
  ppa_of_word (ppa_word (mk_ppa 7 300 0 3 1 0)) = mk_ppa 7 300 0 3 1 0 /\
  0 <= ppa_word (mk_ppa 7 300 0 3 1 0) < 2 ^ 64.
Proof. apply ppa_roundtrip. split; cbn; lia. Defined.

(** ** Views of the array *)
Definition lun_at (s : ssd) (c l : Z) : option nand_lun := x ← zget (ch s) c; zget (lun x) l.
Definition blk_at (s : ssd) (c l p b : Z) : option nand_block :=
  x ← lun_at s c l; y ← zget (pl x) p; zget (blk y) b.
Definition model_at (s : ssd) (c : Z) : option channel_model := perf_model <$> zget (ch s) c.

Lemma get_lun_ok s p x : get_lun s p = Ok x <-> lun_at s (g_ch p) (g_lun p) = Some x.
Proof.
  unfold get_lun, get_ch, lun_at, aget. destruct (zget (ch s) (g_ch p)); cbn; [|done].
  apply of_opt_ok.
Qed.

Lemma get_blk_ok s p b :
  get_blk s p = Ok b <-> blk_at s (g_ch p) (g_lun p) (g_pl p) (g_blk p) = Some b.
Proof.
  unfold get_blk, get_pl, blk_at. pose proof (get_lun_ok s p) as Hl.
  destruct (get_lun s p) as [x|f].
  - rewrite (proj1 (Hl x) eq_refl). cbn. unfold aget. destruct (zget (pl x) (g_pl p)); cbn; [|done].
    apply of_opt_ok.
  - cbn. destruct (lun_at s (g_ch p) (g_lun p)) as [x|]; [|done]. discriminate (proj2 (Hl x) eq_refl).
Qed.

Lemma get_pg_ok s p x :
  get_pg s p = Ok x <->
  exists b, blk_at s (g_ch p) (g_lun p) (g_pl p) (g_blk p) = Some b /\ zget (pg b) (g_pg p) = Some x.
Proof.
  unfold get_pg. rewrite rbind_ok. setoid_rewrite get_blk_ok. by setoid_rewrite aget_ok.
Qed.

Lemma blk_at_lun s c l p b x : blk_at s c l p b = Some x -> is_Some (lun_at s c l).
Proof. unfold blk_at. destruct (lun_at s c l); [eauto|done]. Qed.

Lemma amodr_ok {A} (l : list A) i f l' :
  amodr l i f = Ok l' <-> exists x y, zget l i = Some x /\ f x = Ok y /\ l' = zset l i y.
Proof.
  unfold amodr. rewrite rbind_ok. setoid_rewrite rbind_ok. setoid_rewrite aget_ok.
  setoid_rewrite aset_ok. split.
  - intros (x & ? & y & ? & ? & ->). eauto 6.
  - intros (x & y & Hx & ? & ->). exists x. split; [done|]. exists y. split; [done|].
    split; [by eapply zget_range|done].
Qed.

(** What a write through a die pointer does. *)
Record lun_write (p : ppa) (s : ssd) (y : nand_lun) (s' : ssd) : Prop := {
  lw_sp : sp s' = sp s;
  lw_pcie : pcie s' = pcie s;
  lw_wb : write_buffer s' = write_buffer s;
  lw_cpu : cpu_nr_dispatcher s' = cpu_nr_dispatcher s;
  lw_len : length (ch s') = length (ch s);
  lw_at c l : lun_at s' c l = if decide ((c, l) = (g_ch p, g_lun p)) then Some y else lun_at s c l;
  lw_model c : model_at s' c = model_at s c;
}.

Lemma mod_lun_spec s p f x y :
  lun_at s (g_ch p) (g_lun p) = Some x -> f x = Ok y ->
  exists s', mod_lun s p f = Ok s' /\ lun_write p s y s'.
Proof.
  intros Hx Hf. unfold lun_at in Hx. destruct (zget (ch s) (g_ch p)) as [c|] eqn:Hc; [|done]. cbn in Hx.
  pose proof (zget_range _ _ _ Hc) as Hcr. pose proof (zget_range _ _ _ Hx) as Hlr.
  unfold mod_lun, mod_ch. set (c' := set_lun c (zset (lun c) (g_lun p) y)).
  assert (amodr (ch s) (g_ch p) (fun c => let! x := amodr (lun c) (g_lun p) f in Ok (set_lun c x))
    = Ok (zset (ch s) (g_ch p) c')) as ->.
  { apply amodr_ok. exists c, c'. split; [done|]. split; [|done]. apply rbind_ok.
    exists (zset (lun c) (g_lun p) y). split; [|done]. apply amodr_ok. by exists x, y. }
  cbn [rbind]. eexists; split; [done|]. split; cbn; try done.
  - by rewrite length_zset.
  - intros i l. unfold lun_at. cbn [ch set_ch]. rewrite zget_zset by done.
    destruct (decide (g_ch p = i)) as [<-|Hne]; cbn.
    + rewrite Hc. cbn. rewrite zget_zset by done. repeat case_decide; simplify_eq; congruence.
    + rewrite decide_False by congruence. done.
  - intros i. unfold model_at. cbn [ch set_ch]. rewrite zget_zset by done.
    destruct (decide (g_ch p = i)) as [<-|Hne]; cbn; [|done]. by rewrite Hc.
Qed.

(** What a write through a block pointer does. *)
Record blk_write (p : ppa) (s : ssd) (y : nand_block) (s' : ssd) : Prop := {
  bw_sp : sp s' = sp s;
  bw_pcie : pcie s' = pcie s;
  bw_wb : write_buffer s' = write_buffer s;
  bw_cpu : cpu_nr_dispatcher s' = cpu_nr_dispatcher s;
  bw_at c l q b : blk_at s' c l q b =
    if decide ((c, l, q, b) = (g_ch p, g_lun p, g_pl p, g_blk p)) then Some y else blk_at s c l q b;
  bw_model c : model_at s' c = model_at s c;
}.

Lemma mod_blk_spec s p f x y :
  blk_at s (g_ch p) (g_lun p) (g_pl p) (g_blk p) = Some x -> f x = Ok y ->
  exists s', mod_blk s p f = Ok s' /\ blk_write p s y s'.
Proof.
  intros Hx Hf. unfold blk_at in Hx.
  destruct (lun_at s (g_ch p) (g_lun p)) as [l|] eqn:Hl; [|done]. cbn in Hx.
  destruct (zget (pl l) (g_pl p)) as [q|] eqn:Hq; [|done]. cbn in Hx.
  pose proof (zget_range _ _ _ Hq) as Hqr. pose proof (zget_range _ _ _ Hx) as Hbr.
  set (q' := set_blk q (zset (blk q) (g_blk p) y)).
  set (l' := set_pl l (zset (pl l) (g_pl p) q')).
  destruct (mod_lun_spec s p (fun l => let! x := amodr (pl l) (g_pl p)
     (fun x => let! y := amodr (blk x) (g_blk p) f in Ok (set_blk x y)) in Ok (set_pl l x)) l l')
    as (s' & HE & [L1 L2 L3 L4 L5 L6 L7]); [done|..].
  { apply rbind_ok. exists (zset (pl l) (g_pl p) q'). split; [|done]. apply amodr_ok.
    exists q, q'. split; [done|]. split; [|done]. apply rbind_ok.
    exists (zset (blk q) (g_blk p) y). split; [|done]. apply amodr_ok. by exists x, y. }
  exists s'. split; [exact HE|]. split; try done.
  intros c i j b. unfold blk_at. rewrite L6. destruct (decide ((c, i) = (g_ch p, g_lun p))) as [E|E].
  - injection E as -> ->. rewrite Hl. cbn. rewrite zget_zset by done.
    destruct (decide (g_pl p = j)) as [<-|Hne]; cbn.
    + rewrite Hq. cbn. rewrite zget_zset by done. repeat case_decide; simplify_eq; congruence.
    + rewrite decide_False by congruence. done.
  - rewrite decide_False by congruence. done.
Qed.

Lemma mod_pg_spec s p f b x y :
  blk_at s (g_ch p) (g_lun p) (g_pl p) (g_blk p) = Some b -> zget (pg b) (g_pg p) = Some x ->
  f x = Ok y ->
  exists s', mod_pg s p f = Ok s' /\ blk_write p s (set_pg b (zset (pg b) (g_pg p) y)) s'.
Proof.
  intros Hb Hx Hf. unfold mod_pg. eapply mod_blk_spec; [done|].
  apply rbind_ok. exists (zset (pg b) (g_pg p) y). split; [|done].
  apply amodr_ok. by exists x, y.
Qed.

(** ** Timing operations *)
Record timing_ok (s : ssd) : Prop := {
  to_pcie : chmodel_wf (pcie s);
  to_model c m : model_at s c = Some m -> chmodel_wf m;
}.

(** Only the availability time of the die of [p], and the bandwidth models, differ. *)
Record timing_step (p : ppa) (s s' : ssd) : Prop := {
  ts_sp : sp s' = sp s;
  ts_wb : write_buffer s' = write_buffer s;
  ts_cpu : cpu_nr_dispatcher s' = cpu_nr_dispatcher s;
  ts_len : length (ch s') = length (ch s);
  ts_other c l : (c, l) <> (g_ch p, g_lun p) -> lun_at s' c l = lun_at s c l;
  ts_lun : exists t, lun_at s' (g_ch p) (g_lun p) =
    (fun x => set_next_lun_avail_time x t) <$> lun_at s (g_ch p) (g_lun p);
}.

Lemma timing_step_refl p s : timing_step p s s.
Proof.
  split; try done. destruct (lun_at s (g_ch p) (g_lun p)) as [x|]; [|by exists 0].
  exists (next_lun_avail_time x). by destruct x.
Qed.

Lemma timing_step_trans p s1 s2 s3 : timing_step p s1 s2 -> timing_step p s2 s3 -> timing_step p s1 s3.
Proof.
  intros [A1 A2 A3 A4 A5 [t A6]] [B1 B2 B3 B4 B5 [t' B6]]. split; try congruence.
  - intros c l H. by rewrite B5, A5.
  - exists t'. rewrite B6, A6. by destruct (lun_at s1 (g_ch p) (g_lun p)).
Qed.

Lemma timing_step_blk p s s' c l q b : timing_step p s s' -> blk_at s' c l q b = blk_at s c l q b.
Proof.
  intros [_ _ _ _ Ho [t Ht]]. unfold blk_at. destruct (decide ((c, l) = (g_ch p, g_lun p))) as [E|E].
  - injection E as -> ->. rewrite Ht. by destruct (lun_at s (g_ch p) (g_lun p)).
  - by rewrite Ho.
Qed.

Lemma timing_step_lun p s s' : timing_step p s s' ->
  is_Some (lun_at s (g_ch p) (g_lun p)) -> is_Some (lun_at s' (g_ch p) (g_lun p)).
Proof. intros [_ _ _ _ _ [t ->]] [x ->]. eauto. Qed.

(** The two kinds of elementary steps. *)
Lemma on_perf_model_step p s0 req len :
  is_Some (lun_at s0 (g_ch p) (g_lun p)) ->
  hoare (fun s => timing_step p s0 s /\ timing_ok s)
    (on_perf_model (g_ch p) (chmodel_request req len))
    (fun _ s => timing_step p s0 s /\ timing_ok s).
Proof.
  intros Hp clk t s [Hs [Hpc Hm]]. unfold on_perf_model.
  destruct (timing_step_lun _ _ _ Hs Hp) as [x Hx].
  unfold lun_at in Hx. destruct (zget (ch s) (g_ch p)) as [c|] eqn:Hc; [|done]. cbn in Hx.
  pose proof (zget_range _ _ _ Hc) as Hr.
  rewrite (proj2 (aget_ok _ _ _) Hc).
  assert (Hwf : chmodel_wf (perf_model c)) by (apply (Hm (g_ch p)); unfold model_at; by rewrite Hc).
  destruct (chmodel_request_hoare req len clk t _ Hwf) as (z & t' & pm & -> & Hpm).
  eexists z, t', _. split; [done|].
  assert (Hluns : forall i l, lun_at (set_ch s (zset (ch s) (g_ch p) (set_perf_model c pm))) i l = lun_at s i l).
  { intros i l. unfold lun_at. cbn [ch set_ch]. rewrite zget_zset by done. case_decide; [|done]. subst i.
    by rewrite Hc. }
  split.
  - eapply timing_step_trans; [exact Hs|]. split; try done.
    + cbn. by rewrite length_zset.
    + rewrite Hluns. exists (next_lun_avail_time x). unfold lun_at. rewrite Hc. cbn. rewrite Hx. by destruct x.
  - split; [done|]. intros i m. unfold model_at. cbn [ch set_ch]. rewrite zget_zset by done.
    case_decide; [cbn; by intros [= <-]|]. apply Hm.
Qed.

Lemma ssd_advance_pcie_hoare (P : ssd -> Prop) req len :
  (forall s m, P s -> chmodel_wf m -> P (set_pcie s m)) ->
  (forall s, P s -> chmodel_wf (pcie s)) ->
  hoare P (ssd_advance_pcie req len) (fun _ => P).
Proof.
  intros HP Hwf clk t s Hs. unfold ssd_advance_pcie, zoom.
  destruct (chmodel_request_hoare req len clk t _ (Hwf s Hs)) as (z & t' & pm & -> & Hpm). eauto 6.
Qed.

Lemma ssd_advance_pcie_step p s0 req len :
  hoare (fun s => timing_step p s0 s /\ timing_ok s) (ssd_advance_pcie req len)
    (fun _ s => timing_step p s0 s /\ timing_ok s).
Proof.
  apply ssd_advance_pcie_hoare; [|by intros s [_ [? ?]]].
  intros s m [Hs [_ Hm]] Hw. split; [|by split].
  eapply timing_step_trans; [exact Hs|]. split; try done. apply (ts_lun p s s (timing_step_refl p s)).
Qed.

Lemma set_lun_time_step p s0 t0 :
  is_Some (lun_at s0 (g_ch p) (g_lun p)) ->
  hoare (fun s => timing_step p s0 s /\ timing_ok s) (set_lun_time p t0)
    (fun _ s => timing_step p s0 s /\ timing_ok s /\
      exists x, lun_at s (g_ch p) (g_lun p) = Some x /\ next_lun_avail_time x = t0).
Proof.
  intros Hp clk t s [Hs [Hpc Hm]]. unfold set_lun_time.
  destruct (timing_step_lun _ _ _ Hs Hp) as [x Hx].
  destruct (mod_lun_spec s p (fun l => Ok (set_next_lun_avail_time l t0)) x _ Hx eq_refl)
    as (s' & -> & [L1 L2 L3 L4 L5 L6 L7]).
  eexists tt, t, s'. split; [done|]. split; [|split].
  - eapply timing_step_trans; [exact Hs|]. split; try done.
    + intros c l Hne. by rewrite L6, decide_False.
    + exists t0. by rewrite L6, decide_True, Hx.
  - split; [by rewrite L2|]. intros c m. rewrite L7. apply Hm.
  - rewrite L6, decide_True by done. by eexists.
Qed.

(** A command whose fields are assigned and whose address is in the array. *)
Record cmd_ok (s : ssd) (cmd : nand_cmd) : Prop := {
  co_lun : is_Some (lun_at s (g_ch (nc_ppa cmd)) (g_lun (nc_ppa cmd)));
  co_pg : 0 <= g_pg (nc_ppa cmd) < 2 ^ 16;
  co_flash : 1 <= pgs_per_flashpg (sp s);
  co_cell : 1 <= cell_mode (sp s) <= 3;
  co_lat : length (pg_rd_lat (sp s)) = 3%nat;
  co_lat4 : length (pg_4kb_rd_lat (sp s)) = 3%nat;
  co_unit : 0 < max_ch_xfer_size (sp s) < 2 ^ 31;
  co_read : nc_cmd cmd = NAND_READ -> exists n, nc_xfer_size cmd = Some n /\ 0 < n;
  co_write : nc_cmd cmd = NAND_WRITE -> is_Some (nc_xfer_size cmd);
}.

Lemma get_cell_ok s p :
  1 <= pgs_per_flashpg (sp s) -> 1 <= cell_mode (sp s) <= 3 -> 0 <= g_pg p < 2 ^ 16 ->
  exists cell, get_cell s p = Ok cell /\ 0 <= cell < 3.
Proof.
  intros Hf Hc Hp. unfold get_cell.
  replace (pgs_per_flashpg (sp s) =? 0) with false by lia.
  replace (cell_mode (sp s) =? 0) with false by lia.
  eexists; split; [done|].
  rewrite Z.quot_div_nonneg by lia. assert (0 <= g_pg p / pgs_per_flashpg (sp s)) by (apply Z.div_pos; lia).
  rewrite Z.rem_mod_nonneg by lia.
  pose proof (Z.mod_pos_bound (g_pg p / pgs_per_flashpg (sp s)) (cell_mode (sp s))).
  rewrite u32_id; lia.
Qed.

Lemma read_xfer_step p s0 fuel unit il rem st last :
  is_Some (lun_at s0 (g_ch p) (g_lun p)) -> 0 < unit -> 0 <= rem <= Z.of_nat fuel * unit ->
  hoare (fun s => timing_step p s0 s /\ timing_ok s)
    (read_xfer fuel (g_ch p) unit il rem st last)
    (fun r s => (timing_step p s0 s /\ timing_ok s) /\ (is_Some last \/ 0 < rem -> is_Some r)).
Proof.
  intros Hp Hu. revert rem st last. induction fuel as [|fuel IH]; intros rem st last Hr; cbn [read_xfer].
  - replace (rem =? 0) with true by lia. intros clk t s Hs. eexists _, t, s. split; [done|].
    split; [done|]. intros [?|?]; [done|lia].
  - destruct (Z.eqb_spec rem 0).
    { intros clk t s Hs. eexists _, t, s. split; [done|]. split; [done|]. intros [?|?]; [done|lia]. }
    eapply hoare_bind; [by apply on_perf_model_step|]. intros et.
    eapply hoare_bind.
    { instantiate (1 := fun _ s => timing_step p s0 s /\ timing_ok s).
      destruct il; [apply ssd_advance_pcie_step|].
      intros clk t s Hs. eexists et, t, s. by split. }
    intros ct. eapply hoare_conseq; [apply IH; lia|done|].
    cbn. intros r s [Hs Hx]. split; [done|]. intros _. apply Hx. left. eauto.
Qed.

(** Every command form leaves all but the timing of its die alone; what it
    returns is, for programs, erases and no-ops, when the die becomes free. *)
Definition die_free_at (p : ppa) (s : ssd) (z : Z) : Prop :=
  exists x, lun_at s (g_ch p) (g_lun p) = Some x /\ next_lun_avail_time x = z.

Section Advance.
Context (s0 : ssd) (cmd : nand_cmd) (Hcmd : cmd_ok s0 cmd) (Hok : timing_ok s0).

Let p := nc_ppa cmd.
Let Step (s : ssd) : Prop := timing_step p s0 s /\ timing_ok s.

Lemma here_lun : exists x, get_lun s0 p = Ok x /\ lun_at s0 (g_ch p) (g_lun p) = Some x.
Proof. destruct (co_lun _ _ Hcmd) as [x Hx]. exists x. split; [|done]. by apply get_lun_ok. Qed.

Lemma finish_die t0 clk t s (A : Prop) :
  Step s -> exists a t' s', (set_lun_time p t0 ;; ret t0) clk t s = Ok (a, t', s') /\
    Step s' /\ (A -> die_free_at p s' a).
Proof.
  intros Hs. destruct (set_lun_time_step p s0 t0 (co_lun _ _ Hcmd) clk t s Hs)
    as ([] & t' & s' & E & H1 & H2 & H3).
  exists t0, t', s'. unfold bind. rewrite E. split; [done|]. split; [done|]. by intros _.
Qed.

Lemma advance_write_step stime :
  nc_cmd cmd = NAND_WRITE ->
  hoare (fun s => s = s0) (advance_write cmd stime) (fun z s => Step s /\ die_free_at p s z).
Proof.
  intros Hw clk t s ->. destruct here_lun as (x & Hx & _). destruct (co_write _ _ Hcmd Hw) as [n Hn].
  unfold advance_write, bind at 1, get. fold p. rewrite Hn.
  unfold bind at 1, lift at 1. cbn [of_opt]. unfold bind at 1, lift at 1. rewrite Hx. unfold bind at 1.
  destruct (on_perf_model_step p s0 (Z.max (next_lun_avail_time x) stime) n (co_lun _ _ Hcmd) clk t s0)
    as (z & t' & s' & -> & Hs); [split; [apply timing_step_refl|exact Hok]|].
  destruct (finish_die (u64 (z + prog_latency s0 p)) clk t' s' True Hs) as (a & t'' & s'' & E & Hs' & Hd).
  eexists _, _, _. split; [exact E|]. auto.
Qed.

Lemma advance_lun_step stime delay :
  hoare (fun s => s = s0) (advance_lun cmd stime delay) (fun z s => Step s /\ die_free_at p s z).
Proof.
  intros clk t s ->. destruct here_lun as (x & Hx & _).
  unfold advance_lun, bind at 1, get. fold p. unfold bind at 1, lift. rewrite Hx.
  destruct (finish_die (u64 (Z.max (next_lun_avail_time x) stime + delay s0 p)) clk t s0 True)
    as (a & t'' & s'' & E & Hs' & Hd); [split; [apply timing_step_refl|exact Hok]|].
  eexists _, _, _. split; [exact E|]. auto.
Qed.

Lemma read_latency_ok cell n : 0 <= cell < 3 -> exists z, read_latency s0 p cell n = Ok z.
Proof.
  intros Hc. unfold read_latency. pose proof (co_lat _ _ Hcmd). pose proof (co_lat4 _ _ Hcmd).
  repeat case_match; eauto.
  - destruct (aget_in (pg_4kb_rd_lat (sp s0)) cell) as (z & -> & _); [lia|eauto].
  - destruct (aget_in (pg_rd_lat (sp s0)) cell) as (z & -> & _); [lia|eauto].
Qed.

Lemma advance_read_step stime cell :
  nc_cmd cmd = NAND_READ -> 0 <= cell < 3 ->
  hoare (fun s => s = s0) (advance_read cmd stime cell) (fun _ => Step).
Proof.
  intros Hr Hc clk t s ->. destruct here_lun as (x & Hx & _). destruct (co_read _ _ Hcmd Hr) as (n & Hn & Hpos).
  unfold advance_read, bind at 1, get. fold p. rewrite Hn. cbn [of_opt].
  unfold bind at 1, lift at 1. unfold bind at 1, lift at 1. rewrite Hx.
  unfold bind at 1, lift at 1. destruct (read_latency_ok cell n Hc) as [lat ->]. unfold bind at 1.
  pose proof (co_unit _ _ Hcmd) as Hu. rewrite (u64_id (max_ch_xfer_size (sp s0))) by lia.
  destruct (read_xfer_step p s0 (xfer_fuel s0 n) (max_ch_xfer_size (sp s0)) (nc_interleave_pci_dma cmd) n
    (u64 (Z.max (next_lun_avail_time x) stime + lat)) None (co_lun _ _ Hcmd)) with (c := clk) (t := t) (s := s0)
    as (r & t' & s' & -> & Hs & Hsome); try lia.
  { unfold xfer_fuel. assert (0 <= n / max_ch_xfer_size (sp s0)) by (apply Z.div_pos; lia).
    pose proof (Z.mul_succ_div_gt n (max_ch_xfer_size (sp s0))). split; [lia|]. nia. }
  { split; [apply timing_step_refl|exact Hok]. }
  destruct Hsome as [[et ct] ->]; [by right|]. unfold bind at 1, lift. cbn [of_opt fst snd].
  destruct (set_lun_time_step p s0 et (co_lun _ _ Hcmd) clk t' s' Hs) as ([] & t'' & s'' & E & H1 & H2 & H3).
  exists ct, t'', s''. unfold bind. rewrite E. split; [done|]. by split.
Qed.

(** [ssd_advance_nand] on an address of the array meets no fault. *)
Lemma ssd_advance_nand_here :
  hoare (fun s => s = s0) (ssd_advance_nand cmd)
    (fun z s => Step s /\ (nc_cmd cmd = NAND_WRITE \/ nc_cmd cmd = NAND_ERASE \/ nc_cmd cmd = NAND_NOP ->
      ppa_word p <> UNMAPPED_PPA -> die_free_at p s z)).
Proof.
  unfold ssd_advance_nand. eapply hoare_bind with (R := fun _ s => s = s0).
  { case_match; intros clk t s ->; eexists _, _, _; by split. }
  intros stime. fold p. destruct (Z.eqb_spec (ppa_word p) UNMAPPED_PPA) as [Hu|Hu].
  { intros clk t s ->. eexists _, _, _. split; [done|]. split; [|done].
    split; [apply timing_step_refl|exact Hok]. }
  destruct (get_cell_ok s0 p) as (cell & Hcell & Hcr);
    [by destruct Hcmd|by destruct Hcmd|exact (co_pg _ _ Hcmd)|].
  intros clk t s ->. unfold bind at 1, get. unfold bind at 1, lift. rewrite Hcell.
  destruct (Z.eqb_spec (nc_cmd cmd) NAND_READ) as [HR|HR].
  { destruct (advance_read_step stime cell HR Hcr clk t s0 eq_refl) as (z & t' & s' & -> & Hs).
    eexists _, _, _. split; [done|]. split; [done|]. rewrite HR. by intros [?|[?|?]]. }
  destruct (Z.eqb_spec (nc_cmd cmd) NAND_WRITE) as [HW|HW].
  { destruct (advance_write_step stime HW clk t s0 eq_refl) as (z & t' & s' & -> & Hs & Hd).
    eexists _, _, _. by split. }
  destruct (Z.eqb_spec (nc_cmd cmd) NAND_ERASE) as [HE|HE].
  { destruct (advance_lun_step stime erase_latency clk t s0 eq_refl) as (z & t' & s' & -> & Hs & Hd).
    eexists _, _, _. by split. }
  destruct (Z.eqb_spec (nc_cmd cmd) NAND_NOP) as [HN|HN].
  { destruct (advance_lun_step stime (fun _ _ => 0) clk t s0 eq_refl) as (z & t' & s' & -> & Hs & Hd).
    eexists _, _, _. by split. }
  exists 0, t, s0. split; [done|]. split; [|naive_solver].
  split; [apply timing_step_refl|exact Hok].
Qed.
End Advance.

(** a NAND command whose address is in the array returns for every clock:
    it changes the availability time of its own die and the bandwidth models
    only (no page, block, counter or other die), and for program, erase and
    no-op it returns the time at which the die becomes free. *)
Theorem ssd_advance_nand_frame s cmd clk t :
  cmd_ok s cmd -> timing_ok s ->
  exists z t' s', ssd_advance_nand cmd clk t s = Ok (z, t', s') /\
    timing_step (nc_ppa cmd) s s' /\ timing_ok s' /\
    (forall c l q b, blk_at s' c l q b = blk_at s c l q b) /\
    (nc_cmd cmd = NAND_WRITE \/ nc_cmd cmd = NAND_ERASE \/ nc_cmd cmd = NAND_NOP ->
     ppa_word (nc_ppa cmd) <> UNMAPPED_PPA -> die_free_at (nc_ppa cmd) s' z).
Proof.
  intros Hc Hok. destruct (ssd_advance_nand_here s cmd Hc Hok clk t s eq_refl)
    as (z & t' & s' & E & [Hs Hok'] & Hd).
  exists z, t', s'. split; [exact E|]. split; [done|]. split; [done|]. split; [|done].
  intros c l q b. by apply (timing_step_blk (nc_ppa cmd)).
Qed.

(** ** Idle time *)

(** The array has the dies its parameters say. *)
Definition dies_ok (s : ssd) : Prop :=
  forall c l, 0 <= c < nchs (sp s) -> 0 <= l < luns_per_ch (sp s) -> is_Some (lun_at s c l).

(** A loop that keeps a running maximum over elements that can all be read. *)
Lemma fold_max {X} (l : list X) (f : X -> res Z) z0 :
  (forall x, x ∈ l -> exists z, f x = Ok z) ->
  exists z, foldl (fun acc x => let! m := acc in let! y := f x in Ok (Z.max m y)) (Ok z0) l = Ok z /\
    z0 <= z /\ (forall x y, x ∈ l -> f x = Ok y -> y <= z) /\
    (z = z0 \/ exists x, x ∈ l /\ f x = Ok z).
Proof.
  revert z0. induction l as [|x l IH]; intros z0 Hl.
  { exists z0. split; [done|]. split; [lia|]. split; [|by left]. by intros x y ?%elem_of_nil. }
  destruct (Hl x) as [y Hy]; [by left|]. cbn [foldl rbind]. rewrite Hy. cbn [rbind].
  destruct (IH (Z.max z0 y)) as (z & Hz & Hge & Hall & Hex); [intros; apply Hl; by right|].
  exists z. split; [exact Hz|]. split; [lia|]. split.
  - intros x' y' [->|Hx']%elem_of_cons Hf; [rewrite Hy in Hf; injection Hf; lia|by apply (Hall x')].
  - destruct Hex as [->|(x' & Hx' & Hf)].
    + destruct (Z.max_spec z0 y) as [[? ->]|[? ->]]; [|by left]. right. exists x. split; [by left|done].
    + right. exists x'. split; [by right|done].
Qed.

Lemma elem_of_zseq n i : i ∈ zseq n <-> 0 <= i < n.
Proof. unfold zseq. rewrite elem_of_seqZ. lia. Qed.

Definition die_time (s : ssd) (c l : Z) : option Z := next_lun_avail_time <$> lun_at s c l.

(** The dies of one channel, and of all. *)
Lemma channel_max s c x z0 :
  zget (ch s) c = Some x -> (forall l, 0 <= l < luns_per_ch (sp s) -> is_Some (lun_at s c l)) ->
  exists z, foldl (fun acc j => let! latest := acc in let! l := aget (lun x) j in
      Ok (Z.max latest (next_lun_avail_time l))) (Ok z0) (zseq (luns_per_ch (sp s))) = Ok z /\
    z0 <= z /\ (forall l t, 0 <= l < luns_per_ch (sp s) -> die_time s c l = Some t -> t <= z) /\
    (z = z0 \/ exists l, 0 <= l < luns_per_ch (sp s) /\ die_time s c l = Some z).
Proof.
  intros Hx Hd.
  assert (Hat : forall l, lun_at s c l = zget (lun x) l) by (intros l; unfold lun_at; by rewrite Hx).
  assert (Hf : forall l t, die_time s c l = Some t <-> rmap next_lun_avail_time (aget (lun x) l) = Ok t).
  { intros l t. unfold die_time, rmap, aget. rewrite Hat. destruct (zget (lun x) l); cbn; naive_solver. }
  destruct (fold_max (zseq (luns_per_ch (sp s))) (fun j => rmap next_lun_avail_time (aget (lun x) j)) z0)
    as (z & Hz & Hge & Hall & Hex).
  { intros l Hl%elem_of_zseq. destruct (Hd l Hl) as [y Hy]. exists (next_lun_avail_time y).
    apply Hf. unfold die_time. by rewrite Hy. }
  exists z. split.
  { rewrite <- Hz. clear Hz Hall Hex. generalize (Ok z0). induction (zseq (luns_per_ch (sp s))) as [|j js IH]; [done|].
    intros acc. cbn [foldl]. rewrite <- IH. f_equal. destruct acc; [|done]. cbn.
    unfold rmap. destruct (aget (lun x) j); done. }
  split; [done|]. split.
  - intros l t Hl Ht. apply (Hall l); [by apply elem_of_zseq|by apply Hf].
  - destruct Hex as [?|(l & Hl & Ht)]; [by left|right]. exists l. split; [by apply elem_of_zseq|by apply Hf].
Qed.

Lemma idle_fold s cs z0 :
  dies_ok s -> (forall c, c ∈ cs -> 0 <= c < nchs (sp s)) -> 0 < luns_per_ch (sp s) ->
  exists z, foldl (fun acc i => let! latest := acc in let! c := aget (ch s) i in
      foldl (fun acc j => let! latest := acc in let! l := aget (lun c) j in
        Ok (Z.max latest (next_lun_avail_time l))) (Ok latest) (zseq (luns_per_ch (sp s))))
      (Ok z0) cs = Ok z /\
    z0 <= z /\ (forall c l t, c ∈ cs -> 0 <= l < luns_per_ch (sp s) -> die_time s c l = Some t -> t <= z) /\
    (z = z0 \/ exists c l, c ∈ cs /\ 0 <= l < luns_per_ch (sp s) /\ die_time s c l = Some z).
Proof.
  intros Hd Hin Hpos. revert z0. induction cs as [|c cs IH]; intros z0.
  { exists z0. split; [done|]. split; [lia|]. split; [|by left]. by intros c l t ?%elem_of_nil. }
  assert (Hc : 0 <= c < nchs (sp s)) by (apply Hin; by left).
  destruct (Hd c 0 Hc) as [y Hy]; [lia|]. unfold lun_at in Hy.
  destruct (zget (ch s) c) as [x|] eqn:Hx; [|done]. clear Hy y.
  assert (Hax : aget (ch s) c = Ok x) by (by apply aget_ok).
  cbn [foldl rbind]. rewrite Hax. cbn [rbind].
  destruct (channel_max s c x z0 Hx) as (z1 & -> & Hge1 & Hall1 & Hex1); [intros; by apply Hd|].
  destruct (IH) with (z0 := z1) as (z & Hz & Hge & Hall & Hex); [intros; apply Hin; by right|].
  exists z. split; [exact Hz|]. split; [lia|]. split.
  - intros c' l t [->|Hc']%elem_of_cons Hl Ht; [|by apply (Hall c' l)].
    pose proof (Hall1 l t Hl Ht). lia.
  - destruct Hex as [->|(c' & l & Hc' & Hl & Ht)].
    + destruct Hex1 as [->|(l & Hl & Ht)]; [by left|right]. exists c, l. split; [by left|done].
    + right. exists c', l. split; [by right|done].
Qed.

Lemma ssd_next_idle_time_spec s clk t :
  dies_ok s -> 0 < luns_per_ch (sp s) ->
  exists z, ssd_next_idle_time clk t s = Ok (z, S t, s) /\ clk CPU_CLOCK t <= z /\
    (forall c l x, 0 <= c < nchs (sp s) -> 0 <= l < luns_per_ch (sp s) -> die_time s c l = Some x -> x <= z) /\
    (z = clk CPU_CLOCK t \/ exists c l, die_time s c l = Some z).
Proof.
  intros Hd Hl.
  destruct (idle_fold s (zseq (nchs (sp s))) (clk CPU_CLOCK t) Hd) as (z & Hz & Hge & Hall & Hex); [|done|].
  { by intros c Hc%elem_of_zseq. }
  exists z. unfold ssd_next_idle_time, bind at 1, read_clock, bind, get, lift. rewrite Hz.
  split; [done|]. split; [done|]. split.
  - intros c l x Hc Hr Hx. apply (Hall c l); [by apply elem_of_zseq|done|done].
  - destruct Hex as [->|(c & l & _ & _ & Hx)]; eauto.
Qed.

(** ** The write buffer *)
Inductive buf_op : Type := Alloc (n : Z) | Release (n : Z).

(** A run of allocations and releases; [out] is what is currently handed out. *)
Fixpoint buf_run (ops : list buf_op) (buf : buffer) (out : Z) : res (buffer * Z) :=
  match ops with
  | [] => Ok (buf, out)
  | Alloc n :: ops =>
      let! (got, buf') := buffer_allocate buf n in buf_run ops buf' (out + got)
  | Release n :: ops => buf_run ops (snd (buffer_release buf n)) (out - n)
  end.

(** Releases give back allocated bytes only, and requests are no larger than the buffer. *)
Fixpoint buf_disciplined (ops : list buf_op) (buf : buffer) (out : Z) : Prop :=
  match ops with
  | [] => True
  | Alloc n :: ops =>
      0 <= n <= size buf /\
      buf_disciplined ops (if remaining buf <? n then buf else mk_buffer (size buf) (remaining buf - n))
        (if remaining buf <? n then out else out + n)
  | Release n :: ops =>
      0 <= n <= out /\ buf_disciplined ops (mk_buffer (size buf) (remaining buf + n)) (out - n)
  end.

Lemma buffer_allocate_spec buf n :
  0 <= n <= size buf -> size buf < 2 ^ 32 ->
  buffer_allocate buf n = Ok (if remaining buf <? n then (0, buf)
                              else (n, mk_buffer (size buf) (remaining buf - n))).
Proof.
  intros Hn Hs. unfold buffer_allocate, rassert. replace (n <=? size buf) with true by lia. cbn [rbind].
  destruct (Z.ltb_spec (remaining buf) n).
  - rewrite Z.sub_0_r. by destruct buf.
  - by rewrite u32_id by lia.
Qed.

(** accounting of the write buffer: along any run of allocations and releases
    in which nobody gives back more than was handed out, the free bytes plus
    the bytes handed out are the buffer's size, so an allocation is never
    granted beyond the capacity. *)
Theorem buffer_accounting ops n buf out :
  0 <= n < 2 ^ 32 -> buf_disciplined ops (buffer_init n) 0 ->
  buf_run ops (buffer_init n) 0 = Ok (buf, out) ->
  size buf = n /\ remaining buf + out = n /\ 0 <= remaining buf <= n.
Proof.
  intros Hn.
  assert (Hgen : forall b o, size b = n -> remaining b + o = n -> 0 <= remaining b -> 0 <= o ->
    buf_disciplined ops b o -> buf_run ops b o = Ok (buf, out) ->
    size buf = n /\ remaining buf + out = n /\ 0 <= remaining buf <= n).
  { induction ops as [|[k|k] ops IH]; intros b o Hs Hsum Hr Ho Hd Hrun.
    - injection Hrun as <- <-. lia.
    - cbn in Hd, Hrun. destruct Hd as [Hk Hd]. rewrite buffer_allocate_spec in Hrun by lia.
      destruct (Z.ltb_spec (remaining b) k); cbn [rbind] in Hrun.
      + rewrite Z.add_0_r in Hrun. by apply (IH b o).
      + eapply IH; [..|exact Hd|exact Hrun]; cbn; lia.
    - cbn in Hd, Hrun. destruct Hd as [Hk Hd]. rewrite u64_id in Hrun by lia.
      eapply IH; [..|exact Hd|exact Hrun]; cbn; lia. }
  apply Hgen; cbn; lia.
Qed.

Lemma buffer_accounting_witness :
  exists buf out, buf_run [Alloc 60; Alloc 50; Release 20; Alloc 50] (buffer_init 100) 0 = Ok (buf, out) /\
    size buf = 100 /\ remaining buf + out = 100 /\ 0 <= remaining buf <= 100.
Proof.
  eexists _, _. split; [vm_compute; reflexivity|].
  apply (buffer_accounting [Alloc 60; Alloc 50; Release 20; Alloc 50] 100); [lia| |vm_compute; reflexivity].
  vm_compute. repeat split; intros [=].
Defined.

(** ** The initial array *)
Lemma zget_replicate_in {A} n (x : A) i : 0 <= i < n -> zget (replicate (Z.to_nat n) x) i = Some x.
Proof.
  intros Hi. unfold zget. replace (i <? 0) with false by lia. apply lookup_replicate. split; [done|lia].
Qed.

Lemma zget_zseq n i : zget (zseq n) i = if (0 <=? i) && (i <? n) then Some i else None.
Proof.
  unfold zget, zseq. destruct (Z.ltb_spec i 0) as [|Hi].
  { replace (0 <=? i) with false by lia. done. }
  replace (0 <=? i) with true by lia. cbn [andb]. destruct (Z.ltb_spec i n).
  - rewrite lookup_seqZ. split; lia.
  - apply lookup_seqZ_ge. lia.
Qed.

Lemma zget_fmap {A B} (f : A -> B) l i : zget (f <$> l) i = f <$> zget l i.
Proof. unfold zget. case_match; [done|]. apply list_lookup_fmap. Qed.

Section Init.
Context (spp : ssdparams) (cpu : Z).

Definition init_blk_of (b : Z) : nand_block :=
  if b <? tt_lines_slc spp then ssd_init_nand_blk_slc spp else ssd_init_nand_blk spp.

Lemma ssd_init_lun_at c l :
  lun_at (ssd_init spp cpu) c l =
    if decide (0 <= c < nchs spp /\ 0 <= l < luns_per_ch spp) then Some (ssd_init_nand_lun spp) else None.
Proof.
  unfold lun_at, ssd_init. cbn [ch]. case_decide as H.
  - rewrite zget_replicate_in by lia. cbn [mbind option_bind ssd_init_ch lun].
    rewrite zget_replicate_in by lia. done.
  - destruct (zget _ c) as [x|] eqn:Hx; [|done]. cbn.
    pose proof (zget_range _ _ _ Hx) as Hc. rewrite length_replicate in Hc.
    apply ChannelModel.zget_replicate in Hx as ->. cbn.
    apply zget_None. rewrite length_replicate. lia.
Qed.

Lemma ssd_init_blk_at c l q b :
  blk_at (ssd_init spp cpu) c l q b =
    if decide (0 <= c < nchs spp /\ 0 <= l < luns_per_ch spp /\ 0 <= q < pls_per_lun spp /\ 0 <= b < blks_per_pl spp)
    then Some (init_blk_of b) else None.
Proof.
  unfold blk_at. rewrite ssd_init_lun_at.
  destruct (decide (0 <= c < nchs spp /\ 0 <= l < luns_per_ch spp)) as [H|H]; cbn.
  - destruct (decide (0 <= q < pls_per_lun spp)) as [Hq|Hq].
    + rewrite zget_replicate_in by lia. cbn. rewrite zget_fmap, zget_zseq.
      case_decide; [|replace ((0 <=? b) && (b <? blks_per_pl spp)) with false by lia; done].
      replace ((0 <=? b) && (b <? blks_per_pl spp)) with true by lia. done.
    + rewrite zget_None by (rewrite length_replicate; lia). cbn. rewrite decide_False; [done|naive_solver].
  - rewrite decide_False; [done|naive_solver].
Qed.

Lemma add_xfer_lat_wf m d : chmodel_wf m -> chmodel_wf (add_xfer_lat m d).
Proof. intros [Hr Hm]. by split. Qed.

Lemma ssd_init_timing_ok :
  31 <= ch_bandwidth spp < 2 ^ 30 -> 31 <= pcie_bandwidth spp < 2 ^ 30 -> timing_ok (ssd_init spp cpu).
Proof.
  intros Hc Hp. split; [by apply ChannelModel.chmodel_init_wf|].
  intros c m. unfold model_at, ssd_init. cbn [ch].
  destruct (zget _ c) as [x|] eqn:Hx; [|done]. apply ChannelModel.zget_replicate in Hx as ->.
  intros [= <-]. apply add_xfer_lat_wf. by apply ChannelModel.chmodel_init_wf.
Qed.

Lemma ssd_init_dies : dies_ok (ssd_init spp cpu).
Proof. intros c l Hc Hl. rewrite ssd_init_lun_at. rewrite decide_True by done. eauto. Qed.

End Init.

(** [ssd_next_idle_time] returns, without changing the array, a time no
    earlier than the clock nor than the end of any die's work, and that is the
    least such time: it is the clock or the time some die becomes free. *)
Theorem ssd_next_idle_time_correct s clk t :
  dies_ok s -> 0 < luns_per_ch (sp s) ->
  exists z, ssd_next_idle_time clk t s = Ok (z, S t, s) /\ clk CPU_CLOCK t <= z /\
    (forall c l x, 0 <= c < nchs (sp s) -> 0 <= l < luns_per_ch (sp s) -> die_time s c l = Some x -> x <= z) /\
    (z = clk CPU_CLOCK t \/ exists c l, die_time s c l = Some z).
Proof. apply ssd_next_idle_time_spec. Qed.

Lemma demo_cmd_ok spp c :
  slc_geometry spp -> max_ch_xfer_size spp < 2 ^ 31 ->
  cmd_ok (ssd_init spp 0) (mk_cmd GC_IO c (Some 16384) 7 false (mk_ppa 0 0 0 0 0 0)).
Proof.
  intros G Hm. destruct G. split; change (sp (ssd_init spp 0)) with spp;
    cbn [nc_ppa nc_cmd nc_xfer_size g_ch g_lun g_pg]; eauto.
  - rewrite ssd_init_lun_at, decide_True by lia. eauto.
  - lia.
  - exists 16384. split; [done|lia].
Qed.

Lemma ssd_next_idle_time_correct_witness :
  exists spp z, ssd_init_params_slc SAMSUNG_970PRO (GB 8) 4 = Ok spp /\
    ssd_next_idle_time (fun _ _ => 9) 0%nat (ssd_init spp 0) = Ok (z, 1%nat, ssd_init spp 0) /\ 9 <= z.
Proof.
  destruct (ssd_init_params_slc_970 (GB 8)) as (spp & E & H); [split; vm_compute; discriminate|].
  injection (proj1 H) as _ Hl _ _.
  destruct (ssd_next_idle_time_correct (ssd_init spp 0) (fun _ _ => 9) 0%nat) as (z & Ez & Hz & _).
  - apply ssd_init_dies.
  - change (0 < luns_per_ch spp). rewrite Hl. reflexivity.
  - exists spp, z. split; [exact E|]. split; [exact Ez|exact Hz].
Defined.

Lemma ssd_advance_nand_frame_witness :
  exists spp, ssd_init_params_slc SAMSUNG_970PRO (GB 8) 4 = Ok spp /\
    let s := ssd_init spp 0 in
    let cmd := mk_cmd GC_IO NAND_WRITE (Some 16384) 7 false (mk_ppa 0 0 0 0 0 0) in
    exists z t' s', ssd_advance_nand cmd (fun _ _ => 5) 0%nat s = Ok (z, t', s') /\
      die_free_at (nc_ppa cmd) s' z.
Proof.
  destruct (ssd_init_params_slc_geom (GB 8)) as (spp & E & G & Hm); [split; vm_compute; discriminate|].
  exists spp. split; [exact E|]. intros s cmd.
  destruct (ssd_advance_nand_frame s cmd (fun _ _ => 5) 0%nat) as (z & t' & s' & Ez & _ & _ & _ & Hd).
  - apply demo_cmd_ok; [exact G|rewrite Hm; reflexivity].
  - destruct G. apply ssd_init_timing_ok; assumption.
  - exists z, t', s'. split; [exact Ez|]. apply Hd; [left; reflexivity|vm_compute; discriminate].
Defined.
