(* ===== verification/Nvme.v ===== *)
(** * nvme.h / nvmev.h: the request interface between the dispatcher and an FTL

    Commands as the FTLs see them: the fields of [struct nvme_rw_command], the
    [nvmev_request] wrapping a command with its submission queue and start time,
    the [nvmev_result] a handler fills, and the internal operations (write
    buffer releases) a handler hands to the I/O workers. *)

From Stdlib Require Import ZArith Lia.
From stdpp Require Import base list numbers.
From S2P Require Import Prelude.

Definition nvme_cmd_flush : Z := 0x00.
Definition nvme_cmd_write : Z := 0x01.
Definition nvme_cmd_read : Z := 0x02.

Definition NVME_RW_FUA : Z := Z.shiftl 1 14.

Definition NVME_SC_SUCCESS : Z := 0x0.

Record nvme_rw_command : Type := mk_rw {
  opcode : Z;    (* __u8 *)
  slba : Z;      (* __le64 *)
  length : Z;    (* __le16, 0's based *)
  control : Z;   (* __le16 *)
}.

Record nvmev_request : Type := mk_req {
  cmd : nvme_rw_command;
  sq_id : Z;
  nsecs_start : Z;
}.

Record nvmev_result : Type := mk_result {
  status : Z;
  nsecs_target : Z;
}.

(** [schedule_internal_operation(sqid, nsecs_target, write_buffer, buffs_to_release)] *)
Record internal_op : Type := mk_internal {
  io_sqid : Z;
  io_nsecs_target : Z;
  io_buffs_to_release : Z;
}.

(** The fields of a command hold what their widths allow. *)
Record rw_ok (c : nvme_rw_command) : Prop := {
  rw_slba : 0 <= slba c < 2 ^ 64;
  rw_length : 0 <= length c < 2 ^ 16;
}.
