(* ===== verification/ConvFtl.v ===== *)
(** * conv_ftl.h / conv_ftl.c: the page-mapping FTL with an SLC cache

    One [conv_ftl] per partition.  Host writes go to the lines of the SLC area
    ([slm]); garbage collection copies valid pages of an SLC line (migration) or
    of a TLC line to the open TLC line.  A line is named by its area and its
    index ([line_ref]); the victim queue of an area stores indices into that
    area's [lines] and updates them through [PQAccess].  Intrusive lists are
    lists of indices; linking an entry twice is the fault [ListCorrupt].

    Functions without a clock are functions to [res]; those that reach the NAND
    timing model are in the state monad.  This file holds data and operations
    only; ConvInv.v and the files after it prove them correct. *)

From Stdlib Require Import ZArith Lia.
From stdpp Require Import base list numbers.
From S2P Require Import Prelude PQueue Config SsdParams.
From S2P Require Ssd ChannelModel.
From S2P Require Nvme.
Import Ssd (ppa, mk_ppa, g_pg, g_blk, g_pl, g_lun, g_ch, g_rsv, ppa_word, ppa_of_word, h_blk_in_ssd,
  UNMAPPED_PPA, INVALID_LPN, page_status, PG_FREE, PG_INVALID, PG_VALID, USER_IO, GC_IO,
  NAND_READ, NAND_WRITE, NAND_ERASE, NAND_NOP, nand_cmd, mk_cmd, ssd_advance_nand, sp).

(** ** Data *)
Inductive line_mode : Type := SLC_MODE | TLC_MODE.

#[global] Instance line_mode_eq_dec : EqDecision line_mode.
Proof. solve_decision. Defined.

(** [op_area_pcent] is kept in hundredths. *)
Record convparams : Type := mk_convparams {
  gc_thres_lines : Z;
  gc_thres_lines_high : Z;
  enable_gc_delay : bool;
  mig_thres_lines : Z;
  mig_thres_lines_high : Z;
  op_area_pcent_x100 : Z;
  pba_pcent : Z;
}.

Record line : Type := mk_line {
  id : Z;
  ipc : Z;
  vpc : Z;
  pos : nat;
  mtime : Z;
}.

(** A pointer to a line: the area ([slm] or [lm]) and the index in its [lines]. *)
Definition line_ref : Type := line_mode * ptr.

Record write_pointer : Type := mk_wp {
  curline : option line_ref;
  wp_ch : Z;
  wp_lun : Z;
  wp_pg : Z;
  wp_blk : Z;
  wp_pl : Z;
}.

Record line_mgmt : Type := mk_lm {
  lines : list line;
  free_line_list : list ptr;
  victim_line_pq : pqueue;
  full_line_list : list ptr;
  lm_tt_lines : Z;
  free_line_cnt : Z;
  victim_line_cnt : Z;
  full_line_cnt : Z;
}.

Record write_flow_control : Type := mk_wfc {
  write_credits : Z;
  credits_to_refill : Z;
}.

Record conv_ftl : Type := mk_conv {
  ssd : Ssd.ssd;
  cp : convparams;
  maptbl : list ppa;
  rmap : list Z;
  wp : write_pointer;
  gc_wp : write_pointer;
  lm : line_mgmt;
  wfc : write_flow_control;
  gc_cnt : Z;
  copy_cnt : Z;
  age_cnt : list Z;       (* [201] *)
  slm : line_mgmt;
  slc_mode : line_mode;
  dyn_slc_mode : line_mode;
}.

(** Assignments to a field. *)
Definition set_ssd (f : conv_ftl) x := mk_conv x (cp f) (maptbl f) (rmap f) (wp f) (gc_wp f) (lm f)
  (wfc f) (gc_cnt f) (copy_cnt f) (age_cnt f) (slm f) (slc_mode f) (dyn_slc_mode f).
Definition set_maptbl (f : conv_ftl) x := mk_conv (ssd f) (cp f) x (rmap f) (wp f) (gc_wp f) (lm f)
  (wfc f) (gc_cnt f) (copy_cnt f) (age_cnt f) (slm f) (slc_mode f) (dyn_slc_mode f).
Definition set_rmap (f : conv_ftl) x := mk_conv (ssd f) (cp f) (maptbl f) x (wp f) (gc_wp f) (lm f)
  (wfc f) (gc_cnt f) (copy_cnt f) (age_cnt f) (slm f) (slc_mode f) (dyn_slc_mode f).
Definition set_wp (f : conv_ftl) x := mk_conv (ssd f) (cp f) (maptbl f) (rmap f) x (gc_wp f) (lm f)
  (wfc f) (gc_cnt f) (copy_cnt f) (age_cnt f) (slm f) (slc_mode f) (dyn_slc_mode f).
Definition set_gc_wp (f : conv_ftl) x := mk_conv (ssd f) (cp f) (maptbl f) (rmap f) (wp f) x (lm f)
  (wfc f) (gc_cnt f) (copy_cnt f) (age_cnt f) (slm f) (slc_mode f) (dyn_slc_mode f).
Definition set_lm (f : conv_ftl) x := mk_conv (ssd f) (cp f) (maptbl f) (rmap f) (wp f) (gc_wp f) x
  (wfc f) (gc_cnt f) (copy_cnt f) (age_cnt f) (slm f) (slc_mode f) (dyn_slc_mode f).
Definition set_wfc (f : conv_ftl) x := mk_conv (ssd f) (cp f) (maptbl f) (rmap f) (wp f) (gc_wp f) (lm f)
  x (gc_cnt f) (copy_cnt f) (age_cnt f) (slm f) (slc_mode f) (dyn_slc_mode f).
Definition set_gc_cnt (f : conv_ftl) x := mk_conv (ssd f) (cp f) (maptbl f) (rmap f) (wp f) (gc_wp f) (lm f)
  (wfc f) x (copy_cnt f) (age_cnt f) (slm f) (slc_mode f) (dyn_slc_mode f).
Definition set_copy_cnt (f : conv_ftl) x := mk_conv (ssd f) (cp f) (maptbl f) (rmap f) (wp f) (gc_wp f) (lm f)
  (wfc f) (gc_cnt f) x (age_cnt f) (slm f) (slc_mode f) (dyn_slc_mode f).
Definition set_age_cnt (f : conv_ftl) x := mk_conv (ssd f) (cp f) (maptbl f) (rmap f) (wp f) (gc_wp f) (lm f)
  (wfc f) (gc_cnt f) (copy_cnt f) x (slm f) (slc_mode f) (dyn_slc_mode f).
Definition set_slm (f : conv_ftl) x := mk_conv (ssd f) (cp f) (maptbl f) (rmap f) (wp f) (gc_wp f) (lm f)
  (wfc f) (gc_cnt f) (copy_cnt f) (age_cnt f) x (slc_mode f) (dyn_slc_mode f).
Definition set_dyn_slc_mode (f : conv_ftl) x := mk_conv (ssd f) (cp f) (maptbl f) (rmap f) (wp f) (gc_wp f)
  (lm f) (wfc f) (gc_cnt f) (copy_cnt f) (age_cnt f) (slm f) (slc_mode f) x.

Definition set_lines (m : line_mgmt) x := mk_lm x (free_line_list m) (victim_line_pq m) (full_line_list m)
  (lm_tt_lines m) (free_line_cnt m) (victim_line_cnt m) (full_line_cnt m).
Definition set_free (m : line_mgmt) l n := mk_lm (lines m) l (victim_line_pq m) (full_line_list m)
  (lm_tt_lines m) n (victim_line_cnt m) (full_line_cnt m).
Definition set_full (m : line_mgmt) l n := mk_lm (lines m) (free_line_list m) (victim_line_pq m) l
  (lm_tt_lines m) (free_line_cnt m) (victim_line_cnt m) n.
Definition set_victim (m : line_mgmt) q ls n := mk_lm ls (free_line_list m) q (full_line_list m)
  (lm_tt_lines m) (free_line_cnt m) n (full_line_cnt m).

Definition line_set_ipc (l : line) x := mk_line (id l) x (vpc l) (pos l) (mtime l).
Definition line_set_vpc (l : line) x := mk_line (id l) (ipc l) x (pos l) (mtime l).
Definition line_set_pos (l : line) x := mk_line (id l) (ipc l) (vpc l) x (mtime l).
Definition line_set_mtime (l : line) x := mk_line (id l) (ipc l) (vpc l) (pos l) x.

Definition spp (f : conv_ftl) : ssdparams := sp (ssd f).

(** ** The victim queue's callbacks *)
Definition victim_line_cmp_pri (next curr : Z) : bool := curr <? next.
Definition victim_line_get_pri (ls : list line) (p : ptr) : Z := default 0 ((fun l => u64 (vpc l)) <$> ls !! p).
Definition victim_line_set_pri (ls : list line) (p : ptr) (pri : Z) : list line :=
  alter (fun l => line_set_vpc l (i32 pri)) p ls.
Definition victim_line_get_pos (ls : list line) (p : ptr) : nat := default 0%nat (pos <$> ls !! p).
Definition victim_line_set_pos (ls : list line) (p : ptr) (n : nat) : list line :=
  alter (fun l => line_set_pos l n) p ls.

#[global] Instance victim_access : PQAccess (list line) := {
  getpri := victim_line_get_pri;
  setpri := victim_line_set_pri;
  getpos := victim_line_get_pos;
  setpos := victim_line_set_pos;
  cmppri := victim_line_cmp_pri;
}.

(** ** Areas *)
Definition get_lm (f : conv_ftl) (a : line_mode) : line_mgmt :=
  match a with SLC_MODE => slm f | TLC_MODE => lm f end.
Definition put_lm (f : conv_ftl) (a : line_mode) (m : line_mgmt) : conv_ftl :=
  match a with SLC_MODE => set_slm f m | TLC_MODE => set_lm f m end.

Definition is_slc (m : line_mode) : bool := bool_decide (m = SLC_MODE).

(** The area of a block, and the page counts that go with it; the source spells
    out the three-way test at each use. *)
Definition area_of_blk (f : conv_ftl) (b : Z) : line_mode :=
  if is_slc (slc_mode f) && (b <? tt_lines_slc (spp f)) then SLC_MODE else TLC_MODE.
Definition cur_pgs_per_blk (f : conv_ftl) (a : line_mode) : Z :=
  match a with SLC_MODE => pgs_per_blk_slc (spp f) | TLC_MODE => pgs_per_blk (spp f) end.
Definition cur_pgs_per_line (f : conv_ftl) (a : line_mode) : Z :=
  match a with SLC_MODE => pgs_per_line_slc (spp f) | TLC_MODE => pgs_per_line (spp f) end.
Definition cur_pgs_per_oneshotpg (f : conv_ftl) (a : line_mode) : Z :=
  match a with SLC_MODE => pgs_per_oneshotpg_slc (spp f) | TLC_MODE => pgs_per_oneshotpg (spp f) end.

Definition last_pg_in_wordline (f : conv_ftl) (p : ppa) : res bool :=
  if pgs_per_oneshotpg (spp f) =? 0 then Err DivByZero
  else Ok (Z.rem (g_pg p) (pgs_per_oneshotpg (spp f)) =? pgs_per_oneshotpg (spp f) - 1).
Definition last_pg_in_wordline_slc (f : conv_ftl) (p : ppa) : res bool :=
  if pgs_per_oneshotpg_slc (spp f) =? 0 then Err DivByZero
  else Ok (Z.rem (g_pg p) (pgs_per_oneshotpg_slc (spp f)) =? pgs_per_oneshotpg_slc (spp f) - 1).

Definition should_gc (f : conv_ftl) : bool := free_line_cnt (lm f) <=? gc_thres_lines (cp f).
Definition should_gc_high (f : conv_ftl) : bool := free_line_cnt (lm f) <=? gc_thres_lines_high (cp f).
Definition should_migration (f : conv_ftl) : bool := free_line_cnt (slm f) <=? mig_thres_lines (cp f).
Definition should_migration_high (f : conv_ftl) : bool :=
  free_line_cnt (slm f) <=? mig_thres_lines_high (cp f).

(** ** Mapping tables *)
Definition get_maptbl_ent (f : conv_ftl) (lpn : Z) : res ppa := aget (maptbl f) lpn.

Definition set_maptbl_ent (f : conv_ftl) (lpn : Z) (p : ppa) : res conv_ftl :=
  rassert (lpn <? tt_pgs (spp f)) ;;;
  let! m := aset (maptbl f) lpn p in
  Ok (set_maptbl f m).

Definition ppa2pgidx (f : conv_ftl) (p : ppa) : res Z :=
  let s := spp f in
  let base := g_ch p * pgs_per_ch s + g_lun p * pgs_per_lun s + g_pl p * pgs_per_pl s in
  let! pgidx :=
    if is_slc (slc_mode f) then
      if g_blk p <? tt_lines_slc s then
        rassert (g_pg p <? pgs_per_blk_slc s) ;;;
        Ok (u64 (base + i32 (g_blk p * pgs_per_blk_slc s) + g_pg p))
      else
        Ok (u64 (base + i32 (i32 (tt_lines_slc s * pgs_per_blk_slc s) +
                             i32 (i32 (g_blk p - tt_lines_slc s) * pgs_per_blk s)) + g_pg p))
    else Ok (u64 (base + i32 (g_blk p * pgs_per_blk s) + g_pg p)) in
  rassert (pgidx <? tt_pgs s) ;;;
  Ok pgidx.

Definition get_rmap_ent (f : conv_ftl) (p : ppa) : res Z :=
  let! i := ppa2pgidx f p in aget (rmap f) i.

Definition set_rmap_ent (f : conv_ftl) (lpn : Z) (p : ppa) : res conv_ftl :=
  let! i := ppa2pgidx f p in
  let! r := aset (rmap f) i lpn in
  Ok (set_rmap f r).

Definition valid_ppa (f : conv_ftl) (p : ppa) : bool :=
  let s := spp f in
  if (g_ch p <? 0) || (nchs s <=? g_ch p) then false
  else if (g_lun p <? 0) || (luns_per_ch s <=? g_lun p) then false
  else if (g_pl p <? 0) || (pls_per_lun s <=? g_pl p) then false
  else if (g_blk p <? 0) || (blks_per_pl s <=? g_blk p) then false
  else if is_slc (slc_mode f) then
    if g_blk p <? lm_tt_lines (slm f) then
      negb ((g_pg p <? 0) || (pgs_per_blk_slc s <=? g_pg p))
    else negb ((g_pg p <? 0) || (pgs_per_blk s <=? g_pg p))
  else negb ((g_pg p <? 0) || (pgs_per_blk s <=? g_pg p)).

Definition valid_lpn (f : conv_ftl) (lpn : Z) : bool := lpn <? tt_pgs (spp f).
Definition mapped_ppa (p : ppa) : bool := negb (ppa_word p =? UNMAPPED_PPA).

Definition get_line (f : conv_ftl) (p : ppa) : line_ref :=
  if is_slc (slc_mode f) then
    let boundary_line := lm_tt_lines (slm f) in
    if g_blk p <? boundary_line then (SLC_MODE, Z.to_nat (g_blk p))
    else (TLC_MODE, Z.to_nat (g_blk p - boundary_line))
  else (TLC_MODE, Z.to_nat (g_blk p)).

(** Reading and writing a line through its reference. *)
Definition line_at (f : conv_ftl) (r : line_ref) : res line := lget (lines (get_lm f (fst r))) (snd r).
Definition put_line (f : conv_ftl) (r : line_ref) (x : line) : res conv_ftl :=
  let! ls := lset (lines (get_lm f (fst r))) (snd r) x in
  Ok (put_lm f (fst r) (set_lines (get_lm f (fst r)) ls)).

(** ** Intrusive lists *)
Definition list_add_tail (p : ptr) (m : line_mgmt) (l : list ptr) : res (list ptr) :=
  if bool_decide (p ∈ free_line_list m) || bool_decide (p ∈ full_line_list m) then Err ListCorrupt
  else Ok (l ++ [p]).
Definition list_del_init (p : ptr) (l : list ptr) : list ptr := filter (fun q => q <> p) l.

(** ** Flow control *)
Definition consume_write_credit (f : conv_ftl) : conv_ftl :=
  set_wfc f (mk_wfc (u32 (write_credits (wfc f) - 1)) (credits_to_refill (wfc f))).

(** ** Initialisation *)
Definition init_line (i : Z) : line := mk_line i 0 0 0 0.

(** One area: [n] free lines with ids from [offset]; [junk] is what the queue's
    array holds before use. *)
Definition init_line_mgmt (junk : nat -> ptr) (n offset : Z) (qlen : Z) : line_mgmt :=
  mk_lm ((fun i => init_line (i + offset)) <$> zseq n) (seq 0 (Z.to_nat n))
    (pqueue_init junk (Z.to_nat qlen)) [] n n 0 0.

(** [f] is the allocation before initialisation: with the cache disabled, [slm]
    keeps what it held. *)
Definition init_lines (junk : nat -> ptr) (f : conv_ftl) : res conv_ftl :=
  let s := spp f in
  if is_slc (slc_mode f) then
    rassert (u32 (u32 (tt_lines_tlc s) + u32 (tt_lines_slc s)) =? tt_lines s) ;;;
    Ok (set_slm (set_lm f (init_line_mgmt junk (tt_lines_tlc s) (tt_lines_slc s) (tt_lines_tlc s)))
         (init_line_mgmt junk (tt_lines_slc s) 0 (tt_lines_slc s)))
  else
    rassert (u32 (blks_per_pl s) =? tt_lines s) ;;;
    Ok (set_lm f (init_line_mgmt junk (blks_per_pl s) 0 (tt_lines s))).

Definition init_write_flow_control (f : conv_ftl) : conv_ftl :=
  let n := if is_slc (slc_mode f) then u32 (pgs_per_line_slc (spp f)) else u32 (pgs_per_line (spp f)) in
  set_wfc f (mk_wfc n n).

(** [curline] is [NULL] when the list is empty. *)
Definition get_next_free_line (f : conv_ftl) : option line_ref * conv_ftl :=
  let a := if is_slc (slc_mode f) && is_slc (dyn_slc_mode f) then SLC_MODE else TLC_MODE in
  let m := get_lm f a in
  match free_line_list m with
  | [] => (None, f)
  | p :: _ =>
      (Some (a, p),
       put_lm f a (set_free m (list_del_init p (free_line_list m)) (u32 (free_line_cnt m - 1))))
  end.

Definition __get_wp (f : conv_ftl) (io_type : Z) : option write_pointer :=
  if io_type =? USER_IO then Some (wp f)
  else if io_type =? GC_IO then Some (gc_wp f)
  else None.
Definition __put_wp (f : conv_ftl) (io_type : Z) (w : write_pointer) : conv_ftl :=
  if io_type =? USER_IO then set_wp f w else set_gc_wp f w.

Definition prepare_write_pointer (f : conv_ftl) (io_type : Z) : res conv_ftl :=
  let mode := if is_slc (slc_mode f) && (io_type =? USER_IO) then SLC_MODE else TLC_MODE in
  let (cur, f) := get_next_free_line (set_dyn_slc_mode f mode) in
  let! _ := of_opt BugOn (__get_wp f io_type) in
  let! r := of_opt BugOn cur in
  let! l := line_at f r in
  Ok (__put_wp f io_type (mk_wp (Some r) 0 0 0 (u32 (id l)) 0)).

(** ** Write pointers *)
Definition check_addr (a max : Z) : res unit := rassert ((0 <=? a) && (a <? max)).

Definition wp_at (w : write_pointer) (c l p : Z) : write_pointer := mk_wp (curline w) c l p (wp_blk w) (wp_pl w).

(** The area a write pointer fills: [advance_write_pointer]'s choice of [lm]. *)
Definition area_of_io (f : conv_ftl) (io_type : Z) : line_mode :=
  if is_slc (slc_mode f) && (io_type =? USER_IO) then SLC_MODE else TLC_MODE.

(** An entry of an area's queue and lists is a line of that area. *)
Definition own_line (a : line_mode) (r : line_ref) : res ptr :=
  if bool_decide (fst r = a) then Ok (snd r) else Err ListCorrupt.

(** A used-up line moves to the full list or to the victim queue. *)
Definition retire_line (f : conv_ftl) (a : line_mode) (r : line_ref) : res conv_ftl :=
  let m := get_lm f a in
  let ppl := cur_pgs_per_line f a in
  let! l := line_at f r in
  let! p := own_line a r in
  if vpc l =? ppl then
    rassert (ipc l =? 0) ;;;
    let! full := list_add_tail p m (full_line_list m) in
    Ok (put_lm f a (set_full m full (u32 (full_line_cnt m + 1))))
  else
    rassert ((0 <=? vpc l) && (vpc l <? ppl)) ;;;
    rassert (0 <? ipc l) ;;;
    rassert (vpc l + ipc l =? ppl) ;;;
    let! (q, ls) := pqueue_insert (victim_line_pq m) (lines m) p in
    Ok (put_lm f a (set_victim m q ls (u32 (victim_line_cnt m + 1)))).

(** The end of [advance_write_pointer]: the line is used up, take another. *)
Definition next_line (f : conv_ftl) (io_type : Z) (w : write_pointer) : res conv_ftl :=
  let! r := of_opt NullDeref (curline w) in
  let! f := retire_line f (area_of_io f io_type) r in
  check_addr (wp_blk w) (blks_per_pl (spp f)) ;;;
  let (cur, f) := get_next_free_line
    (set_dyn_slc_mode f (if io_type =? USER_IO then SLC_MODE else TLC_MODE)) in
  let! r := of_opt BugOn cur in
  let! l := line_at f r in
  check_addr (u32 (id l)) (blks_per_pl (spp f)) ;;;
  rassert (wp_pg w =? 0) ;;;
  rassert (wp_lun w =? 0) ;;;
  rassert (wp_ch w =? 0) ;;;
  rassert (wp_pl w =? 0) ;;;
  Ok (__put_wp f io_type (mk_wp (Some r) (wp_ch w) (wp_lun w) (wp_pg w) (u32 (id l)) (wp_pl w))).

Definition advance_write_pointer (f : conv_ftl) (io_type : Z) : res conv_ftl :=
  let s := spp f in
  let! w := of_opt NullDeref (__get_wp f io_type) in
  let a := area_of_io f io_type in
  let ppb := cur_pgs_per_blk f a in
  let opp := cur_pgs_per_oneshotpg f a in
  check_addr (wp_pg w) ppb ;;;
  let pg1 := u32 (wp_pg w + 1) in
  if opp =? 0 then Err DivByZero
  else if negb (pg1 mod opp =? 0) then Ok (__put_wp f io_type (wp_at w (wp_ch w) (wp_lun w) pg1))
  else
    let pg2 := u32 (pg1 - opp) in
    check_addr (wp_ch w) (nchs s) ;;;
    let ch1 := u32 (wp_ch w + 1) in
    if negb (ch1 =? nchs s) then Ok (__put_wp f io_type (wp_at w ch1 (wp_lun w) pg2))
    else
      check_addr (wp_lun w) (luns_per_ch s) ;;;
      let lun1 := u32 (wp_lun w + 1) in
      if negb (lun1 =? luns_per_ch s) then Ok (__put_wp f io_type (wp_at w 0 lun1 pg2))
      else
        let pg3 := u32 (pg2 + opp) in
        if negb (pg3 =? ppb) then Ok (__put_wp f io_type (wp_at w 0 0 pg3))
        else next_line f io_type (wp_at w 0 0 0).

Definition get_new_page (f : conv_ftl) (io_type : Z) : res ppa :=
  let! w := of_opt NullDeref (__get_wp f io_type) in
  let p := mk_ppa (wp_pg w mod 2 ^ 16) (wp_blk w mod 2 ^ 16) (wp_pl w mod 2 ^ 8)
             (wp_lun w mod 2 ^ 8) (wp_ch w mod 2 ^ 8) 0 in
  rassert (g_pl p =? 0) ;;;
  Ok p.

Definition init_maptbl (f : conv_ftl) : conv_ftl :=
  set_maptbl f (replicate (Z.to_nat (tt_pgs (spp f))) (ppa_of_word UNMAPPED_PPA)).
Definition init_rmap (f : conv_ftl) : conv_ftl :=
  set_rmap f (replicate (Z.to_nat (tt_pgs (spp f))) INVALID_LPN).

(** [f] is the instance as allocated. *)
Definition conv_init_ftl (junk : nat -> ptr) (f : conv_ftl) (cpp : convparams) (s : Ssd.ssd)
    : res conv_ftl :=
  let mode := if ENABLE_SLC_CACHE then SLC_MODE else TLC_MODE in
  let f := mk_conv s cpp (maptbl f) (rmap f) (wp f) (gc_wp f) (lm f) (wfc f) (gc_cnt f) (copy_cnt f)
             (age_cnt f) (slm f) mode (dyn_slc_mode f) in
  let! f := init_lines junk (init_rmap (init_maptbl f)) in
  let! f := prepare_write_pointer f USER_IO in
  let! f := prepare_write_pointer f GC_IO in
  Ok (init_write_flow_control f).

(** [(int)((1 + op_area_pcent) * 100)] *)
Definition conv_init_params (cfg : ssd_config) : convparams := {|
  op_area_pcent_x100 := OP_AREA_PERCENT_x100 cfg;
  gc_thres_lines := 2;
  gc_thres_lines_high := 2;
  enable_gc_delay := true;
  pba_pcent := 100 + OP_AREA_PERCENT_x100 cfg;
  mig_thres_lines := 2;
  mig_thres_lines_high := 2;
|}.

(** ** Page and block status *)
Definition set_pg_status (f : conv_ftl) (p : ppa) (st : page_status) : res conv_ftl :=
  let! s := Ssd.mod_pg (ssd f) p (fun x => Ok (Ssd.set_status x st)) in Ok (set_ssd f s).
Definition mod_blk (f : conv_ftl) (p : ppa) (g : Ssd.nand_block -> res Ssd.nand_block) : res conv_ftl :=
  let! s := Ssd.mod_blk (ssd f) p g in Ok (set_ssd f s).

Definition blk_set_counts (b : Ssd.nand_block) (i v : Z) : Ssd.nand_block :=
  Ssd.mk_block (Ssd.pg b) (Ssd.npgs b) i v (Ssd.erase_cnt b) (Ssd.blk_wp b).

(** The line's share of [mark_page_invalid]; [a] is the area of the page. *)
Definition invalidate_in_line (f : conv_ftl) (a : line_mode) (r : line_ref) : res conv_ftl :=
  let ppl := cur_pgs_per_line f a in
  let! l := line_at f r in
  rassert ((0 <=? ipc l) && (ipc l <? ppl)) ;;;
  (if vpc l =? ppl then rassert (ipc l =? 0) else Ok tt) ;;;
  let was_full_line := vpc l =? ppl in
  let! f := put_line f r (line_set_ipc l (ipc l + 1)) in
  rassert ((0 <? vpc l) && (vpc l <=? ppl)) ;;;
  let! p := own_line a r in
  let! f :=
    if negb (pos l =? 0)%nat then
      let m := get_lm f a in
      let! (q, ls) := pqueue_change_priority (victim_line_pq m) (lines m) (u64 (vpc l - 1)) p in
      Ok (put_lm f a (set_victim m q ls (victim_line_cnt m)))
    else
      let! l := line_at f r in
      put_line f r (line_set_vpc l (vpc l - 1)) in
  if was_full_line then
    let m := get_lm f a in
    let! l := line_at f r in
    let m := set_full m (list_del_init p (full_line_list m)) (u32 (full_line_cnt m - 1)) in
    rassert (vpc l + ipc l =? ppl) ;;;
    let! (q, ls) := pqueue_insert (victim_line_pq m) (lines m) p in
    Ok (put_lm f a (set_victim m q ls (u32 (victim_line_cnt m + 1))))
  else Ok f.

Definition mark_page_invalid (f : conv_ftl) (p : ppa) : res conv_ftl :=
  rassert (u32 (tt_lines_slc (spp f)) =? lm_tt_lines (slm f)) ;;;
  let a := area_of_blk f (g_blk p) in
  let ppb := cur_pgs_per_blk f a in
  let! x := Ssd.get_pg (ssd f) p in
  rassert (bool_decide (Ssd.status x = PG_VALID)) ;;;
  let! f := set_pg_status f p PG_INVALID in
  let! f := mod_blk f p (fun b =>
    rassert ((0 <=? Ssd.ipc b) && (Ssd.ipc b <? ppb)) ;;;
    rassert ((0 <? Ssd.vpc b) && (Ssd.vpc b <=? ppb)) ;;;
    Ok (blk_set_counts b (Ssd.ipc b + 1) (Ssd.vpc b - 1))) in
  invalidate_in_line f a (get_line f p).

Definition mark_page_valid (f : conv_ftl) (p : ppa) : res conv_ftl :=
  let a := area_of_blk f (g_blk p) in
  let ppb := cur_pgs_per_blk f a in
  let ppl := cur_pgs_per_line f a in
  let! x := Ssd.get_pg (ssd f) p in
  rassert (bool_decide (Ssd.status x = PG_FREE)) ;;;
  let! f := set_pg_status f p PG_VALID in
  let! f := mod_blk f p (fun b =>
    rassert ((0 <=? Ssd.vpc b) && (Ssd.vpc b <? ppb)) ;;;
    Ok (blk_set_counts b (Ssd.ipc b) (Ssd.vpc b + 1))) in
  let r := get_line f p in
  let! l := line_at f r in
  rassert ((0 <=? vpc l) && (vpc l <? ppl)) ;;;
  put_line f r (line_set_vpc l (vpc l + 1)).

(** The loop of [mark_block_free] over the first [n] pages. *)
Fixpoint reset_pages (nsecs : Z) (n : nat) (l : list Ssd.nand_page) : res (list Ssd.nand_page) :=
  match n, l with
  | O, _ => Ok l
  | S n, [] => Err OutOfBounds
  | S n, x :: l =>
      rassert (Ssd.nsecs x =? nsecs) ;;;
      let! l' := reset_pages nsecs n l in
      Ok (Ssd.set_status x PG_FREE :: l')
  end.

Definition mark_block_free (f : conv_ftl) (p : ppa) : res conv_ftl :=
  let ppb := cur_pgs_per_blk f (area_of_blk f (g_blk p)) in
  mod_blk f p (fun b =>
    let! pgs := reset_pages (secs_per_pg (spp f)) (Z.to_nat ppb) (Ssd.pg b) in
    rassert (Ssd.npgs b =? ppb) ;;;
    Ok (Ssd.mk_block pgs (Ssd.npgs b) 0 0 (i32 (Ssd.erase_cnt b + 1)) (Ssd.blk_wp b))).

Definition mark_line_free (f : conv_ftl) (p : ppa) : res conv_ftl :=
  let r := get_line f p in
  let a := area_of_blk f (g_blk p) in
  let! l := line_at f r in
  let! f := put_line f r (line_set_vpc (line_set_ipc l 0) 0) in
  let! q := own_line a r in
  let m := get_lm f a in
  let! free := list_add_tail q m (free_line_list m) in
  Ok (put_lm f a (set_free m free (u32 (free_line_cnt m + 1)))).

(** ** Garbage collection *)
Definition zoom_ssd {A} (m : M Ssd.ssd A) : M conv_ftl A := zoom ssd set_ssd m.

Definition gc_read_page (p : ppa) : M conv_ftl unit :=
  let* f := get in
  when (enable_gc_delay (cp f))
    (zoom_ssd (ssd_advance_nand (mk_cmd GC_IO NAND_READ (Some (u64 (pgsz (spp f)))) 0 false p)) ;; ret tt).

(** The program command of [gc_write_page]: a whole wordline, or no operation. *)
Definition gc_write_cmd (f : conv_ftl) (p : ppa) : res nand_cmd :=
  let! last := last_pg_in_wordline f p in
  Ok (if last then mk_cmd GC_IO NAND_WRITE (Some (u64 (i32 (pgsz (spp f) * pgs_per_oneshotpg (spp f))))) 0 false p
      else mk_cmd GC_IO NAND_NOP None 0 false p).

(** Remap the page: everything [gc_write_page] does before the timing model. *)
Definition gc_move_page (f : conv_ftl) (old_ppa : ppa) : res (ppa * conv_ftl) :=
  let! lpn := get_rmap_ent f old_ppa in
  rassert (valid_lpn f lpn) ;;;
  let! new_ppa := get_new_page f GC_IO in
  let! f := set_maptbl_ent f lpn new_ppa in
  let! f := set_rmap_ent f lpn new_ppa in
  let! f := mark_page_valid f new_ppa in
  let f := set_copy_cnt f (u64 (copy_cnt f + 1)) in
  let! f := advance_write_pointer f GC_IO in
  Ok (new_ppa, f).

Definition gc_write_page (old_ppa : ppa) : M conv_ftl Z :=
  let* new_ppa := update_get (fun f => gc_move_page f old_ppa) in
  let* f := get in
  (if enable_gc_delay (cp f) then
     let* gcw := lift (gc_write_cmd f new_ppa) in
     zoom_ssd (ssd_advance_nand gcw) ;; ret tt
   else ret tt) ;;
  ret 0.

Definition US (a : Z) : Z := a * 1000 * 1000.
Definition age_levelize (age_us : Z) : Z :=
  if age_us <? US 5 then 1
  else if age_us <? US 10 then 5
  else if age_us <? US 25 then 10
  else if age_us <? US 50 then 20
  else if age_us <? US 100 then 40
  else if age_us <? US 200 then 80
  else 250.

Definition SCALER : Z := 1000000000000.

(** [now] is what [ktime_get_ns()] returns. *)
Definition calculate_cost_benefit_val (s : ssdparams) (cur_line : line) (now : Z) : res Z :=
  let age := age_levelize (i64 (u64 (now - mtime cur_line) / 1000)) in
  let ppl := i32 (pgs_per_line s) in
  if vpc cur_line =? ppl then Ok (i64 (SCALER * 10))
  else
    let d := i32 (i32 (ppl - vpc cur_line) * age) in
    if d =? 0 then Err DivByZero
    else Ok (Z.quot (i64 (vpc cur_line * SCALER)) d).

Definition LLONG_MAX : Z := 2 ^ 63 - 1.

(** The scan over the victim queue's array; [best] is [(cb_min, min_idx)]. *)
Fixpoint cb_scan (f : conv_ftl) (idxs : list nat) (best : Z * option nat) : M conv_ftl (option nat) :=
  match idxs with
  | [] => ret (snd best)
  | i :: idxs =>
      let* p := lift (lget (d (victim_line_pq (lm f))) i) in
      let* l := lift (lget (lines (lm f)) p) in
      if ipc l =? 0 then cb_scan f idxs best
      else
        let* now := read_clock KTIME_NS in
        let* v := lift (calculate_cost_benefit_val (spp f) l now) in
        cb_scan f idxs (if v <? fst best then (v, Some i) else best)
  end.

(** The victim leaves the queue: [pos = 0] and the count. *)
Definition detach_victim (m : line_mgmt) (q : pqueue) (ls : list line) (p : ptr) : res line_mgmt :=
  let! l := lget ls p in
  let! ls := lset ls p (line_set_pos l 0) in
  Ok (set_victim m q ls (u32 (victim_line_cnt m - 1))).

Definition take_victim (p : ptr) (f : conv_ftl) : res conv_ftl :=
  let m := lm f in
  let! (q, ls) := pqueue_remove (victim_line_pq m) (lines m) p in
  let! m := detach_victim m q ls p in
  Ok (set_lm f m).

Definition count_age (p : ptr) (now : Z) (f : conv_ftl) : res conv_ftl :=
  let! l := lget (lines (lm f)) p in
  let age := u64 (now - mtime l) / 1000000000 in
  let! a := amod (age_cnt f) (if age <? 200 then age else 200) (fun n => u32 (n + 1)) in
  Ok (set_age_cnt f a).

(** As compiled: [CB] is defined, so [force] is not consulted. *)
Definition select_victim_line (force : bool) : M conv_ftl (option line_ref) :=
  let* f := get in
  let* min_idx := cb_scan f (seq 1 (size (victim_line_pq (lm f)) - 1)) (LLONG_MAX, None) in
  match min_idx with
  | None => ret None
  | Some i =>
      let* p := lift (lget (d (victim_line_pq (lm f))) i) in
      update (take_victim p) ;;
      let* now := read_clock KTIME_NS in
      update (count_age p now) ;;
      ret (Some (TLC_MODE, p))
  end.

(** Greedy: the queue's head; an SLC line that is full of valid pages if the queue is empty. *)
Definition select_victim_line_slc (f : conv_ftl) (force : bool) : res (option line_ref * conv_ftl) :=
  let m := slm f in
  let! head := pqueue_peek (victim_line_pq m) in
  match head with
  | None =>
      match full_line_list m with
      | [] => Ok (None, f)
      | p :: _ =>
          Ok (Some (SLC_MODE, p),
              set_slm f (set_full m (list_del_init p (full_line_list m)) (u32 (full_line_cnt m - 1))))
      end
  | Some p =>
      let! l := lget (lines m) p in
      if negb force && (Z.quot (pgs_per_line_slc (spp f)) 8 <? vpc l) then Ok (None, f)
      else
        let! (_, q, ls) := pqueue_pop (victim_line_pq m) (lines m) in
        let! m := detach_victim m q ls p in
        Ok (Some (SLC_MODE, p), set_slm f m)
  end.

Definition at_pg (p : ppa) (n : Z) : ppa := mk_ppa (n mod 2 ^ 16) (g_blk p) (g_pl p) (g_lun p) (g_ch p) (g_rsv p).

(** [clean_one_block] (not called: the collector works by flash pages). *)
Fixpoint clean_pages (p : ppa) (pgs : list Z) (cnt : Z) : M conv_ftl Z :=
  match pgs with
  | [] => ret cnt
  | n :: pgs =>
      let* f := get in
      let* x := lift (Ssd.get_pg (ssd f) (at_pg p n)) in
      assert (negb (bool_decide (Ssd.status x = PG_FREE))) ;;
      if bool_decide (Ssd.status x = PG_VALID) then
        gc_read_page (at_pg p n) ;; gc_write_page (at_pg p n) ;; clean_pages p pgs (cnt + 1)
      else clean_pages p pgs cnt
  end.
Definition clean_one_block (p : ppa) : M conv_ftl unit :=
  let* f := get in
  let* cnt := clean_pages p (zseq (pgs_per_blk (spp f))) 0 in
  let* f := get in
  let* b := lift (Ssd.get_blk (ssd f) p) in
  assert (Ssd.vpc b =? cnt).

(** Valid pages among the [n] pages of a flash page from [p] on. *)
Fixpoint count_valid (f : conv_ftl) (n : nat) (p : ppa) : res Z :=
  match n with
  | O => Ok 0
  | S n =>
      let! x := Ssd.get_pg (ssd f) p in
      rassert (negb (bool_decide (Ssd.status x = PG_FREE))) ;;;
      let! cnt := count_valid f n (at_pg p (g_pg p + 1)) in
      Ok (if bool_decide (Ssd.status x = PG_VALID) then cnt + 1 else cnt)
  end.

Fixpoint copy_valid (n : nat) (p : ppa) : M conv_ftl unit :=
  match n with
  | O => ret tt
  | S n =>
      let* f := get in
      let* x := lift (Ssd.get_pg (ssd f) p) in
      when (bool_decide (Ssd.status x = PG_VALID)) (gc_write_page p ;; ret tt) ;;
      copy_valid n (at_pg p (g_pg p + 1))
  end.

Definition clean_one_flashpg (p : ppa) : M conv_ftl unit :=
  let* f := get in
  let n := Z.to_nat (pgs_per_flashpg (spp f)) in
  let slc := is_slc (slc_mode f) && is_slc (dyn_slc_mode f) in
  (if slc then assert (g_blk p <? tt_lines_slc (spp f)) else ret tt) ;;
  let io_type := if slc then USER_IO else GC_IO in
  let* cnt := lift (count_valid f n p) in
  if cnt <=? 0 then ret tt
  else
    when (enable_gc_delay (cp f))
      (zoom_ssd (ssd_advance_nand
         (mk_cmd io_type NAND_READ (Some (u64 (i32 (pgsz (spp f) * cnt)))) 0 false p)) ;; ret tt) ;;
    copy_valid n p.

Definition set_die_gc_endtime (p : ppa) (f : conv_ftl) : res conv_ftl :=
  let! s := Ssd.mod_lun (ssd f) p (fun l => Ok (Ssd.set_gc_endtime l (Ssd.next_lun_avail_time l))) in
  Ok (set_ssd f s).

(** The block of a die on the last row: reset and erase. *)
Definition gc_erase_die (io_type : Z) (p : ppa) : M conv_ftl unit :=
  let* f := get in
  update (fun f => mark_block_free f p) ;;
  when (enable_gc_delay (cp f))
    (zoom_ssd (ssd_advance_nand (mk_cmd io_type NAND_ERASE None 0 false p)) ;; ret tt) ;;
  update (set_die_gc_endtime p).

(** One die of one flash page row. *)
Definition gc_one_die (io_type : Z) (last : bool) (p : ppa) : M conv_ftl unit :=
  clean_one_flashpg p ;;
  when last (gc_erase_die io_type p).

(** The rows, channels and dies in the order of the three nested loops. *)
Definition gc_dies (f : conv_ftl) (rows : Z) : list (Z * Z * Z) :=
  flashpg ← zseq rows; c ← zseq (nchs (spp f)); l ← zseq (luns_per_ch (spp f)); [(flashpg, c, l)].

(** [rsv]: what the uninitialised local [ppa] holds in the bits no one assigns. *)
Definition gc_line (f : conv_ftl) (rsv b rows io_type : Z) : M conv_ftl unit :=
  for_each (gc_dies f rows) (fun x =>
    let '(flashpg, c, l) := x in
    gc_one_die io_type (flashpg =? rows - 1)
      (mk_ppa (i32 (flashpg * pgs_per_flashpg (spp f)) mod 2 ^ 16) b 0 (l mod 2 ^ 8) (c mod 2 ^ 8) rsv)).

(** The area collected is chosen by [dyn_slc_mode]; the result is the C return value. *)
Definition do_gc (rsv : Z) (force : bool) : M conv_ftl Z :=
  let* f := get in
  let slc := is_slc (dyn_slc_mode f) in
  let* victim :=
    if slc then update_get (fun f => select_victim_line_slc f force)
    else
      let* v := select_victim_line force in
      modify (fun f => set_gc_cnt f (u64 (gc_cnt f + 1))) ;; ret v in
  let rows := if slc then flashpgs_per_blk_slc (spp f) else flashpgs_per_blk (spp f) in
  let io_type := if slc then USER_IO else GC_IO in
  match victim with
  | None => ret (-1)
  | Some r =>
      let* f := get in
      let* l := lift (line_at f r) in
      modify (fun f => set_wfc f (mk_wfc (write_credits (wfc f))
        (if slc then u32 (pgs_per_line_slc (spp f)) else u32 (ipc l)))) ;;
      let b := id l mod 2 ^ 16 in
      gc_line f rsv b rows io_type ;;
      update (fun f => mark_line_free f (mk_ppa 0 b 0 0 0 rsv)) ;;
      ret 0
  end.

Definition foreground_gc (rsv : Z) : M conv_ftl unit :=
  let* f := get in
  when (should_migration_high f)
    (when (should_gc_high f)
       (modify (fun f => set_dyn_slc_mode f TLC_MODE) ;; do_gc rsv true ;; ret tt) ;;
     when (is_slc (slc_mode f))
       (modify (fun f => set_dyn_slc_mode f SLC_MODE) ;; do_gc rsv true ;; ret tt)).

Definition check_and_refill_write_credit (rsv : Z) : M conv_ftl unit :=
  let* f := get in
  when (write_credits (wfc f) <=? 0)
    (foreground_gc rsv ;;
     modify (fun f => set_wfc f
       (mk_wfc (u32 (write_credits (wfc f) + credits_to_refill (wfc f))) (credits_to_refill (wfc f))))).

(** ** Host commands *)

Definition is_same_flash_page (f : conv_ftl) (p1 p2 : ppa) : bool :=
  let n := pgs_per_flashpg (spp f) in
  (h_blk_in_ssd p1 =? h_blk_in_ssd p2) && (u32 (Z.quot (g_pg p1) n) =? u32 (Z.quot (g_pg p2) n)).

(** A namespace: its partitions, and what they share.  [conv_init_namespace] makes
    the [pcie] and [write_buffer] pointers of all partitions equal, so there is
    one of each; an operation on a partition runs with them in place. *)
Record conv_ns : Type := mk_conv_ns {
  ns_id : Z;
  ns_csi : Z;
  ns_size : Z;
  nr_parts : Z;
  ftls : list conv_ftl;
  shared_pcie : ChannelModel.channel_model;
  shared_write_buffer : Ssd.buffer;
  outbox : list Nvme.internal_op;      (* scheduled internal operations, oldest first *)
}.

Definition ns_set_parts (n : conv_ns) (fs : list conv_ftl) (pc : ChannelModel.channel_model) (wb : Ssd.buffer) : conv_ns :=
  mk_conv_ns (ns_id n) (ns_csi n) (ns_size n) (nr_parts n) fs pc wb (outbox n).
Definition ns_set_wbuf (n : conv_ns) (wb : Ssd.buffer) : conv_ns :=
  mk_conv_ns (ns_id n) (ns_csi n) (ns_size n) (nr_parts n) (ftls n) (shared_pcie n) wb (outbox n).
Definition ns_post (n : conv_ns) (o : Nvme.internal_op) : conv_ns :=
  mk_conv_ns (ns_id n) (ns_csi n) (ns_size n) (nr_parts n) (ftls n) (shared_pcie n)
    (shared_write_buffer n) (outbox n ++ [o]).

(** Partition [i] with the shared objects in its [ssd]. *)
Definition with_shared (n : conv_ns) (f : conv_ftl) : conv_ftl :=
  set_ssd f (Ssd.set_write_buffer (Ssd.set_pcie (ssd f) (shared_pcie n)) (shared_write_buffer n)).

Definition on_part {A} (i : Z) (m : M conv_ftl A) : M conv_ns A := fun clk t n =>
  match aget (ftls n) i with
  | Err e => Err e
  | Ok f =>
      match m clk t (with_shared n f) with
      | Err e => Err e
      | Ok (a, t', f') =>
          Ok (a, t', ns_set_parts n (zset (ftls n) i f') (Ssd.pcie (ssd f')) (Ssd.write_buffer (ssd f')))
      end
  end.

(** The [lpn] range of a read or write command. *)
Definition nr_lba_of (c : Nvme.nvme_rw_command) : Z := Nvme.length c + 1.
Definition start_lpn_of (s : ssdparams) (c : Nvme.nvme_rw_command) : Z := Nvme.slba c / secs_per_pg s.
Definition end_lpn_of (s : ssdparams) (c : Nvme.nvme_rw_command) : Z :=
  u64 (Nvme.slba c + nr_lba_of c - 1) / secs_per_pg s.

(** [lpn = a; lpn <= b; lpn += step] *)
Definition lpn_range (a b step : Z) : list Z := (fun i => a + i * step) <$> zseq ((b - a) / step + 1).

(** The read command template and one issue of it; [acc] is [nsecs_latest]. *)
Definition issue_read (stime xfer_size : Z) (p : ppa) (acc : Z) : M conv_ftl Z :=
  let* z := zoom_ssd (ssd_advance_nand (mk_cmd USER_IO NAND_READ (Some xfer_size) stime true p)) in
  ret (Z.max z acc).

(** The inner loop of [conv_read] over the pages of one partition. *)
Fixpoint read_lpns (stime parts : Z) (lpns : list Z) (prev : ppa) (xfer_size acc : Z)
    : M conv_ftl (ppa * Z * Z) :=
  match lpns with
  | [] => ret (prev, xfer_size, acc)
  | lpn :: lpns =>
      let* f := get in
      let* cur := lift (get_maptbl_ent f (lpn / parts)) in
      if negb (mapped_ppa cur) || negb (valid_ppa f cur) then read_lpns stime parts lpns prev xfer_size acc
      else if mapped_ppa prev && is_same_flash_page f cur prev then
        read_lpns stime parts lpns prev (u32 (xfer_size + pgsz (spp f))) acc
      else
        let* acc := if 0 <? xfer_size then issue_read stime xfer_size prev acc else ret acc in
        read_lpns stime parts lpns cur (u32 (pgsz (spp f))) acc
  end.

Definition read_part (stime parts start_lpn end_lpn acc : Z) : M conv_ftl Z :=
  let* f := get in
  let* prev := lift (get_maptbl_ent f (start_lpn / parts)) in
  let* r := read_lpns stime parts (lpn_range start_lpn end_lpn parts) prev 0 acc in
  let '(prev, xfer_size, acc) := r in
  if 0 <? xfer_size then issue_read stime xfer_size prev acc else ret acc.

(** The outer loop: partition [start_lpn mod nr_parts] handles every [nr_parts]-th page. *)
Fixpoint read_parts (fuel : nat) (stime parts start_lpn end_lpn acc : Z) : M conv_ns Z :=
  match fuel with
  | O => ret acc
  | S fuel =>
      if start_lpn <=? end_lpn then
        let* acc := on_part (start_lpn mod parts) (read_part stime parts start_lpn end_lpn acc) in
        read_parts fuel stime parts (u64 (start_lpn + 1)) end_lpn acc
      else ret acc
  end.

Definition first_part : M conv_ns conv_ftl := let* n := get in lift (aget (ftls n) 0).

(** [false] leaves [rt] as it was. *)
Definition conv_read (rq : Nvme.nvmev_request) (rt : Nvme.nvmev_result) : M conv_ns (bool * Nvme.nvmev_result) :=
  let* n := get in
  let* f := first_part in
  let s := spp f in
  if (secs_per_pg s =? 0) || (nr_parts n =? 0) then fail DivByZero else
  let start_lpn := start_lpn_of s (Nvme.cmd rq) in
  let end_lpn := end_lpn_of s (Nvme.cmd rq) in
  let nsecs_start := Nvme.nsecs_start rq in
  if tt_pgs s <=? end_lpn / nr_parts n then ret (false, rt)
  else
    let lat := if LBA_TO_BYTE (nr_lba_of (Nvme.cmd rq)) <=? KB 4 * nr_parts n
               then fw_4kb_rd_lat s else fw_rd_lat s in
    let* latest := read_parts (Z.to_nat (nr_parts n)) (u64 (nsecs_start + lat)) (nr_parts n)
                     start_lpn end_lpn nsecs_start in
    ret (true, Nvme.mk_result Nvme.NVME_SC_SUCCESS latest).

(** One page of a write, up to and including the advance of the write pointer. *)
Definition write_page_map (local_lpn : Z) : M conv_ftl ppa :=
  let* f := get in
  let* old := lift (get_maptbl_ent f local_lpn) in
  when (mapped_ppa old)
    (update (fun f => mark_page_invalid f old) ;;
     update (fun f => set_rmap_ent f INVALID_LPN old) ;;
     let* now := read_clock KTIME_NS in
     update (fun f =>
       let r := get_line f old in
       let! l := line_at f r in put_line f r (line_set_mtime l now))) ;;
  let* f := get in
  let* p := lift (get_new_page f USER_IO) in
  update (fun f => set_maptbl_ent f local_lpn p) ;;
  update (fun f => set_rmap_ent f local_lpn p) ;;
  update (fun f => mark_page_valid f p) ;;
  update (fun f => advance_write_pointer f USER_IO) ;;
  ret p.

(** The program operation of a filled wordline: when it completes, and how much
    of the write buffer its completion releases. *)
Definition write_program (stime : Z) (p : ppa) : M conv_ftl (option (Z * Z)) :=
  let* f := get in
  let slc := is_slc (slc_mode f) in
  let* last := lift (if slc then last_pg_in_wordline_slc f p else last_pg_in_wordline f p) in
  if last then
    let* z := zoom_ssd (ssd_advance_nand
      (mk_cmd USER_IO NAND_WRITE (Some (u64 (i32 (pgsz (spp f) * pgs_per_oneshotpg (spp f))))) stime false p)) in
    let n := if slc then pgs_per_oneshotpg_slc (spp f) else pgs_per_oneshotpg (spp f) in
    ret (Some (z, u64 (i32 (n * pgsz (spp f)))))
  else ret None.

Definition write_one_page (rsv stime local_lpn : Z) : M conv_ftl (option (Z * Z)) :=
  let* p := write_page_map local_lpn in
  write_program stime p.

(** After the page: credits. *)
Definition write_credit (rsv : Z) : M conv_ftl unit :=
  modify consume_write_credit ;;
  check_and_refill_write_credit rsv.

Fixpoint write_lpns (rsv sqid stime parts : Z) (lpns : list Z) (latest : Z) : M conv_ns Z :=
  match lpns with
  | [] => ret latest
  | lpn :: lpns =>
      let* done := on_part (lpn mod parts) (write_one_page rsv stime (lpn / parts)) in
      let* latest :=
        match done with
        | Some (z, size) => modify (fun n => ns_post n (Nvme.mk_internal sqid z size)) ;; ret (Z.max z latest)
        | None => ret latest
        end in
      on_part (lpn mod parts) (write_credit rsv) ;;
      write_lpns rsv sqid stime parts lpns latest
  end.

Definition conv_write (rsv : Z) (rq : Nvme.nvmev_request) (rt : Nvme.nvmev_result)
    : M conv_ns (bool * Nvme.nvmev_result) :=
  let* n := get in
  let* f := first_part in
  let s := spp f in
  if (secs_per_pg s =? 0) || (nr_parts n =? 0) then fail DivByZero else
  let start_lpn := start_lpn_of s (Nvme.cmd rq) in
  let end_lpn := end_lpn_of s (Nvme.cmd rq) in
  let bytes := LBA_TO_BYTE (nr_lba_of (Nvme.cmd rq)) in
  if tt_pgs s <=? end_lpn / nr_parts n then ret (false, rt)
  else
    let* allocated := update_get (fun n =>
      let! (got, wb) := Ssd.buffer_allocate (shared_write_buffer n) bytes in Ok (got, ns_set_wbuf n wb)) in
    if allocated <? bytes then ret (false, rt)
    else
      let* nsecs_xfer_completed :=
        on_part 0 (zoom_ssd (Ssd.ssd_advance_write_buffer (Nvme.nsecs_start rq) bytes)) in
      let* nsecs_latest :=
        write_lpns rsv (Nvme.sq_id rq) nsecs_xfer_completed (nr_parts n)
          (lpn_range start_lpn end_lpn 1) nsecs_xfer_completed in
      let fua := negb (Z.land (Nvme.control (Nvme.cmd rq)) Nvme.NVME_RW_FUA =? 0) in
      ret (true, Nvme.mk_result Nvme.NVME_SC_SUCCESS
        (if fua || negb (write_early_completion s) then nsecs_latest else nsecs_xfer_completed)).

(** The loop of [conv_flush]: when the last partition falls idle. *)
Fixpoint flush_parts (parts : list Z) (latest : Z) : M conv_ns Z :=
  match parts with
  | [] => ret latest
  | i :: parts =>
      let* z := on_part i (zoom_ssd Ssd.ssd_next_idle_time) in
      flush_parts parts (Z.max latest z)
  end.

(** The statistics [conv_flush] prints are not part of the state. *)
Definition conv_flush (rt : Nvme.nvmev_result) : M conv_ns Nvme.nvmev_result :=
  let* n := get in
  let* start := read_clock LOCAL_CLOCK in
  let* latest := flush_parts (zseq (nr_parts n)) start in
  ret (Nvme.mk_result Nvme.NVME_SC_SUCCESS latest).

Definition NVME_CSI_NVM : Z := 0.

Definition conv_proc_nvme_io_cmd (rsv : Z) (rq : Nvme.nvmev_request) (rt : Nvme.nvmev_result)
    : M conv_ns (bool * Nvme.nvmev_result) :=
  let* n := get in
  assert (ns_csi n =? NVME_CSI_NVM) ;;
  let op := Nvme.opcode (Nvme.cmd rq) in
  if op =? Nvme.nvme_cmd_write then conv_write rsv rq rt
  else if op =? Nvme.nvme_cmd_read then conv_read rq rt
  else if op =? Nvme.nvme_cmd_flush then
    let* rt := conv_flush rt in ret (true, rt)
  else ret (true, rt).

(** [junk], [f0]: the contents of fresh allocations; [spp0]: of the caller's local. *)
Fixpoint init_parts (junk : nat -> ptr) (f0 : conv_ftl) (cpp : convparams) (s : ssdparams) (cpu : Z) (n : nat)
    : res (list conv_ftl) :=
  match n with
  | O => Ok []
  | S n =>
      let! f := conv_init_ftl junk f0 cpp (Ssd.ssd_init s cpu) in
      let! fs := init_parts junk f0 cpp s cpu n in
      Ok (f :: fs)
  end.

Definition conv_init_namespace (junk : nat -> ptr) (f0 : conv_ftl) (spp0 : ssdparams)
    (cfg : ssd_config) (id size cpu : Z) : res conv_ns :=
  let parts := SSD_PARTITIONS cfg in
  let! s := if ENABLE_SLC_CACHE then ssd_init_params_slc cfg size parts
            else ssd_init_params cfg spp0 size parts in
  let cpp := conv_init_params cfg in
  let! fs := init_parts junk f0 cpp s cpu (Z.to_nat parts) in
  let! first := aget fs 0 in
  if pba_pcent cpp =? 0 then Err DivByZero else
  Ok (mk_conv_ns id NVME_CSI_NVM (u64 (size * 100) / pba_pcent cpp) parts fs
        (Ssd.pcie (ssd first)) (Ssd.write_buffer (ssd first)) []).
