(* ===== verification/Geometry.v ===== *)
(** * Page coordinates, the order in which a line is filled, and page indexes

    Abstract geometry of the conventional FTL under [slc_geometry]: a page is a
    coordinate (channel, die, block, page); a line of an area is filled in the
    order wordline, die, channel, page of the wordline, which [lin] numbers
    consecutively; [pgidx] numbers the pages of a partition.  Both numberings
    are shown to be bijections, the steps of a write pointer to be successor on
    [lin], and [ppa2pgidx] to compute [pgidx]. *)

From Stdlib Require Import ZArith Lia.
From stdpp Require Import base list numbers.
From S2P Require Import Prelude Config SsdParams PQueue ConvFtl.
From S2P Require Ssd.
Import Ssd (ppa, mk_ppa, g_pg, g_blk, g_pl, g_lun, g_ch, g_rsv, sp).

Definition coord : Type := Z * Z * Z * Z.
Definition cof (p : ppa) : coord := (g_ch p, g_lun p, g_blk p, g_pg p).
Definition pof (x : coord) : ppa := let '(c, l, b, g) := x in mk_ppa g b 0 l c 0.

Lemma cof_pof x : cof (pof x) = x.
Proof. by destruct x as [[[c l] b] g]. Qed.

(** ** Mixed-radix numbers *)
Lemma radix_unique n a r a' r' :
  0 <= r < n -> 0 <= r' < n -> a * n + r = a' * n + r' -> a = a' /\ r = r'.
Proof. intros Hr Hr' He. assert (a = a') as -> by nia. lia. Qed.

Lemma radix_div n a r : 0 <= r < n -> (a * n + r) / n = a.
Proof. intros Hr. symmetry. apply (Z.div_unique _ _ _ r); lia. Qed.

Lemma radix_mod n a r : 0 <= r < n -> (a * n + r) mod n = r.
Proof. intros Hr. symmetry. apply (Z.mod_unique _ _ a); lia. Qed.

Lemma radix_bound n m a r : 0 <= r < n -> 0 <= a < m -> 0 <= a * n + r < m * n.
Proof. intros. nia. Qed.

(** ** The order of a line *)
Section Lin.
Context (opp nch nl W : Z) (Hopp : 1 <= opp) (Hnch : 1 <= nch) (Hnl : 1 <= nl) (HW : 1 <= W).

Definition lin (c l g : Z) : Z := ((g / opp * nl + l) * nch + c) * opp + g mod opp.
Definition unlin (k : Z) : Z * Z * Z :=
  let r := k / opp in let r2 := r / nch in
  (r mod nch, r2 mod nl, r2 / nl * opp + k mod opp).

Lemma lin_wordline c l w o : 0 <= o < opp -> lin c l (w * opp + o) = ((w * nl + l) * nch + c) * opp + o.
Proof. intros. unfold lin. by rewrite radix_div, radix_mod. Qed.

Lemma page_split g : 0 <= g < opp * W ->
  exists w o, g = w * opp + o /\ 0 <= o < opp /\ 0 <= w < W.
Proof.
  intros Hg. exists (g / opp), (g mod opp).
  pose proof (Z.mod_pos_bound g opp). pose proof (Z_div_mod_eq_full g opp).
  split; [lia|]. split; [lia|]. split; [apply Z.div_pos; lia|]. apply Z.div_lt_upper_bound; lia.
Qed.

Lemma lin_range c l g :
  0 <= c < nch -> 0 <= l < nl -> 0 <= g < opp * W -> 0 <= lin c l g < nl * nch * (opp * W).
Proof.
  intros Hc Hl Hg. destruct (page_split g Hg) as (w & o & -> & Ho & Hw). rewrite lin_wordline by done.
  pose proof (radix_bound nl W w l Hl Hw) as H1.
  pose proof (radix_bound nch _ _ c Hc H1) as H2.
  pose proof (radix_bound opp _ _ o Ho H2) as H3. lia.
Qed.

Lemma unlin_lin c l g :
  0 <= c < nch -> 0 <= l < nl -> 0 <= g < opp * W -> unlin (lin c l g) = (c, l, g).
Proof.
  intros Hc Hl Hg. destruct (page_split g Hg) as (w & o & -> & Ho & Hw). rewrite lin_wordline by done.
  unfold unlin. rewrite (radix_div opp), (radix_mod opp), (radix_div nch), (radix_mod nch),
    (radix_div nl), (radix_mod nl) by done. done.
Qed.

Lemma unlin_range k c l g : 0 <= k < nl * nch * (opp * W) -> unlin k = (c, l, g) ->
  0 <= c < nch /\ 0 <= l < nl /\ 0 <= g < opp * W /\ lin c l g = k.
Proof.
  intros Hk [= <- <- <-].
  pose proof (Z.mod_pos_bound k opp ltac:(lia)) as Ho.
  pose proof (Z.mod_pos_bound (k / opp) nch ltac:(lia)) as Hc.
  pose proof (Z.mod_pos_bound (k / opp / nch) nl ltac:(lia)) as Hl.
  assert (0 <= k / opp < W * nl * nch) as Hr.
  { split; [apply Z.div_pos; lia|apply Z.div_lt_upper_bound; lia]. }
  assert (0 <= k / opp / nch < W * nl) as Hr2.
  { split; [apply Z.div_pos; lia|apply Z.div_lt_upper_bound; lia]. }
  assert (0 <= k / opp / nch / nl < W) as Hr3.
  { split; [apply Z.div_pos; lia|apply Z.div_lt_upper_bound; lia]. }
  split; [done|]. split; [done|]. split; [nia|].
  rewrite lin_wordline by done.
  rewrite (Z.mul_comm (k / opp / nch / nl)), <- (Z_div_mod_eq_full (k / opp / nch) nl).
  rewrite (Z.mul_comm (k / opp / nch)), <- (Z_div_mod_eq_full (k / opp) nch).
  rewrite (Z.mul_comm (k / opp)), <- (Z_div_mod_eq_full k opp). done.
Qed.

Lemma lin_inj c l g c' l' g' :
  0 <= c < nch -> 0 <= l < nl -> 0 <= g < opp * W ->
  0 <= c' < nch -> 0 <= l' < nl -> 0 <= g' < opp * W ->
  lin c l g = lin c' l' g' -> (c, l, g) = (c', l', g').
Proof. intros ?????? E. rewrite <- (unlin_lin c l g), <- (unlin_lin c' l' g') by done. by rewrite E. Qed.

(** The steps of a write pointer. *)
Lemma lin_next_page c l g :
  0 <= g < opp * W -> (g + 1) mod opp <> 0 -> g + 1 < opp * W /\ lin c l (g + 1) = lin c l g + 1.
Proof.
  intros Hg Hm. destruct (page_split g Hg) as (w & o & -> & Ho & Hw).
  assert (o + 1 < opp).
  { destruct (decide (o + 1 = opp)) as [E|]; [|lia]. exfalso. apply Hm.
    replace (w * opp + o + 1) with ((w + 1) * opp) by lia. apply Z.mod_mul. lia. }
  split; [nia|]. replace (w * opp + o + 1) with (w * opp + (o + 1)) by lia.
  rewrite !lin_wordline by lia. lia.
Qed.

Lemma last_of_wordline g : 0 <= g < opp * W -> (g + 1) mod opp = 0 ->
  exists w, g = w * opp + (opp - 1) /\ 0 <= w < W.
Proof.
  intros Hg Hm. destruct (page_split g Hg) as (w & o & -> & Ho & Hw). exists w. split; [|done].
  destruct (decide (o + 1 = opp)); [lia|]. exfalso.
  replace (w * opp + o + 1) with (w * opp + (o + 1)) in Hm by lia. rewrite radix_mod in Hm by lia. lia.
Qed.

Lemma lin_first_of_wordline c l w : lin c l (w * opp) = ((w * nl + l) * nch + c) * opp.
Proof. replace (w * opp) with (w * opp + 0) by lia. rewrite lin_wordline by lia. lia. Qed.

Lemma lin_next_ch c l w : lin (c + 1) l (w * opp) = lin c l (w * opp + (opp - 1)) + 1.
Proof. rewrite lin_first_of_wordline, lin_wordline by lia. lia. Qed.

Lemma lin_next_lun l w : lin 0 (l + 1) (w * opp) = lin (nch - 1) l (w * opp + (opp - 1)) + 1.
Proof. rewrite lin_first_of_wordline, lin_wordline by lia. lia. Qed.

Lemma lin_next_wordline w : lin 0 0 ((w + 1) * opp) = lin (nch - 1) (nl - 1) (w * opp + (opp - 1)) + 1.
Proof. rewrite lin_first_of_wordline, lin_wordline by lia. lia. Qed.

Lemma lin_end : lin (nch - 1) (nl - 1) ((W - 1) * opp + (opp - 1)) + 1 = nl * nch * (opp * W).
Proof. rewrite lin_wordline by lia. lia. Qed.

Lemma lin_start : lin 0 0 0 = 0.
Proof. unfold lin. rewrite Z.div_0_l, Z.mod_0_l by lia. lia. Qed.
End Lin.

(** ** Areas of a parameter set *)
Section Area.
Context (s : ssdparams).

Definition opp_of (a : line_mode) : Z :=
  match a with SLC_MODE => pgs_per_oneshotpg_slc s | TLC_MODE => pgs_per_oneshotpg s end.
Definition ppb_of (a : line_mode) : Z :=
  match a with SLC_MODE => pgs_per_blk_slc s | TLC_MODE => pgs_per_blk s end.
Definition ppl_of (a : line_mode) : Z :=
  match a with SLC_MODE => pgs_per_line_slc s | TLC_MODE => pgs_per_line s end.
Definition wls_of (a : line_mode) : Z :=
  match a with SLC_MODE => oneshotpgs_per_blk_slc s | TLC_MODE => oneshotpgs_per_blk s end.
Definition nlines_of (a : line_mode) : Z :=
  match a with SLC_MODE => tt_lines_slc s | TLC_MODE => tt_lines_tlc s end.
Definition first_blk (a : line_mode) : Z :=
  match a with SLC_MODE => 0 | TLC_MODE => tt_lines_slc s end.
Definition rows_of (a : line_mode) : Z :=
  match a with SLC_MODE => flashpgs_per_blk_slc s | TLC_MODE => flashpgs_per_blk s end.

Definition area_of (b : Z) : line_mode := if b <? tt_lines_slc s then SLC_MODE else TLC_MODE.
Definition blk_of (a : line_mode) (p : ptr) : Z := first_blk a + Z.of_nat p.

Definition in_range (x : coord) : Prop :=
  let '(c, l, b, g) := x in
  0 <= c < nchs s /\ 0 <= l < luns_per_ch s /\ 0 <= b < blks_per_pl s /\ 0 <= g < ppb_of (area_of b).

#[global] Instance in_range_dec x : Decision (in_range x).
Proof. destruct x as [[[c l] b] g]. unfold in_range. solve_decision. Defined.

(** Position of a page in its line, and the page at a position of line [p]. *)
Definition linpos (a : line_mode) (c l g : Z) : Z := lin (opp_of a) (nchs s) (luns_per_ch s) c l g.
Definition page_of (a : line_mode) (p : ptr) (k : Z) : coord :=
  let '(c, l, g) := unlin (opp_of a) (nchs s) (luns_per_ch s) k in (c, l, blk_of a p, g).

Definition pgidx (x : coord) : Z :=
  let '(c, l, b, g) := x in
  c * pgs_per_ch s + l * pgs_per_lun s +
  (match area_of b with
   | SLC_MODE => b * pgs_per_blk_slc s
   | TLC_MODE => tt_lines_slc s * pgs_per_blk_slc s + (b - tt_lines_slc s) * pgs_per_blk s
   end + g).

Context (G : slc_geometry s).

Lemma opp_pos a : 1 <= opp_of a.
Proof. destruct a; by destruct G. Qed.
Lemma wls_pos a : 1 <= wls_of a.
Proof. destruct a; by destruct G. Qed.
Lemma ppb_split a : ppb_of a = opp_of a * wls_of a.
Proof. destruct a; by destruct G. Qed.
Lemma ppb_pos a : 1 <= ppb_of a.
Proof. rewrite ppb_split. pose proof (opp_pos a). pose proof (wls_pos a). nia. Qed.
Lemma ppb_bits a : ppb_of a <= 2 ^ 16.
Proof. pose proof (geo_pg_bits _ G). pose proof (geo_slc_smaller _ G). destruct a; cbn; lia. Qed.
Lemma ppl_split a : ppl_of a = luns_per_ch s * nchs s * (opp_of a * wls_of a).
Proof. rewrite <- ppb_split. destruct a; by destruct G. Qed.
Lemma ppl_pos a : 1 <= ppl_of a.
Proof.
  rewrite ppl_split, <- ppb_split. pose proof (ppb_pos a). pose proof (geo_nchs _ G). pose proof (geo_luns _ G). nia.
Qed.
Lemma ppl_bound a : ppl_of a < 2 ^ 31.
Proof.
  pose proof (geo_tt_int _ G) as Ht. rewrite ppl_split, <- ppb_split.
  rewrite (geo_tt _ G), (geo_ch _ G), (geo_lun _ G), (geo_pl _ G) in Ht.
  pose proof (ppb_pos SLC_MODE) as H1. pose proof (ppb_pos TLC_MODE) as H2. cbn in H1, H2.
  pose proof (geo_nchs _ G). pose proof (geo_luns _ G). pose proof (geo_slc _ G). pose proof (geo_tlc _ G).
  set (pl := pgs_per_blk_slc s * tt_lines_slc s + pgs_per_blk s * tt_lines_tlc s) in *.
  assert (ppb_of a <= pl) as Hle by (unfold pl; destruct a; cbn in *; nia). clearbody pl.
  apply (Z.le_lt_trans _ (luns_per_ch s * nchs s * pl)); [apply Z.mul_le_mono_nonneg_l; nia|lia].
Qed.
Lemma rows_split a : rows_of a * pgs_per_flashpg s = ppb_of a.
Proof. destruct a; by destruct G. Qed.
Lemma nlines_pos a : 4 <= nlines_of a < 2 ^ 16.
Proof. pose proof (geo_blks _ G). pose proof (geo_lines _ G). pose proof (geo_slc _ G). pose proof (geo_tlc _ G). destruct a; cbn; lia. Qed.

Lemma blk_of_range a p : (p < Z.to_nat (nlines_of a))%nat -> 0 <= blk_of a p < blks_per_pl s.
Proof.
  intros Hp. unfold blk_of. pose proof (nlines_pos a). pose proof (geo_lines _ G). pose proof (geo_slc _ G).
  pose proof (geo_tlc _ G). destruct a; cbn in *; lia.
Qed.

Lemma area_of_blk_of a p : (p < Z.to_nat (nlines_of a))%nat -> area_of (blk_of a p) = a.
Proof.
  intros Hp. unfold area_of, blk_of. pose proof (nlines_pos a). destruct a; cbn in *.
  - replace (0 + Z.of_nat p <? tt_lines_slc s) with true by lia. done.
  - replace (tt_lines_slc s + Z.of_nat p <? tt_lines_slc s) with false by lia. done.
Qed.

Lemma blk_of_inj a p a' p' :
  (p < Z.to_nat (nlines_of a))%nat -> (p' < Z.to_nat (nlines_of a'))%nat ->
  blk_of a p = blk_of a' p' -> a = a' /\ p = p'.
Proof.
  intros Hp Hp' E. assert (a = a') as ->.
  { rewrite <- (area_of_blk_of a p), <- (area_of_blk_of a' p') by done. by rewrite E. }
  split; [done|]. unfold blk_of in E. lia.
Qed.

(** Every block is a line of its area. *)
Lemma blk_is_line b : 0 <= b < blks_per_pl s ->
  exists p, b = blk_of (area_of b) p /\ (p < Z.to_nat (nlines_of (area_of b)))%nat.
Proof.
  intros Hb. pose proof (geo_lines _ G). unfold area_of. destruct (Z.ltb_spec b (tt_lines_slc s)); cbn.
  - exists (Z.to_nat b). unfold blk_of. cbn. lia.
  - exists (Z.to_nat (b - tt_lines_slc s)). unfold blk_of. cbn. lia.
Qed.

(** *** Positions of a line *)
Ltac geo := first [done | apply opp_pos | apply wls_pos | by rewrite <- ppb_split | by apply geo_nchs | by apply geo_luns].
Lemma linpos_range a c l g :
  0 <= c < nchs s -> 0 <= l < luns_per_ch s -> 0 <= g < ppb_of a -> 0 <= linpos a c l g < ppl_of a.
Proof.
  intros. rewrite ppl_split. apply lin_range; geo.
Qed.

Lemma page_of_linpos a p c l g :
  0 <= c < nchs s -> 0 <= l < luns_per_ch s -> 0 <= g < ppb_of a ->
  page_of a p (linpos a c l g) = (c, l, blk_of a p, g).
Proof.
  intros. unfold page_of, linpos. rewrite (unlin_lin _ _ _ (wls_of a)); geo.
Qed.

Lemma page_of_range a p k : 0 <= k < ppl_of a ->
  exists c l g, page_of a p k = (c, l, blk_of a p, g) /\ 0 <= c < nchs s /\ 0 <= l < luns_per_ch s /\
    0 <= g < ppb_of a /\ linpos a c l g = k.
Proof.
  intros Hk. unfold page_of. destruct (unlin _ _ _ k) as [[c l] g] eqn:E. exists c, l, g. split; [done|].
  rewrite ppb_split. rewrite ppl_split in Hk.
  apply (unlin_range _ _ _ (wls_of a)) in E; geo.
Qed.

Lemma page_of_in_range a p k :
  (p < Z.to_nat (nlines_of a))%nat -> 0 <= k < ppl_of a -> in_range (page_of a p k).
Proof.
  intros Hp Hk. destruct (page_of_range a p k Hk) as (c & l & g & -> & Hc & Hl & Hg & _).
  pose proof (blk_of_range a p Hp). unfold in_range. rewrite area_of_blk_of by done. done.
Qed.

Lemma page_of_inj a p k k' : 0 <= k < ppl_of a -> 0 <= k' < ppl_of a -> page_of a p k = page_of a p k' -> k = k'.
Proof.
  intros Hk Hk' E. destruct (page_of_range a p k Hk) as (c & l & g & E1 & _ & _ & _ & <-).
  destruct (page_of_range a p k' Hk') as (c' & l' & g' & E2 & _ & _ & _ & <-).
  rewrite E1, E2 in E. injection E as -> -> ->. done.
Qed.

(** *** Page indexes *)
Lemma pgidx_off b g : 0 <= b < blks_per_pl s -> 0 <= g < ppb_of (area_of b) ->
  0 <= (match area_of b with
   | SLC_MODE => b * pgs_per_blk_slc s
   | TLC_MODE => tt_lines_slc s * pgs_per_blk_slc s + (b - tt_lines_slc s) * pgs_per_blk s
   end + g) < pgs_per_lun s.
Proof.
  intros Hb Hg. rewrite (geo_lun _ G), (geo_pl _ G). pose proof (geo_lines _ G) as Hl.
  pose proof (ppb_pos SLC_MODE). pose proof (ppb_pos TLC_MODE). unfold area_of in *.
  pose proof (geo_slc _ G). pose proof (geo_tlc _ G).
  destruct (Z.ltb_spec b (tt_lines_slc s)); cbn in *; nia.
Qed.

Lemma pgidx_range x : in_range x -> 0 <= pgidx x < tt_pgs s.
Proof.
  destruct x as [[[c l] b] g]. intros (Hc & Hl & Hb & Hg). pose proof (pgidx_off b g Hb Hg) as Ho.
  unfold pgidx. set (off := _ + g) in *. clearbody off. rewrite (geo_tt _ G), (geo_ch _ G).
  pose proof (radix_bound _ _ l off Ho Hl) as H1. pose proof (radix_bound _ _ c _ H1 Hc). lia.
Qed.

Lemma pgidx_inj x y : in_range x -> in_range y -> pgidx x = pgidx y -> x = y.
Proof.
  destruct x as [[[c l] b] g], y as [[[c' l'] b'] g']. intros (Hc & Hl & Hb & Hg) (Hc' & Hl' & Hb' & Hg').
  pose proof (pgidx_off b g Hb Hg) as Ho. pose proof (pgidx_off b' g' Hb' Hg') as Ho'.
  unfold pgidx. set (off := match area_of b with _ => _ end + g) in *.
  set (off' := match area_of b' with _ => _ end + g') in *. intros E.
  pose proof (radix_bound _ _ l off Ho Hl) as H1. pose proof (radix_bound _ _ l' off' Ho' Hl') as H1'.
  rewrite (geo_ch _ G), <- !Z.add_assoc in E.
  rewrite (Z.mul_comm (pgs_per_lun s) (luns_per_ch s)) in E.
  apply radix_unique in E as [-> E]; [|done|done]. apply radix_unique in E as [-> E]; [|done|done].
  unfold off, off', area_of in *. pose proof (ppb_pos SLC_MODE). pose proof (ppb_pos TLC_MODE). pose proof (geo_slc _ G).
  destruct (Z.ltb_spec b (tt_lines_slc s)), (Z.ltb_spec b' (tt_lines_slc s)); cbn in *.
  - apply radix_unique in E as [-> ->]; done.
  - exfalso. nia.
  - exfalso. nia.
  - assert ((b - tt_lines_slc s) * pgs_per_blk s + g = (b' - tt_lines_slc s) * pgs_per_blk s + g') as E' by lia.
    apply radix_unique in E' as [E1 ->]; try done. assert (b = b') as -> by lia. done.
Qed.

Lemma pof_ok x : in_range x -> Ssd.ppa_ok (pof x).
Proof.
  destruct x as [[[c l] b] g]. intros (Hc & Hl & Hb & Hg). pose proof (ppb_bits (area_of b)).
  pose proof (geo_nchs _ G). pose proof (geo_luns _ G). pose proof (geo_blks _ G). split; cbn; lia.
Qed.

Lemma pof_mapped x : in_range x -> mapped_ppa (pof x) = true.
Proof.
  intros Hx. unfold mapped_ppa. destruct (Z.eqb_spec (Ssd.ppa_word (pof x)) Ssd.UNMAPPED_PPA) as [E|]; [|done].
  apply Ssd.unmapped_word in E; [|by apply pof_ok]. destruct x as [[[c l] b] g]. done.
Qed.
End Area.

(** ** The code's address functions *)
Section Code.
Context (f : conv_ftl) (G : slc_geometry (spp f)) (Hmode : slc_mode f = SLC_MODE).

Lemma area_of_blk_eq b : area_of_blk f b = area_of (spp f) b.
Proof. unfold area_of_blk, area_of, is_slc. by rewrite Hmode. Qed.

Lemma cur_ppb_eq a : cur_pgs_per_blk f a = ppb_of (spp f) a.
Proof. by destruct a. Qed.
Lemma cur_ppl_eq a : cur_pgs_per_line f a = ppl_of (spp f) a.
Proof. by destruct a. Qed.
Lemma cur_opp_eq a : cur_pgs_per_oneshotpg f a = opp_of (spp f) a.
Proof. by destruct a. Qed.

Lemma pgidx_parts b g : 0 <= b < blks_per_pl (spp f) -> 0 <= g < ppb_of (spp f) (area_of (spp f) b) ->
  0 <= pgs_per_lun (spp f) < 2 ^ 31.
Proof.
  intros Hb Hg. pose proof (pgidx_off (spp f) G b g Hb Hg) as Ho.
  pose proof (geo_tt _ G). pose proof (geo_ch _ G). pose proof (geo_tt_int _ G).
  pose proof (geo_nchs _ G). pose proof (geo_luns _ G). split; [lia|]. nia.
Qed.

Lemma ppa2pgidx_ok p :
  in_range (spp f) (cof p) -> g_pl p = 0 -> ppa2pgidx f p = Ok (pgidx (spp f) (cof p)).
Proof.
  intros Hx Hpl. pose proof (pgidx_range (spp f) G _ Hx) as Hr. pose proof (geo_tt_int _ G) as Hint.
  unfold ppa2pgidx, is_slc. rewrite Hmode, Hpl. cbn [bool_decide decide_rel]. cbv zeta.
  rewrite bool_decide_true by done. unfold cof, in_range, pgidx in *.
  destruct Hx as (Hc & Hl & Hb & Hg). pose proof (pgidx_parts _ _ Hb Hg) as Hlun.
  pose proof (pgidx_off (spp f) G _ _ Hb Hg) as Ho. unfold area_of in *.
  pose proof (ppb_pos (spp f) G SLC_MODE) as Hs. pose proof (ppb_pos (spp f) G TLC_MODE) as Ht.
  cbn [ppb_of] in *. pose proof (geo_slc _ G). pose proof (geo_tlc _ G).
  destruct (Z.ltb_spec (g_blk p) (tt_lines_slc (spp f))); cbn [ppb_of] in *.
  - unfold rassert. replace (g_pg p <? pgs_per_blk_slc (spp f)) with true by lia. cbn [rbind].
    rewrite i32_id by nia. rewrite u64_id by lia.
    match goal with |- context [?e <? tt_pgs (spp f)] => replace (e <? tt_pgs (spp f)) with true by lia end.
    cbn [rbind]. f_equal. lia.
  - cbn [rbind]. rewrite (i32_id (g_blk p - _)) by (pose proof (geo_blks _ G); lia).
    assert (0 <= tt_lines_slc (spp f) * pgs_per_blk_slc (spp f)) by nia.
    assert (0 <= (g_blk p - tt_lines_slc (spp f)) * pgs_per_blk (spp f)) by nia.
    rewrite (i32_id (tt_lines_slc (spp f) * _)), (i32_id ((g_blk p - _) * _)) by lia.
    rewrite i32_id by lia. rewrite u64_id by lia. unfold rassert.
    match goal with |- context [?e <? tt_pgs (spp f)] => replace (e <? tt_pgs (spp f)) with true by lia end.
    cbn [rbind]. f_equal. lia.
Qed.

Lemma valid_ppa_in_range p :
  lm_tt_lines (slm f) = tt_lines_slc (spp f) -> valid_ppa f p = true <->
  in_range (spp f) (cof p) /\ 0 <= g_pl p < pls_per_lun (spp f).
Proof.
  intros Ht. unfold valid_ppa, is_slc. rewrite Hmode, Ht, bool_decide_true by done.
  unfold in_range, cof, area_of. split.
  - intros Hv. repeat (case_match; try discriminate); cbn [ppb_of] in *; lia.
  - intros [(Hc & Hl & Hb & Hg) Hp].
    destruct (Z.ltb_spec (g_blk p) (tt_lines_slc (spp f))); cbn [ppb_of] in *; repeat case_match; lia.
Qed.

(** The line of a page of line [p] of area [a]. *)
Lemma get_line_blk x a q :
  lm_tt_lines (slm f) = tt_lines_slc (spp f) -> (q < Z.to_nat (nlines_of (spp f) a))%nat ->
  g_blk x = blk_of (spp f) a q -> get_line f x = (a, q).
Proof.
  intros Ht Hq Hb. unfold get_line, is_slc. rewrite Hmode, Ht, bool_decide_true, Hb by done.
  pose proof (geo_slc _ G). unfold blk_of. destruct a; cbn in *.
  - replace (0 + Z.of_nat q <? tt_lines_slc (spp f)) with true by lia. do 2 f_equal. lia.
  - replace (tt_lines_slc (spp f) + Z.of_nat q <? tt_lines_slc (spp f)) with false by lia. f_equal. lia.
Qed.
End Code.

(** physical page numbers are unique: on the addresses [valid_ppa] accepts,
    [ppa2pgidx] never fails its assertions nor wraps, stays below [tt_pgs], and
    gives different pages of the partition different indexes. *)
Theorem ppa2pgidx_bijective f p q :
  slc_geometry (spp f) -> slc_mode f = SLC_MODE -> lm_tt_lines (slm f) = tt_lines_slc (spp f) ->
  valid_ppa f p = true -> valid_ppa f q = true ->
  exists i j, ppa2pgidx f p = Ok i /\ ppa2pgidx f q = Ok j /\
    0 <= i < tt_pgs (spp f) /\ (i = j -> cof p = cof q /\ g_pl p = g_pl q).
Proof.
  intros G Hm Ht Hp Hq. rewrite valid_ppa_in_range in Hp, Hq by done. rewrite (geo_pls _ G) in *.
  destruct Hp as [Hp Hp0], Hq as [Hq Hq0].
  exists (pgidx (spp f) (cof p)), (pgidx (spp f) (cof q)).
  rewrite !ppa2pgidx_ok by (done || lia). split; [done|]. split; [done|].
  split; [by apply pgidx_range|]. intros E. apply pgidx_inj in E; [|done..]. split; [done|lia].
Qed.

(** A partition of the small device, as far as its addresses go. *)
Definition small_lm (n : Z) : line_mgmt := mk_lm [] [] (pqueue_init (fun _ => 0%nat) 0) [] n 0 0 0.
Definition small_part : conv_ftl :=
  mk_conv (Ssd.ssd_init small_params 0) (conv_init_params SAMSUNG_970PRO) [] [] (mk_wp None 0 0 0 0 0)
    (mk_wp None 0 0 0 0 0) (small_lm 6) (mk_wfc 0 0) 0 0 (replicate 201 0) (small_lm 4) SLC_MODE TLC_MODE.

Lemma ppa2pgidx_bijective_witness :
  valid_ppa small_part (mk_ppa 1 3 0 1 0 0) = true /\ valid_ppa small_part (mk_ppa 5 4 0 1 0 0) = true /\
  exists i j, ppa2pgidx small_part (mk_ppa 1 3 0 1 0 0) = Ok i /\ ppa2pgidx small_part (mk_ppa 5 4 0 1 0 0) = Ok j /\
    0 <= i < 88 /\ (i = j -> cof (mk_ppa 1 3 0 1 0 0) = cof (mk_ppa 5 4 0 1 0 0) /\ 0 = 0).
Proof.
  split; [reflexivity|]. split; [reflexivity|].
  exact (ppa2pgidx_bijective small_part (mk_ppa 1 3 0 1 0 0) (mk_ppa 5 4 0 1 0 0) small_geometry eq_refl eq_refl
    eq_refl eq_refl).
Defined.
