(* ===== verification/Media.v ===== *)
(** * Page status: what the FTL's marking operations do to the array

    [st s x] is the status of the page at coordinate [x].  [media_ok] says that
    the array has the blocks its parameters say, that a block has the pages of
    its area, and that its valid and invalid counts count its pages.  The three
    marking operations of the FTL (a page becomes valid, a page becomes invalid,
    a block is reset) keep it, and are described by their effect on [st] alone. *)

From Stdlib Require Import ZArith Lia.
From stdpp Require Import base list numbers.
From S2P Require Import Prelude Config SsdParams PQueue ConvFtl Geometry.
From S2P Require Ssd.
Import Ssd (ppa, mk_ppa, g_pg, g_blk, g_pl, g_lun, g_ch, g_rsv, sp, page_status, PG_FREE, PG_INVALID,
  PG_VALID, blk_at, timing_ok, nand_block, nand_page, blk_write).

Definition st (s : Ssd.ssd) (x : coord) : option page_status :=
  let '(c, l, b, g) := x in y ← blk_at s c l 0 b; Ssd.status <$> zget (Ssd.pg y) g.

(** Pages of a block with a status. *)
Definition cnt (v : page_status) (l : list nand_page) : Z :=
  Z.of_nat (length (filter (fun x => Ssd.status x = v) l)).

Record blk_ok (s : ssdparams) (b : Z) (y : nand_block) : Prop := {
  bo_len : zlen (Ssd.pg y) = ppb_of s (area_of s b);
  bo_npgs : Ssd.npgs y = ppb_of s (area_of s b);
  bo_secs x : x ∈ Ssd.pg y -> Ssd.nsecs x = secs_per_pg s;
  bo_vpc : Ssd.vpc y = cnt PG_VALID (Ssd.pg y);
  bo_ipc : Ssd.ipc y = cnt PG_INVALID (Ssd.pg y);
}.

Definition blk_in_range (s : ssdparams) (c l b : Z) : Prop :=
  0 <= c < nchs s /\ 0 <= l < luns_per_ch s /\ 0 <= b < blks_per_pl s.

Definition media_ok (s : Ssd.ssd) : Prop :=
  forall c l b, blk_in_range (sp s) c l b -> exists y, blk_at s c l 0 b = Some y /\ blk_ok (sp s) b y.

(** The array with other page statuses, everything else the FTL depends on kept. *)
Record media_step (s s' : Ssd.ssd) (h : coord -> option page_status) : Prop := {
  ms_sp : sp s' = sp s;
  ms_wb : Ssd.write_buffer s' = Ssd.write_buffer s;
  ms_media : media_ok s';
  ms_timing : timing_ok s';
  ms_st x : in_range (sp s) x -> st s' x = h x;
}.

(** ** Counting *)
Lemma cnt_zset v l i x y :
  zget l i = Some x ->
  cnt v (zset l i y) = cnt v l - (if decide (Ssd.status x = v) then 1 else 0)
                               + (if decide (Ssd.status y = v) then 1 else 0).
Proof.
  intros Hg. pose proof (zget_range _ _ _ Hg) as Hr. unfold zget, zset in *.
  destruct (Z.ltb_spec i 0) as [|_]; [done|].
  set (n := Z.to_nat i) in *. clearbody n. clear Hr i. unfold cnt.
  rewrite (insert_take_drop l n) by (by eapply lookup_lt_Some).
  assert (E : length (filter (fun x => Ssd.status x = v) l) =
    length (filter (fun x => Ssd.status x = v) (take n l ++ x :: drop (S n) l))) by (by rewrite take_drop_middle).
  rewrite E. rewrite !list.filter_app, !filter_cons, !length_app. repeat case_decide; cbn [length]; lia.
Qed.

Lemma cnt_nonneg v l : 0 <= cnt v l.
Proof. unfold cnt. lia. Qed.

Lemma cnt_sum l : cnt PG_FREE l + cnt PG_INVALID l + cnt PG_VALID l = zlen l.
Proof.
  unfold cnt. induction l as [|x l IH]; [done|]. rewrite !filter_cons. cbn [length].
  destruct (Ssd.status x); repeat case_decide; try done; cbn [length]; lia.
Qed.

Lemma cnt_at v l i x : zget l i = Some x -> Ssd.status x = v -> 1 <= cnt v l.
Proof.
  intros Hg Hv.
  unfold zget in Hg. case_match; [done|]. unfold cnt.
  assert (x ∈ filter (fun x => Ssd.status x = v) l) as Hin.
  { apply list_elem_of_filter. split; [done|]. by eapply list_elem_of_lookup_2. }
  destruct (filter _ l); [by apply elem_of_nil in Hin|cbn [length]; lia].
Qed.

Lemma cnt_all v l : (forall x, x ∈ l -> Ssd.status x = v) -> cnt v l = zlen l.
Proof.
  intros H. unfold cnt. induction l as [|x l IH]; [done|]. rewrite filter_cons, decide_True by (apply H; by left).
  cbn [length]. rewrite !Nat2Z.inj_succ. f_equal. apply IH. intros y Hy. apply H. by right.
Qed.

Lemma cnt_none v l : (forall x, x ∈ l -> Ssd.status x <> v) -> cnt v l = 0.
Proof.
  intros H. unfold cnt. induction l as [|x l IH]; [done|]. rewrite filter_cons, decide_False by (apply H; by left).
  apply IH. intros y Hy. apply H. by right.
Qed.

Lemma elem_of_zset {A} (l : list A) i x y : y ∈ zset l i x -> y = x \/ y ∈ l.
Proof.
  unfold zset. case_match; [by right|]. intros (j & Hj)%list_elem_of_lookup.
  apply list_lookup_insert_Some in Hj as [(_ & -> & _)|[_ Hj]]; [by left|right].
  by eapply list_elem_of_lookup_2.
Qed.

(** ** Reading *)
Lemma media_page s p :
  media_ok s -> in_range (sp s) (cof p) -> g_pl p = 0 ->
  exists y x, blk_at s (g_ch p) (g_lun p) (g_pl p) (g_blk p) = Some y /\ blk_ok (sp s) (g_blk p) y /\
    zget (Ssd.pg y) (g_pg p) = Some x /\ Ssd.get_pg s p = Ok x /\ st s (cof p) = Some (Ssd.status x).
Proof.
  intros Hm Hx Hpl. unfold in_range, cof in Hx. destruct Hx as (Hc & Hl & Hb & Hg).
  destruct (Hm (g_ch p) (g_lun p) (g_blk p)) as (y & Hy & Hok); [done|].
  destruct (zget_Some (Ssd.pg y) (g_pg p)) as [x Hpx]; [rewrite (bo_len _ _ _ Hok); lia|].
  exists y, x. rewrite Hpl. split; [done|]. split; [done|]. split; [done|]. split.
  - apply Ssd.get_pg_ok. rewrite Hpl. by exists y.
  - unfold st, cof. rewrite Hy. cbn. by rewrite Hpx.
Qed.

Lemma st_total s x : media_ok s -> in_range (sp s) x -> exists v, st s x = Some v.
Proof.
  intros Hm Hx. destruct (media_page s (pof x) Hm) as (y & z & _ & _ & _ & _ & H).
  - by rewrite cof_pof.
  - by destruct x as [[[? ?] ?] ?].
  - rewrite cof_pof in H. eauto.
Qed.

(** ** Writing a block *)
Lemma blk_write_media s s' p y :
  media_ok s -> timing_ok s -> g_pl p = 0 -> blk_write p s y s' -> blk_ok (sp s) (g_blk p) y ->
  media_step s s' (fun x => let '(c, l, b, g) := x in
    if decide ((c, l, b) = (g_ch p, g_lun p, g_blk p)) then Ssd.status <$> zget (Ssd.pg y) g else st s x).
Proof.
  intros Hm Ht Hpl [W1 W2 W3 W4 W5 W6] Hy. split; try done.
  - intros c l b Hr. rewrite W1 in *. destruct (Hm c l b Hr) as (z & Hz & Hok).
    rewrite W5, Hpl. case_decide as E; [|by exists z]. injection E as -> -> ->. by exists y.
  - destruct Ht as [T1 T2]. split; [by rewrite W2|]. intros c m. rewrite W6. apply T2.
  - intros [[[c l] b] g] _. unfold st. rewrite W5, Hpl.
    destruct (decide ((c, l, b) = (g_ch p, g_lun p, g_blk p))) as [E|E].
    + injection E as -> -> ->. by rewrite decide_True.
    + by rewrite decide_False by congruence.
Qed.

(** ** One page changes status, with the block's counts *)
Lemma media_mark s p v w (k : nand_block -> res nand_block) :
  media_ok s -> timing_ok s -> in_range (sp s) (cof p) -> g_pl p = 0 ->
  st s (cof p) = Some v -> v <> w ->
  (forall y, zlen (Ssd.pg y) = ppb_of (sp s) (area_of (sp s) (g_blk p)) ->
     Ssd.vpc y = cnt PG_VALID (Ssd.pg y) + (if decide (v = PG_VALID) then 1 else 0)
       - (if decide (w = PG_VALID) then 1 else 0) ->
     Ssd.ipc y = cnt PG_INVALID (Ssd.pg y) + (if decide (v = PG_INVALID) then 1 else 0)
       - (if decide (w = PG_INVALID) then 1 else 0) ->
     1 <= cnt w (Ssd.pg y) ->
     k y = Ok (blk_set_counts y (cnt PG_INVALID (Ssd.pg y)) (cnt PG_VALID (Ssd.pg y)))) ->
  exists s1 s2, Ssd.mod_pg s p (fun x => Ok (Ssd.set_status x w)) = Ok s1 /\
    sp s1 = sp s /\ Ssd.mod_blk s1 p k = Ok s2 /\
    media_step s s2 (fun x => if decide (x = cof p) then Some w else st s x).
Proof.
  intros Hm Ht Hx Hpl Hst Hvw Hk.
  destruct (media_page s p Hm Hx Hpl) as (y & z & Hy & Hok & Hz & _ & Hst').
  rewrite Hst in Hst'. injection Hst' as Hv.
  destruct (Ssd.mod_pg_spec s p (fun x => Ok (Ssd.set_status x w)) y z _ Hy Hz eq_refl) as (s1 & E1 & W1).
  exists s1. set (pgs := zset (Ssd.pg y) (g_pg p) (Ssd.set_status z w)) in *.
  assert (Hy1 : blk_at s1 (g_ch p) (g_lun p) (g_pl p) (g_blk p) = Some (Ssd.set_pg y pgs)).
  { rewrite (Ssd.bw_at _ _ _ _ W1). by rewrite decide_True. }
  pose proof (zget_range _ _ _ Hz) as Hgr.
  assert (Hzp : zget pgs (g_pg p) = Some (Ssd.set_status z w)) by (unfold pgs; by apply zget_zset_eq).
  assert (Hlen : zlen pgs = ppb_of (sp s) (area_of (sp s) (g_blk p))).
  { unfold pgs. rewrite length_zset. apply (bo_len _ _ _ Hok). }
  assert (Hcnt : forall u, cnt u pgs = cnt u (Ssd.pg y) - (if decide (v = u) then 1 else 0)
                                     + (if decide (w = u) then 1 else 0)).
  { intros u. unfold pgs. rewrite (cnt_zset u _ _ z) by done. cbn. by rewrite <- Hv. }
  set (y2 := blk_set_counts (Ssd.set_pg y pgs) (cnt PG_INVALID pgs) (cnt PG_VALID pgs)).
  destruct (Ssd.mod_blk_spec s1 p k (Ssd.set_pg y pgs) y2 Hy1) as (s2 & E2 & W2).
  { apply Hk; cbn [Ssd.set_pg Ssd.pg Ssd.vpc Ssd.ipc]; [done|..].
    - rewrite Hcnt, (bo_vpc _ _ _ Hok). lia.
    - rewrite Hcnt, (bo_ipc _ _ _ Hok). lia.
    - eapply cnt_at; [exact Hzp|done]. }
  exists s2. split; [done|]. split; [apply (Ssd.bw_sp _ _ _ _ W1)|]. split; [done|].
  assert (Hok2 : blk_ok (sp s) (g_blk p) y2).
  { split; [exact Hlen|apply (bo_npgs _ _ _ Hok)| |done|done].
    intros x [->|Hin]%elem_of_zset; [cbn|by apply (bo_secs _ _ _ Hok)].
    apply (bo_secs _ _ _ Hok). unfold zget in Hz. case_match; [done|]. by eapply list_elem_of_lookup_2. }
  assert (W : blk_write p s y2 s2).
  { destruct W1 as [A1 A2 A3 A4 A5 A6], W2 as [B1 B2 B3 B4 B5 B6]. split; try congruence.
    intros c l q b. rewrite B5, A5. by repeat case_decide. }
  destruct (blk_write_media s s2 p y2 Hm Ht Hpl W Hok2) as [M1 M2 M3 M4 M5].
  split; try done. intros [[[c l] b] g] Hr. rewrite M5 by done. cbn [y2 blk_set_counts Ssd.pg Ssd.set_pg].
  unfold cof. destruct (decide ((c, l, b) = (g_ch p, g_lun p, g_blk p))) as [E|E].
  - injection E as -> -> ->. unfold pgs. rewrite zget_zset by done.
    destruct (decide (g_pg p = g)) as [<-|Hne].
    + by rewrite decide_True.
    + rewrite decide_False by congruence. unfold st. rewrite <- Hpl, Hy. done.
  - by rewrite decide_False by congruence.
Qed.

(** ** A block is reset *)
Lemma reset_pages_ok n l k :
  (n <= length l)%nat -> (forall x, x ∈ l -> Ssd.nsecs x = k) ->
  exists l', reset_pages k n l = Ok l' /\ length l' = length l /\ drop n l' = drop n l /\
    (forall x, x ∈ take n l' -> Ssd.status x = PG_FREE) /\ (forall x, x ∈ l' -> Ssd.nsecs x = k).
Proof.
  revert l. induction n as [|n IH]; intros l Hn Hk; cbn [reset_pages].
  { exists l. rewrite take_0. split_and!; try done. intros x ?%elem_of_nil; done. }
  destruct l as [|x l]; [cbn in Hn; lia|]. unfold rassert.
  rewrite (Hk x) by (by left). rewrite Z.eqb_refl. cbn [rbind].
  destruct (IH l) as (l' & -> & Hl & Hd & Ht & Hs); [cbn in Hn; lia|intros; apply Hk; by right|].
  cbn [rbind]. eexists; split; [done|]. cbn. split; [by rewrite Hl|]. split; [done|]. split.
  - intros y [->|Hy]%elem_of_cons; [done|by apply Ht].
  - intros y [->|Hy]%elem_of_cons; [cbn; apply Hk; by left|by apply Hs].
Qed.

Lemma media_reset s p (ppb : Z) :
  media_ok s -> timing_ok s -> blk_in_range (sp s) (g_ch p) (g_lun p) (g_blk p) -> g_pl p = 0 ->
  ppb = ppb_of (sp s) (area_of (sp s) (g_blk p)) ->
  exists s2, Ssd.mod_blk s p (fun b =>
      let! pgs := reset_pages (secs_per_pg (sp s)) (Z.to_nat ppb) (Ssd.pg b) in
      rassert (Ssd.npgs b =? ppb) ;;;
      Ok (Ssd.mk_block pgs (Ssd.npgs b) 0 0 (i32 (Ssd.erase_cnt b + 1)) (Ssd.blk_wp b))) = Ok s2 /\
    media_step s s2 (fun x => let '(c, l, b, g) := x in
      if decide ((c, l, b) = (g_ch p, g_lun p, g_blk p)) then Some PG_FREE else st s x).
Proof.
  intros Hm Ht Hr Hpl ->. destruct (Hm _ _ _ Hr) as (y & Hy & Hok). rewrite <- Hpl in Hy.
  set (ppb := ppb_of _ _) in *. pose proof (bo_len _ _ _ Hok) as Hlen. fold ppb in Hlen.
  destruct (reset_pages_ok (Z.to_nat ppb) (Ssd.pg y) (secs_per_pg (sp s))) as (l' & El & Hl & Hd & Hf & Hs).
  { lia. } { apply (bo_secs _ _ _ Hok). }
  rewrite take_ge in Hf by lia.
  set (y2 := Ssd.mk_block l' (Ssd.npgs y) 0 0 (i32 (Ssd.erase_cnt y + 1)) (Ssd.blk_wp y)).
  destruct (Ssd.mod_blk_spec s p (fun b =>
      let! pgs := reset_pages (secs_per_pg (sp s)) (Z.to_nat ppb) (Ssd.pg b) in
      rassert (Ssd.npgs b =? ppb) ;;;
      Ok (Ssd.mk_block pgs (Ssd.npgs b) 0 0 (i32 (Ssd.erase_cnt b + 1)) (Ssd.blk_wp b))) y y2 Hy) as (s2 & E2 & W).
  { rewrite El. cbn [rbind]. rewrite (bo_npgs _ _ _ Hok). fold ppb. unfold rassert. rewrite Z.eqb_refl. cbn [rbind].
    unfold y2. by rewrite (bo_npgs _ _ _ Hok). }
  exists s2. split; [done|].
  assert (Hok2 : blk_ok (sp s) (g_blk p) y2).
  { split; cbn; try done.
    - fold ppb. lia.
    - by destruct Hok.
    - symmetry. apply cnt_none. intros x Hx. by rewrite Hf.
    - symmetry. apply cnt_none. intros x Hx. by rewrite Hf. }
  destruct (blk_write_media s s2 p y2 Hm Ht Hpl W Hok2) as [M1 M2 M3 M4 M5].
  split; try done. intros [[[c l] b] g] Hx. rewrite M5 by done. case_decide as E; [|done]. injection E as -> -> ->.
  cbn [y2 Ssd.pg]. destruct Hx as (_ & _ & _ & Hg). fold ppb in Hg.
  destruct (zget_Some l' g) as [x Hx]; [lia|]. rewrite Hx. cbn. f_equal. apply Hf.
  unfold zget in Hx. case_match; [done|]. by eapply list_elem_of_lookup_2.
Qed.

(** The timing model does not touch the media. *)
Lemma timing_step_st p s s' x : Ssd.timing_step p s s' -> st s' x = st s x.
Proof. intros Ht. destruct x as [[[c l] b] g]. unfold st. by rewrite (Ssd.timing_step_blk _ _ _ _ _ _ _ Ht). Qed.

Lemma timing_step_media p s s' :
  media_ok s -> Ssd.timing_step p s s' -> timing_ok s' -> media_step s s' (st s).
Proof.
  intros Hm Ht Hok. split; try done.
  - apply (Ssd.ts_sp _ _ _ Ht).
  - apply (Ssd.ts_wb _ _ _ Ht).
  - intros c l b Hr. rewrite (Ssd.ts_sp _ _ _ Ht) in *. rewrite (Ssd.timing_step_blk _ _ _ _ _ _ _ Ht). by apply Hm.
  - intros x _. by eapply timing_step_st.
Qed.

(** The initial array: every page is free. *)
Lemma init_media s cpu :
  slc_geometry s -> media_ok (Ssd.ssd_init s cpu) /\
    (forall x, in_range s x -> st (Ssd.ssd_init s cpu) x = Some PG_FREE).
Proof.
  intros G. assert (Hblk : forall c l b, blk_in_range s c l b ->
    blk_at (Ssd.ssd_init s cpu) c l 0 b = Some (Ssd.init_blk_of s b)).
  { intros c l b (Hc & Hl & Hb). rewrite Ssd.ssd_init_blk_at, (geo_pls _ G).
    rewrite decide_True; [done|lia]. }
  assert (Hpg : forall b, 0 <= b -> Ssd.pg (Ssd.init_blk_of s b) =
    replicate (Z.to_nat (ppb_of s (area_of s b))) (Ssd.ssd_init_nand_page s) /\
    Ssd.npgs (Ssd.init_blk_of s b) = ppb_of s (area_of s b) /\
    Ssd.vpc (Ssd.init_blk_of s b) = 0 /\ Ssd.ipc (Ssd.init_blk_of s b) = 0).
  { intros b Hb. unfold Ssd.init_blk_of, area_of. by case_match. }
  split.
  - intros c l b Hr. exists (Ssd.init_blk_of s b). split; [by apply Hblk|].
    destruct Hr as (_ & _ & Hb). change (sp (Ssd.ssd_init s cpu)) with s. pose proof (ppb_pos s G (area_of s b)).
    destruct (Hpg b) as (E1 & E2 & E3 & E4); [lia|]. split; rewrite ?E1, ?E2, ?E3, ?E4.
    + rewrite length_replicate. lia.
    + done.
    + by intros x [-> _]%elem_of_replicate.
    + symmetry. apply cnt_none. by intros x [-> _]%elem_of_replicate.
    + symmetry. apply cnt_none. by intros x [-> _]%elem_of_replicate.
  - intros [[[c l] b] g] (Hc & Hl & Hb & Hg). unfold st. rewrite Hblk by done. cbn.
    destruct (Hpg b) as (-> & _); [lia|]. rewrite Ssd.zget_replicate_in by lia. done.
Qed.
