(* ===== verification/Lines.v ===== *)
(** * Line management: the invariant of an area and what each operation does to it

    [lines_ok] is the invariant of one [line_mgmt]: every line is in exactly one
    of the free list, the victim queue, the full list, the open position, or
    detached for collection; the victim queue is a heap whose members record
    their slots; the counters are the lengths; the valid and invalid counts of a
    line count its pages; free lines are erased, queued lines have no free page
    and some invalid one, full lines are fully valid, and the open line is
    free exactly from its cursor on. *)

From Stdlib Require Import ZArith Lia.
From stdpp Require Import base list numbers sets.
From S2P Require Import Prelude PQueue Config SsdParams ConvFtl Geometry Media.
From S2P Require Ssd.
Import Ssd (ppa, page_status, PG_FREE, PG_INVALID, PG_VALID).

(** ** Lines as objects of the victim queue *)
#[export] Instance victim_laws : PQLaws (list line).
Proof.
  refine {| pvalid (s : list line) x := (x < length s)%nat; pri_ok v := 0 <= v < 2 ^ 31 |};
    cbn; unfold victim_line_get_pri, victim_line_set_pri, victim_line_get_pos, victim_line_set_pos,
      victim_line_cmp_pri.
  - intros s x i y. by rewrite length_alter.
  - intros s x v y. by rewrite length_alter.
  - intros s x i y Hx. case_decide as E; subst.
    + rewrite list_lookup_alter_eq. by destruct (lookup_lt_is_Some_2 s y Hx) as [l ->].
    + by rewrite list_lookup_alter_ne.
  - intros s x i y. destruct (decide (x = y)) as [->|].
    + rewrite list_lookup_alter_eq. by destruct (s !! y).
    + by rewrite list_lookup_alter_ne.
  - intros s x v y. destruct (decide (x = y)) as [->|].
    + rewrite list_lookup_alter_eq. by destruct (s !! y).
    + by rewrite list_lookup_alter_ne.
  - intros s x v y Hx Hv. case_decide as E; subst.
    + rewrite list_lookup_alter_eq. destruct (lookup_lt_is_Some_2 s y Hx) as [l ->]. cbn.
      by rewrite i32_id, u64_id by lia.
    + by rewrite list_lookup_alter_ne.
  - intros a b. lia.
  - intros a b c. lia.
Defined.

(** Two lines that differ in the recorded position at most. *)
Definition same_but_pos (l l' : line) : Prop :=
  id l' = id l /\ ipc l' = ipc l /\ vpc l' = vpc l /\ mtime l' = mtime l.

Lemma pos_steps_line E (ls ls' : list line) p l' :
  pos_steps E ls ls' -> ls' !! p = Some l' ->
  exists l, ls !! p = Some l /\ same_but_pos l l' /\ (~ E p -> l' = l).
Proof.
  intros Hs. revert l'. induction Hs as [|ls ls' y i Hy Hs IH]; intros l' Hl.
  - exists l'. split; [done|]. split; [by repeat split|done].
  - cbn in Hl. unfold victim_line_set_pos in Hl. destruct (decide (y = p)) as [->|Hne].
    + rewrite list_lookup_alter_eq in Hl. destruct (ls' !! p) as [l0|] eqn:Hl0; [|done].
      injection Hl as <-. destruct (IH l0 eq_refl) as (l & Hl & Hsame & _).
      exists l. split; [done|]. split; [done|]. by intros [].
    + rewrite list_lookup_alter_ne in Hl by done. by apply IH.
Qed.

Lemma pos_steps_length E (ls ls' : list line) : pos_steps E ls ls' -> length ls' = length ls.
Proof. induction 1 as [|ls ls' y i Hy Hs IH]; [done|]. cbn. unfold victim_line_set_pos. by rewrite length_alter. Qed.

(** ** Counting along a line *)
Definition count_range (P : Z -> Prop) `{!forall k, Decision (P k)} (n : Z) : Z :=
  Z.of_nat (length (filter P (zseq n))).

Lemma filter_agree {A} (P Q : A -> Prop) `{!forall x, Decision (P x), !forall x, Decision (Q x)} (l : list A) :
  (forall x, x ∈ l -> P x <-> Q x) -> filter P l = filter Q l.
Proof.
  induction l as [|x l IH]; intros Hag; [done|]. rewrite !filter_cons, IH by (intros; apply Hag; by right).
  pose proof (Hag x ltac:(by left)). repeat case_decide; tauto.
Qed.

Lemma count_upd (P Q : Z -> Prop) `{!forall k, Decision (P k), !forall k, Decision (Q k)} n k0 :
  0 <= k0 < n -> (forall k, 0 <= k < n -> k <> k0 -> P k <-> Q k) ->
  count_range Q n = count_range P n - (if decide (P k0) then 1 else 0) + (if decide (Q k0) then 1 else 0).
Proof.
  intros Hk Heq. unfold count_range, zseq.
  assert (seqZ 0 n = seqZ 0 k0 ++ k0 :: seqZ (k0 + 1) (n - k0 - 1)) as ->.
  { replace n with (k0 + (1 + (n - k0 - 1))) at 1 by lia. rewrite seqZ_app by lia. f_equal.
    rewrite seqZ_cons by lia. replace (0 + k0) with k0 by lia. do 2 f_equal; lia. }
  rewrite !list.filter_app, !filter_cons, !length_app.
  rewrite (filter_agree Q P (seqZ 0 k0)), (filter_agree Q P (seqZ (k0 + 1) (n - k0 - 1))).
  - repeat case_decide; cbn [length]; lia.
  - intros k Hin%elem_of_seqZ. symmetry. apply Heq; lia.
  - intros k Hin%elem_of_seqZ. symmetry. apply Heq; lia.
Qed.

Lemma count_nonneg (P : Z -> Prop) `{!forall k, Decision (P k)} n : 0 <= count_range P n.
Proof. unfold count_range. lia. Qed.

Lemma count_ext (P Q : Z -> Prop) `{!forall k, Decision (P k), !forall k, Decision (Q k)} n :
  (forall k, 0 <= k < n -> P k <-> Q k) -> count_range P n = count_range Q n.
Proof. intros Hag. unfold count_range. rewrite (filter_agree P Q); [done|]. intros k ?%Ssd.elem_of_zseq. by apply Hag. Qed.

Lemma count_pos (P : Z -> Prop) `{!forall k, Decision (P k)} n k : 0 <= k < n -> P k -> 1 <= count_range P n.
Proof.
  intros Hk HP. unfold count_range.
  assert (k ∈ filter P (zseq n)) as Hin by (apply list_elem_of_filter; by rewrite Ssd.elem_of_zseq).
  destruct (filter P (zseq n)); [by apply elem_of_nil in Hin|cbn [length]; lia].
Qed.

Lemma count_zero (P : Z -> Prop) `{!forall k, Decision (P k)} n :
  (forall k, 0 <= k < n -> ~ P k) -> count_range P n = 0.
Proof.
  intros Hno. unfold count_range. destruct (filter P (zseq n)) as [|k l] eqn:E; [done|exfalso].
  assert (k ∈ filter P (zseq n)) as Hin by (rewrite E; by left).
  apply list_elem_of_filter in Hin as [HP Hk]. rewrite Ssd.elem_of_zseq in Hk. by apply (Hno k).
Qed.

(** ** Positions of a line by status *)
Definition statuses : Type := coord -> option page_status.

Definition lst (s : ssdparams) (S : statuses) (a : line_mode) (p : ptr) (k : Z) : option page_status :=
  S (page_of s a p k).

Definition lcnt (s : ssdparams) (S : statuses) (a : line_mode) (p : ptr) (v : page_status) : Z :=
  count_range (fun k => lst s S a p k = Some v) (ppl_of s a).

Definition known (s : ssdparams) (S : statuses) (a : line_mode) (p : ptr) : Prop :=
  forall k, 0 <= k < ppl_of s a -> exists v, lst s S a p k = Some v.

Lemma lcnt_sum s S a p :
  1 <= ppl_of s a -> known s S a p ->
  lcnt s S a p PG_FREE + lcnt s S a p PG_INVALID + lcnt s S a p PG_VALID = ppl_of s a.
Proof.
  intros Hp Hk. unfold lcnt, count_range.
  assert (length (zseq (ppl_of s a)) = Z.to_nat (ppl_of s a)) as Hl by (unfold zseq; by rewrite length_seqZ).
  assert (forall l, (forall k, k ∈ l -> 0 <= k < ppl_of s a) ->
    Z.of_nat (length (filter (fun k => lst s S a p k = Some PG_FREE) l)) +
    Z.of_nat (length (filter (fun k => lst s S a p k = Some PG_INVALID) l)) +
    Z.of_nat (length (filter (fun k => lst s S a p k = Some PG_VALID) l)) = Z.of_nat (length l)) as Hgen.
  { induction l as [|k l IH]; intros Hl'; [done|]. rewrite !filter_cons.
    destruct (Hk k) as [v Hv]; [apply Hl'; by left|]. rewrite Hv.
    specialize (IH (fun i Hi => Hl' i ltac:(by right))).
    destruct v; repeat case_decide; try done; cbn [length]; lia. }
  rewrite Hgen; [lia|]. intros k ?%Ssd.elem_of_zseq. done.
Qed.

Lemma lcnt_nonneg s S a p v : 0 <= lcnt s S a p v.
Proof. apply count_nonneg. Qed.

Lemma lcnt_ext s S S' a p v :
  (forall k, 0 <= k < ppl_of s a -> lst s S' a p k = lst s S a p k) -> lcnt s S' a p v = lcnt s S a p v.
Proof. intros H. apply count_ext. intros k Hk. by rewrite H. Qed.

(** One position changes status. *)
Lemma lcnt_change s S S' a p k0 u w v :
  0 <= k0 < ppl_of s a -> lst s S a p k0 = Some u -> lst s S' a p k0 = Some w ->
  (forall k, k <> k0 -> 0 <= k < ppl_of s a -> lst s S' a p k = lst s S a p k) ->
  lcnt s S' a p v = lcnt s S a p v - (if decide (u = v) then 1 else 0) + (if decide (w = v) then 1 else 0).
Proof.
  intros Hk Hu Hw Hsame.
  set (P k := if decide (0 <= k < ppl_of s a) then lst s S a p k = Some v else False).
  set (Q k := if decide (0 <= k < ppl_of s a) then lst s S' a p k = Some v else False).
  assert (forall k, Decision (P k)) by (intros k; unfold P; case_decide; apply _).
  assert (forall k, Decision (Q k)) by (intros k; unfold Q; case_decide; apply _).
  unfold lcnt.
  rewrite (count_ext (fun k => lst s S' a p k = Some v) Q) by (intros; unfold Q; by rewrite decide_True).
  rewrite (count_ext (fun k => lst s S a p k = Some v) P) by (intros; unfold P; by rewrite decide_True).
  assert (forall k, k <> k0 -> P k <-> Q k) as Hpq.
  { intros k Hne. unfold P, Q. destruct (decide (0 <= k < ppl_of s a)); [|done]. by rewrite Hsame. }
  rewrite (count_upd P Q _ k0 Hk (fun k _ => Hpq k)).
  assert (P k0 <-> u = v) by (unfold P; rewrite decide_True, Hu by done; naive_solver).
  assert (Q k0 <-> w = v) by (unfold Q; rewrite decide_True, Hw by done; naive_solver).
  repeat case_decide; try tauto; lia.
Qed.

(** ** The invariant *)
Definition olist {A} (x : option A) : list A := match x with Some a => [a] | None => [] end.

(** [cur], [c]: the open line and its cursor; [fl]: lines in no list (being moved or collected). *)
Record lines_base (s : ssdparams) (a : line_mode) (S : statuses) (m : line_mgmt)
    (cur : option ptr) (c : Z) (fl : list ptr) : Prop := {
  lb_len : length (lines m) = Z.to_nat (nlines_of s a);
  lb_tt : lm_tt_lines m = nlines_of s a;
  lb_perm : free_line_list m ++ pq_elems (victim_line_pq m) ++ full_line_list m ++ olist cur ++ fl
              ≡ₚ seq 0 (Z.to_nat (nlines_of s a));
  lb_pq : pq_wf (victim_line_pq m) (lines m);
  lb_avail : avail (victim_line_pq m) = Datatypes.S (Z.to_nat (nlines_of s a));
  lb_free_cnt : free_line_cnt m = Z.of_nat (length (free_line_list m));
  lb_victim_cnt : victim_line_cnt m = Z.of_nat (length (pq_elems (victim_line_pq m)));
  lb_full_cnt : full_line_cnt m = Z.of_nat (length (full_line_list m));
  lb_id p l : lines m !! p = Some l -> id l = blk_of s a p;
  lb_pos p l : lines m !! p = Some l -> p ∉ pq_elems (victim_line_pq m) -> pos l = 0%nat;
  lb_known p : (p < Z.to_nat (nlines_of s a))%nat -> known s S a p;
  lb_free p k : p ∈ free_line_list m -> 0 <= k < ppl_of s a -> lst s S a p k = Some PG_FREE;
  lb_used p k : p ∈ pq_elems (victim_line_pq m) \/ p ∈ full_line_list m ->
    0 <= k < ppl_of s a -> lst s S a p k <> Some PG_FREE;
  lb_victim p : p ∈ pq_elems (victim_line_pq m) -> 1 <= lcnt s S a p PG_INVALID;
  lb_full p : p ∈ full_line_list m -> lcnt s S a p PG_INVALID = 0;
  lb_cur p k : cur = Some p -> 0 <= k < ppl_of s a -> (lst s S a p k = Some PG_FREE <-> c <= k);
}.

(** Line counters, for the lines other than [x]. *)
Definition lines_cnt (s : ssdparams) (a : line_mode) (S : statuses) (ls : list line) (x : option ptr) : Prop :=
  forall p l, ls !! p = Some l -> x <> Some p ->
    vpc l = lcnt s S a p PG_VALID /\ ipc l = lcnt s S a p PG_INVALID.

Section Lists.
Context (s : ssdparams) (a : line_mode) (G : slc_geometry s).
Implicit Types (S : statuses) (m : line_mgmt) (p : ptr) (fl : list ptr).

Let n : nat := Z.to_nat (nlines_of s a).

Lemma lb_all S m cur c fl p :
  lines_base s a S m cur c fl ->
  (p < n)%nat <-> p ∈ free_line_list m ++ pq_elems (victim_line_pq m) ++ full_line_list m ++ olist cur ++ fl.
Proof. intros H. rewrite (lb_perm _ _ _ _ _ _ _ H), elem_of_seq. unfold n. lia. Qed.

Lemma lb_nodup S m cur c fl :
  lines_base s a S m cur c fl ->
  NoDup (free_line_list m ++ pq_elems (victim_line_pq m) ++ full_line_list m ++ olist cur ++ fl).
Proof. intros H. rewrite (lb_perm _ _ _ _ _ _ _ H). apply NoDup_seq. Qed.

Lemma lb_total S m cur c fl :
  lines_base s a S m cur c fl ->
  (length (free_line_list m) + length (pq_elems (victim_line_pq m)) + length (full_line_list m)
     + length (olist cur) + length fl = n)%nat.
Proof.
  intros H. pose proof (Permutation_length (lb_perm _ _ _ _ _ _ _ H)) as E.
  rewrite !length_app, length_seq in E. unfold n. lia.
Qed.

Lemma lb_line S m cur c fl p :
  lines_base s a S m cur c fl -> (p < n)%nat -> exists l, lines m !! p = Some l.
Proof. intros H Hp. apply lookup_lt_is_Some_2. by rewrite (lb_len _ _ _ _ _ _ _ H). Qed.

(** Lines of this area look the same. *)
Lemma lb_ext S S' m cur c fl :
  (forall p k, (p < n)%nat -> 0 <= k < ppl_of s a -> lst s S' a p k = lst s S a p k) ->
  lines_base s a S m cur c fl -> lines_base s a S' m cur c fl.
Proof.
  intros He H. pose proof (fun p => lb_all _ _ _ _ _ p H) as Hall. destruct H.
  assert (forall p v, (p < n)%nat -> lcnt s S' a p v = lcnt s S a p v) as Hc
    by (intros p v Hp; apply lcnt_ext; intros; by apply He).
  split; try done.
  - intros p Hp k Hk. rewrite He by done. by apply lb_known0.
  - intros p k Hp Hk. rewrite He; [by apply lb_free0|apply Hall; set_solver|done].
  - intros p k Hp Hk. rewrite He; [by apply lb_used0|apply Hall; set_solver|done].
  - intros p Hp. rewrite Hc; [by apply lb_victim0|apply Hall; set_solver].
  - intros p Hp. rewrite Hc; [by apply lb_full0|apply Hall; set_solver].
  - intros p k -> Hk. rewrite He; [by apply lb_cur0|apply Hall; cbn; set_solver|done].
Qed.

Lemma cnt_ext S S' ls x :
  (forall p k, (p < n)%nat -> 0 <= k < ppl_of s a -> lst s S' a p k = lst s S a p k) ->
  length ls = n -> lines_cnt s a S ls x -> lines_cnt s a S' ls x.
Proof.
  intros He Hl H p l Hp Hx. destruct (H p l Hp Hx) as [-> ->].
  pose proof (lookup_lt_Some _ _ _ Hp). split; symmetry; apply lcnt_ext; intros; apply He; lia || done.
Qed.

(** The status of a floating line may change freely. *)
Lemma lb_status_fl S S' m cur c fl p :
  lines_base s a S m cur c fl -> p ∈ fl ->
  (forall q k, q <> p -> (q < n)%nat -> 0 <= k < ppl_of s a -> lst s S' a q k = lst s S a q k) ->
  known s S' a p -> lines_base s a S' m cur c fl.
Proof.
  intros H Hp He Hk. pose proof (fun p => lb_all _ _ _ _ _ p H) as Hall.
  pose proof (lb_nodup _ _ _ _ _ H) as Hnd.
  assert (Hne : forall q, q ∈ free_line_list m \/ q ∈ pq_elems (victim_line_pq m) \/ q ∈ full_line_list m \/ q ∈ olist cur ->
    q <> p /\ (q < n)%nat).
  { intros q Hq. split.
    - intros ->. rewrite !app_assoc in Hnd. apply NoDup_app in Hnd as (_ & Hd & _).
      apply (Hd p); [set_solver|done].
    - apply Hall. set_solver. }
  destruct H.
  assert (forall q v, q <> p -> (q < n)%nat -> lcnt s S' a q v = lcnt s S a q v) as Hc
    by (intros q v Hq Hqn; apply lcnt_ext; intros; by apply He).
  split; try done.
  - intros q Hq. destruct (decide (q = p)) as [->|Hqp]; [done|]. intros k Hk'. rewrite He by done. by apply lb_known0.
  - intros q k Hq Hk'. destruct (Hne q) as [? ?]; [tauto|]. rewrite He by done. by apply lb_free0.
  - intros q k Hq Hk'. destruct (Hne q) as [? ?]; [tauto|]. rewrite He by done. by apply lb_used0.
  - intros q Hq. destruct (Hne q) as [? ?]; [tauto|]. rewrite Hc by done. by apply lb_victim0.
  - intros q Hq. destruct (Hne q) as [? ?]; [tauto|]. rewrite Hc by done. by apply lb_full0.
  - intros q k -> Hk'. destruct (Hne q) as [? ?]; [cbn; set_solver|]. rewrite He by done. by apply lb_cur0.
Qed.

(** A queued line with one more invalid page stays queued. *)
Lemma lb_status_pq S S' m cur c fl p :
  lines_base s a S m cur c fl -> p ∈ pq_elems (victim_line_pq m) ->
  (forall q k, q <> p -> (q < n)%nat -> 0 <= k < ppl_of s a -> lst s S' a q k = lst s S a q k) ->
  known s S' a p -> (forall k, 0 <= k < ppl_of s a -> lst s S' a p k <> Some PG_FREE) ->
  1 <= lcnt s S' a p PG_INVALID -> lines_base s a S' m cur c fl.
Proof.
  intros H Hp He Hk Hnf Hi. pose proof (fun p => lb_all _ _ _ _ _ p H) as Hall.
  pose proof (lb_nodup _ _ _ _ _ H) as Hnd.
  assert (Hne : forall q, q ∈ free_line_list m \/ q ∈ full_line_list m \/ q ∈ olist cur -> q <> p).
  { intros q Hq ->. apply NoDup_app in Hnd as (_ & Hd & Hnd). apply NoDup_app in Hnd as (_ & Hd2 & _).
    destruct Hq as [Hq|Hq]; [apply (Hd p); [done|set_solver]|apply (Hd2 p); [done|set_solver]]. }
  destruct H.
  assert (forall q v, q <> p -> (q < n)%nat -> lcnt s S' a q v = lcnt s S a q v) as Hc
    by (intros q v Hq Hqn; apply lcnt_ext; intros; by apply He).
  split; try done.
  - intros q Hq. destruct (decide (q = p)) as [->|Hqp]; [done|]. intros k Hk'. rewrite He by done. by apply lb_known0.
  - intros q k Hq Hk'. rewrite He; [by apply lb_free0|apply Hne; tauto|apply Hall; set_solver|done].
  - intros q k Hq Hk'. destruct (decide (q = p)) as [->|Hqp]; [by apply Hnf|].
    rewrite He; [by apply lb_used0|done|apply Hall; set_solver|done].
  - intros q Hq. destruct (decide (q = p)) as [->|Hqp]; [done|]. rewrite Hc; [by apply lb_victim0|done|apply Hall; set_solver].
  - intros q Hq. rewrite Hc; [by apply lb_full0|apply Hne; tauto|apply Hall; set_solver].
  - intros q k -> Hk'. rewrite He; [by apply lb_cur0|apply Hne; cbn; set_solver|apply Hall; cbn; set_solver|done].
Qed.

(** *** The open line *)
Lemma lb_close S m p c fl : lines_base s a S m (Some p) c fl -> lines_base s a S m None 0 (p :: fl).
Proof. intros []. split; done. Qed.

Lemma lb_open S m p c fl :
  lines_base s a S m None 0 (p :: fl) ->
  (forall k, 0 <= k < ppl_of s a -> (lst s S a p k = Some PG_FREE <-> c <= k)) ->
  lines_base s a S m (Some p) c fl.
Proof. intros [] Hc. split; try done. intros q k [= <-]. apply Hc. Qed.

(** The open line's cursor page becomes valid. *)
Lemma lb_place S S' m p c fl :
  lines_base s a S m (Some p) c fl -> 0 <= c < ppl_of s a ->
  (forall q k, (q, k) <> (p, c) -> (q < n)%nat -> 0 <= k < ppl_of s a -> lst s S' a q k = lst s S a q k) ->
  lst s S' a p c = Some PG_VALID -> lines_base s a S' m (Some p) (c + 1) fl.
Proof.
  intros H Hc He Hv. pose proof (lb_cur _ _ _ _ _ _ _ H p) as Hcur. pose proof (lb_known _ _ _ _ _ _ _ H p) as Hkn.
  assert (p < n)%nat as Hp by (apply (lb_all _ _ _ _ _ _ H); set_solver).
  apply lb_open.
  - eapply (lb_status_fl S); [by eapply lb_close|by left| |].
    + intros q k Hq. apply He. congruence.
    + intros k Hk. destruct (decide (k = c)) as [->|Hne]; [eauto|]. rewrite He by (done || congruence).
      by apply Hkn.
  - intros k Hk. destruct (decide (k = c)) as [->|Hne].
    + rewrite Hv. split; [done|lia].
    + rewrite He by (done || congruence). rewrite Hcur by done. lia.
Qed.

(** *** Moves between the lists *)
Lemma del_perm p l : NoDup l -> p ∈ l -> l ≡ₚ p :: list_del_init p l.
Proof.
  unfold list_del_init. induction l as [|q l IH]; intros Hnd Hp; [by apply elem_of_nil in Hp|].
  apply NoDup_cons in Hnd as [Hq Hnd]. rewrite filter_cons. destruct (decide (q = p)) as [->|Hne].
  - rewrite decide_False by auto. f_equiv. rewrite (filter_agree _ (fun _ => True)).
    + clear. induction l as [|x l IH]; [done|]. rewrite filter_cons, decide_True by done. by f_equiv.
    + intros x Hx. split; [done|]. intros _ ->. done.
  - rewrite decide_True by done. apply elem_of_cons in Hp as [->|Hp]; [done|]. rewrite (IH Hnd Hp) at 1.
    apply Permutation_swap.
Qed.

Lemma elem_of_del p q l : q ∈ list_del_init p l <-> q ∈ l /\ q <> p.
Proof. unfold list_del_init. rewrite list_elem_of_filter. tauto. Qed.

Lemma n_bound : (4 <= n < 2 ^ 16)%nat.
Proof. pose proof (nlines_pos s G a). unfold n. change (2 ^ 16)%nat with (Z.to_nat (2 ^ 16)). lia. Qed.

Lemma n_bound_Z : 4 <= Z.of_nat n < 2 ^ 16.
Proof. pose proof (nlines_pos s G a). unfold n. lia. Qed.

(** A free line becomes the open line. *)
Lemma lb_take_free S m fl p rest :
  lines_base s a S m None 0 fl -> free_line_list m = p :: rest ->
  lines_base s a S (set_free m (list_del_init p (free_line_list m)) (u32 (free_line_cnt m - 1))) (Some p) 0 fl /\
  list_del_init p (free_line_list m) = rest.
Proof.
  intros H Hf. pose proof (lb_nodup _ _ _ _ _ H) as Hnd. rewrite Hf in Hnd. cbn in Hnd.
  apply NoDup_cons in Hnd as [Hp _].
  assert (list_del_init p (free_line_list m) = rest) as E.
  { rewrite Hf. unfold list_del_init. rewrite filter_cons, decide_False by auto.
    rewrite (filter_agree _ (fun _ => True)); [|intros x Hx; split; [done|intros _ ->; set_solver]].
    clear. induction rest as [|x l IH]; [done|]. rewrite filter_cons, decide_True by done. by f_equal. }
  split; [|done]. rewrite E. pose proof (lb_total _ _ _ _ _ H) as Ht. pose proof n_bound_Z as Hn.
  destruct H. rewrite Hf in *. cbn [length] in *. split; cbn; try done.
  - rewrite <- lb_perm0. cbn. rewrite !app_assoc. symmetry. apply Permutation_middle.
  - rewrite lb_free_cnt0, u32_id; lia.
  - intros q k Hq. apply lb_free0. by right.
  - intros q k [= <-] Hk. rewrite lb_free0 by (done || by left). split; [lia|done].
Qed.

Lemma lb_fl_to_free S m cur c fl p :
  lines_base s a S m cur c (p :: fl) ->
  (forall k, 0 <= k < ppl_of s a -> lst s S a p k = Some PG_FREE) ->
  lines_base s a S (set_free m (free_line_list m ++ [p]) (u32 (free_line_cnt m + 1))) cur c fl.
Proof.
  intros H Hp. pose proof (lb_total _ _ _ _ _ H) as Ht. pose proof n_bound_Z as Hn. cbn [length] in Ht.
  destruct H. split; cbn; try done.
  - rewrite <- lb_perm0. cbn. solve_Permutation.
  - rewrite length_app, lb_free_cnt0, u32_id; cbn; lia.
  - intros q k [Hq| ->%list_elem_of_singleton]%elem_of_app; [by apply lb_free0|apply Hp].
Qed.

Lemma lb_fl_to_full S m cur c fl p :
  lines_base s a S m cur c (p :: fl) ->
  (forall k, 0 <= k < ppl_of s a -> lst s S a p k <> Some PG_FREE) -> lcnt s S a p PG_INVALID = 0 ->
  lines_base s a S (set_full m (full_line_list m ++ [p]) (u32 (full_line_cnt m + 1))) cur c fl.
Proof.
  intros H Hp Hi. pose proof (lb_total _ _ _ _ _ H) as Ht. pose proof n_bound_Z as Hn. cbn [length] in Ht.
  destruct H. split; cbn; try done.
  - rewrite <- lb_perm0. cbn. solve_Permutation.
  - rewrite length_app, lb_full_cnt0, u32_id; cbn; lia.
  - intros q k Hq. rewrite elem_of_app, list_elem_of_singleton in Hq.
    destruct Hq as [Hq|[Hq| ->]]; [apply lb_used0; tauto..|apply Hp].
  - intros q [Hq| ->%list_elem_of_singleton]%elem_of_app; [by apply lb_full0|done].
Qed.

Lemma lb_full_to_fl S m cur c fl p :
  lines_base s a S m cur c fl -> p ∈ full_line_list m ->
  lines_base s a S (set_full m (list_del_init p (full_line_list m)) (u32 (full_line_cnt m - 1))) cur c (p :: fl).
Proof.
  intros H Hp. pose proof (lb_total _ _ _ _ _ H) as Ht. pose proof n_bound_Z as Hn.
  pose proof (lb_nodup _ _ _ _ _ H) as Hnd.
  assert (NoDup (full_line_list m)) as Hndf.
  { apply NoDup_app in Hnd as (_ & _ & Hnd). apply NoDup_app in Hnd as (_ & _ & Hnd).
    by apply NoDup_app in Hnd as (Hnd & _ & _). }
  pose proof (del_perm p _ Hndf Hp) as Hd. pose proof (Permutation_length Hd) as Hl. cbn in Hl.
  destruct H. split; cbn; try done.
  - rewrite <- lb_perm0. rewrite Hd at 2. solve_Permutation.
  - rewrite lb_full_cnt0, u32_id; lia.
  - intros q k Hq. rewrite elem_of_del in Hq. apply lb_used0. tauto.
  - intros q [Hq _]%elem_of_del. by apply lb_full0.
Qed.

(** *** The victim queue *)
Definition same_lines (ls ls' : list line) : Prop :=
  length ls' = length ls /\ forall p l', ls' !! p = Some l' -> exists l, ls !! p = Some l /\ same_but_pos l l'.

Lemma same_lines_cnt S ls ls' x : same_lines ls ls' -> lines_cnt s a S ls x -> lines_cnt s a S ls' x.
Proof.
  intros [_ H] Hc p l' Hl Hx. destruct (H p l' Hl) as (l & Hl0 & _ & -> & -> & _). by apply Hc.
Qed.

Lemma pos_steps_same E ls ls' : pos_steps E ls ls' -> same_lines ls ls'.
Proof.
  intros H. split; [by eapply pos_steps_length|]. intros p l' Hl.
  destruct (pos_steps_line _ _ _ _ _ H Hl) as (l & Hl0 & Hs & _). eauto.
Qed.

(** A floating line without free pages and with an invalid one enters the queue. *)
Lemma lb_fl_to_pq S m cur c fl p :
  lines_base s a S m cur c (p :: fl) ->
  (forall k, 0 <= k < ppl_of s a -> lst s S a p k <> Some PG_FREE) -> 1 <= lcnt s S a p PG_INVALID ->
  exists q ls, pqueue_insert (victim_line_pq m) (lines m) p = Ok (q, ls) /\ same_lines (lines m) ls /\
    lines_base s a S (set_victim m q ls (u32 (victim_line_cnt m + 1))) cur c fl.
Proof.
  intros H Hp Hi. pose proof (lb_total _ _ _ _ _ H) as Ht. pose proof n_bound_Z as Hn. cbn [length] in Ht.
  pose proof (lb_nodup _ _ _ _ _ H) as Hnd. pose proof (fun q => lb_all _ _ _ _ _ q H) as Hall.
  pose proof (lb_pq _ _ _ _ _ _ _ H) as Hwf. pose proof (pq_size _ _ Hwf) as Hsz.
  pose proof (length_pq_elems _ _ Hwf) as Hlen. unfold pqueue_size in Hlen.
  assert (p < n)%nat as Hpn by (apply Hall; set_solver).
  assert (p ∉ pq_elems (victim_line_pq m)) as Hpq.
  { intros Hin. apply NoDup_app in Hnd as (_ & _ & Hnd). apply NoDup_app in Hnd as (_ & Hd & _).
    apply (Hd p Hin). set_solver. }
  destruct (insert_spec (victim_line_pq m) (lines m) p) as (q & ls & E & Hq & [Hw Hav Hel Hst]); [done|..].
  { rewrite (lb_avail _ _ _ _ _ _ _ H). fold n. lia. }
  { cbn. by rewrite (lb_len _ _ _ _ _ _ _ H). }
  { by rewrite <- elem_of_pq_elems. }
  exists q, ls. split; [done|]. pose proof (pos_steps_same _ _ _ Hst) as Hsame. split; [done|].
  assert (pq_elems q ≡ₚ p :: pq_elems (victim_line_pq m)) as Hperm.
  { apply (pq_elems_perm _ ls); [done|constructor; [done|by apply (pq_elems_nodup _ (lines m))]|].
    intros y. by rewrite elem_of_cons, elem_of_pq_elems, Hel. }
  assert (forall y, y ∈ pq_elems q <-> y = p \/ y ∈ pq_elems (victim_line_pq m)) as Hin
    by (intros y; by rewrite Hperm, elem_of_cons).
  pose proof (Permutation_length Hperm) as Hpl. cbn in Hpl.
  destruct H. split; cbn; try done.
  - destruct Hsame as [-> _]. done.
  - rewrite <- lb_perm0, Hperm. solve_Permutation.
  - by rewrite Hav.
  - rewrite Hpl, lb_victim_cnt0, u32_id; lia.
  - intros y l' Hl. destruct Hsame as [_ Hs]. destruct (Hs y l' Hl) as (l & Hl0 & -> & _). by apply lb_id0.
  - intros y l' Hl Hy. rewrite Hin in Hy. destruct (pos_steps_line _ _ _ _ _ Hst Hl) as (l & Hl0 & _ & Heq).
    rewrite Heq; [apply (lb_pos0 y l Hl0); tauto|]. rewrite <- elem_of_pq_elems. tauto.
  - intros y k Hy Hk. rewrite Hin in Hy. destruct Hy as [[->|Hy]|Hy]; [by apply Hp|apply lb_used0; tauto..].
  - intros y Hy. apply Hin in Hy as [->|Hy]; [done|by apply lb_victim0].
Qed.

(** The queue after [p] was taken out, and [p]'s position cleared. *)
Lemma lb_pq_to_fl S m cur c fl p q ls :
  lines_base s a S m cur c fl -> p ∈ pq_elems (victim_line_pq m) ->
  pq_step (pq_elem (victim_line_pq m)) (fun y => pq_elem (victim_line_pq m) y /\ y <> p)
    (victim_line_pq m) (lines m) q ls ->
  exists m', detach_victim m q ls p = Ok m' /\ same_lines (lines m) (lines m') /\
    lines_base s a S m' cur c (p :: fl) /\ free_line_list m' = free_line_list m /\
    free_line_cnt m' = free_line_cnt m.
Proof.
  intros H Hp [Hw Hav Hel Hst]. pose proof (lb_total _ _ _ _ _ H) as Ht. pose proof n_bound_Z as Hn.
  pose proof (fun q => lb_all _ _ _ _ _ q H) as Hall.
  pose proof (lb_pq _ _ _ _ _ _ _ H) as Hwf.
  assert (p < n)%nat as Hpn by (apply Hall; set_solver).
  pose proof (pos_steps_same _ _ _ Hst) as Hsame.
  assert (length ls = n) as Hlen by (destruct Hsame as [-> _]; apply (lb_len _ _ _ _ _ _ _ H)).
  destruct (lookup_lt_is_Some_2 ls p ltac:(lia)) as [l Hl].
  unfold detach_victim. rewrite (proj2 (lget_ok _ _ _) Hl). cbn [rbind].
  rewrite (proj2 (lset_ok ls p _ _)) by (split; [lia|reflexivity]). cbn [rbind].
  set (ls2 := <[p := line_set_pos l 0]> ls).
  eexists. split; [done|].
  assert (Hlook : forall y l', ls2 !! y = Some l' ->
    exists l0, ls !! y = Some l0 /\ same_but_pos l0 l' /\ (if decide (y = p) then pos l' = 0%nat else l' = l0)).
  { intros y l' Hy. unfold ls2 in Hy. destruct (decide (y = p)) as [->|Hne].
    - rewrite list_lookup_insert_eq in Hy by lia. injection Hy as <-. exists l. by repeat split.
    - rewrite list_lookup_insert_ne in Hy by done. exists l'. by repeat split. }
  assert (Hsame2 : same_lines (lines m) ls2).
  { split; [unfold ls2; rewrite length_insert; apply Hsame|]. intros y l' Hy.
    destruct (Hlook y l' Hy) as (l0 & Hl0 & (E1 & E2 & E3 & E4) & _).
    destruct Hsame as [_ Hs]. destruct (Hs y l0 Hl0) as (l1 & Hl1 & (F1 & F2 & F3 & F4)).
    exists l1. split; [done|]. repeat split; congruence. }
  split; [done|].
  assert (pq_elems (victim_line_pq m) ≡ₚ p :: pq_elems q) as Hperm.
  { apply (pq_elems_take_out _ (lines m) _ ls); [done|done|by apply elem_of_pq_elems|done]. }
  assert (forall y, y ∈ pq_elems q <-> y ∈ pq_elems (victim_line_pq m) /\ y <> p) as Hin
    by (intros y; rewrite !elem_of_pq_elems; apply Hel).
  pose proof (Permutation_length Hperm) as Hpl. cbn in Hpl.
  split; [|done]. destruct H. split; cbn; try done.
  - unfold ls2. by rewrite length_insert.
  - rewrite <- lb_perm0, Hperm. solve_Permutation.
  - apply (wf_ext _ ls); [done|]. intros y Hy Hyv. apply Hel in Hy as [_ Hyp]. cbn in *.
    unfold ls2. rewrite length_insert. unfold victim_line_get_pos, victim_line_get_pri.
    by rewrite list_lookup_insert_ne.
  - by rewrite Hav.
  - rewrite lb_victim_cnt0, u32_id; lia.
  - intros y l' Hl'. destruct Hsame2 as [_ Hs]. destruct (Hs y l' Hl') as (l0 & Hl0 & -> & _). by apply lb_id0.
  - intros y l' Hl' Hy. destruct (Hlook y l' Hl') as (l0 & Hl0 & _ & Hc). case_decide as Hyp; [done|]. subst l'.
    destruct (pos_steps_line _ _ _ _ _ Hst Hl0) as (l1 & Hl1 & _ & Heq).
    assert (y ∉ pq_elems (victim_line_pq m)) as Hno by (rewrite Hin in Hy; tauto).
    rewrite Heq; [by apply (lb_pos0 y)|]. by rewrite <- elem_of_pq_elems.
  - intros y k Hy Hk. rewrite Hin in Hy. apply lb_used0; tauto.
  - intros y Hy. apply Hin in Hy as [Hy _]. by apply lb_victim0.
Qed.

(** Rewriting a line without touching its identity, position or queue priority. *)
Lemma lb_set_line S m cur c fl p l x :
  lines_base s a S m cur c fl -> lines m !! p = Some l -> id x = id l -> pos x = pos l ->
  (p ∈ pq_elems (victim_line_pq m) -> vpc x = vpc l) ->
  lines_base s a S (set_lines m (<[p := x]> (lines m))) cur c fl.
Proof.
  intros H Hl Hid Hpos Hvpc. pose proof (lookup_lt_Some _ _ _ Hl) as Hlt. destruct H. split; cbn; try done.
  - by rewrite length_insert.
  - apply (wf_ext _ (lines m)); [done|]. intros y Hy Hyv. cbn in *. rewrite length_insert. split; [done|].
    unfold victim_line_get_pos, victim_line_get_pri. destruct (decide (p = y)) as [->|Hne].
    + rewrite list_lookup_insert_eq by done. rewrite Hl. cbn. rewrite Hpos, Hvpc; [done|by apply elem_of_pq_elems].
    + by rewrite list_lookup_insert_ne.
  - intros y l' Hy. destruct (decide (p = y)) as [->|Hne].
    + rewrite list_lookup_insert_eq in Hy by done. injection Hy as <-. rewrite Hid. by apply lb_id0.
    + rewrite list_lookup_insert_ne in Hy by done. by apply lb_id0.
  - intros y l' Hy Hin. destruct (decide (p = y)) as [->|Hne].
    + rewrite list_lookup_insert_eq in Hy by done. injection Hy as <-. rewrite Hpos. by apply (lb_pos0 y).
    + rewrite list_lookup_insert_ne in Hy by done. by apply (lb_pos0 y).
Qed.

(** Changing a queued line's priority. *)
Lemma lb_change_pri S m cur c fl p l v :
  lines_base s a S m cur c fl -> p ∈ pq_elems (victim_line_pq m) -> lines m !! p = Some l -> 0 <= v < 2 ^ 31 ->
  exists q ls, pqueue_change_priority (victim_line_pq m) (lines m) v p = Ok (q, ls) /\
    same_lines (<[p := line_set_vpc l v]> (lines m)) ls /\
    (forall y, y ∈ pq_elems q <-> y ∈ pq_elems (victim_line_pq m)) /\
    lines_base s a S (set_victim m q ls (victim_line_cnt m)) cur c fl.
Proof.
  intros H Hp Hl Hv. pose proof (lb_pq _ _ _ _ _ _ _ H) as Hwf.
  destruct (change_priority_spec (victim_line_pq m) (lines m) v p Hwf) as (q & ls & E & Hsz & [Hw Hav Hel Hst]).
  { by apply elem_of_pq_elems. } { done. }
  exists q, ls. split; [done|].
  assert (setpri (lines m) p v = <[p := line_set_vpc l v]> (lines m)) as Hset.
  { cbn. unfold victim_line_set_pri. apply list_eq. intros i. destruct (decide (p = i)) as [->|Hne].
    - rewrite list_lookup_alter_eq, list_lookup_insert_eq, Hl by (by eapply lookup_lt_Some). cbn.
      by rewrite i32_id by lia.
    - by rewrite list_lookup_alter_ne, list_lookup_insert_ne. }
  rewrite Hset in Hst. pose proof (pos_steps_same _ _ _ Hst) as Hsame. split; [done|].
  assert (pq_elems q ≡ₚ pq_elems (victim_line_pq m)) as Hperm.
  { apply (pq_elems_perm _ ls); [done|by apply (pq_elems_nodup _ (lines m))|]. intros y. by rewrite Hel, elem_of_pq_elems. }
  assert (forall y, y ∈ pq_elems q <-> y ∈ pq_elems (victim_line_pq m)) as Hin by (intros y; by rewrite Hperm).
  split; [done|]. pose proof (Permutation_length Hperm) as Hpl.
  assert (Hlook : forall y l', <[p := line_set_vpc l v]> (lines m) !! y = Some l' ->
    exists l0, lines m !! y = Some l0 /\ id l' = id l0 /\ pos l' = pos l0).
  { intros y l' Hy. destruct (decide (p = y)) as [->|Hne].
    - rewrite list_lookup_insert_eq in Hy by (by eapply lookup_lt_Some). injection Hy as <-. by exists l.
    - rewrite list_lookup_insert_ne in Hy by done. by exists l'. }
  destruct H. split; cbn; try done.
  - destruct Hsame as [-> _]. by rewrite length_insert.
  - by rewrite Hperm.
  - by rewrite Hav.
  - by rewrite Hpl.
  - intros y l' Hl'. destruct Hsame as [_ Hs]. destruct (Hs y l' Hl') as (l1 & Hl1 & -> & _).
    destruct (Hlook y l1 Hl1) as (l0 & Hl0 & -> & _). by apply lb_id0.
  - intros y l' Hl' Hy. rewrite Hin in Hy. destruct (pos_steps_line _ _ _ _ _ Hst Hl') as (l1 & Hl1 & _ & Heq).
    rewrite Heq by (by rewrite <- elem_of_pq_elems). destruct (Hlook y l1 Hl1) as (l0 & Hl0 & _ & ->).
    by apply (lb_pos0 y).
  - intros y k Hy. rewrite Hin in Hy. by apply lb_used0.
  - intros y Hy. apply lb_victim0. by apply Hin.
Qed.
End Lists.
