(* ===== verification/ConvInv.v ===== *)
(** * The invariant of a partition, and the page operations that preserve it

    [ftl_base] joins the media, the two line managers and the two write
    pointers; [map_ok] says the mapping table and the reverse table are inverse
    on the valid pages.  Every operation of the FTL on a page (invalidate, take a
    new page, make it valid, advance the write pointer) is shown to meet none of
    its assertions under [ftl_base], and described by its effect on the page
    statuses [st (ssd f)]. *)

From Stdlib Require Import ZArith Lia.
From stdpp Require Import base list numbers sets.
From S2P Require Import Prelude PQueue Config SsdParams ConvFtl Geometry Media Lines.
From S2P Require Ssd.
Import Ssd (ppa, mk_ppa, g_pg, g_blk, g_pl, g_lun, g_ch, g_rsv, sp, page_status, PG_FREE, PG_INVALID,
  PG_VALID, USER_IO, GC_IO, timing_ok, INVALID_LPN).

(** ** Write pointers and areas *)
Record wp_ok (s : ssdparams) (a : line_mode) (w : write_pointer) (p : ptr) (k : Z) : Prop := {
  wk_line : curline w = Some (a, p);
  wk_blk : wp_blk w = blk_of s a p;
  wk_pl : wp_pl w = 0;
  wk_ch : 0 <= wp_ch w < nchs s;
  wk_lun : 0 <= wp_lun w < luns_per_ch s;
  wk_pg : 0 <= wp_pg w < ppb_of s a;
  wk_pos : k = linpos s a (wp_ch w) (wp_lun w) (wp_pg w);
}.

(** [d] is 1 between the write of the page at the cursor and the advance of the
    write pointer; [x] is the line being collected. *)
Definition area_inv (s : ssdparams) (a : line_mode) (S : statuses) (m : line_mgmt) (w : write_pointer)
    (d : Z) (x : option ptr) : Prop :=
  exists p k, wp_ok s a w p k /\ lines_base s a S m (Some p) (k + d) (olist x) /\ lines_cnt s a S (lines m) x.

Definition wp_of (f : conv_ftl) (a : line_mode) : write_pointer :=
  match a with SLC_MODE => wp f | TLC_MODE => gc_wp f end.
Definition io_of (a : line_mode) : Z := match a with SLC_MODE => USER_IO | TLC_MODE => GC_IO end.

(** One choice per area. *)
Definition by_area {A} (s t : A) (a : line_mode) : A := match a with SLC_MODE => s | TLC_MODE => t end.

Record ftl_base (d : line_mode -> Z) (x : line_mode -> option ptr) (f : conv_ftl) : Prop := {
  fb_geo : slc_geometry (spp f);
  fb_xfer : max_ch_xfer_size (spp f) < 2 ^ 31;
  fb_mode : slc_mode f = SLC_MODE;
  fb_media : media_ok (ssd f);
  fb_timing : timing_ok (ssd f);
  fb_age : zlen (age_cnt f) = 201;
  fb_area a : area_inv (spp f) a (st (ssd f)) (get_lm f a) (wp_of f a) (d a) (x a);
}.

Definition settled : line_mode -> Z := fun _ => 0.
Definition pending (a : line_mode) : line_mode -> Z := fun b => if decide (b = a) then 1 else 0.
Definition no_victim : line_mode -> option ptr := fun _ => None.
Definition victim (a : line_mode) (p : ptr) : line_mode -> option ptr :=
  fun b => if decide (b = a) then Some p else None.

(** What page operations leave alone. *)
Record keeps (f f' : conv_ftl) : Prop := {
  kp_spp : spp f' = spp f;
  kp_cp : cp f' = cp f;
  kp_maptbl : maptbl f' = maptbl f;
  kp_rmap : rmap f' = rmap f;
  kp_wfc : wfc f' = wfc f;
  kp_wb : Ssd.write_buffer (ssd f') = Ssd.write_buffer (ssd f);
  kp_mode : slc_mode f' = slc_mode f;
}.

#[export] Instance keeps_preorder : PreOrder keeps.
Proof.
  split.
  - by intros f.
  - intros f g h [] []. split; congruence.
Qed.

(** ** Pages of different lines *)
Section Pages.
Context (s : ssdparams) (G : slc_geometry s).

Lemma page_of_blk a p k : 0 <= k < ppl_of s a -> (page_of s a p k).1.2 = blk_of s a p.
Proof. intros Hk. destruct (page_of_range s G a p k Hk) as (c & l & g & -> & _). done. Qed.

Lemma page_of_ne a p k a' q k' :
  (p < Z.to_nat (nlines_of s a))%nat -> (q < Z.to_nat (nlines_of s a'))%nat ->
  0 <= k < ppl_of s a -> 0 <= k' < ppl_of s a' -> (a, p) <> (a', q) -> page_of s a p k <> page_of s a' q k'.
Proof.
  intros Hp Hq Hk Hk' Hne E. apply Hne.
  assert (blk_of s a p = blk_of s a' q) as Hb by (rewrite <- (page_of_blk a p k), <- (page_of_blk a' q k'), E by done; done).
  destruct (blk_of_inj s G a p a' q Hp Hq Hb) as [-> ->]. done.
Qed.

(** Every page is a position of a line. *)
Lemma page_is_position x : in_range s x ->
  exists a p k, x = page_of s a p k /\ (p < Z.to_nat (nlines_of s a))%nat /\ 0 <= k < ppl_of s a /\
    area_of s x.1.2 = a /\ blk_of s a p = x.1.2.
Proof.
  destruct x as [[[c l] b] g]. intros (Hc & Hl & Hb & Hg). cbn [fst snd].
  destruct (blk_is_line s G b Hb) as (p & Hbp & Hp). set (a := area_of s b) in *.
  exists a, p, (linpos s a c l g). rewrite (page_of_linpos s G a p c l g) by done. rewrite <- Hbp.
  split; [done|]. split; [done|]. split; [by apply linpos_range|done].
Qed.
End Pages.

(** A status function changed at one page. *)
Definition st_upd (S : statuses) (x : coord) (v : page_status) : statuses :=
  fun y => if decide (y = x) then Some v else S y.

Section Upd.
Context (s : ssdparams) (G : slc_geometry s).

Lemma lst_upd_ne S S' a p k x v b q i :
  (forall y, in_range s y -> S' y = st_upd S x v y) -> x = page_of s a p k ->
  (p < Z.to_nat (nlines_of s a))%nat -> 0 <= k < ppl_of s a ->
  (q < Z.to_nat (nlines_of s b))%nat -> 0 <= i < ppl_of s b -> (b, q, i) <> (a, p, k) ->
  lst s S' b q i = lst s S b q i.
Proof.
  intros HS -> Hp Hk Hq Hi Hne. unfold lst. rewrite HS by (by apply page_of_in_range).
  unfold st_upd. rewrite decide_False; [done|]. destruct (decide ((b, q) = (a, p))) as [E|E].
  - injection E as -> ->. intros E%page_of_inj; [congruence|done..].
  - by apply page_of_ne.
Qed.

Lemma lst_upd_eq S S' a p k x v :
  (forall y, in_range s y -> S' y = st_upd S x v y) -> x = page_of s a p k ->
  (p < Z.to_nat (nlines_of s a))%nat -> 0 <= k < ppl_of s a -> lst s S' a p k = Some v.
Proof.
  intros HS -> Hp Hk. unfold lst. rewrite HS by (by apply page_of_in_range). unfold st_upd. by rewrite decide_True.
Qed.

(** Counting after one change in line [p]. *)
Lemma lcnt_upd S S' a p k x u w v :
  (forall y, in_range s y -> S' y = st_upd S x w y) -> x = page_of s a p k ->
  (p < Z.to_nat (nlines_of s a))%nat -> 0 <= k < ppl_of s a -> lst s S a p k = Some u ->
  lcnt s S' a p v = lcnt s S a p v - (if decide (u = v) then 1 else 0) + (if decide (w = v) then 1 else 0).
Proof.
  intros HS Hx Hp Hk Hu. apply (lcnt_change s S S' a p k); [done|done|by eapply lst_upd_eq|].
  intros i Hne Hi. eapply lst_upd_ne; eauto. congruence.
Qed.
End Upd.

(** ** The mapping tables *)
Record map_ok (s : ssdparams) (S : statuses) (E : coord -> Prop) (mt : list ppa) (rm : list Z) : Prop := {
  mo_len : zlen mt = tt_pgs s;
  mo_rlen : zlen rm = tt_pgs s;
  (* a mapped logical page maps to a valid page that maps back *)
  mo_fwd lpn p : zget mt lpn = Some p -> mapped_ppa p = true ->
    exists x, p = pof x /\ in_range s x /\ S x = Some PG_VALID /\ ~ E x /\ zget rm (pgidx s x) = Some lpn;
  (* a valid page, unless superseded by its copy ([E]), is the one its logical page maps to *)
  mo_bwd x : in_range s x -> S x = Some PG_VALID -> ~ E x ->
    exists lpn, zget rm (pgidx s x) = Some lpn /\ zget mt lpn = Some (pof x);
}.

Section Map.
Context (s : ssdparams) (G : slc_geometry s).
Implicit Types (S : statuses) (E : coord -> Prop).

Lemma pof_inj x y : pof x = pof y -> x = y.
Proof. intros H. by rewrite <- (cof_pof x), H, cof_pof. Qed.

(** The tables only depend on which pages are live: valid and not superseded. *)
Lemma map_ok_live S S' E E' mt rm :
  (forall x, in_range s x -> (S' x = Some PG_VALID /\ ~ E' x) <-> (S x = Some PG_VALID /\ ~ E x)) ->
  map_ok s S E mt rm -> map_ok s S' E' mt rm.
Proof.
  intros HS [H1 H2 H3 H4]. split; try done.
  - intros lpn p Hp Hm. destruct (H3 lpn p Hp Hm) as (x & -> & Hx & Hv & Hne & Hr).
    exists x. destruct (proj2 (HS x Hx) (conj Hv Hne)). done.
  - intros x Hx Hv Hne. destruct (proj1 (HS x Hx) (conj Hv Hne)). by apply H4.
Qed.

(** A page [y] that is not valid takes over logical page [lpn]; the page that
    held it before, if any, no longer counts ([S']/[E'] say how). *)
Lemma map_remap S S' E E' mt rm lpn y :
  map_ok s S E mt rm -> 0 <= lpn < tt_pgs s -> in_range s y -> S y <> Some PG_VALID ->
  S' y = Some PG_VALID -> ~ E' y ->
  (forall x, in_range s x -> x <> y ->
     (S' x = Some PG_VALID /\ ~ E' x <->
      S x = Some PG_VALID /\ ~ E x /\ zget rm (pgidx s x) <> Some lpn)) ->
  map_ok s S' E' (zset mt lpn (pof y)) (zset rm (pgidx s y) lpn).
Proof.
  intros [H1 H2 H3 H4] Hl Hy Hyv Hy' HyE Hx. pose proof (pgidx_range s G y Hy) as Hyi.
  assert (Hrm : forall x, in_range s x -> x <> y ->
    zget (zset rm (pgidx s y) lpn) (pgidx s x) = zget rm (pgidx s x)).
  { intros x Hr Hne. apply zget_zset_ne. intros E0. apply Hne. symmetry. by apply (pgidx_inj s G). }
  split; rewrite ?length_zset; try done.
  - intros n p. rewrite zget_zset by lia. case_decide as Hn.
    + intros [= <-] _. subst n. exists y. rewrite zget_zset_eq by lia. done.
    + intros Hp Hm. destruct (H3 n p Hp Hm) as (x & -> & Hr & Hv & Hne & Hrx). exists x.
      assert (x <> y) as Hxy by (intros ->; congruence).
      destruct (proj2 (Hx x Hr Hxy)) as [Hv' Hne']; [split; [done|split; [done|congruence]]|].
      rewrite Hrm by done. done.
  - intros x Hr Hv Hne. destruct (decide (x = y)) as [->|Hxy].
    + exists lpn. rewrite !zget_zset_eq by lia. done.
    + destruct (proj1 (Hx x Hr Hxy) (conj Hv Hne)) as (Hv' & Hne' & Hl').
      destruct (H4 x Hr Hv' Hne') as (n & Hn & Hmt). exists n. rewrite Hrm by done. split; [done|].
      rewrite zget_zset_ne by congruence. done.
Qed.

(** Clearing the reverse entry of a page that is not counted. *)
Lemma map_clear S E mt rm x v :
  map_ok s S E mt rm -> in_range s x -> S x <> Some PG_VALID -> map_ok s S E mt (zset rm (pgidx s x) v).
Proof.
  intros [H1 H2 H3 H4] Hx Hv.
  assert (Hrm : forall y, in_range s y -> S y = Some PG_VALID ->
    zget (zset rm (pgidx s x) v) (pgidx s y) = zget rm (pgidx s y)).
  { intros y Hy Hyv. apply zget_zset_ne. intros E0%(pgidx_inj s G); [congruence|done..]. }
  split; rewrite ?length_zset; try done.
  - intros n p Hp Hm. destruct (H3 n p Hp Hm) as (y & -> & Hr & Hv' & Hne & Hrx). exists y. by rewrite Hrm.
  - intros y Hr Hv' Hne. rewrite Hrm by done. by apply H4.
Qed.

(** Two valid pages with the same logical page are the same page. *)
Lemma map_unique S E mt rm x y lpn :
  map_ok s S E mt rm -> in_range s x -> in_range s y -> S x = Some PG_VALID -> ~ E x ->
  zget rm (pgidx s x) = Some lpn -> zget mt lpn = Some (pof y) -> x = y.
Proof.
  intros [H1 H2 H3 H4] Hx Hy Hv Hne Hr Hm. destruct (H4 x Hx Hv Hne) as (n & Hn & Hmn).
  apply pof_inj. congruence.
Qed.
End Map.

(** Decide equalities between two given statuses. *)
Ltac dec_status :=
  repeat match goal with
  | H : context [decide (?x = ?x)] |- _ => rewrite (decide_True (P := x = x)) in H by done
  | H : context [decide (?x = ?y)] |- _ => rewrite (decide_False (P := x = y)) in H by done
  | |- context [decide (?x = ?x)] => rewrite (decide_True (P := x = x)) by done
  | |- context [decide (?x = ?y)] => rewrite (decide_False (P := x = y)) by done
  end.

(** ** The page at the cursor *)
Definition cursor (f : conv_ftl) (a : line_mode) : coord :=
  let w := wp_of f a in (wp_ch w, wp_lun w, wp_blk w, wp_pg w).

(** Pages left in the open line, the one at the cursor included. *)
Definition room (f : conv_ftl) (a : line_mode) : Z :=
  let w := wp_of f a in ppl_of (spp f) a - linpos (spp f) a (wp_ch w) (wp_lun w) (wp_pg w).

Definition free_lines (f : conv_ftl) (a : line_mode) : list ptr := free_line_list (get_lm f a).

Record same_place (f f' : conv_ftl) : Prop := {
  sl_wp a : wp_of f' a = wp_of f a;
  sl_free a : free_lines f' a = free_lines f a;
  sl_dyn : dyn_slc_mode f' = dyn_slc_mode f;
}.

#[export] Instance same_place_preorder : PreOrder same_place.
Proof.
  split.
  - by intros f.
  - intros f g h [] []. split; congruence.
Qed.

Lemma get_put_lm f a m b : get_lm (put_lm f a m) b = if decide (b = a) then m else get_lm f b.
Proof. by destruct a, b. Qed.
Lemma put_lm_keeps f a m : keeps f (put_lm f a m).
Proof. by destruct a. Qed.
Lemma put_lm_ssd f a m : ssd (put_lm f a m) = ssd f.
Proof. by destruct a. Qed.
Lemma put_lm_wp f a m b : wp_of (put_lm f a m) b = wp_of f b.
Proof. by destruct a, b. Qed.
Lemma put_lm_age f a m : age_cnt (put_lm f a m) = age_cnt f.
Proof. by destruct a. Qed.
Lemma set_ssd_keeps f s : sp s = sp (ssd f) -> Ssd.write_buffer s = Ssd.write_buffer (ssd f) -> keeps f (set_ssd f s).
Proof. intros H1 H2. by split. Qed.

Section Base.
Context (d : line_mode -> Z) (x : line_mode -> option ptr) (f : conv_ftl) (B : ftl_base d x f).

Let s := spp f.
Let G : slc_geometry s := fb_geo _ _ _ B.

Lemma area_lines a : exists p k, wp_ok s a (wp_of f a) p k /\
  lines_base s a (st (ssd f)) (get_lm f a) (Some p) (k + d a) (olist (x a)) /\
  lines_cnt s a (st (ssd f)) (lines (get_lm f a)) (x a).
Proof. exact (fb_area _ _ _ B a). Qed.

Lemma tt_eq : lm_tt_lines (slm f) = tt_lines_slc s.
Proof. destruct (area_lines SLC_MODE) as (p & k & _ & L & _). apply (lb_tt _ _ _ _ _ _ _ L). Qed.

Lemma wp_line a p k : wp_ok s a (wp_of f a) p k -> (p < Z.to_nat (nlines_of s a))%nat.
Proof.
  intros W. destruct (area_lines a) as (p' & k' & W' & L & _).
  assert (p' = p) as -> by (pose proof (wk_line _ _ _ _ _ W); pose proof (wk_line _ _ _ _ _ W'); congruence).
  apply (lb_all _ _ _ _ _ _ _ _ L). set_solver.
Qed.

Lemma wp_range a p k : wp_ok s a (wp_of f a) p k -> 0 <= k < ppl_of s a /\ cursor f a = page_of s a p k.
Proof.
  intros W. destruct W as [W1 W2 W3 W4 W5 W6 ->]. split; [by apply linpos_range|].
  rewrite (page_of_linpos s G a p) by done. unfold cursor. by rewrite W2.
Qed.

Lemma cursor_in_range a : in_range s (cursor f a).
Proof.
  destruct (area_lines a) as (p & k & W & _ & _). destruct (wp_range _ _ _ W) as [Hk ->].
  apply page_of_in_range; [done| |done]. by eapply wp_line.
Qed.

(** C-level: the page handed out is the one at the cursor. *)
Lemma get_new_page_spec a : get_new_page f (io_of a) = Ok (pof (cursor f a)).
Proof.
  destruct (area_lines a) as (p & k & W & _ & _). pose proof (cursor_in_range a) as Hr.
  unfold get_new_page. assert (__get_wp f (io_of a) = Some (wp_of f a)) as -> by (by destruct a).
  cbn [of_opt rbind]. unfold cursor, in_range in *. set (w := wp_of f a) in *.
  destruct Hr as (Hc & Hl & Hb & Hg).
  pose proof (geo_nchs _ G). pose proof (geo_luns _ G). pose proof (geo_blks _ G).
  pose proof (ppb_bits s G (area_of s (wp_blk w))).
  rewrite (wk_pl _ _ _ _ _ W). cbn [g_pl].
  rewrite !Z.mod_small by lia. done.
Qed.

(** A page by its line and position. *)
Lemma page_position y : in_range s y ->
  exists a p k, y = page_of s a p k /\ (p < Z.to_nat (nlines_of s a))%nat /\ 0 <= k < ppl_of s a /\
    get_line f (pof y) = (a, p) /\ area_of_blk f (g_blk (pof y)) = a.
Proof.
  intros Hy. destruct (page_is_position s G y Hy) as (a & p & k & -> & Hp & Hk & Ha & Hb).
  exists a, p, k. split; [done|]. split; [done|]. split; [done|].
  destruct (page_of_range s G a p k Hk) as (c & l & g & E & _). rewrite E in *. cbn [fst snd] in *.
  split; [apply (get_line_blk f G (fb_mode _ _ _ B)); [apply tt_eq|done|done]|].
  cbn. rewrite (area_of_blk_eq f (fb_mode _ _ _ B)). done.
Qed.
End Base.

(** The base invariant with other statuses and one area's lines replaced. *)
Lemma base_update d d' x x' f f' a y v :
  ftl_base d x f -> keeps f f' -> age_cnt f' = age_cnt f -> media_ok (ssd f') -> timing_ok (ssd f') ->
  in_range (spp f) y ->
  (forall z, in_range (spp f) z -> st (ssd f') z = st_upd (st (ssd f)) y v z) ->
  (exists p k, y = page_of (spp f) a p k /\ (p < Z.to_nat (nlines_of (spp f) a))%nat /\ 0 <= k < ppl_of (spp f) a) ->
  (forall b, b <> a -> get_lm f' b = get_lm f b /\ wp_of f' b = wp_of f b /\ d' b = d b /\ x' b = x b) ->
  area_inv (spp f) a (st (ssd f')) (get_lm f' a) (wp_of f' a) (d' a) (x' a) ->
  ftl_base d' x' f'.
Proof.
  intros B K Ha Hm Ht Hy Hst (p & k & Hyp & Hp & Hk) Hoth Harea. pose proof (fb_geo _ _ _ B) as G.
  destruct K as [K1 K2 K3 K4 K5 K6 K7]. split; rewrite ?K1, ?K7; try done; try apply B.
  - rewrite Ha. apply B.
  - intros b. destruct (decide (b = a)) as [->|Hne]; [done|].
    destruct (Hoth b Hne) as (-> & -> & -> & ->).
    destruct (fb_area _ _ _ B b) as (q & i & W & L & C). exists q, i. split; [done|].
    assert (He : forall r j, (r < Z.to_nat (nlines_of (spp f) b))%nat -> 0 <= j < ppl_of (spp f) b ->
      lst (spp f) (st (ssd f')) b r j = lst (spp f) (st (ssd f)) b r j).
    { intros r j Hr Hj. eapply lst_upd_ne; try done. congruence. }
    split; [by eapply lb_ext|]. eapply cnt_ext; [done| |done]. apply (lb_len _ _ _ _ _ _ _ L).
Qed.

(** ** Pages change status: the media's share *)
Section Marks.
Context (d : line_mode -> Z) (x : line_mode -> option ptr) (f : conv_ftl) (B : ftl_base d x f).

Lemma page_mark y v w (k : Ssd.nand_block -> res Ssd.nand_block) :
  in_range (spp f) y -> st (ssd f) y = Some v -> v <> w ->
  (forall b, zlen (Ssd.pg b) = ppb_of (spp f) (area_of (spp f) (g_blk (pof y))) ->
     Ssd.vpc b = cnt PG_VALID (Ssd.pg b) + (if decide (v = PG_VALID) then 1 else 0)
       - (if decide (w = PG_VALID) then 1 else 0) ->
     Ssd.ipc b = cnt PG_INVALID (Ssd.pg b) + (if decide (v = PG_INVALID) then 1 else 0)
       - (if decide (w = PG_INVALID) then 1 else 0) ->
     1 <= cnt w (Ssd.pg b) ->
     k b = Ok (blk_set_counts b (cnt PG_INVALID (Ssd.pg b)) (cnt PG_VALID (Ssd.pg b)))) ->
  exists s1 s2, set_pg_status f (pof y) w = Ok (set_ssd f s1) /\ sp s1 = spp f /\
    mod_blk (set_ssd f s1) (pof y) k = Ok (set_ssd f s2) /\
    media_step (ssd f) s2 (st_upd (st (ssd f)) y w).
Proof.
  intros Hy Hst Hvw Hk.
  destruct (media_mark (ssd f) (pof y) v w k (fb_media _ _ _ B) (fb_timing _ _ _ B))
    as (s1 & s2 & E1 & Hsp & E2 & M); rewrite ?cof_pof; try done.
  { by destruct y as [[[? ?] ?] ?]. }
  exists s1, s2. unfold set_pg_status, mod_blk. rewrite E1. cbn [rbind ssd set_ssd]. rewrite E2.
  rewrite cof_pof in M. done.
Qed.

(** A page read through the code's accessor. *)
Lemma get_pg_at y v : in_range (spp f) y -> st (ssd f) y = Some v ->
  exists pgx, Ssd.get_pg (ssd f) (pof y) = Ok pgx /\ Ssd.status pgx = v.
Proof.
  intros Hy Hst. destruct (media_page (ssd f) (pof y) (fb_media _ _ _ B)) as (blk & pgx & _ & _ & _ & Hg & Hs).
  - by rewrite cof_pof.
  - by destruct y as [[[? ?] ?] ?].
  - exists pgx. split; [done|]. rewrite cof_pof in Hs. congruence.
Qed.

(** The line and area the code computes for a page of line [p]. *)
Lemma page_line a p k : (p < Z.to_nat (nlines_of (spp f) a))%nat -> 0 <= k < ppl_of (spp f) a ->
  get_line f (pof (page_of (spp f) a p k)) = (a, p) /\
  area_of_blk f (g_blk (pof (page_of (spp f) a p k))) = a /\
  area_of (spp f) (g_blk (pof (page_of (spp f) a p k))) = a.
Proof.
  intros Hp Hk. pose proof (fb_geo _ _ _ B) as G.
  destruct (page_of_range (spp f) G a p k Hk) as (c & l & g & -> & _). cbn [pof g_blk].
  rewrite (area_of_blk_eq f (fb_mode _ _ _ B)), (area_of_blk_of (spp f) G) by done.
  split; [|done]. apply (get_line_blk f G (fb_mode _ _ _ B)); [apply (tt_eq _ _ _ B)|done|done].
Qed.
End Marks.

(** ** Pages change status: the line's share *)
Section LineMarks.
Context (s : ssdparams) (a : line_mode) (G : slc_geometry s).
Implicit Types (S : statuses) (m : line_mgmt) (p : ptr).

(** The detached lines are not the open one. *)
Lemma cur_not_fl S m p c fl : lines_base s a S m (Some p) c fl -> p ∉ fl.
Proof.
  intros L Hin. pose proof (lb_nodup _ _ _ _ _ _ _ L) as Hnd. rewrite !app_assoc in Hnd.
  apply NoDup_app in Hnd as (_ & Hd & _). apply (Hd p); [set_solver|done].
Qed.

Lemma olist_ne (x : option ptr) p : p ∉ olist x -> x <> Some p.
Proof. intros Hx ->. apply Hx. by left. Qed.

(** Counts of one line, and the counters that mirror them. *)
Record line_counts S m p (l : line) : Prop := {
  lc_vpc : vpc l = lcnt s S a p PG_VALID;
  lc_ipc : ipc l = lcnt s S a p PG_INVALID;
  lc_sum : lcnt s S a p PG_FREE + ipc l + vpc l = ppl_of s a;
  lc_vpos : 0 <= vpc l;
  lc_ipos : 0 <= ipc l;
  lc_fpos : 0 <= lcnt s S a p PG_FREE;
}.

Lemma line_counts_at S m cur c fl x p l :
  lines_base s a S m cur c fl -> lines_cnt s a S (lines m) x -> lines m !! p = Some l -> x <> Some p ->
  line_counts S m p l.
Proof.
  intros L C Hl Hx. destruct (C p l Hl Hx) as [Hv Hi]. pose proof (lookup_lt_Some _ _ _ Hl) as Hp.
  rewrite (lb_len _ _ _ _ _ _ _ L) in Hp.
  pose proof (lcnt_sum s S a p (ppl_pos s G a) (lb_known _ _ _ _ _ _ _ L p Hp)).
  pose proof (lcnt_nonneg s S a p PG_VALID). pose proof (lcnt_nonneg s S a p PG_INVALID).
  pose proof (lcnt_nonneg s S a p PG_FREE). split; lia.
Qed.

(** Counters after one page of line [p] changed status. *)
Lemma lines_cnt_upd S S' ls p k u w l x :
  (forall y, in_range s y -> S' y = st_upd S (page_of s a p k) w y) -> length ls = Z.to_nat (nlines_of s a) ->
  (p < Z.to_nat (nlines_of s a))%nat -> 0 <= k < ppl_of s a -> lst s S a p k = Some u ->
  lines_cnt s a S ls x ->
  (x <> Some p -> vpc l = lcnt s S a p PG_VALID - (if decide (u = PG_VALID) then 1 else 0)
            + (if decide (w = PG_VALID) then 1 else 0)) ->
  (x <> Some p -> ipc l = lcnt s S a p PG_INVALID - (if decide (u = PG_INVALID) then 1 else 0)
            + (if decide (w = PG_INVALID) then 1 else 0)) ->
  lines_cnt s a S' (<[p := l]> ls) x.
Proof.
  intros HS Hlen Hp Hk Hu C Hv Hi q l' Hq Hx. destruct (decide (q = p)) as [->|Hqp].
  - rewrite list_lookup_insert_eq in Hq by lia. injection Hq as <-. specialize (Hv Hx). specialize (Hi Hx).
    rewrite !(lcnt_upd s G S S' a p k (page_of s a p k) u w) by done. done.
  - rewrite list_lookup_insert_ne in Hq by done. destruct (C q l' Hq Hx) as [-> ->].
    apply lookup_lt_Some in Hq. split; symmetry; apply lcnt_ext; intros i Hi';
      (eapply (lst_upd_ne s G S S' a p k); [exact HS|done..|lia|done|congruence]).
Qed.

(** The page at the cursor becomes valid. *)
Lemma area_place S S' m w x p k l :
  wp_ok s a w p k -> 0 <= k < ppl_of s a -> lines_base s a S m (Some p) k (olist x) ->
  lines_cnt s a S (lines m) x -> lines m !! p = Some l ->
  (forall y, in_range s y -> S' y = st_upd S (page_of s a p k) PG_VALID y) ->
  area_inv s a S' (set_lines m (<[p := line_set_vpc l (vpc l + 1)]> (lines m))) w 1 x.
Proof.
  intros W Hk L C Hl HS. pose proof (lookup_lt_Some _ _ _ Hl) as Hp. rewrite (lb_len _ _ _ _ _ _ _ L) in Hp.
  assert (Hu : lst s S a p k = Some PG_FREE) by (apply (lb_cur _ _ _ _ _ _ _ L); [done|done|lia]).
  exists p, k. split; [done|]. split.
  - eapply (lb_place s a G S).
    + apply (lb_set_line s a S m _ _ _ p l); try done. intros Hin. exfalso.
      apply (lb_used _ _ _ _ _ _ _ L p k); [by left|done|done].
    + done.
    + intros q i Hne Hq Hi. eapply (lst_upd_ne s G S S' a p k); try done. congruence.
    + by eapply (lst_upd_eq s G S S' a p k).
  - cbn [lines set_lines]. pose proof (cur_not_fl _ _ _ _ _ L) as Hnf. apply olist_ne in Hnf.
    destruct (C p l Hl Hnf) as [Hv Hi].
    eapply (lines_cnt_upd S S' _ p k PG_FREE PG_VALID); try done.
    + apply (lb_len _ _ _ _ _ _ _ L).
    + intros _. cbn. dec_status. lia.
    + intros _. cbn. dec_status. lia.
Qed.
End LineMarks.

(** *** [mark_page_valid] at the cursor *)
Lemma mark_valid_spec x f a :
  ftl_base settled x f ->
  exists f', mark_page_valid f (pof (cursor f a)) = Ok f' /\ ftl_base (pending a) x f' /\
    (forall z, in_range (spp f) z -> st (ssd f') z = st_upd (st (ssd f)) (cursor f a) PG_VALID z) /\
    st (ssd f) (cursor f a) = Some PG_FREE /\ keeps f f' /\ same_place f f'.
Proof.
  intros B. pose proof (fb_geo _ _ _ B) as G.
  destruct (area_lines _ _ _ B a) as (p & k & W & L & C). unfold settled in L. rewrite Z.add_0_r in L.
  destruct (wp_range _ _ _ B a p k W) as [Hk Hcur]. pose proof (wp_line _ _ _ B a p k W) as Hp.
  pose proof (cursor_in_range _ _ _ B a) as Hy.
  assert (Hfree : st (ssd f) (cursor f a) = Some PG_FREE).
  { rewrite Hcur. apply (lb_cur _ _ _ _ _ _ _ L p k); [done|done|lia]. }
  rewrite Hcur in *. set (y := page_of (spp f) a p k) in *.
  destruct (page_line _ _ _ B a p k Hp Hk) as (Hline & Harea & Harea2). fold y in Hline, Harea, Harea2.
  unfold mark_page_valid. rewrite Harea, cur_ppb_eq, cur_ppl_eq.
  destruct (get_pg_at _ _ _ B y _ Hy Hfree) as (pgx & -> & Hpgx). cbn [rbind]. rewrite Hpgx, bool_decide_true by done.
  destruct (page_mark _ _ _ B y PG_FREE PG_VALID
     (fun b => rassert ((0 <=? Ssd.vpc b) && (Ssd.vpc b <? ppb_of (spp f) a)) ;;;
               Ok (blk_set_counts b (Ssd.ipc b) (Ssd.vpc b + 1))) Hy Hfree)
    as (s1 & s2 & -> & Hsp1 & E2 & [M1 M2 M3 M4 M5]); [done| |].
  { intros b Hlen Hv Hi Hc. dec_status. rewrite Harea2 in Hlen.
    pose proof (cnt_sum (Ssd.pg b)). pose proof (cnt_nonneg PG_FREE (Ssd.pg b)).
    pose proof (cnt_nonneg PG_INVALID (Ssd.pg b)).
    unfold rassert. replace ((0 <=? Ssd.vpc b) && (Ssd.vpc b <? ppb_of (spp f) a)) with true by lia. cbn [rbind].
    f_equal. unfold blk_set_counts. f_equal; lia. }
  cbn [rassert rbind]. rewrite E2. cbn [rbind]. clear E2.
  change (get_line (set_ssd f s2) (pof y)) with (get_line f (pof y)). rewrite Hline.
  destruct (lb_line _ _ _ _ _ _ _ p L Hp) as [l Hl].
  assert (Hlm : forall b, get_lm (set_ssd f s2) b = get_lm f b) by (by intros []).
  unfold line_at, put_line. cbn [fst snd]. rewrite Hlm, (proj2 (lget_ok _ _ _) Hl). cbn [rbind].
  destruct (line_counts_at _ a G _ _ _ _ _ _ p l L C Hl) as [V I Sum V0 I0 F0].
  { apply olist_ne. by eapply cur_not_fl. }
  assert (1 <= lcnt (spp f) (st (ssd f)) a p PG_FREE) as Hfr by (by apply (count_pos _ _ k)).
  unfold rassert. replace ((0 <=? vpc l) && (vpc l <? ppl_of (spp f) a)) with true by lia. cbn [rbind].
  rewrite (proj2 (lset_ok (lines (get_lm f a)) p _ _)) by (split; [by eapply lookup_lt_Some|reflexivity]).
  cbn [rbind]. eexists. split; [done|].
  assert (K : keeps f (set_ssd f s2)) by (by apply set_ssd_keeps).
  split; [|rewrite put_lm_ssd; split; [done|split; [done|split; [by etrans; [exact K|apply put_lm_keeps]|]]]].
  - apply (base_update settled _ x _ f _ a y PG_VALID); rewrite ?put_lm_ssd, ?put_lm_wp, ?put_lm_age; try done.
    + by etrans; [exact K|apply put_lm_keeps].
    + by exists p, k.
    + intros b Hne. rewrite get_put_lm, decide_False by done. rewrite put_lm_wp, Hlm.
      unfold pending, settled. rewrite decide_False by done. by destruct b.
    + rewrite get_put_lm, decide_True by done. unfold pending. rewrite decide_True by done.
      apply (area_place _ _ G (st (ssd f)) _ _ _ _ p k); done.
  - split; [intros b..|by destruct a]; [rewrite put_lm_wp; by destruct b|]. unfold free_lines. rewrite get_put_lm.
    case_decide as Hb; [by subst b|by rewrite Hlm].
Qed.
