(* ===== verification/ConvWp.v ===== *)
(** * Advancing the write pointer, and retiring the line it leaves

    [advance_write_pointer] moves the cursor to the next position of the open
    line ([lin] of Geometry.v); at the end of the line the line goes to the full
    list or to the victim queue and the first free line is opened.  It meets no
    assertion as long as the area has a free line when the open one is used up. *)

From Stdlib Require Import ZArith Lia.
From stdpp Require Import base list numbers sets.
From S2P Require Import Prelude PQueue Config SsdParams ConvFtl Geometry Media Lines ConvInv.
From S2P Require Ssd.
Import Ssd (ppa, mk_ppa, g_pg, g_blk, g_pl, g_lun, g_ch, g_rsv, sp, page_status, PG_FREE, PG_INVALID,
  PG_VALID, USER_IO, GC_IO, timing_ok, INVALID_LPN).

(** ** The cursor's step *)
Section Step.
Context (f : conv_ftl) (a : line_mode) (G : slc_geometry (spp f)) (Hmode : slc_mode f = SLC_MODE).

Lemma area_of_io_eq : area_of_io f (io_of a) = a.
Proof. unfold area_of_io, is_slc. rewrite Hmode. by destruct a. Qed.

Lemma get_wp_eq : __get_wp f (io_of a) = Some (wp_of f a).
Proof. by destruct a. Qed.

(** Opening the wordline [w] at die ([c], [l]). *)
Lemma wp_ok_at w p k c l g :
  wp_ok (spp f) a w p k -> 0 <= c < nchs (spp f) -> 0 <= l < luns_per_ch (spp f) ->
  0 <= g < ppb_of (spp f) a -> linpos (spp f) a c l g = k + 1 -> wp_ok (spp f) a (wp_at w c l g) p (k + 1).
Proof. intros []. by split. Qed.

Lemma advance_cases p k :
  wp_ok (spp f) a (wp_of f a) p k ->
  (k + 1 < ppl_of (spp f) a /\ exists w', advance_write_pointer f (io_of a) = Ok (__put_wp f (io_of a) w') /\
     wp_ok (spp f) a w' p (k + 1)) \/
  (k + 1 = ppl_of (spp f) a /\
     advance_write_pointer f (io_of a) = next_line f (io_of a) (wp_at (wp_of f a) 0 0 0)).
Proof.
  intros W. pose proof W as [_ _ _ Hc Hl Hg Hk]. set (s := spp f) in *. set (w := wp_of f a) in *.
  pose proof (opp_pos s G a) as Ho. pose proof (wls_pos s G a) as Hw. pose proof (ppb_split s G a) as Hs.
  pose proof (ppb_bits s G a) as Hb. pose proof (geo_nchs _ G) as Hnc. pose proof (geo_luns _ G) as Hnl.
  unfold advance_write_pointer. rewrite get_wp_eq, area_of_io_eq, cur_ppb_eq, cur_opp_eq.
  fold s w. cbn [of_opt rbind]. unfold check_addr, rassert.
  replace ((0 <=? wp_pg w) && (wp_pg w <? ppb_of s a)) with true by lia. cbn [rbind].
  replace (opp_of s a =? 0) with false by lia. rewrite (u32_id (wp_pg w + 1)) by lia.
  rewrite Hs in Hg. unfold linpos in Hk.
  destruct (Z.eqb_spec ((wp_pg w + 1) mod opp_of s a) 0) as [Hm|Hm]; cbn [negb].
  2:{ left. destruct (lin_next_page (opp_of s a) (nchs s) (luns_per_ch s) (wls_of s a) Ho (wp_ch w) (wp_lun w)
        (wp_pg w) Hg Hm) as [Hr E]. assert (linpos s a (wp_ch w) (wp_lun w) (wp_pg w + 1) = k + 1) as E2.
      { unfold linpos. lia. }
      split; [rewrite <- E2; apply linpos_range; [done..|lia]|].
      eexists. split; [done|]. apply wp_ok_at; fold s; [done..|lia|done]. }
  destruct (last_of_wordline (opp_of s a) (wls_of s a) Ho (wp_pg w) Hg Hm) as (j & Ej & Hj).
  assert (j * opp_of s a + opp_of s a <= ppb_of s a) as Hjo by nia.
  assert (0 <= j * opp_of s a) as Hj0 by nia.
  rewrite (u32_id (wp_pg w + 1 - opp_of s a)) by lia.
  replace (wp_pg w + 1 - opp_of s a) with (j * opp_of s a) by lia.
  replace ((0 <=? wp_ch w) && (wp_ch w <? nchs s)) with true by lia. cbn [rbind].
  rewrite (u32_id (wp_ch w + 1)) by lia. rewrite Ej in Hk.
  destruct (Z.eqb_spec (wp_ch w + 1) (nchs s)) as [Ec|Ec]; cbn [negb].
  2:{ left. assert (linpos s a (wp_ch w + 1) (wp_lun w) (j * opp_of s a) = k + 1) as E2.
      { unfold linpos. rewrite lin_next_ch by lia. lia. }
      split; [rewrite <- E2; apply linpos_range; [done|lia..]|].
      eexists. split; [done|]. apply wp_ok_at; fold s; [done|lia..]. }
  replace ((0 <=? wp_lun w) && (wp_lun w <? luns_per_ch s)) with true by lia. cbn [rbind].
  rewrite (u32_id (wp_lun w + 1)) by lia. replace (wp_ch w) with (nchs s - 1) in Hk by lia.
  destruct (Z.eqb_spec (wp_lun w + 1) (luns_per_ch s)) as [El|El]; cbn [negb].
  2:{ left. assert (linpos s a 0 (wp_lun w + 1) (j * opp_of s a) = k + 1) as E2.
      { unfold linpos. rewrite lin_next_lun by lia. lia. }
      split; [rewrite <- E2; apply linpos_range; [done|lia..]|].
      eexists. split; [done|]. apply wp_ok_at; fold s; [done|lia..]. }
  rewrite (u32_id (j * opp_of s a + opp_of s a)) by lia. replace (wp_lun w) with (luns_per_ch s - 1) in Hk by lia.
  destruct (Z.eqb_spec (j * opp_of s a + opp_of s a) (ppb_of s a)) as [Ep|Ep]; cbn [negb].
  - right. split; [|done]. assert (j = wls_of s a - 1) as -> by nia.
    rewrite Hk, (ppl_split s G a). apply lin_end; lia.
  - left. assert (linpos s a 0 0 (j * opp_of s a + opp_of s a) = k + 1) as E2.
    { unfold linpos. replace (j * opp_of s a + opp_of s a) with ((j + 1) * opp_of s a) by lia.
      rewrite lin_next_wordline by lia. lia. }
    split; [rewrite <- E2; apply linpos_range; [done|lia..]|].
    eexists. split; [done|]. apply wp_ok_at; fold s; [done|lia..].
Qed.
End Step.

(** ** A used-up line is retired *)
Lemma retire_spec f a p fl x :
  slc_geometry (spp f) -> lines_base (spp f) a (st (ssd f)) (get_lm f a) None 0 (p :: fl) ->
  lines_cnt (spp f) a (st (ssd f)) (lines (get_lm f a)) x -> x <> Some p ->
  (forall k, 0 <= k < ppl_of (spp f) a -> lst (spp f) (st (ssd f)) a p k <> Some PG_FREE) ->
  exists m', retire_line f a (a, p) = Ok (put_lm f a m') /\
    lines_base (spp f) a (st (ssd f)) m' None 0 fl /\ lines_cnt (spp f) a (st (ssd f)) (lines m') x /\
    free_line_list m' = free_line_list (get_lm f a).
Proof.
  intros G L C Hx Hnf. set (s := spp f) in *. set (S := st (ssd f)) in *. set (m := get_lm f a) in *.
  assert (p < Z.to_nat (nlines_of s a))%nat as Hp by (apply (lb_all _ _ _ _ _ _ _ _ L); set_solver).
  destruct (lb_line _ _ _ _ _ _ _ p L Hp) as [l Hl].
  destruct (line_counts_at s a G _ _ _ _ _ _ p l L C Hl Hx) as [V I Sum V0 I0 F0].
  assert (lcnt s S a p PG_FREE = 0) as Hf by (by apply count_zero).
  unfold retire_line, line_at, own_line. cbn [fst snd]. fold m. rewrite (proj2 (lget_ok _ _ _) Hl), bool_decide_true by done.
  cbn [rbind]. rewrite cur_ppl_eq. fold s. destruct (Z.eqb_spec (vpc l) (ppl_of s a)) as [E|E].
  - unfold rassert. replace (ipc l =? 0) with true by lia. cbn [rbind].
    pose proof (lb_nodup _ _ _ _ _ _ _ L) as Hnd.
    assert (p ∉ free_line_list m /\ p ∉ full_line_list m) as [Hn1 Hn2].
    { apply NoDup_app in Hnd as (_ & Hd1 & Hnd). apply NoDup_app in Hnd as (_ & _ & Hnd).
      apply NoDup_app in Hnd as (_ & Hd2 & _). split; intros Hin; [apply (Hd1 p Hin)|apply (Hd2 p Hin)]; set_solver. }
    unfold list_add_tail. rewrite !bool_decide_false by done. cbn [orb rbind]. eexists. split; [done|].
    split; [|done]. apply (lb_fl_to_full s a G); [done|done|]. rewrite <- I. lia.
  - unfold rassert. replace ((0 <=? vpc l) && (vpc l <? ppl_of s a)) with true by lia.
    replace (0 <? ipc l) with true by lia. replace (vpc l + ipc l =? ppl_of s a) with true by lia. cbn [rbind].
    destruct (lb_fl_to_pq s a G S m None 0 fl p L Hnf) as (q & ls & Eq & Hsame & L'); [lia|].
    rewrite Eq. cbn [rbind]. eexists. split; [done|]. split; [done|]. split; [|done].
    by eapply same_lines_cnt.
Qed.

(** ** The next line *)
Lemma next_free_eq f a r rest :
  slc_mode f = SLC_MODE -> dyn_slc_mode f = a -> free_line_list (get_lm f a) = r :: rest ->
  get_next_free_line f =
    (Some (a, r), put_lm f a (set_free (get_lm f a) (list_del_init r (free_line_list (get_lm f a)))
                                (u32 (free_line_cnt (get_lm f a) - 1)))).
Proof.
  intros Hm Hd Hf. unfold get_next_free_line, is_slc. rewrite Hm, Hd, bool_decide_true by done.
  assert ((if true && bool_decide (a = SLC_MODE) then SLC_MODE else TLC_MODE) = a) as -> by (by destruct a).
  by rewrite Hf.
Qed.

Lemma next_free_none f a :
  slc_mode f = SLC_MODE -> dyn_slc_mode f = a -> free_line_list (get_lm f a) = [] -> get_next_free_line f = (None, f).
Proof.
  intros Hm Hd Hf. unfold get_next_free_line, is_slc. rewrite Hm, Hd, bool_decide_true by done.
  assert ((if true && bool_decide (a = SLC_MODE) then SLC_MODE else TLC_MODE) = a) as -> by (by destruct a).
  by rewrite Hf.
Qed.

Lemma get_put_lm_dyn f a m b : get_lm (set_dyn_slc_mode (put_lm f a m) b) a = m.
Proof. by destruct a. Qed.

Lemma next_line_spec f a p fl x w r rest :
  slc_geometry (spp f) -> slc_mode f = SLC_MODE -> curline w = Some (a, p) ->
  wp_blk w = blk_of (spp f) a p -> wp_ch w = 0 -> wp_lun w = 0 -> wp_pg w = 0 -> wp_pl w = 0 ->
  lines_base (spp f) a (st (ssd f)) (get_lm f a) None 0 (p :: fl) ->
  lines_cnt (spp f) a (st (ssd f)) (lines (get_lm f a)) x -> x <> Some p ->
  (forall k, 0 <= k < ppl_of (spp f) a -> lst (spp f) (st (ssd f)) a p k <> Some PG_FREE) ->
  free_line_list (get_lm f a) = r :: rest ->
  exists m' w', next_line f (io_of a) w =
      Ok (__put_wp (put_lm (set_dyn_slc_mode f a) a m') (io_of a) w') /\
    wp_ok (spp f) a w' r 0 /\ lines_base (spp f) a (st (ssd f)) m' (Some r) 0 fl /\
    lines_cnt (spp f) a (st (ssd f)) (lines m') x /\ free_line_list m' = rest.
Proof.
  intros G Hmode Hcur Hblk Hch Hlun Hpg Hpl L C Hx Hnf Hfree.
  assert (p < Z.to_nat (nlines_of (spp f) a))%nat as Hp by (apply (lb_all _ _ _ _ _ _ _ _ L); set_solver).
  destruct (retire_spec f a p fl x G L C Hx Hnf) as (m1 & E1 & L1 & C1 & F1).
  unfold next_line. rewrite Hcur. cbn [of_opt rbind]. rewrite (area_of_io_eq f a Hmode), E1. cbn [rbind].
  assert (spp (put_lm f a m1) = spp f) as Hspp by (by destruct a).
  unfold check_addr, rassert. rewrite Hspp, Hblk. pose proof (blk_of_range _ G a p Hp).
  replace ((0 <=? blk_of (spp f) a p) && (blk_of (spp f) a p <? blks_per_pl (spp f))) with true by lia. cbn [rbind].
  rewrite Hfree in F1.
  destruct (lb_take_free _ _ G _ _ _ _ _ L1 F1) as [L2 Hdel].
  assert (r < Z.to_nat (nlines_of (spp f) a))%nat as Hr.
  { apply (lb_all _ _ _ _ _ _ _ _ L1). rewrite F1. set_solver. }
  set (m2 := set_free m1 (list_del_init r (free_line_list m1)) (u32 (free_line_cnt m1 - 1))) in *.
  assert (get_next_free_line (set_dyn_slc_mode (put_lm f a m1) (if io_of a =? USER_IO then SLC_MODE else TLC_MODE))
    = (Some (a, r), put_lm (set_dyn_slc_mode f a) a m2)) as ->.
  { rewrite (next_free_eq _ a r rest).
    - rewrite get_put_lm_dyn. by destruct a.
    - by destruct a.
    - by destruct a.
    - by rewrite get_put_lm_dyn. }
  cbn [of_opt rbind]. unfold line_at. cbn [fst snd]. rewrite get_put_lm, decide_True by done.
  destruct (lb_line _ _ _ _ _ _ _ r L2 Hr) as [l Hl]. rewrite (proj2 (lget_ok _ _ _) Hl). cbn [rbind].
  rewrite (lb_id _ _ _ _ _ _ _ L2 r l Hl). pose proof (blk_of_range _ G a r Hr). pose proof (geo_blks _ G).
  rewrite u32_id by lia.
  assert (spp (put_lm (set_dyn_slc_mode f a) a m2) = spp f) as -> by (by destruct a).
  replace ((0 <=? blk_of (spp f) a r) && (blk_of (spp f) a r <? blks_per_pl (spp f))) with true by lia.
  rewrite Hpg, Hlun, Hch, Hpl. cbn [rbind Z.eqb].
  eexists m2, _. split; [done|]. pose proof (geo_nchs _ G). pose proof (geo_luns _ G). pose proof (ppb_pos _ G a).
  split; [|by split].
  split; cbn; try done; try lia.
Qed.

(** ** Room left in an area: pages that can be written before it needs a reclaimed line *)
Definition space (f : conv_ftl) (a : line_mode) : Z :=
  room f a + ppl_of (spp f) a * zlen (free_lines f a).

(** What an advance of area [a]'s pointer does and leaves alone. *)
Record advanced (a : line_mode) (f f' : conv_ftl) : Prop := {
  av_ssd : ssd f' = ssd f;
  av_keeps : keeps f f';
  av_age : age_cnt f' = age_cnt f;
  av_other b : b <> a -> wp_of f' b = wp_of f b /\ get_lm f' b = get_lm f b;
  av_space : space f' a = space f a - 1;
  av_room : room f' a = if room f a =? 1 then ppl_of (spp f) a else room f a - 1;
  av_dyn : dyn_slc_mode f' = dyn_slc_mode f \/ dyn_slc_mode f' = a;
}.

Lemma put_wp_of f a w b : wp_of (__put_wp f (io_of a) w) b = if decide (b = a) then w else wp_of f b.
Proof. by destruct a, b. Qed.
Lemma put_wp_lm f a w b : get_lm (__put_wp f (io_of a) w) b = get_lm f b.
Proof. by destruct a, b. Qed.
Lemma put_wp_keeps f a w : keeps f (__put_wp f (io_of a) w).
Proof. by destruct a. Qed.
Lemma put_wp_ssd f a w : ssd (__put_wp f (io_of a) w) = ssd f.
Proof. by destruct a. Qed.
Lemma put_wp_age f a w : age_cnt (__put_wp f (io_of a) w) = age_cnt f.
Proof. by destruct a. Qed.
Lemma put_wp_dyn f a w : dyn_slc_mode (__put_wp f (io_of a) w) = dyn_slc_mode f.
Proof. by destruct a. Qed.
Lemma put_lm_dyn f a m : dyn_slc_mode (put_lm f a m) = dyn_slc_mode f.
Proof. by destruct a. Qed.

(** The base invariant when only one area's lines and pointer were replaced. *)
Lemma base_replace d d' x x' f f' a :
  ftl_base d x f -> keeps f f' -> age_cnt f' = age_cnt f -> ssd f' = ssd f ->
  (forall b, b <> a -> get_lm f' b = get_lm f b /\ wp_of f' b = wp_of f b /\ d' b = d b /\ x' b = x b) ->
  area_inv (spp f) a (st (ssd f)) (get_lm f' a) (wp_of f' a) (d' a) (x' a) ->
  ftl_base d' x' f'.
Proof.
  intros [] [] Ha Hs Hoth Harea. split; rewrite ?kp_spp, ?kp_mode, ?Hs; try done.
  - by rewrite Ha.
  - intros b. destruct (decide (b = a)) as [->|Hne]; [done|].
    by destruct (Hoth b Hne) as (-> & -> & -> & ->).
Qed.

Lemma room_at f a w p k : slc_geometry (spp f) -> wp_of f a = w -> wp_ok (spp f) a w p k ->
  room f a = ppl_of (spp f) a - k.
Proof. intros G Hw W. unfold room. rewrite Hw. by rewrite (wk_pos _ _ _ _ _ W). Qed.

Lemma advance_spec x f a :
  ftl_base (pending a) x f -> 2 <= space f a ->
  exists f', advance_write_pointer f (io_of a) = Ok f' /\ ftl_base settled x f' /\ advanced a f f'.
Proof.
  intros B Hsp. pose proof (fb_geo _ _ _ B) as G. pose proof (fb_mode _ _ _ B) as Hm.
  destruct (area_lines _ _ _ B a) as (p & k & W & L & C). unfold pending in L. rewrite decide_True in L by done.
  destruct (wp_range _ _ _ B a p k W) as [Hk _]. pose proof (room_at f a _ p k G eq_refl W) as Hroom.
  destruct (advance_cases f a G Hm p k W) as [(Hlt & w' & E & W')|[Hend E]].
  - exists (__put_wp f (io_of a) w'). split; [done|].
    assert (room (__put_wp f (io_of a) w') a = ppl_of (spp f) a - (k + 1)) as Hr'.
    { rewrite (room_at _ a w' p (k + 1)); rewrite ?put_wp_of, ?(kp_spp _ _ (put_wp_keeps f a w')); try done.
      by rewrite decide_True. }
    split.
    + apply (base_replace (pending a) _ x _ f _ a); try done.
      * apply put_wp_keeps.
      * apply put_wp_age.
      * apply put_wp_ssd.
      * intros b Hne. rewrite put_wp_lm, put_wp_of. unfold pending, settled. by rewrite !decide_False by done.
      * rewrite put_wp_lm, put_wp_of, decide_True by done. exists p, (k + 1). unfold settled.
        rewrite Z.add_0_r. done.
    + split.
      * apply put_wp_ssd.
      * apply put_wp_keeps.
      * apply put_wp_age.
      * intros b Hne. rewrite put_wp_lm, put_wp_of. by rewrite decide_False.
      * unfold space. rewrite Hr', Hroom. unfold free_lines. rewrite put_wp_lm, (kp_spp _ _ (put_wp_keeps f a w')). lia.
      * rewrite Hr', Hroom. destruct (Z.eqb_spec (ppl_of (spp f) a - k) 1); lia.
      * left. apply put_wp_dyn.
  - assert (exists r rest, free_lines f a = r :: rest) as (r & rest & Hfree).
    { unfold space in Hsp. destruct (free_lines f a) as [|r rest]; [cbn in Hsp; lia|by exists r, rest]. }
    destruct (next_line_spec f a p (olist (x a)) (x a) (wp_at (wp_of f a) 0 0 0) r rest G Hm)
      as (m' & w' & E' & W' & L' & C' & F'); try apply W; try done.
    + by eapply lb_close.
    + eapply olist_ne, cur_not_fl; done.
    + intros i Hi Hfr. apply (lb_cur _ _ _ _ _ _ _ L p i) in Hfr; [lia|done..].
    + set (f' := __put_wp (put_lm (set_dyn_slc_mode f a) a m') (io_of a) w').
      assert (K : keeps f f') by (by destruct a).
      assert (Hlm : get_lm f' a = m') by (by destruct a).
      assert (Hwp : wp_of f' a = w') by (by destruct a).
      assert (Hoth : forall b, b <> a -> get_lm f' b = get_lm f b /\ wp_of f' b = wp_of f b) by (by destruct a, b).
      assert (room f' a = ppl_of (spp f) a) as Hr'.
      { rewrite (room_at _ a w' r 0); rewrite ?(kp_spp _ _ K); try done. lia. }
      exists f'. split; [by rewrite E|]. split.
      * apply (base_replace (pending a) _ x _ f _ a); try done.
        -- by destruct a.
        -- by destruct a.
        -- intros b Hne. destruct (Hoth b Hne) as [-> ->]. unfold pending, settled. by rewrite decide_False.
        -- rewrite Hlm, Hwp. exists r, 0. unfold settled. done.
      * split; try done.
        -- by destruct a.
        -- by destruct a.
        -- intros b Hne. by destruct (Hoth b Hne).
        -- unfold space. rewrite Hr', Hroom, (kp_spp _ _ K), Hfree. unfold free_lines. rewrite Hlm, F'. cbn [length]. lia.
        -- rewrite Hr', Hroom. by replace (ppl_of (spp f) a - k =? 1) with true by lia.
        -- right. by destruct a.
Qed.

(** The last page of the last line: there is no free line to go on with, and the
    assertion on the line fails. *)
Lemma next_line_none f a p fl x w :
  slc_geometry (spp f) -> slc_mode f = SLC_MODE -> curline w = Some (a, p) -> wp_blk w = blk_of (spp f) a p ->
  lines_base (spp f) a (st (ssd f)) (get_lm f a) None 0 (p :: fl) ->
  lines_cnt (spp f) a (st (ssd f)) (lines (get_lm f a)) x -> x <> Some p ->
  (forall k, 0 <= k < ppl_of (spp f) a -> lst (spp f) (st (ssd f)) a p k <> Some PG_FREE) ->
  free_line_list (get_lm f a) = [] -> next_line f (io_of a) w = Err BugOn.
Proof.
  intros G Hmode Hcur Hblk L C Hx Hnf Hfree.
  assert (p < Z.to_nat (nlines_of (spp f) a))%nat as Hp by (apply (lb_all _ _ _ _ _ _ _ _ L); set_solver).
  destruct (retire_spec f a p fl x G L C Hx Hnf) as (m1 & E1 & L1 & C1 & F1).
  unfold next_line. rewrite Hcur. cbn [of_opt rbind]. rewrite (area_of_io_eq f a Hmode), E1. cbn [rbind].
  assert (spp (put_lm f a m1) = spp f) as Hspp by (by destruct a).
  unfold check_addr, rassert. rewrite Hspp, Hblk. pose proof (blk_of_range _ G a p Hp).
  replace ((0 <=? blk_of (spp f) a p) && (blk_of (spp f) a p <? blks_per_pl (spp f))) with true by lia. cbn [rbind].
  rewrite (next_free_none _ a); [done|by destruct a..|]. rewrite get_put_lm_dyn. congruence.
Qed.

Lemma advance_fails x f a :
  ftl_base (pending a) x f -> space f a = 1 -> advance_write_pointer f (io_of a) = Err BugOn.
Proof.
  intros B Hsp. pose proof (fb_geo _ _ _ B) as G. pose proof (fb_mode _ _ _ B) as Hm.
  destruct (area_lines _ _ _ B a) as (p & k & W & L & C). unfold pending in L. rewrite decide_True in L by done.
  destruct (wp_range _ _ _ B a p k W) as [Hk _]. pose proof (room_at f a _ p k G eq_refl W) as Hroom.
  pose proof (ppl_pos _ G a) as Hp. unfold space in Hsp.
  destruct (advance_cases f a G Hm p k W) as [(Hlt & _)|[Hend ->]]; [nia|].
  apply (next_line_none f a p (olist (x a)) (x a)); try done; try apply W.
  - by eapply lb_close.
  - eapply olist_ne, cur_not_fl; done.
  - intros i Hi Hfr. apply (lb_cur _ _ _ _ _ _ _ L p i) in Hfr; [lia|done..].
  - unfold free_lines in Hsp. destruct (free_line_list (get_lm f a)); [done|]. cbn [length] in Hsp. nia.
Qed.
