(* ===== verification/ConvMark.v ===== *)
(** * Invalidating a page

    [mark_page_invalid] turns a valid page invalid and keeps the books of its
    block and line: a queued line moves in the victim queue, a full line leaves
    the full list for the queue, the open line stays open.  No assertion of the
    code fails, whichever list the line is in. *)

From Stdlib Require Import ZArith Lia.
From stdpp Require Import base list numbers sets.
From S2P Require Import Prelude PQueue Config SsdParams ConvFtl Geometry Media Lines ConvInv ConvWp.
From S2P Require Ssd.
Import Ssd (ppa, mk_ppa, g_pg, g_blk, g_pl, g_lun, g_ch, g_rsv, sp, page_status, PG_FREE, PG_INVALID,
  PG_VALID, USER_IO, GC_IO, timing_ok, INVALID_LPN).

Lemma get_put_lm_eq f a m : get_lm (put_lm f a m) a = m.
Proof. by destruct a. Qed.
Lemma put_put_lm f a m m' : put_lm (put_lm f a m) a m' = put_lm f a m'.
Proof. by destruct a. Qed.

Lemma line_at_ok f a p l : lines (get_lm f a) !! p = Some l -> line_at f (a, p) = Ok l.
Proof. intros Hl. by apply lget_ok. Qed.

Lemma put_line_ok f a p l l' : lines (get_lm f a) !! p = Some l ->
  put_line f (a, p) l' = Ok (put_lm f a (set_lines (get_lm f a) (<[p := l']> (lines (get_lm f a))))).
Proof.
  intros Hl. unfold put_line. cbn [fst snd].
  by rewrite (proj2 (lset_ok (lines (get_lm f a)) p _ _)) by (split; [by eapply lookup_lt_Some|reflexivity]).
Qed.

(** The line with one more invalid page, and the same with one valid page less. *)
Definition line_more_ipc (l : line) : line := line_set_ipc l (ipc l + 1).
Definition line_moved (l : line) : line := line_set_vpc (line_more_ipc l) (vpc l - 1).

Section Invalidate.
#[local] Set Default Proof Using "All".
Context (s : ssdparams) (G : slc_geometry s) (a : line_mode) (m : line_mgmt) (S S' : statuses) (p : ptr)
  (k : Z) (l : line) (cur : ptr) (c : Z).

Hypothesis L : lines_base s a S m (Some cur) c [].
Hypothesis C : lines_cnt s a S (lines m) None.
Hypothesis Hc : 0 <= c < ppl_of s a.
Hypothesis Hk : 0 <= k < ppl_of s a.
Hypothesis Hl : lines m !! p = Some l.
Hypothesis Hv : lst s S a p k = Some PG_VALID.
Hypothesis HS : forall z, in_range s z -> S' z = st_upd S (page_of s a p k) PG_INVALID z.

Lemma inv_line_lt : (p < Z.to_nat (nlines_of s a))%nat.
Proof. rewrite <- (lb_len _ _ _ _ _ _ _ L). by eapply lookup_lt_Some. Qed.

Lemma inv_counts : line_counts s a S m p l /\ 1 <= vpc l /\ ipc l < ppl_of s a.
Proof.
  pose proof (line_counts_at s a G _ _ _ _ _ _ p l L C Hl ltac:(done)) as Hcc. split; [done|].
  destruct Hcc as [V I Sum V0 I0 F0]. assert (1 <= lcnt s S a p PG_VALID) by (by apply (count_pos _ _ k)). lia.
Qed.

(** The queue position says which list the line is in. *)
Lemma inv_pos : p ∈ pq_elems (victim_line_pq m) <-> pos l <> 0%nat.
Proof.
  split.
  - rewrite elem_of_pq_elems. intros (i & Hi & Hp).
    destruct (pq_pos _ _ (lb_pq _ _ _ _ _ _ _ L) i p Hi Hp) as [_ E].
    cbn in E. unfold victim_line_get_pos in E. rewrite Hl in E. cbn in E. lia.
  - intros Hp. destruct (decide (p ∈ pq_elems (victim_line_pq m))) as [|Hn]; [done|].
    by rewrite (lb_pos _ _ _ _ _ _ _ L p l Hl Hn) in Hp.
Qed.

Lemma inv_place : p ∈ pq_elems (victim_line_pq m) \/ p ∈ full_line_list m \/ p = cur.
Proof.
  pose proof (proj1 (lb_all _ _ _ _ _ _ _ p L) inv_line_lt) as Hin. rewrite !elem_of_app in Hin. cbn in Hin.
  rewrite list_elem_of_singleton, elem_of_nil in Hin. destruct Hin as [Hin|Hin]; [|tauto].
  pose proof (lb_free _ _ _ _ _ _ _ L p k Hin Hk). congruence.
Qed.

(** The code's own test for a full line. *)
Lemma inv_full : p ∈ full_line_list m <-> vpc l = ppl_of s a.
Proof.
  destruct inv_counts as ([V I Sum V0 I0 F0] & Hv1 & Hi1). split.
  - intros Hf. pose proof (lb_full _ _ _ _ _ _ _ L p Hf) as Hi.
    assert (lcnt s S a p PG_FREE = 0) by (apply count_zero; intros; apply (lb_used _ _ _ _ _ _ _ L); tauto).
    lia.
  - intros E. destruct inv_place as [Hp|[Hp| ->]]; [|done|].
    + pose proof (lb_victim _ _ _ _ _ _ _ L p Hp). lia.
    + assert (1 <= lcnt s S a cur PG_FREE); [|lia].
      apply (count_pos _ _ c); [done|]. apply (lb_cur _ _ _ _ _ _ _ L); [done|done|lia].
Qed.

Lemma inv_status q i : (q < Z.to_nat (nlines_of s a))%nat -> 0 <= i < ppl_of s a -> (q, i) <> (p, k) ->
  lst s S' a q i = lst s S a q i.
Proof. intros Hq Hi Hne. eapply (lst_upd_ne s G S S' a p k); try done; [apply inv_line_lt|congruence]. Qed.

Lemma inv_status_p : lst s S' a p k = Some PG_INVALID.
Proof. eapply (lst_upd_eq s G S S' a p k); try done. apply inv_line_lt. Qed.

Lemma inv_known : known s S' a p.
Proof.
  intros i Hi. destruct (decide (i = k)) as [->|Hne]; [eauto using inv_status_p|].
  rewrite inv_status; [|apply inv_line_lt|done|congruence]. apply (lb_known _ _ _ _ _ _ _ L); [apply inv_line_lt|done].
Qed.

Lemma inv_free i : 0 <= i < ppl_of s a -> lst s S' a p i = Some PG_FREE <-> lst s S a p i = Some PG_FREE.
Proof.
  intros Hi. destruct (decide (i = k)) as [->|Hne]; [by rewrite inv_status_p, Hv|].
  by rewrite inv_status by (apply inv_line_lt || done || congruence).
Qed.

Lemma inv_invalid : 1 <= lcnt s S' a p PG_INVALID.
Proof. apply (count_pos _ _ k); [done|apply inv_status_p]. Qed.

(** The counters after the change. *)
Lemma inv_cnt : lines_cnt s a S' (<[p := line_moved l]> (lines m)) None.
Proof.
  destruct inv_counts as ([V I _ _ _ _] & _ & _).
  eapply (lines_cnt_upd s a G S S' _ p k PG_VALID PG_INVALID); try done.
  - apply (lb_len _ _ _ _ _ _ _ L).
  - apply inv_line_lt.
  - intros _. cbn. dec_status. lia.
  - intros _. cbn. dec_status. lia.
Qed.

(** *** The line's move, list by list *)
Lemma inv_queued : p ∈ pq_elems (victim_line_pq m) ->
  exists q ls, pqueue_change_priority (victim_line_pq m) (<[p := line_more_ipc l]> (lines m)) (u64 (vpc l - 1)) p
      = Ok (q, ls) /\
    lines_base s a S' (set_victim m q ls (victim_line_cnt m)) (Some cur) c [] /\ lines_cnt s a S' ls None.
Proof.
  intros Hp. destruct inv_counts as ([V I Sum V0 I0 F0] & Hv1 & Hi1). pose proof (ppl_bound s G a) as Hb.
  pose proof (lb_set_line s a S m _ _ _ p l (line_more_ipc l) L Hl eq_refl eq_refl (fun _ => eq_refl)) as L1.
  destruct (lb_change_pri s a S _ _ _ _ p (line_more_ipc l) (vpc l - 1) L1 Hp) as (q & ls & E & Hsame & Hmem & L2).
  { cbn. apply list_lookup_insert_eq. by eapply lookup_lt_Some. }
  { lia. }
  cbn [lines set_lines victim_line_pq victim_line_cnt] in *. rewrite list_insert_insert_eq in Hsame.
  exists q, ls. rewrite u64_id by lia. split; [done|]. split.
  - eapply (lb_status_pq s a G S S' _ _ _ _ p); [exact L2|..].
    + by apply Hmem.
    + intros r i Hr Hrn Hi. apply inv_status; [done..|congruence].
    + apply inv_known.
    + intros i Hi. rewrite inv_free by done. apply (lb_used _ _ _ _ _ _ _ L); tauto.
    + apply inv_invalid.
  - eapply same_lines_cnt; [exact Hsame|]. apply inv_cnt.
Qed.

Lemma inv_was_full : p ∈ full_line_list m ->
  exists q ls, pqueue_insert (victim_line_pq m) (<[p := line_moved l]> (lines m)) p = Ok (q, ls) /\
    lines_base s a S' (set_victim (set_full m (list_del_init p (full_line_list m)) (u32 (full_line_cnt m - 1)))
       q ls (u32 (victim_line_cnt m + 1))) (Some cur) c [] /\ lines_cnt s a S' ls None.
Proof.
  intros Hp.
  assert (p ∉ pq_elems (victim_line_pq m)) as Hnq.
  { intros Hq. pose proof (lb_victim _ _ _ _ _ _ _ L p Hq). pose proof (lb_full _ _ _ _ _ _ _ L p Hp). lia. }
  pose proof (lb_full_to_fl s a G S m _ _ _ p L Hp) as L1.
  pose proof (lb_set_line s a S _ _ _ _ p l (line_moved l) L1 Hl eq_refl eq_refl) as L2.
  eapply (lb_status_fl s a G S S') in L2; [|intros Hq; done|by left| |apply inv_known].
  2:{ intros r i Hr Hrn Hi. apply inv_status; [done..|congruence]. }
  destruct (lb_fl_to_pq s a G S' _ _ _ _ p L2) as (q & ls & E & Hsame & L3).
  { intros i Hi. rewrite inv_free by done. apply (lb_used _ _ _ _ _ _ _ L); tauto. }
  { apply inv_invalid. }
  exists q, ls. cbn in *. split; [done|]. split; [done|].
  eapply same_lines_cnt; [exact Hsame|]. apply inv_cnt.
Qed.

Lemma inv_open : p = cur ->
  lines_base s a S' (set_lines m (<[p := line_moved l]> (lines m))) (Some cur) c [].
Proof.
  intros Hpc. pose proof inv_line_lt as Hp. pose proof L as Lp. rewrite <- Hpc in Lp |- *.
  assert (p ∉ pq_elems (victim_line_pq m)) as Hnq.
  { intros Hq. apply (lb_used _ _ _ _ _ _ _ L p c); [by left|done|].
    apply (lb_cur _ _ _ _ _ _ _ Lp); [done|done|lia]. }
  apply (lb_set_line s a S' m _ _ _ p l); try done.
  apply lb_open.
  - eapply (lb_status_fl s a G S S'); [by eapply lb_close|by left| |apply inv_known].
    intros r i Hr Hrn Hi. apply inv_status; [done..|congruence].
  - intros i Hi. rewrite inv_free by done. by apply (lb_cur _ _ _ _ _ _ _ Lp).
Qed.
End Invalidate.

(** ** The line's share of [mark_page_invalid] *)
Lemma invalidate_spec f a S S' p k cur c :
  slc_geometry (spp f) -> lines_base (spp f) a S (get_lm f a) (Some cur) c [] ->
  lines_cnt (spp f) a S (lines (get_lm f a)) None -> 0 <= c < ppl_of (spp f) a ->
  (p < Z.to_nat (nlines_of (spp f) a))%nat -> 0 <= k < ppl_of (spp f) a ->
  lst (spp f) S a p k = Some PG_VALID ->
  (forall z, in_range (spp f) z -> S' z = st_upd S (page_of (spp f) a p k) PG_INVALID z) ->
  exists m', invalidate_in_line f a (a, p) = Ok (put_lm f a m') /\
    lines_base (spp f) a S' m' (Some cur) c [] /\ lines_cnt (spp f) a S' (lines m') None /\
    free_line_list m' = free_line_list (get_lm f a).
Proof.
  intros G L C Hc Hp Hk Hv HS. set (s := spp f) in *. set (m := get_lm f a) in *.
  destruct (lb_line _ _ _ _ _ _ _ p L Hp) as [l Hl].
  destruct (inv_counts s G a m S S' p k l cur c L C Hc Hk Hl Hv HS) as ([V I Sum V0 I0 F0] & Hv1 & Hi1).
  pose proof (inv_pos s G a m S S' p k l cur c L C Hc Hk Hl Hv HS) as Hpos.
  pose proof (inv_full s G a m S S' p k l cur c L C Hc Hk Hl Hv HS) as Hfull.
  unfold invalidate_in_line. rewrite (line_at_ok f a p l Hl), cur_ppl_eq. fold s. cbn [rbind].
  unfold rassert. replace ((0 <=? ipc l) && (ipc l <? ppl_of s a)) with true by lia. cbn [rbind].
  assert ((if vpc l =? ppl_of s a then if ipc l =? 0 then Ok tt else Err BugOn else Ok tt) = Ok tt) as ->.
  { destruct (Z.eqb_spec (vpc l) (ppl_of s a)); [|done]. by replace (ipc l =? 0) with true by lia. }
  cbn [rbind]. rewrite (put_line_ok f a p l _ Hl). cbn [rbind]. fold m.
  replace ((0 <? vpc l) && (vpc l <=? ppl_of s a)) with true by lia. cbn [rbind].
  unfold own_line. cbn [fst snd]. rewrite bool_decide_true by done. cbn [rbind].
  rewrite get_put_lm_eq. destruct (Nat.eqb_spec (pos l) 0) as [Hp0|Hp0]; cbn [negb].
  - assert (lines (get_lm (put_lm f a (set_lines m (<[p := line_more_ipc l]> (lines m)))) a) !! p
      = Some (line_more_ipc l)) as Hl1.
    { rewrite get_put_lm_eq. cbn. apply list_lookup_insert_eq. by eapply lookup_lt_Some. }
    fold (line_more_ipc l). rewrite (line_at_ok _ a p _ Hl1). cbn [rbind]. rewrite (put_line_ok _ a p _ _ Hl1).
    cbn [rbind]. rewrite put_put_lm, get_put_lm_eq. cbn [lines set_lines]. rewrite list_insert_insert_eq.
    change (line_set_vpc (line_more_ipc l) (vpc (line_more_ipc l) - 1)) with (line_moved l).
    change (set_lines (set_lines m ?y) ?x) with (set_lines m x).
    destruct (Z.eqb_spec (vpc l) (ppl_of s a)) as [E|E].
    + destruct (inv_was_full s G a m S S' p k l cur c L C Hc Hk Hl Hv HS) as (q & ls & Eq & L' & C'); [by apply Hfull|].
      rewrite get_put_lm_eq. cbn [victim_line_pq lines set_lines set_full full_line_list full_line_cnt victim_line_cnt].
      assert (lines (get_lm (put_lm f a (set_lines m (<[p := line_moved l]> (lines m)))) a) !! p
        = Some (line_moved l)) as Hl2.
      { rewrite get_put_lm_eq. cbn. apply list_lookup_insert_eq. by eapply lookup_lt_Some. }
      rewrite (line_at_ok _ a p _ Hl2). cbn [rbind].
      replace (vpc (line_moved l) + ipc (line_moved l) =? ppl_of s a) with true by (cbn; lia). cbn [rbind].
      rewrite Eq. cbn [rbind]. rewrite put_put_lm. eexists. split; [done|]. done.
    + eexists. split; [done|]. split; [|split; [by eapply inv_cnt|done]].
      eapply inv_open; try done. destruct (inv_place s G a m S S' p k l cur c L C Hc Hk Hl Hv HS) as [?|[?|?]]; [tauto..|done].
  - destruct (inv_queued s G a m S S' p k l cur c L C Hc Hk Hl Hv HS) as (q & ls & Eq & L' & C'); [by apply Hpos|].
    cbn [victim_line_pq lines set_lines]. fold (line_more_ipc l). rewrite Eq. cbn [rbind]. rewrite put_put_lm.
    replace (vpc l =? ppl_of s a) with false.
    { eexists. split; [done|]. done. }
    symmetry. apply Z.eqb_neq. intros E. apply Hfull in E. pose proof (lb_full _ _ _ _ _ _ _ L p E).
    assert (p ∈ pq_elems (victim_line_pq m)) as Hq by (by apply Hpos).
    pose proof (lb_victim _ _ _ _ _ _ _ L p Hq). lia.
Qed.

(** ** [mark_page_invalid] *)
Lemma mark_invalid_spec f y :
  ftl_base settled no_victim f -> in_range (spp f) y -> st (ssd f) y = Some PG_VALID ->
  exists f', mark_page_invalid f (pof y) = Ok f' /\ ftl_base settled no_victim f' /\
    (forall z, in_range (spp f) z -> st (ssd f') z = st_upd (st (ssd f)) y PG_INVALID z) /\
    keeps f f' /\ same_place f f'.
Proof.
  intros B Hy Hst. pose proof (fb_geo _ _ _ B) as G.
  destruct (page_is_position _ G y Hy) as (a & p & k & -> & Hp & Hk & _ & _). set (y := page_of (spp f) a p k) in *.
  destruct (page_line _ _ _ B a p k Hp Hk) as (Hline & Harea & Harea2). fold y in Hline, Harea, Harea2.
  destruct (area_lines _ _ _ B a) as (q & c & W & L & C). unfold settled in L. rewrite Z.add_0_r in L.
  destruct (wp_range _ _ _ B a q c W) as [Hc _].
  unfold mark_page_invalid. rewrite (tt_eq _ _ _ B), Harea, cur_ppb_eq.
  pose proof (nlines_pos _ G SLC_MODE) as Hnl. cbn in Hnl. rewrite u32_id by lia. unfold rassert at 1. rewrite Z.eqb_refl.
  destruct (get_pg_at _ _ _ B y _ Hy Hst) as (pgx & -> & Hpgx). cbn [rbind]. rewrite Hpgx, bool_decide_true by done.
  destruct (page_mark _ _ _ B y PG_VALID PG_INVALID
     (fun b => rassert ((0 <=? Ssd.ipc b) && (Ssd.ipc b <? ppb_of (spp f) a)) ;;;
               rassert ((0 <? Ssd.vpc b) && (Ssd.vpc b <=? ppb_of (spp f) a)) ;;;
               Ok (blk_set_counts b (Ssd.ipc b + 1) (Ssd.vpc b - 1))) Hy Hst)
    as (s1 & s2 & -> & Hsp1 & E2 & [M1 M2 M3 M4 M5]); [done| |].
  { intros b Hlen Hv Hi Hcn. dec_status. rewrite Harea2 in Hlen.
    pose proof (cnt_sum (Ssd.pg b)). pose proof (cnt_nonneg PG_FREE (Ssd.pg b)).
    pose proof (cnt_nonneg PG_VALID (Ssd.pg b)). unfold rassert.
    replace ((0 <=? Ssd.ipc b) && (Ssd.ipc b <? ppb_of (spp f) a)) with true by lia.
    replace ((0 <? Ssd.vpc b) && (Ssd.vpc b <=? ppb_of (spp f) a)) with true by lia. cbn [rbind].
    f_equal. unfold blk_set_counts. f_equal; lia. }
  cbn [rassert rbind]. rewrite E2. cbn [rbind]. clear E2.
  assert (Hlm : forall b, get_lm (set_ssd f s2) b = get_lm f b) by (by intros []).
  assert (Hspp : spp (set_ssd f s2) = spp f) by exact M1.
  change (get_line (set_ssd f s2) (pof y)) with (get_line f (pof y)). rewrite Hline.
  destruct (invalidate_spec (set_ssd f s2) a (st (ssd f)) (st s2) p k q c) as (m' & E & L' & C' & F');
    rewrite ?Hspp, ?Hlm; try done.
  rewrite Hspp in L', C'. rewrite Hlm in F'. exists (put_lm (set_ssd f s2) a m'). split; [done|].
  assert (K : keeps f (put_lm (set_ssd f s2) a m')) by (etrans; [by apply set_ssd_keeps|apply put_lm_keeps]).
  split; [|rewrite put_lm_ssd; split; [done|split; [done|]]].
  - apply (base_update settled _ no_victim _ f _ a y PG_INVALID); rewrite ?put_lm_ssd, ?put_lm_wp, ?put_lm_age; try done.
    + by exists p, k.
    + intros b Hne. rewrite get_put_lm, decide_False by done. rewrite put_lm_wp, Hlm. by destruct b.
    + rewrite get_put_lm, decide_True by done. exists q, c. unfold settled. rewrite Z.add_0_r.
      split; [|done]. by destruct a.
  - split; [intros b..|by destruct a]; [rewrite put_lm_wp; by destruct b|]. unfold free_lines. rewrite get_put_lm.
    case_decide as Hb; [by subst b|by rewrite Hlm].
Qed.

(** ** Fields the base invariant does not read *)
Lemma base_set_rmap d x f r : ftl_base d x f -> ftl_base d x (set_rmap f r).
Proof. intros []. by split. Qed.
Lemma base_set_maptbl d x f r : ftl_base d x f -> ftl_base d x (set_maptbl f r).
Proof. intros []. by split. Qed.
Lemma base_set_wfc d x f r : ftl_base d x f -> ftl_base d x (set_wfc f r).
Proof. intros []. by split. Qed.
Lemma base_set_copy_cnt d x f r : ftl_base d x f -> ftl_base d x (set_copy_cnt f r).
Proof. intros []. by split. Qed.
Lemma base_set_gc_cnt d x f r : ftl_base d x f -> ftl_base d x (set_gc_cnt f r).
Proof. intros []. by split. Qed.
Lemma base_set_dyn d x f r : ftl_base d x f -> ftl_base d x (set_dyn_slc_mode f r).
Proof. intros []. by split. Qed.

(** Another device with the same page statuses: what the timing model leaves. *)
Record ticked (f f' : conv_ftl) : Prop := {
  tk_eq : exists s, f' = set_ssd f s;
  tk_sp : spp f' = spp f;
  tk_wb : Ssd.write_buffer (ssd f') = Ssd.write_buffer (ssd f);
  tk_st x : st (ssd f') x = st (ssd f) x;
  tk_media : media_ok (ssd f');
  tk_timing : timing_ok (ssd f');
}.

Lemma ticked_trans f g h : ticked f g -> ticked g h -> ticked f h.
Proof.
  intros [[s ->] ?????] [[s' ->] ?????]. split; try done; try congruence; try by exists s'.
Qed.

Lemma ticked_keeps f f' : ticked f f' -> keeps f f' /\ same_place f f' /\ age_cnt f' = age_cnt f /\
  dyn_slc_mode f' = dyn_slc_mode f.
Proof. intros [[s ->] ?????]. split; [by split|]. split; [by split; [intros []..|]|done]. Qed.

Lemma base_ticked d x f f' : ftl_base d x f -> ticked f f' -> ftl_base d x f'.
Proof.
  intros [] [[s ->] Hsp Hwb Hst Hm Ht]. split; rewrite ?Hsp; try done.
  intros a. specialize (fb_area a). destruct fb_area as (q & k & W & L & C). exists q, k.
  assert (He : forall r j, (r < Z.to_nat (nlines_of (spp f) a))%nat -> 0 <= j < ppl_of (spp f) a ->
    lst (spp f) (st s) a r j = lst (spp f) (st (ssd f)) a r j) by (intros r j _ _; apply Hst).
  replace (get_lm (set_ssd f s) a) with (get_lm f a) by (by destruct a).
  replace (wp_of (set_ssd f s) a) with (wp_of f a) by (by destruct a).
  split; [done|]. split; [by eapply lb_ext|]. eapply cnt_ext; [exact He|apply (lb_len _ _ _ _ _ _ _ L)|exact C].
Qed.

Lemma ticked_timing d x f s p :
  ftl_base d x f -> Ssd.timing_step p (ssd f) s -> timing_ok s -> ticked f (set_ssd f s).
Proof.
  intros B T Hok. destruct (timing_step_media p _ _ (fb_media _ _ _ B) T Hok) as [M1 M2 M3 M4 M5].
  split; try done; [by exists s|]. intros z. by eapply timing_step_st.
Qed.

(** A line's modification time. *)
Lemma touch_spec d x f y now :
  ftl_base d x f -> in_range (spp f) y ->
  exists f', (let r := get_line f (pof y) in let! l := line_at f r in put_line f r (line_set_mtime l now)) = Ok f' /\
    ftl_base d x f' /\ ssd f' = ssd f /\ keeps f f' /\ same_place f f'.
Proof.
  intros B Hy. pose proof (fb_geo _ _ _ B) as G.
  destruct (page_position _ _ _ B y Hy) as (a & p & k & -> & Hp & Hk & -> & _).
  destruct (area_lines _ _ _ B a) as (q & c & W & L & C). destruct (lb_line _ _ _ _ _ _ _ p L Hp) as [l Hl].
  cbv zeta. rewrite (line_at_ok f a p l Hl). cbn [rbind]. rewrite (put_line_ok f a p l _ Hl). eexists. split; [done|].
  assert (K : keeps f (put_lm f a (set_lines (get_lm f a) (<[p := line_set_mtime l now]> (lines (get_lm f a))))))
    by apply put_lm_keeps.
  split; [|split; [apply put_lm_ssd|split; [done|]]].
  - apply (base_replace d d x x f _ a); try done.
    + apply put_lm_age.
    + apply put_lm_ssd.
    + intros b Hne. by rewrite get_put_lm, decide_False, put_lm_wp.
    + rewrite get_put_lm_eq, put_lm_wp. exists q, c. split; [done|]. split.
      * by apply (lb_set_line _ a _ _ _ _ _ p l).
      * intros r l' Hr Hx. cbn in Hr. destruct (decide (p = r)) as [->|Hne].
        -- rewrite list_lookup_insert_eq in Hr by (by eapply lookup_lt_Some). injection Hr as <-. cbn. by apply C.
        -- rewrite list_lookup_insert_ne in Hr by done. by apply C.
  - split; [intros b..|by destruct a]; [apply put_lm_wp|]. unfold free_lines. rewrite get_put_lm. case_decide; [by subst b|done].
Qed.
