(* ===== verification/ConvWrite.v ===== *)
(** * Writing one page

    [conv_inv] is the invariant of a partition between two commands.  The map
    part of a host write ([write_page_map]: invalidate the old page, take the
    page at the SLC cursor, map it both ways, make it valid, advance) keeps it,
    and changes the mapping at that logical page only. *)

From Stdlib Require Import ZArith Lia.
From stdpp Require Import base list numbers sets.
From S2P Require Import Prelude PQueue Config SsdParams ConvFtl Geometry Media Lines ConvInv ConvWp ConvMark.
From S2P Require Ssd.
Import Ssd (ppa, mk_ppa, g_pg, g_blk, g_pl, g_lun, g_ch, g_rsv, sp, page_status, PG_FREE, PG_INVALID,
  PG_VALID, USER_IO, GC_IO, timing_ok, INVALID_LPN).

(** Nothing superseded. *)
Definition none : coord -> Prop := fun _ => False.

Record conv_inv (f : conv_ftl) : Prop := {
  ci_base : ftl_base settled no_victim f;
  ci_map : map_ok (spp f) (st (ssd f)) none (maptbl f) (rmap f);
}.

(** ** The mapping after a write *)
Section MapWrite.
Context (s : ssdparams) (G : slc_geometry s) (S S' : statuses) (mt : list ppa) (rm rm1 : list Z) (lpn : Z) (y : coord)
  (old : ppa).
Hypothesis Hmap : map_ok s S none mt rm.
Hypothesis Hlpn : 0 <= lpn < tt_pgs s.
Hypothesis Hy : in_range s y.
Hypothesis HSy : S y <> Some PG_VALID.
Hypothesis Hold : zget mt lpn = Some old.

Lemma map_write_fresh :
  mapped_ppa old = false -> (forall z, in_range s z -> S' z = st_upd S y PG_VALID z) ->
  map_ok s S' none (zset mt lpn (pof y)) (zset rm (pgidx s y) lpn).
Proof.
  intros Hun HS'. apply (map_remap s G S S' none none mt rm lpn y); try done.
  - rewrite HS' by done. unfold st_upd. by rewrite decide_True.
  - by intros [].
  - intros x Hx Hne. rewrite HS' by done. unfold st_upd. rewrite decide_False by done.
    split; [|tauto]. intros [Hv _]. split; [done|]. split; [by intros []|]. intros Hr.
    destruct (mo_bwd _ _ _ _ _ Hmap x Hx Hv (fun H => H)) as (n & Hn & Hm).
    assert (old = pof x) as -> by congruence. rewrite (pof_mapped s G x Hx) in Hun. done.
Qed.

Lemma map_write_over x :
  old = pof x -> in_range s x -> zget rm (pgidx s x) = Some lpn -> x <> y ->
  (forall z, in_range s z -> S' z = st_upd (st_upd S x PG_INVALID) y PG_VALID z) ->
  map_ok s S' none (zset mt lpn (pof y)) (zset (zset rm (pgidx s x) INVALID_LPN) (pgidx s y) lpn).
Proof.
  intros -> Hx Hrx Hxy HS'. rewrite zset_comm by (intros E; apply Hxy; by apply (pgidx_inj s G)).
  assert (HS'x : S' x = Some PG_INVALID).
  { rewrite HS' by done. unfold st_upd. rewrite decide_False, decide_True by done. done. }
  apply (map_clear s G); [|done|by rewrite HS'x].
  apply (map_remap s G S S' none none mt rm lpn y); try done.
  - rewrite HS' by done. unfold st_upd. by rewrite decide_True.
  - by intros [].
  - intros z Hz Hne. destruct (decide (z = x)) as [->|Hzx].
    + rewrite HS'x. split; [by intros [? _]|by intros (_ & _ & ?)].
    + rewrite HS' by done. unfold st_upd. rewrite !decide_False by done.
      split; [|tauto]. intros [Hv _]. split; [done|]. split; [by intros []|]. intros Hr. apply Hzx.
      by apply (map_unique s S none mt rm z x lpn Hmap Hz Hx Hv (fun H => H)).
Qed.
End MapWrite.

(** ** The mapping tables through their accessors *)
Section Tables.
Context (f : conv_ftl) (G : slc_geometry (spp f)) (Hmode : slc_mode f = SLC_MODE).

Lemma pgidx_of_pof x : in_range (spp f) x -> ppa2pgidx f (pof x) = Ok (pgidx (spp f) x).
Proof.
  intros Hx. rewrite (ppa2pgidx_ok f G Hmode); rewrite ?cof_pof; [done|done|]. by destruct x as [[[? ?] ?] ?].
Qed.

Lemma set_rmap_ok lpn x : in_range (spp f) x -> zlen (rmap f) = tt_pgs (spp f) ->
  set_rmap_ent f lpn (pof x) = Ok (set_rmap f (zset (rmap f) (pgidx (spp f) x) lpn)).
Proof.
  intros Hx Hlen. unfold set_rmap_ent. rewrite pgidx_of_pof by done. cbn [rbind].
  rewrite aset_in; [done|]. pose proof (pgidx_range _ G x Hx). lia.
Qed.

Lemma get_rmap_ok x v : in_range (spp f) x -> zget (rmap f) (pgidx (spp f) x) = Some v ->
  get_rmap_ent f (pof x) = Ok v.
Proof. intros Hx Hv. unfold get_rmap_ent. rewrite pgidx_of_pof by done. by apply aget_ok. Qed.

Lemma set_maptbl_ok lpn p : 0 <= lpn < tt_pgs (spp f) -> zlen (maptbl f) = tt_pgs (spp f) ->
  set_maptbl_ent f lpn p = Ok (set_maptbl f (zset (maptbl f) lpn p)).
Proof.
  intros Hl Hlen. unfold set_maptbl_ent, rassert. replace (lpn <? tt_pgs (spp f)) with true by lia. cbn [rbind].
  by rewrite aset_in by lia.
Qed.
End Tables.

Lemma space_same f f' a : spp f' = spp f -> wp_of f' a = wp_of f a -> free_lines f' a = free_lines f a ->
  space f' a = space f a.
Proof. intros Hs Hw Hf. unfold space, room. by rewrite Hs, Hw, Hf. Qed.

(** Two partitions with the same room everywhere. *)
Record same_room (f f' : conv_ftl) : Prop := {
  sr_spp : spp f' = spp f;
  sr_cp : cp f' = cp f;
  sr_wfc : wfc f' = wfc f;
  sr_wb : Ssd.write_buffer (ssd f') = Ssd.write_buffer (ssd f);
  sr_place : same_place f f';
}.

#[export] Instance same_room_preorder : PreOrder same_room.
Proof.
  split.
  - by intros f.
  - intros f g h [] []. split; try congruence. by etrans.
Qed.

Lemma keeps_same_room f f' : keeps f f' -> same_place f f' -> same_room f f'.
Proof. intros [] H. by split. Qed.

Lemma same_room_space f f' a : same_room f f' -> space f' a = space f a /\ cursor f' a = cursor f a.
Proof.
  intros [H1 _ _ _ [Hw Hf _]]. split; [by apply space_same|]. unfold cursor. by rewrite Hw.
Qed.

(** *** Dropping the page a logical page had *)
Definition drop_old (old : ppa) : M conv_ftl unit :=
  when (mapped_ppa old)
    (update (fun f => mark_page_invalid f old) ;;
     update (fun f => set_rmap_ent f INVALID_LPN old) ;;
     let* now := read_clock KTIME_NS in
     update (fun f =>
       let r := get_line f old in
       let! l := line_at f r in put_line f r (line_set_mtime l now))).

Lemma drop_old_spec f lpn old c t :
  conv_inv f -> 0 <= lpn < tt_pgs (spp f) -> zget (maptbl f) lpn = Some old ->
  exists t' f', drop_old old c t f = Ok (tt, t', f') /\ ftl_base settled no_victim f' /\ same_room f f' /\
    maptbl f' = maptbl f /\
    ((mapped_ppa old = false /\ f' = f) \/
     exists x, old = pof x /\ in_range (spp f) x /\ st (ssd f) x = Some PG_VALID /\
       zget (rmap f) (pgidx (spp f) x) = Some lpn /\
       rmap f' = zset (rmap f) (pgidx (spp f) x) INVALID_LPN /\
       (forall z, in_range (spp f) z -> st (ssd f') z = st_upd (st (ssd f)) x PG_INVALID z)).
Proof.
  intros [B M] Hl Hold. unfold drop_old. destruct (mapped_ppa old) eqn:Hm; cbn [when].
  2:{ exists t, f. split; [done|]. split; [done|]. split; [done|]. split; [done|by left]. }
  destruct (mo_fwd _ _ _ _ _ M lpn old Hold Hm) as (x & -> & Hx & Hv & _ & Hr).
  destruct (mark_invalid_spec f x B Hx Hv) as (f1 & E1 & B1 & S1 & K1 & P1).
  rewrite (run_update _ _ _ _ _ _ E1).
  pose proof (kp_spp _ _ K1) as Hs1. pose proof (fb_geo _ _ _ B1) as G1.
  assert (E2 : set_rmap_ent f1 INVALID_LPN (pof x) = Ok (set_rmap f1 (zset (rmap f) (pgidx (spp f) x) INVALID_LPN))).
  { rewrite (set_rmap_ok f1 G1 (fb_mode _ _ _ B1)); rewrite ?Hs1, ?(kp_rmap _ _ K1); [done|done|].
    apply (mo_rlen _ _ _ _ _ M). }
  rewrite (run_update _ _ _ _ _ _ E2), run_clock. set (f2 := set_rmap f1 _) in *.
  assert (B2 : ftl_base settled no_victim f2) by (by apply base_set_rmap).
  destruct (touch_spec _ _ f2 x (c KTIME_NS t) B2) as (f3 & E3 & B3 & Hssd & K3 & P3).
  { change (spp f2) with (spp f1). by rewrite Hs1. }
  exists (Datatypes.S t), f3. unfold update. cbv zeta beta in E3 |- *. rewrite E3. split; [done|]. split; [done|]. split.
  { etrans; [by apply keeps_same_room|]. etrans; [|by apply keeps_same_room]. by split. }
  split; [rewrite (kp_maptbl _ _ K3); apply (kp_maptbl _ _ K1)|].
  right. exists x. split; [done|]. split; [done|]. split; [done|]. split; [done|].
  split; [by rewrite (kp_rmap _ _ K3)|]. intros z Hz. rewrite Hssd. by apply S1.
Qed.

(** *** Taking the page at the SLC cursor *)
Record wrote (lpn : Z) (f f' : conv_ftl) : Prop := {
  wr_inv : conv_inv f';
  wr_spp : spp f' = spp f;
  wr_cp : cp f' = cp f;
  wr_map : maptbl f' = zset (maptbl f) lpn (pof (cursor f SLC_MODE));
  wr_wfc : wfc f' = wfc f;
  wr_wb : Ssd.write_buffer (ssd f') = Ssd.write_buffer (ssd f);
  wr_space : space f' SLC_MODE = space f SLC_MODE - 1;
  wr_room : room f' SLC_MODE = if room f SLC_MODE =? 1 then ppl_of (spp f) SLC_MODE else room f SLC_MODE - 1;
  wr_tlc : space f' TLC_MODE = space f TLC_MODE;
  wr_valid : st (ssd f') (cursor f SLC_MODE) = Some PG_VALID;
}.

Lemma cursor_not_old f x y v : st (ssd f) x = Some v -> v <> PG_FREE ->
  st (ssd f) y = Some PG_FREE -> x <> y.
Proof. intros Hx Hv Hy ->. congruence. Qed.

Lemma write_page_map_spec f lpn c t :
  conv_inv f -> 0 <= lpn < tt_pgs (spp f) -> 2 <= space f SLC_MODE ->
  exists t' f', write_page_map lpn c t f = Ok (pof (cursor f SLC_MODE), t', f') /\ wrote lpn f f'.
Proof.
  intros I Hl Hsp. pose proof I as [B M]. pose proof (fb_geo _ _ _ B) as G.
  destruct (zget_Some (maptbl f) lpn) as [old Hold]; [rewrite (mo_len _ _ _ _ _ M); lia|].
  destruct (drop_old_spec f lpn old c t I Hl Hold) as (t1 & f1 & E1 & B1 & R1 & Hmt1 & Hold1).
  pose proof (sr_spp _ _ R1) as Hs1. destruct (same_room_space _ _ SLC_MODE R1) as [Hsp1 Hcur1].
  assert (zlen (rmap f1) = tt_pgs (spp f)) as Hrlen.
  { destruct Hold1 as [[_ ->]|(x & _ & _ & _ & _ & -> & _)]; rewrite ?length_zset; apply (mo_rlen _ _ _ _ _ M). }
  pose proof (cursor_in_range _ _ _ B1 SLC_MODE) as Hy. rewrite Hcur1, Hs1 in Hy. set (y := cursor f SLC_MODE) in *.
  set (f2 := set_maptbl f1 (zset (maptbl f) lpn (pof y))).
  set (f3 := set_rmap f2 (zset (rmap f1) (pgidx (spp f) y) lpn)).
  assert (B3 : ftl_base settled no_victim f3) by (by apply base_set_rmap, base_set_maptbl).
  destruct (mark_valid_spec _ f3 SLC_MODE B3) as (f4 & E4 & B4 & S4 & Hfree & K4 & P4).
  change (cursor f3 SLC_MODE) with (cursor f1 SLC_MODE) in E4, S4, Hfree. rewrite Hcur1 in E4, S4, Hfree. fold y in E4, S4, Hfree.
  change (ssd f3) with (ssd f1) in S4, Hfree. change (spp f3) with (spp f1) in S4. clear Hsp1.
  assert (R4 : same_room f f4).
  { etrans; [exact R1|]. etrans; [|by apply keeps_same_room]. by split. }
  destruct (same_room_space _ _ SLC_MODE R4) as [Hsp4 _]. destruct (same_room_space _ _ TLC_MODE R4) as [Htl4 _].
  destruct (advance_spec _ f4 SLC_MODE B4) as (f5 & E5 & B5 & A5); [lia|].
  pose proof (av_keeps _ _ _ A5) as K5.
  assert (Hs5 : spp f5 = spp f) by (rewrite (kp_spp _ _ K5); apply (sr_spp _ _ R4)).
  assert (Hssd : forall z, in_range (spp f) z -> st (ssd f5) z = st_upd (st (ssd f1)) y PG_VALID z).
  { intros z Hz. rewrite (av_ssd _ _ _ A5). apply S4. by rewrite Hs1. }
  exists t1, f5. split.
  - unfold write_page_map. rewrite run_get.
    rewrite (run_lift _ _ _ _ _ old) by (by apply aget_ok). fold (drop_old old).
    rewrite (run_bind _ _ _ _ _ _ _ _ E1), run_get.
    rewrite (run_lift _ _ _ _ _ (pof y)) by (change USER_IO with (io_of SLC_MODE); rewrite (get_new_page_spec _ _ _ B1 SLC_MODE), Hcur1; done).
    rewrite (run_update _ _ _ _ _ f2).
    2:{ rewrite (set_maptbl_ok f1); rewrite ?Hs1, ?Hmt1; [done|done|]. apply (mo_len _ _ _ _ _ M). }
    rewrite (run_update _ _ _ _ _ f3).
  2:{ assert (spp f2 = spp f) as Hs2 by exact Hs1. rewrite (set_rmap_ok f2); rewrite ?Hs2; try done. apply (fb_mode _ _ _ B1). }
    rewrite (run_update _ _ _ _ _ _ E4). change USER_IO with (io_of SLC_MODE). rewrite (run_update _ _ _ _ _ _ E5). done.
  - split; try done.
    + split; [done|]. rewrite Hs5, (kp_maptbl _ _ K5), (kp_rmap _ _ K5), (kp_maptbl _ _ K4), (kp_rmap _ _ K4).
      cbn [maptbl rmap f3 f2 set_rmap set_maptbl].
      destruct Hold1 as [[Hun ->]|(x & -> & Hx & Hv & Hr & -> & Sx)].
      * apply (map_write_fresh _ G (st (ssd f)) _ _ _ _ _ old); try done. by rewrite Hfree.
      * assert (x <> y) as Hxy.
        { intros ->. rewrite Sx in Hfree by done. unfold st_upd in Hfree.
          by rewrite decide_True in Hfree. }
        apply (map_write_over _ G (st (ssd f)) _ _ _ _ _ (pof x)); try done.
        -- rewrite Sx in Hfree by done. unfold st_upd in Hfree.
           rewrite decide_False in Hfree by done. by rewrite Hfree.
        -- intros z Hz. rewrite Hssd by done. unfold st_upd at 1 2. case_decide; [done|]. by apply Sx.
    + rewrite (kp_cp _ _ K5). apply (sr_cp _ _ R4).
    + by rewrite (kp_maptbl _ _ K5), (kp_maptbl _ _ K4).
    + rewrite (kp_wfc _ _ K5). apply (sr_wfc _ _ R4).
    + rewrite (kp_wb _ _ K5). apply (sr_wb _ _ R4).
    + rewrite (av_space _ _ _ A5). lia.
    + rewrite (av_room _ _ _ A5), (sr_spp _ _ R4). unfold room. by rewrite (sl_wp _ _ (sr_place _ _ R4)), (sr_spp _ _ R4).
    + destruct (av_other _ _ _ A5 TLC_MODE) as [Hw Hlm]; [done|]. rewrite <- Htl4.
      apply space_same; [by rewrite (sr_spp _ _ R4)|done|]. unfold free_lines. by rewrite Hlm.
    + rewrite Hssd by done. unfold st_upd. by rewrite decide_True.
Qed.
