(* ===== verification/ConvInit.v ===== *)
(** * A fresh partition

    [conv_init_ftl] on a consistent geometry meets none of its assertions and
    establishes [conv_inv] with every logical page unmapped, every line free but
    the two open ones, and write credits for the open SLC line. *)

From Stdlib Require Import ZArith Lia.
From stdpp Require Import base list numbers sets.
From S2P Require Import Prelude PQueue Config SsdParams ConvFtl Geometry Media Lines ConvInv ConvWp ConvMark ConvWrite.
From S2P Require Ssd.
Import Ssd (ppa, sp, page_status, PG_FREE, PG_INVALID, PG_VALID, USER_IO, GC_IO, timing_ok, INVALID_LPN).

(** ** One area *)
Section Area.
Context (s : ssdparams) (G : slc_geometry s) (a : line_mode) (S : statuses) (junk : nat -> ptr).
Hypothesis Hfree : forall x, in_range s x -> S x = Some PG_FREE.

Lemma fresh_lst p k : (p < Z.to_nat (nlines_of s a))%nat -> 0 <= k < ppl_of s a -> lst s S a p k = Some PG_FREE.
Proof. intros Hp Hk. apply Hfree. by apply page_of_in_range. Qed.

Lemma fresh_lcnt p v : (p < Z.to_nat (nlines_of s a))%nat -> v <> PG_FREE -> lcnt s S a p v = 0.
Proof. intros Hp Hv. apply count_zero. intros k Hk. rewrite fresh_lst by done. congruence. Qed.

Definition fresh_lm : line_mgmt := init_line_mgmt junk (nlines_of s a) (first_blk s a) (nlines_of s a).

Lemma fresh_line p l : lines fresh_lm !! p = Some l -> (p < Z.to_nat (nlines_of s a))%nat /\ l = init_line (blk_of s a p).
Proof.
  cbn. intros Hl. apply list_lookup_fmap_Some in Hl as (i & -> & Hi). unfold zseq in Hi.
  apply lookup_seqZ in Hi as [-> Hp]. split; [lia|]. unfold blk_of. f_equal. lia.
Qed.

Lemma fresh_base : lines_base s a S fresh_lm None 0 [] /\ lines_cnt s a S (lines fresh_lm) None.
Proof.
  pose proof (nlines_pos s G a) as Hn.
  assert (pq_elems (victim_line_pq fresh_lm) = []) as Hpq.
  { apply elem_of_nil_inv. intros x Hx%elem_of_pq_elems. revert Hx. apply (init_empty junk (Z.to_nat (nlines_of s a))). }
  split.
  - split.
    + cbn. rewrite length_fmap. unfold zseq. by rewrite length_seqZ.
    + done.
    + rewrite Hpq. cbn. by rewrite !app_nil_r.
    + apply init_spec.
    + cbn; lia.
    + cbn. rewrite length_seq. lia.
    + by rewrite Hpq.
    + done.
    + intros p l Hl. apply fresh_line in Hl as [_ ->]. done.
    + intros p l Hl _. apply fresh_line in Hl as [_ ->]. done.
    + intros p Hp k Hk. rewrite fresh_lst by done. eauto.
    + intros p k Hp Hk. cbn in Hp. apply elem_of_seq in Hp. apply fresh_lst; [lia|done].
    + intros p k [Hp|Hp] Hk; [rewrite Hpq in Hp|cbn in Hp]; by apply elem_of_nil in Hp.
    + intros p Hp. rewrite Hpq in Hp. by apply elem_of_nil in Hp.
    + intros p Hp. cbn in Hp. by apply elem_of_nil in Hp.
    + done.
  - intros p l Hl _. apply fresh_line in Hl as [Hp ->]. by rewrite !fresh_lcnt.
Qed.

(** The first line opened. *)
Lemma fresh_open :
  exists rest, free_line_list fresh_lm = 0%nat :: rest /\
    let m := set_free fresh_lm (list_del_init 0%nat (free_line_list fresh_lm)) (u32 (free_line_cnt fresh_lm - 1)) in
    lines_base s a S m (Some 0%nat) 0 [] /\ lines_cnt s a S (lines m) None /\
    zlen (free_line_list m) = nlines_of s a - 1.
Proof.
  pose proof (nlines_pos s G a) as Hn. destruct fresh_base as [L C].
  assert (free_line_list fresh_lm = 0%nat :: seq 1 (Z.to_nat (nlines_of s a) - 1)) as E.
  { cbn. replace (Z.to_nat (nlines_of s a)) with (Datatypes.S (Z.to_nat (nlines_of s a) - 1)) at 1 by lia. done. }
  eexists. split; [exact E|]. destruct (lb_take_free s a G _ _ _ _ _ L E) as [L' Hdel].
  split; [done|]. split; [done|]. cbn [free_line_list set_free]. rewrite Hdel, length_seq. lia.
Qed.
End Area.

(** ** The write pointers *)
Lemma prepare_spec f a :
  slc_geometry (spp f) -> slc_mode f = SLC_MODE -> (forall x, in_range (spp f) x -> st (ssd f) x = Some PG_FREE) ->
  (exists junk, get_lm f a = fresh_lm (spp f) a junk) ->
  exists f', prepare_write_pointer f (io_of a) = Ok f' /\ ssd f' = ssd f /\ keeps f f' /\ age_cnt f' = age_cnt f /\
    (forall b, b <> a -> wp_of f' b = wp_of f b /\ get_lm f' b = get_lm f b) /\
    area_inv (spp f) a (st (ssd f)) (get_lm f' a) (wp_of f' a) 0 None /\
    zlen (free_lines f' a) = nlines_of (spp f) a - 1 /\ room f' a = ppl_of (spp f) a.
Proof.
  intros G Hm Hfree [junk Hlm]. pose proof (nlines_pos _ G a) as Hn. pose proof (geo_blks _ G) as Hb.
  destruct (fresh_open (spp f) G a (st (ssd f)) junk Hfree) as (rest & E & L & C & Hlen).
  set (m := set_free _ _ _) in *.
  set (g := set_dyn_slc_mode f a).
  assert (Hmode : (if is_slc (slc_mode f) && (io_of a =? USER_IO) then SLC_MODE else TLC_MODE) = a).
  { unfold is_slc. rewrite Hm. by destruct a. }
  assert (get_next_free_line g = (Some (a, 0%nat), put_lm g a m)) as Enext.
  { rewrite (next_free_eq g a 0%nat rest); try done; replace (get_lm g a) with (get_lm f a) by (by destruct a);
      by rewrite Hlm. }
  assert (0%nat < Z.to_nat (nlines_of (spp f) a))%nat as H0 by lia.
  destruct (lb_line _ _ _ _ _ _ _ 0%nat L H0) as [l Hl].
  assert (id l = blk_of (spp f) a 0) as Hid by (by apply (lb_id _ _ _ _ _ _ _ L)).
  pose proof (blk_of_range _ G a 0%nat H0) as Hbr.
  exists (__put_wp (put_lm g a m) (io_of a) (mk_wp (Some (a, 0%nat)) 0 0 0 (blk_of (spp f) a 0) 0)).
  assert (room_ok : linpos (spp f) a 0 0 0 = 0).
  { unfold linpos. pose proof (geo_nchs _ G). pose proof (geo_luns _ G). pose proof (opp_pos _ G a).
    apply lin_start; lia || done. }
  split; [|split; [by destruct a|split; [by destruct a|split; [by destruct a|split; [by destruct a, b|]]]]].
  - unfold prepare_write_pointer. rewrite Hmode. fold g. rewrite Enext.
    assert (__get_wp (put_lm g a m) (io_of a) = Some (wp_of f a)) as -> by (by destruct a).
    cbn [of_opt rbind]. rewrite (line_at_ok _ a 0%nat l) by (by rewrite get_put_lm_eq). cbn [rbind].
    by rewrite Hid, u32_id by lia.
  - rewrite put_wp_lm, get_put_lm_eq, put_wp_of, decide_True by done.
    pose proof (geo_nchs _ G). pose proof (geo_luns _ G). pose proof (ppb_pos _ G a).
    split; [|split].
    + exists 0%nat, 0. split; [|done]. split; cbn; try done; lia.
    + unfold free_lines. rewrite put_wp_lm, get_put_lm_eq. done.
    + unfold room. rewrite put_wp_of, decide_True by done. cbn [wp_ch wp_lun wp_pg].
      replace (spp (__put_wp (put_lm g a m) (io_of a) _)) with (spp f) by (by destruct a). lia.
Qed.

Lemma map_ok_fresh s S : map_ok s S none (replicate (Z.to_nat (tt_pgs s)) (Ssd.ppa_of_word Ssd.UNMAPPED_PPA))
    (replicate (Z.to_nat (tt_pgs s)) INVALID_LPN) <->
  0 <= tt_pgs s /\ (forall x, in_range s x -> S x <> Some PG_VALID).
Proof.
  split.
  - intros [H1 H2 H3 H4]. rewrite length_replicate in H1. split; [lia|]. intros x Hx Hv.
    destruct (H4 x Hx Hv (fun H => H)) as (lpn & Hr & Hm). unfold zget in Hr, Hm. repeat case_match; try done.
    apply lookup_replicate in Hm as [Hm _]. destruct x as [[[c l] b] g]. injection Hm. done.
  - intros [Hn Hx]. split; rewrite ?length_replicate; try lia.
    + intros lpn p Hp Hm. unfold zget in Hp. case_match; [done|]. apply lookup_replicate in Hp as [-> _]. done.
    + intros x Hr Hv. by apply Hx in Hv.
Qed.

(** The state [conv_init_ftl] leaves. *)
Record fresh_ftl (cpp : convparams) (s : ssdparams) (f : conv_ftl) : Prop := {
  ff_inv : conv_inv f;
  ff_spp : spp f = s;
  ff_cp : cp f = cpp;
  ff_unmapped lpn p : zget (maptbl f) lpn = Some p -> mapped_ppa p = false;
  ff_free a : zlen (free_lines f a) = nlines_of s a - 1;
  ff_room a : room f a = ppl_of s a;
  ff_credits : write_credits (wfc f) = ppl_of s SLC_MODE;
  ff_refill : credits_to_refill (wfc f) = ppl_of s SLC_MODE;
  ff_wb : Ssd.write_buffer (ssd f) = Ssd.buffer_init (write_buffer_size s);
}.

Lemma conv_init_spec junk f0 cpp s cpu :
  slc_geometry s -> max_ch_xfer_size s < 2 ^ 31 -> zlen (age_cnt f0) = 201 ->
  exists f, conv_init_ftl junk f0 cpp (Ssd.ssd_init s cpu) = Ok f /\ fresh_ftl cpp s f.
Proof.
  intros G Hx Hage. destruct (init_media s cpu G) as [Hmedia Hfree].
  unfold conv_init_ftl. cbn [ENABLE_SLC_CACHE]. set (f1 := mk_conv _ _ _ _ _ _ _ _ _ _ _ _ _ _).
  set (f2 := init_rmap (init_maptbl f1)).
  set (f3 := set_slm (set_lm f2 (fresh_lm s TLC_MODE junk)) (fresh_lm s SLC_MODE junk)).
  assert (init_lines junk f2 = Ok f3) as ->.
  { unfold init_lines. cbn [f2 init_rmap init_maptbl set_rmap set_maptbl slc_mode f1 is_slc].
    change (spp f2) with s. pose proof (geo_lines _ G). pose proof (geo_blks _ G). pose proof (geo_slc _ G).
    pose proof (geo_tlc _ G). rewrite (u32_id (tt_lines_tlc s)), (u32_id (tt_lines_slc s)), u32_id by lia. rewrite (geo_tt_lines _ G). unfold is_slc, rassert.
    rewrite bool_decide_true by done. replace (_ =? blks_per_pl s) with true by lia. done. }
  cbn [rbind].
  destruct (prepare_spec f3 SLC_MODE G eq_refl Hfree) as (f4 & E4 & S4 & K4 & A4 & O4 & I4 & F4 & R4); [by exists junk|].
  change USER_IO with (io_of SLC_MODE). rewrite E4. cbn [rbind].
  assert (Hs4 : spp f4 = s) by (by rewrite (kp_spp _ _ K4)).
  destruct (prepare_spec f4 TLC_MODE) as (f5 & E5 & S5 & K5 & A5 & O5 & I5 & F5 & R5).
  { by rewrite Hs4. } { by rewrite (kp_mode _ _ K4). } { by rewrite Hs4, S4. }
  { exists junk. destruct (O4 TLC_MODE) as [_ ->]; [done|]. by rewrite Hs4. }
  change GC_IO with (io_of TLC_MODE). rewrite E5. cbn [rbind]. eexists. split; [done|].
  assert (Hs5 : spp f5 = s) by (by rewrite (kp_spp _ _ K5)).
  destruct (O5 SLC_MODE) as [W5 L5]; [done|].
  assert (Hwfc : init_write_flow_control f5 = set_wfc f5 (mk_wfc (ppl_of s SLC_MODE) (ppl_of s SLC_MODE))).
  { unfold init_write_flow_control, is_slc. rewrite (kp_mode _ _ K5), (kp_mode _ _ K4). cbn [slc_mode f3 set_slm set_lm f2].
    rewrite bool_decide_true by done. rewrite Hs5. pose proof (ppl_bound s G SLC_MODE). pose proof (ppl_pos s G SLC_MODE).
    cbn [ppl_of] in *. by rewrite u32_id by lia. }
  rewrite Hwfc. rewrite Hs4 in *. rewrite S4 in I5.
  assert (Hst : st (ssd f5) = st (Ssd.ssd_init s cpu)) by (rewrite S5, S4; done).
  split; cbn [wfc write_credits credits_to_refill set_wfc]; try done.
  - split.
    + apply base_set_wfc. split; rewrite ?Hs5; try done.
      * by rewrite (kp_mode _ _ K5), (kp_mode _ _ K4).
      * rewrite S5, S4. done.
      * rewrite S5, S4. apply Ssd.ssd_init_timing_ok; apply G.
      * by rewrite A5, A4.
      * rewrite Hst. intros [|]; [rewrite L5, W5; exact I4|exact I5].
    + change (spp (set_wfc f5 _)) with (spp f5). rewrite Hs5. cbn [maptbl rmap ssd set_wfc].
      rewrite (kp_maptbl _ _ K5), (kp_rmap _ _ K5), (kp_maptbl _ _ K4), (kp_rmap _ _ K4), Hst.
      apply map_ok_fresh. pose proof (geo_nchs _ G). pose proof (geo_luns _ G). split.
      * rewrite (geo_tt _ G), (geo_ch _ G), (geo_lun _ G), (geo_pl _ G). pose proof (ppb_pos s G SLC_MODE) as H1.
        pose proof (ppb_pos s G TLC_MODE) as H2. cbn in H1, H2. pose proof (geo_slc _ G). pose proof (geo_tlc _ G). nia.
      * intros x Hr. rewrite Hfree by done. done.
  - cbn [cp set_wfc]. by rewrite (kp_cp _ _ K5), (kp_cp _ _ K4).
  - cbn [maptbl set_wfc]. rewrite (kp_maptbl _ _ K5), (kp_maptbl _ _ K4). cbn. intros lpn p Hp. unfold zget in Hp.
    case_match; [done|]. by apply lookup_replicate in Hp as [-> _].
  - intros [|]; [|exact F5]. unfold free_lines. change (get_lm (set_wfc f5 _) SLC_MODE) with (get_lm f5 SLC_MODE).
    by rewrite L5.
  - intros [|]; [|exact R5]. unfold room. change (wp_of (set_wfc f5 _) SLC_MODE) with (wp_of f5 SLC_MODE).
    change (spp (set_wfc f5 _)) with (spp f5). rewrite W5, Hs5. transitivity (room f4 SLC_MODE); [unfold room; by rewrite Hs4|exact R4].
  - cbn [ssd set_wfc]. by rewrite (kp_wb _ _ K5), (kp_wb _ _ K4).
Qed.
