(* ===== verification/ConvGc.v ===== *)
(** * Moving the live pages of a victim line

    [gc_inv] describes a partition while a line is collected: [X] are the pages
    of the line already dealt with, [F] the dies whose block is already reset.
    The collector's loops (pages of a flash page, dies of a row, rows of the
    line) carry it from the empty sets to the whole line.  A page's copy takes
    one page of the TLC area; a line with [V] live pages is collected without
    reaching an assertion whenever the TLC area has room for [V + 1]. *)

From Stdlib Require Import ZArith Lia.
From stdpp Require Import base list numbers sets.
From S2P Require Import Prelude PQueue Config SsdParams ConvFtl Geometry Media Lines ConvInv ConvWp ConvMark ConvWrite.
From S2P Require Ssd.
Import Ssd (ppa, mk_ppa, g_pg, g_blk, g_pl, g_lun, g_ch, g_rsv, sp, page_status, PG_FREE, PG_INVALID,
  PG_VALID, USER_IO, GC_IO, NAND_READ, NAND_WRITE, NAND_ERASE, NAND_NOP, nand_cmd, mk_cmd, nc_ppa, nc_cmd,
  nc_xfer_size, ssd_advance_nand, timing_ok, INVALID_LPN).

(** ** NAND commands inside the invariant *)
Lemma nand_ticked d x f cmd clk t :
  ftl_base d x f -> 0 <= g_ch (nc_ppa cmd) < nchs (spp f) -> 0 <= g_lun (nc_ppa cmd) < luns_per_ch (spp f) ->
  0 <= g_pg (nc_ppa cmd) < 2 ^ 16 ->
  (nc_cmd cmd = NAND_READ -> exists n, nc_xfer_size cmd = Some n /\ 0 < n) ->
  (nc_cmd cmd = NAND_WRITE -> is_Some (nc_xfer_size cmd)) ->
  exists z t' f', zoom_ssd (ssd_advance_nand cmd) clk t f = Ok (z, t', f') /\ ticked f f'.
Proof.
  intros B Hc Hl Hg Hr Hw. pose proof (fb_geo _ _ _ B) as G.
  assert (Hok : Ssd.cmd_ok (ssd f) cmd).
  { destruct (fb_media _ _ _ B (g_ch (nc_ppa cmd)) (g_lun (nc_ppa cmd)) 0) as (blk & Hblk & _).
    { pose proof (geo_slc _ G). pose proof (geo_tlc _ G). pose proof (geo_lines _ G). split; [done|split; [done|]].
      change (sp (ssd f)) with (spp f). lia. }
    split; try apply G; try done.
    - unfold Ssd.blk_at in Hblk. destruct (Ssd.lun_at _ _ _); [done|discriminate].
    - split; [apply G|apply (fb_xfer _ _ _ B)]. }
  destruct (Ssd.ssd_advance_nand_here (ssd f) cmd Hok (fb_timing _ _ _ B) clk t (ssd f) eq_refl)
    as (z & t' & s' & E & [Hstep Hok'] & _).
  exists z, t', (set_ssd f s'). unfold zoom_ssd, zoom. rewrite E. split; [done|]. by eapply ticked_timing.
Qed.

Section Gc.
Context (a : line_mode) (v : ptr) (f0 : conv_ftl).

Let s := spp f0.
Let b := blk_of s a v.
Let S0 := st (ssd f0).

(** Live pages of the line not dealt with yet. *)
Definition live_left (X : coord -> bool) : Z :=
  count_range (fun k => S0 (page_of s a v k) = Some PG_VALID /\ X (page_of s a v k) = false) (ppl_of s a).

Definition mapped (f : conv_ftl) (lpn : Z) : Prop :=
  exists p, zget (maptbl f) lpn = Some p /\ mapped_ppa p = true.

Record gc_inv (X : coord -> bool) (F : Z -> Z -> bool) (f : conv_ftl) : Prop := {
  gi_spp : spp f = s;
  gi_cp : cp f = cp f0;
  gi_wfc : wfc f = wfc f0;
  gi_wb : Ssd.write_buffer (ssd f) = Ssd.write_buffer (ssd f0);
  gi_base : ftl_base settled (victim a v) f;
  gi_map : map_ok s (st (ssd f)) (fun x => X x = true) (maptbl f) (rmap f);
  gi_X x : X x = true -> x.1.2 = b;
  gi_line c l g : in_range s (c, l, b, g) ->
    st (ssd f) (c, l, b, g) = if F c l then Some PG_FREE else S0 (c, l, b, g);
  gi_space : space f TLC_MODE = space f0 TLC_MODE - live_left (fun _ => false) + live_left X;
  gi_slc : wp_of f SLC_MODE = wp_of f0 SLC_MODE /\ free_lines f SLC_MODE = free_lines f0 SLC_MODE;
  gi_dom lpn : mapped f lpn <-> mapped f0 lpn;
  gi_dyn : dyn_slc_mode f = dyn_slc_mode f0 \/ dyn_slc_mode f = TLC_MODE;
}.

Context (G : slc_geometry s) (Hv : (v < Z.to_nat (nlines_of s a))%nat).
Context (Hused : forall x, in_range s x -> x.1.2 = b -> S0 x <> Some PG_FREE).
Context (Hroom : live_left (fun _ => false) + 1 <= space f0 TLC_MODE).
Context (Hdyn : dyn_slc_mode f0 = a).

Lemma live_left_ext X X' : (forall x, in_range s x -> x.1.2 = b -> X' x = X x) -> live_left X' = live_left X.
Proof.
  intros H. apply count_ext. intros k Hk. rewrite H; [done|by apply page_of_in_range|].
  by apply (page_of_blk s G).
Qed.

Lemma gc_inv_ext X X' F F' f :
  (forall x, in_range s x -> X' x = X x) -> (forall x, X' x = true -> x.1.2 = b) ->
  (forall c l, 0 <= c < nchs s -> 0 <= l < luns_per_ch s -> F' c l = F c l) ->
  gc_inv X F f -> gc_inv X' F' f.
Proof.
  intros HX HXb HF [I1 I2 I3 I4 I5 I6 I7 I8 I9 I10 I11 I12]. split; try done.
  - eapply (map_ok_live s (st (ssd f))); [|exact I6]. intros x Hx. cbn. by rewrite HX.
  - intros c l g Hx. rewrite I8 by done. rewrite HF; [done|by destruct Hx|by destruct Hx as (_ & ? & _)].
  - by rewrite (live_left_ext X X') by (intros; by apply HX).
Qed.

(** A page that holds no live data needs no copy. *)
Definition add (y : coord) (X : coord -> bool) : coord -> bool := fun x => bool_decide (x = y) || X x.

Lemma add_ne y X x : x <> y -> add y X x = X x.
Proof. intros H. unfold add. by rewrite bool_decide_false. Qed.
Lemma add_eq y X : add y X y = true.
Proof. unfold add. by rewrite bool_decide_true. Qed.
Lemma add_true y X x : add y X x = true <-> x = y \/ X x = true.
Proof. unfold add. rewrite orb_true_iff, bool_decide_eq_true. done. Qed.

Lemma live_left_add y X : in_range s y -> y.1.2 = b -> X y = false ->
  live_left (add y X) = live_left X - (if decide (S0 y = Some PG_VALID) then 1 else 0).
Proof.
  intros Hy Hyb HXy. destruct (page_is_position s G y Hy) as (a' & p' & k0 & Ey & Hp' & Hk0 & _ & Hb').
  assert (a' = a /\ p' = v) as [-> ->] by (apply (blk_of_inj s G); try done; by transitivity y.1.2).
  unfold live_left. rewrite (count_upd (fun k => S0 (page_of s a v k) = Some PG_VALID /\ X (page_of s a v k) = false)
    (fun k => S0 (page_of s a v k) = Some PG_VALID /\ add y X (page_of s a v k) = false) _ k0 Hk0).
  - cbv beta. rewrite <- Ey. rewrite (decide_False (P := _ /\ add y X y = false)) by (rewrite add_eq; by intros [_ ?]).
    destruct (decide (S0 y = Some PG_VALID)) as [E|E].
    + rewrite decide_True by done. lia.
    + rewrite decide_False by tauto. lia.
  - intros k Hk Hne. rewrite add_ne; [done|]. rewrite Ey. intros E. apply Hne. by apply (page_of_inj s G a v).
Qed.
Lemma gc_skip y X F f :
  gc_inv X F f -> in_range s y -> y.1.2 = b -> F y.1.1.1 y.1.1.2 = false -> S0 y <> Some PG_VALID ->
  gc_inv (add y X) F f.
Proof.
  intros I Hy Hyb HF Hnv. destruct (X y) eqn:HXy.
  { apply (gc_inv_ext X (add y X) F F); try done.
    - intros x _. destruct (decide (x = y)) as [->|Hne]; [by rewrite add_eq|by rewrite add_ne].
    - intros x [->|Hx]%add_true; [done|by apply (gi_X _ _ _ I)]. }
  assert (Hst : st (ssd f) y = S0 y).
  { destruct y as [[[c l] b'] g]. cbn in Hyb. subst b'. rewrite (gi_line _ _ _ I) by done. cbn in HF. by rewrite HF. }
  pose proof (live_left_add y X Hy Hyb HXy) as HL. rewrite decide_False in HL by done.
  destruct I as [I1 I2 I3 I4 I5 I6 I7 I8 I9 I10 I11 I12]. split; try done.
  - eapply (map_ok_live s (st (ssd f))); [|exact I6]. intros x Hx. cbn.
    destruct (decide (x = y)) as [->|Hne]; [|by rewrite add_ne]. rewrite Hst. tauto.
  - intros x [->|Hx]%add_true; [done|by apply I7].
  - lia.
Qed.

(** The open lines are not the victim. *)
Lemma cursor_not_victim d f a' : ftl_base d (victim a v) f -> spp f = s -> (cursor f a').1.2 <> b.
Proof.
  intros B Hs. destruct (area_lines _ _ _ B a') as (q & k & W & L & _).
  destruct (wp_range _ _ _ B a' q k W) as [Hk ->]. pose proof (wp_line _ _ _ B a' q k W) as Hq.
  pose proof (fb_geo _ _ _ B) as G'. rewrite (page_of_blk _ G' a' q k Hk). rewrite Hs in *. intros E.
  destruct (blk_of_inj s G a' q a v Hq Hv E) as [-> ->].
  apply (cur_not_fl _ _ G _ _ _ _ _ L). unfold victim. rewrite decide_True by done. by left.
Qed.

Lemma gc_move_spec X F f p y :
  gc_inv X F f -> cof p = y -> g_pl p = 0 -> in_range s y -> y.1.2 = b -> F y.1.1.1 y.1.1.2 = false ->
  X y = false -> S0 y = Some PG_VALID ->
  exists f', gc_move_page f p = Ok (pof (cursor f TLC_MODE), f') /\ gc_inv (add y X) F f' /\
    in_range s (cursor f TLC_MODE).
Proof.
  intros I Hcof Hpl Hy Hyb HF HXy HSy. pose proof (gi_base _ _ _ I) as B. pose proof (gi_spp _ _ _ I) as Hs.
  pose proof (gi_map _ _ _ I) as M. pose proof (fb_mode _ _ _ B) as Hm.
  assert (Hst : st (ssd f) y = Some PG_VALID).
  { destruct y as [[[c l] b'] g]. cbn in Hyb. subst b'. rewrite (gi_line _ _ _ I) by done. cbn in HF. by rewrite HF. }
  assert (~ X y = true) as HnX by (by rewrite HXy).
  destruct (mo_bwd _ _ _ _ _ M y Hy Hst HnX) as (lpn & Hr & Hmt).
  pose proof (zget_range _ _ _ Hmt) as Hl. rewrite (mo_len _ _ _ _ _ M) in Hl.
  set (c := cursor f TLC_MODE).
  assert (Hc : in_range s c) by (rewrite <- Hs; apply (cursor_in_range _ _ _ B)).
  assert (Hcb : c.1.2 <> b) by (by apply (cursor_not_victim _ f TLC_MODE B)).
  set (f1 := set_maptbl f (zset (maptbl f) lpn (pof c))).
  set (f2 := set_rmap f1 (zset (rmap f) (pgidx s c) lpn)).
  assert (B2 : ftl_base settled (victim a v) f2) by (by apply base_set_rmap, base_set_maptbl).
  destruct (mark_valid_spec _ f2 TLC_MODE B2) as (f3 & E3 & B3 & S3 & Hfree & K3 & P3).
  change (cursor f2 TLC_MODE) with c in E3, S3, Hfree. change (ssd f2) with (ssd f) in S3, Hfree.
  change (spp f2) with (spp f) in S3. rewrite Hs in S3.
  set (f4 := set_copy_cnt f3 (u64 (copy_cnt f3 + 1))).
  assert (B4 : ftl_base (pending TLC_MODE) (victim a v) f4) by (by apply base_set_copy_cnt).
  assert (Hs3 : spp f3 = s) by (rewrite (kp_spp _ _ K3); exact Hs).
  assert (Hsp4 : space f4 TLC_MODE = space f TLC_MODE).
  { apply space_same; [by rewrite Hs; exact Hs3| |].
    - change (wp_of f4 TLC_MODE) with (wp_of f3 TLC_MODE). apply (sl_wp _ _ P3).
    - change (free_lines f4 TLC_MODE) with (free_lines f3 TLC_MODE). apply (sl_free _ _ P3). }
  pose proof (live_left_add y X Hy Hyb HXy) as HL. rewrite decide_True in HL by done.
  pose proof (count_nonneg (fun k => S0 (page_of s a v k) = Some PG_VALID /\ add y X (page_of s a v k) = false)
     (ppl_of s a)) as Hnn. fold (live_left (add y X)) in Hnn.
  pose proof (gi_space _ _ _ I) as Hspace.
  destruct (advance_spec _ f4 TLC_MODE B4) as (f5 & E5 & B5 & A5); [lia|].
  pose proof (av_keeps _ _ _ A5) as K5. pose proof (av_ssd _ _ _ A5) as Hssd5.
  assert (Hmt5 : maptbl f5 = zset (maptbl f) lpn (pof c)) by (rewrite (kp_maptbl _ _ K5); apply (kp_maptbl _ _ K3)).
  assert (Hrm5 : rmap f5 = zset (rmap f) (pgidx s c) lpn) by (rewrite (kp_rmap _ _ K5); apply (kp_rmap _ _ K3)).
  assert (Hst5 : forall x, in_range s x -> st (ssd f5) x = st_upd (st (ssd f)) c PG_VALID x)
    by (intros x Hx; rewrite Hssd5; by apply S3).
  destruct (av_other _ _ _ A5 SLC_MODE) as [Hw5 Hl5]; [done|].
  assert (Hyc : y <> c) by (intros ->; done).
  exists f5. split; [|split; [|done]].
  - unfold gc_move_page. rewrite <- Hs in G, Hy, Hc. rewrite Hs in Hc.
    assert (get_rmap_ent f p = Ok lpn) as ->.
    { unfold get_rmap_ent. rewrite (ppa2pgidx_ok f G Hm) by (rewrite ?Hcof; done). cbn [rbind]. rewrite Hcof.
      apply aget_ok. by rewrite Hs. }
    cbn [rbind]. unfold valid_lpn, rassert. rewrite Hs. replace (lpn <? tt_pgs s) with true by lia. cbn [rbind].
    change GC_IO with (io_of TLC_MODE). rewrite (get_new_page_spec _ _ _ B TLC_MODE). cbn [rbind]. fold c.
    rewrite (set_maptbl_ok f) by (rewrite ?Hs, ?(mo_len _ _ _ _ _ M); done). cbn [rbind]. fold f1.
    rewrite (set_rmap_ok f1 G Hm); change (spp f1) with (spp f); rewrite ?Hs; [|done|apply (mo_rlen _ _ _ _ _ M)].
    cbn [rbind]. change (rmap f1) with (rmap f). fold f2. rewrite E3. cbn [rbind]. fold f4. rewrite E5. done.
  - split.
    + rewrite (kp_spp _ _ K5). exact Hs3.
    + rewrite (kp_cp _ _ K5). change (cp f4) with (cp f3). rewrite (kp_cp _ _ K3). apply (gi_cp _ _ _ I).
    + rewrite (kp_wfc _ _ K5). change (wfc f4) with (wfc f3). rewrite (kp_wfc _ _ K3). apply (gi_wfc _ _ _ I).
    + rewrite (kp_wb _ _ K5). change (ssd f4) with (ssd f3). rewrite (kp_wb _ _ K3). apply (gi_wb _ _ _ I).
    + done.
    + rewrite Hmt5, Hrm5. apply (map_remap s G (st (ssd f)) _ (fun x => X x = true)); try done.
      * by rewrite Hfree.
      * rewrite Hst5 by done. unfold st_upd. by rewrite decide_True.
      * intros [E|E]%add_true; [by apply Hyc|]. by apply (gi_X _ _ _ I) in E.
      * intros x Hx Hxc. rewrite Hst5 by done. unfold st_upd. rewrite decide_False, add_true by done. split.
        -- intros [Hxv Hn]. split; [done|]. split; [tauto|]. intros Hxr. apply Hn. left.
           apply (map_unique s (st (ssd f)) (fun x => X x = true) (maptbl f) (rmap f) x y lpn M); try done. tauto.
        -- intros (Hxv & HnX' & Hxr). split; [done|]. intros [->|HX']; [|done]. congruence.
    + intros x [->|Hx]%add_true; [done|by apply (gi_X _ _ _ I)].
    + intros cc l g Hx. rewrite Hst5 by done. unfold st_upd. rewrite decide_False; [by apply (gi_line _ _ _ I)|].
      intros E. apply Hcb. by rewrite <- E.
    + rewrite (av_space _ _ _ A5). lia.
    + destruct (gi_slc _ _ _ I) as [<- <-]. unfold free_lines. rewrite Hw5, Hl5.
      change (wp_of f4 SLC_MODE) with (wp_of f3 SLC_MODE). change (get_lm f4 SLC_MODE) with (get_lm f3 SLC_MODE).
      split; [apply (sl_wp _ _ P3 SLC_MODE)|apply (sl_free _ _ P3 SLC_MODE)].
    + intros n. rewrite <- (gi_dom _ _ _ I n). unfold mapped. rewrite Hmt5.
      destruct (decide (lpn = n)) as [<-|Hne]; [|by rewrite zget_zset_ne].
      rewrite zget_zset_eq by (rewrite (mo_len _ _ _ _ _ M); lia).
      split; intros _; eexists; (split; [done|]); by apply (pof_mapped s G).
    + destruct (av_dyn _ _ _ A5) as [E|E]; [|by right]. rewrite E. change (dyn_slc_mode f4) with (dyn_slc_mode f3).
      rewrite (sl_dyn _ _ P3). apply (gi_dyn _ _ _ I).
Qed.
Lemma gc_inv_ticked X F f f' : gc_inv X F f -> ticked f f' -> gc_inv X F f'.
Proof.
  intros I T. destruct (ticked_keeps _ _ T) as (K & P & Ha & Hd).
  pose proof (base_ticked _ _ f f' (gi_base _ _ _ I) T) as HB. destruct T as [_ T2 T3 T4 T5 T6].
  destruct I as [I1 I2 I3 I4 I5 I6 I7 I8 I9 I10 I11 I12].
  split; try done.
  - by rewrite T2.
  - by rewrite (kp_cp _ _ K).
  - by rewrite (kp_wfc _ _ K).
  - by rewrite T3.
  - rewrite (kp_maptbl _ _ K), (kp_rmap _ _ K).
    eapply (map_ok_live s (st (ssd f))); [|exact I6]. intros x _. by rewrite T4.
  - intros c l g Hx. rewrite T4. by apply I8.
  - by rewrite (space_same f f' TLC_MODE T2 (sl_wp _ _ P _) (sl_free _ _ P _)).
  - rewrite (sl_wp _ _ P), (sl_free _ _ P). done.
  - intros n. rewrite <- I11. unfold mapped. by rewrite (kp_maptbl _ _ K).
  - by rewrite Hd.
Qed.

(** *** One page *)
Lemma gc_write_cmd_ok f q : spp f = s ->
  exists cmd, gc_write_cmd f q = Ok cmd /\ nc_ppa cmd = q /\ nc_cmd cmd <> NAND_READ /\
    (nc_cmd cmd = NAND_WRITE -> is_Some (nc_xfer_size cmd)).
Proof.
  intros Hs. unfold gc_write_cmd, last_pg_in_wordline. rewrite Hs. pose proof (geo_oneshot _ G).
  replace (pgs_per_oneshotpg s =? 0) with false by lia. cbn [rbind]. eexists. split; [done|].
  case_match; by (split; [done|]; split; [done|]; eauto).
Qed.

Lemma gc_write_page_spec X F p y :
  cof p = y -> g_pl p = 0 -> in_range s y -> y.1.2 = b -> F y.1.1.1 y.1.1.2 = false ->
  X y = false -> S0 y = Some PG_VALID ->
  hoare (gc_inv X F) (gc_write_page p) (fun _ => gc_inv (add y X) F).
Proof.
  intros Hcof Hpl Hy Hyb HF HXy HSy clk t f I.
  destruct (gc_move_spec X F f p y I Hcof Hpl Hy Hyb HF HXy HSy) as (f1 & E1 & I1 & Hc).
  set (q := pof (cursor f TLC_MODE)) in *. unfold gc_write_page.
  rewrite (run_update_get _ _ _ _ _ _ _ E1), run_get.
  destruct (enable_gc_delay (cp f1)); [|by exists 0, t, f1].
  destruct (gc_write_cmd_ok f1 q (gi_spp _ _ _ I1)) as (cmd & E2 & Eq & Hnr & Hw).
  rewrite run_bind_assoc, (run_lift _ _ _ _ _ _ E2), run_bind_assoc.
  destruct (nand_ticked _ _ f1 cmd clk t (gi_base _ _ _ I1)) as (z & t' & f2 & E3 & T); [..|done|done|].
  1-3: rewrite ?(gi_spp _ _ _ I1), Eq; unfold q; destruct (cursor f TLC_MODE) as [[[cc cl] cb] cg];
    destruct Hc as (? & ? & ? & ?); cbn; pose proof (ppb_bits s G (area_of s cb)); lia.
  rewrite (run_bind _ _ _ _ _ _ _ _ E3), run_ret. exists 0, t', f2. split; [done|]. by eapply gc_inv_ticked.
Qed.

(** *** The pages of one flash page *)
Context (c l : Z) (Hc : 0 <= c < nchs s) (Hl : 0 <= l < luns_per_ch s).

Definition pages (g n : Z) (X : coord -> bool) : coord -> bool := fun x =>
  bool_decide (x.1 = (c, l, b) /\ g <= x.2 < g + n) || X x.

Lemma pages_true g n X x : pages g n X x = true <-> (x.1 = (c, l, b) /\ g <= x.2 < g + n) \/ X x = true.
Proof. unfold pages. rewrite orb_true_iff, bool_decide_eq_true. done. Qed.

Lemma pages_next g n X x : 0 <= n -> pages (g + 1) n (add (c, l, b, g) X) x = pages g (n + 1) X x.
Proof.
  intros Hn. apply eq_true_iff_eq. rewrite !pages_true, add_true. split.
  - intros [[? ?]|[->|?]]; [left; split; [done|lia]|left; split; [done|cbn; lia]|by right].
  - intros [[E Hg]|?]; [|tauto]. destruct (decide (x.2 = g)) as [Eg|]; [|left; split; [done|lia]].
    right. left. destruct x as [x1 x2]. cbn in *. congruence.
Qed.

Lemma pages_ext g n X X' F f :
  (forall x, in_range s x -> X' x = pages g n X x) -> (forall x, X' x = true -> x.1.2 = b) ->
  gc_inv (pages g n X) F f -> gc_inv X' F f.
Proof. intros HX Hb. by apply gc_inv_ext. Qed.

Lemma page_in_line g : 0 <= g < ppb_of s a -> in_range s (c, l, b, g).
Proof.
  intros Hg. pose proof (blk_of_range s G a v Hv). unfold in_range, b. rewrite area_of_blk_of by done. done.
Qed.

Lemma at_pg_cof p g : cof p = (c, l, b, g) -> 0 <= g + 1 < 2 ^ 16 ->
  cof (at_pg p (g_pg p + 1)) = (c, l, b, g + 1) /\ g_pl (at_pg p (g_pg p + 1)) = g_pl p.
Proof.
  unfold cof, at_pg. cbn. intros [= <- <- <- <-] Hg. rewrite Z.mod_small by done. done.
Qed.

Lemma gc_page_read X F f p g :
  gc_inv X F f -> cof p = (c, l, b, g) -> g_pl p = 0 -> 0 <= g < ppb_of s a -> F c l = false ->
  exists x, Ssd.get_pg (ssd f) p = Ok x /\ S0 (c, l, b, g) = Some (Ssd.status x).
Proof.
  intros I Hcof Hpl Hg HF. pose proof (gi_spp _ _ _ I) as Hs. pose proof (page_in_line g Hg) as Hr.
  destruct (media_page (ssd f) p (fb_media _ _ _ (gi_base _ _ _ I))) as (y & x & _ & _ & _ & E & Hst); [|done|].
  - change (sp (ssd f)) with (spp f). by rewrite Hs, Hcof.
  - exists x. split; [done|]. rewrite <- Hst, Hcof, (gi_line _ _ _ I) by done. by rewrite HF.
Qed.

Lemma count_valid_spec X F f n p g :
  gc_inv X F f -> F c l = false -> 0 <= g -> g + Z.of_nat n <= ppb_of s a ->
  (n = 0%nat \/ (cof p = (c, l, b, g) /\ g_pl p = 0)) ->
  exists cnt, count_valid f n p = Ok cnt /\ 0 <= cnt /\
    (cnt <= 0 -> forall i, g <= i < g + Z.of_nat n -> S0 (c, l, b, i) <> Some PG_VALID).
Proof.
  intros I HF. revert p g. induction n as [|n IH]; intros p g Hg0 Hg Hp; cbn [count_valid].
  - exists 0. split; [done|]. split; [done|]. intros _ i Hi. lia.
  - destruct Hp as [|[Hcof Hpl]]; [done|]. pose proof (ppb_bits s G a) as Hbits.
    destruct (gc_page_read X F f p g I Hcof Hpl) as (x & -> & HS); [lia|done|]. cbn [rbind].
    assert (Ssd.status x <> PG_FREE) as Hnf.
    { intros E. apply (Hused (c, l, b, g)); [apply page_in_line; lia|done|congruence]. }
    rewrite bool_decide_false by done. cbn [negb rassert rbind].
    destruct (IH (at_pg p (g_pg p + 1)) (g + 1)) as (cnt & -> & Hcnt & Hno); [lia..| |].
    { destruct n as [|n]; [by left|right]. destruct (at_pg_cof p g Hcof) as [-> ->]; [lia|done]. }
    cbn [rbind]. eexists. split; [done|]. case_bool_decide as Hv'; (split; [lia|]); intros Hle i Hi; [lia|].
    destruct (decide (i = g)) as [->|]; [congruence|]. apply Hno; lia.
Qed.

Lemma count_valid_le f n p cnt : count_valid f n p = Ok cnt -> cnt <= Z.of_nat n.
Proof.
  revert p cnt. induction n as [|n IH]; intros p cnt H; cbn [count_valid] in H; inv_res; [lia|].
  match goal with E : count_valid _ _ _ = Ok _ |- _ => apply IH in E end.
  rewrite Nat2Z.inj_succ. clear -E1. destruct (bool_decide (Ssd.status r = PG_VALID)); lia.
Qed.

Lemma gc_skip_pages X F f n g :
  gc_inv X F f -> F c l = false -> 0 <= g -> g + Z.of_nat n <= ppb_of s a ->
  (forall i, g <= i < g + Z.of_nat n -> S0 (c, l, b, i) <> Some PG_VALID) ->
  gc_inv (pages g (Z.of_nat n) X) F f.
Proof.
  revert X g. induction n as [|n IH]; intros X g I HF Hg0 Hg Hno.
  - apply (gc_inv_ext X _ F F); try done.
    + intros x _. apply eq_true_iff_eq. rewrite pages_true. split; [intros [[_ ?]|?]; [lia|done]|tauto].
    + intros x [[E _]|Hx]%pages_true; [by rewrite E|by apply (gi_X _ _ _ I)].
  - assert (I1 : gc_inv (add (c, l, b, g) X) F f).
    { apply gc_skip; try done; [apply page_in_line; lia|]. apply Hno. lia. }
    assert (I2 : gc_inv (pages (g + 1) (Z.of_nat n) (add (c, l, b, g) X)) F f).
    { apply IH; try done; [lia..|]. intros i Hi. apply Hno. lia. }
    eapply pages_ext; [| |exact I2].
    + intros x _. rewrite pages_next by lia. f_equal. lia.
    + intros x [[E _]|Hx]%pages_true; [by rewrite E|by apply (gi_X _ _ _ I)].
Qed.

Lemma copy_valid_spec X F n p g :
  F c l = false -> 0 <= g -> g + Z.of_nat n <= ppb_of s a ->
  (n = 0%nat \/ (cof p = (c, l, b, g) /\ g_pl p = 0)) ->
  (forall i, g <= i < g + Z.of_nat n -> X (c, l, b, i) = false) ->
  hoare (gc_inv X F) (copy_valid n p) (fun _ => gc_inv (pages g (Z.of_nat n) X) F).
Proof.
  intros HF. revert X p g. induction n as [|n IH]; intros X p g Hg0 Hg Hp HX; cbn [copy_valid].
  - intros clk t f I. exists tt, t, f. split; [done|].
    apply (gc_skip_pages X F f 0); try done. intros i Hi. lia.
  - destruct Hp as [|[Hcof Hpl]]; [done|]. pose proof (ppb_bits s G a) as Hbits. pose proof (page_in_line g) as Hr.
    intros clk t f I. rewrite run_get.
    destruct (gc_page_read X F f p g I Hcof Hpl) as (x & Ex & HS); [lia|done|].
    rewrite (run_lift _ _ _ _ _ _ Ex).
    assert (exists t' f', when (bool_decide (Ssd.status x = PG_VALID)) (gc_write_page p ;; ret tt) clk t f
      = Ok (tt, t', f') /\ gc_inv (add (c, l, b, g) X) F f') as (t1 & f1 & E1 & I1).
    { case_bool_decide as Hv'; cbn [when].
      - destruct (gc_write_page_spec X F p (c, l, b, g) Hcof Hpl) with (c := clk) (t := t) (s := f)
          as (z & t1 & f1 & E1 & I1); try done; [apply Hr; lia|apply HX; lia|congruence|].
        rewrite (run_bind _ _ _ _ _ _ _ _ E1). by exists t1, f1.
      - exists t, f. split; [done|]. apply gc_skip; try done; [apply Hr; lia|congruence]. }
    rewrite (run_bind _ _ _ _ _ _ _ _ E1).
    destruct (IH (add (c, l, b, g) X) (at_pg p (g_pg p + 1)) (g + 1)) with (c := clk) (t := t1) (s := f1)
      as ([] & t2 & f2 & E2 & I2); [lia..| | |done|].
    { destruct n as [|n]; [by left|right]. destruct (at_pg_cof p g Hcof) as [-> ->]; [lia|done]. }
    { intros i Hi. rewrite add_ne; [apply HX; lia|]. intros [= ->]. lia. }
    exists tt, t2, f2. split; [done|]. eapply pages_ext; [| |exact I2].
    + intros y _. rewrite pages_next by lia. f_equal. lia.
    + intros y [[E _]|Hx]%pages_true; [by rewrite E|by apply (gi_X _ _ _ I)].
Qed.

(** *** A flash page *)
Lemma gc_slc_assert X F f : gc_inv X F f ->
  (is_slc (slc_mode f) && is_slc (dyn_slc_mode f)) = true -> b < tt_lines_slc s.
Proof.
  intros I H. apply andb_true_iff in H as [_ H]. unfold is_slc in H. apply bool_decide_eq_true in H.
  assert (a = SLC_MODE) as Ha.
  { destruct (gi_dyn _ _ _ I) as [E|E]; [congruence|]. rewrite E in H. done. }
  pose proof (nlines_pos s G a). unfold b, blk_of. rewrite Ha in *. cbn in *. lia.
Qed.

Lemma clean_one_flashpg_spec X F p g :
  F c l = false -> 0 <= g -> g + pgs_per_flashpg s <= ppb_of s a -> cof p = (c, l, b, g) -> g_pl p = 0 ->
  (forall i, g <= i < g + pgs_per_flashpg s -> X (c, l, b, i) = false) ->
  hoare (gc_inv X F) (clean_one_flashpg p) (fun _ => gc_inv (pages g (pgs_per_flashpg s) X) F).
Proof.
  intros HF Hg0 Hg Hcof Hpl HX clk t f I. pose proof (gi_spp _ _ _ I) as Hs. pose proof (geo_flash _ G) as Hfl.
  pose proof (geo_flash_size _ G) as Hfs. pose proof (geo_pgsz _ G) as Hpz. pose proof (ppb_bits s G a) as Hbits.
  unfold clean_one_flashpg. rewrite run_get. rewrite Hs. set (slc := is_slc (slc_mode f) && is_slc (dyn_slc_mode f)).
  assert (Hb0 : g_blk p = b) by (unfold cof in Hcof; congruence).
  rewrite (run_bind _ _ _ _ _ tt t f).
  2:{ destruct slc eqn:E; [|done]. unfold assert. rewrite Hb0.
      pose proof (gc_slc_assert X F f I E) as Hlt. by replace (b <? tt_lines_slc s) with true by lia. }
  set (n := Z.to_nat (pgs_per_flashpg s)). assert (Z.of_nat n = pgs_per_flashpg s) as Hn by lia.
  destruct (count_valid_spec X F f n p g I HF Hg0) as (cnt & Ecnt & Hcnt0 & Hno); [lia|by right|].
  pose proof (count_valid_le f n p cnt Ecnt) as Hle.
  rewrite (run_lift _ _ _ _ _ _ Ecnt). rewrite <- Hn in *. destruct (Z.leb_spec cnt 0) as [Hc0|Hc0].
  - exists tt, t, f. split; [done|]. apply gc_skip_pages; try done. by apply Hno.
  - assert (exists t1 f1, when (enable_gc_delay (cp f)) (zoom_ssd (ssd_advance_nand
        (mk_cmd (if slc then USER_IO else GC_IO) NAND_READ (Some (u64 (i32 (pgsz s * cnt)))) 0 false p)) ;; ret tt)
        clk t f = Ok (tt, t1, f1) /\ gc_inv X F f1) as (t1 & f1 & E1 & I1).
    { destruct (enable_gc_delay (cp f)); cbn [when]; [|by exists t, f].
      set (cmd := mk_cmd _ _ _ _ _ _). pose proof Hcof as Hco. unfold cof in Hco. injection Hco as Hcc Hcl _ Hcg.
      destruct (nand_ticked _ _ f cmd clk t (gi_base _ _ _ I)) as (z & t1 & f1 & E1 & T); rewrite ?Hs; cbn [Ssd.nc_ppa Ssd.nc_cmd Ssd.nc_xfer_size cmd];
        [by rewrite Hcc|by rewrite Hcl|rewrite Hcg; lia| |done|].
      - intros _. eexists. split; [done|]. rewrite i32_id by nia. rewrite u64_id by nia. nia.
      - rewrite (run_bind _ _ _ _ _ _ _ _ E1). exists t1, f1. split; [done|]. by eapply gc_inv_ticked. }
    rewrite (run_bind _ _ _ _ _ _ _ _ E1). apply copy_valid_spec; try done; lia || by right.
Qed.
(** *** A block is reset *)
Lemma base_victim_status d f s2 :
  ftl_base d (victim a v) f -> spp f = s -> sp s2 = sp (ssd f) -> media_ok s2 -> timing_ok s2 ->
  (forall z, in_range s z -> z.1.2 <> b -> st s2 z = st (ssd f) z) -> ftl_base d (victim a v) (set_ssd f s2).
Proof.
  intros B Hs Hsp Hm Ht Hst. split; try apply B; try done.
  1, 2: change (spp (set_ssd f s2)) with (sp s2); rewrite Hsp; apply B.
  intros a'. change (spp (set_ssd f s2)) with (sp s2). rewrite Hsp. change (sp (ssd f)) with (spp f). rewrite Hs.
  destruct (fb_area _ _ _ B a') as (q & k & W & L & C). rewrite Hs in *. exists q, k.
  replace (get_lm (set_ssd f s2) a') with (get_lm f a') by (by destruct a').
  replace (wp_of (set_ssd f s2) a') with (wp_of f a') by (by destruct a'). split; [done|].
  assert (He : forall r j, (r < Z.to_nat (nlines_of s a'))%nat -> 0 <= j < ppl_of s a' -> (a', r) <> (a, v) ->
    lst s (st s2) a' r j = lst s (st (ssd f)) a' r j).
  { intros r j Hr Hj Hne. apply Hst; [by apply page_of_in_range|]. rewrite (page_of_blk s G a' r j Hj). intros E.
    apply Hne. destruct (blk_of_inj s G a' r a v Hr Hv E) as [-> ->]. done. }
  destruct (decide (a' = a)) as [->|Hne].
  - unfold victim in *. rewrite decide_True in * by done. split.
    + eapply (lb_status_fl s a G _ (st s2)); [exact L|by left| |].
      * intros r j Hrv Hr Hj. apply He; [done..|congruence].
      * intros j Hj. apply st_total; [done|]. rewrite Hsp. change (sp (ssd f)) with (spp f). rewrite Hs.
        by apply page_of_in_range.
    + intros r l' Hr Hx. destruct (C r l' Hr Hx) as [-> ->]. apply lookup_lt_Some in Hr.
      rewrite (lb_len _ _ _ _ _ _ _ L) in Hr.
      split; symmetry; apply lcnt_ext; intros j Hj; (apply He; [done..|congruence]).
  - split.
    + eapply (lb_ext s a' G (st (ssd f))); [|exact L]. intros r j Hr Hj. apply He; [done..|congruence].
    + eapply (cnt_ext s a' (st (ssd f))); [|apply (lb_len _ _ _ _ _ _ _ L)|exact C].
      intros r j Hr Hj. apply He; [done..|congruence].
Qed.

Definition add_die (F : Z -> Z -> bool) : Z -> Z -> bool := fun c' l' => bool_decide ((c', l') = (c, l)) || F c' l'.

Lemma gc_free_block X F f p :
  gc_inv X F f -> g_ch p = c -> g_lun p = l -> g_blk p = b -> g_pl p = 0 ->
  (forall g, 0 <= g < ppb_of s a -> X (c, l, b, g) = true) ->
  exists f', mark_block_free f p = Ok f' /\ gc_inv X (add_die F) f'.
Proof.
  intros I Hpc Hpl Hpb Hpp HX. pose proof (gi_spp _ _ _ I) as Hs. pose proof (gi_base _ _ _ I) as B.
  pose proof (blk_of_range s G a v Hv) as Hbr. fold b in Hbr.
  assert (Hab : area_of s b = a) by (by apply area_of_blk_of).
  destruct (media_reset (ssd f) p (ppb_of s a) (fb_media _ _ _ B) (fb_timing _ _ _ B)) as (s2 & E & [M1 M2 M3 M4 M5]).
  { change (sp (ssd f)) with (spp f). rewrite Hs, Hpc, Hpl, Hpb. done. }
  { done. }
  { change (sp (ssd f)) with (spp f). by rewrite Hs, Hpb, Hab. }
  exists (set_ssd f s2). split.
  { unfold mark_block_free, mod_blk. rewrite (area_of_blk_eq f (fb_mode _ _ _ B)), cur_ppb_eq, Hs, Hpb, Hab.
    change (sp (ssd f)) with (spp f) in E. rewrite Hs in E. rewrite E. done. }
  change (sp (ssd f)) with (spp f) in M1, M5. rewrite Hs in M5. rewrite Hpc, Hpl, Hpb in M5.
  assert (Hother : forall z, in_range s z -> z.1.2 <> b -> st s2 z = st (ssd f) z).
  { intros [[[zc zl] zb] zg] Hz Hzb. rewrite M5 by done. cbn in Hzb. by rewrite decide_False by congruence. }
  assert (HB : ftl_base settled (victim a v) (set_ssd f s2)) by (by apply base_victim_status).
  destruct I as [I1 I2 I3 I4 I5 I6 I7 I8 I9 I10 I11 I12].
  assert (Hs2 : spp (set_ssd f s2) = s) by (unfold spp; cbn; by rewrite M1).
  split; try done.
  - cbn. by rewrite M2.
  - eapply (map_ok_live s (st (ssd f))); [|exact I6]. cbn [ssd set_ssd]. intros [[[zc zl] zb] zg] Hz. rewrite M5 by done.
    destruct (decide ((zc, zl, zb) = (c, l, b))) as [E'|E']; [|done]. injection E' as -> -> ->.
    destruct Hz as (_ & _ & _ & Hzg). rewrite Hab in Hzg. rewrite HX by done. split; [by intros [? _]|by intros [_ []]].
  - cbn [ssd set_ssd]. intros c' l' g Hz. rewrite M5 by done. unfold add_die.
    destruct (decide ((c', l') = (c, l))) as [E'|E'].
    + rewrite decide_True by congruence. by rewrite bool_decide_true.
    + rewrite decide_False by congruence. rewrite bool_decide_false by done. by apply I8.
  - rewrite <- I9. apply space_same; [by rewrite Hs2|done|done].
Qed.

(** *** The end of a die *)
Lemma gc_endtime_ok X F f p :
  gc_inv X F f -> g_ch p = c -> g_lun p = l -> exists f', set_die_gc_endtime p f = Ok f' /\ ticked f f'.
Proof.
  intros I Hpc Hpl. pose proof (gi_spp _ _ _ I) as Hs. pose proof (gi_base _ _ _ I) as B.
  destruct (fb_media _ _ _ B c l 0) as (blk & Hblk & _).
  { change (sp (ssd f)) with (spp f). rewrite Hs. pose proof (geo_slc _ G). pose proof (geo_tlc _ G).
    pose proof (geo_lines _ G). split; [done|split; [done|lia]]. }
  destruct (Ssd.lun_at (ssd f) c l) as [y|] eqn:Hy; [|unfold Ssd.blk_at in Hblk; by rewrite Hy in Hblk].
  destruct (Ssd.mod_lun_spec (ssd f) p (fun l => Ok (Ssd.set_gc_endtime l (Ssd.next_lun_avail_time l))) y
    (Ssd.set_gc_endtime y (Ssd.next_lun_avail_time y))) as (s2 & E & [L1 L2 L3 L4 L5 L6 L7]); [by rewrite Hpc, Hpl|done|].
  exists (set_ssd f s2). unfold set_die_gc_endtime. rewrite E. split; [done|].
  assert (Hblk2 : forall c' l' q j, Ssd.blk_at s2 c' l' q j = Ssd.blk_at (ssd f) c' l' q j).
  { intros c' l' q j. unfold Ssd.blk_at. rewrite L6. case_decide as E'; [|done]. injection E' as -> ->.
    rewrite Hpc, Hpl, Hy. by destruct y. }
  assert (Hst : forall x, st s2 x = st (ssd f) x) by (intros [[[xc xl] xb] xg]; unfold st; by rewrite Hblk2).
  split; try done.
  - by exists s2.
  - intros c' l' j. cbn [ssd set_ssd]. rewrite L1, Hblk2. apply (fb_media _ _ _ B).
  - destruct (fb_timing _ _ _ B) as [T1 T2]. split; cbn [ssd set_ssd]; [by rewrite L2|]. intros c' m'. rewrite L7. apply T2.
Qed.

Lemma gc_erase_die_spec X F io p :
  g_ch p = c -> g_lun p = l -> g_blk p = b -> g_pl p = 0 -> 0 <= g_pg p < 2 ^ 16 ->
  (forall g, 0 <= g < ppb_of s a -> X (c, l, b, g) = true) ->
  hoare (gc_inv X F) (gc_erase_die io p) (fun _ => gc_inv X (add_die F)).
Proof.
  intros Hpc Hpl Hpb Hpp Hpg HX clk t f I. unfold gc_erase_die. rewrite run_get.
  destruct (gc_free_block X F f p I Hpc Hpl Hpb Hpp HX) as (f1 & E1 & I1). rewrite (run_update _ _ _ _ _ _ E1).
  assert (exists t2 f2, when (enable_gc_delay (cp f)) (zoom_ssd (ssd_advance_nand (mk_cmd io NAND_ERASE None 0 false p)) ;; ret tt)
      clk t f1 = Ok (tt, t2, f2) /\ gc_inv X (add_die F) f2) as (t2 & f2 & E2 & I2).
  { destruct (enable_gc_delay (cp f)); cbn [when]; [|by exists t, f1].
    set (cmd := mk_cmd _ _ _ _ _ _). pose proof (gi_spp _ _ _ I1) as Hs.
    destruct (nand_ticked _ _ f1 cmd clk t (gi_base _ _ _ I1)) as (z & t2 & f2 & E2 & T);
      rewrite ?Hs; cbn [Ssd.nc_ppa Ssd.nc_cmd Ssd.nc_xfer_size cmd]; [by rewrite Hpc|by rewrite Hpl|done..|].
    rewrite (run_bind _ _ _ _ _ _ _ _ E2). exists t2, f2. split; [done|]. by eapply gc_inv_ticked. }
  rewrite (run_bind _ _ _ _ _ _ _ _ E2).
  destruct (gc_endtime_ok _ _ f2 p I2 Hpc Hpl) as (f3 & E3 & T). unfold update. rewrite E3.
  exists tt, t2, f3. split; [done|]. by eapply gc_inv_ticked.
Qed.
End Gc.
