(* ===== verification/ConvCollect.v ===== *)
(** * Collecting a line

    The three nested loops of [do_gc] over the rows, channels and dies of a
    victim line, and the line's return to the free list: from [gc_inv] with
    nothing done to [gc_inv] with every page moved and every block reset, and
    from there to the invariant of a quiet partition. *)

From Stdlib Require Import ZArith Lia.
From stdpp Require Import base list numbers sets.
From S2P Require Import Prelude PQueue Config SsdParams ConvFtl Geometry Media Lines ConvInv ConvWp ConvMark ConvWrite ConvGc.
From S2P Require Ssd.
Import Ssd (ppa, mk_ppa, g_pg, g_blk, g_pl, g_lun, g_ch, g_rsv, sp, page_status, PG_FREE, PG_INVALID,
  PG_VALID, USER_IO, GC_IO, timing_ok, INVALID_LPN).

Section Collect.
Context (a : line_mode) (v : ptr) (f0 : conv_ftl).

Let s := spp f0.
Let b := blk_of s a v.
Let S0 := st (ssd f0).

Context (G : slc_geometry s) (Hv : (v < Z.to_nat (nlines_of s a))%nat).
Context (Hused : forall x, in_range s x -> x.1.2 = b -> S0 x <> Some PG_FREE).
Context (Hroom : live_left a v f0 (fun _ => false) + 1 <= space f0 TLC_MODE).
Context (Hdyn : dyn_slc_mode f0 = a).

Let nch := nchs s.
Let nl := luns_per_ch s.
Let fp := pgs_per_flashpg s.
Let rows := rows_of s a.

(** The number of flash pages visited before row [r] of die ([c], [l]). *)
Definition turn_no (r c l : Z) : Z := (r * nch + c) * nl + l.

Definition X_at (i : Z) (x : coord) : bool :=
  bool_decide (x.1.2 = b /\ turn_no (x.2 / fp) x.1.1.1 x.1.1.2 < i).
Definition F_at (i : Z) (c l : Z) : bool := bool_decide (turn_no (rows - 1) c l < i).

Lemma X_at_true i x : X_at i x = true <-> x.1.2 = b /\ turn_no (x.2 / fp) x.1.1.1 x.1.1.2 < i.
Proof. unfold X_at. by rewrite bool_decide_eq_true. Qed.
Lemma F_at_true i c l : F_at i c l = true <-> turn_no (rows - 1) c l < i.
Proof. unfold F_at. by rewrite bool_decide_eq_true. Qed.

Lemma geo_bounds : 1 <= nch /\ 1 <= nl /\ 1 <= fp /\ rows * fp = ppb_of s a /\ 1 <= rows.
Proof.
  pose proof (geo_nchs _ G). pose proof (geo_luns _ G). pose proof (geo_flash _ G).
  pose proof (rows_split s G a). pose proof (ppb_pos s G a). subst nch nl fp rows. cbn in *.
  split_and!; try lia.
Qed.

Lemma visit_inj r c l r' c' l' :
  0 <= c < nch -> 0 <= l < nl -> 0 <= c' < nch -> 0 <= l' < nl ->
  turn_no r c l = turn_no r' c' l' -> r = r' /\ c = c' /\ l = l'.
Proof.
  unfold turn_no. intros Hc Hl Hc' Hl' E. apply radix_unique in E as [E ->]; [|done..].
  apply radix_unique in E as [-> ->]; done.
Qed.

Lemma visit_mono r r' c l : r <= r' -> turn_no r c l <= turn_no r' c l.
Proof.
  unfold turn_no. destruct geo_bounds as (Hn & Hl & _). intros Hr.
  pose proof (Z.mul_le_mono_nonneg_r r r' nch ltac:(lia) Hr) as H1.
  pose proof (Z.mul_le_mono_nonneg_r (r * nch + c) (r' * nch + c) nl ltac:(lia) ltac:(lia)). lia.
Qed.

Lemma row_of_page r g : 0 <= g < fp -> (r * fp + g) / fp = r.
Proof. intros Hg. by apply radix_div. Qed.

Lemma row_range g : 0 <= g < ppb_of s a -> 0 <= g / fp < rows.
Proof.
  intros Hg. pose proof geo_bounds as (_ & _ & ? & E & _). split; [apply Z.div_pos; lia|].
  apply Z.div_lt_upper_bound; lia.
Qed.

Section Step.
Context (r c l : Z) (Hr : 0 <= r < rows) (Hc : 0 <= c < nch) (Hl : 0 <= l < nl).
Let i := turn_no r c l.

Lemma X_step x : in_range s x -> X_at (i + 1) x = pages a v f0 c l (r * fp) fp (X_at i) x.
Proof.
  destruct x as [[[xc xl] xb] xg]. intros (Hxc & Hxl & Hxb & Hxg). pose proof geo_bounds as (_ & _ & Hfp & _ & _).
  apply eq_true_iff_eq. rewrite pages_true, !X_at_true. cbn [fst snd]. fold s. fold b. split.
  - intros [-> Hi]. destruct (decide (turn_no (xg / fp) xc xl = i)) as [E|E]; [left|right; split; [done|lia]].
    apply visit_inj in E as (E & -> & ->); try done. split; [done|].
    pose proof (Z_div_mod_eq_full xg fp). pose proof (Z.mod_pos_bound xg fp). lia.
  - intros [[[= -> -> ->] Hg]|[-> Hi]]; (split; [done|]); [|lia].
    replace xg with (r * fp + (xg - r * fp)) by lia. rewrite row_of_page by lia. unfold i. lia.
Qed.

Lemma X_step_blk x : X_at (i + 1) x = true -> x.1.2 = b.
Proof. by intros [? _]%X_at_true. Qed.

Lemma F_step c' l' : 0 <= c' < nch -> 0 <= l' < nl ->
  F_at (i + 1) c' l' = if decide (r = rows - 1) then add_die c l (F_at i) c' l' else F_at i c' l'.
Proof.
  intros Hc' Hl'. apply eq_true_iff_eq. case_decide as Hlast.
  - unfold add_die. rewrite orb_true_iff, bool_decide_eq_true, !F_at_true. unfold i. rewrite <- Hlast. split.
    + intros Hi. destruct (decide (turn_no r c' l' = turn_no r c l)) as [E|]; [left|right; lia].
      apply visit_inj in E as (_ & -> & ->); done.
    + intros [[= -> ->]|?]; lia.
  - rewrite !F_at_true. split; [|lia]. intros Hi. destruct (decide (turn_no (rows - 1) c' l' = i)) as [E|]; [|lia].
    apply visit_inj in E as (E & _ & _); [lia|done..].
Qed.

Lemma X_here j : r * fp <= j < r * fp + fp -> X_at i (c, l, b, j) = false.
Proof.
  intros Hj. unfold X_at. apply bool_decide_eq_false. cbn. intros [_ Hi].
  replace j with (r * fp + (j - r * fp)) in Hi by lia. rewrite row_of_page in Hi by lia. unfold i in Hi. lia.
Qed.

Lemma F_here : F_at i c l = false.
Proof.
  unfold F_at. apply bool_decide_eq_false. pose proof (visit_mono r (rows - 1) c l ltac:(lia)). unfold i. lia.
Qed.

Lemma X_last g : r = rows - 1 -> 0 <= g < ppb_of s a -> X_at (i + 1) (c, l, b, g) = true.
Proof.
  intros Hlast Hg. apply X_at_true. cbn. split; [done|]. pose proof (row_range g Hg).
  pose proof (visit_mono (g / fp) r c l ltac:(lia)). unfold i. lia.
Qed.

(** The address the loops build for this flash page. *)
Lemma step_ppa rsv :
  let p := mk_ppa (i32 (r * fp) mod 2 ^ 16) b 0 (l mod 2 ^ 8) (c mod 2 ^ 8) rsv in
  cof p = (c, l, b, r * fp) /\ g_pl p = 0 /\ 0 <= g_pg p < 2 ^ 16 /\ r * fp + fp <= ppb_of s a /\ 0 <= r * fp.
Proof.
  cbv zeta. pose proof geo_bounds as (_ & _ & Hfp & Hrows & _). pose proof (ppb_bits s G a) as Hb.
  pose proof (proj2 (geo_nchs _ G) : nch < 2 ^ 8). pose proof (proj2 (geo_luns _ G) : nl < 2 ^ 8).
  assert (r * fp + fp <= ppb_of s a) as Hle by nia. assert (0 <= r * fp) as Hz by nia.
  unfold cof. cbn. rewrite i32_id by lia. rewrite !Z.mod_small by lia. repeat split; lia.
Qed.

Lemma gc_one_die_spec rsv io :
  hoare (gc_inv a v f0 (X_at i) (F_at i))
    (gc_one_die io (r =? rows - 1) (mk_ppa (i32 (r * fp) mod 2 ^ 16) b 0 (l mod 2 ^ 8) (c mod 2 ^ 8) rsv))
    (fun _ => gc_inv a v f0 (X_at (i + 1)) (F_at (i + 1))).
Proof.
  pose proof (step_ppa rsv) as Hp. cbv zeta in Hp. set (p := mk_ppa _ _ _ _ _ _) in *.
  destruct Hp as (Hcof & Hpl & Hpg & Hle & H0). 
  assert (g_ch p = c /\ g_lun p = l /\ g_blk p = b) as (Hpc & Hpl' & Hpb) by (unfold cof in Hcof; split_and!; congruence).
  assert (Hclean : hoare (gc_inv a v f0 (X_at i) (F_at i)) (clean_one_flashpg p)
    (fun _ => gc_inv a v f0 (X_at (i + 1)) (F_at i))).
  { eapply hoare_conseq; [|done|].
    - apply (clean_one_flashpg_spec a v f0 G Hv Hused Hroom Hdyn c l Hc Hl (X_at i) (F_at i) p (r * fp));
        try done; [apply F_here|apply X_here].
    - cbn beta. intros _ f I. eapply gc_inv_ext; [exact G|exact Hv|exact X_step|exact X_step_blk|done|exact I]. }
  unfold gc_one_die. eapply hoare_bind; [exact Hclean|]. intros [].
  destruct (Z.eqb_spec r (rows - 1)) as [Hlast|Hlast]; cbn [when].
  - eapply hoare_conseq; [|done|].
    + apply (gc_erase_die_spec a v f0 G Hv c l Hc Hl (X_at (i + 1)) (F_at i) io p); try done.
      intros g Hg. by apply X_last.
    + cbn beta. intros _ f I. eapply gc_inv_ext; [exact G|exact Hv|done|exact X_step_blk| |exact I].
      intros c' l' Hc' Hl'. by rewrite F_step, decide_True.
  - intros clk t f I. exists tt, t, f. split; [done|].
    eapply gc_inv_ext; [exact G|exact Hv|done|exact X_step_blk| |exact I].
    intros c' l' Hc' Hl'. by rewrite F_step, decide_False.
Qed.
End Step.
(** *** The three loops *)
Definition whole (x : coord) : bool := bool_decide (x.1.2 = b).

Lemma visit_bound r c l : 0 <= r < rows -> 0 <= c < nch -> 0 <= l < nl -> 0 <= turn_no r c l < turn_no rows 0 0.
Proof.
  unfold turn_no. intros Hr Hc Hl. pose proof (radix_bound nch rows r c Hc Hr) as H1.
  pose proof (radix_bound nl _ _ l Hl H1). lia.
Qed.

Lemma area_b : area_of s b = a.
Proof. by apply area_of_blk_of. Qed.

Lemma gc_line_spec f rsv io : spp f = s ->
  hoare (gc_inv a v f0 (fun _ => false) (fun _ _ => false)) (gc_line f rsv b rows io)
    (fun _ => gc_inv a v f0 whole (fun _ _ => true)).
Proof.
  intros Hs. pose proof geo_bounds as (Hnch & Hnl & Hfp & Hrf & Hrows).
  set (I i := gc_inv a v f0 (X_at i) (F_at i)).
  assert (Hloop : hoare (I (turn_no 0 0 0)) (gc_line f rsv b rows io) (fun _ => I (turn_no rows 0 0))).
  { unfold gc_line, gc_dies. rewrite Hs. apply hoare_for_bind.
    apply (hoare_range (fun r => I (turn_no r 0 0))); [lia|]. intros r Hr. apply hoare_for_bind.
    eapply hoare_conseq.
    - apply (hoare_range (fun c => I (turn_no r c 0))); [fold nch; lia|]. intros c Hc. apply hoare_for_bind.
      eapply hoare_conseq.
      + apply (hoare_range (fun l => I (turn_no r c l))); [fold nl; lia|]. intros l Hl.
        cbn [for_each]. eapply hoare_bind; [by apply gc_one_die_spec|]. intros [].
        eapply hoare_conseq; [apply hoare_ret|..]; cbn beta; [intros f' If|intros ? f' If; exact If].
        replace (turn_no r c (l + 1)) with (turn_no r c l + 1) by (unfold turn_no; lia). exact If.
      + done.
      + cbn beta. intros _ f'. fold nl. by replace (turn_no r c nl) with (turn_no r (c + 1) 0) by (unfold turn_no; lia).
    - done.
    - cbn beta. intros _ f'. fold nch. by replace (turn_no r nch 0) with (turn_no (r + 1) 0 0) by (unfold turn_no; lia). }
  eapply hoare_conseq; [exact Hloop|..]; cbn beta.
  - intros f' If. eapply gc_inv_ext; [exact G|exact Hv|..|exact If].
    + intros [[[xc xl] xb] xg] (Hc & Hl & Hb & Hg). unfold X_at. apply bool_decide_eq_false. cbn [fst snd].
      intros [-> Hi]. fold s in Hg. rewrite area_b in Hg. pose proof (row_range xg Hg).
      pose proof (visit_bound (xg / fp) xc xl ltac:(done) Hc Hl). unfold turn_no in *. lia.
    + by intros x [? _]%X_at_true.
    + intros c l Hc Hl. unfold F_at. apply bool_decide_eq_false.
      pose proof (visit_bound (rows - 1) c l ltac:(lia) Hc Hl). unfold turn_no in *. lia.
  - intros _ f' If. eapply gc_inv_ext; [exact G|exact Hv|..|exact If].
    + intros [[[xc xl] xb] xg] (Hc & Hl & Hb & Hg). unfold whole, X_at. apply bool_decide_ext. cbn [fst snd].
      split; [|by intros [? _]]. intros ->. split; [done|]. fold s in Hg. rewrite area_b in Hg.
      pose proof (row_range xg Hg). by apply visit_bound.
    + intros x Hx. unfold whole in Hx. by apply bool_decide_eq_true in Hx.
    + intros c l Hc Hl. symmetry. apply F_at_true. apply visit_bound; [lia|done|done].
Qed.

(** *** The line becomes free *)
Record collected (f' : conv_ftl) : Prop := {
  cl_inv : conv_inv f';
  cl_spp : spp f' = s;
  cl_cp : cp f' = cp f0;
  cl_wfc : wfc f' = wfc f0;
  cl_wb : Ssd.write_buffer (ssd f') = Ssd.write_buffer (ssd f0);
  cl_tlc : space f' TLC_MODE = space f0 TLC_MODE - live_left a v f0 (fun _ => false)
             + (if decide (a = TLC_MODE) then ppl_of s TLC_MODE else 0);
  cl_slc : space f' SLC_MODE = space f0 SLC_MODE + (if decide (a = SLC_MODE) then ppl_of s SLC_MODE else 0);
  cl_room : room f' SLC_MODE = room f0 SLC_MODE;
  cl_free : zlen (free_lines f' SLC_MODE) = zlen (free_lines f0 SLC_MODE) + (if decide (a = SLC_MODE) then 1 else 0);
  cl_dom lpn : mapped f' lpn <-> mapped f0 lpn;
}.

Lemma mark_line_free_spec f rsv :
  gc_inv a v f0 whole (fun _ _ => true) f ->
  exists f', mark_line_free f (mk_ppa 0 b 0 0 0 rsv) = Ok f' /\ collected f'.
Proof.
  intros I. pose proof (gi_spp _ _ _ _ _ _ I) as Hs. pose proof (gi_base _ _ _ _ _ _ I) as B.
  fold s in Hs. pose proof (fb_geo _ _ _ B) as Gf.
  destruct (fb_area _ _ _ B a) as (q & k & W & L & C). unfold settled in L. rewrite Z.add_0_r in L.
  unfold victim in L, C. rewrite decide_True in L, C by done. rewrite Hs in W, L, C.
  assert (Hfree : forall j, 0 <= j < ppl_of s a -> lst s (st (ssd f)) a v j = Some PG_FREE).
  { intros j Hj. unfold lst. pose proof (page_of_in_range s G a v j Hv Hj) as Hr.
    pose proof (page_of_blk s G a v j Hj) as Hb. destruct (page_of s a v j) as [[[xc xl] xb] xg]. cbn in Hb. subst xb.
    by rewrite (gi_line _ _ _ _ _ _ I). }
  destruct (lb_line _ _ _ _ _ _ _ v L Hv) as [l Hl].
  pose proof (lb_nodup _ _ _ _ _ _ _ L) as Hnd.
  assert (v ∉ free_line_list (get_lm f a) /\ v ∉ pq_elems (victim_line_pq (get_lm f a)) /\
    v ∉ full_line_list (get_lm f a)) as (Hnf & Hnq & Hnu).
  { rewrite !app_assoc in Hnd. apply NoDup_app in Hnd as (_ & Hd & _).
    split_and!; intros Hin; (apply (Hd v); [set_solver|by left]). }
  unfold mark_line_free.
  assert (get_line f (mk_ppa 0 b 0 0 0 rsv) = (a, v)) as ->.
  { apply (get_line_blk f Gf (fb_mode _ _ _ B)); [apply (tt_eq _ _ _ B)|by rewrite Hs|by rewrite Hs]. }
  rewrite (area_of_blk_eq f (fb_mode _ _ _ B)), Hs. cbn [g_blk]. rewrite area_b.
  rewrite (line_at_ok f a v l Hl). cbn [rbind]. rewrite (put_line_ok f a v l _ Hl). cbn [rbind].
  unfold own_line. cbn [fst snd]. rewrite bool_decide_true by done. cbn [rbind]. rewrite get_put_lm_eq.
  unfold list_add_tail. cbn [free_line_list full_line_list set_lines]. rewrite !bool_decide_false by done. cbn [orb rbind].
  rewrite put_put_lm. eexists. split; [done|].
  set (l' := line_set_vpc (line_set_ipc l 0) 0).
  set (m1 := set_lines (get_lm f a) (<[v := l']> (lines (get_lm f a)))).
  set (m2 := set_free m1 (free_line_list (get_lm f a) ++ [v]) (u32 (free_line_cnt m1 + 1))).
  assert (L1 : lines_base s a (st (ssd f)) m1 (Some q) k [v]) by (by apply (lb_set_line s a _ _ _ _ _ v l)).
  assert (L2 : lines_base s a (st (ssd f)) m2 (Some q) k []) by (by apply (lb_fl_to_free s a G _ m1)).
  assert (C2 : lines_cnt s a (st (ssd f)) (lines m2) None).
  { intros r x Hr _. cbn in Hr. destruct (decide (v = r)) as [<-|Hne].
    - rewrite list_lookup_insert_eq in Hr by (by eapply lookup_lt_Some). injection Hr as <-. cbn.
      split; symmetry; apply count_zero; intros j Hj; by rewrite Hfree.
    - rewrite list_lookup_insert_ne in Hr by done. apply (C r x Hr). congruence. }
  assert (K : keeps f (put_lm f a m2)) by apply put_lm_keeps.
  assert (Hfl : forall a', free_lines (put_lm f a m2) a' = if decide (a' = a) then free_lines f a ++ [v] else free_lines f a').
  { intros a'. unfold free_lines. rewrite get_put_lm. case_decide; [by subst a'|done]. }
  assert (Hrm : forall a', room (put_lm f a m2) a' = room f a').
  { intros a'. unfold room. by rewrite put_lm_wp, (kp_spp _ _ K). }
  assert (Hsp : forall a', space (put_lm f a m2) a' = space f a' + (if decide (a' = a) then ppl_of s a' else 0)).
  { intros a'. unfold space. rewrite Hrm, Hfl, (kp_spp _ _ K), Hs. case_decide; [subst a'; rewrite length_app; cbn [length]; lia|lia]. }
  pose proof (gi_space _ _ _ _ _ _ I) as Hspace. destruct (gi_slc _ _ _ _ _ _ I) as [Hw Hf].
  assert (live_left a v f0 whole = 0) as Hz.
  { apply count_zero. intros j Hj [_ Hn]. unfold whole in Hn. apply bool_decide_eq_false in Hn. apply Hn.
    by apply (page_of_blk s G). }
  split.
  - split.
    + apply (base_replace settled settled (victim a v) no_victim f _ a); try done.
      * apply put_lm_age.
      * apply put_lm_ssd.
      * intros a' Hne. rewrite get_put_lm, put_lm_wp, decide_False by done. unfold victim, no_victim. by rewrite decide_False.
      * rewrite get_put_lm, decide_True, put_lm_wp, Hs by done. exists q, k. unfold settled. rewrite Z.add_0_r. done.
    + rewrite (kp_spp _ _ K), put_lm_ssd, (kp_maptbl _ _ K), (kp_rmap _ _ K), Hs.
      eapply (map_ok_live s (st (ssd f))); [|apply (gi_map _ _ _ _ _ _ I)].
      intros x Hx. cbn beta. unfold whole, none. destruct (bool_decide (x.1.2 = b)) eqn:E; [|split; intros [? _]; (split; [done|by intros ?])].
      apply bool_decide_eq_true in E. destruct x as [[[xc xl] xb] xg]. cbn in E. subst xb.
      rewrite (gi_line _ _ _ _ _ _ I) by done. split; [by intros [? _]|by intros [_ []]].
  - by rewrite (kp_spp _ _ K).
  - rewrite (kp_cp _ _ K). apply (gi_cp _ _ _ _ _ _ I).
  - rewrite (kp_wfc _ _ K). apply (gi_wfc _ _ _ _ _ _ I).
  - rewrite put_lm_ssd. apply (gi_wb _ _ _ _ _ _ I).
  - rewrite Hsp, Hspace, Hz. repeat case_decide; try congruence; lia.
  - rewrite Hsp. rewrite (space_same f0 f SLC_MODE) by (done || exact Hs).
    repeat case_decide; try congruence; lia.
  - rewrite Hrm. unfold room. rewrite Hw, Hs. done.
  - rewrite Hfl. repeat case_decide; try congruence; [|rewrite Hf; lia]. rewrite length_app.
    replace (free_lines f a) with (free_lines f SLC_MODE) by congruence. rewrite Hf. cbn [length]. lia.
  - intros n. unfold mapped. rewrite (kp_maptbl _ _ K). apply (gi_dom _ _ _ _ _ _ I).
Qed.
End Collect.
