(* ===== verification/ConvSelect.v ===== *)
(** * Choosing a victim

    TLC lines: the scan of the victim queue's array for the least cost-benefit
    value; it always finds one when the queue is not empty, and with a steady
    clock no other queued line is cheaper.  SLC lines: the head of the queue, the
    oldest full line when the queue is empty.  Either way the chosen line leaves
    its list, has no free page, and the rest of the partition is unchanged. *)

From Stdlib Require Import ZArith Lia.
From stdpp Require Import base list numbers sets.
From S2P Require Import Prelude PQueue Config SsdParams ConvFtl Geometry Media Lines ConvInv ConvWp ConvMark ConvWrite.
From S2P Require Ssd.
Import Ssd (ppa, sp, page_status, PG_FREE, PG_INVALID, PG_VALID, USER_IO, GC_IO, timing_ok).

(** ** The cost-benefit value *)
Lemma age_levelize_range x : 1 <= age_levelize x <= 250.
Proof. unfold age_levelize. repeat case_match; lia. Qed.

Definition line_age (l : line) (now : Z) : Z := age_levelize (i64 (u64 (now - mtime l) / 1000)).

(** Live data moved per page gained and age; no product wraps on a geometry of this size. *)
Lemma cost_benefit_ok s l now :
  slc_geometry s -> 0 <= vpc l < pgs_per_line s ->
  calculate_cost_benefit_val s l now
    = Ok (vpc l * SCALER / ((pgs_per_line s - vpc l) * line_age l now)) /\
  0 <= vpc l * SCALER / ((pgs_per_line s - vpc l) * line_age l now) < LLONG_MAX.
Proof.
  intros G Hv. pose proof (geo_cost _ G) as Hc. unfold calculate_cost_benefit_val. fold (line_age l now).
  pose proof (age_levelize_range (i64 (u64 (now - mtime l) / 1000))) as Ha. fold (line_age l now) in Ha.
  set (age := line_age l now) in *. set (ppl := pgs_per_line s) in *. set (x := vpc l) in *.
  assert (SCALER = 1000000000000) as HS by done. assert (LLONG_MAX = 9223372036854775807) as HL by done.
  rewrite (i32_id ppl) by lia. replace (x =? ppl) with false by lia.
  rewrite (i32_id (ppl - x)) by lia.
  assert (1 <= (ppl - x) * age < 2 ^ 31) as Hd by nia. rewrite i32_id by lia.
  replace ((ppl - x) * age =? 0) with false by lia.
  assert (0 <= x * SCALER < 2 ^ 63) as Hn by (rewrite HS; lia).
  assert (i64 (x * SCALER) = x * SCALER) as -> by (unfold i64; rewrite Z.mod_small; lia).
  rewrite Z.quot_div_nonneg by lia. split; [done|]. split; [apply Z.div_pos; lia|].
  apply Z.div_lt_upper_bound; [lia|]. rewrite HS, HL in *. nia.
Qed.

(** Pages to move, scaled, per page gained and age: the value the scan minimises. *)
Definition line_cost (s : ssdparams) (l : line) (now : Z) : Z :=
  vpc l * SCALER / ((pgs_per_line s - vpc l) * line_age l now).

(** ** The scan *)
Section Scan.
Context (f : conv_ftl) (B : ftl_base settled no_victim f).

Let s := spp f.
Let m := lm f.
Let G : slc_geometry s := fb_geo _ _ _ B.

Lemma tlc_lines : exists q k, wp_ok s TLC_MODE (gc_wp f) q k /\
  lines_base s TLC_MODE (st (ssd f)) m (Some q) k [] /\ lines_cnt s TLC_MODE (st (ssd f)) (lines m) None.
Proof.
  destruct (fb_area _ _ _ B TLC_MODE) as (q & k & W & L & C). unfold settled in L. rewrite Z.add_0_r in L. by exists q, k.
Qed.

(** The line in slot [i] of the queue. *)
Definition slot_cost (i : nat) (now : Z) : Z :=
  match d (victim_line_pq m) !! i with
  | Some p => match lines m !! p with
              | Some l => line_cost s l now
              | None => 0
              end
  | None => 0
  end.

Lemma slot_line i : (1 <= i < size (victim_line_pq m))%nat ->
  exists p l, d (victim_line_pq m) !! i = Some p /\ lines m !! p = Some l /\ p ∈ pq_elems (victim_line_pq m) /\
    ipc l <> 0 /\ 0 <= vpc l < pgs_per_line s.
Proof.
  intros Hi. destruct tlc_lines as (q & k & _ & L & C). pose proof (lb_pq _ _ _ _ _ _ _ L) as Hwf.
  destruct (lookup_lt_is_Some_2 (d (victim_line_pq m)) i) as [p Hp].
  { rewrite (pq_len _ _ Hwf). pose proof (pq_size _ _ Hwf). lia. }
  destruct (pq_pos _ _ Hwf i p Hi Hp) as [Hval _]. cbn in Hval.
  destruct (lookup_lt_is_Some_2 _ _ Hval) as [l Hl]. exists p, l. split; [done|]. split; [done|].
  assert (p ∈ pq_elems (victim_line_pq m)) as Hin by (apply elem_of_pq_elems; by exists i).
  split; [done|]. pose proof (lb_victim _ _ _ _ _ _ _ L p Hin) as Hv.
  destruct (line_counts_at s TLC_MODE G _ _ _ _ _ _ p l L C Hl) as [V I Sum V0 I0 F0]; [done|].
  cbn [ppl_of] in Sum. lia.
Qed.

Lemma cb_scan_spec idxs best clk t x :
  (forall i, i ∈ idxs -> (1 <= i < size (victim_line_pq m))%nat) ->
  exists r t', cb_scan f idxs best clk t x = Ok (r, t', x) /\
    (forall i, r = Some i -> i ∈ idxs \/ snd best = Some i) /\
    (snd best <> None -> r <> None) /\
    (fst best = LLONG_MAX -> idxs <> [] -> r <> None) /\
    (forall now, (forall n, clk KTIME_NS n = now) ->
       (forall i, snd best = Some i -> fst best = slot_cost i now) ->
       forall i, r = Some i -> slot_cost i now <= fst best /\ forall j, j ∈ idxs -> slot_cost i now <= slot_cost j now).
Proof.
  revert best t. induction idxs as [|i idxs IH]; intros best t Hi; cbn [cb_scan].
  - exists (snd best), t. split; [done|]. split; [by right|]. split; [done|]. split; [done|].
    intros now _ Hb j Hj. rewrite (Hb j Hj). split; [done|]. intros k Hk. by apply elem_of_nil in Hk.
  - destruct (slot_line i) as (p & l & Hp & Hl & _ & Hipc & Hv); [apply Hi; by left|].
    rewrite (run_lift _ _ _ _ _ _ (proj2 (lget_ok _ _ _) Hp)), (run_lift _ _ _ _ _ _ (proj2 (lget_ok _ _ _) Hl)).
    replace (ipc l =? 0) with false by lia. rewrite run_clock.
    destruct (cost_benefit_ok s l (clk KTIME_NS t) G Hv) as [E Hr]. fold s. rewrite (run_lift _ _ _ _ _ _ E).
    fold (line_cost s l (clk KTIME_NS t)) in *. set (val := line_cost s l _) in *.
    destruct (IH (if val <? fst best then (val, Some i) else best) (Datatypes.S t)) as (r & t' & E' & H1 & H2 & H3 & H4).
    { intros j Hj. apply Hi. by right. }
    exists r, t'. split; [done|]. split; [|split; [|split]].
    + intros j Hj. destruct (H1 j Hj) as [?|Hb]; [left; by right|].
      destruct (val <? fst best); [left; injection Hb as <-; by left|by right].
    + intros Hb. apply H2. by destruct (val <? fst best).
    + intros Hb _. apply H2. rewrite Hb. by replace (val <? LLONG_MAX) with true by lia.
    + intros now Hnow Hb j Hj.
      assert (slot_cost i now = val) as Hval by (unfold slot_cost; rewrite Hp, Hl; unfold val; by rewrite Hnow).
      destruct (H4 now Hnow) with (i := j) as [Hle Hall]; [|done|].
      { intros k. destruct (val <? fst best); [intros [= <-]; by rewrite Hval|apply Hb]. }
      split; [destruct (Z.ltb_spec val (fst best)); cbn [fst] in Hle; lia|].
      intros k [->|Hk]%elem_of_cons; [|by apply Hall]. rewrite Hval.
      destruct (Z.ltb_spec val (fst best)); cbn [fst] in Hle; lia.
Qed.

(** A slot of least cost holds a line of least cost. *)
Lemma min_of_slots i p now :
  d (victim_line_pq m) !! i = Some p ->
  (forall j, (1 <= j < size (victim_line_pq m))%nat -> slot_cost i now <= slot_cost j now) ->
  forall q l l', q ∈ pq_elems (victim_line_pq m) -> lines m !! p = Some l -> lines m !! q = Some l' ->
    line_cost s l now <= line_cost s l' now.
Proof.
  intros Hi Hmin q l l' Hq Hl Hl'. apply elem_of_pq_elems in Hq as (j & Hj & Hjq). specialize (Hmin j Hj).
  unfold slot_cost in Hmin. by rewrite Hi, Hl, Hjq, Hl' in Hmin.
Qed.
End Scan.

(** ** The state after a selection *)
Record selected (a : line_mode) (p : ptr) (f f' : conv_ftl) : Prop := {
  se_base : ftl_base settled (victim a p) f';
  se_ssd : ssd f' = ssd f;
  se_keeps : keeps f f';
  se_place : same_place f f';
  se_line : (p < Z.to_nat (nlines_of (spp f) a))%nat;
  se_used k : 0 <= k < ppl_of (spp f) a -> lst (spp f) (st (ssd f)) a p k <> Some PG_FREE;
  se_gain : a = TLC_MODE -> 1 <= lcnt (spp f) (st (ssd f)) a p PG_INVALID;
}.

Lemma selected_of f a m' p :
  ftl_base settled no_victim f -> same_lines (lines (get_lm f a)) (lines m') ->
  (forall q k, lines_base (spp f) a (st (ssd f)) (get_lm f a) (Some q) k [] ->
     lines_base (spp f) a (st (ssd f)) m' (Some q) k [p]) ->
  free_line_list m' = free_line_list (get_lm f a) ->
  (p < Z.to_nat (nlines_of (spp f) a))%nat ->
  (forall k, 0 <= k < ppl_of (spp f) a -> lst (spp f) (st (ssd f)) a p k <> Some PG_FREE) ->
  (a = TLC_MODE -> 1 <= lcnt (spp f) (st (ssd f)) a p PG_INVALID) ->
  selected a p f (put_lm f a m').
Proof.
  intros B Hsame HL Hfree Hp Hused Hgain. split; try done.
  - apply (base_replace settled settled no_victim (victim a p) f _ a); try done.
    + apply put_lm_keeps.
    + apply put_lm_age.
    + apply put_lm_ssd.
    + intros b Hne. rewrite get_put_lm, put_lm_wp, decide_False by done. unfold victim, no_victim. by rewrite decide_False.
    + rewrite get_put_lm_eq, put_lm_wp. destruct (fb_area _ _ _ B a) as (q & k & W & L & C).
      unfold settled in L. rewrite Z.add_0_r in L. exists q, k. unfold settled, victim. rewrite Z.add_0_r, decide_True by done.
      split; [done|]. split; [by apply HL|]. intros r l Hr Hx.
      apply (same_lines_cnt (spp f) a (st (ssd f)) (lines (get_lm f a)) (lines m') None Hsame C r l Hr). done.
  - apply put_lm_ssd.
  - apply put_lm_keeps.
  - split; [intros b; apply put_lm_wp|intros b|by destruct a]. unfold free_lines. rewrite get_put_lm.
    case_decide; [by subst b|done].
Qed.

Lemma take_queued f a p q ls :
  ftl_base settled no_victim f -> p ∈ pq_elems (victim_line_pq (get_lm f a)) ->
  pq_step (pq_elem (victim_line_pq (get_lm f a))) (fun y => pq_elem (victim_line_pq (get_lm f a)) y /\ y <> p)
    (victim_line_pq (get_lm f a)) (lines (get_lm f a)) q ls ->
  exists m', detach_victim (get_lm f a) q ls p = Ok m' /\ selected a p f (put_lm f a m').
Proof.
  intros B Hp Hstep. pose proof (fb_geo _ _ _ B) as G.
  destruct (fb_area _ _ _ B a) as (c & k & W & L & C). unfold settled in L. rewrite Z.add_0_r in L.
  destruct (lb_pq_to_fl _ a G _ _ _ _ _ p q ls L Hp Hstep) as (m' & E & Hsame & _ & Hfree & _).
  exists m'. split; [done|]. apply selected_of; try done.
  - intros c' k' L'. destruct (lb_pq_to_fl _ a G _ _ _ _ _ p q ls L' Hp Hstep) as (m2 & E2 & _ & L2 & _).
    congruence.
  - apply (lb_all _ _ _ _ _ _ _ _ L). set_solver.
  - intros j Hj. apply (lb_used _ _ _ _ _ _ _ L); tauto.
  - intros _. by apply (lb_victim _ _ _ _ _ _ _ L).
Qed.

(** ** TLC lines *)
Lemma count_age_spec p now f : ftl_base settled (victim TLC_MODE p) f -> (p < length (lines (lm f)))%nat ->
  exists f', count_age p now f = Ok f' /\ ftl_base settled (victim TLC_MODE p) f' /\ ssd f' = ssd f /\ keeps f f' /\
    same_place f f'.
Proof.
  intros B Hp. destruct (lookup_lt_is_Some_2 _ _ Hp) as [l Hl]. unfold count_age.
  rewrite (proj2 (lget_ok _ _ _) Hl). cbn [rbind]. set (age := u64 (now - mtime l) / 1000000000).
  assert (0 <= age) as Ha by (apply Z.div_pos; [apply u64_range|lia]).
  set (i := if age <? 200 then age else 200). assert (0 <= i < 201) as Hi by (unfold i; case_match; lia).
  destruct (zget_Some (age_cnt f) i) as [n Hn]; [rewrite (fb_age _ _ _ B); lia|].
  rewrite (proj2 (amod_ok _ _ _ _)) by (exists n; split; [done|reflexivity]). cbn [rbind].
  eexists. split; [done|]. split; [|done]. destruct B. split; try done. cbn. by rewrite length_zset.
Qed.

Lemma select_victim_spec f force clk t :
  ftl_base settled no_victim f ->
  exists r t' f', select_victim_line force clk t f = Ok (r, t', f') /\
    match r with
    | None => pq_elems (victim_line_pq (lm f)) = [] /\ f' = f
    | Some (b, p) => b = TLC_MODE /\ p ∈ pq_elems (victim_line_pq (lm f)) /\ selected TLC_MODE p f f' /\
        (forall now, (forall t, clk KTIME_NS t = now) -> forall q l l', q ∈ pq_elems (victim_line_pq (lm f)) ->
          lines (lm f) !! p = Some l -> lines (lm f) !! q = Some l' ->
          line_cost (spp f) l now <= line_cost (spp f) l' now)
    end.
Proof.
  intros B. destruct (tlc_lines f B) as (c & k & W & L & C). pose proof (lb_pq _ _ _ _ _ _ _ L) as Hwf.
  pose proof (pq_size _ _ Hwf) as Hsz. unfold select_victim_line. rewrite run_get.
  destruct (cb_scan_spec f B (seq 1 (size (victim_line_pq (lm f)) - 1)) (LLONG_MAX, None) clk t f)
    as (r & t1 & E & H1 & _ & H3 & H4).
  { intros i Hi%elem_of_seq. lia. }
  rewrite (run_bind _ _ _ _ _ _ _ _ E). destruct r as [i|].
  - pose proof (min_of_slots f i) as Hmin. destruct (H1 i eq_refl) as [Hi%elem_of_seq|]; [|done].
    destruct (slot_line f B i) as (p & l & Hp & Hl & Hin & _); [lia|].
    rewrite (run_lift _ _ _ _ _ _ (proj2 (lget_ok _ _ _) Hp)).
    destruct (remove_spec (victim_line_pq (lm f)) (lines (lm f)) p Hwf) as (q & ls & Eq & _ & Hstep).
    { by apply elem_of_pq_elems. }
    destruct (take_queued f TLC_MODE p q ls B Hin Hstep) as (m' & Em & S).
    assert (take_victim p f = Ok (put_lm f TLC_MODE m')) as Et.
    { unfold take_victim. rewrite Eq. cbn [rbind]. cbn [get_lm] in Em. rewrite Em. done. }
    rewrite (run_update _ _ _ _ _ _ Et), run_clock.
    destruct (count_age_spec p (clk KTIME_NS t1) (put_lm f TLC_MODE m')) as (f2 & E2 & B2 & Hssd & K & P).
    { apply S. }
    { pose proof (se_base _ _ _ _ S) as BS. destruct (fb_area _ _ _ BS TLC_MODE) as (? & ? & _ & LS & _).
      change (get_lm ?x TLC_MODE) with (lm x) in LS. rewrite (lb_len _ _ _ _ _ _ _ LS).
      rewrite (kp_spp _ _ (se_keeps _ _ _ _ S)). apply S. }
    rewrite (run_update _ _ _ _ _ _ E2). eexists _, _, f2. split; [done|]. split; [done|]. split; [done|]. split.
    { destruct S as [S1 S2 S3 S4 S5 S6 S7]. split; [done|by rewrite Hssd|by etrans|by etrans|done..]. }
    intros now Hnow. eapply Hmin; [exact Hp|]. intros j Hj.
    apply (H4 now Hnow ltac:(done) i eq_refl). apply elem_of_seq. lia.
  - eexists _, _, f. split; [done|]. split; [|done].
    destruct (decide (size (victim_line_pq (lm f)) = 1%nat)) as [E1|E1].
    + pose proof (length_pq_elems _ _ Hwf) as Hlen. unfold pqueue_size in Hlen. rewrite E1 in Hlen.
      by destruct (pq_elems _).
    + exfalso. apply H3; try done. intros Hnil. apply (f_equal length) in Hnil. rewrite length_seq in Hnil. cbn in Hnil. lia.
Qed.

(** ** SLC lines *)
Lemma select_victim_slc_spec f :
  ftl_base settled no_victim f ->
  exists r f', select_victim_line_slc f true = Ok (r, f') /\
    match r with
    | None => pq_elems (victim_line_pq (slm f)) = [] /\ full_line_list (slm f) = [] /\ f' = f
    | Some (b, p) => b = SLC_MODE /\ selected SLC_MODE p f f' /\
        ((p ∈ pq_elems (victim_line_pq (slm f)) /\
          forall q l l', q ∈ pq_elems (victim_line_pq (slm f)) -> lines (slm f) !! p = Some l ->
            lines (slm f) !! q = Some l' -> vpc l <= vpc l') \/
         pq_elems (victim_line_pq (slm f)) = [] /\ p ∈ full_line_list (slm f))
    end.
Proof.
  intros B. pose proof (fb_geo _ _ _ B) as G.
  destruct (fb_area _ _ _ B SLC_MODE) as (c & k & W & L & C). unfold settled in L. rewrite Z.add_0_r in L.
  change (get_lm f SLC_MODE) with (slm f) in *. pose proof (lb_pq _ _ _ _ _ _ _ L) as Hwf.
  unfold select_victim_line_slc. pose proof (peek_spec _ _ Hwf) as Hpeek.
  destruct (Nat.eqb_spec (size (victim_line_pq (slm f))) 1) as [E1|E1].
  - rewrite Hpeek. cbn [rbind].
    assert (pq_elems (victim_line_pq (slm f)) = []) as Hnil.
    { pose proof (length_pq_elems _ _ Hwf) as Hlen. unfold pqueue_size in Hlen. rewrite E1 in Hlen. by destruct (pq_elems _). }
    destruct (full_line_list (slm f)) as [|p rest] eqn:Hfull; [by exists None, f|].
    assert (p ∈ full_line_list (slm f)) as Hp by (rewrite Hfull; by left).
    eexists _, _. split; [done|]. rewrite <- Hfull. split; [done|]. split; [|by right].
    apply (selected_of f SLC_MODE); try done.
    + split; [done|]. intros y l' Hl'. exists l'. by repeat split.
    + intros q j L'. by apply (lb_full_to_fl _ _ G).
    + apply (lb_all _ _ _ _ _ _ _ _ L). set_solver.
    + intros j Hj. apply (lb_used _ _ _ _ _ _ _ L); tauto.
  - destruct Hpeek as (p & Epeek & Hel & _ & Hmin). rewrite Epeek. cbn [rbind].
    pose proof (wf_elem_valid _ _ _ Hwf Hel) as Hval. cbn in Hval. destruct (lookup_lt_is_Some_2 _ _ Hval) as [l Hl].
    rewrite (proj2 (lget_ok _ _ _) Hl). cbn [rbind negb andb].
    destruct (pop_spec _ _ Hwf E1) as (p' & q & ls & Epop & Epeek' & _ & _ & Hstep).
    assert (p' = p) as -> by congruence. rewrite Epop. cbn [rbind].
    assert (p ∈ pq_elems (victim_line_pq (slm f))) as Hin by (by apply elem_of_pq_elems).
    destruct (take_queued f SLC_MODE p q ls B Hin Hstep) as (m' & Em & S). cbn [get_lm] in Em. rewrite Em. cbn [rbind].
    eexists _, _. split; [done|]. split; [done|]. split; [exact S|]. left. split; [done|].
    intros r l1 l2 Hr Hl1 Hl2. apply elem_of_pq_elems in Hr. specialize (Hmin r Hr). unfold le_pri in Hmin. cbn in Hmin.
    unfold victim_line_cmp_pri, victim_line_get_pri in Hmin. rewrite Hl1, Hl2 in Hmin. cbn in Hmin.
    destruct (line_counts_at (spp f) SLC_MODE G _ _ _ _ _ _ p l1 L C Hl1) as [? ? S1 ? ? ?]; [done|].
    destruct (line_counts_at (spp f) SLC_MODE G _ _ _ _ _ _ r l2 L C Hl2) as [? ? S2 ? ? ?]; [done|].
    pose proof (ppl_bound (spp f) G SLC_MODE). rewrite !u64_id in Hmin by lia. lia.
Qed.
