(* ===== verification/ConvFlow.v ===== *)
(** * Garbage collection, migration and the write path of one partition

    [do_gc] collects one line; [foreground_gc] first a TLC line, when TLC lines
    are short, then an SLC line; a host write runs it when its credits are used
    up.  With [flow_ok], a page written when the TLC area has a free line meets no
    assertion, leaves [flow_ok], and maps exactly one more logical page. *)

From Stdlib Require Import ZArith Lia.
From stdpp Require Import base list numbers sets.
From S2P Require Import Prelude PQueue Config SsdParams ConvFtl Geometry Media Lines ConvInv ConvWp ConvMark ConvWrite ConvInit.
From S2P Require Import ConvGc ConvCollect ConvSelect.
From S2P Require Ssd.
Import Ssd (ppa, mk_ppa, sp, page_status, PG_FREE, PG_INVALID, PG_VALID, USER_IO, GC_IO, timing_ok, INVALID_LPN).

(** ** The collection of one line *)
(** Lines that could be collected. *)
Definition candidates (f : conv_ftl) (a : line_mode) : list ptr :=
  match a with
  | SLC_MODE => pq_elems (victim_line_pq (slm f)) ++ full_line_list (slm f)
  | TLC_MODE => pq_elems (victim_line_pq (lm f))
  end.

(** What collecting a line of area [a] changes and keeps. *)
Record gc_done (a : line_mode) (f f' : conv_ftl) : Prop := {
  gd_inv : conv_inv f';
  gd_spp : spp f' = spp f;
  gd_cp : cp f' = cp f;
  gd_credits : write_credits (wfc f') = write_credits (wfc f);
  gd_refill : a = SLC_MODE -> credits_to_refill (wfc f') = ppl_of (spp f) SLC_MODE;
  gd_wb : Ssd.write_buffer (ssd f') = Ssd.write_buffer (ssd f);
  gd_tlc : match a with
           | TLC_MODE => space f TLC_MODE + 1 <= space f' TLC_MODE
           | SLC_MODE => space f TLC_MODE - ppl_of (spp f) SLC_MODE <= space f' TLC_MODE
           end;
  gd_free : zlen (free_lines f' SLC_MODE) = zlen (free_lines f SLC_MODE) + (if decide (a = SLC_MODE) then 1 else 0);
  gd_room : room f' SLC_MODE = room f SLC_MODE;
  gd_dom lpn : mapped f' lpn <-> mapped f lpn;
}.

(** A selected line, with nothing moved yet. *)
Lemma gc_start a p f f1 :
  selected a p f f1 -> map_ok (spp f) (st (ssd f)) none (maptbl f) (rmap f) ->
  gc_inv a p f1 (fun _ => false) (fun _ _ => false) f1.
Proof.
  intros S M. pose proof (se_keeps _ _ _ _ S) as K. split; try done.
  - apply S.
  - rewrite (kp_spp _ _ K), (se_ssd _ _ _ _ S), (kp_maptbl _ _ K), (kp_rmap _ _ K).
    eapply map_ok_live; [|exact M]. intros x _. cbn. unfold none. split; intros [? _]; (split; [done|by intros ?]).
  - lia.
  - by left.
Qed.

Lemma live_all a p f f1 : selected a p f f1 ->
  live_left a p f1 (fun _ => false) = lcnt (spp f) (st (ssd f)) a p PG_VALID.
Proof.
  intros S. unfold live_left, lcnt. rewrite (kp_spp _ _ (se_keeps _ _ _ _ S)), (se_ssd _ _ _ _ S).
  apply count_ext. intros k _. unfold lst. tauto.
Qed.

Lemma selected_live a p f f1 : conv_inv f -> selected a p f f1 ->
  lcnt (spp f) (st (ssd f)) a p PG_VALID <= ppl_of (spp f) a - (if decide (a = TLC_MODE) then 1 else 0).
Proof.
  intros [B _] S. pose proof (fb_geo _ _ _ B) as G. destruct (fb_area _ _ _ B a) as (q & k & _ & L & _).
  pose proof (lcnt_sum _ _ _ _ (ppl_pos _ G a) (lb_known _ _ _ _ _ _ _ L p (se_line _ _ _ _ S))).
  pose proof (lcnt_nonneg (spp f) (st (ssd f)) a p PG_FREE). pose proof (lcnt_nonneg (spp f) (st (ssd f)) a p PG_INVALID).
  case_decide; [|lia]. pose proof (se_gain _ _ _ _ S ltac:(done)). lia.
Qed.

(** The body of [do_gc] after the selection. *)
Definition gc_body (rsv : Z) (a : line_mode) (r : line_ref) : M conv_ftl Z :=
  let slc := is_slc a in
  let* f := get in
  let* l := lift (line_at f r) in
  modify (fun f => set_wfc f (mk_wfc (write_credits (wfc f))
    (if slc then u32 (pgs_per_line_slc (spp f)) else u32 (ipc l)))) ;;
  let b := id l mod 2 ^ 16 in
  gc_line f rsv b (rows_of (spp f) a) (if slc then USER_IO else GC_IO) ;;
  update (fun f => mark_line_free f (mk_ppa 0 b 0 0 0 rsv)) ;;
  ret 0.

(** Credits do not matter to a selection. *)
Lemma selected_wfc a p f f1 w : selected a p f f1 -> selected a p (set_wfc f w) (set_wfc f1 w).
Proof.
  intros [S1 S2 S3 S4 S5 S6 S7]. split; try done.
  - by apply base_set_wfc.
  - destruct S3. by split.
  - destruct S4 as [H1 H2 H3]. split; [intros b; specialize (H1 b); by destruct b|intros b; specialize (H2 b); by destruct b|done].
Qed.

Lemma conv_inv_wfc f w : conv_inv f -> conv_inv (set_wfc f w).
Proof. intros [B M]. split; [by apply base_set_wfc|done]. Qed.

Lemma gc_body_spec rsv a p f f1 clk t :
  conv_inv f -> selected a p f f1 -> dyn_slc_mode f = a -> ppl_of (spp f) a + (if decide (a = TLC_MODE) then 0 else 1) <= space f TLC_MODE ->
  exists t' f', gc_body rsv a (a, p) clk t f1 = Ok (0, t', f') /\ gc_done a f f'.
Proof.
  intros I S Hdyn Hroom. pose proof I as [B M]. pose proof (fb_geo _ _ _ B) as G.
  pose proof (se_keeps _ _ _ _ S) as K. pose proof (se_place _ _ _ _ S) as P. pose proof (kp_spp _ _ K) as Hs.
  destruct (fb_area _ _ _ (se_base _ _ _ _ S) a) as (q & k & _ & L & _). rewrite Hs in L.
  pose proof (se_line _ _ _ _ S) as Hp. destruct (lb_line _ _ _ _ _ _ _ p L Hp) as [l Hl].
  pose proof (lb_id _ _ _ _ _ _ _ L p l Hl) as Hid. pose proof (blk_of_range _ G a p Hp) as Hb.
  pose proof (geo_blks _ G) as Hblks. pose proof (live_all a p f f1 S) as Hlive.
  pose proof (selected_live a p f f1 I S) as Hle.
  unfold gc_body. rewrite run_get, (run_lift _ _ _ _ _ _ (line_at_ok f1 a p l Hl)), run_modify.
  set (w := mk_wfc _ _). set (f2 := set_wfc f1 w). set (g := set_wfc f w).
  assert (S2 : selected a p g f2) by (by apply selected_wfc).
  assert (Ig : conv_inv g) by (by apply conv_inv_wfc).
  pose proof (gc_start a p g f2 S2 (ci_map _ Ig)) as I0.
  assert (Hb16 : id l mod 2 ^ 16 = blk_of (spp f2) a p).
  { change (spp f2) with (spp f1). rewrite Hid, Hs. apply Z.mod_small. lia. }
  rewrite Hb16. assert (Hs2 : spp f2 = spp f) by exact Hs.
  assert (G2 : slc_geometry (spp f2)) by (by rewrite Hs2).
  assert (Hp2 : (p < Z.to_nat (nlines_of (spp f2) a))%nat) by (by rewrite Hs2).
  assert (Hspace2 : space f2 TLC_MODE = space f TLC_MODE).
  { change (space f2 TLC_MODE) with (space f1 TLC_MODE). apply space_same; [done|apply (sl_wp _ _ P)|apply (sl_free _ _ P)]. }
  assert (Hused2 : forall x, in_range (spp f2) x -> x.1.2 = blk_of (spp f2) a p -> st (ssd f2) x <> Some PG_FREE).
  { rewrite Hs2. change (ssd f2) with (ssd f1). rewrite (se_ssd _ _ _ _ S). intros x Hx Hxb.
    destruct (page_is_position _ G x Hx) as (a' & p' & j & -> & Hp' & Hj & _ & Hb').
    destruct (blk_of_inj _ G a' p' a p Hp' Hp ltac:(by transitivity (page_of (spp f) a' p' j).1.2)) as [-> ->].
    by apply (se_used _ _ _ _ S). }
  assert (Hroom2 : live_left a p f2 (fun _ => false) + 1 <= space f2 TLC_MODE).
  { rewrite Hspace2. change (live_left a p f2) with (live_left a p f1). rewrite Hlive. repeat case_decide; try done; lia. }
  assert (Hdyn2 : dyn_slc_mode f2 = a) by (change (dyn_slc_mode f2) with (dyn_slc_mode f1); by rewrite (sl_dyn _ _ P)).
  pose proof (gc_line_spec a p f2 G2 Hp2 Hused2 Hroom2 Hdyn2 f1 rsv (if is_slc a then USER_IO else GC_IO) eq_refl) as Hloop.
  change (rows_of (spp f2) a) with (rows_of (spp f1) a) in Hloop.
  destruct (Hloop clk t f2 I0) as ([] & t3 & f3 & E3 & I3). rewrite (run_bind _ _ _ _ _ _ _ _ E3).
  destruct (mark_line_free_spec a p f2 G2 Hp2 Hused2 Hroom2 Hdyn2 f3 rsv I3) as (f4 & E4 & [D1 D2 D3 D4 D5 D6 D7 D8 D9 D10]).
  rewrite (run_update _ _ _ _ _ _ E4). exists t3, f4. split; [done|].
  rewrite Hs2 in D2, D6, D7. change (live_left a p f2) with (live_left a p f1) in D6. rewrite Hlive, Hspace2 in D6.
  pose proof (count_nonneg (fun k => lst (spp f) (st (ssd f)) a p k = Some PG_VALID) (ppl_of (spp f) a)) as Hnn.
  fold (lcnt (spp f) (st (ssd f)) a p PG_VALID) in Hnn.
  split; try done.
  - rewrite D3. apply (kp_cp _ _ K).
  - rewrite D4. cbn. by rewrite (kp_wfc _ _ K).
  - intros ->. rewrite D4. cbn. rewrite Hs. pose proof (ppl_bound _ G SLC_MODE). pose proof (ppl_pos _ G SLC_MODE).
    cbn [ppl_of] in *. by rewrite u32_id by lia.
  - rewrite D5. change (ssd f2) with (ssd f1). by rewrite (se_ssd _ _ _ _ S).
  - destruct a; repeat case_decide; try done; lia.
  - rewrite D9. change (free_lines f2) with (free_lines f1). by rewrite (sl_free _ _ P).
  - rewrite D8. change (room f2 SLC_MODE) with (room f1 SLC_MODE). unfold room. by rewrite (sl_wp _ _ P), Hs.
  - intros n. rewrite D10. unfold mapped. change (maptbl f2) with (maptbl f1). by rewrite (kp_maptbl _ _ K).
Qed.

(** Nor does the count of collections. *)
Lemma selected_gc_cnt a p f f1 n : selected a p f f1 -> selected a p (set_gc_cnt f n) (set_gc_cnt f1 n).
Proof.
  intros [S1 S2 S3 S4 S5 S6 S7]. split; try done.
  - by apply base_set_gc_cnt.
  - destruct S3. by split.
  - destruct S4 as [H1 H2 H3]. split; [intros b; specialize (H1 b); by destruct b|intros b; specialize (H2 b); by destruct b|done].
Qed.

Lemma conv_inv_gc_cnt f n : conv_inv f -> conv_inv (set_gc_cnt f n).
Proof. intros [B M]. split; [by apply base_set_gc_cnt|done]. Qed.

Lemma gc_done_gc_cnt a f f' n : gc_done a (set_gc_cnt f n) f' -> gc_done a f f'.
Proof. intros [D1 D2 D3 D4 D5 D6 D7 D8 D9 D10]. by split. Qed.

Lemma set_gc_cnt_id f : set_gc_cnt f (gc_cnt f) = f.
Proof. by destruct f. Qed.

(** [do_gc] collects a line, or there is none to collect. *)
Lemma do_gc_spec rsv f a clk t :
  conv_inv f -> dyn_slc_mode f = a -> ppl_of (spp f) a + (if decide (a = TLC_MODE) then 0 else 1) <= space f TLC_MODE ->
  exists z t' f', do_gc rsv true clk t f = Ok (z, t', f') /\
    ((z = 0 /\ candidates f a <> [] /\ gc_done a f f') \/ (z = -1 /\ candidates f a = [] /\ exists n, f' = set_gc_cnt f n)).
Proof.
  intros I Hdyn Hroom. unfold do_gc. rewrite run_get, Hdyn. destruct a; cbn [is_slc].
  - destruct (select_victim_slc_spec f (ci_base _ I)) as ([[b p]|] & f1 & E & H); unfold is_slc;
      rewrite bool_decide_true by done; rewrite (run_update_get _ _ _ _ _ _ _ E).
    + destruct H as (-> & S & Hin). destruct (gc_body_spec rsv SLC_MODE p f f1 clk t I S Hdyn Hroom) as (t' & f' & E' & D).
      exists 0, t', f'. split; [|left; split; [done|]; split; [|done]].
      2:{ cbn. intros [H1 H2]%app_nil. rewrite H1, H2 in Hin. destruct Hin as [[Hin _]|[_ Hin]]; by apply elem_of_nil in Hin. } unfold gc_body in E'. rewrite run_get in E'.
      unfold is_slc in E'. rewrite bool_decide_true in E' by done. rewrite run_get.
      change (flashpgs_per_blk_slc (spp f)) with (rows_of (spp f) SLC_MODE). rewrite <- (kp_spp _ _ (se_keeps _ _ _ _ S)). exact E'.
    + destruct H as (H1 & H2 & ->). exists (-1), t, f. split; [done|]. right. split_and!; [done|cbn; by rewrite H1, H2|].
      exists (gc_cnt f). by rewrite set_gc_cnt_id.
  - destruct (select_victim_spec f true clk t (ci_base _ I)) as ([[b p]|] & t1 & f1 & E & H); unfold is_slc;
      rewrite bool_decide_false by done; rewrite run_bind_assoc, (run_bind _ _ _ _ _ _ _ _ E), run_bind_assoc, run_modify, run_ret.
    + destruct H as (-> & Hin & S & _). set (n := u64 _).
      destruct (gc_body_spec rsv TLC_MODE p (set_gc_cnt f n) (set_gc_cnt f1 n) clk t1) as (t' & f' & E' & D);
        [by apply conv_inv_gc_cnt|by apply selected_gc_cnt|done|exact Hroom|].
      exists 0, t', f'. split; [|left; split; [done|split; [|by eapply gc_done_gc_cnt]]].
      2:{ cbn. intros Hnil. rewrite Hnil in Hin. by apply elem_of_nil in Hin. }
      unfold gc_body in E'. rewrite run_get in E'.
      unfold is_slc in E'. rewrite bool_decide_false in E' by done. rewrite run_get.
      change (flashpgs_per_blk (spp f)) with (rows_of (spp f) TLC_MODE). rewrite <- (kp_spp _ _ (se_keeps _ _ _ _ S)). exact E'.
    + destruct H as [H ->]. eexists (-1), _, _. split; [done|]. right. split_and!; [done|done|by eexists].
Qed.

(** Every SLC line is free, open, or a candidate. *)
Lemma slc_candidates f : conv_inv f ->
  zlen (free_lines f SLC_MODE) + zlen (candidates f SLC_MODE) + 1 = nlines_of (spp f) SLC_MODE.
Proof.
  intros [B _]. destruct (fb_area _ _ _ B SLC_MODE) as (p & k & _ & L & _).
  pose proof (Permutation_length (lb_perm _ _ _ _ _ _ _ L)) as H. rewrite length_seq in H.
  rewrite !length_app in H. cbn [olist length no_victim] in H. unfold free_lines, candidates. rewrite length_app.
  cbn [get_lm] in *. pose proof (nlines_pos _ (fb_geo _ _ _ B) SLC_MODE). lia.
Qed.

(** What [foreground_gc] leaves. *)
Record migrated (f f' : conv_ftl) : Prop := {
  mg_inv : conv_inv f';
  mg_spp : spp f' = spp f;
  mg_cp : cp f' = cp f;
  mg_credits : write_credits (wfc f') = write_credits (wfc f);
  mg_refill : credits_to_refill (wfc f') = ppl_of (spp f) SLC_MODE;
  mg_wb : Ssd.write_buffer (ssd f') = Ssd.write_buffer (ssd f);
  mg_tlc : space f TLC_MODE - ppl_of (spp f) SLC_MODE <= space f' TLC_MODE;
  mg_free : zlen (free_lines f' SLC_MODE) =
    zlen (free_lines f SLC_MODE) + (if should_migration_high f then 1 else 0);
  mg_room : room f' SLC_MODE = room f SLC_MODE;
  mg_dom lpn : mapped f' lpn <-> mapped f lpn;
}.

(** An SLC line is reclaimed when one can be. *)
Lemma slc_gc_spec rsv f clk t :
  conv_inv f -> ppl_of (spp f) SLC_MODE + 1 <= space f TLC_MODE -> candidates f SLC_MODE <> [] ->
  exists t' f', (modify (fun f => set_dyn_slc_mode f SLC_MODE) ;; do_gc rsv true ;; ret tt) clk t f = Ok (tt, t', f') /\
    gc_done SLC_MODE f f'.
Proof.
  intros I Hroom Hc. rewrite run_modify. set (g := set_dyn_slc_mode f SLC_MODE).
  assert (Ig : conv_inv g) by (split; [by apply base_set_dyn, I|apply I]).
  destruct (do_gc_spec rsv g SLC_MODE clk t Ig) as (z & t' & f' & E & [(_ & _ & D)|(_ & D & _)]); [done|exact Hroom| |done].
  rewrite (run_bind _ _ _ _ _ _ _ _ E). exists t', f'. split; [done|]. destruct D. by split.
Qed.

(** A TLC line is reclaimed when one has an invalid page; in any case no space is lost. *)
Lemma tlc_gc_spec rsv f clk t :
  conv_inv f -> ppl_of (spp f) TLC_MODE <= space f TLC_MODE ->
  exists t' f', (modify (fun f => set_dyn_slc_mode f TLC_MODE) ;; do_gc rsv true ;; ret tt) clk t f = Ok (tt, t', f') /\
    (gc_done TLC_MODE f f' \/ exists n, f' = set_gc_cnt (set_dyn_slc_mode f TLC_MODE) n).
Proof.
  intros I Hroom. rewrite run_modify. set (g := set_dyn_slc_mode f TLC_MODE).
  assert (Ig : conv_inv g) by (split; [by apply base_set_dyn, I|apply I]).
  destruct (do_gc_spec rsv g TLC_MODE clk t Ig) as (z & t' & f' & E & H); [done| |].
  { case_decide; [|done]. change (space g TLC_MODE) with (space f TLC_MODE). change (spp g) with (spp f). lia. }
  rewrite (run_bind _ _ _ _ _ _ _ _ E). exists t', f'. split; [done|].
  destruct H as [(_ & _ & D)|(_ & _ & D)]; [left|by right]. destruct D. by split.
Qed.

Definition spare (f : conv_ftl) : Z := Z.max (ppl_of (spp f) TLC_MODE) (ppl_of (spp f) SLC_MODE + 1).

Lemma foreground_gc_spec rsv f clk t :
  conv_inv f -> mig_thres_lines_high (cp f) <= nlines_of (spp f) SLC_MODE - 2 ->
  credits_to_refill (wfc f) = ppl_of (spp f) SLC_MODE -> spare f <= space f TLC_MODE ->
  exists t' f', foreground_gc rsv clk t f = Ok (tt, t', f') /\ migrated f f'.
Proof.
  intros I Hthr Hre Hroom. unfold spare in Hroom. pose proof (ppl_pos _ (fb_geo _ _ _ (ci_base _ I)) SLC_MODE) as Hppl.
  unfold foreground_gc. rewrite run_get. destruct (should_migration_high f) eqn:Em; cbn [when].
  2:{ exists t, f. split; [done|]. split; rewrite ?Em; try done; lia. }
  assert (exists t1 f1, when (should_gc_high f) (modify (fun f => set_dyn_slc_mode f TLC_MODE) ;; do_gc rsv true ;; ret tt) clk t f =
    Ok (tt, t1, f1) /\ conv_inv f1 /\ slc_mode f1 = SLC_MODE /\ spp f1 = spp f /\ cp f1 = cp f /\ write_credits (wfc f1) = write_credits (wfc f) /\
    Ssd.write_buffer (ssd f1) = Ssd.write_buffer (ssd f) /\ space f TLC_MODE <= space f1 TLC_MODE /\
    zlen (free_lines f1 SLC_MODE) = zlen (free_lines f SLC_MODE) /\ room f1 SLC_MODE = room f SLC_MODE /\
    (forall n, mapped f1 n <-> mapped f n)) as (t1 & f1 & E1 & I1 & _ & Hs & Hc & Hw & Hb & Hsp & Hfr & Hr & Hd).
  { destruct (should_gc_high f); cbn [when].
    - destruct (tlc_gc_spec rsv f clk t I) as (t1 & f1 & E1 & D); [lia|]. exists t1, f1. split; [done|].
      destruct D as [[D1 D2 D3 D4 D5 D6 D7 D8 D9 D10]|[n ->]].
      + rewrite decide_False, Z.add_0_r in D8 by done. split_and!; try done; [apply (fb_mode _ _ _ (ci_base _ D1))|lia].
      + split_and!; try done; [|apply (fb_mode _ _ _ (ci_base _ I))]. apply conv_inv_gc_cnt. split; [by apply base_set_dyn, I|apply I].
    - exists t, f. split_and!; try done; apply (fb_mode _ _ _ (ci_base _ I)). }
  rewrite (run_bind _ _ _ _ _ _ _ _ E1), (fb_mode _ _ _ (ci_base _ I)). cbn [is_slc]. unfold is_slc.
  rewrite bool_decide_true by done. cbn [when].
  pose proof (slc_candidates f1 I1) as Hn. rewrite Hs, Hfr in Hn.
  assert (free_line_cnt (slm f) = zlen (free_lines f SLC_MODE)) as Hcnt.
  { destruct (fb_area _ _ _ (ci_base _ I) SLC_MODE) as (? & ? & _ & L & _). apply (lb_free_cnt _ _ _ _ _ _ _ L). }
  unfold should_migration_high in Em. rewrite Hcnt in Em.
  destruct (slc_gc_spec rsv f1 clk t1 I1) as (t2 & f2 & E2 & [D1 D2 D3 D4 D5 D6 D7 D8 D9 D10]).
  { rewrite Hs. lia. } { intros H0. rewrite H0 in Hn. change (zlen (@nil ptr)) with 0 in Hn. lia. }
  rewrite decide_True in D8 by done. exists t2, f2. split; [exact E2|].
  rewrite Hs in D2, D5, D7. specialize (D5 eq_refl).
  split; try congruence; try lia.
  - unfold should_migration_high. rewrite Hcnt, Em. congruence.
  - intros n. by rewrite D10, Hd.
Qed.

(** ** One page of a write *)
Lemma conv_inv_ticked f f' : conv_inv f -> ticked f f' -> conv_inv f'.
Proof.
  intros [B M] T. destruct (ticked_keeps _ _ T) as (K & _). split; [by eapply base_ticked|].
  rewrite (tk_sp _ _ T), (kp_maptbl _ _ K), (kp_rmap _ _ K). eapply map_ok_live; [|exact M].
  intros x _. by rewrite (tk_st _ _ T).
Qed.

Lemma wrote_ticked lpn f g h : wrote lpn f g -> ticked g h -> wrote lpn f h.
Proof.
  intros [W1 W2 W3 W4 W5 W6 W7 W8 W9 W10] T. pose proof (ticked_keeps _ _ T) as (K & P & _).
  assert (R : same_room g h) by (by apply keeps_same_room). destruct (same_room_space _ _ SLC_MODE R) as [R1 _].
  destruct (same_room_space _ _ TLC_MODE R) as [R2 _]. split; try congruence.
  - by eapply conv_inv_ticked.
  - by rewrite (tk_sp _ _ T).
  - by rewrite (kp_cp _ _ K).
  - by rewrite (kp_maptbl _ _ K).
  - by rewrite (kp_wfc _ _ K).
  - by rewrite (kp_wb _ _ K).
  - unfold room in *. rewrite (sl_wp _ _ P), (tk_sp _ _ T). exact W8.
  - by rewrite (tk_st _ _ T).
Qed.

Lemma write_program_spec stime x f clk t :
  conv_inv f -> in_range (spp f) x ->
  exists r t' f', write_program stime (pof x) clk t f = Ok (r, t', f') /\ ticked f f'.
Proof.
  intros [B _] Hx. pose proof (fb_geo _ _ _ B) as G. unfold write_program. rewrite run_get, (fb_mode _ _ _ B).
  cbn [is_slc]. unfold is_slc. rewrite bool_decide_true by done.
  destruct x as [[[c l] b] g]. destruct Hx as (Hc & Hl & Hb & Hg). pose proof (ppb_bits _ G (area_of (spp f) b)) as Hbits.
  pose proof (geo_oneshot_slc _ G). unfold last_pg_in_wordline_slc.
  replace (pgs_per_oneshotpg_slc (spp f) =? 0) with false by lia. cbn [pof Ssd.g_pg].
  destruct (_ =? _ - 1) eqn:Elast; rewrite (run_lift _ _ _ _ _ _ eq_refl).
  - set (cmd := Ssd.mk_cmd _ _ _ _ _ _). destruct (nand_ticked _ _ f cmd clk t B) as (z & t' & f' & E & T); [..|done|done|].
    1-3: cbn; lia.
    rewrite (run_bind _ _ _ _ _ _ _ _ E). by eexists _, _, _.
  - exists None, t, f. split; [done|]. split; try done; try apply B. exists (ssd f). by destruct f.
Qed.

Lemma write_one_page_spec rsv stime lpn f clk t :
  conv_inv f -> 0 <= lpn < tt_pgs (spp f) -> 2 <= space f SLC_MODE ->
  exists r t' f', write_one_page rsv stime lpn clk t f = Ok (r, t', f') /\ wrote lpn f f'.
Proof.
  intros I Hl Hsp. unfold write_one_page. destruct (write_page_map_spec f lpn clk t I Hl Hsp) as (t1 & f1 & E1 & W).
  rewrite (run_bind _ _ _ _ _ _ _ _ E1).
  destruct (write_program_spec stime (cursor f SLC_MODE) f1 clk t1 (wr_inv _ _ _ W)) as (r & t2 & f2 & E2 & T).
  - rewrite (wr_spp _ _ _ W). apply (cursor_in_range _ _ _ (ci_base _ I)).
  - exists r, t2, f2. split; [done|]. by eapply wrote_ticked.
Qed.

(** ** The write path *)
(** Between two page writes: a credit for each page left in the open SLC line, and
    lines to open next. *)
Record flow_ok (f : conv_ftl) : Prop := {
  fl_inv : conv_inv f;
  fl_thres : mig_thres_lines_high (cp f) = 2;
  fl_credits : write_credits (wfc f) = room f SLC_MODE;
  fl_refill : credits_to_refill (wfc f) = ppl_of (spp f) SLC_MODE;
  fl_free : 2 <= zlen (free_lines f SLC_MODE);
}.

(** TLC pages not yet owed to the SLC line being filled. *)
Definition slack (f : conv_ftl) : Z := space f TLC_MODE - (ppl_of (spp f) SLC_MODE - room f SLC_MODE).

Lemma mapped_wrote lpn f f' : wrote lpn f f' -> conv_inv f -> 0 <= lpn < tt_pgs (spp f) ->
  forall n, mapped f' n <-> n = lpn \/ mapped f n.
Proof.
  intros W [B M] Hl n. unfold mapped. rewrite (wr_map _ _ _ W). rewrite zget_zset by (rewrite (mo_len _ _ _ _ _ M); lia).
  destruct (decide (n = lpn)) as [->|Hne].
  - split; [by left|]. intros _. exists (pof (cursor f SLC_MODE)). split; [by rewrite ?decide_True|].
    apply (pof_mapped _ (fb_geo _ _ _ B)). apply (cursor_in_range _ _ _ B).
  - rewrite ?decide_False by done. naive_solver.
Qed.

Lemma base_room_range e x f a : ftl_base e x f -> 1 <= room f a <= ppl_of (spp f) a.
Proof.
  intros B. destruct (area_lines _ _ _ B a) as (p & k & W & _).
  pose proof (wp_range _ _ _ B a p k W) as [? _]. rewrite (room_at f a _ p k (fb_geo _ _ _ B) eq_refl W). lia.
Qed.

Lemma room_range f a : conv_inv f -> 1 <= room f a <= ppl_of (spp f) a.
Proof. intros [B _]. by eapply base_room_range. Qed.

(** The page and its credit, as [conv_write] runs them on a partition. *)
Definition write_page (rsv stime lpn : Z) : M conv_ftl (option (Z * Z)) :=
  let* r := write_one_page rsv stime lpn in
  write_credit rsv ;;
  ret r.

(** What one page write guarantees. *)
Record page_done (lpn : Z) (f f' : conv_ftl) : Prop := {
  pd_flow : flow_ok f';
  pd_spp : spp f' = spp f;
  pd_wb : Ssd.write_buffer (ssd f') = Ssd.write_buffer (ssd f);
  pd_slack : slack f - 1 <= slack f';
  pd_dom n : mapped f' n <-> n = lpn \/ mapped f n;
}.

(** The page is written: credits are one ahead of the room left. *)
Record page_owed (lpn : Z) (f f' : conv_ftl) : Prop := {
  po_wrote : wrote lpn f f';
  po_free : zlen (free_lines f' SLC_MODE) = zlen (free_lines f SLC_MODE) - (if room f SLC_MODE =? 1 then 1 else 0);
}.

Lemma owed f lpn f' : flow_ok f -> wrote lpn f f' -> page_owed lpn f f'.
Proof.
  intros F W. split; [done|]. pose proof (wr_space _ _ _ W) as H1. pose proof (wr_room _ _ _ W) as H2.
  unfold space in H1. rewrite (wr_spp _ _ _ W) in H1.
  pose proof (ppl_pos _ (fb_geo _ _ _ (ci_base _ (fl_inv _ F))) SLC_MODE). destruct (_ =? 1) eqn:E; nia.
Qed.

Lemma write_credit_spec rsv lpn f f1 clk t :
  flow_ok f -> 0 <= lpn < tt_pgs (spp f) -> spare f + 1 <= slack f -> wrote lpn f f1 ->
  exists t' f', write_credit rsv clk t f1 = Ok (tt, t', f') /\ page_done lpn f f'.
Proof.
  intros F Hl Hslack W. pose proof (fl_inv _ F) as I. pose proof (fb_geo _ _ _ (ci_base _ I)) as G.
  pose proof (room_range f SLC_MODE I) as Hr. pose proof (ppl_bound _ G SLC_MODE) as Hb.
  pose proof (po_free _ _ _ (owed _ _ _ F W)) as Hfree. pose proof (wr_room _ _ _ W) as Hroom.
  pose proof (wr_tlc _ _ _ W) as Htlc. pose proof (mapped_wrote _ _ _ W I Hl) as Hdom.
  destruct F as [_ Hthr Hcred Hre Hfr]. unfold slack in Hslack.
  unfold write_credit. rewrite run_modify. unfold consume_write_credit. set (f2 := set_wfc f1 _).
  assert (I2 : conv_inv f2) by (apply conv_inv_wfc, (wr_inv _ _ _ W)).
  assert (Hw2 : write_credits (wfc f2) = room f SLC_MODE - 1).
  { cbn. rewrite (wr_wfc _ _ _ W), Hcred, u32_id; lia. }
  assert (Hre2 : credits_to_refill (wfc f2) = ppl_of (spp f) SLC_MODE) by (cbn; by rewrite (wr_wfc _ _ _ W)).
  assert (Hs2 : spp f2 = spp f) by apply (wr_spp _ _ _ W).
  change (free_lines f1 SLC_MODE) with (free_lines f2 SLC_MODE) in Hfree. change (room f1 SLC_MODE) with (room f2 SLC_MODE) in Hroom.
  change (space f1 TLC_MODE) with (space f2 TLC_MODE) in Htlc. change (mapped f1) with (mapped f2) in Hdom.
  unfold check_and_refill_write_credit. rewrite run_get, Hw2.
  destruct (room f SLC_MODE =? 1) eqn:E; rewrite ?E in Hfree, Hroom.
  - replace (room f SLC_MODE - 1 <=? 0) with true by lia. cbn [when].
    destruct (foreground_gc_spec rsv f2 clk t I2) as (t' & f3 & E3 & [M1 M2 M3 M4 M5 M6 M7 M8 M9 M10]).
    { change (cp f2) with (cp f1). rewrite (wr_cp _ _ _ W), Hthr. pose proof (nlines_pos _ G SLC_MODE). rewrite Hs2. lia. }
    { by rewrite Hs2. } { unfold spare. rewrite Hs2. unfold spare in Hslack. lia. }
    rewrite (run_bind _ _ _ _ _ _ _ _ E3). eexists t', _. split; [done|]. rewrite Hs2 in M2, M5, M7.
    assert (should_migration_high f2 = (zlen (free_lines f2 SLC_MODE) <=? 2)) as Hm.
    { unfold should_migration_high. change (cp f2) with (cp f1). rewrite (wr_cp _ _ _ W), Hthr.
      destruct (fb_area _ _ _ (ci_base _ I2) SLC_MODE) as (? & ? & _ & L & _). cbn [get_lm] in L.
      by rewrite (lb_free_cnt _ _ _ _ _ _ _ L). }
    split; try done.
    + split; try done.
      * by apply conv_inv_wfc.
      * cbn. rewrite M3. change (cp f2) with (cp f1). by rewrite (wr_cp _ _ _ W).
      * cbn [wfc set_wfc write_credits]. rewrite M4, M5, Hw2, u32_id by lia. transitivity (room f3 SLC_MODE); [lia|done].
      * change (spp (set_wfc _ _)) with (spp f3). by rewrite M2, M5.
      * change (2 <= zlen (free_lines f3 SLC_MODE)). rewrite M8, Hm. destruct (_ <=? 2) eqn:E2; lia.
    + cbn. rewrite M6. apply (wr_wb _ _ _ W).
    + change (slack f - 1 <= space f3 TLC_MODE - (ppl_of (spp f3) SLC_MODE - room f3 SLC_MODE)). unfold slack. rewrite M2. lia.
    + intros n. change (mapped f3 n <-> n = lpn \/ mapped f n). by rewrite M10.
  - replace (room f SLC_MODE - 1 <=? 0) with false by lia. cbn [when]. exists t, f2. split; [done|]. split; try done.
    + split; try done; try (by rewrite ?Hs2); [|lia|lia]. cbn. by rewrite (wr_cp _ _ _ W).
    + apply (wr_wb _ _ _ W).
    + unfold slack. rewrite Hs2. lia.
Qed.

Lemma write_page_spec rsv stime lpn f clk t :
  flow_ok f -> 0 <= lpn < tt_pgs (spp f) -> spare f + 1 <= slack f ->
  exists r t' f', write_page rsv stime lpn clk t f = Ok (r, t', f') /\ page_done lpn f f'.
Proof.
  intros F Hl Hslack. pose proof (room_range f SLC_MODE (fl_inv _ F)) as Hr.
  pose proof (ppl_pos _ (fb_geo _ _ _ (ci_base _ (fl_inv _ F))) SLC_MODE) as Hp.
  destruct (write_one_page_spec rsv stime lpn f clk t (fl_inv _ F) Hl) as (r & t1 & f1 & E1 & W).
  { pose proof (fl_free _ F). unfold space. nia. }
  destruct (write_credit_spec rsv lpn f f1 clk t1 F Hl Hslack W) as (t2 & f2 & E2 & D).
  exists r, t2, f2. split; [|done]. unfold write_page. rewrite (run_bind _ _ _ _ _ _ _ _ E1), (run_bind _ _ _ _ _ _ _ _ E2). done.
Qed.

(** A new partition has all of its TLC pages as slack. *)
Lemma fresh_flow cfg s f : fresh_ftl (conv_init_params cfg) s f ->
  flow_ok f /\ slack f = ppl_of s TLC_MODE * nlines_of s TLC_MODE.
Proof.
  intros [F1 F2 F3 F4 F5 F6 F7 F8 _]. pose proof (fb_geo _ _ _ (ci_base _ F1)) as G. rewrite F2 in G. split.
  - split; rewrite ?F2; try done; [by rewrite F3|by rewrite F7, F6|]. rewrite F5. pose proof (nlines_pos _ G SLC_MODE). lia.
  - unfold slack, space. rewrite F2, !F6, F5. lia.
Qed.
