(* ===== verification/ConvNs.v ===== *)
(** * A namespace: host commands over all partitions

    A partition sees the shared PCIe model and write buffer in its own [ssd]
    ([with_shared]); after an operation both are copied back.  [ns_ok k]: every
    partition can take [k] more page writes.  [conv_write] consumes at most as many
    as the request has pages, meets no fault, and maps exactly the pages of the
    request; [conv_read] changes no mapping and no page. *)

From Stdlib Require Import ZArith Lia.
From stdpp Require Import base list numbers sets.
From S2P Require Import Prelude PQueue Config SsdParams ConvFtl Geometry Media Lines ConvInv ConvWp ConvMark ConvWrite ConvInit.
From S2P Require Import ConvGc ConvCollect ConvSelect ConvFlow.
From S2P Require ChannelModel Ssd Nvme.
Import Ssd (ppa, mk_ppa, sp, page_status, PG_FREE, PG_INVALID, PG_VALID, USER_IO, GC_IO, timing_ok, INVALID_LPN).

(** ** A partition and what it shares *)
Lemma shared_base d x n f : ftl_base d x f -> ChannelModel.chmodel_wf (shared_pcie n) -> ftl_base d x (with_shared n f).
Proof.
  intros [] Hp. split; try done. destruct fb_timing. by split.
Qed.

Lemma shared_inv n f : conv_inv f -> ChannelModel.chmodel_wf (shared_pcie n) -> conv_inv (with_shared n f).
Proof. intros [B M] Hp. split; [by apply shared_base|done]. Qed.

Lemma shared_flow n f : flow_ok f -> ChannelModel.chmodel_wf (shared_pcie n) -> flow_ok (with_shared n f).
Proof. intros [] Hp. split; try done. by apply shared_inv. Qed.

(** The state after an operation on partition [i]. *)
Definition put_part (n : conv_ns) (i : Z) (f : conv_ftl) : conv_ns :=
  ns_set_parts n (zset (ftls n) i f) (Ssd.pcie (ssd f)) (Ssd.write_buffer (ssd f)).

Lemma run_part {A} i (m : M conv_ftl A) n f clk t a t' f' :
  zget (ftls n) i = Some f -> m clk t (with_shared n f) = Ok (a, t', f') ->
  on_part i m clk t n = Ok (a, t', put_part n i f').
Proof. intros H E. unfold on_part. rewrite (proj2 (aget_ok _ _ _) H), E. done. Qed.

Lemma put_part_get n i f f' : zget (ftls n) i = Some f -> zget (ftls (put_part n i f')) i = Some f'.
Proof. intros H. apply zget_zset_eq. by eapply zget_range. Qed.

Lemma put_part_get_ne n i j f' : i <> j -> zget (ftls (put_part n i f')) j = zget (ftls n) j.
Proof. intros H. by apply zget_zset_ne. Qed.

Lemma put_part_shared n i f ops : with_shared (fold_left ns_post ops (put_part n i f)) f = f.
Proof.
  assert (forall ns, shared_pcie ns = Ssd.pcie (ssd f) -> shared_write_buffer ns = Ssd.write_buffer (ssd f) ->
    with_shared (fold_left ns_post ops ns) f = f) as H; [|by apply H].
  induction ops as [|o ops IH]; intros ns H1 H2; cbn; [|by apply IH].
  unfold with_shared. rewrite H1, H2. destruct f as [[]]. done.
Qed.

Lemma put_part_twice n i f f' : put_part (put_part n i f) i f' = put_part n i f'.
Proof. unfold put_part, ns_set_parts. cbn. f_equal. unfold zset. case_match; [done|]. apply list_insert_insert_eq. Qed.

(** ** Namespaces that can take [k] more page writes *)
Record ns_ok (s : ssdparams) (k : Z) (n : conv_ns) : Prop := {
  nk_parts : nr_parts n = zlen (ftls n);
  nk_some : 1 <= nr_parts n;
  nk_part i f : zget (ftls n) i = Some f -> flow_ok f /\ spp f = s /\ spare f + k <= slack f;
  nk_pcie : ChannelModel.chmodel_wf (shared_pcie n);
}.

(** The logical page [lpn] of the namespace is mapped. *)
Definition ns_mapped (n : conv_ns) (lpn : Z) : Prop :=
  exists f, zget (ftls n) (lpn mod nr_parts n) = Some f /\ mapped f (lpn / nr_parts n).

Lemma ns_get s k n lpn : ns_ok s k n -> exists f, zget (ftls n) (lpn mod nr_parts n) = Some f.
Proof. intros [H1 H2 _ _]. apply zget_Some. rewrite <- H1. apply Z.mod_pos_bound. lia. Qed.

Lemma spare_spp f f' : spp f' = spp f -> spare f' = spare f.
Proof. intros H. unfold spare. by rewrite H. Qed.

(** *** One page of a namespace write *)
Definition ns_page (rsv sqid stime parts lpn latest : Z) : M conv_ns Z :=
  let* done := on_part (lpn mod parts) (write_one_page rsv stime (lpn / parts)) in
  let* latest :=
    match done with
    | Some (z, size) => modify (fun n => ns_post n (Nvme.mk_internal sqid z size)) ;; ret (Z.max z latest)
    | None => ret latest
    end in
  on_part (lpn mod parts) (write_credit rsv) ;;
  ret latest.

(** What writing the pages [lpns] does. *)
Record ns_wrote (s : ssdparams) (sqid : Z) (k : Z) (lpns : list Z) (latest latest' : Z) (n n' : conv_ns) : Prop := {
  nw_ok : ns_ok s k n';
  nw_nr : nr_parts n' = nr_parts n;
  nw_csi : ns_csi n' = ns_csi n;
  nw_wb : shared_write_buffer n' = shared_write_buffer n;
  nw_late : latest <= latest';
  nw_ops : exists ops, outbox n' = outbox n ++ ops /\
    Forall (fun o => Nvme.io_sqid o = sqid /\ Nvme.io_nsecs_target o <= latest') ops;
  nw_dom lpn : ns_mapped n' lpn <-> lpn ∈ lpns \/ ns_mapped n lpn;
}.

Lemma same_slot parts x y : 1 <= parts -> x mod parts = y mod parts -> x / parts = y / parts -> x = y.
Proof. intros H H1 H2. rewrite (Z.div_mod x parts), (Z.div_mod y parts) by lia. congruence. Qed.

Lemma ns_page_spec s rsv sqid stime lpn latest k n clk t :
  ns_ok s (k + 1) n -> 0 <= k -> 0 <= lpn -> lpn / nr_parts n < tt_pgs s ->
  exists latest' t' n', ns_page rsv sqid stime (nr_parts n) lpn latest clk t n = Ok (latest', t', n') /\
    ns_wrote s sqid k [lpn] latest latest' n n'.
Proof.
  intros N Hk Hl Hr. pose proof N as [N1 N2 N3 N4]. destruct (ns_get _ _ _ lpn N) as [f Hf].
  destruct (N3 _ _ Hf) as (F & Hs & Hslack). set (i := lpn mod nr_parts n) in *. set (l := lpn / nr_parts n) in *.
  pose proof (shared_flow n f F N4) as Fs. set (g := with_shared n f) in *.
  assert (0 <= l < tt_pgs (spp g)) as Hlr by (change (spp g) with (spp f); rewrite Hs; split; [apply Z.div_pos|]; lia).
  assert (spare g + 1 <= slack g) as Hsl by (change (spare f + 1 <= slack f); lia).
  pose proof (ppl_pos _ (fb_geo _ _ _ (ci_base _ (fl_inv _ Fs))) SLC_MODE) as Hp.
  pose proof (room_range g SLC_MODE (fl_inv _ Fs)) as Hrm.
  destruct (write_one_page_spec rsv stime l g clk t (fl_inv _ Fs) Hlr) as (r & t1 & f1 & E1 & W).
  { pose proof (fl_free _ Fs). unfold space. nia. }
  destruct (write_credit_spec rsv l g f1 clk t1 Fs Hlr Hsl W) as (t2 & f2 & E2 & D).
  pose proof (run_part i _ n f clk t _ _ _ Hf E1) as R1.
  set (ops := match r with Some (z, size) => [Nvme.mk_internal sqid z size] | None => [] end).
  set (latest' := match r with Some (z, _) => Z.max z latest | None => latest end).
  set (n1 := fold_left ns_post ops (put_part n i f1)).
  assert (Hn1 : zget (ftls n1) i = Some f1).
  { unfold n1, ops. destruct r as [[]|]; by eapply put_part_get. }
  pose proof (run_part i (write_credit rsv) n1 f1 clk t1 tt t2 f2 Hn1) as R2.
  unfold n1 in R2 at 1. rewrite put_part_shared in R2. specialize (R2 E2).
  exists latest', t2, (put_part n1 i f2). split.
  { unfold ns_page. fold i l. rewrite (run_bind _ _ _ _ _ _ _ _ R1).
    destruct r as [[z size]|]; cbn [ops fold_left] in n1; rewrite ?run_bind_assoc, ?run_modify, run_ret;
      fold n1; rewrite (run_bind _ _ _ _ _ _ _ _ R2); done. }
  assert (Hparts : ftls (put_part n1 i f2) = zset (ftls n) i f2).
  { assert (ftls n1 = zset (ftls n) i f1) as H1 by (unfold n1, ops; by destruct r as [[]|]).
    cbn. rewrite H1. unfold zset. case_match; [done|]. apply list_insert_insert_eq. }
  assert (Hnr : nr_parts (put_part n1 i f2) = nr_parts n) by (unfold n1, ops; by destruct r as [[]|]).
  assert (Hget : forall j, zget (ftls (put_part n1 i f2)) j = if decide (i = j) then Some f2 else zget (ftls n) j).
  { intros j. rewrite Hparts, zget_zset; [done|]. by eapply zget_range. }
  pose proof (pd_flow _ _ _ D) as F2. pose proof (pd_spp _ _ _ D) as Hs2.
  split; try done.
  - split.
    + rewrite Hnr, Hparts, length_zset. done.
    + by rewrite Hnr.
    + intros j h Hj. rewrite Hget in Hj. case_decide as Hij.
      * injection Hj as <-. split; [done|]. split; [by rewrite Hs2|]. rewrite (spare_spp _ _ Hs2).
        pose proof (pd_slack _ _ _ D) as H. change (slack g) with (slack f) in H. change (spare g) with (spare f). lia.
      * destruct (N3 _ _ Hj) as (? & ? & ?). split_and!; [done|done|lia].
    + apply (Ssd.to_pcie _ (fb_timing _ _ _ (ci_base _ (fl_inv _ F2)))).
  - unfold n1, ops. by destruct r as [[]|].
  - apply (pd_wb _ _ _ D).
  - unfold latest'. destruct r as [[]|]; lia.
  - exists ops. split; [unfold n1, ops; destruct r as [[]|]; cbn; by rewrite ?app_nil_r|].
    unfold ops, latest'. destruct r as [[]|]; [|constructor]. constructor; [|constructor]. cbn. lia.
  - intros x. unfold ns_mapped. rewrite Hnr, Hget, list_elem_of_singleton.
    destruct (decide (i = x mod nr_parts n)) as [Ei|Ei]; [|split; [naive_solver|intros [->|H]; naive_solver]].
    rewrite <- Ei. split.
    + intros (h & [= <-] & Hm). apply (pd_dom _ _ _ D) in Hm as [Hm|Hm]; [left|right; by exists f].
      by apply (same_slot (nr_parts n)).
    + intros [->|(h & Hh & Hm)]; (exists f2; split; [done|]); apply (pd_dom _ _ _ D); [by left|].
      rewrite Hf in Hh. injection Hh as <-. by right.
Qed.

(** *** A list of pages *)
Lemma write_lpns_cons rsv sqid stime parts lpn lpns latest clk t n :
  write_lpns rsv sqid stime parts (lpn :: lpns) latest clk t n =
  bind (ns_page rsv sqid stime parts lpn latest) (fun latest => write_lpns rsv sqid stime parts lpns latest) clk t n.
Proof.
  unfold ns_page. cbn [write_lpns]. unfold bind, modify, ret.
  destruct (on_part _ (write_one_page _ _ _) clk t n) as [[[[[z size]|] t1] n1]|]; [..|done];
    by destruct (on_part _ (write_credit _) _ _ _) as [[[]]|].
Qed.

Lemma write_lpns_spec s rsv sqid stime lpns : forall latest k n clk t,
  ns_ok s (k + zlen lpns) n -> 0 <= k -> (forall x, x ∈ lpns -> 0 <= x /\ x / nr_parts n < tt_pgs s) ->
  exists latest' t' n', write_lpns rsv sqid stime (nr_parts n) lpns latest clk t n = Ok (latest', t', n') /\
    ns_wrote s sqid k lpns latest latest' n n'.
Proof.
  induction lpns as [|x lpns IH]; intros latest k n clk t N Hk Hr.
  - exists latest, t, n. split; [done|]. split; try done.
    + cbn in N. by rewrite Z.add_0_r in N.
    + exists []. by rewrite app_nil_r.
    + intros lpn. set_solver.
  - destruct (Hr x) as [Hx0 Hx]; [by left|].
    destruct (ns_page_spec s rsv sqid stime x latest (k + zlen lpns) n clk t) as (l1 & t1 & n1 & E1 & [A1 A2 A3 A4 A5 A6 A7]).
    { cbn in N. by replace (k + _ + 1) with (k + Z.of_nat (Datatypes.S (length lpns))) by lia. } { lia. } { done. } { done. }
    destruct (IH l1 k n1 clk t1 A1 Hk) as (l2 & t2 & n2 & E2 & [B1 B2 B3 B4 B5 B6 B7]).
    { intros y Hy. rewrite A2. apply Hr. by right. }
    exists l2, t2, n2. rewrite write_lpns_cons, (run_bind _ _ _ _ _ _ _ _ E1), <- A2. split; [done|]. split; try congruence; [lia| |].
    + destruct A6 as (o1 & Ho1 & F1), B6 as (o2 & Ho2 & F2). exists (o1 ++ o2). split; [by rewrite Ho2, Ho1, app_assoc|].
      apply Forall_app. split; [|done]. eapply Forall_impl; [exact F1|]. cbn. intros o [? ?]. split; [done|lia].
    + intros y. rewrite B7, A7. set_solver.
Qed.

(** *** The command *)
Lemma elem_lpn_range a b step x : 0 < step ->
  x ∈ lpn_range a b step <-> exists i, 0 <= i /\ x = a + i * step /\ x <= b.
Proof.
  intros Hs. unfold lpn_range, zseq. rewrite list_elem_of_fmap. split.
  - intros (i & -> & Hi). rewrite elem_of_seqZ in Hi. exists i. split; [lia|]. split; [done|].
    assert (i <= (b - a) / step) by lia. assert (i * step <= b - a); [|lia].
    etrans; [apply Z.mul_le_mono_nonneg_r; [lia|done]|]. rewrite Z.mul_comm. by apply Z.mul_div_le.
  - intros (i & Hi & -> & Hle). exists i. split; [done|]. rewrite elem_of_seqZ. split; [done|].
    assert (i <= (b - a) / step); [|lia]. apply Z.div_le_lower_bound; lia.
Qed.

Lemma length_lpn_range a b : zlen (lpn_range a b 1) = Z.max 0 (b - a + 1).
Proof. unfold lpn_range, zseq. rewrite length_fmap, length_seqZ, Z.div_1_r. lia. Qed.

(** The requested pages. *)
Definition rq_lpns (s : ssdparams) (c : Nvme.nvme_rw_command) : list Z := lpn_range (start_lpn_of s c) (end_lpn_of s c) 1.

(** A write inside the device that is larger than the whole write buffer. *)
Definition oversized (s : ssdparams) (n : conv_ns) (c : Nvme.nvme_rw_command) : bool :=
  (end_lpn_of s c / nr_parts n <? tt_pgs s) && (Ssd.size (shared_write_buffer n) <? LBA_TO_BYTE (nr_lba_of c)).

Inductive write_result (s : ssdparams) (k : Z) (rq : Nvme.nvmev_request) (rt : Nvme.nvmev_result) (n : conv_ns) :
    bool * Nvme.nvmev_result -> conv_ns -> Prop :=
| Write_out_of_range :
    tt_pgs s <= end_lpn_of s (Nvme.cmd rq) / nr_parts n -> write_result s k rq rt n (false, rt) n
| Write_no_buffer :
    end_lpn_of s (Nvme.cmd rq) / nr_parts n < tt_pgs s ->
    Ssd.remaining (shared_write_buffer n) < LBA_TO_BYTE (nr_lba_of (Nvme.cmd rq)) -> write_result s k rq rt n (false, rt) n
| Write_done start latest n' :
    end_lpn_of s (Nvme.cmd rq) / nr_parts n < tt_pgs s ->
    LBA_TO_BYTE (nr_lba_of (Nvme.cmd rq)) <= Ssd.remaining (shared_write_buffer n) ->
    ns_wrote s (Nvme.sq_id rq) k (rq_lpns s (Nvme.cmd rq)) start latest
      (ns_set_wbuf n (Ssd.mk_buffer (Ssd.size (shared_write_buffer n))
        (Ssd.remaining (shared_write_buffer n) - LBA_TO_BYTE (nr_lba_of (Nvme.cmd rq))))) n' ->
    write_result s k rq rt n
      (true, Nvme.mk_result Nvme.NVME_SC_SUCCESS
        (if negb (Z.land (Nvme.control (Nvme.cmd rq)) Nvme.NVME_RW_FUA =? 0) || negb (write_early_completion s)
         then latest else start)) n'.

Lemma ns_ok_le s k k' n : ns_ok s k n -> k' <= k -> ns_ok s k' n.
Proof. intros [H1 H2 H3 H4] H. split; try done. intros i f Hf. destruct (H3 i f Hf) as (? & ? & ?). split_and!; [done|done|lia]. Qed.

Lemma ns_ok_wbuf s k n wb : ns_ok s k n -> ns_ok s k (ns_set_wbuf n wb).
Proof. intros []. by split. Qed.

Lemma set_wbuf_id n : ns_set_wbuf n (shared_write_buffer n) = n.
Proof. by destruct n. Qed.

(** The transfer into the write buffer takes PCIe time only. *)
Lemma wbuf_xfer_spec s k req len n clk t :
  ns_ok s k n -> exists z t' n',
    on_part 0 (zoom_ssd (Ssd.ssd_advance_write_buffer req len)) clk t n = Ok (z, t', n') /\
    ns_ok s k n' /\ nr_parts n' = nr_parts n /\ ns_csi n' = ns_csi n /\ outbox n' = outbox n /\
    shared_write_buffer n' = shared_write_buffer n /\ (forall x, ns_mapped n' x <-> ns_mapped n x).
Proof.
  intros N. pose proof N as [N1 N2 N3 N4]. destruct (zget_Some (ftls n) 0) as [f Hf]; [lia|].
  destruct (N3 _ _ Hf) as (F & Hs & Hsl). pose proof (shared_flow n f F N4) as Fs. set (g := with_shared n f) in *.
  destruct (Ssd.ssd_advance_pcie_hoare (fun x => exists m, x = Ssd.set_pcie (ssd g) m /\ ChannelModel.chmodel_wf m)
    (u64 (u64 (req + fw_wbuf_lat0 (sp (ssd g))) + fw_wbuf_lat1 (sp (ssd g)) * DIV_ROUND_UP len (KB 4))) len) with
    (c := clk) (t := t) (s := ssd g) as (z & t' & s' & E & (m & -> & Hm)).
  { intros x m (m0 & -> & _) Hm. exists m. split; [|done]. by destruct (ssd g). }
  { intros x (m0 & -> & Hm). done. }
  { exists (Ssd.pcie (ssd g)). split; [by destruct (ssd g)|apply N4]. }
  assert (zoom_ssd (Ssd.ssd_advance_write_buffer req len) clk t g = Ok (z, t', set_ssd g (Ssd.set_pcie (ssd g) m))) as E'.
  { unfold zoom_ssd, zoom, Ssd.ssd_advance_write_buffer, bind, gets. by rewrite E. }
  set (f' := set_ssd g _) in *. exists z, t', (put_part n 0 f'). split; [by apply run_part with f|].
  assert (Hget : forall j, zget (ftls (put_part n 0 f')) j = if decide (0 = j) then Some f' else zget (ftls n) j).
  { intros j. apply zget_zset. lia. }
  assert (flow_ok f') as F'.
  { pose proof (shared_flow (ns_set_parts n [] m (shared_write_buffer n)) f F Hm) as H. exact H. }
  split_and!; try done.
  - split; [change (nr_parts n = zlen (zset (ftls n) 0 f')); by rewrite length_zset|done| |done]. intros j h Hj. rewrite Hget in Hj. case_decide; [|by apply N3 with j].
    injection Hj as <-. split; [done|]. split; [done|]. exact Hsl.
  - intros x. unfold ns_mapped. rewrite Hget. change (nr_parts (put_part n 0 f')) with (nr_parts n).
    case_decide as Hx; [|done]. rewrite <- Hx, Hf. split; intros (h & [= <-] & Hm'); eexists; (split; [done|]); done.
Qed.

Lemma u64_nonneg x : 0 <= u64 x.
Proof. apply u64_range. Qed.

(** A write larger than the buffer runs into the assertion of [buffer_allocate]. *)
Lemma conv_write_oversized s k rsv rq rt n clk t :
  ns_ok s k n -> oversized s n (Nvme.cmd rq) = true -> conv_write rsv rq rt clk t n = Err BugOn.
Proof.
  intros N H. apply andb_prop in H as [H1 H2]. pose proof N as [N1 N2 N3 N4]. destruct (zget_Some (ftls n) 0) as [f Hf]; [lia|].
  destruct (N3 _ _ Hf) as (F & Hs & _). pose proof (fb_geo _ _ _ (ci_base _ (fl_inv _ F))) as G. rewrite Hs in G.
  pose proof (geo_secs _ G) as Hsecs.
  unfold conv_write. rewrite run_get. unfold first_part. rewrite (run_bind _ _ _ _ _ f t n).
  2:{ rewrite run_get. unfold lift. by rewrite (proj2 (aget_ok _ _ _) Hf). }
  rewrite Hs. replace (secs_per_pg s =? 0) with false by lia. replace (nr_parts n =? 0) with false by lia. cbn [orb].
  replace (tt_pgs s <=? end_lpn_of s (Nvme.cmd rq) / nr_parts n) with false by lia.
  unfold bind, update_get, Ssd.buffer_allocate, rassert. replace (_ <=? Ssd.size _) with false by lia. done.
Qed.

Lemma conv_write_spec s k rsv rq rt n clk t :
  ns_ok s (k + zlen (rq_lpns s (Nvme.cmd rq))) n -> Nvme.rw_ok (Nvme.cmd rq) -> Ssd.size (shared_write_buffer n) < 2 ^ 32 ->
  oversized s n (Nvme.cmd rq) = false -> 0 <= k ->
  exists r t' n', conv_write rsv rq rt clk t n = Ok (r, t', n') /\ write_result s k rq rt n r n'.
Proof.
  intros N [Hsl Hlen] Hb2 Hov Hk. unfold oversized in Hov. pose proof N as [N1 N2 N3 N4]. destruct (zget_Some (ftls n) 0) as [f Hf]; [lia|].
  destruct (N3 _ _ Hf) as (F & Hs & _). pose proof (fb_geo _ _ _ (ci_base _ (fl_inv _ F))) as G. rewrite Hs in G.
  pose proof (geo_secs _ G) as Hsecs.
  unfold conv_write. rewrite run_get. unfold first_part. rewrite (run_bind _ _ _ _ _ f t n).
  2:{ rewrite run_get. unfold lift. by rewrite (proj2 (aget_ok _ _ _) Hf). }
  rewrite Hs. replace (secs_per_pg s =? 0) with false by lia. replace (nr_parts n =? 0) with false by lia. cbn [orb].
  destruct (Z.leb_spec (tt_pgs s) (end_lpn_of s (Nvme.cmd rq) / nr_parts n)) as [Hend|Hend].
  { eexists _, _, _. split; [done|]. by apply Write_out_of_range. }
  set (bytes := LBA_TO_BYTE _) in *. assert (bytes <= Ssd.size (shared_write_buffer n)) as Hb1 by lia. assert (0 < bytes).
  { unfold bytes, LBA_TO_BYTE, nr_lba_of. rewrite Z.shiftl_mul_pow2 by done. change (2 ^ LBA_BITS) with 512. lia. }
  rewrite (run_update_get _ _ _ _ _ (if Ssd.remaining (shared_write_buffer n) <? bytes then 0 else bytes)
    (if Ssd.remaining (shared_write_buffer n) <? bytes then n else
       ns_set_wbuf n (Ssd.mk_buffer (Ssd.size (shared_write_buffer n)) (Ssd.remaining (shared_write_buffer n) - bytes)))).
  2:{ rewrite Ssd.buffer_allocate_spec by lia. case_match; cbn [rbind]; [by rewrite set_wbuf_id|done]. }
  destruct (Z.ltb_spec (Ssd.remaining (shared_write_buffer n)) bytes) as [Hrem|Hrem].
  { replace (0 <? bytes) with true by lia. eexists _, _, _. split; [done|]. by apply Write_no_buffer. }
  replace (bytes <? bytes) with false by lia. set (n1 := ns_set_wbuf n _).
  destruct (wbuf_xfer_spec s _ (Nvme.nsecs_start rq) bytes n1 clk t (ns_ok_wbuf _ _ _ _ N))
    as (start & t2 & n2 & E2 & N' & Q1 & Q2 & Q3 & Q4 & Q5).
  rewrite (run_bind _ _ _ _ _ _ _ _ E2).
  destruct (write_lpns_spec s rsv (Nvme.sq_id rq) start (rq_lpns s (Nvme.cmd rq)) start k n2 clk t2) as (latest & t3 & n3 & E3 & W).
  { done. } { done. }
  { intros x (i & Hi & -> & Hx)%elem_lpn_range; [|done]. rewrite Q1. change (nr_parts n1) with (nr_parts n).
    assert (0 <= start_lpn_of s (Nvme.cmd rq)) by (apply Z.div_pos; lia). split; [lia|].
    eapply Z.le_lt_trans; [apply Z.div_le_mono; [lia|exact Hx]|done]. }
  rewrite Q1 in E3. change (nr_parts n1) with (nr_parts n) in E3. rewrite (run_bind _ _ _ _ _ _ _ _ E3).
  eexists _, _, _. split; [done|]. apply Write_done; [done|done|].
  destruct W as [W1 W2 W3 W4 W5 W6 W7]. split; try congruence; try done.
  - by rewrite W2, Q1.
  - by rewrite W3, Q2.
  - by rewrite W4, Q4.
  - rewrite Q3 in W6. exact W6.
  - intros x. rewrite W7, Q5. done.
Qed.

(** ** Reads *)
(** The address of a page of the device. *)
Definition addr_ok (s : ssdparams) (p : ppa) : Prop := exists x, p = pof x /\ in_range s x.

Lemma ticked_refl f : conv_inv f -> ticked f f.
Proof. intros [B _]. split; try done; try apply B. exists (ssd f). by destruct f. Qed.

Lemma issue_read_spec stime xfer p acc f clk t :
  conv_inv f -> addr_ok (spp f) p -> 0 < xfer ->
  exists z t' f', issue_read stime xfer p acc clk t f = Ok (z, t', f') /\ acc <= z /\ ticked f f'.
Proof.
  intros [B _] (x & -> & Hx) Hxfer. unfold issue_read. set (cmd := Ssd.mk_cmd _ _ _ _ _ _).
  destruct x as [[[c l] b] g]. destruct Hx as (Hc & Hl & Hb & Hg). pose proof (ppb_bits _ (fb_geo _ _ _ B) (area_of (spp f) b)).
  destruct (nand_ticked _ _ f cmd clk t B) as (z & t' & f' & E & T); [cbn; lia..| |done|].
  { intros _. by exists xfer. }
  rewrite (run_bind _ _ _ _ _ _ _ _ E). eexists _, _, _. split; [done|]. split; [lia|done].
Qed.

Lemma maptbl_addr f lpn p : conv_inv f -> zget (maptbl f) lpn = Some p -> mapped_ppa p = true ->
  addr_ok (spp f) p.
Proof. intros [_ M] Hp Hm. destruct (mo_fwd _ _ _ _ _ M lpn p Hp Hm) as (x & ? & ? & _). by exists x. Qed.

(** Every mapped page is accepted: the skip of [conv_read] is for unmapped pages only. *)
Lemma mapped_valid f lpn p : conv_inv f -> zget (maptbl f) lpn = Some p -> mapped_ppa p = true -> valid_ppa f p = true.
Proof.
  intros I Hp Hm. destruct (maptbl_addr f lpn p I Hp Hm) as (x & -> & Hx). destruct I as [B _].
  apply (valid_ppa_in_range f (fb_mode _ _ _ B) _ (tt_eq _ _ _ B)). rewrite cof_pof. split; [done|].
  rewrite (geo_pls _ (fb_geo _ _ _ B)). destruct x as [[[c l] b] g]. cbn. lia.
Qed.

Lemma get_maptbl_ok f lpn : conv_inv f -> 0 <= lpn < tt_pgs (spp f) ->
  exists p, get_maptbl_ent f lpn = Ok p /\ zget (maptbl f) lpn = Some p.
Proof. intros [_ M] H. apply aget_in. by rewrite (mo_len _ _ _ _ _ M). Qed.

Lemma read_lpns_spec stime parts lpns : forall f prev xfer acc clk t,
  conv_inv f -> 1 <= parts -> (forall x, x ∈ lpns -> 0 <= x / parts < tt_pgs (spp f)) ->
  0 <= xfer -> (0 < xfer \/ mapped_ppa prev = true -> addr_ok (spp f) prev) ->
  exists prev' xfer' acc' t' f', read_lpns stime parts lpns prev xfer acc clk t f = Ok (prev', xfer', acc', t', f') /\
    acc <= acc' /\ 0 <= xfer' /\ (0 < xfer' -> addr_ok (spp f) prev') /\ ticked f f'.
Proof.
  induction lpns as [|x lpns IH]; intros f prev xfer acc clk t I Hp Hr H0 Ha.
  { exists prev, xfer, acc, t, f. split_and!; try done; [intros; apply Ha; by left|by apply ticked_refl]. }
  assert (forall y, y ∈ lpns -> 0 <= y / parts < tt_pgs (spp f)) as Hr' by (intros y Hy; apply Hr; by right).
  cbn [read_lpns]. rewrite run_get. destruct (get_maptbl_ok f (x / parts) I) as (cur & E & Hcur); [apply Hr; by left|].
  rewrite (run_lift _ _ _ _ _ _ E).
  destruct (mapped_ppa cur) eqn:Em; cbn [negb orb]; [|by apply IH].
  rewrite (mapped_valid f _ cur I Hcur Em). cbn [negb].
  destruct (mapped_ppa prev && is_same_flash_page f cur prev) eqn:Eb.
  { apply IH; try done; [apply u32_range|]. intros _. apply Ha. right. by apply andb_true_iff in Eb as [-> _]. }
  assert (exists z t1 f1, (if 0 <? xfer then issue_read stime xfer prev acc else ret acc) clk t f = Ok (z, t1, f1) /\
    acc <= z /\ ticked f f1) as (z & t1 & f1 & E1 & Hz & T).
  { destruct (Z.ltb_spec 0 xfer); [apply issue_read_spec; try done; apply Ha; by left|].
    exists acc, t, f. split; [done|]. split; [done|by apply ticked_refl]. }
  rewrite (run_bind _ _ _ _ _ _ _ _ E1). pose proof (tk_sp _ _ T) as Hs.
  destruct (IH f1 cur (u32 (pgsz (spp f))) z clk t1) as (p' & x' & a' & t' & f' & E2 & A1 & A2 & A3 & A4); rewrite ?Hs; try done.
  - by eapply conv_inv_ticked.
  - apply u32_range.
  - intros _. by eapply maptbl_addr.
  - rewrite Hs in A3. eexists _, _, _, _, _. split; [exact E2|]. split_and!; [lia|done|done|by eapply ticked_trans].
Qed.

Lemma read_part_spec stime parts a b acc f clk t :
  conv_inv f -> 1 <= parts -> 0 <= a <= b -> b / parts < tt_pgs (spp f) ->
  exists acc' t' f', read_part stime parts a b acc clk t f = Ok (acc', t', f') /\ acc <= acc' /\ ticked f f'.
Proof.
  intros I Hp Ha Hb. assert (forall x, 0 <= x <= b -> 0 <= x / parts < tt_pgs (spp f)) as Hr.
  { intros x Hx. split; [apply Z.div_pos; lia|]. eapply Z.le_lt_trans; [apply Z.div_le_mono; [lia|apply Hx]|done]. }
  unfold read_part. rewrite run_get. destruct (get_maptbl_ok f (a / parts) I) as (prev & E & Hprev); [by apply Hr|].
  rewrite (run_lift _ _ _ _ _ _ E).
  destruct (read_lpns_spec stime parts (lpn_range a b parts) f prev 0 acc clk t) as (p' & x' & a' & t1 & f1 & E1 & A1 & A2 & A3 & T);
    try done.
  { intros x (i & Hi & -> & Hx)%elem_lpn_range; [|lia]. apply Hr. split; [nia|done]. }
  { intros [?|Hm]; [lia|]. by eapply maptbl_addr. }
  rewrite (run_bind _ _ _ _ _ _ _ _ E1). destruct (Z.ltb_spec 0 x').
  - destruct (issue_read_spec stime x' p' a' f1 clk t1) as (z & t2 & f2 & E2 & Hz & T2); [by eapply conv_inv_ticked| |done|].
    { rewrite (tk_sp _ _ T). by apply A3. }
    eexists _, _, _. split; [exact E2|]. split; [lia|by eapply ticked_trans].
  - by eexists _, _, _.
Qed.

(** A read leaves every partition's mapping and pages. *)
Record same_data (f f' : conv_ftl) : Prop := {
  sd_spp : spp f' = spp f;
  sd_maptbl : maptbl f' = maptbl f;
  sd_rmap : rmap f' = rmap f;
  sd_st x : st (ssd f') x = st (ssd f) x;
}.

Record ns_read (s : ssdparams) (k : Z) (n n' : conv_ns) : Prop := {
  nr_ok : ns_ok s k n';
  nr_nr : nr_parts n' = nr_parts n;
  nr_csi : ns_csi n' = ns_csi n;
  nr_wb : shared_write_buffer n' = shared_write_buffer n;
  nr_out : outbox n' = outbox n;
  nr_data i f' : zget (ftls n') i = Some f' -> exists f, zget (ftls n) i = Some f /\ same_data f f';
}.

Lemma ns_read_refl s k n : ns_ok s k n -> ns_read s k n n.
Proof. intros N. split; try done. intros i f Hf. exists f. by split. Qed.

Lemma ns_read_trans s k n1 n2 n3 : ns_read s k n1 n2 -> ns_read s k n2 n3 -> ns_read s k n1 n3.
Proof.
  intros [] []. split; try congruence. intros i f3 H3. destruct (nr_data1 i f3 H3) as (f2 & H2 & [S1 S2 S3 S4]).
  destruct (nr_data0 i f2 H2) as (f1 & H1 & [R1 R2 R3 R4]). exists f1. split; [done|]. split; congruence.
Qed.

Lemma flow_ticked f f' : flow_ok f -> ticked f f' -> flow_ok f' /\ slack f' = slack f.
Proof.
  intros [I H1 H2 H3 H4] T. pose proof (ticked_keeps _ _ T) as (K & P & _). pose proof (tk_sp _ _ T) as Hs.
  assert (R : same_room f f') by (by apply keeps_same_room). destruct (same_room_space _ _ TLC_MODE R) as [R1 _].
  assert (room f' SLC_MODE = room f SLC_MODE) as Hroom by (unfold room; by rewrite (sl_wp _ _ P), Hs).
  split.
  - split; rewrite ?(kp_cp _ _ K), ?(kp_wfc _ _ K), ?Hroom, ?Hs, ?(sl_free _ _ P); try done. by eapply conv_inv_ticked.
  - unfold slack. by rewrite R1, Hroom, Hs.
Qed.

Lemma ns_read_part s k n stime a b acc clk t :
  ns_ok s k n -> 0 <= a <= b -> b / nr_parts n < tt_pgs s ->
  exists acc' t' n', on_part (a mod nr_parts n) (read_part stime (nr_parts n) a b acc) clk t n = Ok (acc', t', n') /\
    acc <= acc' /\ ns_read s k n n'.
Proof.
  intros N Ha Hb. pose proof N as [N1 N2 N3 N4]. destruct (ns_get _ _ _ a N) as [f Hf].
  destruct (N3 _ _ Hf) as (F & Hs & Hsl). set (i := a mod nr_parts n) in *.
  pose proof (shared_flow n f F N4) as Fs. set (g := with_shared n f) in *.
  destruct (read_part_spec stime (nr_parts n) a b acc g clk t) as (z & t' & f' & E & Hz & T); try done.
  { apply Fs. } { change (spp g) with (spp f). by rewrite Hs. }
  destruct (flow_ticked _ _ Fs T) as [F' Hsl']. pose proof (ticked_keeps _ _ T) as (K & _).
  exists z, t', (put_part n i f'). split; [by apply run_part with f|]. split; [done|].
  assert (Hget : forall j, zget (ftls (put_part n i f')) j = if decide (i = j) then Some f' else zget (ftls n) j).
  { intros j. apply zget_zset. by eapply zget_range. }
  split; try done.
  - split; try done.
    + change (nr_parts n = zlen (zset (ftls n) i f')). by rewrite length_zset.
    + intros j h Hj. rewrite Hget in Hj. case_decide; [|by apply N3 with j]. injection Hj as <-.
      split; [done|]. split; [by rewrite (tk_sp _ _ T)|]. rewrite (spare_spp _ _ (tk_sp _ _ T)), Hsl'. exact Hsl.
    + apply (Ssd.to_pcie _ (tk_timing _ _ T)).
  - apply (tk_wb _ _ T).
  - intros j h Hj. rewrite Hget in Hj. case_decide as Hij; [|by exists h]. injection Hj as <-. subst j. exists f.
    split; [done|]. split; [apply (tk_sp _ _ T)|apply (kp_maptbl _ _ K)|apply (kp_rmap _ _ K)|intros x; by rewrite (tk_st _ _ T)].
Qed.

Lemma read_parts_spec s k stime b fuel : forall n a acc clk t,
  ns_ok s k n -> 0 <= a -> b / nr_parts n < tt_pgs s ->
  exists acc' t' n', read_parts fuel stime (nr_parts n) a b acc clk t n = Ok (acc', t', n') /\
    acc <= acc' /\ ns_read s k n n'.
Proof.
  induction fuel as [|fuel IH]; intros n a acc clk t N Ha Hb; cbn [read_parts].
  { exists acc, t, n. split; [done|]. split; [done|by apply ns_read_refl]. }
  destruct (Z.leb_spec a b).
  - destruct (ns_read_part s k n stime a b acc clk t N) as (z & t1 & n1 & E1 & Hz & R1); [lia|done|].
    rewrite (run_bind _ _ _ _ _ _ _ _ E1). pose proof (nr_nr _ _ _ _ R1) as Hnr.
    destruct (IH n1 (u64 (a + 1)) z clk t1) as (z2 & t2 & n2 & E2 & Hz2 & R2); [apply R1|apply u64_nonneg|by rewrite Hnr|].
    rewrite Hnr in E2. exists z2, t2, n2. split; [done|]. split; [lia|by eapply ns_read_trans].
  - exists acc, t, n. split; [done|]. split; [done|by apply ns_read_refl].
Qed.

Lemma conv_read_spec s k rq rt n clk t :
  ns_ok s k n -> Nvme.rw_ok (Nvme.cmd rq) ->
  exists r t' n', conv_read rq rt clk t n = Ok (r, t', n') /\ ns_read s k n n' /\
    if tt_pgs s <=? end_lpn_of s (Nvme.cmd rq) / nr_parts n then r = (false, rt)
    else exists z, r = (true, Nvme.mk_result Nvme.NVME_SC_SUCCESS z) /\ Nvme.nsecs_start rq <= z.
Proof.
  intros N [Hsl Hlen]. pose proof N as [N1 N2 N3 N4]. destruct (zget_Some (ftls n) 0) as [f Hf]; [lia|].
  destruct (N3 _ _ Hf) as (F & Hs & _). pose proof (fb_geo _ _ _ (ci_base _ (fl_inv _ F))) as G. rewrite Hs in G.
  pose proof (geo_secs _ G) as Hsecs.
  unfold conv_read. rewrite run_get. unfold first_part. rewrite (run_bind _ _ _ _ _ f t n).
  2:{ rewrite run_get. unfold lift. by rewrite (proj2 (aget_ok _ _ _) Hf). }
  rewrite Hs. replace (secs_per_pg s =? 0) with false by lia. replace (nr_parts n =? 0) with false by lia. cbn [orb].
  destruct (Z.leb_spec (tt_pgs s) (end_lpn_of s (Nvme.cmd rq) / nr_parts n)) as [Hend|Hend].
  { eexists _, _, _. split; [done|]. split; [by apply ns_read_refl|done]. }
  edestruct (read_parts_spec s k) as (z & t' & n' & E & Hz & R); [exact N| |exact Hend|].
  2:{ rewrite (run_bind _ _ _ _ _ _ _ _ E). eexists _, _, _. split; [done|]. split; [done|]. by eexists. }
  apply Z.div_pos; lia.
Qed.

(** ** Flush *)
Lemma ns_dies s k n i f : ns_ok s k n -> zget (ftls n) i = Some f ->
  Ssd.dies_ok (ssd f) /\ 0 < luns_per_ch (sp (ssd f)) /\ with_shared n f = set_ssd f (ssd (with_shared n f)).
Proof.
  intros N Hf. destruct (nk_part _ _ _ N i f Hf) as (F & Hs & _). pose proof (fl_inv _ F) as I.
  pose proof (fb_geo _ _ _ (ci_base _ I)) as G. pose proof (geo_luns _ G) as Hl0.
  split; [|split; [change (0 < luns_per_ch (spp f)); lia|done]].
  intros c l Hc Hl. destruct (fb_media _ _ _ (ci_base _ I) c l 0) as (blk & Hb & _).
  { pose proof (geo_slc _ G). pose proof (geo_tlc _ G). pose proof (geo_lines _ G). split; [done|split; [done|]].
    change (sp (ssd f)) with (spp f). lia. }
  unfold Ssd.blk_at in Hb. destruct (Ssd.lun_at _ _ _); [by eexists|done].
Qed.

Lemma ns_flush_part s k n i clk t : ns_ok s k n -> 0 <= i < nr_parts n ->
  exists z t' n', on_part i (zoom_ssd Ssd.ssd_next_idle_time) clk t n = Ok (z, t', n') /\ ns_read s k n n' /\
    (forall f c l x, zget (ftls n) i = Some f -> 0 <= c < nchs s -> 0 <= l < luns_per_ch s ->
      Ssd.die_time (ssd f) c l = Some x -> x <= z).
Proof.
  intros N Hi. pose proof N as [N1 N2 N3 N4]. destruct (zget_Some (ftls n) i) as [f Hf]; [lia|].
  destruct (N3 _ _ Hf) as (F & Hs & Hsl). pose proof (shared_flow n f F N4) as Fs.
  destruct (ns_dies s k n i f N Hf) as (Hd & Hl & _).
  destruct (Ssd.ssd_next_idle_time_spec (ssd (with_shared n f)) clk t Hd Hl) as (z & E & _ & Hmax & _).
  assert (zoom_ssd Ssd.ssd_next_idle_time clk t (with_shared n f) = Ok (z, Datatypes.S t, with_shared n f)) as E'.
  { unfold zoom_ssd, zoom. rewrite E. done. }
  exists z, (Datatypes.S t), (put_part n i (with_shared n f)). split; [by apply run_part with f|].
  assert (Hget : forall j, zget (ftls (put_part n i (with_shared n f))) j =
    if decide (i = j) then Some (with_shared n f) else zget (ftls n) j).
  { intros j. apply zget_zset. lia. }
  split.
  - split; try done.
    + split; try done.
      * change (nr_parts n = zlen (zset (ftls n) i (with_shared n f))). by rewrite length_zset.
      * intros j h Hj. rewrite Hget in Hj. case_decide; [|by apply N3 with j]. by injection Hj as <-.
    + intros j h Hj. rewrite Hget in Hj. case_decide as Hij; [|by exists h]. injection Hj as <-. subst j. by exists f.
  - intros g c l x Hg Hc Hl' Hx. rewrite Hf in Hg. injection Hg as <-. apply (Hmax c l x); [| |exact Hx].
    + change (sp (ssd (with_shared n f))) with (spp f). by rewrite Hs.
    + change (sp (ssd (with_shared n f))) with (spp f). by rewrite Hs.
Qed.

Lemma flush_parts_spec s k parts : forall n latest clk t,
  ns_ok s k n -> (forall i, i ∈ parts -> 0 <= i < nr_parts n) ->
  exists z t' n', flush_parts parts latest clk t n = Ok (z, t', n') /\ ns_read s k n n' /\ latest <= z.
Proof.
  induction parts as [|i parts IH]; intros n latest clk t N Hp; cbn [flush_parts].
  { exists latest, t, n. split_and!; [done|by apply ns_read_refl|done]. }
  destruct (ns_flush_part s k n i clk t N) as (z & t1 & n1 & E1 & R1 & _); [apply Hp; by left|].
  rewrite (run_bind _ _ _ _ _ _ _ _ E1).
  destruct (IH n1 (Z.max latest z) clk t1) as (z2 & t2 & n2 & E2 & R2 & Hz); [apply R1| |].
  { intros j Hj. rewrite (nr_nr _ _ _ _ R1). apply Hp. by right. }
  exists z2, t2, n2. split; [done|]. split; [by eapply ns_read_trans|lia].
Qed.

Lemma conv_flush_spec s k rt n clk t :
  ns_ok s k n -> exists z t' n', conv_flush rt clk t n = Ok (Nvme.mk_result Nvme.NVME_SC_SUCCESS z, t', n') /\
    ns_read s k n n' /\ clk LOCAL_CLOCK t <= z.
Proof.
  intros N. unfold conv_flush. rewrite run_get, run_clock.
  destruct (flush_parts_spec s k (zseq (nr_parts n)) n (clk LOCAL_CLOCK t) clk (Datatypes.S t) N) as (z & t' & n' & E & R & Hz).
  { intros i Hi. unfold zseq in Hi. rewrite elem_of_seqZ in Hi. lia. }
  rewrite (run_bind _ _ _ _ _ _ _ _ E). by exists z, t', n'.
Qed.

(** ** Sessions *)
(** The pages a request can write. *)
Definition rq_cost (s : ssdparams) (rq : Nvme.nvmev_request) : Z :=
  if Nvme.opcode (Nvme.cmd rq) =? Nvme.nvme_cmd_write then zlen (rq_lpns s (Nvme.cmd rq)) else 0.

(** A request the host may send. *)
Record rq_ok (n : conv_ns) (rq : Nvme.nvmev_request) : Prop := {
  ro_rw : Nvme.rw_ok (Nvme.cmd rq);
  ro_buf : LBA_TO_BYTE (nr_lba_of (Nvme.cmd rq)) <= Ssd.size (shared_write_buffer n);
}.

(** What serving requests keeps. *)
Record served (s : ssdparams) (k : Z) (n n' : conv_ns) : Prop := {
  sv_ok : ns_ok s k n';
  sv_nr : nr_parts n' = nr_parts n;
  sv_csi : ns_csi n' = ns_csi n;
  sv_size : Ssd.size (shared_write_buffer n') = Ssd.size (shared_write_buffer n);
  sv_out : exists ops, outbox n' = outbox n ++ ops;
  sv_dom lpn : ns_mapped n lpn -> ns_mapped n' lpn;
}.

Lemma ns_read_served s k n n' : ns_read s k n n' -> served s k n n'.
Proof.
  intros [R1 R2 R3 R4 R5 R6]. split; try done.
  - by rewrite R4.
  - exists []. by rewrite app_nil_r.
  - intros lpn (f & Hf & p & Hp & Hm). unfold ns_mapped. rewrite R2.
    destruct (zget_Some (ftls n') (lpn mod nr_parts n)) as [f' Hf'].
    { rewrite <- (nk_parts _ _ _ R1), R2. apply Z.mod_pos_bound. pose proof (nk_some _ _ _ R1). lia. }
    destruct (R6 _ _ Hf') as (f0 & H0 & [_ S2 _ _]). rewrite Hf in H0. injection H0 as <-.
    exists f'. split; [done|]. exists p. by rewrite S2.
Qed.

Lemma served_le s k k' n n' : served s k n n' -> k' <= k -> served s k' n n'.
Proof. intros [] H. split; try done. by eapply ns_ok_le. Qed.

Lemma served_trans s k1 k2 n1 n2 n3 : served s k1 n1 n2 -> served s k2 n2 n3 -> served s k2 n1 n3.
Proof.
  intros [A1 A2 A3 A4 [o1 A5] A6] [B1 B2 B3 B4 [o2 B5] B6]. split; try congruence; [|by eauto].
  exists (o1 ++ o2). by rewrite B5, A5, app_assoc.
Qed.

(** The request is a write inside the device and larger than the whole write buffer. *)
Definition asserts (s : ssdparams) (n : conv_ns) (rq : Nvme.nvmev_request) : bool :=
  (Nvme.opcode (Nvme.cmd rq) =? Nvme.nvme_cmd_write) && oversized s n (Nvme.cmd rq).

Lemma rq_ok_fits s n rq : rq_ok n rq -> asserts s n rq = false.
Proof. intros [_ H]. unfold asserts, oversized. lia. Qed.

Lemma proc_io_asserts s k rsv rq rt n clk t :
  ns_ok s k n -> asserts s n rq = true -> ns_csi n = NVME_CSI_NVM -> conv_proc_nvme_io_cmd rsv rq rt clk t n = Err BugOn.
Proof.
  intros N [Hop Hov]%andb_prop Hcsi. unfold conv_proc_nvme_io_cmd. rewrite run_get, Hcsi, run_assert by done. rewrite Hop.
  by apply (conv_write_oversized s k).
Qed.

Lemma proc_io_spec s k rsv rq rt n clk t :
  ns_ok s (k + rq_cost s rq) n -> 0 <= k -> Nvme.rw_ok (Nvme.cmd rq) -> asserts s n rq = false -> ns_csi n = NVME_CSI_NVM ->
  Ssd.size (shared_write_buffer n) < 2 ^ 32 ->
  exists r t' n', conv_proc_nvme_io_cmd rsv rq rt clk t n = Ok (r, t', n') /\ served s k n n'.
Proof.
  intros N Hk Hrw Hfit Hcsi Hsz.
  assert (Nvme.opcode (Nvme.cmd rq) =? Nvme.nvme_cmd_write = true -> oversized s n (Nvme.cmd rq) = false) as Hov.
  { intros Hop. unfold asserts in Hfit. by rewrite Hop in Hfit. } unfold conv_proc_nvme_io_cmd. rewrite run_get, Hcsi, run_assert by done.
  unfold rq_cost in N. destruct (Nvme.opcode _ =? Nvme.nvme_cmd_write).
  - destruct (conv_write_spec s k rsv rq rt n clk t N Hrw Hsz (Hov eq_refl) Hk) as (r & t' & n' & E & W).
    exists r, t', n'. split; [done|]. assert (ns_ok s k n) as N' by (eapply ns_ok_le; [done|lia]).
    destruct W as [_|_ _|start latest n2 _ _ [W1 W2 W3 W4 W5 W6 W7]];
      [by apply ns_read_served, ns_read_refl..|].
    split; try done; [by rewrite W4|destruct W6 as (o & Ho & _); by exists o|].
    intros lpn Hm. apply W7. right. exact Hm.
  - rewrite Z.add_0_r in N. destruct (_ =? Nvme.nvme_cmd_read).
    + destruct (conv_read_spec s k rq rt n clk t N Hrw) as (r & t' & n' & E & R & _). exists r, t', n'.
      split; [done|by apply ns_read_served].
    + destruct (_ =? Nvme.nvme_cmd_flush).
      * destruct (conv_flush_spec s k rt n clk t N) as (z & t' & n' & E & R & _). rewrite (run_bind _ _ _ _ _ _ _ _ E).
        eexists _, _, _. split; [done|by apply ns_read_served].
      * eexists _, t, n. split; [done|]. by apply ns_read_served, ns_read_refl.
Qed.

(** What happens to a namespace: the dispatcher hands it a request, or an I/O worker
    completes an internal operation and gives its bytes back to the write buffer. *)
Inductive event : Type :=
| Request (rq : Nvme.nvmev_request)
| Released (bytes : Z).

(** Events one after the other, with the answers to the requests. *)
Fixpoint serve (rsv : Z) (es : list event) (rt : Nvme.nvmev_result) : M conv_ns (list (bool * Nvme.nvmev_result)) :=
  match es with
  | [] => ret []
  | Request rq :: es =>
      let* r := conv_proc_nvme_io_cmd rsv rq rt in
      let* rs := serve rsv es rt in
      ret (r :: rs)
  | Released b :: es =>
      modify (fun n => ns_set_wbuf n (snd (Ssd.buffer_release (shared_write_buffer n) b))) ;;
      serve rsv es rt
  end.

Definition ev_cost (s : ssdparams) (e : event) : Z := match e with Request rq => rq_cost s rq | Released _ => 0 end.
Definition ev_ok (e : event) : Prop := match e with Request rq => Nvme.rw_ok (Nvme.cmd rq) | Released _ => True end.
Definition ev_asserts (s : ssdparams) (n : conv_ns) (e : event) : bool :=
  match e with Request rq => asserts s n rq | Released _ => false end.

Definition session_cost (s : ssdparams) (es : list event) : Z := foldr Z.add 0 (ev_cost s <$> es).

Lemma session_cost_nonneg s es : 0 <= session_cost s es.
Proof.
  unfold session_cost. induction es as [|e es IH]; cbn; [done|].
  assert (0 <= ev_cost s e); [|lia]. destruct e; cbn; [|done]. unfold rq_cost. case_match; lia.
Qed.

Lemma ev_asserts_served s k n n' es : served s k n n' -> existsb (ev_asserts s n') es = existsb (ev_asserts s n) es.
Proof.
  intros S. induction es as [|e es IH]; cbn; [done|]. rewrite IH. f_equal. destruct e; cbn; [|done].
  unfold asserts, oversized. by rewrite (sv_size _ _ _ _ S), (sv_nr _ _ _ _ S).
Qed.

Lemma released_served s k n b : ns_ok s k n -> served s k n (ns_set_wbuf n (snd (Ssd.buffer_release (shared_write_buffer n) b))).
Proof. intros N. split; try done; [by apply ns_ok_wbuf|]. exists []. by rewrite app_nil_r. Qed.

(** A session runs to its end, unless one of its writes is larger than the whole
    write buffer: then it stops at the assertion. *)
Lemma serve_spec s rsv rt es : forall k n clk t,
  ns_ok s (k + session_cost s es) n -> 0 <= k -> Forall ev_ok es -> ns_csi n = NVME_CSI_NVM ->
  Ssd.size (shared_write_buffer n) < 2 ^ 32 ->
  if existsb (ev_asserts s n) es then serve rsv es rt clk t n = Err BugOn
  else exists rs t' n', serve rsv es rt clk t n = Ok (rs, t', n') /\ served s k n n'.
Proof.
  induction es as [|e es IH]; intros k n clk t N Hk He Hcsi Hsz.
  { exists [], t, n. split; [done|]. apply ns_read_served, ns_read_refl. by rewrite Z.add_0_r in N. }
  apply Forall_cons in He as [He Hes]. pose proof (session_cost_nonneg s es) as H0.
  assert (k + session_cost s (e :: es) = k + session_cost s es + ev_cost s e) as Hc by (unfold session_cost; cbn; lia).
  rewrite Hc in N.
  assert (forall n1 t1, served s (k + session_cost s es) n n1 ->
    if existsb (ev_asserts s n) es then serve rsv es rt clk t1 n1 = Err BugOn
    else exists rs t' n', serve rsv es rt clk t1 n1 = Ok (rs, t', n') /\ served s k n n') as Hrest.
  { intros n1 t1 S1. pose proof (IH k n1 clk t1 (sv_ok _ _ _ _ S1) Hk Hes) as H.
    rewrite (ev_asserts_served _ _ _ _ _ S1), (sv_csi _ _ _ _ S1), (sv_size _ _ _ _ S1) in H. specialize (H Hcsi Hsz).
    destruct (existsb _ _); [done|]. destruct H as (rs & t2 & n2 & E2 & S2). exists rs, t2, n2. split; [done|by eapply served_trans]. }
  destruct e as [rq|b]; cbn [serve ev_cost existsb ev_asserts] in *.
  - destruct (asserts s n rq) eqn:Ha; cbn [orb].
    { unfold bind. by rewrite (proc_io_asserts s _ rsv rq rt n clk t N Ha Hcsi). }
    destruct (proc_io_spec s (k + session_cost s es) rsv rq rt n clk t N) as (r & t1 & n1 & E1 & S1); [lia|done..|].
    specialize (Hrest n1 t1 S1). rewrite (run_bind _ _ _ _ _ _ _ _ E1). destruct (existsb _ _).
    + unfold bind at 1. by rewrite Hrest.
    + destruct Hrest as (rs & t2 & n2 & E2 & S2). rewrite (run_bind _ _ _ _ _ _ _ _ E2). by eexists _, t2, n2.
  - rewrite run_modify. apply Hrest. apply released_served. by rewrite Z.add_0_r in N.
Qed.

(** ** A new namespace *)
Definition tlc_pages (s : ssdparams) : Z := ppl_of s TLC_MODE * nlines_of s TLC_MODE.
Definition spare_of (s : ssdparams) : Z := Z.max (ppl_of s TLC_MODE) (ppl_of s SLC_MODE + 1).

Lemma init_parts_spec junk f0 cfg s cpu (m : nat) :
  slc_geometry s -> max_ch_xfer_size s < 2 ^ 31 -> zlen (age_cnt f0) = 201 ->
  exists fs, init_parts junk f0 (conv_init_params cfg) s cpu m = Ok fs /\ length fs = m /\
    Forall (fresh_ftl (conv_init_params cfg) s) fs.
Proof.
  intros G Hx Ha. induction m as [|m (fs & E & Hl & H1)]; cbn [init_parts]; [by exists []|].
  destruct (conv_init_spec junk f0 (conv_init_params cfg) s cpu G Hx Ha) as (f & Ef & F).
  rewrite Ef. cbn [rbind]. rewrite E. cbn [rbind]. exists (f :: fs). split_and!; [done|cbn; by rewrite Hl|by constructor].
Qed.

(** A new namespace of [parts] partitions with parameters [s]. *)
Record fresh_ns (s : ssdparams) (parts : Z) (n : conv_ns) : Prop := {
  fn_ok : ns_ok s (tlc_pages s - spare_of s) n;
  fn_nr : nr_parts n = parts;
  fn_csi : ns_csi n = NVME_CSI_NVM;
  fn_wb : shared_write_buffer n = Ssd.buffer_init (write_buffer_size s);
  fn_out : outbox n = [];
  fn_unmapped lpn : ~ ns_mapped n lpn;
}.

Lemma conv_init_namespace_ok junk f0 spp0 cfg id size cpu s fs f :
  ssd_init_params_slc cfg size (SSD_PARTITIONS cfg) = Ok s ->
  init_parts junk f0 (conv_init_params cfg) s cpu (Z.to_nat (SSD_PARTITIONS cfg)) = Ok fs -> aget fs 0 = Ok f ->
  pba_pcent (conv_init_params cfg) <> 0 ->
  conv_init_namespace junk f0 spp0 cfg id size cpu =
    Ok (mk_conv_ns id NVME_CSI_NVM (u64 (size * 100) / pba_pcent (conv_init_params cfg)) (SSD_PARTITIONS cfg) fs
         (Ssd.pcie (ssd f)) (Ssd.write_buffer (ssd f)) []).
Proof.
  intros E1 E2 E3 E4. unfold conv_init_namespace. cbn [ENABLE_SLC_CACHE]. rewrite E1. cbn [rbind]. rewrite E2. cbn [rbind].
  rewrite E3. cbn [rbind]. destruct (Z.eqb_spec (pba_pcent (conv_init_params cfg)) 0); done.
Qed.

Lemma conv_init_namespace_spec junk f0 spp0 id size cpu :
  4 <= size <= MAX_CAPACITY_970 -> zlen (age_cnt f0) = 201 ->
  exists n s, conv_init_namespace junk f0 spp0 SAMSUNG_970PRO id size cpu = Ok n /\
    ssd_init_params_slc SAMSUNG_970PRO size 4 = Ok s /\ slc_geometry s /\ fresh_ns s 4 n.
Proof.
  intros Hsz Ha. destruct (ssd_init_params_slc_geom size Hsz) as (s & E & G & Hm).
  remember SAMSUNG_970PRO as cfg eqn:Hcfg. assert (SSD_PARTITIONS cfg = 4) as Hparts by (by rewrite Hcfg).
  destruct (init_parts_spec junk f0 cfg s cpu (Z.to_nat (SSD_PARTITIONS cfg)) G) as (fs & Ef & Hl & HF); [lia|done|].
  destruct (aget_in fs 0) as (f & Hf & Hf'); [lia|].
  assert (forall i g, zget fs i = Some g -> fresh_ftl (conv_init_params cfg) s g) as Hfs.
  { intros i g Hg. rewrite Forall_forall in HF. apply HF. unfold zget in Hg. case_match; [done|]. by eapply list_elem_of_lookup_2. }
  rewrite <- Hparts in E.
  rewrite (conv_init_namespace_ok junk f0 spp0 cfg id size cpu s fs f E Ef Hf) by (by rewrite Hcfg).
  pose proof (Hfs 0 f Hf') as [F1 F2 F3 F4 F5 F6 F7 F8 F9].
  eexists _, s. split; [done|]. split; [by rewrite <- Hparts|]. split; [done|]. split; try done.
  - split; cbn [nr_parts ftls shared_pcie]; [lia|lia| |apply (fb_timing _ _ _ (ci_base _ F1))].
    intros i g Hg. pose proof (Hfs i g Hg) as Fg. destruct (fresh_flow _ _ _ Fg) as [Hflow Hslack].
    split; [done|]. pose proof (ff_spp _ _ _ Fg) as Hs. split; [done|]. rewrite Hslack. unfold spare, tlc_pages, spare_of. rewrite Hs. lia.
  - intros lpn (g & Hg & p & Hp & Hmp). cbn in Hg. pose proof (ff_unmapped _ _ _ (Hfs _ g Hg) _ _ Hp). congruence.
Qed.
