(* ===== verification/ConvTheorems.v ===== *)
(** * What the conventional FTL guarantees

    The theorems of the SLC-cached FTL: page operations, construction, victim
    selection, collection, host commands, and the limit of the cache.  Each has a
    concrete instance on [tiny_params], a device of four one-page SLC lines and four
    two-page TLC lines, or on the 970 PRO profile. *)

From Stdlib Require Import ZArith Lia.
From stdpp Require Import base list numbers sets.
From S2P Require Import Prelude PQueue Config SsdParams ConvFtl Geometry Media Lines ConvInv ConvWp ConvMark ConvWrite ConvInit.
From S2P Require Import ConvGc ConvCollect ConvSelect ConvFlow ConvNs.
From S2P Require ChannelModel Ssd Nvme.
Import Ssd (ppa, mk_ppa, sp, page_status, PG_FREE, PG_INVALID, PG_VALID, USER_IO, GC_IO, timing_ok, INVALID_LPN).

(** ** A device for concrete runs *)
Definition tiny_params : ssdparams := {|
  secsz := 512; secs_per_pg := 8; pgsz := 4096; pgs_per_flashpg := 1; flashpgs_per_blk := 2;
  pgs_per_oneshotpg := 1; oneshotpgs_per_blk := 2; pgs_per_blk := 2; blks_per_pl := 8; pls_per_lun := 1;
  luns_per_ch := 1; nchs := 1; cell_mode := 3; write_unit_size := 512; write_early_completion := true;
  pg_4kb_rd_lat := [35760; 35760; 35760]; pg_rd_lat := [36013; 36013; 36013]; pg_wr_lat := 185000; blk_er_lat := 0;
  max_ch_xfer_size := 16384; fw_4kb_rd_lat := 21500; fw_rd_lat := 30490; fw_wbuf_lat0 := 4000; fw_wbuf_lat1 := 460;
  fw_ch_xfer_lat := 0; ch_bandwidth := 800; pcie_bandwidth := 3360;
  secs_per_blk := 16; secs_per_pl := 96; secs_per_lun := 96; secs_per_ch := 96; tt_secs := 96;
  pgs_per_pl := 12; pgs_per_lun := 12; pgs_per_ch := 12; tt_pgs := 12;
  blks_per_lun := 8; blks_per_ch := 8; tt_blks := 8; secs_per_line := 16; pgs_per_line := 2;
  blks_per_line := 1; tt_lines := 8; pls_per_ch := 1; tt_pls := 1; tt_luns := 1;
  pg_4kb_rd_lat_slc := 20000; pg_rd_lat_slc := 20000; pg_wr_lat_slc := 40000; blk_er_lat_slc := 0;
  flashpgs_per_blk_slc := 1; oneshotpgs_per_blk_slc := 1; pgs_per_oneshotpg_slc := 1; pgs_per_blk_slc := 1;
  secs_per_blk_slc := 8; secs_per_line_slc := 8; pgs_per_line_slc := 1; tt_lines_tlc := 4; tt_lines_slc := 4;
  write_buffer_size := 65536 |}.

Lemma tiny_geometry : slc_geometry tiny_params.
Proof. split; cbn; first [done | lia]. Qed.

(** What the allocation of a partition holds before it is initialised. *)
Definition blank_lm : line_mgmt := mk_lm [] [] (pqueue_init (fun _ => O) 0) [] 0 0 0 0.
Definition blank_ftl : conv_ftl := mk_conv (Ssd.ssd_init tiny_params 0) (conv_init_params SAMSUNG_970PRO) [] []
  (mk_wp None 0 0 0 0 0) (mk_wp None 0 0 0 0 0) blank_lm (mk_wfc 0 0) 0 0 (replicate 201 0) blank_lm SLC_MODE TLC_MODE.

Definition tiny_ftl : conv_ftl :=
  match conv_init_ftl (fun _ => O) blank_ftl (conv_init_params SAMSUNG_970PRO) (Ssd.ssd_init tiny_params 0) with
  | Ok f => f
  | Err _ => blank_ftl
  end.

Definition demo_clock : clock := fun _ t => Z.of_nat t * 100000.

Lemma tiny_ftl_fresh : fresh_ftl (conv_init_params SAMSUNG_970PRO) tiny_params tiny_ftl.
Proof.
  destruct (conv_init_spec (fun _ => O) blank_ftl (conv_init_params SAMSUNG_970PRO) tiny_params 0) as (f & E & F);
    [apply tiny_geometry|done|done|]. unfold tiny_ftl. by rewrite E.
Qed.

(** Page writes one after the other. *)
Fixpoint write_pages (rsv stime : Z) (lpns : list Z) : M conv_ftl unit :=
  match lpns with
  | [] => ret tt
  | lpn :: lpns => write_page rsv stime lpn ;; write_pages rsv stime lpns
  end.

Lemma write_pages_spec rsv stime lpns : forall f clk t,
  flow_ok f -> Forall (fun x => 0 <= x < tt_pgs (spp f)) lpns -> spare f + zlen lpns <= slack f ->
  exists t' f', write_pages rsv stime lpns clk t f = Ok (tt, t', f') /\ flow_ok f' /\ spp f' = spp f /\
    slack f - zlen lpns <= slack f' /\ (forall n, mapped f' n <-> n ∈ lpns \/ mapped f n).
Proof.
  induction lpns as [|x lpns IH]; intros f clk t F Hr Hs; cbn [write_pages].
  { exists t, f. split_and!; try done; [cbn; lia|]. intros n. set_solver. }
  apply Forall_cons in Hr as [Hx Hr]. cbn [length] in Hs.
  destruct (write_page_spec rsv stime x f clk t F Hx) as (r & t1 & f1 & E1 & [D1 D2 D3 D4 D5]); [lia|].
  rewrite (run_bind _ _ _ _ _ _ _ _ E1).
  destruct (IH f1 clk t1 D1) as (t2 & f2 & E2 & F2 & Hs2 & Hsl & Hd); [by rewrite D2|rewrite (spare_spp _ _ D2); lia|].
  exists t2, f2. split_and!; [done|done|congruence|cbn [length]; lia|]. intros n. rewrite Hd, D5. set_solver.
Qed.

(** Whether a TLC line waits for collection after the four pages 0 to 3 and a second write of page 0. *)
Definition victim_waits (r : res (unit * nat * conv_ftl)) : bool :=
  match r with
  | Ok (_, _, f) =>
      match write_one_page 0 5 0 demo_clock 0%nat f with
      | Ok (_, _, u) => 1 <=? victim_line_cnt (lm u)
      | Err _ => false
      end
  | Err _ => false
  end.

Lemma victim_waits_true : victim_waits (write_pages 0 5 [0; 1; 2; 3] demo_clock 0%nat tiny_ftl) = true.
Proof. vm_compute. reflexivity. Qed.

(** Two states of the device: after four page writes, and in the middle of a fifth. *)
Lemma tiny_run : exists f u, flow_ok f /\ spp f = tiny_params /\ 4 <= slack f /\ 2 <= space f SLC_MODE /\
  wrote 0 f u /\ 3 <= space u TLC_MODE /\ pq_elems (victim_line_pq (lm u)) <> [].
Proof.
  destruct (fresh_flow _ _ _ tiny_ftl_fresh) as [F0 Hs0]. pose proof (ff_spp _ _ _ tiny_ftl_fresh) as Hp0.
  destruct (write_pages_spec 0 5 [0; 1; 2; 3] tiny_ftl demo_clock 0%nat F0) as (t & f & E & F & Hp & Hsl & _).
  { rewrite Hp0. repeat constructor; cbn; lia. }
  { rewrite Hs0. unfold spare. rewrite Hp0. cbn. lia. }
  pose proof victim_waits_true as Hv. rewrite E in Hv. clear E. cbn [victim_waits] in Hv. rewrite Hs0 in Hsl. rewrite Hp0 in Hp.
  change (ppl_of _ _ * _) with 8 in Hsl. change (Z.of_nat (length [0; 1; 2; 3])) with 4 in Hsl. clear F0 Hs0 Hp0.
  pose proof (fl_inv _ F) as I. pose proof (room_range _ SLC_MODE I) as Hr. rewrite Hp in Hr. change (ppl_of _ _) with 1 in Hr.
  assert (4 <= space f TLC_MODE) as Ht.
  { unfold slack in Hsl. rewrite Hp in Hsl. change (ppl_of tiny_params SLC_MODE) with 1 in Hsl. lia. }
  assert (2 <= space f SLC_MODE) as Hs2.
  { pose proof (fl_free _ F). unfold space. rewrite Hp. change (ppl_of tiny_params SLC_MODE) with 1. lia. }
  destruct (write_one_page_spec 0 5 0 f demo_clock 0%nat I) as (r & t' & u & E & W); [by rewrite Hp|done|].
  rewrite E in Hv. exists f, u. split_and!; try done; [rewrite (wr_tlc _ _ _ W); lia|].
  destruct (fb_area _ _ _ (ci_base _ (wr_inv _ _ _ W)) TLC_MODE) as (? & ? & _ & L & _).
  pose proof (lb_victim_cnt _ _ _ _ _ _ _ L) as Hc. cbn [get_lm] in Hc. intros Hnil. rewrite Hnil in Hc.
  cbn [length] in Hc. lia.
Qed.

(** In the middle of the fifth page write an SLC line waits to be migrated. *)
Lemma slc_waiting : exists f, conv_inv f /\ spp f = tiny_params /\ candidates f SLC_MODE <> [].
Proof.
  destruct tiny_run as (f & u & F & Hp & _ & _ & W & _). exists u. split; [apply W|]. pose proof (wr_spp _ _ _ W) as Hu.
  split; [by rewrite Hu|]. intros Hnil. pose proof (slc_candidates u (wr_inv _ _ _ W)) as Hc. rewrite Hnil in Hc.
  pose proof (slc_candidates f (fl_inv _ F)) as Hc'. rewrite Hu, Hp in Hc. rewrite Hp in Hc'.
  change (nlines_of tiny_params SLC_MODE) with 4 in *. change (zlen (@nil ptr)) with 0 in Hc.
  pose proof (po_free _ _ _ (owed _ _ _ F W)) as Hf. pose proof (room_range _ SLC_MODE (fl_inv _ F)) as Hr.
  rewrite Hp in Hr. change (ppl_of tiny_params SLC_MODE) with 1 in Hr. replace (room f SLC_MODE =? 1) with true in Hf by lia. lia.
Qed.

(** ** Page operations *)
(** a host page write, as far as the mapping: from a state that satisfies the
    invariant, with room in the SLC area, it returns; the page used was free and
    becomes valid, the logical page maps to it and every other logical page maps
    where it did, the invariant holds again, one SLC page is used up and no TLC page. *)
Theorem write_page_map_correct f lpn clk t :
  conv_inv f -> 0 <= lpn < tt_pgs (spp f) -> 2 <= space f SLC_MODE ->
  exists t' f', write_page_map lpn clk t f = Ok (pof (cursor f SLC_MODE), t', f') /\ conv_inv f' /\
    st (ssd f) (cursor f SLC_MODE) = Some PG_FREE /\ st (ssd f') (cursor f SLC_MODE) = Some PG_VALID /\
    (forall n, zget (maptbl f') n = if decide (lpn = n) then Some (pof (cursor f SLC_MODE)) else zget (maptbl f) n) /\
    space f' SLC_MODE = space f SLC_MODE - 1 /\ space f' TLC_MODE = space f TLC_MODE.
Proof.
  intros I Hl Hs. destruct (write_page_map_spec f lpn clk t I Hl Hs) as (t' & f' & E & W).
  destruct (mark_valid_spec _ f SLC_MODE (ci_base _ I)) as (_ & _ & _ & _ & Hfree & _).
  exists t', f'. split_and!; try apply W; [done|done|]. intros n. rewrite (wr_map _ _ _ W).
  apply zget_zset. by rewrite (mo_len _ _ _ _ _ (ci_map _ I)).
Qed.

Lemma write_page_map_correct_witness :
  exists f t' f', spp f = tiny_params /\ write_page_map 0 demo_clock 0%nat f = Ok (pof (cursor f SLC_MODE), t', f') /\
    conv_inv f' /\ zget (maptbl f') 0 = Some (pof (cursor f SLC_MODE)).
Proof.
  destruct tiny_run as (f & _ & F & Hp & _ & Hs & _).
  destruct (write_page_map_correct f 0 demo_clock 0%nat (fl_inv _ F)) as (t' & f' & E & I & _ & _ & Hm & _);
    [by rewrite Hp|exact Hs|].
  exists f, t', f'. split; [exact Hp|]. split; [exact E|]. split; [exact I|apply (Hm 0)].
Defined.

(** C4: a host page write with its credit: while the TLC area has more slack than it must
    keep for a collection, the write and the migration it may trigger meet no fault;
    credits again match the room in the open SLC line, at least two SLC lines are
    free, at most one page of slack is used, and exactly that logical page becomes mapped. *)
Theorem write_page_flow rsv stime lpn f clk t :
  flow_ok f -> 0 <= lpn < tt_pgs (spp f) -> spare f + 1 <= slack f ->
  exists r t' f', (let* r := write_one_page rsv stime lpn in write_credit rsv ;; ret r) clk t f = Ok (r, t', f') /\
    flow_ok f' /\ slack f - 1 <= slack f' /\ (forall n, mapped f' n <-> n = lpn \/ mapped f n).
Proof.
  intros F Hl Hs. destruct (write_page_spec rsv stime lpn f clk t F Hl Hs) as (r & t' & f' & E & [D1 D2 D3 D4 D5]).
  by exists r, t', f'.
Qed.

Lemma write_page_flow_witness :
  exists f r t' f', spp f = tiny_params /\
    (let* r := write_one_page 0 5 3 in write_credit 0 ;; ret r) demo_clock 0%nat f = Ok (r, t', f') /\
    flow_ok f' /\ mapped f' 3.
Proof.
  destruct tiny_run as (f & _ & F & Hp & Hs & _).
  destruct (write_page_flow 0 5 3 f demo_clock 0%nat F) as (r & t' & f' & E & F' & _ & Hm);
    [by rewrite Hp|unfold spare; rewrite Hp; change (2 + 1 <= slack f); lia|].
  exists f, r, t', f'. split; [exact Hp|]. split; [exact E|]. split; [exact F'|]. apply Hm. by left.
Defined.

(** [mark_page_invalid] on a valid page meets no assertion, makes that page and no
    other invalid, and keeps the line bookkeeping exact: counters, queue priorities,
    and which of free list, victim queue and full list a line is on. *)
Theorem mark_page_invalid_correct f y :
  ftl_base settled no_victim f -> in_range (spp f) y -> st (ssd f) y = Some PG_VALID ->
  exists f', mark_page_invalid f (pof y) = Ok f' /\ ftl_base settled no_victim f' /\
    (forall z, in_range (spp f) z -> st (ssd f') z = if decide (z = y) then Some PG_INVALID else st (ssd f) z) /\
    maptbl f' = maptbl f /\ rmap f' = rmap f /\ wp_of f' SLC_MODE = wp_of f SLC_MODE /\ wp_of f' TLC_MODE = wp_of f TLC_MODE.
Proof.
  intros B Hy Hv. destruct (mark_invalid_spec f y B Hy Hv) as (f' & E & B' & S & K & P).
  exists f'. split_and!; try done; [apply (kp_maptbl _ _ K)|apply (kp_rmap _ _ K)|apply (sl_wp _ _ P)|apply (sl_wp _ _ P)].
Qed.

Lemma mark_page_invalid_correct_witness :
  exists u y f', spp u = tiny_params /\ mark_page_invalid u (pof y) = Ok f' /\
    ftl_base settled no_victim f' /\ st (ssd f') y = Some PG_INVALID.
Proof.
  destruct tiny_run as (f & u & F & Hp & _ & _ & W & _). pose proof (wr_spp _ _ _ W) as Hu.
  pose proof (cursor_in_range _ _ _ (ci_base _ (fl_inv _ F)) SLC_MODE) as Hy. rewrite <- Hu in Hy.
  destruct (mark_page_invalid_correct u (cursor f SLC_MODE) (ci_base _ (wr_inv _ _ _ W)) Hy (wr_valid _ _ _ W))
    as (f' & E & B' & S & _).
  exists u, (cursor f SLC_MODE), f'. split; [by rewrite Hu|]. split; [exact E|]. split; [exact B'|].
  rewrite S by exact Hy. by rewrite decide_True.
Defined.

(** C8: [advance_write_pointer] on a partition whose bookkeeping is exact, after the page under
    the pointer of area [a] is marked valid.  If pages or free lines are left
    in the area, it returns: the pointer moves to the next page of the line, or the
    line goes to the full list or the victim queue and a free one is opened; the
    bookkeeping is exact again, the array and the other area are untouched, and
    exactly one page of the area is used up.  If that page was the last of the area's open
    line and no line is free, it stops at the assertion on the line, and only then. *)
Theorem advance_write_pointer_correct f a f1 :
  ftl_base settled no_victim f -> mark_page_valid f (pof (cursor f a)) = Ok f1 ->
  if (room f a =? 1) && (zlen (free_lines f a) =? 0) then advance_write_pointer f1 (io_of a) = Err BugOn
  else exists f', advance_write_pointer f1 (io_of a) = Ok f' /\ ftl_base settled no_victim f' /\
    ssd f' = ssd f1 /\ space f' a = space f a - 1 /\
    (forall b, b <> a -> wp_of f' b = wp_of f1 b /\ get_lm f' b = get_lm f1 b).
Proof.
  intros B E1. destruct (mark_valid_spec _ f a B) as (f2 & E2 & B2 & S & _ & K & P).
  assert (f2 = f1) as -> by congruence.
  assert (space f1 a = space f a) as Hsp by (apply space_same; [apply (kp_spp _ _ K)|apply (sl_wp _ _ P)|apply (sl_free _ _ P)]).
  pose proof (base_room_range _ _ _ a B) as Hr. pose proof (ppl_pos _ (fb_geo _ _ _ B) a) as Hp.
  destruct (_ && _) eqn:Hlast.
  - apply (advance_fails _ _ _ B2). rewrite Hsp. unfold space. nia.
  - destruct (advance_spec _ f1 a B2) as (f' & E' & B' & A); [rewrite Hsp; unfold space; nia|].
    exists f'. split; [done|]. split; [done|]. split; [apply A|]. split; [rewrite (av_space _ _ _ A); lia|apply A].
Qed.

Lemma advance_write_pointer_correct_witness :
  exists f1 f', mark_page_valid tiny_ftl (pof (cursor tiny_ftl SLC_MODE)) = Ok f1 /\
    advance_write_pointer f1 (io_of SLC_MODE) = Ok f' /\ ftl_base settled no_victim f'.
Proof.
  pose proof tiny_ftl_fresh as [[B M] F2 _ _ F5 F6 _ _ _].
  destruct (mark_valid_spec _ tiny_ftl SLC_MODE B) as (f1 & E1 & _).
  pose proof (advance_write_pointer_correct tiny_ftl SLC_MODE f1 B E1) as H.
  rewrite F5 in H. change (nlines_of tiny_params SLC_MODE - 1 =? 0) with false in H. rewrite andb_false_r in H. destruct H as (f' & E' & B' & _). by exists f1, f'.
Defined.

(** ** Construction *)
(** C7: a new partition: [conv_init_ftl] on a freshly built array returns a state that
    satisfies the invariant, with no logical page mapped, all lines of both areas
    free except the open one, and one write credit per page of an SLC line. *)
Theorem conv_init_ftl_correct junk f0 cpp s cpu :
  slc_geometry s -> max_ch_xfer_size s < 2 ^ 31 -> zlen (age_cnt f0) = 201 ->
  exists f, conv_init_ftl junk f0 cpp (Ssd.ssd_init s cpu) = Ok f /\ conv_inv f /\ spp f = s /\
    (forall lpn, ~ mapped f lpn) /\
    (forall a, zlen (free_lines f a) = nlines_of s a - 1 /\ room f a = ppl_of s a) /\
    write_credits (wfc f) = pgs_per_line_slc s /\ credits_to_refill (wfc f) = pgs_per_line_slc s.
Proof.
  intros G Hx Ha. destruct (conv_init_spec junk f0 cpp s cpu G Hx Ha) as (f & E & F).
  exists f. split_and!; try apply F; [done| |].
  - intros lpn (p & Hp & Hm). pose proof (ff_unmapped _ _ _ F _ _ Hp). congruence.
  - intros a. split; apply F.
Qed.

Lemma conv_init_ftl_correct_witness :
  exists f, conv_init_ftl (fun _ => O) blank_ftl (conv_init_params SAMSUNG_970PRO) (Ssd.ssd_init small_params 0) = Ok f /\
    conv_inv f /\ write_credits (wfc f) = 4.
Proof.
  destruct (conv_init_ftl_correct (fun _ => O) blank_ftl (conv_init_params SAMSUNG_970PRO) small_params 0)
    as (f & E & I & _ & _ & _ & Hc & _); [apply small_geometry|reflexivity|reflexivity|].
  exists f. split; [exact E|]. split; [exact I|exact Hc].
Defined.

(** ** Choosing a line to collect *)
(** C6: cost-benefit selection: [select_victim_line] returns no line exactly when the victim
    queue is empty; otherwise a queued line with no free and some invalid page, taken
    off the queue with the bookkeeping intact; and when the clock stands still during
    the scan, no queued line has a smaller cost (valid pages per page gained and age). *)
Theorem select_victim_line_correct f force clk t :
  ftl_base settled no_victim f ->
  exists r t' f', select_victim_line force clk t f = Ok (r, t', f') /\
    (r = None <-> pq_elems (victim_line_pq (lm f)) = []) /\
    (forall b p, r = Some (b, p) ->
      b = TLC_MODE /\ p ∈ pq_elems (victim_line_pq (lm f)) /\ ftl_base settled (victim TLC_MODE p) f' /\
      lcnt (spp f) (st (ssd f)) TLC_MODE p PG_FREE = 0 /\ 1 <= lcnt (spp f) (st (ssd f)) TLC_MODE p PG_INVALID /\
      forall now, (forall t, clk KTIME_NS t = now) -> forall q l l', q ∈ pq_elems (victim_line_pq (lm f)) ->
        lines (lm f) !! p = Some l -> lines (lm f) !! q = Some l' -> line_cost (spp f) l now <= line_cost (spp f) l' now).
Proof.
  intros B. destruct (select_victim_spec f force clk t B) as (r & t' & f' & E & H). exists r, t', f'. split; [done|].
  destruct r as [[b p]|].
  - destruct H as (-> & Hp & S & Hmin). split.
    { split; [done|]. intros Hnil. rewrite Hnil in Hp. by apply elem_of_nil in Hp. }
    intros ? ? [= <- <-]. split_and!; try done; [apply S| |by apply (se_gain _ _ _ _ S)].
    apply count_zero. apply (se_used _ _ _ _ S).
  - destruct H as [Hnil ->]. done.
Qed.

Lemma select_victim_line_correct_witness :
  exists f p t' f', select_victim_line true demo_clock 0%nat f = Ok (Some (TLC_MODE, p), t', f') /\
    p ∈ pq_elems (victim_line_pq (lm f)) /\ 1 <= lcnt (spp f) (st (ssd f)) TLC_MODE p PG_INVALID.
Proof.
  destruct tiny_run as (f0 & u & _ & _ & _ & _ & W & _ & Hq).
  destruct (select_victim_line_correct u true demo_clock 0%nat (ci_base _ (wr_inv _ _ _ W))) as (r & t' & f' & E & Hn & Hs).
  destruct r as [[b p]|]; [|destruct Hq; by apply Hn].
  destruct (Hs b p eq_refl) as (-> & Hp & _ & _ & Hi & _). exists u, p, t', f'. split; [exact E|]. split; [exact Hp|exact Hi].
Defined.

(** greedy selection of an SLC line, forced as [do_gc] forces it: the queued line with
    the fewest valid pages; when none is queued a line from the full list; none only
    when both are empty. *)
Theorem select_victim_line_slc_correct f :
  ftl_base settled no_victim f ->
  exists r f', select_victim_line_slc f true = Ok (r, f') /\
    (r = None <-> pq_elems (victim_line_pq (slm f)) = [] /\ full_line_list (slm f) = []) /\
    (forall b p, r = Some (b, p) ->
      b = SLC_MODE /\ ftl_base settled (victim SLC_MODE p) f' /\
      lcnt (spp f) (st (ssd f)) SLC_MODE p PG_FREE = 0 /\
      (pq_elems (victim_line_pq (slm f)) = [] -> p ∈ full_line_list (slm f)) /\
      (pq_elems (victim_line_pq (slm f)) <> [] -> p ∈ pq_elems (victim_line_pq (slm f)) /\
        forall q l l', q ∈ pq_elems (victim_line_pq (slm f)) -> lines (slm f) !! p = Some l ->
          lines (slm f) !! q = Some l' -> vpc l <= vpc l')).
Proof.
  intros B. destruct (select_victim_slc_spec f B) as (r & f' & E & H). exists r, f'. split; [done|].
  destruct r as [[b p]|].
  - destruct H as (-> & S & H). split.
    { split; [done|]. intros [H1 H2]. rewrite H1, H2 in H. destruct H as [[H _]|[_ H]]; by apply elem_of_nil in H. }
    intros ? ? [= <- <-]. split_and!; [done|apply S|apply count_zero; apply (se_used _ _ _ _ S)| |].
    + intros Hnil. rewrite Hnil in H. destruct H as [[H _]|[_ H]]; [by apply elem_of_nil in H|done].
    + intros Hne. by destruct H as [H|[H _]].
  - destruct H as (H1 & H2 & ->). done.
Qed.

Lemma select_victim_line_slc_correct_witness :
  exists f p f', spp f = tiny_params /\ select_victim_line_slc f true = Ok (Some (SLC_MODE, p), f') /\
    ftl_base settled (victim SLC_MODE p) f'.
Proof.
  destruct slc_waiting as (f & I & Hp & Hc).
  destruct (select_victim_line_slc_correct f (ci_base _ I)) as (r & f' & E & Hn & Hs).
  destruct r as [[b p]|]; [|destruct Hc; destruct Hn as [Hn _]; destruct (Hn eq_refl) as [H1 H2]; unfold candidates; rewrite H1, H2; reflexivity].
  destruct (Hs b p eq_refl) as (-> & B' & _). exists f, p, f'. split; [exact Hp|]. split; [exact E|exact B'].
Defined.

(** ** Collection *)
(** C5: [do_gc] on either area, while the TLC area can take the live pages: it meets no
    fault and the invariant holds afterwards, so every mapped logical page is again
    on a valid page that names it; exactly the same logical pages are mapped; when it
    reports success a line of the area was reclaimed, when it reports -1 there was none. *)
Theorem do_gc_correct rsv f clk t :
  conv_inv f ->
  ppl_of (spp f) (dyn_slc_mode f) + (if decide (dyn_slc_mode f = TLC_MODE) then 0 else 1) <= space f TLC_MODE ->
  exists z t' f', do_gc rsv true clk t f = Ok (z, t', f') /\ conv_inv f' /\ (forall n, mapped f' n <-> mapped f n) /\
    (z = 0 \/ z = -1) /\ (z = -1 <-> candidates f (dyn_slc_mode f) = []) /\
    (z = 0 -> dyn_slc_mode f = TLC_MODE -> space f TLC_MODE + 1 <= space f' TLC_MODE) /\
    (z = 0 -> dyn_slc_mode f = SLC_MODE -> zlen (free_lines f' SLC_MODE) = zlen (free_lines f SLC_MODE) + 1 /\
      space f TLC_MODE - ppl_of (spp f) SLC_MODE <= space f' TLC_MODE).
Proof.
  intros I Hs. destruct (do_gc_spec rsv f (dyn_slc_mode f) clk t I eq_refl Hs) as (z & t' & f' & E & H).
  exists z, t', f'. split; [done|]. destruct H as [(-> & Hc & D)|(-> & Hc & n & ->)].
  - split; [apply D|]. split; [apply D|]. split; [by left|]. split; [done|]. split.
    + intros _ Ha. pose proof (gd_tlc _ _ _ D) as H. by rewrite Ha in H.
    + intros _ Ha. pose proof (gd_tlc _ _ _ D) as H. pose proof (gd_free _ _ _ D) as H'. rewrite Ha in H, H'.
      rewrite decide_True in H' by done. done.
  - split; [by apply conv_inv_gc_cnt|]. split; [done|]. split; [by right|]. split; [done|]. split; by intros.
Qed.

Lemma do_gc_correct_witness :
  exists f z t' f', spp f = tiny_params /\ dyn_slc_mode f = TLC_MODE /\ do_gc 0 true demo_clock 0%nat f = Ok (z, t', f') /\
    z = 0 /\ conv_inv f' /\ space f TLC_MODE + 1 <= space f' TLC_MODE.
Proof.
  destruct tiny_run as (f & u & F & Hp & _ & _ & W & Hs & Hq). pose proof (wr_spp _ _ _ W) as Hu.
  set (g := set_dyn_slc_mode u TLC_MODE). pose proof (wr_inv _ _ _ W) as [B M].
  assert (conv_inv g) as Ig by (split; [by apply base_set_dyn|exact M]).
  destruct (do_gc_correct 0 g demo_clock 0%nat Ig) as (z & t' & f' & E & I' & _ & Hz & Hc & Ht & _).
  { change (ppl_of (spp u) TLC_MODE + 0 <= space u TLC_MODE). rewrite Hu, Hp. change (2 <= space u TLC_MODE). lia. }
  destruct Hz as [Hz|Hz]; [|by destruct Hq; apply Hc in Hz].
  exists g, z, t', f'. split; [by rewrite <- Hp, <- Hu|]. split; [reflexivity|]. split; [exact E|]. split; [exact Hz|].
  split; [exact I'|]. by apply Ht.
Defined.

(** [foreground_gc]: with the migration threshold below the number of SLC lines and a
    line of slack in the TLC area it meets no fault, keeps the invariant, the mapped
    logical pages and the room in the open line; it frees one SLC line exactly when
    free SLC lines were at or below the threshold, and costs the TLC area at most one SLC
    line of pages. *)
Theorem foreground_gc_correct rsv f clk t :
  conv_inv f -> mig_thres_lines_high (cp f) <= nlines_of (spp f) SLC_MODE - 2 ->
  credits_to_refill (wfc f) = ppl_of (spp f) SLC_MODE -> spare f <= space f TLC_MODE ->
  exists t' f', foreground_gc rsv clk t f = Ok (tt, t', f') /\ conv_inv f' /\ (forall n, mapped f' n <-> mapped f n) /\
    zlen (free_lines f' SLC_MODE) = zlen (free_lines f SLC_MODE) +
      (if zlen (free_lines f SLC_MODE) <=? mig_thres_lines_high (cp f) then 1 else 0) /\
    space f TLC_MODE - ppl_of (spp f) SLC_MODE <= space f' TLC_MODE /\
    credits_to_refill (wfc f') = ppl_of (spp f) SLC_MODE /\ room f' SLC_MODE = room f SLC_MODE.
Proof.
  intros I Hthr Hre Hs. destruct (foreground_gc_spec rsv f clk t I Hthr Hre Hs) as (t' & f' & E & D).
  exists t', f'. split; [done|]. split; [apply D|]. split; [apply D|]. split; [|split_and!; apply D].
  rewrite (mg_free _ _ D). unfold should_migration_high.
  destruct (fb_area _ _ _ (ci_base _ I) SLC_MODE) as (? & ? & _ & L & _). cbn [get_lm] in L.
  by rewrite (lb_free_cnt _ _ _ _ _ _ _ L).
Qed.

Lemma foreground_gc_correct_witness :
  exists f t' f', spp f = tiny_params /\ foreground_gc 0 demo_clock 0%nat f = Ok (tt, t', f') /\ conv_inv f' /\
    zlen (free_lines f' SLC_MODE) = zlen (free_lines f SLC_MODE) + 1.
Proof.
  destruct tiny_run as (f & u & F & Hp & _ & _ & W & Hs & _). pose proof (wr_spp _ _ _ W) as Hu.
  pose proof (slc_candidates f (fl_inv _ F)) as Hc. pose proof (po_free _ _ _ (owed _ _ _ F W)) as Hf.
  pose proof (room_range _ SLC_MODE (fl_inv _ F)) as Hr. rewrite Hp in Hc, Hr, Hu.
  assert (cp u = cp f) as Hcp by apply W. pose proof (fl_thres _ F) as Hthr. rewrite <- Hcp in Hthr.
  destruct (foreground_gc_correct 0 u demo_clock 0%nat (wr_inv _ _ _ W)) as (t' & f' & E & I' & _ & Hfree & _).
  - rewrite Hthr, Hu. reflexivity || (change (2 <= 4 - 2); lia).
  - rewrite (wr_wfc _ _ _ W), (fl_refill _ F), Hp, Hu. reflexivity.
  - unfold spare. rewrite Hu. change (2 <= space u TLC_MODE). lia.
  - exists u, t', f'. split; [exact Hu|]. split; [exact E|]. split; [exact I'|]. rewrite Hfree, Hthr.
    change (nlines_of tiny_params SLC_MODE) with 4 in Hc. change (ppl_of tiny_params SLC_MODE) with 1 in Hr.
    replace (room f SLC_MODE =? 1) with true in Hf by lia. replace (zlen (free_lines u SLC_MODE) <=? 2) with true by lia. lia.
Defined.

(** ** Host commands *)
(** C2: a host write, on a namespace each of whose partitions can take the pages of the request and
    [k] more ([ns_ok]), with a write buffer of less than 4 GiB and the command's address and
    length within their field widths.  Every such request is in one of four cases.
    Its end, computed in 64 bits, is past the device: it is refused and nothing
    changes.  It is inside the device and larger than the whole write buffer: the
    assertion of [buffer_allocate] fails.  It is not larger than the buffer, but
    than what remains of it: it is refused and nothing changes.  Otherwise it maps
    exactly the requested pages, takes the bytes of the request from the
    write buffer, schedules buffer releases no later than the time it
    reports for a request that must wait for the flash, and leaves room for
    [k] more pages. *)
Theorem conv_write_correct s k rsv rq rt n clk t :
  ns_ok s (k + zlen (rq_lpns s (Nvme.cmd rq))) n -> 0 <= k -> Nvme.rw_ok (Nvme.cmd rq) ->
  Ssd.size (shared_write_buffer n) < 2 ^ 32 ->
  if oversized s n (Nvme.cmd rq) then conv_write rsv rq rt clk t n = Err BugOn
  else exists r t' n', conv_write rsv rq rt clk t n = Ok (r, t', n') /\ write_result s k rq rt n r n'.
Proof.
  intros N Hk Hrw Hsz. destruct (oversized _ _ _) eqn:Ho; [by eapply conv_write_oversized|by apply conv_write_spec].
Qed.

(** C3: a host read: [conv_read] meets no fault and changes no page, no mapping and no buffer; it
    refuses exactly the requests whose end, computed in 64 bits, is past the device, and reports a
    time no earlier than the request's. *)
Theorem conv_read_correct s k rq rt n clk t :
  ns_ok s k n -> Nvme.rw_ok (Nvme.cmd rq) ->
  exists r t' n', conv_read rq rt clk t n = Ok (r, t', n') /\ ns_read s k n n' /\
    if tt_pgs s <=? end_lpn_of s (Nvme.cmd rq) / nr_parts n then r = (false, rt)
    else exists z, r = (true, Nvme.mk_result Nvme.NVME_SC_SUCCESS z) /\ Nvme.nsecs_start rq <= z.
Proof. apply conv_read_spec. Qed.

Lemma write_buffer_970 size s : 4 <= size <= MAX_CAPACITY_970 ->
  ssd_init_params_slc SAMSUNG_970PRO size 4 = Ok s -> write_buffer_size s = 1572864.
Proof.
  intros Hsz Es. destruct (ssd_init_params_slc_970 size Hsz) as (s' & Es' & H). rewrite Es in Es'. injection Es' as <-.
  cbv zeta in H. destruct H as (_ & _ & _ & _ & _ & _ & _ & _ & _ & _ & _ & _ & H). by injection H as -> _ _.
Qed.

(** A new 970 PRO namespace, and what a run on it needs. *)
Lemma new_970 junk f0 spp0 id size cpu :
  4 <= size <= MAX_CAPACITY_970 -> zlen (age_cnt f0) = 201 ->
  exists n s, conv_init_namespace junk f0 spp0 SAMSUNG_970PRO id size cpu = Ok n /\
    ssd_init_params_slc SAMSUNG_970PRO size 4 = Ok s /\ slc_geometry s /\ fresh_ns s 4 n /\
    Ssd.size (shared_write_buffer n) = 1572864.
Proof.
  intros Hsz Ha. destruct (conv_init_namespace_spec junk f0 spp0 id size cpu Hsz Ha) as (n & s & E & Es & G & F).
  exists n, s. split; [exact E|]. split; [exact Es|]. split; [exact G|]. split; [exact F|].
  rewrite (fn_wb _ _ _ F). exact (write_buffer_970 size s Hsz Es).
Qed.

(** C1: a new 970 PRO namespace of 4 bytes to [MAX_CAPACITY_970], whose age histogram has
    its declared 201 counters, and any sequence of requests and
    buffer releases, in any order, with addresses and lengths within their field
    widths, whose writes ask for no more pages in total than the TLC capacity of one
    partition less the spare room (the larger of a TLC line and an SLC line plus a
    page).  If no write inside the device is larger than the whole write buffer,
    every request is served without a fault: the partitions keep their invariants,
    no mapped page is lost, and they can still take the rest of that budget.
    If one is, the session stops at the assertion of [buffer_allocate]. *)
Theorem conv_session_safe junk f0 spp0 id size cpu rsv es rt clk t :
  4 <= size <= MAX_CAPACITY_970 -> zlen (age_cnt f0) = 201 ->
  exists n s, conv_init_namespace junk f0 spp0 SAMSUNG_970PRO id size cpu = Ok n /\
    ssd_init_params_slc SAMSUNG_970PRO size 4 = Ok s /\
    (Forall ev_ok es -> session_cost s es <= tlc_pages s - spare_of s ->
      if existsb (ev_asserts s n) es then serve rsv es rt clk t n = Err BugOn
      else exists rs t' n', serve rsv es rt clk t n = Ok (rs, t', n') /\
        served s (tlc_pages s - spare_of s - session_cost s es) n n').
Proof.
  intros Hsz Ha. destruct (new_970 junk f0 spp0 id size cpu Hsz Ha) as (n & s & E & Es & G & F & Hwb).
  exists n, s. split; [exact E|]. split; [exact Es|]. intros He Hc.
  refine (serve_spec s rsv rt es _ n clk t _ _ He (fn_csi _ _ _ F) _); [|lia|rewrite Hwb; reflexivity].
  replace (_ - session_cost s es + _) with (tlc_pages s - spare_of s) by lia. apply F.
Qed.

Lemma budget_pos s : slc_geometry s -> 2 <= tlc_pages s - spare_of s.
Proof.
  intros G. pose proof (nlines_pos s G TLC_MODE). pose proof (ppl_pos s G TLC_MODE). pose proof (geo_slc_smaller s G).
  pose proof (geo_nchs s G). pose proof (geo_luns s G).
  assert (ppl_of s SLC_MODE <= ppl_of s TLC_MODE) as Hle.
  { change (pgs_per_line_slc s <= pgs_per_line s). rewrite (geo_line s G), (geo_line_slc s G). apply Z.mul_le_mono_nonneg_l; nia. }
  unfold tlc_pages, spare_of. nia.
Qed.

(** One page at the start of the device. *)
Definition demo_write : Nvme.nvmev_request := Nvme.mk_req (Nvme.mk_rw Nvme.nvme_cmd_write 0 0 0) 1 1000.

Lemma demo_write_cost s : 1 <= secs_per_pg s -> zlen (rq_lpns s (Nvme.cmd demo_write)) = 1.
Proof.
  intros Hs. unfold rq_lpns. rewrite length_lpn_range. unfold start_lpn_of, end_lpn_of, nr_lba_of. cbn [Nvme.cmd demo_write Nvme.slba Nvme.length].
  change (u64 (0 + (0 + 1) - 1)) with 0. rewrite Z.div_0_l by lia. done.
Qed.

Lemma conv_session_safe_witness :
  exists n s rs t' n', conv_init_namespace (fun _ => O) blank_ftl tiny_params SAMSUNG_970PRO 0 (GB 8) 0 = Ok n /\
    serve 0 [Request demo_write; Released 4096] (Nvme.mk_result 0 0) demo_clock 0%nat n = Ok (rs, t', n') /\
    served s (tlc_pages s - spare_of s - 1) n n'.
Proof.
  destruct (conv_session_safe (fun _ => O) blank_ftl tiny_params 0 (GB 8) 0 0 [Request demo_write; Released 4096]
    (Nvme.mk_result 0 0) demo_clock 0%nat) as (n & s & E & Es & H); [split; vm_compute; discriminate|reflexivity|].
  destruct (new_970 (fun _ => O) blank_ftl tiny_params 0 (GB 8) 0) as (n0 & s0 & E0 & Es0 & G & F & Hwb);
    [split; vm_compute; discriminate|reflexivity|].
  rewrite Es in Es0. injection Es0 as <-. rewrite E in E0. injection E0 as <-.
  assert (session_cost s [Request demo_write; Released 4096] = 1) as Hc.
  { unfold session_cost, fmap. cbn [list_fmap foldr ev_cost]. unfold rq_cost. rewrite demo_write_cost; [reflexivity|apply (geo_secs _ G)]. }
  rewrite Hc in H. pose proof (budget_pos s G) as Hb.
  assert (existsb (ev_asserts s n) [Request demo_write; Released 4096] = false) as Hfit.
  { cbn [existsb ev_asserts orb]. rewrite (rq_ok_fits s n demo_write); [reflexivity|].
    split; [split; vm_compute; split; done|]. rewrite Hwb. vm_compute. discriminate. }
  rewrite Hfit in H. destruct H as (rs & t' & n' & Er & S); [|lia|].
  - constructor; [|constructor; [exact I|constructor]]. split; vm_compute; split; done.
  - exists n, s, rs, t', n'. split; [exact E|]. split; [exact Er|exact S].
Defined.

Lemma conv_write_correct_witness :
  exists n s r t' n', conv_init_namespace (fun _ => O) blank_ftl tiny_params SAMSUNG_970PRO 0 (GB 8) 0 = Ok n /\
    conv_write 0 demo_write (Nvme.mk_result 0 0) demo_clock 0%nat n = Ok (r, t', n') /\
    write_result s 1 demo_write (Nvme.mk_result 0 0) n r n'.
Proof.
  destruct (new_970 (fun _ => O) blank_ftl tiny_params 0 (GB 8) 0) as (n & s & E & Es & G & F & Hwb);
    [split; vm_compute; discriminate|reflexivity|]. pose proof (budget_pos s G) as Hb.
  pose proof (conv_write_correct s 1 0 demo_write (Nvme.mk_result 0 0) n demo_clock 0%nat) as H.
  assert (oversized s n (Nvme.cmd demo_write) = false) as Hfit.
  { unfold oversized. rewrite Hwb. by rewrite andb_false_r. }
  rewrite Hfit in H. destruct H as (r & t' & n' & Er & W); [|lia|split; vm_compute; split; done|rewrite Hwb; reflexivity|].
  - rewrite demo_write_cost by apply (geo_secs _ G). eapply ns_ok_le; [apply F|lia].
  - exists n, s, r, t', n'. split; [exact E|]. split; [exact Er|exact W].
Defined.

Definition demo_read : Nvme.nvmev_request := Nvme.mk_req (Nvme.mk_rw Nvme.nvme_cmd_read 0 7 0) 1 1000.

Lemma conv_read_correct_witness :
  exists n r t' n', conv_init_namespace (fun _ => O) blank_ftl tiny_params SAMSUNG_970PRO 0 (GB 8) 0 = Ok n /\
    conv_read demo_read (Nvme.mk_result 0 0) demo_clock 0%nat n = Ok (r, t', n') /\ outbox n' = outbox n.
Proof.
  destruct (new_970 (fun _ => O) blank_ftl tiny_params 0 (GB 8) 0) as (n & s & E & Es & G & F & Hwb);
    [split; vm_compute; discriminate|reflexivity|].
  destruct (conv_read_correct s _ demo_read (Nvme.mk_result 0 0) n demo_clock 0%nat (fn_ok _ _ _ F)) as (r & t' & n' & Er & R & _).
  - split; vm_compute; split; done.
  - exists n, r, t', n'. split; [exact E|]. split; [exact Er|apply R].
Defined.

(** ** The limit of the cache *)
(** A namespace of one small partition. *)
Definition tiny_ns : conv_ns :=
  mk_conv_ns 0 NVME_CSI_NVM 49152 1 [tiny_ftl] (Ssd.pcie (ssd tiny_ftl)) (Ssd.write_buffer (ssd tiny_ftl)) [].

(** One write command for [pages] pages from the start. *)
Definition long_write (pages : Z) : Nvme.nvmev_request := Nvme.mk_req (Nvme.mk_rw Nvme.nvme_cmd_write 0 (8 * pages - 1) 0) 1 1000.

(** A run that ends at the assertion of [advance_write_pointer]: the range check of [conv_write] does not keep the FTL within its TLC area.  On the small
    device, whose [tt_pgs] is 12 and whose TLC area has 8 pages, a write of the first 7
    logical pages succeeds and a write of the first 8, which the check accepts,
    stops when a migration finds no TLC line. *)
Lemma conv_write_can_assert :
  let write p := conv_write 0 (long_write p) (Nvme.mk_result 0 0) demo_clock 0%nat tiny_ns in
  end_lpn_of tiny_params (Nvme.cmd (long_write 8)) / nr_parts tiny_ns < tt_pgs tiny_params /\
  (exists r t n, write 7 = Ok ((true, r), t, n)) /\ write 8 = Err BugOn.
Proof.
  cbv zeta. split; [vm_compute; reflexivity|]. split.
  - assert (match conv_write 0 (long_write 7) (Nvme.mk_result 0 0) demo_clock 0%nat tiny_ns with
            | Ok ((b, _), _, _) => b | Err _ => false end = true) as H by (vm_compute; reflexivity).
    destruct (conv_write 0 (long_write 7) (Nvme.mk_result 0 0) demo_clock 0%nat tiny_ns) as [[[[[] r] t] n]|]; try discriminate H.
    by exists r, t, n.
  - vm_compute. reflexivity.
Qed.
