(* ===== verification/Prp.v ===== *)
(** * PRP lists: the memory pages of a command

    [__prp_transfer_data] (zns_mgmt_recv.c), [__do_perform_io] and the first loop of
    [__do_perform_io_using_dma] (io.c) walk the same structure: PRP1, then PRP2, or the
    entries of the list PRP2 points to when more than a page is left.  A walk is
    the list of pieces it copies; the entries of the PRP list are what host memory
    holds, an argument. *)

From Stdlib Require Import ZArith Lia.
From stdpp Require Import base list numbers.
From S2P Require Import Prelude.

Definition PAGE_SIZE : Z := 4096.
Definition PAGE_OFFSET_MASK : Z := PAGE_SIZE - 1.

(** [io_size] bytes at [mem_offs] of the page of [paddr], and at [offset] of the buffer. *)
Record prp_piece : Type := mk_piece { pc_paddr : Z; pc_mem_offs : Z; pc_offset : Z; pc_io_size : Z }.

Section Walk.
Context (prp1 prp2 : Z) (entry : nat -> Z).

(** The address used in turn [prp_offs] (from 1), with [have_list] telling whether PRP2 was
    taken as a list and [prp2_offs] the next entry of it. *)
Definition prp_next (prp_offs : nat) (have_list : bool) (prp2_offs : nat) (remaining : Z) : res (Z * bool * nat) :=
  match prp_offs with
  | 1%nat => Ok (prp1, have_list, prp2_offs)
  | 2%nat => if PAGE_SIZE <? remaining then Ok (entry prp2_offs, true, S prp2_offs) else Ok (prp2, have_list, prp2_offs)
  | _ => if have_list then Ok (entry prp2_offs, have_list, S prp2_offs) else Err NullDeref
  end.

Definition prp_take (paddr remaining : Z) : Z * Z :=
  let io_size := Z.min remaining PAGE_SIZE in
  let mem_offs := Z.land paddr PAGE_OFFSET_MASK in
  if mem_offs =? 0 then (0, io_size)
  else (mem_offs, if PAGE_SIZE <? io_size + mem_offs then PAGE_SIZE - mem_offs else io_size).

Fixpoint prp_walk (fuel : nat) (prp_offs : nat) (have_list : bool) (prp2_offs : nat) (offset remaining : Z)
    : res (list prp_piece) :=
  if remaining =? 0 then Ok []
  else match fuel with
  | O => Err OutOfFuel
  | S fuel =>
      let prp_offs := S prp_offs in
      let! (paddr, have_list, prp2_offs) := prp_next prp_offs have_list prp2_offs remaining in
      let '(mem_offs, io_size) := prp_take paddr remaining in
      let! rest := prp_walk fuel prp_offs have_list prp2_offs (offset + io_size) (remaining - io_size) in
      Ok (mk_piece paddr mem_offs offset io_size :: rest)
  end.
End Walk.

Definition prp_pieces (prp1 prp2 : Z) (entry : nat -> Z) (length : Z) : res (list prp_piece) :=
  prp_walk prp1 prp2 entry (S (Z.to_nat length)) 0 false 0 0 length.

(** ** What a walk copies *)

(** The pieces go through the buffer from [offset] on without gap or overlap, for
    [remaining] bytes, and each stays within one memory page. *)
Fixpoint covers (offset remaining : Z) (ps : list prp_piece) : Prop :=
  match ps with
  | [] => remaining = 0
  | p :: ps =>
      pc_offset p = offset /\ 0 < pc_io_size p <= remaining /\ pc_mem_offs p = pc_paddr p mod PAGE_SIZE /\
      pc_mem_offs p + pc_io_size p <= PAGE_SIZE /\ covers (offset + pc_io_size p) (remaining - pc_io_size p) ps
  end.

Lemma page_offset a : Z.land a PAGE_OFFSET_MASK = a mod PAGE_SIZE.
Proof. change PAGE_OFFSET_MASK with (Z.ones 12). by rewrite Z.land_ones by lia. Qed.

(** The bytes up to the end of the page, or what is left. *)
Lemma prp_take_eq a n : 0 < n -> prp_take a n = (a mod PAGE_SIZE, Z.min n (PAGE_SIZE - a mod PAGE_SIZE)).
Proof.
  intros Hn. unfold prp_take. rewrite page_offset. assert (0 <= a mod PAGE_SIZE < PAGE_SIZE) as Hm by by apply Z.mod_pos_bound.
  destruct (Z.eqb_spec (a mod PAGE_SIZE) 0) as [E|E]; [rewrite E; f_equal; lia|].
  destruct (Z.ltb_spec PAGE_SIZE (Z.min n PAGE_SIZE + a mod PAGE_SIZE)); f_equal; lia.
Qed.

Section WalkSpec.
Context (prp1 prp2 : Z) (entry : nat -> Z).

Let walk := prp_walk prp1 prp2 entry.
Let room (a : Z) : Z := PAGE_SIZE - a mod PAGE_SIZE.

Lemma room_pos a : 0 < room a <= PAGE_SIZE.
Proof. unfold room. pose proof (Z.mod_pos_bound a PAGE_SIZE ltac:(done)). lia. Qed.

(** One turn, at the address [a]. *)
Lemma walk_step fuel i hl k off rem a hl' k' :
  0 < rem -> prp_next prp1 prp2 entry (S i) hl k rem = Ok (a, hl', k') ->
  walk (S fuel) i hl k off rem =
    (let! rest := walk fuel (S i) hl' k' (off + Z.min rem (room a)) (rem - Z.min rem (room a)) in
     Ok (mk_piece a (a mod PAGE_SIZE) off (Z.min rem (room a)) :: rest))%res.
Proof.
  intros Hr Hn. unfold walk. cbn [prp_walk]. replace (rem =? 0) with false by lia. rewrite Hn. cbn [rbind].
  rewrite prp_take_eq by done. done.
Qed.

Lemma walk_nil fuel i hl k off : walk fuel i hl k off 0 = Ok [].
Proof. by destruct fuel. Qed.

Lemma covers_cons a off rem ps : 0 < rem -> covers (off + Z.min rem (room a)) (rem - Z.min rem (room a)) ps ->
  covers off rem (mk_piece a (a mod PAGE_SIZE) off (Z.min rem (room a)) :: ps).
Proof. intros Hr Hc. pose proof (room_pos a). cbn. unfold room in *. repeat split; try lia. exact Hc. Qed.

(** With the list at hand the walk reaches the end. *)
Lemma walk_list fuel : forall i k off rem, (2 <= i)%nat -> 0 <= rem <= Z.of_nat fuel ->
  exists ps, walk fuel i true k off rem = Ok ps /\ covers off rem ps.
Proof.
  induction fuel as [|fuel IH]; intros i k off rem Hi Hr.
  - replace rem with 0 by lia. exists []. by rewrite walk_nil.
  - destruct (decide (rem = 0)) as [->|]; [exists []; by rewrite walk_nil|].
    destruct i as [|[|i]]; [lia|lia|]. rewrite (walk_step _ _ _ _ _ _ (entry k) true (S k)) by (done || lia).
    pose proof (room_pos (entry k)).
    destruct (IH (S (S (S i))) (S k) (off + Z.min rem (room (entry k))) (rem - Z.min rem (room (entry k)))) as (ps & -> & Hc); [lia|lia|].
    cbn [rbind]. eexists. split; [done|]. apply covers_cons; [lia|done].
Qed.

Lemma prp_pieces_spec len : 0 <= len ->
  let left := len - Z.min len (room prp1) in
  if (room prp2 <? left) && (left <=? PAGE_SIZE) then prp_pieces prp1 prp2 entry len = Err NullDeref
  else exists ps, prp_pieces prp1 prp2 entry len = Ok ps /\ covers 0 len ps.
Proof.
  intros Hl left. pose proof (room_pos prp1) as H1. pose proof (room_pos prp2) as H2. unfold prp_pieces. fold walk.
  destruct (decide (len = 0)) as [->|]; [replace (_ && _) with false by lia; exists []; by rewrite walk_nil|].
  rewrite (walk_step _ _ _ _ _ _ prp1 false 0%nat) by (done || lia). fold left.
  destruct (Z.eqb_spec left 0) as [E|E].
  { rewrite E, walk_nil. replace (room prp2 <? 0) with false by lia. cbn [rbind andb]. eexists. split; [done|].
    apply covers_cons; [lia|]. cbn. subst left. lia. }
  assert (Z.to_nat len = S (Z.to_nat (len - 1))) as -> by lia.
  destruct (Z.leb_spec left PAGE_SIZE) as [Hp|Hp].
  - rewrite (walk_step _ _ _ _ _ _ prp2 false 0%nat) by (first [lia | cbn; by replace (PAGE_SIZE <? left) with false by lia]).
    destruct (Z.ltb_spec (room prp2) left) as [Hr|Hr]; cbn [andb].
    + assert (Z.to_nat (len - 1) = S (Z.to_nat (len - 2))) as -> by lia.
      unfold walk at 1. cbn [prp_walk]. replace (left - Z.min left (room prp2) =? 0) with false by lia. done.
    + rewrite (Z.min_l left) by lia. rewrite Z.sub_diag, walk_nil. cbn [rbind]. eexists. split; [done|].
      apply covers_cons; [lia|]. fold left. replace left with (Z.min left (room prp2)) at 2 by lia.
      apply covers_cons; [lia|]. cbn. lia.
  - rewrite andb_false_r. rewrite (walk_step _ _ _ _ _ _ (entry 0%nat) true 1%nat)
      by (first [lia | cbn; by replace (PAGE_SIZE <? left) with true by lia]).
    pose proof (room_pos (entry 0%nat)).
    destruct (walk_list (Z.to_nat (len - 1)) 2 1 (0 + Z.min len (room prp1) + Z.min left (room (entry 0%nat))) (left - Z.min left (room (entry 0%nat))))
      as (ps & -> & Hc); [lia|lia|].
    cbn [rbind]. eexists. split; [done|]. apply covers_cons; [lia|]. apply covers_cons; [lia|done].
Qed.

(** With the list at hand the pieces go to the pages of its entries in order. *)
Lemma walk_list_pages fuel : forall i k off rem ps, (2 <= i)%nat -> walk fuel i true k off rem = Ok ps ->
  forall j p, ps !! j = Some p -> pc_paddr p = entry (k + j).
Proof.
  induction fuel as [|fuel IH]; intros i k off rem ps Hi Hw j p Hj.
  { unfold walk in Hw. cbn in Hw. destruct (rem =? 0); [injection Hw as <-; done|done]. }
  unfold walk in Hw. cbn [prp_walk] in Hw. destruct (rem =? 0); [injection Hw as <-; done|].
  destruct i as [|[|i]]; [lia|lia|]. cbn [prp_next rbind] in Hw. destruct (prp_take _ _) as [mo io].
  destruct (prp_walk _ _ _ _ _ _ _ _ _) as [rest|] eqn:Er; cbn [rbind] in Hw; [|done]. injection Hw as <-.
  destruct j as [|j]; cbn in Hj; [injection Hj as <-; by rewrite Nat.add_0_r|].
  rewrite (IH (S (S (S i))) (S k) _ _ _ (le_n_S _ _ (le_n_S _ _ (Nat.le_0_l _))) Er j p Hj). f_equal. lia.
Qed.

(** The page the piece number [i] goes to: the first PRP, then the second when at most
    a page is left and the entries of the list it points to otherwise. *)
Definition prp_page (len : Z) (i : nat) : Z :=
  match i with
  | O => prp1
  | S j => if len - Z.min len (room prp1) <=? PAGE_SIZE then prp2 else entry j
  end.

Lemma prp_pieces_pages len ps : 0 <= len -> prp_pieces prp1 prp2 entry len = Ok ps ->
  forall i p, ps !! i = Some p -> pc_paddr p = prp_page len i.
Proof.
  intros Hl E. unfold prp_pieces in E. fold walk in E. pose proof (room_pos prp1). pose proof (room_pos prp2).
  destruct (decide (len = 0)) as [->|]; [rewrite walk_nil in E; by injection E as <-|].
  rewrite (walk_step _ _ _ _ _ _ prp1 false 0%nat) in E by (done || lia). set (left := len - Z.min len (room prp1)) in *.
  assert (0 <= left < len) as Hleft by (unfold left; lia).
  destruct (walk _ _ _ _ _ _) as [rest|] eqn:Er; cbn [rbind] in E; [|done]. injection E as <-.
  intros [|i] p Hp; cbn in Hp; [by injection Hp as <-|]. cbn [prp_page]. fold left.
  destruct (decide (left = 0)) as [E0|]; [rewrite E0, walk_nil in Er; by injection Er as <-|].
  assert (Z.to_nat len = S (Z.to_nat (len - 1))) as Ef by lia. rewrite Ef in Er.
  destruct (Z.leb_spec left PAGE_SIZE) as [Hpg|Hpg].
  - rewrite (walk_step _ _ _ _ _ _ prp2 false 0%nat) in Er by (first [lia | cbn; by replace (PAGE_SIZE <? left) with false by lia]).
    destruct (walk _ _ _ _ _ _) as [rest2|] eqn:Er2; cbn [rbind] in Er; [|done]. injection Er as <-.
    destruct i as [|i]; cbn in Hp; [by injection Hp as <-|].
    assert (rest2 = []) as ->; [|done]. destruct (decide (left - Z.min left (room prp2) = 0)) as [E2|E2].
    + rewrite E2, walk_nil in Er2. by injection Er2 as <-.
    + assert (Z.to_nat (len - 1) = S (Z.to_nat (len - 2))) as Ef2 by lia. rewrite Ef2 in Er2. unfold walk in Er2. cbn [prp_walk] in Er2.
      replace (left - Z.min left (room prp2) =? 0) with false in Er2 by lia. done.
  - rewrite (walk_step _ _ _ _ _ _ (entry 0%nat) true 1%nat) in Er
      by (first [lia | cbn; by replace (PAGE_SIZE <? left) with true by lia]).
    destruct (walk _ _ _ _ _ _) as [rest2|] eqn:Er2; cbn [rbind] in Er; [|done]. injection Er as <-.
    destruct i as [|i]; cbn in Hp; [by injection Hp as <-|]. by apply (walk_list_pages _ _ _ _ _ _ (le_n 2) Er2 i p).
Qed.

(** The walk needs a third page although the second PRP entry is a data page. *)
Definition prp_short (len : Z) : bool :=
  let left := len - Z.min len (room prp1) in (room prp2 <? left) && (left <=? PAGE_SIZE).
End WalkSpec.

(** C37: the PRP walk: the pieces go through the buffer from its start to its end
    without gap or overlap and none leaves its memory page, except when the second
    PRP entry is a data page (at most a page is left) that lies so far into its page
    that a third one is needed: then the walk reads the absent PRP list. *)
Theorem prp_pieces_correct prp1 prp2 entry len : 0 <= len ->
  let left := len - Z.min len (PAGE_SIZE - prp1 mod PAGE_SIZE) in
  if (PAGE_SIZE - prp2 mod PAGE_SIZE <? left) && (left <=? PAGE_SIZE) then prp_pieces prp1 prp2 entry len = Err NullDeref
  else exists ps, prp_pieces prp1 prp2 entry len = Ok ps /\ covers 0 len ps.
Proof. apply prp_pieces_spec. Qed.

Lemma prp_pieces_correct_witness :
  (exists ps, prp_pieces 4196 8192 (fun i => 12288 * (1 + Z.of_nat i)) 9000 = Ok ps /\ covers 0 9000 ps) /\
  prp_pieces 4196 12000 (fun _ => 0) 8000 = Err NullDeref.
Proof.
  split.
  - apply (prp_pieces_correct 4196 8192 (fun i => 12288 * (1 + Z.of_nat i)) 9000). lia.
  - apply (prp_pieces_correct 4196 12000 (fun _ => 0) 8000). lia.
Defined.
