(* ===== verification/ZnsFtl.v ===== *)
(** * zns_ftl.c, zns_read_write.c, zns_mgmt_send.c, zns_mgmt_recv.c: the zoned FTL

    One partition: an array of zone descriptors, counters of active, open and ZRWA
    zones, and write buffers.  Handlers are total state transformers in [M]; a zone
    index past the descriptor array is [OutOfBounds], as nothing checks it on the
    read, write and management-send paths.  The memory behind the namespace is a
    map from offsets to bytes. *)

From Stdlib Require Import ZArith Lia.
From stdpp Require Import base list numbers.
From S2P Require Import Prelude Config SsdParams Nvme Prp.
From S2P Require Ssd.

(** ** nvme_zns.h *)
Definition NVME_SCT_CMD_SPECIFIC_STATUS : Z := 1.
Definition NVME_SC_ZNS_INVALID_ZONE_OPERATION : Z := Z.lor (Z.shiftl NVME_SCT_CMD_SPECIFIC_STATUS 8) 0xB6.
Definition NVME_SC_ZNS_ZRWA_RSRC_UNAVAIL : Z := NVME_SC_ZNS_INVALID_ZONE_OPERATION + 1.
Definition NVME_SC_ZNS_ERR_BOUNDARY : Z := NVME_SC_ZNS_INVALID_ZONE_OPERATION + 2.
Definition NVME_SC_ZNS_ERR_FULL : Z := NVME_SC_ZNS_INVALID_ZONE_OPERATION + 3.
Definition NVME_SC_ZNS_ERR_READ_ONLY : Z := NVME_SC_ZNS_INVALID_ZONE_OPERATION + 4.
Definition NVME_SC_ZNS_ERR_OFFLINE : Z := NVME_SC_ZNS_INVALID_ZONE_OPERATION + 5.
Definition NVME_SC_ZNS_INVALID_WRITE : Z := NVME_SC_ZNS_INVALID_ZONE_OPERATION + 6.
Definition NVME_SC_ZNS_NO_ACTIVE_ZONE : Z := NVME_SC_ZNS_INVALID_ZONE_OPERATION + 7.
Definition NVME_SC_ZNS_NO_OPEN_ZONE : Z := NVME_SC_ZNS_INVALID_ZONE_OPERATION + 8.
Definition NVME_SC_ZNS_INVALID_TRANSITION : Z := NVME_SC_ZNS_INVALID_ZONE_OPERATION + 9.
Definition NVME_SC_INVALID_FIELD : Z := 0x2.

Definition nvme_cmd_zone_mgmt_send : Z := 0x79.
Definition nvme_cmd_zone_mgmt_recv : Z := 0x7a.
Definition nvme_cmd_zone_append : Z := 0x7d.
Definition NVME_CSI_ZNS : Z := 2.

Definition ZONE_TYPE_SEQ_WRITE_REQUIRED : Z := 2.

Inductive zone_state : Type :=
| ZONE_STATE_EMPTY | ZONE_STATE_OPENED_IMPL | ZONE_STATE_OPENED_EXPL | ZONE_STATE_CLOSED
| ZONE_STATE_READ_ONLY | ZONE_STATE_FULL | ZONE_STATE_OFFLINE.
#[export] Instance zone_state_eq_dec : EqDecision zone_state.
Proof. solve_decision. Defined.

Inductive zone_resource_type : Type := ACTIVE_ZONE | OPEN_ZONE | ZRWA_ZONE.
#[export] Instance zone_resource_type_eq_dec : EqDecision zone_resource_type.
Proof. solve_decision. Defined.

(** The fields in use. *)
Record zone_descriptor : Type := mk_zone {
  ztype : Z;
  state : zone_state;
  zrwav : bool;
  zone_capacity : Z;
  zslba : Z;
  wp : Z;
}.

Definition zone_set_state (z : zone_descriptor) x := mk_zone (ztype z) x (zrwav z) (zone_capacity z) (zslba z) (wp z).
Definition zone_set_zrwav (z : zone_descriptor) x := mk_zone (ztype z) (state z) x (zone_capacity z) (zslba z) (wp z).
Definition zone_set_wp (z : zone_descriptor) x := mk_zone (ztype z) (state z) (zrwav z) (zone_capacity z) (zslba z) x.

(** [struct zone_report]: what a report says; the array behind it has a fixed capacity. *)
Record zone_report : Type := mk_report { report_nr_zones : Z; report_zd : list zone_descriptor }.

(** Management commands: the fields the handlers read. *)
Record nvme_zone_mgmt_send : Type := mk_mgmt_send {
  ms_slba : Z; zsa : Z; select_all : bool; zsaso : bool;
}.
Record nvme_zone_mgmt_recv : Type := mk_mgmt_recv {
  mr_prp1 : Z; mr_prp2 : Z; mr_slba : Z; nr_dw : Z; zra : Z; zra_specific_field : Z; zra_specific_features : bool;
}.

(** [enum zone_send_action] *)
Definition ZSA_CLOSE_ZONE : Z := 1.
Definition ZSA_FINISH_ZONE : Z := 2.
Definition ZSA_OPEN_ZONE : Z := 3.
Definition ZSA_RESET_ZONE : Z := 4.
Definition ZSA_OFFLINE_ZONE : Z := 5.
Definition ZSA_FLUSH_EXPL_ZRWA : Z := 0x11.

(** ** zns_ftl.h *)
Record znsparams : Type := mk_znsparams {
  nr_zones : Z;
  nr_active_zones : Z;
  nr_open_zones : Z;
  dies_per_zone : Z;
  zone_size : Z;
  zone_wb_size : Z;
  nr_zrwa_zones : Z;
  zrwafg_size : Z;
  zrwa_size : Z;
  zrwa_buffer_size : Z;
  lbas_per_zrwafg : Z;
  lbas_per_zrwa : Z;
}.

Record zone_resource_info : Type := mk_res_info { acquired_cnt : Z; total_cnt : Z }.

(** [res_infos[RES_TYPE_COUNT]] *)
Record res_table : Type := mk_res_table { res_active : zone_resource_info; res_open : zone_resource_info; res_zrwa : zone_resource_info }.

Definition get_res (r : res_table) (t : zone_resource_type) : zone_resource_info :=
  match t with ACTIVE_ZONE => res_active r | OPEN_ZONE => res_open r | ZRWA_ZONE => res_zrwa r end.
Definition put_res (r : res_table) (t : zone_resource_type) (x : zone_resource_info) : res_table :=
  match t with
  | ACTIVE_ZONE => mk_res_table x (res_open r) (res_zrwa r)
  | OPEN_ZONE => mk_res_table (res_active r) x (res_zrwa r)
  | ZRWA_ZONE => mk_res_table (res_active r) (res_open r) x
  end.

(** Which write buffer an internal operation releases to. *)
Inductive buf_id : Type := BUF_GLOBAL | BUF_ZONE (zid : Z) | BUF_ZRWA (zid : Z).

(** A buffer array is [None] when it was not allocated. *)
Record zns_ftl : Type := mk_zns {
  ssd : Ssd.ssd;
  zp : znsparams;
  res_infos : res_table;
  zone_descs : list zone_descriptor;
  report_buffer : zone_report;
  zone_write_buffer : option (list Ssd.buffer);
  zrwa_buffer : option (list Ssd.buffer);
  storage : Z -> Z;                            (* bytes from [storage_base_addr] *)
  zns_outbox : list (buf_id * internal_op);    (* scheduled internal operations, oldest first *)
}.

Definition set_zssd (f : zns_ftl) x := mk_zns x (zp f) (res_infos f) (zone_descs f) (report_buffer f)
  (zone_write_buffer f) (zrwa_buffer f) (storage f) (zns_outbox f).
Definition set_res (f : zns_ftl) x := mk_zns (ssd f) (zp f) x (zone_descs f) (report_buffer f)
  (zone_write_buffer f) (zrwa_buffer f) (storage f) (zns_outbox f).
Definition set_descs (f : zns_ftl) x := mk_zns (ssd f) (zp f) (res_infos f) x (report_buffer f)
  (zone_write_buffer f) (zrwa_buffer f) (storage f) (zns_outbox f).
Definition set_report (f : zns_ftl) x := mk_zns (ssd f) (zp f) (res_infos f) (zone_descs f) x
  (zone_write_buffer f) (zrwa_buffer f) (storage f) (zns_outbox f).
Definition set_zone_wb (f : zns_ftl) x := mk_zns (ssd f) (zp f) (res_infos f) (zone_descs f) (report_buffer f)
  x (zrwa_buffer f) (storage f) (zns_outbox f).
Definition set_zrwa_buf (f : zns_ftl) x := mk_zns (ssd f) (zp f) (res_infos f) (zone_descs f) (report_buffer f)
  (zone_write_buffer f) x (storage f) (zns_outbox f).
Definition set_storage (f : zns_ftl) x := mk_zns (ssd f) (zp f) (res_infos f) (zone_descs f) (report_buffer f)
  (zone_write_buffer f) (zrwa_buffer f) x (zns_outbox f).
Definition zns_post (f : zns_ftl) (b : buf_id) (o : internal_op) := mk_zns (ssd f) (zp f) (res_infos f) (zone_descs f)
  (report_buffer f) (zone_write_buffer f) (zrwa_buffer f) (storage f) (zns_outbox f ++ [(b, o)]).

Definition spp (f : zns_ftl) : ssdparams := Ssd.sp (ssd f).

(** *** Zone resources *)
Definition is_zone_resource_avail (f : zns_ftl) (t : zone_resource_type) : bool :=
  acquired_cnt (get_res (res_infos f) t) <? total_cnt (get_res (res_infos f) t).
Definition is_zone_resource_full (f : zns_ftl) (t : zone_resource_type) : bool :=
  acquired_cnt (get_res (res_infos f) t) =? total_cnt (get_res (res_infos f) t).
Definition add_acquired (f : zns_ftl) (t : zone_resource_type) (n : Z) : zns_ftl :=
  let i := get_res (res_infos f) t in
  set_res f (put_res (res_infos f) t (mk_res_info (u32 (acquired_cnt i + n)) (total_cnt i))).
Definition acquire_zone_resource (f : zns_ftl) (t : zone_resource_type) : bool * zns_ftl :=
  if is_zone_resource_avail f t then (true, add_acquired f t 1) else (false, f).
(** [ASSERT] expands to nothing. *)
Definition release_zone_resource (f : zns_ftl) (t : zone_resource_type) : zns_ftl := add_acquired f t (-1).

(** *** Zones *)
Definition zone_at (f : zns_ftl) (zid : Z) : res zone_descriptor := aget (zone_descs f) zid.
Definition mod_zone (f : zns_ftl) (zid : Z) (k : zone_descriptor -> zone_descriptor) : res zns_ftl :=
  let! l := amod (zone_descs f) zid k in Ok (set_descs f l).
Definition change_zone_state (f : zns_ftl) (zid : Z) (s : zone_state) : res zns_ftl :=
  mod_zone f zid (fun z => zone_set_state z s).

(** *** Addresses; [lbas_per_zone] and [pgs_per_zone] are unsigned int quotients. *)
Definition lbas_per_zone (f : zns_ftl) : Z := zone_size (zp f) / secsz (spp f).
Definition pgs_per_zone (f : zns_ftl) : Z := zone_size (zp f) / pgsz (spp f).
Definition lpn_to_zone (f : zns_ftl) (lpn : Z) : Z := u32 (lpn / pgs_per_zone f).
Definition zone_to_slpn (f : zns_ftl) (zid : Z) : Z := u32 (u32 zid * pgs_per_zone f).
Definition lba_to_zone (f : zns_ftl) (lba : Z) : Z := u32 (lba / lbas_per_zone f).
Definition zone_to_slba (f : zns_ftl) (zid : Z) : Z := u32 (u32 zid * lbas_per_zone f).
Definition zone_to_elba (f : zns_ftl) (zid : Z) : Z := u64 (zone_to_slba f (zid + 1) - 1).
Definition zone_to_elpn (f : zns_ftl) (zid : Z) : Z := zone_to_elba f zid / secs_per_pg (spp f).
Definition die_to_channel (f : zns_ftl) (die : Z) : Z := die mod nchs (spp f).
Definition die_to_lun (f : zns_ftl) (die : Z) : Z := die / nchs (spp f).
Definition lba_to_lpn (f : zns_ftl) (lba : Z) : Z := lba / secs_per_pg (spp f).

(** The divisors of the address functions; a zero one traps at the first use. *)
Definition units_ok (f : zns_ftl) : bool :=
  negb ((lbas_per_zone f =? 0) || (pgs_per_zone f =? 0) || (secs_per_pg (spp f) =? 0) || (nchs (spp f) =? 0) ||
        (tt_luns (spp f) =? 0) || (dies_per_zone (zp f) =? 0) || (pgs_per_oneshotpg (spp f) =? 0) ||
        (pgs_per_flashpg (spp f) =? 0) || (write_unit_size (spp f) =? 0)).
Definition guard_units : M zns_ftl unit :=
  let* f := get in if units_ok f then ret tt else fail DivByZero.

(** ** zns_mgmt_send.c *)
Definition __zmgmt_send_close_zone (f : zns_ftl) (zid : Z) : res (Z * zns_ftl) :=
  let! z := zone_at f zid in
  match state z with
  | ZONE_STATE_OPENED_IMPL | ZONE_STATE_OPENED_EXPL =>
      let! f := change_zone_state f zid ZONE_STATE_CLOSED in
      Ok (NVME_SC_SUCCESS, release_zone_resource f OPEN_ZONE)
  | ZONE_STATE_CLOSED => Ok (NVME_SC_SUCCESS, f)
  | _ => Ok (NVME_SC_ZNS_INVALID_TRANSITION, f)
  end.

(** The shared tail of finish and reset: the zone is active no more. *)
Definition leave_active (f : zns_ftl) (z : zone_descriptor) : zns_ftl :=
  let f := match state z with
           | ZONE_STATE_OPENED_IMPL | ZONE_STATE_OPENED_EXPL => release_zone_resource f OPEN_ZONE
           | _ => f
           end in
  let f := release_zone_resource f ACTIVE_ZONE in
  if zrwav z then release_zone_resource f ZRWA_ZONE else f.

Definition __zmgmt_send_finish_zone (f : zns_ftl) (zid : Z) : res (Z * zns_ftl) :=
  let! z := zone_at f zid in
  match state z with
  | ZONE_STATE_OPENED_IMPL | ZONE_STATE_OPENED_EXPL | ZONE_STATE_CLOSED =>
      let! f := change_zone_state (leave_active f z) zid ZONE_STATE_FULL in Ok (NVME_SC_SUCCESS, f)
  | ZONE_STATE_EMPTY =>
      let! f := change_zone_state f zid ZONE_STATE_FULL in Ok (NVME_SC_SUCCESS, f)
  | ZONE_STATE_FULL => Ok (NVME_SC_SUCCESS, f)
  | _ => Ok (NVME_SC_ZNS_INVALID_TRANSITION, f)
  end.

(** From [case ZONE_STATE_OPENED_IMPL] and from [case ZONE_STATE_CLOSED]. *)
Definition open_explicit (f : zns_ftl) (zid : Z) : res (Z * zns_ftl) :=
  let! f := change_zone_state f zid ZONE_STATE_OPENED_EXPL in Ok (NVME_SC_SUCCESS, f).
Definition open_closed (f : zns_ftl) (zid : Z) : res (Z * zns_ftl) :=
  let '(ok, f) := acquire_zone_resource f OPEN_ZONE in
  if ok then open_explicit f zid else Ok (NVME_SC_ZNS_NO_OPEN_ZONE, f).

Definition __zmgmt_send_open_zone (f : zns_ftl) (zid : Z) (zrwa : bool) : res (Z * zns_ftl) :=
  let! z := zone_at f zid in
  match state z with
  | ZONE_STATE_EMPTY =>
      if is_zone_resource_full f ACTIVE_ZONE then Ok (NVME_SC_ZNS_NO_ACTIVE_ZONE, f)
      else if is_zone_resource_full f OPEN_ZONE then Ok (NVME_SC_ZNS_NO_OPEN_ZONE, f)
      else if zrwa && is_zone_resource_full f ZRWA_ZONE then Ok (NVME_SC_ZNS_ZRWA_RSRC_UNAVAIL, f)
      else
        let! f := if zrwa then mod_zone (snd (acquire_zone_resource f ZRWA_ZONE)) zid (fun z => zone_set_zrwav z true)
                  else Ok f in
        open_closed (snd (acquire_zone_resource f ACTIVE_ZONE)) zid
  | ZONE_STATE_CLOSED => open_closed f zid
  | ZONE_STATE_OPENED_IMPL => open_explicit f zid
  | ZONE_STATE_OPENED_EXPL => Ok (NVME_SC_SUCCESS, f)
  | _ => Ok (NVME_SC_ZNS_INVALID_TRANSITION, f)
  end.

(** One buffer of an array; [NullDeref] when the array does not exist. *)
Definition buf_at (l : option (list Ssd.buffer)) (i : Z) : res Ssd.buffer :=
  let! l := of_opt NullDeref l in aget l i.
Definition buf_put (l : option (list Ssd.buffer)) (i : Z) (b : Ssd.buffer) : option (list Ssd.buffer) :=
  (fun l => zset l i b) <$> l.

(** The zone's bytes, its write pointer, its ZRWA. *)
Definition __reset_zone (f : zns_ftl) (zid : Z) : res zns_ftl :=
  let start := u64 (zid * zone_size (zp f)) in
  let f := set_storage f (fun o => if (start <=? o) && (o <? start + zone_size (zp f)) then 0 else storage f o) in
  let! f := mod_zone f zid (fun z => zone_set_zrwav (zone_set_wp z (zslba z)) false) in
  if zrwa_buffer_size (zp f) =? 0 then Ok f
  else
    let! b := buf_at (zrwa_buffer f) zid in
    Ok (set_zrwa_buf f (buf_put (zrwa_buffer f) zid (Ssd.buffer_refill b))).

Definition reset_tail (f : zns_ftl) (zid : Z) : res (Z * zns_ftl) :=
  let! f := change_zone_state f zid ZONE_STATE_EMPTY in
  let! f := __reset_zone f zid in
  Ok (NVME_SC_SUCCESS, f).

Definition __zmgmt_send_reset_zone (f : zns_ftl) (zid : Z) : res (Z * zns_ftl) :=
  let! z := zone_at f zid in
  match state z with
  | ZONE_STATE_OPENED_IMPL | ZONE_STATE_OPENED_EXPL | ZONE_STATE_CLOSED => reset_tail (leave_active f z) zid
  | ZONE_STATE_FULL | ZONE_STATE_EMPTY => reset_tail f zid
  | _ => Ok (NVME_SC_ZNS_INVALID_TRANSITION, f)
  end.

Definition __zmgmt_send_offline_zone (f : zns_ftl) (zid : Z) : res (Z * zns_ftl) :=
  let! z := zone_at f zid in
  match state z with
  | ZONE_STATE_READ_ONLY =>
      let! f := change_zone_state f zid ZONE_STATE_OFFLINE in Ok (NVME_SC_SUCCESS, f)
  | ZONE_STATE_OFFLINE => Ok (NVME_SC_SUCCESS, f)
  | _ => Ok (NVME_SC_ZNS_INVALID_TRANSITION, f)
  end.

(** The write pointer reached the end of a zone with a ZRWA, by an explicit flush. *)
Definition flush_fills (f : zns_ftl) (zid : Z) (cur : zone_state) : res zns_ftl :=
  let f := if decide (cur = ZONE_STATE_CLOSED) then f else release_zone_resource f OPEN_ZONE in
  let f := release_zone_resource (release_zone_resource f ACTIVE_ZONE) ZRWA_ZONE in
  change_zone_state f zid ZONE_STATE_FULL.

Definition __zmgmt_send_flush_explicit_zrwa (f : zns_ftl) (slba : Z) : res (Z * zns_ftl) :=
  let zid := lba_to_zone f slba in
  let! z := zone_at f zid in
  let zrwa_start := wp z in
  let zone_end := u64 (zone_to_slba f zid + zone_capacity z) in
  let zrwa_end := Z.min (u64 (zrwa_start + lbas_per_zrwa (zp f) - 1)) (u64 (zone_end - 1)) in
  let nr_lbas_flush := u64 (slba - wp z + 1) in
  if negb (zrwav z) then Ok (NVME_SC_ZNS_INVALID_ZONE_OPERATION, f)
  else if negb ((zrwa_start <=? slba) && (slba <=? zrwa_end)) then Ok (NVME_SC_ZNS_INVALID_ZONE_OPERATION, f)
  else if lbas_per_zrwafg (zp f) =? 0 then Err DivByZero
  else if negb (nr_lbas_flush mod lbas_per_zrwafg (zp f) =? 0) then Ok (NVME_SC_INVALID_FIELD, f)
  else
    match state z with
    | ZONE_STATE_OPENED_EXPL | ZONE_STATE_OPENED_IMPL | ZONE_STATE_CLOSED =>
        let! f := mod_zone f zid (fun z => zone_set_wp z (u64 (slba + 1))) in
        let! f := if u64 (slba + 1) =? zone_end then flush_fills f zid (state z) else Ok f in
        Ok (NVME_SC_SUCCESS, f)
    | _ => Ok (NVME_SC_ZNS_INVALID_ZONE_OPERATION, f)
    end.

(** The status is [None] where the C variable was never assigned. *)
Definition __zmgmt_send (f : zns_ftl) (slba action : Z) (opt : bool) : res (option Z * zns_ftl) :=
  let zid := lba_to_zone f slba in
  let known (r : res (Z * zns_ftl)) := let! (s, f) := r in Ok (Some s, f) in
  if action =? ZSA_CLOSE_ZONE then known (__zmgmt_send_close_zone f zid)
  else if action =? ZSA_FINISH_ZONE then known (__zmgmt_send_finish_zone f zid)
  else if action =? ZSA_OPEN_ZONE then known (__zmgmt_send_open_zone f zid opt)
  else if action =? ZSA_RESET_ZONE then known (__zmgmt_send_reset_zone f zid)
  else if action =? ZSA_OFFLINE_ZONE then known (__zmgmt_send_offline_zone f zid)
  else if action =? ZSA_FLUSH_EXPL_ZRWA then known (__zmgmt_send_flush_explicit_zrwa f slba)
  else Ok (None, f).

(** [for (zid = 0; zid < nr_zones; zid++)], statuses dropped. *)
Fixpoint zmgmt_send_all (zids : list Z) (f : zns_ftl) (action : Z) (opt : bool) : res zns_ftl :=
  match zids with
  | [] => Ok f
  | zid :: zids =>
      let! (_, f) := __zmgmt_send f (zone_to_slba f zid) action opt in
      zmgmt_send_all zids f action opt
  end.

Definition zns_zmgmt_send (c : nvme_zone_mgmt_send) (nsecs_start : Z) (f : zns_ftl) : res (nvmev_result * zns_ftl) :=
  if negb (units_ok f) then Err DivByZero else
  if select_all c then
    let! f := zmgmt_send_all (zseq (nr_zones (zp f))) f (zsa c) (zsaso c) in
    Ok (mk_result NVME_SC_SUCCESS nsecs_start, f)
  else
    let! (s, f) := __zmgmt_send f (ms_slba c) (zsa c) (zsaso c) in
    let! s := of_opt Uninit s in
    Ok (mk_result s nsecs_start, f).

(** ** zns_mgmt_recv.c *)
Definition SIZEOF_ZONE_DESCRIPTOR : Z := 64.
Definition SIZEOF_ZONE_REPORT : Z := 128.

Definition nr_zone_to_report (f : zns_ftl) (c : nvme_zone_mgmt_recv) : Z :=
  let start_zid := lba_to_zone f (mr_slba c) in
  let bytes_transfer := u32 (nr_dw c + 1) * 4 in
  let left := u64 (nr_zones (zp f) - start_zid) in
  let n := if zra_specific_features c then u64 (bytes_transfer / SIZEOF_ZONE_DESCRIPTOR - 1) else left in
  if left <? n then left else n.

(** A [memcpy] within the descriptor array and within the report's [nr_zones + 1] entries. *)
Definition __fill_zone_report (f : zns_ftl) (c : nvme_zone_mgmt_recv) : res zns_ftl :=
  let n := nr_zone_to_report f c in
  let start_zid := lba_to_zone f (mr_slba c) in
  if (start_zid + n <=? zlen (zone_descs f)) && (n <=? nr_zones (zp f) + 1) then
    Ok (set_report f (mk_report n (take (Z.to_nat n) (drop (Z.to_nat start_zid) (zone_descs f)))))
  else Err OutOfBounds.

Definition __check_zmgmt_rcv_option_supported (f : zns_ftl) (c : nvme_zone_mgmt_recv) : bool :=
  (lba_to_zone f (mr_slba c) <? nr_zones (zp f)) && (zra c =? 0) && (zra_specific_field c =? 0).

(** The copy to host memory reads [length] bytes of the report. *)
Definition zns_zmgmt_recv (host : Z -> nat -> Z) (c : nvme_zone_mgmt_recv) (nsecs_start : Z) (f : zns_ftl)
    : res (nvmev_result * list prp_piece * zns_ftl) :=
  let length := u32 (nr_dw c + 1) * 4 in
  if negb (units_ok f) then Err DivByZero else
  if __check_zmgmt_rcv_option_supported f c then
    let! f := __fill_zone_report f c in
    let! pieces := prp_pieces (mr_prp1 c) (mr_prp2 c) (host (mr_prp2 c)) length in
    if length <=? SIZEOF_ZONE_REPORT + SIZEOF_ZONE_DESCRIPTOR * nr_zones (zp f) then
      Ok (mk_result NVME_SC_SUCCESS nsecs_start, pieces, f)
    else Err OutOfBounds
  else Ok (mk_result NVME_SC_INVALID_FIELD nsecs_start, [], f).

(** ** zns_read_write.c *)
Definition nr_lbas_from_rw_cmd (c : nvme_rw_command) : Z := u32 (length c + 1).

Definition __check_boundary_error (f : zns_ftl) (slba nr_lba : Z) : bool :=
  lba_to_zone f slba =? lba_to_zone f (u64 (slba + nr_lba - 1)).

(** A pointer past the end of the zone is only reported in the log. *)
Definition __increase_write_ptr (f : zns_ftl) (zid nr_lba : Z) : res zns_ftl :=
  let! z := zone_at f zid in
  let cur := u64 (wp z + u32 nr_lba) in
  let! f := mod_zone f zid (fun z => zone_set_wp z cur) in
  if cur =? u64 (zone_to_slba f zid + zone_capacity z) then
    let f := release_zone_resource (release_zone_resource f OPEN_ZONE) ACTIVE_ZONE in
    change_zone_state f zid ZONE_STATE_FULL
  else Ok f.

Definition __lpn_to_ppa (f : zns_ftl) (lpn : Z) : Ssd.ppa :=
  let zone := lpn_to_zone f lpn in
  let off := u64 (lpn - zone_to_slpn f zone) in
  let sdie := u32 (u64 (zone * dies_per_zone (zp f)) mod tt_luns (spp f)) in
  let die := u32 (sdie + off / pgs_per_oneshotpg (spp f) mod dies_per_zone (zp f)) in
  Ssd.mk_ppa (off mod pgs_per_oneshotpg (spp f) mod 2 ^ 16) 0 0 (die_to_lun f die mod 2 ^ 8) (die_to_channel f die mod 2 ^ 8) 0.

(** The handler's answer: whether the command was taken, the result, the command's
    [slba] afterwards (a zone append rewrites it), and the pieces copied to host memory. *)
Record zns_response : Type := mk_response {
  rs_done : bool;
  rs_result : nvmev_result;
  rs_slba : Z;
  rs_copied : list prp_piece;
}.

Definition zoom_zssd {A} (m : M Ssd.ssd A) : M zns_ftl A := zoom ssd set_zssd m.

(** The write buffers by name. *)
Definition get_buf (f : zns_ftl) (b : buf_id) : res Ssd.buffer :=
  match b with
  | BUF_GLOBAL => Ok (Ssd.write_buffer (ssd f))
  | BUF_ZONE i => buf_at (zone_write_buffer f) i
  | BUF_ZRWA i => buf_at (zrwa_buffer f) i
  end.
Definition put_buf (f : zns_ftl) (b : buf_id) (x : Ssd.buffer) : zns_ftl :=
  match b with
  | BUF_GLOBAL => set_zssd f (Ssd.set_write_buffer (ssd f) x)
  | BUF_ZONE i => set_zone_wb f (buf_put (zone_write_buffer f) i x)
  | BUF_ZRWA i => set_zrwa_buf f (buf_put (zrwa_buffer f) i x)
  end.
Definition zns_allocate (b : buf_id) (n : Z) (f : zns_ftl) : res (Z * zns_ftl) :=
  let! x := get_buf f b in
  let! (got, x) := Ssd.buffer_allocate x n in
  Ok (got, put_buf f b x).

(** [out:] *)
Definition write_out (f : zns_ftl) (c : nvme_rw_command) (slba status nsecs_latest nsecs_xfer : Z) : zns_response :=
  mk_response true
    (mk_result status
      (if negb (Z.land (control c) NVME_RW_FUA =? 0) || negb (write_early_completion (spp f)) then nsecs_latest else nsecs_xfer))
    slba [].

(** [switch (state)] of a sequential write; [Some status] is the [goto out] with that status. *)
Definition open_for_write (zid : Z) (st : zone_state) (f : zns_ftl) : res (option Z * zns_ftl) :=
  let go f :=
    let '(ok, f) := acquire_zone_resource f OPEN_ZONE in
    if ok then let! f := change_zone_state f zid ZONE_STATE_OPENED_IMPL in Ok (None, f)
    else Ok (Some NVME_SC_ZNS_NO_OPEN_ZONE, f) in
  match st with
  | ZONE_STATE_EMPTY =>
      if is_zone_resource_full f ACTIVE_ZONE then Ok (Some NVME_SC_ZNS_NO_ACTIVE_ZONE, f)
      else if is_zone_resource_full f OPEN_ZONE then Ok (Some NVME_SC_ZNS_NO_OPEN_ZONE, f)
      else go (snd (acquire_zone_resource f ACTIVE_ZONE))
  | ZONE_STATE_CLOSED => go f
  | ZONE_STATE_OPENED_IMPL | ZONE_STATE_OPENED_EXPL => Ok (None, f)
  | ZONE_STATE_FULL => Ok (Some NVME_SC_ZNS_ERR_FULL, f)
  | ZONE_STATE_READ_ONLY => Ok (Some NVME_SC_ZNS_ERR_READ_ONLY, f)
  | ZONE_STATE_OFFLINE => Ok (Some NVME_SC_ZNS_ERR_OFFLINE, f)
  end.

Definition oneshot_bytes (f : zns_ftl) : Z := i32 (pgs_per_oneshotpg (spp f) * pgsz (spp f)).

(** The program operation of one oneshot page, and the release it schedules. *)
Definition program_page (sqid stime : Z) (b : buf_id) (release : Z) (p : Ssd.ppa) (latest : Z) : M zns_ftl Z :=
  let* f := get in
  let* z := zoom_zssd (Ssd.ssd_advance_nand (Ssd.mk_cmd Ssd.USER_IO Ssd.NAND_WRITE (Some (u64 (oneshot_bytes f))) stime false p)) in
  modify (fun f => zns_post f b (mk_internal sqid z release)) ;;
  ret (Z.max z latest).

(** [for (lpn = slpn; lpn <= elpn; lpn += pgs)] *)
Fixpoint write_pgs (fuel : nat) (sqid stime : Z) (b : buf_id) (lpn elpn zone_elpn latest : Z) : M zns_ftl Z :=
  if elpn <? lpn then ret latest
  else match fuel with
  | O => fail OutOfFuel
  | S fuel =>
      let* f := get in
      let opp := pgs_per_oneshotpg (spp f) in
      let p := __lpn_to_ppa f lpn in
      let pg_off := Ssd.g_pg p mod opp in
      let pgs := Z.min (u64 (elpn - lpn + 1)) (opp - pg_off) in
      let last := lpn + pgs - 1 =? zone_elpn in
      let unaligned := u32 (zone_size (zp f) mod u32 (oneshot_bytes f)) in
      let* latest :=
        if (pg_off + pgs =? opp) || last then
          program_page sqid stime b (if last && (0 <? unaligned) then unaligned else u64 (oneshot_bytes f)) p latest
        else ret latest in
      write_pgs fuel sqid stime b (u64 (lpn + pgs)) elpn zone_elpn latest
  end.

Definition __zns_write (rq : nvmev_request) (rt : nvmev_result) : M zns_ftl zns_response :=
  guard_units ;;
  let* f := get in
  let c := cmd rq in
  let nr_lba := nr_lbas_from_rw_cmd c in
  let zid := lba_to_zone f (slba c) in
  let* z := lift (zone_at f zid) in
  let slba := if opcode c =? nvme_cmd_zone_append then wp z else slba c in
  let slpn := lba_to_lpn f slba in
  let elpn := lba_to_lpn f (u64 (slba + nr_lba - 1)) in
  let zone_elpn := zone_to_elpn f zid in
  let b := if zone_wb_size (zp f) =? 0 then BUF_GLOBAL else BUF_ZONE zid in
  let bytes := LBA_TO_BYTE nr_lba in
  let t0 := nsecs_start rq in
  let out st := ret (write_out f c slba st t0 t0) in
  let* got := update_get (zns_allocate b bytes) in
  if got <? bytes then ret (mk_response false rt slba [])
  else if negb (bytes mod write_unit_size (spp f) =? 0) then out NVME_SC_ZNS_INVALID_WRITE
  else if negb (__check_boundary_error f slba nr_lba) then out NVME_SC_ZNS_ERR_BOUNDARY
  else if negb (slba =? wp z) then out NVME_SC_ZNS_INVALID_WRITE
  else if bool_decide (state z = ZONE_STATE_EMPTY) && negb (slba =? zslba z) then out NVME_SC_ZNS_INVALID_WRITE
  else
    let* err := update_get (open_for_write zid (state z)) in
    match err with
    | Some st => out st
    | None =>
        update (fun f => __increase_write_ptr f zid nr_lba) ;;
        let* xfer := zoom_zssd (Ssd.ssd_advance_write_buffer t0 bytes) in
        let* latest := write_pgs (S (Z.to_nat (elpn - slpn))) (sq_id rq) xfer b slpn elpn zone_elpn xfer in
        ret (write_out f c slba NVME_SC_SUCCESS latest xfer)
    end.

(** [switch (state)] of a write to a zone with a ZRWA. *)
Definition open_for_zrwa (zid : Z) (st : zone_state) (f : zns_ftl) : res (option Z * zns_ftl) :=
  match st with
  | ZONE_STATE_CLOSED | ZONE_STATE_EMPTY =>
      let '(ok, f) := acquire_zone_resource f OPEN_ZONE in
      if negb ok then Ok (Some NVME_SC_ZNS_NO_OPEN_ZONE, f)
      else
        let! (got, f) := zns_allocate (BUF_ZRWA zid) (zrwa_size (zp f)) f in
        rassert (negb (got =? 0)) ;;;
        let! f := change_zone_state f zid ZONE_STATE_OPENED_IMPL in Ok (None, f)
  | ZONE_STATE_OPENED_IMPL | ZONE_STATE_OPENED_EXPL => Ok (None, f)
  | ZONE_STATE_FULL => Ok (Some NVME_SC_ZNS_ERR_FULL, f)
  | ZONE_STATE_READ_ONLY => Ok (Some NVME_SC_ZNS_ERR_READ_ONLY, f)
  | ZONE_STATE_OFFLINE => Ok (Some NVME_SC_ZNS_ERR_OFFLINE, f)
  end.

(** How far a ZRWA write pushes the write pointer. *)
Definition zrwa_flush (f : zns_ftl) (zid prev_wp elba : Z) : res Z :=
  let zrwa_impl_start := u64 (prev_wp + lbas_per_zrwa (zp f)) in
  if zrwa_impl_start <=? elba then
    let fg := lbas_per_zrwafg (zp f) in
    if fg =? 0 then Err DivByZero else Ok (u64 (DIV_ROUND_UP (u64 (elba - zrwa_impl_start + 1)) fg * fg))
  else if elba =? zone_to_elba f zid then Ok (u64 (elba - prev_wp + 1))
  else Ok 0.

(** [while (remaining > 0)] *)
Fixpoint zrwa_pgs (fuel : nat) (sqid stime : Z) (b : buf_id) (lpn remaining latest : Z) : M zns_ftl Z :=
  if remaining <=? 0 then ret latest
  else match fuel with
  | O => fail OutOfFuel
  | S fuel =>
      let* f := get in
      let opp := pgs_per_oneshotpg (spp f) in
      let p := __lpn_to_ppa f lpn in
      let pg_off := Ssd.g_pg p mod opp in
      let pgs := Z.min remaining (opp - pg_off) in
      let* latest :=
        if pg_off + pgs =? opp then program_page sqid stime b (u64 (oneshot_bytes f)) p latest else ret latest in
      zrwa_pgs fuel sqid stime b (u64 (lpn + pgs)) (remaining - pgs) latest
  end.

Definition __zns_write_zrwa (rq : nvmev_request) (rt : nvmev_result) : M zns_ftl zns_response :=
  guard_units ;;
  let* f := get in
  let c := cmd rq in
  let slba := slba c in
  let nr_lba := nr_lbas_from_rw_cmd c in
  let elba := u64 (slba + nr_lba - 1) in
  let zid := lba_to_zone f slba in
  let* z := lift (zone_at f zid) in
  let prev_wp := wp z in
  let zrwa_impl_end := u64 (prev_wp + u32 (2 * lbas_per_zrwa (zp f)) - 1) in
  let bytes := LBA_TO_BYTE nr_lba in
  let t0 := nsecs_start rq in
  let out st := ret (write_out f c slba st t0 t0) in
  if negb (bytes mod write_unit_size (spp f) =? 0) then out NVME_SC_ZNS_INVALID_WRITE
  else if negb (__check_boundary_error f slba nr_lba) then out NVME_SC_ZNS_ERR_BOUNDARY
  else if (slba <? prev_wp) || (zrwa_impl_end <? elba) then out NVME_SC_ZNS_INVALID_WRITE
  else
    let* err := update_get (open_for_zrwa zid (state z)) in
    match err with
    | Some st => out st
    | None =>
        let* nr_lbas_flush := lift (zrwa_flush f zid prev_wp elba) in
        let* full :=
          if 0 <? nr_lbas_flush then
            let* got := update_get (zns_allocate (BUF_ZRWA zid) (u64 (LBA_TO_BYTE nr_lbas_flush))) in
            if got =? 0 then ret true
            else update (fun f => __increase_write_ptr f zid nr_lbas_flush) ;; ret false
          else ret false in
        if full : bool then ret (mk_response false rt slba [])
        else
          let* xfer := zoom_zssd (Ssd.ssd_advance_write_buffer t0 bytes) in
          let remaining := nr_lbas_flush / secs_per_pg (spp f) in
          let* latest := zrwa_pgs (S (Z.to_nat remaining)) (sq_id rq) xfer (BUF_ZRWA zid) (lba_to_lpn f prev_wp) remaining xfer in
          ret (write_out f c slba NVME_SC_SUCCESS latest xfer)
    end.

Definition zns_write (rq : nvmev_request) (rt : nvmev_result) : M zns_ftl zns_response :=
  guard_units ;;
  let* f := get in
  let* z := lift (zone_at f (lpn_to_zone f (lba_to_lpn f (slba (cmd rq))))) in
  if zrwav z then __zns_write_zrwa rq rt else __zns_write rq rt.

(** [for (lpn = slpn; lpn <= elpn; lpn += pgs)] of a read *)
Fixpoint read_pgs (fuel : nat) (stime lpn elpn latest : Z) : M zns_ftl Z :=
  if elpn <? lpn then ret latest
  else match fuel with
  | O => fail OutOfFuel
  | S fuel =>
      let* f := get in
      let fpp := pgs_per_flashpg (spp f) in
      let p := __lpn_to_ppa f lpn in
      let pg_off := Ssd.g_pg p mod fpp in
      let pgs := Z.min (u64 (elpn - lpn + 1)) (fpp - pg_off) in
      let* z := zoom_zssd (Ssd.ssd_advance_nand
        (Ssd.mk_cmd Ssd.USER_IO Ssd.NAND_READ (Some (u64 (pgs * pgsz (spp f)))) stime false p)) in
      read_pgs fuel stime (u64 (lpn + pgs)) elpn (Z.max z latest)
  end.

Definition zns_read (rq : nvmev_request) (rt : nvmev_result) : M zns_ftl zns_response :=
  guard_units ;;
  let* f := get in
  let c := cmd rq in
  let nr_lba := nr_lbas_from_rw_cmd c in
  let slpn := lba_to_lpn f (slba c) in
  let elpn := lba_to_lpn f (u64 (slba c + nr_lba - 1)) in
  let* z := lift (zone_at f (lpn_to_zone f slpn)) in
  let status :=
    if decide (state z = ZONE_STATE_OFFLINE) then NVME_SC_ZNS_ERR_OFFLINE
    else if negb (__check_boundary_error f (slba c) nr_lba) then NVME_SC_ZNS_ERR_BOUNDARY
    else NVME_SC_SUCCESS in
  let latest := u64 (nsecs_start rq + (if LBA_TO_BYTE nr_lba <=? KB 4 then fw_4kb_rd_lat (spp f) else fw_rd_lat (spp f))) in
  let* latest := read_pgs (S (Z.to_nat (elpn - slpn))) latest slpn elpn latest in
  let* z := zoom_zssd (Ssd.ssd_advance_pcie latest (u64 (nr_lba * secsz (spp f)))) in
  ret (mk_response true (mk_result status (Z.max z latest)) (slba c) []).

(** ** zns_ftl.c *)
Definition zns_flush (rq : nvmev_request) : M zns_ftl nvmev_result :=
  let* start := read_clock LOCAL_CLOCK in
  let* z := zoom_zssd Ssd.ssd_next_idle_time in
  ret (mk_result NVME_SC_SUCCESS (Z.max start z)).

(** A command as the dispatcher passes it: [struct nvme_command] read as a read/write
    command or as one of the management commands, by opcode. *)
Inductive zns_command : Type :=
| ZNS_RW (c : nvme_rw_command)
| ZNS_MGMT_SEND (c : nvme_zone_mgmt_send)
| ZNS_MGMT_RECV (c : nvme_zone_mgmt_recv).

Record zns_ns : Type := mk_zns_ns {
  zns_id : Z;
  zns_csi : Z;
  zns_nr_parts : Z;
  zns_ns_size : Z;
  zns_part : zns_ftl;        (* [ftls], of one element *)
}.
Definition set_part (n : zns_ns) (f : zns_ftl) : zns_ns :=
  mk_zns_ns (zns_id n) (zns_csi n) (zns_nr_parts n) (zns_ns_size n) f.

Definition plain (r : nvmev_result) : zns_response := mk_response true r 0 [].

Definition zns_proc_nvme_io_cmd (host : Z -> nat -> Z) (c : zns_command) (sqid nsecs : Z) (rt : nvmev_result)
    : M zns_ns zns_response :=
  let* n := get in
  assert (zns_csi n =? NVME_CSI_ZNS) ;;
  assert (zns_nr_parts n =? 1) ;;
  zoom zns_part set_part
    (match c with
     | ZNS_RW c =>
         let rq := mk_req c sqid nsecs in
         if (opcode c =? nvme_cmd_write) || (opcode c =? nvme_cmd_zone_append) then zns_write rq rt
         else if opcode c =? nvme_cmd_read then zns_read rq rt
         else if opcode c =? nvme_cmd_flush then let* r := zns_flush rq in ret (plain r)
         else ret (plain rt)
     | ZNS_MGMT_SEND c => let* r := update_get (zns_zmgmt_send c nsecs) in ret (plain r)
     | ZNS_MGMT_RECV c =>
         let* r := update_get (fun f => let! (r, ps, f) := zns_zmgmt_recv host c nsecs f in Ok ((r, ps), f)) in
         ret (mk_response true (fst r) 0 (snd r))
     end).

(** *** Construction; [f0] holds what the fresh allocations contain. *)
Definition init_zone (zone_size i : Z) : zone_descriptor :=
  mk_zone ZONE_TYPE_SEQ_WRITE_REQUIRED ZONE_STATE_EMPTY false (BYTE_TO_LBA zone_size)
    (u64 (i * BYTE_TO_LBA zone_size)) (u64 (i * BYTE_TO_LBA zone_size)).

Definition init_bufs (n size : Z) : option (list Ssd.buffer) :=
  if size =? 0 then None else Some (replicate (Z.to_nat n) (Ssd.buffer_init size)).

Definition __init_resource (n : Z) : res_table :=
  mk_res_table (mk_res_info 0 n) (mk_res_info 0 n) (mk_res_info 0 n).

Definition zns_init_params (cfg : ssd_config) (s : ssdparams) (capacity : Z) : res znsparams :=
  if (ZONE_SIZE cfg =? 0) || (secsz s =? 0) || (pgsz s =? 0) then Err DivByZero else
  let p := {|
    zone_size := u32 (ZONE_SIZE cfg);
    nr_zones := u32 (capacity / ZONE_SIZE cfg);
    dies_per_zone := DIES_PER_ZONE cfg;
    nr_active_zones := u32 (capacity / ZONE_SIZE cfg);
    nr_open_zones := u32 (capacity / ZONE_SIZE cfg);
    nr_zrwa_zones := MAX_ZRWA_ZONES cfg;
    zone_wb_size := u32 (ZONE_WB_SIZE cfg);
    zrwa_size := u32 (ZRWA_SIZE cfg);
    zrwafg_size := u32 (ZRWAFG_SIZE cfg);
    zrwa_buffer_size := u32 (ZRWA_BUFFER_SIZE cfg);
    lbas_per_zrwa := u32 (ZRWA_SIZE cfg / secsz s);
    lbas_per_zrwafg := u32 (ZRWAFG_SIZE cfg / secsz s);
  |} in
  if zone_size p =? 0 then Err DivByZero else
  rassert (capacity mod zone_size p =? 0) ;;;
  rassert (zone_size p mod pgsz s =? 0) ;;;
  Ok p.

(** [__init_descriptor] and the rest of [zns_init_ftl]. *)
Definition zns_init_ftl (p : znsparams) (s : Ssd.ssd) (memory : Z -> Z) (junk : zone_report) : zns_ftl :=
  mk_zns s p (__init_resource (nr_zones p)) (init_zone (zone_size p) <$> zseq (nr_zones p)) junk
    (init_bufs (nr_zones p) (zone_wb_size p)) (init_bufs (nr_zones p) (zrwa_buffer_size p)) memory [].

Definition zns_init_namespace (cfg : ssd_config) (spp0 : ssdparams) (memory : Z -> Z) (junk : zone_report) (id size cpu : Z)
    : res zns_ns :=
  let nr_parts := 1 in
  let! s := ssd_init_params cfg spp0 size nr_parts in
  let! p := zns_init_params cfg s size in
  Ok (mk_zns_ns id NVME_CSI_ZNS nr_parts size (zns_init_ftl p (Ssd.ssd_init s cpu) memory junk)).
