(* ===== verification/ZnsInv.v ===== *)
(** * The invariant of the zoned FTL

    [zns_inv] ties the descriptors to the resource counters: a zone's write pointer
    stays within the zone, an empty zone starts at its beginning, the open and
    active counters are the numbers of open and active zones, and the buffers are as
    many as zones.  [inv_update] is the one step every operation takes: a zone's
    descriptor changes and the counters move with it. *)

From Stdlib Require Import ZArith Lia.
From stdpp Require Import base list numbers.
From S2P Require Import Prelude Config SsdParams Nvme Prp ZnsFtl.
From S2P Require Ssd.

(** ** Kinds of zones *)
Definition zone_is_open (z : zone_descriptor) : bool :=
  match state z with ZONE_STATE_OPENED_IMPL | ZONE_STATE_OPENED_EXPL => true | _ => false end.
Definition zone_is_active (z : zone_descriptor) : bool :=
  match state z with ZONE_STATE_OPENED_IMPL | ZONE_STATE_OPENED_EXPL | ZONE_STATE_CLOSED => true | _ => false end.
Definition zone_holds_zrwa (z : zone_descriptor) : bool := zone_is_active z && zrwav z.

(** ** Counting *)
Fixpoint zcount {A} (p : A -> bool) (l : list A) : Z :=
  match l with [] => 0 | x :: l => Z.b2z (p x) + zcount p l end.

Section Count.
Context {A : Type} (p : A -> bool).

Lemma b2z_range b : 0 <= Z.b2z b <= 1.
Proof. by destruct b. Qed.

Lemma zcount_range l : 0 <= zcount p l <= zlen l.
Proof. induction l as [|x l IH]; cbn; [done|]. pose proof (b2z_range (p x)). lia. Qed.

Lemma zcount_insert l (i : nat) x y : l !! i = Some x -> zcount p (<[i := y]> l) = zcount p l - Z.b2z (p x) + Z.b2z (p y).
Proof.
  revert i. induction l as [|a l IH]; intros [|i] H; [done|done| |].
  - injection H as ->. cbn. lia.
  - change (<[S i:=y]> (a :: l)) with (a :: <[i:=y]> l). cbn [zcount]. rewrite (IH i H). lia.
Qed.

Lemma zcount_zset l i x y : zget l i = Some x -> zcount p (zset l i y) = zcount p l - Z.b2z (p x) + Z.b2z (p y).
Proof.
  unfold zget, zset. destruct (Z.ltb_spec i 0); [done|]. apply zcount_insert.
Qed.

(** An element that does not count leaves room for itself. *)
Lemma zcount_bound l i x : zget l i = Some x -> Z.b2z (p x) <= zcount p l <= zlen l - 1 + Z.b2z (p x).
Proof.
  intros H. unfold zget in H. destruct (Z.ltb_spec i 0); [done|].
  revert H. generalize (Z.to_nat i). induction l as [|a l IH]; intros [|n] H; [done|done| |]; cbn.
  - injection H as ->. pose proof (zcount_range l). lia.
  - pose proof (b2z_range (p a)). pose proof (IH n H). lia.
Qed.

Lemma zcount_none l : (forall x, x ∈ l -> p x = false) -> zcount p l = 0.
Proof.
  induction l as [|x l IH]; intros H; cbn; [done|]. rewrite (H x) by (by left). apply IH. intros y Hy. apply H. by right.
Qed.
End Count.

(** ** The geometry of a zoned namespace *)
Record zns_geometry (f : zns_ftl) : Prop := {
  zg_secsz : secsz (spp f) = 512;
  zg_secs : secs_per_pg (spp f) = 8;
  zg_pgsz : pgsz (spp f) = 4096;
  zg_size : 0 < zone_size (zp f) < 2 ^ 32;
  zg_mod : zone_size (zp f) mod 4096 = 0;
  zg_zones : 0 <= nr_zones (zp f);
  zg_total : nr_zones (zp f) * lbas_per_zone f < 2 ^ 32;
  zg_units : units_ok f = true;
}.

(** Parameters the NAND commands rely on. *)
Record zns_media (f : zns_ftl) : Prop := {
  zm_dies : Ssd.dies_ok (ssd f);
  zm_timing : Ssd.timing_ok (ssd f);
  zm_nchs : 0 < nchs (spp f) <= 2 ^ 8;
  zm_luns : 0 < luns_per_ch (spp f) <= 2 ^ 8;
  zm_tt : tt_luns (spp f) = nchs (spp f) * luns_per_ch (spp f);
  zm_dpz : exists k, tt_luns (spp f) = k * dies_per_zone (zp f);
  zm_dpz_pos : 0 < dies_per_zone (zp f);
  zm_flash : 1 <= pgs_per_flashpg (spp f) <= 2 ^ 16;
  zm_oneshot : 1 <= pgs_per_oneshotpg (spp f) <= 2 ^ 16;
  zm_cell : 1 <= cell_mode (spp f) <= 3;
  zm_lat : Datatypes.length (pg_rd_lat (spp f)) = 3%nat;
  zm_lat4 : Datatypes.length (pg_4kb_rd_lat (spp f)) = 3%nat;
  zm_unit : 0 < max_ch_xfer_size (spp f) < 2 ^ 31;
}.

Section Geometry.
Context (f : zns_ftl) (G : zns_geometry f).

Lemma lpz_eq : lbas_per_zone f = 8 * pgs_per_zone f /\ zone_size (zp f) = 4096 * pgs_per_zone f /\ 0 < pgs_per_zone f.
Proof.
  destruct G as [E1 E2 E3 E4 E5 _ _ _]. unfold lbas_per_zone, pgs_per_zone. rewrite E1, E3.
  set (n := zone_size (zp f)) in *. assert (n = 4096 * (n / 4096)) by (Z.to_euclidean_division_equations; lia).
  Z.to_euclidean_division_equations. lia.
Qed.

Lemma lpz_pos : 0 < lbas_per_zone f.
Proof. pose proof lpz_eq. lia. Qed.

Lemma capacity_eq : BYTE_TO_LBA (zone_size (zp f)) = lbas_per_zone f.
Proof.
  unfold BYTE_TO_LBA, LBA_BITS. rewrite Z.shiftr_div_pow2 by lia. unfold lbas_per_zone. by rewrite (zg_secsz f G).
Qed.

Lemma zone_of_lba_page lba : lpn_to_zone f (lba_to_lpn f lba) = lba_to_zone f lba.
Proof.
  unfold lpn_to_zone, lba_to_lpn, lba_to_zone. destruct lpz_eq as (E & _ & Hp). rewrite E, (zg_secs f G).
  rewrite Z.div_div by lia. done.
Qed.

Lemma zone_fits zid : 0 <= zid <= nr_zones (zp f) -> 0 <= zid <= zid * lbas_per_zone f /\ zid * lbas_per_zone f < 2 ^ 32.
Proof.
  intros H. pose proof lpz_pos as Hp. pose proof (zg_total f G) as Ht.
  pose proof (Z.mul_le_mono_nonneg_r zid (nr_zones (zp f)) (lbas_per_zone f)). generalize dependent (lbas_per_zone f). intros L. nia.
Qed.

Lemma zone_slba_eq zid : 0 <= zid <= nr_zones (zp f) -> zone_to_slba f zid = zid * lbas_per_zone f.
Proof.
  intros H. unfold zone_to_slba. pose proof (zone_fits zid H) as [H1 H2]. rewrite (u32_id zid) by lia. apply u32_id. lia.
Qed.

Lemma zone_elba_eq zid : 0 <= zid < nr_zones (zp f) -> zone_to_elba f zid = (zid + 1) * lbas_per_zone f - 1.
Proof.
  intros H. unfold zone_to_elba. rewrite zone_slba_eq by lia. pose proof lpz_pos.
  pose proof (zone_fits (zid + 1) ltac:(lia)). apply u64_id. lia.
Qed.

Lemma lba_zone_of_slba zid : 0 <= zid < nr_zones (zp f) -> lba_to_zone f (zone_to_slba f zid) = zid.
Proof.
  intros H. rewrite zone_slba_eq by lia. unfold lba_to_zone. pose proof lpz_pos.
  rewrite Z.div_mul by lia. pose proof (zone_fits zid ltac:(lia)). apply u32_id. lia.
Qed.
End Geometry.

(** ** The invariant *)

(** One zone, [L] logical blocks long. *)
Record zone_wf (L i : Z) (z : zone_descriptor) : Prop := {
  zw_slba : zslba z = i * L;
  zw_cap : zone_capacity z = L;
  zw_wp : zslba z <= wp z <= zslba z + L;
  zw_type : ztype z = ZONE_TYPE_SEQ_WRITE_REQUIRED;
  zw_empty : state z = ZONE_STATE_EMPTY -> wp z = zslba z /\ zrwav z = false;
  zw_active : zone_is_active z = true -> wp z < zslba z + L;
  zw_ro : state z <> ZONE_STATE_READ_ONLY;
  zw_off : state z <> ZONE_STATE_OFFLINE;
}.

(** A buffer per zone, of the configured size, when that size is not 0. *)
Definition buffers_wf (n sz : Z) (l : option (list Ssd.buffer)) : Prop :=
  if sz =? 0 then l = None else exists bs, l = Some bs /\ zlen bs = n /\ Forall (fun b => Ssd.size b = sz) bs.

Record zns_inv (f : zns_ftl) : Prop := {
  zi_geo : zns_geometry f;
  zi_media : zns_media f;
  zi_len : zlen (zone_descs f) = nr_zones (zp f);
  zi_zone i z : zget (zone_descs f) i = Some z -> zone_wf (lbas_per_zone f) i z;
  zi_total t : total_cnt (get_res (res_infos f) t) = nr_zones (zp f);
  zi_open : acquired_cnt (get_res (res_infos f) OPEN_ZONE) = zcount zone_is_open (zone_descs f);
  zi_active : acquired_cnt (get_res (res_infos f) ACTIVE_ZONE) = zcount zone_is_active (zone_descs f);
  zi_zrwa : zcount zone_holds_zrwa (zone_descs f) <= acquired_cnt (get_res (res_infos f) ZRWA_ZONE) <= nr_zones (zp f);
  zi_wb : buffers_wf (nr_zones (zp f)) (zone_wb_size (zp f)) (zone_write_buffer f);
  zi_zb : buffers_wf (nr_zones (zp f)) (zrwa_buffer_size (zp f)) (zrwa_buffer f);
}.

(** What no zone operation touches. *)
Record same_device (f f' : zns_ftl) : Prop := {
  sd_zp : zp f' = zp f;
  sd_sp : Ssd.sp (ssd f') = Ssd.sp (ssd f);
}.

Lemma same_device_units f f' : same_device f f' -> units_ok f' = units_ok f /\ lbas_per_zone f' = lbas_per_zone f /\
  spp f' = spp f.
Proof. intros [E1 E2]. unfold units_ok, lbas_per_zone, pgs_per_zone, spp. by rewrite E1, E2. Qed.

Lemma geometry_same f f' : same_device f f' -> zns_geometry f -> zns_geometry f'.
Proof.
  intros S [H1 H2 H3 H4 H5 H6 H7 H8]. destruct (same_device_units f f' S) as (E1 & E2 & E3). destruct S as [S1 S2].
  split; rewrite ?E1, ?E2, ?E3, ?S1; done.
Qed.

Lemma media_same f f' : ssd f' = ssd f -> zp f' = zp f -> zns_media f -> zns_media f'.
Proof. intros E1 E2 []. split; unfold spp in *; rewrite ?E1, ?E2; done. Qed.

(** Counters, open to the zone's own share. *)
Definition holds (t : zone_resource_type) (z : zone_descriptor) : bool :=
  match t with ACTIVE_ZONE => zone_is_active z | OPEN_ZONE => zone_is_open z | ZRWA_ZONE => zone_holds_zrwa z end.
Definition acquired (f : zns_ftl) (t : zone_resource_type) : Z := acquired_cnt (get_res (res_infos f) t).

Lemma inv_update f f' zid z z' :
  zns_inv f -> zget (zone_descs f) zid = Some z -> zone_wf (lbas_per_zone f) zid z' ->
  ssd f' = ssd f -> zp f' = zp f -> zone_descs f' = zset (zone_descs f) zid z' ->
  (forall t, total_cnt (get_res (res_infos f') t) = total_cnt (get_res (res_infos f) t)) ->
  (forall t, t <> ZRWA_ZONE -> acquired f' t = acquired f t - Z.b2z (holds t z) + Z.b2z (holds t z')) ->
  acquired f ZRWA_ZONE - Z.b2z (zone_holds_zrwa z) + Z.b2z (zone_holds_zrwa z') <= acquired f' ZRWA_ZONE <= nr_zones (zp f) ->
  zone_write_buffer f' = zone_write_buffer f ->
  buffers_wf (nr_zones (zp f)) (zrwa_buffer_size (zp f)) (zrwa_buffer f') ->
  zns_inv f'.
Proof.
  intros I Hz Hw Es Ep Ed Et Ea Er Eb Ezb. unfold acquired in *.
  assert (same_device f f') as S by (split; [done|by rewrite Es]).
  destruct (same_device_units f f' S) as (_ & EL & _). pose proof (zget_range _ _ _ Hz) as Hr. split.
  - by eapply geometry_same, zi_geo.
  - by eapply media_same, zi_media.
  - rewrite Ed, length_zset, Ep. by apply zi_len.
  - intros i w. rewrite Ed, zget_zset by done. rewrite EL. case_decide as E.
    + intros [= <-]. by subst.
    + by apply zi_zone.
  - intros t. rewrite Et, Ep. by apply zi_total.
  - rewrite (Ea OPEN_ZONE) by done. rewrite Ed, (zcount_zset _ _ _ _ _ Hz), (zi_open f I). done.
  - rewrite (Ea ACTIVE_ZONE) by done. rewrite Ed, (zcount_zset _ _ _ _ _ Hz), (zi_active f I). done.
  - rewrite Ed, Ep, (zcount_zset _ _ _ _ _ Hz). pose proof (zi_zrwa f I). lia.
  - rewrite Eb, Ep. by apply zi_wb.
  - rewrite Ep. done.
Qed.

(** ** Counters under an invariant do not wrap *)
Section Counters.
Context (f : zns_ftl) (I : zns_inv f).

Lemma nr_zones_range : 0 <= nr_zones (zp f) < 2 ^ 32.
Proof.
  pose proof (zg_zones f (zi_geo f I)). pose proof (zone_fits f (zi_geo f I) (nr_zones (zp f)) ltac:(lia)). lia.
Qed.

Lemma acquired_range t : 0 <= acquired f t <= nr_zones (zp f).
Proof.
  unfold acquired. pose proof (zi_len f I) as Hl. destruct t.
  - rewrite (zi_active f I), <- Hl. apply zcount_range.
  - rewrite (zi_open f I), <- Hl. apply zcount_range.
  - pose proof (zi_zrwa f I). pose proof (zcount_range zone_holds_zrwa (zone_descs f)). lia.
Qed.

Lemma acquired_count t : (if decide (t = ZRWA_ZONE) then zcount (holds t) (zone_descs f) <= acquired f t
  else acquired f t = zcount (holds t) (zone_descs f)).
Proof. destruct t; [apply (zi_active f I)|apply (zi_open f I)|apply (zi_zrwa f I)]. Qed.

(** A zone that does not hold the resource leaves one; one that holds it can give it back. *)
Lemma resource_free t zid z : t <> ZRWA_ZONE -> zget (zone_descs f) zid = Some z -> holds t z = false ->
  acquired f t < nr_zones (zp f).
Proof.
  intros Ht Hz Hh. pose proof (acquired_count t) as Ha. rewrite decide_False in Ha by done.
  pose proof (zcount_bound (holds t) _ _ _ Hz) as Hb. rewrite Hh, (zi_len f I) in Hb.
  change (Z.b2z false) with 0 in Hb. lia.
Qed.

Lemma resource_held t zid z : zget (zone_descs f) zid = Some z -> holds t z = true -> 0 < acquired f t.
Proof.
  intros Hz Hh. pose proof (acquired_count t) as Ha. pose proof (zcount_bound (holds t) _ _ _ Hz) as Hb. rewrite Hh in Hb.
  change (Z.b2z true) with 1 in Hb. case_decide; lia.
Qed.

Lemma avail_eq t : is_zone_resource_avail f t = (acquired f t <? nr_zones (zp f)).
Proof. unfold is_zone_resource_avail. by rewrite (zi_total f I). Qed.
Lemma full_eq t : is_zone_resource_full f t = (acquired f t =? nr_zones (zp f)).
Proof. unfold is_zone_resource_full. by rewrite (zi_total f I). Qed.
End Counters.

Lemma get_put_res r t t' x : get_res (put_res r t x) t' = if decide (t = t') then x else get_res r t'.
Proof. by destruct t, t'. Qed.

Lemma add_acquired_at f t n t' : acquired (add_acquired f t n) t' =
  if decide (t = t') then u32 (acquired f t + n) else acquired f t'.
Proof. unfold acquired, add_acquired. cbn [res_infos set_res]. rewrite get_put_res. by destruct (decide (t = t')). Qed.

Lemma add_acquired_total f t n t' : total_cnt (get_res (res_infos (add_acquired f t n)) t') = total_cnt (get_res (res_infos f) t').
Proof. unfold add_acquired. cbn [res_infos set_res]. rewrite get_put_res. by destruct (decide (t = t')) as [->|]. Qed.
