(* ===== verification/ZnsMgmt.v ===== *)
(** * Zone management: the state machine the handlers implement

    [azone] is a zone as the host knows it: a state, a write pointer counted from the
    start of the zone, and whether a random write area is attached.  [zone_next] is
    the transition table of the management actions.  Every handler of
    [zns_mgmt_send.c] is shown to take the step the table gives on its own zone,
    to leave the other zones alone and to keep [zns_inv]; the counters never make
    it refuse, except the ZRWA one. *)

From Stdlib Require Import ZArith Lia.
From stdpp Require Import base list numbers.
From S2P Require Import Prelude Config SsdParams Nvme Prp ZnsFtl ZnsInv.
From S2P Require Ssd.

(** ** The abstract machine *)
Record azone : Type := mk_azone { az_state : zone_state; az_wp : Z; az_zrwa : bool }.

Inductive zaction : Type :=
| ACT_CLOSE | ACT_FINISH | ACT_OPEN (zrwa : bool) | ACT_RESET | ACT_OFFLINE
| ACT_FLUSH (off : Z).    (* up to and including this block of the zone *)

(** Lengths in logical blocks: of a zone, of its ZRWA and of a flush unit. *)
Record zsizes : Type := mk_zsizes { zs_zone : Z; zs_zrwa : Z; zs_fg : Z }.

(** The new state of the zone, or the status of the refusal. *)
Definition zone_next (sz : zsizes) (act : zaction) (a : azone) : Z + azone :=
  let goto s := inr (mk_azone s (az_wp a) (az_zrwa a)) in
  let invalid := inl NVME_SC_ZNS_INVALID_TRANSITION in
  match act, az_state a with
  | ACT_CLOSE, (ZONE_STATE_OPENED_IMPL | ZONE_STATE_OPENED_EXPL | ZONE_STATE_CLOSED) => goto ZONE_STATE_CLOSED
  | ACT_FINISH, (ZONE_STATE_EMPTY | ZONE_STATE_OPENED_IMPL | ZONE_STATE_OPENED_EXPL | ZONE_STATE_CLOSED | ZONE_STATE_FULL) =>
      goto ZONE_STATE_FULL
  | ACT_OPEN zrwa, ZONE_STATE_EMPTY => inr (mk_azone ZONE_STATE_OPENED_EXPL (az_wp a) zrwa)
  | ACT_OPEN _, (ZONE_STATE_OPENED_IMPL | ZONE_STATE_OPENED_EXPL | ZONE_STATE_CLOSED) => goto ZONE_STATE_OPENED_EXPL
  | ACT_RESET, (ZONE_STATE_EMPTY | ZONE_STATE_OPENED_IMPL | ZONE_STATE_OPENED_EXPL | ZONE_STATE_CLOSED | ZONE_STATE_FULL) =>
      inr (mk_azone ZONE_STATE_EMPTY 0 false)
  | ACT_OFFLINE, (ZONE_STATE_READ_ONLY | ZONE_STATE_OFFLINE) => goto ZONE_STATE_OFFLINE
  | ACT_FLUSH off, s =>
      if negb (az_zrwa a) || negb ((az_wp a <=? off) && (off <? Z.min (az_wp a + zs_zrwa sz) (zs_zone sz))) then
        inl NVME_SC_ZNS_INVALID_ZONE_OPERATION
      else if negb ((off + 1 - az_wp a) mod zs_fg sz =? 0) then inl NVME_SC_INVALID_FIELD
      else match s with
           | ZONE_STATE_OPENED_IMPL | ZONE_STATE_OPENED_EXPL | ZONE_STATE_CLOSED =>
               inr (mk_azone (if off + 1 =? zs_zone sz then ZONE_STATE_FULL else s) (off + 1) (az_zrwa a))
           | _ => inl NVME_SC_ZNS_INVALID_ZONE_OPERATION
           end
  | _, _ => invalid
  end.

(** What the namespace may answer and do to all its zones. *)
Inductive mgmt_step (sz : zsizes) : list azone -> zaction -> Z -> Z -> list azone -> Prop :=
| ms_done A act zid a a' : zget A zid = Some a -> zone_next sz act a = inr a' ->
    mgmt_step sz A act zid NVME_SC_SUCCESS (zset A zid a')
| ms_refused A act zid a st : zget A zid = Some a -> zone_next sz act a = inl st -> mgmt_step sz A act zid st A
| ms_no_zrwa A zid a : zget A zid = Some a -> az_state a = ZONE_STATE_EMPTY ->
    mgmt_step sz A (ACT_OPEN true) zid NVME_SC_ZNS_ZRWA_RSRC_UNAVAIL A.

(** ** Abstraction *)
Definition abs_zone (z : zone_descriptor) : azone := mk_azone (state z) (wp z - zslba z) (zrwav z).
Definition abs (f : zns_ftl) : list azone := abs_zone <$> zone_descs f.
Definition sizes_of (f : zns_ftl) : zsizes := mk_zsizes (lbas_per_zone f) (lbas_per_zrwa (zp f)) (lbas_per_zrwafg (zp f)).

(** The descriptor of zone [i] that stands for [a]. *)
Definition conc_zone (L i : Z) (a : azone) : zone_descriptor :=
  mk_zone ZONE_TYPE_SEQ_WRITE_REQUIRED (az_state a) (az_zrwa a) L (i * L) (i * L + az_wp a).

Lemma conc_abs L i z : zone_wf L i z -> z = conc_zone L i (abs_zone z).
Proof.
  intros []. destruct z as [ty s zr c b w]. unfold conc_zone, abs_zone. cbn in *. subst. f_equal. lia.
Qed.

Lemma abs_conc L i a : abs_zone (conc_zone L i a) = a.
Proof. destruct a as [s w z]. unfold abs_zone, conc_zone. cbn. f_equal. lia. Qed.

Lemma zset_fmap {A B} (h : A -> B) l i x : h <$> zset l i x = zset (h <$> l) i (h x).
Proof. unfold zset. destruct (i <? 0); [done|]. by rewrite list_fmap_insert. Qed.

(** *** A zone's descriptor is replaced and nothing else the host can see *)
Record zone_replaced (f : zns_ftl) (zid : Z) (a : azone) (f' : zns_ftl) : Prop := {
  zr_inv : zns_inv f';
  zr_descs : zone_descs f' = zset (zone_descs f) zid (conc_zone (lbas_per_zone f) zid a);
  zr_ssd : ssd f' = ssd f;
  zr_zp : zp f' = zp f;
  zr_report : report_buffer f' = report_buffer f;
  zr_wb : zone_write_buffer f' = zone_write_buffer f;
  zr_out : zns_outbox f' = zns_outbox f;
}.

Lemma replaced_abs f zid a f' : zone_replaced f zid a f' -> abs f' = zset (abs f) zid a.
Proof. intros R. unfold abs. rewrite (zr_descs _ _ _ _ R), zset_fmap. by rewrite abs_conc. Qed.

Lemma replaced_same f zid z : zns_inv f -> zget (zone_descs f) zid = Some z -> zone_replaced f zid (abs_zone z) f.
Proof.
  intros I Hz. split; try done. rewrite <- conc_abs by by apply (zi_zone f I). by rewrite zset_same.
Qed.

Lemma replaced_trans f zid a f1 b f2 : zone_replaced f zid a f1 -> zone_replaced f1 zid b f2 -> zone_replaced f zid b f2.
Proof.
  intros [I1 D1 S1 P1 R1 W1 O1] [I2 D2 S2 P2 R2 W2 O2].
  assert (lbas_per_zone f1 = lbas_per_zone f) as EL by (unfold lbas_per_zone, spp; by rewrite P1, S1).
  split; try congruence. by rewrite D2, D1, EL, zset_zset.
Qed.

(** [zone_wf] of the zones the table leads to. *)
Lemma conc_wf L i a :
  0 <= az_wp a <= L -> (az_state a = ZONE_STATE_EMPTY -> az_wp a = 0 /\ az_zrwa a = false) ->
  (zone_is_active (conc_zone L i a) = true -> az_wp a < L) ->
  az_state a <> ZONE_STATE_READ_ONLY -> az_state a <> ZONE_STATE_OFFLINE -> zone_wf L i (conc_zone L i a).
Proof.
  intros H1 H2 H3 H4 H5. split; cbn in *; try done; try lia.
  - intros E. destruct (H2 E) as [-> ->]. split; [lia|done].
  - intros E. specialize (H3 E). lia.
Qed.

Lemma zone_at_ok f zid z : zget (zone_descs f) zid = Some z -> zone_at f zid = Ok z.
Proof. intros H. by apply aget_ok. Qed.

Lemma mod_zone_ok f zid k z : zget (zone_descs f) zid = Some z ->
  mod_zone f zid k = Ok (set_descs f (zset (zone_descs f) zid (k z))).
Proof.
  intros H. unfold mod_zone. replace (amod (zone_descs f) zid k) with (Ok (zset (zone_descs f) zid (k z))); [done|].
  symmetry. apply amod_ok. by exists z.
Qed.

(** ** Each handler takes the step of the table *)
Definition takes_step (f : zns_ftl) (zid : Z) (r : res (Z * zns_ftl)) (next : Z + azone) : Prop :=
  match next with
  | inl st => r = Ok (st, f)
  | inr a => exists f', r = Ok (NVME_SC_SUCCESS, f') /\ zone_replaced f zid a f'
  end.

Lemma replaced_intro f f' zid z a :
  zns_inv f -> zget (zone_descs f) zid = Some z -> zone_wf (lbas_per_zone f) zid (conc_zone (lbas_per_zone f) zid a) ->
  zone_descs f' = zset (zone_descs f) zid (conc_zone (lbas_per_zone f) zid a) ->
  (ssd f' = ssd f /\ zp f' = zp f /\ report_buffer f' = report_buffer f /\ zone_write_buffer f' = zone_write_buffer f /\
   zns_outbox f' = zns_outbox f) ->
  (forall t, total_cnt (get_res (res_infos f') t) = total_cnt (get_res (res_infos f) t)) ->
  (forall t, acquired f' t = acquired f t - Z.b2z (holds t z) + Z.b2z (holds t (conc_zone (lbas_per_zone f) zid a))) ->
  acquired f' ZRWA_ZONE <= nr_zones (zp f) ->
  buffers_wf (nr_zones (zp f)) (zrwa_buffer_size (zp f)) (zrwa_buffer f') ->
  zone_replaced f zid a f'.
Proof.
  intros I Hz Hw Hd (H1 & H2 & H3 & H4 & H5) Ht Hc Hr Hb. split; try done.
  eapply (inv_update f f' zid z _ I Hz Hw); try done. rewrite (Hc ZRWA_ZONE) in *. cbn [holds] in *. lia.
Qed.

(** Reading counters and fields through the updates of a handler. *)
Lemma acquired_descs f l t : acquired (set_descs f l) t = acquired f t.
Proof. done. Qed.
Lemma acquired_storage f x t : acquired (set_storage f x) t = acquired f t.
Proof. done. Qed.
Lemma acquired_zrwa_buf f x t : acquired (set_zrwa_buf f x) t = acquired f t.
Proof. done. Qed.
Lemma release_at f t t' : acquired (release_zone_resource f t) t' = if decide (t = t') then u32 (acquired f t - 1) else acquired f t'.
Proof. apply add_acquired_at. Qed.
Lemma acquire_run g t n : total_cnt (get_res (res_infos g) t) = n -> acquired g t < n ->
  acquire_zone_resource g t = (true, add_acquired g t 1).
Proof.
  intros E1 E2. unfold acquire_zone_resource, is_zone_resource_avail. unfold acquired in E2. rewrite E1.
  by destruct (Z.ltb_spec (acquired_cnt (get_res (res_infos g) t)) n); [|lia].
Qed.
Lemma not_full f t : zns_inv f -> acquired f t < nr_zones (zp f) -> is_zone_resource_full f t = false.
Proof. intros I H. rewrite (full_eq f I). lia. Qed.

(** A zone in the shape [conc_zone]: its well-formedness and the counters it has a share in. *)
Section Handlers.
Context (f : zns_ftl) (zid : Z) (s : zone_state) (w : Z) (r : bool) (I : zns_inv f).
Context (Hz : zget (zone_descs f) zid = Some (conc_zone (lbas_per_zone f) zid (mk_azone s w r))).

Let z := conc_zone (lbas_per_zone f) zid (mk_azone s w r).

Lemma shape_wf : 0 <= w <= lbas_per_zone f /\ (s = ZONE_STATE_EMPTY -> w = 0 /\ r = false) /\
  (zone_is_active z = true -> w < lbas_per_zone f) /\ s <> ZONE_STATE_READ_ONLY /\ s <> ZONE_STATE_OFFLINE.
Proof.
  destruct (zi_zone f I _ _ Hz) as [_ _ W _ E A RO OFF]. cbn in *. split_and!; try done; try lia.
  - intros H. destruct (E H). split; [lia|done].
  - intros H. specialize (A H). lia.
Qed.

Lemma counts_here t : 0 <= acquired f t <= nr_zones (zp f) /\ nr_zones (zp f) < 2 ^ 32 /\
  (if holds t z then 0 < acquired f t else match t with ZRWA_ZONE => True | _ => acquired f t < nr_zones (zp f) end).
Proof.
  split; [apply (acquired_range f I)|]. split; [apply (nr_zones_range f I)|]. destruct (holds t z) eqn:Eh.
  - by apply (resource_held f I t zid z).
  - destruct t; [| |done]; by eapply (resource_free f I _ zid z).
Qed.
End Handlers.

(** The side conditions of [replaced_intro] after a handler has run. *)
Ltac counters :=
  repeat first [rewrite acquired_descs | rewrite acquired_storage | rewrite acquired_zrwa_buf | rewrite release_at | rewrite add_acquired_at];
  repeat case_decide; try done; cbn [holds zone_is_open zone_is_active zone_holds_zrwa conc_zone state zrwav az_state az_zrwa andb Z.b2z];
  unwrap; lia.
Ltac totals := intros t; by destruct t.
Ltac zone_facts f zid s w r I Hz :=
  let W1 := fresh "W" in let W2 := fresh "W" in let W3 := fresh "W" in
  destruct (shape_wf f zid s w r I Hz) as (W1 & W2 & W3 & _ & _);
  pose proof (counts_here f zid s w r I Hz ACTIVE_ZONE);
  pose proof (counts_here f zid s w r I Hz OPEN_ZONE);
  pose proof (counts_here f zid s w r I Hz ZRWA_ZONE);
  cbn [holds zone_is_open zone_is_active zone_holds_zrwa conc_zone state zrwav az_state az_zrwa az_wp andb] in *.
(** A handler that returned: name its state, then discharge the conditions. *)
Ltac stepped f zid s w r I Hz :=
  eexists; split; [reflexivity|];
  zone_facts f zid s w r I Hz;
  eapply (replaced_intro f _ zid _ _ I Hz);
  [ apply conc_wf; cbn [conc_zone zone_is_active state az_state az_wp az_zrwa]; try done; try (intros _); auto; lia
  | cbn; rewrite ?zset_zset; try done | try done | totals
  | let t := fresh "t" in intros t; destruct t; counters
  | counters
  | try apply (zi_zb f I) ].

Ltac steps :=
  lazymatch goal with Hz : zget (zone_descs ?f) ?zid = Some (conc_zone _ ?zid (mk_azone ?s ?w ?r)), I : zns_inv ?f |- _ =>
    stepped f zid s w r I Hz end.

Section Steps.
Context (f : zns_ftl) (zid : Z) (s : zone_state) (w : Z) (r : bool) (I : zns_inv f).
Context (Hz : zget (zone_descs f) zid = Some (conc_zone (lbas_per_zone f) zid (mk_azone s w r))).

Lemma stays : exists f', Ok (NVME_SC_SUCCESS, f) = Ok (NVME_SC_SUCCESS, f') /\ zone_replaced f zid (mk_azone s w r) f'.
Proof. exists f. split; [done|]. pose proof (replaced_same f zid _ I Hz) as R. by rewrite abs_conc in R. Qed.

Lemma close_spec : takes_step f zid (__zmgmt_send_close_zone f zid) (zone_next (sizes_of f) ACT_CLOSE (mk_azone s w r)).
Proof.
  unfold __zmgmt_send_close_zone, change_zone_state. rewrite (zone_at_ok _ _ _ Hz). cbn [rbind].
  rewrite (mod_zone_ok _ _ _ _ Hz). pose proof stays.
  destruct s eqn:Es, r eqn:Er; try done; cbn [conc_zone state az_state rbind takes_step zone_next az_wp az_zrwa]; steps.
Qed.

Lemma offline_spec : takes_step f zid (__zmgmt_send_offline_zone f zid) (zone_next (sizes_of f) ACT_OFFLINE (mk_azone s w r)).
Proof.
  unfold __zmgmt_send_offline_zone. rewrite (zone_at_ok _ _ _ Hz). cbn [rbind].
  destruct (shape_wf f zid s w r I Hz) as (_ & _ & _ & Hro & Hoff). by destruct s.
Qed.

Lemma finish_spec : takes_step f zid (__zmgmt_send_finish_zone f zid) (zone_next (sizes_of f) ACT_FINISH (mk_azone s w r)).
Proof.
  unfold __zmgmt_send_finish_zone, change_zone_state, leave_active. rewrite (zone_at_ok _ _ _ Hz). cbn [rbind].
  pose proof stays as Hs. destruct s eqn:Es, r eqn:Er; try done; cbn [conc_zone state az_state takes_step zone_next az_wp az_zrwa zrwav];
    erewrite (mod_zone_ok _ zid) by exact Hz; cbn [rbind]; steps.
Qed.

Lemma reset_bufs : (zrwa_buffer_size (zp f) =? 0) = true \/
  (zrwa_buffer_size (zp f) =? 0) = false /\ exists b, buf_at (zrwa_buffer f) zid = Ok b /\
    buffers_wf (nr_zones (zp f)) (zrwa_buffer_size (zp f)) (buf_put (zrwa_buffer f) zid (Ssd.buffer_refill b)).
Proof.
  pose proof (zi_zb f I) as Hb. unfold buffers_wf in *. destruct (zrwa_buffer_size (zp f) =? 0); [by left|right].
  destruct Hb as (l & Hl & Hn & Hs). pose proof (zget_range _ _ _ Hz) as Hr. rewrite (zi_len f I), <- Hn in Hr.
  destruct (zget_Some l zid Hr) as (b & Eb). split; [done|]. exists b. rewrite Hl. cbn [buf_at of_opt rbind].
  split; [by apply aget_ok|]. eexists. split; [done|]. rewrite length_zset. split; [done|].
  unfold zset. destruct (zid <? 0) eqn:E0; [done|]. apply Forall_insert; [done|]. cbn. unfold zget in Eb. rewrite E0 in Eb.
  by apply (Forall_lookup_1 _ _ _ _ Hs Eb).
Qed.


Lemma zone_size_eq : zone_size (zp f) = 512 * lbas_per_zone f.
Proof. pose proof (lpz_eq f (zi_geo f I)). lia. Qed.

(** The bytes of the zone become 0, the rest of the storage is kept. *)
Definition zeroed (st st' : Z -> Z) : Prop :=
  forall o, st' o = if bool_decide (zid * zone_size (zp f) <= o < (zid + 1) * zone_size (zp f)) then 0 else st o.

Lemma reset_tail_run g :
  zone_descs g = zone_descs f -> zp g = zp f -> zrwa_buffer g = zrwa_buffer f ->
  exists st bs, reset_tail g zid = Ok (NVME_SC_SUCCESS, set_zrwa_buf (set_storage (set_descs g
      (zset (zone_descs f) zid (conc_zone (lbas_per_zone f) zid (mk_azone ZONE_STATE_EMPTY 0 false)))) st) bs) /\
    buffers_wf (nr_zones (zp f)) (zrwa_buffer_size (zp f)) bs /\ zeroed (storage g) st.
Proof.
  intros E1 E2 E3. pose proof (zget_range _ _ _ Hz) as Hr. unfold reset_tail, change_zone_state.
  erewrite (mod_zone_ok g zid) by (rewrite E1; exact Hz). cbn [rbind]. unfold __reset_zone.
  erewrite (mod_zone_ok _ zid) by (cbn; rewrite E1; apply zget_zset_eq; exact Hr). cbn [rbind zp set_descs set_storage zone_descs].
  rewrite E1, E2. set (st := fun o : Z => _).
  assert (zeroed (storage g) st) as Hst.
  { intros o. unfold st. rewrite u64_id.
    2: { rewrite zone_size_eq. pose proof (zone_fits f (zi_geo f I) zid) as Hf. rewrite (zi_len f I) in Hr.
         specialize (Hf ltac:(lia)). lia. }
    destruct (Z.leb_spec (zid * zone_size (zp f)) o), (Z.ltb_spec o (zid * zone_size (zp f) + zone_size (zp f))); case_bool_decide; lia || done. }
  rewrite zset_zset. clearbody st.
  replace (zone_set_zrwav (zone_set_wp _ _) _) with (conc_zone (lbas_per_zone f) zid (mk_azone ZONE_STATE_EMPTY 0 false))
    by (unfold conc_zone, zone_set_zrwav, zone_set_wp, zone_set_state; cbn; f_equal; lia).
  destruct reset_bufs as [E|(E & b & Eb & Hb)]; rewrite E.
  - exists st, (zrwa_buffer f). split; [|split; [apply (zi_zb f I)|done]]. unfold set_zrwa_buf. cbn. by rewrite <- E3.
  - cbn [zrwa_buffer set_descs set_storage]. rewrite E3, Eb. cbn [rbind]. exists st, (buf_put (zrwa_buffer f) zid (Ssd.buffer_refill b)). split; [|done].
    done.
Qed.

Lemma reset_spec : takes_step f zid (__zmgmt_send_reset_zone f zid) (zone_next (sizes_of f) ACT_RESET (mk_azone s w r)).
Proof.
  unfold __zmgmt_send_reset_zone, leave_active. rewrite (zone_at_ok _ _ _ Hz). cbn [rbind].
  destruct (shape_wf f zid s w r I Hz) as (_ & _ & _ & Hro & Hoff). pose proof (lpz_pos f (zi_geo f I)). pose proof reset_tail_run as RT.
  destruct s eqn:Es, r eqn:Er; try done; cbn [conc_zone state az_state takes_step zone_next az_wp az_zrwa zrwav];
    match goal with |- context [reset_tail ?g zid] => destruct (RT g eq_refl eq_refl eq_refl) as (st & bs & E & Hb & _) end;
    rewrite E; steps; exact Hb.
Qed.

Lemma reset_storage :
  exists f', __zmgmt_send_reset_zone f zid = Ok (NVME_SC_SUCCESS, f') /\
    zone_replaced f zid (mk_azone ZONE_STATE_EMPTY 0 false) f' /\ zeroed (storage f) (storage f').
Proof.
  pose proof reset_spec as Hs. destruct (shape_wf f zid s w r I Hz) as (_ & _ & _ & Hro & Hoff).
  assert (exists f', __zmgmt_send_reset_zone f zid = Ok (NVME_SC_SUCCESS, f') /\ zeroed (storage f) (storage f')) as (f' & E & Hst).
  { pose proof reset_tail_run as RT. unfold __zmgmt_send_reset_zone, leave_active. rewrite (zone_at_ok _ _ _ Hz). cbn [rbind].
    destruct s, r; try done; cbn [conc_zone state az_state zrwav az_zrwa];
      match goal with |- context [reset_tail ?g zid] => destruct (RT g eq_refl eq_refl eq_refl) as (st & bs & -> & _ & Hst) end;
      (eexists; split; [reflexivity|exact Hst]). }
  exists f'. split; [done|]. split; [|done]. destruct s; try done; destruct Hs as (f2 & E2 & R); rewrite E in E2; by injection E2 as <-.
Qed.

Lemma open_spec zrwa :
  takes_step f zid (__zmgmt_send_open_zone f zid zrwa) (zone_next (sizes_of f) (ACT_OPEN zrwa) (mk_azone s w r)) \/
  zrwa = true /\ s = ZONE_STATE_EMPTY /\ acquired f ZRWA_ZONE = nr_zones (zp f) /\
    __zmgmt_send_open_zone f zid zrwa = Ok (NVME_SC_ZNS_ZRWA_RSRC_UNAVAIL, f).
Proof.
  unfold __zmgmt_send_open_zone, open_closed, open_explicit, change_zone_state. rewrite (zone_at_ok _ _ _ Hz). cbn [rbind].
  pose proof (zi_total f I) as Ht. pose proof stays as Hs. pose proof (shape_wf f zid s w r I Hz) as (_ & We & _).
  pose proof (lpz_pos f (zi_geo f I)).
  destruct s eqn:Es, r eqn:Er; try (left; done); try (destruct We; done); cbn [conc_zone state zrwav az_state az_zrwa].
  - destruct (We eq_refl) as [-> _]. pose proof (counts_here f zid _ _ _ I Hz ACTIVE_ZONE) as (_ & _ & Ha). pose proof (counts_here f zid _ _ _ I Hz OPEN_ZONE) as (_ & _ & Ho).
    pose proof (acquired_range f I ZRWA_ZONE). pose proof (nr_zones_range f I). cbn [holds zone_is_active zone_is_open conc_zone state az_state] in Ha, Ho.
    rewrite !(not_full f _ I) by done. destruct zrwa; cbn [andb rbind].
    + rewrite (full_eq f I). destruct (Z.eqb_spec (acquired f ZRWA_ZONE) (nr_zones (zp f))); [by right|left].
      rewrite (acquire_run f ZRWA_ZONE _ (Ht ZRWA_ZONE)) by lia. cbn [snd]. erewrite (mod_zone_ok _ zid) by exact Hz. cbn [rbind].
      rewrite (acquire_run _ ACTIVE_ZONE (nr_zones (zp f))) by first [exact (Ht ACTIVE_ZONE)|exact Ha]. cbn [snd].
      rewrite (acquire_run _ OPEN_ZONE (nr_zones (zp f))) by first [exact (Ht OPEN_ZONE)|exact Ho].
      erewrite (mod_zone_ok _ zid) by (cbn; apply zget_zset_eq, (zget_range _ _ _ Hz)). cbn [rbind].
      cbn [takes_step zone_next az_state az_wp]. steps.
    + left. rewrite (acquire_run f ACTIVE_ZONE _ (Ht ACTIVE_ZONE)) by exact Ha. cbn [snd].
      rewrite (acquire_run _ OPEN_ZONE (nr_zones (zp f))) by first [exact (Ht OPEN_ZONE)|exact Ho].
      erewrite (mod_zone_ok _ zid) by exact Hz. cbn [rbind takes_step zone_next az_state az_wp]. steps.
  - left. erewrite (mod_zone_ok _ zid) by exact Hz. cbn [rbind takes_step zone_next az_state az_wp az_zrwa]. steps.
  - left. erewrite (mod_zone_ok _ zid) by exact Hz. cbn [rbind takes_step zone_next az_state az_wp az_zrwa]. steps.
  - left. pose proof (counts_here f zid _ _ _ I Hz OPEN_ZONE) as (_ & _ & Ho). cbn [holds zone_is_open conc_zone state az_state] in Ho.
    rewrite (acquire_run f OPEN_ZONE _ (Ht OPEN_ZONE)) by exact Ho. erewrite (mod_zone_ok _ zid) by exact Hz.
    cbn [rbind takes_step zone_next az_state az_wp az_zrwa]. steps.
  - left. pose proof (counts_here f zid _ _ _ I Hz OPEN_ZONE) as (_ & _ & Ho). cbn [holds zone_is_open conc_zone state az_state] in Ho.
    rewrite (acquire_run f OPEN_ZONE _ (Ht OPEN_ZONE)) by exact Ho. erewrite (mod_zone_ok _ zid) by exact Hz.
    cbn [rbind takes_step zone_next az_state az_wp az_zrwa]. steps.
Qed.

(** A ZRWA that is in use has a size and a flush unit. *)
Definition zrwa_usable : Prop := 0 < lbas_per_zrwa (zp f) < 2 ^ 32 /\ 0 < lbas_per_zrwafg (zp f).

Lemma flush_spec off :
  0 <= off < lbas_per_zone f -> (r = true -> zrwa_usable) ->
  takes_step f zid (__zmgmt_send_flush_explicit_zrwa f (zid * lbas_per_zone f + off))
    (zone_next (sizes_of f) (ACT_FLUSH off) (mk_azone s w r)).
Proof.
  intros Hoff Hu. pose proof (zget_range _ _ _ Hz) as Hzr. rewrite (zi_len f I) in Hzr.
  pose proof (zone_fits f (zi_geo f I) zid ltac:(lia)) as Hf. pose proof (zone_fits f (zi_geo f I) (zid + 1) ltac:(lia)) as Hf1.
  destruct (shape_wf f zid s w r I Hz) as (Hw & We & Wa & Hro & Hoffl).
  assert (lba_to_zone f (zid * lbas_per_zone f + off) = zid) as Hzid.
  { unfold lba_to_zone. rewrite Z.add_comm, Z.div_add by lia. rewrite Z.div_small by lia. cbn. apply u32_id. lia. }
  unfold __zmgmt_send_flush_explicit_zrwa. rewrite Hzid, (zone_at_ok _ _ _ Hz). cbn [rbind].
  rewrite (zone_slba_eq f (zi_geo f I)) by lia. cbn [conc_zone wp zone_capacity zrwav state az_wp az_zrwa az_state].
  cbn [zone_next az_zrwa az_wp az_state sizes_of zs_zrwa zs_zone zs_fg].
  destruct r eqn:Er; cbn [negb orb]; [|done]. destruct (Hu eq_refl) as [Hzr2 Hfg]. set (L := lbas_per_zone f) in *.
  replace ((zid * L + w <=? zid * L + off) && (zid * L + off <=? Z.min (u64 (zid * L + w + lbas_per_zrwa (zp f) - 1)) (u64 (u64 (zid * L + L) - 1))))
    with ((w <=? off) && (off <? Z.min (w + lbas_per_zrwa (zp f)) L)) by (unwrap; lia).
  destruct ((w <=? off) && (off <? Z.min (w + lbas_per_zrwa (zp f)) L)) eqn:Ein; cbn [negb]; [|done].
  rewrite !(u64_id (zid * L + off - (zid * L + w) + 1)) by lia.
  replace (zid * L + off - (zid * L + w) + 1) with (off + 1 - w) by lia.
  destruct (Z.eqb_spec (lbas_per_zrwafg (zp f)) 0); [lia|].
  destruct ((off + 1 - w) mod lbas_per_zrwafg (zp f) =? 0); cbn [negb]; [|done].
  rewrite !(u64_id (zid * L + off + 1)), !(u64_id (zid * L + L)) by lia.
  replace (zid * L + off + 1 =? zid * L + L) with (off + 1 =? L) by lia.
  erewrite (mod_zone_ok _ zid) by exact Hz. cbn [rbind].
  replace (zone_set_wp _ _) with (conc_zone L zid (mk_azone s (off + 1) true))
    by (unfold conc_zone, zone_set_wp; cbn; f_equal; lia).
  destruct (Z.eqb_spec (off + 1) L) as [El|El]; unfold flush_fills, change_zone_state; destruct s eqn:Es; try done; cbn [takes_step decide];
    try case_decide; try done; try (erewrite (mod_zone_ok _ zid) by (cbn; apply zget_zset_eq, (zget_range _ _ _ Hz)); cbn [rbind]).
  all: subst L; steps.
Qed.
End Steps.

Lemma reset_zone_spec f zid z :
  zns_inv f -> zget (zone_descs f) zid = Some z ->
  exists f', __zmgmt_send_reset_zone f zid = Ok (NVME_SC_SUCCESS, f') /\
    zone_replaced f zid (mk_azone ZONE_STATE_EMPTY 0 false) f' /\ zeroed f zid (storage f) (storage f').
Proof.
  intros I Hz. pose proof (conc_abs _ _ _ (zi_zone f I _ _ Hz)) as Ez. destruct (abs_zone z) as [s w r]. rewrite Ez in Hz.
  by apply (reset_storage f zid s w r).
Qed.

(** ** The command *)

(** The action a management-send names; [off] is where in its zone the LBA lies. *)
Definition send_action (action : Z) (opt : bool) (off : Z) : option zaction :=
  if action =? ZSA_CLOSE_ZONE then Some ACT_CLOSE
  else if action =? ZSA_FINISH_ZONE then Some ACT_FINISH
  else if action =? ZSA_OPEN_ZONE then Some (ACT_OPEN opt)
  else if action =? ZSA_RESET_ZONE then Some ACT_RESET
  else if action =? ZSA_OFFLINE_ZONE then Some ACT_OFFLINE
  else if action =? ZSA_FLUSH_EXPL_ZRWA then Some (ACT_FLUSH off)
  else None.

(** Everything but the zones, the counters, the ZRWA buffers and the bytes. *)
Record mgmt_frame (f f' : zns_ftl) : Prop := {
  mf_inv : zns_inv f';
  mf_ssd : ssd f' = ssd f;
  mf_zp : zp f' = zp f;
  mf_report : report_buffer f' = report_buffer f;
  mf_wb : zone_write_buffer f' = zone_write_buffer f;
  mf_out : zns_outbox f' = zns_outbox f;
}.

Lemma mgmt_frame_refl f : zns_inv f -> mgmt_frame f f.
Proof. by split. Qed.

Lemma mgmt_frame_trans f1 f2 f3 : mgmt_frame f1 f2 -> mgmt_frame f2 f3 -> mgmt_frame f1 f3.
Proof. intros [] []. split; congruence. Qed.

Lemma mgmt_frame_units f f' : mgmt_frame f f' -> units_ok f' = units_ok f /\ lbas_per_zone f' = lbas_per_zone f /\
  sizes_of f' = sizes_of f.
Proof.
  intros [_ E1 E2 _ _ _]. unfold units_ok, sizes_of, lbas_per_zone, pgs_per_zone, spp. by rewrite E1, E2.
Qed.

(** A namespace with zones in random-write mode has a usable ZRWA. *)
Definition zrwa_ready (f : zns_ftl) : Prop :=
  zrwa_usable f \/ (forall i z, zget (zone_descs f) i = Some z -> zrwav z = false).

Lemma takes_step_sound f zid a r next act :
  zns_inv f -> zget (abs f) zid = Some a -> next = zone_next (sizes_of f) act a -> takes_step f zid r next ->
  exists st f', r = Ok (st, f') /\ mgmt_frame f f' /\ mgmt_step (sizes_of f) (abs f) act zid st (abs f').
Proof.
  intros I Ha -> H. destruct (zone_next (sizes_of f) act a) as [st|a'] eqn:En; cbn in H.
  - exists st, f. split; [done|]. split; [by apply mgmt_frame_refl|]. by eapply ms_refused.
  - destruct H as (f' & -> & R). exists NVME_SC_SUCCESS, f'. split; [done|]. split; [by destruct R|].
    rewrite (replaced_abs _ _ _ _ R). by eapply ms_done.
Qed.

Lemma zget_abs f i : zget (abs f) i = abs_zone <$> zget (zone_descs f) i.
Proof. apply Ssd.zget_fmap. Qed.

Lemma zmgmt_send_spec f zid off action opt act :
  zns_inv f -> 0 <= zid < nr_zones (zp f) -> 0 <= off < lbas_per_zone f ->
  send_action action opt off = Some act -> (action = ZSA_FLUSH_EXPL_ZRWA -> zrwa_ready f) ->
  exists st f', __zmgmt_send f (zid * lbas_per_zone f + off) action opt = Ok (Some st, f') /\ mgmt_frame f f' /\
    mgmt_step (sizes_of f) (abs f) act zid st (abs f').
Proof.
  intros I Hzid Hoff Hact Hzr. pose proof (zone_fits f (zi_geo f I) zid ltac:(lia)) as Hf.
  assert (lba_to_zone f (zid * lbas_per_zone f + off) = zid) as Hz0.
  { unfold lba_to_zone. rewrite Z.add_comm, Z.div_add by lia. rewrite Z.div_small by lia. cbn. apply u32_id. lia. }
  destruct (zget_Some (zone_descs f) zid) as (z & Hz); [by rewrite (zi_len f I)|].
  pose proof (conc_abs _ _ _ (zi_zone f I _ _ Hz)) as Ez. set (a := abs_zone z) in *.
  assert (zget (abs f) zid = Some a) as Ha by (by rewrite zget_abs, Hz). destruct a as [s w r] eqn:Ea. rewrite Ez in Hz.
  assert (forall h next, next = zone_next (sizes_of f) act (mk_azone s w r) -> takes_step f zid h next ->
    exists st f', (let! (s, f) := h in Ok (Some s, f)) = Ok (Some st, f') /\ mgmt_frame f f' /\
      mgmt_step (sizes_of f) (abs f) act zid st (abs f')) as Hdone.
  { intros h next Hn Ht. destruct (takes_step_sound f zid _ h next act I Ha Hn Ht) as (st & f' & -> & ?). by exists st, f'. }
  unfold __zmgmt_send, send_action in *. rewrite Hz0.
  destruct (action =? ZSA_CLOSE_ZONE); [injection Hact as <-; by eapply Hdone, close_spec|].
  destruct (action =? ZSA_FINISH_ZONE); [injection Hact as <-; by eapply Hdone, finish_spec|].
  destruct (action =? ZSA_OPEN_ZONE).
  { injection Hact as <-. destruct (open_spec f zid s w r I Hz opt) as [H|(-> & -> & Hfull & ->)]; [by eapply Hdone|].
    exists NVME_SC_ZNS_ZRWA_RSRC_UNAVAIL, f. split; [done|]. split; [by apply mgmt_frame_refl|]. by eapply ms_no_zrwa. }
  destruct (action =? ZSA_RESET_ZONE); [injection Hact as <-; by eapply Hdone, reset_spec|].
  destruct (action =? ZSA_OFFLINE_ZONE); [injection Hact as <-; by eapply Hdone, offline_spec|].
  destruct (Z.eqb_spec action ZSA_FLUSH_EXPL_ZRWA) as [E|]; [|done]. injection Hact as <-.
  eapply Hdone; [done|]. apply flush_spec; [done..|]. intros ->. destruct (Hzr E) as [H|H]; [done|]. by specialize (H _ _ Hz).
Qed.

(** All zones in turn; the statuses are dropped. *)
Inductive mgmt_all (sz : zsizes) (act : zaction) : list Z -> list azone -> list azone -> Prop :=
| ma_nil A : mgmt_all sz act [] A A
| ma_cons zid zids A st A' A'' : mgmt_step sz A act zid st A' -> mgmt_all sz act zids A' A'' ->
    mgmt_all sz act (zid :: zids) A A''.

(** Without a random write area a flush changes nothing. *)
Lemma flush_step_stays sz A off zid st A' : mgmt_step sz A (ACT_FLUSH off) zid st A' ->
  (forall i a, zget A i = Some a -> az_zrwa a = false) -> A' = A.
Proof.
  intros H HA. remember (ACT_FLUSH off) as act eqn:Ea. destruct H as [A act zid a a' Hg Hn| |]; [|done|done].
  subst act. unfold zone_next in Hn. rewrite (HA _ _ Hg) in Hn. done.
Qed.

Lemma zrwa_ready_step f f1 off zid st : mgmt_frame f f1 -> mgmt_step (sizes_of f) (abs f) (ACT_FLUSH off) zid st (abs f1) ->
  zrwa_ready f -> zrwa_ready f1.
Proof.
  intros F S [H|H]; [left; unfold zrwa_usable; by rewrite (mf_zp _ _ F)|right]. intros i z Hz.
  assert (abs f1 = abs f) as E.
  { eapply flush_step_stays; [exact S|]. intros j a Ha. rewrite zget_abs in Ha. destruct (zget (zone_descs f) j) as [y|] eqn:Ey; [|done].
    injection Ha as <-. exact (H _ _ Ey). }
  pose proof (zget_abs f1 i) as E1. rewrite E, zget_abs, Hz in E1. destruct (zget (zone_descs f) i) as [y|] eqn:Ey; [|done].
  injection E1 as _ _ E1. rewrite <- E1. exact (H _ _ Ey).
Qed.

Lemma zmgmt_send_all_spec action opt act zids : forall f,
  zns_inv f -> (forall i, i ∈ zids -> 0 <= i < nr_zones (zp f)) -> send_action action opt 0 = Some act ->
  (action = ZSA_FLUSH_EXPL_ZRWA -> zrwa_ready f) ->
  exists f', zmgmt_send_all zids f action opt = Ok f' /\ mgmt_frame f f' /\ mgmt_all (sizes_of f) act zids (abs f) (abs f').
Proof.
  induction zids as [|zid zids IH]; intros f I Hin Hact Hz; cbn [zmgmt_send_all].
  { exists f. split; [done|]. split; [by apply mgmt_frame_refl|constructor]. }
  pose proof (Hin zid ltac:(left)) as Hr. pose proof (lpz_pos f (zi_geo f I)).
  destruct (zmgmt_send_spec f zid 0 action opt act) as (st & f1 & E & F & S); [done|done|lia|done|exact Hz|].
  rewrite Z.add_0_r in E. rewrite (zone_slba_eq f (zi_geo f I)) by lia. rewrite E. cbn [rbind].
  destruct (mgmt_frame_units _ _ F) as (_ & _ & Esz). destruct (IH f1) as (f2 & E2 & F2 & S2).
  - apply F.
  - intros i Hi. rewrite (mf_zp _ _ F). apply Hin. by right.
  - done.
  - intros Ha. rewrite Ha in Hact. injection Hact as <-. by eapply zrwa_ready_step; [exact F|exact S|apply Hz].
  - exists f2. split; [done|]. split; [by eapply mgmt_frame_trans|]. rewrite Esz in S2. by econstructor.
Qed.

(** A command with a known action on an LBA of the namespace; to flush, the random write
    areas have sizes unless no zone has one. *)
Record send_ok (f : zns_ftl) (c : nvme_zone_mgmt_send) : Prop := {
  so_act : is_Some (send_action (zsa c) (zsaso c) 0);
  so_slba : select_all c = false -> 0 <= ms_slba c < nr_zones (zp f) * lbas_per_zone f;
  so_zrwa : zsa c = ZSA_FLUSH_EXPL_ZRWA -> zrwa_ready f;
}.

(** The action on the zone of [slba], or on every zone. *)
Definition send_step (sz : zsizes) (c : nvme_zone_mgmt_send) (A : list azone) (st : Z) (A' : list azone) : Prop :=
  if select_all c then
    exists act, send_action (zsa c) (zsaso c) 0 = Some act /\ st = NVME_SC_SUCCESS /\ mgmt_all sz act (zseq (zlen A)) A A'
  else
    exists act, send_action (zsa c) (zsaso c) (ms_slba c mod zs_zone sz) = Some act /\
      mgmt_step sz A act (ms_slba c / zs_zone sz) st A'.

Lemma zns_zmgmt_send_spec f c t :
  zns_inv f -> send_ok f c ->
  exists st f', zns_zmgmt_send c t f = Ok (mk_result st t, f') /\ mgmt_frame f f' /\
    send_step (sizes_of f) c (abs f) st (abs f').
Proof.
  intros I [[act Ha] Hs Hz]. unfold zns_zmgmt_send, send_step. rewrite (zg_units f (zi_geo f I)). cbn [negb].
  destruct (select_all c).
  - destruct (zmgmt_send_all_spec (zsa c) (zsaso c) act (zseq (nr_zones (zp f))) f) as (f' & -> & F & S); [done| |done|done|].
    { by intros i ?%Ssd.elem_of_zseq. }
    exists NVME_SC_SUCCESS, f'. split; [done|]. split; [done|]. exists act. split; [done|]. split; [done|].
    unfold abs at 1. by rewrite length_fmap, (zi_len f I).
  - specialize (Hs eq_refl). pose proof (lpz_pos f (zi_geo f I)) as HL. change (zs_zone (sizes_of f)) with (lbas_per_zone f).
    assert (is_Some (send_action (zsa c) (zsaso c) (ms_slba c mod lbas_per_zone f))) as [act' Ha'].
    { unfold send_action in *. repeat case_match; eauto. }
    destruct (zmgmt_send_spec f (ms_slba c / lbas_per_zone f) (ms_slba c mod lbas_per_zone f) (zsa c) (zsaso c) act')
      as (st & f' & E & F & S); [done| |by apply Z.mod_pos_bound|done|exact Hz|].
    { split; [by apply Z.div_pos; lia|]. apply Z.div_lt_upper_bound; lia. }
    replace (ms_slba c / lbas_per_zone f * lbas_per_zone f + ms_slba c mod lbas_per_zone f) with (ms_slba c) in E
      by (pose proof (Z.div_mod (ms_slba c) (lbas_per_zone f)); lia).
    rewrite E. cbn [rbind of_opt]. exists st, f'. split; [done|]. split; [done|]. by exists act'.
Qed.
