(* ===== verification/ZnsIo.v ===== *)
(** * Reads and writes of the zoned FTL

    The loops over the pages of a command, shown to end and to meet no fault, with
    the programs a write issues listed page by page ([programmed]); then what a
    sequential write does to its zone ([write_next]) on every branch. *)

From Stdlib Require Import ZArith Lia.
From stdpp Require Import base list numbers.
From S2P Require Import Prelude Config SsdParams Nvme Prp ZnsFtl ZnsInv ZnsMgmt.
From S2P Require Ssd.

(** ** Physical addresses of a zone's pages *)
Section Addresses.
Context (f : zns_ftl) (HM : zns_media f).

Lemma lpn_ppa_die lpn : is_Some (Ssd.lun_at (ssd f) (Ssd.g_ch (__lpn_to_ppa f lpn)) (Ssd.g_lun (__lpn_to_ppa f lpn))).
Proof.
  destruct HM as [Hd _ Hn Hl Ht [k Hk] Hdp _ Ho _ _ _ _]. unfold __lpn_to_ppa. cbn [Ssd.g_ch Ssd.g_lun].
  unfold die_to_channel, die_to_lun. set (zone := lpn_to_zone f lpn). set (off := u64 (lpn - zone_to_slpn f zone)).
  set (d := dies_per_zone (zp f)) in *. set (tt := tt_luns (spp f)) in *.
  assert (0 <= zone < 2 ^ 32) as Hzr by apply u32_range.
  assert (0 < tt <= 2 ^ 16) as Htt by nia.
  assert (0 < k) as Hk0 by nia.
  assert (0 <= zone * d < 2 ^ 64) as Hzd by nia.
  set (q := off / pgs_per_oneshotpg (spp f)). pose proof (Z.mod_pos_bound q d Hdp) as Hq.
  assert (zone * d mod tt = d * (zone mod k)) as Hm by (rewrite Hk, Z.mul_comm, (Z.mul_comm k d); apply Z.mul_mod_distr_l; lia).
  pose proof (Z.mod_pos_bound zone k Hk0) as Hzk.
  assert (0 <= d * (zone mod k) + q mod d < tt) as Hdie by nia.
  rewrite (u64_id (zone * d)), Hm by lia. rewrite (u32_id (d * (zone mod k))) by nia. rewrite u32_id by lia.
  set (die := d * (zone mod k) + q mod d) in *.
  pose proof (Z.mod_pos_bound die (nchs (spp f)) ltac:(lia)).
  assert (0 <= die / nchs (spp f) < luns_per_ch (spp f)) as Hlun
    by (split; [apply Z.div_pos; lia|apply Z.div_lt_upper_bound; lia]).
  rewrite (Z.mod_small (die mod nchs (spp f))), (Z.mod_small (die / nchs (spp f))) by lia. apply Hd; [assumption|exact Hlun].
Qed.

Lemma lpn_ppa_pg lpn : 0 <= Ssd.g_pg (__lpn_to_ppa f lpn) < 2 ^ 16.
Proof. unfold __lpn_to_ppa. cbn [Ssd.g_pg]. by apply Z.mod_pos_bound. Qed.

Lemma zns_cmd_ok c n stime lpn : 0 < n ->
  Ssd.cmd_ok (ssd f) (Ssd.mk_cmd Ssd.USER_IO c (Some n) stime false (__lpn_to_ppa f lpn)).
Proof.
  intros Hn. pose proof HM as []. split; cbn [Ssd.nc_ppa Ssd.nc_cmd Ssd.nc_xfer_size]; try done.
  - apply lpn_ppa_die.
  - apply lpn_ppa_pg.
  - unfold spp in *. lia.
  - intros _. by exists n.
Qed.
End Addresses.

(** ** Frames: the timing of the device moved, and operations were posted *)
Record io_frame (f f' : zns_ftl) (out : list (buf_id * internal_op)) : Prop := {
  if_media : zns_media f';
  if_sp : Ssd.sp (ssd f') = Ssd.sp (ssd f);
  if_wbuf : Ssd.write_buffer (ssd f') = Ssd.write_buffer (ssd f);
  if_zp : zp f' = zp f;
  if_res : res_infos f' = res_infos f;
  if_descs : zone_descs f' = zone_descs f;
  if_report : report_buffer f' = report_buffer f;
  if_wb : zone_write_buffer f' = zone_write_buffer f;
  if_zb : zrwa_buffer f' = zrwa_buffer f;
  if_storage : storage f' = storage f;
  if_out : zns_outbox f' = zns_outbox f ++ out;
}.

Lemma io_frame_refl f : zns_media f -> io_frame f f [].
Proof. intros H. split; try done. by rewrite app_nil_r. Qed.

Lemma io_frame_trans f1 f2 f3 o o' : io_frame f1 f2 o -> io_frame f2 f3 o' -> io_frame f1 f3 (o ++ o').
Proof. intros [] []. split; try congruence. rewrite if_out1, if_out0. by rewrite app_assoc. Qed.

Lemma media_timing f s' p : zns_media f -> Ssd.timing_step p (ssd f) s' -> Ssd.timing_ok s' -> zns_media (set_zssd f s').
Proof.
  intros H S T. pose proof (Ssd.ts_sp _ _ _ S) as Es. pose proof (zm_dies f H) as Hd. destruct H. split; cbn [ssd set_zssd zp]; unfold spp in *; cbn [ssd set_zssd]; rewrite ?Es; try done.
  intros c l Hc Hl. rewrite Es in Hc, Hl. destruct (decide ((c, l) = (Ssd.g_ch p, Ssd.g_lun p))) as [E|E].
  - injection E as -> ->. eapply Ssd.timing_step_lun; [exact S|]. by apply Hd.
  - rewrite (Ssd.ts_other _ _ _ S) by done. by apply Hd.
Qed.

Lemma io_frame_timing f s' p : zns_media f -> Ssd.timing_step p (ssd f) s' -> Ssd.timing_ok s' -> io_frame f (set_zssd f s') [].
Proof.
  intros H S T. split; try done.
  - by eapply media_timing.
  - apply (Ssd.ts_sp _ _ _ S).
  - apply (Ssd.ts_wb _ _ _ S).
  - by rewrite app_nil_r.
Qed.

Lemma io_frame_spp f f' o : io_frame f f' o -> spp f' = spp f.
Proof. intros F. apply (if_sp _ _ _ F). Qed.

Lemma lpn_ppa_frame f f' o lpn : io_frame f f' o -> __lpn_to_ppa f' lpn = __lpn_to_ppa f lpn.
Proof.
  intros F. unfold __lpn_to_ppa, zone_to_slpn, lpn_to_zone, pgs_per_zone, die_to_lun, die_to_channel.
  by rewrite (io_frame_spp _ _ _ F), (if_zp _ _ _ F).
Qed.

(** Commands to the device. *)
Lemma zoom_advance f c n stime lpn clk t : zns_media f -> 0 < n ->
  exists z t' f', zoom_zssd (Ssd.ssd_advance_nand (Ssd.mk_cmd Ssd.USER_IO c (Some n) stime false (__lpn_to_ppa f lpn))) clk t f
    = Ok (z, t', f') /\ io_frame f f' [].
Proof.
  intros H Hn. destruct (Ssd.ssd_advance_nand_here _ _ (zns_cmd_ok f H c n stime lpn Hn) (zm_timing f H) clk t _ eq_refl)
    as (z & t' & s' & E & [S T] & _).
  unfold zoom_zssd, zoom. rewrite E. exists z, t', (set_zssd f s'). split; [done|]. by eapply io_frame_timing.
Qed.

Lemma zoom_pcie f req len clk t : zns_media f ->
  exists z t' f', zoom_zssd (Ssd.ssd_advance_pcie req len) clk t f = Ok (z, t', f') /\ io_frame f f' [].
Proof.
  intros H. set (p := Ssd.mk_ppa 0 0 0 0 0 0).
  destruct (Ssd.ssd_advance_pcie_step p (ssd f) req len clk t (ssd f)) as (z & t' & s' & E & S & T).
  { split; [apply Ssd.timing_step_refl|apply (zm_timing f H)]. }
  unfold zoom_zssd, zoom. rewrite E. exists z, t', (set_zssd f s'). split; [done|]. by eapply io_frame_timing.
Qed.

Lemma zoom_write_buffer f req len clk t : zns_media f ->
  exists z t' f', zoom_zssd (Ssd.ssd_advance_write_buffer req len) clk t f = Ok (z, t', f') /\ io_frame f f' [].
Proof. intros H. apply (zoom_pcie f _ len clk t H). Qed.

(** ** The loops *)
Lemma read_pgs_spec fuel : forall f stime lpn elpn latest clk t,
  zns_media f -> pgsz (spp f) = 4096 -> 0 <= lpn -> elpn < 2 ^ 62 -> elpn - lpn < Z.of_nat fuel ->
  exists z t' f', read_pgs fuel stime lpn elpn latest clk t f = Ok (z, t', f') /\ io_frame f f' [] /\ latest <= z.
Proof.
  induction fuel as [|fuel IH]; intros f stime lpn elpn latest clk t H Hp Hl He Hf; cbn [read_pgs];
    destruct (Z.ltb_spec elpn lpn); try lia; try (exists latest, t, f; split; [done|split; [by apply io_frame_refl|lia]]).
  rewrite run_get. pose proof (zm_flash f H) as Hfl. pose proof (lpn_ppa_pg f lpn) as Hpg.
  set (p := __lpn_to_ppa f lpn) in *. pose proof (Z.mod_pos_bound (Ssd.g_pg p) (pgs_per_flashpg (spp f)) ltac:(lia)) as Hm.
  set (pg_off := Ssd.g_pg p mod pgs_per_flashpg (spp f)) in *. cbv zeta.
  rewrite (u64_id (elpn - lpn + 1)) by lia. set (pgs := Z.min (elpn - lpn + 1) (pgs_per_flashpg (spp f) - pg_off)).
  rewrite Hp, (u64_id (pgs * 4096)), (u64_id (lpn + pgs)) by lia.
  destruct (zoom_advance f Ssd.NAND_READ (pgs * 4096) stime lpn clk t H ltac:(lia)) as (z & t1 & f1 & E & F).
  rewrite (run_bind _ _ _ _ _ _ _ _ E).
  destruct (IH f1 stime (lpn + pgs) elpn (Z.max z latest) clk t1) as (z2 & t2 & f2 & E2 & F2 & Hz);
    [apply F|by rewrite (io_frame_spp _ _ _ F)|lia|lia|lia|].
  exists z2, t2, f2. split; [exact E2|]. split; [apply (io_frame_trans _ _ _ _ _ F F2)|lia].
Qed.

(** The page that completes a oneshot page, or ends the zone, is programmed; its
    program gives back a oneshot page of buffer, or what is left of the zone. *)
Section Programs.
Context (f : zns_ftl).

Definition unaligned_space : Z := u32 (zone_size (zp f) mod u32 (oneshot_bytes f)).
Definition programs_at (zslpn zone_elpn lpn : Z) : bool :=
  ((lpn - zslpn) mod pgs_per_oneshotpg (spp f) =? pgs_per_oneshotpg (spp f) - 1) || (lpn =? zone_elpn).
Definition release_at_page (zone_elpn lpn : Z) : Z :=
  if (lpn =? zone_elpn) && (0 <? unaligned_space) then unaligned_space else u64 (oneshot_bytes f).

(** What the pages [lpn .. lpn + n - 1] of a zone give back, in order. *)
Definition programmed (zslpn zone_elpn lpn n : Z) : list Z :=
  release_at_page zone_elpn <$> filter (fun p => programs_at zslpn zone_elpn p = true) (seqZ lpn n).

Lemma programmed_app zslpn zone_elpn lpn n m : 0 <= n -> 0 <= m ->
  programmed zslpn zone_elpn lpn (n + m) = programmed zslpn zone_elpn lpn n ++ programmed zslpn zone_elpn (lpn + n) m.
Proof. intros Hn Hm. unfold programmed. rewrite seqZ_app by done. by rewrite list.filter_app, fmap_app. Qed.

Lemma filter_none {A} (P : A -> Prop) `{!forall x, Decision (P x)} l : (forall x, x ∈ l -> ~ P x) -> filter P l = [].
Proof.
  induction l as [|x l IH]; intros Hn; [done|]. rewrite filter_cons_False by (apply Hn; by left).
  apply IH. intros y Hy. apply Hn. by right.
Qed.

(** Pages of one oneshot page: only the last can be programmed. *)
Lemma programmed_chunk zslpn zone_elpn lpn n :
  let opp := pgs_per_oneshotpg (spp f) in
  0 < opp -> 0 < n <= opp - (lpn - zslpn) mod opp -> lpn + n - 1 <= zone_elpn ->
  programmed zslpn zone_elpn lpn n =
    if ((lpn - zslpn) mod opp + n =? opp) || (lpn + n - 1 =? zone_elpn) then [release_at_page zone_elpn (lpn + n - 1)] else [].
Proof.
  intros opp Ho Hn Hz. replace n with (n - 1 + 1) at 1 by lia. rewrite programmed_app by lia.
  set (a := (lpn - zslpn) mod opp) in *. pose proof (Z.mod_pos_bound (lpn - zslpn) opp Ho) as Ha. fold a in Ha.
  assert (forall i, 0 <= i < n -> (lpn + i - zslpn) mod opp = a + i) as Hmod.
  { intros i Hi. replace (lpn + i - zslpn) with ((lpn - zslpn) + i) by lia. rewrite <- Z.add_mod_idemp_l by lia. fold a.
    apply Z.mod_small. lia. }
  assert (programmed zslpn zone_elpn lpn (n - 1) = []) as ->.
  { unfold programmed. rewrite filter_none; [done|]. intros p Hp%elem_of_seqZ. unfold programs_at. fold opp.
    replace p with (lpn + (p - lpn)) by lia. rewrite Hmod by lia. lia. }
  unfold programmed. replace (lpn + (n - 1)) with (lpn + n - 1) by lia.
  assert (seqZ (lpn + n - 1) 1 = [lpn + n - 1]) as -> by (rewrite seqZ_cons by lia; by rewrite seqZ_nil by lia).
  cbn [app]. unfold filter, list_filter. cbn [list_filter]. unfold programs_at. fold opp.
  replace (lpn + n - 1 - zslpn) with (lpn + (n - 1) - zslpn) by lia. rewrite Hmod by lia.
  replace (a + (n - 1) =? opp - 1) with (a + n =? opp) by lia.
  destruct ((a + n =? opp) || (lpn + n - 1 =? zone_elpn)); reflexivity.
Qed.
End Programs.

(** The operations posted by a run of programs into the buffer [b]: releases in
    order, at times no later than the last one reported. *)
Record posted (b : buf_id) (sqid : Z) (rels : list Z) (latest : Z) (out : list (buf_id * internal_op)) : Prop := {
  po_rel : (fun o => io_buffs_to_release (snd o)) <$> out = rels;
  po_buf : Forall (fun o => fst o = b /\ io_sqid (snd o) = sqid /\ io_nsecs_target (snd o) <= latest) out;
}.

Lemma posted_nil b sqid latest : posted b sqid [] latest [].
Proof. by split. Qed.

Lemma posted_app b sqid r1 r2 l1 l2 o1 o2 : l1 <= l2 ->
  posted b sqid r1 l1 o1 -> posted b sqid r2 l2 o2 -> posted b sqid (r1 ++ r2) l2 (o1 ++ o2).
Proof.
  intros Hl [A1 A2] [B1 B2]. split; [by rewrite fmap_app, A1, B1|]. apply Forall_app. split; [|done].
  eapply Forall_impl; [|exact A2]. cbn. intros o (? & ? & ?). split_and!; [done|done|lia].
Qed.

Lemma program_page_spec f sqid stime b rel lpn latest clk t :
  zns_media f -> 0 < u64 (oneshot_bytes f) ->
  exists z t' f' out, program_page sqid stime b rel (__lpn_to_ppa f lpn) latest clk t f = Ok (z, t', f') /\
    io_frame f f' out /\ posted b sqid [rel] z out /\ latest <= z.
Proof.
  intros H Hb. unfold program_page. rewrite run_get.
  destruct (zoom_advance f Ssd.NAND_WRITE (u64 (oneshot_bytes f)) stime lpn clk t H Hb) as (z & t1 & f1 & E & F).
  rewrite (run_bind _ _ _ _ _ _ _ _ E), run_modify. unfold ret.
  exists (Z.max z latest), t1, (zns_post f1 b (mk_internal sqid z rel)), [(b, mk_internal sqid z rel)].
  split; [done|]. pose proof (if_out _ _ _ F) as Ho. destruct F. split; [split; try done|].
  - by apply (media_same f1).
  - cbn. rewrite Ho. by rewrite app_nil_r.
  - split; [|lia]. split; [done|]. constructor; [|done]. cbn. split_and!; [done|done|lia].
Qed.

Lemma oneshot_bytes_eq f : zns_media f -> pgsz (spp f) = 4096 -> oneshot_bytes f = pgs_per_oneshotpg (spp f) * 4096.
Proof. intros H Hp. unfold oneshot_bytes. pose proof (zm_oneshot f H). rewrite Hp, i32_id; lia. Qed.

Lemma oneshot_bytes_pos f : zns_media f -> pgsz (spp f) = 4096 -> 0 < u64 (oneshot_bytes f).
Proof. intros H Hp. pose proof (zm_oneshot f H). rewrite (oneshot_bytes_eq f H Hp), u64_id; lia. Qed.

Lemma programmed_frame f f' o a b c d : io_frame f f' o -> programmed f' a b c d = programmed f a b c d.
Proof.
  intros F. unfold programmed, release_at_page, programs_at, unaligned_space, oneshot_bytes.
  by rewrite (io_frame_spp _ _ _ F), (if_zp _ _ _ F).
Qed.

(** The offset of a page of zone [zid] within its oneshot page. *)
Lemma lpn_ppa_off f zid lpn :
  zns_geometry f -> zns_media f -> 0 <= zid < nr_zones (zp f) ->
  zid * pgs_per_zone f <= lpn < (zid + 1) * pgs_per_zone f ->
  Ssd.g_pg (__lpn_to_ppa f lpn) mod pgs_per_oneshotpg (spp f) = (lpn - zid * pgs_per_zone f) mod pgs_per_oneshotpg (spp f).
Proof.
  intros G H Hz Hl. pose proof (zm_oneshot f H) as Ho. pose proof (zone_fits f G zid ltac:(lia)) as Hf.
  pose proof (zone_fits f G (zid + 1) ltac:(lia)) as Hf1.
  destruct (lpz_eq f G) as (EL & _ & Hp). set (P := pgs_per_zone f) in *.
  unfold __lpn_to_ppa. cbn [Ssd.g_pg].
  assert (lpn_to_zone f lpn = zid) as ->.
  { unfold lpn_to_zone. fold P. replace (lpn / P) with zid; [apply u32_id; lia|].
    apply (Z.div_unique_pos _ _ _ (lpn - zid * P)); lia. }
  unfold zone_to_slpn. fold P. rewrite (u32_id zid), (u32_id (zid * P)) by lia. rewrite u64_id by lia.
  set (o := (lpn - zid * P) mod _).
  assert (0 <= o < pgs_per_oneshotpg (spp f)) by (apply Z.mod_pos_bound; lia).
  rewrite (Z.mod_small o (2 ^ 16)) by lia. apply Z.mod_small. lia.
Qed.

Lemma zone_elpn_eq f zid : zns_geometry f -> 0 <= zid < nr_zones (zp f) ->
  zone_to_elpn f zid = (zid + 1) * pgs_per_zone f - 1.
Proof.
  intros G Hz. unfold zone_to_elpn. rewrite (zone_elba_eq f G) by done. rewrite (zg_secs f G).
  destruct (lpz_eq f G) as (-> & _ & Hp). symmetry. apply (Z.div_unique_pos _ _ _ 7); lia.
Qed.

Lemma write_pgs_spec zid sqid stime b elpn fuel : forall f lpn latest clk t,
  zns_geometry f -> zns_media f -> 0 <= zid < nr_zones (zp f) ->
  zid * pgs_per_zone f <= lpn -> elpn < (zid + 1) * pgs_per_zone f -> lpn <= elpn + 1 ->
  elpn + 1 - lpn <= Z.of_nat fuel ->
  exists z t' f' out, write_pgs fuel sqid stime b lpn elpn (zone_to_elpn f zid) latest clk t f = Ok (z, t', f') /\
    io_frame f f' out /\ latest <= z /\
    posted b sqid (programmed f (zid * pgs_per_zone f) (zone_to_elpn f zid) lpn (elpn + 1 - lpn)) z out.
Proof.
  induction fuel as [|fuel IH]; intros f lpn latest clk t G H Hz Hl He Hle Hf; cbn [write_pgs].
  - replace (elpn + 1 - lpn) with 0 by lia. replace (elpn <? lpn) with true by lia.
    exists latest, t, f, []. split; [done|]. split; [by apply io_frame_refl|]. split; [lia|]. apply posted_nil.
  - destruct (Z.ltb_spec elpn lpn).
    { replace (elpn + 1 - lpn) with 0 by lia.
      exists latest, t, f, []. split; [done|]. split; [by apply io_frame_refl|]. split; [lia|]. apply posted_nil. }
    pose proof (zone_fits f G (zid + 1) ltac:(lia)) as Hfit. destruct (lpz_eq f G) as (EL & _ & HP).
    pose proof (zone_fits f G zid ltac:(lia)) as Hfit0.
    assert (0 <= lpn /\ elpn < 2 ^ 32) as [Hl0 He0] by lia.
    rewrite run_get. pose proof (zm_oneshot f H) as Ho. pose proof (lpn_ppa_off f zid lpn G H Hz ltac:(lia)) as Eoff.
    set (opp := pgs_per_oneshotpg (spp f)) in *. cbv zeta. rewrite Eoff.
    set (pg_off := (lpn - zid * pgs_per_zone f) mod opp).
    assert (0 <= pg_off < opp) as Hpo by (apply Z.mod_pos_bound; lia).
    rewrite (u64_id (elpn - lpn + 1)) by lia. set (pgs := Z.min (elpn - lpn + 1) (opp - pg_off)).
    rewrite (u64_id (lpn + pgs)) by lia.
    pose proof (zone_elpn_eq f zid G Hz) as Ezl. set (zl := zone_to_elpn f zid) in *.
    replace (elpn + 1 - lpn) with (pgs + (elpn + 1 - (lpn + pgs))) by lia.
    rewrite programmed_app by lia.
    rewrite (programmed_chunk f _ zl lpn pgs) by (fold opp; fold pg_off; lia). fold opp. fold pg_off.
    fold (unaligned_space f).
    change (if (lpn + pgs - 1 =? zl) && (0 <? unaligned_space f) then unaligned_space f else u64 (oneshot_bytes f))
      with (release_at_page f zl (lpn + pgs - 1)).
    assert (exists z1 t1 f1 out1, (if (pg_off + pgs =? opp) || (lpn + pgs - 1 =? zl)
        then program_page sqid stime b (release_at_page f zl (lpn + pgs - 1)) (__lpn_to_ppa f lpn) latest
        else ret latest) clk t f = Ok (z1, t1, f1) /\ io_frame f f1 out1 /\ latest <= z1 /\
        posted b sqid (if (pg_off + pgs =? opp) || (lpn + pgs - 1 =? zl) then [release_at_page f zl (lpn + pgs - 1)] else []) z1 out1)
      as (z1 & t1 & f1 & out1 & E1 & F1 & Hz1 & P1).
    { destruct ((pg_off + pgs =? opp) || (lpn + pgs - 1 =? zl)).
      - destruct (program_page_spec f sqid stime b (release_at_page f zl (lpn + pgs - 1)) lpn latest clk t H
          (oneshot_bytes_pos f H (zg_pgsz f G))) as (z & t' & f' & out & ?). exists z, t', f', out. tauto.
      - exists latest, t, f, []. split; [done|]. split; [by apply io_frame_refl|]. split; [lia|apply posted_nil]. }
    rewrite (run_bind _ _ _ _ _ _ _ _ E1).
    assert (zns_geometry f1) as G1 by (eapply geometry_same; [split; [apply (if_zp _ _ _ F1)|apply (if_sp _ _ _ F1)]|done]).
    assert (pgs_per_zone f1 = pgs_per_zone f) as EP1.
    { unfold pgs_per_zone. by rewrite (if_zp _ _ _ F1), (io_frame_spp _ _ _ F1). }
    assert (zone_to_elpn f1 zid = zl) as Ezl1.
    { rewrite (zone_elpn_eq f1 zid G1) by (by rewrite (if_zp _ _ _ F1)). by rewrite EP1. }
    destruct (IH f1 (lpn + pgs) z1 clk t1) as (z2 & t2 & f2 & out2 & E2 & F2 & Hz2 & P2);
      [done|apply F1|by rewrite (if_zp _ _ _ F1)|rewrite EP1; lia|rewrite EP1; lia|lia|lia|].
    rewrite Ezl1 in E2, P2. exists z2, t2, f2, (out1 ++ out2). split; [exact E2|].
    split; [by eapply io_frame_trans|]. split; [lia|]. rewrite (programmed_frame _ _ _ _ _ _ _ F1), EP1 in P2.
    eapply posted_app; [|exact P1|exact P2]. done.
Qed.
