(* ===== verification/ZnsWrite.v ===== *)
(** * Writes to a zone

    [write_next] is the abstract machine's step for a write or an append of [n]
    blocks at offset [off]; [__zns_write] is shown to answer and to change its zone
    accordingly, to take the bytes from its write buffer first, and to post one
    release per programmed oneshot page. *)

From Stdlib Require Import ZArith Lia.
From stdpp Require Import base list numbers.
From S2P Require Import Prelude Config SsdParams Nvme Prp ZnsFtl ZnsInv ZnsMgmt ZnsIo.
From S2P Require Ssd.

(** ** The abstract step *)
Definition write_next (sz : zsizes) (unit off n : Z) (a : azone) : Z + azone :=
  let L := zs_zone sz in
  let written s := inr (mk_azone (if off + n =? L then ZONE_STATE_FULL else s) (off + n) (az_zrwa a)) in
  if negb (n * 512 mod unit =? 0) then inl NVME_SC_ZNS_INVALID_WRITE
  else if negb (off / L =? (off + n - 1) / L) then inl NVME_SC_ZNS_ERR_BOUNDARY
  else if negb (off =? az_wp a) then inl NVME_SC_ZNS_INVALID_WRITE
  else match az_state a with
       | ZONE_STATE_EMPTY | ZONE_STATE_CLOSED => written ZONE_STATE_OPENED_IMPL
       | ZONE_STATE_OPENED_IMPL | ZONE_STATE_OPENED_EXPL => written (az_state a)
       | ZONE_STATE_FULL => inl NVME_SC_ZNS_ERR_FULL
       | ZONE_STATE_READ_ONLY => inl NVME_SC_ZNS_ERR_READ_ONLY
       | ZONE_STATE_OFFLINE => inl NVME_SC_ZNS_ERR_OFFLINE
       end.

(** ** Write buffers *)
Definition buf_of (f : zns_ftl) (zid : Z) : buf_id := if zone_wb_size (zp f) =? 0 then BUF_GLOBAL else BUF_ZONE zid.
Definition wb_size (f : zns_ftl) : Z :=
  if zone_wb_size (zp f) =? 0 then Ssd.size (Ssd.write_buffer (ssd f)) else zone_wb_size (zp f).

Lemma buf_of_get f zid : zns_inv f -> 0 <= zid < nr_zones (zp f) ->
  exists x, get_buf f (buf_of f zid) = Ok x /\ Ssd.size x = wb_size f.
Proof.
  intros I Hz. unfold buf_of, wb_size, get_buf. pose proof (zi_wb f I) as Hb. unfold buffers_wf in Hb.
  destruct (zone_wb_size (zp f) =? 0); [by eexists|]. destruct Hb as (l & -> & Hn & Hs). cbn [buf_at of_opt rbind].
  destruct (zget_Some l zid) as (x & Hx); [by rewrite Hn|]. exists x. split; [by apply aget_ok|].
  unfold zget in Hx. destruct (zid <? 0); [done|]. by apply (Forall_lookup_1 _ _ _ _ Hs Hx).
Qed.

(** Only the free space of one buffer differs. *)
Record buf_frame (f f' : zns_ftl) : Prop := {
  bf_inv : zns_inv f';
  bf_sp : Ssd.sp (ssd f') = Ssd.sp (ssd f);
  bf_zp : zp f' = zp f;
  bf_res : res_infos f' = res_infos f;
  bf_descs : zone_descs f' = zone_descs f;
  bf_report : report_buffer f' = report_buffer f;
  bf_storage : storage f' = storage f;
  bf_out : zns_outbox f' = zns_outbox f;
  bf_wb : wb_size f' = wb_size f;
  bf_zrwa : zrwa_buffer f' = zrwa_buffer f;
}.

Lemma buf_frame_refl f : zns_inv f -> buf_frame f f.
Proof. by split. Qed.

Lemma inv_same f f' :
  zns_inv f -> zns_media f' -> Ssd.sp (ssd f') = Ssd.sp (ssd f) -> zp f' = zp f -> res_infos f' = res_infos f ->
  zone_descs f' = zone_descs f -> buffers_wf (nr_zones (zp f)) (zone_wb_size (zp f)) (zone_write_buffer f') ->
  buffers_wf (nr_zones (zp f)) (zrwa_buffer_size (zp f)) (zrwa_buffer f') -> zns_inv f'.
Proof.
  intros I HM E1 E2 E3 E4 E5 E6. assert (same_device f f') as S by by split.
  destruct (same_device_units f f' S) as (_ & EL & _). destruct I. split; rewrite ?E2, ?E3, ?E4, ?EL; try done.
  by eapply geometry_same.
Qed.

Lemma buffers_put n sz l i x y : buffers_wf n sz l -> buf_at l i = Ok x -> Ssd.size y = Ssd.size x -> buffers_wf n sz (buf_put l i y).
Proof.
  unfold buffers_wf, buf_at. intros Hb Hx Hy. destruct (sz =? 0); [by subst|].
  destruct Hb as (bs & -> & Hn & Hs). cbn in *. eexists. split; [done|]. rewrite length_zset. split; [done|].
  apply aget_ok in Hx. unfold zget in Hx. unfold zset. destruct (i <? 0); [done|]. apply Forall_insert; [done|].
  rewrite Hy. by apply (Forall_lookup_1 _ _ _ _ Hs Hx).
Qed.

(** Replacing the write buffer of a zone by one of the same size. *)
Lemma put_buf_frame f zid x y :
  zns_inv f -> get_buf f (buf_of f zid) = Ok x -> Ssd.size y = Ssd.size x -> buf_frame f (put_buf f (buf_of f zid) y).
Proof.
  intros I Hx Hy. pose proof (zi_wb f I) as Hb. pose proof (zi_media f I) as HM. pose proof (zi_zb f I) as Hzb.
  unfold buf_of in *. destruct (zone_wb_size (zp f) =? 0) eqn:E0; cbn [get_buf put_buf] in *.
  - split; try done.
    + apply (inv_same f); try done. destruct HM as [? [? ?]]. split; try done.
    + unfold wb_size. cbn. rewrite E0. injection Hx as <-. done.
  - split; try done.
    apply (inv_same f); try done; [by apply (media_same f)|by apply (buffers_put _ _ _ _ x)].
Qed.

Lemma put_get_buf f b x : get_buf f b = Ok x -> put_buf f b x = f.
Proof.
  destruct b as [|i|i]; cbn; destruct f as [s z r d rb wb zb st ob]; cbn.
  - intros [= <-]. destruct s; done.
  - unfold set_zone_wb, buf_at. cbn. destruct wb as [l|]; [|done]. cbn. intros H%aget_ok. by rewrite zset_same.
  - unfold set_zrwa_buf, buf_at. cbn. destruct zb as [l|]; [|done]. cbn. intros H%aget_ok. by rewrite zset_same.
Qed.

Lemma get_put_buf f b x y : get_buf f b = Ok x -> get_buf (put_buf f b y) b = Ok y.
Proof.
  destruct b as [|i|i]; cbn; [done| |]; unfold buf_at, buf_put.
  - destruct (zone_write_buffer f); [|done]. cbn. intros H%aget_ok. apply aget_ok, zget_zset_eq. by eapply zget_range.
  - destruct (zrwa_buffer f); [|done]. cbn. intros H%aget_ok. apply aget_ok, zget_zset_eq. by eapply zget_range.
Qed.

(** [buffer_allocate] of the zone's buffer: all or nothing. *)
Lemma zns_allocate_spec f zid n x :
  zns_inv f -> get_buf f (buf_of f zid) = Ok x -> 0 <= n <= Ssd.size x -> Ssd.size x < 2 ^ 32 ->
  zns_allocate (buf_of f zid) n f =
    Ok (if Ssd.remaining x <? n then (0, f) else (n, put_buf f (buf_of f zid) (Ssd.mk_buffer (Ssd.size x) (Ssd.remaining x - n)))).
Proof.
  intros I Hx Hn Hs. unfold zns_allocate. rewrite Hx. cbn [rbind]. rewrite (Ssd.buffer_allocate_spec x n Hn Hs).
  destruct (Ssd.remaining x <? n); cbn [rbind]; [by rewrite put_get_buf|done].
Qed.

(** ** Opening the zone and moving its write pointer *)
Definition opened (s : zone_state) : zone_state :=
  match s with ZONE_STATE_OPENED_EXPL => ZONE_STATE_OPENED_EXPL | _ => ZONE_STATE_OPENED_IMPL end.

Lemma open_write_spec f zid s w :
  zns_inv f -> zget (zone_descs f) zid = Some (conc_zone (lbas_per_zone f) zid (mk_azone s w false)) ->
  s <> ZONE_STATE_FULL ->
  exists f1, open_for_write zid s f = Ok (None, f1) /\ zone_replaced f zid (mk_azone (opened s) w false) f1.
Proof.
  intros I Hz Hs. destruct (shape_wf f zid s w false I Hz) as (Hw & We & Wa & Hro & Hoff).
  pose proof (zi_total f I) as Ht. pose proof (lpz_pos f (zi_geo f I)). pose proof (replaced_same f zid _ I Hz) as R. rewrite abs_conc in R.
  pose proof (counts_here f zid _ _ _ I Hz ACTIVE_ZONE) as (_ & _ & Ha).
  pose proof (counts_here f zid _ _ _ I Hz OPEN_ZONE) as (_ & _ & Ho).
  unfold open_for_write, change_zone_state. destruct s; try done; cbn [holds zone_is_active zone_is_open conc_zone state az_state] in Ha, Ho.
  - destruct (We eq_refl) as [-> _]. rewrite !(not_full f _ I) by done.
    rewrite (acquire_run f ACTIVE_ZONE _ (Ht ACTIVE_ZONE)) by exact Ha. cbn [snd].
    rewrite (acquire_run _ OPEN_ZONE (nr_zones (zp f))) by first [exact (Ht OPEN_ZONE)|exact Ho].
    erewrite (mod_zone_ok _ zid) by exact Hz. cbn [rbind opened]. steps.
  - by exists f.
  - by exists f.
  - rewrite (acquire_run f OPEN_ZONE _ (Ht OPEN_ZONE)) by exact Ho.
    erewrite (mod_zone_ok _ zid) by exact Hz. cbn [rbind opened]. steps.
Qed.

(** The write pointer of an open zone moves; at the end the zone is full. *)
Lemma increase_spec f zid s w n :
  zns_inv f -> zget (zone_descs f) zid = Some (conc_zone (lbas_per_zone f) zid (mk_azone s w false)) ->
  s = ZONE_STATE_OPENED_IMPL \/ s = ZONE_STATE_OPENED_EXPL -> 0 <= n < 2 ^ 32 -> w + n <= lbas_per_zone f ->
  exists f2, __increase_write_ptr f zid n = Ok f2 /\
    zone_replaced f zid (mk_azone (if w + n =? lbas_per_zone f then ZONE_STATE_FULL else s) (w + n) false) f2.
Proof.
  intros I Hz Hs Hn Hl. pose proof (zget_range _ _ _ Hz) as Hzr. rewrite (zi_len f I) in Hzr.
  destruct (shape_wf f zid s w false I Hz) as (Hw & _). pose proof (zi_geo f I) as G.
  pose proof (zone_fits f G zid ltac:(lia)). pose proof (zone_fits f G (zid + 1) ltac:(lia)).
  unfold __increase_write_ptr. rewrite (zone_at_ok _ _ _ Hz). cbn [rbind].
  erewrite (mod_zone_ok f zid) by exact Hz. cbn [rbind]. cbn [conc_zone wp zone_capacity az_wp].
  rewrite (u32_id n), (u64_id (zid * lbas_per_zone f + w + n)) by lia.
  change (zone_to_slba (set_descs f _) zid) with (zone_to_slba f zid). rewrite (zone_slba_eq f G) by lia.
  rewrite (u64_id (zid * lbas_per_zone f + lbas_per_zone f)) by lia.
  replace (zid * lbas_per_zone f + w + n =? zid * lbas_per_zone f + lbas_per_zone f) with (w + n =? lbas_per_zone f) by lia.
  replace (zone_set_wp _ _) with (conc_zone (lbas_per_zone f) zid (mk_azone s (w + n) false))
    by (unfold conc_zone, zone_set_wp; cbn; f_equal; lia).
  destruct (Z.eqb_spec (w + n) (lbas_per_zone f)) as [E|E]; unfold change_zone_state.
  - erewrite (mod_zone_ok _ zid) by (cbn; apply zget_zset_eq, (zget_range _ _ _ Hz)).
    cbn [rbind]. destruct Hs as [-> | ->]; steps.
  - destruct Hs as [-> | ->]; steps.
Qed.

(** ** The sequential write *)
Lemma run_guard {B} (k : unit -> M zns_ftl B) clk t f : units_ok f = true -> bind guard_units k clk t f = k tt clk t f.
Proof. intros H. unfold guard_units. rewrite run_bind_assoc, run_get, H. done. Qed.

Definition is_append (c : nvme_rw_command) : bool := opcode c =? nvme_cmd_zone_append.
Definition nr_blocks (c : nvme_rw_command) : Z := length c + 1.

(** A command that starts at an LBA of the namespace. *)
Record lba_ok (f : zns_ftl) (c : nvme_rw_command) : Prop := {
  wk_slba : 0 <= slba c < nr_zones (zp f) * lbas_per_zone f;
  wk_len : 0 <= length c < 2 ^ 16;
}.

(** A write or append no larger than its buffer. *)
Record write_ok (f : zns_ftl) (c : nvme_rw_command) : Prop := {
  wk_lba : lba_ok f c;
  wk_fits : nr_blocks c * 512 <= wb_size f;
  wk_wb : wb_size f < 2 ^ 32;
}.

Definition zone_num (f : zns_ftl) (c : nvme_rw_command) : Z := slba c / lbas_per_zone f.
(** Where in its zone the command writes. *)
Definition write_off (f : zns_ftl) (c : nvme_rw_command) (a : azone) : Z :=
  if is_append c then az_wp a else slba c mod lbas_per_zone f.

Record write_done (f : zns_ftl) (rq : nvmev_request) (off : Z) (a : azone) (x : Ssd.buffer) (r : zns_response) (f' : zns_ftl) : Prop := {
  wd_inv : zns_inv f';
  wd_descs : zone_descs f' = zset (zone_descs f) (zone_num f (cmd rq)) (conc_zone (lbas_per_zone f) (zone_num f (cmd rq)) a);
  wd_zp : zp f' = zp f;
  wd_sp : Ssd.sp (ssd f') = Ssd.sp (ssd f);
  wd_report : report_buffer f' = report_buffer f;
  wd_wbs : wb_size f' = wb_size f;
  wd_buf : get_buf f' (buf_of f (zone_num f (cmd rq))) = Ok x;
  wd_out : exists out xfer latest, zns_outbox f' = zns_outbox f ++ out /\ xfer <= latest /\
    posted (buf_of f (zone_num f (cmd rq))) (sq_id rq)
      (programmed f (zone_num f (cmd rq) * pgs_per_zone f) (zone_to_elpn f (zone_num f (cmd rq)))
        (lba_to_lpn f (zone_num f (cmd rq) * lbas_per_zone f + off))
        (lba_to_lpn f (zone_num f (cmd rq) * lbas_per_zone f + off + nr_blocks (cmd rq) - 1) + 1 -
         lba_to_lpn f (zone_num f (cmd rq) * lbas_per_zone f + off))) latest out /\
    r = write_out f (cmd rq) (zone_num f (cmd rq) * lbas_per_zone f + off) NVME_SC_SUCCESS latest xfer;
}.

(** The answers of a write to a zone [a] without a ZRWA: no buffer, nothing done;
    refused, and the bytes stay taken from the buffer; done. *)
Definition write_outcome (f : zns_ftl) (rq : nvmev_request) (rt : nvmev_result) (a : azone) (r : zns_response) (f' : zns_ftl) : Prop :=
  let c := cmd rq in
  let b := buf_of f (zone_num f c) in
  let off := write_off f c a in
  let slba := zone_num f c * lbas_per_zone f + off in
  exists x, get_buf f b = Ok x /\
    let x' := Ssd.mk_buffer (Ssd.size x) (Ssd.remaining x - nr_blocks c * 512) in
    if Ssd.remaining x <? nr_blocks c * 512 then r = mk_response false rt slba [] /\ f' = f
    else match write_next (sizes_of f) (write_unit_size (spp f)) off (nr_blocks c) a with
         | inl st => r = write_out f c slba st (nsecs_start rq) (nsecs_start rq) /\ f' = put_buf f b x'
         | inr a' => write_done f rq off a' x' r f'
         end.

Section Write.
Context (f : zns_ftl) (c : nvme_rw_command) (I : zns_inv f) (Hc : lba_ok f c).

Lemma zone_num_range : 0 <= zone_num f c < nr_zones (zp f).
Proof.
  pose proof (lpz_pos f (zi_geo f I)). pose proof (wk_slba f c Hc). unfold zone_num.
  split; [apply Z.div_pos; lia|apply Z.div_lt_upper_bound; lia].
Qed.

Lemma zone_num_lba : lba_to_zone f (slba c) = zone_num f c.
Proof.
  unfold lba_to_zone. fold (zone_num f c). pose proof zone_num_range. pose proof (nr_zones_range f I). apply u32_id. lia.
Qed.

Lemma slba_split : slba c = zone_num f c * lbas_per_zone f + slba c mod lbas_per_zone f /\ 0 <= slba c mod lbas_per_zone f < lbas_per_zone f.
Proof.
  pose proof (lpz_pos f (zi_geo f I)). pose proof (Z.mod_pos_bound (slba c) (lbas_per_zone f)).
  pose proof (Z.div_mod (slba c) (lbas_per_zone f)). unfold zone_num. lia.
Qed.

Lemma nr_lba_eq : nr_lbas_from_rw_cmd c = nr_blocks c /\ 1 <= nr_blocks c <= 2 ^ 16.
Proof. pose proof (wk_len f c Hc). unfold nr_lbas_from_rw_cmd, nr_blocks. rewrite u32_id; lia. Qed.

Lemma boundary_eq off : 0 <= off <= lbas_per_zone f ->
  __check_boundary_error f (zone_num f c * lbas_per_zone f + off) (nr_blocks c) =
    (off / lbas_per_zone f =? (off + nr_blocks c - 1) / lbas_per_zone f).
Proof.
  intros Ho. pose proof zone_num_range as Hz. pose proof (zone_fits f (zi_geo f I) (zone_num f c) ltac:(lia)).
  pose proof (zone_fits f (zi_geo f I) (zone_num f c + 1) ltac:(lia)). destruct (lpz_eq f (zi_geo f I)) as (EL & _ & HP).
  destruct nr_lba_eq as [_ Hn]. unfold __check_boundary_error, lba_to_zone. set (L := lbas_per_zone f) in *.
  set (i := zone_num f c) in *. rewrite (u64_id (i * L + off + nr_blocks c - 1)) by lia.
  replace (i * L + off + nr_blocks c - 1) with ((off + nr_blocks c - 1) + i * L) by lia.
  rewrite (Z.add_comm (i * L) off), !Z.div_add by lia.
  assert (0 <= off / L) by (apply Z.div_pos; lia). assert (0 <= (off + nr_blocks c - 1) / L) by (apply Z.div_pos; lia).
  assert (off / L <= off) by (apply Z.div_le_upper_bound; nia).
  assert ((off + nr_blocks c - 1) / L <= off + nr_blocks c - 1) by (apply Z.div_le_upper_bound; nia).
  assert (i * 8 <= i * L) by nia.
  assert ((off + nr_blocks c - 1) / L < 2 ^ 30).
  { apply Z.div_lt_upper_bound; [lia|]. nia. }
  assert (off / L < 2 ^ 30) by (apply Z.div_lt_upper_bound; nia).
  rewrite !u32_id by lia. lia.
Qed.
End Write.

(** The pages of a write that stays in its zone. *)
Lemma write_pages f zid w n :
  zns_inv f -> 0 <= w -> 1 <= n -> w + n <= lbas_per_zone f ->
  let slpn := lba_to_lpn f (zid * lbas_per_zone f + w) in let elpn := lba_to_lpn f (zid * lbas_per_zone f + w + n - 1) in
  zid * pgs_per_zone f <= slpn /\ elpn < (zid + 1) * pgs_per_zone f /\ slpn <= elpn.
Proof.
  intros I Hw Hn Hl. destruct (lpz_eq f (zi_geo f I)) as (EL & _ & HP). unfold lba_to_lpn. rewrite (zg_secs f (zi_geo f I)).
  rewrite EL in *. replace (zid * (8 * pgs_per_zone f)) with (8 * (zid * pgs_per_zone f)) by lia.
  replace ((zid + 1) * pgs_per_zone f) with (zid * pgs_per_zone f + pgs_per_zone f) by lia.
  generalize dependent (pgs_per_zone f). intros P. generalize (zid * P). intros zp. intros.
  Z.to_euclidean_division_equations. lia.
Qed.

(** The accepted write, after the buffer was taken. *)
Lemma write_done_spec f rq s w off x' f1 clk t :
  zns_inv f -> write_ok f (cmd rq) ->
  zget (zone_descs f) (zone_num f (cmd rq)) = Some (conc_zone (lbas_per_zone f) (zone_num f (cmd rq)) (mk_azone s w false)) ->
  f1 = put_buf f (buf_of f (zone_num f (cmd rq))) x' -> buf_frame f f1 -> get_buf f1 (buf_of f (zone_num f (cmd rq))) = Ok x' ->
  off = w -> w + nr_blocks (cmd rq) <= lbas_per_zone f -> s <> ZONE_STATE_FULL ->
  let c := cmd rq in let zid := zone_num f c in let b := buf_of f zid in
  let slba := zid * lbas_per_zone f + off in
  let slpn := lba_to_lpn f slba in let elpn := lba_to_lpn f (slba + nr_blocks c - 1) in
  exists r t' f', (let* err := update_get (open_for_write zid s) in
    match err with
    | Some st => ret (write_out f c slba st (nsecs_start rq) (nsecs_start rq))
    | None =>
        update (fun f => __increase_write_ptr f zid (nr_blocks c)) ;;
        let* xfer := zoom_zssd (Ssd.ssd_advance_write_buffer (nsecs_start rq) (nr_blocks c * 512)) in
        let* latest := write_pgs (S (Z.to_nat (elpn - slpn))) (sq_id rq) xfer b slpn elpn (zone_to_elpn f zid) xfer in
        ret (write_out f c slba NVME_SC_SUCCESS latest xfer)
    end) clk t f1 = Ok (r, t', f') /\
    write_done f rq off (mk_azone (if w + nr_blocks c =? lbas_per_zone f then ZONE_STATE_FULL else opened s) (w + nr_blocks c) false) x' r f'.
Proof.
  intros I Hc Hz Ef1 B Hx' -> Hfit Hs c zid b slba slpn elpn.
  pose proof (zone_num_range f c I (wk_lba _ _ Hc)) as Hzr. destruct (nr_lba_eq f c (wk_lba _ _ Hc)) as [_ Hn].
  pose proof (bf_inv _ _ B) as I1. assert (lbas_per_zone f1 = lbas_per_zone f) as EL1.
  { unfold lbas_per_zone, spp. by rewrite (bf_zp _ _ B), (bf_sp _ _ B). }
  assert (zget (zone_descs f1) zid = Some (conc_zone (lbas_per_zone f1) zid (mk_azone s w false))) as Hz1.
  { by rewrite (bf_descs _ _ B), EL1. }
  destruct (open_write_spec f1 zid s w I1 Hz1 Hs) as (f2 & E2 & R2). rewrite (run_update_get _ _ _ _ _ _ _ E2).
  assert (lbas_per_zone f2 = lbas_per_zone f) as EL2.
  { unfold lbas_per_zone, spp. by rewrite (zr_zp _ _ _ _ R2), (zr_ssd _ _ _ _ R2), (bf_zp _ _ B), (bf_sp _ _ B). }
  destruct (increase_spec f2 zid (opened s) w (nr_blocks c)) as (f3 & E3 & R3).
  { apply R2. } { rewrite (zr_descs _ _ _ _ R2), EL1, EL2. apply zget_zset_eq, (zget_range _ _ _ Hz1). }
  { destruct s; auto. } { lia. } { rewrite EL2. done. }
  rewrite EL2 in R3. rewrite (run_update _ _ _ _ _ _ E3).
  pose proof (replaced_trans _ _ _ _ _ _ R2 R3) as R. pose proof (zr_inv _ _ _ _ R) as I3.
  assert (spp f3 = spp f) as Es3 by (unfold spp; by rewrite (zr_ssd _ _ _ _ R), (bf_sp _ _ B)).
  assert (zp f3 = zp f) as Ez3 by (by rewrite (zr_zp _ _ _ _ R), (bf_zp _ _ B)).
  destruct (zoom_write_buffer f3 (nsecs_start rq) (nr_blocks c * 512) clk t (zi_media f3 I3)) as (xfer & t4 & f4 & E4 & F4).
  rewrite (run_bind _ _ _ _ _ _ _ _ E4).
  pose proof (io_frame_spp _ _ _ F4) as Es4. pose proof (if_zp _ _ _ F4) as Ez4.
  assert (pgs_per_zone f4 = pgs_per_zone f) as EP4 by (unfold pgs_per_zone; by rewrite Ez4, Ez3, Es4, Es3).
  assert (zone_to_elpn f4 zid = zone_to_elpn f zid) as Eelpn.
  { unfold zone_to_elpn, zone_to_elba, zone_to_slba, lbas_per_zone. by rewrite Ez4, Ez3, Es4, Es3. }
  assert (zns_geometry f4) as G4.
  { eapply (geometry_same f); [split; [by rewrite Ez4|change (spp f4 = spp f); by rewrite Es4]|apply (zi_geo f I)]. }
  assert (zid * pgs_per_zone f <= slpn /\ elpn < (zid + 1) * pgs_per_zone f /\ slpn <= elpn) as (Hs1 & Hs2 & Hs3).
  { destruct (shape_wf f zid s w false I Hz) as (Hw & _). apply (write_pages f zid w (nr_blocks c)); [done|apply Hw|apply Hn|exact Hfit]. }
  destruct (write_pgs_spec zid (sq_id rq) xfer b elpn (S (Z.to_nat (elpn - slpn))) f4 slpn xfer clk t4)
    as (latest & t5 & f5 & out & E5 & F5 & Hle & P5);
    [done|apply F4|by rewrite Ez4, Ez3|by rewrite EP4|by rewrite EP4|lia|lia|].
  rewrite Eelpn in E5, P5. rewrite (run_bind _ _ _ _ _ _ _ _ E5). unfold ret. eexists _, t5, f5. split; [reflexivity|].
  pose proof (io_frame_trans _ _ _ _ _ F4 F5) as F. cbn [app] in F.
  assert (programmed f4 (zid * pgs_per_zone f4) (zone_to_elpn f zid) slpn (elpn + 1 - slpn) =
    programmed f (zid * pgs_per_zone f) (zone_to_elpn f zid) slpn (elpn + 1 - slpn)) as Epr.
  { rewrite EP4. unfold programmed, release_at_page, programs_at, unaligned_space, oneshot_bytes. by rewrite Es4, Es3, Ez4, Ez3. }
  rewrite Epr in P5.
  split.
  - apply (inv_same f3); [done|apply F5|apply (if_sp _ _ _ F)|apply (if_zp _ _ _ F)|apply (if_res _ _ _ F)|apply (if_descs _ _ _ F)| |].
    + rewrite (if_wb _ _ _ F). apply (zi_wb f3 I3).
    + rewrite (if_zb _ _ _ F). apply (zi_zb f3 I3).
  - rewrite (if_descs _ _ _ F), (zr_descs _ _ _ _ R), (bf_descs _ _ B), EL1. done.
  - by rewrite (if_zp _ _ _ F).
  - by rewrite (if_sp _ _ _ F).
  - by rewrite (if_report _ _ _ F), (zr_report _ _ _ _ R), (bf_report _ _ B).
  - unfold wb_size. rewrite (if_zp _ _ _ F), (zr_zp _ _ _ _ R), (if_wbuf _ _ _ F), (zr_ssd _ _ _ _ R). apply (bf_wb _ _ B).
  - rewrite <- Hx'. unfold buf_of. destruct (zone_wb_size (zp f) =? 0); cbn [get_buf].
    + by rewrite (if_wbuf _ _ _ F), (zr_ssd _ _ _ _ R).
    + by rewrite (if_wb _ _ _ F), (zr_wb _ _ _ _ R).
  - exists out, xfer, latest. rewrite (if_out _ _ _ F), (zr_out _ _ _ _ R), (bf_out _ _ B). done.
Qed.

Lemma run_weaken {S A} (m : res (A * nat * S)) (Q Q' : A -> S -> Prop) :
  (forall a s, Q a s -> Q' a s) -> (exists a t s, m = Ok (a, t, s) /\ Q a s) -> exists a t s, m = Ok (a, t, s) /\ Q' a s.
Proof. intros HQ (a & t & s & E & H). exists a, t, s. auto. Qed.

Lemma __zns_write_spec f rq rt s w clk t :
  zns_inv f -> write_ok f (cmd rq) ->
  zget (zone_descs f) (zone_num f (cmd rq)) = Some (conc_zone (lbas_per_zone f) (zone_num f (cmd rq)) (mk_azone s w false)) ->
  exists r t' f', __zns_write rq rt clk t f = Ok (r, t', f') /\ write_outcome f rq rt (mk_azone s w false) r f'.
Proof.
  intros I Hc Hz. pose proof (wk_lba _ _ Hc) as Hlba. pose proof (zone_num_range f _ I Hlba) as Hzr. destruct (nr_lba_eq f _ Hlba) as [En Hn].
  pose proof (zone_num_lba f _ I Hlba) as Ezn. destruct (slba_split f (cmd rq) I) as [Esl Hsl].
  pose proof (shape_wf f _ s w false I Hz) as (Hw & We & Wa & Hro & Hoff).
  unfold __zns_write. rewrite run_guard by apply (zg_units f (zi_geo f I)). rewrite run_get. cbv zeta.
  rewrite En, Ezn. rewrite (run_lift _ _ _ _ _ _ (zone_at_ok _ _ _ Hz)).
  set (c := cmd rq) in *. set (zid := zone_num f c) in *. fold (is_append c). fold (buf_of f zid).
  set (off := write_off f c (mk_azone s w false)).
  assert ((if is_append c then wp (conc_zone (lbas_per_zone f) zid (mk_azone s w false)) else slba c) = zid * lbas_per_zone f + off) as Eslba.
  { unfold off, write_off. destruct (is_append c); [done|exact Esl]. }
  rewrite Eslba. assert (0 <= off <= lbas_per_zone f) as Ho by (unfold off, write_off; cbn; destruct (is_append c); lia).
  pose proof (lpz_pos f (zi_geo f I)) as HL. pose proof (zone_fits f (zi_geo f I) zid ltac:(lia)). pose proof (zone_fits f (zi_geo f I) (zid + 1) ltac:(lia)).
  rewrite (u64_id (zid * lbas_per_zone f + off + nr_blocks c - 1)) by lia.
  assert (LBA_TO_BYTE (nr_blocks c) = nr_blocks c * 512) as Ebytes.
  { unfold LBA_TO_BYTE, LBA_BITS. rewrite Z.shiftl_mul_pow2 by lia. done. }
  rewrite Ebytes. destruct (buf_of_get f zid I Hzr) as (x & Hx & Sx). pose proof (wk_fits f c Hc) as Hfit. pose proof (wk_wb f c Hc) as Hwb.
  pose proof (zns_allocate_spec f zid (nr_blocks c * 512) x I Hx ltac:(lia) ltac:(lia)) as Ea.
  set (x' := Ssd.mk_buffer (Ssd.size x) (Ssd.remaining x - nr_blocks c * 512)) in *.
  unfold write_outcome. fold c zid off. 
  destruct (Ssd.remaining x <? nr_blocks c * 512) eqn:Erem; rewrite (run_update_get _ _ _ _ _ _ _ Ea).
  { replace (0 <? nr_blocks c * 512) with true by lia. eexists _, t, f. split; [reflexivity|]. exists x. rewrite Erem. done. }
  rewrite Z.ltb_irrefl. set (f1 := put_buf f (buf_of f zid) x').
  apply (run_weaken _ (fun r f' => match write_next (sizes_of f) (write_unit_size (spp f)) off (nr_blocks c) (mk_azone s w false) with
    | inl st => r = write_out f c (zid * lbas_per_zone f + off) st (nsecs_start rq) (nsecs_start rq) /\ f' = f1
    | inr a' => write_done f rq off a' x' r f'
    end)).
  { intros r f' Hr. exists x. split; [exact Hx|]. fold x'. rewrite Erem. exact Hr. }
  pose proof (boundary_eq f c I Hlba off Ho) as Ebd. fold zid in Ebd. rewrite Ebd. unfold write_next. cbn [zs_zone sizes_of az_wp az_state az_zrwa].
  destruct (nr_blocks c * 512 mod write_unit_size (spp f) =? 0); cbn [negb]; [|by eexists _, t, f1].
  destruct (Z.eqb_spec (off / lbas_per_zone f) ((off + nr_blocks c - 1) / lbas_per_zone f)) as [Eb|]; cbn [negb]; [|by eexists _, t, f1].
  cbn [conc_zone wp zslba state az_state az_wp].
  replace (zid * lbas_per_zone f + off =? zid * lbas_per_zone f + w) with (off =? w) by lia.
  destruct (Z.eqb_spec off w) as [Ew|]; cbn [negb]; [|by eexists _, t, f1].
  assert (bool_decide (s = ZONE_STATE_EMPTY) && negb (zid * lbas_per_zone f + off =? zid * lbas_per_zone f) = false) as ->.
  { destruct (decide (s = ZONE_STATE_EMPTY)) as [E|E]; [|by rewrite bool_decide_eq_false_2]. destruct (We E). lia. }
  destruct (decide (s = ZONE_STATE_FULL)) as [->|Hs].
  { erewrite run_update_get by reflexivity. by eexists _, t, f1. }
  assert (w < lbas_per_zone f) as Hlt.
  { destruct s; try done; try (destruct We as [-> _]; [done|lia]); by apply Wa. }
  assert (w + nr_blocks c <= lbas_per_zone f) as Hend.
  { rewrite (Z.div_small off) in Eb by lia. destruct (Z.lt_ge_cases (lbas_per_zone f) (off + nr_blocks c)); [|lia].
    assert (1 <= (off + nr_blocks c - 1) / lbas_per_zone f) by (apply Z.div_le_lower_bound; lia). lia. }
  destruct (write_done_spec f rq s w off x' f1 clk t I Hc Hz eq_refl) as (r & t' & f' & E & D); try done.
  { by apply (put_buf_frame f zid x). }
  { by apply (get_put_buf f _ x). }
  exists r, t', f'. split; [exact E|]. clear Ea E Ebd. rewrite Ew in D |- *. destruct s; try done; exact D.
Qed.

(** [zns_write] on a zone without a ZRWA. *)
Lemma zns_write_spec f rq rt z clk t :
  zns_inv f -> write_ok f (cmd rq) -> zget (zone_descs f) (zone_num f (cmd rq)) = Some z -> zrwav z = false ->
  exists r t' f', zns_write rq rt clk t f = Ok (r, t', f') /\ write_outcome f rq rt (abs_zone z) r f'.
Proof.
  intros I Hc Hz Hr. unfold zns_write. rewrite run_guard by apply (zg_units f (zi_geo f I)). rewrite run_get.
  rewrite (zone_of_lba_page f (zi_geo f I)), (zone_num_lba f _ I (wk_lba _ _ Hc)), (run_lift _ _ _ _ _ _ (zone_at_ok _ _ _ Hz)), Hr.
  unfold abs_zone. rewrite Hr. apply __zns_write_spec; [done..|].
  rewrite Hz. f_equal. rewrite <- Hr at 1. apply (conc_abs _ _ _ (zi_zone f I _ _ Hz)).
Qed.

(** A write larger than the whole buffer runs into the assertion of [buffer_allocate]. *)
Lemma zns_write_oversized f rq rt z clk t :
  zns_inv f -> lba_ok f (cmd rq) -> zget (zone_descs f) (zone_num f (cmd rq)) = Some z -> zrwav z = false ->
  wb_size f < nr_blocks (cmd rq) * 512 -> zns_write rq rt clk t f = Err BugOn.
Proof.
  intros I Hc Hz Hr Hbig. unfold zns_write. rewrite run_guard by apply (zg_units f (zi_geo f I)). rewrite run_get.
  rewrite (zone_of_lba_page f (zi_geo f I)), (zone_num_lba f _ I Hc), (run_lift _ _ _ _ _ _ (zone_at_ok _ _ _ Hz)), Hr.
  destruct (nr_lba_eq f _ Hc) as [En Hn]. pose proof (zone_num_range f _ I Hc) as Hzr.
  unfold __zns_write. rewrite run_guard by apply (zg_units f (zi_geo f I)). rewrite run_get. cbv zeta.
  rewrite En, (zone_num_lba f _ I Hc), (run_lift _ _ _ _ _ _ (zone_at_ok _ _ _ Hz)).
  fold (buf_of f (zone_num f (cmd rq))). destruct (buf_of_get f (zone_num f (cmd rq)) I Hzr) as (x & Hx & Sx).
  assert (LBA_TO_BYTE (nr_blocks (cmd rq)) = nr_blocks (cmd rq) * 512) as ->.
  { unfold LBA_TO_BYTE, LBA_BITS. rewrite Z.shiftl_mul_pow2 by lia. done. }
  unfold bind at 1, update_get, zns_allocate. rewrite Hx. cbn [rbind]. unfold Ssd.buffer_allocate, rassert.
  replace (_ <=? Ssd.size x) with false by lia. done.
Qed.
