(* ===== verification/ZnsNs.v ===== *)
(** * The zoned namespace: construction, reads, reports, and serving a host

    [zns_init_namespace] on the shipped profiles gives a namespace satisfying
    [zns_inv] with every zone empty.  [host_step] is the abstract machine of the
    whole command set; a session of commands and buffer releases never faults and is
    a run of that machine. *)

From Stdlib Require Import ZArith Lia.
From stdpp Require Import base list numbers.
From S2P Require Import Prelude Config SsdParams Nvme Prp ZnsFtl ZnsInv ZnsMgmt ZnsIo ZnsWrite.
From S2P Require Ssd.

(** ** Construction *)
Definition zns_profile (cfg : ssd_config) : Prop := cfg = ZNS_PROTOTYPE \/ cfg = WD_ZN540.

(** What the parameters of the shipped profiles are, whatever the capacity. *)
Record zns_ssd_params (cfg : ssd_config) (s : ssdparams) : Prop := {
  zs_secsz : secsz s = 512;
  zs_secs : secs_per_pg s = 8;
  zs_pgsz : pgsz s = 4096;
  zs_nchs : nchs s = NAND_CHANNELS cfg;
  zs_luns : luns_per_ch s = LUNS_PER_NAND_CH cfg;
  zs_tt : tt_luns s = NAND_CHANNELS cfg * LUNS_PER_NAND_CH cfg;
  zs_opp : pgs_per_oneshotpg s = ONESHOT_PAGE_SIZE cfg / 4096;
  zs_fpp : pgs_per_flashpg s = FLASH_PAGE_SIZE cfg / 4096;
  zs_unit : write_unit_size s = WRITE_UNIT_SIZE cfg;
  zs_cell : cell_mode s = CELL_MODE cfg;
  zs_lat : pg_rd_lat s = NAND_READ_LATENCY cfg;
  zs_lat4 : pg_4kb_rd_lat s = NAND_4KB_READ_LATENCY cfg;
  zs_xfer : max_ch_xfer_size s = MAX_CH_XFER_SIZE cfg;
  zs_chbw : ch_bandwidth s = NAND_CHANNEL_BANDWIDTH cfg;
  zs_pciebw : pcie_bandwidth s = PCIE_BANDWIDTH cfg;
  zs_wb : write_buffer_size s = GLOBAL_WB_SIZE cfg;
}.

Lemma zns_params_ok cfg spp0 size : zns_profile cfg ->
  exists s, ssd_init_params cfg spp0 size 1 = Ok s /\ zns_ssd_params cfg s.
Proof. intros [-> | ->]; eexists; (split; [reflexivity|split; reflexivity]). Qed.

Definition zns_cap_ok (cfg : ssd_config) (size : Z) : Prop := 0 <= size < 2 ^ 41 /\ size mod ZONE_SIZE cfg = 0.

Lemma zns_zparams_ok cfg s size : zns_profile cfg -> zns_ssd_params cfg s -> zns_cap_ok cfg size ->
  exists p, zns_init_params cfg s size = Ok p /\ zone_size p = ZONE_SIZE cfg /\ nr_zones p = size / ZONE_SIZE cfg /\
    dies_per_zone p = DIES_PER_ZONE cfg /\ zone_wb_size p = ZONE_WB_SIZE cfg /\ zrwa_buffer_size p = 0 /\
    lbas_per_zrwa p = 0 /\ lbas_per_zrwafg p = 0.
Proof.
  intros Hcfg [] [Hs Hm]. unfold zns_init_params. rewrite zs_secsz0, zs_pgsz0.
  assert (u32 (size / ZONE_SIZE cfg) = size / ZONE_SIZE cfg) as En.
  { apply u32_id. destruct Hcfg as [-> | ->]; change (ZONE_SIZE _) with 33554432 || change (ZONE_SIZE _) with 2147483648;
      (split; [apply Z.div_pos; lia|apply Z.div_lt_upper_bound; lia]). }
  destruct Hcfg as [-> | ->]; cbn [ZONE_SIZE ZNS_PROTOTYPE WD_ZN540] in *; eexists;
    (split; [cbn [zone_size]; change (u32 (MB 32)) with (MB 32); change (u32 (GB 2)) with (GB 2); rewrite Hm; reflexivity|]);
    repeat split; done.
Qed.

(** A fresh namespace. *)
Record fresh_zns (cfg : ssd_config) (size : Z) (n : zns_ns) : Prop := {
  fz_inv : zns_inv (zns_part n);
  fz_csi : zns_csi n = NVME_CSI_ZNS;
  fz_parts : zns_nr_parts n = 1;
  fz_zone : zone_size (zp (zns_part n)) = ZONE_SIZE cfg;
  fz_zones : nr_zones (zp (zns_part n)) = size / ZONE_SIZE cfg;
  fz_abs : abs (zns_part n) = replicate (Z.to_nat (size / ZONE_SIZE cfg)) (mk_azone ZONE_STATE_EMPTY 0 false);
  fz_out : zns_outbox (zns_part n) = [];
  fz_wb : wb_size (zns_part n) = if ZONE_WB_SIZE cfg =? 0 then GLOBAL_WB_SIZE cfg else ZONE_WB_SIZE cfg;
  fz_wbs : zone_wb_size (zp (zns_part n)) = ZONE_WB_SIZE cfg;
  fz_unit : write_unit_size (spp (zns_part n)) = WRITE_UNIT_SIZE cfg;
  fz_gwb : zone_wb_size (zp (zns_part n)) = 0 -> Ssd.write_buffer (ssd (zns_part n)) = Ssd.buffer_init (wb_size (zns_part n));
  fz_zwb : zone_write_buffer (zns_part n) = init_bufs (nr_zones (zp (zns_part n))) (zone_wb_size (zp (zns_part n)));
  fz_acq : acquired (zns_part n) ZRWA_ZONE = 0;
  fz_zrwa : lbas_per_zrwa (zp (zns_part n)) = 0 /\ lbas_per_zrwafg (zp (zns_part n)) = 0;
}.

Lemma init_zone_at sz n i : 0 <= n -> 0 <= i < n -> zget (init_zone sz <$> zseq n) i = Some (init_zone sz i).
Proof.
  intros Hn Hi. rewrite Ssd.zget_fmap, Ssd.zget_zseq. by replace ((0 <=? i) && (i <? n)) with true by lia.
Qed.

Lemma zns_init_media cfg s p cpu memory junk : zns_profile cfg -> zns_ssd_params cfg s -> dies_per_zone p = DIES_PER_ZONE cfg ->
  zns_media (zns_init_ftl p (Ssd.ssd_init s cpu) memory junk).
Proof.
  intros Hcfg [] Hd. split; change (spp (zns_init_ftl p (Ssd.ssd_init s cpu) memory junk)) with s; cbn [ssd zp zns_init_ftl].
  - apply Ssd.ssd_init_dies.
  - apply Ssd.ssd_init_timing_ok; rewrite ?zs_chbw0, ?zs_pciebw0; destruct Hcfg as [-> | ->]; cbn; lia.
  - rewrite zs_nchs0. destruct Hcfg as [-> | ->]; cbn; lia.
  - rewrite zs_luns0. destruct Hcfg as [-> | ->]; cbn; lia.
  - by rewrite zs_tt0, zs_nchs0, zs_luns0.
  - rewrite zs_tt0, Hd. destruct Hcfg as [-> | ->]; [by exists 128|by exists 1].
  - rewrite Hd. by destruct Hcfg as [-> | ->].
  - rewrite zs_fpp0. destruct Hcfg as [-> | ->]; vm_compute; split; discriminate.
  - rewrite zs_opp0. destruct Hcfg as [-> | ->]; vm_compute; split; discriminate.
  - rewrite zs_cell0. destruct Hcfg as [-> | ->]; vm_compute; split; discriminate.
  - rewrite zs_lat0. by destruct Hcfg as [-> | ->].
  - rewrite zs_lat5. by destruct Hcfg as [-> | ->].
  - rewrite zs_xfer0. destruct Hcfg as [-> | ->]; vm_compute; split; done.
Qed.

Lemma init_geometry cfg s p size cpu memory junk : zns_profile cfg -> zns_ssd_params cfg s -> zns_cap_ok cfg size ->
  zone_size p = ZONE_SIZE cfg -> nr_zones p = size / ZONE_SIZE cfg -> dies_per_zone p = DIES_PER_ZONE cfg ->
  zns_geometry (zns_init_ftl p (Ssd.ssd_init s cpu) memory junk).
Proof.
  intros Hcfg [] [Hs Hm] Hz Hn Hd. set (f := zns_init_ftl _ _ _ _).
  assert (spp f = s) as Ef by done. assert (zp f = p) as Ez by done.
  assert (lbas_per_zone f = ZONE_SIZE cfg / 512) as EL by (unfold lbas_per_zone; by rewrite Ef, Ez, Hz, zs_secsz0).
  split; rewrite ?EL, ?Ef, ?Ez, ?Hz, ?Hn; try done.
  - destruct Hcfg as [-> | ->]; vm_compute; split; done.
  - destruct Hcfg as [-> | ->]; done.
  - destruct Hcfg as [-> | ->]; (apply Z.div_pos; [lia|done]).
  - destruct Hcfg as [-> | ->].
    + change (ZONE_SIZE ZNS_PROTOTYPE) with 33554432 in *. change (33554432 / 512) with 65536. Z.to_euclidean_division_equations. lia.
    + change (ZONE_SIZE WD_ZN540) with 2147483648 in *. change (2147483648 / 512) with 4194304. Z.to_euclidean_division_equations. lia.
  - unfold units_ok. rewrite EL. unfold pgs_per_zone. rewrite Ef, Ez, Hz, Hd, zs_pgsz0, zs_secs0, zs_nchs0, zs_tt0, zs_opp0, zs_fpp0, zs_unit0.
    by destruct Hcfg as [-> | ->].
Qed.

Lemma init_zones p s memory junk cpu :
  let f := zns_init_ftl p (Ssd.ssd_init s cpu) memory junk in
  zns_geometry f -> abs f = replicate (Z.to_nat (nr_zones p)) (mk_azone ZONE_STATE_EMPTY 0 false) /\
  zlen (zone_descs f) = nr_zones p /\
  forall i z, zget (zone_descs f) i = Some z -> zone_wf (lbas_per_zone f) i z /\ abs_zone z = mk_azone ZONE_STATE_EMPTY 0 false.
Proof.
  intros f G. pose proof (zg_zones f G) as H0. change (nr_zones (zp f)) with (nr_zones p) in H0.
  assert (zlen (zone_descs f) = nr_zones p) as Hlen by (cbn; rewrite length_fmap; unfold zseq; rewrite length_seqZ; lia).
  assert (forall i, 0 <= i < nr_zones p -> init_zone (zone_size p) i = conc_zone (lbas_per_zone f) i (mk_azone ZONE_STATE_EMPTY 0 false)) as Hi.
  { intros i Hr. pose proof (zone_fits f G i) as Hf. change (nr_zones (zp f)) with (nr_zones p) in Hf. specialize (Hf ltac:(lia)).
    pose proof (capacity_eq f G) as Hc. change (zone_size (zp f)) with (zone_size p) in Hc.
    unfold init_zone, conc_zone. rewrite Hc. cbn [az_state az_wp az_zrwa]. rewrite u64_id by lia. f_equal; lia. }
  split; [|split; [done|]].
  - unfold abs. cbn [zone_descs f zns_init_ftl]. rewrite <- list_fmap_compose.
    replace (Z.to_nat (nr_zones p)) with (Datatypes.length (zseq (nr_zones p))) by (unfold zseq; rewrite length_seqZ; done).
    assert (forall i, i ∈ zseq (nr_zones p) -> 0 <= i < nr_zones p) as Hin by (by intros i ?%Ssd.elem_of_zseq).
    revert Hin. induction (zseq (nr_zones p)) as [|i l IH]; intros Hin; [done|]. cbn. f_equal.
    + rewrite (Hi i) by (apply Hin; left). apply abs_conc.
    + apply IH. intros j Hj. apply Hin. by right.
  - intros i z Hz. pose proof (zget_range _ _ _ Hz) as Hr. rewrite Hlen in Hr.
    cbn [zone_descs f zns_init_ftl] in Hz. rewrite init_zone_at in Hz by lia. injection Hz as <-. rewrite Hi by done.
    split; [|apply abs_conc]. pose proof (lpz_pos f G). apply conc_wf; cbn; try done; lia.
Qed.

Lemma init_bufs_wf n sz : 0 <= n -> buffers_wf n sz (init_bufs n sz).
Proof.
  intros Hn. unfold buffers_wf, init_bufs. destruct (sz =? 0); [done|]. eexists. split; [done|].
  rewrite length_replicate. split; [lia|]. apply Forall_replicate. done.
Qed.

Lemma zns_init_spec cfg spp0 memory junk id size cpu :
  zns_profile cfg -> zns_cap_ok cfg size ->
  exists n, zns_init_namespace cfg spp0 memory junk id size cpu = Ok n /\ fresh_zns cfg size n.
Proof.
  intros Hcfg Hcap. destruct (zns_params_ok cfg spp0 size Hcfg) as (s & Es & Ps).
  destruct (zns_zparams_ok cfg s size Hcfg Ps Hcap) as (p & Ep & Hz & Hn & Hd & Hw & Hb & Hr1 & Hr2).
  unfold zns_init_namespace. rewrite Es. cbn [rbind]. rewrite Ep. cbn [rbind]. eexists. split; [reflexivity|].
  set (f := zns_init_ftl p (Ssd.ssd_init s cpu) memory junk).
  pose proof (init_geometry cfg s p size cpu memory junk Hcfg Ps Hcap Hz Hn Hd) as G.
  destruct (init_zones p s memory junk cpu G) as (Habs & Hlen & Hzones). fold f in G, Habs, Hlen, Hzones.
  assert (forall h, (forall z, abs_zone z = mk_azone ZONE_STATE_EMPTY 0 false -> h z = false) -> zcount h (zone_descs f) = 0) as Hcount.
  { intros h Hh. apply zcount_none. intros z (i & Hi)%list_elem_of_lookup. apply Hh.
    apply (Hzones (Z.of_nat i)). unfold zget. destruct (Z.ltb_spec (Z.of_nat i) 0); [lia|]. by rewrite Nat2Z.id. }
  assert (zns_inv f) as I.
  { pose proof (zg_zones f G) as H0. split.
    - exact G.
    - by apply (zns_init_media cfg).
    - exact Hlen.
    - intros i z Hi. by apply (Hzones i z).
    - by intros [].
    - symmetry. apply Hcount. unfold abs_zone, zone_is_open. intros z [= -> _ _]. done.
    - symmetry. apply Hcount. unfold abs_zone, zone_is_active. intros z [= -> _ _]. done.
    - rewrite Hcount; [split; [apply Z.le_refl|exact H0]|]. unfold abs_zone, zone_holds_zrwa, zone_is_active. intros z [= -> _ _]. done.
    - by apply init_bufs_wf.
    - by apply init_bufs_wf. }
  split.
  - exact I.
  - reflexivity.
  - reflexivity.
  - exact Hz.
  - exact Hn.
  - rewrite <- Hn. exact Habs.
  - reflexivity.
  - unfold wb_size. cbn [zns_part]. change (zp _) with p. rewrite Hw. destruct (ZONE_WB_SIZE cfg =? 0); [apply (zs_wb _ _ Ps)|reflexivity].
  - exact Hw.
  - apply (zs_unit _ _ Ps).
  - intros E0. unfold wb_size. rewrite E0. reflexivity.
  - reflexivity.
  - reflexivity.
  - split; assumption.
Qed.

(** ** Reads *)
Definition crosses_zone (f : zns_ftl) (c : nvme_rw_command) : bool :=
  negb (slba c mod lbas_per_zone f + nr_blocks c <=? lbas_per_zone f).

Lemma io_frame_inv f f' o : zns_inv f -> io_frame f f' o -> zns_inv f'.
Proof.
  intros I F. apply (inv_same f); try apply F; try done.
  - rewrite (if_wb _ _ _ F). apply (zi_wb f I).
  - rewrite (if_zb _ _ _ F). apply (zi_zb f I).
Qed.

Lemma same_zone_eq f c : zns_inv f -> lba_ok f c ->
  __check_boundary_error f (slba c) (nr_blocks c) = negb (crosses_zone f c).
Proof.
  intros I Hc. destruct (slba_split f c I) as [E Hr]. rewrite E at 1. rewrite (boundary_eq f c I Hc) by lia.
  unfold crosses_zone. rewrite negb_involutive. destruct (nr_lba_eq f c Hc) as [_ Hn].
  rewrite (Z.div_small (slba c mod _)) by lia.
  destruct (Z.leb_spec (slba c mod lbas_per_zone f + nr_blocks c) (lbas_per_zone f)).
  - rewrite Z.div_small by lia. done.
  - apply Z.eqb_neq. assert (1 <= (slba c mod lbas_per_zone f + nr_blocks c - 1) / lbas_per_zone f); [|lia].
    apply Z.div_le_lower_bound; lia.
Qed.

Lemma zns_read_spec f rq rt clk t :
  zns_inv f -> lba_ok f (cmd rq) ->
  exists tgt t' f', zns_read rq rt clk t f = Ok (mk_response true
      (mk_result (if crosses_zone f (cmd rq) then NVME_SC_ZNS_ERR_BOUNDARY else NVME_SC_SUCCESS) tgt) (slba (cmd rq)) [], t', f') /\
    io_frame f f' [] /\ zns_inv f' /\
    u64 (nsecs_start rq + (if nr_blocks (cmd rq) * 512 <=? 4096 then fw_4kb_rd_lat (spp f) else fw_rd_lat (spp f))) <= tgt.
Proof.
  intros I Hc. destruct (nr_lba_eq f _ Hc) as [En Hn]. pose proof (wk_slba f _ Hc) as Hs. pose proof (zone_num_range f _ I Hc) as Hz.
  assert (slba (cmd rq) < 2 ^ 32) as Hs2 by (pose proof (zg_total f (zi_geo f I)); lia).
  unfold zns_read. rewrite run_guard by apply (zg_units f (zi_geo f I)). rewrite run_get. cbv zeta. rewrite En.
  rewrite (zone_of_lba_page f (zi_geo f I)), (zone_num_lba f _ I Hc).
  destruct (zget_Some (zone_descs f) (zone_num f (cmd rq))) as (z & Ez); [by rewrite (zi_len f I)|].
  rewrite (run_lift _ _ _ _ _ _ (zone_at_ok _ _ _ Ez)).
  rewrite decide_False by apply (zw_off _ _ _ (zi_zone f I _ _ Ez)). rewrite (same_zone_eq f _ I Hc), negb_involutive.
  rewrite (u64_id (slba (cmd rq) + nr_blocks (cmd rq) - 1)) by lia.
  replace (LBA_TO_BYTE (nr_blocks (cmd rq))) with (nr_blocks (cmd rq) * 512)
    by (unfold LBA_TO_BYTE, LBA_BITS; rewrite Z.shiftl_mul_pow2 by lia; done).
  set (t0 := u64 (nsecs_start rq + _)). unfold lba_to_lpn. rewrite (zg_secs f (zi_geo f I)).
  set (slpn := slba (cmd rq) / 8). set (elpn := (slba (cmd rq) + nr_blocks (cmd rq) - 1) / 8).
  assert (0 <= slpn /\ elpn < 2 ^ 62 /\ slpn <= elpn) as (H1 & H2 & H3).
  { unfold slpn, elpn. Z.to_euclidean_division_equations. lia. }
  destruct (read_pgs_spec (S (Z.to_nat (elpn - slpn))) f t0 slpn elpn t0 clk t (zi_media f I) (zg_pgsz f (zi_geo f I)) H1 H2 ltac:(lia))
    as (z1 & t1 & f1 & E1 & F1 & L1).
  rewrite (run_bind _ _ _ _ _ _ _ _ E1).
  destruct (zoom_pcie f1 z1 (u64 (nr_blocks (cmd rq) * secsz (spp f))) clk t1 (if_media _ _ _ F1)) as (z2 & t2 & f2 & E2 & F2).
  rewrite (run_bind _ _ _ _ _ _ _ _ E2). unfold ret. pose proof (io_frame_trans _ _ _ _ _ F1 F2) as F.
  exists (Z.max z2 z1), t2, f2. split; [done|]. split; [exact F|]. split; [by eapply io_frame_inv|]. change (KB 4) with 4096 in *. lia.
Qed.

(** ** Reports *)
Definition report_bytes (c : nvme_zone_mgmt_recv) : Z := u32 (nr_dw c + 1) * 4.
Definition report_start (f : zns_ftl) (c : nvme_zone_mgmt_recv) : Z := lba_to_zone f (mr_slba c).
(** A partial report holds what fits after its header; below one descriptor's worth of
    bytes the subtraction wraps and all zones count. *)
Definition report_count (f : zns_ftl) (c : nvme_zone_mgmt_recv) : Z :=
  let left := nr_zones (zp f) - report_start f c in
  if zra_specific_features c && (64 <=? report_bytes c) then Z.min left (report_bytes c / 64 - 1) else left.

(** A supported report stops the module when its bytes need a third page that no PRP list
    names, or when they are more than the report has. *)
Definition recv_fault (f : zns_ftl) (c : nvme_zone_mgmt_recv) : option fault :=
  if negb (__check_zmgmt_rcv_option_supported f c) then None
  else if prp_short (mr_prp1 c) (mr_prp2 c) (report_bytes c) then Some NullDeref
  else if 128 + 64 * nr_zones (zp f) <? report_bytes c then Some OutOfBounds
  else None.

Lemma report_count_eq f c : zns_inv f -> report_start f c < nr_zones (zp f) -> nr_zone_to_report f c = report_count f c.
Proof.
  intros I Hs. pose proof (nr_zones_range f I). unfold nr_zone_to_report, report_count. fold (report_start f c).
  unfold report_start in *. pose proof (u32_range (mr_slba c / lbas_per_zone f)). fold (lba_to_zone f (mr_slba c)) in *.
  set (st := lba_to_zone f (mr_slba c)) in *. fold (report_bytes c). unfold SIZEOF_ZONE_DESCRIPTOR.
  pose proof (u32_range (nr_dw c + 1)) as Hb. fold (report_bytes c) in *.
  assert (0 <= report_bytes c < 2 ^ 34) as Hb2 by (unfold report_bytes; lia).
  rewrite (u64_id (nr_zones (zp f) - st)) by lia.
  destruct (zra_specific_features c); cbn [andb]; [|by rewrite Z.ltb_irrefl].
  destruct (Z.leb_spec 64 (report_bytes c)) as [Hl|Hl].
  - assert (1 <= report_bytes c / 64) by (apply Z.div_le_lower_bound; lia).
    assert (report_bytes c / 64 <= report_bytes c) by (apply Z.div_le_upper_bound; lia). rewrite u64_id by lia.
    destruct (Z.ltb_spec (nr_zones (zp f) - st) (report_bytes c / 64 - 1)); lia.
  - rewrite Z.div_small by lia. change (u64 (0 - 1)) with (2 ^ 64 - 1).
    replace (nr_zones (zp f) - st <? 2 ^ 64 - 1) with true by lia. done.
Qed.

Lemma report_frame f x : zns_inv f -> zns_inv (set_report f x).
Proof. intros I. apply (inv_same f); try done; [by apply (media_same f), (zi_media f I)|apply (zi_wb f I)|apply (zi_zb f I)]. Qed.

Lemma zns_zmgmt_recv_spec f host c t :
  zns_inv f ->
  match recv_fault f c with
  | Some e => zns_zmgmt_recv host c t f = Err e
  | None => exists st ps f', zns_zmgmt_recv host c t f = Ok (mk_result st t, ps, f') /\ zns_inv f' /\
      if __check_zmgmt_rcv_option_supported f c then
        st = NVME_SC_SUCCESS /\ covers 0 (report_bytes c) ps /\
        (forall i p, ps !! i = Some p -> pc_paddr p = prp_page (mr_prp1 c) (mr_prp2 c) (host (mr_prp2 c)) (report_bytes c) i) /\
        f' = set_report f (mk_report (report_count f c)
          (take (Z.to_nat (report_count f c)) (drop (Z.to_nat (report_start f c)) (zone_descs f)))) /\
        0 <= report_count f c <= nr_zones (zp f) - report_start f c
      else st = NVME_SC_INVALID_FIELD /\ ps = [] /\ f' = f
  end.
Proof.
  intros I. unfold recv_fault, zns_zmgmt_recv. rewrite (zg_units f (zi_geo f I)). cbn [negb].
  fold (report_bytes c).
  destruct (__check_zmgmt_rcv_option_supported f c) eqn:Es; cbn [negb]; [|exists NVME_SC_INVALID_FIELD, [], f; by split_and!].
  unfold __check_zmgmt_rcv_option_supported in Es. fold (report_start f c) in Es.
  assert (0 <= report_start f c < nr_zones (zp f)) as Hs by (pose proof (u32_range (mr_slba c / lbas_per_zone f)); unfold report_start, lba_to_zone in *; lia).
  assert (0 <= report_bytes c) as Hb by (unfold report_bytes; pose proof (u32_range (nr_dw c + 1)); lia).
  assert (0 <= report_count f c <= nr_zones (zp f) - report_start f c) as Hc.
  { unfold report_count. destruct (zra_specific_features c); cbn [andb]; [|lia]. destruct (Z.leb_spec 64 (report_bytes c)); [|lia].
    assert (1 <= report_bytes c / 64) by (apply Z.div_le_lower_bound; lia). lia. }
  unfold __fill_zone_report. rewrite (report_count_eq f c I) by lia. fold (report_start f c). rewrite (zi_len f I).
  replace (_ && _) with true by lia. cbn [rbind].
  pose proof (prp_pieces_spec (mr_prp1 c) (mr_prp2 c) (host (mr_prp2 c)) (report_bytes c) Hb) as Hw.
  unfold prp_short. cbv zeta in Hw |- *.
  match type of Hw with if ?b then _ else _ => destruct b end; [by rewrite Hw|]. destruct Hw as (ps & Hps & Hcov).
  rewrite Hps. cbn [rbind]. unfold SIZEOF_ZONE_REPORT, SIZEOF_ZONE_DESCRIPTOR.
  change (nr_zones (zp (set_report f _))) with (nr_zones (zp f)).
  destruct (Z.ltb_spec (128 + 64 * nr_zones (zp f)) (report_bytes c)) as [Hlen|Hlen].
  { by replace (report_bytes c <=? 128 + 64 * nr_zones (zp f)) with false by lia. }
  replace (report_bytes c <=? 128 + 64 * nr_zones (zp f)) with true by lia.
  eexists _, ps, _. split; [reflexivity|]. split; [by apply report_frame|]. split; [done|]. split; [done|]. split; [|by split].
  by apply prp_pieces_pages.
Qed.

(** ** The abstract namespace *)
Definition is_write (c : nvme_rw_command) : bool := (opcode c =? nvme_cmd_write) || (opcode c =? nvme_cmd_zone_append).

(** [host_step sz unit A c done st A']: the command [c] on zones [A] may be answered with
    [st] (or put off, [done = false]) leaving [A']. *)
Inductive host_step (sz : zsizes) (unit : Z) (A : list azone) : zns_command -> bool -> Z -> list azone -> Prop :=
| hs_put_off c st : is_write c = true -> host_step sz unit A (ZNS_RW c) false st A
| hs_written c a a' : is_write c = true -> zget A (slba c / zs_zone sz) = Some a ->
    write_next sz unit (if is_append c then az_wp a else slba c mod zs_zone sz) (nr_blocks c) a = inr a' ->
    host_step sz unit A (ZNS_RW c) true NVME_SC_SUCCESS (zset A (slba c / zs_zone sz) a')
| hs_rejected c a st : is_write c = true -> zget A (slba c / zs_zone sz) = Some a ->
    write_next sz unit (if is_append c then az_wp a else slba c mod zs_zone sz) (nr_blocks c) a = inl st ->
    host_step sz unit A (ZNS_RW c) true st A
| hs_read c : opcode c = nvme_cmd_read ->
    host_step sz unit A (ZNS_RW c) true
      (if slba c mod zs_zone sz + nr_blocks c <=? zs_zone sz then NVME_SC_SUCCESS else NVME_SC_ZNS_ERR_BOUNDARY) A
| hs_flush c : opcode c = nvme_cmd_flush -> host_step sz unit A (ZNS_RW c) true NVME_SC_SUCCESS A
| hs_unknown c st : is_write c = false -> opcode c <> nvme_cmd_read -> opcode c <> nvme_cmd_flush ->
    host_step sz unit A (ZNS_RW c) true st A
| hs_send c st A' : send_step sz c A st A' -> host_step sz unit A (ZNS_MGMT_SEND c) true st A'
| hs_recv c st : st = NVME_SC_SUCCESS \/ st = NVME_SC_INVALID_FIELD -> host_step sz unit A (ZNS_MGMT_RECV c) true st A.

(** A zone action there is, on an LBA of the namespace, that opens no ZRWA. *)
Record plain_send (f : zns_ftl) (c : nvme_zone_mgmt_send) : Prop := {
  pl_act : is_Some (send_action (zsa c) (zsaso c) 0);
  pl_slba : select_all c = false -> 0 <= ms_slba c < nr_zones (zp f) * lbas_per_zone f;
  pl_open : zsa c = ZSA_OPEN_ZONE -> zsaso c = false;
}.

(** Commands of a host that keeps to the namespace, uses the zone actions there are and
    does not attach a ZRWA. *)
Definition command_ok (f : zns_ftl) (c : zns_command) : Prop :=
  match c with
  | ZNS_RW c => lba_ok f c
  | ZNS_MGMT_SEND c => plain_send f c
  | ZNS_MGMT_RECV _ => True
  end.

(** What still stops the module: a write larger than the whole write buffer, and the
    reports of [recv_fault]. *)
Definition command_fault (f : zns_ftl) (c : zns_command) : option fault :=
  match c with
  | ZNS_RW c => if is_write c && (wb_size f <? nr_blocks c * 512) then Some BugOn else None
  | ZNS_MGMT_SEND _ => None
  | ZNS_MGMT_RECV c => recv_fault f c
  end.

Definition no_zrwa (A : list azone) : Prop := Forall (fun a => az_zrwa a = false) A.

(** What stays the same for good. *)
Record same_static (f f' : zns_ftl) : Prop := {
  ss_zp : zp f' = zp f;
  ss_sp : Ssd.sp (ssd f') = Ssd.sp (ssd f);
  ss_wb : wb_size f' = wb_size f;
}.

Lemma static_refl f : same_static f f.
Proof. by split. Qed.
Lemma static_trans f1 f2 f3 : same_static f1 f2 -> same_static f2 f3 -> same_static f1 f3.
Proof. intros [] []. split; congruence. Qed.

Lemma static_sizes f f' : same_static f f' -> lbas_per_zone f' = lbas_per_zone f /\ sizes_of f' = sizes_of f /\ spp f' = spp f.
Proof. intros [E1 E2 _]. unfold sizes_of, lbas_per_zone, spp. by rewrite E1, E2. Qed.

Lemma write_ok_static f f' c : same_static f f' -> write_ok f c -> write_ok f' c.
Proof.
  intros S [[H1 H2] H3 H4]. destruct (static_sizes f f' S) as (EL & _ & _). destruct S as [E1 E2 E3].
  split; [by split; rewrite ?E1, ?EL|by rewrite E3|by rewrite E3].
Qed.

Lemma command_ok_static f f' c : same_static f f' -> command_ok f c -> command_ok f' c.
Proof.
  intros S. destruct (static_sizes f f' S) as (EL & _ & _). destruct S as [E1 E2 E3]. destruct c as [c|c|c]; cbn; [..|done].
  - intros [H1 H2]. by split; rewrite ?E1, ?EL.
  - intros [H1 H2 H3]. split; [done|by rewrite E1, EL|done].
Qed.

Lemma command_fault_static f f' c : same_static f f' -> command_fault f' c = command_fault f c.
Proof.
  intros S. destruct (static_sizes f f' S) as (EL & _ & _). destruct S as [E1 E2 E3]. destruct c as [c|c|c]; cbn; [by rewrite E3|done|].
  unfold recv_fault, __check_zmgmt_rcv_option_supported, lba_to_zone. by rewrite E1, EL.
Qed.

(** *** Random write areas do not appear by themselves *)
Lemma forall_zset {A} (P : A -> Prop) l i x : Forall P l -> P x -> Forall P (zset l i x).
Proof. intros Hl Hx. unfold zset. destruct (i <? 0); [done|]. by apply Forall_insert. Qed.

Lemma forall_zget {A} (P : A -> Prop) l i x : Forall P l -> zget l i = Some x -> P x.
Proof. intros Hl Hx. unfold zget in Hx. destruct (i <? 0); [done|]. by apply (Forall_lookup_1 _ _ _ _ Hl Hx). Qed.

Lemma no_zrwa_zones f : no_zrwa (abs f) -> forall i z, zget (zone_descs f) i = Some z -> zrwav z = false.
Proof. intros H i z Hz. apply (forall_zget _ (abs f) i (abs_zone z) H). by rewrite zget_abs, Hz. Qed.

Lemma zone_next_zrwa sz act a a' : zone_next sz act a = inr a' -> act <> ACT_OPEN true -> az_zrwa a = false -> az_zrwa a' = false.
Proof.
  intros H Ha Hz. unfold zone_next in H. destruct act as [| |[]| | |off]; try done;
    try (destruct (az_state a); try done; injection H as <-; done).
  rewrite Hz in H. done.
Qed.

Lemma mgmt_step_zrwa sz A act zid st A' : mgmt_step sz A act zid st A' -> act <> ACT_OPEN true -> no_zrwa A -> no_zrwa A'.
Proof.
  intros H Ha HA. destruct H as [A act zid a a' Hg Hn| |]; [|done|done].
  apply forall_zset; [done|]. eapply zone_next_zrwa; [done..|]. by apply (forall_zget _ _ _ _ HA Hg).
Qed.

Lemma send_step_zrwa sz c A st A' : send_step sz c A st A' -> (zsa c = ZSA_OPEN_ZONE -> zsaso c = false) -> no_zrwa A -> no_zrwa A'.
Proof.
  intros H Ho. assert (forall off act, send_action (zsa c) (zsaso c) off = Some act -> act <> ACT_OPEN true) as Hact.
  { intros off act E ->. unfold send_action in E. repeat case_match; try done. injection E as E. rewrite Ho in E by lia. done. }
  unfold send_step in H. destruct (select_all c).
  - destruct H as (act & Ha & _ & H). specialize (Hact _ _ Ha). induction H as [|zid zids A0 st0 A1 A2 H1 _ IH]; [done|].
    intros HA. apply IH. by eapply mgmt_step_zrwa.
  - destruct H as (act & Ha & H). specialize (Hact _ _ Ha). by eapply mgmt_step_zrwa.
Qed.

Lemma write_next_zrwa sz unit off n a a' : write_next sz unit off n a = inr a' -> az_zrwa a' = az_zrwa a.
Proof. unfold write_next. intros H. repeat case_match; try done; by injection H as <-. Qed.

(** ** One command *)
Record zns_ready (f : zns_ftl) : Prop := { rd_inv : zns_inv f; rd_zrwa : no_zrwa (abs f); rd_wb : wb_size f < 2 ^ 32 }.

Lemma ready_same f f' : zns_ready f -> zns_inv f' -> zone_descs f' = zone_descs f -> wb_size f' = wb_size f ->
  zns_ready f' /\ abs f' = abs f.
Proof.
  intros [_ Hz Hb] I E Ew. assert (abs f' = abs f) as Ea by (unfold abs; by rewrite E). split; [|done].
  split; [done|by rewrite Ea|by rewrite Ew].
Qed.

Definition host_sees (f f' : zns_ftl) (c : zns_command) (r : zns_response) : Prop :=
  zns_ready f' /\ same_static f f' /\
  host_step (sizes_of f) (write_unit_size (spp f)) (abs f) c (rs_done r) (status (rs_result r)) (abs f').

Lemma write_sees f rq rt clk t :
  zns_ready f -> lba_ok f (cmd rq) -> is_write (cmd rq) = true ->
  if wb_size f <? nr_blocks (cmd rq) * 512 then zns_write rq rt clk t f = Err BugOn
  else exists r t' f', zns_write rq rt clk t f = Ok (r, t', f') /\ host_sees f f' (ZNS_RW (cmd rq)) r.
Proof.
  intros [I HA Hwb] Hl Hw. pose proof (zone_num_range f _ I Hl) as Hz.
  destruct (zget_Some (zone_descs f) (zone_num f (cmd rq))) as (z & Ez); [by rewrite (zi_len f I)|].
  assert (zget (abs f) (zone_num f (cmd rq)) = Some (abs_zone z)) as Ea by (by rewrite zget_abs, Ez).
  pose proof (forall_zget _ _ _ _ HA Ea) as Hr. cbn in Hr.
  destruct (Z.ltb_spec (wb_size f) (nr_blocks (cmd rq) * 512)); [by eapply zns_write_oversized|].
  assert (write_ok f (cmd rq)) as Hc by by split.
  destruct (zns_write_spec f rq rt z clk t I Hc Ez Hr) as (r & t' & f' & E & x & Hx & H').
  exists r, t', f'. split; [exact E|]. cbv zeta in H'. destruct (Ssd.remaining x <? nr_blocks (cmd rq) * 512).
  { destruct H' as [-> ->]. split; [by split|]. split; [apply static_refl|]. by apply hs_put_off. }
  destruct (write_next _ _ _ _ _) as [st|a'] eqn:En.
  - destruct H' as [-> ->]. set (y := Ssd.mk_buffer (Ssd.size x) (Ssd.remaining x - nr_blocks (cmd rq) * 512)).
    pose proof (put_buf_frame f _ x y I Hx eq_refl) as B.
    destruct (ready_same f _ (Build_zns_ready f I HA Hwb) (bf_inv _ _ B) (bf_descs _ _ B) (bf_wb _ _ B)) as [R Eabs].
    split; [exact R|]. split; [split; apply B|]. rewrite Eabs. cbn [rs_done rs_result write_out status]. by eapply hs_rejected.
  - destruct H' as [D1 D2 D3 D4 _ D6 _ (out & xfer & latest & _ & _ & _ & ->)].
    assert (abs f' = zset (abs f) (zone_num f (cmd rq)) a') as Eabs by (unfold abs; by rewrite D2, zset_fmap, abs_conc).
    split.
    + split; [done| |by rewrite D6]. rewrite Eabs. apply forall_zset; [done|]. by rewrite (write_next_zrwa _ _ _ _ _ _ En).
    + split; [by split|]. rewrite Eabs. cbn [rs_done rs_result write_out status]. by eapply hs_written.
Qed.

Lemma io_frame_sees f f' : zns_ready f -> io_frame f f' [] -> zns_ready f' /\ same_static f f' /\ abs f' = abs f.
Proof.
  intros R F. assert (wb_size f' = wb_size f) as Ew by (unfold wb_size; by rewrite (if_zp _ _ _ F), (if_wbuf _ _ _ F)).
  destruct (ready_same f f' R (io_frame_inv _ _ _ (rd_inv f R) F) (if_descs _ _ _ F) Ew) as [R' Ea].
  split; [done|]. split; [|done]. split; [apply F|apply F|exact Ew].
Qed.

Lemma zns_flush_run f rq clk t : zns_inv f -> exists z, zns_flush rq clk t f = Ok (mk_result NVME_SC_SUCCESS z, S (S t), f).
Proof.
  intros I. pose proof (zi_media f I) as HM. unfold zns_flush. rewrite run_clock.
  destruct (Ssd.ssd_next_idle_time_spec (ssd f) clk (S t) (zm_dies f HM)) as (z & E & _); [pose proof (zm_luns f HM); unfold spp in *; lia|].
  exists (Z.max (clk LOCAL_CLOCK t) z). unfold zoom_zssd, bind, zoom. rewrite E. unfold ret. do 2 f_equal. by destruct f.
Qed.

(** A run that stops with [e] when there is a fault, and otherwise does what the host sees. *)
Definition sees_or (o : option fault) (f : zns_ftl) (c : zns_command) (m : res (zns_response * nat * zns_ftl)) : Prop :=
  match o with
  | Some e => m = Err e
  | None => exists r t' f', m = Ok (r, t', f') /\ host_sees f f' c r
  end.

Lemma rw_sees f c sqid nsecs rt clk t :
  zns_ready f -> lba_ok f c ->
  sees_or (command_fault f (ZNS_RW c)) f (ZNS_RW c)
    ((let rq := mk_req c sqid nsecs in
     if (opcode c =? nvme_cmd_write) || (opcode c =? nvme_cmd_zone_append) then zns_write rq rt
     else if opcode c =? nvme_cmd_read then zns_read rq rt
     else if opcode c =? nvme_cmd_flush then let* r := zns_flush rq in ret (plain r)
     else ret (plain rt)) clk t f).
Proof.
  intros R Hl. cbv zeta. unfold sees_or, command_fault. fold (is_write c). destruct (is_write c) eqn:Ew; cbn [andb].
  { pose proof (write_sees f (mk_req c sqid nsecs) rt clk t R Hl Ew) as H. cbn [cmd] in H. by destruct (_ <? _). }
  destruct (Z.eqb_spec (opcode c) nvme_cmd_read) as [Er|Er].
  - destruct (zns_read_spec f (mk_req c sqid nsecs) rt clk t (rd_inv f R) Hl) as (tgt & t' & f' & E & F & _).
    eexists _, t', f'. split; [exact E|]. destruct (io_frame_sees f f' R F) as (R' & S & Ea).
    split; [done|]. split; [done|]. rewrite Ea. cbn [rs_done rs_result status cmd]. pose proof (hs_read (sizes_of f) (write_unit_size (spp f)) (abs f) c Er) as H.
    unfold crosses_zone. change (zs_zone (sizes_of f)) with (lbas_per_zone f) in H. by destruct (_ <=? _).
  - destruct (Z.eqb_spec (opcode c) nvme_cmd_flush) as [Ef|Ef].
    + destruct (zns_flush_run f (mk_req c sqid nsecs) clk t (rd_inv f R)) as (z & E). rewrite (run_bind _ _ _ _ _ _ _ _ E).
      eexists _, _, f. split; [reflexivity|]. split; [done|]. split; [apply static_refl|]. by apply hs_flush.
    + eexists _, t, f. split; [reflexivity|]. split; [done|]. split; [apply static_refl|]. by apply hs_unknown.
Qed.

Lemma send_sees f c nsecs :
  zns_ready f -> plain_send f c ->
  exists st f', zns_zmgmt_send c nsecs f = Ok (mk_result st nsecs, f') /\ host_sees f f' (ZNS_MGMT_SEND c) (plain (mk_result st nsecs)).
Proof.
  intros [I HA Hwb] [Hact Hslba Ho]. assert (send_ok f c) as Hc by (split; [done|done|intros _; right; by apply no_zrwa_zones]).
  destruct (zns_zmgmt_send_spec f c nsecs I Hc) as (st & f' & E & F & H).
  assert (wb_size f' = wb_size f) as Ew by (unfold wb_size; by rewrite (mf_zp _ _ F), (mf_ssd _ _ F)).
  exists st, f'. split; [exact E|]. split; [split; [apply F|by eapply send_step_zrwa|by rewrite Ew]|]. split; [|by apply hs_send].
  split; [apply F|by rewrite (mf_ssd _ _ F)|exact Ew].
Qed.

Lemma recv_sees f host c nsecs : zns_ready f ->
  match recv_fault f c with
  | Some e => zns_zmgmt_recv host c nsecs f = Err e
  | None => exists st ps f', zns_zmgmt_recv host c nsecs f = Ok (mk_result st nsecs, ps, f') /\
      host_sees f f' (ZNS_MGMT_RECV c) (mk_response true (mk_result st nsecs) 0 ps)
  end.
Proof.
  intros R. pose proof (zns_zmgmt_recv_spec f host c nsecs (rd_inv f R)) as H0. destruct (recv_fault f c); [done|].
  destruct H0 as (st & ps & f' & E & I' & H). exists st, ps, f'. split; [exact E|].
  assert (zone_descs f' = zone_descs f /\ same_static f f' /\ (st = NVME_SC_SUCCESS \/ st = NVME_SC_INVALID_FIELD)) as (Ed & S & Hst).
  { destruct (__check_zmgmt_rcv_option_supported f c); [destruct H as (-> & _ & _ & -> & _)|destruct H as (-> & _ & ->)]; (split; [done|split; [by split|auto]]). }
  destruct (ready_same f f' R I' Ed (ss_wb _ _ S)) as [R' Ea]. split; [done|]. split; [done|]. rewrite Ea. by apply hs_recv.
Qed.

Lemma zns_proc_spec n host c sqid nsecs rt clk t :
  zns_ready (zns_part n) -> zns_csi n = NVME_CSI_ZNS -> zns_nr_parts n = 1 -> command_ok (zns_part n) c ->
  match command_fault (zns_part n) c with
  | Some e => zns_proc_nvme_io_cmd host c sqid nsecs rt clk t n = Err e
  | None => exists r t' f', zns_proc_nvme_io_cmd host c sqid nsecs rt clk t n = Ok (r, t', set_part n f') /\
      host_sees (zns_part n) f' c r
  end.
Proof.
  intros R Hcsi Hparts Hc. unfold zns_proc_nvme_io_cmd. rewrite run_get, Hcsi, Hparts, !run_assert by done. unfold zoom.
  destruct c as [c|c|c].
  - pose proof (rw_sees (zns_part n) c sqid nsecs rt clk t R Hc) as H. unfold sees_or in H. cbv zeta in H.
    destruct (command_fault _ _); [by rewrite H|]. destruct H as (r & t' & f' & E & H). rewrite E. by exists r, t', f'.
  - destruct (send_sees (zns_part n) c nsecs R Hc) as (st & f' & E & H). cbn [command_fault].
    rewrite (run_update_get _ _ _ _ _ _ _ E). by eexists _, t, f'.
  - pose proof (recv_sees (zns_part n) host c nsecs R) as H. cbn [command_fault]. destruct (recv_fault _ _).
    + unfold bind, update_get. by rewrite H.
    + destruct H as (st & ps & f' & E & H). erewrite run_update_get by (rewrite E; reflexivity). by eexists _, t, f'.
Qed.

(** ** A session *)

(** What the dispatcher and the workers do to the namespace, in the order it happens. *)
Inductive zns_event : Type :=
| Submitted (c : zns_command) (sqid nsecs : Z)
| Completed (b : buf_id) (n : Z).     (* a worker runs the release of [n] bytes *)

Definition complete_op (b : buf_id) (n : Z) (f : zns_ftl) : res zns_ftl :=
  let! x := get_buf f b in Ok (put_buf f b (snd (Ssd.buffer_release x n))).

Fixpoint zns_serve (host : Z -> nat -> Z) (rt : nvmev_result) (es : list zns_event) : M zns_ns (list (zns_command * zns_response)) :=
  match es with
  | [] => ret []
  | Submitted c sqid nsecs :: es =>
      let* r := zns_proc_nvme_io_cmd host c sqid nsecs rt in
      let* rs := zns_serve host rt es in
      ret ((c, r) :: rs)
  | Completed b n :: es =>
      update (fun n0 => let! f := complete_op b n (zns_part n0) in Ok (set_part n0 f)) ;;
      zns_serve host rt es
  end.

(** The abstract machine along the answers. *)
Inductive host_run (sz : zsizes) (unit : Z) : list azone -> list (zns_command * zns_response) -> list azone -> Prop :=
| hr_nil A : host_run sz unit A [] A
| hr_cons A c r A' rs A'' : host_step sz unit A c (rs_done r) (status (rs_result r)) A' ->
    host_run sz unit A' rs A'' -> host_run sz unit A ((c, r) :: rs) A''.

Definition event_ok (f : zns_ftl) (e : zns_event) : Prop :=
  match e with
  | Submitted c _ _ => command_ok f c
  | Completed b _ => exists zid, 0 <= zid < nr_zones (zp f) /\ b = buf_of f zid
  end.

(** The first fault of a session, if it has one. *)
Fixpoint session_fault (f : zns_ftl) (es : list zns_event) : option fault :=
  match es with
  | [] => None
  | Submitted c _ _ :: es => match command_fault f c with Some e => Some e | None => session_fault f es end
  | Completed _ _ :: es => session_fault f es
  end.

Lemma event_ok_static f f' e : same_static f f' -> event_ok f e -> event_ok f' e.
Proof.
  intros S. destruct e as [c sqid nsecs|b n]; cbn; [by apply command_ok_static|].
  intros (zid & Hz & ->). exists zid. unfold buf_of. by rewrite (ss_zp _ _ S).
Qed.

Lemma session_fault_static f f' es : same_static f f' -> session_fault f' es = session_fault f es.
Proof. intros S. induction es as [|[c ? ?|? ?] es IH]; cbn; rewrite ?(command_fault_static f f' _ S), ?IH; done. Qed.

Lemma complete_sees f b n : zns_ready f -> event_ok f (Completed b n) ->
  exists f', complete_op b n f = Ok f' /\ zns_ready f' /\ same_static f f' /\ abs f' = abs f.
Proof.
  intros R (zid & Hz & ->). destruct (buf_of_get f zid (rd_inv f R) Hz) as (x & Hx & _).
  unfold complete_op. rewrite Hx. cbn [rbind]. eexists. split; [reflexivity|].
  pose proof (put_buf_frame f zid x (snd (Ssd.buffer_release x n)) (rd_inv f R) Hx eq_refl) as B.
  destruct (ready_same f _ R (bf_inv _ _ B) (bf_descs _ _ B) (bf_wb _ _ B)) as [R' Ea]. split; [done|]. split; [split; apply B|done].
Qed.

(** A session whose faults are known to be none runs to its end; otherwise it stops at the first. *)
Definition served_zns (A : list azone) (n : zns_ns) (m : res (list (zns_command * zns_response) * nat * zns_ns)) : Prop :=
  exists rs t' n', m = Ok (rs, t', n') /\
    zns_ready (zns_part n') /\ same_static (zns_part n) (zns_part n') /\
    host_run (sizes_of (zns_part n)) (write_unit_size (spp (zns_part n))) A rs (abs (zns_part n')).

Lemma zns_serve_spec host rt es : forall n clk t,
  zns_ready (zns_part n) -> zns_csi n = NVME_CSI_ZNS -> zns_nr_parts n = 1 -> Forall (event_ok (zns_part n)) es ->
  match session_fault (zns_part n) es with
  | Some e => zns_serve host rt es clk t n = Err e
  | None => served_zns (abs (zns_part n)) n (zns_serve host rt es clk t n)
  end.
Proof.
  induction es as [|e es IH]; intros n clk t R Hcsi Hp He.
  { exists [], t, n. split; [done|]. split; [done|]. split; [apply static_refl|constructor]. }
  apply Forall_cons_1 in He as [He Hes].
  assert (forall f' t1, zns_ready f' -> same_static (zns_part n) f' ->
    match session_fault (zns_part n) es with
    | Some e => zns_serve host rt es clk t1 (set_part n f') = Err e
    | None => served_zns (abs f') n (zns_serve host rt es clk t1 (set_part n f'))
    end) as Hrest.
  { intros f' t1 R' S. assert (Forall (event_ok (zns_part (set_part n f'))) es) as Hes'.
    { eapply Forall_impl; [|exact Hes]. intros e'. by apply event_ok_static. }
    pose proof (IH (set_part n f') clk t1 R' Hcsi Hp Hes') as H. cbn [zns_part set_part] in H.
    rewrite (session_fault_static _ _ _ S) in H. destruct (session_fault _ _); [done|].
    destruct H as (rs & t' & n' & E & Rn & Sn & Hn). cbn [zns_part set_part] in *. destruct (static_sizes _ _ S) as (_ & Esz & Esp).
    rewrite Esz, Esp in Hn. exists rs, t', n'. split; [done|]. split; [done|]. split; [by eapply static_trans|done]. }
  destruct e as [c sqid nsecs|b k]; cbn [zns_serve session_fault].
  - pose proof (zns_proc_spec n host c sqid nsecs rt clk t R Hcsi Hp He) as H. destruct (command_fault _ c) as [e|].
    { unfold bind. by rewrite H. }
    destruct H as (r & t1 & f1 & E1 & R1 & S1 & H1). pose proof (Hrest f1 t1 R1 S1) as H2. destruct (session_fault _ _) as [e|].
    + rewrite (run_bind _ _ _ _ _ _ _ _ E1). unfold bind. by rewrite H2.
    + destruct H2 as (rs & t' & n' & E & Rn & Sn & Hn). exists ((c, r) :: rs), t', n'.
      rewrite (run_bind _ _ _ _ _ _ _ _ E1), (run_bind _ _ _ _ _ _ _ _ E). split; [done|]. split; [done|]. split; [done|].
      by econstructor.
  - destruct (complete_sees (zns_part n) b k R He) as (f1 & E1 & R1 & S1 & Ea).
    assert (bind (update (fun n0 => let! f := complete_op b k (zns_part n0) in Ok (set_part n0 f)))
      (fun _ => zns_serve host rt es) clk t n = zns_serve host rt es clk t (set_part n f1)) as ->.
    { erewrite run_update; [reflexivity|]. by rewrite E1. }
    rewrite <- Ea. by apply Hrest.
Qed.

Lemma fresh_ready cfg size n : zns_profile cfg -> fresh_zns cfg size n -> zns_ready (zns_part n).
Proof.
  intros Hcfg F. split; [apply F|rewrite (fz_abs _ _ _ F); by apply Forall_replicate|].
  rewrite (fz_wb _ _ _ F). by destruct Hcfg as [-> | ->].
Qed.

Lemma fresh_zone cfg size n i : fresh_zns cfg size n -> 0 <= i < nr_zones (zp (zns_part n)) ->
  exists z, zget (zone_descs (zns_part n)) i = Some z /\ abs_zone z = mk_azone ZONE_STATE_EMPTY 0 false.
Proof.
  intros F Hi. destruct (zget_Some (zone_descs (zns_part n)) i) as (z & Hz); [by rewrite (zi_len _ (fz_inv _ _ _ F))|].
  exists z. split; [done|]. pose proof (zget_abs (zns_part n) i) as Ha. rewrite Hz, (fz_abs _ _ _ F) in Ha.
  rewrite (fz_zones _ _ _ F) in Hi. rewrite (Ssd.zget_replicate_in _ _ _ Hi) in Ha. injection Ha as H1 H2 H3. unfold abs_zone. congruence.
Qed.

Lemma fresh_buf cfg size n i : fresh_zns cfg size n -> 0 <= i < nr_zones (zp (zns_part n)) ->
  get_buf (zns_part n) (buf_of (zns_part n) i) = Ok (Ssd.buffer_init (wb_size (zns_part n))).
Proof.
  intros F Hi. pose proof (fz_gwb _ _ _ F) as Hg. pose proof (fz_zwb _ _ _ F) as Hz. unfold buf_of, wb_size in *.
  destruct (Z.eqb_spec (zone_wb_size (zp (zns_part n))) 0) as [E|E]; cbn [get_buf]; [by rewrite (Hg E)|].
  rewrite Hz. unfold init_bufs. destruct (Z.eqb_spec (zone_wb_size (zp (zns_part n))) 0); [done|]. cbn [buf_at of_opt rbind].
  apply aget_ok. by apply Ssd.zget_replicate_in.
Qed.
