(* ===== verification/ZnsTheorems.v ===== *)
(** * What the zoned FTL guarantees, and where it does not

    The theorems of the zoned namespace: sessions refine the abstract zone machine,
    each command's effect, construction and reports; then what a host can break: the
    division by zero behind a ZRWA the device does not have, and the buffer space a
    refused write never gives back. *)

From Stdlib Require Import ZArith Lia.
From stdpp Require Import base list numbers.
From S2P Require Import Prelude Config SsdParams Nvme Prp ZnsFtl ZnsInv ZnsMgmt ZnsIo ZnsWrite ZnsNs.
From S2P Require Ssd.

(** ** A device for concrete runs: two zones on the ZN540 profile *)
Definition blank_memory : Z -> Z := fun _ => 7.
Definition blank_report : zone_report := mk_report 0 [].
Definition slow_clock : clock := fun _ t => Z.of_nat t * 100000.

Lemma zn540_fresh : exists n, zns_init_namespace WD_ZN540 small_params blank_memory blank_report 0 (GB 4) 0 = Ok n /\
  fresh_zns WD_ZN540 (GB 4) n /\ lbas_per_zone (zns_part n) = 4194304 /\ nr_zones (zp (zns_part n)) = 2.
Proof.
  destruct (zns_init_spec WD_ZN540 small_params blank_memory blank_report 0 (GB 4) 0) as (n & E & F);
    [by right|split; [split; vm_compute; done|reflexivity]|].
  exists n. split; [exact E|]. split; [exact F|]. pose proof (zi_geo _ (fz_inv _ _ _ F)) as G. split.
  - unfold lbas_per_zone. rewrite (fz_zone _ _ _ F), (zg_secsz _ G). reflexivity.
  - rewrite (fz_zones _ _ _ F). reflexivity.
Qed.

Definition rw (op slba len : Z) : nvme_rw_command := mk_rw op slba len 0.

(** ** Sessions *)

(** C9: a zoned namespace built from a shipped profile on a capacity that is a whole number of
    zones below 2 TiB, serving any session of reads, writes, appends, flushes, zone
    management and reports interleaved with releases of the namespace's buffers, from a host
    whose reads, writes, flushes and zone actions name an LBA of the namespace, whose zone
    actions exist and that attaches no ZRWA.  If the session has no faulting command ([session_fault]), no command
    faults or loops, the invariant holds at the end, and the answers and the final zones
    are those of a run of the abstract zone machine from all zones empty.  The
    faulting commands are the writes larger than the whole write buffer (the assertion
    of [buffer_allocate]) and the supported reports whose bytes need a third page that no
    PRP list names or are more than the report has; a session with one stops at the
    first of them with that fault. *)
Theorem zns_session_refines cfg spp0 memory junk id size cpu host rt es clk t :
  zns_profile cfg -> zns_cap_ok cfg size ->
  exists n, zns_init_namespace cfg spp0 memory junk id size cpu = Ok n /\
    (Forall (event_ok (zns_part n)) es ->
      match session_fault (zns_part n) es with
      | Some e => zns_serve host rt es clk t n = Err e
      | None => exists rs t' n', zns_serve host rt es clk t n = Ok (rs, t', n') /\ zns_inv (zns_part n') /\
          host_run (sizes_of (zns_part n)) (WRITE_UNIT_SIZE cfg)
            (replicate (Z.to_nat (size / ZONE_SIZE cfg)) (mk_azone ZONE_STATE_EMPTY 0 false)) rs (abs (zns_part n'))
      end).
Proof.
  intros Hcfg Hcap. destruct (zns_init_spec cfg spp0 memory junk id size cpu Hcfg Hcap) as (n & E & F).
  exists n. split; [exact E|]. intros He.
  pose proof (zns_serve_spec host rt es n clk t (fresh_ready _ _ _ Hcfg F) (fz_csi _ _ _ F) (fz_parts _ _ _ F) He) as H0.
  destruct (session_fault _ _); [exact H0|]. destruct H0 as (rs & t' & n' & Es & R & _ & H).
  exists rs, t', n'. split; [exact Es|]. split; [apply R|]. by rewrite (fz_abs _ _ _ F), (fz_unit _ _ _ F) in H.
Qed.

Definition demo_events : list zns_event :=
  [Submitted (ZNS_RW (rw nvme_cmd_write 0 7)) 1 1000; Completed (BUF_ZONE 0) 4096;
   Submitted (ZNS_RW (rw nvme_cmd_read 0 7)) 1 2000;
   Submitted (ZNS_MGMT_SEND (mk_mgmt_send 0 ZSA_RESET_ZONE true false)) 1 3000].

Lemma zns_session_refines_witness :
  exists n rs t' n', zns_init_namespace WD_ZN540 small_params blank_memory blank_report 0 (GB 4) 0 = Ok n /\
    zns_serve (fun _ _ => 0) (mk_result 0 0) demo_events slow_clock 0%nat n = Ok (rs, t', n') /\ zns_inv (zns_part n').
Proof.
  destruct (zns_session_refines WD_ZN540 small_params blank_memory blank_report 0 (GB 4) 0 (fun _ _ => 0) (mk_result 0 0)
    demo_events slow_clock 0%nat) as (n & E & H); [by right|split; [split; vm_compute; done|reflexivity]|].
  destruct zn540_fresh as (n0 & E0 & F & HL & HN). rewrite E in E0. injection E0 as <-.
  assert (forall op, lba_ok (zns_part n) (rw op 0 7)) as Hl by (intros op; split; rewrite ?HN, ?HL; cbn; lia).
  assert (wb_size (zns_part n) = 983040) as Hwb by (rewrite (fz_wb _ _ _ F); reflexivity).
  assert (session_fault (zns_part n) demo_events = None) as Hnf.
  { cbn [session_fault demo_events command_fault]. rewrite Hwb. reflexivity. }
  rewrite Hnf in H. destruct H as (rs & t' & n' & Es & I & _); [|exists n, rs, t', n'; split; [exact E|split; [exact Es|exact I]]].
  constructor; [|constructor; [|constructor; [|constructor; [|constructor]]]].
  - apply Hl.
  - exists 0. rewrite HN. split; [lia|]. unfold buf_of. rewrite (fz_wbs _ _ _ F). reflexivity.
  - apply Hl.
  - split; [by eexists|intros [=]|intros [=]].
Defined.

(** ** Commands *)

(** C10: a write or append that starts at an LBA of the namespace, in a zone without a
    random write area, with a write buffer below 4 GiB.  If it is larger than the whole
    write buffer, the assertion of [buffer_allocate] fails.  Otherwise it is put off,
    with nothing done, when fewer bytes than it needs remain in the buffer; refused with
    the status of [write_next] (wrong size, crossing the zone's end, not at the write
    pointer, zone full), nothing but the buffer changed; or accepted: the zone moves as in
    [write_next], the other zones stay, the invariant holds, and exactly the pages that
    complete a oneshot page or the zone are programmed, each giving back its buffer
    space. *)
Theorem zns_write_correct f rq rt z clk t :
  zns_inv f -> lba_ok f (cmd rq) -> wb_size f < 2 ^ 32 ->
  zget (zone_descs f) (zone_num f (cmd rq)) = Some z -> zrwav z = false ->
  if wb_size f <? nr_blocks (cmd rq) * 512 then zns_write rq rt clk t f = Err BugOn
  else exists r t' f', zns_write rq rt clk t f = Ok (r, t', f') /\ write_outcome f rq rt (abs_zone z) r f'.
Proof.
  intros I Hl Hwb Hz Hr. destruct (Z.ltb_spec (wb_size f) (nr_blocks (cmd rq) * 512)); [by eapply zns_write_oversized|].
  by apply zns_write_spec.
Qed.

Lemma zns_write_correct_witness :
  exists n r t' f', zns_init_namespace WD_ZN540 small_params blank_memory blank_report 0 (GB 4) 0 = Ok n /\
    zns_write (mk_req (rw nvme_cmd_write 0 7) 1 1000) (mk_result 0 0) slow_clock 0%nat (zns_part n) = Ok (r, t', f') /\
    write_outcome (zns_part n) (mk_req (rw nvme_cmd_write 0 7) 1 1000) (mk_result 0 0) (mk_azone ZONE_STATE_EMPTY 0 false) r f'.
Proof.
  destruct zn540_fresh as (n & E & F & HL & HN). exists n.
  assert (wb_size (zns_part n) = 983040) as Hwb by (rewrite (fz_wb _ _ _ F); reflexivity).
  assert (zone_num (zns_part n) (rw nvme_cmd_write 0 7) = 0) as Hz by (unfold zone_num; rewrite HL; reflexivity).
  destruct (fresh_zone _ _ n 0 F) as (z & Ez & Ea); [rewrite HN; lia|].
  pose proof (zns_write_correct (zns_part n) (mk_req (rw nvme_cmd_write 0 7) 1 1000) (mk_result 0 0) z slow_clock 0%nat) as H.
  rewrite Hwb in H. destruct H as (r & t' & f' & Er & W).
  - apply (fz_inv _ _ _ F).
  - split; rewrite ?HN, ?HL; cbn; lia.
  - reflexivity.
  - cbn [cmd]. rewrite Hz. exact Ez.
  - exact (f_equal az_zrwa Ea).
  - exists r, t', f'. split; [exact E|]. split; [exact Er|]. rewrite Ea in W. exact W.
Defined.

(** C11: a zone management command with a known action, at an LBA of the namespace or on all
    zones (to flush a random write area, the areas have sizes unless no zone has one),
    refines the transition table: on the named zone, or on every zone in order, it takes the step [zone_next] gives,
    with its status; nothing else the host sees changes, the counters stay the numbers
    of open and active zones, and only an open with a random write area can be refused
    for want of resources. *)
Theorem zns_zmgmt_send_refines f c t :
  zns_inv f -> send_ok f c ->
  exists st f', zns_zmgmt_send c t f = Ok (mk_result st t, f') /\ mgmt_frame f f' /\
    send_step (sizes_of f) c (abs f) st (abs f').
Proof. apply zns_zmgmt_send_spec. Qed.

Lemma zns_zmgmt_send_refines_witness :
  exists n st f', zns_init_namespace WD_ZN540 small_params blank_memory blank_report 0 (GB 4) 0 = Ok n /\
    zns_zmgmt_send (mk_mgmt_send 4194304 ZSA_OPEN_ZONE false false) 5 (zns_part n) = Ok (mk_result st 5, f') /\
    send_step (sizes_of (zns_part n)) (mk_mgmt_send 4194304 ZSA_OPEN_ZONE false false) (abs (zns_part n)) st (abs f').
Proof.
  destruct zn540_fresh as (n & E & F & HL & HN). exists n.
  destruct (zns_zmgmt_send_refines (zns_part n) (mk_mgmt_send 4194304 ZSA_OPEN_ZONE false false) 5) as (st & f' & Es & _ & H).
  - apply (fz_inv _ _ _ F).
  - split; [by eexists|cbn; rewrite HL, HN; lia|intros [=]].
  - exists st, f'. split; [exact E|]. split; [exact Es|exact H].
Defined.

(** a zone reset: whatever the state of the zone, it becomes empty with its write
    pointer at its start and no random write area, its bytes read as 0, and no byte
    outside the zone changes. *)
Theorem zns_reset_correct f zid z :
  zns_inv f -> zget (zone_descs f) zid = Some z ->
  exists f', __zmgmt_send_reset_zone f zid = Ok (NVME_SC_SUCCESS, f') /\
    zone_replaced f zid (mk_azone ZONE_STATE_EMPTY 0 false) f' /\ zeroed f zid (storage f) (storage f').
Proof. apply reset_zone_spec. Qed.

Lemma zns_reset_correct_witness :
  exists n f', zns_init_namespace WD_ZN540 small_params blank_memory blank_report 0 (GB 4) 0 = Ok n /\
    __zmgmt_send_reset_zone (zns_part n) 1 = Ok (NVME_SC_SUCCESS, f') /\ zns_inv f' /\
    zeroed (zns_part n) 1 (storage (zns_part n)) (storage f').
Proof.
  destruct zn540_fresh as (n & E & F & HL & HN). exists n.
  destruct (fresh_zone _ _ n 1 F) as (z & Ez & _); [rewrite HN; lia|].
  destruct (zns_reset_correct (zns_part n) 1 z (fz_inv _ _ _ F) Ez) as (f' & Er & R & Hs).
  exists f'. split; [exact E|]. split; [exact Er|]. split; [apply R|exact Hs].
Defined.

(** C12: a read from any LBA of the namespace returns after finitely many NAND reads,
    whatever its length and the state of the zones: the answer is an error exactly
    when the command runs past the end of its first zone, the completion time is no
    earlier than the firmware latency, and only the timing of the device changed. *)
Theorem zns_read_correct f rq rt clk t :
  zns_inv f -> lba_ok f (cmd rq) ->
  exists tgt t' f', zns_read rq rt clk t f = Ok (mk_response true
      (mk_result (if crosses_zone f (cmd rq) then NVME_SC_ZNS_ERR_BOUNDARY else NVME_SC_SUCCESS) tgt) (slba (cmd rq)) [], t', f') /\
    io_frame f f' [] /\ zns_inv f' /\
    u64 (nsecs_start rq + (if nr_blocks (cmd rq) * 512 <=? 4096 then fw_4kb_rd_lat (spp f) else fw_rd_lat (spp f))) <= tgt.
Proof. apply zns_read_spec. Qed.

Lemma zns_read_correct_witness :
  exists n tgt t' f', zns_init_namespace WD_ZN540 small_params blank_memory blank_report 0 (GB 4) 0 = Ok n /\
    zns_read (mk_req (rw nvme_cmd_read 4194303 1) 1 1000) (mk_result 0 0) slow_clock 0%nat (zns_part n) =
      Ok (mk_response true (mk_result NVME_SC_ZNS_ERR_BOUNDARY tgt) 4194303 [], t', f') /\ zns_inv f'.
Proof.
  destruct zn540_fresh as (n & E & F & HL & HN). exists n.
  destruct (zns_read_correct (zns_part n) (mk_req (rw nvme_cmd_read 4194303 1) 1 1000) (mk_result 0 0) slow_clock 0%nat)
    as (tgt & t' & f' & Er & _ & I & _).
  - apply (fz_inv _ _ _ F).
  - split; cbn; rewrite ?HN, ?HL; lia.
  - exists tgt, t', f'. split; [exact E|]. split; [|exact I]. unfold crosses_zone in Er. cbn [cmd] in Er. rewrite HL in Er. exact Er.
Defined.



(** construction: on a shipped zoned profile and a capacity that is a multiple of
    the zone size (below 2 TiB), [zns_init_namespace] meets no fault and gives a namespace
    satisfying the invariant, with every zone empty and no resource held. *)
Theorem zns_init_correct cfg spp0 memory junk id size cpu :
  zns_profile cfg -> zns_cap_ok cfg size ->
  exists n, zns_init_namespace cfg spp0 memory junk id size cpu = Ok n /\ fresh_zns cfg size n.
Proof. apply zns_init_spec. Qed.

Lemma zns_init_correct_witness :
  exists n, zns_init_namespace ZNS_PROTOTYPE small_params blank_memory blank_report 0 (MB 64) 0 = Ok n /\ fresh_zns ZNS_PROTOTYPE (MB 64) n.
Proof. apply zns_init_correct; [by left|split; [split; vm_compute; done|reflexivity]]. Defined.

(** ** What a host can break *)

(** The opened zone of a device without ZRWA buffers. *)
Lemma open_zrwa_run f : zns_inv f -> 0 < nr_zones (zp f) -> acquired f ZRWA_ZONE = 0 ->
  (forall z, zget (zone_descs f) 0 = Some z -> abs_zone z = mk_azone ZONE_STATE_EMPTY 0 false) ->
  exists f1, zns_zmgmt_send (mk_mgmt_send 0 ZSA_OPEN_ZONE false true) 0 f = Ok (mk_result NVME_SC_SUCCESS 0, f1) /\
    zone_replaced f 0 (mk_azone ZONE_STATE_OPENED_EXPL 0 true) f1.
Proof.
  intros I Hn Ha Hz. destruct (zget_Some (zone_descs f) 0) as (z & Ez); [rewrite (zi_len f I); lia|].
  pose proof (conc_abs _ _ _ (zi_zone f I _ _ Ez)) as Ec. rewrite (Hz z Ez) in Ec. rewrite Ec in Ez.
  unfold zns_zmgmt_send. rewrite (zg_units f (zi_geo f I)). cbn [negb select_all].
  change (__zmgmt_send f _ _ _) with (let! (s, f) := __zmgmt_send_open_zone f (lba_to_zone f 0) true in Ok (Some s, f)).
  assert (lba_to_zone f 0 = 0) as -> by done.
  destruct (open_spec f 0 _ _ _ I Ez true) as [(f1 & E & R)|(_ & _ & Hfull & _)]; [|lia].
  rewrite E. by exists f1.
Qed.

(** A write of whole units to LBA 0 once that zone has a ZRWA of size 0. *)
Lemma zrwa_write_traps f rq rt clk t :
  zns_inv f -> lba_ok f (cmd rq) -> slba (cmd rq) = 0 -> nr_blocks (cmd rq) <= lbas_per_zone f ->
  nr_blocks (cmd rq) * 512 mod write_unit_size (spp f) = 0 ->
  zget (zone_descs f) 0 = Some (conc_zone (lbas_per_zone f) 0 (mk_azone ZONE_STATE_OPENED_EXPL 0 true)) ->
  lbas_per_zrwa (zp f) = 0 -> lbas_per_zrwafg (zp f) = 0 -> zns_write rq rt clk t f = Err DivByZero.
Proof.
  intros I Hl Hs Hfit Hunit Hz Hr Hg. pose proof (lpz_pos f (zi_geo f I)) as HLp.
  assert (zone_num f (cmd rq) = 0) as Hzn by (unfold zone_num; by rewrite Hs).
  unfold zns_write. rewrite run_guard by apply (zg_units f (zi_geo f I)). rewrite run_get.
  rewrite (zone_of_lba_page f (zi_geo f I)), (zone_num_lba f _ I Hl), Hzn, (run_lift _ _ _ _ _ _ (zone_at_ok _ _ _ Hz)).
  cbn [zrwav conc_zone az_zrwa]. unfold __zns_write_zrwa. rewrite run_guard by apply (zg_units f (zi_geo f I)). rewrite run_get.
  cbv zeta. rewrite (zone_num_lba f _ I Hl), Hzn, (run_lift _ _ _ _ _ _ (zone_at_ok _ _ _ Hz)).
  destruct (nr_lba_eq f _ Hl) as [En1 Hnb]. rewrite En1, Hs. cbn [conc_zone wp state az_wp az_state].
  replace (LBA_TO_BYTE (nr_blocks (cmd rq))) with (nr_blocks (cmd rq) * 512)
    by (unfold LBA_TO_BYTE, LBA_BITS; rewrite Z.shiftl_mul_pow2 by lia; done).
  rewrite Hunit. cbn [Z.eqb negb].
  pose proof (same_zone_eq f _ I Hl) as Hb. rewrite Hs in Hb. rewrite Hb. unfold crosses_zone. rewrite Hs, Z.mod_0_l by lia.
  replace (0 + nr_blocks (cmd rq) <=? lbas_per_zone f) with true by lia. cbn [negb].
  rewrite Hr, Z.mul_0_l, Z.add_0_l. change (u64 (0 + u32 (2 * 0) - 1)) with (2 ^ 64 - 1).
  rewrite (u64_id (0 + nr_blocks (cmd rq) - 1)) by lia.
  replace ((0 <? 0) || (2 ^ 64 - 1 <? 0 + nr_blocks (cmd rq) - 1)) with false by lia.
  erewrite run_update_get by reflexivity.
  unfold zrwa_flush. rewrite Hr, Hg. change (u64 (0 + 0)) with 0.
  replace (0 <=? 0 + nr_blocks (cmd rq) - 1) with true by lia. done.
Qed.

(** on both shipped zoned profiles, which have no ZRWA, the device accepts
    opening zone 0 with a ZRWA, and the next write of whole write units to the start of
    the zone divides by the ZRWA flush granularity, which is 0. *)
Theorem zns_zrwa_write_divides_by_zero cfg spp0 memory junk id size cpu clk t rq rt :
  zns_profile cfg -> zns_cap_ok cfg size -> 0 < size ->
  slba (cmd rq) = 0 -> 0 <= length (cmd rq) < 2 ^ 16 -> nr_blocks (cmd rq) <= ZONE_SIZE cfg / 512 ->
  nr_blocks (cmd rq) * 512 mod WRITE_UNIT_SIZE cfg = 0 ->
  exists n f1, zns_init_namespace cfg spp0 memory junk id size cpu = Ok n /\
    zns_zmgmt_send (mk_mgmt_send 0 ZSA_OPEN_ZONE false true) 0 (zns_part n) = Ok (mk_result NVME_SC_SUCCESS 0, f1) /\
    zns_write rq rt clk t f1 = Err DivByZero.
Proof.
  intros Hcfg Hcap Hpos Hs Hlen Hfit Hunit.
  destruct (zns_init_spec cfg spp0 memory junk id size cpu Hcfg Hcap) as (n & En & F). exists n.
  pose proof (fz_inv _ _ _ F) as I. destruct (fz_zrwa _ _ _ F) as [Hr Hg].
  assert (0 < nr_zones (zp (zns_part n))) as Hnz.
  { rewrite (fz_zones _ _ _ F). destruct Hcap as [Hsz Hm].
    assert (0 < ZONE_SIZE cfg) by (by destruct Hcfg as [-> | ->]). pose proof (Z.div_mod size (ZONE_SIZE cfg)). nia. }
  destruct (open_zrwa_run (zns_part n) I Hnz (fz_acq _ _ _ F)) as (f1 & E1 & R).
  { intros z Ez. destruct (fresh_zone _ _ n 0 F) as (z' & Ez' & Ha); [lia|]. congruence. }
  exists f1. split; [exact En|]. split; [exact E1|]. pose proof (zr_inv _ _ _ _ R) as I1.
  assert (spp f1 = spp (zns_part n) /\ zp f1 = zp (zns_part n) /\ lbas_per_zone f1 = lbas_per_zone (zns_part n)) as (Es & Ez & EL).
  { unfold lbas_per_zone, spp. by rewrite (zr_ssd _ _ _ _ R), (zr_zp _ _ _ _ R). }
  assert (lbas_per_zone (zns_part n) = ZONE_SIZE cfg / 512) as HL.
  { unfold lbas_per_zone. by rewrite (zg_secsz _ (zi_geo _ I)), (fz_zone _ _ _ F). }
  pose proof (lpz_pos _ (zi_geo _ I)) as HLp.
  apply zrwa_write_traps; rewrite ?Ez, ?EL; try done.
  - split; rewrite ?Hs, ?Ez, ?EL; [nia|done].
  - by rewrite HL.
  - by rewrite Es, (fz_unit _ _ _ F).
  - rewrite (zr_descs _ _ _ _ R). apply zget_zset_eq. rewrite (zi_len _ I). lia.
Qed.

Lemma zns_zrwa_write_divides_by_zero_witness :
  exists n f1, zns_init_namespace WD_ZN540 small_params blank_memory blank_report 0 (GB 4) 0 = Ok n /\
    zns_zmgmt_send (mk_mgmt_send 0 ZSA_OPEN_ZONE false true) 0 (zns_part n) = Ok (mk_result NVME_SC_SUCCESS 0, f1) /\
    zns_write (mk_req (rw nvme_cmd_write 0 7) 1 1000) (mk_result 0 0) slow_clock 0%nat f1 = Err DivByZero.
Proof.
  apply zns_zrwa_write_divides_by_zero; try reflexivity; try (vm_compute; repeat split; discriminate).
  by right.
Defined.

(** The same command submitted [k] times. *)
Fixpoint submit_writes (k : nat) (rq : nvmev_request) (rt : nvmev_result) : M zns_ftl unit :=
  match k with O => ret tt | S k => zns_write rq rt ;; submit_writes k rq rt end.

(** a refused write keeps its buffer space: after a write that [write_next]
    refuses was submitted [k] times, its bytes are gone from the write buffer [k] times
    over while no release was scheduled and no zone changed; once the rest is smaller
    than the command, every write of that size to the zone is put off. *)
Theorem zns_refused_writes_leak rq rt z st k f x clk t :
  zns_inv f -> write_ok f (cmd rq) -> zget (zone_descs f) (zone_num f (cmd rq)) = Some z -> zrwav z = false ->
  write_next (sizes_of f) (write_unit_size (spp f)) (write_off f (cmd rq) (abs_zone z)) (nr_blocks (cmd rq)) (abs_zone z) = inl st ->
  get_buf f (buf_of f (zone_num f (cmd rq))) = Ok x -> Z.of_nat k * (nr_blocks (cmd rq) * 512) <= Ssd.remaining x ->
  exists t' f', submit_writes k rq rt clk t f = Ok (tt, t', f') /\ zns_inv f' /\
    zone_descs f' = zone_descs f /\ zns_outbox f' = zns_outbox f /\
    get_buf f' (buf_of f' (zone_num f' (cmd rq))) =
      Ok (Ssd.mk_buffer (Ssd.size x) (Ssd.remaining x - Z.of_nat k * (nr_blocks (cmd rq) * 512))) /\
    (Ssd.remaining x < (Z.of_nat k + 1) * (nr_blocks (cmd rq) * 512) ->
      forall rq', write_ok f' (cmd rq') -> zone_num f' (cmd rq') = zone_num f' (cmd rq) -> nr_blocks (cmd rq') = nr_blocks (cmd rq) ->
        exists r t'', zns_write rq' rt clk t' f' = Ok (r, t'', f') /\ rs_done r = false).
Proof.
  revert f x t. induction k as [|k IH]; intros f x t I Hw Hz Hr Hn Hx Hk.
  - exists t, f. split; [done|]. split; [done|]. split; [done|]. split; [done|].
    replace (Ssd.remaining x - Z.of_nat 0 * (nr_blocks (cmd rq) * 512)) with (Ssd.remaining x) by lia.
    split; [by destruct x|]. intros Hlt rq' Hw' Hz' Hn'. rewrite <- Hz' in Hz, Hx.
    destruct (zns_write_spec f rq' rt z clk t I Hw' Hz Hr) as (r & t' & f' & E & x' & Hx' & H).
    rewrite Hx in Hx'. injection Hx' as <-. cbv zeta in H. rewrite Hn' in H.
    replace (Ssd.remaining x <? nr_blocks (cmd rq) * 512) with true in H by lia. destruct H as [-> ->]. by eexists _, t'.
  - cbn [submit_writes].
    destruct (zns_write_spec f rq rt z clk t I Hw Hz Hr) as (r & t1 & f1 & E & x' & Hx' & H).
    rewrite Hx in Hx'. injection Hx' as <-. cbv zeta in H. destruct (nr_lba_eq f _ (wk_lba _ _ Hw)) as [_ Hnb].
    replace (Ssd.remaining x <? nr_blocks (cmd rq) * 512) with false in H by lia. rewrite Hn in H. destruct H as [_ Ef1].
    rewrite (run_bind _ _ _ _ _ _ _ _ E).
    set (y := Ssd.mk_buffer (Ssd.size x) (Ssd.remaining x - nr_blocks (cmd rq) * 512)) in *.
    pose proof (put_buf_frame f _ x y I Hx eq_refl) as B. rewrite <- Ef1 in B.
    assert (same_static f f1) as S by (split; apply B). destruct (static_sizes f f1 S) as (EL & Esz & Esp).
    assert (zone_num f1 (cmd rq) = zone_num f (cmd rq)) as Ezn by (unfold zone_num; by rewrite EL).
    assert (buf_of f1 (zone_num f (cmd rq)) = buf_of f (zone_num f (cmd rq))) as Eb by (unfold buf_of; by rewrite (ss_zp _ _ S)).
    destruct (IH f1 y t1) as (t' & f' & E' & I' & Ed & Eo & Hb & Hlast); rewrite ?Ezn, ?Eb, ?Esz, ?Esp; try done.
    + apply B.
    + by apply (write_ok_static f).
    + by rewrite (bf_descs _ _ B).
    + unfold write_off in *. by rewrite EL.
    + rewrite Ef1. by apply (get_put_buf f _ x).
    + cbn [Ssd.remaining y]. lia.
    + exists t', f'. split; [exact E'|]. split; [exact I'|]. split; [by rewrite Ed, (bf_descs _ _ B)|].
      split; [by rewrite Eo, (bf_out _ _ B)|]. cbn [Ssd.size Ssd.remaining y] in Hb, Hlast. split.
      * rewrite Hb. do 2 f_equal. lia.
      * intros Hlt. apply Hlast. lia.
Qed.

Lemma zns_refused_writes_leak_witness :
  exists n t' f', zns_init_namespace WD_ZN540 small_params blank_memory blank_report 0 (GB 4) 0 = Ok n /\
    submit_writes 3 (mk_req (rw nvme_cmd_write 8 639) 1 1000) (mk_result 0 0) slow_clock 0%nat (zns_part n) = Ok (tt, t', f') /\
    zns_outbox f' = [] /\ get_buf f' (buf_of f' (zone_num f' (rw nvme_cmd_write 8 639))) = Ok (Ssd.mk_buffer 983040 0).
Proof.
  destruct zn540_fresh as (n & E & F & HL & HN). exists n.
  assert (wb_size (zns_part n) = 983040) as Hwb by (rewrite (fz_wb _ _ _ F); reflexivity).
  set (rq := mk_req (rw nvme_cmd_write 8 639) 1 1000).
  assert (zone_num (zns_part n) (cmd rq) = 0) as Hz by (unfold zone_num; rewrite HL; reflexivity).
  destruct (fresh_zone _ _ n 0 F) as (z & Ez & Ea); [rewrite HN; lia|].
  pose proof (fresh_buf _ _ n 0 F ltac:(rewrite HN; lia)) as Hx. rewrite Hwb in Hx.
  destruct (zns_refused_writes_leak rq (mk_result 0 0) z NVME_SC_ZNS_INVALID_WRITE 3 (zns_part n) (Ssd.buffer_init 983040) slow_clock 0%nat)
    as (t' & f' & Er & _ & _ & Ho & Hb & _).
  - apply (fz_inv _ _ _ F).
  - split; [split; rewrite ?HN, ?HL; cbn; lia|rewrite Hwb; vm_compute; discriminate|rewrite Hwb; reflexivity].
  - rewrite Hz. exact Ez.
  - exact (f_equal az_zrwa Ea).
  - rewrite Ea, (fz_unit _ _ _ F). unfold write_off, sizes_of. rewrite HL. reflexivity.
  - rewrite Hz. exact Hx.
  - vm_compute. discriminate.
  - exists t', f'. split; [exact E|]. split; [exact Er|]. split; [rewrite Ho; apply (fz_out _ _ _ F)|].
    exact Hb.
Defined.
