(* ===== verification/WorkQueue.v ===== *)
(** * io.c: the work queue of an I/O worker

    A worker keeps a fixed array of [NR_MAX_PARALLEL_IO] entries on two lists linked
    by array index: the free entries (from [free_seq] to [free_seq_end], along [next])
    and the requests in service (from [io_seq] to [io_seq_end], along [next] and
    [prev]), where -1 ends a list.  The dispatcher allocates an entry, fills it and
    inserts it by target time; it reclaims finished entries from the head.  The
    specifications say that the two lists stay disjoint and exhaustive, where a new
    entry goes, and which entries a reclaim takes. *)

From Stdlib Require Import ZArith Lia.
From stdpp Require Import base list numbers sets.
From S2P Require Import Prelude.
From S2P Require Nvme Ssd.

Definition NR_MAX_PARALLEL_IO : Z := 16384.

(** [-1] in an [unsigned int] *)
Definition NIL : Z := 2 ^ 32 - 1.

(** The copy and fill times of [PERF_DEBUG] builds are left out. *)
Record nvmev_io_work : Type := mk_work {
  sqid : Z;
  cqid : Z;
  sq_entry : Z;
  command_id : Z;
  nsecs_start : Z;
  nsecs_target : Z;
  nsecs_enqueue : Z;
  is_copied : bool;
  is_completed : bool;
  status : Z;
  result0 : Z;
  result1 : Z;
  is_internal : bool;
  write_buffer : Z;            (* the pointer *)
  buffs_to_release : Z;
  next : Z;                    (* unsigned int *)
  prev : Z;
}.

Record nvmev_io_worker : Type := mk_worker {
  work_queue : list nvmev_io_work;
  free_seq : Z;
  free_seq_end : Z;
  io_seq : Z;
  io_seq_end : Z;
  latest_nsecs : Z;
  worker_id : Z;
}.

Definition set_links (w : nvmev_io_work) (n p : Z) : nvmev_io_work :=
  mk_work (sqid w) (cqid w) (sq_entry w) (command_id w) (nsecs_start w) (nsecs_target w) (nsecs_enqueue w) (is_copied w)
    (is_completed w) (status w) (result0 w) (result1 w) (is_internal w) (write_buffer w) (buffs_to_release w) n p.
Definition set_next (n : Z) (w : nvmev_io_work) : nvmev_io_work := set_links w n (prev w).
Definition set_prev (p : Z) (w : nvmev_io_work) : nvmev_io_work := set_links w (next w) p.
Definition set_flags (copied completed : bool) (w : nvmev_io_work) : nvmev_io_work :=
  mk_work (sqid w) (cqid w) (sq_entry w) (command_id w) (nsecs_start w) (nsecs_target w) (nsecs_enqueue w) copied
    completed (status w) (result0 w) (result1 w) (is_internal w) (write_buffer w) (buffs_to_release w) (next w) (prev w).

Definition set_queue (k : nvmev_io_worker) q := mk_worker q (free_seq k) (free_seq_end k) (io_seq k) (io_seq_end k) (latest_nsecs k) (worker_id k).
Definition set_free (k : nvmev_io_worker) a b := mk_worker (work_queue k) a b (io_seq k) (io_seq_end k) (latest_nsecs k) (worker_id k).
Definition set_io (k : nvmev_io_worker) q a b := mk_worker q (free_seq k) (free_seq_end k) a b (latest_nsecs k) (worker_id k).
Definition set_latest (k : nvmev_io_worker) t := mk_worker (work_queue k) (free_seq k) (free_seq_end k) (io_seq k) (io_seq_end k) t (worker_id k).

(** ** Insertion by target time *)

(** The [while] loop: from the tail, the last entry that stays before the new one. *)
Fixpoint scan_back (fuel : nat) (k : nvmev_io_worker) (target curr : Z) : res Z :=
  if curr =? NIL then Ok NIL
  else match fuel with
  | O => Err OutOfFuel
  | S fuel =>
      let! w := aget (work_queue k) curr in
      if nsecs_target w <=? latest_nsecs k then Ok curr
      else if nsecs_target w <=? target then Ok curr
      else scan_back fuel k target (prev w)
  end.

(** The array bounds the number of turns. *)
Definition scan_fuel : nat := S (Z.to_nat NR_MAX_PARALLEL_IO).

(** Head insertion, at the tail, or in between. *)
Definition insert_at (entry curr : Z) (k : nvmev_io_worker) : res nvmev_io_worker :=
  let q := work_queue k in
  if curr =? NIL then
    let! q := amod q (io_seq k) (set_prev entry) in
    let! q := amod q entry (set_next (io_seq k)) in
    Ok (set_io k q entry (io_seq_end k))
  else
    let! c := aget q curr in
    if next c =? NIL then
      let! q := amod q entry (set_prev curr) in
      let! q := amod q curr (set_next entry) in
      Ok (set_io k q (io_seq k) entry)
    else
      let! q := amod q entry (set_prev curr) in
      let! c := aget q curr in
      let! q := amod q entry (set_next (next c)) in
      let! e := aget q entry in
      let! q := amod q (next e) (set_prev entry) in
      let! q := amod q curr (set_next entry) in
      Ok (set_io k q (io_seq k) (io_seq_end k)).

Definition __insert_req_sorted (entry nsecs_target : Z) (k : nvmev_io_worker) : res nvmev_io_worker :=
  if io_seq k =? NIL then Ok (set_io k (work_queue k) entry entry)
  else
    let! curr := scan_back scan_fuel k nsecs_target (io_seq_end k) in
    insert_at entry curr k.

(** ** Allocation *)

(** The part of [__allocate_work_queue_entry] within the worker; [None] when only one
    free entry is left. *)
Definition take_free (k : nvmev_io_worker) : res (option (Z * nvmev_io_worker)) :=
  let e := free_seq k in
  let! w := aget (work_queue k) e in
  if NR_MAX_PARALLEL_IO <=? next w then Ok None
  else
    rassert (next w <? NR_MAX_PARALLEL_IO) ;;;
    Ok (Some (e, set_free k (next w) (free_seq_end k))).

(** The assignments of [__enqueue_io_req]. *)
Definition fill_request (sqid cqid sq_entry command_id nsecs_start now : Z) (rt : Nvme.nvmev_result) (w : nvmev_io_work)
    : nvmev_io_work :=
  mk_work sqid cqid sq_entry command_id nsecs_start (Nvme.nsecs_target rt) now false false
    (Nvme.status rt) (result0 w) (result1 w) false (write_buffer w) (buffs_to_release w) NIL NIL.

(** The assignments of [schedule_internal_operation]. *)
Definition fill_internal (sqid now nsecs_target write_buffer buffs_to_release : Z) (w : nvmev_io_work) : nvmev_io_work :=
  mk_work sqid (cqid w) (sq_entry w) (command_id w) now nsecs_target now true false
    (status w) (result0 w) (result1 w) true write_buffer buffs_to_release NIL NIL.

(** Allocate, fill, insert; the flag tells whether an entry was found. *)
Definition enqueue (fill : nvmev_io_work -> nvmev_io_work) (nsecs_target : Z) (k : nvmev_io_worker)
    : res (bool * nvmev_io_worker) :=
  let! r := take_free k in
  match r with
  | None => Ok (false, k)
  | Some (entry, k) =>
      let! q := amod (work_queue k) entry fill in
      let! k := __insert_req_sorted entry nsecs_target (set_queue k q) in
      Ok (true, k)
  end.

(** ** Reclaim *)
Definition reclaimable (latest : Z) (w : nvmev_io_work) : bool :=
  is_completed w && is_copied w && (nsecs_target w <=? latest).

(** The [while] loop: the last entry of the finished prefix. *)
Fixpoint scan_done (fuel : nat) (k : nvmev_io_worker) (last_entry curr : Z) : res Z :=
  if curr =? NIL then Ok last_entry
  else match fuel with
  | O => Err OutOfFuel
  | S fuel =>
      let! w := aget (work_queue k) curr in
      if reclaimable (latest_nsecs k) w then scan_done fuel k curr (next w) else Ok last_entry
  end.

(** One turn of [__reclaim_completed_reqs]. *)
Definition reclaim (k : nvmev_io_worker) : res nvmev_io_worker :=
  let first_entry := io_seq k in
  let! last_entry := scan_done scan_fuel k NIL first_entry in
  if last_entry =? NIL then Ok k
  else
    let q := work_queue k in
    let! w := aget q last_entry in
    let! q := if next w =? NIL then Ok q else amod q (next w) (set_prev NIL) in
    let! q := amod q last_entry (set_next NIL) in
    let! q := amod q first_entry (set_prev (free_seq_end k)) in
    let! q := amod q (free_seq_end k) (set_next first_entry) in
    Ok (mk_worker q (free_seq k) last_entry (next w) (io_seq_end k) (latest_nsecs k) (worker_id k)).

(** ** [NVMEV_IO_WORKER_INIT], one worker: the array [kzalloc] returns, linked up *)
Definition blank_work (i : Z) : nvmev_io_work :=
  mk_work 0 0 0 0 0 0 0 false false 0 0 0 false 0 0
    (if i =? NR_MAX_PARALLEL_IO - 1 then NIL else u32 (i + 1)) (u32 (i - 1)).

Definition worker_init (id : Z) : nvmev_io_worker :=
  mk_worker (blank_work <$> zseq NR_MAX_PARALLEL_IO) 0 (NR_MAX_PARALLEL_IO - 1) NIL NIL 0 id.


(** ** Entries by index *)
Definition wk_at (q : list nvmev_io_work) (i : Z) : nvmev_io_work := default (blank_work 0) (zget q i).

Section Entries.
Implicit Types (q : list nvmev_io_work) (i j : Z).

Lemma aget_wk q i : 0 <= i < zlen q -> aget q i = Ok (wk_at q i).
Proof. intros (w & E & Hw)%aget_in. unfold wk_at. rewrite E, Hw. done. Qed.

Lemma amod_wk q i f : 0 <= i < zlen q -> amod q i f = Ok (zset q i (f (wk_at q i))).
Proof. intros Hi. unfold amod. rewrite aget_wk by done. cbn [rbind]. by apply aset_in. Qed.

Lemma wk_at_zset q i j w : 0 <= i < zlen q -> wk_at (zset q i w) j = if decide (i = j) then w else wk_at q j.
Proof. intros Hi. unfold wk_at. rewrite zget_zset by done. by case_decide. Qed.

Lemma wk_at_eq q i w : 0 <= i < zlen q -> wk_at (zset q i w) i = w.
Proof. intros Hi. rewrite wk_at_zset by done. by case_decide. Qed.

Lemma wk_at_ne q i j w : i <> j -> wk_at (zset q i w) j = wk_at q j.
Proof. intros Hi. unfold wk_at. by rewrite zget_zset_ne. Qed.
End Entries.

(** What an entry holds besides its links. *)
Definition strip (w : nvmev_io_work) : nvmev_io_work := set_links w 0 0.

Definition same_payload (q q' : list nvmev_io_work) : Prop :=
  length q' = length q /\ forall i, strip (wk_at q' i) = strip (wk_at q i).

Lemma strip_next n w : strip (set_next n w) = strip w.
Proof. done. Qed.
Lemma strip_prev p w : strip (set_prev p w) = strip w.
Proof. done. Qed.
Lemma strip_target w w' : strip w = strip w' -> nsecs_target w = nsecs_target w'.
Proof. intros H. exact (f_equal nsecs_target H). Qed.
Lemma strip_done w w' t : strip w = strip w' -> reclaimable t w = reclaimable t w'.
Proof. intros H. exact (f_equal (reclaimable t) H). Qed.

#[global] Instance same_payload_refl : Reflexive same_payload.
Proof. done. Qed.
#[global] Instance same_payload_trans : Transitive same_payload.
Proof. intros a b c [L1 H1] [L2 H2]. split; [congruence|]. intros i. by rewrite H2. Qed.

(** Relinking one entry. *)
Lemma relink q i f : 0 <= i < zlen q -> strip (f (wk_at q i)) = strip (wk_at q i) ->
  same_payload q (zset q i (f (wk_at q i))).
Proof.
  intros Hi Hf. split; [apply length_zset|]. intros j. rewrite wk_at_zset by done. case_decide; [by subst|done].
Qed.

Lemma amod_next q i v : 0 <= i < zlen q -> exists q', amod q i (set_next v) = Ok q' /\ same_payload q q' /\
  (forall x, next (wk_at q' x) = if decide (x = i) then v else next (wk_at q x)) /\
  (forall x, prev (wk_at q' x) = prev (wk_at q x)).
Proof.
  intros Hi. rewrite amod_wk by done. eexists. split; [done|]. split; [by apply relink|].
  split; intros x; rewrite wk_at_zset by done; repeat case_decide; congruence || by subst.
Qed.

Lemma amod_prev q i v : 0 <= i < zlen q -> exists q', amod q i (set_prev v) = Ok q' /\ same_payload q q' /\
  (forall x, prev (wk_at q' x) = if decide (x = i) then v else prev (wk_at q x)) /\
  (forall x, next (wk_at q' x) = next (wk_at q x)).
Proof.
  intros Hi. rewrite amod_wk by done. eexists. split; [done|]. split; [by apply relink|].
  split; intros x; rewrite wk_at_zset by done; repeat case_decide; congruence || by subst.
Qed.

(** ** Linked segments

    [dll q p l n]: the entries [l] follow each other along [next], the last one to [n],
    and back along [prev], the first one to [p]. *)
Fixpoint dll (q : list nvmev_io_work) (p : Z) (l : list Z) (n : Z) : Prop :=
  match l with
  | [] => True
  | x :: l' => prev (wk_at q x) = p /\ next (wk_at q x) = hd n l' /\ dll q x l' n
  end.

(** Forward links only. *)
Fixpoint sll (q : list nvmev_io_work) (l : list Z) (n : Z) : Prop :=
  match l with
  | [] => True
  | x :: l' => next (wk_at q x) = hd n l' /\ sll q l' n
  end.

Section Segments.
Context (q q' : list nvmev_io_work).
Implicit Types (l L R : list Z) (p n e : Z).

Definition last_of (p : Z) (l : list Z) : Z := default p (list.last l).

Lemma hd_app n l R : hd n (l ++ R) = hd (hd n R) l.
Proof. by destruct l. Qed.

Lemma last_of_cons p x l : last_of p (x :: l) = last_of x l.
Proof. unfold last_of. destruct l as [|y l]; [done|]. rewrite last_cons. destruct (list.last (y :: l)) eqn:E; [done|]. by apply last_None in E. Qed.

Lemma last_of_snoc p l x : last_of p (l ++ [x]) = x.
Proof. unfold last_of. by rewrite last_snoc. Qed.

Lemma last_of_app p L R : last_of p (L ++ R) = last_of (last_of p L) R.
Proof.
  revert p. induction L as [|x L IH]; intros p; [done|]. cbn [app]. rewrite !last_of_cons. apply IH.
Qed.

Lemma last_of_in p l : l <> [] -> last_of p l ∈ l.
Proof. unfold last_of. intros H. destruct (list.last l) eqn:E; [|by apply last_None in E]. cbn. by apply last_Some_elem_of. Qed.

Lemma dll_app p L R n : dll q p (L ++ R) n <-> dll q p L (hd n R) /\ dll q (last_of p L) R n.
Proof.
  revert p. induction L as [|x L IH]; intros p; cbn [app dll]; [tauto|].
  rewrite IH, last_of_cons, hd_app. tauto.
Qed.

Lemma sll_app L R n : sll q (L ++ R) n <-> sll q L (hd n R) /\ sll q R n.
Proof. induction L as [|x L IH]; cbn [app sll]; [tauto|]. rewrite IH, hd_app. tauto. Qed.

Lemma dll_sll p l n : dll q p l n -> sll q l n.
Proof. revert p. induction l as [|x l IH]; intros p; cbn; [done|]. intros (_ & H & D). split; [done|]. by eapply IH. Qed.

Lemma dll_ext p l n : (forall x, x ∈ l -> next (wk_at q' x) = next (wk_at q x) /\ prev (wk_at q' x) = prev (wk_at q x)) ->
  dll q p l n -> dll q' p l n.
Proof.
  revert p. induction l as [|x l IH]; intros p He; cbn; [done|]. destruct (He x) as [-> ->]; [by left|].
  intros (-> & -> & D). split; [done|]. split; [done|]. apply IH; [|done]. intros y Hy. apply He. by right.
Qed.

Lemma sll_ext l n : (forall x, x ∈ l -> next (wk_at q' x) = next (wk_at q x)) -> sll q l n -> sll q' l n.
Proof.
  induction l as [|x l IH]; intros He; cbn; [done|]. rewrite (He x) by by left.
  intros (-> & D). split; [done|]. apply IH; [|done]. intros y Hy. apply He. by right.
Qed.

(** Redirect the list.last link of a segment. *)
Lemma dll_set_last p l n m : NoDup l ->
  (forall x, x ∈ l -> prev (wk_at q' x) = prev (wk_at q x)) ->
  (forall x, x ∈ l -> next (wk_at q' x) = if decide (list.last l = Some x) then m else next (wk_at q x)) ->
  dll q p l n -> dll q' p l m.
Proof.
  revert p. induction l as [|x l IH]; intros p Hd Hp Hn; cbn [dll]; [done|]. intros (E1 & E2 & D).
  apply list.NoDup_cons in Hd as [Hx Hd]. rewrite Hp, Hn by by left. split; [done|].
  destruct l as [|y l].
  { split; [|done]. cbn. by case_decide. }
  assert (list.last (x :: y :: l) = list.last (y :: l)) as Hl by done.
  split.
  - rewrite Hl. case_decide as E; [|done]. exfalso. apply last_Some_elem_of in E. done.
  - apply IH; [done| | |done].
    + intros z Hz. apply Hp. by right.
    + intros z Hz. rewrite Hn by by right. by rewrite Hl.
Qed.

Lemma sll_set_last l n m : NoDup l ->
  (forall x, x ∈ l -> next (wk_at q' x) = if decide (list.last l = Some x) then m else next (wk_at q x)) ->
  sll q l n -> sll q' l m.
Proof.
  induction l as [|x l IH]; intros Hd Hn; cbn [sll]; [done|]. intros (E2 & D).
  apply list.NoDup_cons in Hd as [Hx Hd]. rewrite Hn by by left.
  destruct l as [|y l].
  { split; [|done]. cbn. by case_decide. }
  assert (list.last (x :: y :: l) = list.last (y :: l)) as Hl by done.
  split.
  - rewrite Hl. case_decide as E; [|done]. exfalso. apply last_Some_elem_of in E. done.
  - apply IH; [done| |done]. intros z Hz. rewrite Hn by by right. by rewrite Hl.
Qed.

(** Redirect the back link of the first entry. *)
Lemma dll_set_head p l n m : NoDup l ->
  (forall x, x ∈ l -> next (wk_at q' x) = next (wk_at q x)) ->
  (forall x, x ∈ l -> prev (wk_at q' x) = if decide (list.head l = Some x) then m else prev (wk_at q x)) ->
  dll q p l n -> dll q' m l n.
Proof.
  destruct l as [|x l]; intros Hd Hn Hp; cbn [dll]; [done|]. intros (E1 & E2 & D).
  apply list.NoDup_cons in Hd as [Hx Hd]. rewrite Hp, Hn by by left. split; [by rewrite decide_True|]. split; [done|].
  eapply dll_ext; [|exact D]. intros y Hy. split; [apply Hn; by right|]. rewrite Hp by by right.
  rewrite decide_False; [done|]. cbn. intros [= ->]. done.
Qed.

(** Insert [e] between two segments. *)
Lemma dll_splice p L R n e : NoDup (L ++ R) ->
  (forall x, x ∈ L -> prev (wk_at q' x) = prev (wk_at q x)) ->
  (forall x, x ∈ L -> next (wk_at q' x) = if decide (list.last L = Some x) then e else next (wk_at q x)) ->
  (forall x, x ∈ R -> next (wk_at q' x) = next (wk_at q x)) ->
  (forall x, x ∈ R -> prev (wk_at q' x) = if decide (list.head R = Some x) then e else prev (wk_at q x)) ->
  prev (wk_at q' e) = last_of p L -> next (wk_at q' e) = hd n R ->
  dll q p (L ++ R) n -> dll q' p (L ++ e :: R) n.
Proof.
  intros (H1 & _ & H2)%list.NoDup_app Hp1 Hn1 Hn2 Hp2 Ee1 Ee2 [D1 D2]%dll_app.
  assert (dll q' p L e) as E1 by by eapply dll_set_last.
  assert (dll q' e R n) as E2 by by eapply dll_set_head.
  clear D1 D2 Hp1 Hn1. revert p Ee1 E1. induction L as [|x L IH]; intros p Ee1 E1.
  - done.
  - cbn [app dll] in *. destruct E1 as (? & ? & E1). split; [done|]. split; [rewrite hd_app; by destruct L|].
    apply list.NoDup_cons in H1 as [_ H1]. apply IH; [done|by rewrite <- last_of_cons with (p := p)|done].
Qed.
End Segments.

(** ** Where an entry goes *)

(** The number of entries up to and including the last one that stays in front. *)
Fixpoint place_at (stay : Z -> bool) (l : list Z) : nat :=
  match l with
  | [] => 0
  | x :: l => match place_at stay l with S n => S (S n) | O => if stay x then 1 else 0 end
  end.

Definition placed (stay : Z -> bool) (e : Z) (l : list Z) : list Z :=
  take (place_at stay l) l ++ e :: drop (place_at stay l) l.

Lemma place_at_snoc stay l x : place_at stay (l ++ [x]) = if stay x then S (length l) else place_at stay l.
Proof. induction l as [|y l IH]; cbn; [by destruct (stay x)|]. rewrite IH. by destruct (stay x). Qed.

Lemma place_at_ext f g l : (forall x, x ∈ l -> f x = g x) -> place_at f l = place_at g l.
Proof.
  induction l as [|x l IH]; intros H; cbn; [done|]. rewrite IH by (intros; apply H; by right). by rewrite (H x) by by left.
Qed.

Lemma place_at_le stay l : (place_at stay l <= length l)%nat.
Proof. induction l as [|y l IH]; cbn; [done|]. destruct (place_at stay l); [case_match; lia|lia]. Qed.

(** Nothing behind the place stays in front; the entry right before it does. *)
Lemma place_at_rest stay l x : x ∈ drop (place_at stay l) l -> stay x = false.
Proof.
  induction l as [|y l IH] using rev_ind; [by intros ?%elem_of_nil|]. rewrite place_at_snoc. destruct (stay y) eqn:E.
  - rewrite drop_ge; [by intros ?%elem_of_nil|]. rewrite length_app. cbn. lia.
  - rewrite drop_app_le by apply place_at_le. intros [?|[->|?%elem_of_nil]%elem_of_cons]%elem_of_app; [by apply IH|done|done].
Qed.

Lemma placed_perm stay e l : placed stay e l ≡ₚ e :: l.
Proof. unfold placed. rewrite <- Permutation_middle. by rewrite take_drop. Qed.

Definition stays (q : list nvmev_io_work) (latest target x : Z) : bool :=
  (nsecs_target (wk_at q x) <=? latest) || (nsecs_target (wk_at q x) <=? target).

Definition in_queue (l : list Z) : Prop := forall x, x ∈ l -> 0 <= x < NR_MAX_PARALLEL_IO.

Lemma slot_not_nil x : 0 <= x < NR_MAX_PARALLEL_IO -> (x =? NIL) = false.
Proof. unfold NR_MAX_PARALLEL_IO, NIL. lia. Qed.

(** The scan stops at the entry in front of the place. *)
Lemma scan_back_spec k target l : zlen (work_queue k) = NR_MAX_PARALLEL_IO -> in_queue l ->
  forall n fuel, dll (work_queue k) NIL l n -> (length l <= fuel)%nat ->
  scan_back fuel k target (last_of NIL l) =
    Ok (last_of NIL (take (place_at (stays (work_queue k) (latest_nsecs k) target) l) l)).
Proof.
  intros Hlen. set (stay := stays _ _ _). induction l as [|x l IH] using rev_ind; intros Hq n fuel D Hf.
  { destruct fuel; done. }
  rewrite length_app in Hf. cbn in Hf. destruct fuel as [|fuel]; [lia|].
  assert (0 <= x < NR_MAX_PARALLEL_IO) as Hx by (apply Hq; set_solver).
  rewrite last_of_snoc. cbn [scan_back]. rewrite slot_not_nil by done. rewrite aget_wk by lia. cbn [rbind].
  apply dll_app in D as [D1 (Hp & _)]. rewrite place_at_snoc. unfold stay at 1, stays at 1. fold stay.
  destruct (nsecs_target (wk_at (work_queue k) x) <=? latest_nsecs k); cbn [orb];
    [|destruct (nsecs_target (wk_at (work_queue k) x) <=? target)];
    try (rewrite take_ge by (rewrite length_app; cbn; lia); by rewrite last_of_snoc).
  rewrite Hp, take_app_le by apply place_at_le. eapply IH; [|exact D1|lia]. intros y Hy. apply Hq. set_solver.
Qed.

(** ** Insertion *)
Record inserted (k k' : nvmev_io_worker) (e : Z) (io io' : list Z) : Prop := {
  in_payload : same_payload (work_queue k) (work_queue k');
  in_head : io_seq k' = hd NIL io';
  in_last : io_seq_end k' = last_of NIL io';
  in_links : dll (work_queue k') NIL io' NIL;
  in_frame x : x ∉ e :: io -> wk_at (work_queue k') x = wk_at (work_queue k) x;
  in_free : free_seq k' = free_seq k /\ free_seq_end k' = free_seq_end k;
  in_latest : latest_nsecs k' = latest_nsecs k;
}.

Lemma inserted_io k q a b e io io' : same_payload (work_queue k) q -> a = hd NIL io' -> b = last_of NIL io' ->
  dll q NIL io' NIL -> (forall x, x ∉ e :: io -> wk_at q x = wk_at (work_queue k) x) -> inserted k (set_io k q a b) e io io'.
Proof. by split. Qed.

Ltac slots :=
  intros;
  rewrite ?wk_at_zset by (rewrite ?length_zset; lia);
  repeat case_decide; subst; try done; try set_solver.

Lemma insert_at_spec k L R e :
  let io := L ++ R in
  zlen (work_queue k) = NR_MAX_PARALLEL_IO -> in_queue (e :: io) -> NoDup (e :: io) -> io <> [] ->
  io_seq k = hd NIL io -> io_seq_end k = last_of NIL io -> dll (work_queue k) NIL io NIL ->
  prev (wk_at (work_queue k) e) = NIL -> next (wk_at (work_queue k) e) = NIL ->
  exists k', insert_at e (last_of NIL L) k = Ok k' /\ inserted k k' e io (L ++ e :: R).
Proof.
  intros io Hlen Hq [Hin Hd]%NoDup_cons Hne Hs He D Hp Hn. subst io. set (q := work_queue k) in *.
  assert (0 <= e < zlen q) as Hre by (rewrite Hlen; apply Hq; set_solver).
  assert (forall x, x ∈ L ++ R -> 0 <= x < zlen q) as Hr by (intros; rewrite Hlen; apply Hq; set_solver).
  unfold insert_at. fold q. rewrite Hs, He. clear Hs He Hq.
  destruct L as [|c L _] using rev_ind.
  - change (last_of NIL []) with NIL. rewrite Z.eqb_refl. cbn [app] in *. destruct R as [|y B]; [done|]. cbn [hd] in *.
    assert (0 <= y < zlen q) as Hy by (apply Hr; by left). assert (y <> e) as Hye by set_solver.
    rewrite amod_wk by done. cbn [rbind]. rewrite amod_wk by by rewrite length_zset. cbn [rbind]. rewrite wk_at_ne by done.
    eexists. split; [done|]. apply inserted_io.
    + transitivity (zset q y (set_prev e (wk_at q y))); [by apply relink|]. split; [apply length_zset|]. slots.
    + done.
    + done.
    + apply (dll_splice q _ NIL [] (y :: B)); try done; slots.
    + slots.
  - assert (c <> e) as Hce by set_solver. assert (0 <= c < zlen q) as Hc by (apply Hr; set_solver).
    assert (hd NIL ((L ++ [c]) ++ R) = hd NIL ((L ++ [c]) ++ e :: R)) as Hh by by destruct L.
    rewrite last_of_snoc. rewrite slot_not_nil by (rewrite <- Hlen; done). rewrite aget_wk by done. cbn [rbind].
    assert (next (wk_at q c) = hd NIL R) as Hnc.
    { apply dll_app in D as [D _]. apply dll_app in D as [_ (_ & D & _)]. exact D. }
    rewrite Hnc, amod_wk by done. cbn [rbind]. destruct R as [|b R].
    + cbn [hd]. rewrite Z.eqb_refl. rewrite amod_wk by by rewrite length_zset. cbn [rbind]. rewrite wk_at_ne by done.
      eexists. split; [done|]. apply inserted_io.
      * transitivity (zset q e (set_prev c (wk_at q e))); [by apply relink|]. split; [apply length_zset|]. slots.
      * done.
      * by rewrite last_of_app, !last_of_cons.
      * apply (dll_splice q _ NIL (L ++ [c]) []); rewrite ?last_of_snoc, ?last_snoc; try done; slots.
      * slots.
    + cbn [hd] in Hnc |- *. assert (0 <= b < zlen q) as Hb by (apply Hr; set_solver). assert (b <> e) as Hbe by set_solver.
      assert (b <> c) as Hbc.
      { intros ->. apply NoDup_app in Hd as (_ & Hd & _). apply (Hd c); set_solver. }
      rewrite slot_not_nil by (rewrite <- Hlen; done). rewrite aget_wk by by rewrite length_zset. cbn [rbind].
      rewrite wk_at_ne by done. rewrite Hnc, amod_wk by by rewrite length_zset. cbn [rbind].
      rewrite wk_at_eq by done. set (e1 := set_next b (set_prev c (wk_at q e))).
      assert (zset (zset q e (set_prev c (wk_at q e))) e e1 = zset q e e1) as -> by apply zset_zset.
      rewrite aget_wk by by rewrite length_zset. cbn [rbind]. rewrite wk_at_eq by done. change (next e1) with b.
      rewrite amod_wk by by rewrite length_zset. cbn [rbind]. rewrite wk_at_ne by done.
      rewrite amod_wk by by rewrite !length_zset. cbn [rbind]. rewrite !wk_at_ne by done.
      assert (forall x, x ∈ L ++ [c] -> x <> e /\ x <> b) as HL.
      { apply NoDup_app in Hd as (_ & Hd & _). intros x Hx. split; intros ->; [set_solver|]. by apply (Hd b Hx); left. }
      assert (forall x, x ∈ b :: R -> x <> e /\ x <> c) as HR.
      { apply NoDup_app in Hd as (_ & Hd & _). intros x Hx. split; intros ->; [set_solver|]. apply (Hd c); [set_solver|done]. }
      eexists. split; [done|]. apply inserted_io.
      * split; [by rewrite !length_zset|]. slots.
      * done.
      * by rewrite !last_of_app, !last_of_cons.
      * apply (dll_splice q _ NIL (L ++ [c]) (b :: R)); rewrite ?last_of_snoc, ?last_snoc; try done;
          try (intros x Hx; first [destruct (HL x Hx) | destruct (HR x Hx)]); rewrite ?wk_at_zset by (rewrite ?length_zset; lia);
          repeat case_decide; naive_solver.
      * slots.
Qed.

Lemma insert_req_spec k io e target :
  zlen (work_queue k) = NR_MAX_PARALLEL_IO -> in_queue (e :: io) -> NoDup (e :: io) ->
  io_seq k = hd NIL io -> (io <> [] -> io_seq_end k = last_of NIL io) -> dll (work_queue k) NIL io NIL ->
  prev (wk_at (work_queue k) e) = NIL -> next (wk_at (work_queue k) e) = NIL -> (length io <= scan_fuel)%nat ->
  exists k', __insert_req_sorted e target k = Ok k' /\
    inserted k k' e io (placed (stays (work_queue k) (latest_nsecs k) target) e io).
Proof.
  intros Hlen Hq Hd Hs He D Hp Hn Hfuel. unfold __insert_req_sorted. rewrite Hs.
  assert (in_queue io) as Hqi by (intros x Hx; apply Hq; set_solver).
  destruct (decide (io = [])) as [->|Hne].
  { rewrite Z.eqb_refl. eexists. split; [done|]. by apply inserted_io. }
  rewrite slot_not_nil by (apply Hqi; destruct io; [done|by left]).
  rewrite (He Hne), (scan_back_spec k target io Hlen Hqi NIL _ D Hfuel). cbn [rbind]. unfold placed.
  set (n := place_at _ _). pose proof (insert_at_spec k (take n io) (drop n io) e) as H. cbn zeta in H.
  rewrite take_drop in H. by apply H; auto.
Qed.

(** ** The invariant: [io] in service, [free] free, in list order *)
Record worker_inv (k : nvmev_io_worker) (io free : list Z) : Prop := {
  wv_len : zlen (work_queue k) = NR_MAX_PARALLEL_IO;
  wv_all : io ++ free ≡ₚ zseq NR_MAX_PARALLEL_IO;
  wv_free : free <> [];
  wv_free_seq : free_seq k = hd NIL free;
  wv_free_end : free_seq_end k = last_of NIL free;
  wv_free_links : sll (work_queue k) free NIL;
  wv_io_seq : io_seq k = hd NIL io;
  wv_io_end : io <> [] -> io_seq_end k = last_of NIL io;
  wv_io_links : dll (work_queue k) NIL io NIL;
}.

Section Invariant.
Context (k : nvmev_io_worker) (io free : list Z) (W : worker_inv k io free).

Lemma inv_nodup : NoDup (io ++ free).
Proof. rewrite (wv_all _ _ _ W). apply NoDup_seqZ. Qed.

Lemma inv_in x : x ∈ io ++ free <-> 0 <= x < NR_MAX_PARALLEL_IO.
Proof. rewrite (wv_all _ _ _ W). unfold zseq. rewrite elem_of_seqZ. lia. Qed.

Lemma inv_range x : x ∈ io ++ free -> 0 <= x < zlen (work_queue k).
Proof. rewrite inv_in, (wv_len _ _ _ W). done. Qed.

Lemma inv_fuel : (length io <= scan_fuel)%nat.
Proof.
  pose proof (Permutation_length (wv_all _ _ _ W)) as H. rewrite length_app, length_zseq in H.
  unfold scan_fuel. rewrite <- H. apply Nat.le_le_succ_r, Nat.le_add_r.
Qed.

Lemma inv_disj x : x ∈ io -> x ∈ free -> False.
Proof. pose proof inv_nodup as H. apply NoDup_app in H as (_ & H & _). apply H. Qed.

(** *** Allocation *)
Lemma take_free_last e : free = [e] -> take_free k = Ok None.
Proof.
  intros Ef. pose proof (wv_free_links _ _ _ W) as H. pose proof (wv_free_seq _ _ _ W) as Hs. rewrite Ef in H, Hs. destruct H as [H _].
  unfold take_free. rewrite Hs. cbn [hd] in *. rewrite aget_wk by (apply inv_range; rewrite Ef; set_solver). cbn [rbind]. by rewrite H.
Qed.

Lemma take_free_some e y F : free = e :: y :: F -> take_free k = Ok (Some (e, set_free k y (free_seq_end k))).
Proof.
  intros Ef. pose proof (wv_free_links _ _ _ W) as H. pose proof (wv_free_seq _ _ _ W) as Hs. rewrite Ef in H, Hs. destruct H as [H _].
  unfold take_free. rewrite Hs. cbn [hd] in *. rewrite aget_wk by (apply inv_range; rewrite Ef; set_solver). cbn [rbind]. rewrite H.
  assert (0 <= y < NR_MAX_PARALLEL_IO) as Hy by (apply inv_in; rewrite Ef; set_solver).
  replace (NR_MAX_PARALLEL_IO <=? y) with false by lia. unfold rassert. replace (y <? NR_MAX_PARALLEL_IO) with true by lia. done.
Qed.

(** *** An entry is allocated, filled and placed. *)
Record enqueued (fill : nvmev_io_work -> nvmev_io_work) (target e : Z) (F : list Z) (k' : nvmev_io_worker) : Prop := {
  eq_inv : worker_inv k' (placed (stays (work_queue k) (latest_nsecs k) target) e io) F;
  eq_entry : strip (wk_at (work_queue k') e) = strip (fill (wk_at (work_queue k) e));
  eq_others x : x <> e -> strip (wk_at (work_queue k') x) = strip (wk_at (work_queue k) x);
  eq_latest : latest_nsecs k' = latest_nsecs k;
}.

Lemma enqueue_full fill target e : free = [e] -> enqueue fill target k = Ok (false, k).
Proof. intros E. unfold enqueue. by rewrite (take_free_last e E). Qed.

Lemma enqueue_spec fill target e y F :
  (forall w, next (fill w) = NIL /\ prev (fill w) = NIL) -> free = e :: y :: F ->
  exists k', enqueue fill target k = Ok (true, k') /\ enqueued fill target e (y :: F) k'.
Proof.
  intros Hfill Ef. unfold enqueue. rewrite (take_free_some e y F Ef). cbn [rbind set_free work_queue].
  pose proof inv_nodup as Hnd. rewrite Ef in Hnd. set (q := work_queue k).
  assert (0 <= e < zlen q) as He by (apply inv_range; rewrite Ef; set_solver).
  rewrite amod_wk by done. cbn [rbind]. set (q1 := zset q e (fill (wk_at q e))). set (k1 := set_queue (set_free k y (free_seq_end k)) q1).
  assert (Hne : forall x, x ∈ io -> wk_at q1 x = wk_at q x).
  { intros x Hx. apply wk_at_ne. intros ->. apply (inv_disj x Hx). rewrite Ef. by left. }
  assert (NoDup (e :: io)) as Hd.
  { rewrite <- Permutation_middle in Hnd. apply NoDup_cons in Hnd as [Hnd1 Hnd2]. apply NoDup_app in Hnd2 as (? & _ & _).
    apply NoDup_cons. split; [|done]. set_solver. }
  destruct (insert_req_spec k1 io e target) as (k' & E & I); try done.
  - unfold k1, q1. cbn. rewrite length_zset. apply (wv_len _ _ _ W).
  - intros x [->|Hx]%elem_of_cons; apply inv_in; [rewrite Ef|]; set_solver.
  - apply (wv_io_seq _ _ _ W).
  - apply (wv_io_end _ _ _ W).
  - eapply dll_ext; [|apply (wv_io_links _ _ _ W)]. intros x Hx. cbn. by rewrite Hne.
  - cbn. unfold q1. rewrite wk_at_eq by done. apply Hfill.
  - cbn. unfold q1. rewrite wk_at_eq by done. apply Hfill.
  - apply inv_fuel.
  - rewrite E. cbn [rbind]. eexists. split; [done|].
    assert (place_at (stays (work_queue k1) (latest_nsecs k1) target) io = place_at (stays q (latest_nsecs k) target) io) as Hpl.
    { apply place_at_ext. intros x Hx. unfold stays. cbn. by rewrite Hne. }
    unfold placed in *. rewrite Hpl in I. fold q. destruct I as [[P1 P2] I2 I3 I4 I5 [I6 I7] I8]. split.
    + assert (zlen (work_queue k') = NR_MAX_PARALLEL_IO) as Hlen.
      { rewrite P1. cbn. unfold q1. rewrite length_zset. apply (wv_len _ _ _ W). }
      pose proof (wv_free_links _ _ _ W) as Hfl. pose proof (wv_free_end _ _ _ W) as Hfe. rewrite Ef in Hfl, Hfe. split; try done.
      * rewrite placed_perm, <- (wv_all _ _ _ W), Ef.
        apply Permutation_middle.
      * rewrite I7. etransitivity; [exact Hfe|]. by rewrite !last_of_cons.
      * destruct Hfl as [_ Hfl]. eapply sll_ext; [|exact Hfl]. intros x Hx.
        assert (x <> e) by (intros ->; apply NoDup_app in Hnd as (_ & _ & Hnd); apply NoDup_cons in Hnd as [Hnd _]; done).
        rewrite I5; [|intros [->|Hio]%elem_of_cons; [done|]; apply (inv_disj x Hio); rewrite Ef; by right].
        cbn. unfold q1. by rewrite wk_at_ne.
    + rewrite P2. cbn. unfold q1. by rewrite wk_at_eq.
    + intros x Hx. rewrite P2. cbn. unfold q1. by rewrite wk_at_ne.
    + done.
Qed.

(** *** Reclaim takes the finished prefix. *)
Fixpoint done_len (f : Z -> bool) (l : list Z) : nat :=
  match l with [] => 0 | x :: l => if f x then S (done_len f l) else 0 end.

Definition done_at (x : Z) : bool := reclaimable (latest_nsecs k) (wk_at (work_queue k) x).

Lemma scan_done_spec l : (forall x, x ∈ l -> 0 <= x < NR_MAX_PARALLEL_IO) -> forall fuel a, sll (work_queue k) l NIL -> (length l <= fuel)%nat ->
  scan_done fuel k a (hd NIL l) = Ok (last_of a (take (done_len done_at l) l)).
Proof.
  induction l as [|x l IH]; intros Hr fuel a D Hf; [by destruct fuel|]. destruct fuel as [|fuel]; [cbn in Hf; lia|].
  destruct D as [Hn D]. cbn [hd scan_done]. rewrite slot_not_nil by (apply Hr; by left).
  rewrite aget_wk by (rewrite (wv_len _ _ _ W); apply Hr; by left). cbn [rbind done_len]. fold (done_at x).
  destruct (done_at x); [|done]. cbn [take]. rewrite last_of_cons, Hn. apply IH; [|done|cbn in Hf; lia].
  intros y Hy. apply Hr. by right.
Qed.

Record reclaimed (D R : list Z) (k' : nvmev_io_worker) : Prop := {
  rc_inv : worker_inv k' R (free ++ D);
  rc_payload : same_payload (work_queue k) (work_queue k');
  rc_latest : latest_nsecs k' = latest_nsecs k;
}.

Lemma reclaim_spec : let n := done_len done_at io in
  exists k', reclaim k = Ok k' /\ reclaimed (take n io) (drop n io) k'.
Proof.
  intros n. unfold reclaim. rewrite (wv_io_seq _ _ _ W).
  rewrite (scan_done_spec io) by (intros; try apply inv_in; try set_solver; first [apply inv_fuel | by eapply dll_sll, (wv_io_links _ _ _ W)]).
  cbn [rbind]. fold n. pose proof (take_drop n io) as Hio. set (D := take n io) in *. set (R := drop n io) in *. clearbody D R.
  destruct D as [|d D _] using rev_ind.
  - change (last_of NIL []) with NIL. rewrite Z.eqb_refl. eexists. split; [done|]. cbn in Hio. subst R.
    split; [by rewrite app_nil_r|done|done].
  - rewrite last_of_snoc. rewrite slot_not_nil by (apply inv_in; rewrite <- Hio; set_solver).
    pose proof (wv_len _ _ _ W) as Hlen. set (q := work_queue k) in *.
    assert (forall x, x ∈ io \/ x ∈ free -> 0 <= x < zlen q) as Hr.
    { intros x Hx. apply inv_range. set_solver. }
    assert (forall x, x ∈ D ++ [d] -> x ∈ io) as HD by (intros; rewrite <- Hio; set_solver).
    assert (forall x, x ∈ R -> x ∈ io) as HR by (intros; rewrite <- Hio; set_solver).
    set (f := hd NIL io). set (g := free_seq_end k).
    assert (f ∈ D ++ [d]) as Hf by (unfold f; rewrite <- Hio; destruct D; set_solver).
    assert (f = hd NIL (D ++ [d])) as Hfd by (unfold f; rewrite <- Hio; by destruct D).
    assert (g ∈ free) as Hg by (unfold g; rewrite (wv_free_end _ _ _ W); apply last_of_in, (wv_free _ _ _ W)).
    assert (d ∈ D ++ [d]) as Hd by set_solver.
    pose proof (wv_io_links _ _ _ W) as Dl. fold q in Dl. rewrite <- Hio in Dl. apply dll_app in Dl as [D1 D2].
    pose proof D1 as D1'. apply dll_app in D1' as [_ (_ & Hnd & _)]. cbn [hd] in Hnd.
    rewrite aget_wk by (apply Hr; left; by apply HD). cbn [rbind]. rewrite Hnd.
    assert (exists q1, (if hd NIL R =? NIL then Ok q else amod q (hd NIL R) (set_prev NIL)) = Ok q1 /\ same_payload q q1 /\
      (forall x, next (wk_at q1 x) = next (wk_at q x)) /\
      (forall x, prev (wk_at q1 x) = if decide (list.head R = Some x) then NIL else prev (wk_at q x))) as (q1 & -> & S1 & N1 & P1).
    { destruct R as [|r R]; cbn [hd list.head].
      - rewrite Z.eqb_refl. exists q. by split_and!.
      - rewrite slot_not_nil by (apply inv_in; rewrite <- Hio; set_solver).
        destruct (amod_prev q r NIL) as (q1 & E & ? & P & ?); [apply Hr; left; apply HR; by left|].
        exists q1. split_and!; try done. intros x. rewrite P. repeat case_decide; congruence. }
    cbn [rbind].
    destruct (amod_next q1 d NIL) as (q2 & -> & S2 & N2 & P2); [rewrite (proj1 S1); apply Hr; left; by apply HD|]. cbn [rbind].
    destruct (amod_prev q2 f g) as (q3 & -> & S3 & P3 & N3); [rewrite (proj1 S2), (proj1 S1); apply Hr; left; by apply HD|]. cbn [rbind].
    destruct (amod_next q3 g f) as (q4 & -> & S4 & N4 & P4); [rewrite (proj1 S3), (proj1 S2), (proj1 S1); apply Hr; by right|]. cbn [rbind].
    assert (forall x, next (wk_at q4 x) = if decide (x = g) then f else if decide (x = d) then NIL else next (wk_at q x)) as Hnx.
    { intros x. by rewrite N4, N3, N2, N1. }
    assert (forall x, x <> f -> prev (wk_at q4 x) = if decide (list.head R = Some x) then NIL else prev (wk_at q x)) as Hpx.
    { intros x Hx. rewrite P4, P3, P2, P1. by rewrite decide_False. }
    assert (same_payload q q4) as S by (by do 3 (etransitivity; [|eassumption])).
    eexists. split; [done|]. split; [|done|done].
    pose proof inv_nodup as Hnodup. rewrite <- Hio in Hnodup. apply NoDup_app in Hnodup as (Hn1 & Hx1 & Hn2).
    apply NoDup_app in Hn1 as (Hn1 & Hx2 & Hn3).
    split; cbn [work_queue free_seq free_seq_end io_seq io_seq_end].
    + by rewrite (proj1 S).
    + rewrite <- (wv_all _ _ _ W), <- Hio. rewrite app_assoc.
      etransitivity; [apply Permutation_app_comm|]. by rewrite app_assoc.
    + intros [Hnil _]%app_nil. by apply (wv_free _ _ _ W).
    + rewrite (wv_free_seq _ _ _ W). destruct free; [by destruct (wv_free _ _ _ W)|done].
    + by rewrite last_of_app, last_of_snoc.
    + apply sll_app. split.
      * eapply sll_set_last; [done| |apply (wv_free_links _ _ _ W)]. intros x Hx. rewrite Hnx.
        assert (x <> d) by (intros ->; apply (inv_disj d); [by apply HD|done]).
        assert (list.last free = Some x <-> x = g) as Hl.
        { unfold g. rewrite (wv_free_end _ _ _ W). unfold last_of. destruct (list.last free) eqn:E; cbn; [naive_solver|].
          apply last_None in E. by destruct (wv_free _ _ _ W). }
        repeat case_decide; tauto.
      * eapply sll_set_last; [done| |eapply dll_sll; exact D1]. intros x Hx. rewrite Hnx, last_snoc.
        assert (x <> g) by (intros ->; apply (inv_disj g); [by apply HD|done]).
        repeat case_decide; congruence.
    + done.
    + intros HRne. rewrite (wv_io_end _ _ _ W) by (rewrite <- Hio; by destruct D). rewrite <- Hio, last_of_app.
      destruct R; [done|]. by rewrite !last_of_cons.
    + eapply dll_set_head; [done| | |exact D2].
      * intros x Hx. rewrite Hnx. rewrite !decide_False; [done| |]; intros ->.
        -- by apply (Hx2 d).
        -- apply (inv_disj g); [by apply HR|done].
      * intros x Hx. apply Hpx. intros ->. by apply (Hx2 f).
Qed.
End Invariant.

(** *** A fresh worker: everything is free. *)
Lemma wk_at_init id i : 0 <= i < NR_MAX_PARALLEL_IO -> wk_at (work_queue (worker_init id)) i = blank_work i.
Proof.
  intros Hi. unfold wk_at, worker_init. cbn [work_queue]. rewrite Ssd.zget_fmap, Ssd.zget_zseq.
  replace (0 <=? i) with true by lia. replace (i <? NR_MAX_PARALLEL_IO) with true by lia. done.
Qed.

Lemma seqZ_snoc a n : 0 <= n -> seqZ a (n + 1) = seqZ a n ++ [a + n].
Proof. intros Hn. rewrite seqZ_app by lia. done. Qed.

Lemma hd_seqZ m n : 0 < n -> hd NIL (seqZ m n) = m.
Proof. intros Hn. by rewrite seqZ_cons by lia. Qed.

Lemma sll_seqZ q n : forall m, 0 <= n -> (forall x, m <= x < m + n -> next (wk_at q x) = if x =? m + n - 1 then NIL else x + 1) -> sll q (seqZ m n) NIL.
Proof.
  intros m Hn. revert m. pattern n. apply natlike_ind; [| |done]; clear n Hn.
  - done.
  - intros n Hn IH m Hx. rewrite seqZ_cons by lia. rewrite Z.pred_succ. cbn [sll]. rewrite Hx by lia. split.
    + destruct (Z.eqb_spec m (m + Z.succ n - 1)).
      * by replace n with 0 by lia.
      * rewrite hd_seqZ by lia. lia.
    + apply IH. intros x ?. rewrite Hx by lia. by replace (m + Z.succ n) with (Z.succ m + n) by lia.
Qed.

Lemma last_of_zseq n : 0 < n -> last_of NIL (zseq n) = n - 1.
Proof.
  intros Hn. unfold zseq. replace n with (n - 1 + 1) at 1 by lia. rewrite seqZ_snoc by lia. apply last_of_snoc.
Qed.

Lemma hd_zseq n : 0 < n -> hd NIL (zseq n) = 0.
Proof. apply hd_seqZ. Qed.

Lemma zseq_not_nil n : 0 < n -> zseq n <> [].
Proof. intros Hn E. pose proof (hd_zseq n Hn) as H. by rewrite E in H. Qed.

Lemma sll_zseq q n : 0 <= n -> (forall x, 0 <= x < n -> next (wk_at q x) = if x =? n - 1 then NIL else x + 1) -> sll q (zseq n) NIL.
Proof. intros Hn H. by apply sll_seqZ. Qed.

Lemma fresh_length n : 0 < n -> zlen (blank_work <$> zseq n) = n.
Proof. intros Hn. rewrite length_fmap, length_zseq. by rewrite Z2Nat.id by lia. Qed.

Lemma worker_init_inv id : worker_inv (worker_init id) [] (zseq NR_MAX_PARALLEL_IO).
Proof.
  assert (0 < NR_MAX_PARALLEL_IO) as Hn by done. split.
  - by apply fresh_length.
  - rewrite app_nil_l. apply Permutation_refl.
  - by apply zseq_not_nil.
  - by rewrite hd_zseq.
  - by rewrite last_of_zseq.
  - apply sll_zseq; [lia|]. intros x Hx. rewrite wk_at_init by lia. cbn [blank_work next].
    destruct (Z.eqb_spec x (NR_MAX_PARALLEL_IO - 1)); [done|].
    rewrite u32_id; [done|]. unfold NR_MAX_PARALLEL_IO in *. lia.
  - reflexivity.
  - intros H. by destruct H.
  - exact I.
Qed.
