(* ===== verification/IoWorker.v ===== *)
(** * io.c: the I/O worker and the dispatcher on one work queue

    The worker walks the requests in service, copies the data of those not yet copied
    and finishes those whose time has come; the dispatcher meanwhile inserts and
    reclaims, without a lock.  The model takes a visit of one entry, an insertion and
    a reclaim as atomic steps of a shared state, in every order, the worker's cursor
    included: it may stand on an entry that is reclaimed and allocated again.  The
    main results: no step faults, every accepted operation is finished exactly once
    and not before its time, and a pass at a late enough time finishes all of them. *)

From Stdlib Require Import ZArith Lia.
From Stdlib Require Import Sorted.
From stdpp Require Import base list numbers sets sorting.
From S2P Require Import Prelude WorkQueue.
From S2P Require Nvme.

(** ** What the worker does to the rest of the device *)

(** An operation as the completion sees it: the fields [__fill_cq_result] posts, or the
    arguments of [buffer_release]. *)
Inductive io_job : Type :=
| Request (sqid cqid sq_entry command_id status result0 result1 target : Z)
| Release (write_buffer buffs_to_release target : Z).

Definition job_of (w : nvmev_io_work) : io_job :=
  if is_internal w then Release (write_buffer w) (buffs_to_release w) (nsecs_target w)
  else Request (sqid w) (cqid w) (sq_entry w) (command_id w) (status w) (result0 w) (result1 w) (nsecs_target w).

Definition job_target (j : io_job) : Z :=
  match j with Request _ _ _ _ _ _ _ t => t | Release _ _ t => t end.

(** [__do_perform_io] of a submission queue entry; the completion of a job at a time. *)
Inductive io_effect : Type :=
| CopyData (sqid sq_entry : Z)
| Finish (now : Z) (j : io_job).

(** The body of the inner [while] loop of [nvmev_io_worker]: effects, the next cursor. *)
Definition visit (curr_nsecs curr : Z) (k : nvmev_io_worker) : res (list io_effect * Z * nvmev_io_worker) :=
  let! w := aget (work_queue k) curr in
  let k := set_latest k curr_nsecs in
  if is_completed w then Ok ([], next w, k)
  else
    let copy := if is_copied w || is_internal w then [] else [CopyData (sqid w) (sq_entry w)] in
    let fin := nsecs_target w <=? curr_nsecs in
    let! q := aset (work_queue k) curr (set_flags true fin w) in
    Ok (copy ++ (if fin then [Finish curr_nsecs (job_of w)] else []), next w, set_queue k q).

(** The inner loop, each turn with its own clock reading; [delta] is wall - local. *)
Fixpoint visit_all (fuel : nat) (delta curr : Z) : M nvmev_io_worker (list io_effect) :=
  if curr =? NIL then ret []
  else match fuel with
  | O => fail OutOfFuel
  | S fuel =>
      let* local := read_clock LOCAL_CLOCK in
      let* r := update_get (fun k => let! (effs, curr, k) := visit (u64 (local + delta)) curr k in Ok ((effs, curr), k)) in
      let* rest := visit_all fuel delta (snd r) in
      ret (fst r ++ rest)
  end.

(** One turn of the outer loop up to the interrupts; the list bounds the inner one. *)
Definition io_pass : M nvmev_io_worker (list io_effect) :=
  let* wall := read_clock CPU_CLOCK in
  let* local := read_clock LOCAL_CLOCK in
  let* k := get in
  visit_all scan_fuel (i64 (wall - local)) (io_seq k).

(** ** The shared state and its steps *)
Record io_sys : Type := mk_sys { sys_worker : nvmev_io_worker; sys_curr : Z }.

(** The dispatcher's operations on the queue. *)
Inductive io_op : Type :=
| OpRequest (sqid cqid sq_entry command_id nsecs_start now : Z) (rt : Nvme.nvmev_result)
| OpInternal (sqid now nsecs_target write_buffer buffs_to_release : Z).

Definition op_fill (o : io_op) : nvmev_io_work -> nvmev_io_work :=
  match o with
  | OpRequest sqid cqid sq_entry command_id nsecs_start now rt => fill_request sqid cqid sq_entry command_id nsecs_start now rt
  | OpInternal sqid now nsecs_target write_buffer buffs => fill_internal sqid now nsecs_target write_buffer buffs
  end.
Definition op_job (o : io_op) : io_job :=
  match o with
  | OpRequest sqid cqid sq_entry command_id _ _ rt =>
      Request sqid cqid sq_entry command_id (Nvme.status rt) 0 0 (Nvme.nsecs_target rt)
  | OpInternal _ _ nsecs_target write_buffer buffs => Release write_buffer buffs nsecs_target
  end.
Definition op_target (o : io_op) : Z := job_target (op_job o).

(** [reach acc effs s]: the state [s] occurs after accepting the jobs [acc] and having
    the effects [effs], both oldest first. *)
Inductive reach : list io_job -> list io_effect -> io_sys -> Prop :=
| reach_init id : reach [] [] (mk_sys (worker_init id) NIL)
| reach_enqueue acc effs k curr o b k' :
    reach acc effs (mk_sys k curr) -> enqueue (op_fill o) (op_target o) k = Ok (b, k') ->
    reach (if b : bool then acc ++ [op_job o] else acc) effs (mk_sys k' curr)
| reach_reclaim acc effs k curr k' :
    reach acc effs (mk_sys k curr) -> reclaim k = Ok k' -> reach acc effs (mk_sys k' curr)
| reach_start acc effs k :
    reach acc effs (mk_sys k NIL) -> reach acc effs (mk_sys k (io_seq k))
| reach_visit acc effs k curr now es curr' k' :
    reach acc effs (mk_sys k curr) -> curr <> NIL -> visit now curr k = Ok (es, curr', k') ->
    reach acc (effs ++ es) (mk_sys k' curr').

(** ** What a history says *)
Definition finished (effs : list io_effect) : list io_job :=
  omap (fun e => match e with Finish _ j => Some j | CopyData _ _ => None end) effs.
Definition copies (effs : list io_effect) : list (Z * Z) :=
  omap (fun e => match e with CopyData a b => Some (a, b) | Finish _ _ => None end) effs.
Definition data_of (j : io_job) : option (Z * Z) :=
  match j with Request sqid _ sq_entry _ _ _ _ _ => Some (sqid, sq_entry) | Release _ _ _ => None end.

(** The entries in service, head first. *)
Fixpoint walk (fuel : nat) (q : list nvmev_io_work) (i : Z) : list Z :=
  match fuel with
  | O => []
  | S fuel => if i =? NIL then [] else i :: walk fuel q (next (wk_at q i))
  end.
Definition in_service (k : nvmev_io_worker) : list Z := walk scan_fuel (work_queue k) (io_seq k).

Definition waiting (w : nvmev_io_work) : bool := negb (is_completed w).
Definition waiting_copied (w : nvmev_io_work) : bool := negb (is_completed w) && is_copied w.
Definition jobs (p : nvmev_io_work -> bool) (q : list nvmev_io_work) (l : list Z) : list io_job :=
  job_of <$> filter (fun w => p w = true) (wk_at q <$> l).

(** The accepted jobs not finished yet, and those of them whose data was copied. *)
Definition pending (k : nvmev_io_worker) : list io_job := jobs waiting (work_queue k) (in_service k).
Definition pending_copied (k : nvmev_io_worker) : list io_job := jobs waiting_copied (work_queue k) (in_service k).

(** ** Lists of jobs *)
Lemma walk_sll q l : forall fuel, sll q l NIL -> in_queue l -> (length l <= fuel)%nat -> walk fuel q (hd NIL l) = l.
Proof.
  induction l as [|x l IH]; intros fuel D Hr Hf; [by destruct fuel|]. destruct fuel as [|fuel]; [cbn in Hf; lia|].
  destruct D as [Hn D]. cbn [hd walk]. rewrite slot_not_nil by (apply Hr; by left). rewrite Hn. f_equal.
  apply IH; [done| |cbn in Hf; lia]. intros y Hy. apply Hr. by right.
Qed.

Lemma in_service_inv k io free : worker_inv k io free -> in_service k = io.
Proof.
  intros W. unfold in_service. rewrite (wv_io_seq _ _ _ W). apply walk_sll.
  - eapply dll_sll, (wv_io_links _ _ _ W).
  - intros x Hx. apply (inv_in _ _ _ W). set_solver.
  - apply (inv_fuel _ _ _ W).
Qed.

(** A test that does not look at the links. *)
Class Payload {A} (p : nvmev_io_work -> A) : Prop := payload w : p (strip w) = p w.
#[export] Instance waiting_payload : Payload waiting.
Proof. done. Qed.
#[export] Instance waiting_copied_payload : Payload waiting_copied.
Proof. done. Qed.
#[export] Instance job_payload : Payload job_of.
Proof. done. Qed.

Lemma payload_eq {A} (p : nvmev_io_work -> A) `{!Payload p} w w' : strip w = strip w' -> p w = p w'.
Proof. intros H. rewrite <- (payload (p := p) w), <- (payload (p := p) w'). by rewrite H. Qed.

Section Jobs.
Context (p : nvmev_io_work -> bool) `{!Payload p}.

Lemma jobs_cons q x l : jobs p q (x :: l) = if p (wk_at q x) then job_of (wk_at q x) :: jobs p q l else jobs p q l.
Proof. unfold jobs. rewrite fmap_cons, filter_cons. by destruct (p (wk_at q x)). Qed.

Lemma jobs_app q l l' : jobs p q (l ++ l') = jobs p q l ++ jobs p q l'.
Proof. unfold jobs. by rewrite fmap_app, list.filter_app, fmap_app. Qed.

Lemma jobs_perm q l l' : l ≡ₚ l' -> jobs p q l ≡ₚ jobs p q l'.
Proof. intros H. unfold jobs. by rewrite H. Qed.

Lemma jobs_ext q q' l : (forall x, x ∈ l -> strip (wk_at q' x) = strip (wk_at q x)) -> jobs p q' l = jobs p q l.
Proof.
  induction l as [|x l IH]; intros H; [done|]. rewrite !jobs_cons, IH by (intros; apply H; by right).
  assert (strip (wk_at q' x) = strip (wk_at q x)) as E by (apply H; by left).
  by rewrite (payload_eq p _ _ E), (payload_eq job_of _ _ E).
Qed.
End Jobs.

(** ** The system invariant *)
Record sys_inv (acc : list io_job) (effs : list io_effect) (k : nvmev_io_worker) (curr : Z) (io free : list Z) : Prop := {
  si_inv : worker_inv k io free;
  si_acc : acc ≡ₚ finished effs ++ jobs waiting (work_queue k) io;
  si_copy : copies effs ≡ₚ omap data_of (finished effs) ++ omap data_of (jobs waiting_copied (work_queue k) io);
  si_zero x : result0 (wk_at (work_queue k) x) = 0 /\ result1 (wk_at (work_queue k) x) = 0;
  si_curr : curr = NIL \/ curr ∈ io \/
    exists F1 F2, free = F1 ++ curr :: F2 /\ forall x, x ∈ curr :: F2 -> is_completed (wk_at (work_queue k) x) = true;
  si_time now j : Finish now j ∈ effs -> job_target j <= now;
  si_done x : is_completed (wk_at (work_queue k) x) = true -> is_copied (wk_at (work_queue k) x) = true;
}.

Lemma blank_zero id x : result0 (wk_at (work_queue (worker_init id)) x) = 0 /\ result1 (wk_at (work_queue (worker_init id)) x) = 0.
Proof.
  unfold wk_at, worker_init. cbn [work_queue]. rewrite Ssd.zget_fmap. by destruct (zget _ x).
Qed.

Lemma sys_init id : sys_inv [] [] (worker_init id) NIL [] (zseq NR_MAX_PARALLEL_IO).
Proof.
  split; [apply worker_init_inv|reflexivity|reflexivity|apply blank_zero|by left| |].
  - by intros now j ?%elem_of_nil.
  - intros x. unfold wk_at, worker_init. cbn [work_queue]. rewrite Ssd.zget_fmap. by destruct (zget _ x).
Qed.

Lemma op_links o w : next (op_fill o w) = NIL /\ prev (op_fill o w) = NIL.
Proof. by destruct o. Qed.

Lemma op_entry o w : result0 w = 0 -> result1 w = 0 ->
  job_of (op_fill o w) = op_job o /\ waiting (op_fill o w) = true /\
  omap data_of (if waiting_copied (op_fill o w) then [op_job o] else []) = [] /\
  result0 (op_fill o w) = 0 /\ result1 (op_fill o w) = 0.
Proof. intros H0 H1. destruct o; cbn; unfold job_of; cbn; by rewrite ?H0, ?H1. Qed.

(** Accepting an operation. *)
Lemma sys_enqueue acc effs k curr io free o b k' : sys_inv acc effs k curr io free ->
  enqueue (op_fill o) (op_target o) k = Ok (b, k') ->
  exists io' free', sys_inv (if b then acc ++ [op_job o] else acc) effs k' curr io' free'.
Proof.
  intros [W Hacc Hcopy Hz Hc Ht Hdn] E. destruct free as [|e [|y F]]; [by destruct (wv_free _ _ _ W)| |].
  { rewrite (enqueue_full _ _ _ W _ _ e) in E by done. injection E as <- <-. by exists io, [e]. }
  destruct (enqueue_spec _ _ _ W (op_fill o) (op_target o) e y F (op_links o) eq_refl) as (k1 & E1 & [Q1 Q2 Q3 Q4]).
  rewrite E in E1. injection E1 as -> ->. 
  set (io' := placed _ e io) in *. exists io', (y :: F). assert (io' ≡ₚ e :: io) as Hp by apply placed_perm.
  destruct (Hz e) as [Z1 Z2]. destruct (op_entry o (wk_at (work_queue k) e) Z1 Z2) as (J1 & J2 & J3 & J4 & J5).
  assert (He : e ∉ io) by (intros He; apply (inv_disj _ _ _ W e He); by left).
  assert (Hs : forall x, x ∈ io -> strip (wk_at (work_queue k1) x) = strip (wk_at (work_queue k) x)).
  { intros x Hx. apply Q3. by intros ->. }
  split; [exact Q1| | | | |done|].
  - rewrite (jobs_perm waiting _ _ _ Hp), jobs_cons, (jobs_ext waiting _ _ _ Hs).
    rewrite (payload_eq waiting _ _ Q2), (payload_eq job_of _ _ Q2), J1, J2, Hacc.
    rewrite <- app_assoc. apply Permutation_app_head. symmetry. apply Permutation_cons_append.
  - rewrite (jobs_perm waiting_copied _ _ _ Hp), jobs_cons, (jobs_ext waiting_copied _ _ _ Hs).
    rewrite (payload_eq waiting_copied _ _ Q2), (payload_eq job_of _ _ Q2), J1, Hcopy.
    destruct (waiting_copied (op_fill o (wk_at (work_queue k) e))); [|done]. cbn [omap list_omap] in *.
    by destruct (data_of (op_job o)).
  - intros x. destruct (decide (x = e)) as [->|Hx].
    + pose proof (f_equal result0 Q2). pose proof (f_equal result1 Q2). cbn in *. by split; congruence.
    + pose proof (f_equal result0 (Q3 x Hx)). pose proof (f_equal result1 (Q3 x Hx)). destruct (Hz x). cbn in *. by split; congruence.
  - destruct Hc as [Hc|[Hc|(F1 & F2 & Hf & Hd)]]; [by left|right; left; rewrite Hp; by right|].
    destruct F1 as [|z F1]; injection Hf as Hz' HF; [right; left; rewrite Hp, Hz'; by left|]. right. right. exists F1, F2.
    split; [done|]. intros x Hx. rewrite <- (Hd x Hx). assert (x <> e) as Hxe.
    { intros ->. pose proof (inv_nodup _ _ _ W) as Hn. apply NoDup_app in Hn as (_ & _ & Hn).
      apply NoDup_cons in Hn as [Hn _]. rewrite HF in Hn. set_solver. }
    exact (f_equal is_completed (Q3 x Hxe)).
  - intros x. destruct (decide (x = e)) as [->|Hx].
    + pose proof (f_equal is_completed Q2) as H. cbn in H. rewrite H. by destruct o.
    + pose proof (f_equal is_completed (Q3 x Hx)) as H. pose proof (f_equal is_copied (Q3 x Hx)) as H'. cbn in H, H'.
      rewrite H, H'. apply Hdn.
Qed.

(** Reclaiming. *)
Lemma done_len_all f l x : x ∈ take (done_len f l) l -> f x = true.
Proof.
  induction l as [|y l IH]; cbn; [by intros ?%elem_of_nil|]. destruct (f y) eqn:E; cbn; [|by intros ?%elem_of_nil].
  intros [->|?]%elem_of_cons; auto.
Qed.

Lemma jobs_none p q l : (forall x, x ∈ l -> p (wk_at q x) = false) -> jobs p q l = [].
Proof.
  induction l as [|x l IH]; intros H; [done|]. rewrite jobs_cons, (H x) by by left. apply IH. intros y Hy. apply H. by right.
Qed.

Lemma sys_reclaim acc effs k curr io free : sys_inv acc effs k curr io free ->
  exists k', reclaim k = Ok k' /\ sys_inv acc effs k' curr (drop (done_len (done_at k) io) io) (free ++ take (done_len (done_at k) io) io).
Proof.
  intros [W Hacc Hcopy Hz Hc Ht Hdn]. destruct (reclaim_spec _ _ _ W) as (k' & E & [R1 [_ R2] R3]). exists k'. split; [done|].
  set (n := done_len (done_at k) io) in *. pose proof (take_drop n io) as Hio.
  assert (HD : forall x, x ∈ take n io -> is_completed (wk_at (work_queue k) x) = true).
  { intros x Hx%done_len_all. unfold done_at, reclaimable in Hx. by apply andb_true_iff in Hx as [[? _]%andb_true_iff _]. }
  assert (Hd : forall x, is_completed (wk_at (work_queue k') x) = is_completed (wk_at (work_queue k) x)).
  { intros x. exact (f_equal is_completed (R2 x)). }
  assert (Hj : forall p, Payload p -> (forall w, is_completed w = true -> p w = false) ->
    jobs p (work_queue k) io = jobs p (work_queue k') (drop n io)).
  { intros p Hp Hpc. rewrite (jobs_ext p (work_queue k) (work_queue k')) by (intros; apply R2).
    rewrite <- Hio at 1. rewrite jobs_app, jobs_none; [done|]. intros x Hx. by apply Hpc, HD. }
  split; [exact R1| | | | |done|].
  - rewrite <- (Hj waiting); [done|apply _|]. intros w Hw. unfold waiting. by rewrite Hw.
  - rewrite <- (Hj waiting_copied); [done|apply _|]. intros w Hw. unfold waiting_copied. by rewrite Hw.
  - intros x. pose proof (f_equal result0 (R2 x)). pose proof (f_equal result1 (R2 x)). destruct (Hz x). cbn in *. by split; congruence.
  - destruct Hc as [Hc|[Hc|(F1 & F2 & -> & Hf)]]; [by left| |].
    + rewrite <- Hio in Hc. apply elem_of_app in Hc as [Hc|Hc]; [|by right; left]. right. right.
      apply list_elem_of_split in Hc as (D1 & D2 & HD12). rewrite HD12. exists (free ++ D1), D2. split; [by rewrite <- app_assoc|].
      intros x Hx. rewrite Hd. apply HD. rewrite HD12. set_solver.
    + right. right. exists F1, (F2 ++ take n io). split; [by rewrite <- app_assoc|].
      intros x [->|[Hx|Hx]%elem_of_app]%elem_of_cons; rewrite Hd; [apply Hf; by left|apply Hf; by right|by apply HD].
  - intros x. rewrite Hd. pose proof (f_equal is_copied (R2 x)) as H. cbn in H. rewrite H. apply Hdn.
Qed.

(** Changing the flags of an entry. *)
Lemma flags_inv k io free i a b : worker_inv k io free -> i ∈ io ++ free ->
  worker_inv (set_queue k (zset (work_queue k) i (set_flags a b (wk_at (work_queue k) i)))) io free.
Proof.
  intros W Hi. assert (0 <= i < zlen (work_queue k)) as Hr by by apply (inv_range _ _ _ W).
  assert (forall x, next (wk_at (zset (work_queue k) i (set_flags a b (wk_at (work_queue k) i))) x) = next (wk_at (work_queue k) x) /\
    prev (wk_at (zset (work_queue k) i (set_flags a b (wk_at (work_queue k) i))) x) = prev (wk_at (work_queue k) x)) as Hl.
  { intros x. rewrite wk_at_zset by done. case_decide; [by subst|done]. }
  destruct W as [W1 W2 W3 W4 W5 W6 W7 W8 W9]. split; try done.
  - cbn [set_queue work_queue]. by rewrite length_zset.
  - eapply sll_ext; [|exact W6]. intros x _. apply Hl.
  - eapply dll_ext; [|exact W9]. intros x _. apply Hl.
Qed.

Lemma latest_inv k io free t : worker_inv k io free -> worker_inv (set_latest k t) io free.
Proof. by intros []. Qed.

(** The entry after one in service, and after a finished one on the free list. *)
Lemma next_in_service k io free x : worker_inv k io free -> x ∈ io -> next (wk_at (work_queue k) x) = NIL \/ next (wk_at (work_queue k) x) ∈ io.
Proof.
  intros W Hx. apply list_elem_of_split in Hx as (A & B & E). pose proof (wv_io_links _ _ _ W) as D. rewrite E in D.
  apply dll_app in D as [_ (_ & D & _)]. rewrite D. destruct B as [|y B]; [by left|]. right. rewrite E. cbn. set_solver.
Qed.

Lemma finished_app l l' : finished (l ++ l') = finished l ++ finished l'.
Proof. apply omap_app. Qed.
Lemma copies_app l l' : copies (l ++ l') = copies l ++ copies l'.
Proof. apply omap_app. Qed.

Lemma sys_visit acc effs k curr io free now : sys_inv acc effs k curr io free -> curr <> NIL ->
  exists es curr' k', visit now curr k = Ok (es, curr', k') /\ sys_inv acc (effs ++ es) k' curr' io free.
Proof.
  intros [W Hacc Hcopy Hz Hc Ht Hdn] Hn. destruct Hc as [Hc|Hc]; [done|].
  assert (curr ∈ io ++ free) as Hin by (destruct Hc as [Hc|(F1 & F2 & -> & _)]; set_solver).
  pose proof (inv_range _ _ _ W _ Hin) as Hr. unfold visit. rewrite aget_wk by done. cbn [rbind].
  set (w := wk_at (work_queue k) curr). destruct (is_completed w) eqn:Ew.
  - eexists _, _, _. split; [done|]. rewrite app_nil_r. split; try done; [by apply latest_inv|].
    destruct Hc as [Hc|(F1 & F2 & Hf & Hd)].
    + destruct (next_in_service _ _ _ _ W Hc) as [?|?]; [by left|by right; left].
    + pose proof (wv_free_links _ _ _ W) as D. rewrite Hf in D. apply sll_app in D as [_ [D _]]. fold w in D. rewrite D.
      destruct F2 as [|y F2]; [by left|]. right. right. exists (F1 ++ [curr]), F2. split; [by rewrite <- app_assoc|].
      intros x Hx. apply Hd. by right.
  - assert (curr ∈ io) as Hio.
    { destruct Hc as [Hc|(F1 & F2 & _ & Hd)]; [done|]. pose proof (Hd curr ltac:(by left)) as Hw. fold w in Hw. congruence. }
    cbn [set_latest work_queue]. rewrite aset_in by done. cbn [rbind]. set (fin := nsecs_target w <=? now).
    eexists _, _, _. split; [done|]. apply list_elem_of_split in Hio as (A & B & HAB).
    set (w' := set_flags true fin w). set (q' := zset (work_queue k) curr w').
    assert (Hq' : forall p, Payload p -> jobs p q' io =
      jobs p (work_queue k) A ++ (if p w' then [job_of w] else []) ++ jobs p (work_queue k) B).
    { intros p Hp. pose proof (inv_nodup _ _ _ W) as Hnd. apply NoDup_app in Hnd as (Hnd & _ & _). rewrite HAB in Hnd |- *.
      apply NoDup_app in Hnd as (_ & HA & Hnd). apply NoDup_cons in Hnd as [HB _].
      rewrite jobs_app, jobs_cons. unfold q'. rewrite wk_at_eq by done. change (job_of w') with (job_of w).
      rewrite (jobs_ext p (work_queue k)), (jobs_ext p (work_queue k) _ B); [by destruct (p w')| |];
        intros x Hx; rewrite wk_at_ne; try done; intros ->; [done|]. by apply (HA x Hx); left. }
    assert (Hq : forall p, Payload p -> jobs p (work_queue k) io =
      jobs p (work_queue k) A ++ (if p w then [job_of w] else []) ++ jobs p (work_queue k) B).
    { intros p Hp. rewrite HAB, jobs_app, jobs_cons. fold w. by destruct (p w). }
    assert (Hfin : finished ((if is_copied w || is_internal w then [] else [CopyData (sqid w) (sq_entry w)]) ++
      (if fin then [Finish now (job_of w)] else [])) = if fin then [job_of w] else []).
    { rewrite finished_app. by destruct (is_copied w || is_internal w), fin. }
    assert (Hcp : copies ((if is_copied w || is_internal w then [] else [CopyData (sqid w) (sq_entry w)]) ++
      (if fin then [Finish now (job_of w)] else [])) = if is_copied w then [] else omap data_of [job_of w]).
    { rewrite copies_app. unfold job_of. by destruct (is_copied w), (is_internal w), fin. }
    assert (Hw1 : waiting w' = negb fin) by done. assert (Hw2 : waiting_copied w' = negb fin) by (cbn; apply andb_true_r).
    rewrite Hq in Hacc, Hcopy by apply _.
    assert (waiting w = true) as Hw3 by (unfold waiting; by rewrite Ew).
    assert (waiting_copied w = is_copied w) as Hw4 by (unfold waiting_copied; by rewrite Ew).
    rewrite Hw3 in Hacc. rewrite Hw4 in Hcopy.
    split; cbn [set_queue set_latest work_queue].
    + apply (flags_inv _ _ _ curr true fin (latest_inv _ _ _ now W)). set_solver.
    + fold q'. rewrite Hq', Hacc, finished_app, Hfin by apply _. rewrite Hw1.
      destruct fin; cbn [negb app]; rewrite <- ?app_assoc; [|done].
      apply Permutation_app_head. apply (Permutation_app_swap_app _ [job_of w]).
    + fold q'. rewrite Hq', finished_app, Hfin by apply _. rewrite Hw2.
      rewrite copies_app, Hcp, Hcopy, !omap_app. set (dj := omap data_of [job_of w]) in *.
      set (X := omap data_of (finished effs)). set (a := omap data_of _). set (b := omap data_of (jobs _ _ B)).
      transitivity (X ++ a ++ dj ++ b).
      * rewrite <- !app_assoc. apply Permutation_app_head, Permutation_app_head. destruct (is_copied w).
        -- by rewrite app_nil_r.
        -- cbn [app omap list_omap]. apply Permutation_app_comm.
      * rewrite <- !app_assoc. apply Permutation_app_head. destruct fin; cbn [negb andb omap list_omap app].
        -- apply Permutation_app_swap_app.
        -- done.
    + intros x. unfold q'. rewrite wk_at_zset by done. case_decide; [|apply Hz]. apply (Hz curr).
    + destruct (next_in_service _ _ _ curr W) as [?|?]; [rewrite HAB; set_solver|by left|by right; left].
    + intros t j [Hj|Hj]%elem_of_app; [by eapply Ht|].
      apply elem_of_app in Hj as [Hj|Hj]; [destruct (is_copied w || is_internal w); set_solver|].
      destruct fin eqn:Ef; [|set_solver]. apply list_elem_of_singleton in Hj as [= -> ->].
      assert (job_target (job_of w) = nsecs_target w) as -> by (unfold job_of; by destruct (is_internal w)).
      unfold fin in Ef. lia.
    + intros x. unfold q'. rewrite wk_at_zset by done. case_decide; [done|apply Hdn].
Qed.

Lemma reach_inv acc effs s : reach acc effs s -> exists io free, sys_inv acc effs (sys_worker s) (sys_curr s) io free.
Proof.
  induction 1 as [id|acc effs k curr o b k' _ (io & free & I) E|acc effs k curr k' _ (io & free & I) E|acc effs k _ (io & free & I)
    |acc effs k curr now es curr' k' _ (io & free & I) Hn E]; cbn [sys_worker sys_curr] in *.
  - eexists _, _. apply sys_init.
  - by eapply sys_enqueue.
  - destruct (sys_reclaim _ _ _ _ _ _ I) as (k1 & E1 & I1). rewrite E in E1. injection E1 as ->. eauto.
  - exists io, free. destruct I. split; try done. rewrite (wv_io_seq _ _ _ si_inv0). destruct io; [by left|right; left; by left].
  - destruct (sys_visit _ _ _ _ _ _ now I Hn) as (es1 & c1 & k1 & E1 & I1). rewrite E in E1. injection E1 as -> -> ->. eauto.
Qed.

(** ** A pass when everything is due *)
Lemma visit_due k io free x now : worker_inv k io free -> x ∈ io -> nsecs_target (wk_at (work_queue k) x) <= now ->
  (is_completed (wk_at (work_queue k) x) = true -> is_copied (wk_at (work_queue k) x) = true) ->
  exists es k', visit now x k = Ok (es, next (wk_at (work_queue k) x), k') /\
    finished es = jobs waiting (work_queue k) [x] /\ io_seq k' = io_seq k /\ latest_nsecs k' = now /\
    (forall y, nsecs_target (wk_at (work_queue k') y) = nsecs_target (wk_at (work_queue k) y)) /\
    (forall y, y <> x -> wk_at (work_queue k') y = wk_at (work_queue k) y) /\
    is_completed (wk_at (work_queue k') x) = true /\ is_copied (wk_at (work_queue k') x) = true.
Proof.
  intros W Hx Ht Hdn. assert (0 <= x < zlen (work_queue k)) as Hr by (apply (inv_range _ _ _ W); set_solver).
  unfold visit. rewrite aget_wk by done. cbn [rbind]. rewrite jobs_cons. unfold waiting at 1.
  set (w := wk_at (work_queue k) x) in *. destruct (is_completed w) eqn:Ew.
  - eexists _, _. split; [done|]. cbn. fold w. rewrite Ew. split_and!; auto.
  - cbn [set_latest work_queue]. rewrite aset_in by done. cbn [rbind]. replace (nsecs_target w <=? now) with true by lia.
    eexists _, _. split; [done|]. cbn [set_queue work_queue io_seq latest_nsecs]. rewrite finished_app. split_and!; try done.
    + by destruct (is_copied w || is_internal w).
    + intros y. rewrite wk_at_zset by done. case_decide; [by subst|done].
    + intros y Hy. by rewrite wk_at_ne.
    + by rewrite wk_at_eq.
    + by rewrite wk_at_eq.
Qed.

(** What a pass over the rest [L] of the queue leaves. *)
Record pass_done (k k' : nvmev_io_worker) (io L : list Z) : Prop := {
  pd_targets y : nsecs_target (wk_at (work_queue k') y) = nsecs_target (wk_at (work_queue k) y);
  pd_all x : x ∈ io -> is_completed (wk_at (work_queue k') x) = true /\ is_copied (wk_at (work_queue k') x) = true;
  pd_latest x : L <> [] -> x ∈ io -> nsecs_target (wk_at (work_queue k') x) <= latest_nsecs k';
}.

Section Pass.
Context (clk : clock) (delta : Z) (free : list Z) (acc : list io_job).

Definition reading (u : nat) : Z := u64 (clk LOCAL_CLOCK u + delta).

Lemma pass_due L : forall fuel effs k A t,
  sys_inv acc effs k (hd NIL L) (A ++ L) free -> reach acc effs (mk_sys k (hd NIL L)) -> (length L <= fuel)%nat ->
  (forall u x, (t <= u)%nat -> x ∈ A ++ L -> nsecs_target (wk_at (work_queue k) x) <= reading u) ->
  (forall x, x ∈ A -> is_completed (wk_at (work_queue k) x) = true /\ is_copied (wk_at (work_queue k) x) = true) ->
  exists es t' k', visit_all fuel delta (hd NIL L) clk t k = Ok (es, t', k') /\ finished es = jobs waiting (work_queue k) L /\
    reach acc (effs ++ es) (mk_sys k' NIL) /\ sys_inv acc (effs ++ es) k' NIL (A ++ L) free /\ pass_done k k' (A ++ L) L.
Proof.
  induction L as [|x L IH]; intros fuel effs k A t I R Hf Hdue HA.
  { exists [], t, k. split; [by destruct fuel|]. split; [done|]. rewrite !app_nil_r in *. split; [done|]. split; [done|]. split; [done|exact HA|done]. }
  destruct fuel as [|fuel]; [cbn in Hf; lia|]. cbn [hd] in *. pose proof (si_inv _ _ _ _ _ _ I) as W.
  assert (x ∈ A ++ x :: L) as Hx by set_solver.
  assert (x <> NIL) as Hxn.
  { intros ->. assert (0 <= NIL < NR_MAX_PARALLEL_IO) as H by (apply (inv_in _ _ _ W); set_solver). by apply slot_not_nil in H. }
  destruct (visit_due k _ _ x (reading t) W Hx) as (es & k1 & E & Hfin & Hs & Hl & Htg & Hsame & Hc & Hcp);
    [by apply Hdue|apply (si_done _ _ _ _ _ _ I)|].
  assert (next (wk_at (work_queue k) x) = hd NIL L) as Hnx.
  { pose proof (wv_io_links _ _ _ W) as D. apply dll_app in D as [_ (_ & D & _)]. exact D. }
  rewrite Hnx in E. destruct (sys_visit _ _ _ _ _ _ (reading t) I Hxn) as (es1 & c1 & k2 & E1 & I1).
  rewrite E in E1. injection E1 as <- <- <-.
  assert (reach acc (effs ++ es) (mk_sys k1 (hd NIL L))) as R1 by by eapply reach_visit.
  assert (A ++ x :: L = (A ++ [x]) ++ L) as Hassoc by by rewrite <- app_assoc.
  rewrite Hassoc in I1. destruct (IH fuel (effs ++ es) k1 (A ++ [x]) (S t) I1 R1) as (es2 & t2 & k3 & E2 & F2 & R2 & I2 & [P1 P2 P3]).
  - cbn in Hf. lia.
  - intros u y Hu Hy. rewrite Htg. apply Hdue; [lia|]. by rewrite Hassoc.
  - intros y [Hy|Hy]%elem_of_app; [|by apply list_elem_of_singleton in Hy as ->].
    destruct (decide (y = x)) as [->|Hyx]; [done|]. rewrite Hsame by done. by apply HA.
  - exists (es ++ es2), t2, k3. split.
    { cbn [visit_all]. replace (x =? NIL) with false by lia. rewrite run_clock. fold (reading t).
      rewrite (run_update_get _ _ clk (S t) k (es, hd NIL L) k1) by (by rewrite E). cbn [fst snd].
      by rewrite (run_bind _ _ _ _ _ _ _ _ E2). }
    split.
    { rewrite finished_app, Hfin, F2. rewrite (jobs_ext waiting (work_queue k) (work_queue k1) L); [symmetry; apply (jobs_app waiting _ [x] L)|].
      intros y Hy. rewrite Hsame; [done|]. intros ->. pose proof (inv_nodup _ _ _ W) as Hnd.
      apply NoDup_app in Hnd as (Hnd & _ & _). apply NoDup_app in Hnd as (_ & _ & Hnd). by apply NoDup_cons in Hnd as [? _]. }
    rewrite app_assoc. split; [done|]. rewrite <- Hassoc in *. split; [done|]. split; [by intros y; rewrite P1|done|].
    intros y _ Hy. destruct L as [|z L]; [|by apply P3].
    cbn [hd visit_all] in E2. destruct fuel; cbn in E2; injection E2 as _ _ ->; rewrite Hl, Htg; by apply Hdue.
Qed.
End Pass.

Lemma reclaim_all k io free : worker_inv k io free -> (forall x, x ∈ io -> done_at k x = true) ->
  exists k', reclaim k = Ok k' /\ worker_inv k' [] (free ++ io).
Proof.
  intros W Hd. destruct (reclaim_spec _ _ _ W) as (k' & E & [R _ _]). exists k'. split; [done|].
  assert (done_len (done_at k) io = length io) as Hl.
  { clear R E W. induction io as [|x io IH]; [done|]. cbn. rewrite Hd by by left. f_equal. apply IH. intros y Hy. apply Hd. by right. }
  by rewrite Hl, drop_all, firstn_all in R.
Qed.

(** ** A turn of the worker *)
Definition pass_delta (clk : clock) (t : nat) : Z := i64 (clk CPU_CLOCK t - clk LOCAL_CLOCK (S t)).

Lemma io_pass_eq clk t k : io_pass clk t k = visit_all scan_fuel (pass_delta clk t) (io_seq k) clk (S (S t)) k.
Proof. unfold io_pass. rewrite run_clock, run_clock, run_get. done. Qed.

(** From now on every clock reading of the turn starting at [t] is past the targets. *)
Definition all_due (clk : clock) (t : nat) (k : nvmev_io_worker) : Prop :=
  forall u x, (t < u)%nat -> x ∈ in_service k -> nsecs_target (wk_at (work_queue k) x) <= reading clk (pass_delta clk t) u.

Lemma io_pass_spec clk t acc effs k : reach acc effs (mk_sys k NIL) -> all_due clk t k ->
  exists es t' k' k'', io_pass clk t k = Ok (es, t', k') /\ finished es = pending k /\
    reach acc (effs ++ es) (mk_sys k' NIL) /\ reclaim k' = Ok k'' /\ in_service k'' = [] /\ acc ≡ₚ finished (effs ++ es).
Proof.
  intros R Hdue. destruct (reach_inv _ _ _ R) as (io & free & I). cbn [sys_worker sys_curr] in I.
  pose proof (si_inv _ _ _ _ _ _ I) as W. unfold all_due, pending in *. rewrite (in_service_inv _ _ _ W) in *.
  pose proof (reach_start _ _ _ R) as R1. pose proof (wv_io_seq _ _ _ W) as Hs.
  destruct (pass_due clk (pass_delta clk t) free acc io scan_fuel effs k [] (S (S t))) as (es & t' & k' & E & F & R2 & I2 & P).
  - rewrite <- Hs. destruct (reach_inv _ _ _ R1) as (io1 & free1 & I1). cbn [sys_worker sys_curr] in I1.
    destruct I. split; try done. rewrite Hs. destruct io; [by left|right; left; by left].
  - by rewrite <- Hs.
  - apply (inv_fuel _ _ _ W).
  - intros u x Hu Hx. apply Hdue; [lia|done].
  - by intros x ?%elem_of_nil.
  - cbn [app] in *. pose proof (si_inv _ _ _ _ _ _ I2) as W2.
    assert (Hall : forall x, x ∈ io -> done_at k' x = true).
    { intros x Hx. unfold done_at, reclaimable. destruct (pd_all _ _ _ _ P x Hx) as [-> ->]. cbn [andb].
      pose proof (pd_latest _ _ _ _ P x) as Hl. apply Z.leb_le, Hl; [|done]. intros ->. by apply elem_of_nil in Hx. }
    destruct (reclaim_all _ _ _ W2 Hall) as (k'' & E2 & W3).
    exists es, t', k', k''. split; [by rewrite io_pass_eq, Hs|]. split; [done|]. split; [done|]. split; [done|].
    split; [by apply (in_service_inv _ _ _ W3)|]. rewrite (si_acc _ _ _ _ _ _ I2), jobs_none; [by rewrite app_nil_r|].
    intros x Hx. unfold waiting. by destruct (pd_all _ _ _ _ P x Hx) as [-> _].
Qed.

(** ** The order of the queue *)

(** Entries that are due, in any order, before the others, sorted by target. *)
Definition ordered (k : nvmev_io_worker) (l : list Z) : Prop :=
  exists P Q, l = P ++ Q /\ (forall x, x ∈ P -> nsecs_target (wk_at (work_queue k) x) <= latest_nsecs k) /\
    StronglySorted Z.le ((fun x => nsecs_target (wk_at (work_queue k) x)) <$> Q).

Lemma place_at_last stay l A c : take (place_at stay l) l = A ++ [c] -> stay c = true.
Proof.
  induction l as [|x l IH] using rev_ind; [by destruct A|]. rewrite place_at_snoc. destruct (stay x) eqn:E.
  - rewrite take_ge by (rewrite length_app; cbn; lia). by intros [_ [= <-]]%app_inj_2.
  - rewrite take_app_le by apply place_at_le. done.
Qed.

Section Order.
Context (f : Z -> Z) (lat : Z) (e : Z).

Let split_at (l P Q : list Z) : Prop := l = P ++ Q /\ (forall x, x ∈ P -> f x <= lat) /\ StronglySorted Z.le (f <$> Q).

(** Sorted below, then [e], then later ones. *)
Lemma sorted_insert l R : StronglySorted Z.le (f <$> l ++ R) -> (forall x, x ∈ l -> f x <= f e) -> (forall x, x ∈ R -> f e < f x) ->
  StronglySorted Z.le (f <$> l ++ e :: R).
Proof.
  rewrite !fmap_app, fmap_cons, !StronglySorted_app. intros (H1 & H2 & H3) Hl HR. split; [|split; [done|]].
  - intros x1 x2 Hx1 [->|Hx2]%elem_of_cons; [|by apply H1]. apply list_elem_of_fmap in Hx1 as (y & -> & Hy). by apply Hl.
  - constructor; [done|]. apply Forall_forall. intros x (y & -> & Hy)%list_elem_of_fmap. specialize (HR y Hy). lia.
Qed.

Lemma ordered_place l P Q : split_at l P Q ->
  exists P' Q', split_at (placed (fun x => (f x <=? lat) || (f x <=? f e)) e l) P' Q'.
Proof.
  intros (Hl & HP & HQ). unfold placed. set (stay := fun x : Z => (f x <=? lat) || (f x <=? f e)).
  pose proof (place_at_rest stay l) as HR. pose proof (place_at_last stay l) as HA. pose proof (take_drop (place_at stay l) l) as Hlr.
  set (A := take (place_at stay l) l) in *. set (R := drop (place_at stay l) l) in *. clearbody A R.
  assert (forall x, x ∈ R -> lat < f x /\ f e < f x) as HR'.
  { intros x Hx. specialize (HR x Hx). unfold stay in HR. lia. }
  rewrite Hl in Hlr. apply app_eq_app in Hlr as (m & [[-> ->]|[-> ->]]).
  - assert (StronglySorted Z.le (f <$> e :: R)) as HeR.
    { apply (sorted_insert [] R); [|by intros x ?%elem_of_nil|intros x Hx; by apply HR'].
      rewrite fmap_app in HQ. by apply StronglySorted_app_1_r in HQ. }
    destruct m as [|c m _] using rev_ind.
    { exists P, (e :: R). by rewrite app_nil_r. }
    assert (forall x, x ∈ m ++ [c] -> f x <= f c) as Hmc.
    { intros x [Hx|Hx]%elem_of_app; [|by apply list_elem_of_singleton in Hx as ->].
      rewrite !fmap_app in HQ. apply StronglySorted_app_1_l in HQ. eapply StronglySorted_app_1_elem_of; [exact HQ| |]; set_solver. }
    specialize (HA (P ++ m) c ltac:(by rewrite app_assoc)). unfold stay in HA. apply orb_true_iff in HA as [Hc%Z.leb_le|Hc%Z.leb_le].
    + exists (P ++ m ++ [c]), (e :: R). split; [done|]. split; [|done]. intros x [Hx|Hx]%elem_of_app; [by apply HP|].
      specialize (Hmc x Hx). lia.
    + exists P, ((m ++ [c]) ++ e :: R). split; [by rewrite <- !app_assoc|]. split; [done|]. apply sorted_insert; [done| |].
      * intros x Hx. specialize (Hmc x Hx). lia.
      * intros x Hx. by apply HR'.
  - assert (m = []) as ->.
    { destruct m as [|y m]; [done|]. destruct (HR' y); [by left|]. specialize (HP y ltac:(set_solver)). lia. }
    rewrite app_nil_r in HP. exists A, (e :: Q). split; [done|]. split; [done|].
    apply (sorted_insert [] Q); [done|by intros x ?%elem_of_nil|]. intros x Hx. by apply HR'.
Qed.
End Order.

Lemma ordered_ext k k' l : (forall x, x ∈ l -> nsecs_target (wk_at (work_queue k') x) = nsecs_target (wk_at (work_queue k) x)) ->
  latest_nsecs k <= latest_nsecs k' -> ordered k l -> ordered k' l.
Proof.
  intros H Hl (P & Q & -> & HP & HQ). exists P, Q. split; [done|]. split.
  - intros x Hx. rewrite H by set_solver. specialize (HP x Hx). lia.
  - rewrite (list_fmap_ext _ (fun x => nsecs_target (wk_at (work_queue k) x))); [done|].
    intros i x Hx. apply H. apply elem_of_app. right. by eapply list_elem_of_lookup_2.
Qed.

(** An accepted operation goes behind every entry that is due or not later than it, in
    front of the others, and keeps the order. *)
Lemma enqueue_ordered k io free o k' : worker_inv k io free -> enqueue (op_fill o) (op_target o) k = Ok (true, k') ->
  exists e A B, in_service k = A ++ B /\ in_service k' = A ++ e :: B /\ job_of (wk_at (work_queue k') e) = job_of (op_fill o (wk_at (work_queue k) e)) /\
    (forall x, x ∈ B -> Z.max (latest_nsecs k) (op_target o) < nsecs_target (wk_at (work_queue k') x)) /\
    (A = [] \/ exists A' c, A = A' ++ [c] /\ nsecs_target (wk_at (work_queue k') c) <= Z.max (latest_nsecs k) (op_target o)) /\
    (ordered k (in_service k) -> ordered k' (in_service k')).
Proof.
  intros W E. destruct free as [|e [|y F]]; [by destruct (wv_free _ _ _ W)| |].
  { by rewrite (enqueue_full _ _ _ W _ _ e) in E. }
  destruct (enqueue_spec _ _ _ W (op_fill o) (op_target o) e y F (op_links o) eq_refl) as (k1 & E1 & [Q1 Q2 Q3 Q4]).
  rewrite E in E1. injection E1 as ->. rewrite (in_service_inv _ _ _ W), (in_service_inv _ _ _ Q1).
  set (stay := stays (work_queue k) (latest_nsecs k) (op_target o)) in *. unfold placed.
  exists e, (take (place_at stay io) io), (drop (place_at stay io) io). split; [by rewrite take_drop|]. split; [done|].
  assert (He : forall x, x ∈ io -> x <> e) by (intros x Hx ->; apply (inv_disj _ _ _ W e Hx); by left).
  assert (Ht : forall x, x ∈ io -> nsecs_target (wk_at (work_queue k1) x) = nsecs_target (wk_at (work_queue k) x)).
  { intros x Hx. exact (f_equal nsecs_target (Q3 x (He x Hx))). }
  assert (Hte : nsecs_target (wk_at (work_queue k1) e) = op_target o).
  { rewrite (strip_target _ _ Q2). by destruct o. }
  split; [exact (payload_eq job_of _ _ Q2)|]. split_and!.
  - intros x Hx. rewrite Ht by (rewrite <- (take_drop (place_at stay io) io); set_solver).
    apply place_at_rest in Hx. unfold stay, stays in Hx. lia.
  - destruct (take (place_at stay io) io) as [|c A _] eqn:HA using rev_ind; [by left|]. right. exists A, c. split; [done|].
    rewrite Ht by (rewrite <- (take_drop (place_at stay io) io), HA; set_solver).
    apply place_at_last in HA. unfold stay, stays in HA. lia.
  - intros (P & Q & Hl & HP & HQ). fold (placed stay e io).
    destruct (ordered_place (fun x => nsecs_target (wk_at (work_queue k1) x)) (latest_nsecs k) e io P Q) as (P' & Q' & H1 & H2 & H3).
    { split; [done|]. split.
      - intros x Hx. rewrite Ht by (rewrite Hl; set_solver). by apply HP.
      - rewrite (list_fmap_ext _ (fun x => nsecs_target (wk_at (work_queue k) x))); [done|].
        intros i x Hx. apply Ht. rewrite Hl. apply elem_of_app. right. by eapply list_elem_of_lookup_2. }
    exists P', Q'. rewrite Q4. split_and!; [|done|done]. rewrite <- H1. unfold placed.
    erewrite (place_at_ext stay); [done|]. intros x Hx. cbn. by rewrite Hte, Ht.
Qed.
