(* ===== verification/IoQueue.v ===== *)
(** * io.c: completion queues

    [__fill_cq_result] writes completions round a ring in host memory and inverts the
    phase bit at every lap; the host, which never reads the device's head, recognises
    new entries by that bit.  [reap] is the host's side of the protocol.  The
    specification: while at most a ring of entries is outstanding, reaping returns
    exactly what was posted, in order, and nothing else. *)

From Stdlib Require Import ZArith Lia.
From stdpp Require Import base list numbers sets.
From S2P Require Import Prelude WorkQueue IoWorker.

Record nvme_completion : Type := mk_cqe {
  cqe_result0 : Z;      (* __le32 *)
  cqe_result1 : Z;
  cqe_sq_head : Z;      (* __le16 *)
  cqe_sq_id : Z;
  cqe_command_id : Z;
  cqe_status : Z;
}.

(** The ring is one array; the page table of [cq_entry] only splits it into pages. *)
Record nvmev_completion_queue : Type := mk_cq {
  cq_queue_size : Z;
  phase : Z;
  cq_head : Z;
  cq_tail : Z;
  irq_enabled : bool;
  irq_vector : Z;
  interrupt_ready : bool;
  cq_entries : list nvme_completion;
}.

Definition cq_set (q : nvmev_completion_queue) (ph head : Z) (ready : bool) (es : list nvme_completion) : nvmev_completion_queue :=
  mk_cq (cq_queue_size q) ph head (cq_tail q) (irq_enabled q) (irq_vector q) ready es.

Definition cqe_of (ph : Z) (sqid sq_entry command_id status result0 result1 : Z) : nvme_completion :=
  mk_cqe (u32 result0) (u32 result1) (u16 sq_entry) (u16 sqid) (u16 command_id) (u16 (Z.lor ph (u32 (Z.shiftl status 1)))).

(** An internal operation posts nothing. *)
Definition __fill_cq_result (j : io_job) (q : nvmev_completion_queue) : res nvmev_completion_queue :=
  match j with
  | Release _ _ _ => Ok q
  | Request sqid _ sq_entry command_id status result0 result1 _ =>
      let! es := aset (cq_entries q) (cq_head q) (cqe_of (phase q) sqid sq_entry command_id status result0 result1) in
      let head := cq_head q + 1 in
      if head =? cq_queue_size q then Ok (cq_set q (if phase q =? 0 then 1 else 0) 0 true es)
      else Ok (cq_set q (phase q) head true es)
  end.

Fixpoint fill_all (js : list io_job) (q : nvmev_completion_queue) : res nvmev_completion_queue :=
  match js with
  | [] => Ok q
  | j :: js => let! q := __fill_cq_result j q in fill_all js q
  end.

(** [nvmev_proc_io_cq]: the tail; entry [new_db - 1] was the last one consumed. *)
Definition set_tail (new_db : Z) (q : nvmev_completion_queue) : nvmev_completion_queue :=
  mk_cq (cq_queue_size q) (phase q) (cq_head q)
    (if new_db =? -1 then cq_queue_size q - 1 else new_db - 1) (irq_enabled q) (irq_vector q) (interrupt_ready q) (cq_entries q).

(** The interrupt part of a turn of [nvmev_io_worker]: the vector signalled, if any. *)
Definition raise_irq (q : nvmev_completion_queue) : option Z * nvmev_completion_queue :=
  if irq_enabled q && interrupt_ready q
  then (Some (irq_vector q), cq_set q (phase q) (cq_head q) false (cq_entries q))
  else (None, q).

(** ** The host *)
Fixpoint reap (fuel : nat) (size : Z) (es : list nvme_completion) (hd ph : Z) : list nvme_completion :=
  match fuel with
  | O => []
  | S fuel =>
      match zget es hd with
      | Some c =>
          if Z.land (cqe_status c) 1 =? ph then
            c :: (if hd + 1 =? size then reap fuel size es 0 (1 - ph) else reap fuel size es (hd + 1) ph)
          else []
      | None => []
      end
  end.

(** ** Positions: the [n]-th entry since the queue was created *)
Section Ring.
Context (N : Z) (HN : 0 < N).

Definition phase_at (n : Z) : Z := 1 - (n / N) mod 2.

Lemma phase_bit n : phase_at n = 0 \/ phase_at n = 1.
Proof. unfold phase_at. pose proof (Z.mod_pos_bound (n / N) 2). lia. Qed.

Lemma phase_lap n : phase_at (n + N) = 1 - phase_at n.
Proof.
  unfold phase_at. replace (n + N) with (n + 1 * N) by lia. rewrite Z.div_add by lia.
  pose proof (Z.mod_pos_bound (n / N) 2). rewrite <- Z.add_mod_idemp_l by lia.
  assert ((n / N) mod 2 = 0 \/ (n / N) mod 2 = 1) as [-> | ->] by lia; done.
Qed.

(** The head and the phase bit step together. *)
Lemma step_mod n : (n + 1) mod N = (if n mod N + 1 =? N then 0 else n mod N + 1) /\
  phase_at (n + 1) = (if n mod N + 1 =? N then 1 - phase_at n else phase_at n).
Proof.
  pose proof (Z.div_mod n N ltac:(lia)) as E. pose proof (Z.mod_pos_bound n N HN) as Hb.
  destruct (Z.eqb_spec (n mod N + 1) N) as [H|H].
  - assert (n + 1 = (n / N + 1) * N) as En by lia. split; [rewrite En; apply Z.mod_mul; lia|].
    unfold phase_at at 1. rewrite En, Z.div_mul by lia. unfold phase_at.
    pose proof (Z.mod_pos_bound (n / N) 2). rewrite <- Z.add_mod_idemp_l by lia.
    assert ((n / N) mod 2 = 0 \/ (n / N) mod 2 = 1) as [-> | ->] by lia; done.
  - assert (n + 1 = N * (n / N) + (n mod N + 1)) as En by lia.
    assert ((n + 1) / N = n / N) as Ed by (symmetry; eapply Z.div_unique_pos; [|exact En]; lia).
    split; [symmetry; eapply Z.mod_unique_pos; [|exact En]; lia|]. unfold phase_at. by rewrite Ed.
Qed.

(** Two positions less than a lap apart have different slots. *)
Lemma slot_inj i j : i mod N = j mod N -> i < j -> j < i + N -> False.
Proof.
  intros H H1 H2. pose proof (Z.div_mod i N ltac:(lia)). pose proof (Z.div_mod j N ltac:(lia)).
  assert (i / N <> j / N) by (intros E; rewrite E in *; lia). assert (i / N < j / N) by nia. nia.
Qed.
End Ring.

Lemma status_phase ph st : ph = 0 \/ ph = 1 -> Z.land (u16 (Z.lor ph (u32 (Z.shiftl st 1)))) 1 = ph.
Proof.
  intros Hph. change 1 with (Z.ones 1) at 2. rewrite Z.land_ones by lia. change (2 ^ 1) with 2.
  rewrite Zmod_odd, <- Z.bit0_odd. unfold u16. rewrite Z.mod_pow2_bits_low by lia. rewrite Z.lor_spec.
  unfold u32. rewrite (Z.mod_pow2_bits_low _ 32 0) by lia. rewrite Z.shiftl_spec by lia.
  rewrite (Z.testbit_neg_r st) by lia. rewrite orb_false_r. by destruct Hph as [-> | ->].
Qed.

Definition is_request (j : io_job) : bool := match j with Request _ _ _ _ _ _ _ _ => true | Release _ _ _ => false end.
Definition requests (js : list io_job) : list io_job := filter (fun j => is_request j = true) js.

(** The entry of a request posted with phase bit [ph]. *)
Definition cqe_job (ph : Z) (j : io_job) : nvme_completion :=
  match j with
  | Request sqid _ sq_entry command_id status result0 result1 _ => cqe_of ph sqid sq_entry command_id status result0 result1
  | Release _ _ _ => mk_cqe 0 0 0 0 0 0
  end.

(** A new queue, in memory the host has cleared. *)
Record cq_fresh (q : nvmev_completion_queue) : Prop := {
  cf_size : 0 < cq_queue_size q <= zlen (cq_entries q);
  cf_head : cq_head q = 0;
  cf_phase : phase q = 1;
  cf_clear i c : zget (cq_entries q) i = Some c -> Z.land (cqe_status c) 1 = 0;
}.

(** After the requests [js]: the last lap is in the ring. *)
Record cq_holds (N : Z) (js : list io_job) (q : nvmev_completion_queue) : Prop := {
  ch_size : cq_queue_size q = N;
  ch_len : N <= zlen (cq_entries q);
  ch_head : cq_head q = zlen js mod N;
  ch_phase : phase q = phase_at N (zlen js);
  ch_entry i j : zlen js - N <= i -> zget js i = Some j -> zget (cq_entries q) (i mod N) = Some (cqe_job (phase_at N i) j);
  ch_clear i : zlen js <= i < N -> exists c, zget (cq_entries q) i = Some c /\ Z.land (cqe_status c) 1 = 0;
}.

Lemma zget_snoc {A} (l : list A) x i : zget (l ++ [x]) i = if i =? zlen l then Some x else zget l i.
Proof.
  unfold zget. destruct (Z.eqb_spec i (zlen l)) as [->|Hi].
  - rewrite (proj2 (Z.ltb_ge _ 0)) by lia. rewrite Nat2Z.id. by rewrite lookup_app_r, Nat.sub_diag by lia.
  - destruct (Z.ltb_spec i 0); [done|]. destruct (decide (i < zlen l)); [by rewrite lookup_app_l by lia|].
    rewrite !lookup_ge_None_2; [done|lia|]. rewrite length_app. cbn. lia.
Qed.

Lemma fill_holds N js q j : 0 < N -> cq_holds N js q -> is_request j = true ->
  exists q', __fill_cq_result j q = Ok q' /\ cq_holds N (js ++ [j]) q'.
Proof.
  intros HN [Hs Hl Hh Hp He Hc] Hj. destruct j as [sqid cqid sqe cid st r0 r1 tg|]; [clear Hj|done]. unfold __fill_cq_result.
  set (n := zlen js) in *. pose proof (Z.mod_pos_bound n N HN) as Hb.
  rewrite aset_in by (rewrite Hh; lia). cbn [rbind]. set (es := zset _ _ _).
  set (jj := Request sqid cqid sqe cid st r0 r1 tg).
  assert (zlen (js ++ [jj]) = n + 1) as Hn by (rewrite length_app; cbn; lia).
  destruct (step_mod N HN n) as [S1 S2]. rewrite Hs, Hh.
  assert (zlen es = zlen (cq_entries q)) as Hes by (unfold es; by rewrite length_zset).
  assert (He' : forall i k, n + 1 - N <= i -> zget (js ++ [jj]) i = Some k -> zget es (i mod N) = Some (cqe_job (phase_at N i) k)).
  { intros i k Hi Hk. rewrite zget_snoc in Hk. fold n in Hk. unfold es. rewrite Hh. destruct (Z.eqb_spec i n) as [->|Hin].
    - injection Hk as <-. rewrite zget_zset_eq by lia. by rewrite Hp.
    - pose proof (zget_range _ _ _ Hk) as Hr. fold n in Hr. rewrite zget_zset_ne; [apply He; [lia|done]|].
      intros E. symmetry in E. apply (slot_inj N HN i n E); lia. }
  assert (Hc' : forall i, n + 1 <= i < N -> exists c, zget es i = Some c /\ Z.land (cqe_status c) 1 = 0).
  { intros i Hi. unfold es. rewrite Hh, Z.mod_small by lia. rewrite zget_zset_ne by lia. apply Hc. lia. }
  revert S1 S2. destruct (n mod N + 1 =? N); intros S1 S2; (eexists; split; [done|]);
    split; cbn [cq_set cq_queue_size phase cq_head cq_entries]; rewrite ?Hn, ?Hes, ?S1, ?S2, ?Hp; try done.
  by destruct (phase_bit N n) as [-> | ->].
Qed.

Lemma fresh_holds q : cq_fresh q -> cq_holds (cq_queue_size q) [] q.
Proof.
  intros [Hs Hh Hp Hc]. split; try done; [lia| |].
  - intros i j _ Hj. apply zget_range in Hj. cbn in Hj. lia.
  - intros i Hi. cbn in Hi. destruct (zget_Some (cq_entries q) i) as (c & Hg); [lia|]. eauto.
Qed.

Lemma fill_all_holds N js : 0 < N -> forall js0 q, cq_holds N js0 q ->
  exists q', fill_all js q = Ok q' /\ cq_holds N (js0 ++ requests js) q'.
Proof.
  intros HN. induction js as [|j js IH]; intros js0 q H; cbn [fill_all].
  { exists q. split; [done|]. by rewrite app_nil_r. }
  unfold requests. rewrite filter_cons. fold (requests js). destruct (is_request j) eqn:Ej.
  - destruct (fill_holds N js0 q j HN H Ej) as (q1 & E1 & H1). rewrite E1. cbn [rbind].
    destruct (IH (js0 ++ [j]) q1 H1) as (q' & E & Hh). exists q'. split; [done|]. rewrite decide_True by done.
    by rewrite <- app_assoc in Hh.
  - rewrite decide_False by done. destruct j; [done|]. cbn. by apply IH.
Qed.

(** What the host finds from position [n] on. *)
Fixpoint expected (N n : Z) (js : list io_job) : list nvme_completion :=
  match js with
  | [] => []
  | j :: js => cqe_job (phase_at N n) j :: expected N (n + 1) js
  end.

Lemma cqe_job_phase N n j : is_request j = true -> Z.land (cqe_status (cqe_job (phase_at N n) j)) 1 = phase_at N n.
Proof. intros Hj. destruct j; [|done]. apply status_phase, phase_bit. Qed.

(** The slot after the last entry holds none of this lap. *)
Lemma reap_stop N js q fuel : 0 < N -> cq_holds N js q -> Forall (fun j => is_request j = true) js ->
  reap fuel N (cq_entries q) (zlen js mod N) (phase_at N (zlen js)) = [].
Proof.
  intros HN [_ Hl _ _ He Hc] Hr. destruct fuel as [|fuel]; [done|]. cbn [reap]. set (n := zlen js) in *.
  destruct (decide (n < N)) as [Hlt|Hge].
  - rewrite Z.mod_small by lia. destruct (Hc n) as (c & -> & Hb); [lia|]. rewrite Hb.
    unfold phase_at. rewrite Z.div_small by lia. done.
  - destruct (zget_Some js (n - N)) as (j & Hj); [lia|]. pose proof (He (n - N) j ltac:(lia) Hj) as Hg.
    replace ((n - N) mod N) with (n mod N) in Hg by (replace n with (n - N + 1 * N) at 1 by lia; apply Z.mod_add; lia).
    rewrite Hg. rewrite Forall_forall in Hr.
    rewrite cqe_job_phase by (apply Hr; unfold zget in Hj; case_match; [done|]; by eapply list_elem_of_lookup_2).
    pose proof (phase_lap N HN (n - N)) as Hph. replace (n - N + N) with n in Hph by lia. rewrite Hph.
    by destruct (phase_bit N (n - N)) as [-> | ->].
Qed.

Lemma reap_holds N js q : 0 < N -> cq_holds N js q -> Forall (fun j => is_request j = true) js ->
  forall k fuel, (k <= length js)%nat -> Z.of_nat k <= N -> (k <= fuel)%nat ->
  reap fuel N (cq_entries q) ((zlen js - Z.of_nat k) mod N) (phase_at N (zlen js - Z.of_nat k)) =
    expected N (zlen js - Z.of_nat k) (drop (length js - k) js).
Proof.
  intros HN H Hr. induction k as [|k IH]; intros fuel Hk HkN Hf.
  { rewrite Z.sub_0_r, Nat.sub_0_r, drop_all. by apply reap_stop. }
  destruct fuel as [|fuel]; [lia|]. cbn [reap]. set (m := zlen js - Z.of_nat (S k)).
  destruct (lookup_lt_is_Some_2 js (length js - S k)%nat) as [j Hj]; [lia|].
  assert (zget js m = Some j) as Hz.
  { unfold zget. replace (m <? 0) with false by lia. by replace (Z.to_nat m) with (length js - S k)%nat by lia. }
  rewrite (ch_entry _ _ _ H m j ltac:(lia) Hz). rewrite Forall_forall in Hr.
  rewrite cqe_job_phase, Z.eqb_refl by (apply Hr; by eapply list_elem_of_lookup_2).
  rewrite (drop_S _ _ _ Hj). cbn [expected]. f_equal. replace (S (length js - S k)) with (length js - k)%nat by lia.
  replace (m + 1) with (zlen js - Z.of_nat k) by lia.
  rewrite <- (IH fuel) by lia. destruct (step_mod N HN m) as [S1 S2]. replace (m + 1) with (zlen js - Z.of_nat k) in S1, S2 by lia.
  rewrite S1, S2. by destruct (m mod N + 1 =? N).
Qed.

Lemma requests_all js : Forall (fun j => is_request j = true) (requests js).
Proof. apply Forall_forall. intros j Hj. unfold requests in Hj. by apply list_elem_of_filter in Hj as [? _]. Qed.
