(* ===== verification/Dispatch.v ===== *)
(** * io.c: the dispatcher's side of the I/O queues

    [nvmev_proc_io_sq] takes commands from a submission queue, hands each to its
    namespace, and passes the operations the namespace schedules and the request
    itself to an I/O worker.  What the namespaces have in common, [proc_io_cmd] of
    [struct nvmev_ns], is the class [Namespace]; [ServableNamespace] adds what the
    dispatcher may rely on, and every namespace type of the development implements it. *)

From Stdlib Require Import ZArith Lia.
From stdpp Require Import base list numbers sets.
From S2P Require Import Prelude WorkQueue IoWorker IoQueue.
From S2P Require Nvme Config.

(** ** Namespaces *)

(** A scheduled internal operation: queue, target time, buffer, bytes. *)
Record scheduled_op : Type := mk_scheduled { so_sqid : Z; so_target : Z; so_buffer : Z; so_bytes : Z }.

(** [proc_io_cmd] may rewrite the command in the submission queue (zone append does);
    it returns it with the answer.  [ns_scheduled]: the internal operations scheduled
    so far, oldest first; [schedule_internal_operation] of each follows in order. *)
Class Namespace (N C : Type) : Type := {
  proc_io_cmd : C -> Z -> Z -> Nvme.nvmev_result -> M N (bool * Nvme.nvmev_result * C);
  ns_scheduled : N -> list scheduled_op;
}.

(** [can_serve n cs]: the namespace can take the commands [cs] one after the other. *)
Class ServableNamespace (N C : Type) `{Namespace N C} : Type := {
  can_serve : N -> list C -> Prop;
  serve_one n c cs sqid nsecs rt clk t : can_serve n (c :: cs) ->
    exists b rt' c' t' n', proc_io_cmd c sqid nsecs rt clk t n = Ok ((b, rt', c'), t', n') /\ can_serve n' cs;
}.

(** ** Data *)
Section Device.
Context {N C : Type} `{NS : Namespace N C}.

(** A submission queue entry: the fields the dispatcher reads, and the rest. *)
Record nvme_command : Type := mk_command { c_command_id : Z; c_nsid : Z; c_rw_length : Z; c_body : C }.

Record nvmev_sq_stat : Type := mk_stat { nr_dispatched : Z; nr_dispatch : Z; nr_in_flight : Z; max_nr_in_flight : Z; total_io : Z }.

Record nvmev_submission_queue : Type := mk_sq {
  sq_cqid : Z;
  sq_queue_size : Z;
  stat : nvmev_sq_stat;
  sq_entries : list nvme_command;
}.

(** The part of [struct nvmev_dev] the I/O path uses. *)
Record nvmev_dev : Type := mk_dev {
  io_workers : list nvmev_io_worker;
  io_worker_turn : Z;
  nr_io_workers : Z;
  vns : list N;
  sqes : list (option nvmev_submission_queue);
  cqes : list (option nvmev_completion_queue);
}.

Definition set_worker (d : nvmev_dev) (i turn : Z) (k : nvmev_io_worker) : nvmev_dev :=
  mk_dev (zset (io_workers d) i k) turn (nr_io_workers d) (vns d) (sqes d) (cqes d).
Definition set_ns (d : nvmev_dev) (i : Z) (n : N) : nvmev_dev :=
  mk_dev (io_workers d) (io_worker_turn d) (nr_io_workers d) (zset (vns d) i n) (sqes d) (cqes d).
Definition set_sq (d : nvmev_dev) (i : Z) (q : nvmev_submission_queue) : nvmev_dev :=
  mk_dev (io_workers d) (io_worker_turn d) (nr_io_workers d) (vns d) (zset (sqes d) i (Some q)) (cqes d).
Definition set_workers (d : nvmev_dev) ks : nvmev_dev :=
  mk_dev ks (io_worker_turn d) (nr_io_workers d) (vns d) (sqes d) (cqes d).

Definition set_command (q : nvmev_submission_queue) (i : Z) (c : nvme_command) : nvmev_submission_queue :=
  mk_sq (sq_cqid q) (sq_queue_size q) (stat q) (zset (sq_entries q) i c).
Definition set_stat (q : nvmev_submission_queue) (s : nvmev_sq_stat) : nvmev_submission_queue :=
  mk_sq (sq_cqid q) (sq_queue_size q) s (sq_entries q).

Definition sq_at (d : nvmev_dev) (sqid : Z) : res nvmev_submission_queue :=
  let! q := aget (sqes d) sqid in of_opt NullDeref q.

(** ** Operations *)

(** [CONFIG_NVMEV_IO_WORKER_BY_SQ] is defined; [sqid - 1] is converted to [unsigned]. *)
Definition __get_io_worker (d : nvmev_dev) (sqid : Z) : res Z :=
  if nr_io_workers d =? 0 then Err DivByZero else Ok (u32 (sqid - 1) mod nr_io_workers d).

(** [__allocate_work_queue_entry], then the assignments and [__insert_req_sorted] its two
    callers share; the answer tells whether there was an entry. *)
Definition submit (sqid : Z) (op : Z -> io_op) : M nvmev_dev bool :=
  let* d := get in
  let* i := lift (__get_io_worker d sqid) in
  let* k := lift (aget (io_workers d) i) in
  let* r := lift (take_free k) in
  match r with
  | None => ret false
  | Some _ =>
      let turn := if u32 (i + 1) =? nr_io_workers d then 0 else u32 (i + 1) in
      let* now := read_clock LOCAL_CLOCK in
      let* r := lift (enqueue (op_fill (op now)) (op_target (op now)) k) in
      modify (fun d => set_worker d i turn (snd r)) ;;
      ret true
  end.

Definition __enqueue_io_req (sqid cqid sq_entry command_id nsecs_start : Z) (rt : Nvme.nvmev_result) : M nvmev_dev unit :=
  submit sqid (fun now => OpRequest sqid cqid sq_entry command_id nsecs_start now rt) ;; ret tt.

Definition schedule_internal_operation (o : scheduled_op) : M nvmev_dev unit :=
  submit (so_sqid o) (fun now => OpInternal (so_sqid o) now (so_target o) (so_buffer o) (so_bytes o)) ;; ret tt.

(** All workers, in turn. *)
Fixpoint reclaim_workers (ks : list nvmev_io_worker) : res (list nvmev_io_worker) :=
  match ks with
  | [] => Ok []
  | k :: ks => let! k := reclaim k in let! ks := reclaim_workers ks in Ok (k :: ks)
  end.
Definition __reclaim_completed_reqs : M nvmev_dev unit :=
  update (fun d => let! ks := reclaim_workers (io_workers d) in Ok (set_workers d ks)).

Fixpoint schedule_all (ops : list scheduled_op) : M nvmev_dev unit :=
  match ops with
  | [] => ret tt
  | o :: ops => schedule_internal_operation o ;; schedule_all ops
  end.

Definition zoom_ns {A} (i : Z) (m : M N A) : M nvmev_dev A := fun clk t d =>
  match aget (vns d) i with
  | Err e => Err e
  | Ok n => match m clk t n with Ok (a, t', n') => Ok (a, t', set_ns d i n') | Err e => Err e end
  end.

Definition __cmd_io_size (c : nvme_command) : Z := u64 (i32 (Z.shiftl (i32 (c_rw_length c + 1)) Config.LBA_BITS)).

(** [None]: the namespace put the command off. *)
Definition __nvmev_proc_io (sqid sq_entry : Z) : M nvmev_dev (option Z) :=
  let* d := get in
  let* q := lift (sq_at d sqid) in
  let* nsecs_start := read_clock CPU_CLOCK in
  let* c := lift (aget (sq_entries q) sq_entry) in
  let nsid := u32 (c_nsid c - 1) in
  let* n := lift (aget (vns d) nsid) in
  let rt := Nvme.mk_result Nvme.NVME_SC_SUCCESS nsecs_start in
  let* r := zoom_ns nsid (proc_io_cmd (c_body c) sqid nsecs_start rt) in
  let '(taken, rt, body) := r in
  modify (fun d => set_sq d sqid (set_command q sq_entry (mk_command (c_command_id c) (c_nsid c) (c_rw_length c) body))) ;;
  let* d := get in
  let* n' := lift (aget (vns d) nsid) in
  schedule_all (drop (length (ns_scheduled n)) (ns_scheduled n')) ;;
  if taken : bool then
    __enqueue_io_req sqid (sq_cqid q) sq_entry (c_command_id c) nsecs_start rt ;;
    __reclaim_completed_reqs ;;
    ret (Some (__cmd_io_size c))
  else ret None.

Definition count_taken (io_size : Z) (s : nvmev_sq_stat) : nvmev_sq_stat :=
  mk_stat (u32 (nr_dispatched s + 1)) (nr_dispatch s) (u32 (nr_in_flight s + 1)) (max_nr_in_flight s) (u64 (total_io s + io_size)).
Definition count_round (s : nvmev_sq_stat) : nvmev_sq_stat :=
  mk_stat (nr_dispatched s) (u32 (nr_dispatch s + 1)) (nr_in_flight s)
    (u32 (Z.max (i32 (max_nr_in_flight s)) (i32 (nr_in_flight s)))) (total_io s).

Definition update_stat (sqid : Z) (f : nvmev_sq_stat -> nvmev_sq_stat) : M nvmev_dev unit :=
  update (fun d => let! q := sq_at d sqid in Ok (set_sq d sqid (set_stat q (f (stat q))))).

(** The [for] loop: how many commands were taken. *)
Fixpoint proc_sq_loop (fuel : nat) (sqid sq_entry : Z) : M nvmev_dev Z :=
  match fuel with
  | O => ret 0
  | S fuel =>
      let* r := __nvmev_proc_io sqid sq_entry in
      match r with
      | None => ret 0
      | Some io_size =>
          let* d := get in
          let* q := lift (sq_at d sqid) in
          update_stat sqid (count_taken io_size) ;;
          let* n := proc_sq_loop fuel sqid (if sq_entry + 1 =? sq_queue_size q then 0 else sq_entry + 1) in
          ret (1 + n)
      end
  end.

(** The queue of a deleted [sqid] is not there. *)
Definition nvmev_proc_io_sq (sqid new_db old_db : Z) : M nvmev_dev Z :=
  let* d := get in
  let* q := lift (aget (sqes d) sqid) in
  match q with
  | None => ret old_db
  | Some q =>
      let num_proc := if new_db - old_db <? 0 then new_db - old_db + sq_queue_size q else new_db - old_db in
      let* seq := proc_sq_loop (Z.to_nat num_proc) sqid old_db in
      update_stat sqid count_round ;;
      if sq_queue_size q =? 0 then fail DivByZero
      else ret (Z.rem (old_db + seq) (sq_queue_size q))
  end.

(** The loop of [nvmev_proc_io_cq]: each consumed entry counts down the in-flight number
    of its submission queue.  The entry is read before the wrap is noticed. *)
Fixpoint consume (fuel : nat) (q : nvmev_completion_queue) (i new_db : Z) : M nvmev_dev unit :=
  if i =? new_db then ret tt
  else match fuel with
  | O => fail OutOfFuel
  | S fuel =>
      let* c := lift (aget (cq_entries q) i) in
      if cq_queue_size q <=? i then consume fuel q 0 new_db
      else
        let* d := get in
        let* s := lift (aget (sqes d) (cqe_sq_id c)) in
        match s with
        | None => ret tt
        | Some _ => update_stat (cqe_sq_id c) (fun s =>
            mk_stat (nr_dispatched s) (nr_dispatch s) (u32 (nr_in_flight s - 1)) (max_nr_in_flight s) (total_io s))
        end ;;
        consume fuel q (i + 1) new_db
  end.

Definition nvmev_proc_io_cq (cqid new_db old_db : Z) : M nvmev_dev unit :=
  let* d := get in
  let* q := lift (aget (cqes d) cqid) in
  let* q := lift (of_opt NullDeref q) in
  consume (S (Z.to_nat (cq_queue_size q))) q old_db new_db ;;
  modify (fun d => mk_dev (io_workers d) (io_worker_turn d) (nr_io_workers d) (vns d) (sqes d) (zset (cqes d) cqid (Some (set_tail new_db q)))).

(** [NVMEV_IO_WORKER_INIT] *)
Definition NVMEV_IO_WORKER_INIT (d : nvmev_dev) : nvmev_dev :=
  mk_dev (worker_init <$> zseq (nr_io_workers d)) 0 (nr_io_workers d) (vns d) (sqes d) (cqes d).
End Device.
Arguments nvme_command C : clear implicits.
Arguments nvmev_submission_queue C : clear implicits.
Arguments nvmev_dev N C : clear implicits.

(** ** Histories of the workers *)
Section Histories.
Context {N C : Type}.
Implicit Types (d : nvmev_dev N C) (A : Z -> list io_job) (E : Z -> list io_effect) (K : Z -> Z).

(** Worker [i] is in a state its queue reaches by accepting [A i] with effects [E i]. *)
Record dev_ok d A E K : Prop := {
  dk_nr : nr_io_workers d = zlen (io_workers d);
  dk_pos : 0 < nr_io_workers d;
  dk_reach i k : zget (io_workers d) i = Some k -> reach (A i) (E i) (mk_sys k (K i));
  dk_id i k : zget (io_workers d) i = Some k -> worker_id k = i;
}.

(** The dispatcher's operations leave a worker its number. *)
Lemma insert_id e tg k k' : __insert_req_sorted e tg k = Ok k' -> worker_id k' = worker_id k.
Proof.
  unfold __insert_req_sorted, insert_at. destruct (io_seq k =? NIL); [by intros [= <-]|]. intros (c & _ & H)%rbind_ok. destruct (c =? NIL); cbv zeta in H.
  - do 2 apply rbind_ok in H as (? & _ & H). by injection H as <-.
  - apply rbind_ok in H as (w & _ & H). destruct (next w =? NIL); [do 2 apply rbind_ok in H as (? & _ & H)|do 6 apply rbind_ok in H as (? & _ & H)]; by injection H as <-.
Qed.

Lemma enqueue_id f tg k b k' : enqueue f tg k = Ok (b, k') -> worker_id k' = worker_id k.
Proof.
  unfold enqueue, take_free. intros (r & Er & H)%rbind_ok. destruct r as [[e k1]|]; [|by injection H as _ <-].
  apply rbind_ok in H as (q & _ & H). apply rbind_ok in H as (k2 & E2 & [= _ <-]). rewrite (insert_id _ _ _ _ E2).
  apply rbind_ok in Er as (w & _ & Er). case_match; [done|]. apply rbind_ok in Er as (u & _ & [= _ <-]). done.
Qed.

Lemma reclaim_id k k' : reclaim k = Ok k' -> worker_id k' = worker_id k.
Proof.
  unfold reclaim. intros (l & _ & H)%rbind_ok. destruct (l =? NIL); [by injection H as <-|]. apply rbind_ok in H as (w & _ & H).
  do 4 apply rbind_ok in H as (? & _ & H). by injection H as <-.
Qed.

(** How many more entries worker [i] can allocate. *)
Definition room (k : nvmev_io_worker) : Z := NR_MAX_PARALLEL_IO - 1 - zlen (in_service k).
Definition room_at d (i : Z) : Z := match zget (io_workers d) i with Some k => room k | None => 0 end.

Definition worker_of d (sqid : Z) : Z := u32 (sqid - 1) mod nr_io_workers d.

Definition upd {X} (f : Z -> X) (i : Z) (x : X) (j : Z) : X := if decide (j = i) then x else f j.

(** Jobs handed to the queues, each with its submission queue; those of worker [i]. *)
Definition offered d (l : list (Z * io_job)) (i : Z) : list io_job :=
  omap (fun o => if worker_of d (fst o) =? i then Some (snd o) else None) l.

(** Every worker accepted its jobs in order, all of them as far as there was room. *)
Definition absorbed d d' A A' (l : list (Z * io_job)) : Prop :=
  nr_io_workers d' = nr_io_workers d /\
  forall i, exists js, A' i = A i ++ js /\ js `sublist_of` offered d l i /\
    (zlen (offered d l i) <= room_at d i -> js = offered d l i /\ room_at d i - zlen (offered d l i) <= room_at d' i).

Lemma absorbed_nil d A : absorbed d d A A [].
Proof. split; [done|]. intros i. exists []. rewrite app_nil_r. split_and!; try done. intros _. cbn. split; [done|lia]. Qed.

Lemma offered_same d d' l i : nr_io_workers d' = nr_io_workers d -> offered d' l i = offered d l i.
Proof. intros H. unfold offered, worker_of. by rewrite H. Qed.

Lemma absorbed_trans d1 d2 d3 A1 A2 A3 l l' : absorbed d1 d2 A1 A2 l -> absorbed d2 d3 A2 A3 l' -> absorbed d1 d3 A1 A3 (l ++ l').
Proof.
  intros [N1 H1] [N2 H2]. split; [congruence|]. intros i. destruct (H1 i) as (j1 & E1 & S1 & R1). destruct (H2 i) as (j2 & E2 & S2 & R2).
  rewrite (offered_same _ _ l' i N1) in S2, R2. unfold offered in *. rewrite omap_app. fold (offered d1 l i) (offered d1 l' i) in *.
  exists (j1 ++ j2). split; [by rewrite E2, E1, app_assoc|]. split; [by apply sublist_app|].
  rewrite length_app. intros Hr. destruct R1 as [-> R1]; [lia|]. destruct R2 as [-> R2]; [lia|]. split; [done|]. lia.
Qed.

(** Only the workers' queues changed. *)
Record same_rest d d' : Prop := {
  sr_ns : vns d' = vns d;
  sr_sqes : sqes d' = sqes d;
  sr_cqes : cqes d' = cqes d;
}.

Lemma room_enqueue acc effs k curr o b k' : reach acc effs (mk_sys k curr) -> enqueue (op_fill o) (op_target o) k = Ok (b, k') ->
  b = (0 <? room k) /\ room k' = (if b then room k - 1 else room k).
Proof.
  intros R E. destruct (reach_inv _ _ _ R) as (io & free & [W _ _ _ _ _ _]). cbn [sys_worker sys_curr] in W.
  pose proof (Permutation_length (wv_all _ _ _ W)) as Hl. rewrite length_app, length_zseq in Hl.
  assert (zlen io + zlen free = NR_MAX_PARALLEL_IO) as Hl2 by (unfold NR_MAX_PARALLEL_IO in *; lia). clear Hl.
  unfold room. rewrite (in_service_inv _ _ _ W). destruct free as [|e [|y F]]; [by destruct (wv_free _ _ _ W)| |].
  - rewrite (enqueue_full _ _ _ W _ _ e) in E by done. injection E as <- <-. rewrite (in_service_inv _ _ _ W). cbn in Hl2.
    destruct (Z.ltb_spec 0 (NR_MAX_PARALLEL_IO - 1 - zlen io)); [lia|done].
  - destruct (enqueue_spec _ _ _ W (op_fill o) (op_target o) e y F (op_links o) eq_refl) as (k1 & E1 & [Q1 _ _ _]).
    rewrite E in E1. injection E1 as -> ->. rewrite (in_service_inv _ _ _ Q1).
    rewrite (Permutation_length (placed_perm _ e io)). cbn [length] in *.
    destruct (Z.ltb_spec 0 (NR_MAX_PARALLEL_IO - 1 - zlen io)); [split; [done|lia]|lia].
Qed.

Lemma upd_eq {X} (f : Z -> X) i x : upd f i x i = x.
Proof. unfold upd. by rewrite decide_True. Qed.
Lemma upd_ne {X} (f : Z -> X) i x j : j <> i -> upd f i x j = f j.
Proof. intros H. unfold upd. by rewrite decide_False. Qed.

Lemma worker_range d sqid : 0 < nr_io_workers d -> 0 <= worker_of d sqid < nr_io_workers d.
Proof. intros H. unfold worker_of. by apply Z.mod_pos_bound. Qed.

Lemma reach_take_free acc effs k curr : reach acc effs (mk_sys k curr) ->
  exists r, take_free k = Ok r /\ (r = None <-> room k = 0) /\
    (r = None -> forall o, enqueue (op_fill o) (op_target o) k = Ok (false, k)) /\
    forall o, r <> None -> exists k', enqueue (op_fill o) (op_target o) k = Ok (true, k').
Proof.
  intros R. destruct (reach_inv _ _ _ R) as (io & free & [W _ _ _ _ _ _]). cbn [sys_worker sys_curr] in W.
  pose proof (Permutation_length (wv_all _ _ _ W)) as Hl. rewrite length_app, length_zseq in Hl.
  assert (zlen io + zlen free = NR_MAX_PARALLEL_IO) as Hl2 by (unfold NR_MAX_PARALLEL_IO in *; lia). clear Hl.
  unfold room. rewrite (in_service_inv _ _ _ W). destruct free as [|e [|y F]]; [by destruct (wv_free _ _ _ W)| |].
  - exists None. cbn in Hl2. rewrite (take_free_last _ _ _ W e) by done. split; [done|]. split; [split; [lia|done]|].
    split; [|done]. intros _ o. by apply (enqueue_full _ _ _ W _ _ e).
  - eexists. rewrite (take_free_some _ _ _ W e y F) by done. split; [done|]. cbn [length] in Hl2. split; [split; [done|lia]|].
    split; [done|]. intros o _.
    destruct (enqueue_spec _ _ _ W (op_fill o) (op_target o) e y F (op_links o) eq_refl) as (k1 & E1 & _). by exists k1.
Qed.

(** What one submission does. *)
Record submitted d d' A E K (sqid : Z) (j : io_job) (b : bool) : Prop := {
  sm_ok : dev_ok d' (upd A (worker_of d sqid) (A (worker_of d sqid) ++ (if b then [j] else []))) E K;
  sm_rest : same_rest d d';
  sm_absorbed : absorbed d d' A (upd A (worker_of d sqid) (A (worker_of d sqid) ++ (if b then [j] else []))) [(sqid, j)];
  sm_room : b = (0 <? room_at d (worker_of d sqid));
  sm_full : b = false -> d' = d;
}.

Lemma submit_spec d A E K sqid op j clk t : dev_ok d A E K -> (forall now, op_job (op now) = j) ->
  exists b t' d', submit sqid op clk t d = Ok (b, t', d') /\ submitted d d' A E K sqid j b.
Proof.
  intros [Hn Hp HR HI] Hop. set (i := worker_of d sqid). pose proof (worker_range d sqid Hp) as Hi. fold i in Hi.
  destruct (zget_Some (io_workers d) i) as (k & Hk); [by rewrite <- Hn|]. pose proof (HR i k Hk) as R.
  assert (room_at d i = room k) as Hroom by (unfold room_at; by rewrite Hk).
  unfold submit. rewrite run_get. unfold __get_io_worker. replace (nr_io_workers d =? 0) with false by lia.
  rewrite (run_lift _ _ clk t d i) by done. rewrite (run_lift _ _ clk t d k) by by apply aget_ok.
  destruct (reach_take_free _ _ _ _ R) as (r & Er & Hr & Hfull & Hsome). rewrite (run_lift _ _ clk t d r) by done.
  destruct r as [[e k0]|].
  - rewrite run_clock. destruct (Hsome (op (clk LOCAL_CLOCK t)) ltac:(done)) as (k' & Ek).
    rewrite (run_lift _ _ clk (S t) d (true, k')) by done. rewrite run_modify. cbn [snd].
    eexists true, (S t), _. split; [reflexivity|].
    destruct (room_enqueue _ _ _ _ _ _ _ R Ek) as [Hb Hr']. fold i.
    assert (dev_ok (set_worker d i (if u32 (i + 1) =? nr_io_workers d then 0 else u32 (i + 1)) k') (upd A i (A i ++ [j])) E K) as D.
    { split; cbn [set_worker nr_io_workers io_workers]; [by rewrite length_zset|done|..]; intros x kx Hx.
      all: rewrite zget_zset in Hx by lia; destruct (decide (i = x)) as [<-|Hne].
      - injection Hx as <-. rewrite upd_eq. pose proof (reach_enqueue _ _ _ _ _ _ _ R Ek) as R'. by rewrite Hop in R'.
      - rewrite upd_ne by done. by apply HR.
      - injection Hx as <-. rewrite (enqueue_id _ _ _ _ _ Ek). by apply HI.
      - by apply HI. }
    split; [exact D|by split| |fold i; by rewrite Hroom|done].
    split; [done|]. intros x. destruct (decide (x = i)) as [->|Hne].
    + exists [j]. fold i. rewrite upd_eq. unfold offered. cbn [omap list_omap fst snd]. fold i. rewrite Z.eqb_refl.
      split; [done|]. split; [done|]. intros _. split; [done|]. unfold room_at at 2. cbn [set_worker io_workers].
      rewrite zget_zset_eq by lia. rewrite Hr', Hroom. cbn. lia.
    + exists []. fold i. rewrite upd_ne by done. unfold offered. cbn [omap list_omap fst snd]. fold i.
      replace (i =? x) with false by lia. rewrite app_nil_r. split; [done|]. split; [done|]. intros _. split; [done|].
      unfold room_at. cbn [set_worker io_workers]. rewrite zget_zset_ne by done. cbn. lia.
  - exists false, t, d. split; [done|]. fold i. assert (room k = 0) as Hz by by apply Hr.
    assert (dev_ok d (upd A i (A i ++ [])) E K) as D.
    { split; [done|done| |done]. intros x kx Hx. rewrite app_nil_r. destruct (decide (x = i)) as [->|Hne]; [rewrite upd_eq|rewrite upd_ne by done]; by apply HR. }
    split; [exact D|by split| |fold i; by rewrite Hroom, Hz|done].
    split; [done|]. intros x. exists []. rewrite !app_nil_r. split.
    { destruct (decide (x = i)) as [->|Hne]; [by rewrite upd_eq|by rewrite upd_ne]. }
    split; [apply sublist_nil_l|]. unfold offered. cbn [omap list_omap fst snd]. fold i.
    destruct (Z.eqb_spec i x) as [->|Hne]; cbn; [rewrite Hroom; lia|]. intros _. split; [done|lia].
Qed.
End Histories.

(** ** What the handlers of the dispatcher do *)
Section Handlers.
Context {N C : Type} `{NS : Namespace N C} `{SN : !ServableNamespace N C}.
Implicit Types (d : nvmev_dev N C) (A : Z -> list io_job).

Context (E : Z -> list io_effect) (K : Z -> Z).

(** From [d] to [d'] the workers took the jobs [l], and nothing else of the queues changed. *)
Record moved d d' A A' (l : list (Z * io_job)) : Prop := {
  mv_ok : dev_ok d' A' E K;
  mv_absorbed : absorbed d d' A A' l;
  mv_ns : vns d' = vns d;
  mv_sqes : sqes d' = sqes d;
  mv_cqes : cqes d' = cqes d;
}.

Lemma moved_refl d A : dev_ok d A E K -> moved d d A A [].
Proof. intros H. split; try done. apply absorbed_nil. Qed.

Lemma moved_trans d1 d2 d3 A1 A2 A3 l l' : moved d1 d2 A1 A2 l -> moved d2 d3 A2 A3 l' -> moved d1 d3 A1 A3 (l ++ l').
Proof. intros [] []. split; try congruence. by eapply absorbed_trans. Qed.

Lemma submit_moved d A sqid op j clk t : dev_ok d A E K -> (forall now, op_job (op now) = j) ->
  exists b t' d' A', submit sqid op clk t d = Ok (b, t', d') /\ moved d d' A A' [(sqid, j)] /\
    b = (0 <? room_at d (worker_of d sqid)) /\ (b = false -> d' = d /\ forall i, A' i = A i).
Proof.
  intros D H. destruct (submit_spec d A E K sqid op j clk t D H) as (b & t' & d' & Er & []). exists b, t', d'. eexists.
  split; [exact Er|]. split; [destruct sm_rest0; by split|]. split; [done|]. intros Hb. split; [by apply sm_full0|].
  intros i. rewrite Hb, app_nil_r. unfold upd. case_decide; [by subst|done].
Qed.

Definition offer_of (o : scheduled_op) : Z * io_job := (so_sqid o, Release (so_buffer o) (so_bytes o) (so_target o)).

Lemma schedule_all_spec ops clk : forall d A t, dev_ok d A E K ->
  exists t' d' A', schedule_all ops clk t d = Ok (tt, t', d') /\ moved d d' A A' (offer_of <$> ops).
Proof.
  induction ops as [|o ops IH]; intros d A t D; cbn [schedule_all].
  { exists t, d, A. split; [done|by apply moved_refl]. }
  destruct (submit_moved d A (so_sqid o) (fun now => OpInternal (so_sqid o) now (so_target o) (so_buffer o) (so_bytes o))
    (snd (offer_of o)) clk t D ltac:(done)) as (b & t1 & d1 & A1 & E1 & M1 & _).
  destruct (IH d1 A1 t1 (mv_ok _ _ _ _ _ M1)) as (t2 & d2 & A2 & E2 & M2). exists t2, d2, A2. split.
  - unfold schedule_internal_operation. by rewrite run_bind_assoc, (run_bind _ _ _ _ _ _ _ _ E1), run_ret.
  - rewrite fmap_cons. by apply (moved_trans _ _ _ _ _ _ [offer_of o] _ M1 M2).
Qed.

Lemma zget_cons {X} (x : X) l i : zget (x :: l) i = if i =? 0 then Some x else zget l (i - 1).
Proof.
  unfold zget. destruct (Z.ltb_spec i 0), (Z.eqb_spec i 0), (Z.ltb_spec (i - 1) 0); try lia; try done; [by subst|].
  replace (Z.to_nat i) with (S (Z.to_nat (i - 1))) by lia. done.
Qed.

Lemma reclaim_workers_spec ks :
  (forall i k, zget ks i = Some k -> exists acc effs curr, reach acc effs (mk_sys k curr)) ->
  exists ks', reclaim_workers ks = Ok ks' /\ length ks' = length ks /\
    (forall i k', zget ks' i = Some k' -> exists k, zget ks i = Some k /\ reclaim k = Ok k').
Proof.
  induction ks as [|k ks IH]; intros H; cbn [reclaim_workers]; [exists []; split_and!; [done|done|]; intros i k Hi; by apply zget_range in Hi; cbn in Hi; lia|].
  destruct (H 0 k) as (acc & effs & curr & R); [by rewrite zget_cons|].
  destruct (reach_inv _ _ _ R) as (io & free & I). destruct (sys_reclaim _ _ _ _ _ _ I) as (k' & Ek & _).
  cbn [sys_worker] in Ek. rewrite Ek. cbn [rbind]. destruct IH as (ks' & Eks & Hl & Hg).
  { intros i kx Hi. apply (H (i + 1)). rewrite zget_cons. pose proof (zget_range _ _ _ Hi).
    replace (i + 1 =? 0) with false by lia. by replace (i + 1 - 1) with i by lia. }
  rewrite Eks. cbn [rbind]. exists (k' :: ks'). split; [done|]. split; [cbn; by rewrite Hl|].
  intros i kx. rewrite !zget_cons. destruct (i =? 0); [intros [= <-]; eauto|]. intros Hi. destruct (Hg _ _ Hi) as (k0 & ? & ?). eauto.
Qed.

Lemma reclaim_room acc effs k curr k' : reach acc effs (mk_sys k curr) -> reclaim k = Ok k' -> room k <= room k'.
Proof.
  intros R Ek. destruct (reach_inv _ _ _ R) as (io & free & [W _ _ _ _ _ _]). cbn [sys_worker] in W.
  destruct (reclaim_spec _ _ _ W) as (k1 & E1 & [W' _ _]). rewrite Ek in E1. injection E1 as ->.
  unfold room. rewrite (in_service_inv _ _ _ W), (in_service_inv _ _ _ W'), length_drop. lia.
Qed.

Lemma reclaim_moved d A clk t : dev_ok d A E K ->
  exists d', __reclaim_completed_reqs clk t d = Ok (tt, t, d') /\ moved d d' A A [].
Proof.
  intros [Hn Hp HR HI]. destruct (reclaim_workers_spec (io_workers d)) as (ks & Ek & Hl & Hg); [intros i k Hi; eauto|].
  unfold __reclaim_completed_reqs, update. rewrite Ek. cbn [rbind]. eexists. split; [reflexivity|].
  split; try done.
  - split; cbn [set_workers nr_io_workers io_workers]; [by rewrite Hl|done|..]; intros i k' Hi; destruct (Hg i k' Hi) as (k & Hk & Er).
    + eapply reach_reclaim; [by apply HR|done].
    + rewrite (reclaim_id _ _ Er). by apply HI.
  - split; [done|]. intros i. exists []. rewrite app_nil_r. split_and!; try done. intros _. split; [done|]. cbn [length].
    unfold room_at. cbn [set_workers io_workers]. destruct (zget ks i) as [k'|] eqn:Hi.
    + destruct (Hg i k' Hi) as (k & Hk & Er). rewrite Hk. pose proof (reclaim_room _ _ _ _ _ (HR i k Hk) Er). lia.
    + destruct (zget (io_workers d) i) as [k|] eqn:Hk; [|lia]. apply zget_range in Hk. destruct (zget_Some ks i) as (? & ?); [by rewrite Hl|congruence].
Qed.

(** ** Commands in the order they are taken *)

(** The internal operations scheduled between two states of the namespace. *)
Definition internals (n n' : N) : list (Z * io_job) := offer_of <$> drop (length (ns_scheduled n)) (ns_scheduled n').

(** [ns_run sqid cqid n cs k n' l]: the namespace takes the first [k] of the commands [cs],
    each at its slot, and puts off the next if there is one; [l] is handed to the workers. *)
Inductive ns_run (sqid cqid : Z) : N -> list (Z * nvme_command C) -> Z -> N -> list (Z * io_job) -> Prop :=
| run_end n : ns_run sqid cqid n [] 0 n []
| run_put_off n e c cs nsecs clk t rt body t' n' :
    proc_io_cmd (c_body c) sqid nsecs (Nvme.mk_result Nvme.NVME_SC_SUCCESS nsecs) clk t n = Ok ((false, rt, body), t', n') ->
    ns_run sqid cqid n ((e, c) :: cs) 0 n' (internals n n')
| run_taken n e c cs nsecs clk t rt body t' n' k n'' l :
    proc_io_cmd (c_body c) sqid nsecs (Nvme.mk_result Nvme.NVME_SC_SUCCESS nsecs) clk t n = Ok ((true, rt, body), t', n') ->
    ns_run sqid cqid n' cs k n'' l ->
    ns_run sqid cqid n ((e, c) :: cs) (1 + k) n''
      (internals n n' ++ (sqid, Request sqid cqid e (c_command_id c) (Nvme.status rt) 0 0 (Nvme.nsecs_target rt)) :: l).

(** One command. *)
Lemma dispatch_spec d A sqid e q c i n cs clk t : dev_ok d A E K ->
  zget (sqes d) sqid = Some (Some q) -> zget (sq_entries q) e = Some c -> u32 (c_nsid c - 1) = i -> zget (vns d) i = Some n ->
  can_serve n (c_body c :: cs) ->
  exists (b : bool) t' d' A' n' nsecs tc rt body tc' l,
    __nvmev_proc_io sqid e clk t d = Ok (if b then Some (__cmd_io_size c) else None, t', d') /\
    proc_io_cmd (c_body c) sqid nsecs (Nvme.mk_result Nvme.NVME_SC_SUCCESS nsecs) clk tc n = Ok ((b, rt, body), tc', n') /\
    can_serve n' cs /\
    l = internals n n' ++ (if b then [(sqid, Request sqid (sq_cqid q) e (c_command_id c) (Nvme.status rt) 0 0 (Nvme.nsecs_target rt))] else []) /\
    dev_ok d' A' E K /\ absorbed d d' A A' l /\ vns d' = zset (vns d) i n' /\ cqes d' = cqes d /\
    sqes d' = zset (sqes d) sqid (Some (set_command q e (mk_command (c_command_id c) (c_nsid c) (c_rw_length c) body))) /\
    (internals n n' = [] -> room_at d (worker_of d sqid) = 0 -> forall j, A' j = A j).
Proof.
  intros D Hq Hc Hi Hn Hs. set (nsecs := clk CPU_CLOCK t).
  destruct (serve_one n (c_body c) cs sqid nsecs (Nvme.mk_result Nvme.NVME_SC_SUCCESS nsecs) clk (S t) Hs)
    as (b & rt & body & t1 & n' & Ep & Hs').
  unfold __nvmev_proc_io. rewrite run_get. unfold sq_at at 1. rewrite (run_lift _ _ clk t d q) by (rewrite (proj2 (aget_ok _ _ _) Hq); done).
  rewrite run_clock. rewrite (run_lift _ _ clk (S t) d c) by by apply aget_ok. rewrite Hi. cbn zeta.
  rewrite (run_lift _ _ clk (S t) d n) by by apply aget_ok. fold nsecs.
  assert (zoom_ns i (proc_io_cmd (c_body c) sqid nsecs (Nvme.mk_result Nvme.NVME_SC_SUCCESS nsecs)) clk (S t) d =
    Ok ((b, rt, body), t1, set_ns d i n')) as Ez by (unfold zoom_ns; by rewrite (proj2 (aget_ok _ _ _) Hn), Ep).
  rewrite (run_bind _ _ _ _ _ _ _ _ Ez). rewrite run_modify, run_get.
  set (d1 := set_sq (set_ns d i n') sqid _). pose proof (zget_range _ _ _ Hn) as Hir.
  rewrite (run_lift _ _ clk t1 d1 n') by (apply aget_ok; cbn; by apply zget_zset_eq).
  assert (dev_ok d1 A E K) as D1 by by destruct D; split.
  destruct (schedule_all_spec (drop (length (ns_scheduled n)) (ns_scheduled n')) clk d1 A t1 D1) as (t2 & d2 & A2 & E2 & M2).
  rewrite (run_bind _ _ _ _ _ _ _ _ E2). destruct b.
  - destruct (submit_moved d2 A2 sqid (fun now => OpRequest sqid (sq_cqid q) e (c_command_id c) nsecs now rt)
      (Request sqid (sq_cqid q) e (c_command_id c) (Nvme.status rt) 0 0 (Nvme.nsecs_target rt)) clk t2 (mv_ok _ _ _ _ _ M2) ltac:(done))
      as (b & t3 & d3 & A3 & E3 & M3 & Hroom & Hfull).
    unfold __enqueue_io_req. rewrite run_bind_assoc, (run_bind _ _ _ _ _ _ _ _ E3), run_ret.
    destruct (reclaim_moved d3 A3 clk t3 (mv_ok _ _ _ _ _ M3)) as (d4 & E4 & M4). rewrite (run_bind _ _ _ _ _ _ _ _ E4).
    pose proof (moved_trans _ _ _ _ _ _ _ _ M2 (moved_trans _ _ _ _ _ _ _ _ M3 M4)) as [O Ab V S' Cq].
    rewrite app_nil_r in Ab. fold (internals n n') in Ab.
    exists true, t3, d4, A3, n', nsecs, (S t), rt, body, t1. eexists. split; [reflexivity|]. split; [exact Ep|]. split; [done|]. split; [reflexivity|].
    split; [done|]. split; [exact Ab|]. rewrite V, S', Cq. do 3 (split; [done|]).
    intros Hint Hr j. apply fmap_nil_inv in Hint. rewrite Hint in E2, M2. injection E2 as Et Ed. subst d2.
    destruct Hfull as [_ Hfull]; [rewrite Hroom; change (room_at d1 (worker_of d1 sqid)) with (room_at d (worker_of d sqid)); by rewrite Hr|].
    rewrite Hfull. destruct (mv_absorbed _ _ _ _ _ M2) as [_ H2]. destruct (H2 j) as (js & -> & Hsub & _).
    apply sublist_nil_r in Hsub as ->. apply app_nil_r.
  - pose proof M2 as [O Ab V S' Cq]. fold (internals n n') in Ab.
    exists false, t2, d2, A2, n', nsecs, (S t), rt, body, t1. eexists. split; [reflexivity|]. split; [exact Ep|]. split; [done|]. split; [reflexivity|].
    rewrite app_nil_r. split; [done|]. split; [exact Ab|]. rewrite V, S', Cq. do 3 (split; [done|]).
    intros Hint _ j. destruct Ab as [_ H2]. destruct (H2 j) as (js & -> & Hsub & _). rewrite Hint in Hsub.
    apply sublist_nil_r in Hsub as ->. apply app_nil_r.
Qed.

(** The slots from [e] on. *)
Definition next_slot (size e : Z) : Z := if e + 1 =? size then 0 else e + 1.
Fixpoint ring_from (size e : Z) (k : nat) : list Z :=
  match k with O => [] | S k => e :: ring_from size (next_slot size e) k end.

Lemma next_slot_mod size e : 0 <= e < size -> next_slot size e = (e + 1) mod size.
Proof.
  intros He. unfold next_slot. destruct (Z.eqb_spec (e + 1) size) as [<-|]; [by rewrite Z.mod_same by lia|by rewrite Z.mod_small by lia].
Qed.

Lemma next_slot_range size e : 0 <= e < size -> 0 <= next_slot size e < size.
Proof. intros He. rewrite next_slot_mod by done. apply Z.mod_pos_bound. lia. Qed.

Lemma ring_from_in size k : forall e x, 0 <= e < size -> x ∈ ring_from size e k -> exists j, 0 <= j < Z.of_nat k /\ x = (e + j) mod size.
Proof.
  induction k as [|k IH]; intros e x He; cbn [ring_from]; [by intros ?%elem_of_nil|].
  intros [->|Hx]%elem_of_cons; [exists 0; rewrite Z.add_0_r, Z.mod_small by lia; split; [lia|done]|].
  destruct (IH _ _ (next_slot_range _ _ He) Hx) as (j & Hj & ->). exists (j + 1). split; [lia|].
  rewrite next_slot_mod, Z.add_mod_idemp_l by lia. f_equal. lia.
Qed.

Lemma ring_from_fresh size k e : 0 <= e < size -> Z.of_nat k < size -> e ∉ ring_from size (next_slot size e) k.
Proof.
  intros He Hk Hin. destruct (ring_from_in _ _ _ _ (next_slot_range _ _ He) Hin) as (j & Hj & Hx).
  rewrite next_slot_mod, Z.add_mod_idemp_l in Hx by lia.
  apply (slot_inj size ltac:(lia) e (e + 1 + j)); [by rewrite Z.mod_small by lia|lia|lia].
Qed.

Lemma length_ring_from size k : forall e, length (ring_from size e k) = k.
Proof. induction k; intros e; cbn; by f_equal. Qed.

Lemma update_stat_run d sqid q f clk t : zget (sqes d) sqid = Some (Some q) ->
  update_stat sqid f clk t d = Ok (tt, t, set_sq d sqid (set_stat q (f (stat q)))).
Proof. intros Hq. unfold update_stat, update, sq_at. rewrite (proj2 (aget_ok _ _ _) Hq). done. Qed.

(** What the loop leaves, having started at slot [e] with the commands [cs]. *)
Record loop_done d A (sqid i : Z) (q : nvmev_submission_queue C) (n : N) (cs : list (Z * nvme_command C))
    (k : Z) d' A' (q' : nvmev_submission_queue C) (n' : N) (l : list (Z * io_job)) : Prop := {
  ld_run : ns_run sqid (sq_cqid q) n cs k n' l;
  ld_count : 0 <= k <= zlen cs;
  ld_ok : dev_ok d' A' E K;
  ld_absorbed : absorbed d d' A A' l;
  ld_ns : vns d' = zset (vns d) i n';
  ld_cqes : cqes d' = cqes d;
  ld_sqes : sqes d' = zset (sqes d) sqid (Some q');
  ld_queue : sq_queue_size q' = sq_queue_size q /\ sq_cqid q' = sq_cqid q;
}.

Lemma absorbed_stat d A d' A' sqid q l : absorbed d d' A A' l -> absorbed d (set_sq d' sqid q) A A' l.
Proof. done. Qed.

Lemma loop_spec sqid i cs : forall d A e q n clk t, dev_ok d A E K ->
  zget (sqes d) sqid = Some (Some q) -> 0 <= e < sq_queue_size q -> zlen cs <= sq_queue_size q ->
  Forall2 (fun e c => zget (sq_entries q) e = Some c) (ring_from (sq_queue_size q) e (length cs)) cs ->
  Forall (fun c => u32 (c_nsid c - 1) = i) cs -> zget (vns d) i = Some n -> can_serve n (c_body <$> cs) ->
  exists k t' d' A' q' n' l, proc_sq_loop (length cs) sqid e clk t d = Ok (k, t', d') /\
    loop_done d A sqid i q n (zip (ring_from (sq_queue_size q) e (length cs)) cs) k d' A' q' n' l.
Proof.
  induction cs as [|c cs IH]; intros d A e q n clk t D Hq He Hlen Hcs Hi Hn Hs; cbn [length proc_sq_loop].
  { exists 0, t, d, A, q, n, []. split; [done|]. split; try done; [constructor|apply absorbed_nil|by rewrite zset_same|by rewrite zset_same]. }
  cbn [ring_from length] in Hcs. apply Forall2_cons in Hcs as [Hc Hcs]. apply Forall_cons in Hi as [Hic Hi]. rewrite fmap_cons in Hs.
  destruct (dispatch_spec d A sqid e q c i n _ clk t D Hq Hc Hic Hn Hs)
    as (b & t1 & d1 & A1 & n1 & nsecs & tc & rt & body & tc' & l1 & E1 & Ep & Hs1 & Hl1 & D1 & Ab1 & V1 & Cq1 & S1 & _).
  rewrite (run_bind _ _ _ _ _ _ _ _ E1). cbn [ring_from length zip zip_with].
  set (q1 := set_command q e _) in S1. pose proof (zget_range _ _ _ Hq) as Hsr. pose proof (zget_range _ _ _ Hn) as Hnr.
  destruct b.
  - assert (zget (sqes d1) sqid = Some (Some q1)) as Hq1 by (rewrite S1; by apply zget_zset_eq).
    rewrite run_get. unfold sq_at at 1. rewrite (run_lift _ _ clk t1 d1 q1) by (rewrite (proj2 (aget_ok _ _ _) Hq1); done).
    rewrite (run_bind _ _ _ _ _ _ _ _ (update_stat_run d1 sqid q1 (count_taken (__cmd_io_size c)) clk t1 Hq1)).
    set (q2 := set_stat q1 _). set (d2 := set_sq d1 sqid q2). change (if e + 1 =? sq_queue_size q1 then 0 else e + 1) with (next_slot (sq_queue_size q2) e).
    assert (zget (sqes d2) sqid = Some (Some q2)) as Hq2 by (cbn; rewrite S1, zset_zset; by apply zget_zset_eq).
    cbn [length] in Hlen.
    destruct (IH d2 A1 (next_slot (sq_queue_size q2) e) q2 n1 clk t1) as (k & t3 & d3 & A3 & q3 & n3 & l3 & E3 & [L1 L2 L3 L4 L5 L6 L7 [L8 L9]]).
    + by destruct D1; split.
    + exact Hq2.
    + by apply next_slot_range.
    + cbn [q2 q1 set_stat set_command sq_queue_size]. lia.
    + pose proof (ring_from_fresh (sq_queue_size q) (length cs) e He ltac:(lia)) as Hfresh.
      change (sq_queue_size q2) with (sq_queue_size q). cbn [q2 q1 set_stat set_command sq_entries].
      revert Hcs Hfresh. generalize (ring_from (sq_queue_size q) (next_slot (sq_queue_size q) e) (length cs)). clear.
      intros ss H. induction H as [|s x ss xs Hsx H IH]; intros Hf; constructor.
      * rewrite zget_zset_ne; [done|]. intros ->. apply Hf. by left.
      * apply IH. intros Hin. apply Hf. by right.
    + done.
    + cbn [d2 set_sq vns]. rewrite V1. by apply zget_zset_eq.
    + done.
    + rewrite (run_bind _ _ _ _ _ _ _ _ E3). exists (1 + k), t3, d3, A3, q3, n3, (l1 ++ l3). split; [reflexivity|].
      assert (zlen ((e, c) :: zip (ring_from (sq_queue_size q) (next_slot (sq_queue_size q) e) (length cs)) cs) =
        1 + zlen (zip (ring_from (sq_queue_size q2) (next_slot (sq_queue_size q2) e) (length cs)) cs)) as Hz by (change (sq_queue_size q2) with (sq_queue_size q); cbn [length]; lia).
      rewrite Hl1, <- app_assoc. cbn [app]. split.
      * eapply run_taken; [exact Ep|exact L1].
      * rewrite Hz. lia.
      * done.
      * rewrite Hl1 in Ab1. pose proof (absorbed_trans _ _ _ _ _ _ _ _ (absorbed_stat _ _ _ _ sqid q2 _ Ab1) L4) as Ab.
        by rewrite <- app_assoc in Ab.
      * rewrite L5. cbn [d2 set_sq vns]. by rewrite V1, zset_zset.
      * rewrite L6. done.
      * rewrite L7. cbn [d2 set_sq sqes]. by rewrite S1, !zset_zset.
      * done.
  - exists 0, t1, d1, A1, q1, n1, l1. split; [done|]. subst l1. rewrite app_nil_r in *. split; try done.
    eapply run_put_off. exact Ep.
Qed.

(** The commands between the two doorbell values. *)
Definition num_proc (size new_db old_db : Z) : Z := if new_db - old_db <? 0 then new_db - old_db + size else new_db - old_db.

Lemma proc_sq_spec d A sqid i q n cs new_db old_db clk t : dev_ok d A E K ->
  zget (sqes d) sqid = Some (Some q) -> 0 <= old_db < sq_queue_size q -> 0 <= new_db < sq_queue_size q ->
  Forall2 (fun e c => zget (sq_entries q) e = Some c) (ring_from (sq_queue_size q) old_db (length cs)) cs ->
  zlen cs = num_proc (sq_queue_size q) new_db old_db ->
  Forall (fun c => u32 (c_nsid c - 1) = i) cs -> zget (vns d) i = Some n -> can_serve n (c_body <$> cs) ->
  exists k t' d' A' q' n' l, nvmev_proc_io_sq sqid new_db old_db clk t d = Ok ((old_db + k) mod sq_queue_size q, t', d') /\
    loop_done d A sqid i q n (zip (ring_from (sq_queue_size q) old_db (length cs)) cs) k d' A' q' n' l.
Proof.
  intros D Hq Ho Hw Hcs Hlen Hi Hn Hs. unfold nvmev_proc_io_sq. rewrite run_get.
  rewrite (run_lift _ _ clk t d (Some q)) by by apply aget_ok. fold (num_proc (sq_queue_size q) new_db old_db).
  assert (zlen cs <= sq_queue_size q) as Hle by (rewrite Hlen; unfold num_proc; destruct (new_db - old_db <? 0) eqn:?; lia).
  rewrite <- Hlen, Nat2Z.id.
  destruct (loop_spec sqid i cs d A old_db q n clk t D Hq Ho Hle Hcs Hi Hn Hs) as (k & t1 & d1 & A1 & q1 & n1 & l & E1 & L).
  rewrite (run_bind _ _ _ _ _ _ _ _ E1). pose proof L as [L1 L2 L3 L4 L5 L6 L7 [L8 L9]].
  assert (zget (sqes d1) sqid = Some (Some q1)) as Hq1 by (rewrite L7; apply zget_zset_eq; by eapply zget_range).
  rewrite (run_bind _ _ _ _ _ _ _ _ (update_stat_run d1 sqid q1 count_round clk t1 Hq1)).
  replace (sq_queue_size q =? 0) with false by lia. eexists k, t1, _, A1, (set_stat q1 (count_round (stat q1))), n1, l.
  split; [unfold ret; rewrite Z.rem_mod_nonneg by lia; reflexivity|].
  split; try done.
  - destruct L3. by split.
  - cbn [set_sq sqes]. by rewrite L7, zset_zset.
Qed.
End Handlers.
