(* ===== verification/SimpleFtl.v ===== *)
(** * simple_ftl.c: a namespace of parallel I/O units

    The device is [nr_io_units] units that serve chunks of [2^io_unit_shift] bytes; a
    request starts at the unit of its address and goes round.  [io_unit_stat] is the
    time each unit falls idle.  The specification gives the completion time and what
    every unit's time becomes. *)

From Stdlib Require Import ZArith Lia.
From stdpp Require Import base list numbers sets.
From S2P Require Import Prelude Config WorkQueue IoWorker IoQueue Dispatch.
From S2P Require Nvme Ssd.

(** The fields of [struct nvmev_config] this namespace reads. *)
Record simple_config : Type := mk_simple_config {
  nr_io_units : Z;      (* unsigned int, as all of them *)
  io_unit_shift : Z;
  read_delay : Z;
  read_time : Z;
  read_trailing : Z;
  write_delay : Z;
  write_time : Z;
  write_trailing : Z;
}.

(** The namespace, with [io_unit_stat] of the device; [base_ssd_optane] is
    [BASE_SSD == INTEL_OPTANE]. *)
Record simple_ns : Type := mk_simple_ns {
  simple_id : Z;
  simple_csi : Z;
  simple_size : Z;
  config : simple_config;
  base_ssd_optane : bool;
  io_unit_stat : list Z;
}.

Definition set_unit_stat (n : simple_ns) (s : list Z) : simple_ns :=
  mk_simple_ns (simple_id n) (simple_csi n) (simple_size n) (config n) (base_ssd_optane n) s.

(** [(delay, latency, trailing)] *)
Definition op_times (c : simple_config) (opcode : Z) : Z * Z * Z :=
  if opcode =? Nvme.nvme_cmd_write then (write_delay c, write_time c, write_trailing c)
  else if opcode =? Nvme.nvme_cmd_read then (read_delay c, read_time c, read_trailing c)
  else (0, 0, 0).

(** The [do ... while (length > 0)] loop. *)
Fixpoint io_units_loop (fuel : nat) (nr unit_size latency trailing : Z) (latest io_unit nr_units length : Z) (s : list Z)
    : res (Z * list Z) :=
  match fuel with
  | O => Err OutOfFuel
  | S fuel =>
      let latest := u64 (latest + latency) in
      let! s := aset s io_unit latest in
      let! s := if 0 <? nr_units then aset s io_unit (u64 (latest + trailing)) else Ok s in
      let nr_units := i32 (nr_units - 1) in
      let length := length - Z.min length unit_size in
      let io_unit := if nr <=? io_unit + 1 then 0 else io_unit + 1 in
      if 0 <? length then io_units_loop fuel nr unit_size latency trailing latest io_unit nr_units length s
      else Ok (latest, s)
  end.

(** The body of [__schedule_io_units] for given times, which kv_ftl.c shares.  The shift's
    count is that of an [int]; [fuel]: at most one turn per byte. *)
Definition schedule_units (c : simple_config) (times : Z * Z * Z) (lba length nsecs_start : Z) (s : list Z) : res (Z * list Z) :=
  let io_unit_size := u32 (i32 (Z.shiftl 1 (io_unit_shift c))) in
  if (nr_io_units c =? 0) || (io_unit_size =? 0) then Err DivByZero else
  let io_unit := Z.shiftr lba (io_unit_shift c - LBA_BITS) mod nr_io_units c in
  let nr_units := i32 (Z.min (nr_io_units c) (u32 (length + io_unit_size - 1) / io_unit_size)) in
  let '(delay, latency, trailing) := times in
  let! idle := aget s io_unit in
  let latest := u64 (Z.max nsecs_start idle + delay) in
  io_units_loop (S (Z.to_nat length)) (nr_io_units c) io_unit_size latency trailing latest io_unit nr_units length s.

Definition __schedule_io_units (c : simple_config) (opcode lba length nsecs_start : Z) (s : list Z) : res (Z * list Z) :=
  schedule_units c (op_times c opcode) lba length nsecs_start s.

(** The loop over the units. *)
Fixpoint max_stat (l : list Z) (s : list Z) (latest : Z) : res Z :=
  match l with
  | [] => Ok latest
  | i :: l => let! x := aget s i in max_stat l s (Z.max latest x)
  end.
Definition __schedule_flush (n : simple_ns) : res Z := max_stat (zseq (nr_io_units (config n))) (io_unit_stat n) 0.

Definition __cmd_io_size (c : Nvme.nvme_rw_command) : Z := Z.shiftl (Nvme.length c + 1) LBA_BITS.

Definition simple_proc_nvme_io_cmd (c : Nvme.nvme_rw_command) (rt : Nvme.nvmev_result) : M simple_ns (bool * Nvme.nvmev_result) :=
  let* n := get in
  assert (simple_csi n =? 0) ;;
  assert (base_ssd_optane n) ;;
  let op := Nvme.opcode c in
  if (op =? Nvme.nvme_cmd_write) || (op =? Nvme.nvme_cmd_read) then
    let* now := read_clock CPU_CLOCK in
    let* z := update_get (fun n =>
      let! (z, s) := __schedule_io_units (config n) op (Nvme.slba c) (u32 (__cmd_io_size c)) now (io_unit_stat n) in
      Ok (z, set_unit_stat n s)) in
    ret (true, Nvme.mk_result (Nvme.status rt) z)
  else if op =? Nvme.nvme_cmd_flush then
    let* z := lift (__schedule_flush n) in
    ret (true, Nvme.mk_result (Nvme.status rt) z)
  else ret (true, rt).

(** [io_unit_stat] is what [VDEV_INIT] allocated, all zero. *)
Definition simple_init_namespace (c : simple_config) (optane : bool) (id size : Z) : simple_ns :=
  mk_simple_ns id 0 size c optane (replicate (Z.to_nat (nr_io_units c)) 0).

(** ** The times of the units *)
Section Units.
Context (nr unit lat tr : Z) (Hnr : 0 < nr) (Hunit : 0 < unit).

(** Chunk [j] of a request that starts at unit [u0], with [base] the time before it. *)
Definition chunks (length : Z) : Z := (length + unit - 1) / unit.
Definition chunk_end (base j : Z) : Z := base + (j + 1) * lat.

(** What a unit's time becomes with chunk [j] its last; [m] units get the trailing time. *)
Definition chunk_idle (base m j : Z) : Z := chunk_end base j + (if j <? m then tr else 0).

(** The time [x'] of unit [u] after the chunks from [j] to [j'], where it was [x]. *)
Definition unit_after (u0 base m j j' u : Z) (x x' : option Z) : Prop :=
  (exists i, j <= i < j' /\ (u0 + i) mod nr = u /\ (forall i', i < i' < j' -> (u0 + i') mod nr <> u) /\
     x' = Some (chunk_idle base m i)) \/
  ((forall i, j <= i < j' -> (u0 + i) mod nr <> u) /\ x' = x).

Lemma chunks_step length : 0 < length -> chunks (length - Z.min length unit) = chunks length - 1 /\ 1 <= chunks length.
Proof.
  intros Hl. unfold chunks. destruct (Z.leb_spec unit length) as [H|H].
  - rewrite Z.min_r by lia. replace (length + unit - 1) with (length - 1 + 1 * unit) by lia.
    rewrite Z.div_add by lia. replace (length - unit + unit - 1) with (length - 1) by lia. split; [lia|].
    assert (0 <= (length - 1) / unit) by (apply Z.div_pos; lia). lia.
  - rewrite Z.min_l by lia. rewrite Z.sub_diag, Z.add_0_l. rewrite Z.div_small by lia.
    assert ((length + unit - 1) / unit = 1) as ->; [|lia]. symmetry. apply (Z.div_unique_pos _ _ 1 (length - 1)); lia.
Qed.

Lemma next_unit x : 0 <= x -> (if nr <=? x mod nr + 1 then 0 else x mod nr + 1) = (x + 1) mod nr.
Proof.
  intros Hx. pose proof (Z.mod_pos_bound x nr Hnr). destruct (Z.leb_spec nr (x mod nr + 1)) as [H'|H'].
  - replace (x + 1) with (x mod nr + 1 + x / nr * nr) by (pose proof (Z.div_mod x nr ltac:(lia)); lia).
    rewrite Z.mod_add by lia. replace (x mod nr + 1) with nr by lia. by rewrite Z.mod_same by lia.
  - replace (x + 1) with (x mod nr + 1 + x / nr * nr) by (pose proof (Z.div_mod x nr ltac:(lia)); lia).
    rewrite Z.mod_add by lia. by rewrite (Z.mod_small (x mod nr + 1)) by lia.
Qed.

(** A write to a slot, and to it again. *)
Lemma chunk_store (s : list Z) i a b (c : bool) : 0 <= i < zlen s ->
  (let! s := aset s i a in if c then aset s i b else Ok s) = Ok (zset s i (if c then b else a)).
Proof.
  intros Hi. rewrite aset_in by done. cbn [rbind]. destruct c; [|done]. rewrite aset_in by by rewrite length_zset.
  by rewrite zset_zset.
Qed.

Lemma rbind_assoc {A B D} (r : res A) (f : A -> res B) (g : B -> res D) :
  rbind (rbind r f) g = rbind r (fun a => rbind (f a) g).
Proof. by destruct r. Qed.

Lemma units_spec u0 base m k : 0 <= u0 -> 0 <= lat -> 0 <= tr -> 0 <= base -> 0 <= m < 2 ^ 31 ->
  forall fuel j length s, 0 <= j -> 0 < length -> chunks length = Z.of_nat (S k) -> length < Z.of_nat fuel -> zlen s = nr ->
  j + chunks length < 2 ^ 31 -> chunk_end base (j + chunks length) + tr < 2 ^ 64 ->
  exists s', io_units_loop fuel nr unit lat tr (base + j * lat) ((u0 + j) mod nr) (m - j) length s =
      Ok (chunk_end base (j + chunks length - 1), s') /\ zlen s' = nr /\
    forall u, 0 <= u < nr -> unit_after u0 base m j (j + chunks length) u (zget s u) (zget s' u).
Proof.
  intros Hu Hl Ht Hb Hm. induction k as [|k IH]; intros fuel j length s Hj Hlen Hk Hf Hs H31 H64;
    destruct fuel as [|fuel]; try lia; destruct (chunks_step length Hlen) as [Hc1 Hc2]; cbn [io_units_loop].
  all: pose proof (Z.mod_pos_bound (u0 + j) nr Hnr) as Hr.
  all: assert (chunk_end base j <= chunk_end base (j + chunks length)) as Hle by (unfold chunk_end; nia).
  all: assert (base + j * lat + lat = chunk_end base j) as He by (unfold chunk_end; lia).
  all: assert (0 <= chunk_end base j) as He0 by (unfold chunk_end; nia).
  all: rewrite He, (u64_id (chunk_end base j)) by lia; rewrite (u64_id (chunk_end base j + tr)) by lia.
  all: set (v := chunk_idle base m j).
  all: assert (zset s ((u0 + j) mod nr) (if 0 <? m - j then chunk_end base j + tr else chunk_end base j) = zset s ((u0 + j) mod nr) v) as Hv
    by (f_equal; unfold v, chunk_idle; destruct (Z.ltb_spec 0 (m - j)), (Z.ltb_spec j m); lia).
  all: rewrite <- rbind_assoc, chunk_store by lia; cbn [rbind]; rewrite Hv.
  all: pose proof (zget_zset s ((u0 + j) mod nr)) as Hg.
  - assert (length - Z.min length unit = 0) as ->.
    { destruct (decide (0 < length - Z.min length unit)) as [Hp|]; [|lia]. destruct (chunks_step _ Hp). lia. }
    cbn [Z.ltb Z.compare]. eexists. split; [repeat f_equal; lia|]. split; [by rewrite length_zset|].
    intros u Hur. rewrite Hg by lia. destruct (decide ((u0 + j) mod nr = u)) as [E|E].
    + left. exists j. split; [lia|]. split; [done|]. split; [lia|done].
    + right. split; [|done]. intros i Hi. by replace i with j by lia.
  - assert (0 < length - Z.min length unit) as Hp.
    { destruct (decide (length - Z.min length unit = 0)) as [E|]; [|lia]. rewrite E in Hc1. unfold chunks in Hc1 at 1.
      rewrite Z.div_small in Hc1 by lia. lia. }
    replace (0 <? length - Z.min length unit) with true by lia. rewrite i32_id by lia.
    rewrite next_unit by lia. rewrite <- He.
    destruct (IH fuel (j + 1) (length - Z.min length unit) (zset s ((u0 + j) mod nr) v)) as (s' & E & Hs' & Hw); try lia.
    { by rewrite length_zset. }
    { rewrite Hc1. by replace (j + 1 + (chunks length - 1)) with (j + chunks length) by lia. }
    replace (j + 1 + chunks (length - Z.min length unit)) with (j + chunks length) in * by lia.
    exists s'. split; [rewrite <- E; f_equal; [lia|f_equal; lia|lia]|]. split; [done|].
    intros u Hur. destruct (Hw u Hur) as [(i & Hi & Hi2 & Hi3 & Hx)|[Hn Hx]].
    + left. exists i. split; [lia|done].
    + rewrite Hg in Hx by lia. destruct (decide ((u0 + j) mod nr = u)) as [E'|E'].
      * left. exists j. split; [lia|]. split; [done|]. split; [|done]. intros i' Hi'. apply Hn. lia.
      * right. split; [|done]. intros i Hi. destruct (decide (i = j)) as [->|]; [done|]. apply Hn. lia.
Qed.
End Units.

(** ** The namespace *)
Record config_ok (c : simple_config) : Prop := {
  sc_units : 0 < nr_io_units c < 2 ^ 31;
  sc_shift : LBA_BITS <= io_unit_shift c <= 30;
  sc_times o : let '(delay, latency, trailing) := op_times c o in 0 <= delay < 2 ^ 32 /\ 0 <= latency < 2 ^ 32 /\ 0 <= trailing < 2 ^ 32;
}.

Definition unit_size (c : simple_config) : Z := 2 ^ io_unit_shift c.

Lemma unit_size_eq c : config_ok c -> u32 (i32 (Z.shiftl 1 (io_unit_shift c))) = unit_size c /\ 0 < unit_size c < 2 ^ 31.
Proof.
  intros [_ Hs _]. unfold LBA_BITS in Hs. rewrite Z.shiftl_1_l. unfold unit_size.
  assert (0 < 2 ^ io_unit_shift c <= 2 ^ 30) as H by (split; [apply Z.pow_pos_nonneg; lia|apply Z.pow_le_mono_r; lia]).
  rewrite i32_id, u32_id by lia. lia.
Qed.

(** The unit a request starts at, and the time before its first chunk. *)
Definition first_unit (c : simple_config) (lba : Z) : Z := Z.shiftr lba (io_unit_shift c - LBA_BITS).
Definition start_time (c : simple_config) (opcode lba now : Z) (s : list Z) : Z :=
  Z.max now (default 0 (zget s (first_unit c lba mod nr_io_units c))) + fst (fst (op_times c opcode)).
Definition chunk_time (c : simple_config) (opcode : Z) : Z := snd (fst (op_times c opcode)).
Definition trail_time (c : simple_config) (opcode : Z) : Z := snd (op_times c opcode).
Definition nr_chunks (c : simple_config) (length : Z) : Z := chunks (unit_size c) length.

(** When a request completes and what the units' times become. *)
Lemma schedule_spec c opcode lba length now s :
  config_ok c -> 0 <= lba < 2 ^ 64 -> 0 < length < 2 ^ 31 -> zlen s = nr_io_units c -> 0 <= now ->
  let base := start_time c opcode lba now s in let n := nr_chunks c length in
  chunk_end (chunk_time c opcode) base n + trail_time c opcode < 2 ^ 64 ->
  exists s', __schedule_io_units c opcode lba length now s = Ok (base + n * chunk_time c opcode, s') /\ zlen s' = nr_io_units c /\
    forall u, 0 <= u < nr_io_units c ->
      unit_after (nr_io_units c) (chunk_time c opcode) (trail_time c opcode) (first_unit c lba) base (Z.min (nr_io_units c) n) 0 n u (zget s u) (zget s' u).
Proof.
  intros Hc Hlba Hlen Hs Hnow base n Hov. destruct (unit_size_eq c Hc) as [Eu Hu]. pose proof (sc_units c Hc) as Hnr.
  pose proof (sc_times c Hc opcode) as Ht. unfold base, start_time, chunk_time, trail_time in *. clear base.
  unfold __schedule_io_units, schedule_units. rewrite Eu. replace (nr_io_units c =? 0) with false by lia.
  replace (unit_size c =? 0) with false by lia. cbn [orb]. fold (first_unit c lba).
  destruct (op_times c opcode) as [[delay lat] tr]. cbn [fst snd] in *.
  assert (0 <= first_unit c lba) as Hf0 by (apply Z.shiftr_nonneg; lia).
  pose proof (Z.mod_pos_bound (first_unit c lba) (nr_io_units c) ltac:(lia)) as Hr.
  destruct (zget_Some s (first_unit c lba mod nr_io_units c)) as (idle & Hidle); [lia|].
  rewrite (proj2 (aget_ok _ _ _) Hidle). cbn [rbind]. rewrite Hidle in *. change (default 0 (Some idle)) with idle in *.
  destruct (chunks_step (unit_size c) ltac:(lia) length ltac:(lia)) as [_ Hn1]. fold (nr_chunks c length) in Hn1. fold n in Hn1.
  assert (n <= length) as Hn2.
  { unfold n, nr_chunks, chunks. apply Z.div_le_upper_bound; [lia|]. nia. }
  rewrite (u32_id (length + unit_size c - 1)) by lia. change ((length + unit_size c - 1) / unit_size c) with n.
  rewrite i32_id by lia. set (base := Z.max now idle + delay) in *.
  assert (0 <= (n + 1) * lat) as Hnl by (apply Z.mul_nonneg_nonneg; lia).
  assert (base < 2 ^ 64) by (unfold chunk_end in Hov; lia).
  rewrite (u64_id base) by lia.
  destruct (units_spec (nr_io_units c) (unit_size c) lat tr ltac:(lia) ltac:(lia) (first_unit c lba) base (Z.min (nr_io_units c) n) (Z.to_nat (n - 1))
    Hf0 ltac:(lia) ltac:(lia) ltac:(lia) ltac:(lia) (S (Z.to_nat length)) 0 length s) as (s' & E & Hs' & Hw); try lia.
  { fold (nr_chunks c length). change (nr_chunks c length) with n. lia. }
  { fold (nr_chunks c length). change (nr_chunks c length) with n. lia. }
  { fold (nr_chunks c length). change (nr_chunks c length) with n. by rewrite Z.add_0_l. }
  change (chunks (unit_size c) length) with n in E, Hw. rewrite Z.add_0_l in E, Hw. rewrite Z.mul_0_l, !Z.add_0_r, Z.sub_0_r in E.
  exists s'. split; [|done]. rewrite E. do 2 f_equal. unfold chunk_end. lia.
Qed.

(** No time overflow is needed for the handler to return. *)
Lemma units_total nr unit lat tr : 0 < nr -> 0 < unit -> forall fuel latest i m length s,
  0 <= i < nr -> 0 <= length < Z.of_nat fuel -> zlen s = nr ->
  exists z s', io_units_loop fuel nr unit lat tr latest i m length s = Ok (z, s') /\ zlen s' = nr.
Proof.
  intros Hnr Hu. induction fuel as [|fuel IH]; intros latest i m length s Hi Hf Hs; [lia|]. cbn [io_units_loop].
  rewrite <- rbind_assoc, chunk_store by lia. cbn [rbind].
  destruct (Z.ltb_spec 0 (length - Z.min length unit)); [|eexists _, _; split; [done|by rewrite length_zset]].
  apply IH; [|lia|by rewrite length_zset]. destruct (nr <=? i + 1) eqn:E; lia.
Qed.

Lemma units_total_spec c times lba length now s : config_ok c -> 0 <= length -> zlen s = nr_io_units c ->
  exists z s', schedule_units c times lba length now s = Ok (z, s') /\ zlen s' = nr_io_units c.
Proof.
  intros Hc Hl Hs. destruct (unit_size_eq c Hc) as [Eu Hu]. pose proof (sc_units c Hc) as Hnr. unfold schedule_units. rewrite Eu.
  replace (nr_io_units c =? 0) with false by lia. replace (unit_size c =? 0) with false by lia. cbn [orb].
  destruct times as [[delay lat] tr].
  pose proof (Z.mod_pos_bound (Z.shiftr lba (io_unit_shift c - LBA_BITS)) (nr_io_units c) ltac:(lia)) as Hr.
  destruct (zget_Some s (Z.shiftr lba (io_unit_shift c - LBA_BITS) mod nr_io_units c)) as (idle & Hidle); [lia|].
  rewrite (proj2 (aget_ok _ _ _) Hidle). cbn [rbind]. apply units_total; lia.
Qed.

Lemma schedule_total c opcode lba length now s : config_ok c -> 0 <= length -> zlen s = nr_io_units c ->
  exists z s', __schedule_io_units c opcode lba length now s = Ok (z, s') /\ zlen s' = nr_io_units c.
Proof. apply units_total_spec. Qed.

(** A flush completes when the last unit falls idle. *)
Lemma max_stat_spec l s : (forall i, i ∈ l -> 0 <= i < zlen s) -> forall z0,
  exists z, max_stat l s z0 = Ok z /\ z0 <= z /\ (forall i x, i ∈ l -> zget s i = Some x -> x <= z) /\
    (z = z0 \/ exists i, i ∈ l /\ zget s i = Some z).
Proof.
  induction l as [|i l IH]; intros Hl z0; cbn [max_stat].
  { exists z0. split; [done|]. split; [lia|]. split; [by intros i x ?%elem_of_nil|by left]. }
  destruct (aget_in s i) as (x & Ex & Hx); [apply Hl; by left|]. rewrite Ex. cbn [rbind].
  destruct (IH (fun j Hj => Hl j (list_elem_of_further j i l Hj)) (Z.max z0 x)) as (z & E & H1 & H2 & H3).
  exists z. split; [done|]. split; [lia|]. split.
  - intros j y [->|Hj]%elem_of_cons Hy; [rewrite Hx in Hy; injection Hy as <-; lia|by eapply H2].
  - destruct H3 as [->|(j & Hj & Hy)]; [|right; exists j; split; [by right|done]].
    destruct (Z.max_spec z0 x) as [[_ ->]|[_ ->]]; [right; exists i; split; [by left|done]|by left].
Qed.

Lemma simple_flush_spec n : zlen (io_unit_stat n) = nr_io_units (config n) ->
  exists z, __schedule_flush n = Ok z /\ 0 <= z /\ (forall i x, zget (io_unit_stat n) i = Some x -> x <= z) /\
    (z = 0 \/ exists i, zget (io_unit_stat n) i = Some z).
Proof.
  intros Hs. unfold __schedule_flush.
  destruct (max_stat_spec (zseq (nr_io_units (config n))) (io_unit_stat n)) with (z0 := 0) as (z & E & H1 & H2 & H3).
  { intros i Hi%Ssd.elem_of_zseq. lia. }
  exists z. split; [done|]. split; [done|]. split.
  - intros i x Hx. apply (H2 i x); [|done]. apply Ssd.elem_of_zseq. apply zget_range in Hx. lia.
  - destruct H3 as [->|(i & _ & Hx)]; eauto.
Qed.

Record simple_ok (n : simple_ns) : Prop := {
  so_csi : simple_csi n = 0;
  so_base : base_ssd_optane n = true;
  so_config : config_ok (config n);
  so_stat : zlen (io_unit_stat n) = nr_io_units (config n);
}.

Lemma simple_proc_spec n c rt clk t : simple_ok n ->
  exists rt' t' n', simple_proc_nvme_io_cmd c rt clk t n = Ok ((true, rt'), t', n') /\ simple_ok n' /\
    Nvme.status rt' = Nvme.status rt.
Proof.
  intros [H1 H2 H3 H4]. unfold simple_proc_nvme_io_cmd. rewrite run_get, H1, H2, !run_assert by done.
  destruct ((Nvme.opcode c =? Nvme.nvme_cmd_write) || (Nvme.opcode c =? Nvme.nvme_cmd_read)).
  - rewrite run_clock. set (len := u32 (__cmd_io_size c)). assert (0 <= len) by apply u32_range.
    destruct (schedule_total (config n) (Nvme.opcode c) (Nvme.slba c) len (clk CPU_CLOCK t) (io_unit_stat n) H3 ltac:(done) H4) as (z & s' & E & Hs).
    erewrite run_update_get by (rewrite E; reflexivity). eexists _, _, _. split; [reflexivity|]. by split.
  - destruct (Nvme.opcode c =? Nvme.nvme_cmd_flush).
    + destruct (simple_flush_spec n H4) as (z & E & _). rewrite (run_lift _ _ clk t n z) by done. eexists _, _, _. by split; [reflexivity|].
    + eexists _, _, _. by split; [reflexivity|].
Qed.

Lemma simple_init_ok c id size : config_ok c -> simple_ok (simple_init_namespace c true id size).
Proof.
  intros Hc. split; try done. cbn [simple_init_namespace io_unit_stat config]. rewrite length_replicate. pose proof (sc_units c Hc). lia.
Qed.

(** ** The namespace as the dispatcher sees it *)
#[export] Instance simple_namespace : Namespace simple_ns Nvme.nvme_rw_command := {
  proc_io_cmd c _ _ rt := let* r := simple_proc_nvme_io_cmd c rt in ret (r, c);
  ns_scheduled _ := [];
}.

#[export] Program Instance simple_servable : ServableNamespace simple_ns Nvme.nvme_rw_command := {
  can_serve n _ := simple_ok n;
}.
Next Obligation.
  intros n c cs sqid nsecs rt clk t Hn. destruct (simple_proc_spec n c rt clk t Hn) as (rt' & t' & n' & E & Hn' & _).
  exists true, rt', c, t', n'. split; [|done]. cbn [proc_io_cmd simple_namespace]. by rewrite (run_bind _ _ _ _ _ _ _ _ E).
Qed.
