(* ===== verification/Namespaces.v ===== *)
(** * The FTLs as namespaces of the dispatcher

    [conv_ns] and [zns_ns] implement the interface of Dispatch.v: the handler is
    [conv_proc_nvme_io_cmd] or [zns_proc_nvme_io_cmd], the scheduled operations are
    their outboxes with the buffers as addresses ([wb], [addr]), and the sessions'
    preconditions are what the dispatcher may rely on. *)

From Stdlib Require Import ZArith Lia.
From stdpp Require Import base list numbers sets.
From S2P Require Import Prelude Config SsdParams WorkQueue IoWorker Dispatch.
From S2P Require ConvFtl ConvInv ConvNs ZnsFtl ZnsInv ZnsNs Nvme Ssd.

(** ** The conventional FTL *)
Section Conv.
Import ConvFtl ConvNs.

(** [rsv]: what the reserved bits of a fresh [struct ppa] hold; [wb]: the write buffer. *)
Definition conv_op (wb : Z) (o : Nvme.internal_op) : scheduled_op :=
  mk_scheduled (Nvme.io_sqid o) (Nvme.io_nsecs_target o) wb (Nvme.io_buffs_to_release o).

#[export] Instance conv_namespace (rsv wb : Z) : Namespace conv_ns Nvme.nvme_rw_command := {
  proc_io_cmd c sqid nsecs rt := let* r := conv_proc_nvme_io_cmd rsv (Nvme.mk_req c sqid nsecs) rt in ret (r, c);
  ns_scheduled n := conv_op wb <$> outbox n;
}.

Definition cmd_cost (s : ssdparams) (c : Nvme.nvme_rw_command) : Z := rq_cost s (Nvme.mk_req c 0 0).
Definition cmds_cost (s : ssdparams) (cs : list Nvme.nvme_rw_command) : Z := foldr Z.add 0 (cmd_cost s <$> cs).

Lemma cmds_cost_nonneg s cs : 0 <= cmds_cost s cs.
Proof.
  unfold cmds_cost. induction cs as [|c cs IH]; cbn; [done|]. assert (0 <= cmd_cost s c); [|lia].
  unfold cmd_cost, rq_cost. case_match; lia.
Qed.

(** Room for the pages the commands write, and commands a host may send. *)
Record conv_can_serve (n : conv_ns) (cs : list Nvme.nvme_rw_command) : Prop := {
  cc_room : exists s k, 0 <= k /\ ns_ok s (k + cmds_cost s cs) n;
  cc_cmds : Forall (fun c => rq_ok n (Nvme.mk_req c 0 0)) cs;
  cc_csi : ns_csi n = NVME_CSI_NVM;
  cc_size : Ssd.size (shared_write_buffer n) < 2 ^ 32;
}.

#[export] Program Instance conv_servable (rsv wb : Z) : @ServableNamespace conv_ns Nvme.nvme_rw_command (conv_namespace rsv wb) := {
  can_serve := conv_can_serve;
}.
Next Obligation.
  intros rsv wb n c cs sqid nsecs rt clk t [(s & k & Hk & N) Hcs Hcsi Hsz]. apply Forall_cons in Hcs as [Hc Hcs].
  pose proof (cmds_cost_nonneg s cs) as H0.
  assert (k + cmds_cost s (c :: cs) = k + cmds_cost s cs + rq_cost s (Nvme.mk_req c sqid nsecs)) as E.
  { change (rq_cost s (Nvme.mk_req c sqid nsecs)) with (cmd_cost s c). unfold cmds_cost. cbn. lia. }
  rewrite E in N. destruct Hc as [Hc1 Hc2].
  destruct (proc_io_spec s (k + cmds_cost s cs) rsv (Nvme.mk_req c sqid nsecs) rt n clk t N ltac:(lia) Hc1
      ltac:(apply rq_ok_fits; by split) Hcsi Hsz)
    as ([b rt'] & t' & n' & Er & S).
  exists b, rt', c, t', n'. split; [cbn [proc_io_cmd conv_namespace]; by rewrite (run_bind _ _ _ _ _ _ _ _ Er)|].
  split.
  - exists s, k. split; [done|]. apply (sv_ok _ _ _ _ S).
  - eapply Forall_impl; [exact Hcs|]. intros x [Hx1 Hx2]. split; [done|]. by rewrite (sv_size _ _ _ _ S).
  - by rewrite (sv_csi _ _ _ _ S).
  - by rewrite (sv_size _ _ _ _ S).
Qed.
End Conv.

(** ** The ZNS FTL *)
Section Zns.
Import ZnsFtl ZnsInv ZnsNs.

Definition zns_op (addr : buf_id -> Z) (o : buf_id * Nvme.internal_op) : scheduled_op :=
  mk_scheduled (Nvme.io_sqid (snd o)) (Nvme.io_nsecs_target (snd o)) (addr (fst o)) (Nvme.io_buffs_to_release (snd o)).

(** The command as the handler leaves it in the submission queue. *)
Definition rewrite_slba (c : zns_command) (slba : Z) : zns_command :=
  match c with
  | ZNS_RW rw => if is_write rw then ZNS_RW (Nvme.mk_rw (Nvme.opcode rw) slba (Nvme.length rw) (Nvme.control rw)) else c
  | _ => c
  end.

(** [host]: the entries of the PRP lists in host memory. *)
#[export] Instance zns_namespace (host : Z -> nat -> Z) (addr : buf_id -> Z) : Namespace zns_ns zns_command := {
  proc_io_cmd c sqid nsecs rt :=
    let* r := zns_proc_nvme_io_cmd host c sqid nsecs rt in
    ret (rs_done r, rs_result r, rewrite_slba c (rs_slba r));
  ns_scheduled n := zns_op addr <$> zns_outbox (zns_part n);
}.

Record zns_can_serve (n : zns_ns) (cs : list zns_command) : Prop := {
  zc_ready : zns_ready (zns_part n);
  zc_csi : zns_csi n = NVME_CSI_ZNS;
  zc_parts : zns_nr_parts n = 1;
  zc_cmds : Forall (fun c => command_ok (zns_part n) c /\ command_fault (zns_part n) c = None) cs;
}.

#[export] Program Instance zns_servable (host : Z -> nat -> Z) (addr : buf_id -> Z) :
    @ServableNamespace zns_ns zns_command (zns_namespace host addr) := {
  can_serve := zns_can_serve;
}.
Next Obligation.
  intros host addr n c cs sqid nsecs rt clk t [R Hcsi Hp Hcs]. apply Forall_cons in Hcs as [[Hc Hnf] Hcs].
  pose proof (zns_proc_spec n host c sqid nsecs rt clk t R Hcsi Hp Hc) as H. rewrite Hnf in H.
  destruct H as (r & t' & f' & E & (R' & S & _)).
  eexists _, _, _, t', (set_part n f'). split; [cbn [proc_io_cmd zns_namespace]; rewrite (run_bind _ _ _ _ _ _ _ _ E); reflexivity|].
  split; try done. eapply Forall_impl; [exact Hcs|]. intros x [Hx1 Hx2]. split; [by eapply command_ok_static|]. by rewrite (command_fault_static _ _ _ S).
Qed.
End Zns.
