(* ===== verification/Perform.v ===== *)
(** * io.c: moving the data of a command

    [__do_perform_io] copies page by page along the PRP list; with a DMA engine
    [__do_perform_io_using_dma] first gathers the addresses and then submits one
    transfer per physically contiguous run.  A transfer is [size] bytes between a host
    address and an offset of the storage.  The two routines move the same bytes
    between the same places, in the same order, when every page but the first one
    starts at a page boundary, as NVMe demands. *)

From Stdlib Require Import ZArith Lia.
From stdpp Require Import base list numbers sets.
From S2P Require Import Prelude Config Prp WorkQueue.
From S2P Require Nvme.

Record transfer : Type := mk_transfer { tr_host : Z; tr_storage : Z; tr_size : Z }.

(** Which way the bytes go, by opcode; other commands walk their PRPs and copy nothing. *)
Inductive direction : Type := ToStorage | ToHost | NoCopy.
Definition nvme_cmd_zone_append : Z := 0x7d.
Definition direction_of (opcode : Z) : direction :=
  if (opcode =? Nvme.nvme_cmd_write) || (opcode =? nvme_cmd_zone_append) then ToStorage
  else if opcode =? Nvme.nvme_cmd_read then ToHost else NoCopy.

Definition __cmd_io_offset (c : Nvme.nvme_rw_command) : Z := u64 (Z.shiftl (Nvme.slba c) LBA_BITS).
Definition __cmd_io_size (c : Nvme.nvme_rw_command) : Z := u64 (i32 (Z.shiftl (i32 (Nvme.length c + 1)) LBA_BITS)).

(** The pieces go to the storage from the command's offset on; the page of [paddr] is
    mapped at its start, so [mem_offs] into it is [paddr] itself. *)
Definition __do_perform_io (c : Nvme.nvme_rw_command) (prp1 prp2 : Z) (entry : nat -> Z) : res (direction * list transfer) :=
  let! ps := prp_pieces prp1 prp2 entry (__cmd_io_size c) in
  Ok (direction_of (Nvme.opcode c),
      (fun p => mk_transfer (pc_paddr p) (__cmd_io_offset c + pc_offset p) (pc_io_size p)) <$> ps).

(** ** With DMA *)

(** [paddr_list], index 0 unused; more than 512 entries do not fit. *)
Definition gather (ps : list prp_piece) : res (list Z) :=
  if zlen ps <=? 512 then Ok (0 :: (pc_paddr <$> ps) ++ replicate (512 - length ps) 0) else Err OutOfBounds.

(** The [for] loop that extends a run: the next index, the size of the run. *)
Fixpoint extend_run (fuel : nat) (arr : list Z) (num_prps i page_size : Z) : res (Z * Z) :=
  if num_prps <? i then Ok (i, page_size)
  else match fuel with
  | O => Err OutOfFuel
  | S fuel =>
      let! a := aget arr i in
      let! b := aget arr (i - 1) in
      if a =? u64 (b + PAGE_SIZE) then extend_run fuel arr num_prps (i + 1) (page_size + PAGE_SIZE) else Ok (i, page_size)
  end.

Fixpoint dma_loop (fuel : nat) (arr : list Z) (num_prps i offset remaining : Z) : res (list transfer) :=
  if remaining =? 0 then Ok []
  else match fuel with
  | O => Err OutOfFuel
  | S fuel =>
      let! paddr := aget arr i in
      let '(_, page_size) := prp_take paddr remaining in
      let! (i, page_size) := extend_run 513 arr num_prps (i + 1) page_size in
      let io_size := Z.min remaining page_size in
      let! rest := dma_loop fuel arr num_prps i (offset + io_size) (remaining - io_size) in
      Ok (mk_transfer paddr offset io_size :: rest)
  end.

(** The offset the engine sees is from [storage_start]. *)
Definition __do_perform_io_using_dma (c : Nvme.nvme_rw_command) (prp1 prp2 : Z) (entry : nat -> Z) : res (direction * list transfer) :=
  let length := __cmd_io_size c in
  let! ps := prp_pieces prp1 prp2 entry length in
  let! arr := gather ps in
  let! ts := dma_loop (S (Z.to_nat length)) arr (zlen ps) 1 (__cmd_io_offset c) length in
  Ok (direction_of (Nvme.opcode c), ts).

(** ** The bytes moved *)
Definition bytes_of (t : transfer) : list (Z * Z) := (fun i => (tr_host t + i, tr_storage t + i)) <$> zseq (tr_size t).
Definition moves (ts : list transfer) : list (Z * Z) := ts ≫= bytes_of.

(** Adjacent transfers join. *)
Lemma bytes_join h s a b : 0 <= a -> 0 <= b ->
  bytes_of (mk_transfer h s (a + b)) = bytes_of (mk_transfer h s a) ++ bytes_of (mk_transfer (h + a) (s + a) b).
Proof.
  intros Ha Hb. unfold bytes_of. cbn [tr_host tr_storage tr_size]. rewrite zseq_add, fmap_app by done. f_equal.
  rewrite <- list_fmap_compose. apply list_fmap_ext. intros i x _. cbn. f_equal; lia.
Qed.

(** What [__do_perform_io] moves for the pieces [ps] at [base]. *)
Definition piece_moves (base : Z) (ps : list prp_piece) : list (Z * Z) :=
  moves ((fun p => mk_transfer (pc_paddr p) (base + pc_offset p) (pc_io_size p)) <$> ps).

(** Every page but the first starts at a boundary; addresses leave room for a page. *)
Definition prp_aligned (ps : list prp_piece) : Prop :=
  Forall (fun p => 0 <= pc_paddr p < 2 ^ 64 - PAGE_SIZE) ps /\ Forall (fun p => pc_paddr p mod PAGE_SIZE = 0) (tail ps).

(** ** Exact pieces: each one goes to the end of its page, or of the command *)
Fixpoint full_pieces (offset remaining : Z) (ps : list prp_piece) : Prop :=
  match ps with
  | [] => remaining = 0
  | p :: ps =>
      0 < remaining /\ pc_offset p = offset /\ pc_io_size p = Z.min remaining (PAGE_SIZE - pc_paddr p mod PAGE_SIZE) /\
      full_pieces (offset + pc_io_size p) (remaining - pc_io_size p) ps
  end.

Lemma walk_full prp1 prp2 entry fuel : forall i hl k off rem ps, 0 <= rem ->
  prp_walk prp1 prp2 entry fuel i hl k off rem = Ok ps -> full_pieces off rem ps.
Proof.
  induction fuel as [|fuel IH]; intros i hl k off rem ps Hr; cbn [prp_walk]; destruct (Z.eqb_spec rem 0) as [->|Hn].
  1, 3: by intros [= <-].
  { done. }
  destruct (prp_next _ _ _ _ _ _ _) as [[[a hl'] k']|f]; cbn [rbind]; [|done]. rewrite prp_take_eq by lia. intros H.
  apply rbind_ok in H as (rest & E & [= <-]). cbn [full_pieces pc_offset pc_io_size pc_paddr].
  split; [lia|]. split; [done|]. split; [done|]. eapply IH; [|exact E]. lia.
Qed.

Lemma pieces_full prp1 prp2 entry len ps : 0 <= len -> prp_pieces prp1 prp2 entry len = Ok ps -> full_pieces 0 len ps.
Proof. intros Hl H. by eapply walk_full. Qed.

Fixpoint contig (a : Z) (run : list prp_piece) : Prop :=
  match run with [] => True | q :: run => pc_paddr q = a + PAGE_SIZE /\ contig (pc_paddr q) run end.

Section Runs.
Context (ps : list prp_piece) (arr : list Z) (base : Z).
Context (Hal : Forall (fun p => 0 <= pc_paddr p < 2 ^ 64 - PAGE_SIZE) ps).
Context (Harr : forall i p, zget ps i = Some p -> aget arr (i + 1) = Ok (pc_paddr p)).

Lemma zget_middle (pre : list prp_piece) p qs : zget (pre ++ p :: qs) (zlen pre) = Some p.
Proof.
  unfold zget. rewrite (proj2 (Z.ltb_ge _ 0)) by lia. rewrite Nat2Z.id. by apply list_lookup_middle.
Qed.

Lemma aget_at pre p qs : ps = pre ++ p :: qs -> aget arr (zlen pre + 1) = Ok (pc_paddr p).
Proof. intros E. apply Harr. rewrite E. apply zget_middle. Qed.

Lemma extend_spec qs : forall fuel pre p size, ps = pre ++ p :: qs -> (length qs < fuel)%nat ->
  exists run rest, qs = run ++ rest /\ contig (pc_paddr p) run /\
    extend_run fuel arr (zlen ps) (zlen pre + 2) size = Ok (zlen pre + 2 + zlen run, size + zlen run * PAGE_SIZE).
Proof.
  induction qs as [|q qs IH]; intros fuel pre p size E Hf.
  { exists [], []. split; [done|]. split; [done|]. assert (zlen ps = zlen pre + 1) as -> by (rewrite E, length_app; cbn; lia).
    destruct fuel; cbn [extend_run]; replace (zlen pre + 1 <? zlen pre + 2) with true by lia; do 2 f_equal; cbn; lia. }
  destruct fuel as [|fuel]; [lia|]. cbn [extend_run]. assert (zlen ps = zlen pre + 2 + zlen qs) as Hl by (rewrite E, length_app; cbn; lia).
  replace (zlen ps <? zlen pre + 2) with false by lia.
  assert (ps = (pre ++ [p]) ++ q :: qs) as E' by by rewrite <- app_assoc.
  pose proof (aget_at _ _ _ E') as Hq. rewrite length_app in Hq. cbn [length] in Hq.
  replace (Z.of_nat (length pre + 1) + 1) with (zlen pre + 2) in Hq by lia.
  rewrite Hq. cbn [rbind]. replace (zlen pre + 2 - 1) with (zlen pre + 1) by lia. rewrite (aget_at _ _ _ E). cbn [rbind].
  assert (0 <= pc_paddr p < 2 ^ 64 - PAGE_SIZE) as Hp.
  { rewrite Forall_forall in Hal. apply Hal. rewrite E. set_solver. }
  assert (0 < PAGE_SIZE) by done. rewrite u64_id by lia. destruct (Z.eqb_spec (pc_paddr q) (pc_paddr p + PAGE_SIZE)) as [Hc|Hc].
  - destruct (IH fuel (pre ++ [p]) q (size + PAGE_SIZE) E' ltac:(cbn in Hf; lia)) as (run & rest & -> & Hrun & Er).
    exists (q :: run), rest. split; [done|]. split; [done|]. rewrite length_app in Er. cbn [length] in Er.
    replace (zlen pre + 2 + 1) with (Z.of_nat (length pre + 1) + 2) by lia. rewrite Er. cbn [length]. do 2 f_equal; lia.
  - exists [], (q :: qs). split; [done|]. split; [done|]. do 2 f_equal; cbn; lia.
Qed.

(** A run of whole pages is one transfer. *)
Lemma run_moves run : forall p rest off rem, pc_paddr p mod PAGE_SIZE = 0 -> contig (pc_paddr p) run ->
  full_pieces off rem (p :: run ++ rest) ->
  let n := Z.min rem ((1 + zlen run) * PAGE_SIZE) in
  piece_moves base (p :: run) = bytes_of (mk_transfer (pc_paddr p) (base + off) n) /\ full_pieces (off + n) (rem - n) rest.
Proof.
  induction run as [|q run IH]; intros p rest off rem Ha Hc (Hr & Ho & Hs & Hf); cbn zeta.
  - cbn [app length] in *. rewrite Ha, Z.sub_0_r in Hs. replace ((1 + Z.of_nat 0) * PAGE_SIZE) with PAGE_SIZE by lia.
    rewrite <- Hs. split; [|done]. unfold piece_moves, moves. cbn. by rewrite app_nil_r, Ho.
  - destruct Hc as [Hq Hc]. pose proof Hf as (Hr' & _). rewrite Ha, Z.sub_0_r in Hs.
    assert (pc_io_size p = PAGE_SIZE) as Hps by lia. rewrite Hps in *.
    assert (pc_paddr q mod PAGE_SIZE = 0) as Haq.
    { rewrite Hq. rewrite <- Z.add_mod_idemp_l, Ha by done. done. }
    destruct (IH q rest (off + PAGE_SIZE) (rem - PAGE_SIZE) Haq Hc Hf) as [H1 H2]. cbn zeta in H1, H2. cbn [length].
    assert (0 < PAGE_SIZE) by done.
    set (n := Z.min (rem - PAGE_SIZE) ((1 + zlen run) * PAGE_SIZE)) in *.
    assert (0 <= n) as Hn by (unfold n; nia).
    assert (Z.min rem ((1 + Z.of_nat (S (length run))) * PAGE_SIZE) = PAGE_SIZE + n) as -> by (unfold n; lia).
    split; [|by rewrite Z.add_assoc, Z.sub_add_distr].
    rewrite bytes_join by lia. rewrite <- Hq. replace (base + off + PAGE_SIZE) with (base + (off + PAGE_SIZE)) by lia. rewrite <- H1.
    unfold piece_moves, moves at 1. rewrite fmap_cons. cbn [mbind list_bind]. by rewrite Ho, Hps.
Qed.

Lemma piece_moves_app l l' : piece_moves base (l ++ l') = piece_moves base l ++ piece_moves base l'.
Proof. unfold piece_moves, moves. by rewrite fmap_app, bind_app. Qed.

Lemma dma_spec fuel : forall pre qs off rem, ps = pre ++ qs -> Forall (fun p => pc_paddr p mod PAGE_SIZE = 0) (tail qs) ->
  full_pieces off rem qs -> (length qs < fuel)%nat -> (length qs <= 512)%nat ->
  exists ts, dma_loop fuel arr (zlen ps) (zlen pre + 1) (base + off) rem = Ok ts /\ moves ts = piece_moves base qs.
Proof.
  induction fuel as [|fuel IH]; intros pre qs off rem E Ha Hf Hfuel H512; [lia|]. destruct qs as [|p qs].
  { cbn [full_pieces] in Hf. subst rem. exists []. done. }
  pose proof Hf as (Hr & Ho & Hs & Hf'). cbn [tail] in Ha. cbn [length] in Hfuel, H512. cbn [dma_loop].
  replace (rem =? 0) with false by lia. rewrite (aget_at _ _ _ E). cbn [rbind]. rewrite prp_take_eq, <- Hs by done.
  destruct (extend_spec qs 513 pre p (pc_io_size p) E ltac:(lia)) as (run & rest & Eqs & Hc & Ex).
  replace (zlen pre + 1 + 1) with (zlen pre + 2) by lia. rewrite Ex. cbn [rbind]. assert (0 < PAGE_SIZE) as HP by done.
  set (n := Z.min rem (pc_io_size p + zlen run * PAGE_SIZE)).
  assert (piece_moves base (p :: run) = bytes_of (mk_transfer (pc_paddr p) (base + off) n) /\ full_pieces (off + n) (rem - n) rest) as [H1 H2].
  { destruct (decide (pc_paddr p mod PAGE_SIZE = 0)) as [Hz|Hz].
    - assert (n = Z.min rem ((1 + zlen run) * PAGE_SIZE)) as -> by (unfold n; rewrite Hs, Hz; lia).
      apply run_moves; [done|done|]. by rewrite <- Eqs.
    - assert (run = []) as ->.
      { destruct run as [|q run]; [done|]. destruct Hc as [Hq _]. rewrite Eqs in Ha. apply Forall_cons_1 in Ha as [Ha _].
        rewrite Hq in Ha. replace (pc_paddr p + PAGE_SIZE) with (pc_paddr p + 1 * PAGE_SIZE) in Ha by lia. rewrite Z.mod_add in Ha; done. }
      cbn [app length] in *. subst rest. assert (n = pc_io_size p) as -> by (unfold n; cbn; lia).
      split; [|done]. unfold piece_moves, moves. cbn. by rewrite app_nil_r, Ho. }
  destruct (IH (pre ++ p :: run) rest (off + n) (rem - n)) as (ts & Et & Em).
  - by rewrite E, Eqs, <- app_assoc.
  - rewrite Eqs in Ha. apply Forall_app in Ha as [_ Ha]. destruct rest; [done|]. by apply Forall_cons_1 in Ha as [_ ?].
  - done.
  - rewrite Eqs, length_app in Hfuel. lia.
  - rewrite Eqs, length_app in H512. lia.
  - rewrite length_app in Et. cbn [length] in Et.
    replace (Z.of_nat (length pre + S (length run)) + 1) with (zlen pre + 2 + zlen run) in Et by lia.
    rewrite Z.add_assoc in Et. rewrite Et. cbn [rbind]. eexists. split; [done|].
    unfold moves. cbn [mbind list_bind]. fold (moves ts). rewrite Em, <- H1, <- piece_moves_app, Eqs. done.
Qed.
End Runs.

Lemma full_length ps : forall off rem, full_pieces off rem ps -> zlen ps <= rem.
Proof.
  induction ps as [|p ps IH]; intros off rem; cbn [full_pieces]; [intros ->; done|]. intros (Hr & _ & Hs & Hf).
  specialize (IH _ _ Hf). pose proof (Z.mod_pos_bound (pc_paddr p) PAGE_SIZE ltac:(done)). cbn [length]. lia.
Qed.

Lemma gather_entries ps arr i p : gather ps = Ok arr -> zget ps i = Some p -> aget arr (i + 1) = Ok (pc_paddr p).
Proof.
  unfold gather. case_match; [|done]. intros [= <-] Hp. apply aget_ok. pose proof (zget_range _ _ _ Hp) as Hr.
  unfold zget in *. replace (i <? 0) with false in Hp by lia. replace (i + 1 <? 0) with false by lia.
  replace (Z.to_nat (i + 1)) with (S (Z.to_nat i)) by lia.
  change (((pc_paddr <$> ps) ++ replicate (512 - length ps) 0) !! Z.to_nat i = Some (pc_paddr p)).
  rewrite lookup_app_l by (rewrite length_fmap; lia). rewrite list_lookup_fmap. by rewrite Hp.
Qed.

(** Both routines on pages the host laid out as it must. *)
Lemma perform_spec c prp1 prp2 entry ps :
  prp_pieces prp1 prp2 entry (__cmd_io_size c) = Ok ps -> prp_aligned ps -> (length ps <= 512)%nat ->
  exists ts ts', __do_perform_io c prp1 prp2 entry = Ok (direction_of (Nvme.opcode c), ts) /\
    __do_perform_io_using_dma c prp1 prp2 entry = Ok (direction_of (Nvme.opcode c), ts') /\ moves ts' = moves ts.
Proof.
  intros Hps [Ha Ht] H512. unfold __do_perform_io, __do_perform_io_using_dma. rewrite Hps. cbn [rbind].
  assert (0 <= __cmd_io_size c) as Hsz by apply u64_range.
  pose proof (pieces_full _ _ _ _ _ Hsz Hps) as Hf. pose proof (full_length _ _ _ Hf) as Hl.
  assert (exists arr, gather ps = Ok arr) as (arr & Earr).
  { unfold gather. replace (zlen ps <=? 512) with true by lia. by eexists. }
  rewrite Earr. cbn [rbind]. pose proof (fun i p => gather_entries ps arr i p Earr) as Hg.
  destruct (dma_spec ps arr (__cmd_io_offset c) Ha Hg (S (Z.to_nat (__cmd_io_size c))) [] ps 0 (__cmd_io_size c)) as (ts & Et & Em); try done; [lia|].
  cbn [length] in Et. rewrite Z.add_0_r in Et. change (Z.of_nat 0 + 1) with 1 in Et. rewrite Et. cbn [rbind].
  eexists _, ts. split; [reflexivity|]. split; [reflexivity|]. exact Em.
Qed.
