(* ===== verification/DataPath.v ===== *)
(** * io.c: the bytes in memory

    What the copies of Perform.v do to host memory and to the storage, one command after
    the other, by the CPU or by the engine. *)

From Stdlib Require Import ZArith Lia.
From stdpp Require Import base list numbers sets.
From S2P Require Import Prelude Config Prp Perform.
From S2P Require Nvme.

(** ** Memory *)

(** Bytes by physical address, and by offset into the storage area. *)
Record memory : Type := mk_memory { host_mem : Z -> Z; storage_mem : Z -> Z }.

Definition upd (f : Z -> Z) (a v : Z) : Z -> Z := fun x => if x =? a then v else f x.
Definition upds (f : Z -> Z) (l : list (Z * Z)) : Z -> Z := fold_left (fun f p => upd f (fst p) (snd p)) l f.

(** [memcpy] of the bytes in [l], host address and offset, one by one; the two memories do
    not overlap. *)
Definition copy_all (dir : direction) (base : Z) (l : list (Z * Z)) (m : memory) : memory :=
  match dir with
  | ToStorage => mk_memory (host_mem m) (upds (storage_mem m) ((fun p => (base + snd p, host_mem m (fst p))) <$> l))
  | ToHost => mk_memory (upds (host_mem m) ((fun p => (fst p, storage_mem m (base + snd p))) <$> l)) (storage_mem m)
  | NoCopy => m
  end.

(** A command with its PRPs and the entries of its PRP list, and whether DMA is used. *)
Record data_op : Type := mk_io { io_dma : bool; io_cmd : Nvme.nvme_rw_command; io_prp1 : Z; io_prp2 : Z; io_entry : nat -> Z }.

(** [ns[nsid].mapped] is [base] bytes into the storage; the engine's copies start at
    [storage_start]. *)
Definition perform (base : Z) (o : data_op) (m : memory) : res memory :=
  if io_dma o then
    let! r := __do_perform_io_using_dma (io_cmd o) (io_prp1 o) (io_prp2 o) (io_entry o) in Ok (copy_all (fst r) 0 (moves (snd r)) m)
  else
    let! r := __do_perform_io (io_cmd o) (io_prp1 o) (io_prp2 o) (io_entry o) in Ok (copy_all (fst r) base (moves (snd r)) m).

(** What happens between: commands of the device, and stores of the host. *)
Inductive event : Type := Io (o : data_op) | HostStore (a v : Z).

Definition happen (base : Z) (e : event) (m : memory) : res memory :=
  match e with
  | Io o => perform base o m
  | HostStore a v => Ok (mk_memory (upd (host_mem m) a v) (storage_mem m))
  end.

Fixpoint happen_all (base : Z) (l : list event) (m : memory) : res memory :=
  match l with [] => Ok m | e :: l => let! m := happen base e m in happen_all base l m end.

(** ** The buffer of a command *)

(** The addresses of its bytes, in order. *)
Definition piece_bytes (p : prp_piece) : list Z := seqZ (pc_paddr p) (pc_io_size p).
Definition host_buffer (o : data_op) : res (list Z) :=
  let! ps := prp_pieces (io_prp1 o) (io_prp2 o) (io_entry o) (__cmd_io_size (io_cmd o)) in Ok (ps ≫= piece_bytes).

(** DMA wants aligned pages, at most 512, and the first namespace. *)
Definition dma_ok (base : Z) (o : data_op) : Prop := io_dma o = true ->
  base = 0 /\ exists ps, prp_pieces (io_prp1 o) (io_prp2 o) (io_entry o) (__cmd_io_size (io_cmd o)) = Ok ps /\ prp_aligned ps /\ (length ps <= 512)%nat.

(** The event does not write to [n] bytes of the storage from [off] on. *)
Definition spares (off n : Z) (e : event) : Prop :=
  match e with
  | Io o => direction_of (Nvme.opcode (io_cmd o)) = ToStorage ->
      __cmd_io_offset (io_cmd o) + __cmd_io_size (io_cmd o) <= off \/ off + n <= __cmd_io_offset (io_cmd o)
  | HostStore _ _ => True
  end.

(** ** Lemmas *)
Lemma upds_out l : forall f a, a ∉ l.*1 -> upds f l a = f a.
Proof.
  induction l as [|[b v] l IH]; intros f a Ha; [done|]. cbn [fmap list_fmap fst] in Ha. apply not_elem_of_cons in Ha as [Hab Ha].
  unfold upds in *. cbn [fold_left fst snd]. rewrite IH by done. unfold upd. by replace (a =? b) with false by lia.
Qed.

Lemma upds_in l : forall f i a v, NoDup l.*1 -> l !! i = Some (a, v) -> upds f l a = v.
Proof.
  induction l as [|[b w] l IH]; intros f [|i] a v Hn Hi; try done; cbn [fmap list_fmap fst] in Hn; apply NoDup_cons in Hn as [Hb Hn]; cbn in Hi.
  - injection Hi as -> ->. unfold upds. cbn [fold_left fst snd]. fold (upds (upd f a v) l). rewrite upds_out by done. unfold upd. by rewrite Z.eqb_refl.
  - unfold upds. cbn [fold_left]. by eapply (IH _ i).
Qed.

Lemma bytes_fst t : (bytes_of t).*1 = seqZ (tr_host t) (tr_size t).
Proof. unfold bytes_of, zseq, seqZ. rewrite <- !list_fmap_compose. apply list_fmap_ext. intros i x _. cbn. lia. Qed.
Lemma bytes_snd t : (bytes_of t).*2 = seqZ (tr_storage t) (tr_size t).
Proof. unfold bytes_of, zseq, seqZ. rewrite <- !list_fmap_compose. apply list_fmap_ext. intros i x _. cbn. lia. Qed.

Lemma piece_moves_fst base ps : (piece_moves base ps).*1 = ps ≫= piece_bytes.
Proof.
  unfold piece_moves, moves. induction ps as [|p ps IH]; [done|]. cbn [fmap list_fmap mbind list_bind]. rewrite fmap_app, bytes_fst. cbn [tr_host tr_size].
  by rewrite IH.
Qed.

Lemma piece_moves_snd base ps : forall off rem, full_pieces off rem ps -> (piece_moves base ps).*2 = seqZ (base + off) rem.
Proof.
  unfold piece_moves, moves. induction ps as [|p ps IH]; intros off rem; cbn [full_pieces fmap list_fmap mbind list_bind]; [by intros ->|].
  intros (Hr & Ho & Hs & Hf). rewrite fmap_app, bytes_snd. cbn [tr_storage tr_size]. rewrite (IH _ _ Hf), Ho.
  pose proof (Z.mod_pos_bound (pc_paddr p) PAGE_SIZE ltac:(done)).
  replace rem with (pc_io_size p + (rem - pc_io_size p)) at 2 by lia. rewrite seqZ_app by lia. f_equal. f_equal. lia.
Qed.

(** Both ways: a copy between the buffer and the range of the command. *)
Lemma perform_moves base o m buf : dma_ok base o -> host_buffer o = Ok buf ->
  exists l, perform base o m = Ok (copy_all (direction_of (Nvme.opcode (io_cmd o))) base l m) /\ l.*1 = buf /\
    l.*2 = seqZ (__cmd_io_offset (io_cmd o)) (__cmd_io_size (io_cmd o)).
Proof.
  intros Hd Hb. unfold host_buffer in Hb. apply rbind_ok in Hb as (ps & Eps & [= <-]).
  assert (0 <= __cmd_io_size (io_cmd o)) as Hsz by apply u64_range.
  pose proof (pieces_full _ _ _ _ _ Hsz Eps) as Hf. exists (piece_moves (__cmd_io_offset (io_cmd o)) ps).
  rewrite piece_moves_fst, (piece_moves_snd _ _ 0 (__cmd_io_size (io_cmd o))) by done. rewrite Z.add_0_r. split; [|done].
  unfold perform. destruct (io_dma o) eqn:Ed.
  - destruct (Hd Ed) as (-> & ps' & E' & Ha & Hl). assert (ps' = ps) as -> by congruence.
    destruct (perform_spec (io_cmd o) _ _ _ _ Eps Ha Hl) as (ts & ts' & E1 & E2 & Em). rewrite E2. cbn [rbind fst snd]. rewrite Em.
    unfold __do_perform_io in E1. rewrite Eps in E1. cbn [rbind] in E1. injection E1 as <-. done.
  - unfold __do_perform_io. rewrite Eps. done.
Qed.

(** Performing a command needs its buffer. *)
Lemma perform_buffer base o m m' : perform base o m = Ok m' -> exists buf, host_buffer o = Ok buf.
Proof.
  unfold perform, host_buffer, __do_perform_io, __do_perform_io_using_dma. destruct (io_dma o); intros E; apply rbind_ok in E as (r & E & _);
    apply rbind_ok in E as (ps & -> & _); by eexists.
Qed.

Lemma happen_keeps base e m m' off n x : happen base e m = Ok m' -> (forall o, e = Io o -> dma_ok base o) -> spares off n e -> off <= x < off + n ->
  storage_mem m' (base + x) = storage_mem m (base + x).
Proof.
  destruct e as [o|a v]; cbn [happen spares]; [|by intros [= <-]]. intros E Hd Hs Hx. destruct (perform_buffer _ _ _ _ E) as (buf & Hb).
  destruct (perform_moves base o m buf (Hd o eq_refl) Hb) as (l & El & _ & Hl). rewrite E in El. injection El as ->.
  destruct (direction_of _) eqn:Ed; cbn [copy_all storage_mem]; try done. apply upds_out. specialize (Hs eq_refl).
  rewrite <- list_fmap_compose. intros Hin. apply list_elem_of_fmap in Hin as ([a y] & Hy & Hin). cbn in Hy.
  assert (y ∈ l.*2) as Hin2 by (apply list_elem_of_fmap; by exists (a, y)). rewrite Hl in Hin2. apply elem_of_seqZ in Hin2. lia.
Qed.

Lemma happen_all_keeps base es : forall m m' off n x, happen_all base es m = Ok m' -> (forall o, Io o ∈ es -> dma_ok base o) ->
  Forall (spares off n) es -> off <= x < off + n -> storage_mem m' (base + x) = storage_mem m (base + x).
Proof.
  induction es as [|e es IH]; intros m m' off n x E Hd Hs Hx; cbn [happen_all] in E; [by injection E as <-|].
  apply rbind_ok in E as (m1 & E1 & E). apply Forall_cons in Hs as [He Hs]. rewrite (IH _ _ off n x E); [|set_solver|done|done].
  eapply happen_keeps; [exact E1| |exact He|exact Hx]. intros o ->. apply Hd. set_solver.
Qed.

Lemma seqZ_lookup_eq a n i x : seqZ a n !! i = Some x -> x = a + Z.of_nat i /\ Z.of_nat i < n.
Proof. intros H. apply lookup_seqZ in H. lia. Qed.

(** What a host address of the list holds afterwards. *)
Lemma copy_in dir base l m i a x : NoDup (l.*1) -> NoDup (l.*2) -> l !! i = Some (a, x) ->
  (dir = ToHost -> host_mem (copy_all dir base l m) a = storage_mem m (base + x)) /\
  (dir = ToStorage -> storage_mem (copy_all dir base l m) (base + x) = host_mem m a).
Proof.
  intros H1 H2 Hi. split; intros ->; cbn [copy_all host_mem storage_mem].
  - apply (upds_in _ _ i); [by rewrite <- list_fmap_compose|]. by rewrite list_lookup_fmap, Hi.
  - apply (upds_in _ _ i); [|by rewrite list_lookup_fmap, Hi]. rewrite <- list_fmap_compose.
    change (NoDup ((Z.add base ∘ snd) <$> l)). rewrite list_fmap_compose. apply NoDup_fmap_2; [intros ???; lia|done].
Qed.

(** ** The data path *)


(** 512 bytes from an unaligned buffer on two pages, by DMA; read back by the CPU after another write and a store. *)
Definition demo_write : data_op := mk_io true (Nvme.mk_rw Nvme.nvme_cmd_write 100 0 0) 24320 65536 (fun _ => 0).
Definition demo_other : data_op := mk_io false (Nvme.mk_rw Nvme.nvme_cmd_write 101 0 0) 20480 0 (fun _ => 0).
Definition demo_read : data_op := mk_io false (Nvme.mk_rw Nvme.nvme_cmd_read 100 0 0) 122880 0 (fun _ => 0).
Definition demo_bytes : memory := mk_memory (fun a => a mod 251) (fun _ => 0).

Lemma demo_dma_ok : dma_ok 0 demo_write.
Proof. intros _. split; [done|]. eexists. split; [vm_compute; reflexivity|]. split; [split; repeat constructor; vm_compute; discriminate|cbn; lia]. Qed.

Lemma demo_cpu_ok : dma_ok 0 demo_other.
Proof. intros H. cbn [io_dma demo_other] in H. discriminate H. Qed.

