(* ===== verification/IoTheorems.v ===== *)
(** * What the I/O path guarantees

    The theorems of io.c and simple_ftl.c: the work queue shared by the dispatcher and
    a worker, the order of the queue, completion queues, the dispatcher on any
    servable namespace, data transfer, and the times of the simple namespace. *)

From Stdlib Require Import ZArith Lia.
From stdpp Require Import base list numbers sets sorting.
From S2P Require Import Prelude Config Prp WorkQueue IoWorker IoQueue Dispatch Perform SimpleFtl.
From S2P Require Nvme.

(** ** The work queue *)

(** C14: a worker and the dispatcher on one work queue, their steps interleaved in any
    order: no step meets a fault; every operation the queue accepted is either
    finished, once, or still pending, and was not finished before its target time;
    the data of every finished request was copied exactly once, and so was that of
    the pending requests marked copied. *)
Theorem io_worker_exactly_once acc effs k curr : reach acc effs (mk_sys k curr) ->
  acc ≡ₚ finished effs ++ pending k /\
  copies effs ≡ₚ omap data_of (finished effs) ++ omap data_of (pending_copied k) /\
  (forall now j, Finish now j ∈ effs -> job_target j <= now) /\
  (forall o, exists b k', enqueue (op_fill o) (op_target o) k = Ok (b, k')) /\
  (exists k', reclaim k = Ok k') /\
  (curr <> NIL -> forall now, exists es curr' k', visit now curr k = Ok (es, curr', k')).
Proof.
  intros R. destruct (reach_inv _ _ _ R) as (io & free & I). cbn [sys_worker sys_curr] in I.
  pose proof (in_service_inv _ _ _ (si_inv _ _ _ _ _ _ I)) as Hio. unfold pending, pending_copied. rewrite Hio.
  split; [apply I|]. split; [apply I|]. split; [apply I|]. split; [|split].
  - intros o. destruct (reach_take_free _ _ _ _ R) as (r & _ & _ & Hf & Hs). destruct r as [r|]; [|eauto].
    destruct (Hs o) as (k' & E); [done|eauto].
  - destruct (sys_reclaim _ _ _ _ _ _ I) as (k' & E & _). eauto.
  - intros Hc now. destruct (sys_visit _ _ _ _ _ _ now I Hc) as (es & c & k' & E & _). eauto.
Qed.

(** A request accepted, its data copied in a first visit, finished in a second one. *)
Definition demo_op : io_op := OpRequest 1 1 0 7 100 120 (Nvme.mk_result 0 5000).

Lemma demo_reach : exists k e, reach [op_job demo_op] [] (mk_sys k e) /\ e <> NIL /\ room k = NR_MAX_PARALLEL_IO - 2.
Proof.
  pose proof (reach_init 0) as R0. destruct (reach_take_free _ _ _ _ R0) as (r & _ & Hr & _ & Hs).
  assert (room (worker_init 0) = NR_MAX_PARALLEL_IO - 1) as H0.
  { unfold room. rewrite (in_service_inv _ _ _ (worker_init_inv 0)). cbn. lia. }
  assert (r <> None) as Hn by (intros ->; destruct Hr as [Hr _]; specialize (Hr eq_refl); rewrite H0 in Hr; unfold NR_MAX_PARALLEL_IO in Hr; lia).
  destruct (Hs demo_op Hn) as (k & E). pose proof (reach_enqueue _ _ _ _ _ _ _ R0 E) as R1. cbn [app] in R1.
  destruct (room_enqueue _ _ _ _ _ _ _ R0 E) as [_ Hk]. exists k, (io_seq k). split; [by apply reach_start|]. split; [|rewrite Hk, H0; lia].
  destruct (reach_inv _ _ _ R1) as (io & free & I). pose proof (si_inv _ _ _ _ _ _ I) as W. cbn [sys_worker] in W.
  rewrite (wv_io_seq _ _ _ W). destruct io as [|x io].
  - exfalso. rewrite H0 in Hk. unfold room in Hk. rewrite (in_service_inv _ _ _ W) in Hk. cbn [length] in Hk. lia.
  - cbn [hd]. intros ->. assert (0 <= NIL < NR_MAX_PARALLEL_IO) as H by (apply (inv_in _ _ _ W); by left). by apply slot_not_nil in H.
Qed.

Lemma io_worker_exactly_once_witness : exists k e, reach [op_job demo_op] [] (mk_sys k e) /\
  [op_job demo_op] ≡ₚ finished [] ++ pending k /\ (forall now, exists es e' k', visit now e k = Ok (es, e', k')).
Proof.
  destruct demo_reach as (k & e & R & He & _). exists k, e. split; [exact R|].
  destruct (io_worker_exactly_once _ _ _ _ R) as (H1 & _ & _ & _ & _ & H2). split; [exact H1|exact (H2 He)].
Defined.

(** a turn of the worker at a time past all targets, between two calls of the
    dispatcher: the inner loop ends, finishes exactly the pending operations in queue
    order, and the next reclaim frees every entry, so all accepted operations are
    then finished. *)
Theorem io_pass_finishes_all clk t acc effs k : reach acc effs (mk_sys k NIL) -> all_due clk t k ->
  exists es t' k' k'', io_pass clk t k = Ok (es, t', k') /\ finished es = pending k /\
    reach acc (effs ++ es) (mk_sys k' NIL) /\ reclaim k' = Ok k'' /\ in_service k'' = [] /\ acc ≡ₚ finished (effs ++ es).
Proof. apply io_pass_spec. Qed.

(** One request due at 5000 ns, a worker that wakes up at 10000 ns. *)
Definition late_clock : clock := fun _ _ => 10000.

Lemma demo_pending : exists k, reach [op_job demo_op] [] (mk_sys k NIL) /\ all_due late_clock 0%nat k.
Proof.
  pose proof (reach_init 0) as R0. destruct (reach_take_free _ _ _ _ R0) as (r & _ & Hr & Hf & Hs).
  assert (exists k, enqueue (op_fill demo_op) (op_target demo_op) (worker_init 0) = Ok (true, k)) as (k & E).
  { apply Hs. intros ->. destruct Hr as [Hr _]. specialize (Hr eq_refl). unfold room in Hr.
    rewrite (in_service_inv _ _ _ (worker_init_inv 0)) in Hr. cbn in Hr. unfold NR_MAX_PARALLEL_IO in Hr. lia. }
  exists k. pose proof (reach_enqueue _ _ _ _ _ _ _ R0 E) as R1. split; [exact R1|].
  destruct (enqueue_ordered _ _ _ _ _ (worker_init_inv 0) E) as (e & A & B & Hin & Hin' & Hj & _).
  rewrite (in_service_inv _ _ _ (worker_init_inv 0)) in Hin. destruct A, B; try discriminate Hin.
  intros u x _. rewrite Hin'. intros Hx%list_elem_of_singleton. subst x.
  apply (f_equal job_target) in Hj.
  assert (forall w, job_target (job_of w) = nsecs_target w) as Ht by (intros w; unfold job_of; by destruct (is_internal w)).
  rewrite !Ht in Hj. rewrite Hj. vm_compute. discriminate.
Qed.

Lemma io_pass_finishes_all_witness : exists k es t' k' k'', reach [op_job demo_op] [] (mk_sys k NIL) /\
  io_pass late_clock 0%nat k = Ok (es, t', k') /\ reclaim k' = Ok k'' /\ in_service k'' = [] /\ [op_job demo_op] ≡ₚ finished es.
Proof.
  destruct demo_pending as (k & R & Hd).
  destruct (io_pass_finishes_all late_clock 0%nat _ _ _ R Hd) as (es & t' & k' & k'' & H1 & _ & _ & H4 & H5 & H6).
  exists k, es, t', k', k''. exact (conj R (conj H1 (conj H4 (conj H5 H6)))).
Defined.

(** where an accepted operation goes: behind every entry that is due or has no
    later target, in front of those that are later; a queue whose entries not yet
    due are sorted by target stays so. *)
Theorem insert_keeps_order k io free o k' : worker_inv k io free -> enqueue (op_fill o) (op_target o) k = Ok (true, k') ->
  exists e A B, in_service k = A ++ B /\ in_service k' = A ++ e :: B /\
    job_of (wk_at (work_queue k') e) = job_of (op_fill o (wk_at (work_queue k) e)) /\
    (forall x, x ∈ B -> Z.max (latest_nsecs k) (op_target o) < nsecs_target (wk_at (work_queue k') x)) /\
    (A = [] \/ exists A' c, A = A' ++ [c] /\ nsecs_target (wk_at (work_queue k') c) <= Z.max (latest_nsecs k) (op_target o)) /\
    (ordered k (in_service k) -> ordered k' (in_service k')).
Proof. apply enqueue_ordered. Qed.

Lemma insert_keeps_order_witness : exists k e, enqueue (op_fill demo_op) (op_target demo_op) (worker_init 0) = Ok (true, k) /\
  in_service k = [e] /\ ordered k (in_service k).
Proof.
  destruct (reach_take_free _ _ _ _ (reach_init 0)) as (r & _ & Hr & Hf & Hs).
  assert (exists k, enqueue (op_fill demo_op) (op_target demo_op) (worker_init 0) = Ok (true, k)) as (k & E).
  { apply Hs. intros ->. destruct Hr as [Hr _]. specialize (Hr eq_refl). unfold room in Hr.
    rewrite (in_service_inv _ _ _ (worker_init_inv 0)) in Hr. cbn in Hr. unfold NR_MAX_PARALLEL_IO in Hr. lia. }
  destruct (insert_keeps_order _ _ _ _ _ (worker_init_inv 0) E) as (e & A & B & H1 & H2 & _ & _ & _ & H6).
  rewrite (in_service_inv _ _ _ (worker_init_inv 0)) in H1, H6. exists k, e. split; [exact E|].
  destruct A, B; try discriminate H1. split; [exact H2|]. apply H6. exists [], [].
  split; [reflexivity|]. split; [intros x Hx; by apply elem_of_nil in Hx|constructor].
Defined.

(** ** Completion queues *)

(** C17: posting to a completion queue that starts new and cleared never fails, and a host that has consumed [m] of
    the [n] requests posted so far, with at most a ring of them outstanding, reaps by
    the phase bit exactly the others, in order, each with the fields it was posted with. *)
Theorem cq_reap_correct q js m fuel : cq_fresh q ->
  exists q', fill_all js q = Ok q' /\
    (0 <= m <= zlen (requests js) -> zlen (requests js) - m <= cq_queue_size q -> zlen (requests js) - m <= Z.of_nat fuel ->
     reap fuel (cq_queue_size q) (cq_entries q') (m mod cq_queue_size q) (phase_at (cq_queue_size q) m) =
       expected (cq_queue_size q) m (drop (Z.to_nat m) (requests js))).
Proof.
  intros F. pose proof (cf_size q F) as Hs. destruct (fill_all_holds (cq_queue_size q) js ltac:(lia) [] q (fresh_holds q F)) as (q' & E & H).
  exists q'. split; [done|]. intros Hm H1 H2. cbn [app] in H.
  pose proof (reap_holds (cq_queue_size q) (requests js) q' ltac:(lia) H (requests_all js) (Z.to_nat (zlen (requests js) - m)) fuel ltac:(lia) ltac:(lia) ltac:(lia)) as Hr.
  rewrite Z2Nat.id in Hr by lia. replace (zlen (requests js) - (zlen (requests js) - m)) with m in Hr by lia.
  replace (length (requests js) - Z.to_nat (zlen (requests js) - m))%nat with (Z.to_nat m) in Hr by lia. exact Hr.
Qed.

(** A ring of three, five requests and a buffer release; two entries consumed before. *)
Definition demo_cq : nvmev_completion_queue := mk_cq 3 1 0 (-1) true 1 false (replicate 4 (mk_cqe 0 0 0 0 0 0)).
Definition demo_jobs : list io_job :=
  [Request 1 1 0 10 0 0 0 50; Request 1 1 1 11 0 0 0 60; Release 0 4096 60; Request 1 1 2 12 0x2 0 0 70; Request 1 1 3 13 0 0 0 80;
   Request 1 1 4 14 0 0 0 90].

Lemma demo_cq_fresh : cq_fresh demo_cq.
Proof.
  split; [cbn; lia|done|done|]. intros i c Hc. unfold demo_cq, zget in Hc. cbn [cq_entries] in Hc. case_match; [done|].
  apply lookup_replicate in Hc as [-> _]. done.
Qed.

Lemma cq_reap_correct_witness : exists q', fill_all demo_jobs demo_cq = Ok q' /\
  cqe_command_id <$> reap 9 3 (cq_entries q') 2 1 = [12; 13; 14].
Proof.
  destruct (cq_reap_correct demo_cq demo_jobs 2 9 demo_cq_fresh) as (q' & E & H). exists q'. split; [exact E|].
  change (cq_queue_size demo_cq) with 3 in H. change (2 mod 3) with 2 in H. change (phase_at 3 2) with 1 in H.
  rewrite H by (vm_compute; (split; discriminate) || discriminate). reflexivity.
Defined.

(** ** The dispatcher *)

(** the doorbell of a submission queue, on any namespace that can serve the commands:
    the dispatcher meets no fault, takes the commands in ring order until the end or
    until the namespace puts one off, moves the doorbell over exactly the taken ones,
    and hands every worker, in order, the operations the namespace scheduled and the
    taken requests of its queue, all of them as far as the worker has room. *)
Theorem proc_io_sq_correct {N C} `{NS : Namespace N C} `{SN : !ServableNamespace N C}
    (d : nvmev_dev N C) A E K sqid i q n cs new_db old_db clk t :
  dev_ok d A E K -> zget (sqes d) sqid = Some (Some q) ->
  0 <= old_db < sq_queue_size q -> 0 <= new_db < sq_queue_size q ->
  Forall2 (fun e c => zget (sq_entries q) e = Some c) (ring_from (sq_queue_size q) old_db (length cs)) cs ->
  zlen cs = num_proc (sq_queue_size q) new_db old_db ->
  Forall (fun c => u32 (c_nsid c - 1) = i) cs -> zget (vns d) i = Some n -> can_serve n (c_body <$> cs) ->
  exists k t' d' A' q' n' l, nvmev_proc_io_sq sqid new_db old_db clk t d = Ok ((old_db + k) mod sq_queue_size q, t', d') /\
    loop_done E K d A sqid i q n (zip (ring_from (sq_queue_size q) old_db (length cs)) cs) k d' A' q' n' l.
Proof. apply proc_sq_spec. Qed.

(** Two workers, a queue of four entries, a simple namespace. *)
Definition demo_config : simple_config := mk_simple_config 8 12 1 1 0 1 1 0.
Definition demo_command (id lba len : Z) : nvme_command Nvme.nvme_rw_command :=
  mk_command id 1 len (Nvme.mk_rw Nvme.nvme_cmd_write lba len 0).
Definition demo_sq : nvmev_submission_queue Nvme.nvme_rw_command :=
  mk_sq 1 4 (mk_stat 0 0 0 0 0) [demo_command 20 0 7; demo_command 21 8 7; demo_command 22 16 7; demo_command 23 24 7].
Definition demo_dev (ks : list nvmev_io_worker) : nvmev_dev simple_ns Nvme.nvme_rw_command :=
  mk_dev ks 0 (zlen ks) [simple_init_namespace demo_config true 1 (2 ^ 30)] [None; Some demo_sq] [None; Some demo_cq].

Lemma demo_config_ok : config_ok demo_config.
Proof. split; [cbn; lia|unfold LBA_BITS; cbn; lia|]. intros o. unfold op_times. repeat case_match; cbn in *; simplify_eq; lia. Qed.

Lemma demo_dev_ok : dev_ok (demo_dev [worker_init 0]) (fun _ => []) (fun _ => []) (fun _ => NIL).
Proof.
  split; [done|cbn; lia|..]; intros i k Hk; cbn [demo_dev io_workers] in Hk; rewrite zget_cons in Hk; destruct (Z.eqb_spec i 0) as [->|];
    try (apply zget_range in Hk; cbn in Hk; lia); injection Hk as <-; [constructor|done].
Qed.

(** The doorbell goes from 3 round to 1: slots 3 and 0. *)
Lemma proc_io_sq_correct_witness : exists k t' d', nvmev_proc_io_sq 1 1 3 late_clock 0%nat (demo_dev [worker_init 0]) = Ok ((3 + k) mod 4, t', d').
Proof.
  destruct (proc_io_sq_correct (demo_dev [worker_init 0]) (fun _ => []) (fun _ => []) (fun _ => NIL) 1 0 demo_sq
    (simple_init_namespace demo_config true 1 (2 ^ 30)) [demo_command 23 24 7; demo_command 20 0 7] 1 3 late_clock 0%nat)
    as (k & t' & d' & _ & _ & _ & _ & H & _).
  - apply demo_dev_ok.
  - reflexivity.
  - cbn. lia.
  - cbn. lia.
  - repeat constructor.
  - reflexivity.
  - repeat constructor.
  - reflexivity.
  - apply simple_init_ok, demo_config_ok.
  - exists k, t', d'. exact H.
Defined.

(** a command that comes when the worker's queue has no entry to spare: the
    dispatcher takes it and moves on, but no worker accepts anything, so the host
    never gets a completion for it. *)
Theorem full_queue_loses_command {N C} `{NS : Namespace N C} `{SN : !ServableNamespace N C}
    (d : nvmev_dev N C) A E K sqid e q c i n clk t :
  dev_ok d A E K -> zget (sqes d) sqid = Some (Some q) -> zget (sq_entries q) e = Some c ->
  u32 (c_nsid c - 1) = i -> zget (vns d) i = Some n -> can_serve n [c_body c] ->
  (forall nsecs rt clk t r t' n', proc_io_cmd (c_body c) sqid nsecs rt clk t n = Ok (r, t', n') ->
     fst (fst r) = true /\ ns_scheduled n' = ns_scheduled n) ->
  room_at d (worker_of d sqid) = 0 ->
  exists t' d' A', __nvmev_proc_io sqid e clk t d = Ok (Some (Dispatch.__cmd_io_size c), t', d') /\ dev_ok d' A' E K /\
    forall j, A' j = A j.
Proof.
  intros D Hq Hc Hi Hn Hs Htaken Hroom.
  destruct (dispatch_spec E K d A sqid e q c i n [] clk t D Hq Hc Hi Hn Hs)
    as (b & t' & d' & A' & n' & nsecs & tc & rt & body & tc' & l & E1 & Ep & _ & _ & D' & _ & _ & _ & _ & Hlost).
  destruct (Htaken _ _ _ _ _ _ _ Ep) as [Hb Ho]. cbn in Hb. subst b. exists t', d', A'. split; [exact E1|]. split; [done|].
  apply Hlost; [|done]. unfold internals. by rewrite Ho, drop_all.
Qed.

(** A worker whose queue is full. *)
Lemma full_reachable n : 0 <= n -> n <= NR_MAX_PARALLEL_IO - 1 ->
  exists acc k, reach acc [] (mk_sys k NIL) /\ room k = NR_MAX_PARALLEL_IO - 1 - n /\ worker_id k = 0.
Proof.
  intros Hn. pattern n. apply natlike_ind; [| |done]; clear n Hn.
  - intros _. exists [], (worker_init 0). split; [constructor|]. split; [|done]. unfold room. rewrite (in_service_inv _ _ _ (worker_init_inv 0)). cbn [length]. lia.
  - intros n Hn IH Hle. destruct IH as (acc & k & R & Hr & Hid); [lia|]. destruct (reach_take_free _ _ _ _ R) as (r & _ & H0 & _ & Hs).
    destruct (Hs demo_op) as (k' & E); [intros ->; destruct H0 as [H0 _]; specialize (H0 eq_refl); lia|].
    exists (acc ++ [op_job demo_op]), k'. split; [apply (reach_enqueue _ _ _ _ _ _ _ R E)|].
    destruct (room_enqueue _ _ _ _ _ _ _ R E) as [_ ->]. split; [lia|]. by rewrite (enqueue_id _ _ _ _ _ E).
Qed.

Lemma full_queue_loses_command_witness : exists acc k t' d', reach acc [] (mk_sys k NIL) /\
  __nvmev_proc_io 1 0 late_clock 0%nat (demo_dev [k]) = Ok (Some 4096, t', d') /\ dev_ok d' (fun _ => acc) (fun _ => []) (fun _ => NIL).
Proof.
  destruct (full_reachable (NR_MAX_PARALLEL_IO - 1)) as (acc & k & R & Hr & Hid); [unfold NR_MAX_PARALLEL_IO; lia|lia|].
  rewrite Z.sub_diag in Hr.
  destruct (full_queue_loses_command (demo_dev [k]) (fun _ => acc) (fun _ => []) (fun _ => NIL) 1 0 demo_sq (demo_command 20 0 7) 0
    (simple_init_namespace demo_config true 1 (2 ^ 30)) late_clock 0%nat) as (t' & d' & A' & H1 & H2 & H3).
  - split; [done|cbn; lia|..]; intros i k' Hk; cbn [demo_dev io_workers] in Hk; rewrite zget_cons in Hk; destruct (Z.eqb_spec i 0) as [->|];
      try (apply zget_range in Hk; cbn in Hk; lia); by injection Hk as <-.
  - reflexivity.
  - reflexivity.
  - reflexivity.
  - reflexivity.
  - apply simple_init_ok, demo_config_ok.
  - intros nsecs rt clk t r t' n' Hp. split; [|done]. cbn [proc_io_cmd simple_namespace] in Hp.
    destruct (simple_proc_spec (simple_init_namespace demo_config true 1 (2 ^ 30)) (c_body (demo_command 20 0 7)) rt clk t
      (simple_init_ok _ _ _ demo_config_ok)) as (rt' & t1 & n1 & E & _).
    rewrite (run_bind _ _ _ _ _ _ _ _ E) in Hp. injection Hp as <- _ _. done.
  - unfold room_at. cbn. exact Hr.
  - exists acc, k, t', d'. split; [exact R|]. split; [exact H1|]. destruct H2 as [G1 G2 G3 G4].
    split; [exact G1|exact G2| |exact G4]. intros i k' Hk. rewrite <- (H3 i). by apply G3.
Defined.

(** ** Data transfer *)

(** with and without a DMA engine a command moves the same bytes between the same
    host addresses and storage offsets, in the same order and direction, when every
    page but the first starts at a page boundary and the command has at most 512. *)
Theorem dma_moves_same_bytes c prp1 prp2 entry ps :
  prp_pieces prp1 prp2 entry (Perform.__cmd_io_size c) = Ok ps -> prp_aligned ps -> (length ps <= 512)%nat ->
  exists ts ts', __do_perform_io c prp1 prp2 entry = Ok (direction_of (Nvme.opcode c), ts) /\
    __do_perform_io_using_dma c prp1 prp2 entry = Ok (direction_of (Nvme.opcode c), ts') /\ moves ts' = moves ts.
Proof. apply perform_spec. Qed.

(** 12 KiB in four pieces; the last two pages are adjacent, so three transfers. *)
Definition demo_entry (i : nat) : Z := match i with 0%nat => 40960 | S i => 81920 + 4096 * Z.of_nat i end.

Lemma dma_moves_same_bytes_witness : exists ts ts', length ts = 4%nat /\ length ts' = 3%nat /\ moves ts' = moves ts /\
  __do_perform_io (Nvme.mk_rw Nvme.nvme_cmd_read 100 23 0) 20992 65536 demo_entry = Ok (ToHost, ts) /\
  __do_perform_io_using_dma (Nvme.mk_rw Nvme.nvme_cmd_read 100 23 0) 20992 65536 demo_entry = Ok (ToHost, ts').
Proof.
  destruct (dma_moves_same_bytes (Nvme.mk_rw Nvme.nvme_cmd_read 100 23 0) 20992 65536 demo_entry
    [mk_piece 20992 512 0 3584; mk_piece 40960 0 3584 4096; mk_piece 81920 0 7680 4096; mk_piece 86016 0 11776 512])
    as (ts & ts' & H1 & H2 & H3).
  - vm_compute. reflexivity.
  - split; repeat constructor; vm_compute; discriminate.
  - cbn. lia.
  - exists ts, ts'. split; [|split; [|exact (conj H3 (conj H1 H2))]].
    + vm_compute in H1. injection H1 as <-. reflexivity.
    + vm_compute in H2. injection H2 as <-. reflexivity.
Defined.

(** ** The simple namespace *)

(** a read or write of the simple namespace is cut into chunks of the unit size that
    go round the units from the one of its address; it completes after as many chunk
    times as it has chunks from the time that unit falls idle (or now), and each
    unit's idle time becomes the end of the last chunk it served, plus the trailing
    time on the first lap, while the other units keep theirs. *)
Theorem simple_schedule_correct c opcode lba len now s :
  config_ok c -> 0 <= lba < 2 ^ 64 -> 0 < len < 2 ^ 31 -> zlen s = nr_io_units c -> 0 <= now ->
  let base := start_time c opcode lba now s in let n := nr_chunks c len in
  chunk_end (chunk_time c opcode) base n + trail_time c opcode < 2 ^ 64 ->
  exists s', __schedule_io_units c opcode lba len now s = Ok (base + n * chunk_time c opcode, s') /\ zlen s' = nr_io_units c /\
    forall u, 0 <= u < nr_io_units c ->
      unit_after (nr_io_units c) (chunk_time c opcode) (trail_time c opcode) (first_unit c lba) base (Z.min (nr_io_units c) n) 0 n u (zget s u) (zget s' u).
Proof. apply schedule_spec. Qed.

(** 12 KiB at unit 7 of eight, idle since 500: units 7, 0 and 1 serve it from 1000 on. *)
Lemma simple_schedule_correct_witness : exists s',
  __schedule_io_units demo_config Nvme.nvme_cmd_read 56 12288 1000 [0; 0; 0; 0; 0; 0; 0; 500] = Ok (1004, s') /\ zget s' 1 = Some 1004.
Proof.
  destruct (simple_schedule_correct demo_config Nvme.nvme_cmd_read 56 12288 1000 [0; 0; 0; 0; 0; 0; 0; 500] demo_config_ok)
    as (s' & H1 & _ & _).
  - lia.
  - lia.
  - reflexivity.
  - lia.
  - vm_compute. reflexivity.
  - exists s'. split; [exact H1|]. vm_compute in H1. injection H1 as <-. reflexivity.
Defined.
