(* ===== verification/KvAlloc.v ===== *)
(** * bitmap.c, append_only.c: the value allocators of the key-value FTL

    [struct allocator_ops] is the class [allocator_ops] over the allocator's static
    variables; [Allocator] is what the key-value FTL may rely on: while there is room, an
    allocation returns an extent of the storage no earlier allocation overlaps.  Both
    allocators implement it.  Neither ever fails: past their capacity they return
    addresses that are not theirs to give. *)

From Stdlib Require Import ZArith Lia.
From stdpp Require Import base list numbers sets gmap.
From S2P Require Import Prelude.

(** ** The interface *)

(** [init] of an allocator's variables, [allocate] of a number of bytes. *)
Class allocator_ops (St : Type) : Type := {
  init : Z -> St -> res St;
  allocate : Z -> St -> res (Z * St);
}.

(** [cap] bytes at [off]. *)
Record extent : Type := mk_extent { x_off : Z; x_cap : Z }.
Definition disjoint_ext (a b : extent) : Prop :=
  x_off a + x_cap a <= x_off b \/ x_off b + x_cap b <= x_off a.

(** [alloc_ok a size xs]: the storage has [size] bytes, and [xs] were allocated;
    [alloc_room a size n]: [n] more bytes can be. *)
Class Allocator (St : Type) `{allocator_ops St} : Type := {
  alloc_fresh : St -> Z -> Prop;
  alloc_ok : St -> Z -> list extent -> Prop;
  alloc_room : St -> Z -> Z -> Prop;
  extent_cap : Z -> Z;
  init_ok a size : alloc_fresh a size -> exists a', init size a = Ok a' /\ alloc_ok a' size [];
  allocate_ok a size xs n : alloc_ok a size xs -> 0 <= n -> alloc_room a size n ->
    exists off a', allocate n a = Ok (off, a') /\ 0 <= off < size /\ off + extent_cap n <= size /\ n <= extent_cap n /\
      Forall (disjoint_ext (mk_extent off (extent_cap n))) xs /\ alloc_ok a' size (mk_extent off (extent_cap n) :: xs);
}.

(** ** append_only.c *)
Module AppendOnly.

Record append_only_state : Type := mk_append_only { latest : Z; dev_size : Z; total_written : Z }.

Definition append_only_allocator_init (size : Z) (_ : append_only_state) : append_only_state := mk_append_only 0 size 0.

(** The test for a nearly full pool only prints. *)
Definition append_only_allocate (length : Z) (a : append_only_state) : Z * append_only_state :=
  (latest a, mk_append_only (u64 (latest a + length)) (dev_size a) (u64 (total_written a + length))).

#[global] Instance append_only_ops : allocator_ops append_only_state := {
  init size a := Ok (append_only_allocator_init size a);
  allocate length a := Ok (append_only_allocate length a);
}.

Record ok (a : append_only_state) (size : Z) (xs : list extent) : Prop := {
  ao_size : dev_size a = size;
  ao_latest : 0 <= latest a <= size;
  ao_max : size < 2 ^ 64;
  ao_below : Forall (fun x => x_off x + x_cap x <= latest a) xs;
}.

Lemma append_allocate_spec a size xs n : ok a size xs -> 0 <= n -> latest a < size /\ latest a + n <= size ->
  exists off a', append_only_allocate n a = (off, a') /\ 0 <= off < size /\ off + n <= size /\
    Forall (disjoint_ext (mk_extent off n)) xs /\ ok a' size (mk_extent off n :: xs).
Proof.
  intros [E Hl Hm Hb] Hn [H1 H2]. eexists _, _. split; [reflexivity|]. rewrite u64_id by lia. split; [lia|]. split; [lia|]. split.
  - eapply Forall_impl; [exact Hb|]. intros y Hy. by right.
  - split; cbn; [done|lia|lia|]. constructor; [cbn; lia|]. eapply Forall_impl; [exact Hb|]. cbn. intros y Hy. lia.
Qed.

#[global] Program Instance append_only_allocator : Allocator append_only_state := {
  alloc_fresh _ size := 0 <= size < 2 ^ 64;
  alloc_ok := ok;
  alloc_room a size n := latest a < size /\ latest a + n <= size;
  extent_cap n := n;
}.
Next Obligation. intros a size Hs. eexists. split; [reflexivity|]. cbn in Hs. split; cbn; try lia. done. Qed.
Next Obligation.
  intros a size xs n Hok Hn Hr. destruct (append_allocate_spec a size xs n Hok Hn Hr) as (off & a' & E & H1 & H2 & H3 & H4).
  exists off, a'. cbn. rewrite E. split; [done|]. split; [done|]. split; [done|]. split; [lia|done].
Qed.

End AppendOnly.

(** ** bitmap.c *)
Module Bitmap.

Definition SMALL_LENGTH : Z := 1024.
Definition LARGE_LENGTH : Z := 4096.

(** The kernel's search for an area of clear bits: the set bits of a map, its size, the
    first bit to look at, the length of the area and an alignment mask. *)
Definition find_area : Type := gset Z -> Z -> Z -> Z -> Z -> Z.

(** For single bits: the first clear bit from [start] on, a number past the map without one. *)
Record find_area_ok (find : find_area) : Prop := {
  fa_found m size start : 0 <= start -> find m size start 1 0 < size ->
    start <= find m size start 1 0 /\ find m size start 1 0 ∉ m;
  fa_clear m size start b : 0 <= start -> start <= b < size -> b ∉ m -> find m size start 1 0 <= b;
  fa_none m size start : 0 <= start -> (forall b, start <= b < size -> b ∈ m) -> size < find m size start 1 0;
}.

(** One of the two pools: its bits, the words of its array, its bitmap as the set of bits
    that are one, where the next search begins, and the allocations made. *)
Record pool : Type := mk_pool { nbits : Z; words : Z; bitmap : gset Z; last_pos : Z; capacity : Z }.

Record bitmap_state : Type := mk_bitmap { small : pool; large : pool; dev_size : Z; total_written : Z }.

Definition BITS_PER_LONG : Z := 64.
Definition BITS_TO_LONGS (n : Z) : Z := DIV_ROUND_UP n BITS_PER_LONG.

(** The variables when the module is loaded. *)
Definition small_0 : pool := mk_pool 0 600000 ∅ 0 0.
Definition large_0 : pool := mk_pool 0 300000 ∅ 0 0.
Definition static_0 : bitmap_state := mk_bitmap small_0 large_0 0 0.

(** Whole words are cleared; the position and the count stay as they are. *)
Definition pool_init (n : Z) (p : pool) : res pool :=
  if BITS_TO_LONGS n <=? words p
  then Ok (mk_pool n (words p) (filter (fun b => BITS_TO_LONGS n * BITS_PER_LONG <= b) (bitmap p)) (last_pos p) (capacity p))
  else Err OutOfBounds.

Definition bitmap_allocator_init (size : Z) (a : bitmap_state) : res bitmap_state :=
  let! s := pool_init (size / 2 / SMALL_LENGTH) (small a) in
  let! l := pool_init (size / 2 / LARGE_LENGTH) (large a) in
  Ok (mk_bitmap s l size (total_written a)).

Section Allocate.
Context (bitmap_find_next_zero_area : find_area).

(** Either branch of [bitmap_allocate], up to the address; the bit set may lie past the
    map's [nbits], but within its array. *)
Definition pool_allocate (p : pool) : res (Z * pool) :=
  let off := bitmap_find_next_zero_area (bitmap p) (nbits p) (last_pos p) 1 0 in
  if off <? words p * BITS_PER_LONG then
    let pos := off + 1 in
    Ok (off, mk_pool (nbits p) (words p) ({[ off ]} ∪ bitmap p) (if nbits p <? pos then 0 else pos) (capacity p + 1))
  else Err OutOfBounds.

(** A length beyond [LARGE_LENGTH] is only reported. *)
Definition bitmap_allocate (length : Z) (a : bitmap_state) : res (Z * bitmap_state) :=
  let total := u64 (total_written a + length) in
  if SMALL_LENGTH <? length then
    let! (off, p) := pool_allocate (large a) in
    Ok (u64 (dev_size a / 2 + off * LARGE_LENGTH), mk_bitmap (small a) p (dev_size a) total)
  else
    let! (off, p) := pool_allocate (small a) in
    Ok (u64 (off * SMALL_LENGTH), mk_bitmap p (large a) (dev_size a) total).

Definition bitmap_ops : allocator_ops bitmap_state := {| init := bitmap_allocator_init; allocate := bitmap_allocate |}.

(** ** What the pools promise *)
Section Laws.
Context (Hfind : find_area_ok bitmap_find_next_zero_area).

(** Bits are taken in order; [n] of them are. *)
Record pool_ok (p : pool) : Prop := {
  po_pos : 0 <= last_pos p <= nbits p;
  po_words : nbits p <= words p * BITS_PER_LONG;
  po_clear b : last_pos p <= b < nbits p -> b ∉ bitmap p;
}.

Lemma pool_allocate_spec p : pool_ok p -> last_pos p < nbits p ->
  exists p', pool_allocate p = Ok (last_pos p, p') /\ pool_ok p' /\ last_pos p' = last_pos p + 1 /\ nbits p' = nbits p.
Proof.
  intros [Hp Hw Hc] Hroom. unfold pool_allocate. set (off := bitmap_find_next_zero_area _ _ _ _ _).
  assert (off <= last_pos p) as H1 by (apply (fa_clear _ Hfind); [lia|lia|apply Hc; lia]).
  destruct (fa_found _ Hfind (bitmap p) (nbits p) (last_pos p)) as [H2 _]; [lia|fold off; lia|]. fold off in H2.
  assert (off = last_pos p) as -> by lia. replace (last_pos p <? words p * BITS_PER_LONG) with true by lia.
  replace (nbits p <? last_pos p + 1) with false by lia. eexists. split; [reflexivity|]. split; [|done].
  split; cbn; [lia|done|]. intros b Hb. specialize (Hc b). set_solver by lia.
Qed.

(** Where the extents of a pool lie. *)
Definition in_pool (base unit : Z) (p : pool) (x : extent) : Prop :=
  base <= x_off x /\ x_off x + x_cap x <= base + last_pos p * unit.

Definition pool_unit (n : Z) : Z := if SMALL_LENGTH <? n then LARGE_LENGTH else SMALL_LENGTH.

Record ok (a : bitmap_state) (size : Z) (xs : list extent) : Prop := {
  bo_dev : dev_size a = size;
  bo_size : 0 <= size < 2 ^ 64;
  bo_small : pool_ok (small a);
  bo_large : pool_ok (large a);
  bo_nsmall : nbits (small a) = size / 2 / SMALL_LENGTH;
  bo_nlarge : nbits (large a) = size / 2 / LARGE_LENGTH;
  bo_in : Forall (fun x => in_pool 0 SMALL_LENGTH (small a) x \/ in_pool (size / 2) LARGE_LENGTH (large a) x) xs;
}.

Definition room (a : bitmap_state) (n : Z) : Prop :=
  n <= LARGE_LENGTH /\ let p := if SMALL_LENGTH <? n then large a else small a in last_pos p < nbits p.
Lemma pool_init_spec n p : bitmap p = ∅ -> last_pos p = 0 -> 0 <= n <= words p * BITS_PER_LONG -> n < 2 ^ 63 ->
  exists p', pool_init n p = Ok p' /\ pool_ok p' /\ nbits p' = n.
Proof.
  intros Hb Hl Hn Hm. unfold pool_init. assert (BITS_TO_LONGS n <= words p) as Hw.
  { unfold BITS_TO_LONGS, DIV_ROUND_UP, BITS_PER_LONG in *. rewrite u64_id by lia. apply Z.lt_succ_r, Z.div_lt_upper_bound; lia. }
  rewrite (proj2 (Z.leb_le _ _) Hw). eexists. split; [reflexivity|]. split; [|done].
  split; cbn; [lia|lia|]. intros b _. rewrite Hb. set_solver.
Qed.

(** An extent of a pool, taken or yet to take, is apart from the taken ones. *)
Lemma in_pool_disjoint base unit p n x : 0 <= n <= unit -> in_pool base unit p x ->
  disjoint_ext (mk_extent (base + last_pos p * unit) n) x.
Proof. intros Hn [H1 H2]. right. cbn. lia. Qed.

Lemma in_pool_mono base unit p p' x : 0 <= unit -> last_pos p <= last_pos p' -> in_pool base unit p x -> in_pool base unit p' x.
Proof. intros Hu Hp [H1 H2]. split; [done|]. nia. Qed.

Lemma pool_end size unit p : 0 < unit -> 0 <= size -> nbits p = size / unit -> 0 <= last_pos p <= nbits p ->
  0 <= last_pos p * unit <= size.
Proof. intros Hu Hs Hn Hp. pose proof (Z.mul_div_le size unit Hu). nia. Qed.

Lemma pool_room size unit p : 0 < unit -> 0 <= size -> nbits p = size / unit -> 0 <= last_pos p < nbits p ->
  0 <= last_pos p * unit /\ last_pos p * unit + unit <= size.
Proof. intros Hu Hs Hn Hp. pose proof (Z.mul_div_le size unit Hu). nia. Qed.

Lemma half_size size : 0 <= size -> 0 <= size / 2 /\ size / 2 + size / 2 <= size.
Proof. intros Hs. pose proof (Z.mul_div_le size 2 ltac:(lia)). pose proof (Z.div_pos size 2 ltac:(lia)). lia. Qed.

Lemma ok_grow a size xs s' l' tw x : ok a size xs -> pool_ok s' -> pool_ok l' ->
  nbits s' = nbits (small a) -> nbits l' = nbits (large a) -> last_pos (small a) <= last_pos s' -> last_pos (large a) <= last_pos l' ->
  in_pool 0 SMALL_LENGTH s' x \/ in_pool (size / 2) LARGE_LENGTH l' x -> ok (mk_bitmap s' l' size tw) size (x :: xs).
Proof.
  intros [E Hs Hsm Hla Ns Nl Hin] Hs' Hl' Es El Ps Pl Hx. split; cbn; try done; try congruence.
  constructor; [done|]. eapply Forall_impl; [exact Hin|]. intros y [Hy|Hy]; [left|right]; by eapply in_pool_mono.
Qed.

Lemma bitmap_allocate_spec a size xs n : ok a size xs -> 0 <= n -> room a n ->
  exists off a', bitmap_allocate n a = Ok (off, a') /\ 0 <= off < size /\ off + pool_unit n <= size /\
    Forall (disjoint_ext (mk_extent off (pool_unit n))) xs /\ ok a' size (mk_extent off (pool_unit n) :: xs).
Proof.
  intros Hok Hn [Hmax Hroom]. pose proof Hok as [E Hs Hsm Hla Ns Nl Hin]. unfold bitmap_allocate, pool_unit.
  pose proof (po_pos _ Hsm) as Ps. pose proof (po_pos _ Hla) as Pl. pose proof (half_size size ltac:(lia)) as Hh.
  pose proof (pool_end (size / 2) SMALL_LENGTH (small a) eq_refl ltac:(lia) Ns Ps) as Hsmall.
  destruct (SMALL_LENGTH <? n).
  - destruct (pool_allocate_spec _ Hla Hroom) as (p' & -> & Hp' & El & En). cbn [rbind].
    destruct (pool_room (size / 2) LARGE_LENGTH (large a)) as [R1 R2]; [done|lia|done|split; [apply Pl|exact Hroom]|].
    rewrite E, u64_id by (change LARGE_LENGTH with 4096 in *; lia).
    eexists _, _. split; [reflexivity|]. split; [change LARGE_LENGTH with 4096 in *; lia|]. split; [lia|]. split.
    + eapply Forall_impl; [exact Hin|]. intros x [Hx|Hx]; [|by apply in_pool_disjoint].
      right. destruct Hx. cbn in *. lia.
    + apply (ok_grow a); try done; [lia|]. right. split; cbn [x_off x_cap]; lia.
  - destruct (pool_allocate_spec _ Hsm Hroom) as (p' & -> & Hp' & El & En). cbn [rbind].
    destruct (pool_room (size / 2) SMALL_LENGTH (small a)) as [R1 R2]; [done|lia|done|split; [apply Ps|exact Hroom]|].
    rewrite u64_id by (change SMALL_LENGTH with 1024 in *; lia). rewrite E.
    eexists _, _. split; [reflexivity|]. split; [change SMALL_LENGTH with 1024 in *; lia|]. split; [lia|]. split.
    + eapply Forall_impl; [exact Hin|]. intros x [Hx|Hx]; [by apply (in_pool_disjoint 0)|].
      left. destruct Hx. cbn [x_off x_cap] in *. lia.
    + apply (ok_grow a); try done; [lia|]. left. split; cbn [x_off x_cap]; lia.
Qed.

Lemma half_units size unit k : 0 < unit -> 0 <= size <= 2 * k * unit -> 0 <= size / 2 / unit <= k.
Proof.
  intros Hu Hs. rewrite Z.div_div by lia. split; [apply Z.div_pos; lia|]. apply Z.div_le_upper_bound; lia.
Qed.

Lemma bitmap_init_spec a size : small a = small_0 -> large a = large_0 -> 0 <= size <= 2 * (600000 * 64) * SMALL_LENGTH ->
  exists a', bitmap_allocator_init size a = Ok a' /\ ok a' size [].
Proof.
  intros Es El Hs. unfold bitmap_allocator_init. rewrite Es, El.
  pose proof (half_units size SMALL_LENGTH (600000 * 64) eq_refl Hs).
  pose proof (half_units size LARGE_LENGTH (300000 * 64) eq_refl ltac:(unfold SMALL_LENGTH, LARGE_LENGTH in *; lia)).
  destruct (pool_init_spec (size / 2 / SMALL_LENGTH) small_0) as (s & -> & Hs' & Ns); [done|done|change (words small_0 * BITS_PER_LONG) with (600000 * 64); lia|lia|]. cbn [rbind].
  destruct (pool_init_spec (size / 2 / LARGE_LENGTH) large_0) as (l & -> & Hl' & Nl); [done|done|change (words large_0 * BITS_PER_LONG) with (300000 * 64); lia|lia|].
  cbn [rbind]. eexists. split; [reflexivity|]. split; cbn; try done. unfold SMALL_LENGTH in *. lia.
Qed.

#[global] Program Instance bitmap_allocator : @Allocator bitmap_state bitmap_ops := {
  alloc_fresh a size := small a = small_0 /\ large a = large_0 /\ 0 <= size <= 2 * (600000 * 64) * SMALL_LENGTH;
  alloc_ok := ok;
  alloc_room a size n := room a n;
  extent_cap := pool_unit;
}.
Next Obligation. intros a size (Es & El & Hs). by apply bitmap_init_spec. Qed.
Next Obligation.
  intros a size xs n Hok Hn Hr. destruct (bitmap_allocate_spec a size xs n Hok Hn Hr) as (off & a' & E & H1 & H2 & H3 & H4).
  exists off, a'. split; [done|]. split; [done|]. split; [done|]. split; [|done].
  destruct Hr as [Hr _]. unfold pool_unit. destruct (Z.ltb_spec SMALL_LENGTH n); lia.
Qed.
End Laws.
End Allocate.
End Bitmap.
