(* ===== verification/KvFtl.v ===== *)
(** * kv_ftl.c: the key-value FTL

    Keys are found through a hash table whose slots are chained by [next_slot]; values lie
    in the storage at addresses an allocator gives.  The functions run on the I/O worker,
    which passes a command and gets back a result, a status and the copies into host
    memory.  [host] is host memory by physical address, [entry] the PRP list of the command;
    a copy outside an object or outside the storage is [OutOfBounds]. *)

From Stdlib Require Import ZArith Lia.
From stdpp Require Import base list numbers.
From S2P Require Import Prelude Prp KvAlloc.

Definition nvme_cmd_kv_store : Z := 0x81.
Definition nvme_cmd_kv_append : Z := 0x83.
Definition nvme_cmd_kv_batch : Z := 0x85.
Definition nvme_cmd_kv_retrieve : Z := 0x90.
Definition nvme_cmd_kv_delete : Z := 0xA1.
Definition nvme_cmd_kv_iter_req : Z := 0xB1.
Definition nvme_cmd_kv_iter_read : Z := 0xB2.
Definition nvme_cmd_kv_exist : Z := 0xB3.

Definition KV_SUCCESS : Z := 0.
Definition KV_ERR_KEY_NOT_EXIST : Z := 0x310.
Definition SMALL_LENGTH : Z := 1024.

(** [ITER_OPTION_OPEN], [ITER_OPTION_CLOSE] *)
Definition ITER_OPTION_OPEN : Z := 0x01.
Definition ITER_OPTION_CLOSE : Z := 0x02.

(** The members of the union [nvme_kv_command] overlay each other; these are the fields of
    [kv_store], and the functions below read the others' fields where they lie. *)
Record nvme_kv_command : Type := mk_kv_command {
  opcode : Z;       (* __u8 *)
  prp1 : Z;
  prp2 : Z;
  value_len : Z;    (* __le32, in words *)
  key_len : Z;      (* __u8, key length - 1 *)
  kv_option : Z;    (* __u8 *)
  rsvd4 : Z;        (* __u8 *)
  key : list Z;     (* char key[16] *)
}.

(** A little-endian 32-bit word. *)
Fixpoint le_bytes (bs : list Z) : Z := match bs with [] => 0 | b :: bs => b + 2 ^ 8 * le_bytes bs end.
Definition to_le32 (n : Z) : list Z := [u8 n; u8 (Z.shiftr n 8); u8 (Z.shiftr n 16); u8 (Z.shiftr n 24)].

Definition iter_val (c : nvme_kv_command) : Z := le_bytes (take 4 (key c)).
Definition iter_bitmask (c : nvme_kv_command) : Z := le_bytes (take 4 (drop 4 (key c))).
Definition iter_handle_of (c : nvme_kv_command) : Z := key_len c.

Definition is_kv_batch_cmd (op : Z) : bool := op =? nvme_cmd_kv_batch.
Definition is_kv_iter_req_cmd (op : Z) : bool := op =? nvme_cmd_kv_iter_req.
Definition is_kv_iter_read_cmd (op : Z) : bool := op =? nvme_cmd_kv_iter_read.
Definition is_kv_iter_cmd (op : Z) : bool := is_kv_iter_req_cmd op || is_kv_iter_read_cmd op.
Definition is_kv_cmd (op : Z) : bool :=
  ((op =? nvme_cmd_kv_append) || (op =? nvme_cmd_kv_store) || (op =? nvme_cmd_kv_retrieve) || (op =? nvme_cmd_kv_delete) ||
   is_kv_iter_req_cmd op || is_kv_iter_read_cmd op || (op =? nvme_cmd_kv_exist)) || is_kv_batch_cmd op.

(** All opcodes keep the key's and the value's length in the same place. *)
Definition cmd_key_length (c : nvme_kv_command) : Z := key_len c + 1.
Definition cmd_value_length (c : nvme_kv_command) : Z := u32 (Z.shiftl (value_len c) 2).

(** ** The mapping table *)

(** [-1] in a [size_t] and in an [unsigned int]. *)
Definition NO_MEM : Z := 2 ^ 64 - 1.
Definition NO_SLOT : Z := 2 ^ 32 - 1.

Record mapping_entry : Type := mk_entry {
  e_key : list Z;       (* char key[18] *)
  mem_offset : Z;       (* size_t *)
  e_length : Z;         (* size_t *)
  next_slot : Z;        (* unsigned int *)
}.

Definition set_key (e : mapping_entry) (k : list Z) : mapping_entry := mk_entry k (mem_offset e) (e_length e) (next_slot e).
Definition set_mem_offset (e : mapping_entry) (z : Z) : mapping_entry := mk_entry (e_key e) z (e_length e) (next_slot e).
Definition set_length (e : mapping_entry) (z : Z) : mapping_entry := mk_entry (e_key e) (mem_offset e) z (next_slot e).
Definition set_next_slot (e : mapping_entry) (z : Z) : mapping_entry := mk_entry (e_key e) (mem_offset e) (e_length e) z.

(** [sizeof(struct mapping_entry)] *)
Definition KV_MAPPING_ENTRY_SIZE : Z := 48.
Definition KV_MAPPING_TABLE_SIZE : Z := GB 1.

(** [memset(&mapping, -1, sizeof(struct mapping_entry))] *)
Definition unset_entry : mapping_entry := mk_entry (replicate 18 255) NO_MEM NO_MEM NO_SLOT.

(** The first [n] bytes of an array; [memcpy] of [n] bytes of [src] to the start of [dst]. *)
Definition bytes_at (l : list Z) (n : Z) : res (list Z) :=
  if (0 <=? n) && (n <=? zlen l) then Ok (take (Z.to_nat n) l) else Err OutOfBounds.
Definition memcpy (dst src : list Z) (n : Z) : res (list Z) :=
  let! s := bytes_at src n in
  let! _ := bytes_at dst n in
  Ok (s ++ drop (Z.to_nat n) dst).

(** [memcmp(a, b, n) == 0] *)
Definition memcmp_eq (a b : list Z) (n : Z) : res bool :=
  let! x := bytes_at a n in
  let! y := bytes_at b n in
  Ok (bool_decide (x = y)).

Definition hash_step (h b : Z) : Z := Z.lxor (u32 (h * 16777619)) b.
Definition hash_function (k : list Z) (length : Z) : res Z :=
  let! bs := bytes_at k length in
  Ok (fold_left hash_step bs 2166136261).

(** [get_hash_slot] *)
Definition hash_slot (slots : Z) (k : list Z) (n : Z) : res Z :=
  let! h := hash_function k n in
  if slots =? 0 then Err DivByZero else Ok (h mod slots).

(** The loop that [get_mapping_entry], [get_mapping_entry_by_key], [update_mapping_entry] and
    [delete_mapping_entry] share: the slot of the key, if it is found. *)
Fixpoint search (fuel : nat) (t : list mapping_entry) (k : list Z) (n slot : Z) : res (option Z) :=
  match fuel with
  | O => Err OutOfFuel
  | S fuel =>
      let! e := aget t slot in
      if mem_offset e =? NO_MEM then Ok None else
      let! found := memcmp_eq k (e_key e) n in
      if found then Ok (Some slot)
      else if next_slot e =? NO_SLOT then Ok None
      else search fuel t k n (next_slot e)
  end.

(** The first loop of [find_next_slot]: [prevs], the last slot in use of the chain. *)
Fixpoint find_tail (fuel : nat) (t : list mapping_entry) (tail prevs : Z) : res Z :=
  match fuel with
  | O => Err OutOfFuel
  | S fuel =>
      let! e := aget t tail in
      if mem_offset e =? NO_MEM then Ok prevs
      else if next_slot e =? NO_SLOT then Ok tail
      else find_tail fuel t (next_slot e) tail
  end.

(** The second: the next free slot, round the table. *)
Fixpoint probe (fuel : nat) (t : list mapping_entry) (slots ret_slot : Z) : res Z :=
  match fuel with
  | O => Err OutOfFuel
  | S fuel =>
      let! e := aget t ret_slot in
      if mem_offset e =? NO_MEM then Ok ret_slot
      else let next := u32 (ret_slot + 1) in
           probe fuel t slots (if slots <=? next then 0 else next)
  end.

(** [(ret_slot, *prev_slot)].  The second loop is [fuel] turns long at most. *)
Definition find_next_slot (fuel : nat) (t : list mapping_entry) (slots original_slot : Z) : res (Z * Z) :=
  let! prevs := find_tail (S (length t)) t (u32 (i32 original_slot)) NO_SLOT in
  let! ret_slot := probe fuel t slots prevs in
  Ok (ret_slot, prevs).

Definition chain_mapping (t : list mapping_entry) (prev slot : Z) : res (list mapping_entry) :=
  amod t prev (fun e => set_next_slot e slot).

(** [new_mapping_entry] and [new_mapping_entry_by_key], after the check of the offset. *)
Definition new_entry (fuel : nat) (t : list mapping_entry) (slots : Z) (k : list Z) (n val_len val_offset : Z)
    : res (list mapping_entry) :=
  let! slot := hash_slot slots k n in
  let! e := aget t slot in
  let! (slot, prev_slot) :=
    if mem_offset e =? NO_MEM then Ok (slot, NO_SLOT) else find_next_slot fuel t slots slot in
  let! e := aget t slot in
  let! k' := memcpy (e_key e) k n in
  let! t := aset t slot (set_length (set_mem_offset (set_key e k') val_offset) val_len) in
  if prev_slot =? NO_SLOT then Ok t else chain_mapping t prev_slot slot.

Definition get_entry (t : list mapping_entry) (slots : Z) (k : list Z) (n : Z) : res mapping_entry :=
  let! slot := hash_slot slots k n in
  let! found := search (S (length t)) t k n slot in
  match found with
  | None => Ok unset_entry
  | Some slot =>
      let! e := aget t slot in
      let! k' := memcpy (e_key unset_entry) (e_key e) n in
      Ok (set_key e k')
  end.

(** The entry returned holds nothing of the one deleted. *)
Definition delete_entry (t : list mapping_entry) (slots : Z) (k : list Z) (n : Z) : res (list mapping_entry) :=
  let! slot := hash_slot slots k n in
  let! found := search (S (length t)) t k n slot in
  match found with
  | None => Ok t
  | Some slot => aset t slot unset_entry
  end.

Definition update_entry (t : list mapping_entry) (slots : Z) (k : list Z) (n val_len : Z) : res (list mapping_entry) :=
  let! slot := hash_slot slots k n in
  let! found := search (S (length t)) t k n slot in
  match found with
  | None => Ok t
  | Some slot => amod t slot (fun e => set_length e val_len)
  end.

(** ** Bytes of the storage and of host memory *)
Definition mem_read (m : Z -> Z) (off n : Z) : list Z := (fun i => m (off + i)) <$> zseq n.
Definition mem_write (m : Z -> Z) (off : Z) (bs : list Z) : Z -> Z :=
  fun i => default (m i) (zget bs (i - off)).

(** A walk's pieces between host memory and a buffer: the bytes they gather from host
    memory, and the copies that scatter [bs] over them. *)
Definition gather_bytes (host : Z -> Z) (ps : list prp_piece) : list Z :=
  ps ≫= (fun p => mem_read host (pc_paddr p) (pc_io_size p)).

Section Ftl.
Context {St : Type} `{allocator_ops St}.

(** [struct kv_iter_context]; its buffer carries nothing from one read to the next. *)
Record kv_iter_context : Type := mk_ctx { prefix : Z; bitmask : Z; current_pos : Z }.

(** A cell of [iter_handle[17]]: as [kmalloc] left it, null, or a context. *)
Inductive iter_cell : Type := Garbage | Null | Open (c : kv_iter_context).

(** [struct kv_ftl], with the storage of the device and its size. *)
Record kv_ftl : Type := mk_kv_ftl {
  kv_mapping_table : list mapping_entry;
  hash_slots : Z;
  allocator : St;
  iter_handle : list iter_cell;
  storage : Z -> Z;
  storage_size : Z;
}.

Definition set_table (f : kv_ftl) t := mk_kv_ftl t (hash_slots f) (allocator f) (iter_handle f) (storage f) (storage_size f).
Definition set_allocator (f : kv_ftl) a := mk_kv_ftl (kv_mapping_table f) (hash_slots f) a (iter_handle f) (storage f) (storage_size f).
Definition set_iters (f : kv_ftl) h := mk_kv_ftl (kv_mapping_table f) (hash_slots f) (allocator f) h (storage f) (storage_size f).
Definition set_storage (f : kv_ftl) m := mk_kv_ftl (kv_mapping_table f) (hash_slots f) (allocator f) (iter_handle f) m (storage_size f).

(** What a command answers: [result0], the status, and the copies into host memory. *)
Record kv_reply : Type := mk_reply { r_result : Z; r_status : Z; r_copies : list (Z * list Z) }.

(** *** Mapping *)
Definition get_mapping_entry_by_key (f : kv_ftl) (k : list Z) (n : Z) : res mapping_entry :=
  get_entry (kv_mapping_table f) (hash_slots f) k n.
Definition get_mapping_entry (f : kv_ftl) (c : nvme_kv_command) : res mapping_entry :=
  get_mapping_entry_by_key f (key c) (cmd_key_length c).

Definition delete_mapping_entry (f : kv_ftl) (c : nvme_kv_command) : res kv_ftl :=
  let! t := delete_entry (kv_mapping_table f) (hash_slots f) (key c) (cmd_key_length c) in
  Ok (set_table f t).

Definition update_mapping_entry (f : kv_ftl) (c : nvme_kv_command) : res kv_ftl :=
  let! t := update_entry (kv_mapping_table f) (hash_slots f) (key c) (cmd_key_length c) (cmd_value_length c) in
  Ok (set_table f t).

Definition new_mapping_entry_by_key (f : kv_ftl) (k : list Z) (n val_len val_offset : Z) : res kv_ftl :=
  rassert (val_offset <? storage_size f) ;;;
  let! t := new_entry (S (length (kv_mapping_table f))) (kv_mapping_table f) (hash_slots f) k n val_len val_offset in
  Ok (set_table f t).
Definition new_mapping_entry (f : kv_ftl) (c : nvme_kv_command) (val_offset : Z) : res kv_ftl :=
  new_mapping_entry_by_key f (key c) (cmd_key_length c) (cmd_value_length c) val_offset.

Definition allocate_mem_offset_by_length (f : kv_ftl) (length_bytes : Z) : res (Z * kv_ftl) :=
  let! (offset, a) := allocate length_bytes (allocator f) in
  Ok (if offset =? NO_MEM then 0 else offset, set_allocator f a).
Definition allocate_mem_offset (f : kv_ftl) (c : nvme_kv_command) : res (Z * kv_ftl) :=
  if opcode c =? nvme_cmd_kv_store then allocate_mem_offset_by_length f (cmd_value_length c) else Ok (0, f).

(** *** Store, retrieve, exist, delete *)

(** [memcpy] to and from the mapped storage. *)
Definition storage_write (f : kv_ftl) (off : Z) (bs : list Z) : res kv_ftl :=
  if (0 <=? off) && (off + zlen bs <=? storage_size f) then Ok (set_storage f (mem_write (storage f) off bs)) else Err OutOfBounds.
Definition storage_read (f : kv_ftl) (off n : Z) : res (list Z) :=
  if (0 <=? off) && (off + n <=? storage_size f) then Ok (mem_read (storage f) off n) else Err OutOfBounds.

(** The copy loop of a store and of a retrieve, piece by piece. *)
Fixpoint copy_in (f : kv_ftl) (host : Z -> Z) (offset : Z) (ps : list prp_piece) : res kv_ftl :=
  match ps with
  | [] => Ok f
  | p :: ps =>
      let! f := storage_write f (offset + pc_offset p) (mem_read host (pc_paddr p) (pc_io_size p)) in
      copy_in f host offset ps
  end.
Fixpoint copy_out (f : kv_ftl) (offset : Z) (ps : list prp_piece) : res (list (Z * list Z)) :=
  match ps with
  | [] => Ok []
  | p :: ps =>
      let! bs := storage_read f (offset + pc_offset p) (pc_io_size p) in
      let! rest := copy_out f offset ps in
      Ok ((pc_paddr p, bs) :: rest)
  end.

(** [is_insert] of the source, and where the value goes. *)
Inductive insertion : Type := KeepEntry | InsertEntry | UpdateEntry.

Definition store_target (f : kv_ftl) (c : nvme_kv_command) (e : mapping_entry) : res (Z * insertion * kv_ftl) :=
  let length := cmd_value_length c in
  if mem_offset e =? NO_MEM then
    let! (new_offset, f) := allocate_mem_offset f c in
    Ok (new_offset, InsertEntry, f)
  else Ok (mem_offset e,
           (if negb (length =? e_length e) && ((length <=? SMALL_LENGTH) && (e_length e <=? SMALL_LENGTH))
            then UpdateEntry else KeepEntry), f).

Definition kv_store (f : kv_ftl) (c : nvme_kv_command) (host : Z -> Z) (entry : nat -> Z) (e : mapping_entry) : res kv_ftl :=
  let! (offset, is_insert, f) := store_target f c e in
  let! ps := prp_pieces (prp1 c) (prp2 c) entry (cmd_value_length c) in
  let! f := copy_in f host offset ps in
  match is_insert with
  | KeepEntry => Ok f
  | InsertEntry => new_mapping_entry f c offset
  | UpdateEntry => update_mapping_entry f c
  end.

Definition kv_retrieve (f : kv_ftl) (c : nvme_kv_command) (entry : nat -> Z) (e : mapping_entry) : res (Z * list (Z * list Z)) :=
  let length := Z.min (e_length e) (cmd_value_length c) in
  let! ps := prp_pieces (prp1 c) (prp2 c) entry length in
  let! out := copy_out f (mem_offset e) ps in
  Ok (u32 length, out).

Definition __do_perform_kv_io (f : kv_ftl) (c : nvme_kv_command) (host : Z -> Z) (entry : nat -> Z) (status : Z)
    : res (kv_reply * kv_ftl) :=
  let! e := get_mapping_entry f c in
  let missing := mem_offset e =? NO_MEM in
  let no_key := (mk_reply 0 KV_ERR_KEY_NOT_EXIST [], f) in
  if opcode c =? nvme_cmd_kv_store then
    let! f := kv_store f c host entry e in
    Ok (mk_reply 0 status [], f)
  else if opcode c =? nvme_cmd_kv_retrieve then
    if missing then Ok no_key else
    let! (length, out) := kv_retrieve f c entry e in
    Ok (mk_reply length status out, f)
  else if opcode c =? nvme_cmd_kv_exist then
    if missing then Ok no_key else Ok (mk_reply 0 status [], f)
  else if opcode c =? nvme_cmd_kv_delete then
    if missing then Ok no_key else
    let! f := delete_mapping_entry f c in
    Ok (mk_reply 0 status [], f)
  else Ok (mk_reply 0 status [], f).

(** *** Batches *)

Definition ALIGN_LEN : Z := 64.
Definition MAX_SUB_CMD : Z := 8.

(** [buf[off ..]], [n] bytes. *)
Definition buf_bytes (buf : list Z) (off n : Z) : res (list Z) :=
  if (0 <=? off) && ((0 <=? n) && (off + n <=? zlen buf)) then Ok (take (Z.to_nat n) (drop (Z.to_nat off) buf)) else Err OutOfBounds.

(** [sizeof(struct sub_cmd_attribute)], [sizeof(struct batch_cmd_head)] *)
Definition SUB_CMD_ATTRIBUTE_SIZE : Z := 16.
Definition BATCH_HEAD_SIZE : Z := 512.

(** [((n - 1) / ALIGN_LEN + 1) * ALIGN_LEN], in [int]. *)
Definition align_len (n : Z) : Z := i32 ((Z.quot (i32 (n - 1)) ALIGN_LEN + 1) * ALIGN_LEN).

(** A sub-command only stores; a stored key keeps the length it was first given. *)
Definition __do_perform_kv_batched_io (f : kv_ftl) (op : Z) (k : list Z) (klen : Z) (value : list Z) (vlen : Z) : res kv_ftl :=
  let! e := get_mapping_entry_by_key f k klen in
  if op =? nvme_cmd_kv_store then
    let insert := mem_offset e =? NO_MEM in
    let! (offset, f) := if insert then allocate_mem_offset_by_length f vlen else Ok (mem_offset e, f) in
    let! bs := bytes_at value vlen in
    let! f := storage_write f offset bs in
    if insert then new_mapping_entry_by_key f k klen vlen offset else Ok f
  else Ok f.

(** The attributes of sub-command [i]: opcode, key and value length. *)
Definition sub_cmd_attr (buf : list Z) (i : Z) : res (Z * Z * Z) :=
  if i <? MAX_SUB_CMD then
    let! bs := buf_bytes buf (i * SUB_CMD_ATTRIBUTE_SIZE) SUB_CMD_ATTRIBUTE_SIZE in
    Ok (le_bytes (take 1 bs), le_bytes (take 1 (drop 1 bs)), i32 (le_bytes (take 4 (drop 4 bs))))
  else Err OutOfBounds.

(** The loop over the sub-commands; [key] has 20 bytes and [value] 4097, cleared each time. *)
Fixpoint batch_loop (n : nat) (i payload_offset : Z) (buf : list Z) (f : kv_ftl) : res kv_ftl :=
  match n with
  | O => Ok f
  | S n =>
      let! (op, klen, vlen) := sub_cmd_attr buf i in
      let sub_len := align_len klen + align_len vlen + ALIGN_LEN in
      let! kb := buf_bytes buf (BATCH_HEAD_SIZE + payload_offset) klen in
      let! k := memcpy (replicate 20 0) kb klen in
      let! vb := buf_bytes buf (BATCH_HEAD_SIZE + payload_offset + align_len klen) vlen in
      let! value := memcpy (replicate 4097 0) vb vlen in
      let! f := __do_perform_kv_batched_io f op k klen value vlen in
      batch_loop n (i + 1) (i32 (payload_offset + sub_len)) buf f
  end.

Definition __do_perform_kv_batch (f : kv_ftl) (c : nvme_kv_command) (host : Z -> Z) (entry : nat -> Z) (status : Z)
    : res (kv_reply * kv_ftl) :=
  let! ps := prp_pieces (prp1 c) (prp2 c) entry (cmd_value_length c) in
  let! f := batch_loop (Z.to_nat (rsvd4 c)) 0 ALIGN_LEN (gather_bytes host ps) f in
  Ok (mk_reply 0 status [], f).

(** *** Iterators *)

(** The first null cell from [iter] on. *)
Fixpoint free_iter (cells : list iter_cell) (iter : Z) : res (option Z) :=
  match cells with
  | [] => Ok None
  | Garbage :: _ => Err Uninit
  | Null :: _ => Ok (Some iter)
  | Open _ :: cells => free_iter cells (iter + 1)
  end.

(** Without a free handle the result is 1 and the status stays. *)
Definition kv_iter_open (f : kv_ftl) (c : nvme_kv_command) (status : Z) : res (kv_reply * kv_ftl) :=
  let! r := free_iter (take 16 (drop 1 (iter_handle f))) 1 in
  match r with
  | None => Ok (mk_reply 1 status [], f)
  | Some iter =>
      let! h := aset (iter_handle f) iter (Open (mk_ctx (iter_val c) (iter_bitmask c) 0)) in
      Ok (mk_reply iter 0 [], set_iters f h)
  end.

Definition kv_iter_close (f : kv_ftl) (c : nvme_kv_command) : res (kv_reply * kv_ftl) :=
  let! cell := aget (iter_handle f) (iter_handle_of c) in
  match cell with
  | Garbage => Err Uninit
  | Null => Ok (mk_reply 0 0 [], f)
  | Open _ =>
      let! h := aset (iter_handle f) (iter_handle_of c) Null in
      Ok (mk_reply 0 0 [], set_iters f h)
  end.

(** The entry's key matches the iterator. *)
Definition iter_match (ctx : kv_iter_context) (e : mapping_entry) : bool :=
  negb (mem_offset e =? NO_MEM) &&
  (Z.land (le_bytes (take 4 (e_key e))) (bitmask ctx) =? Z.land (prefix ctx) (bitmask ctx)).

Definition keylen : Z := 16.

(** The loop over the table: the next position, the records written, whether the end was
    reached; a record is the key's length and its first 16 bytes, and [buf_offset] where
    the next one goes. *)
Fixpoint iter_scan (fuel : nat) (t : list mapping_entry) (slots : Z) (ctx : kv_iter_context) (pos buf_offset : Z) (recs : list (list Z))
    : res (Z * list (list Z) * bool) :=
  match fuel with
  | O => Err OutOfFuel
  | S fuel =>
      if pos <? slots then
        let! e := aget t pos in
        let advance pos buf_offset recs :=
          if pos =? slots then Ok (pos, recs, true) else iter_scan fuel t slots ctx pos buf_offset recs in
        if iter_match ctx e then
          if 1024 <? buf_offset + 4 + keylen then Ok (pos, recs, false)
          else
            let! k := bytes_at (e_key e) keylen in
            advance (pos + 1) (buf_offset + 4 + Z.land (keylen + 3) (-4)) (recs ++ [to_le32 keylen ++ k])
        else advance (pos + 1) buf_offset recs
      else Ok (pos, recs, false)
  end.

(** The loop that copies the buffer out; the records follow their number. *)
Definition iter_buffer (recs : list (list Z)) : list Z := to_le32 (zlen recs) ++ concat recs.
Definition buffer_out (buf : list Z) (ps : list prp_piece) : list (Z * list Z) :=
  (fun p => (pc_paddr p, take (Z.to_nat (pc_io_size p)) (drop (Z.to_nat (pc_offset p)) buf))) <$> ps.

Definition set_pos (ctx : kv_iter_context) (pos : Z) : kv_iter_context := mk_ctx (prefix ctx) (bitmask ctx) pos.

Definition kv_iter_read (f : kv_ftl) (c : nvme_kv_command) (entry : nat -> Z) (status : Z) : res (kv_reply * kv_ftl) :=
  let! cell := aget (iter_handle f) (iter_handle_of c) in
  match cell with
  | Garbage => Err Uninit
  | Null => Ok (mk_reply 0 status [], f)
  | Open ctx =>
      let! (pos, recs, end_reached) :=
        iter_scan (S (length (kv_mapping_table f))) (kv_mapping_table f) (hash_slots f) ctx (i32 (current_pos ctx)) 4 [] in
      let! h := aset (iter_handle f) (iter_handle_of c) (Open (set_pos ctx pos)) in
      let buf := iter_buffer recs in
      let! ps := prp_pieces (prp1 c) (prp2 c) entry (zlen buf) in
      Ok (mk_reply (zlen buf) (if end_reached : bool then 0x393 else 0) (buffer_out buf ps), set_iters f h)
  end.

Definition __do_perform_kv_iter_io (f : kv_ftl) (c : nvme_kv_command) (entry : nat -> Z) (status : Z) : res (kv_reply * kv_ftl) :=
  if is_kv_iter_req_cmd (opcode c) then
    if negb (Z.land (kv_option c) ITER_OPTION_OPEN =? 0) then kv_iter_open f c status
    else if negb (Z.land (kv_option c) ITER_OPTION_CLOSE =? 0) then kv_iter_close f c
    else Ok (mk_reply 0 status [], f)
  else if is_kv_iter_read_cmd (opcode c) then kv_iter_read f c entry status
  else Ok (mk_reply 0 status [], f).

Definition kv_perform_nvme_io_cmd (f : kv_ftl) (c : nvme_kv_command) (host : Z -> Z) (entry : nat -> Z) (status : Z)
    : res (kv_reply * kv_ftl) :=
  if is_kv_batch_cmd (opcode c) then __do_perform_kv_batch f c host entry status
  else if is_kv_iter_cmd (opcode c) then __do_perform_kv_iter_io f c entry status
  else __do_perform_kv_io f c host entry status.

(** [table_size] is [KV_MAPPING_TABLE_SIZE]; [a] holds the allocator's variables as the
    module was loaded. *)
Definition kv_init_namespace (table_size size : Z) (a : St) (m : Z -> Z) : res kv_ftl :=
  let! a := init size a in
  let slots := table_size / KV_MAPPING_ENTRY_SIZE in
  Ok (mk_kv_ftl (replicate (Z.to_nat slots) (mk_entry (replicate 18 0) NO_MEM NO_MEM NO_SLOT)) slots a
        (replicate 16 Null ++ [Garbage]) m size).
End Ftl.
