(* ===== verification/KvTable.v ===== *)
(** * The mapping table of the key-value FTL: chains, and what lookups see

    [walks t s l]: from slot [s] the chain runs through the slots [l], up to a free slot or
    the end.  [table_ok] keeps chains finite: links rise in a rank, and a new link only
    points at the slot just taken, which has none.  What the device knows of a key is
    what the search finds along its chain ([found]); each operation on the table is
    described by what it does to [found] for every key. *)

From Stdlib Require Import ZArith Lia.
From stdpp Require Import base list numbers sets.
From S2P Require Import Prelude KvFtl.

(** ** [List.find] *)
Lemma find_snoc {A} (f : A -> bool) l x : List.find f (l ++ [x]) = match List.find f l with Some y => Some y | None => if f x then Some x else None end.
Proof. induction l as [|y l IH]; cbn; [by destruct (f x)|]. by destruct (f y). Qed.

Lemma find_elem {A} (f : A -> bool) l x : List.find f l = Some x -> x ∈ l /\ f x = true.
Proof. intros H%List.find_some. by rewrite list_elem_of_In. Qed.

Lemma find_ext_elem {A} (f g : A -> bool) l : (forall x, x ∈ l -> f x = g x) -> List.find f l = List.find g l.
Proof.
  induction l as [|x l IH]; intros Hfg; [done|]. cbn. rewrite (Hfg x) by (by left). destruct (g x); [done|].
  apply IH. intros y Hy. apply Hfg. by right.
Qed.

(** ** Chains *)
Definition in_use (e : mapping_entry) : Prop := mem_offset e <> NO_MEM.

Section Table.
Implicit Types (t : list mapping_entry) (s : Z) (l : list Z).

Inductive walks t : Z -> list Z -> Prop :=
| walk_free s e : zget t s = Some e -> ~ in_use e -> walks t s []
| walk_last s e : zget t s = Some e -> in_use e -> next_slot e = NO_SLOT -> walks t s [s]
| walk_next s e l : zget t s = Some e -> in_use e -> next_slot e <> NO_SLOT -> walks t (next_slot e) l -> walks t s (s :: l).

Record table_ok t (slots : Z) : Prop := {
  tk_len : zlen t = slots;
  tk_pos : 0 < slots < 2 ^ 31;
  tk_keys i e : zget t i = Some e -> zlen (e_key e) = 18;
  tk_next i e : zget t i = Some e -> next_slot e = NO_SLOT \/ 0 <= next_slot e < slots;
  tk_free i e : zget t i = Some e -> ~ in_use e -> next_slot e = NO_SLOT;
  tk_rank : exists rank : Z -> nat, forall i e, zget t i = Some e -> next_slot e <> NO_SLOT -> (rank i < rank (next_slot e))%nat;
}.

Lemma walks_det t s l l' : walks t s l -> walks t s l' -> l = l'.
Proof.
  intros H. revert l'. induction H as [s e E Hf|s e E Hu Hn|s e l E Hu Hn _ IH]; intros l' H'; inversion H'; simplify_eq; try done.
  f_equal. by apply IH.
Qed.

Lemma walks_in_use t s l i : walks t s l -> i ∈ l -> exists e, zget t i = Some e /\ in_use e.
Proof.
  induction 1 as [s e E Hf|s e E Hu Hn|s e l E Hu Hn _ IH]; intros Hi.
  - by apply elem_of_nil in Hi.
  - apply list_elem_of_singleton in Hi as ->. eauto.
  - apply elem_of_cons in Hi as [->|Hi]; eauto.
Qed.

(** As many distinct slots as there are at most. *)
Lemma distinct_slots (n : Z) l : NoDup l -> Forall (fun i => 0 <= i < n) l -> 0 <= n -> zlen l <= n.
Proof.
  intros Hl Hr Hn. assert (l ⊆+ zseq n) as Hs.
  { apply NoDup_submseteq; [done|]. intros i Hi. rewrite Forall_forall in Hr. specialize (Hr i Hi). apply elem_of_seqZ. lia. }
  apply submseteq_length in Hs. unfold zseq in Hs. rewrite length_seqZ in Hs. lia.
Qed.

Lemma walk_exists t slots : table_ok t slots -> forall s, 0 <= s < slots ->
  exists l, walks t s l /\ (length l <= length t)%nat.
Proof.
  intros T. pose proof T as [Hl [Hp _] _ Hn _ (rank & Hr)].
  assert (forall n vis s, NoDup vis -> Forall (fun i => 0 <= i < slots /\ (rank i < rank s)%nat) vis -> 0 <= s < slots ->
    (length t <= length vis + n)%nat -> exists l, walks t s l /\ (length l <= n)%nat) as Hw.
  { induction n as [|n IH]; intros vis s Hv Hvis Hs Hc.
    all: assert (s ∉ vis) as Hnew by (intros Hi; rewrite Forall_forall in Hvis; destruct (Hvis s Hi); lia).
    all: assert (zlen (s :: vis) <= slots) as Hcount by
      (apply distinct_slots; [by constructor|constructor; [done|eapply Forall_impl; [exact Hvis|by intros i [? _]]]|lia]).
    all: cbn [length] in Hcount. 1: lia.
    destruct (zget_Some t s) as (e & E); [lia|].
    destruct (decide (mem_offset e = NO_MEM)) as [Hf|Hu]; [exists []; split; [by eapply walk_free; [|intros H]|cbn; lia]|].
    destruct (decide (next_slot e = NO_SLOT)) as [Hx|Hx]; [exists [s]; split; [by eapply walk_last|cbn; lia]|].
    destruct (Hn s e E) as [|Hrange]; [done|].
    destruct (IH (s :: vis) (next_slot e)) as (l & Hwl & Hlen); [by constructor|..|done|cbn; lia|].
    - constructor; [split; [done|by apply Hr]|]. eapply Forall_impl; [exact Hvis|].
      intros i [Hi1 Hi2]. split; [done|]. specialize (Hr s e E Hx). lia.
    - exists (s :: l). split; [by eapply walk_next|cbn; lia]. }
  intros s Hs. apply (Hw (length t) [] s); [constructor|constructor|done|cbn; lia].
Qed.

(** A suffix of a walk is a walk; the last slot's own walk ends there. *)
Lemma walks_last t s l i : walks t s l -> list.last l = Some i -> walks t i [i].
Proof.
  induction 1 as [s e E Hf|s e E Hu Hn|s e l E Hu Hn W IH]; intros Hi; [done| |].
  - injection Hi as <-. by eapply walk_last.
  - destruct l as [|j l]; [injection Hi as <-; by eapply walk_next|]. by apply IH.
Qed.

(** ** The loops *)

(** The entry at [i] has the key [k] in its first bytes. *)
Definition hit t (k : list Z) i : bool :=
  match zget t i with Some e => bool_decide (take (length k) (e_key e) = k) | None => false end.

Lemma bytes_at_ok (b : list Z) n : 0 <= n <= zlen b -> bytes_at b n = Ok (take (Z.to_nat n) b).
Proof. intros Hn. unfold bytes_at. by replace ((0 <=? n) && (n <=? zlen b)) with true by lia. Qed.

Lemma memcmp_ok k0 (b : list Z) n : 0 <= n <= zlen k0 -> n <= zlen b ->
  memcmp_eq k0 b n = Ok (bool_decide (take (Z.to_nat n) b = take (Z.to_nat n) k0)).
Proof.
  intros Hk Hb. unfold memcmp_eq. rewrite !bytes_at_ok by lia. cbn [rbind]. f_equal. apply bool_decide_ext. naive_solver.
Qed.

Lemma in_use_eqb e : in_use e -> (mem_offset e =? NO_MEM) = false.
Proof. by intros H%Z.eqb_neq. Qed.
Lemma not_in_use e : ~ in_use e -> mem_offset e = NO_MEM.
Proof. unfold in_use. intros H. destruct (decide (mem_offset e = NO_MEM)); [done|]. by exfalso. Qed.

(** The search returns the first slot of the chain with the key. *)
Lemma search_spec t slots k0 n s l : table_ok t slots -> 0 <= n <= zlen k0 -> n <= 18 -> walks t s l -> forall fuel,
  (length l < fuel)%nat -> search fuel t k0 n s = Ok (List.find (hit t (take (Z.to_nat n) k0)) l).
Proof.
  intros T Hn H18 W. induction W as [s e E Hf|s e E Hu Hx|s e l E Hu Hx W IH]; intros fuel Hfuel; destruct fuel as [|fuel]; try (cbn in Hfuel; lia);
    cbn [search]; rewrite (proj2 (aget_ok _ _ _) E); cbn [rbind].
  { by rewrite (not_in_use e Hf), Z.eqb_refl. }
  all: rewrite in_use_eqb by done; rewrite memcmp_ok by (rewrite ?(tk_keys _ _ T _ _ E); lia); cbn [rbind List.find].
  all: unfold hit at 1; rewrite E, length_take, Nat.min_l by lia.
  all: destruct (bool_decide _); [done|].
  - by rewrite Hx.
  - rewrite (proj2 (Z.eqb_neq _ _) Hx). apply IH. cbn in Hfuel. lia.
Qed.

Lemma find_tail_spec t s l : walks t s l -> forall p fuel, (length l < fuel)%nat ->
  find_tail fuel t s p = Ok (default p (list.last l)).
Proof.
  intros W. induction W as [s e E Hf|s e E Hu Hx|s e l E Hu Hx W IH]; intros p fuel Hfuel; destruct fuel as [|fuel]; try (cbn in Hfuel; lia);
    cbn [find_tail]; rewrite (proj2 (aget_ok _ _ _) E); cbn [rbind].
  { by rewrite (not_in_use e Hf), Z.eqb_refl. }
  all: rewrite in_use_eqb by done.
  - by rewrite Hx.
  - rewrite (proj2 (Z.eqb_neq _ _) Hx), IH by (cbn in Hfuel; lia). rewrite last_cons. by destruct (list.last l).
Qed.

(** From [s] on and round, the first free slot. *)
Lemma probe_spec t slots d : table_ok t slots -> (exists e, zget t d = Some e /\ ~ in_use e) -> forall n s fuel,
  0 <= s < slots -> (d - s) mod slots = Z.of_nat n -> (n < fuel)%nat ->
  exists r e, probe fuel t slots s = Ok r /\ zget t r = Some e /\ ~ in_use e.
Proof.
  intros T (ed & Ed & Hd). pose proof (zget_range _ _ _ Ed) as Hrd. destruct T as [Hl [Hp Hm] _ _ _ _].
  induction n as [|n IH]; intros s fuel Hs Hdist Hfuel; (destruct fuel as [|fuel]; [lia|]); cbn [probe].
  all: destruct (zget_Some t s) as (e & E); [lia|]; rewrite (proj2 (aget_ok _ _ _) E); cbn [rbind].
  all: destruct (Z.eqb_spec (mem_offset e) NO_MEM) as [Hf|Hu]; [exists s, e; split; [done|by split; [|intros H]]|].
  - exfalso. apply Z.mod_divide in Hdist as [q Hq]; [|lia]. assert (q = 0) by nia. assert (d = s) as -> by lia. by simplify_eq.
  - assert (u32 (s + 1) = s + 1) as -> by (apply u32_id; lia).
    assert ((d - (s + 1)) mod slots = Z.of_nat n) as Hnext.
    { replace (d - (s + 1)) with (d - s - 1) by lia. rewrite Zminus_mod, Hdist, (Z.mod_small 1) by
        (pose proof (Z.mod_pos_bound (d - s) slots ltac:(lia)); lia).
      pose proof (Z.mod_pos_bound (d - s) slots ltac:(lia)). rewrite Z.mod_small; lia. }
    destruct (Z.leb_spec slots (s + 1)) as [Hw|Hw].
    + apply IH; [lia| |lia]. assert (slots = s + 1) as -> by lia. rewrite Z.sub_0_r. rewrite <- Hnext.
      replace (d - (s + 1)) with (d + -1 * (s + 1)) by lia. by rewrite Z.mod_add by lia.
    + apply IH; [lia|done|lia].
Qed.

(** A table in use throughout has no slot to give: the probe goes on for ever. *)
Lemma probe_full t slots : zlen t = slots -> 0 < slots < 2 ^ 31 -> (forall i e, zget t i = Some e -> in_use e) ->
  forall fuel s, 0 <= s < slots -> probe fuel t slots s = Err OutOfFuel.
Proof.
  intros Hl Hp Hu. induction fuel as [|fuel IH]; intros s Hs; [done|]. cbn [probe].
  destruct (zget_Some t s) as (e & E); [lia|]. rewrite (proj2 (aget_ok _ _ _) E). cbn [rbind].
  rewrite in_use_eqb by by eapply Hu. rewrite u32_id by lia. apply IH. destruct (Z.leb_spec slots (s + 1)); lia.
Qed.

(** ** Taking a slot *)
Section Insert.
Context (t : list mapping_entry) (slots slot : Z) (e1 : mapping_entry) (link : option Z).
Context (T : table_ok t slots).
Context (Hslot : exists e, zget t slot = Some e /\ ~ in_use e).
Context (H1 : in_use e1) (Hn1 : next_slot e1 = NO_SLOT) (Hk1 : zlen (e_key e1) = 18).
Context (Hlink : forall p, link = Some p -> walks t p [p]).

Definition inserted : list mapping_entry :=
  match link with
  | None => zset t slot e1
  | Some p => match zget t p with Some e => zset (zset t slot e1) p (set_next_slot e slot) | None => t end
  end.

Lemma link_in_use p : link = Some p -> exists e, zget t p = Some e /\ in_use e /\ p <> slot.
Proof.
  intros Hp. destruct (walks_in_use _ _ _ p (Hlink p Hp)) as (e & E & Hu); [by apply list_elem_of_singleton|].
  exists e. split; [done|]. split; [done|]. intros ->. destruct Hslot as (e' & E' & Hf). by simplify_eq.
Qed.

Lemma zget_inserted i : zget inserted i =
  if decide (i = slot) then Some e1
  else if decide (link = Some i) then (fun e => set_next_slot e slot) <$> zget t i else zget t i.
Proof.
  destruct Hslot as (e0 & E0 & _). pose proof (zget_range _ _ _ E0) as Hr. pose proof link_in_use as Hlu.
  unfold inserted. destruct link as [p|].
  - destruct (Hlu p eq_refl) as (e & E & Hu & Hne). rewrite E. pose proof (zget_range _ _ _ E).
    rewrite zget_zset by (rewrite length_zset; lia). destruct (decide (p = i)) as [->|Hpi].
    + rewrite decide_False by done. rewrite decide_True by done. by rewrite E.
    + rewrite zget_zset by lia. rewrite (decide_False (P := Some p = Some i)) by congruence.
      destruct (decide (slot = i)) as [->|]; [by rewrite decide_True|by rewrite decide_False].
  - rewrite zget_zset by lia. destruct (decide (slot = i)) as [->|]; [by rewrite decide_True|by rewrite !decide_False].
Qed.

Lemma walks_slot : walks inserted slot [slot].
Proof. eapply walk_last; [|exact H1|exact Hn1]. rewrite zget_inserted. by rewrite decide_True. Qed.

(** Chains that reached the slot, or the linked one, now end in the slot; the others stay. *)
Lemma walks_inserted s l : walks t s l ->
  exists l', walks inserted s l' /\ (l' = l \/ l' = l ++ [slot]) /\
    (s = slot \/ (exists p, link = Some p /\ list.last l = Some p) -> l' = l ++ [slot]).
Proof.
  destruct Hslot as (e0 & E0 & Hf0).
  induction 1 as [s e E Hf|s e E Hu Hx|s e l E Hu Hx W IH].
  - destruct (decide (s = slot)) as [->|Hne]; [exists [slot]; split; [by apply walks_slot|by split; [right|]]|].
    exists []. split; [|split; [by left|intros [|(p & _ & [=])]; done]]. eapply walk_free; [|exact Hf].
    rewrite zget_inserted, decide_False by done. rewrite decide_False; [done|]. intros Hp.
    destruct (link_in_use s Hp) as (e' & E' & Hu & _). by simplify_eq.
  - assert (s <> slot) as Hne by (intros ->; by simplify_eq). destruct (decide (link = Some s)) as [Hp|Hp].
    + exists [s; slot]. split; [|split; [by right|done]].
      eapply (walk_next _ s (set_next_slot e slot)); [|exact Hu| |apply walks_slot].
      * by rewrite zget_inserted, decide_False, decide_True, E by done.
      * cbn. apply zget_range in E0. pose proof (tk_pos _ _ T). pose proof (tk_len _ _ T). unfold NO_SLOT. lia.
    + exists [s]. split; [|split; [by left|intros [|(p & Hp' & [= ->])]; done]]. eapply walk_last; [|exact Hu|exact Hx].
      by rewrite zget_inserted, !decide_False by done.
  - assert (s <> slot) as Hne by (intros ->; by simplify_eq). destruct (decide (link = Some s)) as [Hp|Hp].
    + assert (l = []) as ->. { pose proof (walks_det _ _ _ _ (Hlink s Hp) (walk_next _ _ _ _ E Hu Hx W)) as [= <-]. done. }
      exists [s; slot]. split; [|split; [by right|done]].
      eapply (walk_next _ s (set_next_slot e slot)); [|exact Hu| |apply walks_slot].
      * by rewrite zget_inserted, decide_False, decide_True, E by done.
      * cbn. apply zget_range in E0. pose proof (tk_pos _ _ T). pose proof (tk_len _ _ T). unfold NO_SLOT. lia.
    + destruct IH as (l' & W' & Hl' & Hend). exists (s :: l'). split; [|split].
      * eapply walk_next; [|exact Hu|exact Hx|exact W']. by rewrite zget_inserted, !decide_False by done.
      * destruct Hl' as [->| ->]; [by left|by right].
      * intros [|(p & Hp' & Hlast)]; [done|]. destruct l as [|j l]; [injection Hlast as ->; done|].
        rewrite Hend; [done|]. right. by exists p.
Qed.

Lemma inserted_ok : table_ok inserted slots.
Proof.
  destruct T as [Hl Hp Hk Hn Hf (rank & Hr)]. destruct Hslot as (e0 & E0 & Hf0). pose proof (zget_range _ _ _ E0) as Hs.
  assert (slot <> NO_SLOT) as Hsn by (unfold NO_SLOT; lia). split; [|done|..].
  - unfold inserted. clear - Hl. destruct link as [p|]; [destruct (zget t p)|]; by rewrite ?length_zset.
  - intros i e. rewrite zget_inserted. repeat case_decide; [by intros [= <-]| |by apply Hk].
    intros (e' & E & ->)%fmap_Some. by apply (Hk i e').
  - intros i e. rewrite zget_inserted. repeat case_decide; [intros [= <-]; by left| |by apply Hn].
    intros (e' & E & ->)%fmap_Some. right. cbn. lia.
  - intros i e. rewrite zget_inserted. case_decide; [by intros [= <-]|]. case_decide as Hd; [|by apply Hf].
    intros (e' & E & ->)%fmap_Some Hu. exfalso. destruct (link_in_use i) as (e2 & E2 & Hu2 & _); [done|]. by simplify_eq.
  - set (top := S (max_list (rank <$> zseq slots))).
    assert (forall i, 0 <= i < slots -> (rank i < top)%nat) as Htop.
    { intros i Hi. unfold top. apply Nat.lt_succ_r. apply max_list_elem_of_le. apply list_elem_of_fmap.
      exists i. split; [done|]. apply elem_of_seqZ. lia. }
    exists (fun i => if decide (i = slot) then top else rank i). intros i e. rewrite zget_inserted.
    destruct (decide (i = slot)) as [->|Hne]; [by intros [= <-]|]. case_decide as Hd.
    + intros (e' & E & ->)%fmap_Some _. cbn. rewrite decide_True by done. apply Htop. apply zget_range in E. lia.
    + intros E Hx. destruct (decide (next_slot e = slot)); [apply Htop; apply zget_range in E; lia|by eapply Hr].
Qed.
End Insert.

(** ** What the search finds of a key *)
Definition home (slots : Z) (k : list Z) : Z := fold_left hash_step k 2166136261 mod slots.

Definition lookup_slot t (slots : Z) (k : list Z) : option Z :=
  match search (S (length t)) t k (zlen k) (home slots k) with Ok r => r | Err _ => None end.

(** Where the value of [k] lies, and how long it is. *)
Definition found t (slots : Z) (k : list Z) : option (Z * Z) :=
  lookup_slot t slots k ≫= fun i => (fun e => (mem_offset e, e_length e)) <$> zget t i.

Lemma home_range slots k : 0 < slots -> 0 <= home slots k < slots.
Proof. intros Hs. by apply Z.mod_pos_bound. Qed.

Lemma hash_slot_ok slots k0 n : 0 < slots -> 0 <= n <= zlen k0 -> hash_slot slots k0 n = Ok (home slots (take (Z.to_nat n) k0)).
Proof.
  intros Hs Hn. unfold hash_slot, hash_function. rewrite bytes_at_ok by done. cbn [rbind]. by replace (slots =? 0) with false by lia.
Qed.

Lemma home_walk t slots k : table_ok t slots -> exists l, walks t (home slots k) l /\ (length l <= length t)%nat.
Proof. intros T. apply (walk_exists t slots T). apply home_range. apply (tk_pos _ _ T). Qed.

Lemma lookup_walk t slots k l : table_ok t slots -> zlen k <= 18 -> walks t (home slots k) l ->
  lookup_slot t slots k = List.find (hit t k) l.
Proof.
  intros T Hk W. destruct (home_walk t slots k T) as (l' & W' & Hlen). pose proof (walks_det _ _ _ _ W W') as <-.
  unfold lookup_slot. rewrite (search_spec t slots k (zlen k) _ l T) by (done || lia). by rewrite Nat2Z.id, firstn_all.
Qed.

(** The entry found is in use and has the key. *)
Lemma lookup_spec t slots k i : table_ok t slots -> zlen k <= 18 -> lookup_slot t slots k = Some i ->
  exists e, zget t i = Some e /\ in_use e /\ take (length k) (e_key e) = k /\ found t slots k = Some (mem_offset e, e_length e).
Proof.
  intros T Hk Hi. destruct (home_walk t slots k T) as (l & W & _). pose proof Hi as Hf. rewrite (lookup_walk t slots k l) in Hf by done.
  apply find_elem in Hf as [Hl Hh]. destruct (walks_in_use _ _ _ _ W Hl) as (e & E & Hu). exists e. unfold hit in Hh. rewrite E in Hh.
  apply bool_decide_eq_true in Hh. unfold found. rewrite Hi. cbn. by rewrite E.
Qed.

Lemma found_None t slots k : table_ok t slots -> zlen k <= 18 -> found t slots k = None -> lookup_slot t slots k = None.
Proof.
  intros T Hk. destruct (lookup_slot t slots k) as [i|] eqn:E; [|done].
  by destruct (lookup_spec t slots k i T Hk E) as (e & _ & _ & _ & ->).
Qed.

Lemma search_home t slots k0 n : table_ok t slots -> 0 <= n <= zlen k0 -> n <= 18 ->
  search (S (length t)) t k0 n (home slots (take (Z.to_nat n) k0)) = Ok (lookup_slot t slots (take (Z.to_nat n) k0)).
Proof.
  intros T Hn H18. set (k := take (Z.to_nat n) k0). destruct (home_walk t slots k T) as (l & W & Hlen).
  rewrite (search_spec t slots k0 n _ l T) by (done || lia). fold k. f_equal. symmetry. apply lookup_walk; [done| |done].
  unfold k. rewrite length_take. lia.
Qed.

(** ** The operations *)
Lemma memcpy_ok dst src n : 0 <= n <= zlen src -> n <= zlen dst -> memcpy dst src n = Ok (take (Z.to_nat n) src ++ drop (Z.to_nat n) dst).
Proof. intros Hs Hd. unfold memcpy. by rewrite !bytes_at_ok by lia. Qed.

Lemma get_entry_spec t slots k0 n : table_ok t slots -> 0 <= n <= zlen k0 -> n <= 18 ->
  exists e, get_entry t slots k0 n = Ok e /\
    match found t slots (take (Z.to_nat n) k0) with
    | None => e = unset_entry
    | Some (off, len) => off <> NO_MEM /\ mem_offset e = off /\ e_length e = len
    end.
Proof.
  intros T Hn H18. unfold get_entry. rewrite hash_slot_ok by (done || apply (tk_pos _ _ T)). cbn [rbind].
  rewrite search_home by done. cbn [rbind]. set (k := take (Z.to_nat n) k0) in *.
  assert (zlen k <= 18) as Hk by (unfold k; rewrite length_take; lia).
  destruct (lookup_slot t slots k) as [i|] eqn:El.
  - destruct (lookup_spec t slots k i T Hk El) as (e & E & Hu & _ & ->). rewrite (proj2 (aget_ok _ _ _) E). cbn [rbind].
    rewrite memcpy_ok by (rewrite ?(tk_keys _ _ T _ _ E), ?length_replicate; cbn; lia). cbn [rbind]. eexists. split; [reflexivity|]. done.
  - exists unset_entry. split; [done|]. unfold found. by rewrite El.
Qed.

(** ** Counting the slots in use *)
#[export] Instance in_use_dec e : Decision (in_use e).
Proof. unfold in_use. apply _. Defined.

Definition used t : Z := zlen (filter in_use t).

Lemma used_zset t i e e' : zget t i = Some e ->
  used (zset t i e') = used t - (if decide (in_use e) then 1 else 0) + (if decide (in_use e') then 1 else 0).
Proof.
  unfold zget, zset, used. destruct (i <? 0); [done|]. intros E. rewrite <- (take_drop_middle t (Z.to_nat i) e E) at 2.
  rewrite insert_take_drop by by eapply lookup_lt_Some. rewrite !filter_app, !filter_cons, !length_app.
  repeat case_decide; cbn [length]; lia.
Qed.

Lemma used_pos t i e : zget t i = Some e -> in_use e -> 0 < used t.
Proof.
  intros E Hu. pose proof (used_zset t i e unset_entry E) as H. rewrite decide_True in H by done.
  rewrite decide_False in H by (unfold in_use; cbn; lia). unfold used in *. lia.
Qed.

Lemma free_slot t slots : zlen t = slots -> used t < slots -> exists d e, zget t d = Some e /\ ~ in_use e.
Proof.
  intros Hl Hu. destruct (decide (Forall in_use t)) as [Hall|Hn].
  - exfalso. unfold used in Hu. assert (length (filter in_use t) = length t) as Heq; [|lia].
    clear - Hall. induction Hall as [|e t He _ IH]; [done|]. rewrite filter_cons, decide_True by done. cbn. by rewrite IH.
  - apply not_Forall_Exists in Hn; [|apply _]. apply Exists_exists in Hn as (e & He & Hf). apply list_elem_of_lookup in He as (i & Hi).
    exists (Z.of_nat i), e. split; [|done]. unfold zget. by rewrite (proj2 (Z.ltb_ge _ 0)), Nat2Z.id by lia.
Qed.

(** ** A slot taken, as lookups see it *)
Section InsertFound.
Context (t : list mapping_entry) (slots slot : Z) (e1 : mapping_entry) (link : option Z).
Context (T : table_ok t slots).
Context (Hslot : exists e, zget t slot = Some e /\ ~ in_use e).
Context (H1 : in_use e1) (Hn1 : next_slot e1 = NO_SLOT) (Hk1 : zlen (e_key e1) = 18).
Context (Hlink : forall p, link = Some p -> walks t p [p]).
Let t' := inserted t slot e1 link.

Lemma zget_t' i : zget t' i =
  if decide (i = slot) then Some e1 else if decide (link = Some i) then (fun e => set_next_slot e slot) <$> zget t i else zget t i.
Proof. by apply zget_inserted. Qed.

Lemma used_inserted : used t' = used t + 1.
Proof.
  unfold t', inserted. pose proof (link_in_use t slot link Hslot Hlink) as Hl. destruct Hslot as (e0 & E0 & Hf).
  assert (used (zset t slot e1) = used t + 1) as Hu.
  { rewrite (used_zset _ _ _ _ E0), decide_False, decide_True by done. lia. }
  clear t' Hlink. destruct link as [p|]; [|done]. destruct (Hl p eq_refl) as (e & E & Hue & Hne). rewrite E.
  rewrite (used_zset _ p e) by by rewrite zget_zset_ne. rewrite !decide_True by done. lia.
Qed.

Lemma hit_inserted k i : i <> slot -> hit t' k i = hit t k i.
Proof.
  intros Hi. unfold hit. rewrite zget_t', decide_False by done. case_decide; [|done]. by destruct (zget t i).
Qed.

(** The entry at a slot other than the new one keeps its value. *)
Lemma value_inserted i : i <> slot ->
  (fun e => (mem_offset e, e_length e)) <$> zget t' i = (fun e => (mem_offset e, e_length e)) <$> zget t i.
Proof. intros Hi. rewrite zget_t', decide_False by done. case_decide; [|done]. by destruct (zget t i). Qed.

Lemma find_inserted k s l : walks t s l -> List.find (hit t' k) l = List.find (hit t k) l.
Proof.
  intros W. apply find_ext_elem. intros i Hi. apply hit_inserted. intros ->.
  destruct (walks_in_use _ _ _ _ W Hi) as (e & E & Hu). destruct Hslot as (e' & E' & Hf). by simplify_eq.
Qed.

(** Other keys are found as before. *)
Lemma found_other k : zlen k <= 18 -> take (length k) (e_key e1) <> k -> found t' slots k = found t slots k.
Proof.
  intros Hk Hne. destruct (home_walk t slots k T) as (l & W & _).
  destruct (walks_inserted t slots slot e1 link T Hslot H1 Hn1 Hlink _ _ W) as (l' & W' & Hl' & _).
  assert (table_ok t' slots) as T' by by apply inserted_ok.
  assert (hit t' k slot = false) as Hmiss.
  { unfold hit. rewrite zget_t', decide_True by done. by apply bool_decide_eq_false. }
  assert (lookup_slot t' slots k = lookup_slot t slots k) as Heq.
  { rewrite (lookup_walk _ _ _ _ T' Hk W'), (lookup_walk _ _ _ _ T Hk W). rewrite <- (find_inserted k _ _ W).
    destruct Hl' as [->| ->]; [done|]. rewrite find_snoc, Hmiss. by destruct (List.find _ l). }
  unfold found. rewrite Heq. destruct (lookup_slot t slots k) as [i|] eqn:Ei; [|done]. cbn. apply value_inserted.
  intros ->. destruct (lookup_spec _ _ _ _ T Hk Ei) as (e & E & Hu & _). destruct Hslot as (e' & E' & Hf). by simplify_eq.
Qed.

(** A key not found before, whose chain leads to the slot, is found there. *)
Lemma found_new k l : zlen k <= 18 -> take (length k) (e_key e1) = k -> found t slots k = None ->
  walks t (home slots k) l -> home slots k = slot \/ (exists p, link = Some p /\ list.last l = Some p) ->
  found t' slots k = Some (mem_offset e1, e_length e1).
Proof.
  intros Hk Heq Hnone W Hend.
  destruct (walks_inserted t slots slot e1 link T Hslot H1 Hn1 Hlink _ _ W) as (l' & W' & _ & Hl').
  assert (table_ok t' slots) as T' by by apply inserted_ok.
  assert (hit t' k slot = true) as Hhit.
  { unfold hit. rewrite zget_t', decide_True by done. by apply bool_decide_eq_true. }
  apply found_None in Hnone; [|done..]. rewrite (lookup_walk _ _ _ _ T Hk W), <- (find_inserted k _ _ W) in Hnone.
  unfold found. rewrite (lookup_walk _ _ _ _ T' Hk W'), (Hl' Hend), find_snoc, Hnone, Hhit. cbn.
  by rewrite zget_t', decide_True.
Qed.
End InsertFound.

(** Where a new entry for a home slot [h] goes, and which slot links to it. *)
Lemma pick_slot t slots h l eh : table_ok t slots -> walks t h l -> (length l <= length t)%nat -> zget t h = Some eh -> used t < slots ->
  exists slot link e,
    (if mem_offset eh =? NO_MEM then Ok (h, NO_SLOT) else find_next_slot (S (length t)) t slots h) = Ok (slot, default NO_SLOT link) /\
    zget t slot = Some e /\ ~ in_use e /\ (forall p, link = Some p -> walks t p [p]) /\
    (h = slot \/ exists p, link = Some p /\ list.last l = Some p).
Proof.
  intros T W Hlen Eh Hroom. pose proof (zget_range _ _ _ Eh) as Hh. pose proof (tk_len _ _ T) as Hl. pose proof (tk_pos _ _ T) as Hp.
  destruct (Z.eqb_spec (mem_offset eh) NO_MEM) as [Hf|Hu].
  { exists h, None, eh. split; [done|]. split; [done|]. split; [by intros H|]. by split; [|left]. }
  destruct (list.last l) as [p|] eqn:El; [|apply last_None in El as ->; inversion W; simplify_eq; by exfalso].
  pose proof (walks_last _ _ _ _ W El) as Wp. destruct (walks_in_use t p [p] p Wp) as (ep & Ep & _); [by left|].
  destruct (free_slot t slots Hl Hroom) as (d & ed & Ed & Hd). pose proof (zget_range _ _ _ Ep).
  destruct (probe_spec t slots d T) with (n := Z.to_nat ((d - p) mod slots)) (s := p) (fuel := S (length t)) as (r & e & Er & E & Hfree); [by eauto|lia| | |].
  1, 2: pose proof (Z.mod_pos_bound (d - p) slots ltac:(lia)); lia.
  exists r, (Some p), e. unfold find_next_slot. rewrite i32_id, u32_id by lia. rewrite (find_tail_spec _ _ _ W) by lia. rewrite El. cbn [rbind from_option]. unfold id.
  rewrite Er. cbn [rbind]. split; [done|]. split; [done|]. split; [done|].
  split; [by intros ? [= <-]|]. right. by exists p.
Qed.

(** [new_mapping_entry], once a slot is free: the key is found, the others as before. *)
Lemma new_entry_spec t slots k0 n len off :
  let k := take (Z.to_nat n) k0 in
  table_ok t slots -> 0 <= n <= zlen k0 -> n <= 18 -> off <> NO_MEM -> found t slots k = None -> used t < slots ->
  exists t', new_entry (S (length t)) t slots k0 n len off = Ok t' /\ table_ok t' slots /\ used t' = used t + 1 /\
    found t' slots k = Some (off, len) /\ (forall k', length k' = length k -> k' <> k -> found t' slots k' = found t slots k').
Proof.
  intros k T Hn H18 Hoff Hnone Hroom. assert (length k = Z.to_nat n) as Hkn by (unfold k; rewrite length_take; lia).
  unfold new_entry. rewrite hash_slot_ok by (done || apply (tk_pos _ _ T)). fold k. cbn [rbind].
  destruct (home_walk t slots k T) as (l & W & Hlen). pose proof (home_range slots k (proj1 (tk_pos _ _ T))) as Hh.
  pose proof (tk_len _ _ T) as Hl. destruct (zget_Some t (home slots k)) as (eh & Eh); [lia|]. rewrite (proj2 (aget_ok _ _ _) Eh). cbn [rbind].
  destruct (pick_slot t slots (home slots k) l eh T W Hlen Eh Hroom) as (slot & link & e & -> & E & Hf & Hlink & Hend). cbn [rbind].
  rewrite (proj2 (aget_ok _ _ _) E). pose proof (tk_keys _ _ T _ _ E) as H18e. cbn [rbind]. rewrite memcpy_ok by lia. cbn [rbind]. fold k.
  set (e1 := set_length (set_mem_offset (set_key e (k ++ drop (Z.to_nat n) (e_key e))) off) len).
  pose proof (zget_range _ _ _ E) as Hr. rewrite (proj2 (aset_ok _ _ _ _) (conj Hr eq_refl)). cbn [rbind].
  assert (exists e, zget t slot = Some e /\ ~ in_use e) as Hslot by eauto.
  assert (next_slot e1 = NO_SLOT) as Hn1 by (apply (tk_free _ _ T _ _ E Hf)).
  assert (zlen (e_key e1) = 18) as Hk1 by (cbn; rewrite length_app, length_drop; lia).
  assert (take (length k) (e_key e1) = k) as Htk by (cbn; apply take_app_length).
  exists (inserted t slot e1 link). split.
  - clear Hend. unfold inserted. pose proof (link_in_use t slot link Hslot Hlink) as Hlu. destruct link as [p|]; [|done]. cbn [from_option].
    destruct (Hlu p eq_refl) as (ep & Ep & _ & Hne). rewrite Ep. pose proof (zget_range _ _ _ Ep) as Hpr.
    unfold id. replace (p =? NO_SLOT) with false by (pose proof (tk_pos _ _ T); unfold NO_SLOT; lia).
    unfold chain_mapping, amod. assert (aget (zset t slot e1) p = Ok ep) as -> by (apply aget_ok; by rewrite zget_zset_ne). cbn [rbind].
    apply aset_ok. by rewrite length_zset.
  - split; [by apply inserted_ok|]. split; [by apply used_inserted|]. split.
    + by apply (found_new t slots slot e1 link T Hslot Hoff Hn1 Hk1 Hlink k l); [lia|..].
    + intros k' Hk' Hne. apply found_other; try done; [lia|]. rewrite Hk', Htk. congruence.
Qed.

(** ** An entry rewritten in place *)
Section Rewrite.
Context (t : list mapping_entry) (slots i : Z) (e e' : mapping_entry).
Context (T : table_ok t slots) (E : zget t i = Some e) (Hu : in_use e) (Hu' : in_use e').
Context (Hnext : next_slot e' = next_slot e) (Hkey : e_key e' = e_key e).
Local Notation t' := (zset t i e').

Lemma zget_rewritten j : zget t' j = if decide (i = j) then Some e' else zget t j.
Proof. apply zget_zset. by eapply zget_range. Qed.

Lemma rewritten_ok : table_ok t' slots.
Proof.
  pose proof T as [Hl Hp Hk Hn Hf (rank & Hr)]. split; [by rewrite length_zset|done|..].
  - intros j x. rewrite zget_rewritten. case_decide; [intros [= <-]; rewrite Hkey|]; by eapply Hk.
  - intros j x. rewrite zget_rewritten. case_decide; [intros [= <-]; rewrite Hnext|]; by eapply Hn.
  - intros j x. rewrite zget_rewritten. case_decide; [by intros [= <-]|]. by eapply Hf.
  - exists rank. intros j x. rewrite zget_rewritten. case_decide as Hj; [intros [= <-]; rewrite Hnext, <- Hj|]; by eapply Hr.
Qed.

Lemma in_use_rewritten s x : zget t s = Some x -> in_use x ->
  exists y, zget t' s = Some y /\ in_use y /\ next_slot y = next_slot x.
Proof.
  intros Ex Hx. rewrite zget_rewritten. destruct (decide (i = s)) as [Hi|_]; [|by exists x].
  exists e'. rewrite <- Hi, E in Ex. by injection Ex as <-.
Qed.

Lemma walks_rewritten s l : walks t s l -> walks t' s l.
Proof.
  induction 1 as [s x Ex Hf|s x Ex Hx Hn|s x l Ex Hx Hn W IH].
  - eapply walk_free; [|exact Hf]. rewrite zget_rewritten. case_decide as Hi; [|done]. rewrite <- Hi, E in Ex. by injection Ex as <-.
  - destruct (in_use_rewritten s x Ex Hx) as (y & Ey & Hy & Hny). eapply walk_last; [exact Ey|done|congruence].
  - destruct (in_use_rewritten s x Ex Hx) as (y & Ey & Hy & Hny). eapply walk_next; [exact Ey|done|congruence|by rewrite Hny].
Qed.

Lemma hit_rewritten k j : hit t' k j = hit t k j.
Proof. unfold hit. rewrite zget_rewritten. case_decide as Hj; [|done]. by rewrite <- Hj, E, Hkey. Qed.

Lemma lookup_rewritten k : zlen k <= 18 -> lookup_slot t' slots k = lookup_slot t slots k.
Proof.
  intros Hk. destruct (home_walk t slots k T) as (l & W & _).
  rewrite (lookup_walk _ _ _ _ rewritten_ok Hk (walks_rewritten _ _ W)), (lookup_walk _ _ _ _ T Hk W).
  apply find_ext_elem. intros j _. apply hit_rewritten.
Qed.

Lemma used_rewritten : used t' = used t.
Proof. rewrite (used_zset _ _ _ _ E), !decide_True by done. lia. Qed.
End Rewrite.

(** [update_mapping_entry] of a key in the table: its length alone changes. *)
Lemma update_entry_spec t slots k0 n off len0 len :
  let k := take (Z.to_nat n) k0 in
  table_ok t slots -> 0 <= n <= zlen k0 -> n <= 18 -> found t slots k = Some (off, len0) ->
  exists t', update_entry t slots k0 n len = Ok t' /\ table_ok t' slots /\ used t' = used t /\
    found t' slots k = Some (off, len) /\ (forall k', length k' = length k -> k' <> k -> found t' slots k' = found t slots k').
Proof.
  intros k T Hn H18 Hfound. assert (zlen k <= 18) as Hk by (unfold k; rewrite length_take; lia).
  unfold update_entry. rewrite hash_slot_ok by (done || apply (tk_pos _ _ T)). cbn [rbind]. rewrite search_home by done. fold k. cbn [rbind].
  destruct (lookup_slot t slots k) as [i|] eqn:El; [|unfold found in Hfound; by rewrite El in Hfound].
  destruct (lookup_spec t slots k i T Hk El) as (e & E & Hu & Hke & Hf). rewrite Hf in Hfound. injection Hfound as <- <-.
  pose proof (zget_range _ _ _ E) as Hr. unfold amod. rewrite (proj2 (aget_ok _ _ _) E). cbn [rbind].
  exists (zset t i (set_length e len)). split; [by apply aset_ok|].
  assert (forall k', zlen k' <= 18 -> lookup_slot (zset t i (set_length e len)) slots k' = lookup_slot t slots k') as Hlook
    by (intros k' Hk'; by apply (lookup_rewritten t slots i e)).
  split; [by apply (rewritten_ok t slots i e)|]. split; [by apply (used_rewritten t i e)|]. split.
  - unfold found. rewrite Hlook, El by done. cbn. by rewrite zget_zset_eq.
  - intros k' Hlen Hne. unfold found. rewrite Hlook by lia. destruct (lookup_slot t slots k') as [j|] eqn:Ej; [|done]. cbn.
    rewrite zget_zset_ne; [done|]. intros ->. destruct (lookup_spec t slots k' j T ltac:(lia) Ej) as (e' & E' & _ & Hke' & _). congruence.
Qed.

(** ** A slot given up *)
Fixpoint before (d : Z) l : list Z := match l with [] => [] | i :: l => if decide (i = d) then [] else i :: before d l end.

Lemma before_notin d l : d ∉ l -> before d l = l.
Proof. induction l as [|i l IH]; [done|]. cbn. intros [Hne Hl]%not_elem_of_cons. rewrite decide_False by done. by rewrite IH. Qed.

Lemma elem_of_before d l i : i ∈ before d l -> i ∈ l /\ i <> d.
Proof.
  induction l as [|j l IH]; cbn; [by intros ?%elem_of_nil|]. case_decide; [by intros ?%elem_of_nil|].
  intros [->|Hi]%elem_of_cons; [split; [by left|done]|]. destruct (IH Hi). split; [by right|done].
Qed.

(** Nothing before the first hit is one. *)
Lemma find_before f l d : List.find f l = Some d -> List.find f (before d l) = None.
Proof.
  induction l as [|i l IH]; cbn; [done|]. case_decide as Hd; [done|]. cbn. destruct (f i); [congruence|done].
Qed.

Section Delete.
Context (t : list mapping_entry) (slots d : Z) (e : mapping_entry) (T : table_ok t slots) (E : zget t d = Some e).
Local Notation t' := (zset t d unset_entry).

Lemma zget_deleted j : zget t' j = if decide (d = j) then Some unset_entry else zget t j.
Proof. apply zget_zset. by eapply zget_range. Qed.

Lemma deleted_ok : table_ok t' slots.
Proof.
  pose proof T as [Hl Hp Hk Hn Hf (rank & Hr)]. split; [by rewrite length_zset|done|..].
  - intros j x. rewrite zget_deleted. case_decide; [by intros [= <-]|]. by eapply Hk.
  - intros j x. rewrite zget_deleted. case_decide; [intros [= <-]; by left|]. by eapply Hn.
  - intros j x. rewrite zget_deleted. case_decide; [by intros [= <-]|]. by eapply Hf.
  - exists rank. intros j x. rewrite zget_deleted. case_decide; [by intros [= <-]|]. by eapply Hr.
Qed.

Lemma walks_deleted s l : walks t s l -> walks t' s (before d l).
Proof.
  assert (forall s, s = d -> walks t' s []) as Hd.
  { intros s0 ->. eapply (walk_free _ _ unset_entry); [by rewrite zget_deleted, decide_True|]. by intros H. }
  induction 1 as [s x Ex Hf|s x Ex Hx Hn|s x l Ex Hx Hn W IH]; cbn [before].
  - destruct (decide (s = d)) as [Hs|Hs]; [by apply Hd|]. eapply walk_free; [|exact Hf]. by rewrite zget_deleted, decide_False.
  - destruct (decide (s = d)) as [Hs|Hs]; [by apply Hd|]. eapply walk_last; [|done..]. by rewrite zget_deleted, decide_False.
  - destruct (decide (s = d)) as [Hs|Hs]; [by apply Hd|]. eapply walk_next; [|done..]. by rewrite zget_deleted, decide_False.
Qed.

(** A key is found as before when its slot comes before the one given up, else not at all. *)
Lemma found_deleted k l : zlen k <= 18 -> walks t (home slots k) l ->
  found t' slots k = List.find (hit t k) (before d l) ≫= fun i => (fun x => (mem_offset x, e_length x)) <$> zget t i.
Proof.
  intros Hk W. unfold found. rewrite (lookup_walk _ _ _ _ deleted_ok Hk (walks_deleted _ _ W)).
  rewrite (find_ext_elem (hit t' k) (hit t k)).
  - destruct (List.find _ (before d l)) as [i|] eqn:Ei; [|done]. cbn. apply find_elem in Ei as [Hi _]. apply elem_of_before in Hi as [_ Hi].
    by rewrite zget_deleted, decide_False.
  - intros i [_ Hi]%elem_of_before. unfold hit. by rewrite zget_deleted, decide_False.
Qed.

Lemma used_deleted : used t' <= used t.
Proof. rewrite (used_zset _ _ _ _ E). rewrite (decide_False (P := in_use unset_entry)) by (by intros H). case_decide; lia. Qed.
End Delete.

Lemma found_walk t slots k l : table_ok t slots -> zlen k <= 18 -> walks t (home slots k) l ->
  found t slots k = List.find (hit t k) l ≫= fun i => (fun x => (mem_offset x, e_length x)) <$> zget t i.
Proof. intros T Hk W. unfold found. by rewrite (lookup_walk t slots k l). Qed.

Lemma find_before_some f d l i : List.find f (before d l) = Some i -> List.find f l = Some i.
Proof. induction l as [|j l IH]; cbn; [done|]. case_decide; [done|]. cbn. by destruct (f j). Qed.

Lemma find_before_iff f d l i : List.find f l = Some i ->
  List.find f (before d l) = if decide (i ∈ before d l) then Some i else None.
Proof.
  intros Hi. case_decide as Hin.
  - pose proof (proj2 (find_elem _ _ _ Hi)) as Hfi. induction l as [|j l IH]; cbn in *; [done|].
    case_decide; [by apply elem_of_nil in Hin|]. cbn. destruct (f j) eqn:Ej; [done|].
    apply elem_of_cons in Hin as [->|Hin]; [congruence|by apply IH].
  - destruct (List.find f (before d l)) as [j|] eqn:Ej; [|done]. exfalso. pose proof (find_before_some _ _ _ _ Ej) as Ej'.
    apply find_elem in Ej as [Hj _]. congruence.
Qed.

(** [delete_mapping_entry]: exactly which keys are still found. *)
Lemma delete_entry_spec t slots k0 n off len0 :
  let k := take (Z.to_nat n) k0 in
  table_ok t slots -> 0 <= n <= zlen k0 -> n <= 18 -> found t slots k = Some (off, len0) ->
  exists t' d, delete_entry t slots k0 n = Ok t' /\ lookup_slot t slots k = Some d /\ table_ok t' slots /\ used t' <= used t /\
    found t' slots k = None /\
    (forall k', zlen k' <= 18 -> found t' slots k' = None \/ found t' slots k' = found t slots k') /\
    (forall k' l i, zlen k' <= 18 -> walks t (home slots k') l -> lookup_slot t slots k' = Some i ->
      (i ∈ before d l -> found t' slots k' = found t slots k') /\ (i ∉ before d l -> found t' slots k' = None)).
Proof.
  intros k T Hn H18 Hfound. assert (zlen k <= 18) as Hk by (unfold k; rewrite length_take; lia).
  unfold delete_entry. rewrite hash_slot_ok by (done || apply (tk_pos _ _ T)). cbn [rbind]. rewrite search_home by done. fold k. cbn [rbind].
  destruct (lookup_slot t slots k) as [d|] eqn:El; [|unfold found in Hfound; by rewrite El in Hfound].
  destruct (lookup_spec t slots k d T Hk El) as (e & E & Hu & _). exists (zset t d unset_entry), d.
  split; [apply aset_ok; split; [by eapply zget_range|done]|]. split; [done|].
  split; [by apply (deleted_ok t slots d e)|]. split; [by apply (used_deleted t d e)|].
  assert (forall k' l, zlen k' <= 18 -> walks t (home slots k') l -> found (zset t d unset_entry) slots k' =
    List.find (hit t k') (before d l) ≫= fun i => (fun x => (mem_offset x, e_length x)) <$> zget t i) as Hdel
    by (intros k' l; by apply (found_deleted t slots d e)).
  assert (forall k' l i, zlen k' <= 18 -> walks t (home slots k') l -> lookup_slot t slots k' = Some i ->
      (i ∈ before d l -> found (zset t d unset_entry) slots k' = found t slots k') /\
      (i ∉ before d l -> found (zset t d unset_entry) slots k' = None)) as Hexact.
  { intros k' l i Hk' W Hi. rewrite (Hdel k' l Hk' W), (found_walk t slots k' l T Hk' W).
    rewrite (lookup_walk _ _ _ _ T Hk' W) in Hi. rewrite (find_before_iff _ _ _ _ Hi), Hi. split; intros Hin; by case_decide. }
  split; [|split; [|exact Hexact]].
  - destruct (home_walk t slots k T) as (l & W & _). rewrite (Hdel k l Hk W), find_before; [done|]. by rewrite <- (lookup_walk _ _ _ _ T Hk W).
  - intros k' Hk'. destruct (home_walk t slots k' T) as (l & W & _). destruct (lookup_slot t slots k') as [i|] eqn:Ei.
    + destruct (Hexact k' l i Hk' W Ei) as [H1 H2]. destruct (decide (i ∈ before d l)); [right|left]; auto.
    + left. rewrite (Hdel k' l Hk' W). rewrite (lookup_walk _ _ _ _ T Hk' W) in Ei.
      destruct (List.find (hit t k') (before d l)) as [j|] eqn:Ej; [|done]. apply find_before_some in Ej. congruence.
Qed.
End Table.
