(* ===== verification/KvStore.v ===== *)
(** * The key-value device as a map from keys to values

    [kv_ok f A]: the table, the allocator and the storage of [f] hold the map of [A].
    The abstract machine [kv_step] stores, retrieves, tests and deletes; a deletion may
    lose other keys as well, which is what the code does to keys whose chain runs through
    the deleted slot.  Sessions with keys of one length and values that fit their extents
    are shown to be runs of that machine, over any allocator that keeps its promises. *)

From Stdlib Require Import ZArith Lia.
From stdpp Require Import base list numbers sets gmap.
From S2P Require Import Prelude Prp KvAlloc KvFtl KvTable.

(** ** Memory *)
Lemma length_mem_read m off n : 0 <= n -> zlen (mem_read m off n) = n.
Proof. intros Hn. unfold mem_read, zseq. rewrite length_fmap, length_seqZ. lia. Qed.

Lemma mem_read_ext m m' off n : (forall i, off <= i < off + n -> m i = m' i) -> mem_read m off n = mem_read m' off n.
Proof. intros H. apply list_fmap_ext. intros i x [-> Hx]%lookup_seqZ. apply H. lia. Qed.

Lemma mem_read_app m off a b : 0 <= a -> 0 <= b -> mem_read m off (a + b) = mem_read m off a ++ mem_read m (off + a) b.
Proof.
  intros Ha Hb. unfold mem_read. rewrite zseq_add, fmap_app by done. f_equal.
  rewrite <- list_fmap_compose. apply list_fmap_ext. intros i x _. cbn. f_equal. lia.
Qed.

Lemma mem_read_take m off a n : 0 <= a <= n -> mem_read m off a = take (Z.to_nat a) (mem_read m off n).
Proof.
  intros Ha. replace n with (a + (n - a)) by lia. rewrite mem_read_app by lia.
  symmetry. apply take_app_length'. pose proof (length_mem_read m off a). lia.
Qed.

Lemma mem_write_out m off bs i : i < off \/ off + zlen bs <= i -> mem_write m off bs i = m i.
Proof. intros Hi. unfold mem_write. by rewrite zget_None by lia. Qed.

Lemma mem_read_write m off bs : mem_read (mem_write m off bs) off (zlen bs) = bs.
Proof.
  apply list_eq. intros i. unfold mem_read, zseq. rewrite list_lookup_fmap. destruct (decide (i < length bs)%nat) as [Hi|Hi].
  - rewrite lookup_seqZ_lt by lia. cbn. unfold mem_write. destruct (lookup_lt_is_Some_2 bs i Hi) as (b & Hb). rewrite Hb. cbn. f_equal.
    replace (off + (0 + Z.of_nat i) - off) with (Z.of_nat i) by lia. unfold zget. rewrite (proj2 (Z.ltb_ge _ 0)), Nat2Z.id, Hb by lia. done.
  - rewrite lookup_seqZ_ge by lia. cbn. by rewrite lookup_ge_None_2 by lia.
Qed.

Lemma mem_read_over m off bs n : 0 <= n ->
  mem_read (mem_write m off bs) off n = take (Z.to_nat n) (bs ++ drop (length bs) (mem_read m off n)).
Proof.
  intros Hn. destruct (Z.leb_spec n (zlen bs)) as [Hle|Hgt].
  - rewrite (mem_read_take _ _ n (zlen bs)), mem_read_write by lia. by rewrite take_app_le by lia.
  - replace n with (zlen bs + (n - zlen bs)) at 1 by lia. rewrite mem_read_app, mem_read_write by lia.
    rewrite (mem_read_ext (mem_write m off bs) m) by (intros i Hi; apply mem_write_out; lia).
    replace n with (zlen bs + (n - zlen bs)) at 3 by lia. rewrite mem_read_app, drop_app_length' by (pose proof (length_mem_read m off (zlen bs)); lia).
    symmetry. apply take_ge. rewrite length_app. pose proof (length_mem_read m (off + zlen bs) (n - zlen bs)). lia.
Qed.

Section Store.
Context {St : Type} `{Allocator St}.
Implicit Types (f : kv_ftl (St := St)).

(** ** The copy loops *)
Lemma gather_length host ps : forall o n, covers o n ps -> zlen (gather_bytes host ps) = n.
Proof.
  unfold gather_bytes. induction ps as [|p ps IH]; intros o n; cbn [covers mbind list_bind]; [by intros ->|].
  intros (_ & Hp & _ & _ & Hc). rewrite length_app, Nat2Z.inj_add, (IH _ _ Hc), length_mem_read by lia. lia.
Qed.

Lemma copy_in_spec host off ps : forall f o n, covers o n ps -> 0 <= off + o -> off + o + n <= storage_size f ->
  exists m, copy_in f host off ps = Ok (set_storage f m) /\ mem_read m (off + o) n = gather_bytes host ps /\
    (forall i, i < off + o \/ off + o + n <= i -> m i = storage f i).
Proof.
  induction ps as [|p ps IH]; intros f o n; cbn [covers copy_in].
  - intros -> _ _. exists (storage f). split; [by destruct f|done].
  - intros (Ho & Hp & _ & _ & Hc) Hlo Hn. rewrite Ho in *. set (bs := mem_read host (pc_paddr p) (pc_io_size p)).
    assert (zlen bs = pc_io_size p) as Hbs by (apply length_mem_read; lia). unfold storage_write. rewrite Hbs.
    replace ((0 <=? off + o) && (off + o + pc_io_size p <=? storage_size f)) with true by lia. cbn [rbind].
    set (f1 := set_storage f (mem_write (storage f) (off + o) bs)).
    destruct (IH f1 (o + pc_io_size p) (n - pc_io_size p) Hc) as (m & -> & Hm & Hout); [lia|cbn; lia|].
    exists m. split; [done|]. split.
    + replace n with (pc_io_size p + (n - pc_io_size p)) by lia. rewrite mem_read_app by lia.
      replace (off + o + pc_io_size p) with (off + (o + pc_io_size p)) by lia. rewrite Hm. unfold gather_bytes. cbn [mbind list_bind]. f_equal.
      fold bs. rewrite (mem_read_ext _ (mem_write (storage f) (off + o) bs)) by (intros i Hi; by rewrite Hout by lia).
      rewrite <- Hbs. apply mem_read_write.
    + intros i Hi. rewrite Hout by lia. cbn. apply mem_write_out. lia.
Qed.

Lemma copy_out_spec off ps f : forall o n, covers o n ps -> 0 <= off + o -> off + o + n <= storage_size f ->
  exists out, copy_out f off ps = Ok out /\ concat (snd <$> out) = mem_read (storage f) (off + o) n /\ fst <$> out = pc_paddr <$> ps.
Proof.
  induction ps as [|p ps IH]; intros o n; cbn [covers copy_out].
  - intros -> _ _. by exists [].
  - intros (Ho & Hp & _ & _ & Hc) Hlo Hn. rewrite Ho. unfold storage_read.
    replace ((0 <=? off + o) && (off + o + pc_io_size p <=? storage_size f)) with true by lia. cbn [rbind].
    destruct (IH _ _ Hc) as (out & -> & Hout & Hfst); [lia..|]. cbn [rbind]. eexists. split; [reflexivity|]. split.
    + rewrite fmap_cons. cbn [concat snd]. rewrite Hout. replace (off + (o + pc_io_size p)) with (off + o + pc_io_size p) by lia.
      rewrite <- mem_read_app by lia. f_equal. lia.
    + rewrite !fmap_cons. by rewrite Hfst.
Qed.

(** ** The abstract device *)

(** The values with the size of their extents, a bound on the slots in use, and the
    allocator's variables. *)
Record kv_abs : Type := mk_abs { a_map : gmap (list Z) (list Z * Z); a_used : Z; a_alloc : St }.

(** A command with host memory, its PRP list and the status its queue entry starts with. *)
Record kv_request : Type := mk_rq { rq_cmd : nvme_kv_command; rq_host : Z -> Z; rq_entry : nat -> Z; rq_status : Z }.

Definition rq_key (q : kv_request) : list Z := take (Z.to_nat (cmd_key_length (rq_cmd q))) (key (rq_cmd q)).
Definition rq_len (q : kv_request) : Z := cmd_value_length (rq_cmd q).
Definition rq_pieces (q : kv_request) (n : Z) : res (list prp_piece) := prp_pieces (prp1 (rq_cmd q)) (prp2 (rq_cmd q)) (rq_entry q) n.

(** The bytes in the host's buffer. *)
Definition rq_value (q : kv_request) : list Z :=
  match rq_pieces q (rq_len q) with Ok ps => gather_bytes (rq_host q) ps | Err _ => [] end.

(** Keys of [L] bytes; PRPs that reach as far as the buffer. *)
Record request_ok (L : Z) (q : kv_request) : Prop := {
  ro_key : zlen (key (rq_cmd q)) = 16;
  ro_len : cmd_key_length (rq_cmd q) = L;
  ro_prp n : 0 <= n <= rq_len q -> is_ok (rq_pieces q n);
}.

(** The one-key operations; a store must find a slot and room, or fit the key's extent. *)
Definition admissible (size slots : Z) (A : kv_abs) (q : kv_request) : Prop :=
  let op := opcode (rq_cmd q) in
  if decide (op = nvme_cmd_kv_store) then
    match a_map A !! rq_key q with
    | None => a_used A < slots /\ alloc_room (a_alloc A) size (rq_len q)
    | Some (v, cap) => rq_len q <= cap /\ (rq_len q = zlen v \/ rq_len q <= SMALL_LENGTH /\ zlen v <= SMALL_LENGTH)
    end
  else op = nvme_cmd_kv_retrieve \/ op = nvme_cmd_kv_exist \/ op = nvme_cmd_kv_delete.

Inductive kv_step (A : kv_abs) (q : kv_request) : kv_reply -> kv_abs -> Prop :=
| step_insert off a' : opcode (rq_cmd q) = nvme_cmd_kv_store -> a_map A !! rq_key q = None ->
    allocate (rq_len q) (a_alloc A) = Ok (off, a') ->
    kv_step A q (mk_reply 0 (rq_status q) [])
      (mk_abs (<[rq_key q := (rq_value q, extent_cap (rq_len q))]> (a_map A)) (a_used A + 1) a')
| step_overwrite v cap : opcode (rq_cmd q) = nvme_cmd_kv_store -> a_map A !! rq_key q = Some (v, cap) ->
    kv_step A q (mk_reply 0 (rq_status q) []) (mk_abs (<[rq_key q := (rq_value q, cap)]> (a_map A)) (a_used A) (a_alloc A))
| step_retrieve v cap ps out : opcode (rq_cmd q) = nvme_cmd_kv_retrieve -> a_map A !! rq_key q = Some (v, cap) ->
    rq_pieces q (Z.min (zlen v) (rq_len q)) = Ok ps -> fst <$> out = pc_paddr <$> ps ->
    concat (snd <$> out) = take (Z.to_nat (rq_len q)) v ->
    kv_step A q (mk_reply (Z.min (zlen v) (rq_len q)) (rq_status q) out) A
| step_exist x : opcode (rq_cmd q) = nvme_cmd_kv_exist -> a_map A !! rq_key q = Some x ->
    kv_step A q (mk_reply 0 (rq_status q) []) A
| step_delete x m : opcode (rq_cmd q) = nvme_cmd_kv_delete -> a_map A !! rq_key q = Some x -> m ⊆ delete (rq_key q) (a_map A) ->
    kv_step A q (mk_reply 0 (rq_status q) []) (mk_abs m (a_used A) (a_alloc A))
| step_missing : opcode (rq_cmd q) <> nvme_cmd_kv_store -> a_map A !! rq_key q = None ->
    kv_step A q (mk_reply 0 KV_ERR_KEY_NOT_EXIST []) A.

(** ** The device holds the map *)
Section Invariant.
Context (L : Z) (HL : 0 <= L <= 16).

Record kv_ok f (A : kv_abs) (xs : list extent) : Prop := {
  ko_table : table_ok (kv_mapping_table f) (hash_slots f);
  ko_used : used (kv_mapping_table f) <= a_used A;
  ko_same : allocator f = a_alloc A;
  ko_alloc : alloc_ok (allocator f) (storage_size f) xs;
  ko_size : storage_size f < 2 ^ 64;
  ko_in : Forall (fun x => 0 <= x_off x /\ x_off x + x_cap x <= storage_size f) xs;
  ko_keys k x : a_map A !! k = Some x -> zlen k = L;
  ko_none k : zlen k = L -> a_map A !! k = None -> found (kv_mapping_table f) (hash_slots f) k = None;
  ko_some k v cap : a_map A !! k = Some (v, cap) -> exists off,
    found (kv_mapping_table f) (hash_slots f) k = Some (off, zlen v) /\ mk_extent off cap ∈ xs /\ zlen v <= cap /\
    mem_read (storage f) off (zlen v) = v;
  ko_apart k1 k2 v1 v2 c1 c2 o1 o2 n1 n2 : k1 <> k2 -> a_map A !! k1 = Some (v1, c1) -> a_map A !! k2 = Some (v2, c2) ->
    found (kv_mapping_table f) (hash_slots f) k1 = Some (o1, n1) -> found (kv_mapping_table f) (hash_slots f) k2 = Some (o2, n2) ->
    disjoint_ext (mk_extent o1 c1) (mk_extent o2 c2);
}.

Lemma disjoint_sym x y : disjoint_ext x y -> disjoint_ext y x.
Proof. unfold disjoint_ext. tauto. Qed.

(** One key's value is put at its extent and nothing else changes. *)
Lemma kv_ok_put f A xs f' A' xs' k v cap off :
  kv_ok f A xs -> zlen k = L ->
  table_ok (kv_mapping_table f') (hash_slots f') -> used (kv_mapping_table f') <= a_used A' ->
  allocator f' = a_alloc A' -> alloc_ok (allocator f') (storage_size f') xs' ->
  Forall (fun x => 0 <= x_off x /\ x_off x + x_cap x <= storage_size f') xs' ->
  hash_slots f' = hash_slots f -> storage_size f' = storage_size f -> a_map A' = <[k := (v, cap)]> (a_map A) -> xs ⊆ xs' ->
  found (kv_mapping_table f') (hash_slots f) k = Some (off, zlen v) -> mk_extent off cap ∈ xs' -> zlen v <= cap ->
  (forall k', length k' = length k -> k' <> k ->
     found (kv_mapping_table f') (hash_slots f) k' = found (kv_mapping_table f) (hash_slots f) k') ->
  mem_read (storage f') off (zlen v) = v ->
  (forall i, i < off \/ off + cap <= i -> storage f' i = storage f i) ->
  (forall k' v' c' o' n', k' <> k -> a_map A !! k' = Some (v', c') -> found (kv_mapping_table f) (hash_slots f) k' = Some (o', n') ->
     disjoint_ext (mk_extent off cap) (mk_extent o' c')) ->
  kv_ok f' A' xs'.
Proof.
  intros [T U S Al Sz In Ks No So Ap] Hk T' U' S' Al' In' Es Ez Em Hxs Hf Hext Hv Hoth Hr Hout Hdis.
  split; try done; rewrite ?Es, ?Ez; try done; rewrite Em.
  - intros k' x [[<- _]|[_ Hx]]%lookup_insert_Some; [done|by eapply Ks].
  - intros k' Hlen [Hx Hne]%lookup_insert_None. rewrite Hoth by (congruence || lia). by apply No.
  - intros k' v' c' [[<- [= <- <-]]|[Hne Hx]]%lookup_insert_Some; [by exists off|].
    destruct (So k' v' c' Hx) as (o' & Hf' & Hx' & Hv' & Hr'). pose proof (Ks _ _ Hx) as Hlen. exists o'.
    rewrite Hoth by (congruence || lia). split; [done|]. split; [by apply Hxs|]. split; [done|].
    rewrite <- Hr' at 2. apply mem_read_ext. intros i Hi. apply Hout.
    destruct (Hdis k' v' c' o' _ ltac:(congruence) Hx Hf') as [Hd|Hd]; cbn in Hd; lia.
  - intros k1 k2 v1 v2 c1 c2 o1 o2 n1 n2 Hne Hm1 Hm2. 
    apply lookup_insert_Some in Hm1 as [[<- [= <- <-]]|[Hne1 Hm1]]; apply lookup_insert_Some in Hm2 as [[<- [= <- <-]]|[Hne2 Hm2]]; [done|..].
    + rewrite Hf. intros [= <- <-] Hf2. pose proof (Ks _ _ Hm2). rewrite Hoth in Hf2 by (congruence || lia). by eapply Hdis.
    + rewrite Hf. intros Hf1 [= <- <-]. pose proof (Ks _ _ Hm1). rewrite Hoth in Hf1 by (congruence || lia). apply disjoint_sym. by eapply Hdis.
    + pose proof (Ks _ _ Hm1). pose proof (Ks _ _ Hm2). rewrite !Hoth by (congruence || lia). by eapply Ap.
Qed.

Context (f : kv_ftl (St := St)) (A : kv_abs) (xs : list extent) (q : kv_request).
Context (F : kv_ok f A xs) (Q : request_ok L q).

Lemma rq_key_length : zlen (rq_key q) = L.
Proof. unfold rq_key. rewrite length_take, (ro_len _ _ Q). pose proof (ro_key _ _ Q). lia. Qed.

Lemma rq_len_range : 0 <= rq_len q < 2 ^ 32.
Proof. apply u32_range. Qed.

Lemma rq_pieces_ok n : 0 <= n <= rq_len q -> exists ps, rq_pieces q n = Ok ps /\ covers 0 n ps.
Proof.
  intros Hn. destruct (ro_prp _ _ Q n Hn) as (ps & E). exists ps. split; [done|]. unfold rq_pieces in E.
  pose proof (prp_pieces_spec (prp1 (rq_cmd q)) (prp2 (rq_cmd q)) (rq_entry q) n (proj1 Hn)) as Hs. cbn zeta in Hs.
  destruct (_ && _); [by rewrite Hs in E|]. destruct Hs as (ps' & E' & Hc). rewrite E' in E. by injection E as <-.
Qed.

Lemma rq_value_spec ps : rq_pieces q (rq_len q) = Ok ps -> rq_value q = gather_bytes (rq_host q) ps.
Proof. unfold rq_value. by intros ->. Qed.

Lemma rq_value_length : zlen (rq_value q) = rq_len q.
Proof.
  destruct (rq_pieces_ok (rq_len q)) as (ps & E & Hc); [pose proof rq_len_range; lia|]. rewrite (rq_value_spec _ E).
  by eapply gather_length.
Qed.

Lemma get_rq_entry : exists e, get_mapping_entry f (rq_cmd q) = Ok e /\
  match a_map A !! rq_key q with
  | None => e = unset_entry
  | Some (v, cap) => mem_offset e <> NO_MEM /\ e_length e = zlen v /\
      found (kv_mapping_table f) (hash_slots f) (rq_key q) = Some (mem_offset e, zlen v)
  end.
Proof.
  destruct F as [T _ _ _ _ _ _ No So _]. pose proof (ro_key _ _ Q) as H16. pose proof (ro_len _ _ Q) as Hlen.
  destruct (get_entry_spec (kv_mapping_table f) (hash_slots f) (key (rq_cmd q)) (cmd_key_length (rq_cmd q)) T) as (e & E & Hf); [lia..|].
  fold (rq_key q) in Hf. exists e. split; [done|]. destruct (a_map A !! rq_key q) as [[v cap]|] eqn:Em.
  - destruct (So _ _ _ Em) as (off & Hfound & _). rewrite Hfound in Hf. destruct Hf as (Hoff & <- & He). by rewrite He.
  - by rewrite (No _ rq_key_length Em) in Hf.
Qed.

(** A value written at the extent of a key, from the host's buffer. *)
Lemma copy_value off : 0 <= off -> off + rq_len q <= storage_size f ->
  exists ps m, rq_pieces q (rq_len q) = Ok ps /\ copy_in f (rq_host q) off ps = Ok (set_storage f m) /\
    mem_read m off (rq_len q) = rq_value q /\ (forall i, i < off \/ off + rq_len q <= i -> m i = storage f i).
Proof.
  intros Ho Hs. pose proof rq_len_range. destruct (rq_pieces_ok (rq_len q)) as (ps & E & Hc); [lia|].
  destruct (copy_in_spec (rq_host q) off ps f 0 (rq_len q) Hc) as (m & Em & Hm & Hout); [lia|lia|].
  rewrite Z.add_0_r in Hm, Hout. exists ps, m. rewrite (rq_value_spec _ E). done.
Qed.
End Invariant.

(** *** A new key *)
Lemma insert_spec_kv L f A xs q e : 0 <= L <= 16 -> kv_ok L f A xs -> request_ok L q ->
  opcode (rq_cmd q) = nvme_cmd_kv_store -> a_map A !! rq_key q = None -> mem_offset e = NO_MEM ->
  a_used A < hash_slots f -> alloc_room (a_alloc A) (storage_size f) (rq_len q) ->
  exists f' off a' xs', kv_store f (rq_cmd q) (rq_host q) (rq_entry q) e = Ok f' /\ allocate (rq_len q) (a_alloc A) = Ok (off, a') /\
    hash_slots f' = hash_slots f /\ storage_size f' = storage_size f /\
    kv_ok L f' (mk_abs (<[rq_key q := (rq_value q, extent_cap (rq_len q))]> (a_map A)) (a_used A + 1) a') xs'.
Proof.
  intros HL F Q Hop Hnew He Hslots Hroom. pose proof F as [T U S Al Sz In Ks No So Ap].
  pose proof (rq_key_length L HL q Q) as HkL. pose proof (rq_len_range q) as Hlen. pose proof (rq_value_length L q Q) as Hvl.
  rewrite <- S in Hroom. destruct (allocate_ok _ _ _ (rq_len q) Al (proj1 Hlen) Hroom) as (off & a' & Ea & Hoff & Hend & Hcap & Hdis & Al').
  set (f1 := set_allocator f a'). pose proof (ro_key _ _ Q) as H16. pose proof (ro_len _ _ Q) as HL1.
  destruct (copy_value L f1 q Q off) as (ps & m & Eps & Ecopy & Hm & Hout); [lia|cbn; lia|]. set (f2 := set_storage f1 m) in *.
  destruct (new_entry_spec (kv_mapping_table f) (hash_slots f) (key (rq_cmd q)) (cmd_key_length (rq_cmd q)) (rq_len q) off) as
    (t' & Et & T' & U' & Hf & Hoth); [done|lia|lia|unfold NO_MEM; lia|by apply No|lia|]. fold (rq_key q) in Hf, Hoth.
  exists (set_table f2 t'), off, a', (mk_extent off (extent_cap (rq_len q)) :: xs). split.
  { unfold kv_store, store_target. rewrite He, Z.eqb_refl. unfold allocate_mem_offset, allocate_mem_offset_by_length.
    rewrite Hop, Z.eqb_refl. change (cmd_value_length (rq_cmd q)) with (rq_len q). rewrite Ea. cbn [rbind].
    replace (off =? NO_MEM) with false by (unfold NO_MEM; lia). fold f1. unfold rq_pieces in Eps. rewrite Eps. cbn [rbind].
    rewrite Ecopy. cbn [rbind]. unfold new_mapping_entry, new_mapping_entry_by_key.
    change (storage_size f2) with (storage_size f). change (kv_mapping_table f2) with (kv_mapping_table f). change (hash_slots f2) with (hash_slots f).
    replace (off <? storage_size f) with true by lia. cbn [rassert rbind].
    change (cmd_value_length (rq_cmd q)) with (rq_len q). by rewrite Et. }
  split; [by rewrite <- S|]. split; [done|]. split; [done|].
  apply (kv_ok_put L HL f A xs _ _ _ (rq_key q) (rq_value q) (extent_cap (rq_len q)) off); cbn; try done; rewrite ?Hvl; try done.
  - lia.
  - constructor; [cbn; lia|done].
  - intros x Hx; by right.
  - by left.
  - intros i Hi. apply Hout. lia.
  - intros k' v' c' o' n' Hne Hm' Hf'. destruct (So _ _ _ Hm') as (o2 & Hf2 & Hx & _). rewrite Hf2 in Hf'. injection Hf' as <- _.
    rewrite Forall_forall in Hdis. by apply Hdis.
Qed.

(** *** A key already stored *)
Lemma overwrite_spec_kv L f A xs q e v cap : 0 <= L <= 16 -> kv_ok L f A xs -> request_ok L q ->
  opcode (rq_cmd q) = nvme_cmd_kv_store -> a_map A !! rq_key q = Some (v, cap) ->
  found (kv_mapping_table f) (hash_slots f) (rq_key q) = Some (mem_offset e, zlen v) -> mem_offset e <> NO_MEM -> e_length e = zlen v ->
  rq_len q <= cap -> rq_len q = zlen v \/ rq_len q <= SMALL_LENGTH /\ zlen v <= SMALL_LENGTH ->
  exists f', kv_store f (rq_cmd q) (rq_host q) (rq_entry q) e = Ok f' /\ hash_slots f' = hash_slots f /\ storage_size f' = storage_size f /\
    kv_ok L f' (mk_abs (<[rq_key q := (rq_value q, cap)]> (a_map A)) (a_used A) (a_alloc A)) xs.
Proof.
  intros HL F Q Hop Hold Hf He Hel Hcap Hfit. pose proof F as [T U S Al Sz In Ks No So Ap].
  pose proof (rq_key_length L HL q Q) as HkL. pose proof (rq_len_range q) as Hlen. pose proof (rq_value_length L q Q) as Hvl.
  pose proof (ro_key _ _ Q) as H16. pose proof (ro_len _ _ Q) as HL1.
  destruct (So _ _ _ Hold) as (off & Hf' & Hx & Hv & _). rewrite Hf' in Hf. injection Hf as ->.
  pose proof (proj1 (Forall_forall _ _) In _ Hx) as [Ho1 Ho2]. cbn in Ho1, Ho2.
  destruct (copy_value L f q Q (mem_offset e)) as (ps & m & Eps & Ecopy & Hm & Hout); [lia|lia|]. set (f1 := set_storage f m) in *.
  assert (kv_store f (rq_cmd q) (rq_host q) (rq_entry q) e =
    if negb (rq_len q =? zlen v) && ((rq_len q <=? SMALL_LENGTH) && (zlen v <=? SMALL_LENGTH)) then update_mapping_entry f1 (rq_cmd q) else Ok f1)%res as Estore.
  { unfold kv_store, store_target. rewrite (proj2 (Z.eqb_neq _ _) He). cbn [rbind]. rewrite Hel. change (cmd_value_length (rq_cmd q)) with (rq_len q).
    unfold rq_pieces in Eps. rewrite Eps. cbn [rbind]. rewrite Ecopy. cbn [rbind]. by destruct (negb _ && _). }
  rewrite Estore. clear Estore.
  assert (exists t', (if negb (rq_len q =? zlen v) && ((rq_len q <=? SMALL_LENGTH) && (zlen v <=? SMALL_LENGTH))
      then update_mapping_entry f1 (rq_cmd q) else Ok f1) = Ok (set_table f1 t') /\ table_ok t' (hash_slots f) /\ used t' = used (kv_mapping_table f) /\
    found t' (hash_slots f) (rq_key q) = Some (mem_offset e, rq_len q) /\
    (forall k', length k' = length (rq_key q) -> k' <> rq_key q -> found t' (hash_slots f) k' = found (kv_mapping_table f) (hash_slots f) k'))
    as (t' & -> & T' & U' & Hft & Hoth).
  { destruct (Z.eqb_spec (rq_len q) (zlen v)) as [Heq|Hneq]; cbn [negb andb].
    - exists (kv_mapping_table f). rewrite Heq. by destruct f.
    - replace ((rq_len q <=? SMALL_LENGTH) && (zlen v <=? SMALL_LENGTH)) with true by lia.
      destruct (update_entry_spec (kv_mapping_table f) (hash_slots f) (key (rq_cmd q)) (cmd_key_length (rq_cmd q)) (mem_offset e) (zlen v) (rq_len q) T)
        as (t' & Et & T' & U' & Hft & Hoth); [lia|lia|done|]. exists t'. split; [|done].
      unfold update_mapping_entry. change (cmd_value_length (rq_cmd q)) with (rq_len q).
      change (kv_mapping_table f1) with (kv_mapping_table f). change (hash_slots f1) with (hash_slots f). by rewrite Et. }
  exists (set_table f1 t'). split; [done|]. split; [done|]. split; [done|].
  apply (kv_ok_put L HL f A xs _ _ _ (rq_key q) (rq_value q) cap (mem_offset e)); cbn; rewrite ?Hvl; try done.
  - lia.
  - intros i Hi. apply Hout. lia.
  - intros k' v' c' o' n' Hne Hm' Hf2. apply (Ap (rq_key q) k' v v' cap c' (mem_offset e) o' (zlen v) n'); done.
Qed.

(** *** A deleted key *)
Lemma delete_spec_kv L f A xs q x : 0 <= L <= 16 -> kv_ok L f A xs -> request_ok L q -> a_map A !! rq_key q = Some x ->
  exists f' m, delete_mapping_entry f (rq_cmd q) = Ok f' /\ hash_slots f' = hash_slots f /\ storage_size f' = storage_size f /\
    m ⊆ delete (rq_key q) (a_map A) /\ kv_ok L f' (mk_abs m (a_used A) (a_alloc A)) xs.
Proof.
  intros HL F Q Hold. pose proof F as [T U S Al Sz In Ks No So Ap].
  pose proof (rq_key_length L HL q Q) as HkL. pose proof (ro_key _ _ Q) as H16. pose proof (ro_len _ _ Q) as HL1.
  destruct x as [v cap]. destruct (So _ _ _ Hold) as (off & Hf & _).
  destruct (delete_entry_spec (kv_mapping_table f) (hash_slots f) (key (rq_cmd q)) (cmd_key_length (rq_cmd q)) off (zlen v) T)
    as (t' & d & Et & _ & T' & U' & Hgone & Hkeep & _); [lia|lia|done|]. fold (rq_key q) in Hgone.
  set (m := filter (fun kx => found t' (hash_slots f) kx.1 = found (kv_mapping_table f) (hash_slots f) kx.1) (a_map A)).
  assert (forall k y, m !! k = Some y <-> a_map A !! k = Some y /\ found t' (hash_slots f) k = found (kv_mapping_table f) (hash_slots f) k) as Hm
    by (intros k y; unfold m; by rewrite map_lookup_filter_Some).
  exists (set_table f t'), m. split; [unfold delete_mapping_entry; by rewrite Et|]. split; [done|]. split; [done|]. split.
  { apply map_subseteq_spec. intros k y [Hk Hfk]%Hm. apply lookup_delete_Some. split; [|done]. intros <-. rewrite Hgone, Hf in Hfk. done. }
  split; cbn; try done.
  - lia.
  - intros k y [Hk _]%Hm. by eapply Ks.
  - intros k Hlen Hnone. destruct (Hkeep k) as [|Hsame]; [lia|done|]. rewrite Hsame. apply No; [done|].
    destruct (a_map A !! k) as [y|] eqn:Ek; [|done]. assert (m !! k = Some y) by by apply Hm. congruence.
  - intros k v' c' [Hk Hfk]%Hm. rewrite Hfk. by apply So.
  - intros k1 k2 v1 v2 c1 c2 o1 o2 n1 n2 Hne [Hm1 E1]%Hm [Hm2 E2]%Hm. rewrite E1, E2. by eapply Ap.
Qed.

(** *** A value read back *)
Lemma retrieve_spec_kv L f A xs q e v cap : 0 <= L <= 16 -> kv_ok L f A xs -> request_ok L q -> a_map A !! rq_key q = Some (v, cap) ->
  found (kv_mapping_table f) (hash_slots f) (rq_key q) = Some (mem_offset e, zlen v) -> e_length e = zlen v ->
  exists ps out, rq_pieces q (Z.min (zlen v) (rq_len q)) = Ok ps /\
    kv_retrieve f (rq_cmd q) (rq_entry q) e = Ok (Z.min (zlen v) (rq_len q), out) /\ fst <$> out = pc_paddr <$> ps /\
    concat (snd <$> out) = take (Z.to_nat (rq_len q)) v.
Proof.
  intros HL F Q Hold Hf Hel. pose proof F as [T U S Al Sz In Ks No So Ap]. pose proof (rq_len_range q) as Hlen.
  destruct (So _ _ _ Hold) as (off & Hf' & Hx & Hv & Hr). rewrite Hf' in Hf. injection Hf as ->.
  pose proof (proj1 (Forall_forall _ _) In _ Hx) as [Ho1 Ho2]. cbn in Ho1, Ho2. set (n := Z.min (zlen v) (rq_len q)).
  destruct (rq_pieces_ok L q Q n) as (ps & E & Hc); [lia|].
  destruct (copy_out_spec (mem_offset e) ps f 0 n Hc) as (out & Eo & Hout & Hfst); [lia|lia|]. exists ps, out. split; [done|]. split; [|split; [done|]].
  - unfold kv_retrieve. rewrite Hel. change (cmd_value_length (rq_cmd q)) with (rq_len q). fold n. unfold rq_pieces in E. rewrite E. cbn [rbind].
    rewrite Eo. cbn [rbind]. by rewrite u32_id by lia.
  - rewrite Hout, Z.add_0_r, (mem_read_take _ _ n (zlen v)), Hr by lia. unfold n.
    destruct (Z.min_spec (zlen v) (rq_len q)) as [[Hlt ->]|[Hge ->]]; [|done]. by rewrite !take_ge by lia.
Qed.

(** ** Serving commands *)
Definition serve f (q : kv_request) : res (kv_reply * kv_ftl) :=
  kv_perform_nvme_io_cmd f (rq_cmd q) (rq_host q) (rq_entry q) (rq_status q).

Fixpoint kv_run f (qs : list kv_request) : res (list kv_reply * kv_ftl) :=
  match qs with
  | [] => Ok ([], f)
  | q :: qs =>
      let! (rep, f) := serve f q in
      let! (reps, f) := kv_run f qs in
      Ok (rep :: reps, f)
  end.

Inductive kv_steps : kv_abs -> list kv_request -> list kv_reply -> kv_abs -> Prop :=
| steps_nil A : kv_steps A [] [] A
| steps_cons A q rep A1 qs reps A2 : kv_step A q rep A1 -> kv_steps A1 qs reps A2 -> kv_steps A (q :: qs) (rep :: reps) A2.

(** Every command is admissible, whatever the abstract device did before. *)
Fixpoint session_ok (L size slots : Z) (A : kv_abs) (qs : list kv_request) : Prop :=
  match qs with
  | [] => True
  | q :: qs => request_ok L q /\ admissible size slots A q /\ forall rep A', kv_step A q rep A' -> session_ok L size slots A' qs
  end.

Lemma kv_serve_spec L f A xs q : 0 <= L <= 16 -> kv_ok L f A xs -> request_ok L q -> admissible (storage_size f) (hash_slots f) A q ->
  exists rep f' A' xs', serve f q = Ok (rep, f') /\ kv_step A q rep A' /\ kv_ok L f' A' xs' /\
    hash_slots f' = hash_slots f /\ storage_size f' = storage_size f.
Proof.
  intros HL F Q Hadm. destruct (get_rq_entry L HL f A xs q F Q) as (e & Ee & He). unfold serve, kv_perform_nvme_io_cmd, admissible in *.
  assert (opcode (rq_cmd q) = nvme_cmd_kv_store \/ opcode (rq_cmd q) = nvme_cmd_kv_retrieve \/ opcode (rq_cmd q) = nvme_cmd_kv_exist \/
    opcode (rq_cmd q) = nvme_cmd_kv_delete) as Hop by (clear -Hadm; case_decide; tauto).
  assert (is_kv_batch_cmd (opcode (rq_cmd q)) = false) as -> by (by destruct Hop as [->|[->|[->| ->]]]).
  assert (is_kv_iter_cmd (opcode (rq_cmd q)) = false) as -> by (by destruct Hop as [->|[->|[->| ->]]]).
  unfold __do_perform_kv_io. rewrite Ee. cbn [rbind]. destruct (a_map A !! rq_key q) as [[v cap]|] eqn:Em.
  - destruct He as (Hne & Hel & Hf). rewrite (proj2 (Z.eqb_neq _ _) Hne). destruct Hop as [Hop|[Hop|[Hop|Hop]]]; rewrite Hop in *; cbn [rbind].
    + rewrite decide_True in Hadm by done. destruct Hadm as [Hcap Hfit].
      destruct (overwrite_spec_kv L f A xs q e v cap) as (f' & E & Es & Ez & F'); try done. rewrite E. cbn [rbind].
      eexists _, f', _, xs. split; [reflexivity|]. split; [by eapply step_overwrite|done].
    + destruct (retrieve_spec_kv L f A xs q e v cap) as (ps & out & Eps & E & Hfst & Hsnd); try done. rewrite E. cbn [rbind].
      eexists _, f, _, xs. split; [reflexivity|]. split; [by eapply step_retrieve|done].
    + eexists _, f, _, xs. split; [reflexivity|]. split; [by eapply step_exist|done].
    + destruct (delete_spec_kv L f A xs q (v, cap)) as (f' & m & E & Es & Ez & Hm & F'); try done. rewrite E. cbn [rbind].
      eexists _, f', _, xs. split; [reflexivity|]. split; [by eapply step_delete|done].
  - subst e. destruct Hop as [Hop|Hop].
    + rewrite Hop in *. rewrite decide_True in Hadm by done. destruct Hadm as [Hslots Hroom].
      destruct (insert_spec_kv L f A xs q unset_entry) as (f' & off & a' & xs' & E & Ea & Es & Ez & F'); try done.
      cbn [Z.eqb]. rewrite E. cbn [rbind]. eexists _, f', _, xs'. split; [reflexivity|]. split; [by eapply step_insert|done].
    + assert (opcode (rq_cmd q) <> nvme_cmd_kv_store) as Hns by (by destruct Hop as [->|[->| ->]]).
      eexists _, f, _, xs. split; [|split; [by eapply step_missing|done]]. by destruct Hop as [->|[->| ->]].
Qed.

Lemma run_spec L qs : forall f A xs, 0 <= L <= 16 -> kv_ok L f A xs -> session_ok L (storage_size f) (hash_slots f) A qs ->
  exists reps f' A' xs', kv_run f qs = Ok (reps, f') /\ kv_steps A qs reps A' /\ kv_ok L f' A' xs'.
Proof.
  induction qs as [|q qs IH]; intros f A xs HL F Hs; cbn [kv_run].
  - exists [], f, A, xs. split; [done|]. split; [constructor|done].
  - destruct Hs as (Q & Hadm & Hrest). destruct (kv_serve_spec L f A xs q HL F Q Hadm) as (rep & f1 & A1 & xs1 & -> & Hst & F1 & Es & Ez).
    cbn [rbind]. destruct (IH f1 A1 xs1 HL F1) as (reps & f2 & A2 & xs2 & -> & Hsts & F2); [rewrite Es, Ez; by eapply Hrest|].
    cbn [rbind]. exists (rep :: reps), f2, A2, xs2. split; [done|]. split; [by econstructor|done].
Qed.

(** ** A fresh device *)
Lemma fresh_table slots : 0 < slots < 2 ^ 31 ->
  let t := replicate (Z.to_nat slots) (mk_entry (replicate 18 0) NO_MEM NO_MEM NO_SLOT) in
  table_ok t slots /\ used t = 0 /\ forall k, zlen k <= 18 -> found t slots k = None.
Proof.
  intros Hs t. set (e0 := mk_entry (replicate 18 0) NO_MEM NO_MEM NO_SLOT) in *.
  assert (forall i e, zget t i = Some e -> e = e0) as He.
  { intros i e. unfold zget, t. destruct (i <? 0); [done|]. by intros [-> _]%lookup_replicate. }
  assert (zlen t = slots) as Hl by (unfold t; rewrite length_replicate; lia).
  assert (table_ok t slots) as T.
  { split; try done.
    - by intros i e ->%He.
    - intros i e ->%He. by left.
    - by intros i e ->%He.
    - exists (fun _ => O). by intros i e ->%He. }
  split; [done|]. split.
  - unfold used, t. clear -e0. induction (Z.to_nat slots) as [|n IH]; [done|]. cbn [replicate].
    by rewrite filter_cons, decide_False by (by intros Hu).
  - intros k Hk. destruct (home_walk t slots k T) as (l & W & _). unfold found. rewrite (lookup_walk _ _ _ _ T Hk W).
    inversion W as [s e E Hf|s e E Hu _|s e l' E Hu]; [done|..]; apply He in E; subst e; by exfalso.
Qed.

Lemma init_kv_ok L table_size size (a : St) m : 0 < table_size / KV_MAPPING_ENTRY_SIZE < 2 ^ 31 -> size < 2 ^ 64 -> L <= 16 -> alloc_fresh a size ->
  exists f, kv_init_namespace table_size size a m = Ok f /\ kv_ok L f (mk_abs ∅ 0 (allocator f)) [] /\
    hash_slots f = table_size / KV_MAPPING_ENTRY_SIZE /\ storage_size f = size.
Proof.
  intros Ht Hs HL Ha. destruct (init_ok a size Ha) as (a' & E & Hok). unfold kv_init_namespace. rewrite E. cbn [rbind].
  destruct (fresh_table _ Ht) as (T & U & Hnone). eexists. split; [reflexivity|]. split; [|done]. split; cbn; try done.
  - by apply Z.eq_le_incl.
  - intros k Hk _. apply Hnone. lia.
Qed.

(** ** Sub-commands of a batch *)

(** What a batched store does to the abstract device: a stored key keeps its length. *)
Inductive batch_step (A : kv_abs) (k v : list Z) : kv_abs -> Prop :=
| batch_insert off a' : a_map A !! k = None -> allocate (zlen v) (a_alloc A) = Ok (off, a') ->
    batch_step A k v (mk_abs (<[k := (v, extent_cap (zlen v))]> (a_map A)) (a_used A + 1) a')
| batch_overwrite v0 cap : a_map A !! k = Some (v0, cap) ->
    batch_step A k v (mk_abs (<[k := (take (length v0) (v ++ drop (length v) v0), cap)]> (a_map A)) (a_used A) (a_alloc A)).

Lemma batched_store_spec L f A xs kb klen value vlen : 0 <= L <= 16 -> kv_ok L f A xs -> klen = L -> L <= zlen kb -> 0 <= vlen <= zlen value ->
  let k := take (Z.to_nat klen) kb in let v := take (Z.to_nat vlen) value in
  match a_map A !! k with None => a_used A < hash_slots f /\ alloc_room (a_alloc A) (storage_size f) vlen | Some (_, cap) => vlen <= cap end ->
  exists f' A' xs', __do_perform_kv_batched_io f nvme_cmd_kv_store kb klen value vlen = Ok f' /\ batch_step A k v A' /\ kv_ok L f' A' xs' /\
    hash_slots f' = hash_slots f /\ storage_size f' = storage_size f.
Proof.
  intros HL F -> Hkb Hv k v Hadm. pose proof F as [T U S Al Sz In Ks No So Ap].
  assert (zlen k = L) as HkL by (unfold k; rewrite length_take; lia). assert (zlen v = vlen) as HvL by (unfold v; rewrite length_take; lia).
  destruct (get_entry_spec (kv_mapping_table f) (hash_slots f) kb L T) as (e & Ee & He); [lia..|]. fold k in He.
  unfold __do_perform_kv_batched_io, get_mapping_entry_by_key. rewrite Ee. cbn [rbind]. rewrite Z.eqb_refl, bytes_at_ok by lia. fold v.
  destruct (a_map A !! k) as [[v0 cap]|] eqn:Em.
  - destruct (So _ _ _ Em) as (off & Hf & Hx & Hc & Hr). rewrite Hf in He. destruct He as (Hne & Hoff & _). rewrite Hoff, (proj2 (Z.eqb_neq _ _) Hne).
    pose proof (proj1 (Forall_forall _ _) In _ Hx) as [Ho1 Ho2]. cbn in Ho1, Ho2. cbn [rbind]. unfold storage_write. rewrite HvL.
    replace ((0 <=? off) && (off + vlen <=? storage_size f)) with true by lia. cbn [rbind].
    assert (mem_read (mem_write (storage f) off v) off (zlen v0) = take (length v0) (v ++ drop (length v) v0)) as Hread
      by (rewrite mem_read_over, Hr, Nat2Z.id by lia; done).
    assert (zlen (take (length v0) (v ++ drop (length v) v0)) = zlen v0) as Hlen by (rewrite <- Hread; apply length_mem_read; lia).
    eexists _, _, xs. split; [reflexivity|]. split; [by eapply batch_overwrite|]. split; [|done].
    apply (kv_ok_put L HL f A xs _ _ _ k (take (length v0) (v ++ drop (length v) v0)) cap off); cbn; rewrite ?Hlen; try done.
    + intros i Hi. apply mem_write_out. lia.
    + intros k' v' c' o' n' Hne' Hm' Hf2. apply (Ap k k' v0 v' cap c' off o' (zlen v0) n'); done.
  - rewrite (No k HkL Em) in He. subst e. destruct Hadm as [Hslots Hroom]. cbn [unset_entry mem_offset]. rewrite Z.eqb_refl.
    rewrite <- S in Hroom. destruct (allocate_ok _ _ _ vlen Al (proj1 Hv) Hroom) as (off & a' & Ea & Hoff & Hend & Hcap & Hdis & Al').
    unfold allocate_mem_offset_by_length. rewrite Ea. cbn [rbind]. replace (off =? NO_MEM) with false by (unfold NO_MEM; lia).
    unfold storage_write. rewrite HvL. cbn [storage_size set_allocator]. replace ((0 <=? off) && (off + vlen <=? storage_size f)) with true by lia. cbn [rbind].
    destruct (new_entry_spec (kv_mapping_table f) (hash_slots f) kb L vlen off) as (t' & Et & T' & U' & Hf & Hoth);
      [done|lia|lia|unfold NO_MEM; lia|by apply No|lia|]. fold k in Hf, Hoth.
    unfold new_mapping_entry_by_key. cbn [storage_size set_storage set_allocator]. replace (off <? storage_size f) with true by lia.
    cbn [rassert rbind kv_mapping_table hash_slots set_storage set_allocator]. rewrite Et. cbn [rbind].
    eexists _, _, (mk_extent off (extent_cap vlen) :: xs). split; [reflexivity|]. split; [eapply batch_insert; [done|rewrite HvL, <- S; exact Ea]|]. split; [|done].
    apply (kv_ok_put L HL f A xs _ _ _ k v (extent_cap vlen) off); cbn; rewrite ?HvL; try done.
    + lia.
    + constructor; [cbn; lia|done].
    + intros x Hx; by right.
    + by left.
    + rewrite <- HvL. apply mem_read_write.
    + intros i Hi. apply mem_write_out. lia.
    + intros k' v' c' o' n' Hne Hm' Hf'. destruct (So _ _ _ Hm') as (o2 & Hf2 & Hx & _). rewrite Hf2 in Hf'. injection Hf' as <- _.
      rewrite Forall_forall in Hdis. by apply Hdis.
Qed.
End Store.
