(* ===== verification/KvIter.v ===== *)
(** * Iterators of the key-value FTL

    A read of an iterator scans the mapping table from where the last one stopped and
    returns at most 51 records in a kilobyte.  Reading until the end is reported gives the
    keys that match, each slot's once, in the order of the table. *)

From Stdlib Require Import ZArith Lia.
From stdpp Require Import base list numbers sets.
From S2P Require Import Prelude Prp KvAlloc KvFtl KvTable.

(** The record of an entry; those of a range of slots that match. *)
Definition record_of (e : mapping_entry) : list Z := to_le32 keylen ++ take 16 (e_key e).

Definition records (t : list mapping_entry) (ctx : kv_iter_context) (lo hi : Z) : list (list Z) :=
  record_of <$> filter (fun e => iter_match ctx e = true) (take (Z.to_nat (hi - lo)) (drop (Z.to_nat lo) t)).

Lemma records_nil t ctx lo : records t ctx lo lo = [].
Proof. unfold records. by rewrite Z.sub_diag. Qed.

Lemma records_step t ctx lo hi e : 0 <= lo < hi -> zget t lo = Some e ->
  records t ctx lo hi = (if iter_match ctx e then [record_of e] else []) ++ records t ctx (lo + 1) hi.
Proof.
  intros Hlo E. unfold zget in E. rewrite (proj2 (Z.ltb_ge _ 0)) in E by lia. unfold records.
  rewrite (drop_S _ _ _ E). replace (Z.to_nat (hi - lo)) with (S (Z.to_nat (hi - (lo + 1)))) by lia.
  replace (Z.to_nat (lo + 1)) with (S (Z.to_nat lo)) by lia. cbn [take]. rewrite filter_cons.
  destruct (iter_match ctx e); [by rewrite decide_True|by rewrite decide_False].
Qed.

Lemma records_app t ctx lo mid hi : 0 <= lo <= mid -> mid <= hi -> records t ctx lo hi = records t ctx lo mid ++ records t ctx mid hi.
Proof.
  intros Hl Hm. unfold records. rewrite <- fmap_app, <- filter_app. do 2 f_equal.
  replace (Z.to_nat (hi - lo)) with (Z.to_nat (mid - lo) + Z.to_nat (hi - mid))%nat by lia.
  rewrite <- take_take_drop, drop_drop. do 3 f_equal. lia.
Qed.

Lemma bytes16 (e : mapping_entry) : zlen (e_key e) = 18 -> bytes_at (e_key e) keylen = Ok (take 16 (e_key e)).
Proof. intros He. rewrite bytes_at_ok; [done|]. unfold keylen. lia. Qed.

(** What is in the buffer after [n] records. *)
Definition buf_end (n : Z) : Z := 4 + 20 * n.

Lemma scan_spec t slots ctx : zlen t = slots -> (forall i e, zget t i = Some e -> zlen (e_key e) = 18) ->
  forall fuel pos recs, 0 <= pos <= slots -> slots - pos < Z.of_nat fuel -> zlen recs <= 51 ->
  exists pos' new b, iter_scan fuel t slots ctx pos (buf_end (zlen recs)) recs = Ok (pos', recs ++ new, b) /\
    new = records t ctx pos pos' /\ pos <= pos' <= slots /\ zlen (recs ++ new) <= 51 /\
    (b = true -> pos' = slots) /\ (pos < slots -> b = false -> pos' < slots) /\ (pos < slots -> recs = [] -> pos < pos').
Proof.
  intros Hl Hk. induction fuel as [|fuel IH]; intros pos recs Hp Hf Hr; [lia|]. cbn [iter_scan].
  destruct (Z.ltb_spec pos slots) as [Hlt|Hge].
  2: { assert (pos = slots) as -> by lia. exists slots, [], false. rewrite app_nil_r, records_nil. repeat split; try done; lia. }
  destruct (zget_Some t pos) as (e & E); [lia|]. rewrite (proj2 (aget_ok _ _ _) E). cbn [rbind].
  assert (forall recs2 new0, recs2 = recs ++ new0 -> new0 = (if iter_match ctx e then [record_of e] else []) -> zlen recs2 <= 51 ->
    exists pos' new b, (if pos + 1 =? slots then Ok (pos + 1, recs2, true) else iter_scan fuel t slots ctx (pos + 1) (buf_end (zlen recs2)) recs2) =
      Ok (pos', recs ++ new, b) /\ new = records t ctx pos pos' /\ pos <= pos' <= slots /\ zlen (recs ++ new) <= 51 /\
      (b = true -> pos' = slots) /\ (pos < slots -> b = false -> pos' < slots) /\ (pos < slots -> recs = [] -> pos < pos')) as Hadv.
  { intros recs2 new0 -> -> Hr2. destruct (Z.eqb_spec (pos + 1) slots) as [He|He].
    - eexists (pos + 1), _, true. split; [reflexivity|]. rewrite (records_step t ctx pos (pos + 1) e) by (done || lia).
      rewrite records_nil, app_nil_r. repeat split; try done; lia.
    - destruct (IH (pos + 1) (recs ++ if iter_match ctx e then [record_of e] else [])) as (pos' & new & b & -> & Hn & Hrange & H51 & Hb & Hb' & _); [lia|lia|done|].
      exists pos', ((if iter_match ctx e then [record_of e] else []) ++ new), b. rewrite app_assoc. split; [done|].
      rewrite (records_step t ctx pos pos' e) by (done || lia). rewrite Hn.
      split; [done|]. split; [lia|]. split; [by rewrite <- Hn|]. split; [done|]. split; [intros _; apply Hb'; lia|lia]. }
  destruct (iter_match ctx e) eqn:Em.
  - destruct (Z.ltb_spec 1024 (buf_end (zlen recs) + 4 + keylen)) as [Hfull|Hroom].
    + exists pos, [], false. rewrite app_nil_r, records_nil. repeat split; try done; try lia.
      intros _ ->. unfold buf_end, keylen in Hfull. cbn in Hfull. lia.
    + rewrite bytes16 by by eapply Hk. cbn [rbind]. unfold buf_end, keylen in Hroom.
      assert (buf_end (zlen recs) + 4 + Z.land (keylen + 3) (-4) = buf_end (zlen (recs ++ [record_of e]))) as ->.
      { change (Z.land (keylen + 3) (-4)) with 16. unfold buf_end. rewrite length_app. cbn [length]. lia. }
      apply (Hadv (recs ++ [record_of e]) [record_of e]); [done|done|]. rewrite length_app. cbn [length]. lia.
  - apply (Hadv recs []); [by rewrite app_nil_r|done|done].
Qed.

(** ** The copy to the host *)
Lemma buffer_out_spec buf ps : forall o n, covers o n ps -> 0 <= o -> o + n = zlen buf ->
  concat (snd <$> buffer_out buf ps) = drop (Z.to_nat o) buf /\ fst <$> buffer_out buf ps = pc_paddr <$> ps.
Proof.
  induction ps as [|p ps IH]; intros o n; cbn [covers].
  - intros -> Ho Hn. cbn. by rewrite drop_ge by lia.
  - intros (Eo & Hp & _ & _ & Hc) Ho Hn. unfold buffer_out in *. rewrite !fmap_cons. cbn [concat fst snd]. rewrite Eo.
    destruct (IH _ _ Hc) as [H1 H2]; [lia|lia|]. rewrite H1, H2. split; [|done].
    replace (Z.to_nat (o + pc_io_size p)) with (Z.to_nat o + Z.to_nat (pc_io_size p))%nat by lia. rewrite <- drop_drop. apply take_drop.
Qed.

Section Read.
Context {St : Type}.
Implicit Types (f : kv_ftl (St := St)).

(** The host reads until the end is reported. *)
Fixpoint read_all (fuel : nat) f (c : nvme_kv_command) (entry : nat -> Z) : res (list kv_reply * kv_ftl) :=
  match fuel with
  | O => Err OutOfFuel
  | S fuel =>
      let! (rep, f) := kv_iter_read f c entry 0 in
      if r_status rep =? 0x393 then Ok ([rep], f)
      else let! (reps, f) := read_all fuel f c entry in Ok (rep :: reps, f)
  end.

(** A reply carries these records. *)
Definition carries (rep : kv_reply) (recs : list (list Z)) : Prop :=
  concat (snd <$> r_copies rep) = iter_buffer recs /\ r_result rep = zlen (iter_buffer recs) /\ zlen recs <= 51.

Lemma length_record t ctx lo hi : (forall i e, zget t i = Some e -> zlen (e_key e) = 18) -> Forall (fun r => length r = 20%nat) (records t ctx lo hi).
Proof.
  intros Hk. apply Forall_fmap, Forall_forall. intros e [_ He]%list_elem_of_filter. unfold record_of, compose.
  apply list_elem_of_lookup in He as (i & Hi). apply lookup_take_Some in Hi as [Hi _]. rewrite lookup_drop in Hi.
  rewrite length_app, length_take. cbn [to_le32 length]. specialize (Hk (Z.of_nat (Z.to_nat lo + i)) e). unfold zget in Hk.
  rewrite (proj2 (Z.ltb_ge _ 0)), Nat2Z.id in Hk by lia. specialize (Hk Hi). lia.
Qed.

Lemma length_buffer recs : Forall (fun r => length r = 20%nat) recs -> zlen (iter_buffer recs) = buf_end (zlen recs).
Proof.
  intros H. unfold iter_buffer, buf_end. rewrite length_app. cbn [to_le32 length]. induction H as [|r recs Hr _ IH]; [done|].
  cbn [concat]. rewrite length_app, Hr. cbn [length]. lia.
Qed.

Lemma iter_read_spec f c entry ctx st :
  zlen (kv_mapping_table f) = hash_slots f -> hash_slots f < 2 ^ 31 -> (forall i e, zget (kv_mapping_table f) i = Some e -> zlen (e_key e) = 18) ->
  zget (iter_handle f) (iter_handle_of c) = Some (Open ctx) -> 0 <= current_pos ctx < hash_slots f ->
  (forall n, 0 <= n <= 1024 -> is_ok (prp_pieces (prp1 c) (prp2 c) entry n)) ->
  exists rep f' pos recs, kv_iter_read f c entry st = Ok (rep, f') /\ carries rep recs /\
    recs = records (kv_mapping_table f) ctx (current_pos ctx) pos /\ current_pos ctx < pos <= hash_slots f /\
    (r_status rep = 0x393 /\ pos = hash_slots f \/ r_status rep = 0 /\ pos < hash_slots f) /\
    f' = set_iters f (zset (iter_handle f) (iter_handle_of c) (Open (set_pos ctx pos))).
Proof.
  intros Hl Hm Hk Hh Hp Hprp. unfold kv_iter_read. rewrite (proj2 (aget_ok _ _ _) Hh). cbn [rbind]. rewrite i32_id by lia.
  destruct (scan_spec (kv_mapping_table f) (hash_slots f) ctx Hl Hk (S (length (kv_mapping_table f))) (current_pos ctx) [])
    as (pos & recs & b & E & Hrecs & Hrange & H51 & Hb & Hb' & Hprog); [lia|lia|cbn; lia|]. cbn [app length] in *.
  change (buf_end (Z.of_nat 0)) with 4 in E. rewrite E. cbn [rbind].
  rewrite (proj2 (aset_ok _ _ _ _) (conj (zget_range _ _ _ Hh) eq_refl)). cbn [rbind].
  assert (zlen (iter_buffer recs) = buf_end (zlen recs)) as Hlen by (apply length_buffer; rewrite Hrecs; by apply length_record).
  destruct (Hprp (zlen (iter_buffer recs))) as (ps & Eps); [rewrite Hlen; unfold buf_end; lia|]. rewrite Eps. cbn [rbind].
  pose proof (prp_pieces_spec (prp1 c) (prp2 c) entry (zlen (iter_buffer recs)) ltac:(lia)) as Hs. cbn zeta in Hs.
  destruct (_ && _); [by rewrite Hs in Eps|]. destruct Hs as (ps' & E' & Hc). rewrite E' in Eps. injection Eps as ->.
  destruct (buffer_out_spec (iter_buffer recs) ps 0 _ Hc) as [Hout _]; [lia|lia|].
  eexists _, _, pos, recs. split; [reflexivity|]. split; [split; [exact Hout|by split]|]. split; [done|]. split; [specialize (Hprog ltac:(lia) eq_refl); lia|].
  split; [|done]. cbn [r_status]. destruct b; [left; split; [done|by apply Hb]|right; split; [done|apply Hb'; [lia|done]]].
Qed.

Lemma read_all_spec c entry : forall fuel f ctx,
  zlen (kv_mapping_table f) = hash_slots f -> hash_slots f < 2 ^ 31 -> (forall i e, zget (kv_mapping_table f) i = Some e -> zlen (e_key e) = 18) ->
  zget (iter_handle f) (iter_handle_of c) = Some (Open ctx) -> 0 <= current_pos ctx < hash_slots f ->
  (forall n, 0 <= n <= 1024 -> is_ok (prp_pieces (prp1 c) (prp2 c) entry n)) -> hash_slots f - current_pos ctx <= Z.of_nat fuel ->
  exists reps f' recss, read_all fuel f c entry = Ok (reps, f') /\ Forall2 carries reps recss /\
    concat recss = records (kv_mapping_table f) ctx (current_pos ctx) (hash_slots f) /\ kv_mapping_table f' = kv_mapping_table f.
Proof.
  induction fuel as [|fuel IH]; intros f ctx Hl Hm Hk Hh Hp Hprp Hf; [lia|]. cbn [read_all].
  destruct (iter_read_spec f c entry ctx 0 Hl Hm Hk Hh Hp Hprp) as (rep & f1 & pos & recs & -> & Hc & Hrecs & Hpos & Hst & ->). cbn [rbind].
  destruct Hst as [[-> ->]|[-> Hlt]]; cbn [Z.eqb Pos.eqb].
  - eexists [rep], _, [recs]. split; [reflexivity|]. split; [constructor; [done|constructor]|]. split; [|done]. cbn [concat]. by rewrite app_nil_r.
  - set (f1 := set_iters f _). destruct (IH f1 (set_pos ctx pos)) as (reps & f2 & recss & -> & Hall & Hcat & Ht); try done.
    + cbn. apply zget_zset_eq. by eapply zget_range.
    + cbn. lia.
    + cbn. lia.
    + cbn [rbind]. exists (rep :: reps), f2, (recs :: recss). split; [done|]. split; [by constructor|]. split; [|done].
      cbn [concat]. rewrite Hcat, Hrecs. change (kv_mapping_table f1) with (kv_mapping_table f). change (hash_slots f1) with (hash_slots f).
      assert (forall lo hi, records (kv_mapping_table f) (set_pos ctx pos) lo hi = records (kv_mapping_table f) ctx lo hi) as -> by done.
      symmetry. apply records_app; cbn; lia.
Qed.
End Read.
