(* ===== verification/KvBatch.v ===== *)
(** * Batches: the payload a host builds, and what the device makes of it

    [encode_batch] lays a list of sub-commands out as the payload of a batch command:
    sixteen-byte attributes in the head, then keys and values padded to 64 bytes.
    [batch_loop] on that payload performs the sub-commands one after the other. *)

From Stdlib Require Import ZArith Lia.
From stdpp Require Import base list numbers sets gmap.
From S2P Require Import Prelude Prp KvAlloc KvFtl KvTable KvStore.

(** A sub-command: opcode, key, value. *)
Record sub_cmd : Type := mk_sub { sc_op : Z; sc_key : list Z; sc_value : list Z }.

Record sub_ok (s : sub_cmd) : Prop := {
  so_op : 0 <= sc_op s < 2 ^ 8;
  so_key : zlen (sc_key s) <= 20;
  so_value : zlen (sc_value s) <= 4097;
}.

Definition encode_attr (s : sub_cmd) : list Z :=
  [sc_op s; zlen (sc_key s); 0; 0] ++ to_le32 (zlen (sc_value s)) ++ replicate 8 0.

Definition pad (n : nat) (bs : list Z) : list Z := bs ++ replicate (n - length bs) 0.
Definition aligned (bs : list Z) : list Z := pad (Z.to_nat (align_len (zlen bs))) bs.
Definition encode_sub (s : sub_cmd) : list Z := aligned (sc_key s) ++ aligned (sc_value s) ++ replicate 64 0.

Definition encode_batch (subs : list sub_cmd) : list Z :=
  pad 512 (subs ≫= encode_attr) ++ replicate 64 0 ++ (subs ≫= encode_sub).

(** The sub-commands in a row, each with the key and value buffers the device fills. *)
Fixpoint batch_run {St} `{allocator_ops St} (f : kv_ftl) (subs : list sub_cmd) : res (kv_ftl (St := St)) :=
  match subs with
  | [] => Ok f
  | s :: subs =>
      let! f := __do_perform_kv_batched_io f (sc_op s) (pad 20 (sc_key s)) (zlen (sc_key s)) (pad 4097 (sc_value s)) (zlen (sc_value s)) in
      batch_run f subs
  end.

(** ** Little-endian words and padding *)
Lemma le_to_le32 n : 0 <= n < 2 ^ 32 -> le_bytes (to_le32 n) = n.
Proof.
  intros Hn. unfold to_le32, u8. cbn [le_bytes]. rewrite !Z.shiftr_div_pow2 by lia.
  pose proof (Z.div_mod n 256 ltac:(lia)) as E0. pose proof (Z.div_mod (n / 256) 256 ltac:(lia)) as E1.
  pose proof (Z.div_mod (n / 65536) 256 ltac:(lia)) as E2.
  assert (n / 256 / 256 = n / 65536) as D1 by by rewrite Z.div_div by lia. assert (n / 65536 / 256 = n / 16777216) as D2 by by rewrite Z.div_div by lia.
  change (2 ^ 8) with 256. change (2 ^ 16) with 65536. change (2 ^ 24) with 16777216. change (2 ^ 32) with 4294967296 in Hn.
  assert (n / 16777216 < 256) by (apply Z.div_lt_upper_bound; lia). assert (0 <= n / 16777216) by (apply Z.div_pos; lia).
  rewrite (Z.mod_small (n / 16777216)) by lia. rewrite D1 in E1. rewrite D2 in E2. lia.
Qed.

Lemma align_len_eq n : 0 <= n < 2 ^ 30 -> align_len n = (Z.quot (n - 1) 64 + 1) * 64 /\ n <= align_len n <= n + 64.
Proof.
  intros Hn. unfold align_len, ALIGN_LEN. rewrite (i32_id (n - 1)) by lia. destruct (Z.eqb_spec n 0) as [->|Hz]; [done|].
  rewrite Z.quot_div_nonneg by lia. pose proof (Z.div_mod (n - 1) 64 ltac:(lia)). pose proof (Z.mod_pos_bound (n - 1) 64 ltac:(lia)).
  rewrite i32_id by lia. lia.
Qed.

Lemma length_pad n bs : (length bs <= n)%nat -> length (pad n bs) = n.
Proof. intros H. unfold pad. rewrite length_app, length_replicate. lia. Qed.

Lemma length_aligned bs : zlen bs < 2 ^ 30 -> zlen (aligned bs) = align_len (zlen bs).
Proof. intros H. destruct (align_len_eq (zlen bs)); [lia|]. unfold aligned. rewrite length_pad by lia. lia. Qed.

Lemma take_pad n bs : take (length bs) (pad n bs) = bs.
Proof. apply take_app_length. Qed.

Lemma take_aligned bs : take (length bs) (aligned bs) = bs.
Proof. apply take_pad. Qed.

Lemma length_attr s : length (encode_attr s) = 16%nat.
Proof. done. Qed.

Lemma length_attrs subs : length (subs ≫= encode_attr) = (16 * length subs)%nat.
Proof. induction subs as [|s subs IH]; [done|]. rewrite bind_cons, length_app, length_attr, IH. cbn. lia. Qed.

(** ** Reading the payload *)
Lemma buf_bytes_at pre bs post : buf_bytes (pre ++ bs ++ post) (zlen pre) (zlen bs) = Ok bs.
Proof.
  unfold buf_bytes. rewrite (proj2 (Z.leb_le 0 (zlen pre))), (proj2 (Z.leb_le 0 (zlen bs))) by lia.
  rewrite (proj2 (Z.leb_le _ (zlen (pre ++ bs ++ post)))) by (rewrite !length_app; lia).
  cbn [andb]. rewrite !Nat2Z.id, drop_app_length. by rewrite take_app_length.
Qed.

Lemma buf_bytes_in buf pre bs post off : buf = pre ++ bs ++ post -> off = zlen pre -> buf_bytes buf off (zlen bs) = Ok bs.
Proof. intros -> ->. apply buf_bytes_at. Qed.

Section Loop.
Context {St : Type} `{allocator_ops St}.
Implicit Types (f : kv_ftl (St := St)).

Context (subs : list sub_cmd) (Hn : (length subs <= 8)%nat) (Hok : Forall sub_ok subs).

Lemma sub_in pre s post : subs = pre ++ s :: post -> sub_ok s.
Proof. intros E. apply (proj1 (Forall_forall _ _) Hok). rewrite E. apply elem_of_app. right. by left. Qed.

Lemma encode_split pre s post : subs = pre ++ s :: post ->
  encode_batch subs = ((pre ≫= encode_attr) ++ encode_attr s ++ ((post ≫= encode_attr) ++ replicate (512 - 16 * length subs) 0)) ++ replicate 64 0 ++
    ((pre ≫= encode_sub) ++ encode_sub s ++ (post ≫= encode_sub)).
Proof.
  intros E. unfold encode_batch, pad. rewrite length_attrs, E, !bind_app, !bind_cons. by rewrite <- !app_assoc.
Qed.

Lemma attr_spec pre s post : subs = pre ++ s :: post ->
  sub_cmd_attr (encode_batch subs) (zlen pre) = Ok (sc_op s, zlen (sc_key s), zlen (sc_value s)).
Proof.
  intros E. assert (length pre < 8)%nat as Hp by (pose proof Hn as Hn'; rewrite E, length_app in Hn'; cbn in Hn'; lia).
  destruct (sub_in pre s post E) as [Hop Hk Hv].
  unfold sub_cmd_attr. replace (zlen pre <? MAX_SUB_CMD) with true by (unfold MAX_SUB_CMD; lia).
  rewrite (encode_split pre s post E). change SUB_CMD_ATTRIBUTE_SIZE with (zlen (encode_attr s)) at 2.
  rewrite (buf_bytes_in _ (pre ≫= encode_attr) (encode_attr s) (((post ≫= encode_attr) ++ replicate (512 - 16 * length subs) 0) ++ replicate 64 0 ++
    ((pre ≫= encode_sub) ++ encode_sub s ++ (post ≫= encode_sub)))).
  - cbn [rbind]. f_equal. f_equal; [f_equal|].
    + cbn. lia.
    + cbn. lia.
    + change (take 4 (drop 4 (encode_attr s))) with (to_le32 (zlen (sc_value s))). rewrite le_to_le32, i32_id by lia. done.
  - by rewrite <- !app_assoc.
  - rewrite length_attrs. unfold SUB_CMD_ATTRIBUTE_SIZE. lia.
Qed.

(** Where the payload of the next sub-command starts. *)
Definition offset_after (pre : list sub_cmd) : Z := ALIGN_LEN + zlen (pre ≫= encode_sub).

Lemma head_length pre s post : subs = pre ++ s :: post ->
  zlen ((pre ≫= encode_attr) ++ encode_attr s ++ ((post ≫= encode_attr) ++ replicate (512 - 16 * length subs) 0)) = BATCH_HEAD_SIZE.
Proof.
  intros E. rewrite !length_app, !length_attrs, length_attr, length_replicate. pose proof Hn as Hn'. rewrite E, length_app in *. cbn [length] in *.
  unfold BATCH_HEAD_SIZE. lia.
Qed.

Lemma key_value_spec pre s post : subs = pre ++ s :: post ->
  buf_bytes (encode_batch subs) (BATCH_HEAD_SIZE + offset_after pre) (zlen (sc_key s)) = Ok (sc_key s) /\
  buf_bytes (encode_batch subs) (BATCH_HEAD_SIZE + offset_after pre + align_len (zlen (sc_key s))) (zlen (sc_value s)) = Ok (sc_value s).
Proof.
  intros E. pose proof (head_length pre s post E) as Hh. rewrite (encode_split pre s post E). set (hd := _ ++ encode_attr s ++ _) in *.
  destruct (sub_in pre s post E) as [Hop Hk Hv].
  pose proof (length_aligned (sc_key s) ltac:(lia)) as Hka. unfold offset_after.
  assert (encode_sub s = aligned (sc_key s) ++ aligned (sc_value s) ++ replicate 64 0) as Es by done. rewrite Es. clear Es.
  assert (forall bs, exists z, aligned bs = bs ++ z) as Hal by (intros bs; by eexists). split.
  - destruct (Hal (sc_key s)) as (z & Hz). eapply (buf_bytes_in _ (hd ++ replicate 64 0 ++ (pre ≫= encode_sub)) (sc_key s)).
    + rewrite Hz. rewrite <- !app_assoc. reflexivity.
    + rewrite !length_app, length_replicate. unfold ALIGN_LEN. lia.
  - destruct (Hal (sc_value s)) as (z & Hz).
    eapply (buf_bytes_in _ (hd ++ replicate 64 0 ++ (pre ≫= encode_sub) ++ aligned (sc_key s)) (sc_value s)).
    + rewrite Hz. rewrite <- !app_assoc. reflexivity.
    + rewrite !length_app, length_replicate. unfold ALIGN_LEN. lia.
Qed.

Lemma encode_sub_length s : sub_ok s -> zlen (encode_sub s) = align_len (zlen (sc_key s)) + align_len (zlen (sc_value s)) + ALIGN_LEN /\
  zlen (encode_sub s) <= 4400.
Proof.
  intros [_ Hk Hv]. unfold encode_sub. rewrite !length_app, !Nat2Z.inj_add, !length_aligned, length_replicate by lia.
  destruct (align_len_eq (zlen (sc_key s))) as [_ H1]; [lia|]. destruct (align_len_eq (zlen (sc_value s))) as [_ H2]; [lia|]. unfold ALIGN_LEN. lia.
Qed.

Lemma subs_length (l : list sub_cmd) : Forall sub_ok l -> zlen (l ≫= encode_sub) <= 4400 * zlen l.
Proof.
  induction 1 as [|s l Hs _ IH]; [done|]. rewrite bind_cons, length_app. destruct (encode_sub_length s Hs). cbn [length]. lia.
Qed.

Lemma memcpy_pad n bs : (length bs <= n)%nat -> memcpy (replicate n 0) bs (zlen bs) = Ok (pad n bs).
Proof.
  intros H'. rewrite memcpy_ok by (rewrite ?length_replicate; lia). rewrite Nat2Z.id, firstn_all, drop_replicate. done.
Qed.

Lemma batch_loop_spec post : forall pre f, subs = pre ++ post ->
  batch_loop (length post) (zlen pre) (offset_after pre) (encode_batch subs) f = batch_run f post.
Proof.
  induction post as [|s post IH]; intros pre f E; [done|]. cbn [length batch_loop batch_run].
  pose proof (sub_in pre s post E) as Hs. pose proof Hs as [Hop Hk Hv].
  rewrite (attr_spec pre s post E). cbn [rbind]. destruct (key_value_spec pre s post E) as [-> ->]. cbn [rbind].
  rewrite !memcpy_pad by lia. cbn [rbind]. destruct (__do_perform_kv_batched_io _ _ _ _ _ _) as [f'|]; [|done]. cbn [rbind].
  assert (zlen (pre ++ [s]) = zlen pre + 1) as <- by (rewrite length_app; cbn; lia).
  destruct (encode_sub_length s Hs) as [<- _].
  assert (i32 (offset_after pre + zlen (encode_sub s)) = offset_after (pre ++ [s])) as ->.
  { unfold offset_after. rewrite bind_app, bind_cons, length_app, app_nil_r. rewrite i32_id; [lia|].
    assert (zlen ((pre ++ [s]) ≫= encode_sub) <= 4400 * zlen (pre ++ [s])) as Hb.
    { apply subs_length. pose proof Hok as Hok'. rewrite E in Hok'. rewrite cons_middle, app_assoc in Hok'. by apply Forall_app in Hok' as [? _]. }
    rewrite bind_app, bind_cons, app_nil_r, !length_app in Hb. rewrite E, length_app in Hn. cbn [length] in *. unfold ALIGN_LEN. lia. }
  apply IH. by rewrite <- app_assoc.
Qed.
End Loop.

(** ** A batch of stores on the abstract device *)
Section Steps.
Context {St : Type} `{Allocator St}.

Inductive batch_steps : kv_abs (St := St) -> list sub_cmd -> kv_abs (St := St) -> Prop :=
| bsteps_nil A : batch_steps A [] A
| bsteps_cons A s A1 subs A2 : batch_step A (sc_key s) (sc_value s) A1 -> batch_steps A1 subs A2 -> batch_steps A (s :: subs) A2.

(** Stores of keys of [L] bytes that find room or fit their key's extent. *)
Fixpoint batch_ok (L size slots : Z) (A : kv_abs (St := St)) (subs : list sub_cmd) : Prop :=
  match subs with
  | [] => True
  | s :: subs =>
      sc_op s = nvme_cmd_kv_store /\ zlen (sc_key s) = L /\ zlen (sc_value s) <= 4097 /\
      match a_map A !! sc_key s with
      | None => a_used A < slots /\ alloc_room (a_alloc A) size (zlen (sc_value s))
      | Some (_, cap) => zlen (sc_value s) <= cap
      end /\ forall A', batch_step A (sc_key s) (sc_value s) A' -> batch_ok L size slots A' subs
  end.

Lemma batch_run_spec L subs : forall (f : kv_ftl (St := St)) A xs, 0 <= L <= 16 -> kv_ok L f A xs ->
  batch_ok L (storage_size f) (hash_slots f) A subs ->
  exists f' A' xs', batch_run f subs = Ok f' /\ batch_steps A subs A' /\ kv_ok L f' A' xs'.
Proof.
  induction subs as [|s subs IH]; intros f A xs HL F Hb; cbn [batch_run].
  - exists f, A, xs. split; [done|]. split; [constructor|done].
  - destruct Hb as (Hop & Hk & Hv & Hadm & Hrest). rewrite Hop.
    assert (length (pad 20 (sc_key s)) = 20%nat) as Hlk by (apply length_pad; lia).
    assert (length (pad 4097 (sc_value s)) = 4097%nat) as Hlv by (apply length_pad; lia).
    pose proof (batched_store_spec L f A xs (pad 20 (sc_key s)) (zlen (sc_key s)) (pad 4097 (sc_value s)) (zlen (sc_value s)) HL F Hk) as Hs.
    cbn zeta in Hs. rewrite !Nat2Z.id, !take_pad in Hs.
    destruct Hs as (f1 & A1 & xs1 & -> & Hst & F1 & Es & Ez); [lia|lia|exact Hadm|]. cbn [rbind].
    destruct (IH f1 A1 xs1 HL F1) as (f2 & A2 & xs2 & -> & Hsts & F2); [rewrite Es, Ez; by apply Hrest|].
    exists f2, A2, xs2. split; [done|]. split; [by econstructor|done].
Qed.
End Steps.
