(* ===== verification/KvNs.v ===== *)
(** * The key-value FTL as a namespace, and the worker that performs its commands

    The dispatcher only asks the namespace when a command will be done:
    [kv_proc_nvme_io_cmd] treats the device as parallel I/O units, like simple_ftl.c.
    The command itself is performed by the I/O worker, when the entry is copied. *)

From Stdlib Require Import ZArith Lia.
From stdpp Require Import base list numbers.
From S2P Require Import Prelude Config Prp Dispatch SimpleFtl KvAlloc KvFtl.
From S2P Require Nvme Perform.

(** One submission queue entry, as the block and the key-value code read it. *)
Record kv_body : Type := mk_body { as_rw : Nvme.nvme_rw_command; as_kv : nvme_kv_command }.

Section Ns.
Context {St : Type} `{allocator_ops St}.

Record kv_ns : Type := mk_kv_ns {
  kv_id : Z;
  kv_csi : Z;
  kv_size : Z;
  kv_config : simple_config;
  kv_unit_stat : list Z;          (* io_unit_stat of the device *)
  kv_ftls : kv_ftl (St := St);
}.

Definition set_kv_units (n : kv_ns) (s : list Z) : kv_ns := mk_kv_ns (kv_id n) (kv_csi n) (kv_size n) (kv_config n) s (kv_ftls n).
Definition set_kv_ftls (n : kv_ns) (f : kv_ftl) : kv_ns := mk_kv_ns (kv_id n) (kv_csi n) (kv_size n) (kv_config n) (kv_unit_stat n) f.

Definition kv_op_times (c : simple_config) (op : Z) : Z * Z * Z :=
  if (op =? Nvme.nvme_cmd_write) || (op =? nvme_cmd_kv_store) || (op =? nvme_cmd_kv_batch) then (write_delay c, write_time c, write_trailing c)
  else if (op =? Nvme.nvme_cmd_read) || (op =? nvme_cmd_kv_retrieve) then (read_delay c, read_time c, read_trailing c)
  else (0, 0, 0).

(** [__schedule_io_units] of kv_ftl.c. *)
Definition kv_schedule_io_units (c : simple_config) (opcode lba length nsecs_start : Z) (s : list Z) : res (Z * list Z) :=
  schedule_units c (kv_op_times c opcode) lba length nsecs_start s.

Definition kv_schedule_flush (n : kv_ns) : res Z := max_stat (zseq (nr_io_units (kv_config n))) (kv_unit_stat n) 0.

Definition kv_cmd_io_size (c : Nvme.nvme_rw_command) : Z := Z.shiftl (Nvme.length c + 1) LBA_BITS.

(** The message after a key-value command reads the clock once more. *)
Definition kv_proc_nvme_io_cmd (c : kv_body) (rt : Nvme.nvmev_result) : M kv_ns (bool * Nvme.nvmev_result) :=
  let op := opcode (as_kv c) in
  let schedule lba length :=
    let* now := read_clock CPU_CLOCK in
    update_get (fun n =>
      let! (z, s) := kv_schedule_io_units (kv_config n) op lba (u32 length) now (kv_unit_stat n) in
      Ok (z, set_kv_units n s)) in
  if (op =? Nvme.nvme_cmd_write) || (op =? Nvme.nvme_cmd_read) then
    let* z := schedule (Nvme.slba (as_rw c)) (kv_cmd_io_size (as_rw c)) in
    ret (true, Nvme.mk_result (Nvme.status rt) z)
  else if op =? Nvme.nvme_cmd_flush then
    let* n := get in
    let* z := lift (kv_schedule_flush n) in
    ret (true, Nvme.mk_result (Nvme.status rt) z)
  else if (op =? nvme_cmd_kv_store) || (op =? nvme_cmd_kv_retrieve) || (op =? nvme_cmd_kv_batch) then
    let* z := schedule 0 (cmd_value_length (as_kv c)) in
    let* _ := read_clock CPU_CLOCK in
    ret (true, Nvme.mk_result (Nvme.status rt) z)
  else ret (true, rt).

(** The device has this one namespace, which a command reaches whatever its [nsid]. *)
Definition kv_init_ns (cfg : simple_config) (id size storage_size table_size : Z) (a : St) (m : Z -> Z) : res kv_ns :=
  let! f := kv_init_namespace table_size storage_size a m in
  Ok (mk_kv_ns id 0 size cfg (replicate (Z.to_nat (nr_io_units cfg)) 0) f).

Definition kv_identify_nvme_io_cmd (c : kv_body) : bool := is_kv_cmd (opcode (as_kv c)).

(** The copy step of the worker for this device: a key-value command is performed by the
    namespace, any other by copying blocks. *)
Inductive worker_copy : Type := KvPerformed (rep : kv_reply) | BlocksCopied (d : Perform.direction) (ts : list Perform.transfer).

Definition kv_worker_copy (n : kv_ns) (c : kv_body) (host : Z -> Z) (entry : nat -> Z) (status : Z) : res (worker_copy * kv_ns) :=
  if kv_identify_nvme_io_cmd c then
    let! (rep, f) := kv_perform_nvme_io_cmd (kv_ftls n) (as_kv c) host entry status in
    Ok (KvPerformed rep, set_kv_ftls n f)
  else
    let! (d, ts) := Perform.__do_perform_io (as_rw c) (prp1 (as_kv c)) (prp2 (as_kv c)) entry in
    Ok (BlocksCopied d ts, n).

(** ** The interface of the dispatcher *)
#[export] Instance kv_namespace : Namespace kv_ns kv_body := {
  proc_io_cmd c _ _ rt := let* r := kv_proc_nvme_io_cmd c rt in ret (r, c);
  ns_scheduled _ := [];
}.

Record kv_ns_ok (n : kv_ns) : Prop := {
  kn_config : config_ok (kv_config n);
  kn_stat : zlen (kv_unit_stat n) = nr_io_units (kv_config n);
}.

Lemma kv_schedule_total n op lba length now : kv_ns_ok n -> 0 <= length ->
  exists z s', kv_schedule_io_units (kv_config n) op lba length now (kv_unit_stat n) = Ok (z, s') /\ kv_ns_ok (set_kv_units n s').
Proof.
  intros [Hc Hs] Hl. destruct (units_total_spec (kv_config n) (kv_op_times (kv_config n) op) lba length now (kv_unit_stat n) Hc Hl Hs) as (z & s' & E & Hs').
  exists z, s'. split; [exact E|]. split; [exact Hc|exact Hs'].
Qed.

Lemma kv_flush_total n : kv_ns_ok n -> exists z, kv_schedule_flush n = Ok z.
Proof.
  intros [_ Hs]. destruct (max_stat_spec (zseq (nr_io_units (kv_config n))) (kv_unit_stat n)) with (z0 := 0) as (z & E & _); [|by exists z].
  intros i Hi%Ssd.elem_of_zseq. lia.
Qed.

(** The handler always answers, whatever the command. *)
Lemma kv_proc_spec n c rt clk t : kv_ns_ok n ->
  exists rt' t' n', kv_proc_nvme_io_cmd c rt clk t n = Ok ((true, rt'), t', n') /\ kv_ns_ok n' /\
    Nvme.status rt' = Nvme.status rt /\ kv_ftls n' = kv_ftls n.
Proof.
  intros Hn. unfold kv_proc_nvme_io_cmd. set (op := opcode (as_kv c)).
  assert (forall lba length, exists z n', kv_ns_ok n' /\ kv_ftls n' = kv_ftls n /\
    bind (read_clock CPU_CLOCK) (fun now => update_get (fun n =>
      let! (z, s) := kv_schedule_io_units (kv_config n) op lba (u32 length) now (kv_unit_stat n) in Ok (z, set_kv_units n s)))%res clk t n = Ok (z, S t, n')) as Hsched.
  { intros lba length. destruct (kv_schedule_total n op lba (u32 length) (clk CPU_CLOCK t) Hn (proj1 (u32_range _))) as (z & s' & E & Hn').
    exists z, (set_kv_units n s'). split; [done|]. split; [done|]. rewrite run_clock. unfold update_get. by rewrite E. }
  destruct ((op =? Nvme.nvme_cmd_write) || (op =? Nvme.nvme_cmd_read)).
  { destruct (Hsched (Nvme.slba (as_rw c)) (kv_cmd_io_size (as_rw c))) as (z & n' & Hn' & Hf & E).
    rewrite (run_bind _ _ _ _ _ _ _ _ E). by eexists _, _, _. }
  destruct (op =? Nvme.nvme_cmd_flush).
  { rewrite run_get. destruct (kv_flush_total n Hn) as (z & E). rewrite (run_lift _ _ clk t n z) by done. by eexists _, _, _. }
  destruct ((op =? nvme_cmd_kv_store) || (op =? nvme_cmd_kv_retrieve) || (op =? nvme_cmd_kv_batch)); [|by eexists _, _, _].
  destruct (Hsched 0 (cmd_value_length (as_kv c))) as (z & n' & Hn' & Hf & E).
  rewrite (run_bind _ _ _ _ _ _ _ _ E), run_clock. by eexists _, _, _.
Qed.

#[export] Program Instance kv_servable : ServableNamespace kv_ns kv_body := {
  can_serve n _ := kv_ns_ok n;
}.
Next Obligation.
  intros n c cs sqid nsecs rt clk t Hn. destruct (kv_proc_spec n c rt clk t Hn) as (rt' & t' & n' & E & Hn' & _).
  exists true, rt', c, t', n'. split; [|done]. cbn [proc_io_cmd kv_namespace]. by rewrite (run_bind _ _ _ _ _ _ _ _ E).
Qed.
End Ns.
