(* ===== verification/KvTheorems.v ===== *)
(** * What the key-value FTL guarantees, and where it does not

    Sessions of one-key commands refine a map; a deletion forgets exactly the keys behind
    the deleted slot; batches store as single commands do; iterators list the table.  Then
    the limits: a full table, a full small pool, a growing value over the append-only
    allocator, a short value read into a long buffer. *)

From Stdlib Require Import ZArith Lia.
From stdpp Require Import base list numbers sets gmap.
From S2P Require Import Prelude Prp KvAlloc KvFtl KvTable KvStore KvIter KvBatch.


(** C20: deletion, exactly: after [delete_mapping_entry] of a stored key, at slot [d], the key
    is no longer found; another key is found with the same value when its slot comes
    before [d] on its chain, or its chain avoids [d], and is lost when it comes after. *)
Theorem kv_delete_correct (St : Type) (f : kv_ftl (St := St)) (c : nvme_kv_command) (off len : Z) :
  let t := kv_mapping_table f in let slots := hash_slots f in let k := take (Z.to_nat (cmd_key_length c)) (key c) in
  table_ok t slots -> zlen (key c) = 16 -> 0 <= cmd_key_length c <= 16 -> found t slots k = Some (off, len) ->
  exists f' d, delete_mapping_entry f c = Ok f' /\ lookup_slot t slots k = Some d /\ found (kv_mapping_table f') slots k = None /\
    forall k' l i, zlen k' <= 18 -> walks t (home slots k') l -> lookup_slot t slots k' = Some i ->
      found (kv_mapping_table f') slots k' = if decide (i ∈ before d l) then found t slots k' else None.
Proof.
  intros t slots k T H16 Hlen Hf.
  destruct (delete_entry_spec t slots (key c) (cmd_key_length c) off len T) as (t' & d & E & Hd & _ & _ & Hgone & _ & Hex); [lia|lia|done|].
  exists (set_table f t'), d. split; [unfold delete_mapping_entry; fold t slots; by rewrite E|]. split; [done|]. split; [done|].
  intros k' l i Hk' W Hi. destruct (Hex k' l i Hk' W Hi) as [H1 H2]. case_decide; [by apply H1|by apply H2].
Qed.

(** C21: a batch command of up to eight stores whose buffer holds their payload, on a device in a
    well-formed state, when the PRPs cover the buffer and each store is possible when its turn comes
    ([batch_ok]): keys of the device's length, values of at most 4097 bytes, for a new key a free
    slot and room with the allocator, for a stored key a value no longer than its extent.  It
    performs them in order and ends without fault, and the device then holds what storing the values
    one after the other gives, except that a key already stored keeps the length of its
    old value: a shorter new value leaves the old tail, a longer one is cut. *)
Theorem kv_batch_refines (St : Type) `{Allocator St} (L : Z) (f : kv_ftl (St := St)) (A : kv_abs) (xs : list extent) (q : kv_request) (subs : list sub_cmd) :
  0 <= L <= 16 -> kv_ok L f A xs -> opcode (rq_cmd q) = nvme_cmd_kv_batch -> rsvd4 (rq_cmd q) = zlen subs -> zlen subs <= 8 ->
  is_ok (rq_pieces q (rq_len q)) -> rq_value q = encode_batch subs -> Forall sub_ok subs -> batch_ok L (storage_size f) (hash_slots f) A subs ->
  exists f' A' xs', serve f q = Ok (mk_reply 0 (rq_status q) [], f') /\ batch_steps A subs A' /\ kv_ok L f' A' xs'.
Proof.
  intros HL F Hop Hcnt H8 (ps & Eps) Hval Hok Hb. destruct (batch_run_spec L subs f A xs HL F Hb) as (f' & A' & xs' & E & Hst & F').
  exists f', A', xs'. split; [|done]. unfold serve, kv_perform_nvme_io_cmd. rewrite Hop. cbn [is_kv_batch_cmd Z.eqb nvme_cmd_kv_batch Pos.eqb].
  unfold __do_perform_kv_batch, rq_value, rq_pieces in *. change (cmd_value_length (rq_cmd q)) with (rq_len q). rewrite Eps in *. cbn [rbind].
  rewrite Hval, Hcnt, Nat2Z.id.
  change 0 with (zlen (@nil sub_cmd)) at 1. change ALIGN_LEN with (offset_after []).
  rewrite (batch_loop_spec subs) by (done || lia). by rewrite E.
Qed.

(** C22: reading an iterator, opened at the start of the table, until the device reports
    its end, with PRPs that cover a kilobyte, takes at most as many reads as there are
    slots; each read fills at most a kilobyte, and together they return the record of every entry in use whose key
    matches the prefix under the mask, in slot order and once each. *)
Theorem kv_iter_complete (St : Type) (f : kv_ftl (St := St)) (c : nvme_kv_command) (entry : nat -> Z) (ctx : kv_iter_context) :
  table_ok (kv_mapping_table f) (hash_slots f) -> zget (iter_handle f) (iter_handle_of c) = Some (Open ctx) -> current_pos ctx = 0 ->
  (forall n, 0 <= n <= 1024 -> is_ok (prp_pieces (prp1 c) (prp2 c) entry n)) ->
  exists reps f' recss, read_all (length (kv_mapping_table f)) f c entry = Ok (reps, f') /\ Forall2 carries reps recss /\
    concat recss = record_of <$> filter (fun e => iter_match ctx e = true) (kv_mapping_table f).
Proof.
  intros T Hh Hp Hprp. pose proof (tk_len _ _ T) as Hl. pose proof (tk_pos _ _ T) as [H1 H2].
  destruct (read_all_spec c entry (length (kv_mapping_table f)) f ctx Hl H2 (tk_keys _ _ T) Hh) as (reps & f' & recss & E & Hall & Hcat & _); [lia|done|lia|].
  exists reps, f', recss. split; [done|]. split; [done|]. rewrite Hcat, Hp. unfold records. by rewrite drop_0, take_ge by lia.
Qed.

(** C23: a full table hangs the worker: with every slot in use, [new_mapping_entry] of a
    further key never ends, however many turns its probe is given. *)
Theorem kv_full_table_hangs (t : list mapping_entry) (slots : Z) (k : list Z) (n len off : Z) :
  table_ok t slots -> 0 <= n <= zlen k -> (forall i e, zget t i = Some e -> in_use e) ->
  forall fuel, new_entry fuel t slots k n len off = Err OutOfFuel.
Proof.
  intros T Hn Hfull fuel. unfold new_entry. pose proof (tk_pos _ _ T) as Hp. pose proof (tk_len _ _ T) as Hl.
  rewrite hash_slot_ok by (done || lia). cbn [rbind]. set (k' := take (Z.to_nat n) k). pose proof (home_range slots k' ltac:(lia)) as Hh.
  destruct (zget_Some t (home slots k')) as (e & E); [lia|]. rewrite (proj2 (aget_ok _ _ _) E). cbn [rbind].
  rewrite in_use_eqb by by eapply Hfull. destruct (home_walk t slots k' T) as (l & W & Hlen).
  unfold find_next_slot. rewrite i32_id, u32_id by lia. rewrite (find_tail_spec _ _ _ W) by lia. cbn [rbind].
  destruct (list.last l) as [p|] eqn:Ep.
  - cbn [from_option]. destruct (walks_in_use t p [p] p (walks_last _ _ _ _ W Ep)) as (ep & Hep & _); [by left|].
    apply zget_range in Hep. unfold id. by rewrite (probe_full t slots) by (done || lia).
  - apply last_None in Ep as ->. inversion W as [s e' E' Hf| |]. simplify_eq. exfalso. by eapply Hf, Hfull.
Qed.

(** a short value read into a long buffer damages the host's PRP list: when the buffer
    spans more than two pages, so that PRP2 points to a list, but the stored value only
    needs two, [kv_retrieve] takes PRP2 for a data page and copies onto the list. *)
Theorem kv_retrieve_overwrites_prp_list (St : Type) (f : kv_ftl (St := St)) (c : nvme_kv_command) (entry : nat -> Z) (e : mapping_entry) (n : Z) (out : list (Z * list Z)) :
  prp1 c mod PAGE_SIZE = 0 -> prp2 c mod PAGE_SIZE = 0 -> PAGE_SIZE < e_length e <= 2 * PAGE_SIZE -> 2 * PAGE_SIZE < cmd_value_length c ->
  kv_retrieve f c entry e = Ok (n, out) ->
  exists bs, out !! 1%nat = Some (prp2 c, bs) /\ zlen bs = e_length e - PAGE_SIZE.
Proof.
  intros H1 H2 He Hc Hr. unfold kv_retrieve in Hr. rewrite Z.min_l in Hr by lia. unfold prp_pieces in Hr.
  assert (exists fuel, S (Z.to_nat (e_length e)) = S (S fuel)) as (fuel & Ef) by (exists (Z.to_nat (e_length e) - 1)%nat; unfold PAGE_SIZE in *; lia). rewrite Ef in Hr. clear Ef.
  cbn [prp_walk] in Hr. replace (e_length e =? 0) with false in Hr by (unfold PAGE_SIZE in *; lia). cbn [prp_next rbind] in Hr.
  rewrite prp_take_eq, H1, Z.min_r in Hr by (unfold PAGE_SIZE in *; lia). rewrite Z.sub_0_r in Hr. cbn [rbind] in Hr.
  replace (e_length e - PAGE_SIZE =? 0) with false in Hr by lia. replace (PAGE_SIZE <? e_length e - PAGE_SIZE) with false in Hr by lia.
  cbn [rbind] in Hr. rewrite prp_take_eq, H2, Z.sub_0_r, Z.min_l in Hr by lia. cbn [rbind] in Hr.
  rewrite Z.sub_diag, walk_nil in Hr. cbn [rbind copy_out pc_offset pc_io_size pc_paddr] in Hr. inv_res.
  unfold storage_read in *. repeat case_match; simplify_eq. eexists. split; [reflexivity|]. apply length_mem_read. lia.
Qed.

(** the small pool of the bitmap allocator does not say when it is full: the next
    allocation succeeds with an address in the half of the storage that belongs to the
    large pool, and the position returns to the start. *)
Theorem bitmap_overflow_aliases (find : Bitmap.find_area) (a : Bitmap.bitmap_state) (size n : Z) (off : Z) (a' : Bitmap.bitmap_state) :
  Bitmap.find_area_ok find -> Bitmap.dev_size a = size -> size mod (2 * Bitmap.SMALL_LENGTH) = 0 -> 0 <= size < 2 ^ 63 ->
  Bitmap.words (Bitmap.small a) = 600000 -> Bitmap.nbits (Bitmap.small a) = size / 2 / Bitmap.SMALL_LENGTH -> 0 <= Bitmap.last_pos (Bitmap.small a) ->
  (forall b, Bitmap.last_pos (Bitmap.small a) <= b < Bitmap.nbits (Bitmap.small a) -> b ∈ Bitmap.bitmap (Bitmap.small a)) ->
  n <= Bitmap.SMALL_LENGTH -> Bitmap.bitmap_allocate find n a = Ok (off, a') ->
  off mod Bitmap.SMALL_LENGTH = 0 /\ Bitmap.last_pos (Bitmap.small a') = 0 /\ size / 2 < off.
Proof.
  intros Hfind Hsize Hmod Hr Hw Hnb Hpos Hfull Hn E. unfold Bitmap.bitmap_allocate in E.
  replace (Bitmap.SMALL_LENGTH <? n) with false in E by lia. unfold Bitmap.pool_allocate in E.
  pose proof (Bitmap.fa_none _ Hfind _ _ _ Hpos Hfull) as Hlt. set (b := find _ _ _ _ _) in *.
  destruct (Z.ltb_spec b (Bitmap.words (Bitmap.small a) * Bitmap.BITS_PER_LONG)) as [Hb|]; [|done]. rewrite Hw in Hb.
  cbn [rbind] in E. injection E as <- <-. unfold Bitmap.SMALL_LENGTH, Bitmap.BITS_PER_LONG in *.
  assert (0 <= size / 2 / 1024) by (apply Z.div_pos; [apply Z.div_pos|]; lia).
  rewrite u64_id by lia. split; [by apply Z.mod_mul|]. split; [cbn; by replace (Bitmap.nbits (Bitmap.small a) <? b + 1) with true by lia|].
  apply Z.mod_divide in Hmod as [q Hq]; [|lia]. subst size. rewrite Hq in *.
  replace (q * (2 * 1024)) with (q * 1024 * 2) in * by lia. rewrite Z.div_mul in * by lia. rewrite Z.div_mul in Hnb by lia. lia.
Qed.

(** ** Concrete instances *)

(** A command on the one-byte key [k], its buffer at a page boundary; the byte at a host
    address is the number of its page. *)
Definition demo_cmd (op k words page : Z) : nvme_kv_command :=
  mk_kv_command op (PAGE_SIZE * page) 0 words 0 0 0 (k :: replicate 15 0).
Definition demo_rq (op k words page : Z) : kv_request :=
  mk_rq (demo_cmd op k words page) (fun a => a / PAGE_SIZE) (fun _ => 0) 0.

Definition demo_static : AppendOnly.append_only_state := AppendOnly.mk_append_only 0 0 0.

(** The replies of a fresh device of four slots on the append-only allocator. *)
Definition demo_replies (size : Z) (qs : list kv_request) : res (list kv_reply) :=
  let! f := kv_init_namespace (48 * 4) size demo_static (fun _ => 0) in
  let! (reps, _) := kv_run f qs in
  Ok reps.

Definition plain (n : Z) (out : list (Z * list Z)) : kv_reply := mk_reply n KV_SUCCESS out.

(** a deletion loses another key: three stored keys share a home slot; the third is
    retrieved, the second deleted, and the third is no longer there, the first still is. *)
Theorem kv_delete_loses_other_key :
  demo_replies 4096
    [demo_rq nvme_cmd_kv_store 0 1 7; demo_rq nvme_cmd_kv_store 4 1 8; demo_rq nvme_cmd_kv_store 8 1 9;
     demo_rq nvme_cmd_kv_retrieve 8 1 20; demo_rq nvme_cmd_kv_delete 4 0 0; demo_rq nvme_cmd_kv_retrieve 8 1 20; demo_rq nvme_cmd_kv_retrieve 0 1 20] =
  Ok [plain 0 []; plain 0 []; plain 0 [];
      plain 4 [(PAGE_SIZE * 20, [9; 9; 9; 9])]; plain 0 []; mk_reply 0 KV_ERR_KEY_NOT_EXIST []; plain 4 [(PAGE_SIZE * 20, [7; 7; 7; 7])]].
Proof. vm_compute. reflexivity. Qed.

(** on the append-only allocator, which the build selects, a value that grows overwrites
    its neighbour: after storing four bytes under each of two keys and then eight bytes
    under the first, the second key's value is the end of the first's. *)
Theorem kv_growing_value_overwrites_neighbour :
  demo_replies 4096
    [demo_rq nvme_cmd_kv_store 0 1 7; demo_rq nvme_cmd_kv_store 1 1 8; demo_rq nvme_cmd_kv_store 0 2 9; demo_rq nvme_cmd_kv_retrieve 1 1 20] =
  Ok [plain 0 []; plain 0 []; plain 0 []; plain 4 [(PAGE_SIZE * 20, [9; 9; 9; 9])]].
Proof. vm_compute. reflexivity. Qed.

(** A buffer within the page of PRP1. *)
Lemma one_page_ok a b entry n : a mod PAGE_SIZE = 0 -> 0 <= n <= PAGE_SIZE -> is_ok (prp_pieces a b entry n).
Proof.
  intros Ha Hn. pose proof (prp_pieces_spec a b entry n (proj1 Hn)) as Hs. cbn beta zeta in Hs. rewrite Ha, Z.sub_0_r, Z.min_l, Z.sub_diag in Hs by lia.
  pose proof (Z.mod_pos_bound b PAGE_SIZE ltac:(done)). replace (PAGE_SIZE - b mod PAGE_SIZE <? 0) with false in Hs by lia.
  destruct Hs as (ps & E & _). by exists ps.
Qed.

Lemma demo_rq_ok op k words page : 0 <= words <= 1024 -> request_ok 1 (demo_rq op k words page).
Proof.
  intros Hw. split; [done|done|]. intros n Hn. apply one_page_ok; [cbn; rewrite Z.mul_comm; by apply Z.mod_mul|].
  unfold rq_len, cmd_value_length in Hn. cbn [rq_cmd demo_rq demo_cmd value_len] in Hn. rewrite Z.shiftl_mul_pow2, u32_id in Hn by lia.
  unfold PAGE_SIZE. lia.
Qed.

Definition demo_session : list kv_request :=
  [demo_rq nvme_cmd_kv_store 0 2 7; demo_rq nvme_cmd_kv_store 4 1 8; demo_rq nvme_cmd_kv_store 0 1 9; demo_rq nvme_cmd_kv_retrieve 4 1 20;
   demo_rq nvme_cmd_kv_delete 4 0 0; demo_rq nvme_cmd_kv_exist 0 0 0].

(** Discharge the side conditions of a session at concrete commands, one command at a time. *)
Ltac demo_admissible := vm_compute; repeat split; first [reflexivity | discriminate | right; split; discriminate | tauto].
Ltac demo_turn :=
  split; [by apply demo_rq_ok|split; [demo_admissible|]];
  let A' := fresh "A" in let Hst := fresh "Hst" in
  intros ? A' Hst; inversion Hst; subst; clear Hst; try discriminate;
  repeat match goal with H : allocate _ _ = Ok _ |- _ => injection H as <- <- end;
  try (match goal with H : opcode _ <> _ |- _ => by destruct H end);
  try (match goal with H : a_map _ !! _ = _ |- _ => vm_compute in H; discriminate H end).

Lemma demo_session_ok a' : init 4096 demo_static = Ok a' -> session_ok 1 4096 4 (mk_abs ∅ 0 a') demo_session.
Proof.
  intros [= <-]. unfold demo_session. repeat (demo_turn; []). demo_turn; exact I.
Qed.


(** Three keys on one chain, as the commands above leave them. *)
Definition demo_entry (k off next : Z) : mapping_entry := mk_entry (k :: replicate 17 0) off 4 next.
Definition demo_table : list mapping_entry :=
  [demo_entry 4 4 1; demo_entry 8 8 NO_SLOT; mk_entry (replicate 18 0) NO_MEM NO_MEM NO_SLOT; demo_entry 0 0 0].

Lemma zget_four {A} (a b c d : A) i x : zget [a; b; c; d] i = Some x -> i = 0 /\ x = a \/ i = 1 /\ x = b \/ i = 2 /\ x = c \/ i = 3 /\ x = d.
Proof.
  intros E. pose proof (zget_range _ _ _ E) as Hi. cbn in Hi.
  assert (i = 0 \/ i = 1 \/ i = 2 \/ i = 3) as [->|[->|[->| ->]]] by lia; cbn in E; injection E as <-; auto 7.
Qed.

Lemma demo_table_ok : table_ok demo_table 4.
Proof.
  split; [done|lia|..].
  - by intros i e [[_ ->]|[[_ ->]|[[_ ->]|[_ ->]]]]%zget_four.
  - intros i e [[_ ->]|[[_ ->]|[[_ ->]|[_ ->]]]]%zget_four; cbn; auto; right; lia.
  - intros i e [[_ ->]|[[_ ->]|[[_ ->]|[_ ->]]]]%zget_four Hf; try done; by exfalso; apply Hf.
  - exists (fun i => if i =? 3 then 0%nat else if i =? 0 then 1%nat else 2%nat).
    intros i e [[-> ->]|[[-> ->]|[[-> ->]|[-> ->]]]]%zget_four Hn; try done; cbn; lia.
Qed.

Definition demo_kv : kv_ftl (St := AppendOnly.append_only_state) :=
  mk_kv_ftl demo_table 4 (AppendOnly.mk_append_only 12 16384 12) (Null :: Open (mk_ctx 0 0 0) :: replicate 14 Null ++ [Garbage]) (fun _ => 0) 16384.

Lemma demo_walk : walks demo_table 3 [3; 0; 1].
Proof.
  eapply walk_next; [reflexivity|done|done|]. eapply walk_next; [reflexivity|done|done|]. by eapply walk_last.
Qed.

Lemma kv_delete_correct_witness :
  exists f' d, delete_mapping_entry demo_kv (demo_cmd nvme_cmd_kv_delete 4 0 0) = Ok f' /\ lookup_slot demo_table 4 [4] = Some d /\
    found (kv_mapping_table f') 4 [4] = None /\ found (kv_mapping_table f') 4 [8] = None /\ found (kv_mapping_table f') 4 [0] = Some (0, 4).
Proof.
  destruct (kv_delete_correct AppendOnly.append_only_state demo_kv (demo_cmd nvme_cmd_kv_delete 4 0 0) 4 4) as (f' & d & E & Hd & Hgone & Hoth);
    [exact demo_table_ok|done|vm_compute; split; discriminate|vm_compute; reflexivity|].
  change (lookup_slot demo_table 4 [4] = Some d) in Hd. pose proof Hd as Hd0. vm_compute in Hd. injection Hd as <-.
  exists f', 0. split; [exact E|]. split; [exact Hd0|]. split; [exact Hgone|]. split.
  - etransitivity; [apply (Hoth [8] [3; 0; 1] 1); [done|exact demo_walk|reflexivity]|reflexivity].
  - etransitivity; [apply (Hoth [0] [3; 0; 1] 3); [done|exact demo_walk|reflexivity]|reflexivity].
Defined.

Lemma kv_iter_complete_witness :
  exists reps f' recss, read_all 4 demo_kv (mk_kv_command nvme_cmd_kv_iter_read PAGE_SIZE 0 256 1 0 0 (replicate 16 0)) (fun _ => 0) = Ok (reps, f') /\
    Forall2 carries reps recss /\ concat recss = record_of <$> [demo_entry 4 4 1; demo_entry 8 8 NO_SLOT; demo_entry 0 0 0].
Proof.
  apply (kv_iter_complete AppendOnly.append_only_state demo_kv (mk_kv_command nvme_cmd_kv_iter_read PAGE_SIZE 0 256 1 0 0 (replicate 16 0)) (fun _ => 0) (mk_ctx 0 0 0));
    [exact demo_table_ok|reflexivity|reflexivity|].
  intros n Hn. apply one_page_ok; [done|unfold PAGE_SIZE; lia].
Defined.

Lemma kv_full_table_hangs_witness :
  new_entry 10 [demo_entry 0 0 NO_SLOT] 1 [1] 1 4 4 = Err OutOfFuel /\ new_entry 1000 [demo_entry 0 0 NO_SLOT] 1 [1] 1 4 4 = Err OutOfFuel.
Proof.
  assert (forall i e, zget [demo_entry 0 0 NO_SLOT] i = Some e -> e = demo_entry 0 0 NO_SLOT) as He.
  { intros i e E. pose proof (zget_range _ _ _ E) as Hi. cbn in Hi. assert (i = 0) as -> by lia. by injection E as <-. }
  split; apply (kv_full_table_hangs [demo_entry 0 0 NO_SLOT] 1 [1] 1 4 4); try (by intros i e ->%He); try (cbn; lia).
  all: split; [done|lia|..]; try (by intros i e ->%He); [intros i e ->%He; by left|].
  all: exists (fun _ => 0%nat); by intros i e ->%He.
Defined.

(** A value of two pages, and a buffer of three. *)
Definition demo_long : nvme_kv_command :=
  mk_kv_command nvme_cmd_kv_retrieve PAGE_SIZE (2 * PAGE_SIZE) (3 * PAGE_SIZE / 4) 0 0 0 (replicate 16 0).
Definition demo_long_entry : mapping_entry := mk_entry (replicate 18 0) 0 (2 * PAGE_SIZE) NO_SLOT.
Definition demo_list (i : nat) : Z := PAGE_SIZE * (3 + Z.of_nat i).

Lemma kv_retrieve_overwrites_prp_list_witness :
  match kv_retrieve demo_kv demo_long demo_list demo_long_entry with
  | Ok (_, out) => exists bs, out !! 1%nat = Some (2 * PAGE_SIZE, bs) /\ zlen bs = 2 * PAGE_SIZE - PAGE_SIZE
  | Err _ => False
  end.
Proof.
  destruct (kv_retrieve demo_kv demo_long demo_list demo_long_entry) as [[n out]|] eqn:E.
  - apply (kv_retrieve_overwrites_prp_list AppendOnly.append_only_state demo_kv demo_long demo_list demo_long_entry n out);
      [done|done|vm_compute; split; congruence|done|exact E].
  - assert (is_ok (kv_retrieve demo_kv demo_long demo_list demo_long_entry)) as (x & Ex); [|congruence].
    clear E. eexists. vm_compute. reflexivity.
Defined.

(** The first clear bit, by looking at each. *)
Definition demo_find (m : gset Z) (size start n mask : Z) : Z :=
  default (size + 1) (List.find (fun b => bool_decide (b ∉ m)) (seqZ start (size - start))).

Lemma find_seqZ_least f k : forall s x b, List.find f (seqZ s (Z.of_nat k)) = Some x -> s <= b < x -> f b = false.
Proof.
  induction k as [|k IH]; intros s x b; [done|]. rewrite seqZ_cons by lia. cbn [List.find]. destruct (f s) eqn:Es.
  - intros [= <-] Hb. lia.
  - intros E Hb. destruct (decide (b = s)) as [->|]; [done|]. replace (Z.pred (Z.of_nat (S k))) with (Z.of_nat k) in E by lia.
    by apply (IH (Z.succ s) x b E); lia.
Qed.

Lemma demo_find_ok : Bitmap.find_area_ok demo_find.
Proof.
  split; unfold demo_find; intros m size start.
  - intros Hs. destruct (List.find _ _) as [b|] eqn:E; cbn; [|lia]. intros _.
    apply find_elem in E as [Hb%elem_of_seqZ Hm%bool_decide_eq_true]. unfold id. split; [lia|done].
  - intros b Hs Hb Hm. destruct (List.find _ _) as [x|] eqn:E; cbn; unfold id.
    + destruct (Z.leb_spec x b) as [|Hlt]; [done|]. exfalso. replace (size - start) with (Z.of_nat (Z.to_nat (size - start))) in E by lia.
      pose proof (find_seqZ_least _ _ _ _ b E ltac:(lia)) as Hf. by apply bool_decide_eq_false in Hf.
    + apply (List.find_none _ _) with (x := b) in E; [|apply list_elem_of_In, elem_of_seqZ; lia]. by apply bool_decide_eq_false in E.
  - intros Hs Hall. destruct (List.find _ _) as [b|] eqn:E; cbn; [|lia].
    apply find_elem in E as [Hb%elem_of_seqZ Hm%bool_decide_eq_true]. exfalso. apply Hm, Hall. lia.
Qed.

(** Two small units, both taken. *)
Definition demo_full : Bitmap.bitmap_state :=
  Bitmap.mk_bitmap (Bitmap.mk_pool 2 600000 {[0; 1]} 2 2) (Bitmap.mk_pool 0 300000 ∅ 0 0) 4096 0.

Lemma bitmap_overflow_aliases_witness :
  match Bitmap.bitmap_allocate demo_find 100 demo_full with
  | Ok (off, a') => off mod Bitmap.SMALL_LENGTH = 0 /\ Bitmap.last_pos (Bitmap.small a') = 0 /\ 4096 / 2 < off
  | Err _ => False
  end.
Proof.
  destruct (Bitmap.bitmap_allocate demo_find 100 demo_full) as [[off a']|] eqn:E.
  - apply (bitmap_overflow_aliases demo_find demo_full 4096 100 off a');
      [exact demo_find_ok|done|done|lia|done|done|done| |done|exact E].
    intros b Hb. cbn in Hb. lia.
  - assert (is_ok (Bitmap.bitmap_allocate demo_find 100 demo_full)) as (x & Ex); [|congruence].
    clear E. eexists. vm_compute. reflexivity.
Defined.

(** Two stores in a batch, on a fresh device. *)
Definition demo_subs : list sub_cmd :=
  [mk_sub nvme_cmd_kv_store [0] [1; 2; 3; 4]; mk_sub nvme_cmd_kv_store [1] [5; 6; 7; 8]].
Definition demo_batch : kv_request :=
  mk_rq (mk_kv_command nvme_cmd_kv_batch PAGE_SIZE 0 240 0 0 2 (replicate 16 0))
    (fun a => default 0 (zget (encode_batch demo_subs) (a - PAGE_SIZE))) (fun _ => 0) 0.

Lemma demo_subs_ok a' : init 4096 demo_static = Ok a' -> batch_ok 1 4096 4 (mk_abs ∅ 0 a') demo_subs.
Proof.
  intros [= <-]. split; [done|]. split; [done|]. split; [cbn; lia|]. split; [vm_compute; repeat split; congruence|].
  intros A' Hst. inversion Hst as [off a' Hn Ha|v0 cap Hs]; subst; [|by vm_compute in Hs]. injection Ha as <- <-.
  split; [done|]. split; [done|]. split; [cbn; lia|]. split; [vm_compute; repeat split; congruence|]. by intros.
Qed.

Lemma kv_batch_refines_witness :
  exists f f' A', kv_init_namespace (48 * 4) 4096 demo_static (fun _ => 0) = Ok f /\ serve f demo_batch = Ok (mk_reply 0 0 [], f') /\
    batch_steps (mk_abs ∅ 0 (allocator f)) demo_subs A'.
Proof.
  destruct (init_kv_ok 1 (48 * 4) 4096 demo_static (fun _ => 0)) as (f & E & F & Es & Ez); [vm_compute; by split|done|lia|vm_compute; by split|].
  destruct (kv_batch_refines AppendOnly.append_only_state 1 f (mk_abs ∅ 0 (allocator f)) [] demo_batch demo_subs) as (f' & A' & xs' & Er & Hst & _); try done.
  - apply one_page_ok; [done|]. vm_compute. split; congruence.
  - by repeat constructor.
  - rewrite Es, Ez. apply demo_subs_ok. unfold kv_init_namespace in E. by inv_res.
  - by exists f, f', A'.
Defined.

