(* ===== verification/CLayout.v ===== *)
(** * The layout of C structures with bit-fields

    pci.h and nvme.h describe registers as structures of bit-fields.  [offsets] computes
    where a field lies by the rules of the System V ABI (integers aligned to their size,
    a bit-field kept inside a storage unit of its declared type, allocated from the least
    significant bit); [get_bits] and [set_bits] read and write bits of memory, which is
    here one little-endian integer per page. *)

From Stdlib Require Import ZArith Lia String.
From stdpp Require Import base list numbers strings.
From S2P Require Import Prelude.

(** ** Bits *)
Definition get_bits (m off n : Z) : Z := Z.land (Z.shiftr m off) (Z.ones n).
Definition set_bits (m off n v : Z) : Z :=
  Z.lor (Z.ldiff m (Z.shiftl (Z.ones n) off)) (Z.shiftl (Z.land v (Z.ones n)) off).

(** ** Types *)
Inductive ctype : Type :=
| CInt (bytes : Z)
| CBits (bytes bits : Z)
| CArray (n : Z) (t : ctype)
| CStruct (fs : list (string * ctype))
| CUnion (fs : list (string * ctype)).

Definition U8 : ctype := CInt 1.
Definition U16 : ctype := CInt 2.
Definition U32 : ctype := CInt 4.
Definition U64 : ctype := CInt 8.

Definition round_up (x a : Z) : Z := (x + a - 1) / a * a.

(** In bits. *)
Fixpoint c_align (t : ctype) : Z :=
  match t with
  | CInt b | CBits b _ => 8 * b
  | CArray _ t => c_align t
  | CStruct fs | CUnion fs => fold_right (fun f a => Z.max (let '(_, t) := f in c_align t) a) 8 fs
  end.

(** Where a member of type [t] starts when the previous one ended at bit [pos]. *)
Definition place (t : ctype) (pos : Z) : Z :=
  match t with
  | CBits b n => if (pos + n - 1) / (8 * b) =? pos / (8 * b) then pos else round_up pos (8 * b)
  | _ => round_up pos (c_align t)
  end.

Fixpoint c_size (t : ctype) : Z :=
  match t with
  | CInt b => 8 * b
  | CBits _ n => n
  | CArray n t => n * c_size t
  | CStruct fs => round_up (fold_left (fun pos f => let '(_, t) := f in place t pos + c_size t) fs 0) (c_align t)
  | CUnion fs => round_up (fold_left (fun m f => let '(_, t) := f in Z.max m (c_size t)) fs 0) (c_align t)
  end.

(** Path, offset and width of every member, the members of members included; an
    anonymous member is named "" and leaves no trace in the path. *)
Definition join (p f : string) : string :=
  (if String.eqb f EmptyString then p else if String.eqb p EmptyString then f else p ++ "." ++ f)%string.

Fixpoint offsets (t : ctype) (path : string) (at_ : Z) : list (string * (Z * Z)) :=
  (path, (at_, c_size t)) ::
  match t with
  | CStruct fs =>
      snd (fold_left (fun acc f => let '(pos, out) := acc in let '(name, t) := f in
        let p := place t pos in (p + c_size t, out ++ offsets t (join path name) (at_ + p))) fs (0, []))
  | CUnion fs => flat_map (fun f => let '(name, t) := f in offsets t (join path name) at_) fs
  | _ => []
  end.

Fixpoint assoc (l : list (string * (Z * Z))) (f : string) : option (Z * Z) :=
  match l with
  | [] => None
  | (g, r) :: l => if String.eqb g f then Some r else assoc l f
  end.

(** The bits of member [f] of a structure at byte [base]. *)
Definition field (t : ctype) (base : Z) (f : string) : option (Z * Z) := assoc (offsets t EmptyString (8 * base)) f.
Definition sizeof (t : ctype) : Z := c_size t / 8.

(** [p->f = v], for the members of a structure whose offsets are [l]. *)
Definition store (l : list (string * (Z * Z))) (m : Z) (a : string * Z) : Z :=
  match assoc l (fst a) with Some (off, n) => set_bits m off n (snd a) | None => m end.

(** ** Bits, one at a time *)
Lemma get_bits_spec m off n i : 0 <= off -> 0 <= n -> 0 <= i ->
  Z.testbit (get_bits m off n) i = (i <? n) && Z.testbit m (i + off).
Proof.
  intros Ho Hn Hi. unfold get_bits. rewrite Z.land_spec, Z.shiftr_spec by lia.
  destruct (Z.ltb_spec i n); [by rewrite Z.ones_spec_low, andb_true_r by lia|by rewrite Z.ones_spec_high, andb_false_r by lia].
Qed.

Lemma set_bits_spec m off n v i : 0 <= off -> 0 <= n -> 0 <= i ->
  Z.testbit (set_bits m off n v) i =
    if (off <=? i) && (i <? off + n) then Z.testbit v (i - off) else Z.testbit m i.
Proof.
  intros Ho Hn Hi. unfold set_bits. rewrite Z.lor_spec, Z.ldiff_spec, !Z.shiftl_spec, Z.land_spec by lia.
  destruct (Z.leb_spec off i); cbn [andb].
  - destruct (Z.ltb_spec i (off + n)).
    + by rewrite Z.ones_spec_low, andb_true_r, andb_false_r by lia.
    + by rewrite Z.ones_spec_high, !andb_false_r, andb_true_r, orb_false_r by lia.
  - by rewrite !(Z.testbit_neg_r _ (i - off)), andb_true_r, orb_false_r by lia.
Qed.

Lemma get_set_same m off n v : 0 <= off -> 0 <= n -> get_bits (set_bits m off n v) off n = Z.land v (Z.ones n).
Proof.
  intros Ho Hn. apply Z.bits_inj'. intros i Hi. rewrite get_bits_spec, set_bits_spec, Z.land_spec by lia.
  destruct (Z.ltb_spec i n).
  - rewrite Z.ones_spec_low, andb_true_r by lia.
    replace ((off <=? i + off) && (i + off <? off + n)) with true by lia. cbn. f_equal. lia.
  - by rewrite Z.ones_spec_high, andb_false_r by lia.
Qed.

Lemma get_set_other m off n v off' n' : 0 <= off -> 0 <= n -> 0 <= off' -> 0 <= n' ->
  off + n <= off' \/ off' + n' <= off -> get_bits (set_bits m off n v) off' n' = get_bits m off' n'.
Proof.
  intros Ho Hn Ho' Hn' Hd. apply Z.bits_inj'. intros i Hi. rewrite !get_bits_spec, set_bits_spec by lia.
  destruct (Z.ltb_spec i n'); [|done]. cbn [andb].
  by replace ((off <=? i + off') && (i + off' <? off + n)) with false by lia.
Qed.

Lemma get_bits_range m off n : 0 <= n -> 0 <= get_bits m off n < 2 ^ n.
Proof. intros Hn. unfold get_bits. rewrite Z.land_ones by lia. apply Z.mod_pos_bound. lia. Qed.

(** A single bit is what [get_bits] of width one says. *)
Lemma get_bit m i : 0 <= i -> get_bits m i 1 = Z.b2z (Z.testbit m i).
Proof.
  intros Hi. apply Z.bits_inj'. intros j Hj. rewrite get_bits_spec by lia. destruct (Z.ltb_spec j 1).
  - replace j with 0 by lia. cbn [andb]. by rewrite Z.b2z_bit0.
  - destruct (Z.testbit m i); cbn [Z.b2z andb]; [|by rewrite Z.bits_0].
    symmetry. change 1 with (Z.ones 1). by rewrite Z.ones_spec_high by lia.
Qed.

Lemma get_bits_0 off n : get_bits 0 off n = 0.
Proof. unfold get_bits. by rewrite Z.shiftr_0_l. Qed.

(** A read of adjacent bits, in two parts. *)
Lemma get_bits_split m off a b : 0 <= off -> 0 <= a -> 0 <= b ->
  get_bits m off (a + b) = Z.lor (get_bits m off a) (Z.shiftl (get_bits m (off + a) b) a).
Proof.
  intros Ho Ha Hb. apply Z.bits_inj'. intros i Hi. rewrite Z.lor_spec, Z.shiftl_spec, (get_bits_spec m off (a + b)), (get_bits_spec m off a) by lia.
  destruct (Z.ltb_spec i a); cbn [andb].
  - rewrite (Z.testbit_neg_r _ (i - a)), orb_false_r by lia. by replace (i <? a + b) with true by lia.
  - rewrite get_bits_spec by lia. replace (i - a + (off + a)) with (i + off) by lia. cbn [orb]. f_equal. destruct (Z.ltb_spec i (a + b)), (Z.ltb_spec (i - a) b); lia || done.
Qed.

#[export] Hint Rewrite get_set_same using (try lia) : bits.
