(* ===== verification/PciRegs.v ===== *)
(** * pci.h: the structures of the configuration space and of the controller registers

    Each structure of pci.h as a [ctype], so that where a field lies is computed; the
    register numbers of the PCI standard the driver uses by name. *)

From Stdlib Require Import ZArith Lia String.
From stdpp Require Import base list numbers strings.
From S2P Require Import Prelude CLayout.

Local Open Scope string_scope.

Definition bits8 (n : Z) : ctype := CBits 1 n.
Definition bits16 (n : Z) : ctype := CBits 2 n.
Definition bits32 (n : Z) : ctype := CBits 4 n.
Definition bits64 (n : Z) : ctype := CBits 8 n.

(** ** Configuration space *)
Definition pci_header : ctype := CStruct [
  ("id", CStruct [("vid", U16); ("did", U16)]);
  ("cmd", CStruct [("iose", bits8 1); ("mse", bits8 1); ("bme", bits8 1); ("sce", bits8 1); ("mwie", bits8 1); ("vga", bits8 1);
    ("pee", bits8 1); ("fixed", bits8 1); ("see", bits8 1); ("fbe", bits8 1); ("id", bits8 1); ("rsvd", bits8 5)]);
  ("sts", CStruct [("rsvd1", bits8 3); ("is", bits8 1); ("cl", bits8 1); ("c66", bits8 1); ("rsvd2", bits8 1); ("fbc", bits8 1);
    ("dpd", bits8 1); ("devt", bits8 2); ("sta", bits8 1); ("rta", bits8 1); ("rma", bits8 1); ("sse", bits8 1); ("dpe", bits8 1)]);
  ("rid", U8);
  ("cc", CStruct [("pi", U8); ("scc", U8); ("bcc", U8)]);
  ("cls", U8);
  ("mlt", U8);
  ("htype", CStruct [("hl", bits8 7); ("mfd", bits8 1)]);
  ("bist", CStruct [("cc", bits8 4); ("rsvd", bits8 2); ("sb", bits8 1); ("bc", bits8 1)]);
  ("mlbar", CStruct [("rte", bits32 1); ("tp", bits32 2); ("pf", bits32 1); ("rsvd", bits32 10); ("ba", bits32 18)]);
  ("mulbar", U32);
  ("idbar", U32);
  ("bar3", U32);
  ("bar4", U32);
  ("bar5", U32);
  ("ccptr", U32);
  ("ss", CStruct [("ssvid", U16); ("ssid", U16)]);
  ("erom", U32);
  ("cap", U8);
  ("rsvd", CArray 7 U8);
  ("intr", CStruct [("iline", U8); ("ipin", U8)]);
  ("mgnt", U8);
  ("mlat", U8)].

Definition pci_pm_cap : ctype := CStruct [
  ("pid", CStruct [("cid", U8); ("next", U8)]);
  ("pc", CStruct [("vs", bits16 3); ("pmec", bits16 1); ("resv", bits16 1); ("dsi", bits16 1); ("auxc", bits16 3);
    ("d1s", bits16 1); ("d2s", bits16 1); ("psup", bits16 5)]);
  ("pmcs", CStruct [("ps", bits16 2); ("rsvd01", bits16 1); ("nsfrst", bits16 1); ("rsvd02", bits16 4); ("pmee", bits16 1);
    ("dse", bits16 4); ("dsc", bits16 2); ("pmes", bits16 1)]);
  ("ext", CArray 2 U8)].

Definition pci_msix_cap : ctype := CStruct [
  ("mxid", CStruct [("cid", U8); ("next", U8)]);
  ("mxc", CStruct [("ts", bits16 11); ("rsvd", bits16 3); ("fm", bits16 1); ("mxe", bits16 1)]);
  ("mtab", CStruct [("tbir", bits32 3); ("to", bits32 29)]);
  ("mpba", CStruct [("pbir", bits32 3); ("pbao", bits32 29)])].

Definition pcie_cap : ctype := CStruct [
  ("pxid", CStruct [("cid", U8); ("next", U8)]);
  ("pxcap", CStruct [("ver", bits8 4); ("dpt", bits8 4); ("si", bits8 1); ("imn", bits8 5); ("rsvd", bits8 2)]);
  ("pxdcap", CStruct [("mps", bits32 3); ("pfs", bits32 2); ("etfs", bits32 1); ("l0sl", bits32 3); ("l1l", bits32 3);
    ("rsvd", bits32 3); ("rer", bits32 1); ("rsvd2", bits32 2); ("csplv", bits32 8); ("cspls", bits32 2); ("flrc", bits32 1); ("rsvd3", bits32 3)]);
  ("pxdc", CStruct [("cere", bits16 1); ("nfere", bits16 1); ("fere", bits16 2); ("urre", bits16 1); ("ero", bits16 1); ("mps", bits16 3);
    ("ete", bits16 1); ("pfe", bits16 1); ("appme", bits16 1); ("ens", bits16 1); ("mrrs", bits16 3); ("iflr", bits16 1)]);
  ("pxds", CStruct [("ced", bits16 1); ("nfed", bits16 1); ("fed", bits16 1); ("urd", bits16 1); ("apd", bits16 1); ("tp", bits16 1);
    ("rsvd", bits16 10)]);
  ("pxlcap", CStruct [("sls", bits32 4); ("mlw", bits32 6); ("aspms", bits32 2); ("l0sel", bits32 3); ("l1el", bits32 3); ("cpm", bits32 1);
    ("sderc", bits32 1); ("dllla", bits32 20); ("lbnc", bits32 1); ("aoc", bits32 1); ("rsvd", bits32 1); ("pn", bits32 8)]);
  ("pxlc", CStruct [("aspmc", bits16 2); ("rsvd", bits16 1); ("rcb", bits16 1); ("rsvd2", bits16 2); ("ccc", bits16 1); ("es", bits16 1);
    ("ecpm", bits16 1); ("hawd", bits16 1); ("rsvd3", bits16 6)]);
  ("pxls", CStruct [("clc", bits16 4); ("nlw", bits16 6); ("rsvd", bits16 2); ("scc", bits16 1); ("rsvd2", bits16 3)]);
  ("pxdcap2", CStruct [("ctrs", bits32 4); ("ctds", bits32 1); ("arifs", bits32 1); ("aors", bits32 1); ("aocs32", bits32 1); ("aocs", bits32 1);
    ("ccs128", bits32 1); ("nprpr", bits32 1); ("ltrs", bits32 1); ("tphcs", bits32 2); ("rsvd", bits32 4); ("obffs", bits32 2);
    ("effs", bits32 1); ("eetps", bits32 1); ("meetp", bits32 2); ("rsvd2", bits32 8)]);
  ("pxdc2", CStruct [("ctv", bits32 4); ("ctd", bits32 1); ("rsvd", bits32 5); ("ltrme", bits32 1); ("rsvd2", bits32 2); ("obffe", bits32 2);
    ("rsvd3", bits32 17)])].

Definition pci_ext_cap : ctype := CStruct [("cid", U16); ("cver", bits16 4); ("next", bits16 12)].

Definition OFFS_PCI_HDR : Z := 0x0.
Definition OFFS_PCI_PM_CAP : Z := 0x40.
Definition OFFS_PCI_MSIX_CAP : Z := 0x50.
Definition OFFS_PCIE_CAP : Z := 0x60.
Definition PCI_CFG_SPACE_SIZE : Z := 256.
Definition OFFS_PCI_EXT_CAP : Z := PCI_CFG_SPACE_SIZE.

(** The PCI standard's numbers, by their names in the kernel. *)
Definition PCI_COMMAND : Z := 0x04.
Definition PCI_COMMAND_INTX_DISABLE : Z := 0x400.
Definition PCI_STATUS : Z := 0x06.
Definition PCI_BIST : Z := 0x0f.
Definition PCI_BIST_START : Z := 0x40.
Definition PCI_BASE_ADDRESS_0 : Z := 0x10.
Definition PCI_BASE_ADDRESS_MEM_TYPE_64 : Z := 0x04.
Definition PCI_INTERRUPT_LINE : Z := 0x3c.
Definition PCI_MSIX_FLAGS : Z := 2.
Definition PCI_MSIX_FLAGS_MASKALL : Z := 0x4000.
Definition PCI_MSIX_FLAGS_ENABLE : Z := 0x8000.
Definition PCI_HEADER_TYPE_NORMAL : Z := 0.
Definition PCI_BASE_CLASS_STORAGE : Z := 0x01.
Definition PCI_CAP_ID_PM : Z := 0x01.
Definition PCI_CAP_ID_MSIX : Z := 0x11.
Definition PCI_CAP_ID_EXP : Z := 0x10.
Definition PCI_PM_CAP_PME_D0 : Z := 0x0800.
Definition PCI_EXP_FLAGS : Z := 0x02.
Definition PCI_EXP_TYPE_ENDPOINT : Z := 0x0.
Definition PCI_EXT_CAP_ID_ERR : Z := 0x01.
Definition PCI_EXT_CAP_ID_VC : Z := 0x02.
Definition PCI_EXT_CAP_ID_DSN : Z := 0x03.
Definition PCI_EXT_CAP_ID_PWR : Z := 0x04.
Definition PCI_EXT_CAP_ID_ARI : Z := 0x0e.
Definition PCI_EXT_CAP_ID_SECPCI : Z := 0x19.
Definition PCI_MSIX_ENTRY_SIZE : Z := 16.

Definition NVMEV_DEVICE_ID : Z := 0x0110.
Definition NVMEV_VENDOR_ID : Z := 0x0c51.
Definition NVMEV_SUBSYSTEM_ID : Z := 0x370d.
Definition NVMEV_SUBSYSTEM_VENDOR_ID : Z := NVMEV_VENDOR_ID.
Definition NVMEV_INTX_IRQ : Z := 15.

(** ** Controller registers *)
Definition nvme_ctrl_regs_layout : ctype := CStruct [
  ("", CUnion [("cap", CStruct [("mqes", U16); ("cqr", bits16 1); ("ams", bits16 2); ("rsvd", bits16 5); ("to", bits16 8); ("dstrd", bits16 4);
     ("nssrs", bits16 1); ("css", bits16 8); ("rsvd2", bits16 3); ("mpsmin", bits16 4); ("mpsmax", bits16 4); ("rsvd3", bits16 8)]); ("u_cap", U64)]);
  ("", CUnion [("vs", CStruct [("rsvd", U8); ("mnr", U8); ("mjr", U16)]); ("u_vs", U32)]);
  ("intms", U32);
  ("intmc", U32);
  ("", CUnion [("cc", CStruct [("en", bits16 1); ("rsvd", bits16 3); ("css", bits16 3); ("mps", bits16 4); ("ams", bits16 3); ("shn", bits16 2);
     ("iosqes", bits16 4); ("iocqes", bits16 4); ("rsvd2", bits16 8)]); ("u_cc", U32)]);
  ("rsvd1", U32);
  ("", CUnion [("csts", CStruct [("rdy", bits32 1); ("cfs", bits32 1); ("shst", bits32 2); ("nssro", bits32 1); ("pp", bits32 1); ("rsvd", bits32 26)]);
     ("u_csts", U32)]);
  ("nssr", U32);
  ("", CUnion [("aqa", CStruct [("asqs", bits32 12); ("rsvd1", bits32 4); ("acqs", bits32 12); ("rsvd2", bits32 4)]); ("u_aqa", U32)]);
  ("", CUnion [("asq", CStruct [("rsvd", bits64 12); ("asqb", bits64 52)]); ("u_asq", U64)]);
  ("", CUnion [("acq", CStruct [("rsvd", bits64 12); ("acqb", bits64 52)]); ("u_acq", U64)]);
  ("", CUnion [("cmbloc", CStruct [("bir", bits32 3); ("rsvd", bits32 9); ("ofst", bits32 20)]); ("u_cmbloc", U32)]);
  ("", CUnion [("cmbsz", CStruct [("sqs", bits32 1); ("cqs", bits32 1); ("lists", bits32 1); ("rds", bits32 1); ("wds", bits32 1); ("rsvd", bits32 3);
     ("szu", bits32 4); ("sz", bits32 20)]); ("u_cmbsz", U32)])].

(** [struct __nvme_bar], the dispatcher's copy. *)
Definition nvme_bar_layout : ctype := CStruct [
  ("cap", U64); ("vs", U32); ("intms", U32); ("intmc", U32); ("cc", U32); ("rsvd1", U32); ("csts", U32); ("nssr", U32); ("aqa", U32);
  ("asq", U64); ("acq", U64); ("cmbloc", U32); ("cmbsz", U32)].

Definition CAP_CSS_BIT_NVM : Z := Z.shiftl 1 0.
Definition CAP_CSS_BIT_SPECIFIC : Z := Z.shiftl 1 6.
