(* ===== verification/PciConfig.v ===== *)
(** * pci.c: the PCI configuration space

    [NVMEV_PCI_INIT]'s settings fill a zeroed page with a header and capabilities;
    [nvmev_pci_read] and [nvmev_pci_write] are what the kernel's PCI core calls.  The
    page is one little-endian integer.  The specification is about bits: a write changes
    exactly the bits the mask of its register lets through. *)

From Stdlib Require Import ZArith Lia String.
From stdpp Require Import base list numbers strings.
From S2P Require Import Prelude CLayout PciRegs.

(** ** Data *)
Definition PAGE_SIZE : Z := 4096.

(** [msix_enabled]: of [nvmev_vdev->pdev], [None] while there is no [pdev]. *)
Record pci_state : Type := mk_pci {
  virtDev : Z;
  intx_disabled : bool;
  msix_enabled : option bool;
}.

Definition set_virtDev (s : pci_state) (m : Z) : pci_state := mk_pci m (intx_disabled s) (msix_enabled s).
Definition set_intx (s : pci_state) (b : bool) : pci_state := mk_pci (virtDev s) b (msix_enabled s).
Definition set_msix (s : pci_state) (b : option bool) : pci_state := mk_pci (virtDev s) (intx_disabled s) b.

(** ** Settings: lists of assignments to the members of a structure *)
Definition fill (t : ctype) (base : Z) (l : list (string * Z)) (m : Z) : Z := fold_left (store (offsets t "" (8 * base))) l m.

Local Open Scope string_scope.

(** Only the base address register depends on the machine. *)
Definition header_settings (ba mulbar : Z) : list (string * Z) := [
    ("id.did", NVMEV_DEVICE_ID);
    ("id.vid", NVMEV_VENDOR_ID);
    ("cmd.mse", 1);
    ("sts.cl", 1);
    ("htype.mfd", 0);
    ("htype.hl", PCI_HEADER_TYPE_NORMAL);
    ("rid", 0x01);
    ("cc.bcc", PCI_BASE_CLASS_STORAGE);
    ("cc.scc", 0x08);
    ("cc.pi", 0x02);
    ("mlbar.tp", Z.shiftr PCI_BASE_ADDRESS_MEM_TYPE_64 1);
    ("mlbar.ba", ba);
    ("mulbar", mulbar);
    ("ss.ssid", NVMEV_SUBSYSTEM_ID);
    ("ss.ssvid", NVMEV_SUBSYSTEM_VENDOR_ID);
    ("erom", 0x0);
    ("cap", OFFS_PCI_PM_CAP);
    ("intr.ipin", 0);
    ("intr.iline", NVMEV_INTX_IRQ)].
Definition PCI_HEADER_SETTINGS (base_pa : Z) (m : Z) : Z :=
  fill pci_header OFFS_PCI_HDR (header_settings (Z.shiftr (Z.land base_pa 0xFFFFFFFF) 14) (Z.shiftr base_pa 32)) m.

Definition PCI_PMCAP_SETTINGS (m : Z) : Z :=
  fill pci_pm_cap OFFS_PCI_PM_CAP [
    ("pid.cid", PCI_CAP_ID_PM);
    ("pid.next", OFFS_PCI_MSIX_CAP);
    ("pc.vs", 3);
    ("pmcs.nsfrst", 1);
    ("pmcs.ps", Z.shiftr PCI_PM_CAP_PME_D0 16)] m.

Definition PCI_MSIXCAP_SETTINGS (m : Z) : Z :=
  fill pci_msix_cap OFFS_PCI_MSIX_CAP [
    ("mxid.cid", PCI_CAP_ID_MSIX);
    ("mxid.next", OFFS_PCIE_CAP);
    ("mxc.mxe", 1);
    ("mxc.ts", 127);
    ("mtab.tbir", 0);
    ("mtab.to", 0x400);
    ("mpba.pbao", 0x1000);
    ("mpba.pbir", 0)] m.

Definition PCI_PCIECAP_SETTINGS (m : Z) : Z :=
  fill pcie_cap OFFS_PCIE_CAP [
    ("pxid.cid", PCI_CAP_ID_EXP);
    ("pxid.next", 0x0);
    ("pxcap.ver", PCI_EXP_FLAGS);
    ("pxcap.imn", 0);
    ("pxcap.dpt", PCI_EXP_TYPE_ENDPOINT);
    ("pxdcap.mps", 1);
    ("pxdcap.pfs", 0);
    ("pxdcap.etfs", 1);
    ("pxdcap.l0sl", 6);
    ("pxdcap.l1l", 2);
    ("pxdcap.rer", 1);
    ("pxdcap.csplv", 0);
    ("pxdcap.cspls", 0);
    ("pxdcap.flrc", 1)] m.

(** One extended capability [off] bytes into the extended space. *)
Definition ext_cap_at (off cid next : Z) : Z -> Z :=
  fill pci_ext_cap (OFFS_PCI_EXT_CAP + off) [("cid", cid); ("cver", 1); ("next", next)].

Definition PCI_EXTCAP_SETTINGS (m : Z) : Z :=
  let m := ext_cap_at 0 PCI_EXT_CAP_ID_ERR (PCI_CFG_SPACE_SIZE + 0x50) m in
  let m := ext_cap_at 0x50 PCI_EXT_CAP_ID_VC (PCI_CFG_SPACE_SIZE + 0x80) m in
  let m := ext_cap_at 0x80 PCI_EXT_CAP_ID_PWR (PCI_CFG_SPACE_SIZE + 0x90) m in
  let m := ext_cap_at 0x90 PCI_EXT_CAP_ID_ARI (PCI_CFG_SPACE_SIZE + 0x170) m in
  let m := ext_cap_at 0x170 PCI_EXT_CAP_ID_DSN (PCI_CFG_SPACE_SIZE + 0x1a0) m in
  ext_cap_at 0x1a0 PCI_EXT_CAP_ID_SECPCI 0 m.

(** The page [VDEV_INIT] allocates is zeroed; the settings of [NVMEV_PCI_INIT]. *)
Definition NVMEV_PCI_INIT_config (memmap_start : Z) : Z :=
  PCI_EXTCAP_SETTINGS (PCI_PCIECAP_SETTINGS (PCI_MSIXCAP_SETTINGS (PCI_PMCAP_SETTINGS (PCI_HEADER_SETTINGS memmap_start 0)))).
Definition init_pci (memmap_start : Z) : pci_state := mk_pci (NVMEV_PCI_INIT_config memmap_start) false None.

Local Close Scope string_scope.

(** ** Accesses *)

(** [memcpy] of [size] bytes at [where], within the page and within a [u32]. *)
Definition in_page (where_ size : Z) : bool := (0 <=? where_) && (where_ + size <=? PAGE_SIZE) && (0 <=? size) && (size <=? 4).

(** The return code, and the value with its low [size] bytes replaced. *)
Definition nvmev_pci_read (s : pci_state) (devfn where_ size val : Z) : res (Z * Z) :=
  if negb (devfn =? 0) then Ok (1, val)
  else if in_page where_ size then Ok (0, set_bits val 0 (8 * size) (get_bits (virtDev s) (8 * where_) (8 * size)))
  else Err OutOfBounds.

(** The bits a write may change, and what else it does.  [val] is the old value. *)
Definition write_mask (s : pci_state) (where_ val _val : Z) : Z * pci_state :=
  let changed b := negb (Z.land (Z.lxor val _val) b =? 0) in
  if where_ <? OFFS_PCI_PM_CAP then
    if where_ =? PCI_COMMAND then
      (PCI_COMMAND_INTX_DISABLE,
       if changed PCI_COMMAND_INTX_DISABLE then
         let s := set_intx s (negb (Z.land _val PCI_COMMAND_INTX_DISABLE =? 0)) in
         if intx_disabled s then s else set_virtDev s (store (offsets pci_header EmptyString 0) (virtDev s) ("sts.is"%string, 0))
       else s)
    else if where_ =? PCI_STATUS then (0xF200, s)
    else if where_ =? PCI_BIST then (PCI_BIST_START, s)
    else if where_ =? PCI_BASE_ADDRESS_0 then (0xFFFFC000, s)
    else if where_ =? PCI_INTERRUPT_LINE then (0xFF, s)
    else (0x0, s)
  else if where_ <? OFFS_PCI_MSIX_CAP then (0xFFFFFFFF, s)
  else if where_ <? OFFS_PCIE_CAP then
    if where_ - OFFS_PCI_MSIX_CAP =? PCI_MSIX_FLAGS then
      (Z.lor PCI_MSIX_FLAGS_MASKALL PCI_MSIX_FLAGS_ENABLE,
       match msix_enabled s with
       | Some _ => if changed PCI_MSIX_FLAGS_ENABLE then set_msix s (Some (negb (Z.land _val PCI_MSIX_FLAGS_ENABLE =? 0))) else s
       | None => s
       end)
    else (0x0, s)
  else (0xFFFFFFFF, s).

Definition nvmev_pci_write (s : pci_state) (devfn where_ size _val : Z) : res (Z * pci_state) :=
  if in_page where_ size then
    let val := get_bits (virtDev s) (8 * where_) (8 * size) in
    let '(mask, s) := write_mask s where_ val _val in
    let val := Z.lor (Z.land val (u32 (Z.lnot mask))) (Z.land _val mask) in
    Ok (0, set_virtDev s (set_bits (virtDev s) (8 * where_) (8 * size) val))
  else Err OutOfBounds.

(** ** Which bits a host can change *)

(** The kernel's PCI core issues naturally aligned accesses of one, two or four bytes. *)
Record pci_access (where_ size _val : Z) : Prop := {
  pa_size : size = 1 \/ size = 2 \/ size = 4;
  pa_aligned : where_ mod size = 0;
  pa_where : 0 <= where_ /\ where_ + size <= PAGE_SIZE;
  pa_val : 0 <= _val < 2 ^ (8 * size);
}.

(** The mask of the register at [where_]. *)
Definition reg_mask (where_ : Z) : Z :=
  if where_ <? OFFS_PCI_PM_CAP then
    if where_ =? PCI_COMMAND then PCI_COMMAND_INTX_DISABLE
    else if where_ =? PCI_STATUS then 0xF200
    else if where_ =? PCI_BIST then PCI_BIST_START
    else if where_ =? PCI_BASE_ADDRESS_0 then 0xFFFFC000
    else if where_ =? PCI_INTERRUPT_LINE then 0xFF
    else 0
  else if where_ <? OFFS_PCI_MSIX_CAP then 0xFFFFFFFF
  else if where_ <? OFFS_PCIE_CAP then
    if where_ =? OFFS_PCI_MSIX_CAP + PCI_MSIX_FLAGS then 0xC000 else 0
  else 0xFFFFFFFF.

(** The interrupt status bit, which the device clears when INTx is enabled again. *)
Definition IS_BIT : Z := 51.
(** The INTx disable bit of the command register. *)
Definition INTX_BIT : Z := 42.

Lemma write_mask_mask s w v _v : fst (write_mask s w v _v) = reg_mask w.
Proof.
  unfold write_mask, reg_mask. replace (w - OFFS_PCI_MSIX_CAP =? PCI_MSIX_FLAGS) with (w =? OFFS_PCI_MSIX_CAP + PCI_MSIX_FLAGS) by lia.
  by repeat case_match.
Qed.

Lemma reg_mask_range w : 0 <= reg_mask w < 2 ^ 32.
Proof. unfold reg_mask. repeat case_match; cbv; done. Qed.

Lemma write_mask_frame s w v _v i : 0 <= i -> i <> IS_BIT ->
  Z.testbit (virtDev (snd (write_mask s w v _v))) i = Z.testbit (virtDev s) i.
Proof.
  intros Hi Hne. unfold write_mask, IS_BIT in *. repeat case_match; try done. cbn [snd set_virtDev virtDev].
  change (store (offsets pci_header EmptyString 0) ?m ("sts.is"%string, 0)) with (set_bits m 51 1 0). rewrite set_bits_spec by lia.
  by replace ((51 <=? i) && (i <? 51 + 1)) with false by lia.
Qed.

Lemma u32_lnot_spec m i : 0 <= i < 32 -> Z.testbit (u32 (Z.lnot m)) i = negb (Z.testbit m i).
Proof. intros Hi. unfold u32. rewrite Z.mod_pow2_bits_low by lia. apply Z.lnot_spec. lia. Qed.

(** A write, bit by bit. *)
Lemma pci_write_spec s devfn w size _v : pci_access w size _v -> exists s',
  nvmev_pci_write s devfn w size _v = Ok (0, s') /\
  intx_disabled s' = intx_disabled (snd (write_mask s w (get_bits (virtDev s) (8 * w) (8 * size)) _v)) /\
  forall i, 0 <= i -> i <> IS_BIT ->
    Z.testbit (virtDev s') i =
      if (8 * w <=? i) && (i <? 8 * (w + size)) && Z.testbit (reg_mask w) (i - 8 * w)
      then Z.testbit _v (i - 8 * w) else Z.testbit (virtDev s) i.
Proof.
  intros [Hs Ha Hw Hv]. unfold nvmev_pci_write, in_page.
  replace ((0 <=? w) && (w + size <=? PAGE_SIZE) && (0 <=? size) && (size <=? 4)) with true by lia.
  pose proof (write_mask_mask s w (get_bits (virtDev s) (8 * w) (8 * size)) _v) as Hm.
  pose proof (write_mask_frame s w (get_bits (virtDev s) (8 * w) (8 * size)) _v) as Hf.
  destruct (write_mask s w _ _v) as [mask s1]. cbn [fst snd] in Hm, Hf. subst mask. eexists. split; [done|]. split; [done|].
  intros i Hi Hne. cbn [set_virtDev virtDev]. rewrite set_bits_spec by lia. rewrite Hf by done.
  replace (8 * (w + size)) with (8 * w + 8 * size) by lia.
  destruct ((8 * w <=? i) && (i <? 8 * w + 8 * size)) eqn:Hr; cbn [andb]; [|done].
  rewrite Z.lor_spec, !Z.land_spec, u32_lnot_spec by lia. rewrite get_bits_spec by lia.
  replace (i - 8 * w <? 8 * size) with true by lia. replace (i - 8 * w + 8 * w) with i by lia.
  destruct (Z.testbit (reg_mask w) (i - 8 * w)); cbn [negb andb]; by rewrite ?andb_false_r, ?andb_true_r, ?orb_false_r, ?orb_false_l.
Qed.

(** The registers a host may write, as bits of the page: INTx disable, the error bits of
    the status register, BIST start, BAR0 above 16 KiB, the interrupt line, the power
    management capability, the two MSI-X control bits, and everything from the PCI
    Express capability on. *)
Definition host_writable (i : Z) : bool :=
  (i =? INTX_BIT) || ((48 <=? i) && (i <? 64) && Z.testbit 0xF200 (i - 48)) || (i =? 126) || ((142 <=? i) && (i <? 160)) ||
  ((480 <=? i) && (i <? 488)) || ((8 * OFFS_PCI_PM_CAP <=? i) && (i <? 8 * OFFS_PCI_MSIX_CAP)) || (i =? 670) || (i =? 671) ||
  (8 * OFFS_PCIE_CAP <=? i).

Definition masks_writable : bool :=
  forallb (fun size => forallb (fun w => negb (w mod size =? 0) ||
    forallb (fun j => implb (Z.testbit (reg_mask w) j) (host_writable (8 * w + j))) (zseq (8 * size))) (zseq OFFS_PCIE_CAP)) [1; 2; 4].

Lemma masks_writable_true : masks_writable = true.
Proof. by vm_compute. Qed.

Lemma zseq_elem n i : i ∈ zseq n <-> 0 <= i < n.
Proof. unfold zseq. rewrite elem_of_seqZ. lia. Qed.

Lemma mask_writable w size _v i : pci_access w size _v -> 8 * w <= i < 8 * (w + size) ->
  Z.testbit (reg_mask w) (i - 8 * w) = true -> host_writable i = true.
Proof.
  intros [Hs Ha Hw _] Hi Ht. destruct (Z.ltb_spec w OFFS_PCIE_CAP) as [Hlt|Hge].
  - pose proof masks_writable_true as H. unfold masks_writable in H. rewrite forallb_forall in H.
    assert (In size [1; 2; 4]) as Hin by (cbn; lia). specialize (H _ Hin). rewrite forallb_forall in H.
    specialize (H w). rewrite <- list_elem_of_In, zseq_elem in H. specialize (H ltac:(lia)). rewrite Ha in H. cbn [Z.eqb negb orb] in H.
    rewrite forallb_forall in H. specialize (H (i - 8 * w)). rewrite <- list_elem_of_In, zseq_elem in H. specialize (H ltac:(lia)).
    rewrite Ht in H. cbn [implb] in H. by replace (8 * w + (i - 8 * w)) with i in H by lia.
  - unfold host_writable. replace (8 * OFFS_PCIE_CAP <=? i) with true by lia. by rewrite orb_true_r.
Qed.

Definition write_all (devfn : Z) : list (Z * Z * Z) -> pci_state -> res pci_state :=
  fix go l s := match l with
  | [] => Ok s
  | (w, size, v) :: l => let! r := nvmev_pci_write s devfn w size v in go l (snd r)
  end.

(** The device's idea of INTx is the command register's. *)
Definition intx_synced (s : pci_state) : Prop := intx_disabled s = Z.testbit (virtDev s) INTX_BIT.

Lemma land_bit a k : 0 <= k -> negb (Z.land a (2 ^ k) =? 0) = Z.testbit a k.
Proof.
  intros Hk. destruct (Z.testbit a k) eqn:E.
  - apply negb_true_iff, Z.eqb_neq. intros H. assert (Z.testbit (Z.land a (2 ^ k)) k = false) as Hf by (by rewrite H, Z.bits_0).
    rewrite Z.land_spec, E, Z.pow2_bits_true in Hf by lia. done.
  - apply negb_false_iff, Z.eqb_eq. apply Z.bits_inj'. intros n Hn. rewrite Z.land_spec, Z.bits_0, Z.pow2_bits_eqb by lia.
    destruct (Z.eqb_spec k n) as [->|]; [by rewrite E|by rewrite andb_false_r].
Qed.

Lemma write_mask_intx s w v _v : intx_disabled (snd (write_mask s w v _v)) =
  if (w =? PCI_COMMAND) && xorb (Z.testbit v 10) (Z.testbit _v 10) then Z.testbit _v 10 else intx_disabled s.
Proof.
  unfold write_mask. change PCI_COMMAND_INTX_DISABLE with (2 ^ 10). rewrite !land_bit, Z.lxor_spec by lia.
  destruct (Z.eqb_spec w PCI_COMMAND) as [->|]; cbn [andb].
  - cbn [Z.ltb Z.compare PCI_COMMAND OFFS_PCI_PM_CAP Pos.compare Pos.compare_cont]. case_match; [|done]. by case_match.
  - by repeat case_match.
Qed.

Lemma bit_above v n i : 0 <= v < 2 ^ n -> 0 <= n <= i -> Z.testbit v i = false.
Proof. intros Hv Hn. rewrite <- (Z.mod_small v (2 ^ n)) by done. apply Z.mod_pow2_bits_high. lia. Qed.

(** Only a write at the command register reaches the INTx bit. *)
Lemma intx_reached w size _v : pci_access w size _v ->
  (8 * w <=? INTX_BIT) && (INTX_BIT <? 8 * (w + size)) && Z.testbit (reg_mask w) (INTX_BIT - 8 * w) =
    (w =? PCI_COMMAND) && (2 <=? size).
Proof.
  intros Hp. unfold INTX_BIT. destruct (Z.eqb_spec w PCI_COMMAND) as [->|Hne]; cbn [andb].
  - change (Z.testbit _ _) with true. unfold PCI_COMMAND. lia.
  - destruct (Z.leb_spec (8 * w) 42); [|done]. destruct Hp as [Hs Ha [Hw _] _].
    assert (w = 0 \/ w = 1 \/ w = 2 \/ w = 3 \/ w = 5) as [-> | [-> | [-> | [-> | ->]]]] by (unfold PCI_COMMAND in *; lia);
      cbn [reg_mask]; unfold reg_mask; cbn; by rewrite ?Z.bits_0, ?andb_false_r.
Qed.

Lemma pci_write_intx s devfn w size _v s' : pci_access w size _v -> nvmev_pci_write s devfn w size _v = Ok (0, s') ->
  intx_synced s -> intx_synced s'.
Proof.
  intros Hp E Hs. destruct (pci_write_spec s devfn w size _v Hp) as (s1 & E1 & Hi & Hb).
  assert (s' = s1) as -> by congruence. unfold intx_synced in *.
  rewrite Hi, (Hb INTX_BIT), (intx_reached w size _v), write_mask_intx by (done || unfold IS_BIT, INTX_BIT; lia).
  destruct (Z.eqb_spec w PCI_COMMAND) as [->|]; cbn [andb]; [|done]. destruct Hp as [Hsz _ _ Hv].
  rewrite get_bits_spec by (unfold PCI_COMMAND; lia). rewrite Hs. change (10 + 8 * PCI_COMMAND) with INTX_BIT.
  change (INTX_BIT - 8 * PCI_COMMAND) with 10. destruct (Z.leb_spec 2 size).
  - replace (10 <? 8 * size) with true by lia. cbn [andb]. by destruct (Z.testbit (virtDev s) INTX_BIT), (Z.testbit _v 10).
  - rewrite (bit_above _v (8 * size) 10), xorb_false_r by lia. by replace (10 <? 8 * size) with false by lia.
Qed.
