(* ===== verification/PciTheorems.v ===== *)
(** * What a host sees of the configuration space

    Enumeration of the capabilities, sizing of the base address register, and the
    effect of any sequence of writes. *)

From Stdlib Require Import ZArith Lia String.
From stdpp Require Import base list numbers strings.
From S2P Require Import Prelude CLayout PciRegs PciConfig.

(** ** The host's side *)

(** The list of capabilities: identifier and position, from the pointer in the header. *)
Fixpoint capabilities (fuel : nat) (m p : Z) : list (Z * Z) :=
  match fuel with
  | O => []
  | S fuel => if p =? 0 then [] else (get_bits m (8 * p) 8, p) :: capabilities fuel m (get_bits m (8 * (p + 1)) 8)
  end.

(** Extended capabilities start at 0x100; identifier, version and next share a word. *)
Fixpoint ext_capabilities (fuel : nat) (m p : Z) : list (Z * Z) :=
  match fuel with
  | O => []
  | S fuel => if p =? 0 then [] else (get_bits m (8 * p) 16, p) :: ext_capabilities fuel m (get_bits m (8 * p + 20) 12)
  end.

(** A 64-bit memory BAR without its low flag bits. *)
Definition bar_address (lo hi : Z) : Z := Z.lor (Z.shiftl hi 32) (Z.land lo 0xFFFFFFF0).
(** The lowest bit of a BAR that can be set is its size. *)
Definition bar_size (probed : Z) : Z := let v := Z.land probed 0xFFFFFFF0 in Z.land v (- v).

(** ** Reading back what the settings wrote *)

(** The member of each assignment, and the value. *)
Definition writes (t : ctype) (base : Z) (l : list (string * Z)) : list (option (Z * Z) * Z) :=
  (fun a => (assoc (offsets t EmptyString (8 * base)) (fst a), snd a)) <$> l.

Definition inside (lo hi : Z) (l : list (option (Z * Z) * Z)) : bool :=
  forallb (fun a => match fst a with Some (off, n) => (0 <=? off) && (0 <=? n) && (lo <=? off) && (off + n <=? hi) | None => true end) l.

(** The value last assigned to exactly the bits [off, off+n), if nothing else touches them. *)
Fixpoint last_write (l : list (option (Z * Z) * Z)) (off n : Z) (acc : option Z) : option Z :=
  match l with
  | [] => acc
  | (None, _) :: l => last_write l off n acc
  | (Some (o, k), v) :: l =>
      last_write l off n (if (o =? off) && (k =? n) then Some v
        else if (0 <=? o) && (0 <=? k) && ((o + k <=? off) || (off + n <=? o)) then acc else None)
  end.

Lemma fill_frame t base l lo hi m off n : inside lo hi (writes t base l) = true -> 0 <= off -> 0 <= n ->
  off + n <= lo \/ hi <= off -> get_bits (fill t base l m) off n = get_bits m off n.
Proof.
  unfold fill, inside, writes. intros Hin Ho Hn Hd. revert m Hin. induction l as [|a l IH]; intros m Hin; [done|].
  cbn [fmap list_fmap forallb fold_left fst] in *. apply andb_true_iff in Hin as [Ha Hin]. rewrite IH by done. unfold store.
  destruct (assoc _ _) as [[o k]|]; [|done]. apply get_set_other; lia.
Qed.

Lemma fill_get_from t base l m off n acc v : 0 <= off -> 0 <= n -> (forall w, acc = Some w -> get_bits m off n = Z.land w (Z.ones n)) ->
  last_write (writes t base l) off n acc = Some v -> get_bits (fill t base l m) off n = Z.land v (Z.ones n).
Proof.
  unfold fill, writes. intros Ho Hn.
  revert acc m. induction l as [|a l IH]; intros acc m Hacc Hl; cbn [fmap list_fmap last_write fold_left] in *; [by apply Hacc|].
  unfold store at 2. destruct (assoc _ _) as [[o k]|]; [|by eapply IH]. eapply IH; [|exact Hl]. intros w Hw.
  destruct ((o =? off) && (k =? n)) eqn:E1.
  - injection Hw as <-. assert (o = off /\ k = n) as [-> ->] by lia. by apply get_set_same.
  - destruct ((0 <=? o) && (0 <=? k) && ((o + k <=? off) || (off + n <=? o))) eqn:E2; [|done].
    rewrite get_set_other by lia. by apply Hacc.
Qed.

Lemma fill_get t base l m off n v : 0 <= off -> 0 <= n -> last_write (writes t base l) off n None = Some v ->
  get_bits (fill t base l m) off n = Z.land v (Z.ones n).
Proof. intros Ho Hn. by apply fill_get_from. Qed.

(** In zeroed memory. *)
Lemma fill_get_zero t base l off n v : 0 <= off -> 0 <= n -> last_write (writes t base l) off n (Some 0) = Some v ->
  get_bits (fill t base l 0) off n = Z.land v (Z.ones n).
Proof. intros Ho Hn. apply fill_get_from; [done..|]. intros w [= <-]. by rewrite get_bits_0. Qed.

(** A structure's settings leave the bits of the others alone. *)
Ltac frame lo hi := intros; apply (fill_frame _ _ _ lo hi); [by vm_compute|lia..].

Section Settings.
Context (base_pa m : Z).

Lemma header_frame off n : 0 <= n -> 8 * 0x40 <= off -> get_bits (PCI_HEADER_SETTINGS base_pa m) off n = get_bits m off n.
Proof. frame 0 (8 * 0x40). Qed.

Lemma pm_frame off n : 0 <= off -> 0 <= n -> off + n <= 8 * 0x40 \/ 8 * 0x48 <= off -> get_bits (PCI_PMCAP_SETTINGS m) off n = get_bits m off n.
Proof. frame (8 * 0x40) (8 * 0x48). Qed.

Lemma msix_frame off n : 0 <= off -> 0 <= n -> off + n <= 8 * 0x50 \/ 8 * 0x5c <= off -> get_bits (PCI_MSIXCAP_SETTINGS m) off n = get_bits m off n.
Proof. frame (8 * 0x50) (8 * 0x5c). Qed.

Lemma pcie_frame off n : 0 <= off -> 0 <= n -> off + n <= 8 * 0x60 \/ 8 * 0x84 <= off -> get_bits (PCI_PCIECAP_SETTINGS m) off n = get_bits m off n.
Proof. frame (8 * 0x60) (8 * 0x84). Qed.

Lemma ext_frame off n : 0 <= off -> 0 <= n -> off + n <= 8 * 0x100 -> get_bits (PCI_EXTCAP_SETTINGS m) off n = get_bits m off n.
Proof.
  intros. unfold PCI_EXTCAP_SETTINGS, ext_cap_at.
  repeat (rewrite (fill_frame pci_ext_cap _ _ (8 * 0x100) (8 * 0x2a4)) by (first [lia | vm_compute; reflexivity])). done.
Qed.
End Settings.

(** Only the header depends on the address of the reserved memory. *)
Lemma config_header base off n : 0 <= off -> 0 <= n -> off + n <= 8 * 0x40 ->
  get_bits (NVMEV_PCI_INIT_config base) off n = get_bits (PCI_HEADER_SETTINGS base 0) off n.
Proof. intros. unfold NVMEV_PCI_INIT_config. by rewrite ext_frame, pcie_frame, msix_frame, pm_frame by lia. Qed.


Ltac read_config :=
  unfold NVMEV_PCI_INIT_config; rewrite ?ext_frame, ?pcie_frame, ?msix_frame, ?pm_frame by lia;
  (etransitivity; [eapply fill_get; first [lia | vm_compute; reflexivity]|vm_compute; reflexivity]).

Lemma config_pm base : let m := NVMEV_PCI_INIT_config base in
  get_bits m (8 * 0x40) 8 = PCI_CAP_ID_PM /\ get_bits m (8 * (0x40 + 1)) 8 = 0x50.
Proof. split; read_config. Qed.
Lemma config_msix base : let m := NVMEV_PCI_INIT_config base in
  get_bits m (8 * 0x50) 8 = PCI_CAP_ID_MSIX /\ get_bits m (8 * (0x50 + 1)) 8 = 0x60.
Proof. split; read_config. Qed.
Lemma config_exp base : let m := NVMEV_PCI_INIT_config base in
  get_bits m (8 * 0x60) 8 = PCI_CAP_ID_EXP /\ get_bits m (8 * (0x60 + 1)) 8 = 0.
Proof. split; read_config. Qed.


(** The extended capabilities after the one at byte [lo] do not touch it. *)
Ltac read_ext lo :=
  unfold NVMEV_PCI_INIT_config, PCI_EXTCAP_SETTINGS, ext_cap_at; cbv zeta;
  repeat (rewrite (fill_frame pci_ext_cap _ _ lo (8 * 0x2a4)) by (first [lia | vm_compute; reflexivity]));
  (etransitivity; [eapply fill_get; first [lia | vm_compute; reflexivity]|vm_compute; reflexivity]).

Lemma config_ext base : Forall (fun '(p, id, nxt) =>
    get_bits (NVMEV_PCI_INIT_config base) (8 * p) 16 = id /\ get_bits (NVMEV_PCI_INIT_config base) (8 * p + 20) 12 = nxt)
  [(0x100, PCI_EXT_CAP_ID_ERR, 0x150); (0x150, PCI_EXT_CAP_ID_VC, 0x180); (0x180, PCI_EXT_CAP_ID_PWR, 0x190);
   (0x190, PCI_EXT_CAP_ID_ARI, 0x270); (0x270, PCI_EXT_CAP_ID_DSN, 0x2a0); (0x2a0, PCI_EXT_CAP_ID_SECPCI, 0)].
Proof.
  repeat (apply Forall_cons; split); [..|done]; split;
    [read_ext (8 * 0x150)|read_ext (8 * 0x150)|read_ext (8 * 0x180)|read_ext (8 * 0x180)|read_ext (8 * 0x190)|read_ext (8 * 0x190)
    |read_ext (8 * 0x270)|read_ext (8 * 0x270)|read_ext (8 * 0x2a0)|read_ext (8 * 0x2a0)|read_ext (8 * 0x2a4)|read_ext (8 * 0x2a4)].
Qed.

Lemma header_bar ba mulbar : let last off n := last_write (writes pci_header OFFS_PCI_HDR (header_settings ba mulbar)) off n (Some 0) in
  last 128 1 = Some 0 /\ last 129 2 = Some 2 /\ last 131 1 = Some 0 /\ last 132 10 = Some 0 /\ last 142 18 = Some ba /\ last 160 32 = Some mulbar.
Proof. split_and!; vm_compute; reflexivity. Qed.

Lemma header_ids ba mulbar : let last off n := last_write (writes pci_header OFFS_PCI_HDR (header_settings ba mulbar)) off n (Some 0) in
  last 0 16 = Some NVMEV_VENDOR_ID /\ last 16 16 = Some NVMEV_DEVICE_ID /\ last 52 1 = Some 1 /\ last (8 * 9) 8 = Some 0x02 /\
  last (8 * 10) 8 = Some 0x08 /\ last (8 * 11) 8 = Some 0x01 /\ last (8 * 0x34) 8 = Some 0x40.
Proof. split_and!; vm_compute; reflexivity. Qed.

Lemma config_get base off n v : 0 <= off -> 0 <= n -> off + n <= 8 * 0x40 ->
  last_write (writes pci_header OFFS_PCI_HDR (header_settings (Z.shiftr (Z.land base 0xFFFFFFFF) 14) (Z.shiftr base 32))) off n (Some 0) = Some v ->
  get_bits (NVMEV_PCI_INIT_config base) off n = Z.land v (Z.ones n).
Proof. intros Ho Hn Hle Hw. rewrite config_header by done. by apply fill_get_zero. Qed.

(** The base address register: a 64-bit memory range. *)
Lemma config_bar base : 0 <= base < 2 ^ 64 -> base mod 2 ^ 14 = 0 -> let m := NVMEV_PCI_INIT_config base in
  get_bits m 128 32 = Z.lor 4 (base mod 2 ^ 32) /\ get_bits m 160 32 = base / 2 ^ 32.
Proof.
  intros Hb Ha. cbv zeta. pose proof (header_bar (Z.shiftr (Z.land base 0xFFFFFFFF) 14) (Z.shiftr base 32)) as (H1 & H2 & H3 & H4 & H5 & H6). split.
  - change 32 with (1 + (2 + (1 + (10 + 18)))) at 1. repeat (rewrite get_bits_split by lia).
    rewrite (config_get base 128 1 0), (config_get base (128 + 1) 2 2), (config_get base (128 + 1 + 2) 1 0), (config_get base (128 + 1 + 2 + 1) 10 0),
      (config_get base (128 + 1 + 2 + 1 + 10) 18 _) by (first [exact H1|exact H2|exact H3|exact H4|exact H5|lia]).
    clear H1 H2 H3 H4 H5 H6. change (Z.land 2 (Z.ones 2)) with 2. rewrite !Z.land_0_l, !Z.lor_0_l, Z.shiftl_shiftl, Z.shiftl_lor by lia.
    rewrite !Z.shiftl_shiftl by lia. change (Z.shiftl 2 1) with 4. change (10 + (1 + 2 + 1)) with 14. f_equal.
    change 0xFFFFFFFF with (Z.ones 32). rewrite <- Z.land_ones by lia. apply Z.bits_inj'. intros i Hi.
    rewrite Z.shiftl_spec by lia. destruct (Z.ltb_spec i 14) as [Hl|Hl].
    + rewrite Z.testbit_neg_r, Z.land_spec by lia. apply Z.mod_divide in Ha as [k ->]; [|done].
      by rewrite <- Z.shiftl_mul_pow2, Z.shiftl_spec, (Z.testbit_neg_r k) by lia.
    + rewrite !Z.land_spec, Z.shiftr_spec, Z.land_spec by lia. replace (i - 14 + 14) with i by lia. destruct (Z.ltb_spec i 32).
      * rewrite (Z.ones_spec_low 18 (i - 14)), andb_true_r by lia. done.
      * rewrite (Z.ones_spec_high 32 i) by lia. by rewrite !andb_false_r.
  - rewrite (config_get base 160 32 _ ltac:(lia) ltac:(lia) ltac:(lia) H6), Z.shiftr_div_pow2, Z.land_ones by lia.
    apply Z.mod_small. split; [apply Z.div_pos; lia|]. apply Z.div_lt_upper_bound; lia.
Qed.

Lemma bar_address_split base : 0 <= base -> base mod 2 ^ 14 = 0 ->
  bar_address (Z.lor 4 (base mod 2 ^ 32)) (base / 2 ^ 32) = base.
Proof.
  intros Hb Ha. unfold bar_address. apply Z.bits_inj'. intros i Hi. rewrite Z.lor_spec, Z.shiftl_spec, Z.land_spec, Z.lor_spec by lia.
  change 0xFFFFFFF0 with (Z.shiftl (Z.ones 28) 4). rewrite Z.shiftl_spec by lia. destruct (Z.ltb_spec i 32) as [Hl|Hl].
  - rewrite (Z.testbit_neg_r _ (i - 32)), orb_false_l, Z.mod_pow2_bits_low by lia. destruct (Z.ltb_spec i 4) as [H4|H4].
    + rewrite (Z.testbit_neg_r _ (i - 4)), andb_false_r by lia. apply Z.mod_divide in Ha as [k ->]; [|done].
      by rewrite <- Z.shiftl_mul_pow2, Z.shiftl_spec, Z.testbit_neg_r by lia.
    + rewrite Z.ones_spec_low, andb_true_r by lia. change 4 with (2 ^ 2). rewrite Z.pow2_bits_false by lia. done.
  - rewrite Z.ones_spec_high, andb_false_r, orb_false_r by lia. rewrite <- Z.shiftr_div_pow2, Z.shiftr_spec by lia. f_equal. lia.
Qed.

(** Where MSI-X says its table and its pending bits are, in BAR 0. *)
Definition msix_table_offset (m : Z) : Z := 8 * get_bits m (8 * 0x54 + 3) 29.
Definition msix_pba_offset (m : Z) : Z := 8 * get_bits m (8 * 0x58 + 3) 29.

Lemma config_msix_offsets base : let m := NVMEV_PCI_INIT_config base in
  get_bits m (8 * 0x54 + 3) 29 = 0x400 /\ get_bits m (8 * 0x58 + 3) 29 = 0x1000.
Proof. split; read_config. Qed.

Lemma read_all m devfn_val : get_bits (set_bits 0 0 32 (get_bits m devfn_val 32)) 0 32 = get_bits m devfn_val 32.
Proof. rewrite get_set_same by lia. rewrite Z.land_ones by lia. apply Z.mod_small. by apply get_bits_range. Qed.

Lemma get_bits_same m m' off n : 0 <= off -> 0 <= n -> (forall i, off <= i < off + n -> Z.testbit m i = Z.testbit m' i) ->
  get_bits m off n = get_bits m' off n.
Proof.
  intros Ho Hn H. apply Z.bits_inj'. intros i Hi. rewrite !get_bits_spec by lia. destruct (Z.ltb_spec i n); [|done]. cbn [andb]. apply H. lia.
Qed.

(** ** Properties *)

(** C32: enumeration: a host that walks the configuration space of a new device finds NVMeVirt's vendor
    and device identifiers, the class code of an NVM Express controller, and a capability list
    that ends after power management, MSI-X and PCI Express; the extended list ends after its
    six capabilities; BAR 0 is the address of the reserved memory, which is a multiple of 16 KiB. *)
Theorem pci_enumeration_correct base (Hb : 0 <= base < 2 ^ 64) (Ha : base mod 2 ^ 14 = 0) :
  let m := virtDev (init_pci base) in
  get_bits m 0 16 = NVMEV_VENDOR_ID /\ get_bits m 16 16 = NVMEV_DEVICE_ID /\
  (get_bits m (8 * 11) 8, get_bits m (8 * 10) 8, get_bits m (8 * 9) 8) = (0x01, 0x08, 0x02) /\ get_bits m 52 1 = 1 /\
  (forall fuel, (3 < fuel)%nat -> capabilities fuel m (get_bits m (8 * 0x34) 8) =
    [(PCI_CAP_ID_PM, 0x40); (PCI_CAP_ID_MSIX, 0x50); (PCI_CAP_ID_EXP, 0x60)]) /\
  (forall fuel, (6 < fuel)%nat -> ext_capabilities fuel m 0x100 =
    [(PCI_EXT_CAP_ID_ERR, 0x100); (PCI_EXT_CAP_ID_VC, 0x150); (PCI_EXT_CAP_ID_PWR, 0x180);
     (PCI_EXT_CAP_ID_ARI, 0x190); (PCI_EXT_CAP_ID_DSN, 0x270); (PCI_EXT_CAP_ID_SECPCI, 0x2a0)]) /\
  bar_address (get_bits m 128 32) (get_bits m 160 32) = base.
Proof.
  cbv zeta. cbn [init_pci virtDev]. destruct (header_ids (Z.shiftr (Z.land base 0xFFFFFFFF) 14) (Z.shiftr base 32)) as (H1 & H2 & H3 & H4 & H5 & H6 & H7).
  apply (config_get base) in H1, H2, H3, H4, H5, H6, H7; [|lia..]. rewrite H1, H2, H3, H4, H5, H6, H7. clear H1 H2 H3 H4 H5 H6 H7.
  do 4 (split; [done|]). split; [|split].
  - intros fuel Hf. destruct (config_pm base) as [P1 P2], (config_msix base) as [M1 M2], (config_exp base) as [E1 E2]. cbv zeta in *.
    do 4 (destruct fuel as [|fuel]; [lia|]). change (Z.land 0x40 (Z.ones 8)) with 0x40. cbn [capabilities Z.eqb].
    rewrite P1, P2. cbn [capabilities Z.eqb]. rewrite M1, M2. cbn [capabilities Z.eqb]. by rewrite E1, E2.
  - intros fuel Hf. pose proof (config_ext base) as F. repeat (apply Forall_cons in F as [[? ?] F]).
    do 7 (destruct fuel as [|fuel]; [lia|]). cbn [ext_capabilities Z.eqb].
    repeat match goal with H : get_bits _ _ 12 = _ |- _ => rewrite H; clear H; cbn [Z.eqb] | H : get_bits _ _ 16 = _ |- _ => rewrite H; clear H end. done.
  - destruct (config_bar base Hb Ha) as [-> ->]. apply bar_address_split; [lia|done].
Qed.

Lemma pci_enumeration_correct_witness :
  let m := virtDev (init_pci (2 ^ 32)) in bar_address (get_bits m 128 32) (get_bits m 160 32) = 2 ^ 32.
Proof. apply (pci_enumeration_correct (2 ^ 32)); [lia|reflexivity]. Defined.

(** C35: whatever sequence of aligned accesses a host writes, none is refused; the device's INTx
    switch stays the one in the command register, and every bit that is not of a register open
    to writes (nor the interrupt status) keeps its value: identifiers, class code, capability
    pointer, the fields of the MSI-X capability. *)
Theorem pci_writes_keep_read_only devfn l s (Hl : Forall (fun '(w, size, v) => pci_access w size v) l) (Hs : intx_synced s) :
  exists s', write_all devfn l s = Ok s' /\ intx_synced s' /\
    forall i, 0 <= i -> host_writable i = false -> i <> IS_BIT -> Z.testbit (virtDev s') i = Z.testbit (virtDev s) i.
Proof.
  revert s Hs. induction Hl as [|[[w size] v] l Hp Hl IH]; intros s Hs; cbn [write_all]; [by exists s|].
  destruct (pci_write_spec s devfn w size v Hp) as (s1 & E & _ & Hb). rewrite E. cbn [rbind snd].
  destruct (IH s1 (pci_write_intx _ _ _ _ _ _ Hp E Hs)) as (s' & E' & Hs' & Hb'). exists s'. split; [done|]. split; [done|].
  intros i Hi Hw Hne. rewrite Hb', Hb by done. destruct ((8 * w <=? i) && (i <? 8 * (w + size))) eqn:Hr; [|done]. cbn [andb].
  destruct (Z.testbit (reg_mask w) (i - 8 * w)) eqn:Hm; [|done].
  rewrite (mask_writable w size v i Hp ltac:(lia) Hm) in Hw. done.
Qed.

Lemma pci_writes_keep_read_only_witness : exists s', write_all 0 [(0x04, 2, 0x400); (0x10, 4, 0xFFFFFFFF); (0x00, 4, 0)] (init_pci (2 ^ 32)) = Ok s' /\
  Z.testbit (virtDev s') 0 = Z.testbit (virtDev (init_pci (2 ^ 32))) 0.
Proof.
  destruct (pci_writes_keep_read_only 0 [(0x04, 2, 0x400); (0x10, 4, 0xFFFFFFFF); (0x00, 4, 0)] (init_pci (2 ^ 32))) as (s' & E & _ & H).
  - repeat (apply Forall_cons; split); [..|done]; (split; [lia|reflexivity|unfold PAGE_SIZE; lia|split; [discriminate|reflexivity]]).
  - vm_compute. reflexivity.
  - exists s'. split; [exact E|]. apply H; [lia|reflexivity|discriminate].
Defined.

(** sizing the base address register: writing all ones to BAR 0 and reading it back tells the
    host 16 KiB; writing the old value back restores every bit of the page.  The MSI-X table lies
    in those 16 KiB, the pending bits the capability announces do not. *)
Theorem bar_sizing base (Hb : 0 <= base < 2 ^ 64) (Ha : base mod 2 ^ 14 = 0) :
  exists s1 probed s2, nvmev_pci_write (init_pci base) 0 PCI_BASE_ADDRESS_0 4 0xFFFFFFFF = Ok (0, s1) /\
    nvmev_pci_read s1 0 PCI_BASE_ADDRESS_0 4 0 = Ok (0, probed) /\ bar_size probed = 0x4000 /\
    nvmev_pci_write s1 0 PCI_BASE_ADDRESS_0 4 (get_bits (virtDev (init_pci base)) 128 32) = Ok (0, s2) /\
    (forall i, 0 <= i -> i <> IS_BIT -> Z.testbit (virtDev s2) i = Z.testbit (virtDev (init_pci base)) i) /\
    msix_table_offset (virtDev s2) + 128 * PCI_MSIX_ENTRY_SIZE <= bar_size probed <= msix_pba_offset (virtDev s2).
Proof.
  destruct (pci_write_spec (init_pci base) 0 PCI_BASE_ADDRESS_0 4 0xFFFFFFFF) as (s1 & E1 & _ & B1); [split; [lia|reflexivity|unfold PAGE_SIZE, PCI_BASE_ADDRESS_0; lia|split; [discriminate|reflexivity]]|].
  pose proof (config_bar base Hb Ha) as [Hlo _]. set (old := get_bits (virtDev (init_pci base)) 128 32) in *.
  destruct (pci_write_spec s1 0 PCI_BASE_ADDRESS_0 4 old) as (s2 & E2 & _ & B2).
  { split; [lia|done|unfold PAGE_SIZE, PCI_BASE_ADDRESS_0; lia|]. apply get_bits_range. lia. }
  change (8 * PCI_BASE_ADDRESS_0) with 128 in B1, B2. change (8 * (PCI_BASE_ADDRESS_0 + 4)) with 160 in B1, B2.
  change (reg_mask PCI_BASE_ADDRESS_0) with (Z.shiftl (Z.ones 18) 14) in B1, B2.
  assert (forall i, 0 <= i -> i <> IS_BIT -> Z.testbit (virtDev s2) i = Z.testbit (virtDev (init_pci base)) i) as Hsame.
  { intros i Hi Hne. rewrite B2, B1 by done. destruct ((128 <=? i) && (i <? 160)) eqn:Hr; [|done]. cbn [andb].
    destruct (Z.testbit (Z.shiftl (Z.ones 18) 14) (i - 128)) eqn:Em; [|done]. unfold old. rewrite get_bits_spec by lia.
    replace (i - 128 <? 32) with true by lia. cbn [andb]. f_equal. lia. }
  assert (get_bits (virtDev s1) 128 32 = 0xFFFFC004) as Hp.
  { apply Z.bits_inj'. intros i Hi. rewrite get_bits_spec by lia. change 0xFFFFC004 with (Z.lor 4 (Z.shiftl (Z.ones 18) 14)).
    rewrite Z.lor_spec. destruct (Z.ltb_spec i 32) as [Hl|Hl].
    - rewrite B1 by (unfold IS_BIT; lia). replace ((128 <=? i + 128) && (i + 128 <? 160)) with true by lia. cbn [andb].
      replace (i + 128 - 128) with i by lia. change 0xFFFFFFFF with (Z.ones 32). rewrite (Z.ones_spec_low 32 i) by lia.
      rewrite Z.shiftl_spec by lia. destruct (Z.ltb_spec i 14) as [H14|H14].
      + rewrite (Z.testbit_neg_r (Z.ones 18)), orb_false_r by lia. transitivity (Z.testbit old i).
        { unfold old. rewrite get_bits_spec by lia. by replace (i <? 32) with true by lia. }
        unfold old. cbn [init_pci virtDev]. rewrite Hlo, Z.lor_spec, Z.mod_pow2_bits_low by lia. apply Z.mod_divide in Ha as [k ->]; [|done].
        rewrite <- Z.shiftl_mul_pow2, Z.shiftl_spec, (Z.testbit_neg_r k), orb_false_r by lia. done.
      + rewrite (Z.ones_spec_low 18) by lia. by rewrite orb_true_r.
    - rewrite (bit_above 4 3 i) by lia. rewrite Z.shiftl_spec, Z.ones_spec_high by lia. done. }
  exists s1, 0xFFFFC004, s2. split; [done|]. split.
  { unfold nvmev_pci_read. cbn [Z.eqb negb in_page]. change (8 * PCI_BASE_ADDRESS_0) with 128. change (8 * 4) with 32. rewrite Hp. done. }
  split; [done|]. split; [done|]. split; [done|]. unfold msix_table_offset, msix_pba_offset.
  rewrite (get_bits_same (virtDev s2) (virtDev (init_pci base)) (8 * 0x54 + 3)), (get_bits_same (virtDev s2) (virtDev (init_pci base)) (8 * 0x58 + 3))
    by (lia || (intros; apply Hsame; unfold IS_BIT; lia)).
  destruct (config_msix_offsets base) as [M1 M2]. cbn [init_pci virtDev]. rewrite M1, M2. vm_compute. split; discriminate.
Qed.

Lemma bar_sizing_witness : exists s1 probed, nvmev_pci_write (init_pci (2 ^ 32)) 0 PCI_BASE_ADDRESS_0 4 0xFFFFFFFF = Ok (0, s1) /\
  nvmev_pci_read s1 0 PCI_BASE_ADDRESS_0 4 0 = Ok (0, probed) /\ bar_size probed = 0x4000.
Proof.
  destruct (bar_sizing (2 ^ 32)) as (s1 & probed & s2 & E1 & E2 & Hs & _); [lia|reflexivity|].
  exists s1, probed. split; [exact E1|]. split; [exact E2|exact Hs].
Defined.
