(* ===== verification/Device.v ===== *)
(** * nvmev.h, nvme.h: the device behind its registers

    [struct nvmev_dev] as admin.c, pci.c and main.c see it: the I/O part of Dispatch.v,
    the admin queue, doorbells, controller registers and configuration space.  Host
    memory that the device maps (queues) is the class [HostMemory]; what the device
    writes there for admin commands is logged as [host_page]s. *)

From Stdlib Require Import ZArith Lia String.
From stdpp Require Import base list numbers strings.
From S2P Require Import Prelude IoQueue Dispatch CLayout PciRegs PciConfig.

Definition NR_MAX_IO_QUEUE : Z := 72.
Definition SIZEOF_COMMAND : Z := 64.
Definition SIZEOF_COMPLETION : Z := 16.
Definition NR_SQE_PER_PAGE : Z := PAGE_SIZE / SIZEOF_COMMAND.
Definition NR_CQE_PER_PAGE : Z := PAGE_SIZE / SIZEOF_COMPLETION.

(** ** Admin commands

    The fields of the union members of [struct nvme_command] that admin.c reads, by the
    words they lie in: [cdw10] and [cdw11] are words 10 and 11 of the command. *)
Record admin_command : Type := mk_admin {
  a_opcode : Z;       (* __u8 *)
  a_command_id : Z;   (* __u16 *)
  a_nsid : Z;         (* __le32 *)
  a_prp1 : Z;         (* __le64 *)
  a_cdw10 : Z;        (* __le32 *)
  a_cdw11 : Z;        (* __le32 *)
}.

(** [nvme_create_cq], [nvme_create_sq], [nvme_delete_queue] *)
Definition c_qid (c : admin_command) : Z := get_bits (a_cdw10 c) 0 16.
Definition c_qsize (c : admin_command) : Z := get_bits (a_cdw10 c) 16 16.
Definition c_flags (c : admin_command) : Z := get_bits (a_cdw11 c) 0 16.
Definition c_irq_vector (c : admin_command) : Z := get_bits (a_cdw11 c) 16 16.
Definition c_cqid (c : admin_command) : Z := get_bits (a_cdw11 c) 16 16.
(** [nvme_get_log_page_command] *)
Definition c_lid (c : admin_command) : Z := get_bits (a_cdw10 c) 0 8.
Definition c_numdl (c : admin_command) : Z := get_bits (a_cdw10 c) 16 16.
Definition c_numdu (c : admin_command) : Z := get_bits (a_cdw11 c) 0 16.
(** [nvme_identify], [nvme_features] *)
Definition c_cns (c : admin_command) : Z := a_cdw10 c.
Definition c_fid (c : admin_command) : Z := a_cdw10 c.
Definition c_dword11 (c : admin_command) : Z := a_cdw11 c.

Definition NVME_QUEUE_PHYS_CONTIG : Z := Z.shiftl 1 0.
Definition NVME_CQ_IRQ_ENABLED : Z := Z.shiftl 1 1.

(** ** Host memory

    What the pages from a physical address on hold when the device maps them; the two
    branches of the creation handlers ([pfn_valid] or not) only differ in how. *)
Class HostMemory (C : Type) : Type := {
  commands_at : Z -> nat -> list (nvme_command C);
  completions_at : Z -> nat -> list nvme_completion;
  admin_commands_at : Z -> nat -> list admin_command;
  commands_pages a n : zlen (commands_at a n) = Z.of_nat n * NR_SQE_PER_PAGE;
  completions_pages a n : zlen (completions_at a n) = Z.of_nat n * NR_CQE_PER_PAGE;
  admin_pages a n : zlen (admin_commands_at a n) = Z.of_nat n * NR_SQE_PER_PAGE;
}.

(** What identify commands ask of a namespace; [ns_zns]: the zoned FTL's parameters. *)
Record zns_limits : Type := mk_limits {
  zl_active : Z; zl_open : Z; zl_zrwa : Z; zl_zrwafg_size : Z; zl_zrwa_size : Z; zl_zone_size : Z;
}.
Class NamespaceInfo (N : Type) : Type := {
  info_size : N -> Z;
  info_csi : N -> Z;
  info_zns : N -> option zns_limits;
}.

(** ** Answers in host memory: the structure stored at [prp1], its members that are set *)
Record nvme_lbaf : Type := mk_lbaf { ms : Z; ds : Z; rp : Z }.

Inductive host_page : Type :=
| IdNamespace (nsze ncap nuse nlbaf flbas dps : Z) (lbafs : list nvme_lbaf)
| IdNamespaces (ids : list Z)
| IdNamespaceDesc (nidt nidl csi : Z)
| IdZnsNamespace (zoc ozcs mar mor numzrwa zrwafg zrwasz zrwacap zsze zdes : Z)
| IdZnsCtrl (zasl : Z)
| IdCtrl (nn oncs acl vwc : Z) (sn mn fr : string) (mdts sqes cqes : Z)
| SmartLog (len spare_thresh : Z)
| EffectsLog (len : Z) (acs iocs : list (Z * Z))
| ZeroLog (len : Z).

(** [nvmev_signal_irq]: an MSI-X vector, or the legacy line. *)
Inductive signal : Type :=
| Msi (vector : Z)
| Intx.

(** ** The device *)

(** [None]: a null array. *)
Record nvmev_admin_queue : Type := mk_adminq {
  aq_phase : Z;
  sq_depth : Z;
  cq_depth : Z;
  aq_cq_head : Z;
  nvme_sq : option (list admin_command);
  nvme_cq : option (list nvme_completion);
}.

(** The registers the code reads or writes. *)
Record nvme_ctrl_regs : Type := mk_regs {
  u_cap : Z; u_vs : Z; u_cc : Z; u_csts : Z; u_aqa : Z; u_asq : Z; u_acq : Z;
}.

(** The copies [nvmev_proc_bars] compares with. *)
Record old_bar_regs : Type := mk_old { old_cc : Z; old_aqa : Z; old_asq : Z; old_acq : Z }.

Section Vdev.
Context {N C : Type}.

Record vdev : Type := mk_vdev {
  vd_io : nvmev_dev N C;
  vd_admin : option nvmev_admin_queue;
  vd_bar : nvme_ctrl_regs;
  vd_old_bar : old_bar_regs;
  vd_dbs : list Z;
  vd_old_dbs : list Z;
  vd_nr_sq : Z;
  vd_nr_cq : Z;
  vd_nr_ns : Z;
  vd_mdts : Z;
  vd_pci : pci_state;
  vd_signals : list signal;           (* raised so far, oldest first *)
  vd_pages : list (Z * host_page);    (* written so far *)
}.

Definition set_io (d : vdev) (x : nvmev_dev N C) : vdev :=
  mk_vdev x (vd_admin d) (vd_bar d) (vd_old_bar d) (vd_dbs d) (vd_old_dbs d) (vd_nr_sq d) (vd_nr_cq d) (vd_nr_ns d) (vd_mdts d) (vd_pci d) (vd_signals d) (vd_pages d).
Definition set_admin (d : vdev) (x : nvmev_admin_queue) : vdev :=
  mk_vdev (vd_io d) (Some x) (vd_bar d) (vd_old_bar d) (vd_dbs d) (vd_old_dbs d) (vd_nr_sq d) (vd_nr_cq d) (vd_nr_ns d) (vd_mdts d) (vd_pci d) (vd_signals d) (vd_pages d).
Definition set_bar (d : vdev) (x : nvme_ctrl_regs) : vdev :=
  mk_vdev (vd_io d) (vd_admin d) x (vd_old_bar d) (vd_dbs d) (vd_old_dbs d) (vd_nr_sq d) (vd_nr_cq d) (vd_nr_ns d) (vd_mdts d) (vd_pci d) (vd_signals d) (vd_pages d).
Definition set_old_bar (d : vdev) (x : old_bar_regs) : vdev :=
  mk_vdev (vd_io d) (vd_admin d) (vd_bar d) x (vd_dbs d) (vd_old_dbs d) (vd_nr_sq d) (vd_nr_cq d) (vd_nr_ns d) (vd_mdts d) (vd_pci d) (vd_signals d) (vd_pages d).
Definition set_dbs (d : vdev) (x y : list Z) : vdev :=
  mk_vdev (vd_io d) (vd_admin d) (vd_bar d) (vd_old_bar d) x y (vd_nr_sq d) (vd_nr_cq d) (vd_nr_ns d) (vd_mdts d) (vd_pci d) (vd_signals d) (vd_pages d).
Definition set_nr (d : vdev) (sq cq : Z) : vdev :=
  mk_vdev (vd_io d) (vd_admin d) (vd_bar d) (vd_old_bar d) (vd_dbs d) (vd_old_dbs d) sq cq (vd_nr_ns d) (vd_mdts d) (vd_pci d) (vd_signals d) (vd_pages d).
Definition set_pci (d : vdev) (x : pci_state) (s : list signal) : vdev :=
  mk_vdev (vd_io d) (vd_admin d) (vd_bar d) (vd_old_bar d) (vd_dbs d) (vd_old_dbs d) (vd_nr_sq d) (vd_nr_cq d) (vd_nr_ns d) (vd_mdts d) x s (vd_pages d).
Definition put_page (d : vdev) (addr : Z) (p : host_page) : vdev :=
  mk_vdev (vd_io d) (vd_admin d) (vd_bar d) (vd_old_bar d) (vd_dbs d) (vd_old_dbs d) (vd_nr_sq d) (vd_nr_cq d) (vd_nr_ns d) (vd_mdts d) (vd_pci d) (vd_signals d) (vd_pages d ++ [(addr, p)]).

(** [dbs[i] = old_dbs[i] = 0] *)
Definition clear_db (d : vdev) (i : Z) : res vdev :=
  let! x := aset (vd_dbs d) i 0 in let! y := aset (vd_old_dbs d) i 0 in Ok (set_dbs d x y).

(** [nvmev_signal_irq]: null [pdev] is dereferenced; without MSI-X the status register's
    interrupt bit is set first. *)
Definition nvmev_signal_irq (v : Z) (d : vdev) : res vdev :=
  match msix_enabled (vd_pci d) with
  | None => Err NullDeref
  | Some true => Ok (set_pci d (vd_pci d) (vd_signals d ++ [Msi v]))
  | Some false =>
      Ok (set_pci d (set_virtDev (vd_pci d) (store (offsets pci_header EmptyString 0) (virtDev (vd_pci d)) ("sts.is"%string, 1)))
            (vd_signals d ++ [Intx]))
  end.
End Vdev.
Arguments vdev N C : clear implicits.
