(* ===== verification/Bar.v ===== *)
(** * pci.c: the controller registers

    The host writes registers; the dispatcher notices changes when it polls
    ([nvmev_proc_bars]), one per call, in a fixed order that is not the order they were
    written in.  Operations here; then the protocol by which a driver brings the
    controller up, interleaved with the polling. *)

From Stdlib Require Import ZArith Lia.
From stdpp Require Import base list numbers.
From S2P Require Import Prelude CLayout PciRegs PciConfig IoQueue Dispatch Device.

(** ** Register fields *)
Definition cc_en (cc : Z) : Z := get_bits cc 0 1.
Definition cc_shn (cc : Z) : Z := get_bits cc 14 2.
Definition aqa_asqs (aqa : Z) : Z := get_bits aqa 0 12.
Definition aqa_acqs (aqa : Z) : Z := get_bits aqa 16 12.
Definition csts_rdy (csts : Z) : Z := get_bits csts 0 1.
Definition csts_shst (csts : Z) : Z := get_bits csts 2 2.
Definition set_rdy (csts v : Z) : Z := set_bits csts 0 1 v.
Definition set_shst (csts v : Z) : Z := set_bits csts 2 2 v.

Section Bar.
Context {N C : Type} `{HM : HostMemory C}.
Local Notation vdev := (vdev N C).
Implicit Types d : vdev.

(** ** Operations *)
Definition with_csts (r : nvme_ctrl_regs) (v : Z) : nvme_ctrl_regs := mk_regs (u_cap r) (u_vs r) (u_cc r) v (u_aqa r) (u_asq r) (u_acq r).

Definition nr_pages (depth size : Z) : nat := Z.to_nat (DIV_ROUND_UP (depth * size) PAGE_SIZE).

(** The [aqa] branch: make or reset the admin queue. *)
Definition bars_aqa (d : vdev) : res vdev :=
  let bar := vd_bar d in let o := vd_old_bar d in
  let d := set_old_bar d (mk_old (old_cc o) (u_aqa bar) (old_asq o) (old_acq o)) in
  let q := match vd_admin d with Some q => (nvme_sq q, nvme_cq q) | None => (None, None) end in
  let d := set_admin d (mk_adminq 1 (aqa_asqs (u_aqa bar) + 1) (aqa_acqs (u_aqa bar) + 1) 0 (fst q) (snd q)) in
  let! d := clear_db d 0 in clear_db d 1.

Definition bars_asq (q : nvmev_admin_queue) (d : vdev) : res vdev :=
  let bar := vd_bar d in let o := vd_old_bar d in
  let d := set_old_bar d (mk_old (old_cc o) (old_aqa o) (u_asq bar) (old_acq o)) in
  let depth := aqa_asqs (u_aqa bar) + 1 in
  let d := set_admin d (mk_adminq (aq_phase q) depth (cq_depth q) (aq_cq_head q)
    (Some (admin_commands_at (u_asq bar) (nr_pages depth SIZEOF_COMMAND))) (nvme_cq q)) in
  clear_db d 0.

Definition bars_acq (q : nvmev_admin_queue) (d : vdev) : res vdev :=
  let bar := vd_bar d in let o := vd_old_bar d in
  let d := set_old_bar d (mk_old (old_cc o) (old_aqa o) (old_asq o) (u_acq bar)) in
  let depth := aqa_acqs (u_aqa bar) + 1 in
  let d := set_admin d (mk_adminq 1 (sq_depth q) depth 0 (nvme_sq q)
    (Some (completions_at (u_acq bar) (nr_pages depth SIZEOF_COMPLETION)))) in
  clear_db d 1.

(** Ready only with an admin queue; shutdown resets the head without looking for one. *)
Definition bars_cc (d : vdev) : res vdev :=
  let bar := vd_bar d in let cc := u_cc bar in
  let bar := if cc_en cc =? 1 then match vd_admin d with Some _ => with_csts bar (set_rdy (u_csts bar) 1) | None => bar end
             else with_csts bar (set_rdy (u_csts bar) 0) in
  let d := set_bar d bar in
  let! d := if cc_shn cc =? 1 then
      let d := set_bar d (with_csts bar (set_shst (u_csts bar) 2)) in
      let! d := clear_db d 0 in let! d := clear_db d 1 in
      match vd_admin d with
      | Some q => Ok (set_admin d (mk_adminq (aq_phase q) (sq_depth q) (cq_depth q) 0 (nvme_sq q) (nvme_cq q)))
      | None => Err NullDeref
      end
    else Ok d in
  let o := vd_old_bar d in
  Ok (set_old_bar d (mk_old cc (old_aqa o) (old_asq o) (old_acq o))).

(** Whether an event was processed, and the device. *)
Definition nvmev_proc_bars (d : vdev) : res (bool * vdev) :=
  let bar := vd_bar d in let o := vd_old_bar d in
  if negb (old_aqa o =? u_aqa bar) then rmap (pair true) (bars_aqa d)
  else if negb (old_asq o =? u_asq bar) then
    match vd_admin d with None => Ok (true, d) | Some q => rmap (pair true) (bars_asq q d) end
  else if negb (old_acq o =? u_acq bar) then
    match vd_admin d with None => Ok (true, d) | Some q => rmap (pair true) (bars_acq q d) end
  else if negb (old_cc o =? u_cc bar) then rmap (pair true) (bars_cc d)
  else Ok (false, d).

(** [__init_nvme_ctrl_regs] *)
Definition nvme_bar_init (zns : bool) : nvme_ctrl_regs :=
  mk_regs (Z.lor (1024 - 1) (Z.lor (Z.shiftl 1 24) (if zns then Z.shiftl CAP_CSS_BIT_SPECIFIC 37 else 0)))
    (Z.shiftl 1 16) 0 0 0 0 0.

(** ** The host's side *)
Inductive host_write : Type := W_aqa (v : Z) | W_asq (v : Z) | W_acq (v : Z) | W_cc (v : Z).

Definition write_reg (w : host_write) (r : nvme_ctrl_regs) : nvme_ctrl_regs :=
  match w with
  | W_aqa v => mk_regs (u_cap r) (u_vs r) (u_cc r) (u_csts r) v (u_asq r) (u_acq r)
  | W_asq v => mk_regs (u_cap r) (u_vs r) (u_cc r) (u_csts r) (u_aqa r) v (u_acq r)
  | W_acq v => mk_regs (u_cap r) (u_vs r) (u_cc r) (u_csts r) (u_aqa r) (u_asq r) v
  | W_cc v => mk_regs (u_cap r) (u_vs r) v (u_csts r) (u_aqa r) (u_asq r) (u_acq r)
  end.

(** A history: register writes of the host ([Some]) and polls of the dispatcher ([None]). *)
Fixpoint play (l : list (option host_write)) (d : vdev) : res vdev :=
  match l with
  | [] => Ok d
  | Some w :: l => play l (set_bar d (write_reg w (vd_bar d)))
  | None :: l => let! r := nvmev_proc_bars d in play l (snd r)
  end.

Definition writes_of (l : list (option host_write)) : list host_write := omap id l.
Definition polls_after (l : list (option host_write)) : nat := length (filter (fun x => x = None) l).

(** ** Bringing the controller up *)

(** A device whose registers the host has not touched since [VDEV_INIT]. *)
Record bars_fresh (zns : bool) d : Prop := {
  bf_admin : vd_admin d = None;
  bf_bar : vd_bar d = nvme_bar_init zns;
  bf_old : vd_old_bar d = mk_old 0 0 0 0;
  bf_dbs : zget (vd_dbs d) 0 = Some 0 /\ zget (vd_dbs d) 1 = Some 0;
  bf_old_dbs : zget (vd_old_dbs d) 0 = Some 0 /\ zget (vd_old_dbs d) 1 = Some 0;
}.

Section BringUp.
Context (zns : bool) (a s c k : Z).
Context (Ha : a <> 0) (Hs : s <> 0) (Hc : c <> 0) (Hk : k <> 0).
Context (Hen : cc_en k = 1) (Hshn : cc_shn k <> 1).

(** What a driver writes, in this order. *)
Definition driver_writes : list host_write := [W_aqa a; W_asq s; W_acq c; W_cc k].

Definition ready_queue (n : nat) : option nvmev_admin_queue :=
  match n with
  | O => None
  | S n => Some (mk_adminq 1 (aqa_asqs a + 1) (aqa_acqs a + 1) 0
      (if Nat.ltb 0 n then Some (admin_commands_at s (nr_pages (aqa_asqs a + 1) SIZEOF_COMMAND)) else None)
      (if Nat.ltb 1 n then Some (completions_at c (nr_pages (aqa_acqs a + 1) SIZEOF_COMPLETION)) else None))
  end.

(** The device after [w] of the writes, of which the dispatcher has processed [p]. *)
Definition brought (w p : nat) d : vdev :=
  let at_ (n i : nat) v := if Nat.ltb i n then v else 0 in
  mk_vdev (vd_io d) (ready_queue p)
    (mk_regs (u_cap (nvme_bar_init zns)) (u_vs (nvme_bar_init zns)) (at_ w 3%nat k) (if Nat.ltb 3 p then 1 else 0) (at_ w 0%nat a) (at_ w 1%nat s) (at_ w 2%nat c))
    (mk_old (at_ p 3%nat k) (at_ p 0%nat a) (at_ p 1%nat s) (at_ p 2%nat c))
    (vd_dbs d) (vd_old_dbs d) (vd_nr_sq d) (vd_nr_cq d) (vd_nr_ns d) (vd_mdts d) (vd_pci d) (vd_signals d) (vd_pages d).

Lemma clear_db_same d i : zget (vd_dbs d) i = Some 0 -> zget (vd_old_dbs d) i = Some 0 -> clear_db d i = Ok d.
Proof.
  intros H1 H2. unfold clear_db. rewrite !aset_in by (eapply zget_range; eassumption). cbn [rbind].
  rewrite !zset_same by done. by destruct d.
Qed.

Lemma bars_enable d q : cc_en (u_cc (vd_bar d)) = 1 -> cc_shn (u_cc (vd_bar d)) <> 1 -> vd_admin d = Some q ->
  bars_cc d = Ok (set_old_bar (set_bar d (with_csts (vd_bar d) (set_rdy (u_csts (vd_bar d)) 1)))
    (mk_old (u_cc (vd_bar d)) (old_aqa (vd_old_bar d)) (old_asq (vd_old_bar d)) (old_acq (vd_old_bar d)))).
Proof. intros H1 H2 H3. unfold bars_cc. apply Z.eqb_neq in H2. by rewrite H1, H2, H3. Qed.

Lemma brought_0 d : bars_fresh zns d -> brought 0 0 d = d.
Proof. intros [H1 H2 H3 _ _]. destruct d. cbn in *. by subst. Qed.

Lemma brought_poll w p d : bars_fresh zns d -> (p <= w <= 4)%nat ->
  nvmev_proc_bars (brought w p d) = Ok (Nat.ltb p w, brought w (if Nat.ltb p w then S p else p) d).
Proof.
  intros [_ _ _ [D0 D1] [O0 O1]] Hpw.
  assert (forall x, x <> 0 -> (0 =? x) = false) as Hne by (intros; lia).
  pose proof (Hne a Ha) as Ea. pose proof (Hne s Hs) as Es. pose proof (Hne c Hc) as Ec. pose proof (Hne k Hk) as Ek. clear Hne.
  destruct p as [|[|[|[|[|p]]]]]; [..|lia]; (destruct w as [|[|[|[|[|w]]]]]; [try lia..|lia]);
    unfold nvmev_proc_bars; cbn [brought vd_bar vd_old_bar old_aqa old_asq old_acq old_cc u_aqa u_asq u_acq u_cc Nat.ltb Nat.leb ready_queue vd_admin];
    rewrite ?Z.eqb_refl, ?Ea, ?Es, ?Ec, ?Ek; cbn [negb]; try reflexivity.
  all: try (rewrite (bars_enable (brought 4 3 d) _ Hen Hshn eq_refl); reflexivity).
  all: unfold bars_aqa, bars_asq, bars_acq; cbn [brought vd_bar vd_admin ready_queue].
  all: repeat (rewrite clear_db_same by assumption; cbn [rbind]); cbn [rbind rmap]; reflexivity.
Qed.

(** A write reaches the next register. *)
Lemma brought_write w p d x : (p <= w)%nat -> driver_writes !! w = Some x ->
  set_bar (brought w p d) (write_reg x (vd_bar (brought w p d))) = brought (S w) p d.
Proof.
  intros Hp Hx. destruct w as [|[|[|[|w]]]]; [..|done]; injection Hx as <-; reflexivity.
Qed.

(** The polls come anywhere; the writes come in the driver's order. *)
Lemma play_brought d l : bars_fresh zns d -> forall w p, (p <= w <= 4)%nat -> drop w driver_writes = writes_of l ->
  exists p', (p <= p' <= 4)%nat /\ play l (brought w p d) = Ok (brought 4 p' d).
Proof.
  intros F. induction l as [|[x|] l IH]; intros w p Hp Hw.
  - assert (w = 4)%nat as ->; [|by exists p; split; [lia|]].
    apply (f_equal Datatypes.length) in Hw. rewrite length_drop in Hw. cbn in Hw. lia.
  - cbn [writes_of omap list_omap id] in Hw. fold (writes_of l) in Hw.
    assert (driver_writes !! w = Some x) as Hx.
    { rewrite <- (Nat.add_0_r w), <- lookup_drop, Hw. done. }
    cbn [play]. rewrite brought_write by (done || lia). apply IH.
    + apply lookup_lt_Some in Hx. cbn in Hx. lia.
    + rewrite (drop_S _ _ _ Hx) in Hw. by injection Hw.
  - cbn [play]. rewrite brought_poll by (done || lia). cbn [rbind snd].
    destruct (Nat.ltb_spec p w); [|by apply IH]. destruct (IH w (S p)) as (p' & ? & E); [lia|done|].
    exists p'. split; [lia|done].
Qed.

Lemma play_polls d n : bars_fresh zns d -> forall p, (p <= 4 <= p + n)%nat -> play (replicate n None) (brought 4 p d) = Ok (brought 4 4 d).
Proof.
  intros F. induction n as [|n IH]; intros p Hp; cbn [replicate play]; [by replace p with 4%nat by lia|].
  rewrite brought_poll by (done || lia). cbn [rbind snd]. destruct (Nat.ltb_spec p 4); apply IH; lia.
Qed.

Lemma play_app l l' d d' : play l d = Ok d' -> play (l ++ l') d = play l' d'.
Proof.
  revert d. induction l as [|[x|] l IH]; intros d E; cbn [app play] in *; [by injection E as ->|by apply IH|].
  apply rbind_ok in E as (r & -> & E). cbn [rbind]. by apply IH.
Qed.
End BringUp.

(** ** A controller at rest, and its restart *)
Record settled d (a s c k : Z) : Prop := {
  se_bar : u_aqa (vd_bar d) = a /\ u_asq (vd_bar d) = s /\ u_acq (vd_bar d) = c /\ u_cc (vd_bar d) = k;
  se_old : vd_old_bar d = mk_old k a s c;
}.

Lemma settled_poll d a s c k : settled d a s c k -> nvmev_proc_bars d = Ok (false, d).
Proof. intros [(H1 & H2 & H3 & H4) Ho]. unfold nvmev_proc_bars. rewrite Ho, H1, H2, H3, H4. cbn [old_aqa old_asq old_acq old_cc]. by rewrite !Z.eqb_refl. Qed.

Lemma settled_polls d a s c k n : settled d a s c k -> play (replicate n None) d = Ok d.
Proof. intros S. induction n as [|n IH]; [done|]. cbn [replicate play]. rewrite (settled_poll _ _ _ _ _ S). exact IH. Qed.

(** Polling after the host changed the enable bit and nothing else. *)
Lemma settled_cc d a s c k k' q : settled d a s c k -> vd_admin d = Some q -> k <> k' -> cc_shn k' <> 1 ->
  let d1 := set_bar d (write_reg (W_cc k') (vd_bar d)) in
  exists d', nvmev_proc_bars d1 = Ok (true, d') /\ settled d' a s c k' /\
    csts_rdy (u_csts (vd_bar d')) = (if cc_en k' =? 1 then 1 else 0) /\ vd_admin d' = vd_admin d /\
    vd_dbs d' = vd_dbs d /\ vd_old_dbs d' = vd_old_dbs d /\ vd_io d' = vd_io d.
Proof.
  intros [(H1 & H2 & H3 & H4) Ho] Hq Hne Hshn. apply Z.eqb_neq in Hne, Hshn. cbv zeta.
  unfold nvmev_proc_bars. cbn [set_bar vd_old_bar vd_bar write_reg u_aqa u_asq u_acq u_cc vd_admin].
  rewrite Ho, H1, H2, H3. cbn [old_aqa old_asq old_acq old_cc]. rewrite !Z.eqb_refl, Hne. cbn [negb].
  unfold bars_cc. cbn [set_bar vd_bar u_cc]. rewrite Hshn. cbn [set_bar vd_admin]. rewrite ?Hq.
  destruct (cc_en k' =? 1); eexists; (split; [reflexivity|]); (split; [split; cbn; [split_and!; done|by rewrite Ho]|]); (split; [|done]); cbn [set_old_bar vd_bar set_bar with_csts u_csts].
  all: unfold csts_rdy, set_rdy; by rewrite get_set_same by lia.
Qed.

(** Writing a register's own value changes nothing. *)
Lemma rewrite_same d a s c k w : settled d a s c k -> w = W_aqa a \/ w = W_asq s \/ w = W_acq c -> set_bar d (write_reg w (vd_bar d)) = d.
Proof.
  intros [(H1 & H2 & H3 & _) _] Hw. destruct d as [io ad [cap vs cc cs aq as_ ac] o db odb ns nc nn md pc sg pg]. cbn in *.
  by destruct Hw as [-> | [-> | ->]]; subst.
Qed.
End Bar.
