(* ===== verification/Admin.v ===== *)
(** * admin.c: the admin queue

    One definition per handler, the loop over the entries between two doorbell values,
    and the lemmas about how a completion is posted. *)

From Stdlib Require Import ZArith Lia String.
From stdpp Require Import base list numbers strings.
From S2P Require Import Prelude Config CLayout PciConfig IoQueue Dispatch Device Bar.
From S2P Require Nvme.

Local Open Scope Z_scope.

(** ** Opcodes and constants of nvme.h *)
Definition nvme_admin_delete_sq : Z := 0x00.
Definition nvme_admin_create_sq : Z := 0x01.
Definition nvme_admin_get_log_page : Z := 0x02.
Definition nvme_admin_delete_cq : Z := 0x04.
Definition nvme_admin_create_cq : Z := 0x05.
Definition nvme_admin_identify : Z := 0x06.
Definition nvme_admin_abort_cmd : Z := 0x08.
Definition nvme_admin_set_features : Z := 0x09.
Definition nvme_admin_get_features : Z := 0x0a.
Definition nvme_admin_async_event : Z := 0x0c.

Definition NVME_SC_INVALID_OPCODE : Z := 0x1.
Definition NVME_FEAT_NUM_QUEUES : Z := 0x07.
Definition NVME_LOG_SMART : Z := 0x02.
Definition NVME_LOG_CMD_EFFECTS : Z := 0x05.
Definition NVME_CMD_EFFECTS_CSUPP : Z := Z.shiftl 1 0.
Definition NVME_CMD_EFFECTS_LBCC : Z := Z.shiftl 1 1.
Definition NVME_LBAF_RP_BEST : Z := 0.
Definition NVME_LBAF_RP_GOOD : Z := 2.
Definition NVME_NIDT_CSI : Z := 0x4.
Definition NVME_CSI_ZNS : Z := 0x2.
Definition OZCS_ZRWA : Z := Z.shiftl 1 1.
Definition ZRWACAP_EXPFLUSHSUP : Z := Z.shiftl 1 0.
Definition SSD_TYPE_ZNS : Z := 2.
Definition SIZEOF_SMART_LOG : Z := 512.
Definition SIZEOF_EFFECTS_LOG : Z := 4096.

Section Admin.
Context {N C : Type} `{HM : HostMemory C} `{NI : NamespaceInfo N}.
(** [ns_ssd_type], the types the build gives the namespaces. *)
Context (ns_ssd_type : list Z).
Local Notation vdev := (vdev N C).
Implicit Types d : vdev.

(** ** Entries *)
Definition admin_queue d : res nvmev_admin_queue := of_opt NullDeref (vd_admin d).

Definition sq_entry d (eid : Z) : res admin_command :=
  let! q := admin_queue d in let! l := of_opt NullDeref (nvme_sq q) in aget l eid.

(** [ret] is a [u16]. *)
Definition __make_cq_entry_results (eid ret result0 result1 : Z) d : res vdev :=
  let! q := admin_queue d in
  let! cmd := sq_entry d eid in
  let! l := of_opt NullDeref (nvme_cq q) in
  let! l := aset l (aq_cq_head q) (cqe_of (aq_phase q) 0 eid (a_command_id cmd) ret result0 result1) in
  let head := i32 (aq_cq_head q + 1) in
  let '(head, ph) := if head =? cq_depth q then (0, if aq_phase q =? 0 then 1 else 0) else (head, aq_phase q) in
  Ok (set_admin d (mk_adminq ph (sq_depth q) (cq_depth q) head (nvme_sq q) (Some l))).

Definition __make_cq_entry (eid ret : Z) : vdev -> res vdev := __make_cq_entry_results eid ret 0 0.

(** ** Queue management *)
Definition with_sqes (x : nvmev_dev N C) l : nvmev_dev N C := mk_dev (io_workers x) (io_worker_turn x) (nr_io_workers x) (vns x) l (cqes x).
Definition with_cqes (x : nvmev_dev N C) l : nvmev_dev N C := mk_dev (io_workers x) (io_worker_turn x) (nr_io_workers x) (vns x) (sqes x) l.

(** [irq_vector] is left zero when interrupts are off. *)
Definition new_cq (c : admin_command) : nvmev_completion_queue :=
  let irq := negb (Z.land (c_flags c) NVME_CQ_IRQ_ENABLED =? 0) in
  mk_cq (c_qsize c + 1) 1 0 (-1) irq (if irq then c_irq_vector c else 0) false
    (completions_at (a_prp1 c) (nr_pages (c_qsize c + 1) SIZEOF_COMPLETION)).

Definition new_sq (c : admin_command) : nvmev_submission_queue C :=
  mk_sq (c_cqid c) (c_qsize c + 1) (mk_stat 0 0 0 0 0) (commands_at (a_prp1 c) (nr_pages (c_qsize c + 1) SIZEOF_COMMAND)).

Definition __nvmev_admin_create_cq (eid : Z) d : res vdev :=
  let! c := sq_entry d eid in
  let! l := aset (cqes (vd_io d)) (c_qid c) (Some (new_cq c)) in
  let! d := clear_db (set_io d (with_cqes (vd_io d) l)) (c_qid c * 2 + 1) in
  __make_cq_entry eid Nvme.NVME_SC_SUCCESS d.

Definition __nvmev_admin_delete_cq (eid : Z) d : res vdev :=
  let! c := sq_entry d eid in
  let! l := aset (cqes (vd_io d)) (c_qid c) None in
  __make_cq_entry eid Nvme.NVME_SC_SUCCESS (set_io d (with_cqes (vd_io d) l)).

Definition __nvmev_admin_create_sq (eid : Z) d : res vdev :=
  let! c := sq_entry d eid in
  let! l := aset (sqes (vd_io d)) (c_qid c) (Some (new_sq c)) in
  let! d := clear_db (set_io d (with_sqes (vd_io d) l)) (c_qid c * 2) in
  __make_cq_entry eid Nvme.NVME_SC_SUCCESS d.

Definition __nvmev_admin_delete_sq (eid : Z) d : res vdev :=
  let! c := sq_entry d eid in
  let! l := aset (sqes (vd_io d)) (c_qid c) None in
  __make_cq_entry eid Nvme.NVME_SC_SUCCESS (set_io d (with_sqes (vd_io d) l)).

(** ** Log pages *)
Definition log_len (c : admin_command) : Z := u32 (Z.shiftl (u32 (Z.lor (u32 (Z.shiftl (c_numdu c) 16)) (c_numdl c) + 1)) 2).

Definition supports_zns : bool := existsb (Z.eqb SSD_TYPE_ZNS) ns_ssd_type.

(** [(opcode, effects)] of the entries that are set. *)
Definition effects_acs : list (Z * Z) :=
  (fun op => (op, NVME_CMD_EFFECTS_CSUPP)) <$>
    [nvme_admin_get_log_page; nvme_admin_identify; nvme_admin_set_features; nvme_admin_get_features; nvme_admin_async_event].
Definition effects_iocs : list (Z * Z) :=
  if supports_zns then
    [(0x7d, NVME_CMD_EFFECTS_CSUPP); (0x79, Z.lor NVME_CMD_EFFECTS_CSUPP NVME_CMD_EFFECTS_LBCC); (0x7a, NVME_CMD_EFFECTS_CSUPP)]
  else [].

(** A copy longer than the static page reads what lies behind it. *)
Definition __nvmev_admin_get_log_page (eid : Z) d : res vdev :=
  let! c := sq_entry d eid in
  let len := log_len c in
  let! p := if c_lid c =? NVME_LOG_SMART then if SIZEOF_SMART_LOG <? len then Err OutOfBounds else Ok (SmartLog len 20)
            else if c_lid c =? NVME_LOG_CMD_EFFECTS then if SIZEOF_EFFECTS_LOG <? len then Err OutOfBounds else Ok (EffectsLog len effects_acs effects_iocs)
            else Ok (ZeroLog len) in
  __make_cq_entry eid Nvme.NVME_SC_SUCCESS (put_page d (a_prp1 c) p).

(** ** Identify *)
Definition lba_formats : list nvme_lbaf :=
  [mk_lbaf 0 9 NVME_LBAF_RP_GOOD; mk_lbaf 8 9 NVME_LBAF_RP_GOOD; mk_lbaf 16 9 NVME_LBAF_RP_GOOD; mk_lbaf 0 12 NVME_LBAF_RP_BEST;
   mk_lbaf 8 12 NVME_LBAF_RP_BEST; mk_lbaf 64 12 NVME_LBAF_RP_BEST; mk_lbaf 128 12 NVME_LBAF_RP_BEST].

Definition flbas_of (lba_bits : Z) : res Z := if lba_bits =? 9 then Ok 0 else if lba_bits =? 12 then Ok 3 else Err BugOn.

Definition __nvmev_admin_identify_namespace (eid : Z) d : res vdev :=
  let! c := sq_entry d eid in
  let nsid := u32 (a_nsid c - 1) in
  let! flbas := flbas_of LBA_BITS in
  let! n := aget (vns (vd_io d)) nsid in
  let! f := aget lba_formats flbas in
  let nsze := Z.shiftr (info_size n) (ds f) in
  __make_cq_entry eid Nvme.NVME_SC_SUCCESS (put_page d (a_prp1 c) (IdNamespace nsze nsze nsze 6 flbas 0 lba_formats)).

(** [i > cmd->nsid] compares as unsigned. *)
Definition __nvmev_admin_identify_namespaces (eid : Z) d : res vdev :=
  let! c := sq_entry d eid in
  let ids := filter (fun i => a_nsid c <? i = true) (seqZ 1 (vd_nr_ns d)) in
  __make_cq_entry eid Nvme.NVME_SC_SUCCESS (put_page d (a_prp1 c) (IdNamespaces ids)).

Definition __nvmev_admin_identify_namespace_desc (eid : Z) d : res vdev :=
  let! c := sq_entry d eid in
  let! n := aget (vns (vd_io d)) (i32 (a_nsid c - 1)) in
  __make_cq_entry eid Nvme.NVME_SC_SUCCESS (put_page d (a_prp1 c) (IdNamespaceDesc NVME_NIDT_CSI 1 (u8 (info_csi n)))).

Definition zns_page (zl : zns_limits) : host_page :=
  let zrwa := 0 <? zl_zrwa zl in
  IdZnsNamespace 0 (if zrwa then OZCS_ZRWA else 0) (u32 (zl_active zl - 1)) (u32 (zl_open zl - 1))
    (if zrwa then u32 (zl_zrwa zl - 1) else 0) (if zrwa then u16 (zl_zrwafg_size zl) else 0) (if zrwa then u16 (zl_zrwa_size zl) else 0)
    (if zrwa then ZRWACAP_EXPFLUSHSUP else 0) (BYTE_TO_LBA (zl_zone_size zl)) 0.

Definition __nvmev_admin_identify_zns_namespace (eid : Z) d : res vdev :=
  let! c := sq_entry d eid in
  let nsid := i32 (a_nsid c - 1) in
  let! n := aget (vns (vd_io d)) nsid in
  let! ty := aget ns_ssd_type nsid in
  if negb (ty =? SSD_TYPE_ZNS) then __make_cq_entry eid Nvme.NVME_SC_SUCCESS d
  else
    rassert (info_csi n =? NVME_CSI_ZNS) ;;;
    let! zl := of_opt NullDeref (info_zns n) in
    __make_cq_entry eid Nvme.NVME_SC_SUCCESS (put_page d (a_prp1 c) (zns_page zl)).

Definition __nvmev_admin_identify_zns_ctrl (eid : Z) d : res vdev :=
  let! c := sq_entry d eid in __make_cq_entry eid Nvme.NVME_SC_SUCCESS (put_page d (a_prp1 c) (IdZnsCtrl 0)).

Definition __nvmev_admin_identify_ctrl (eid : Z) d : res vdev :=
  let! c := sq_entry d eid in
  __make_cq_entry eid Nvme.NVME_SC_SUCCESS
    (put_page d (a_prp1 c) (IdCtrl (vd_nr_ns d) 0 3 0 "CSL_Virt_SN_01" "CSL_Virt_MN_01" "CSL_002" (u8 (vd_mdts d)) 0x66 0x44)).

Definition __nvmev_admin_identify (eid : Z) d : res vdev :=
  let! c := sq_entry d eid in
  let cns := i32 (c_cns c) in
  if cns =? 0x00 then __nvmev_admin_identify_namespace eid d
  else if cns =? 0x01 then __nvmev_admin_identify_ctrl eid d
  else if cns =? 0x02 then __nvmev_admin_identify_namespaces eid d
  else if cns =? 0x03 then __nvmev_admin_identify_namespace_desc eid d
  else if cns =? 0x05 then __nvmev_admin_identify_zns_namespace eid d
  else if cns =? 0x06 then __nvmev_admin_identify_zns_ctrl eid d
  else __make_cq_entry eid NVME_SC_INVALID_OPCODE d.

(** ** Features *)

(** [(nr_cq - 1) << 16 | (nr_sq - 1)] of unsigned counters. *)
Definition queue_counts (nr_sq nr_cq : Z) : Z := Z.lor (u32 (Z.shiftl (u32 (nr_cq - 1)) 16)) (u32 (nr_sq - 1)).

Definition __nvmev_admin_set_features (eid : Z) d : res vdev :=
  let! c := sq_entry d eid in
  if c_fid c =? NVME_FEAT_NUM_QUEUES then
    let nr_sq := Z.min (Z.land (c_dword11 c) 0xFFFF + 1) NR_MAX_IO_QUEUE in
    let nr_cq := Z.min (Z.land (Z.shiftr (c_dword11 c) 16) 0xFFFF + 1) NR_MAX_IO_QUEUE in
    __make_cq_entry_results eid Nvme.NVME_SC_SUCCESS (queue_counts nr_sq nr_cq) 0 (set_nr d nr_sq nr_cq)
  else __make_cq_entry_results eid Nvme.NVME_SC_SUCCESS 0 0 d.

Definition __nvmev_admin_get_features (eid : Z) d : res vdev :=
  let! c := sq_entry d eid in
  if c_fid c =? NVME_FEAT_NUM_QUEUES then
    __make_cq_entry_results eid Nvme.NVME_SC_SUCCESS (queue_counts (vd_nr_sq d) (vd_nr_cq d)) 0 d
  else __make_cq_entry_results eid Nvme.NVME_SC_SUCCESS 0 0 d.

Definition __nvmev_admin_async_event (eid : Z) : vdev -> res vdev := __make_cq_entry eid Nvme.NVME_SC_SUCCESS.

(** ** Dispatch *)
Definition __nvmev_proc_admin_req (entry_id : Z) d : res vdev :=
  let! c := sq_entry d entry_id in
  let op := a_opcode c in
  if op =? nvme_admin_delete_sq then __nvmev_admin_delete_sq entry_id d
  else if op =? nvme_admin_create_sq then __nvmev_admin_create_sq entry_id d
  else if op =? nvme_admin_get_log_page then __nvmev_admin_get_log_page entry_id d
  else if op =? nvme_admin_delete_cq then __nvmev_admin_delete_cq entry_id d
  else if op =? nvme_admin_create_cq then __nvmev_admin_create_cq entry_id d
  else if op =? nvme_admin_identify then __nvmev_admin_identify entry_id d
  else if op =? nvme_admin_abort_cmd then Ok d
  else if op =? nvme_admin_set_features then __nvmev_admin_set_features entry_id d
  else if op =? nvme_admin_get_features then __nvmev_admin_get_features entry_id d
  else if op =? nvme_admin_async_event then __nvmev_admin_async_event entry_id d
  else __make_cq_entry entry_id NVME_SC_INVALID_OPCODE d.

Fixpoint admin_loop (fuel : nat) (curr : Z) d : res vdev :=
  match fuel with
  | O => Ok d
  | S fuel =>
      let! d := __nvmev_proc_admin_req curr d in
      let! q := admin_queue d in
      admin_loop fuel (if curr + 1 =? sq_depth q then 0 else curr + 1) d
  end.

Definition nvmev_proc_admin_sq (new_db old_db : Z) d : res vdev :=
  let! q := admin_queue d in
  let n := if new_db - old_db <? 0 then new_db - old_db + sq_depth q else new_db - old_db in
  let! d := admin_loop (Z.to_nat n) old_db d in
  nvmev_signal_irq 0 d.

Definition nvmev_proc_admin_cq (new_db old_db : Z) d : res vdev := Ok d.
End Admin.
