(* ===== verification/AdminSpec.v ===== *)
(** * The admin queue against an abstract controller

    [controller] is what the commands are about: which queues exist, of what size, and
    the granted counts.  [adm_step] says what each command does to it and what the host
    is told.  The refinement: handling the entries between two doorbell values takes
    exactly those steps and posts exactly those answers, in order. *)

From Stdlib Require Import ZArith Lia String.
From stdpp Require Import base list numbers gmap.
From S2P Require Import Prelude Config CLayout PciConfig WorkQueue IoWorker IoQueue Dispatch Device Bar Admin.
From S2P Require Nvme.

(** ** The abstract controller *)
Record controller : Type := mk_ctl {
  ct_sqs : gmap Z (Z * Z);          (* size, completion queue *)
  ct_cqs : gmap Z (Z * option Z);   (* size, interrupt vector *)
  ct_counts : Z * Z;                (* submission, completion queues granted *)
}.

Definition known_cns (cns : Z) : bool := existsb (Z.eqb cns) [0; 1; 2; 3; 5; 6].

(** How the granted counts, both 0's based, are told to the host; all ones before any were. *)
Definition granted (n m : Z) : Z := if n =? 0 then 2 ^ 32 - 1 else (m - 1) * 2 ^ 16 + (n - 1).
Definition counts_ok (n m : Z) : Prop := n = 0 /\ m = 0 \/ 1 <= n <= NR_MAX_IO_QUEUE /\ 1 <= m <= NR_MAX_IO_QUEUE.

Lemma queue_counts_granted n m : counts_ok n m -> queue_counts n m = granted n m.
Proof.
  unfold queue_counts, granted, counts_ok, NR_MAX_IO_QUEUE. intros [[-> ->]|[Hn Hm]]; [done|]. rewrite (proj2 (Z.eqb_neq n 0)) by lia.
  rewrite (u32_id (m - 1)), (u32_id (n - 1)), Z.shiftl_mul_pow2, u32_id by lia.
  pose proof (Z.add_lor_land ((m - 1) * 2 ^ 16) (n - 1)) as H. assert (Z.land ((m - 1) * 2 ^ 16) (n - 1) = 0); [|lia]. apply Z.bits_inj'. intros i Hi. rewrite Z.land_spec, Z.bits_0.
  destruct (Z.ltb_spec i 16); [by rewrite Z.mul_pow2_bits_low by lia|].
  rewrite <- (Z.mod_small (n - 1) (2 ^ 16)) by lia. by rewrite Z.mod_pow2_bits_high, andb_false_r by lia.
Qed.

(** The new state, and the answer: status and result. *)
Definition adm_step (c : admin_command) (k : controller) : controller * option (Z * Z) :=
  let ok := Some (Nvme.NVME_SC_SUCCESS, 0) in
  let op := a_opcode c in
  if op =? nvme_admin_delete_sq then (mk_ctl (delete (c_qid c) (ct_sqs k)) (ct_cqs k) (ct_counts k), ok)
  else if op =? nvme_admin_create_sq then (mk_ctl (<[c_qid c := (c_qsize c + 1, c_cqid c)]> (ct_sqs k)) (ct_cqs k) (ct_counts k), ok)
  else if op =? nvme_admin_get_log_page then (k, ok)
  else if op =? nvme_admin_delete_cq then (mk_ctl (ct_sqs k) (delete (c_qid c) (ct_cqs k)) (ct_counts k), ok)
  else if op =? nvme_admin_create_cq then
    (mk_ctl (ct_sqs k) (<[c_qid c := (c_qsize c + 1, if Z.testbit (c_flags c) 1 then Some (c_irq_vector c) else None)]> (ct_cqs k)) (ct_counts k), ok)
  else if op =? nvme_admin_identify then (k, if known_cns (i32 (c_cns c)) then ok else Some (NVME_SC_INVALID_OPCODE, 0))
  else if op =? nvme_admin_abort_cmd then (k, None)
  else if op =? nvme_admin_set_features then
    if c_fid c =? NVME_FEAT_NUM_QUEUES then
      let n := Z.min (get_bits (c_dword11 c) 0 16 + 1) NR_MAX_IO_QUEUE in
      let m := Z.min (get_bits (c_dword11 c) 16 16 + 1) NR_MAX_IO_QUEUE in
      (mk_ctl (ct_sqs k) (ct_cqs k) (n, m), Some (Nvme.NVME_SC_SUCCESS, granted n m))
    else (k, ok)
  else if op =? nvme_admin_get_features then
    (k, if c_fid c =? NVME_FEAT_NUM_QUEUES then Some (Nvme.NVME_SC_SUCCESS, granted (fst (ct_counts k)) (snd (ct_counts k))) else ok)
  else if op =? nvme_admin_async_event then (k, ok)
  else (k, Some (NVME_SC_INVALID_OPCODE, 0)).

(** An answer is an entry of the admin completion queue, which belongs to no worker. *)
Definition answer_job (e : Z) (c : admin_command) (r : Z * Z) : io_job := Request 0 0 e (a_command_id c) (fst r) (snd r) 0 0.

(** Commands with the slots they lie in. *)
Fixpoint adm_run (l : list (Z * admin_command)) (k : controller) : controller * list io_job :=
  match l with
  | [] => (k, [])
  | (e, c) :: l =>
      let '(k, r) := adm_step c k in
      let '(k, js) := adm_run l k in
      (k, (match r with Some r => [answer_job e c r] | None => [] end) ++ js)
  end.

Section Refine.
Context {N C : Type} `{HM : HostMemory C} `{NI : NamespaceInfo N}.
Context (ns_ssd_type : list Z).
Local Notation vdev := (vdev N C).
Implicit Types d : vdev.

(** ** What a host may send *)
Definition admin_ok (nss : list N) (c : admin_command) : Prop :=
  let op := a_opcode c in
  let ns i := exists n, zget nss i = Some n in
  (op = nvme_admin_delete_sq \/ op = nvme_admin_create_sq \/ op = nvme_admin_delete_cq \/ op = nvme_admin_create_cq -> 1 <= c_qid c <= NR_MAX_IO_QUEUE) /\
  (op = nvme_admin_get_log_page -> (c_lid c = NVME_LOG_SMART -> log_len c <= SIZEOF_SMART_LOG) /\
    (c_lid c = NVME_LOG_CMD_EFFECTS -> log_len c <= SIZEOF_EFFECTS_LOG)) /\
  (op = nvme_admin_identify ->
    (i32 (c_cns c) = 0 -> ns (u32 (a_nsid c - 1))) /\ (i32 (c_cns c) = 3 -> ns (i32 (a_nsid c - 1))) /\
    (i32 (c_cns c) = 5 -> exists n ty, zget nss (i32 (a_nsid c - 1)) = Some n /\ zget ns_ssd_type (i32 (a_nsid c - 1)) = Some ty /\
      (ty = SSD_TYPE_ZNS -> info_csi n = NVME_CSI_ZNS /\ is_Some (info_zns n)))).

(** ** The state the controller stands for *)
Definition sq_view (o : option (nvmev_submission_queue C)) : option (Z * Z) := (fun q => (sq_queue_size q, sq_cqid q)) <$> o.
Definition cq_view (o : option nvmev_completion_queue) : option (Z * option Z) :=
  (fun q => (cq_queue_size q, if irq_enabled q then Some (irq_vector q) else None)) <$> o.

Record ctl_view d (k : controller) : Prop := {
  cv_sqlen : zlen (sqes (vd_io d)) = NR_MAX_IO_QUEUE + 1;
  cv_cqlen : zlen (cqes (vd_io d)) = NR_MAX_IO_QUEUE + 1;
  cv_sqs i o : zget (sqes (vd_io d)) i = Some o -> ct_sqs k !! i = sq_view o;
  cv_cqs i o : zget (cqes (vd_io d)) i = Some o -> ct_cqs k !! i = cq_view o;
  cv_counts : (vd_nr_sq d, vd_nr_cq d) = ct_counts k;
  cv_granted : counts_ok (vd_nr_sq d) (vd_nr_cq d);
  cv_dbs : zlen (vd_dbs d) = 1024 /\ zlen (vd_old_dbs d) = 1024;
}.

(** The admin completion queue as a ring of IoQueue.v; it has no interrupt state of its own. *)
Definition admin_ring (q : nvmev_admin_queue) (es : list nvme_completion) : nvmev_completion_queue :=
  mk_cq (cq_depth q) (aq_phase q) (aq_cq_head q) 0 false 0 true es.

(** Entries [cmds] are in the submission queue, [js] were posted. *)
Record admin_state d (depth : Z) (cmds : list admin_command) (js : list io_job) : Prop := {
  as_queue : exists q es, vd_admin d = Some q /\ nvme_sq q = Some cmds /\ nvme_cq q = Some es /\
    cq_depth q = depth /\ cq_holds depth js (admin_ring q es);
  as_depth : 0 < depth < 2 ^ 31;
}.

(** Doorbell [i] says what it said before. *)
Definition quiet d (i : Z) : Prop := exists v, zget (vd_dbs d) i = Some v /\ zget (vd_old_dbs d) i = Some v.

(** The admin doorbells are as they were, and no other starts to ring. *)
Definition doors d d' : Prop :=
  (forall i, i < 2 -> zget (vd_dbs d') i = zget (vd_dbs d) i /\ zget (vd_old_dbs d') i = zget (vd_old_dbs d) i) /\
  (forall i, 2 <= i -> quiet d i -> quiet d' i).

Lemma doors_same d d' : vd_dbs d' = vd_dbs d -> vd_old_dbs d' = vd_old_dbs d -> doors d d'.
Proof. unfold doors, quiet. by intros -> ->. Qed.

Lemma doors_trans d1 d2 d3 : doors d1 d2 -> doors d2 d3 -> doors d1 d3.
Proof.
  intros [H1 H2] [H3 H4]. split; [|auto]. intros i Hi. destruct (H1 i Hi) as [<- <-]. by apply H3.
Qed.

(** The pages of a queue hold its entries. *)
Lemma DIV_ROUND_UP_covers n m : 0 < m -> 0 <= n -> n + m - 1 < 2 ^ 64 -> n <= DIV_ROUND_UP n m * m.
Proof. intros Hm Hn Hw. unfold DIV_ROUND_UP. rewrite u64_id by lia. pose proof (Z.div_mod (n + m - 1) m ltac:(lia)). pose proof (Z.mod_pos_bound (n + m - 1) m Hm). lia. Qed.

Lemma completions_enough addr depth : 0 <= depth < 2 ^ 32 -> depth <= zlen (completions_at addr (nr_pages depth SIZEOF_COMPLETION)).
Proof.
  intros Hd. rewrite completions_pages. unfold nr_pages, NR_CQE_PER_PAGE. change (PAGE_SIZE / SIZEOF_COMPLETION) with 256.
  pose proof (DIV_ROUND_UP_covers (depth * SIZEOF_COMPLETION) PAGE_SIZE eq_refl ltac:(unfold SIZEOF_COMPLETION; lia) ltac:(unfold SIZEOF_COMPLETION, PAGE_SIZE; lia)) as H.
  unfold SIZEOF_COMPLETION, PAGE_SIZE in *. rewrite Z2Nat.id; lia.
Qed.

Lemma commands_enough addr depth : 0 <= depth < 2 ^ 32 -> depth <= zlen (commands_at addr (nr_pages depth SIZEOF_COMMAND)).
Proof.
  intros Hd. rewrite commands_pages. unfold nr_pages, NR_SQE_PER_PAGE. change (PAGE_SIZE / SIZEOF_COMMAND) with 64.
  pose proof (DIV_ROUND_UP_covers (depth * SIZEOF_COMMAND) PAGE_SIZE eq_refl ltac:(unfold SIZEOF_COMMAND; lia) ltac:(unfold SIZEOF_COMMAND, PAGE_SIZE; lia)) as H.
  unfold SIZEOF_COMMAND, PAGE_SIZE in *. rewrite Z2Nat.id; lia.
Qed.

(** Nothing was posted to any queue yet, and the pages of a submission queue hold it. *)
Definition memory_clear : Prop := forall addr n, Forall (fun x => Z.land (cqe_status x) 1 = 0) (completions_at addr n).
Definition db_zero d (i : Z) : Prop := zget (vd_dbs d) i = Some 0 /\ zget (vd_old_dbs d) i = Some 0.
Record queues_new d : Prop := {
  qn_dbs i : 2 <= i < 1024 -> db_zero d i;
  qn_cqs c q : zget (cqes (vd_io d)) c = Some (Some q) -> cq_fresh q;
  qn_sqs s q : zget (sqes (vd_io d)) s = Some (Some q) -> 0 < sq_queue_size q <= zlen (sq_entries q) /\ sq_queue_size q <= 2 ^ 16;
}.
Definition keeps_new d d' : Prop := memory_clear -> queues_new d -> queues_new d'.

Lemma keeps_same d d' : cqes (vd_io d') = cqes (vd_io d) -> sqes (vd_io d') = sqes (vd_io d) -> vd_dbs d' = vd_dbs d -> vd_old_dbs d' = vd_old_dbs d -> keeps_new d d'.
Proof. unfold keeps_new. intros H1 H2 H3 H4 _ [Hb Hc Hs]. split; unfold db_zero in *; rewrite ?H1, ?H2, ?H3, ?H4; assumption. Qed.

Lemma keeps_cqs d d' i x : sqes (vd_io d') = sqes (vd_io d) -> cqes (vd_io d') = zset (cqes (vd_io d)) i x -> 0 <= i < zlen (cqes (vd_io d)) ->
  (memory_clear -> forall q, x = Some q -> cq_fresh q) -> (forall j, db_zero d j -> db_zero d' j) -> keeps_new d d'.
Proof.
  intros H1 H2 Hi Hx Hz HM' [Hb Hc Hs]. split; rewrite ?H1, ?H2; [auto| |done]. intros c q Hq. rewrite zget_zset in Hq by done. case_decide; [|by eapply Hc].
  injection Hq as Hq. by eapply Hx.
Qed.

Lemma keeps_sqs d d' i x : cqes (vd_io d') = cqes (vd_io d) -> sqes (vd_io d') = zset (sqes (vd_io d)) i x -> 0 <= i < zlen (sqes (vd_io d)) ->
  (forall q, x = Some q -> 0 < sq_queue_size q <= zlen (sq_entries q) /\ sq_queue_size q <= 2 ^ 16) -> (forall j, db_zero d j -> db_zero d' j) -> keeps_new d d'.
Proof.
  intros H1 H2 Hi Hx Hz _ [Hb Hc Hs]. split; rewrite ?H1, ?H2; [auto|done|]. intros s q Hq. rewrite zget_zset in Hq by done. case_decide; [|by eapply Hs].
  injection Hq as Hq. by eapply Hx.
Qed.

Lemma clear_zero d d' i : vd_dbs d' = zset (vd_dbs d) i 0 -> vd_old_dbs d' = zset (vd_old_dbs d) i 0 -> zlen (vd_dbs d) = 1024 -> zlen (vd_old_dbs d) = 1024 -> 0 <= i < 1024 ->
  forall j, db_zero d j -> db_zero d' j.
Proof.
  intros H1 H2 L1 L2 Hi j [Z1 Z2]. unfold db_zero. rewrite H1, H2, !zget_zset by lia. by case_decide.
Qed.

Lemma new_cq_fresh c : memory_clear -> cq_fresh (new_cq c).
Proof.
  intros Hm. pose proof (get_bits_range (a_cdw10 c) 16 16 ltac:(lia)) as Hr. fold (c_qsize c) in Hr. split; cbn [new_cq cq_queue_size cq_entries cq_head phase]; [|done|done|].
  - split; [lia|]. apply completions_enough. lia.
  - intros i x Hx. unfold zget in Hx. case_match; [done|]. exact (Forall_lookup_1 _ _ _ _ (Hm _ _) Hx).
Qed.

Lemma new_sq_holds c : 0 < sq_queue_size (new_sq c) <= zlen (sq_entries (new_sq c)) /\ sq_queue_size (new_sq c) <= 2 ^ 16.
Proof.
  pose proof (get_bits_range (a_cdw10 c) 16 16 ltac:(lia)) as Hr. fold (c_qsize c) in Hr. cbn [new_sq sq_queue_size sq_entries]. split; [|lia]. split; [lia|].
  apply commands_enough. lia.
Qed.

(** The parts no command changes. *)
Record same_device d d' : Prop := {
  sd_new : keeps_new d d';
  sd_ns : vns (vd_io d') = vns (vd_io d);
  sd_workers : io_workers (vd_io d') = io_workers (vd_io d) /\ nr_io_workers (vd_io d') = nr_io_workers (vd_io d) /\ io_worker_turn (vd_io d') = io_worker_turn (vd_io d);
  sd_pci : vd_pci d' = vd_pci d;
  sd_bar : vd_bar d' = vd_bar d /\ vd_old_bar d' = vd_old_bar d;
  sd_signals : vd_signals d' = vd_signals d;
  sd_depth : sq_depth <$> vd_admin d' = sq_depth <$> vd_admin d;
  sd_doors : doors d d';
}.

Lemma same_device_refl d : same_device d d.
Proof. split; first [done|by apply doors_same|by apply keeps_same]. Qed.
Lemma same_device_trans d1 d2 d3 : same_device d1 d2 -> same_device d2 d3 -> same_device d1 d3.
Proof.
  intros [N1 ? (?&?&?) ? [??] ? ? ?] [N2 ? (?&?&?) ? [??] ? ? ?]. split; [| |split_and!| |split| | |]; first [etransitivity; eassumption|eapply doors_trans; eassumption|idtac].
  intros Hm Hd. by apply N2, N1.
Qed.

(** ** Posting *)
Lemma post_spec d depth cmds js e c ret r0 : admin_state d depth cmds js -> zget cmds e = Some c ->
  exists d', __make_cq_entry_results e ret r0 0 d = Ok d' /\ admin_state d' depth cmds (js ++ [answer_job e c (ret, r0)]) /\
    same_device d d' /\ vd_io d' = vd_io d /\ vd_dbs d' = vd_dbs d /\ vd_old_dbs d' = vd_old_dbs d /\
    vd_nr_sq d' = vd_nr_sq d /\ vd_nr_cq d' = vd_nr_cq d /\ vd_pages d' = vd_pages d.
Proof.
  intros [(q & es & Hq & Hsq & Hcq & <- & Hh) Hb] Hc. unfold __make_cq_entry_results, sq_entry, admin_queue.
  rewrite Hq. cbn [of_opt rbind]. rewrite Hsq, Hcq. cbn [of_opt rbind]. rewrite (proj2 (aget_ok _ _ _) Hc). cbn [rbind].
  destruct (fill_holds (cq_depth q) js (admin_ring q es) (answer_job e c (ret, r0)) ltac:(lia) Hh eq_refl) as (q' & E & Hh').
  unfold answer_job, __fill_cq_result in E. cbn [admin_ring cq_entries cq_head phase cq_queue_size fst snd] in E.
  destruct (aset es (aq_cq_head q) _) as [l|] eqn:El; [|done]. cbn [rbind] in E |- *.
  pose proof (ch_head _ _ _ Hh) as Hhd. cbn [admin_ring cq_head] in Hhd. pose proof (Z.mod_pos_bound (zlen js) (cq_depth q) ltac:(lia)) as Hm.
  rewrite i32_id by lia.
  destruct (aq_cq_head q + 1 =? cq_depth q) eqn:Ew; injection E as <-.
  all: eexists; split; [done|]; split; [|split; [split; cbn; rewrite ?Hq; first [done|by apply doors_same|by apply keeps_same]|done]]; split; [|done].
  all: eexists _, l; split; [done|]; split; [done|]; split; [done|]; split; [done|exact Hh'].
Qed.

(** Where a posted completion goes, whatever the ring holds. *)
Lemma post_inv d d' q es e ret r0 r1 : vd_admin d = Some q -> nvme_cq q = Some es -> __make_cq_entry_results e ret r0 r1 d = Ok d' ->
  exists id q', vd_admin d' = Some q' /\ nvme_cq q' = Some (zset es (aq_cq_head q) (cqe_of (aq_phase q) 0 e id ret r0 r1)).
Proof.
  intros Hq Hes E. unfold __make_cq_entry_results, admin_queue in E. rewrite Hq in E. cbn [of_opt rbind] in E.
  apply rbind_ok in E as (cmd & _ & E). rewrite Hes in E. cbn [of_opt rbind] in E. apply rbind_ok in E as (l & El & E).
  apply aset_ok in El as [_ ->]. exists (a_command_id cmd). destruct (i32 (aq_cq_head q + 1) =? cq_depth q); injection E as <-; by eexists.
Qed.

(** ** One command *)

Lemma clear_db_ok d i : zlen (vd_dbs d) = 1024 -> zlen (vd_old_dbs d) = 1024 -> 0 <= i < 1024 ->
  clear_db d i = Ok (set_dbs d (zset (vd_dbs d) i 0) (zset (vd_old_dbs d) i 0)).
Proof. intros H1 H2 Hi. unfold clear_db. by rewrite !aset_in by lia. Qed.

Lemma clear_doors d d' x y i : vd_dbs d' = zset x i 0 -> vd_old_dbs d' = zset y i 0 -> x = vd_dbs d -> y = vd_old_dbs d -> zlen x = 1024 -> zlen y = 1024 -> 2 <= i < 1024 ->
  doors d d'.
Proof.
  intros H1 H2 -> -> Lx Ly Hi. unfold doors, quiet. rewrite H1, H2. split.
  - intros j Hj. by rewrite !zget_zset_ne by lia.
  - intros j Hj (v & Hv1 & Hv2). destruct (decide (j = i)) as [->|Hne]; [|exists v; by rewrite !zget_zset_ne by done].
    exists 0. by rewrite !zget_zset_eq by lia.
Qed.

Lemma view_zset {A B} (l : list (option A)) (f : option A -> option B) (m : gmap Z B) i x :
  0 <= i < zlen l -> (forall j o, zget l j = Some o -> m !! j = f o) ->
  forall j o, zget (zset l i x) j = Some o -> partial_alter (fun _ => f x) i m !! j = f o.
Proof.
  intros Hi H j o. rewrite zget_zset by done. case_decide as Hij; [subst j; intros [= <-]; by rewrite lookup_partial_alter_eq|].
  intros Hj. rewrite lookup_partial_alter_ne by done. by apply H.
Qed.

(** What a handler does before it posts: the effect on the controller, nothing else. *)
Record effect d d' (k k' : controller) : Prop := {
  ef_view : ctl_view d' k';
  ef_same : same_device d d';
  ef_admin : vd_admin d' = vd_admin d;
}.

Lemma effect_page d k addr p : ctl_view d k -> effect d (put_page d addr p) k k.
Proof. intros V. split; [by destruct V; split|split; first [done|by apply doors_same|by apply keeps_same]|done]. Qed.

Lemma effect_none d k : ctl_view d k -> effect d d k k.
Proof. intros V. split; [done|apply same_device_refl|done]. Qed.

Lemma entry_ok d depth cmds js e c : admin_state d depth cmds js -> zget cmds e = Some c -> sq_entry d e = Ok c.
Proof.
  intros [(q & es & Hq & Hsq & _) _] Hc. unfold sq_entry, admin_queue. rewrite Hq. cbn [of_opt rbind]. rewrite Hsq. cbn [of_opt rbind].
  by apply aget_ok.
Qed.

(** A handler that has its effect and then posts [r]. *)
Definition handled (e : Z) (m : res vdev) d (k k' : controller) (r : Z * Z) : Prop :=
  exists d0, m = __make_cq_entry_results e (fst r) (snd r) 0 d0 /\ effect d d0 k k'.

Lemma handled_spec d depth cmds js e c m k k' r : admin_state d depth cmds js -> zget cmds e = Some c -> handled e m d k k' r ->
  exists d', m = Ok d' /\ same_device d d' /\ ctl_view d' k' /\ admin_state d' depth cmds (js ++ [answer_job e c r]).
Proof.
  intros A Hc (d0 & -> & [V S Ha]). assert (admin_state d0 depth cmds js) as A0 by (destruct A as [A1 A2]; split; [by rewrite Ha|done]).
  destruct (post_spec d0 depth cmds js e c (fst r) (snd r) A0 Hc) as (d' & E & A' & S' & Hio & H1 & H2 & H3 & H4 & _).
  exists d'. split; [done|]. split; [by eapply same_device_trans|]. split; [|by destruct r].
  destruct V as [V1 V2 V3 V4 V5 Vg V6]. split; rewrite ?Hio, ?H1, ?H2, ?H3, ?H4; done.
Qed.

Section OneCommand.
Context d (depth : Z) (cmds : list admin_command) (js : list io_job) (e : Z) (c : admin_command) (k : controller).
Context (A : admin_state d depth cmds js) (Hc : zget cmds e = Some c) (V : ctl_view d k) (Hq0 : 0 <= c_qid c).

Lemma create_cq_handled : 1 <= c_qid c <= NR_MAX_IO_QUEUE ->
  handled e (__nvmev_admin_create_cq e d) d k
    (mk_ctl (ct_sqs k) (<[c_qid c := (c_qsize c + 1, if Z.testbit (c_flags c) 1 then Some (c_irq_vector c) else None)]> (ct_cqs k)) (ct_counts k))
    (Nvme.NVME_SC_SUCCESS, 0).
Proof.
  intros Hle. destruct V as [V1 V2 V3 V4 V5 Vg [V6 V7]]. unfold NR_MAX_IO_QUEUE in *. unfold handled, __nvmev_admin_create_cq.
  rewrite (entry_ok _ _ _ _ _ _ A Hc). cbn [rbind]. rewrite aset_in by lia. cbn [rbind]. rewrite clear_db_ok by (done || lia). cbn [rbind].
  remember (if Z.testbit (c_flags c) 1 then Some (c_irq_vector c) else None) as v eqn:Ev.
  assert (cq_view (Some (new_cq c)) = Some (c_qsize c + 1, v)) as Hv.
  { subst v. unfold new_cq, NVME_CQ_IRQ_ENABLED. change (Z.shiftl 1 1) with (2 ^ 1). rewrite land_bit by lia. by destruct (Z.testbit (c_flags c) 1). }
  eexists. split; [reflexivity|]. split; [|split; first [done|eapply (keeps_cqs _ _ (c_qid c)); [done|done|lia|intros Hm q [= <-]; by apply new_cq_fresh|by apply (clear_zero _ _ (c_qid c * 2 + 1)); first [done|lia]]|by apply (clear_doors _ _ (vd_dbs d) (vd_old_dbs d) (c_qid c * 2 + 1)); first [done|lia]]|done].
  split; cbn; rewrite ?length_zset; try done. intros i o Ho.
  rewrite <- (view_zset (cqes (vd_io d)) cq_view (ct_cqs k) (c_qid c) (Some (new_cq c)) ltac:(lia) V4 i o Ho). by rewrite Hv.
Qed.

Lemma create_sq_handled : 1 <= c_qid c <= NR_MAX_IO_QUEUE ->
  handled e (__nvmev_admin_create_sq e d) d k (mk_ctl (<[c_qid c := (c_qsize c + 1, c_cqid c)]> (ct_sqs k)) (ct_cqs k) (ct_counts k)) (Nvme.NVME_SC_SUCCESS, 0).
Proof.
  intros Hle. destruct V as [V1 V2 V3 V4 V5 Vg [V6 V7]]. unfold NR_MAX_IO_QUEUE in *. unfold handled, __nvmev_admin_create_sq.
  rewrite (entry_ok _ _ _ _ _ _ A Hc). cbn [rbind]. rewrite aset_in by lia. cbn [rbind]. rewrite clear_db_ok by (done || lia). cbn [rbind].
  eexists. split; [reflexivity|]. split; [|split; first [done|eapply (keeps_sqs _ _ (c_qid c)); [done|done|lia|intros q [= <-]; apply new_sq_holds|by apply (clear_zero _ _ (c_qid c * 2)); first [done|lia]]|by apply (clear_doors _ _ (vd_dbs d) (vd_old_dbs d) (c_qid c * 2)); first [done|lia]]|done].
  split; cbn; rewrite ?length_zset; try done. intros i o Ho. by apply (view_zset (sqes (vd_io d)) sq_view (ct_sqs k) (c_qid c) (Some (new_sq c)) ltac:(lia) V3 i o Ho).
Qed.

Lemma delete_cq_handled : 1 <= c_qid c <= NR_MAX_IO_QUEUE ->
  handled e (__nvmev_admin_delete_cq e d) d k (mk_ctl (ct_sqs k) (delete (c_qid c) (ct_cqs k)) (ct_counts k)) (Nvme.NVME_SC_SUCCESS, 0).
Proof.
  intros Hle. destruct V as [V1 V2 V3 V4 V5 Vg V6]. unfold NR_MAX_IO_QUEUE in *. unfold handled, __nvmev_admin_delete_cq.
  rewrite (entry_ok _ _ _ _ _ _ A Hc). cbn [rbind]. rewrite aset_in by lia. cbn [rbind].
  eexists. split; [reflexivity|]. split; [|split; first [done|by apply doors_same|eapply (keeps_cqs _ _ (c_qid c)); [done|done|lia|done|done]]|done].
  split; cbn; rewrite ?length_zset; try done. intros i o Ho. by apply (view_zset (cqes (vd_io d)) cq_view (ct_cqs k) (c_qid c) None ltac:(lia) V4 i o Ho).
Qed.

Lemma delete_sq_handled : 1 <= c_qid c <= NR_MAX_IO_QUEUE ->
  handled e (__nvmev_admin_delete_sq e d) d k (mk_ctl (delete (c_qid c) (ct_sqs k)) (ct_cqs k) (ct_counts k)) (Nvme.NVME_SC_SUCCESS, 0).
Proof.
  intros Hle. destruct V as [V1 V2 V3 V4 V5 Vg V6]. unfold NR_MAX_IO_QUEUE in *. unfold handled, __nvmev_admin_delete_sq.
  rewrite (entry_ok _ _ _ _ _ _ A Hc). cbn [rbind]. rewrite aset_in by lia. cbn [rbind].
  eexists. split; [reflexivity|]. split; [|split; first [done|by apply doors_same|eapply (keeps_sqs _ _ (c_qid c)); [done|done|lia|done|done]]|done].
  split; cbn; rewrite ?length_zset; try done. intros i o Ho. by apply (view_zset (sqes (vd_io d)) sq_view (ct_sqs k) (c_qid c) None ltac:(lia) V3 i o Ho).
Qed.

Lemma log_page_handled : (c_lid c = NVME_LOG_SMART -> log_len c <= SIZEOF_SMART_LOG) -> (c_lid c = NVME_LOG_CMD_EFFECTS -> log_len c <= SIZEOF_EFFECTS_LOG) ->
  handled e (__nvmev_admin_get_log_page ns_ssd_type e d) d k k (Nvme.NVME_SC_SUCCESS, 0).
Proof.
  intros H1 H2. unfold handled, __nvmev_admin_get_log_page. rewrite (entry_ok _ _ _ _ _ _ A Hc). cbn [rbind].
  destruct (Z.eqb_spec (c_lid c) NVME_LOG_SMART) as [E1|_]; [|destruct (Z.eqb_spec (c_lid c) NVME_LOG_CMD_EFFECTS) as [E2|_]].
  - apply H1, Z.ltb_ge in E1. rewrite E1. cbn [rbind]. eexists. split; [reflexivity|by apply effect_page].
  - apply H2, Z.ltb_ge in E2. rewrite E2. cbn [rbind]. eexists. split; [reflexivity|by apply effect_page].
  - cbn [rbind]. eexists. split; [reflexivity|by apply effect_page].
Qed.

(** A page is filled, or nothing is done, and [r] is posted. *)
Ltac page := eexists; split; [reflexivity|first [by apply effect_page|by apply effect_none]].

Lemma identify_handled : a_opcode c = nvme_admin_identify -> admin_ok (vns (vd_io d)) c ->
  handled e (__nvmev_admin_identify ns_ssd_type e d) d k k
    (if known_cns (i32 (c_cns c)) then (Nvme.NVME_SC_SUCCESS, 0) else (NVME_SC_INVALID_OPCODE, 0)).
Proof.
  intros Hop (_ & _ & Hi). destruct (Hi Hop) as (H0 & H3 & H5). clear Hi Hop.
  unfold handled, __nvmev_admin_identify, known_cns. rewrite (entry_ok _ _ _ _ _ _ A Hc). cbn [rbind]. generalize dependent (i32 (c_cns c)).
  intros cns H0 H3 H5. cbn [existsb]. destruct (Z.eqb_spec cns 0) as [->|_]; [|destruct (Z.eqb_spec cns 1) as [->|_]; [|destruct (Z.eqb_spec cns 2) as [->|_];
    [|destruct (Z.eqb_spec cns 3) as [->|_]; [|destruct (Z.eqb_spec cns 5) as [->|_]; [|destruct (Z.eqb_spec cns 6) as [->|_]]]]]]; cbn [orb fst snd].
  - destruct (H0 eq_refl) as (n & Hn). unfold __nvmev_admin_identify_namespace. rewrite (entry_ok _ _ _ _ _ _ A Hc). cbn [rbind].
    rewrite (proj2 (aget_ok _ _ _) Hn). page.
  - unfold __nvmev_admin_identify_ctrl. rewrite (entry_ok _ _ _ _ _ _ A Hc). page.
  - unfold __nvmev_admin_identify_namespaces. rewrite (entry_ok _ _ _ _ _ _ A Hc). page.
  - destruct (H3 eq_refl) as (n & Hn). unfold __nvmev_admin_identify_namespace_desc. rewrite (entry_ok _ _ _ _ _ _ A Hc). cbn [rbind].
    rewrite (proj2 (aget_ok _ _ _) Hn). page.
  - destruct (H5 eq_refl) as (n & ty & Hn & Ht & Hz). unfold __nvmev_admin_identify_zns_namespace. rewrite (entry_ok _ _ _ _ _ _ A Hc). cbn [rbind].
    rewrite (proj2 (aget_ok _ _ _) Hn), (proj2 (aget_ok _ _ _) Ht). cbn [rbind].
    destruct (Z.eqb_spec ty SSD_TYPE_ZNS) as [->|_]; cbn [negb]; [|page]. destruct (Hz eq_refl) as (-> & zl & Ez). rewrite Ez. cbn [of_opt rbind rassert Z.eqb]. page.
  - unfold __nvmev_admin_identify_zns_ctrl. rewrite (entry_ok _ _ _ _ _ _ A Hc). page.
  - page.
Qed.

Lemma set_features_handled : let r := adm_step c k in a_opcode c = nvme_admin_set_features ->
  exists a, snd r = Some a /\ handled e (__nvmev_admin_set_features e d) d k (fst r) a.
Proof.
  cbv zeta. intros Hop. unfold adm_step. rewrite Hop. cbn [Z.eqb Pos.eqb nvme_admin_set_features nvme_admin_delete_sq nvme_admin_create_sq nvme_admin_get_log_page
    nvme_admin_delete_cq nvme_admin_create_cq nvme_admin_identify nvme_admin_abort_cmd].
  unfold handled, __nvmev_admin_set_features. rewrite (entry_ok _ _ _ _ _ _ A Hc). cbn [rbind].
  destruct (c_fid c =? NVME_FEAT_NUM_QUEUES); cbn [fst snd]; eexists; (split; [reflexivity|]); [|page].
  assert (Z.land (c_dword11 c) 0xFFFF = get_bits (c_dword11 c) 0 16) as -> by (unfold get_bits; by rewrite Z.shiftr_0_r).
  change (Z.land (Z.shiftr (c_dword11 c) 16) 0xFFFF) with (get_bits (c_dword11 c) 16 16).
  match goal with |- context [queue_counts ?n ?m] => assert (counts_ok n m) as Hg end.
  { pose proof (get_bits_range (c_dword11 c) 0 16). pose proof (get_bits_range (c_dword11 c) 16 16). right. unfold NR_MAX_IO_QUEUE. lia. }
  rewrite queue_counts_granted by done. eexists. split; [reflexivity|]. split; [|split; first [done|by apply doors_same|by apply keeps_same]|done]. destruct V. by split.
Qed.

Lemma get_features_handled : handled e (__nvmev_admin_get_features e d) d k k
    (if c_fid c =? NVME_FEAT_NUM_QUEUES then (Nvme.NVME_SC_SUCCESS, granted (fst (ct_counts k)) (snd (ct_counts k))) else (Nvme.NVME_SC_SUCCESS, 0)).
Proof.
  unfold handled, __nvmev_admin_get_features. rewrite (entry_ok _ _ _ _ _ _ A Hc). cbn [rbind]. rewrite <- (cv_counts _ _ V). cbn [fst snd].
  rewrite (queue_counts_granted _ _ (cv_granted _ _ V)).
  destruct (c_fid c =? NVME_FEAT_NUM_QUEUES); page.
Qed.

(** Every command. *)
Lemma admin_req_spec : admin_ok (vns (vd_io d)) c -> exists d', __nvmev_proc_admin_req ns_ssd_type e d = Ok d' /\ same_device d d' /\
  ctl_view d' (fst (adm_step c k)) /\
  admin_state d' depth cmds (js ++ match snd (adm_step c k) with Some r => [answer_job e c r] | None => [] end).
Proof.
  intros Hok. pose proof Hok as (H1 & H2 & H3). unfold __nvmev_proc_admin_req. rewrite (entry_ok _ _ _ _ _ _ A Hc). cbn [rbind].
  pose proof set_features_handled as Hsf. cbv zeta in Hsf. unfold adm_step in *.
  destruct (Z.eqb_spec (a_opcode c) nvme_admin_delete_sq) as [E|_]; [eapply (handled_spec _ _ _ _ _ _ _ _ _ _ A Hc), delete_sq_handled; tauto|].
  destruct (Z.eqb_spec (a_opcode c) nvme_admin_create_sq) as [E|_]; [eapply (handled_spec _ _ _ _ _ _ _ _ _ _ A Hc), create_sq_handled; tauto|].
  destruct (Z.eqb_spec (a_opcode c) nvme_admin_get_log_page) as [E|_]; [eapply (handled_spec _ _ _ _ _ _ _ _ _ _ A Hc), log_page_handled; tauto|].
  destruct (Z.eqb_spec (a_opcode c) nvme_admin_delete_cq) as [E|_]; [eapply (handled_spec _ _ _ _ _ _ _ _ _ _ A Hc), delete_cq_handled; tauto|].
  destruct (Z.eqb_spec (a_opcode c) nvme_admin_create_cq) as [E|_]; [eapply (handled_spec _ _ _ _ _ _ _ _ _ _ A Hc), create_cq_handled; tauto|].
  destruct (Z.eqb_spec (a_opcode c) nvme_admin_identify) as [E|_].
  { pose proof (handled_spec _ _ _ _ _ _ _ _ _ _ A Hc (identify_handled E Hok)) as H. by destruct (known_cns (i32 (c_cns c))). }
  destruct (Z.eqb_spec (a_opcode c) nvme_admin_abort_cmd) as [E|_].
  { exists d. split; [done|]. split; [apply same_device_refl|]. split; [done|]. by rewrite app_nil_r. }
  destruct (Z.eqb_spec (a_opcode c) nvme_admin_set_features) as [E|_].
  { destruct (Hsf E) as (a & Ha & H). rewrite Ha. apply (handled_spec _ _ _ _ _ _ _ _ _ _ A Hc H). }
  clear Hsf. destruct (Z.eqb_spec (a_opcode c) nvme_admin_get_features) as [E|_].
  { pose proof (handled_spec _ _ _ _ _ _ _ _ _ _ A Hc get_features_handled) as H. by destruct (c_fid c =? NVME_FEAT_NUM_QUEUES). }
  destruct (Z.eqb_spec (a_opcode c) nvme_admin_async_event) as [E|_]; eapply (handled_spec _ _ _ _ _ _ _ _ _ _ A Hc); page.
Qed.
End OneCommand.

(** ** The loop *)
Lemma c_qid_nonneg c : 0 <= c_qid c.
Proof. apply get_bits_range. lia. Qed.

Lemma admin_loop_spec depth sdepth cmds cs : forall d e js k, admin_state d depth cmds js -> sq_depth <$> vd_admin d = Some sdepth ->
  0 <= e < sdepth -> Forall2 (fun e c => zget cmds e = Some c) (ring_from sdepth e (length cs)) cs ->
  Forall (admin_ok (vns (vd_io d))) cs -> ctl_view d k ->
  let run := adm_run (zip (ring_from sdepth e (length cs)) cs) k in
  exists d', admin_loop ns_ssd_type (length cs) e d = Ok d' /\ same_device d d' /\ ctl_view d' (fst run) /\ admin_state d' depth cmds (js ++ snd run).
Proof.
  induction cs as [|c cs IH]; intros d e js k A Hs He Hcs Hok V; cbn [length ring_from zip zip_with adm_run admin_loop].
  { exists d. split; [done|]. split; [apply same_device_refl|]. split; [done|]. cbn [snd]. by rewrite app_nil_r. }
  cbn [length ring_from] in Hcs. apply Forall2_cons in Hcs as [Hc Hcs]. apply Forall_cons in Hok as [Hokc Hok].
  destruct (admin_req_spec d depth cmds js e c k A Hc V (c_qid_nonneg c) Hokc) as (d1 & E1 & S1 & V1 & A1).
  rewrite E1. cbn [rbind]. pose proof (sd_depth _ _ S1) as Hd. rewrite Hs in Hd.
  destruct (vd_admin d1) as [q1|] eqn:Hq1; [|done]. unfold admin_queue. rewrite Hq1. cbn [of_opt rbind].
  injection Hd as Hd. rewrite Hd. change (if e + 1 =? sdepth then 0 else e + 1) with (next_slot sdepth e).
  destruct (adm_step c k) as [k1 r] eqn:Er. cbn [fst snd] in V1, A1.
  destruct (IH d1 (next_slot sdepth e) _ k1 A1) as (d' & E' & S' & V' & A'); try done.
  - rewrite Hq1. cbn. by rewrite Hd.
  - by apply next_slot_range.
  - rewrite (sd_ns _ _ S1). done.
  - exists d'. rewrite E'. split; [done|]. split; [by eapply same_device_trans|].
    destruct (adm_run _ k1) as [k' js'] eqn:Ek. cbn [fst snd] in *. split; [done|]. by rewrite app_assoc.
Qed.

Lemma adm_answers l k : Forall (fun j => is_request j = true) (snd (adm_run l k)).
Proof.
  revert k. induction l as [|[e c] l IH]; intros k; cbn [adm_run]; [constructor|]. destruct (adm_step c k) as [k1 r].
  specialize (IH k1). destruct (adm_run l k1) as [k2 js]. cbn [snd] in *. destruct r; [by constructor|done].
Qed.
End Refine.
