(* ===== verification/Main.v ===== *)
(** * main.c: module set-up and the dispatcher's loop

    Validation and loading of the module parameters, the division of the reserved memory
    into namespaces, a turn of the dispatcher over registers and doorbells, the /proc
    files.  What the module takes from the kernel and gives back is in Loaded.v. *)

From Stdlib Require Import ZArith Lia String Ascii.
From stdpp Require Import base list numbers strings.
From S2P Require Import Prelude Config PciConfig IoQueue Dispatch Device Bar Admin.

Local Open Scope Z_scope.

(** ** Parameters *)
Definition EPERM : Z := 1.
Definition EINVAL : Z := 22.
Definition E820_TYPE_RAM : Z := 1.
Definition E820_TYPE_RESERVED : Z := 2.
Definition E820_TYPE_RESERVED_KERN : Z := 128.
Definition KV_MAPPING_TABLE_SIZE : Z := GB 1.

(** [cpus] is [None] when the parameter was not given. *)
Record module_params : Type := mk_params {
  memmap_start : Z; memmap_size : Z;
  read_time : Z; read_delay : Z; read_trailing : Z;
  write_time : Z; write_delay : Z; write_trailing : Z;
  p_nr_io_units : Z; p_io_unit_shift : Z;
  cpus : option string;
}.

Record nvmev_config : Type := mk_nvmev_config {
  cfg_memmap_start : Z; cfg_memmap_size : Z;
  storage_start : Z; storage_size : Z;
  cpu_nr_dispatcher : Z;
  cfg_nr_io_workers : Z;
  cpu_nr_io_workers : list Z;     (* [32] *)
  cfg_nr_io_units : Z; cfg_io_unit_shift : Z;
  cfg_read : Z * Z * Z;           (* delay, time, trailing *)
  cfg_write : Z * Z * Z;
}.

Section Load.
(** The firmware's memory map, and the kernel's number parser. *)
Context (e820__mapped_any : Z -> Z -> Z -> bool) (simple_strtol : string -> Z).

Definition __validate_configs_arch (p : module_params) : Z :=
  let first := memmap_start p in
  let last := u64 (first + memmap_size p - 1) in
  if e820__mapped_any first last E820_TYPE_RAM || e820__mapped_any first last E820_TYPE_RESERVED_KERN then - EPERM
  else if negb (e820__mapped_any first last E820_TYPE_RESERVED) then - EPERM
  else 0.

Definition __validate_configs (p : module_params) : Z :=
  if memmap_start p =? 0 then - EINVAL
  else if memmap_size p =? 0 then - EINVAL
  else if memmap_size p <=? MB 1 then - EINVAL
  else if negb (__validate_configs_arch p =? 0) then - EPERM
  else if (p_nr_io_units p =? 0) || (p_io_unit_shift p =? 0) then - EINVAL
  else if read_time p =? 0 then - EINVAL
  else if write_time p =? 0 then - EINVAL
  else 0.

(** The tokens [strsep(&cpus, ",")] returns one after the other. *)
Fixpoint tokens_from (cur s : string) : list string :=
  match s with
  | EmptyString => [cur]
  | String c s => if Ascii.eqb c ","%char then cur :: tokens_from EmptyString s else tokens_from (cur ++ String c EmptyString)%string s
  end.
Definition cpu_tokens (s : option string) : list string := match s with None => [] | Some s => tokens_from EmptyString s end.

(** The dispatcher's CPU, then the workers'; the array is not checked. *)
Definition cpu_array_len : nat := 32.
Fixpoint worker_cpus (ts : list string) (n : Z) (l : list Z) : res (Z * list Z) :=
  match ts with
  | [] => Ok (n, l)
  | t :: ts => let! l := aset l n (u32 (simple_strtol t)) in worker_cpus ts (u32 (n + 1)) l
  end.

(** [None]: the parameters were refused. *)
Definition __load_configs (kv : bool) (p : module_params) : res (option nvmev_config) :=
  if __validate_configs p <? 0 then Ok None
  else
    let size := if kv then u64 (memmap_size p - KV_MAPPING_TABLE_SIZE) else memmap_size p in
    let ts := cpu_tokens (cpus p) in
    let disp := match ts with [] => u32 (-1) | t :: _ => u32 (simple_strtol t) end in
    let! w := worker_cpus (tail ts) 0 (replicate cpu_array_len 0) in
    Ok (Some (mk_nvmev_config (memmap_start p) size (u64 (memmap_start p + MB 1)) (u64 (size - MB 1)) disp (fst w) (snd w)
      (p_nr_io_units p) (p_io_unit_shift p) (read_delay p, read_time p, read_trailing p) (write_delay p, write_time p, write_trailing p))).
End Load.

(** ** Namespaces *)
Definition SSD_TYPE_NVM : Z := 0.
Definition SSD_TYPE_CONV : Z := 1.
Definition SSD_TYPE_KV : Z := 3.

(** The size the conventional namespace is given after its own initialisation. *)
Definition conv_size (slc_portion size : Z) : Z :=
  u64 (u64 (u64 (100 - slc_portion) * size) + u64 (u64 slc_portion * size) / 3) / 100.

Section Namespaces.
Context {NS : Type}.
(** The initialisers of the four types, by identifier, size and address. *)
Context (simple_init conv_init zns_init kv_init : Z -> Z -> Z -> res NS) (set_size : NS -> Z -> NS).
Context (NS_SSD_TYPE NS_CAPACITY : list Z) (slc_portion : Z).

(** The namespaces with their extents in the storage area. *)
Fixpoint init_namespaces (n : nat) (i remaining addr : Z) : res (list (Z * Z * NS)) :=
  match n with
  | O => Ok []
  | S n =>
      let! cap := aget NS_CAPACITY i in
      let size := if cap =? 0 then remaining else Z.min cap remaining in
      let! ty := aget NS_SSD_TYPE i in
      let! ns := if ty =? SSD_TYPE_NVM then simple_init i size addr
        else if ty =? SSD_TYPE_CONV then let! x := conv_init i size addr in Ok (set_size x (conv_size slc_portion size))
        else if ty =? SSD_TYPE_ZNS then zns_init i size addr
        else if ty =? SSD_TYPE_KV then kv_init i size addr
        else Err BugOn in
      let! l := init_namespaces n (i + 1) (u64 (remaining - size)) (addr + size) in
      Ok ((addr, size, ns) :: l)
  end.

Definition NVMEV_NAMESPACE_INIT (nr_ns : nat) (c : nvmev_config) (storage_mapped : Z) : res (list (Z * Z * NS)) :=
  init_namespaces nr_ns 0 (storage_size c) storage_mapped.
End Namespaces.

(** ** The dispatcher *)
Section Dispatcher.
Context {N C : Type} `{NS : Namespace N C} `{HM : HostMemory C} `{NI : NamespaceInfo N}.
Context (ns_ssd_type : list Z).
Local Notation vdev := (vdev N C).

Definition set_old_db (i v : Z) (d : vdev) : res vdev := let! l := aset (vd_old_dbs d) i v in Ok (set_dbs d (vd_dbs d) l).

(** The values of doorbell [i], new and old. *)
Definition doorbell (i : Z) : M vdev (Z * Z) :=
  let* d := get in
  let* new_db := lift (aget (vd_dbs d) i) in
  let* old_db := lift (aget (vd_old_dbs d) i) in
  ret (i32 new_db, i32 old_db).

Definition proc_admin_db : M vdev bool :=
  let* db := doorbell 0 in
  if fst db =? snd db then ret false
  else update (nvmev_proc_admin_sq ns_ssd_type (fst db) (snd db)) ;; update (set_old_db 0 (u32 (fst db))) ;; ret true.

Definition proc_admin_cq_db : M vdev bool :=
  let* db := doorbell 1 in
  if fst db =? snd db then ret false
  else update (nvmev_proc_admin_cq (fst db) (snd db)) ;; update (set_old_db 1 (u32 (fst db))) ;; ret true.

Definition proc_sq_db (qid : Z) : M vdev bool :=
  let* d := get in
  let* o := lift (aget (sqes (vd_io d)) qid) in
  match o with
  | None => ret false
  | Some _ =>
      let* db := doorbell (qid * 2) in
      if fst db =? snd db then ret false
      else
        let* v := zoom vd_io set_io (nvmev_proc_io_sq qid (fst db) (snd db)) in
        update (set_old_db (qid * 2) (u32 v)) ;; ret true
  end.

Definition proc_cq_db (qid : Z) : M vdev bool :=
  let* d := get in
  let* o := lift (aget (cqes (vd_io d)) qid) in
  match o with
  | None => ret false
  | Some _ =>
      let* db := doorbell (qid * 2 + 1) in
      if fst db =? snd db then ret false
      else
        zoom vd_io set_io (nvmev_proc_io_cq qid (fst db) (snd db)) ;;
        update (set_old_db (qid * 2 + 1) (u32 (fst db))) ;; ret true
  end.

(** Whether any of the queues had news. *)
Fixpoint any_of (l : list Z) (f : Z -> M vdev bool) : M vdev bool :=
  match l with
  | [] => ret false
  | q :: l => let* b := f q in let* c := any_of l f in ret (b || c)
  end.

Definition nvmev_proc_dbs : M vdev bool :=
  let* a := proc_admin_db in
  let* b := proc_admin_cq_db in
  let* d := get in
  let* s := any_of (seqZ 1 (vd_nr_sq d)) proc_sq_db in
  let* c := any_of (seqZ 1 (vd_nr_cq d)) proc_cq_db in
  ret (a || b || s || c).

(** A turn of [nvmev_dispatcher]: whether something was dispatched. *)
Definition dispatcher_turn : M vdev bool :=
  let* a := update_get nvmev_proc_bars in
  let* b := nvmev_proc_dbs in
  ret (a || b).

(** ** /proc *)
Definition __get_nr_entries (d : vdev) (dbs_idx queue_size : Z) : res Z :=
  let! a := aget (vd_dbs d) dbs_idx in let! b := aget (vd_old_dbs d) dbs_idx in
  let diff := i32 (a - b) in Ok (if diff <? 0 then diff + queue_size else diff).

(** A line of "stat": the queue, its waiting entries, its counters. *)
Definition stat_line (d : vdev) (i : Z) (q : nvmev_submission_queue C) : res (Z * Z * nvmev_sq_stat) :=
  let! n := __get_nr_entries d (i * 2) (sq_queue_size q) in Ok (i, n, stat q).

Definition add_stat (t : Z * Z * Z * Z) (s : nvmev_sq_stat) : Z * Z * Z * Z :=
  let '(f, x, y, o) := t in (u32 (f + nr_in_flight s), u32 (x + nr_dispatch s), u32 (y + nr_dispatched s), u64 (o + total_io s)).

(** Reading "stat" prints a line per queue and the totals, and resets the maxima. *)
Fixpoint read_stat (l : list Z) (t : Z * Z * Z * Z) (d : vdev) : res (list (Z * Z * nvmev_sq_stat) * (Z * Z * Z * Z) * vdev) :=
  match l with
  | [] => Ok ([], t, d)
  | i :: l =>
      let! o := aget (sqes (vd_io d)) i in
      match o with
      | None => read_stat l t d
      | Some q =>
          let! x := stat_line d i q in
          let s := stat q in
          let d := set_io d (set_sq (vd_io d) i (set_stat q (mk_stat (nr_dispatched s) (nr_dispatch s) (nr_in_flight s) 0 (total_io s)))) in
          let! r := read_stat l (add_stat t s) d in
          Ok (x :: fst (fst r), snd (fst r), snd r)
      end
  end.
Definition proc_read_stat (d : vdev) := read_stat (seqZ 1 (vd_nr_sq d)) (0, 0, 0, 0) d.

(** Writing "stat" clears the counters. *)
Fixpoint clear_stats (l : list Z) (d : vdev) : res vdev :=
  match l with
  | [] => Ok d
  | i :: l =>
      let! o := aget (sqes (vd_io d)) i in
      match o with
      | None => clear_stats l d
      | Some q => clear_stats l (set_io d (set_sq (vd_io d) i (set_stat q (mk_stat 0 0 0 0 0))))
      end
  end.
Definition proc_write_stat (d : vdev) : res vdev := clear_stats (seqZ 1 (vd_nr_sq d)) d.

End Dispatcher.
