(* ===== verification/MainSpec.v ===== *)
(** * A turn of the dispatcher

    Which doorbells are quiet, that quiet doorbells are passed over, and what a turn does
    when one submission queue has news. *)

From Stdlib Require Import ZArith Lia String.
From stdpp Require Import base list numbers.
From S2P Require Import Prelude CLayout PciConfig WorkQueue IoWorker IoQueue Dispatch Device Bar Admin AdminSpec Main.

Section Turn.
Context {N C : Type} `{NS : Namespace N C} `{SN : !ServableNamespace N C} `{HM : HostMemory C} `{NI : NamespaceInfo N}.
Context (ns_ssd_type : list Z).
Local Notation vdev := (vdev N C).
Implicit Types d : vdev.

(** Queue [qid] does not exist or its doorbell is quiet. *)
Definition sq_quiet d (qid : Z) : Prop :=
  zget (sqes (vd_io d)) qid = Some None \/ exists q, zget (sqes (vd_io d)) qid = Some (Some q) /\ quiet d (qid * 2).
Definition cq_quiet d (qid : Z) : Prop :=
  zget (cqes (vd_io d)) qid = Some None \/ exists q, zget (cqes (vd_io d)) qid = Some (Some q) /\ quiet d (qid * 2 + 1).

Lemma doorbell_run d i a b clk t : zget (vd_dbs d) i = Some a -> zget (vd_old_dbs d) i = Some b ->
  doorbell i clk t d = Ok ((i32 a, i32 b), t, d).
Proof.
  intros Ha Hb. unfold doorbell. rewrite run_get.
  rewrite (run_lift _ _ clk t d a) by (by apply aget_ok). by rewrite (run_lift _ _ clk t d b) by (by apply aget_ok).
Qed.

Lemma admin_db_quiet d clk t : quiet d 0 -> proc_admin_db ns_ssd_type clk t d = Ok (false, t, d).
Proof. intros (v & H1 & H2). unfold proc_admin_db. rewrite (run_bind _ _ _ _ _ _ _ _ (doorbell_run _ _ _ _ clk t H1 H2)). cbn [fst snd]. by rewrite Z.eqb_refl. Qed.

Lemma admin_cq_db_quiet d clk t : quiet d 1 -> proc_admin_cq_db clk t d = Ok (false, t, d).
Proof. intros (v & H1 & H2). unfold proc_admin_cq_db. rewrite (run_bind _ _ _ _ _ _ _ _ (doorbell_run _ _ _ _ clk t H1 H2)). cbn [fst snd]. by rewrite Z.eqb_refl. Qed.

Lemma sq_db_quiet d qid clk t : sq_quiet d qid -> proc_sq_db qid clk t d = Ok (false, t, d).
Proof.
  intros [Hn|(q & Hq & v & H1 & H2)]; unfold proc_sq_db; rewrite run_get.
  - by rewrite (run_lift _ _ clk t d None) by (by apply aget_ok).
  - rewrite (run_lift _ _ clk t d (Some q)) by (by apply aget_ok).
    rewrite (run_bind _ _ _ _ _ _ _ _ (doorbell_run _ _ _ _ clk t H1 H2)). cbn [fst snd]. by rewrite Z.eqb_refl.
Qed.

Lemma cq_db_quiet d qid clk t : cq_quiet d qid -> proc_cq_db qid clk t d = Ok (false, t, d).
Proof.
  intros [Hn|(q & Hq & v & H1 & H2)]; unfold proc_cq_db; rewrite run_get.
  - by rewrite (run_lift _ _ clk t d None) by (by apply aget_ok).
  - rewrite (run_lift _ _ clk t d (Some q)) by (by apply aget_ok).
    rewrite (run_bind _ _ _ _ _ _ _ _ (doorbell_run _ _ _ _ clk t H1 H2)). cbn [fst snd]. by rewrite Z.eqb_refl.
Qed.

Lemma any_of_quiet (f : Z -> M vdev bool) l d clk t : (forall q, q ∈ l -> f q clk t d = Ok (false, t, d)) -> any_of l f clk t d = Ok (false, t, d).
Proof.
  induction l as [|q l IH]; intros H; [done|]. cbn [any_of]. rewrite (run_bind _ _ _ _ _ _ _ _ (H q ltac:(by left))).
  rewrite (run_bind _ _ _ _ _ _ _ _ (IH ltac:(intros; apply H; by right))). done.
Qed.

Lemma any_of_one (f : Z -> M vdev bool) l1 q l2 d d' clk t t' : (forall x, x ∈ l1 -> f x clk t d = Ok (false, t, d)) ->
  f q clk t d = Ok (true, t', d') -> (forall x, x ∈ l2 -> f x clk t' d' = Ok (false, t', d')) ->
  any_of (l1 ++ q :: l2) f clk t d = Ok (true, t', d').
Proof.
  intros H1 H2 H3. induction l1 as [|x l1 IH]; cbn [app any_of].
  - rewrite (run_bind _ _ _ _ _ _ _ _ H2). by rewrite (run_bind _ _ _ _ _ _ _ _ (any_of_quiet f l2 d' clk t' H3)).
  - rewrite (run_bind _ _ _ _ _ _ _ _ (H1 x ltac:(by left))). by rewrite (run_bind _ _ _ _ _ _ _ _ (IH ltac:(intros; apply H1; by right))).
Qed.

(** Everything but submission queue [sqid] is at rest. *)
Record quiet_but d (sqid : Z) : Prop := {
  qb_regs : exists a s c k, settled d a s c k;
  qb_admin : quiet d 0 /\ quiet d 1;
  qb_sqs qid : 1 <= qid <= vd_nr_sq d -> qid <> sqid -> sq_quiet d qid;
  qb_cqs qid : 1 <= qid <= vd_nr_cq d -> cq_quiet d qid;
  qb_range : 1 <= sqid <= vd_nr_sq d;
}.

(** A device with nothing to do is left alone. *)
Lemma turn_quiet d sqid clk t : quiet_but d sqid -> sq_quiet d sqid -> dispatcher_turn ns_ssd_type clk t d = Ok (false, t, d).
Proof.
  intros [(a & s & c & k & Hse) [H0 H1] Hs Hc Hr] Hq. unfold dispatcher_turn.
  rewrite (run_update_get _ _ clk t d false d) by (by eapply settled_poll). unfold nvmev_proc_dbs. rewrite !run_bind_assoc.
  rewrite (run_bind _ _ _ _ _ _ _ _ (admin_db_quiet d clk t H0)), run_bind_assoc, (run_bind _ _ _ _ _ _ _ _ (admin_cq_db_quiet d clk t H1)).
  rewrite run_bind_assoc, run_get, run_bind_assoc.
  rewrite (run_bind _ _ _ _ _ false t d); [rewrite run_bind_assoc, (run_bind _ _ _ _ _ false t d); [done|]|].
  - apply any_of_quiet. intros q Hin%elem_of_seqZ. apply cq_db_quiet, Hc. lia.
  - apply any_of_quiet. intros q Hin%elem_of_seqZ. apply sq_db_quiet. destruct (decide (q = sqid)) as [->|]; [done|]. apply Hs; lia || done.
Qed.

(** ** One queue with news *)
Context (E : Z -> list io_effect) (K : Z -> Z).

(** Queue [sqid] holds the commands [cs] for namespace [i] between its two doorbell values. *)
Record has_news d A (sqid : Z) (q : nvmev_submission_queue C) (i : Z) (n : N) (cs : list (nvme_command C)) (new_db old_db : Z) : Prop := {
  hn_dev : dev_ok (vd_io d) A E K;
  hn_queue : zget (sqes (vd_io d)) sqid = Some (Some q);
  hn_new : zget (vd_dbs d) (sqid * 2) = Some new_db;
  hn_old : zget (vd_old_dbs d) (sqid * 2) = Some old_db;
  hn_diff : new_db <> old_db;
  hn_size : sq_queue_size q <= 2 ^ 16;
  hn_dbs : 0 <= old_db < sq_queue_size q /\ 0 <= new_db < sq_queue_size q;
  hn_slots : Forall2 (fun e c => zget (sq_entries q) e = Some c) (ring_from (sq_queue_size q) old_db (length cs)) cs;
  hn_len : zlen cs = num_proc (sq_queue_size q) new_db old_db;
  hn_nsid : Forall (fun c => u32 (c_nsid c - 1) = i) cs;
  hn_ns : zget (vns (vd_io d)) i = Some n;
  hn_serve : can_serve n (c_body <$> cs);
}.

(** What the turn leaves: [k] commands taken, and the doorbell moved over them. *)
Record served d A sqid q i n cs old_db k d' A' q' n' l : Prop := {
  sd_loop : loop_done E K (vd_io d) A sqid i q n (zip (ring_from (sq_queue_size q) old_db (length cs)) cs) k (vd_io d') A' q' n' l;
  sd_dev : d' = set_dbs (set_io d (vd_io d')) (vd_dbs d) (zset (vd_old_dbs d) (sqid * 2) ((old_db + k) mod sq_queue_size q));
}.

Lemma sq_db_served d A sqid q i n cs new_db old_db clk t : has_news d A sqid q i n cs new_db old_db ->
  exists k t' d' A' q' n' l, proc_sq_db sqid clk t d = Ok (true, t', d') /\ served d A sqid q i n cs old_db k d' A' q' n' l.
Proof.
  intros [D Hq Hn Ho Hd Hs [H1 H2] Hsl Hl Hid Hns Hsv]. unfold proc_sq_db. rewrite run_get.
  rewrite (run_lift _ _ clk t d (Some q)) by (by apply aget_ok).
  rewrite (run_bind _ _ _ _ _ _ _ _ (doorbell_run _ _ _ _ clk t Hn Ho)). cbn [fst snd]. rewrite !i32_id by lia.
  apply Z.eqb_neq in Hd. rewrite Hd.
  destruct (proc_sq_spec E K (vd_io d) A sqid i q n cs new_db old_db clk t D Hq H1 H2 Hsl Hl Hid Hns Hsv) as (k & t' & x & A' & q' & n' & l & Er & L).
  pose proof (Z.mod_pos_bound (old_db + k) (sq_queue_size q) ltac:(lia)) as Hm.
  exists k, t', (set_dbs (set_io d x) (vd_dbs d) (zset (vd_old_dbs d) (sqid * 2) ((old_db + k) mod sq_queue_size q))), A', q', n', l.
  split; [|by split]. unfold bind at 1, zoom. rewrite Er. unfold bind, update, set_old_db. cbn [set_io vd_old_dbs vd_dbs].
  rewrite aset_in by (by eapply zget_range). cbn [rbind]. by rewrite u32_id by lia.
Qed.

(** The other queues do not notice. *)
Lemma served_quiet d A sqid q i n cs old_db k d' A' q' n' l : zget (sqes (vd_io d)) sqid = Some (Some q) ->
  served d A sqid q i n cs old_db k d' A' q' n' l -> quiet_but d sqid -> quiet_but d' sqid.
Proof.
  intros Hq [L Hd] [(a & s & c & kk & Hse) [H0 H1] Hs Hc Hr]. assert (forall j, quiet d j -> j <> sqid * 2 -> quiet d' j) as Hqt.
  { intros j (v & Hv1 & Hv2) Hj. exists v. rewrite Hd. cbn [set_dbs set_io vd_dbs vd_old_dbs]. by rewrite zget_zset_ne by done. }
  rewrite Hd. split.
  - exists a, s, c, kk. by destruct Hse; split.
  - rewrite <- Hd. split; apply Hqt; done || lia.
  - cbn [set_dbs set_io vd_nr_sq]. rewrite <- Hd. intros j Hj Hne. destruct (Hs j Hj Hne) as [Hn|(qj & Hqj & Hqq)].
    + left. rewrite (ld_sqes _ _ _ _ _ _ _ _ _ _ _ _ _ _ _ L). by rewrite zget_zset_ne by done.
    + right. exists qj. rewrite (ld_sqes _ _ _ _ _ _ _ _ _ _ _ _ _ _ _ L), zget_zset_ne by done. split; [done|]. apply Hqt; done || lia.
  - cbn [set_dbs set_io vd_nr_cq]. rewrite <- Hd. intros j Hj. destruct (Hc j Hj) as [Hn|(qj & Hqj & Hqq)]; rewrite <- (ld_cqes _ _ _ _ _ _ _ _ _ _ _ _ _ _ _ L) in *.
    + by left.
    + right. exists qj. split; [done|]. apply Hqt; done || lia.
  - done.
Qed.

Lemma turn_serves d A sqid q i n cs new_db old_db clk t : quiet_but d sqid -> has_news d A sqid q i n cs new_db old_db ->
  exists k t' d' A' q' n' l, dispatcher_turn ns_ssd_type clk t d = Ok (true, t', d') /\ served d A sqid q i n cs old_db k d' A' q' n' l.
Proof.
  intros Q HN. destruct (sq_db_served _ _ _ _ _ _ _ _ _ clk t HN) as (k & t' & d' & A' & q' & n' & l & Es & S).
  exists k, t', d', A', q', n', l. split; [|done]. pose proof (served_quiet _ _ _ _ _ _ _ _ _ _ _ _ _ _ (hn_queue _ _ _ _ _ _ _ _ _ HN) S Q) as Q'.
  pose proof (sd_dev _ _ _ _ _ _ _ _ _ _ _ _ _ _ S) as Hd'.
  destruct Q as [(a & s & c & kk & Hse) [H0 H1] Hs Hc Hr]. unfold dispatcher_turn.
  rewrite (run_update_get _ _ clk t d false d) by (by eapply settled_poll). unfold nvmev_proc_dbs. rewrite !run_bind_assoc.
  rewrite (run_bind _ _ _ _ _ _ _ _ (admin_db_quiet d clk t H0)), run_bind_assoc, (run_bind _ _ _ _ _ _ _ _ (admin_cq_db_quiet d clk t H1)).
  rewrite run_bind_assoc, run_get, run_bind_assoc.
  assert (seqZ 1 (vd_nr_sq d) = seqZ 1 (sqid - 1) ++ sqid :: seqZ (sqid + 1) (vd_nr_sq d - sqid)) as ->.
  { replace (vd_nr_sq d) with ((sqid - 1) + (vd_nr_sq d - sqid + 1)) at 1 by lia.
    rewrite seqZ_app by lia. f_equal. replace (1 + (sqid - 1)) with sqid by lia. rewrite seqZ_cons by lia. f_equal; f_equal; lia. }
  rewrite (run_bind _ _ _ _ _ true t' d').
  - rewrite run_bind_assoc, (run_bind _ _ _ _ _ false t' d'); [done|]. apply any_of_quiet. intros x Hin%elem_of_seqZ. apply cq_db_quiet, (qb_cqs _ _ Q').
    rewrite Hd'. cbn [set_dbs set_io vd_nr_cq]. lia.
  - apply any_of_one; [|exact Es|].
    + intros x Hin%elem_of_seqZ. apply sq_db_quiet, Hs; lia.
    + intros x Hin%elem_of_seqZ. apply sq_db_quiet, (qb_sqs _ _ Q'); [|lia]. rewrite Hd'. cbn [set_dbs set_io vd_nr_sq]. lia.
Qed.
End Turn.
