(* ===== verification/AdminTurn.v ===== *)
(** * A turn of the dispatcher in which the admin doorbell rang

    The registers are settled and no I/O doorbell rang: the turn handles the admin
    commands, moves the doorbell, and leaves nothing for the next turn. *)

From Stdlib Require Import ZArith Lia String.
From stdpp Require Import base list numbers gmap.
From S2P Require Import Prelude CLayout PciConfig WorkQueue IoWorker IoQueue Dispatch Device Bar Admin AdminSpec Main MainSpec.

Section AdminTurn.
Context {N C : Type} `{NS : Namespace N C} `{HM : HostMemory C} `{NI : NamespaceInfo N}.
Context (types : list Z).
Local Notation vdev := (vdev N C).
Implicit Types d : vdev.

(** Every I/O queue there can be is at rest. *)
Definition io_quiet d : Prop := forall i, 2 <= i < 2 * (NR_MAX_IO_QUEUE + 1) -> quiet d i.

(** Nothing is left to do, at registers or doorbells. *)
Record rested d : Prop := {
  rs_regs : exists a s c k, settled d a s c k;
  rs_admin : quiet d 0 /\ quiet d 1;
  rs_io : io_quiet d;
}.

Lemma view_sq d k qid : ctl_view d k -> io_quiet d -> 1 <= qid <= vd_nr_sq d -> sq_quiet d qid.
Proof.
  intros V Hq Hr. pose proof (cv_granted _ _ V) as [|[Hs Hc]]; unfold NR_MAX_IO_QUEUE in *; [lia|].
  pose proof (cv_sqlen _ _ V) as Hl. unfold NR_MAX_IO_QUEUE in Hl. destruct (zget_Some (sqes (vd_io d)) qid) as [[q|] Ho]; [lia| |by left].
  right. exists q. split; [done|]. apply Hq. unfold NR_MAX_IO_QUEUE. lia.
Qed.

Lemma view_cq d k qid : ctl_view d k -> io_quiet d -> 1 <= qid <= vd_nr_cq d -> cq_quiet d qid.
Proof.
  intros V Hq Hr. pose proof (cv_granted _ _ V) as [|[Hs Hc]]; unfold NR_MAX_IO_QUEUE in *; [lia|].
  pose proof (cv_cqlen _ _ V) as Hl. unfold NR_MAX_IO_QUEUE in Hl. destruct (zget_Some (cqes (vd_io d)) qid) as [[q|] Ho]; [lia| |by left].
  right. exists q. split; [done|]. apply Hq. unfold NR_MAX_IO_QUEUE. lia.
Qed.

(** The queues are passed over. *)
Lemma queues_quiet d k clk t : ctl_view d k -> io_quiet d ->
  any_of (seqZ 1 (vd_nr_sq d)) proc_sq_db clk t d = Ok (false, t, d) /\ any_of (seqZ 1 (vd_nr_cq d)) proc_cq_db clk t d = Ok (false, t, d).
Proof.
  intros V Hq. split; apply any_of_quiet; intros x Hin%elem_of_seqZ; [apply sq_db_quiet|apply cq_db_quiet];
    [eapply view_sq|eapply view_cq]; (done || lia).
Qed.

(** A turn, once the first doorbell is dealt with. *)
Lemma turn_after d d1 k b clk t : (exists a s c k, settled d a s c k) -> proc_admin_db types clk t d = Ok (b, t, d1) -> quiet d1 1 -> ctl_view d1 k ->
  io_quiet d1 -> dispatcher_turn types clk t d = Ok (b, t, d1).
Proof.
  intros (a & s & c & kk & Hse) Ha H1 V Hq. destruct (queues_quiet d1 k clk t V Hq) as [Qs Qc]. unfold dispatcher_turn.
  rewrite (run_update_get _ _ clk t d false d) by (by eapply settled_poll). unfold nvmev_proc_dbs. rewrite !run_bind_assoc.
  rewrite (run_bind _ _ _ _ _ _ _ _ Ha), run_bind_assoc, (run_bind _ _ _ _ _ _ _ _ (admin_cq_db_quiet d1 clk t H1)).
  rewrite run_bind_assoc, run_get, run_bind_assoc, (run_bind _ _ _ _ _ _ _ _ Qs), run_bind_assoc, (run_bind _ _ _ _ _ _ _ _ Qc).
  by rewrite !orb_false_r.
Qed.

(** What a host that rang the admin doorbell finds. *)
Lemma admin_turn d d1 k k1 new_db old_db clk t : (exists a s c k, settled d a s c k) -> ctl_view d k ->
  zget (vd_dbs d) 0 = Some new_db -> zget (vd_old_dbs d) 0 = Some old_db -> new_db <> old_db -> 0 <= old_db < 2 ^ 31 -> 0 <= new_db < 2 ^ 31 ->
  quiet d 1 -> io_quiet d -> nvmev_proc_admin_sq types new_db old_db d = Ok d1 -> doors d d1 -> ctl_view d1 k1 ->
  vd_bar d1 = vd_bar d /\ vd_old_bar d1 = vd_old_bar d ->
  let d' := set_dbs d1 (vd_dbs d1) (zset (vd_old_dbs d1) 0 new_db) in
  ctl_view d' k1 /\ dispatcher_turn types clk t d = Ok (true, t, d') /\ dispatcher_turn types clk t d' = Ok (false, t, d') /\ rested d'.
Proof.
  intros Hse V Hn Ho Hne Hor Hnr H1 Hq E [D1 D2] V1 [Hb Hob] d'.
  assert (zlen (vd_old_dbs d1) = 1024) as Hl by apply (cv_dbs _ _ V1).
  assert (ctl_view d' k1) as V'.
  { destruct V1 as [A1 A2 A3 A4 A5 A6 [A7 A8]]. split; [exact A1|exact A2|exact A3|exact A4|exact A5|exact A6|]. split; [exact A7|].
    subst d'. cbn [set_dbs vd_old_dbs]. by rewrite length_zset. }
  assert (forall i, i <> 0 -> quiet d1 i -> quiet d' i) as Hkeep.
  { intros i Hi (v & Hv1 & Hv2). exists v. subst d'; cbn [set_dbs vd_dbs vd_old_dbs]. by rewrite zget_zset_ne by done. }
  assert (quiet d' 1) as H1'.
  { apply Hkeep; [done|]. destruct H1 as (v & Hv1 & Hv2). exists v. destruct (D1 1 ltac:(lia)) as [-> ->]. done. }
  assert (io_quiet d') as Hq'.
  { intros i Hi. apply Hkeep; [lia|]. apply D2; [lia|]. by apply Hq. }
  assert (quiet d' 0) as H0'.
  { exists new_db. subst d'; cbn [set_dbs vd_dbs vd_old_dbs]. rewrite zget_zset_eq by lia. destruct (D1 0 ltac:(lia)) as [-> _]. done. }
  assert (exists a s c k, settled d' a s c k) as Hse'.
  { destruct Hse as (a & s & c & kk & [S1 S2]). exists a, s, c, kk. split; subst d'; cbn [set_dbs vd_bar vd_old_bar]; [by rewrite Hb|by rewrite Hob]. }
  split; [done|]. split; [|split; [by eapply turn_after; [..|apply admin_db_quiet|exact H1'|exact V'|exact Hq']|by split]].
  eapply turn_after; [done| |exact H1'|exact V'|exact Hq'].
  unfold proc_admin_db. rewrite (run_bind _ _ _ _ _ _ _ _ (doorbell_run _ _ _ _ clk t Hn Ho)). cbn [fst snd]. rewrite !i32_id by lia.
  apply Z.eqb_neq in Hne. rewrite Hne. rewrite (run_update _ _ clk t d d1 E). unfold bind, update, set_old_db. rewrite aset_in by lia. cbn [rbind].
  by rewrite u32_id by lia.
Qed.
End AdminTurn.
