(* ===== verification/HostTheorems.v ===== *)
(** * What a host can rely on

    The theorems about pci.c, admin.c and main.c: bringing the controller up, the admin
    queue as a refinement of an abstract controller, a turn of the dispatcher, loading
    the module and dividing the memory. *)

From Stdlib Require Import ZArith Lia String.
From stdpp Require Import base list numbers sets gmap.
From S2P Require Import Prelude Config CLayout PciRegs PciConfig WorkQueue IoWorker IoQueue Dispatch SimpleFtl Device Bar Admin AdminSpec Main MainSpec AdminTurn.
From S2P Require Nvme ConvFtl ConvNs ConvTheorems ZnsFtl ZnsNs SsdParams.

(** ** What the FTLs tell identify commands *)
#[export] Instance simple_info : NamespaceInfo simple_ns := {
  info_size := simple_size; info_csi := simple_csi; info_zns _ := None;
}.
#[export] Instance conv_info : NamespaceInfo ConvFtl.conv_ns := {
  info_size := ConvFtl.ns_size; info_csi := ConvFtl.ns_csi; info_zns _ := None;
}.
Definition limits_of (p : ZnsFtl.znsparams) : zns_limits :=
  mk_limits (ZnsFtl.nr_active_zones p) (ZnsFtl.nr_open_zones p) (ZnsFtl.nr_zrwa_zones p) (ZnsFtl.zrwafg_size p) (ZnsFtl.zrwa_size p) (ZnsFtl.zone_size p).
#[export] Instance zns_info : NamespaceInfo ZnsFtl.zns_ns := {
  info_size := ZnsFtl.zns_ns_size; info_csi := ZnsFtl.zns_csi; info_zns n := Some (limits_of (ZnsFtl.zp (ZnsFtl.zns_part n)));
}.

(** ** A device for examples: a simple namespace, host memory of idle commands *)
Definition demo_cmd : nvme_command Nvme.nvme_rw_command := mk_command 20 1 7 (Nvme.mk_rw Nvme.nvme_cmd_write 0 7 0).
Definition demo_admin : list admin_command :=
  [mk_admin nvme_admin_set_features 1 0 0 NVME_FEAT_NUM_QUEUES 0x00030003;
   mk_admin nvme_admin_create_cq 2 0 0x3000 0x00030001 0x00010003;
   mk_admin nvme_admin_create_sq 3 0 0x4000 0x00030001 0x00010001;
   mk_admin nvme_admin_abort_cmd 4 0 0 0 0;
   mk_admin nvme_admin_identify 5 1 0x5000 0 0].

Lemma length_filled {A} (l : list A) (x : A) n : (length l <= n)%nat -> zlen (l ++ replicate (n - length l) x) = Z.of_nat n.
Proof. intros H. rewrite length_app, length_replicate. lia. Qed.

#[export] Program Instance demo_memory : HostMemory Nvme.nvme_rw_command := {
  commands_at _ n := replicate (n * 64) demo_cmd;
  completions_at _ n := replicate (n * 256) (mk_cqe 0 0 0 0 0 0);
  admin_commands_at _ n := if decide (length demo_admin <= n * 64)%nat then demo_admin ++ replicate (n * 64 - length demo_admin) (mk_admin 0xff 0 0 0 0 0)
                           else replicate (n * 64) (mk_admin 0xff 0 0 0 0 0);
}.
Next Obligation. intros a n. cbn beta. rewrite length_replicate. change NR_SQE_PER_PAGE with 64. lia. Qed.
Next Obligation. intros a n. cbn beta. rewrite length_replicate. change NR_CQE_PER_PAGE with 256. lia. Qed.
Next Obligation.
  intros a n. cbn beta. change NR_SQE_PER_PAGE with 64. case_decide; [rewrite length_filled by done; lia|rewrite length_replicate; lia].
Qed.

Definition demo_units : simple_config := mk_simple_config 8 12 1 1 0 1 1 0.
Definition demo_io : nvmev_dev simple_ns Nvme.nvme_rw_command :=
  mk_dev [worker_init 0] 0 1 [simple_init_namespace demo_units true 0 (2 ^ 30)] (replicate 73 None) (replicate 73 None).

(** As [VDEV_INIT] and [NVMEV_PCI_INIT] leave it, MSI-X switched on. *)
Definition demo_vdev : vdev simple_ns Nvme.nvme_rw_command :=
  mk_vdev demo_io None (nvme_bar_init false) (mk_old 0 0 0 0) (replicate 1024 0) (replicate 1024 0) 0 0 1 5
    (set_msix (init_pci (2 ^ 32)) (Some true)) [] [].

Lemma demo_fresh : bars_fresh false demo_vdev.
Proof. by split. Qed.

(** ** Bringing the controller up *)

(** a driver writes the queue sizes, the two queue addresses and the enable bit, in this order;
    however the dispatcher's polls fall between the writes, once it has polled four more times
    the controller is ready, its admin queue has the sizes and pages that were written and an
    empty completion ring of phase one, nothing else of the device changed, and further polls
    find nothing to do. *)
Theorem bring_up_ready {N C} `{HM : HostMemory C} (zns : bool) (d : vdev N C) a s c k l n :
  bars_fresh zns d -> a <> 0 -> s <> 0 -> c <> 0 -> k <> 0 -> cc_en k = 1 -> cc_shn k <> 1 ->
  writes_of l = driver_writes a s c k -> (4 <= n)%nat ->
  exists d', play (l ++ replicate n None) d = Ok d' /\ csts_rdy (u_csts (vd_bar d')) = 1 /\
    vd_admin d' = Some (mk_adminq 1 (aqa_asqs a + 1) (aqa_acqs a + 1) 0
      (Some (admin_commands_at s (nr_pages (aqa_asqs a + 1) SIZEOF_COMMAND)))
      (Some (completions_at c (nr_pages (aqa_acqs a + 1) SIZEOF_COMPLETION)))) /\
    nvmev_proc_bars d' = Ok (false, d') /\
    vd_io d' = vd_io d /\ vd_dbs d' = vd_dbs d /\ vd_old_dbs d' = vd_old_dbs d /\ vd_pci d' = vd_pci d.
Proof.
  intros F Ha Hs Hc Hk Hen Hshn Hw Hn.
  destruct (play_brought zns a s c k Ha Hs Hc Hk Hen Hshn d l F 0 0) as (p & Hp & E); [lia|done|].
  rewrite brought_0 in E by done. exists (brought zns a s c k 4 4 d). split.
  { rewrite (play_app _ _ _ _ E). apply play_polls; done || lia. }
  split; [done|]. split; [done|]. split; [|done]. apply brought_poll; done || lia.
Qed.

(** Polls before, between and after the writes. *)
Definition demo_history : list (option host_write) :=
  [None; Some (W_aqa 0x000f000f); Some (W_asq 0x1000); None; Some (W_acq 0x2000); Some (W_cc 0x460001)].

Lemma bring_up_ready_witness : exists d', play (demo_history ++ replicate 4 None) demo_vdev = Ok d' /\ csts_rdy (u_csts (vd_bar d')) = 1.
Proof.
  destruct (bring_up_ready false demo_vdev 0x000f000f 0x1000 0x2000 0x460001 demo_history 4) as (d' & E & H & _);
    [exact demo_fresh|discriminate..|reflexivity|discriminate|reflexivity|lia|].
  exists d'. split; [exact E|exact H].
Defined.

(** ** Admin commands *)

(** Handling the commands between two doorbell values. *)
Lemma admin_sq_spec {N C} `{HM : HostMemory C} `{NI : NamespaceInfo N} (types : list Z) (d : vdev N C)
    depth sdepth cmds js cs k new_db old_db fuel :
  admin_state d depth cmds js -> sq_depth <$> vd_admin d = Some sdepth -> ctl_view d k -> msix_enabled (vd_pci d) = Some true ->
  0 <= old_db < sdepth -> 0 <= new_db < sdepth -> zlen cs = num_proc sdepth new_db old_db ->
  Forall2 (fun e c => zget cmds e = Some c) (ring_from sdepth old_db (length cs)) cs ->
  Forall (admin_ok types (vns (vd_io d))) cs -> Forall (fun j => is_request j = true) js ->
  let run := adm_run (zip (ring_from sdepth old_db (length cs)) cs) k in
  zlen (snd run) <= depth -> zlen (snd run) <= Z.of_nat fuel ->
  exists d' q es, nvmev_proc_admin_sq types new_db old_db d = Ok d' /\ ctl_view d' (fst run) /\
    vd_admin d' = Some q /\ nvme_cq q = Some es /\
    reap fuel depth es (zlen js mod depth) (phase_at depth (zlen js)) = expected depth (zlen js) (snd run) /\
    vd_signals d' = vd_signals d ++ [Msi 0] /\ doors d d' /\ vns (vd_io d') = vns (vd_io d) /\
    io_workers (vd_io d') = io_workers (vd_io d) /\ vd_bar d' = vd_bar d /\ vd_old_bar d' = vd_old_bar d /\
    nr_io_workers (vd_io d') = nr_io_workers (vd_io d) /\ vd_pci d' = vd_pci d /\ keeps_new d d'.
Proof.
  intros A Hs V Hm Ho Hn Hlen Hcs Hok Hjs. cbv zeta. intros Hr Hf.
  destruct (admin_loop_spec types depth sdepth cmds cs d old_db js k A Hs Ho Hcs Hok V) as (d1 & E1 & S1 & V1 & A1).
  pose proof (adm_answers (zip (ring_from sdepth old_db (length cs)) cs) k) as Hans. destruct (adm_run _ k) as [k' js']. cbn [fst snd] in *.
  destruct A1 as [(q & es & Hq & _ & Hcq & Hd & Hh) Hdep].
  exists (set_pci d1 (vd_pci d1) (vd_signals d1 ++ [Msi 0])), q, es. split.
  { unfold nvmev_proc_admin_sq, admin_queue. destruct (vd_admin d) as [q0|]; [|done]. injection Hs as Hs. cbn [of_opt rbind]. rewrite Hs.
    unfold num_proc in Hlen. rewrite <- Hlen, Nat2Z.id, E1. cbn [rbind]. unfold nvmev_signal_irq. by rewrite (sd_pci _ _ S1), Hm. }
  split; [by destruct V1; split|]. split; [done|]. split; [done|]. split.
  - pose proof (reap_holds depth (js ++ js') (admin_ring q es) ltac:(lia) Hh ltac:(by apply Forall_app_2) (length js') fuel ltac:(rewrite length_app; lia) Hr ltac:(lia)) as Hrp.
    rewrite length_app, Nat.add_sub, drop_app_length in Hrp. replace (Z.of_nat (length js + length js') - zlen js') with (zlen js) in Hrp by lia. exact Hrp.
  - cbn [set_pci vd_signals vd_io vd_bar vd_old_bar]. rewrite (sd_signals _ _ S1), (sd_ns _ _ S1). destruct (sd_workers _ _ S1) as (-> & W2 & _), (sd_bar _ _ S1) as [B1 B2].
    split; [done|]. split; [exact (sd_doors _ _ S1)|]. do 5 (split; [done|]). split; [exact (sd_pci _ _ S1)|intros Hc Hd0; destruct (sd_new _ _ S1 Hc Hd0) as [X Y W]; split; [exact X|exact Y|exact W]].
Qed.

(** A turn in which the admin doorbell rang, with all that holds after it. *)
Lemma admin_turn_spec {N C} `{NS : Namespace N C} `{HM : HostMemory C} `{NI : NamespaceInfo N} (types : list Z) (d : vdev N C)
    depth sdepth cmds js cs k new_db old_db fuel clk t :
  (exists a s c k, settled d a s c k) -> quiet d 1 -> io_quiet d ->
  zget (vd_dbs d) 0 = Some new_db -> zget (vd_old_dbs d) 0 = Some old_db -> new_db <> old_db ->
  admin_state d depth cmds js -> sq_depth <$> vd_admin d = Some sdepth -> sdepth <= 4096 -> ctl_view d k -> msix_enabled (vd_pci d) = Some true ->
  0 <= old_db < sdepth -> 0 <= new_db < sdepth -> zlen cs = num_proc sdepth new_db old_db ->
  Forall2 (fun e c => zget cmds e = Some c) (ring_from sdepth old_db (length cs)) cs ->
  Forall (admin_ok types (vns (vd_io d))) cs -> Forall (fun j => is_request j = true) js ->
  let run := adm_run (zip (ring_from sdepth old_db (length cs)) cs) k in
  zlen (snd run) <= depth -> zlen (snd run) <= Z.of_nat fuel ->
  exists d' q es, dispatcher_turn types clk t d = Ok (true, t, d') /\ dispatcher_turn types clk t d' = Ok (false, t, d') /\
    ctl_view d' (fst run) /\ vd_admin d' = Some q /\ nvme_cq q = Some es /\
    reap fuel depth es (zlen js mod depth) (phase_at depth (zlen js)) = expected depth (zlen js) (snd run) /\
    vd_signals d' = vd_signals d ++ [Msi 0] /\ zget (vd_old_dbs d') 0 = Some new_db /\ vns (vd_io d') = vns (vd_io d) /\
    io_workers (vd_io d') = io_workers (vd_io d) /\ vd_bar d' = vd_bar d /\
    nr_io_workers (vd_io d') = nr_io_workers (vd_io d) /\ vd_pci d' = vd_pci d /\ keeps_new d d' /\ rested d'.
Proof.
  intros Hse H1 Hq Hnew Hold Hne A Hs Hsm V Hm Ho Hn Hlen Hcs Hok Hjs. cbv zeta. intros Hr Hf.
  destruct (admin_sq_spec types d depth sdepth cmds js cs k new_db old_db fuel A Hs V Hm Ho Hn Hlen Hcs Hok Hjs Hr Hf)
    as (d1 & q & es & E & V1 & Hq1 & Hes & Hreap & Hsig & Hdo & Hns & Hw & Hb & Hob & Hnw & Hpci & Hkeep).
  destruct (admin_turn types d d1 k _ new_db old_db clk t Hse V Hnew Hold Hne ltac:(lia) ltac:(lia) H1 Hq E Hdo V1 (conj Hb Hob)) as (V' & T1 & T2 & Rs).
  eexists _, q, es. split; [exact T1|]. split; [exact T2|]. split; [exact V'|]. do 4 (split; [done|]). split.
  - cbn [set_dbs vd_old_dbs]. apply zget_zset_eq. destruct (cv_dbs _ _ V1) as [_ ->]. lia.
  - do 5 (split; [done|]). split; [|exact Rs]. intros Hc Hd. destruct (Hkeep Hc Hd) as [X Y W]. split; [|exact Y|exact W].
    intros i Hi. destruct (X i Hi) as [Z1 Z2]. split; [exact Z1|]. cbn [set_dbs vd_old_dbs]. by rewrite zget_zset_ne by lia.
Qed.

(** C24: the host rings the admin doorbell for new commands, with the registers settled, no other
    doorbell rung, MSI-X enabled, an admin submission queue of at most 4096 entries, doorbell values that are slots of it, and no more answers than
    the admin completion queue has entries.  The new commands must be ones the code can take ([admin_ok]): a command that
    creates or deletes a queue names an identifier of 1 to 72; a log page that is copied asks for no more
    than the structure has; an identify of a namespace names a namespace there is, and an identify
    of a zoned namespace, when it is of that type, finds its zone limits.
    Then a turn of the dispatcher over the registers and every
    doorbell meets no fault and refines the abstract controller: the queues that exist, their
    sizes and links and the granted counts are what [adm_step] makes of the new commands in ring
    order, and a host that has consumed what was posted before reaps exactly their answers, in
    order, each with its identifier, slot, status and result: one per command, except that an abort
    is never answered.  The interrupt of vector 0 is raised, the doorbell is moved, namespaces,
    workers and registers are untouched, and the next turn finds nothing to do. *)
Theorem admin_turn_refines {N C} `{NS : Namespace N C} `{HM : HostMemory C} `{NI : NamespaceInfo N} (types : list Z) (d : vdev N C)
    depth sdepth cmds js cs k new_db old_db fuel clk t :
  (exists a s c k, settled d a s c k) -> quiet d 1 -> io_quiet d ->
  zget (vd_dbs d) 0 = Some new_db -> zget (vd_old_dbs d) 0 = Some old_db -> new_db <> old_db ->
  admin_state d depth cmds js -> sq_depth <$> vd_admin d = Some sdepth -> sdepth <= 4096 -> ctl_view d k -> msix_enabled (vd_pci d) = Some true ->
  0 <= old_db < sdepth -> 0 <= new_db < sdepth -> zlen cs = num_proc sdepth new_db old_db ->
  Forall2 (fun e c => zget cmds e = Some c) (ring_from sdepth old_db (length cs)) cs ->
  Forall (admin_ok types (vns (vd_io d))) cs -> Forall (fun j => is_request j = true) js ->
  let run := adm_run (zip (ring_from sdepth old_db (length cs)) cs) k in
  zlen (snd run) <= depth -> zlen (snd run) <= Z.of_nat fuel ->
  exists d' q es, dispatcher_turn types clk t d = Ok (true, t, d') /\ dispatcher_turn types clk t d' = Ok (false, t, d') /\
    ctl_view d' (fst run) /\ vd_admin d' = Some q /\ nvme_cq q = Some es /\
    reap fuel depth es (zlen js mod depth) (phase_at depth (zlen js)) = expected depth (zlen js) (snd run) /\
    vd_signals d' = vd_signals d ++ [Msi 0] /\ zget (vd_old_dbs d') 0 = Some new_db /\ vns (vd_io d') = vns (vd_io d) /\
    io_workers (vd_io d') = io_workers (vd_io d) /\ vd_bar d' = vd_bar d.
Proof.
  intros Hse H1 Hq Hnew Hold Hne A Hs Hsm V Hm Ho Hn Hlen Hcs Hok Hjs. cbv zeta. intros Hr Hf.
  destruct (admin_turn_spec types d depth sdepth cmds js cs k new_db old_db fuel clk t Hse H1 Hq Hnew Hold Hne A Hs Hsm V Hm Ho Hn Hlen Hcs Hok Hjs Hr Hf)
    as (d' & q & es & T1 & T2 & V' & G1 & G2 & G3 & G4 & G5 & G6 & G7 & G8 & _).
  by exists d', q, es.
Qed.

Definition demo_ready : vdev simple_ns Nvme.nvme_rw_command := brought false 0x000f000f 0x1000 0x2000 0x460001 4 4 demo_vdev.

Lemma demo_admin_state : admin_state demo_ready 16 (admin_commands_at 0x1000 1) [].
Proof.
  split; [|lia]. eexists _, _. split; [reflexivity|]. split; [reflexivity|]. split; [reflexivity|]. split; [reflexivity|].
  match goal with |- cq_holds _ _ (admin_ring ?q ?es) => change 16 with (cq_queue_size (admin_ring q es)) end.
  apply fresh_holds. split; [split; [reflexivity|vm_compute; discriminate]|reflexivity|reflexivity|].
  intros i x Hx. unfold zget in Hx. case_match; [done|]. cbn [admin_ring cq_entries] in Hx. apply lookup_replicate in Hx as [-> _]. reflexivity.
Qed.

Lemma replicate_view {A B} n (m : gmap Z B) (f : option A -> option B) i o : m = ∅ -> f None = None ->
  zget (replicate n None) i = Some o -> m !! i = f o.
Proof. intros -> Hf Hi. unfold zget in Hi. case_match; [done|]. apply lookup_replicate in Hi as [-> _]. by rewrite Hf, lookup_empty. Qed.

Lemma demo_view : ctl_view demo_ready (mk_ctl ∅ ∅ (0, 0)).
Proof. split; try reflexivity; [| |by left|by split]; intros i o Ho; (eapply replicate_view; [reflexivity|reflexivity|exact Ho]). Qed.

Lemma demo_admin_ok : Forall (admin_ok [0; 0] (vns demo_io)) demo_admin.
Proof.
  repeat (apply Forall_cons; split); [..|apply Forall_nil; done]; (split; [|split]).
    all: try (intros H; vm_compute in H; intuition discriminate).
    all: try (intros _; vm_compute; discriminate).
    intros _. split; [intros _; eexists; reflexivity|]. split; intros H; vm_compute in H; discriminate.
Qed.

(** The host rang the doorbell of the admin queue for five commands. *)
Definition demo_rung : vdev simple_ns Nvme.nvme_rw_command := set_dbs demo_ready (zset (vd_dbs demo_ready) 0 5) (vd_old_dbs demo_ready).

Lemma demo_rung_quiet : io_quiet demo_rung.
Proof.
  assert (forall i, 2 <= i < 1024 -> zget (zset (replicate 1024 0) 0 5) i = Some 0 /\ zget (replicate 1024 0) i = Some 0) as Hz.
  { intros i Hi. rewrite zget_zset_ne by lia. unfold zget. destruct (Z.ltb_spec i 0); [lia|]. by rewrite lookup_replicate_2 by lia. }
  intros i Hi. exists 0. apply (Hz i). unfold NR_MAX_IO_QUEUE in Hi. lia.
Qed.

(** Five commands: the abort is not answered. *)
Lemma admin_turn_refines_witness : exists d' q es, dispatcher_turn [0; 0] (fun _ t => Z.of_nat t) 0%nat demo_rung = Ok (true, 0%nat, d') /\
  vd_admin d' = Some q /\ nvme_cq q = Some es /\
  (fun c => (cqe_command_id c, cqe_sq_head c, cqe_result0 c)) <$> reap 9 16 es 0 1 = [(1, 0, 0x30003); (2, 1, 0); (3, 2, 0); (5, 4, 0)].
Proof.
  destruct (admin_turn_refines [0; 0] demo_rung 16 16 (admin_commands_at 0x1000 1) [] demo_admin (mk_ctl ∅ ∅ (0, 0)) 5 0 9 (fun _ t => Z.of_nat t) 0%nat)
    as (d' & q & es & E & _ & _ & Hq & Hes & Hr & _).
  - exists 0x000f000f, 0x1000, 0x2000, 0x460001. by split.
  - by exists 0.
  - exact demo_rung_quiet.
  - reflexivity.
  - reflexivity.
  - discriminate.
  - destruct demo_admin_state as [X Y]. split; [exact X|exact Y].
  - reflexivity.
  - lia.
  - destruct demo_view as [X1 X2 X3 X4 X5 X6 X7]. split; [exact X1|exact X2|exact X3|exact X4|exact X5|exact X6|by split].
  - reflexivity.
  - lia.
  - lia.
  - reflexivity.
  - repeat (apply Forall2_cons; split; [reflexivity|]). apply Forall2_nil. done.
  - exact demo_admin_ok.
  - apply Forall_nil. done.
  - vm_compute. discriminate.
  - vm_compute. discriminate.
  - exists d', q, es. split; [exact E|]. split; [exact Hq|]. split; [exact Hes|].
    change (zlen [] mod 16) with 0 in Hr. change (phase_at 16 (zlen [])) with 1 in Hr. rewrite Hr. vm_compute. reflexivity.
Defined.

(** What a driver does to reset a controller it knows: disable, wait, write the same queue
    registers, enable. *)
Definition restart (a s c k : Z) (n m : nat) : list (option host_write) :=
  Some (W_cc 0) :: replicate n None ++ [Some (W_aqa a); Some (W_asq s); Some (W_acq c); Some (W_cc k)] ++ replicate m None.

(** The admin completion queue after the host cleared its pages. *)
Definition host_clears (q : nvmev_admin_queue) (es : list nvme_completion) : nvmev_admin_queue :=
  mk_adminq (aq_phase q) (sq_depth q) (cq_depth q) (aq_cq_head q) (nvme_sq q) (Some es).

(** resetting the controller does not reset the admin queue: after a driver disabled it, wrote
    the same queue registers and enabled it again, the controller is ready and the ring position
    and phase are what they were.  When that is not the start of a first lap, a host that clears
    the ring and starts over does not see the completion posted next. *)
Theorem restart_keeps_ring_position {N C} `{HM : HostMemory C} (d : vdev N C) a s c k q n m :
  settled d a s c k -> vd_admin d = Some q -> cc_en k = 1 -> cc_shn k <> 1 -> (1 <= n)%nat -> (1 <= m)%nat ->
  exists d', play (restart a s c k n m) d = Ok d' /\ csts_rdy (u_csts (vd_bar d')) = 1 /\ vd_admin d' = Some q /\
    vd_dbs d' = vd_dbs d /\ vd_old_dbs d' = vd_old_dbs d /\
    (aq_phase q = 0 \/ aq_phase q = 1 -> aq_phase q = 0 \/ aq_cq_head q <> 0 ->
     forall es e st r0 r1 d'' q'' es'' fuel, Forall (fun x => Z.land (cqe_status x) 1 = 0) es ->
       __make_cq_entry_results e st r0 r1 (set_admin d' (host_clears q es)) = Ok d'' ->
       vd_admin d'' = Some q'' -> nvme_cq q'' = Some es'' -> reap fuel (cq_depth q) es'' 0 1 = []).
Proof.
  intros S Hq Hen Hshn Hn Hm. assert (0 <> k) as H0 by (intros <-; discriminate Hen).
  destruct n as [|n]; [lia|]. destruct m as [|m]; [lia|].
  destruct (settled_cc d a s c k 0 q S Hq (not_eq_sym H0) ltac:(discriminate)) as (d1 & E1 & S1 & _ & A1 & B1 & O1 & _). cbv zeta in E1. rewrite Hq in A1.
  destruct (settled_cc d1 a s c 0 k q S1 A1 H0 Hshn) as (d2 & E2 & S2 & R2 & A2 & B2 & O2 & _). cbv zeta in E2.
  exists d2. split.
  { unfold restart. cbn [play replicate app]. rewrite E1. cbn [rbind snd].
    rewrite (play_app _ _ _ d1) by (by eapply settled_polls). cbn [play app].
    rewrite (rewrite_same d1 a s c 0 (W_aqa a)), (rewrite_same d1 a s c 0 (W_asq s)), (rewrite_same d1 a s c 0 (W_acq c)) by (done || tauto).
    rewrite E2. cbn [rbind snd]. by eapply settled_polls. }
  split; [by rewrite R2, Hen|]. split; [by rewrite A2|]. split; [congruence|]. split; [congruence|].
  intros Hph Hpos es e st r0 r1 d'' q'' es'' fuel Hclr E Hq'' Hes''. destruct fuel as [|fuel]; [done|].
  destruct (post_inv (set_admin d2 (host_clears q es)) d'' (host_clears q es) es e st r0 r1 eq_refl eq_refl E) as (id & q3 & Hq3 & Hes3). cbn [host_clears aq_cq_head aq_phase] in Hes3.
  assert (es'' = zset es (aq_cq_head q) (cqe_of (aq_phase q) 0 e id st r0 r1)) as -> by congruence.
  cbn [reap]. destruct (zget (zset es _ _) 0) as [x|] eqn:Hx; [|done].
  replace (Z.land (cqe_status x) 1) with 0; [done|]. destruct (decide (aq_cq_head q = 0)) as [Hz|Hz].
  - rewrite Hz in Hx. pose proof (zget_range _ _ _ Hx) as Hr. rewrite length_zset in Hr. rewrite zget_zset_eq in Hx by done. injection Hx as <-.
    destruct Hpos as [Hp|Hp]; [|done]. rewrite Hp. symmetry. exact (status_phase 0 st (or_introl eq_refl)).
  - rewrite zget_zset_ne in Hx by done. unfold zget in Hx. case_match; [done|]. symmetry. exact (Forall_lookup_1 _ _ _ _ Hclr Hx).
Qed.

(** A controller that has answered seven commands of a ring of sixteen. *)
Definition demo_used : vdev simple_ns Nvme.nvme_rw_command :=
  set_admin demo_ready (mk_adminq 1 16 16 7 (Some (admin_commands_at 0x1000 1)) (Some (completions_at 0x2000 1))).

Lemma restart_keeps_ring_position_witness : exists d', play (restart 0x000f000f 0x1000 0x2000 0x460001 2 3) demo_used = Ok d' /\
  csts_rdy (u_csts (vd_bar d')) = 1 /\ aq_cq_head <$> vd_admin d' = Some 7.
Proof.
  destruct (restart_keeps_ring_position demo_used 0x000f000f 0x1000 0x2000 0x460001
    (mk_adminq 1 16 16 7 (Some (admin_commands_at 0x1000 1)) (Some (completions_at 0x2000 1))) 2 3) as (d' & E & H1 & H2 & _);
    [by split|reflexivity|reflexivity|discriminate|lia|lia|].
  exists d'. split; [exact E|]. split; [exact H1|]. rewrite H2. reflexivity.
Defined.

(** ** The dispatcher *)


(** The device after the five commands, and two I/O commands in the queue they created. *)
Definition demo_created : vdev simple_ns Nvme.nvme_rw_command :=
  match nvmev_proc_admin_sq [0; 0] 5 0 demo_ready with Ok d => d | Err _ => demo_ready end.
Definition demo_busy : vdev simple_ns Nvme.nvme_rw_command := set_dbs demo_created (zset (vd_dbs demo_created) 2 2) (vd_old_dbs demo_created).

Lemma demo_workers : dev_ok (vd_io demo_busy) (fun _ => []) (fun _ => []) (fun _ => NIL).
Proof.
  split; [reflexivity|reflexivity|..]; intros j x Hx; change (io_workers (vd_io demo_busy)) with [worker_init 0] in Hx; rewrite zget_cons in Hx;
    destruct (Z.eqb_spec j 0) as [->|]; try (apply zget_range in Hx; cbn in Hx; lia); injection Hx as <-; [constructor|done].
Qed.


(** ** Loading the module *)
Record params_ok (p : module_params) : Prop := {
  po_start : 0 <= memmap_start p;
  po_size : 0 <= memmap_size p;
  po_end : memmap_start p + memmap_size p < 2 ^ 64;
}.

Lemma worker_cpus_spec strtol ts : forall n l, 0 <= n -> zlen l = 32 ->
  if n + zlen ts <=? 32
  then exists l', worker_cpus strtol ts n l = Ok (n + zlen ts, l') /\ zlen l' = 32 /\
    (forall i t, ts !! i = Some t -> zget l' (n + Z.of_nat i) = Some (u32 (strtol t))) /\ (forall j, j < n -> zget l' j = zget l j)
  else n <= 32 -> worker_cpus strtol ts n l = Err OutOfBounds.
Proof.
  induction ts as [|t ts IH]; intros n l Hn Hl; cbn [worker_cpus length].
  { destruct (Z.leb_spec (n + Z.of_nat 0) 32); [|intros; lia]. exists l. split; [by rewrite Z.add_0_r|]. split; [done|]. by split. }
  destruct (Z.leb_spec (n + Z.of_nat (S (length ts))) 32) as [Hle|Hgt].
  - rewrite aset_in by lia. cbn [rbind]. rewrite u32_id by lia.
    specialize (IH (n + 1) (zset l n (u32 (strtol t))) ltac:(lia) ltac:(by rewrite length_zset)).
    destruct (Z.leb_spec (n + 1 + zlen ts) 32); [|lia]. destruct IH as (l' & E & Hl' & Ht & Hj). exists l'.
    split; [rewrite E; do 2 f_equal; lia|]. split; [done|]. split.
    + intros [|i] x Hx; [injection Hx as <-|].
      * rewrite Hj by lia. replace (n + Z.of_nat 0) with n by lia. apply zget_zset_eq. lia.
      * rewrite <- (Ht i x Hx). f_equal. lia.
    + intros j Hlt. rewrite Hj by lia. apply zget_zset_ne. lia.
  - intros Hn32. unfold aset. destruct (Z.eqb_spec n 32) as [->|Hne].
    + replace ((0 <=? 32) && (32 <? zlen l)) with false by lia. done.
    + replace ((0 <=? n) && (n <? zlen l)) with true by lia. cbn [rbind]. rewrite u32_id by lia.
      specialize (IH (n + 1) (zset l n (u32 (strtol t))) ltac:(lia) ltac:(by rewrite length_zset)).
      destruct (Z.leb_spec (n + 1 + zlen ts) 32); [lia|]. apply IH. lia.
Qed.

(** C31: loading the parameters.  They are accepted only with a start address, more than 1 MiB of
    memory that the firmware map reserves, and non-zero unit and latency settings.  With at most
    32 worker CPUs the workers are the CPUs after the first, in order; with more, a write runs past
    the array.  The storage area is the reserved memory without its first MiB; in the key-value
    build also without 1 GiB at the end, but when there is not that much the size wraps around to
    more than the memory there is. *)
Theorem load_configs_correct e820 strtol kv p : params_ok p ->
  if __validate_configs e820 p <? 0 then __load_configs e820 strtol kv p = Ok None
  else
    memmap_start p <> 0 /\ MB 1 < memmap_size p /\ p_nr_io_units p <> 0 /\ p_io_unit_shift p <> 0 /\ read_time p <> 0 /\ write_time p <> 0 /\
    e820 (memmap_start p) (memmap_start p + memmap_size p - 1) E820_TYPE_RAM = false /\
    e820 (memmap_start p) (memmap_start p + memmap_size p - 1) E820_TYPE_RESERVED = true /\
    if zlen (tail (cpu_tokens (cpus p))) <=? 32
    then exists c, __load_configs e820 strtol kv p = Ok (Some c) /\
      cfg_nr_io_workers c = zlen (tail (cpu_tokens (cpus p))) /\
      (forall i t, tail (cpu_tokens (cpus p)) !! i = Some t -> zget (cpu_nr_io_workers c) (Z.of_nat i) = Some (u32 (strtol t))) /\
      storage_start c = memmap_start p + MB 1 /\
      (if kv then if MB 1 + KV_MAPPING_TABLE_SIZE <=? memmap_size p
         then storage_start c + storage_size c + KV_MAPPING_TABLE_SIZE = memmap_start p + memmap_size p
         else 2 ^ 64 - 2 ^ 31 < storage_size c
       else 0 < storage_size c /\ storage_start c + storage_size c = memmap_start p + memmap_size p)
    else __load_configs e820 strtol kv p = Err OutOfBounds.
Proof.
  intros [Hs Hz He]. destruct (__validate_configs e820 p <? 0) eqn:Hv; [unfold __load_configs; by rewrite Hv|].
  assert (MB 1 = 2 ^ 20 /\ KV_MAPPING_TABLE_SIZE = 2 ^ 30) as [HMB HKV] by done.
  revert Hv. unfold __load_configs. intros Hv. rewrite Hv. revert Hv. unfold __validate_configs.
  destruct (Z.eqb_spec (memmap_start p) 0) as [|H1]; [done|]. destruct (Z.eqb_spec (memmap_size p) 0) as [|H2]; [done|].
  destruct (Z.leb_spec (memmap_size p) (MB 1)) as [|H3]; [done|].
  destruct (negb (__validate_configs_arch e820 p =? 0)) eqn:Harch; [done|].
  destruct (Z.eqb_spec (p_nr_io_units p) 0) as [|H4]; [done|]. destruct (Z.eqb_spec (p_io_unit_shift p) 0) as [|H5]; [done|]. cbn [orb].
  destruct (Z.eqb_spec (read_time p) 0) as [|H6]; [done|]. destruct (Z.eqb_spec (write_time p) 0) as [|H7]; [done|]. intros _.
  unfold __validate_configs_arch in Harch. rewrite u64_id in Harch by lia.
  destruct (e820 (memmap_start p) (memmap_start p + memmap_size p - 1) E820_TYPE_RAM); [done|]. cbn [orb] in Harch.
  destruct (e820 (memmap_start p) (memmap_start p + memmap_size p - 1) E820_TYPE_RESERVED_KERN); [done|].
  destruct (e820 (memmap_start p) (memmap_start p + memmap_size p - 1) E820_TYPE_RESERVED); [|done]. clear Harch.
  do 8 (split; [done|]). pose proof (worker_cpus_spec strtol (tail (cpu_tokens (cpus p))) 0 (replicate cpu_array_len 0) ltac:(lia) eq_refl) as Hw.
  rewrite Z.add_0_l in Hw. destruct (zlen (tail (cpu_tokens (cpus p))) <=? 32).
  - destruct Hw as (l' & E & _ & Ht & _). rewrite E. cbn [rbind fst snd]. eexists. split; [reflexivity|].
    cbn [cfg_nr_io_workers cpu_nr_io_workers storage_start storage_size]. split; [done|]. split; [exact Ht|].
    split; [apply u64_id; lia|]. rewrite (u64_id (memmap_start p + MB 1)) by lia. destruct kv.
    + destruct (Z.leb_spec (MB 1 + KV_MAPPING_TABLE_SIZE) (memmap_size p)).
      * rewrite (u64_id (memmap_size p - KV_MAPPING_TABLE_SIZE)), u64_id by lia. lia.
      * destruct (Z.ltb_spec (memmap_size p) KV_MAPPING_TABLE_SIZE).
        { assert (u64 (memmap_size p - KV_MAPPING_TABLE_SIZE) = 2 ^ 64 + memmap_size p - KV_MAPPING_TABLE_SIZE) as ->
            by (unfold u64; symmetry; apply (Z.mod_unique_pos _ _ (-1)); lia).
          rewrite u64_id by lia. lia. }
        rewrite (u64_id (memmap_size p - KV_MAPPING_TABLE_SIZE)) by lia.
        assert (u64 (memmap_size p - KV_MAPPING_TABLE_SIZE - MB 1) = 2 ^ 64 + memmap_size p - KV_MAPPING_TABLE_SIZE - MB 1) as ->
          by (unfold u64; symmetry; apply (Z.mod_unique_pos _ _ (-1)); lia). lia.
    + rewrite u64_id by lia. lia.
  - rewrite Hw by lia. done.
Qed.

Definition demo_params : module_params := mk_params (GB 4) (GB 8) 1 1 0 1 1 0 8 12 (Some "7,8,9"%string).
(** A memory map that reserves everything from 4 GiB on, and a parser of one digit. *)
Definition demo_e820 (first last ty : Z) : bool := (ty =? E820_TYPE_RESERVED) && (GB 4 <=? first).
Definition demo_strtol (s : string) : Z := match s with String a _ => Z.of_nat (Ascii.nat_of_ascii a) - 48 | EmptyString => 0 end.

Lemma load_configs_correct_witness : exists c, __load_configs demo_e820 demo_strtol true demo_params = Ok (Some c) /\
  cfg_nr_io_workers c = 2 /\ zget (cpu_nr_io_workers c) 1 = Some 9 /\ storage_start c + storage_size c + GB 1 = GB 12.
Proof.
  pose proof (load_configs_correct demo_e820 demo_strtol true demo_params) as H.
  assert (params_ok demo_params) as Hp by (split; vm_compute; first [discriminate|reflexivity]). specialize (H Hp).
  change (__validate_configs demo_e820 demo_params <? 0) with false in H. cbv iota in H. destruct H as (_ & _ & _ & _ & _ & _ & _ & _ & H).
  change (zlen (tail (cpu_tokens (cpus demo_params))) <=? 32) with true in H. cbv iota in H. destruct H as (c & E & Hn & Ht & _ & Hs).
  exists c. split; [exact E|]. split; [exact Hn|]. split; [exact (Ht 1%nat _ eq_refl)|]. exact Hs.
Defined.

(** ** Namespaces *)

(** What the loop asks for namespace [i]: the initialiser of its type, at [size] bytes from [addr] on. *)
Definition init_one {NS} (simple_init conv_init zns_init kv_init : Z -> Z -> Z -> res NS) (set_size : NS -> Z -> NS) (types : list Z) (slc i size addr : Z) : res NS :=
  let! ty := aget types i in
  if ty =? SSD_TYPE_NVM then simple_init i size addr
  else if ty =? SSD_TYPE_CONV then let! x := conv_init i size addr in Ok (set_size x (conv_size slc size))
  else if ty =? SSD_TYPE_ZNS then zns_init i size addr
  else if ty =? SSD_TYPE_KV then kv_init i size addr
  else Err BugOn.

(** The bytes of some extents together. *)
Definition taken {NS} (l : list (Z * Z * NS)) : Z := foldr (fun '(_, s, _) z => s + z) 0 l.

(** Its size: its configured capacity, or what is left of the area. *)
Definition share (caps : list Z) (i left : Z) : Z := match zget caps i with Some c => if c =? 0 then left else Z.min c left | None => 0 end.

(** C30: the storage area, of less than 2^64 bytes, is divided among the namespaces, each with an entry in
    the tables of types and of capacities (none negative), whatever the initialisers do.  Each is asked for
    its namespace at the address where the ones before it end, with its configured capacity or,
    when that is 0 or more than is left, with all that is left.  If all of them accept, all namespaces are made, each
    lies within the area, and they follow one another without a gap or an overlap.  Otherwise
    the call stops with the fault of the first that does not accept the size it is given, the namespaces before it
    made; an unknown type is an assertion. *)
Theorem namespaces_fit {NS} (simple_init conv_init zns_init kv_init : Z -> Z -> Z -> res NS) set_size types caps slc n : forall i remaining addr,
  let init := init_namespaces simple_init conv_init zns_init kv_init set_size types caps slc in
  let one := init_one simple_init conv_init zns_init kv_init set_size types slc in
  0 <= i -> 0 <= remaining < 2 ^ 64 ->
  (forall j, i <= j < i + Z.of_nat n -> (exists c, zget caps j = Some c /\ 0 <= c) /\ exists ty, zget types j = Some ty) ->
  match init n i remaining addr with
  | Ok l => length l = n /\
      (forall k a s x, l !! k = Some (a, s, x) -> one (i + Z.of_nat k) s a = Ok x /\
        a = addr + taken (take k l) /\ s = share caps (i + Z.of_nat k) (addr + remaining - a) /\ addr <= a /\ 0 <= s /\ a + s <= addr + remaining) /\
      (forall j k a s x a' s' x', (j < k)%nat -> l !! j = Some (a, s, x) -> l !! k = Some (a', s', x') -> a + s <= a')
  | Err e => exists k l, (k < n)%nat /\ init k i remaining addr = Ok l /\
      one (i + Z.of_nat k) (share caps (i + Z.of_nat k) (remaining - taken l)) (addr + taken l) = Err e
  end.
Proof.
  cbv zeta. induction n as [|n IH]; intros i remaining addr Hi Hr Hc; cbn [init_namespaces].
  { split; [done|]. split; [|intros j k a s x a' s' x' _ Hj; done]. intros k a s x Hk. done. }
  destruct (Hc i ltac:(lia)) as ((c & Ec & Hc0) & ty & Et).
  set (size := if c =? 0 then remaining else Z.min c remaining). assert (0 <= size <= remaining) as Hsz by (unfold size; case_match; lia).
  assert (share caps i remaining = size) as Hshare by (unfold share; by rewrite Ec).
  rewrite (proj2 (aget_ok _ _ _) Ec), (proj2 (aget_ok _ _ _) Et). cbn [rbind]. fold size.
  match goal with |- context [rbind ?m _] => set (made := m) end.
  assert (init_one simple_init conv_init zns_init kv_init set_size types slc i size addr = made) as Hmade.
  { unfold init_one. by rewrite (proj2 (aget_ok _ _ _) Et). }
  destruct made as [x|e] eqn:Ex; cbn [rbind].
  2:{ exists 0%nat, []. split; [lia|]. split; [done|]. cbn [taken foldr]. rewrite !Z.add_0_r, Z.sub_0_r, Hshare. exact Hmade. }
  rewrite u64_id by lia.
  specialize (IH (i + 1) (remaining - size) (addr + size) ltac:(lia) ltac:(lia)).
  destruct (init_namespaces _ _ _ _ _ _ _ _ n _ _ _) as [l|e] eqn:El; cbn [rbind].
  - destruct IH as (Hl & Hin & Hord); [intros j Hj; apply Hc; lia|]. split; [by cbn; f_equal|].
    assert (forall k a s y, l !! k = Some (a, s, y) -> init_one simple_init conv_init zns_init kv_init set_size types slc (i + Z.of_nat (S k)) s a = Ok y /\
        a = addr + taken (take (S k) ((addr, size, x) :: l)) /\ s = share caps (i + Z.of_nat (S k)) (addr + remaining - a) /\
        addr + size <= a /\ 0 <= s /\ a + s <= addr + remaining) as Hrest.
    { intros k a s y Hk. destruct (Hin k a s y Hk) as (H1 & H2 & H3 & H4 & H5 & H6). replace (i + Z.of_nat (S k)) with (i + 1 + Z.of_nat k) by lia.
      replace (addr + size + (remaining - size) - a) with (addr + remaining - a) in H3 by lia.
      split; [done|]. split; [cbn [take taken foldr]; fold (taken (take k l)); lia|]. split; [done|]. lia. }
    split.
    + intros [|k] a s y Hk; cbn in Hk; [|destruct (Hrest k a s y Hk) as (?&?&?&?&?&?); split_and!; done || lia].
      injection Hk as <- <- <-. rewrite Z.add_0_r. cbn [take taken foldr]. replace (addr + remaining - addr) with remaining by lia. split; [done|]. split_and!; done || lia.
    + intros [|j] [|k] a s y a' s' y' Hjk Hj Hk; try lia; cbn in Hj, Hk; [|eapply Hord; [|exact Hj|exact Hk]; lia].
      injection Hj as <- <- <-. destruct (Hrest k _ _ _ Hk) as (_ & _ & _ & H & _). exact H.
  - destruct IH as (k & l & Hk & Ek & Ee); [intros j Hj; apply Hc; lia|]. exists (S k), ((addr, size, x) :: l). split; [lia|]. split.
    + cbn [init_namespaces]. rewrite (proj2 (aget_ok _ _ _) Ec), (proj2 (aget_ok _ _ _) Et). cbn [rbind]. fold size. fold made. rewrite Ex. cbn [rbind].
      rewrite u64_id by lia. by rewrite Ek.
    + cbn [taken foldr]. fold (taken l). replace (i + Z.of_nat (S k)) with (i + 1 + Z.of_nat k) by lia.
      replace (remaining - (size + taken l)) with (remaining - size - taken l) by lia. by rewrite Z.add_assoc.
Qed.

(** A zoned namespace of 4 GiB on the ZN540 profile, whose initialiser accepts whole zones only,
    and a simple one on the rest of 6 GiB. *)
Definition demo_simple (id size addr : Z) : res (ZnsFtl.zns_ns + simple_ns) := Ok (inr (simple_init_namespace demo_units true id size)).
Definition demo_zns (id size addr : Z) : res (ZnsFtl.zns_ns + simple_ns) :=
  let! n := ZnsFtl.zns_init_namespace WD_ZN540 ConvTheorems.tiny_params (fun _ => 0) (ZnsFtl.mk_report 0 []) id size 0 in Ok (inl n).

Lemma namespaces_fit_witness : exists z s,
  init_namespaces demo_simple (fun _ _ _ => Err BugOn) demo_zns (fun _ _ _ => Err BugOn) (fun x _ => x) [SSD_TYPE_ZNS; SSD_TYPE_NVM] [GB 4; 0] 0 2 0 (GB 6) 0 =
    Ok [(0, GB 4, inl z); (GB 4, GB 2, s)] /\ 0 + GB 4 <= GB 4.
Proof.
  pose proof (namespaces_fit demo_simple (fun _ _ _ => Err BugOn) demo_zns (fun _ _ _ => Err BugOn) (fun x _ => x) [SSD_TYPE_ZNS; SSD_TYPE_NVM] [GB 4; 0] 0 2 0 (GB 6) 0) as H.
  destruct (ZnsNs.zns_init_spec WD_ZN540 ConvTheorems.tiny_params (fun _ => 0) (ZnsFtl.mk_report 0 []) 0 (GB 4) 0) as (z & Ez & _);
    [by right|split; [split; vm_compute; done|reflexivity]|].
  assert (init_namespaces demo_simple (fun _ _ _ => Err BugOn) demo_zns (fun _ _ _ => Err BugOn) (fun x _ => x) [SSD_TYPE_ZNS; SSD_TYPE_NVM] [GB 4; 0] 0 2 0 (GB 6) 0 =
    Ok [(0, GB 4, inl z); (GB 4, GB 2, inr (simple_init_namespace demo_units true 1 (GB 2)))]) as E.
  { cbn [init_namespaces]. change (aget [GB 4; 0] 0) with (@Ok Z (GB 4)). change (aget [SSD_TYPE_ZNS; SSD_TYPE_NVM] 0) with (@Ok Z SSD_TYPE_ZNS). cbn [rbind].
    change (if GB 4 =? 0 then GB 6 else Z.min (GB 4) (GB 6)) with (GB 4). change (SSD_TYPE_ZNS =? SSD_TYPE_NVM) with false.
    change (SSD_TYPE_ZNS =? SSD_TYPE_CONV) with false. change (SSD_TYPE_ZNS =? SSD_TYPE_ZNS) with true. cbv iota. unfold demo_zns. rewrite Ez. reflexivity. }
  cbv zeta in H. rewrite E in H. destruct H as (_ & _ & Hord).
  - lia.
  - split; vm_compute; [discriminate|reflexivity].
  - intros j Hj. assert (j = 0 \/ j = 1) as [-> | ->] by lia; (split; [eexists; split; [reflexivity|vm_compute; discriminate]|by eexists]).
  - exists z, (inr (simple_init_namespace demo_units true 1 (GB 2))). split; [exact E|]. apply (Hord 0%nat 1%nat _ _ _ _ _ _ (le_n 1) eq_refl eq_refl).
Defined.

Definition set_ns_size (n : ConvFtl.conv_ns) (size : Z) : ConvFtl.conv_ns :=
  ConvFtl.mk_conv_ns (ConvFtl.ns_id n) (ConvFtl.ns_csi n) size (ConvFtl.nr_parts n) (ConvFtl.ftls n) (ConvFtl.shared_pcie n) (ConvFtl.shared_write_buffer n) (ConvFtl.outbox n).

Lemma conv_size_bounds size : 0 <= size < 2 ^ 57 -> 9333 * size - 20000 <= 10000 * conv_size 10 size <= 9334 * size.
Proof.
  intros Hs. unfold conv_size. rewrite (u64_id (100 - 10)), (u64_id 10) by lia. rewrite (u64_id ((100 - 10) * size)), (u64_id (10 * size)) by lia.
  pose proof (Z.div_mod (10 * size) 3 ltac:(lia)). pose proof (Z.mod_pos_bound (10 * size) 3 ltac:(lia)).
  rewrite u64_id by lia. set (x := (100 - 10) * size + 10 * size / 3) in *.
  pose proof (Z.div_mod x 100 ltac:(lia)). pose proof (Z.mod_pos_bound x 100 ltac:(lia)). lia.
Qed.

(** the conventional namespace of a 970 PRO build, on storage of whole wordlines: it is made, takes
    the whole storage area, and the size identify tells the host is more than its TLC blocks hold
    and not more than TLC and SLC blocks hold together. *)
Theorem conv_namespace_970 junk f0 spp0 cpu k c mapped :
  1 <= k <= 5461 -> zlen (ConvFtl.age_cnt f0) = 201 -> storage_size c = k * (4 * 4096 * 49152) ->
  exists n s, NVMEV_NAMESPACE_INIT (fun _ _ _ => Err BugOn) (fun id size _ => ConvFtl.conv_init_namespace junk f0 spp0 SAMSUNG_970PRO id size cpu)
      (fun _ _ _ => Err BugOn) (fun _ _ _ => Err BugOn) set_ns_size [SSD_TYPE_CONV; SSD_TYPE_CONV] [0; 0] (SLC_PORTION SAMSUNG_970PRO) 1 c mapped
    = Ok [(mapped, storage_size c, n)] /\
    SsdParams.ssd_init_params_slc SAMSUNG_970PRO (storage_size c) 4 = Ok s /\
    4 * (SsdParams.pgs_per_line s * SsdParams.tt_lines_tlc s * SsdParams.pgsz s) < info_size n /\
    info_size n <= 4 * (SsdParams.tt_pgs s * SsdParams.pgsz s).
Proof.
  intros Hk Ha Hs. assert (4 <= storage_size c <= SsdParams.MAX_CAPACITY_970) as Hcap.
  { rewrite Hs. unfold SsdParams.MAX_CAPACITY_970, KB. rewrite Z.shiftl_mul_pow2 by lia. lia. }
  destruct (ConvNs.conv_init_namespace_spec junk f0 spp0 0 (storage_size c) cpu Hcap Ha) as (n & s & E & Es & _).
  destruct (SsdParams.ssd_init_params_slc_970 (storage_size c) Hcap) as (s' & Es' & H). rewrite Es in Es'. injection Es' as <-. cbv zeta in H.
  destruct H as (_ & H2 & _ & _ & _ & _ & H7 & H8 & _ & H10 & _). injection H2 as _ _ Htlc. injection H7 as Hpl _. injection H8 as _ _ _ Htt. injection H10 as _ _ Hpg _.
  assert (SsdParams.wordlines_970 (storage_size c) = k) as Hw.
  { rewrite Hs. unfold SsdParams.wordlines_970, DIV_ROUND_UP. replace (k * (4 * 4096 * 49152)) with (k * (4096 * 49152) * 4) by lia.
    rewrite Z.div_mul, (u64_id (_ + 4096 - 1)) by lia.
    replace (k * (4096 * 49152) + 4096 - 1) with (4095 + k * 49152 * 4096) by lia. rewrite Z.div_add by lia. change (4095 / 4096) with 0.
    rewrite u64_id by lia. replace (0 + k * 49152 + 49152 - 1) with (49151 + k * 49152) by lia. rewrite Z.div_add by lia. change (49151 / 49152) with 0. lia. }
  exists (set_ns_size n (conv_size 10 (storage_size c))), s. split.
  { unfold NVMEV_NAMESPACE_INIT. cbn [init_namespaces]. change (aget [0; 0] 0) with (@Ok Z 0). change (aget [SSD_TYPE_CONV; SSD_TYPE_CONV] 0) with (@Ok Z 1).
    cbn [rbind]. change (0 =? 0) with true. change (1 =? SSD_TYPE_NVM) with false. change (1 =? SSD_TYPE_CONV) with true. cbv iota. rewrite E. cbn [rbind].
    reflexivity. }
  split; [exact Es|]. rewrite Htlc, Hpl, Htt, Hpg, Hw. cbn [info_size conv_info set_ns_size ConvFtl.ns_size]. pose proof (conv_size_bounds (storage_size c)) as Hb. rewrite Hs in *. lia.
Qed.

Lemma conv_namespace_970_witness : exists n s, NVMEV_NAMESPACE_INIT (fun _ _ _ => Err BugOn)
    (fun id size _ => ConvFtl.conv_init_namespace (fun _ => O) ConvTheorems.blank_ftl ConvTheorems.tiny_params SAMSUNG_970PRO id size 0)
    (fun _ _ _ => Err BugOn) (fun _ _ _ => Err BugOn) set_ns_size [SSD_TYPE_CONV; SSD_TYPE_CONV] [0; 0] (SLC_PORTION SAMSUNG_970PRO) 1
    (mk_nvmev_config 0 0 0 (10 * (4 * 4096 * 49152)) 0 0 [] 0 0 (0, 0, 0) (0, 0, 0)) 0
    = Ok [(0, 10 * (4 * 4096 * 49152), n)] /\ 4 * (SsdParams.pgs_per_line s * SsdParams.tt_lines_tlc s * SsdParams.pgsz s) < info_size n.
Proof.
  destruct (conv_namespace_970 (fun _ => O) ConvTheorems.blank_ftl ConvTheorems.tiny_params 0 10
    (mk_nvmev_config 0 0 0 (10 * (4 * 4096 * 49152)) 0 0 [] 0 0 (0, 0, 0) (0, 0, 0)) 0) as (n & s & E & _ & H & _); [lia|reflexivity|reflexivity|].
  exists n, s. split; [exact E|exact H].
Defined.
