(* ===== verification/WorkerTurn.v ===== *)
(** * io.c: a turn of a worker thread on the device

    A turn of the outer loop of [nvmev_io_worker]: the entries in service are visited, the
    completions of those finished go to their queues, and the interrupts of the queues that
    are this worker's are raised.  The move of the data is Perform.v's and DataPath.v's, the
    release of buffers the namespace's: both are among the effects a turn returns. *)

From Stdlib Require Import ZArith Lia.
From stdpp Require Import base list numbers sets.
From S2P Require Import Prelude CLayout PciConfig WorkQueue IoWorker IoQueue Dispatch Device.

Section WorkerTurn.
Context {N C : Type}.
Local Notation dev := (nvmev_dev N C).
Local Notation vdev := (vdev N C).

Definition put_worker (d : dev) (i : Z) (k : nvmev_io_worker) : dev :=
  mk_dev (zset (io_workers d) i k) (io_worker_turn d) (nr_io_workers d) (vns d) (sqes d) (cqes d).
Definition set_cq (d : dev) (i : Z) (q : nvmev_completion_queue) : dev :=
  mk_dev (io_workers d) (io_worker_turn d) (nr_io_workers d) (vns d) (sqes d) (zset (cqes d) i (Some q)).

(** [__fill_cq_result] on the queue the request names, which may be gone. *)
Definition post_job (j : io_job) (d : dev) : res dev :=
  match j with
  | Release _ _ _ => Ok d
  | Request _ cqid _ _ _ _ _ _ =>
      let! o := aget (cqes d) cqid in
      let! q := of_opt NullDeref o in
      let! q := __fill_cq_result j q in
      Ok (set_cq d cqid q)
  end.
Fixpoint post_jobs (js : list io_job) (d : dev) : res dev :=
  match js with [] => Ok d | j :: js => let! d := post_job j d in post_jobs js d end.

(** The body of the inner loop. *)
Definition visit_entry (i curr_nsecs curr : Z) (d : dev) : res (list io_effect * Z * dev) :=
  let! k := aget (io_workers d) i in
  let! (es, curr, k) := visit curr_nsecs curr k in
  let! d := post_jobs (finished es) (put_worker d i k) in
  Ok (es, curr, d).
Fixpoint visit_entries (fuel : nat) (i delta curr : Z) : M dev (list io_effect) :=
  if curr =? NIL then ret []
  else match fuel with
  | O => fail OutOfFuel
  | S fuel =>
      let* local := read_clock LOCAL_CLOCK in
      let* r := update_get (fun d => let! (es, curr, d) := visit_entry i (u64 (local + delta)) curr d in Ok ((es, curr), d)) in
      let* rest := visit_entries fuel i delta (snd r) in
      ret (fst r ++ rest)
  end.

(** The interrupt of completion queue [qidx]; the queue's worker is found as if it were a
    submission queue. *)
Definition signal_queue (k : nvmev_io_worker) (qidx : Z) (d : vdev) : res vdev :=
  let! o := aget (cqes (vd_io d)) qidx in
  let! w := __get_io_worker (vd_io d) qidx in
  if negb (worker_id k =? w) then Ok d
  else match o with
  | None => Ok d
  | Some q =>
      let (v, q) := raise_irq q in
      match v with
      | None => Ok d
      | Some v => nvmev_signal_irq v (set_io d (set_cq (vd_io d) qidx q))
      end
  end.
Fixpoint signal_queues (k : nvmev_io_worker) (l : list Z) (d : vdev) : res vdev :=
  match l with [] => Ok d | qidx :: l => let! d := signal_queue k qidx d in signal_queues k l d end.

Definition nvmev_io_worker_turn (i : Z) : M vdev (list io_effect) :=
  let* wall := read_clock CPU_CLOCK in
  let* local := read_clock LOCAL_CLOCK in
  let* d := get in
  let* k := lift (aget (io_workers (vd_io d)) i) in
  let* es := zoom vd_io set_io (visit_entries scan_fuel i (i64 (wall - local)) (io_seq k)) in
  let* d := get in
  update (signal_queues k (seqZ 1 (vd_nr_cq d))) ;;
  ret es.
End WorkerTurn.

(** ** A pass, at any time *)
Section AnyPass.
Context (clk : clock) (delta : Z) (free : list Z) (acc : list io_job).

Lemma visit_next k io free' x now es c k' : worker_inv k io free' -> x ∈ io -> visit now x k = Ok (es, c, k') -> c = next (wk_at (work_queue k) x).
Proof.
  intros W Hx E. assert (0 <= x < zlen (work_queue k)) as Hr by (apply (inv_range _ _ _ W); set_solver).
  unfold visit in E. rewrite aget_wk in E by done. cbn [rbind] in E. destruct (is_completed _); [by injection E|].
  cbn [set_latest work_queue] in E. rewrite aset_in in E by done. cbn [rbind] in E. by injection E.
Qed.

Lemma pass_any L : forall fuel effs k A t, sys_inv acc effs k (hd NIL L) (A ++ L) free -> reach acc effs (mk_sys k (hd NIL L)) -> (length L <= fuel)%nat ->
  exists es t' k', visit_all fuel delta (hd NIL L) clk t k = Ok (es, t', k') /\ reach acc (effs ++ es) (mk_sys k' NIL).
Proof.
  induction L as [|x L IH]; intros fuel effs k A t I R Hf.
  { exists [], t, k. rewrite app_nil_r. by destruct fuel. }
  destruct fuel as [|fuel]; [cbn in Hf; lia|]. cbn [hd] in *. pose proof (si_inv _ _ _ _ _ _ I) as W. assert (x ∈ A ++ x :: L) as Hx by set_solver.
  assert (x <> NIL) as Hxn.
  { intros ->. assert (0 <= NIL < NR_MAX_PARALLEL_IO) as H by (apply (inv_in _ _ _ W); set_solver). by apply slot_not_nil in H. }
  destruct (sys_visit _ _ _ _ _ _ (reading clk delta t) I Hxn) as (es & c & k1 & E & I1).
  pose proof (visit_next _ _ _ _ _ _ _ _ W Hx E) as ->. assert (next (wk_at (work_queue k) x) = hd NIL L) as Hnx.
  { pose proof (wv_io_links _ _ _ W) as D. apply dll_app in D as [_ (_ & D & _)]. exact D. }
  rewrite Hnx in E, I1. assert (A ++ x :: L = (A ++ [x]) ++ L) as Hassoc by by rewrite <- app_assoc. rewrite Hassoc in I1.
  destruct (IH fuel (effs ++ es) k1 (A ++ [x]) (S t) I1) as (es2 & t2 & k2 & E2 & R2); [by eapply reach_visit|cbn in Hf; lia|].
  exists (es ++ es2), t2, k2. split; [|by rewrite app_assoc]. cbn [visit_all]. replace (x =? NIL) with false by lia. rewrite run_clock.
  fold (reading clk delta t). rewrite (run_update_get _ _ clk (S t) k (es, hd NIL L) k1) by (by rewrite E). cbn [fst snd].
  by rewrite (run_bind _ _ _ _ _ _ _ _ E2).
Qed.
End AnyPass.

(** The entries pending before are those finished and those pending after. *)
Lemma reach_pending acc effs es k k' c c' : reach acc effs (mk_sys k c) -> reach acc (effs ++ es) (mk_sys k' c') -> pending k ≡ₚ finished es ++ pending k'.
Proof.
  intros R R'. destruct (reach_inv _ _ _ R) as (io & free & I), (reach_inv _ _ _ R') as (io' & free' & I'). cbn [sys_worker sys_curr] in *.
  unfold pending. rewrite (in_service_inv _ _ _ (si_inv _ _ _ _ _ _ I)), (in_service_inv _ _ _ (si_inv _ _ _ _ _ _ I')).
  pose proof (si_acc _ _ _ _ _ _ I) as H. pose proof (si_acc _ _ _ _ _ _ I') as H'. rewrite finished_app, <- app_assoc, H in H'.
  by apply Permutation_app_inv_l in H'.
Qed.

Lemma pass_runs clk t acc effs k : reach acc effs (mk_sys k NIL) ->
  exists es t' k', io_pass clk t k = Ok (es, t', k') /\ reach acc (effs ++ es) (mk_sys k' NIL) /\ pending k ≡ₚ finished es ++ pending k'.
Proof.
  intros R. pose proof (reach_start _ _ _ R) as R1. destruct (reach_inv _ _ _ R1) as (io & free & I). cbn [sys_worker sys_curr] in I.
  pose proof (si_inv _ _ _ _ _ _ I) as W. rewrite (wv_io_seq _ _ _ W) in I, R1.
  destruct (pass_any clk (pass_delta clk t) free acc io scan_fuel effs k [] (S (S t)) I R1 (inv_fuel _ _ _ W)) as (es & t' & k' & E & R').
  exists es, t', k'. split; [by rewrite io_pass_eq, (wv_io_seq _ _ _ W)|]. split; [done|by eapply reach_pending].
Qed.
