(* ===== verification/WorkerSpec.v ===== *)
(** * What a turn of a worker does to the device

    Posting reaches each completion queue with its jobs in order ([posted]); visiting the
    entries on the device is visiting them on the worker and posting what was finished. *)

From Stdlib Require Import ZArith Lia.
From stdpp Require Import base list numbers sets.
From S2P Require Import Prelude CLayout PciConfig WorkQueue IoWorker IoQueue Dispatch Device WorkerTurn.

(** The requests for completion queue [c], in order. *)
Definition goes_to (c : Z) (j : io_job) : Prop := match j with Request _ c' _ _ _ _ _ _ => c' = c | Release _ _ _ => False end.
Global Instance goes_to_dec c j : Decision (goes_to c j).
Proof. destruct j; cbn; apply _. Defined.
Definition on_queue (c : Z) (js : list io_job) : list io_job := filter (goes_to c) js.

Lemma on_queue_app c l l' : on_queue c (l ++ l') = on_queue c l ++ on_queue c l'.
Proof. apply filter_app. Qed.

Lemma on_queue_requests c js : requests (on_queue c js) = on_queue c js.
Proof.
  unfold requests, on_queue. rewrite list_filter_filter. apply list_filter_iff. intros [] ; cbn; naive_solver.
Qed.

Section Posting.
Context {N C : Type}.
Implicit Types (d : nvmev_dev N C) (P : Z -> list io_job).

(** What was posted to each queue so far. *)
Definition posted d P : Prop := forall c q, zget (cqes d) c = Some (Some q) ->
  0 < cq_queue_size q /\ cq_holds (cq_queue_size q) (P c) q /\ Forall (fun j => is_request j = true) (P c).
Definition add_jobs P (js : list io_job) (c : Z) : list io_job := P c ++ on_queue c js.

(** The queue a job needs is there. *)
Definition has_queue d (j : io_job) : Prop :=
  match j with Request _ c _ _ _ _ _ _ => exists q, zget (cqes d) c = Some (Some q) | Release _ _ _ => True end.

(** A completion queue before and after the jobs [js], apart from its entries. *)
Definition cq_after (js : list io_job) (q q' : nvmev_completion_queue) : Prop :=
  fill_all js q = Ok q' /\ cq_queue_size q' = cq_queue_size q /\ irq_enabled q' = irq_enabled q /\ irq_vector q' = irq_vector q /\
  interrupt_ready q' = (interrupt_ready q || existsb is_request js).

Lemma fill_after j q q' : __fill_cq_result j q = Ok q' -> cq_after [j] q q'.
Proof.
  intros E. unfold cq_after. cbn [fill_all]. rewrite E. cbn [rbind existsb]. destruct j; cbn in E |- *; [|injection E as <-; by rewrite orb_false_r].
  apply rbind_ok in E as (es & _ & E). rewrite orb_true_r. by destruct (_ =? _); injection E as <-.
Qed.

Lemma cq_after_nil q : cq_after [] q q.
Proof. unfold cq_after. cbn. by rewrite orb_false_r. Qed.

Lemma fill_all_app l l' q q1 : fill_all l q = Ok q1 -> fill_all (l ++ l') q = fill_all l' q1.
Proof. revert q. induction l as [|j l IH]; intros q; cbn; [by intros [= ->]|]. intros (q0 & -> & E)%rbind_ok. cbn [rbind]. by apply IH. Qed.

Lemma cq_after_app l l' q q1 q2 : cq_after l q q1 -> cq_after l' q1 q2 -> cq_after (l ++ l') q q2.
Proof.
  intros (E1 & A1 & A2 & A3 & A4) (E2 & B1 & B2 & B3 & B4). unfold cq_after. rewrite (fill_all_app _ _ _ _ E1), E2, B1, B2, B3, B4, A1, A2, A3, A4, existsb_app.
  by rewrite orb_assoc.
Qed.

(** From [d] to [d'] the jobs [js] were posted, and nothing else was done. *)
Record posts d d' (js : list io_job) : Prop := {
  ps_rest : d' = mk_dev (io_workers d) (io_worker_turn d) (nr_io_workers d) (vns d) (sqes d) (cqes d');
  ps_len : zlen (cqes d') = zlen (cqes d);
  ps_none c : zget (cqes d) c = Some None -> zget (cqes d') c = Some None;
  ps_some c q : zget (cqes d) c = Some (Some q) -> exists q', zget (cqes d') c = Some (Some q') /\ cq_after (on_queue c js) q q';
}.

Lemma posts_refl d : posts d d [].
Proof. split; [by destruct d|done|done|]. intros c q Hq. exists q. split; [done|apply cq_after_nil]. Qed.

Lemma posts_trans d1 d2 d3 l l' : posts d1 d2 l -> posts d2 d3 l' -> posts d1 d3 (l ++ l').
Proof.
  intros [R1 L1 N1 S1] [R2 L2 N2 S2]. split; [rewrite R2, R1; done|congruence|auto|]. intros c q Hq. rewrite on_queue_app.
  destruct (S1 c q Hq) as (q1 & Hq1 & A1), (S2 c q1 Hq1) as (q2 & Hq2 & A2). exists q2. split; [done|by eapply cq_after_app].
Qed.

Lemma has_queue_posts d d' l j : posts d d' l -> has_queue d j -> has_queue d' j.
Proof. intros S. destruct j as [sqid c|]; [|done]. intros (q & Hq). destruct (ps_some _ _ _ S c q Hq) as (q' & Hq' & _). by exists q'. Qed.

Lemma post_job_spec d P j : posted d P -> has_queue d j -> exists d', post_job j d = Ok d' /\ posts d d' [j].
Proof.
  intros HP Hj. destruct j as [s c e id st r0 r1 tg|w n tg]; cbn [post_job].
  - destruct Hj as (q & Hq). rewrite (proj2 (aget_ok _ _ _) Hq). cbn [rbind of_opt]. destruct (HP c q Hq) as (Hs & Hh & _).
    destruct (fill_holds _ _ _ (Request s c e id st r0 r1 tg) Hs Hh eq_refl) as (q' & E & _). rewrite E. cbn [rbind].
    pose proof (zget_range _ _ _ Hq) as Hr. eexists. split; [reflexivity|]. split; cbn [set_cq cqes]; [done|by rewrite length_zset| |].
    + intros x Hx. rewrite zget_zset_ne; [done|]. intros ->. congruence.
    + intros x qx Hx. unfold on_queue. cbn [filter list_filter]. destruct (decide (goes_to x _)) as [Hg|Hg]; cbn in Hg.
      * subst x. assert (qx = q) as -> by congruence. exists q'. rewrite zget_zset_eq by done. split; [done|by apply fill_after].
      * exists qx. rewrite zget_zset_ne by done. split; [done|apply cq_after_nil].
  - exists d. split; [done|]. destruct (posts_refl d) as [R L Nn S]. by split.
Qed.

(** The queues hold what they held and what was posted. *)
Lemma posts_posted d d' P js : posted d P -> posts d d' js -> posted d' (add_jobs P js).
Proof.
  intros HP S c q' Hq'. destruct (zget_Some (cqes d) c) as ([q|] & Hq); [apply zget_range in Hq'; by rewrite (ps_len _ _ _ S) in Hq'| |].
  - destruct (ps_some _ _ _ S c q Hq) as (q1 & Hq1 & E & Hs & _). assert (q1 = q') as -> by congruence. destruct (HP c q Hq) as (Hp & Hh & Hr). rewrite Hs. split; [done|].
    destruct (fill_all_holds _ (on_queue c js) Hp _ _ Hh) as (q2 & E2 & H2). rewrite E in E2. injection E2 as <-. unfold add_jobs. rewrite on_queue_requests in H2. split; [done|].
    apply Forall_app. split; [done|]. rewrite <- on_queue_requests. apply requests_all.
  - apply (ps_none _ _ _ S) in Hq. congruence.
Qed.

Lemma post_jobs_spec js : forall d P, posted d P -> Forall (has_queue d) js -> exists d', post_jobs js d = Ok d' /\ posts d d' js.
Proof.
  induction js as [|j js IH]; intros d P HP Hjs; cbn [post_jobs]; [exists d; split; [done|apply posts_refl]|]. apply Forall_cons in Hjs as [Hj Hjs].
  destruct (post_job_spec d P j HP Hj) as (d1 & -> & S1). cbn [rbind]. destruct (IH d1 (add_jobs P [j]) (posts_posted _ _ _ _ HP S1)) as (d2 & E2 & S2).
  { apply (Forall_impl _ _ _ Hjs). intros x. by apply (has_queue_posts _ _ _ _ S1). }
  exists d2. split; [done|]. by apply (posts_trans _ _ _ _ _ S1 S2).
Qed.

Lemma post_jobs_app l l' d d' : post_jobs (l ++ l') d = Ok d' -> exists d1, post_jobs l d = Ok d1 /\ post_jobs l' d1 = Ok d'.
Proof. revert d. induction l as [|j l IH]; intros d; cbn; [eauto|]. intros (d0 & -> & E)%rbind_ok. cbn [rbind]. by apply IH. Qed.

(** A pass leaves the worker its number. *)
Lemma visit_id now c k es c' k' : visit now c k = Ok (es, c', k') -> worker_id k' = worker_id k.
Proof.
  unfold visit. intros (w & _ & H)%rbind_ok. destruct (is_completed w); [by injection H as _ _ <-|]. apply rbind_ok in H as (q & _ & H). by injection H as _ _ <-.
Qed.

Lemma visits_id fuel delta clk : forall c t k es t' k', visit_all fuel delta c clk t k = Ok (es, t', k') -> worker_id k' = worker_id k.
Proof.
  induction fuel as [|fuel IH]; intros c t k es t' k' H; cbn [visit_all] in H; (destruct (c =? NIL); [by injection H as _ _ <-|]); [done|].
  rewrite run_clock in H. destruct (visit (u64 (clk LOCAL_CLOCK t + delta)) c k) as [[[e1 c1] k1]|] eqn:Ev; [|unfold bind, update_get in H; rewrite Ev in H; done].
  rewrite (run_update_get _ _ clk _ k (e1, c1) k1) in H by (by rewrite Ev). cbn [fst snd] in H. unfold bind in H at 1.
  destruct (visit_all fuel delta c1 clk (S t) k1) as [[[e2 t2] k2]|] eqn:E2; [|done]. injection H as _ _ <-. rewrite (IH _ _ _ _ _ _ E2). by eapply visit_id.
Qed.

Lemma pass_id clk t k es t' k' : io_pass clk t k = Ok (es, t', k') -> worker_id k' = worker_id k.
Proof. rewrite io_pass_eq. apply visits_id. Qed.

(** ** Visiting and posting *)
Lemma post_put j d i k : post_job j (put_worker d i k) = (let! d := post_job j d in Ok (put_worker d i k)).
Proof.
  destruct j; [|done]. cbn [post_job put_worker cqes]. destruct (aget (cqes d) cqid) as [[q|]|]; cbn [rbind of_opt]; [|done|done].
  by destruct (__fill_cq_result _ q).
Qed.

Lemma post_all_put js d i k : post_jobs js (put_worker d i k) = (let! d := post_jobs js d in Ok (put_worker d i k)).
Proof.
  revert d. induction js as [|j js IH]; intros d; [done|]. cbn [post_jobs]. rewrite post_put. destruct (post_job j d); cbn [rbind]; [apply IH|done].
Qed.

Lemma post_jobs_workers js d d' : post_jobs js d = Ok d' -> io_workers d' = io_workers d.
Proof.
  revert d. induction js as [|j js IH]; intros d; cbn [post_jobs]; [by intros [= ->]|]. intros (d1 & E1 & E)%rbind_ok. rewrite (IH _ E). clear - E1.
  destruct j; cbn [post_job] in E1; [|by injection E1 as ->]. apply rbind_ok in E1 as (o & _ & E1). apply rbind_ok in E1 as (q & _ & E1). apply rbind_ok in E1 as (q' & _ & E1).
  by injection E1 as <-.
Qed.

(** The pass of the worker by itself, then the posts: the same as one after the other. *)
Lemma visit_entries_posts delta i clk fuel : forall curr t d k es t' k' d', zget (io_workers d) i = Some k ->
  visit_all fuel delta curr clk t k = Ok (es, t', k') -> post_jobs (finished es) d = Ok d' ->
  visit_entries fuel i delta curr clk t d = Ok (es, t', put_worker d' i k').
Proof.
  induction fuel as [|fuel IH]; intros curr t d k es t' k' d' Hk E Ep; cbn [visit_all visit_entries] in *;
    (destruct (curr =? NIL); [injection E as <- <- <-; cbn in Ep; injection Ep as <-; unfold put_worker; rewrite (zset_same _ _ _ Hk); by destruct d|]).
  { done. }
  rewrite run_clock in E. rewrite run_clock. destruct (visit (u64 (clk LOCAL_CLOCK t + delta)) curr k) as [[[e1 c1] k1]|] eqn:Ev; [|unfold bind, update_get in E; rewrite Ev in E; done].
  rewrite (run_update_get _ _ clk _ k (e1, c1) k1) in E by (by rewrite Ev). cbn [fst snd] in E. unfold bind in E at 1.
  destruct (visit_all fuel delta c1 clk (S t) k1) as [[[e2 t2] k2]|] eqn:E2; [|done]. injection E as <- <- <-. rewrite finished_app in Ep.
  apply post_jobs_app in Ep as (d1 & P1 & P2).
  rewrite (run_update_get _ _ clk _ d (e1, c1) (put_worker d1 i k1)); cbn [fst snd].
  - assert (zget (io_workers (put_worker d1 i k1)) i = Some k1) as Hk1.
    { cbn [put_worker io_workers]. rewrite zget_zset_eq; [done|]. rewrite (post_jobs_workers _ _ _ P1). by eapply zget_range. }
    rewrite (run_bind _ _ _ _ _ _ _ _ (IH c1 (S t) (put_worker d1 i k1) k1 e2 t2 k2 (put_worker d' i k1) Hk1 E2 ltac:(by rewrite post_all_put, P2))).
    unfold ret. unfold put_worker. cbn [io_workers io_worker_turn nr_io_workers vns sqes cqes]. by rewrite zset_zset.
  - unfold visit_entry. rewrite (proj2 (aget_ok _ _ _) Hk). cbn [rbind]. rewrite Ev. cbn [rbind]. by rewrite post_all_put, P1.
Qed.
End Posting.

(** ** Interrupts *)
Section Interrupts.
Context {N C : Type}.
Implicit Types (d : vdev N C).

(** The queue but for whether an interrupt is due. *)
Definition same_cq (q q' : nvmev_completion_queue) : Prop := exists b, q' = cq_set q (phase q) (cq_head q) b (cq_entries q).

Lemma same_cq_refl q : same_cq q q.
Proof. exists (interrupt_ready q). by destruct q. Qed.

(** The vector of queue [c], when its interrupt is due and worker [k]'s to raise. *)
Definition irq_of d (k : nvmev_io_worker) (c : Z) : option Z :=
  match zget (cqes (vd_io d)) c with
  | Some (Some q) => if worker_id k =? worker_of (vd_io d) c then fst (raise_irq q) else None
  | _ => None
  end.

(** Queue [c] once that worker looked at it. *)
Definition looked_at d (k : nvmev_io_worker) (c : Z) : option (option nvmev_completion_queue) :=
  match zget (cqes (vd_io d)) c with
  | Some (Some q) => Some (Some (if worker_id k =? worker_of (vd_io d) c then snd (raise_irq q) else q))
  | o => o
  end.

(** From [d] to [d'] worker [k] looked at the queues [l], and raised what was due. *)
Record signals d d' k (l : list Z) : Prop := {
  sg_rest : d' = set_pci (set_io d (mk_dev (io_workers (vd_io d)) (io_worker_turn (vd_io d)) (nr_io_workers (vd_io d)) (vns (vd_io d)) (sqes (vd_io d)) (cqes (vd_io d'))))
    (vd_pci d) (vd_signals d ++ (Msi <$> omap (irq_of d k) l));
  sg_len : zlen (cqes (vd_io d')) = zlen (cqes (vd_io d));
  sg_queues c : zget (cqes (vd_io d')) c = if decide (c ∈ l) then looked_at d k c else zget (cqes (vd_io d)) c;
}.

Lemma looked_none d k c : zget (cqes (vd_io d)) c = Some None -> looked_at d k c = Some None.
Proof. unfold looked_at. by intros ->. Qed.

Lemma looked_some d k c q : zget (cqes (vd_io d)) c = Some (Some q) -> exists q', looked_at d k c = Some (Some q') /\ same_cq q q'.
Proof.
  unfold looked_at, raise_irq. intros ->. eexists. split; [reflexivity|]. destruct (_ =? _); [|apply same_cq_refl].
  destruct (_ && _); [by eexists|apply same_cq_refl].
Qed.

Lemma sg_none d d' k l c : signals d d' k l -> zget (cqes (vd_io d)) c = Some None -> zget (cqes (vd_io d')) c = Some None.
Proof. intros S Hc. rewrite (sg_queues _ _ _ _ S). case_decide; [by apply looked_none|done]. Qed.
Lemma sg_some d d' k l c q : signals d d' k l -> zget (cqes (vd_io d)) c = Some (Some q) -> exists q', zget (cqes (vd_io d')) c = Some (Some q') /\ same_cq q q'.
Proof. intros S Hc. rewrite (sg_queues _ _ _ _ S). case_decide; [by apply looked_some|]. exists q. split; [done|apply same_cq_refl]. Qed.

Lemma signal_queue_spec d k c : 0 < nr_io_workers (vd_io d) -> msix_enabled (vd_pci d) = Some true -> 0 <= c < zlen (cqes (vd_io d)) ->
  exists d', signal_queue k c d = Ok d' /\ signals d d' k [c].
Proof.
  intros Hn Hm Hc. destruct (zget_Some (cqes (vd_io d)) c Hc) as (o & Ho). unfold signal_queue. rewrite (proj2 (aget_ok _ _ _) Ho). cbn [rbind].
  unfold __get_io_worker. rewrite (proj2 (Z.eqb_neq _ 0)) by lia. cbn [rbind]. fold (worker_of (vd_io d) c).
  assert (looked_at d k c = Some o -> irq_of d k c = None -> signals d d k [c]) as Hnone.
  { intros Hl Hi. split; [cbn [omap list_omap]; rewrite Hi; cbn; rewrite app_nil_r; by destruct d as [[]]|done|]. intros x. case_decide as Hx; [|done].
    apply list_elem_of_singleton in Hx as ->. by rewrite Hl. }
  unfold looked_at, irq_of in Hnone. rewrite Ho in Hnone. destruct (worker_id k =? worker_of (vd_io d) c) eqn:Hw; cbn [negb]; [|exists d; split; [done|]; apply Hnone; by destruct o].
  destruct o as [q|]; [|exists d; split; [done|by apply Hnone]]. unfold raise_irq in *.
  destruct (irq_enabled q && interrupt_ready q) eqn:Hr; cbn [fst snd] in *; [|exists d; split; [done|by apply Hnone]].
  unfold nvmev_signal_irq. cbn [set_io vd_pci]. rewrite Hm. eexists. split; [reflexivity|].
  split; cbn [set_pci set_io set_cq vd_io cqes vd_signals]; [|by rewrite length_zset|].
  - cbn [omap list_omap]. unfold irq_of, raise_irq. by rewrite Ho, Hw, Hr.
  - intros x. rewrite zget_zset by done. unfold looked_at, raise_irq. destruct (decide (c = x)) as [<-|Hne]; [rewrite decide_True by (by left); by rewrite Ho, Hw, Hr|].
    rewrite decide_False; [done|]. by intros Hx%list_elem_of_singleton.
Qed.

Lemma signals_cons d d1 d2 k c l : c ∉ l -> signals d d1 k [c] -> signals d1 d2 k l -> signals d d2 k (c :: l).
Proof.
  intros Hc [R1 L1 Q1] [R2 L2 Q2].
  assert (forall x, x ∈ l -> zget (cqes (vd_io d1)) x = zget (cqes (vd_io d)) x) as Hsame.
  { intros x Hx. rewrite Q1. rewrite decide_False; [done|]. intros ->%list_elem_of_singleton. done. }
  assert (worker_of (vd_io d1) = worker_of (vd_io d)) as Hw by (by rewrite R1).
  assert (forall x, x ∈ l -> irq_of d1 k x = irq_of d k x /\ looked_at d1 k x = looked_at d k x) as Heq.
  { intros x Hx. unfold irq_of, looked_at. by rewrite Hsame, Hw by done. }
  split; [|congruence|].
  - assert ((omap (irq_of d1 k) l : list Z) = omap (irq_of d k) l) as Ho.
    { apply list_omap_ext. apply Forall2_same_length_lookup_2; [done|]. intros i x y Hx Hy. assert (x = y) as -> by congruence. by destruct (Heq y (list_elem_of_lookup_2 _ _ _ Hx)). }
    etransitivity; [exact R2|]. rewrite Ho, R1. cbn [set_pci set_io vd_io io_workers io_worker_turn nr_io_workers vns sqes vd_pci vd_signals omap list_omap].
    rewrite <- app_assoc, <- fmap_app. by destruct (irq_of d k c).
  - intros x. rewrite Q2. destruct (decide (x ∈ l)) as [Hx|Hx].
    + rewrite decide_True by (by right). by apply Heq.
    + rewrite Q1. destruct (decide (x = c)) as [->|Hne]; [by rewrite !decide_True by (by left)|]. rewrite !decide_False; [done|set_solver..].
Qed.

Lemma signal_queues_spec k l : forall d, 0 < nr_io_workers (vd_io d) -> msix_enabled (vd_pci d) = Some true -> NoDup l ->
  (forall c, c ∈ l -> 0 <= c < zlen (cqes (vd_io d))) -> exists d', signal_queues k l d = Ok d' /\ signals d d' k l.
Proof.
  induction l as [|c l IH]; intros d Hn Hm Hnd Hl; cbn [signal_queues].
  { exists d. split; [done|]. split; [cbn; rewrite app_nil_r; by destruct d as [[]]|done|]. intros x. rewrite decide_False; [done|]. by intros ?%elem_of_nil. }
  apply NoDup_cons in Hnd as [Hc Hnd]. destruct (signal_queue_spec d k c Hn Hm) as (d1 & -> & S1); [apply Hl; by left|]. cbn [rbind]. pose proof (sg_rest _ _ _ _ S1) as Hd1.
  destruct (IH d1) as (d2 & E2 & S2); [by rewrite Hd1|by rewrite Hd1|done|intros x Hx; rewrite (sg_len _ _ _ _ S1); apply Hl; by right|].
  exists d2. split; [done|by eapply signals_cons].
Qed.

Lemma signals_posted d d' k l P : signals d d' k l -> posted (vd_io d) P -> posted (vd_io d') P.
Proof.
  intros S HP c q' Hq'. destruct (zget_Some (cqes (vd_io d)) c) as ([q|] & Hq); [apply zget_range in Hq'; by rewrite (sg_len _ _ _ _ S) in Hq'|..].
  - destruct (sg_some _ _ _ _ _ _ S Hq) as (q1 & Hq1 & b & ->). assert (q' = cq_set q (phase q) (cq_head q) b (cq_entries q)) as -> by congruence.
    destruct (HP c q Hq) as (Hs & [H1 H2 H3 H4 H5 H6] & Hr). split; [done|]. split; [by split|done].
  - apply (sg_none _ _ _ _ _ S) in Hq. congruence.
Qed.
End Interrupts.

(** ** A turn *)
Section Turn.
Context {N C : Type} (E : Z -> list io_effect) (K : Z -> Z).
Implicit Types (d : vdev N C) (A : Z -> list io_job) (P : Z -> list io_job).

(** A device whose workers stand between two turns. *)
Record workers_ready d A P (i : Z) (k : nvmev_io_worker) : Prop := {
  wr_dev : dev_ok (vd_io d) A E K;
  wr_posted : posted (vd_io d) P;
  wr_worker : zget (io_workers (vd_io d)) i = Some k;
  wr_idle : K i = NIL;
  wr_queues : Forall (has_queue (vd_io d)) (pending k);
  wr_msix : msix_enabled (vd_pci d) = Some true;
  wr_count : 0 <= vd_nr_cq d < zlen (cqes (vd_io d));
}.

(** Between the pass and the interrupts. *)
Record turned d A P i k (es : list io_effect) d1 d' (k' : nvmev_io_worker) : Prop := {
  tu_dev : dev_ok (vd_io d') A (upd E i (E i ++ es)) K;
  tu_worker : zget (io_workers (vd_io d')) i = Some k';
  tu_pending : pending k ≡ₚ finished es ++ pending k';
  tu_posts : posts (put_worker (vd_io d) i k') (vd_io d1) (finished es);
  tu_mid : d1 = set_io d (vd_io d1);
  tu_signals : signals d1 d' k (seqZ 1 (vd_nr_cq d));
  tu_posted : posted (vd_io d') (add_jobs P (finished es));
}.

Lemma dev_put (d : nvmev_dev N C) A i k k' es : dev_ok d A E K -> zget (io_workers d) i = Some k -> reach (A i) (E i ++ es) (mk_sys k' (K i)) -> worker_id k' = worker_id k ->
  forall x : nvmev_dev N C, nr_io_workers x = nr_io_workers d -> io_workers x = zset (io_workers d) i k' -> dev_ok x A (upd E i (E i ++ es)) K.
Proof.
  intros [D1 D2 D3 D4] Hk R Hid x Hn Hw. split; rewrite ?Hn, ?Hw, ?length_zset; [done|done|..]; intros j kj Hj; rewrite zget_zset in Hj by (by eapply zget_range);
    case_decide as Hij; try (subst j; injection Hj as <-).
  - by rewrite upd_eq.
  - rewrite upd_ne by done. by apply D3.
  - rewrite Hid. by apply D4.
  - by apply D4.
Qed.

Lemma worker_turn_spec d A P i k clk t : workers_ready d A P i k ->
  exists es t' k' d1 d', nvmev_io_worker_turn i clk t d = Ok (es, t', d') /\ io_pass clk t k = Ok (es, t', k') /\ turned d A P i k es d1 d' k'.
Proof.
  intros [D HP Hk Hi Hq Hm Hc]. pose proof (dk_reach _ _ _ _ D i k Hk) as R. rewrite Hi in R. pose proof (zget_range _ _ _ Hk) as Hir.
  destruct (pass_runs clk t (A i) (E i) k R) as (es & t' & k' & Ep & R' & Hp).
  assert (Forall (has_queue (put_worker (vd_io d) i k')) (finished es)) as Hq'.
  { rewrite Hp in Hq. by apply Forall_app in Hq as [Hq _]. }
  destruct (post_jobs_spec (finished es) (vd_io d) P HP) as (x0 & E0 & S0). { rewrite Hp in Hq. by apply Forall_app in Hq as [Hq1 _]. }
  destruct (post_jobs_spec (finished es) (put_worker (vd_io d) i k') P HP Hq') as (x & Ex & Sx). rewrite post_all_put, E0 in Ex. cbn [rbind] in Ex. injection Ex as <-.
  set (d1 := set_io d (put_worker x0 i k')) in *. pose proof (ps_rest _ _ _ Sx) as Hx. pose proof (ps_len _ _ _ Sx) as Hxl. cbn [put_worker cqes] in Hxl.
  assert (nr_io_workers x0 = nr_io_workers (vd_io d)) as Hxn by exact (f_equal nr_io_workers Hx).
  destruct (signal_queues_spec k (seqZ 1 (vd_nr_cq d)) d1) as (d' & Es & Ss).
  { cbn [d1 set_io vd_io put_worker nr_io_workers]. rewrite Hxn. apply D. }
  { done. }
  { apply NoDup_seqZ. }
  { intros c Hin%elem_of_seqZ. cbn [d1 set_io vd_io put_worker cqes]. rewrite Hxl. lia. }
  assert (io_workers (vd_io d') = zset (io_workers (vd_io d)) i k') as Hw'.
  { rewrite (sg_rest _ _ _ _ Ss). exact (f_equal io_workers Hx). }
  exists es, t', k', d1, d'. split; [|split; [done|]].
  - unfold nvmev_io_worker_turn. rewrite run_clock, run_clock, run_get, (run_lift _ _ clk (S (S t)) d k) by (by apply aget_ok).
    rewrite io_pass_eq in Ep. pose proof (visit_entries_posts _ i clk _ _ _ (vd_io d) k es t' k' x0 Hk Ep E0) as Ev. unfold pass_delta in Ev.
    unfold bind at 1, zoom. rewrite Ev. fold d1. rewrite run_get. rewrite (run_update _ _ clk t' d1 d') by done. done.
  - split; [|by rewrite Hw', zget_zset_eq|done|exact Sx|done|done|].
    + apply (dev_put (vd_io d) A i k k' es D Hk); [by rewrite Hi|by eapply pass_id| |done]. rewrite (sg_rest _ _ _ _ Ss). exact Hxn.
    + eapply signals_posted; [exact Ss|]. apply (posts_posted (put_worker (vd_io d) i k') (vd_io d1) P (finished es) HP Sx).
Qed.
End Turn.
