(* ===== verification/WorkerTheorems.v ===== *)
(** * From the doorbell to the completion

    The dispatcher and a worker together: the commands a host puts in a submission queue
    come back, once each, in its completion queue. *)

From Stdlib Require Import ZArith Lia String.
From stdpp Require Import base list numbers sets.
From S2P Require Import Prelude Config CLayout PciConfig WorkQueue IoWorker IoQueue Dispatch SimpleFtl Namespaces Device Bar Admin AdminSpec Main MainSpec WorkerTurn WorkerSpec HostTheorems.
From S2P Require Nvme.

(** ** Whose completion it is *)

(** Queue, slot and command identifier. *)
Definition ticket (j : io_job) : option (Z * Z * Z) :=
  match j with Request sqid _ sq_entry command_id _ _ _ _ => Some (sqid, sq_entry, command_id) | Release _ _ _ => None end.
Definition tickets (js : list io_job) : list (Z * Z * Z) := omap ticket js.

Section Tickets.
Context {N C : Type} `{NS : Namespace N C}.

(** The commands in their slots. *)
Definition asked (sqid : Z) (cs : list (Z * nvme_command C)) : list (Z * Z * Z) := (fun p => (sqid, p.1, c_command_id p.2)) <$> cs.

Lemma internals_tickets (n n' : N) : tickets (internals n n').*2 = [] /\ requests (internals n n').*2 = [].
Proof. unfold internals. by induction (drop _ _). Qed.

(** What a run hands to the workers: a request per command taken, for its queue. *)
Lemma run_tickets sqid cqid n cs k n' l : ns_run sqid cqid n cs k n' l ->
  tickets l.*2 = take (Z.to_nat k) (asked sqid cs) /\ 0 <= k /\
  Forall (fun o => is_request o.2 = true -> o.1 = sqid /\ goes_to cqid o.2) l.
Proof.
  assert (forall a b : N, Forall (fun o => is_request o.2 = true -> o.1 = sqid /\ goes_to cqid o.2) (internals a b)) as Hint.
  { intros a b. unfold internals. apply Forall_fmap, Forall_true. done. }
  induction 1 as [n|n e c cs nsecs clk t rt body t' n' _|n e c cs nsecs clk t rt body t' n' k n'' l _ _ (IH1 & IH2 & IH3)]; [done| |].
  - split; [|done]. by destruct (internals_tickets n n').
  - split; [|split; [lia|]].
    + rewrite fmap_app. unfold tickets in *. rewrite omap_app. destruct (internals_tickets n n') as [H _]. unfold tickets in H. rewrite H. cbn [app fmap list_fmap omap list_omap snd ticket].
      rewrite IH1. replace (Z.to_nat (1 + k)) with (S (Z.to_nat k)) by lia. done.
    + apply Forall_app. split; [done|]. apply Forall_cons. by split.
Qed.

(** All requests are this queue's, so its worker is offered all of them. *)
Lemma offered_requests (d : nvmev_dev N C) sqid cqid l : Forall (fun o => is_request o.2 = true -> o.1 = sqid /\ goes_to cqid o.2) l ->
  on_queue cqid (offered d l (worker_of d sqid)) = requests l.*2 /\ (forall c, c <> cqid -> on_queue c (offered d l (worker_of d sqid)) = []).
Proof.
  induction 1 as [|[s j] l Hj _ [IH1 IH2]]; [done|]. unfold offered. cbn [omap list_omap fst snd fmap list_fmap]. fold (offered d l (worker_of d sqid)).
  unfold requests in *. rewrite filter_cons. destruct j as [a b|]; cbn [is_request].
  - destruct (Hj eq_refl) as [Hs Hg]. cbn in Hs, Hg. subst s b. rewrite Z.eqb_refl, decide_True by done. unfold on_queue in *. split.
    + rewrite filter_cons, decide_True by done. by rewrite IH1.
    + intros c Hc. rewrite filter_cons, decide_False by (cbn; congruence). by apply IH2.
  - rewrite decide_False by done. destruct (_ =? _); [|by split]. unfold on_queue in *. split; [|intros c Hc; rewrite filter_cons, decide_False by tauto; auto].
    by rewrite filter_cons, decide_False by tauto.
Qed.

Lemma offered_length (d : nvmev_dev N C) l i : zlen (offered d l i) <= zlen l.
Proof. unfold offered. induction l as [|o l IH]; [done|]. cbn [omap list_omap length]. destruct (_ =? _); cbn [length]; lia. Qed.

Lemma requests_tickets js : tickets (requests js) = tickets js.
Proof. induction js as [|[] js IH]; [done| |]; unfold requests in *; rewrite filter_cons; cbn; [|done]. exact (f_equal _ IH). Qed.
Lemma tickets_length js : Forall (fun j => is_request j = true) js -> length (tickets js) = length js.
Proof. induction 1 as [|[] js Hj _ IH]; [done| |done]. exact (f_equal S IH). Qed.
End Tickets.

(** ** A turn of a worker *)

(** C16: a turn of a worker, at any time.  With MSI-X enabled, a worker between two turns, whose pending requests
    name completion queues that are there, goes through its turn without a fault.  What was pending is
    finished in this turn or still pending, nothing is finished before its time, and each
    completion queue holds what it held and then the requests finished for it, in order; exactly
    the vectors of this worker's queues with new completions and interrupts enabled are raised, once,
    and nothing else of the device changes. *)
Theorem worker_turn_correct {N C} E K (d : vdev N C) A P i k clk t : workers_ready E K d A P i k ->
  exists es t' k' d1 d', nvmev_io_worker_turn i clk t d = Ok (es, t', d') /\
    dev_ok (vd_io d') A (upd E i (E i ++ es)) K /\ zget (io_workers (vd_io d')) i = Some k' /\
    pending k ≡ₚ finished es ++ pending k' /\ (forall now j, Finish now j ∈ es -> job_target j <= now) /\
    posted (vd_io d') (add_jobs P (finished es)) /\ posts (put_worker (vd_io d) i k') (vd_io d1) (finished es) /\
    d1 = set_io d (vd_io d1) /\ signals d1 d' k (seqZ 1 (vd_nr_cq d)).
Proof.
  intros R. destruct (worker_turn_spec E K d A P i k clk t R) as (es & t' & k' & d1 & d' & Et & _ & [T1 T2 T3 T4 T5 T6 T7]).
  exists es, t', k', d1, d'. split; [exact Et|]. split; [exact T1|]. split; [exact T2|]. split; [exact T3|]. split; [|by split].
  pose proof (dk_reach _ _ _ _ T1 i k' T2) as Rk. rewrite upd_eq in Rk. destruct (reach_inv _ _ _ Rk) as (io & free & I).
  intros now j Hj. apply (si_time _ _ _ _ _ _ I now j). apply elem_of_app. by right.
Qed.

(** ** A queue whose host went away *)
(** a request that falls due after the host deleted its completion queue: the worker
    follows the null pointer. *)
Lemma visit_deleted {N C} (i now curr : Z) (d : nvmev_dev N C) k w s c e id st r0 r1 tg :
  zget (io_workers d) i = Some k -> zget (work_queue k) curr = Some w -> is_completed w = false -> nsecs_target w <= now ->
  job_of w = Request s c e id st r0 r1 tg -> zget (cqes d) c = Some None -> visit_entry i now curr d = Err NullDeref.
Proof.
  intros Hk Hw Hc Ht Hj Hq. unfold visit_entry. rewrite (proj2 (aget_ok _ _ _) Hk). cbn [rbind]. unfold visit. rewrite (proj2 (aget_ok _ _ _) Hw). cbn [rbind].
  rewrite Hc. cbn [set_latest work_queue]. rewrite aset_in by (by eapply zget_range). cbn [rbind]. rewrite (proj2 (Z.leb_le _ _) Ht), finished_app.
  assert (finished (if is_copied w || is_internal w then [] else [CopyData (WorkQueue.sqid w) (WorkQueue.sq_entry w)]) = []) as -> by (by destruct (_ || _)).
  cbn [finished app omap list_omap]. rewrite Hj. cbn [post_jobs post_job put_worker cqes]. by rewrite (proj2 (aget_ok _ _ _) Hq).
Qed.

(** ** From the doorbell to the completion *)
Section Answered.
Context {N C : Type} `{NS : Namespace N C} `{SN : !ServableNamespace N C} `{HM : HostMemory C} `{NI : NamespaceInfo N}.
Context (types : list Z) (E : Z -> list io_effect) (K : Z -> Z).
Implicit Types d : vdev N C.

(** After a turn of the dispatcher that found an idle worker with room, that worker has
    exactly the jobs of the run to do. *)
Lemma idle_then_pending d A sqid i q n cs k d' A' q' n' l k0 k1 :
  dev_ok (vd_io d) A E K -> loop_done E K (vd_io d) A sqid i q n cs k (vd_io d') A' q' n' l ->
  let w := worker_of (vd_io d) sqid in
  K w = NIL -> zget (io_workers (vd_io d)) w = Some k0 -> pending k0 = [] -> zlen (offered (vd_io d) l w) <= room k0 ->
  zget (io_workers (vd_io d')) w = Some k1 -> pending k1 ≡ₚ offered (vd_io d) l w.
Proof.
  intros D L w HK Hk0 Hp0 Hroom Hk1. destruct (ld_absorbed _ _ _ _ _ _ _ _ _ _ _ _ _ _ _ L) as [_ Ha].
  destruct (Ha w) as (js & HA & _ & Hjs). destruct Hjs as [-> _]; [unfold room_at; by rewrite Hk0|].
  pose proof (dk_reach _ _ _ _ D w k0 Hk0) as R0. pose proof (dk_reach _ _ _ _ (ld_ok _ _ _ _ _ _ _ _ _ _ _ _ _ _ _ L) w k1 Hk1) as R1.
  rewrite HK in R0, R1. rewrite HA in R1. destruct (reach_inv _ _ _ R0) as (io & free & I0), (reach_inv _ _ _ R1) as (io' & free' & I1). cbn [sys_worker sys_curr] in *.
  unfold pending in *. rewrite (in_service_inv _ _ _ (si_inv _ _ _ _ _ _ I0)) in Hp0. rewrite (in_service_inv _ _ _ (si_inv _ _ _ _ _ _ I1)).
  pose proof (si_acc _ _ _ _ _ _ I0) as H0. pose proof (si_acc _ _ _ _ _ _ I1) as H1. rewrite Hp0, app_nil_r in H0. rewrite H0 in H1.
  symmetry. by apply Permutation_app_inv_l in H1.
Qed.

(** What the host finds in a completion queue after it consumed what was there. *)
Lemma reap_new d P c q js fuel : posted (vd_io d) (add_jobs P js) -> zget (cqes (vd_io d)) c = Some (Some q) ->
  zlen (on_queue c js) <= cq_queue_size q -> zlen (on_queue c js) <= Z.of_nat fuel ->
  reap fuel (cq_queue_size q) (cq_entries q) (zlen (P c) mod cq_queue_size q) (phase_at (cq_queue_size q) (zlen (P c))) =
    expected (cq_queue_size q) (zlen (P c)) (on_queue c js).
Proof.
  intros HP Hq Hs Hf. destruct (HP c q Hq) as (Hpos & Hh & Hr). unfold add_jobs in *.
  pose proof (reap_holds _ _ q Hpos Hh Hr (length (on_queue c js)) fuel) as H. rewrite length_app in H.
  replace (Z.of_nat (length (P c) + length (on_queue c js)) - zlen (on_queue c js)) with (zlen (P c)) in H by lia.
  rewrite H by lia. f_equal. rewrite drop_app_length'; [done|]. lia.
Qed.
(** The worker may take its turn on what the dispatcher handed over. *)
Lemma served_ready d A P sqid i q n cs old_db k d' A' q' n' l k0 k1 c0 :
  let w := worker_of (vd_io d) sqid in
  workers_ready E K d A P w k0 -> served E K d A sqid q i n cs old_db k d' A' q' n' l -> pending k0 = [] ->
  zlen (offered (vd_io d) l w) <= room k0 -> zget (cqes (vd_io d)) (sq_cqid q) = Some (Some c0) ->
  zget (io_workers (vd_io d')) w = Some k1 -> workers_ready E K d' A' P w k1 /\ pending k1 ≡ₚ offered (vd_io d) l w.
Proof.
  intros w [D HP Hk0 HK _ Hm Hcnt] [L Hd'] Hp Hroom Hc0 Hk1. pose proof (ld_cqes _ _ _ _ _ _ _ _ _ _ _ _ _ _ _ L) as Hcq.
  pose proof (idle_then_pending d A sqid i q n _ k d' A' q' n' l k0 k1 D L HK Hk0 Hp Hroom Hk1) as Hpend. split; [|exact Hpend].
  destruct (run_tickets _ _ _ _ _ _ _ (ld_run _ _ _ _ _ _ _ _ _ _ _ _ _ _ _ L)) as (_ & _ & Hreq).
  split; [exact (ld_ok _ _ _ _ _ _ _ _ _ _ _ _ _ _ _ L)| |done|done| |by rewrite Hd'|].
  - intros c x Hx. rewrite Hcq in Hx. by apply HP.
  - rewrite Hpend. apply Forall_forall. intros j Hj. unfold offered in Hj. apply list_elem_of_omap in Hj as ([s x] & Hin & Hx). cbn in Hx.
    destruct (_ =? _); [injection Hx as ->|done]. rewrite Forall_forall in Hreq. pose proof (Hreq _ Hin) as Hg. cbn in Hg. unfold has_queue. destruct j; [|done].
    destruct (Hg eq_refl) as [_ Hgo]. cbn in Hgo. subst cqid. rewrite Hcq. by exists c0.
  - rewrite Hcq, Hd'. exact Hcnt.
Qed.

(** The interrupt a completion brings. *)
Lemma completion_signalled d1 d2 k c c0 q nr vs : zget (cqes (vd_io d1)) c = Some (Some q) -> signals d1 d2 k (seqZ 1 nr) -> vs = omap (irq_of d1 k) (seqZ 1 nr) ->
  1 <= c <= nr -> worker_id k = worker_of (vd_io d1) c -> irq_enabled q = true -> interrupt_ready q = true -> irq_vector q = irq_vector c0 ->
  vd_signals d2 = vd_signals d1 ++ (Msi <$> vs) /\ Msi (irq_vector c0) ∈ Msi <$> vs.
Proof.
  intros Hq S -> Hc Hw Hi Hr Hv. split; [by rewrite (sg_rest _ _ _ _ S)|]. apply list_elem_of_fmap_2, list_elem_of_omap. exists c. split; [apply elem_of_seqZ; lia|].
  unfold irq_of, raise_irq. rewrite Hq, Hw, Z.eqb_refl, Hi, Hr. cbn [andb fst]. by rewrite Hv.
Qed.
End Answered.

Lemma ring_to_reap {N C} `{NS : Namespace N C} `{SN : !ServableNamespace N C} `{HM : HostMemory C} `{NI : NamespaceInfo N}
    (types : list Z) E K (d : vdev N C) A P sqid q i n cs new_db old_db c0 k0 fuel clk t :
  let w := worker_of (vd_io d) sqid in let slots := zip (ring_from (sq_queue_size q) old_db (length cs)) cs in
  quiet_but d sqid -> has_news E K d A sqid q i n cs new_db old_db -> workers_ready E K d A P w k0 -> pending k0 = [] ->
  zget (cqes (vd_io d)) (sq_cqid q) = Some (Some c0) -> zlen cs <= cq_queue_size c0 -> zlen cs <= Z.of_nat fuel ->
  (forall k n' l, ns_run sqid (sq_cqid q) n slots k n' l -> k = zlen cs /\ zlen (offered (vd_io d) l w) <= room k0) ->
  exists t1 d1 n' l, dispatcher_turn types clk t d = Ok (true, t1, d1) /\ ns_run sqid (sq_cqid q) n slots (zlen cs) n' l /\
    forall k1 clk' t0, zget (io_workers (vd_io d1)) w = Some k1 -> all_due clk' t0 k1 ->
      exists es t2 d2 c2 js, nvmev_io_worker_turn w clk' t0 d1 = Ok (es, t2, d2) /\ zget (cqes (vd_io d2)) (sq_cqid q) = Some (Some c2) /\
        reap fuel (cq_queue_size c0) (cq_entries c2) (zlen (P (sq_cqid q)) mod cq_queue_size c0) (phase_at (cq_queue_size c0) (zlen (P (sq_cqid q)))) =
          expected (cq_queue_size c0) (zlen (P (sq_cqid q))) js /\
        js ≡ₚ requests l.*2 /\ tickets js ≡ₚ asked sqid slots /\
        (cs <> [] -> irq_enabled c0 = true -> 1 <= sq_cqid q <= vd_nr_cq d -> worker_of (vd_io d) (sq_cqid q) = w ->
          exists vs, vd_signals d2 = vd_signals d ++ vs /\ Msi (irq_vector c0) ∈ vs).
Proof.
  intros w slots Q HN WR Hp Hc0 Hcs Hf Hrun.
  destruct (turn_serves types E K d A sqid q i n cs new_db old_db clk t Q HN) as (k & t1 & d1 & A1 & q1 & n' & l & Er & [L Hd1]). fold slots in L.
  pose proof (ld_run _ _ _ _ _ _ _ _ _ _ _ _ _ _ _ L) as R. destruct (Hrun _ _ _ R) as [-> Hroom].
  exists t1, d1, n', l. split; [exact Er|]. split; [exact R|]. intros k1 clk' t0 Hk1 Hdue.
  destruct (served_ready E K d A P sqid i q n cs old_db _ d1 A1 q1 n' l k0 k1 c0 WR ltac:(by split) Hp Hroom Hc0 Hk1) as [WR1 Hpend].
  destruct (worker_turn_spec E K d1 A1 P w k1 clk' t0 WR1) as (es & t2 & k2 & dm & d2 & Et & Ep & [T1 T2 T3 T4 T5 T6 T7]).
  assert (finished es ≡ₚ offered (vd_io d) l w) as Hfin.
  { pose proof (dk_reach _ _ _ _ (wr_dev _ _ _ _ _ _ _ WR1) w k1 Hk1) as R1. assert (K w = NIL) as HKw by apply WR1. rewrite HKw in R1.
    destruct (io_pass_spec clk' t0 _ _ k1 R1 Hdue) as (es' & t' & k' & k'' & Ep' & Hes & _). rewrite Ep in Ep'. injection Ep' as <- <- <-. by rewrite Hes. }
  destruct (run_tickets _ _ _ _ _ _ _ R) as (Htk & _ & Hreq). destruct (offered_requests (vd_io d) sqid _ l Hreq) as [Hoff _].
  set (c := sq_cqid q) in *. set (js := on_queue c (finished es)). assert (js ≡ₚ requests l.*2) as Hjs by (unfold js, on_queue; rewrite Hfin; by rewrite <- Hoff).
  assert (length slots = length cs) as Hsl by (unfold slots; rewrite length_zip, length_ring_from; lia).
  assert (tickets js ≡ₚ asked sqid slots) as Htj.
  { unfold tickets. rewrite Hjs. fold (tickets (requests l.*2)). rewrite requests_tickets, Htk, Nat2Z.id, take_ge; [done|]. unfold asked. rewrite length_fmap. lia. }
  assert (length js = length cs) as Hlen.
  { rewrite <- Hsl. apply Permutation_length in Htj. unfold asked in Htj. rewrite length_fmap in Htj. rewrite <- Htj. symmetry. apply tickets_length. unfold js. rewrite <- on_queue_requests. apply requests_all. }
  assert (zget (cqes (put_worker (vd_io d1) w k2)) c = Some (Some c0)) as Hc1 by (cbn; by rewrite (ld_cqes _ _ _ _ _ _ _ _ _ _ _ _ _ _ _ L)).
  destruct (ps_some _ _ _ T4 c c0 Hc1) as (qm & Hqm & _ & Hsz & Hen & Hvec & Hrdy). destruct (sg_some _ _ _ _ _ _ T6 Hqm) as (c2 & Hc2 & b & ->).
  exists es, t2, d2, (cq_set qm (phase qm) (cq_head qm) b (cq_entries qm)), js. split; [exact Et|]. split; [exact Hc2|]. split; [|split; [exact Hjs|split; [exact Htj|]]].
  - pose proof (reap_new d2 P c _ (finished es) fuel T7 Hc2) as Hr. fold js in Hr. cbn [cq_set cq_queue_size cq_entries] in Hr |- *. rewrite Hsz in Hr. apply Hr; lia.
  - intros Hne Hien Hcr Hid. exists (Msi <$> omap (irq_of dm k1) (seqZ 1 (vd_nr_cq d1))).
    assert (vd_signals d = vd_signals dm) as -> by (rewrite T5, Hd1; done). eapply (completion_signalled dm d2 k1 c c0 qm); try done.
    + by rewrite Hd1.
    + rewrite (dk_id _ _ _ _ (wr_dev _ _ _ _ _ _ _ WR1) _ _ Hk1), <- Hid. unfold worker_of. rewrite (ps_rest _ _ _ T4). cbn [put_worker nr_io_workers]. by destruct (ld_absorbed _ _ _ _ _ _ _ _ _ _ _ _ _ _ _ L) as [-> _].
    + congruence.
    + rewrite Hrdy. apply orb_true_iff. right. fold js. destruct js as [|j js'] eqn:Ejs; [destruct cs; [done|discriminate Hlen]|].
      pose proof (requests_all (on_queue c (finished es))) as Hall. rewrite on_queue_requests in Hall. fold js in Hall. rewrite Ejs in Hall. apply Forall_cons in Hall as [Hj _].
      cbn. by rewrite Hj.
Qed.

(** C15: from the doorbell to the completion.  With MSI-X enabled and every other doorbell and the
    registers at rest, a host rings the doorbell of a submission queue, with a slot of its ring, for
    the commands [cs], all for one namespace that exists and can serve them, no more than its completion queue
    has entries; the namespace takes them all and the queue's worker, with nothing left to
    do, has room for what comes.  The next turn of the dispatcher hands them over, and when the
    worker's turn comes, at a time past their targets, the host that goes on reading its
    completion queue where it stopped finds one completion per command, with the queue, slot and
    identifier of the command, and nothing else; if interrupts are on and the completion queue
    belongs to the same worker, its vector is raised. *)
Theorem commands_answered {N C} `{NS : Namespace N C} `{SN : !ServableNamespace N C} `{HM : HostMemory C} `{NI : NamespaceInfo N}
    (types : list Z) E K (d : vdev N C) A P sqid q i n cs new_db old_db c0 k0 fuel clk t :
  let w := worker_of (vd_io d) sqid in let slots := zip (ring_from (sq_queue_size q) old_db (length cs)) cs in
  quiet_but d sqid -> has_news E K d A sqid q i n cs new_db old_db -> workers_ready E K d A P w k0 -> pending k0 = [] ->
  zget (cqes (vd_io d)) (sq_cqid q) = Some (Some c0) -> zlen cs <= cq_queue_size c0 -> zlen cs <= Z.of_nat fuel ->
  (forall k n' l, ns_run sqid (sq_cqid q) n slots k n' l -> k = zlen cs /\ zlen (offered (vd_io d) l w) <= room k0) ->
  exists t1 d1 n' l, dispatcher_turn types clk t d = Ok (true, t1, d1) /\ ns_run sqid (sq_cqid q) n slots (zlen cs) n' l /\
    forall k1 clk' t0, zget (io_workers (vd_io d1)) w = Some k1 -> all_due clk' t0 k1 ->
      exists es t2 d2 c2 js, nvmev_io_worker_turn w clk' t0 d1 = Ok (es, t2, d2) /\ zget (cqes (vd_io d2)) (sq_cqid q) = Some (Some c2) /\
        reap fuel (cq_queue_size c0) (cq_entries c2) (zlen (P (sq_cqid q)) mod cq_queue_size c0) (phase_at (cq_queue_size c0) (zlen (P (sq_cqid q)))) =
          expected (cq_queue_size c0) (zlen (P (sq_cqid q))) js /\
        js ≡ₚ requests l.*2 /\ tickets js ≡ₚ asked sqid slots /\
        (cs <> [] -> irq_enabled c0 = true -> 1 <= sq_cqid q <= vd_nr_cq d -> worker_of (vd_io d) (sq_cqid q) = w ->
          exists vs, vd_signals d2 = vd_signals d ++ vs /\ Msi (irq_vector c0) ∈ vs).
Proof. apply ring_to_reap. Qed.

(** ** Namespaces that take every command and schedule nothing, as the simple one does *)
Section Plain.
Context {N C : Type} `{NS : Namespace N C}.

Definition plain_ns : Prop := forall c sqid nsecs rt clk t (n : N) b rt' c' t' n',
  proc_io_cmd c sqid nsecs rt clk t n = Ok ((b, rt', c'), t', n') -> b = true /\ ns_scheduled n' = ns_scheduled n.

Lemma plain_run sqid cqid n cs k n' l : plain_ns -> ns_run sqid cqid n cs k n' l -> k = zlen cs /\ zlen l <= zlen cs.
Proof.
  intros Hpl. induction 1 as [n|n e c cs nsecs clk t rt body t' n' Ep|n e c cs nsecs clk t rt body t' n' k n'' l Ep _ [IH1 IH2]]; [done|by destruct (Hpl _ _ _ _ _ _ _ _ _ _ _ _ Ep)|].
  destruct (Hpl _ _ _ _ _ _ _ _ _ _ _ _ Ep) as [_ Hs]. unfold internals. rewrite Hs, drop_all. cbn [app fmap list_fmap length]. lia.
Qed.
End Plain.

Lemma simple_plain : @plain_ns simple_ns Nvme.nvme_rw_command _.
Proof.
  intros c sqid nsecs rt clk t n b rt' c' t' n' E. cbn [proc_io_cmd simple_namespace] in E. split; [|done].
  unfold bind in E at 1. destruct (simple_proc_nvme_io_cmd c rt clk t n) as [[[[b1 r1] t1] n1]|] eqn:Es; [|done]. injection E as -> _ _ _ _.
  unfold simple_proc_nvme_io_cmd in Es. rewrite run_get in Es. unfold bind, assert in Es. destruct (simple_csi n =? 0); [|done]. destruct (base_ssd_optane n); [|done].
  destruct (_ || _); [|destruct (_ =? _)].
  - cbn [read_clock] in Es. unfold update_get in Es. destruct (__schedule_io_units _ _ _ _ _ _) as [[z s]|]; cbn [rbind] in Es; [|done]. by injection Es.
  - unfold lift in Es. destruct (__schedule_flush n); [|done]. by injection Es.
  - by injection Es.
Qed.

(** ** Examples: the two commands in the queue that the driver of HostTheorems.v created *)
Definition demo_queue : nvmev_submission_queue Nvme.nvme_rw_command := mk_sq 1 4 (mk_stat 0 0 0 0 0) (replicate 64 demo_cmd).
Definition demo_completions : nvmev_completion_queue := mk_cq 4 1 0 (-1) true 1 false (replicate 256 (mk_cqe 0 0 0 0 0 0)).

Lemma demo_queues c q : zget (cqes (vd_io demo_busy)) c = Some (Some q) -> q = demo_completions.
Proof.
  change (cqes (vd_io demo_busy)) with (zset (replicate 73 None) 1 (Some demo_completions)). intros Hq.
  destruct (decide (c = 1)) as [->|Hne]; [by injection Hq|]. rewrite zget_zset_ne in Hq by done. unfold zget in Hq. case_match; [done|].
  by apply lookup_replicate in Hq as [? _].
Qed.

Lemma demo_ready_turn : workers_ready (fun _ => []) (fun _ => NIL) demo_busy (fun _ => []) (fun _ => []) 0 (worker_init 0).
Proof.
  split; [exact demo_workers| |reflexivity|reflexivity|apply Forall_nil; done|reflexivity|vm_compute; split; [discriminate|reflexivity]].
  intros c q ->%demo_queues. split; [reflexivity|]. split; [|apply Forall_nil; done]. apply fresh_holds. split; [vm_compute; split; [reflexivity|discriminate]|done|done|].
  intros i x Hx. unfold zget in Hx. case_match; [done|]. cbn [demo_completions cq_entries] in Hx. by apply lookup_replicate in Hx as [-> _].
Qed.

Lemma worker_turn_correct_witness : exists es t' d', nvmev_io_worker_turn 0 (fun _ t => Z.of_nat t) 0%nat demo_busy = Ok (es, t', d') /\
  [] ≡ₚ finished es ++ match zget (io_workers (vd_io d')) 0 with Some k => pending k | None => [] end.
Proof.
  destruct (worker_turn_correct _ _ _ _ _ _ _ (fun _ t => Z.of_nat t) 0%nat demo_ready_turn) as (es & t' & k' & d1 & d' & E & _ & Hk & Hp & _).
  exists es, t', d'. split; [exact E|]. rewrite Hk. exact Hp.
Defined.

Lemma commands_answered_witness : exists t1 d1 l, dispatcher_turn [0; 0] (fun _ t => Z.of_nat t) 0%nat demo_busy = Ok (true, t1, d1) /\
  forall k1 clk' t0, zget (io_workers (vd_io d1)) 0 = Some k1 -> all_due clk' t0 k1 ->
    exists es t2 d2 c2 js, nvmev_io_worker_turn 0 clk' t0 d1 = Ok (es, t2, d2) /\ zget (cqes (vd_io d2)) 1 = Some (Some c2) /\
      reap 9 4 (cq_entries c2) 0 1 = expected 4 0 js /\ js ≡ₚ requests l /\ tickets js ≡ₚ [(1, 0, 20); (1, 1, 20)].
Proof.
  destruct (commands_answered [0; 0] (fun _ => []) (fun _ => NIL) demo_busy (fun _ => []) (fun _ => []) 1 demo_queue 0
    (simple_init_namespace demo_units true 0 (2 ^ 30)) [demo_cmd; demo_cmd] 2 0 demo_completions (worker_init 0) 9 (fun _ t => Z.of_nat t) 0%nat)
    as (t1 & d1 & n' & l & E & _ & H).
  - split.
    + exists 0x000f000f, 0x1000, 0x2000, 0x460001. by split.
    + split; by exists 0.
    + intros j Hj Hne. left. assert (j = 2 \/ j = 3 \/ j = 4) as [-> | [-> | ->]] by (change (vd_nr_sq demo_busy) with 4 in Hj; lia); reflexivity.
    + intros j Hj. assert (j = 1 \/ j = 2 \/ j = 3 \/ j = 4) as [-> | [-> | [-> | ->]]] by (change (vd_nr_cq demo_busy) with 4 in Hj; lia);
        [right; eexists; split; [reflexivity|]; by exists 0|left; reflexivity..].
    + change (vd_nr_sq demo_busy) with 4. lia.
  - split; try reflexivity; try discriminate; try (split; [discriminate|reflexivity]).
    + exact demo_workers.
    + split; split; discriminate || reflexivity.
    + repeat (apply Forall2_cons; split; [reflexivity|]). apply Forall2_nil. done.
    + repeat (apply Forall_cons; split; [reflexivity|]). apply Forall_nil. done.
    + apply simple_init_ok. split; [cbn; lia|unfold LBA_BITS; cbn; lia|]. intros o. unfold op_times. repeat case_match; cbn in *; simplify_eq; lia.
  - exact demo_ready_turn.
  - reflexivity.
  - reflexivity.
  - cbn. lia.
  - cbn. lia.
  - intros k n' l R. destruct (plain_run _ _ _ _ _ _ _ simple_plain R) as [Hk Ho]. split; [exact Hk|].
    etransitivity; [apply offered_length|]. etransitivity; [exact Ho|]. unfold room. rewrite (in_service_inv _ _ _ (worker_init_inv 0)). cbn [length]. unfold NR_MAX_PARALLEL_IO. cbn. lia.
  - exists t1, d1, l.*2. split; [exact E|]. intros k1 clk' t0 Hk1 Hdue. destruct (H k1 clk' t0 Hk1 Hdue) as (es & t2 & d2 & c2 & js & H1 & H2 & H3 & H4 & H5 & _).
    exists es, t2, d2, c2, js. split; [exact H1|]. split; [exact H2|]. split; [exact H3|]. split; [exact H4|exact H5].
Defined.
