(* ===== verification/Session.v ===== *)
(** * From power-on to the first answers

    The composition of the registers, the dispatcher and the admin queue: a driver that
    brings the controller up and sends its first commands. *)

From Stdlib Require Import ZArith Lia String.
From stdpp Require Import base list numbers sets gmap.
From S2P Require Import Prelude Config CLayout PciRegs PciConfig WorkQueue IoWorker IoQueue Dispatch SimpleFtl Device Bar Admin AdminSpec Main MainSpec AdminTurn HostTheorems WorkerTurn WorkerSpec WorkerTheorems.

(** A device the host has not used since the module was loaded, MSI-X switched on. *)
Record untouched {N C} (zns : bool) (d : vdev N C) : Prop := {
  un_bars : bars_fresh zns d;
  un_sqes : sqes (vd_io d) = replicate (Z.to_nat (NR_MAX_IO_QUEUE + 1)) None;
  un_cqes : cqes (vd_io d) = replicate (Z.to_nat (NR_MAX_IO_QUEUE + 1)) None;
  un_counts : vd_nr_sq d = 0 /\ vd_nr_cq d = 0;
  un_dbs : vd_dbs d = replicate 1024 0 /\ vd_old_dbs d = replicate 1024 0;
  un_msix : msix_enabled (vd_pci d) = Some true;
}.

Lemma take_ring {A} (l cs : list A) size : forall e, 0 <= e -> e + zlen cs < size -> cs = take (length cs) (drop (Z.to_nat e) l) ->
  Forall2 (fun i c => zget l i = Some c) (ring_from size e (length cs)) cs.
Proof.
  induction cs as [|c cs IH]; intros e He Hsz Hcs; [by constructor|]. cbn [length ring_from] in *.
  destruct (drop (Z.to_nat e) l) as [|x l'] eqn:Hdr; [done|]. cbn [take] in Hcs. injection Hcs as -> Hcs.
  assert (l !! Z.to_nat e = Some x) as Hx by (rewrite <- (Nat.add_0_r (Z.to_nat e)), <- lookup_drop, Hdr; done).
  constructor. { unfold zget. destruct (Z.ltb_spec e 0); [lia|done]. }
  unfold next_slot. destruct (Z.eqb_spec (e + 1) size); [lia|]. apply IH; [lia|lia|].
  replace (Z.to_nat (e + 1)) with (S (Z.to_nat e)) by lia. rewrite (drop_S _ _ _ Hx) in Hdr. by injection Hdr as ->.
Qed.

Lemma ring_from_seqZ size k : forall e, 0 <= e -> e + Z.of_nat k < size -> ring_from size e k = seqZ e (Z.of_nat k).
Proof.
  induction k as [|k IH]; intros e He Hk; [done|]. cbn [ring_from]. rewrite seqZ_cons by lia. f_equal.
  unfold next_slot. destruct (Z.eqb_spec (e + 1) size); [lia|]. rewrite IH by lia. f_equal; lia.
Qed.

Section Untouched.
Context {N C : Type} `{HM : HostMemory C} (zns : bool).
Implicit Types d : vdev N C.

Lemma untouched_view d : untouched zns d -> ctl_view d (mk_ctl ∅ ∅ (0, 0)).
Proof.
  intros [_ Hs Hc [N1 N2] [D1 D2] _]. split; rewrite ?Hs, ?Hc, ?N1, ?N2, ?D1, ?D2.
  - by rewrite length_replicate.
  - by rewrite length_replicate.
  - intros i o Ho. eapply (replicate_view _ _ sq_view); [done|done|exact Ho].
  - intros i o Ho. eapply (replicate_view _ _ cq_view); [done|done|exact Ho].
  - done.
  - by left.
  - by rewrite length_replicate.
Qed.

Lemma untouched_quiet d i : untouched zns d -> 0 <= i < 1024 -> quiet d i.
Proof.
  intros [_ _ _ _ [D1 D2] _] Hi. exists 0. rewrite D1, D2. unfold zget. destruct (Z.ltb_spec i 0); [lia|].
  by rewrite lookup_replicate_2 by lia.
Qed.

Lemma untouched_new d : untouched zns d -> queues_new d.
Proof.
  intros [_ Hs Hc _ [D1 D2] _]. split.
  - intros i Hi. unfold db_zero. rewrite D1, D2. unfold zget. destruct (Z.ltb_spec i 0); [lia|]. by rewrite lookup_replicate_2 by lia.
  - intros x q Hq. rewrite Hc in Hq. unfold zget in Hq. case_match; [done|]. by apply lookup_replicate in Hq as [? _].
  - intros x q Hq. rewrite Hs in Hq. unfold zget in Hq. case_match; [done|]. by apply lookup_replicate in Hq as [? _].
Qed.
End Untouched.

Section FirstCommands.
Context {N C : Type} `{HM : HostMemory C} (zns : bool) (a s c k : Z).
Implicit Types d : vdev N C.
Local Notation sdepth := (aqa_asqs a + 1).
Local Notation depth := (aqa_acqs a + 1).
Local Notation sq_pages := (admin_commands_at s (nr_pages sdepth SIZEOF_COMMAND)).
Local Notation cq_pages := (completions_at c (nr_pages depth SIZEOF_COMPLETION)).

(** The queue the driver set up, over pages it cleared. *)
Lemma brought_admin_state d : Forall (fun x => Z.land (cqe_status x) 1 = 0) cq_pages ->
  admin_state (brought zns a s c k 4 4 d) depth sq_pages [].
Proof.
  intros Hclr. pose proof (get_bits_range a 16 12 ltac:(lia)) as Hr. fold (aqa_acqs a) in Hr. change (2 ^ 12) with 4096 in Hr.
  split; [|lia]. exists (mk_adminq 1 sdepth depth 0 (Some sq_pages) (Some cq_pages)), cq_pages. do 4 (split; [reflexivity|]).
  apply (fresh_holds (admin_ring (mk_adminq 1 sdepth depth 0 (Some sq_pages) (Some cq_pages)) cq_pages)).
  split; [split; [cbn; lia|apply completions_enough; cbn; lia]|done|done|].
  intros i x Hx. unfold zget in Hx. case_match; [done|]. exact (Forall_lookup_1 _ _ _ _ Hclr Hx).
Qed.

(** Registers apart, it is the device it was. *)
Lemma brought_untouched d w p : let d' := brought zns a s c k w p d in
  vd_io d' = vd_io d /\ vd_dbs d' = vd_dbs d /\ vd_old_dbs d' = vd_old_dbs d /\ vd_nr_sq d' = vd_nr_sq d /\ vd_nr_cq d' = vd_nr_cq d /\
  vd_pci d' = vd_pci d /\ vd_signals d' = vd_signals d.
Proof. done. Qed.
End FirstCommands.

(** The host writes doorbell [i]. *)
Definition ring_doorbell {N C} (i v : Z) (d : vdev N C) : vdev N C := set_dbs d (zset (vd_dbs d) i v) (vd_old_dbs d).

Lemma ring_view {N C} (d : vdev N C) kk i v : ctl_view d kk -> ctl_view (ring_doorbell i v d) kk.
Proof. intros [X1 X2 X3 X4 X5 X6 [X7 X8]]. split; [exact X1|exact X2|exact X3|exact X4|exact X5|exact X6|]. cbn [ring_doorbell set_dbs vd_dbs vd_old_dbs]. by rewrite length_zset. Qed.

Lemma ring_quiet {N C} (d : vdev N C) i j v : i <> j -> quiet d j -> quiet (ring_doorbell i v d) j.
Proof. intros Hne (x & H1 & H2). exists x. split; [|exact H2]. cbn [ring_doorbell set_dbs vd_dbs]. by rewrite zget_zset_ne by done. Qed.

(** A driver and a device nobody used: it writes the registers [a], [s], [c] and [k], with
    polls of the dispatcher between and [n] after; the commands [cs] are in the first slots. *)
Record driver_starts {N C} `{HM : HostMemory C} `{NI : NamespaceInfo N} (types : list Z) (zns : bool) (d : vdev N C) (a s c k : Z)
    (l : list (option host_write)) (n : nat) (cs : list admin_command) : Prop := {
  ds_device : untouched zns d;
  ds_regs : a <> 0 /\ s <> 0 /\ c <> 0 /\ k <> 0;
  ds_enable : cc_en k = 1 /\ cc_shn k <> 1;
  ds_writes : writes_of l = driver_writes a s c k;
  ds_polls : (4 <= n)%nat;
  ds_commands : cs <> [] /\ zlen cs <= aqa_asqs a /\ cs = take (length cs) (admin_commands_at s (nr_pages (aqa_asqs a + 1) SIZEOF_COMMAND));
  ds_clear : Forall (fun x => Z.land (cqe_status x) 1 = 0) (completions_at c (nr_pages (aqa_acqs a + 1) SIZEOF_COMPLETION));
  ds_ok : Forall (admin_ok types (vns (vd_io d))) cs;
}.

(** Both steps, with all that holds after them. *)
Lemma first_commands {N C} `{NS : Namespace N C} `{HM : HostMemory C} `{NI : NamespaceInfo N} (types : list Z) (zns : bool) (d : vdev N C)
    a s c k l n cs fuel clk t :
  driver_starts types zns d a s c k l n cs ->
  let run := adm_run (zip (zseq (zlen cs)) cs) (mk_ctl ∅ ∅ (0, 0)) in
  zlen (snd run) <= aqa_acqs a + 1 -> zlen (snd run) <= Z.of_nat fuel ->
  exists d1 d2 q es, play (l ++ replicate n None) d = Ok d1 /\ csts_rdy (u_csts (vd_bar d1)) = 1 /\
    dispatcher_turn types clk t (ring_doorbell 0 (zlen cs) d1) = Ok (true, t, d2) /\ dispatcher_turn types clk t d2 = Ok (false, t, d2) /\
    vd_admin d2 = Some q /\ nvme_cq q = Some es /\ reap fuel (aqa_acqs a + 1) es 0 1 = expected (aqa_acqs a + 1) 0 (snd run) /\
    vd_signals d2 = vd_signals d ++ [Msi 0] /\ ctl_view d2 (fst run) /\
    rested d2 /\ vns (vd_io d2) = vns (vd_io d) /\ io_workers (vd_io d2) = io_workers (vd_io d) /\ nr_io_workers (vd_io d2) = nr_io_workers (vd_io d) /\
    vd_pci d2 = vd_pci d /\ (memory_clear -> queues_new d2).
Proof.
  intros [U (Ha & Hs & Hc & Hk) (Hen & Hshn) Hw Hn (Hne & Hlen & Htake) Hclr Hok]. cbv zeta. intros Hr Hf. pose proof U as [F _ _ _ [D1 D2] Hm].
  pose proof (get_bits_range a 0 12 ltac:(lia)) as Ra. fold (aqa_asqs a) in Ra. change (2 ^ 12) with 4096 in Ra.
  assert (0 < zlen cs) as Hpos by (destruct cs; [done|cbn; lia]).
  destruct (play_brought zns a s c k Ha Hs Hc Hk Hen Hshn d l F 0 0) as (p & Hp & E); [lia|done|]. rewrite brought_0 in E by done.
  assert (play (l ++ replicate n None) d = Ok (brought zns a s c k 4 4 d)) as E1.
  { rewrite (play_app _ _ _ _ E). apply play_polls; done || lia. }
  pose proof (brought_admin_state zns a s c k d Hclr) as A. set (d1 := brought zns a s c k 4 4 d) in *.
  pose proof (ring_from_seqZ (aqa_asqs a + 1) (length cs) 0 ltac:(lia) ltac:(lia)) as Hring.
  destruct (admin_turn_spec types (ring_doorbell 0 (zlen cs) d1) (aqa_acqs a + 1) (aqa_asqs a + 1) (admin_commands_at s (nr_pages (aqa_asqs a + 1) SIZEOF_COMMAND)) [] cs
    (mk_ctl ∅ ∅ (0, 0)) (zlen cs) 0 fuel clk t) as (d2 & q & es & T1 & T2 & V & Hq & Hes & Hreap & Hsig & _ & Hns & Hwk & _ & Hnw & Hpci & Hkeep & Hrest).
  - exists a, s, c, k. by split.
  - apply ring_quiet; [done|]. exact (untouched_quiet zns d 1 U ltac:(lia)).
  - intros i Hi. unfold NR_MAX_IO_QUEUE in Hi. apply ring_quiet; [lia|]. exact (untouched_quiet zns d i U ltac:(lia)).
  - cbn [ring_doorbell set_dbs vd_dbs]. apply zget_zset_eq. change (vd_dbs d1) with (vd_dbs d). rewrite D1, length_replicate. lia.
  - change (vd_old_dbs (ring_doorbell 0 (zlen cs) d1)) with (vd_old_dbs d). by rewrite D2.
  - lia.
  - destruct A as [X Y]. split; [exact X|exact Y].
  - done.
  - lia.
  - apply ring_view. destruct (untouched_view zns d U) as [X1 X2 X3 X4 X5 X6 X7]. by split.
  - exact Hm.
  - lia.
  - lia.
  - unfold num_proc. destruct (Z.ltb_spec (zlen cs - 0) 0); lia.
  - apply take_ring; [lia|lia|]. by rewrite drop_0.
  - exact Hok.
  - by apply Forall_nil.
  - by rewrite Hring.
  - by rewrite Hring.
  - rewrite Hring in V, Hreap. exists d1, d2, q, es. do 6 (split; [done|]). split; [exact Hreap|]. split; [exact Hsig|]. split; [exact V|].
    do 5 (split; [done|]). intros Hclear. apply (Hkeep Hclear). destruct (untouched_new zns d U) as [X Y W]. split; [|exact Y|exact W].
    intros x Hx. destruct (X x Hx) as [Z1 Z2]. split; [|exact Z2]. cbn [ring_doorbell set_dbs vd_dbs]. by rewrite zget_zset_ne by lia.
Qed.

(** ** The first commands of an I/O queue *)

(** The host stores commands in the slots from [e] on. *)
Fixpoint fill_slots {X} (size e : Z) (cs : list X) (l : list X) : list X :=
  match cs with [] => l | c :: cs => fill_slots size (next_slot size e) cs (zset l e c) end.

(** It fills the slots of its queue [q] from [e] on and rings the doorbell of the slot after. *)
Definition host_submits {N C} (qid : Z) (q : nvmev_submission_queue C) (e : Z) (cs : list (nvme_command C)) (d : vdev N C) : vdev N C :=
  ring_doorbell (qid * 2) ((e + zlen cs) mod sq_queue_size q)
    (set_io d (set_sq (vd_io d) qid (mk_sq (sq_cqid q) (sq_queue_size q) (stat q) (fill_slots (sq_queue_size q) e cs (sq_entries q))))).

Lemma fill_slots_keeps {X} size (cs : list X) : forall e l i, 0 <= e < size -> i ∉ ring_from size e (length cs) -> zget (fill_slots size e cs l) i = zget l i.
Proof.
  induction cs as [|c cs IH]; intros e l i He Hi; [done|]. cbn [fill_slots length ring_from] in *. apply not_elem_of_cons in Hi as [Hne Hi].
  rewrite IH by (done || by apply next_slot_range). by rewrite zget_zset_ne by done.
Qed.

Lemma fill_slots_holds {X} size (cs : list X) : forall e l, 0 <= e < size -> zlen cs < size -> size <= zlen l ->
  Forall2 (fun i c => zget (fill_slots size e cs l) i = Some c) (ring_from size e (length cs)) cs.
Proof.
  induction cs as [|c cs IH]; intros e l He Hlt Hl; [by constructor|]. cbn [fill_slots length ring_from] in *. constructor.
  - rewrite fill_slots_keeps; [apply zget_zset_eq; lia|by apply next_slot_range|apply ring_from_fresh; lia].
  - apply IH; [by apply next_slot_range|lia|by rewrite length_zset].
Qed.

Section FirstIo.
Context {N C : Type} `{NS : Namespace N C} `{SN : !ServableNamespace N C} `{HM : HostMemory C} `{NI : NamespaceInfo N}.
Context (types : list Z).
Implicit Types d : vdev N C.

(** The workers as [NVMEV_IO_WORKER_INIT] leaves them. *)
Definition workers_new d : Prop := io_workers (vd_io d) = worker_init <$> zseq (nr_io_workers (vd_io d)) /\ 0 < nr_io_workers (vd_io d).

Lemma new_worker d i : workers_new d -> 0 <= i < nr_io_workers (vd_io d) -> zget (io_workers (vd_io d)) i = Some (worker_init i).
Proof. intros [-> _] Hi. rewrite Ssd.zget_fmap, Ssd.zget_zseq. destruct (Z.leb_spec 0 i), (Z.ltb_spec i (nr_io_workers (vd_io d))); try lia. done. Qed.

Lemma new_workers_ok d x : workers_new d -> io_workers x = io_workers (vd_io d) -> nr_io_workers x = nr_io_workers (vd_io d) ->
  @dev_ok N C x (fun _ => []) (fun _ => []) (fun _ => NIL).
Proof.
  intros W Hw Hn. pose proof W as [Hi Hp]. assert (zlen (io_workers (vd_io d)) = nr_io_workers (vd_io d)) as Hl by (rewrite Hi, length_fmap, length_zseq; lia).
  split; rewrite ?Hw, ?Hn; [by rewrite Hl|done|..]; intros j k Hk; rewrite new_worker in Hk by (done || (apply zget_range in Hk; by rewrite Hl in Hk)); injection Hk as <-; [constructor|done].
Qed.

Lemma new_worker_idle i : pending (worker_init i) = [] /\ room (worker_init i) = NR_MAX_PARALLEL_IO - 1.
Proof. unfold pending, room. by rewrite (in_service_inv _ _ _ (worker_init_inv i)). Qed.

Lemma new_posted d : queues_new d -> posted (vd_io d) (fun _ => []).
Proof. intros [_ Hc _] c q Hq. specialize (Hc c q Hq). pose proof (cf_size q Hc). split; [lia|]. split; [by apply fresh_holds|by apply Forall_nil]. Qed.

Lemma submits_quiet d kk qid q e cs : ctl_view d kk -> rested d -> zget (sqes (vd_io d)) qid = Some (Some q) -> 1 <= qid <= vd_nr_sq d ->
  quiet_but (host_submits qid q e cs d) qid.
Proof.
  intros V [Hr [H0 H1] Hio] Hq Hid. assert (forall j, j <> qid * 2 -> quiet d j -> quiet (host_submits qid q e cs d) j) as Hk.
  { intros j Hj Hqt. apply ring_quiet; [lia|exact Hqt]. }
  pose proof (zget_range _ _ _ Hq) as Hrange. split.
  - destruct Hr as (a & s & c & k & [S1 S2]). by exists a, s, c, k.
  - split; apply Hk; lia || done.
  - intros j Hj Hne. destruct (view_sq d kk j V Hio Hj) as [Hn|(qj & Hqj & Hqq)].
    + left. cbn. by rewrite zget_zset_ne by done.
    + right. exists qj. split; [cbn; by rewrite zget_zset_ne by done|]. apply Hk; [lia|done].
  - intros j Hj. destruct (view_cq d kk j V Hio Hj) as [Hn|(qj & Hqj & Hqq)]; [by left|]. right. exists qj. split; [done|]. apply Hk; [lia|done].
  - done.
Qed.

(** The queues of the abstract controller are there. *)
Lemma view_queues d kk qid size cqid csize v : ctl_view d kk -> ct_sqs kk !! qid = Some (size, cqid) -> ct_cqs kk !! cqid = Some (csize, v) ->
  1 <= qid <= fst (ct_counts kk) -> 1 <= cqid <= snd (ct_counts kk) -> exists q c0, zget (sqes (vd_io d)) qid = Some (Some q) /\ sq_queue_size q = size /\ sq_cqid q = cqid /\
    zget (cqes (vd_io d)) cqid = Some (Some c0) /\ cq_queue_size c0 = csize /\ (if irq_enabled c0 then Some (irq_vector c0) else None) = v /\
    1 <= qid <= vd_nr_sq d /\ 1 <= cqid <= vd_nr_cq d /\ vd_nr_cq d <= NR_MAX_IO_QUEUE.
Proof.
  intros [V1 V2 V3 V4 V5 Vg _] Hs Hc Hi Hj. rewrite <- V5 in Hi, Hj. cbn [fst snd] in Hi, Hj. unfold counts_ok in Vg.
  destruct (zget_Some (sqes (vd_io d)) qid) as (o & Ho); [lia|]. destruct (zget_Some (cqes (vd_io d)) cqid) as (o' & Ho'); [lia|].
  pose proof (V3 _ _ Ho) as Es. pose proof (V4 _ _ Ho') as Ec. rewrite Hs in Es. rewrite Hc in Ec. destruct o as [q|]; [|done]. destruct o' as [c0|]; [|done].
  injection Es as E1 E2. injection Ec as E3 E4. exists q, c0. split_and!; done || lia.
Qed.

(** What a host may put in queue [qid], new and linked to completion queue [cqid]: commands
    for namespace [i], which takes them all without asking for more than a worker can queue. *)
Record io_starts (kk : controller) (nss : list N) (qid size cqid csize : Z) (v : option Z) (i : Z) (n : N) (ios : list (nvme_command C)) : Prop := {
  io_sq : ct_sqs kk !! qid = Some (size, cqid);
  io_cq : ct_cqs kk !! cqid = Some (csize, v);
  io_qid : 1 <= qid <= fst (ct_counts kk);
  io_cqid : 1 <= cqid <= snd (ct_counts kk);
  io_length : ios <> [] /\ zlen ios < size /\ zlen ios <= csize;
  io_namespace : Forall (fun c => u32 (c_nsid c - 1) = i) ios /\ zget nss i = Some n /\ can_serve n (c_body <$> ios);
  io_taken k n' l : ns_run qid cqid n (zip (zseq (zlen ios)) ios) k n' l -> k = zlen ios /\ zlen l < NR_MAX_PARALLEL_IO;
}.

(** Commands a host puts in a new queue of a device at rest come back to it. *)
Lemma new_queue_answers d kk qid size cqid csize v i n ios fuel clk t :
  let w := worker_of (vd_io d) qid in let slots := zip (zseq (zlen ios)) ios in
  ctl_view d kk -> rested d -> queues_new d -> workers_new d -> msix_enabled (vd_pci d) = Some true ->
  io_starts kk (vns (vd_io d)) qid size cqid csize v i n ios -> zlen ios <= Z.of_nat fuel ->
  exists q t1 d1, zget (sqes (vd_io d)) qid = Some (Some q) /\ dispatcher_turn types clk t (host_submits qid q 0 ios d) = Ok (true, t1, d1) /\
    forall k1 clk' t0, zget (io_workers (vd_io d1)) w = Some k1 -> all_due clk' t0 k1 ->
      exists es t2 d2 c2 js, nvmev_io_worker_turn w clk' t0 d1 = Ok (es, t2, d2) /\ zget (cqes (vd_io d2)) cqid = Some (Some c2) /\
        reap fuel csize (cq_entries c2) 0 1 = expected csize 0 js /\ tickets js ≡ₚ asked qid slots /\
        (forall x, v = Some x -> worker_of (vd_io d) cqid = w -> exists vs, vd_signals d2 = vd_signals d ++ vs /\ Msi x ∈ vs).
Proof.
  intros w slots V R Qn W Hm [Hs Hc Hi Hj (Hne & Hlt & Hcs) (Hid & Hn & Hsv) Hrun] Hf.
  destruct (view_queues d kk qid size cqid csize v V Hs Hc Hi Hj) as (q & c0 & Hq & <- & <- & Hc0 & <- & Hv & Hqr & Hcr & Hnr).
  pose proof (qn_sqs _ Qn qid q Hq) as [[Hp Hl] Hsz]. pose proof (zget_range _ _ _ Hq) as Hqi. set (d0 := host_submits qid q 0 ios d).
  set (q0 := mk_sq (sq_cqid q) (sq_queue_size q) (stat q) (fill_slots (sq_queue_size q) 0 ios (sq_entries q))).
  assert (0 < zlen ios) as Hpos by (destruct ios; [done|cbn; lia]). assert (Z.of_nat (length ios) = zlen ios) as Hz by done.
  pose proof (ring_from_seqZ (sq_queue_size q) (length ios) 0 ltac:(lia) ltac:(lia)) as Hring.
  assert (0 <= w < nr_io_workers (vd_io d)) as Hw by (apply worker_range, W). destruct (new_worker_idle w) as [Hidle Hroom].
  assert (dev_ok (vd_io d0) (fun _ => []) (fun _ => []) (fun _ => NIL)) as D by (by apply (new_workers_ok d)).
  destruct (ring_to_reap types (fun _ => []) (fun _ => NIL) d0 (fun _ => []) (fun _ => []) qid q0 i n ios (zlen ios) 0 c0 (worker_init w) fuel clk t)
    as (t1 & d1 & n' & l & Er & _ & Hrest).
  - by apply (submits_quiet d kk).
  - assert (zget (vd_old_dbs d) (qid * 2) = Some 0) as Hold by (apply (qn_dbs _ Qn); unfold NR_MAX_IO_QUEUE in *; rewrite (cv_sqlen _ _ V) in Hqi; unfold NR_MAX_IO_QUEUE in Hqi; lia).
    destruct (cv_dbs _ _ V) as [Ld1 Ld2]. pose proof (zget_range _ _ _ Hold) as Hor. split; try done.
    + cbn. by apply zget_zset_eq.
    + cbn [d0 host_submits ring_doorbell set_dbs vd_dbs set_io]. rewrite zget_zset_eq by lia. by rewrite Z.add_0_l, Z.mod_small by lia.
    + lia.
    + split; cbn [q0 sq_queue_size]; lia.
    + cbn [q0 sq_queue_size sq_entries]. apply fill_slots_holds; lia.
    + cbn [q0 sq_queue_size]. unfold num_proc. destruct (Z.ltb_spec (zlen ios - 0) 0); lia.
  - split; [exact D|exact (new_posted d Qn)|exact (new_worker d w W Hw)|done|by rewrite Hidle; apply Forall_nil|exact Hm|].
    cbn. rewrite (cv_cqlen _ _ V). lia.
  - exact Hidle.
  - exact Hc0.
  - exact Hcs.
  - exact Hf.
  - intros k n' l Hr. cbn [q0 sq_queue_size sq_cqid] in Hr. rewrite Hring in Hr. destruct (Hrun _ _ _ Hr) as [-> Hll]. split; [done|]. rewrite Hroom.
    pose proof (offered_length (vd_io d0) l (worker_of (vd_io d0) qid)). lia.
  - exists q, t1, d1. split; [exact Hq|]. split; [exact Er|]. intros k1 clk' t0 Hk1 Hdue.
    destruct (Hrest k1 clk' t0 Hk1 Hdue) as (es & t2 & d2 & c2 & js & G1 & G2 & G3 & _ & G5 & G6). exists es, t2, d2, c2, js.
    split; [exact G1|]. split; [exact G2|]. split; [exact G3|]. cbn [q0 sq_queue_size] in G5. rewrite Hring in G5. split; [exact G5|].
    intros x Hx Hcw. destruct (irq_enabled c0) eqn:Hirq; [|congruence]. assert (irq_vector c0 = x) as <- by congruence. by apply G6.
Qed.
End FirstIo.

(** C26: from power-on to the first answers.  A driver writes the queue sizes, the queue addresses and the
    enable bit, none of these values 0 and no shutdown asked for, to a controller nobody used, with MSI-X
    enabled, however the polls of the dispatcher fall between and at least four of them after; once the controller says it is ready, the driver rings the admin doorbell for the
    commands in the first slots of the queue it gave: fewer than the queue has entries, with no more answers than the
    completion queue has, and each one the code can take ([admin_ok]: queue identifiers of 1
    to 72, log pages no longer than their structures, namespaces that exist).  The turn of the
    dispatcher that sees the doorbell answers
    them: reaping the completion queue it gave, cleared before, from its first slot with phase one, the driver
    finds the answers of the abstract controller to exactly these commands, in order, and MSI-X
    vector 0 was raised once.  The queues then are those of the abstract controller, and they
    work, with new workers and all host memory cleared ([memory_clear]): the driver puts commands in a
    submission queue it created, linked to a completion queue it created, both with granted
    identifiers ([io_starts]), at least one, fewer than the submission queue and no more than
    the completion queue has entries, all for one namespace that exists, can serve them and takes them
    all, together with what it schedules less than a worker's ring.  When the driver
    rings the doorbell, the next turn of the dispatcher hands them to the namespace and to a
    worker; at the worker's next turn at a time past their targets the driver reaps one completion
    per command from the completion queue.  If the interrupts of that queue are enabled and the queue
    belongs to the same worker, its vector is raised. *)
Theorem first_commands_answered {N C} `{NS : Namespace N C} `{SN : !ServableNamespace N C} `{HM : HostMemory C} `{NI : NamespaceInfo N}
    (types : list Z) (zns : bool) (d : vdev N C) a s c k l n cs fuel clk t :
  driver_starts types zns d a s c k l n cs -> workers_new d -> memory_clear ->
  let run := adm_run (zip (zseq (zlen cs)) cs) (mk_ctl ∅ ∅ (0, 0)) in
  zlen (snd run) <= aqa_acqs a + 1 -> zlen (snd run) <= Z.of_nat fuel ->
  exists d1 d2 q es, play (l ++ replicate n None) d = Ok d1 /\ csts_rdy (u_csts (vd_bar d1)) = 1 /\
    dispatcher_turn types clk t (ring_doorbell 0 (zlen cs) d1) = Ok (true, t, d2) /\ dispatcher_turn types clk t d2 = Ok (false, t, d2) /\
    vd_admin d2 = Some q /\ nvme_cq q = Some es /\ reap fuel (aqa_acqs a + 1) es 0 1 = expected (aqa_acqs a + 1) 0 (snd run) /\
    vd_signals d2 = vd_signals d ++ [Msi 0] /\ ctl_view d2 (fst run) /\
    forall qid size cqid csize v i ns ios fuel2 clk2 t2, io_starts (fst run) (vns (vd_io d)) qid size cqid csize v i ns ios -> zlen ios <= Z.of_nat fuel2 ->
      let w := worker_of (vd_io d) qid in
      exists sq t3 d3, zget (sqes (vd_io d2)) qid = Some (Some sq) /\ dispatcher_turn types clk2 t2 (host_submits qid sq 0 ios d2) = Ok (true, t3, d3) /\
        forall k1 clk3 t4, zget (io_workers (vd_io d3)) w = Some k1 -> all_due clk3 t4 k1 ->
          exists effs t5 d4 cq js, nvmev_io_worker_turn w clk3 t4 d3 = Ok (effs, t5, d4) /\ zget (cqes (vd_io d4)) cqid = Some (Some cq) /\
            reap fuel2 csize (cq_entries cq) 0 1 = expected csize 0 js /\ tickets js ≡ₚ asked qid (zip (zseq (zlen ios)) ios) /\
            (forall x, v = Some x -> worker_of (vd_io d) cqid = w -> exists vs, vd_signals d4 = vd_signals d2 ++ vs /\ Msi x ∈ vs).
Proof.
  intros DS W Hm. cbv zeta. intros Hr Hf.
  destruct (first_commands types zns d a s c k l n cs fuel clk t DS Hr Hf)
    as (d1 & d2 & q & es & G1 & G2 & G3 & G4 & G5 & G6 & G7 & G8 & G9 & Rs & Hns & Hw & Hnw & Hpci & Hnew).
  exists d1, d2, q, es. do 9 (split; [done|]). intros qid size cqid csize v i ns ios fuel2 clk2 t2 Hio Hf2.
  assert (forall x, worker_of (vd_io d2) x = worker_of (vd_io d) x) as Hwo by (intros x; unfold worker_of; by rewrite Hnw).
  pose proof (new_queue_answers types d2 _ qid size cqid csize v i ns ios fuel2 clk2 t2 G9 Rs (Hnew Hm)) as H. rewrite !Hwo in H. apply H.
  - unfold workers_new. rewrite Hw, Hnw. exact W.
  - rewrite Hpci. apply (un_msix _ _ (ds_device _ _ _ _ _ _ _ _ _ _ DS)).
  - by rewrite Hns.
  - exact Hf2.
Qed.

Lemma demo_untouched : untouched false demo_vdev.
Proof. split; try reflexivity; [exact demo_fresh|by split..]. Qed.

Lemma demo_starts : driver_starts [0; 0] false demo_vdev 0x000f000f 0x1000 0x2000 0x460001 demo_history 4 demo_admin.
Proof.
  split; [exact demo_untouched|by split_and!|by split|reflexivity|lia| | |exact demo_admin_ok].
  - split; [discriminate|]. split; [vm_compute; discriminate|vm_compute; reflexivity].
  - change (completions_at 0x2000 _) with (replicate 256 (mk_cqe 0 0 0 0 0 0)). by apply Forall_replicate.
Qed.

Lemma demo_clear : @memory_clear Nvme.nvme_rw_command demo_memory.
Proof. intros a n. by apply Forall_replicate. Qed.

Definition demo_run : controller * list io_job := adm_run (zip (zseq (zlen demo_admin)) demo_admin) (mk_ctl ∅ ∅ (0, 0)).

Lemma demo_io_starts : io_starts (fst demo_run) (vns demo_io) 1 4 1 4 (Some 1) 0 (simple_init_namespace demo_units true 0 (2 ^ 30)) [demo_cmd; demo_cmd].
Proof.
  split; [vm_compute; reflexivity|vm_compute; reflexivity|vm_compute; split; discriminate|vm_compute; split; discriminate| | |].
  - split; [discriminate|]. cbn. lia.
  - split; [by repeat constructor|]. split; [reflexivity|]. apply simple_init_ok. split; [cbn; lia|unfold LBA_BITS; cbn; lia|].
    intros o. unfold op_times. repeat case_match; cbn in *; simplify_eq; lia.
  - intros k n' l R. destruct (plain_run _ _ _ _ _ _ _ simple_plain R) as [-> Hl]. split; [done|].
    change (zlen (zip (zseq (zlen [demo_cmd; demo_cmd])) [demo_cmd; demo_cmd])) with 2 in Hl. unfold NR_MAX_PARALLEL_IO. lia.
Qed.

(** Five commands, the abort among them; then two writes in the queue they made. *)
Lemma first_commands_answered_witness : exists d1 d2 q es sq t3 d3, play (demo_history ++ replicate 4 None) demo_vdev = Ok d1 /\
  dispatcher_turn [0; 0] (fun _ t => Z.of_nat t) 0%nat (ring_doorbell 0 5 d1) = Ok (true, 0%nat, d2) /\ vd_admin d2 = Some q /\ nvme_cq q = Some es /\
  (fun c => (cqe_command_id c, cqe_sq_head c, cqe_result0 c)) <$> reap 9 16 es 0 1 = [(1, 0, 0x30003); (2, 1, 0); (3, 2, 0); (5, 4, 0)] /\
  dispatcher_turn [0; 0] (fun _ t => Z.of_nat t) 0%nat (host_submits 1 sq 0 [demo_cmd; demo_cmd] d2) = Ok (true, t3, d3).
Proof.
  destruct (first_commands_answered [0; 0] false demo_vdev 0x000f000f 0x1000 0x2000 0x460001 demo_history 4 demo_admin 9 (fun _ t => Z.of_nat t) 0%nat)
    as (d1 & d2 & q & es & E & _ & T & _ & Hq & Hes & Hr & _ & _ & Hio).
  - exact demo_starts.
  - split; reflexivity.
  - exact demo_clear.
  - vm_compute. discriminate.
  - vm_compute. discriminate.
  - destruct (Hio 1 4 1 4 (Some 1) 0 _ [demo_cmd; demo_cmd] 9%nat (fun _ t => Z.of_nat t) 0%nat demo_io_starts) as (sq & t3 & d3 & _ & T3 & _); [vm_compute; discriminate|].
    exists d1, d2, q, es, sq, t3, d3. split; [exact E|]. split; [exact T|]. split; [exact Hq|]. split; [exact Hes|]. split; [|exact T3].
    change (aqa_acqs 0x000f000f + 1) with 16 in Hr. rewrite Hr. vm_compute. reflexivity.
Defined.
