(* ===== verification/Proc.v ===== *)
(** * main.c: the files under /proc/nvmev

    Reading and writing "read_times", "write_times", "io_units" and "stat"; "debug" does
    nothing.  What [sscanf] makes of a buffer is an argument. *)

From Stdlib Require Import ZArith Lia String.
From stdpp Require Import base list numbers strings.
From S2P Require Import Prelude Config CLayout PciConfig WorkQueue IoWorker IoQueue Dispatch Device Bar Admin Main SimpleFtl.
From S2P Require Nvme.

(** The device's part of it: the times, the units, and when each unit falls idle. *)
Record proc_state : Type := mk_proc { p_config : simple_config; p_unit_stat : list Z }.

Definition set_read (c : simple_config) (t : Z * Z * Z) : simple_config :=
  mk_simple_config (nr_io_units c) (io_unit_shift c) t.1.1 t.1.2 t.2 (write_delay c) (write_time c) (write_trailing c).
Definition set_write (c : simple_config) (t : Z * Z * Z) : simple_config :=
  mk_simple_config (nr_io_units c) (io_unit_shift c) (read_delay c) (read_time c) (read_trailing c) t.1.1 t.1.2 t.2.
Definition set_units (c : simple_config) (n s : Z) : simple_config :=
  mk_simple_config n s (read_delay c) (read_time c) (read_trailing c) (write_delay c) (write_time c) (write_trailing c).

Section Proc.
(** The [unsigned int]s [sscanf] stores for a buffer and a format of that many numbers. *)
Context (sscanf : nat -> list Z -> list Z).

(** [char input[128]]: what was on the stack, under what is copied. *)
Definition INPUT_SIZE : nat := 128.
Definition proc_input (data stack : list Z) : list Z := take INPUT_SIZE data ++ drop (length data) stack.

(** Delay, time and trailing time are stored in this order, as many as there are. *)
Definition scan_times (input : list Z) (old : Z * Z * Z) : Z * Z * Z :=
  match sscanf 3 input with
  | [] => old
  | [a] => (u32 a, old.1.2, old.2)
  | [a; b] => (u32 a, u32 b, old.2)
  | a :: b :: c :: _ => (u32 a, u32 b, u32 c)
  end.

(** A new array of times replaces the old one; the numbers are not checked. *)
Definition write_io_units (input : list Z) (p : proc_state) : proc_state :=
  let c := p_config p in
  match sscanf 2 input with
  | [] => p
  | a :: r =>
      let n := u32 a in
      let s := match r with [] => io_unit_shift c | b :: _ => u32 b end in
      mk_proc (set_units c n s) (replicate (Z.to_nat n) 0)
  end.

Context {N C : Type}.
Local Notation vdev := (vdev N C).

(** The answer: all of it was taken. *)
Definition __proc_file_write (name : string) (data stack : list Z) (p : proc_state) (d : vdev) : res (Z * proc_state * vdev) :=
  let input := proc_input data stack in
  let c := p_config p in
  let! r :=
    if String.eqb name "read_times" then Ok (mk_proc (set_read c (scan_times input (read_delay c, read_time c, read_trailing c))) (p_unit_stat p), d)
    else if String.eqb name "write_times" then Ok (mk_proc (set_write c (scan_times input (write_delay c, write_time c, write_trailing c))) (p_unit_stat p), d)
    else if String.eqb name "io_units" then Ok (write_io_units input p, d)
    else if String.eqb name "stat" then let! d := proc_write_stat d in Ok (p, d)
    else Ok (p, d) in
  Ok (zlen data, fst r, snd r).

(** What a read prints. *)
Inductive proc_text : Type :=
| Times (delay time trailing : Z)
| Units (n shift : Z)
| Stats (lines : list (Z * Z * nvmev_sq_stat)) (total : Z * Z * Z * Z)
| Nothing.

Definition __proc_file_read (name : string) (p : proc_state) (d : vdev) : res (proc_text * vdev) :=
  let c := p_config p in
  if String.eqb name "read_times" then Ok (Times (read_delay c) (read_time c) (read_trailing c), d)
  else if String.eqb name "write_times" then Ok (Times (write_delay c) (write_time c) (write_trailing c), d)
  else if String.eqb name "io_units" then Ok (Units (nr_io_units c) (io_unit_shift c), d)
  else if String.eqb name "stat" then let! r := proc_read_stat d in Ok (Stats r.1.1 r.1.2, r.2)
  else Ok (Nothing, d).
End Proc.
