(* ===== verification/ProcTheorems.v ===== *)
(** * What writing to /proc does to the device

    The times take effect; the number of units is not checked. *)

From Stdlib Require Import ZArith Lia String.
From stdpp Require Import base list numbers strings.
From S2P Require Import Prelude Config CLayout PciConfig WorkQueue IoWorker IoQueue Dispatch Device Bar Admin Main SimpleFtl Proc HostTheorems.
From S2P Require Nvme.

(** The namespace over the device's settings. *)
Definition with_proc (n : simple_ns) (p : proc_state) : simple_ns :=
  mk_simple_ns (simple_id n) (simple_csi n) (simple_size n) (p_config p) (base_ssd_optane n) (p_unit_stat p).
Definition proc_of (n : simple_ns) : proc_state := mk_proc (config n) (io_unit_stat n).

Lemma with_proc_of n : with_proc n (proc_of n) = n.
Proof. by destruct n. Qed.

Definition triple_u32 (t : Z * Z * Z) : Prop := 0 <= t.1.1 < 2 ^ 32 /\ 0 <= t.1.2 < 2 ^ 32 /\ 0 <= t.2 < 2 ^ 32.

Lemma scan_u32 sscanf input old : triple_u32 old -> triple_u32 (scan_times sscanf input old).
Proof.
  intros (H1 & H2 & H3). unfold scan_times. pose proof u32_range as R.
  destruct (sscanf 3%nat input) as [|a [|b [|c l]]]; (split; [|split]); cbn [fst snd]; try done; apply R.
Qed.

Lemma ok_times c o : config_ok c -> triple_u32 (op_times c o).
Proof. intros H. pose proof (sc_times c H o) as T. by destruct (op_times c o) as [[? ?] ?]. Qed.

(** Times do not decide whether a configuration works. *)
Lemma config_ok_times c c' : config_ok c -> nr_io_units c' = nr_io_units c -> io_unit_shift c' = io_unit_shift c ->
  (forall o, triple_u32 (op_times c' o)) -> config_ok c'.
Proof.
  intros [H1 H2 _] En Es HT. split; [by rewrite En|by rewrite Es|]. intros o. specialize (HT o). by destruct (op_times c' o) as [[? ?] ?].
Qed.

Lemma read_ok c t : config_ok c -> triple_u32 t -> config_ok (set_read c t).
Proof.
  intros Hc Ht. apply (config_ok_times c); [done..|]. intros o. pose proof (ok_times c o Hc) as Ho. unfold op_times in *. cbn [set_read write_delay write_time write_trailing read_delay read_time read_trailing].
  by repeat case_match.
Qed.

Lemma write_ok c t : config_ok c -> triple_u32 t -> config_ok (set_write c t).
Proof.
  intros Hc Ht. apply (config_ok_times c); [done..|]. intros o. pose proof (ok_times c o Hc) as Ho. unfold op_times in *. cbn [set_write write_delay write_time write_trailing read_delay read_time read_trailing].
  by repeat case_match.
Qed.

(** A command that moves data. *)
Definition moves_data (c : Nvme.nvme_rw_command) : Prop := Nvme.opcode c = Nvme.nvme_cmd_read \/ Nvme.opcode c = Nvme.nvme_cmd_write.

Lemma no_units_faults n c rt clk t : simple_csi n = 0 -> base_ssd_optane n = true -> nr_io_units (config n) = 0 -> moves_data c ->
  simple_proc_nvme_io_cmd c rt clk t n = Err DivByZero.
Proof.
  intros H1 H2 H3 Hm. unfold simple_proc_nvme_io_cmd. rewrite run_get, H1, H2, !run_assert by done.
  replace ((Nvme.opcode c =? Nvme.nvme_cmd_write) || (Nvme.opcode c =? Nvme.nvme_cmd_read)) with true by (by destruct Hm as [-> | ->]).
  rewrite run_clock. unfold bind, update_get, __schedule_io_units, schedule_units. by rewrite H3.
Qed.

(** C29: the files under /proc, on a device that serves requests.  Writing read_times or write_times
    takes all the data, leaves a device that serves requests, and the numbers found are the times
    of the reads or writes that follow and what the file shows.  Writing io_units likewise when the
    numbers suit, all units idle; but they are not checked, and after a zero the next read or write
    command divides by zero (a module with no units is refused at load: [load_configs_correct]). *)
Theorem proc_writes_correct {N C} (sscanf : nat -> list Z -> list Z) n data stack (d : vdev N C) :
  simple_ok n ->
  let p := proc_of n in
  let input := proc_input data stack in
  let rd := scan_times sscanf input (op_times (config n) Nvme.nvme_cmd_read) in
  let wr := scan_times sscanf input (op_times (config n) Nvme.nvme_cmd_write) in
  (exists p', __proc_file_write sscanf "read_times" data stack p d = Ok (zlen data, p', d) /\ simple_ok (with_proc n p') /\
     op_times (p_config p') Nvme.nvme_cmd_read = rd /\ op_times (p_config p') Nvme.nvme_cmd_write = op_times (config n) Nvme.nvme_cmd_write /\
     __proc_file_read "read_times" p' d = Ok (Times rd.1.1 rd.1.2 rd.2, d)) /\
  (exists p', __proc_file_write sscanf "write_times" data stack p d = Ok (zlen data, p', d) /\ simple_ok (with_proc n p') /\
     op_times (p_config p') Nvme.nvme_cmd_write = wr /\ op_times (p_config p') Nvme.nvme_cmd_read = op_times (config n) Nvme.nvme_cmd_read /\
     __proc_file_read "write_times" p' d = Ok (Times wr.1.1 wr.1.2 wr.2, d)) /\
  (exists p', __proc_file_write sscanf "io_units" data stack p d = Ok (zlen data, p', d) /\
     match sscanf 2%nat input with
     | [] => p' = p
     | a :: r => let s := from_option u32 (io_unit_shift (config n)) (head r) in
         __proc_file_read "io_units" p' d = Ok (Units (u32 a) s, d) /\
         (0 < u32 a < 2 ^ 31 -> LBA_BITS <= s <= 30 -> simple_ok (with_proc n p') /\ __schedule_flush (with_proc n p') = Ok 0) /\
         (u32 a = 0 -> forall c rt clk t, moves_data c -> simple_proc_nvme_io_cmd c rt clk t (with_proc n p') = Err DivByZero)
     end).
Proof.
  intros [H1 H2 H3 H4]. cbv zeta. pose proof (ok_times (config n)) as HT. split; [|split].
  - eexists. split; [reflexivity|]. split; [|by destruct (scan_times _ _ _) as [[? ?] ?]].
    split; [done|done| |exact H4]. apply read_ok; [done|]. by apply scan_u32, (HT Nvme.nvme_cmd_read).
  - eexists. split; [reflexivity|]. split; [|by destruct (scan_times _ _ _) as [[? ?] ?]].
    split; [done|done| |exact H4]. apply write_ok; [done|]. by apply scan_u32, (HT Nvme.nvme_cmd_write).
  - eexists. split; [reflexivity|]. cbn [fst snd]. unfold write_io_units. destruct (sscanf 2%nat (proc_input data stack)) as [|a r]; [done|].
    assert ((match r with [] => io_unit_shift (config n) | b :: _ => u32 b end) = from_option u32 (io_unit_shift (config n)) (head r)) as Es by (by destruct r).
    cbn [proc_of p_config]. rewrite Es. split; [done|]. split.
    + intros Ha Hs. split.
      * split; [done|done|split; [done|done|exact (sc_times _ H3)]|]. cbn [with_proc io_unit_stat config p_config p_unit_stat set_units nr_io_units]. rewrite length_replicate. lia.
      * unfold __schedule_flush. cbn [with_proc io_unit_stat config p_config p_unit_stat set_units nr_io_units].
        assert (forall l, (forall i, i ∈ l -> 0 <= i < u32 a) -> max_stat l (replicate (Z.to_nat (u32 a)) 0) 0 = Ok 0) as Hmax.
        { induction l as [|i l IH]; intros Hl; [done|]. cbn [max_stat]. unfold aget, zget. pose proof (Hl i ltac:(left)) as Hi.
          destruct (Z.ltb_spec i 0); [lia|]. rewrite lookup_replicate_2 by lia. cbn [of_opt rbind]. apply IH. intros j Hj. apply Hl. by right. }
        apply Hmax. intros i Hi%elem_of_seqZ. lia.
    + intros Ha c rt clk t Hm. by apply no_units_faults.
Qed.

(** A scanner of decimal numbers between other bytes. *)
Fixpoint decimals (l : list Z) (cur : option Z) : list Z :=
  match l with
  | [] => option_list cur
  | b :: l => if (48 <=? b) && (b <=? 57) then decimals l (Some (10 * default 0 cur + (b - 48))) else option_list cur ++ decimals l None
  end.
Definition demo_scan (k : nat) (l : list Z) : list Z := take k (decimals l None).
Definition demo_stack : list Z := replicate 128 0.

Lemma demo_units_ok : simple_ok (simple_init_namespace demo_units true 0 (2 ^ 30)).
Proof. apply simple_init_ok. split; [cbn; lia|unfold LBA_BITS; cbn; lia|]. intros o. unfold op_times. repeat case_match; cbn in *; simplify_eq; lia. Qed.

(** "0 12" to io_units; "7 8" to read_times keeps the trailing time. *)
Lemma proc_writes_correct_witness :
  (exists p', __proc_file_write demo_scan "io_units" [48; 32; 49; 50] demo_stack (proc_of (simple_init_namespace demo_units true 0 (2 ^ 30))) demo_vdev = Ok (4, p', demo_vdev) /\
     simple_proc_nvme_io_cmd (Nvme.mk_rw Nvme.nvme_cmd_read 0 7 0) (Nvme.mk_result 0 0) (fun _ t => Z.of_nat t) 0%nat
       (with_proc (simple_init_namespace demo_units true 0 (2 ^ 30)) p') = Err DivByZero) /\
  scan_times demo_scan (proc_input [55; 32; 56] demo_stack) (1, 2, 3) = (7, 8, 3).
Proof.
  split; [|vm_compute; reflexivity].
  destruct (proc_writes_correct demo_scan (simple_init_namespace demo_units true 0 (2 ^ 30)) [48; 32; 49; 50] demo_stack demo_vdev demo_units_ok) as (_ & _ & p' & E & H).
  exists p'. split; [exact E|]. change (demo_scan 2 (proc_input [48; 32; 49; 50] demo_stack)) with [0; 12] in H. destruct H as (_ & _ & H).
  apply H; [reflexivity|left; reflexivity].
Defined.
