(* ===== verification/Dma.v ===== *)
(** * dma.c: the client of the DMA engine

    The channels the module holds, how a channel is acquired by name, and the submission
    of one transfer.  The engine is the kernel's: [DmaEngine] says what the module asks of
    a channel, how channels are handed out, and what comes of a transfer. *)

From Stdlib Require Import ZArith Lia String.
From stdpp Require Import base list numbers strings.
From S2P Require Import Prelude.

(** ** The engine *)
Inductive dma_status : Type := DMA_COMPLETE | DMA_IN_PROGRESS | DMA_PAUSED | DMA_ERROR | DMA_OUT_OF_ORDER.
#[export] Instance dma_status_eq_dec : EqDecision dma_status.
Proof. solve_decision. Defined.

(** What a submission comes to: a descriptor, a cookie, the status of [dma_sync_wait] or
    [dma_async_is_tx_complete], and whether the callback ran before the timeout. *)
Record transfer_report : Type := mk_report { prepared : bool; has_cookie : bool; waited : dma_status; called_back : bool }.

(** [dma_request_channel] takes a free channel that has the capabilities of the mask and
    that the filter accepts, when there is one. *)
Class DmaEngine (Ch : Type) : Type := {
  dma_chan_name : Ch -> string;
  dev_name : Ch -> string;
  has_memcpy : Ch -> bool;            (* dma_has_cap(DMA_MEMCPY, ...) *)
  has_no_order : Ch -> bool;          (* dma_has_cap(DMA_COMPLETION_NO_ORDER, ...) *)
  dma_request_channel : list Ch -> (Ch -> bool) -> (Ch -> bool) -> option (Ch * list Ch);
  dma_transfer : Ch -> Z -> Z -> Z -> bool -> transfer_report;
  request_some l mask f c l' : dma_request_channel l mask f = Some (c, l') -> mask c = true /\ f c = true /\ l ≡ₚ c :: l';
  request_none l mask f c : dma_request_channel l mask f = None -> c ∈ l -> mask c = true -> f c = false;
}.

(** ** State *)
Record ioat_dma_params : Type := mk_dma_params {
  buf_size : Z; channel : string; device : string; max_channels : Z; timeout : Z; transfer_size : Z; polled : bool;
}.

Definition CHANNEL_NAME_LEN : nat := 20.
Definition EBUSY : Z := 16.
Definition EINVAL : Z := 22.
Definition ENOMEM : Z := 12.

Section Dma.
Context {Ch : Type} `{DmaEngine Ch}.
(** [strim] of the kernel's string library. *)
Context (strim : string -> string).

(** [test_info], [dma_thread], the module's variables, and the engine's free channels. *)
Record dma_state : Type := mk_dma_state {
  params : ioat_dma_params;
  channels : list Ch;
  nr_channels : Z;
  last_error : Z;
  thread_chan : option Ch;
  test_channel : string;
  test_device : string;
  engine_free : list Ch;
}.

Definition set_params s p := mk_dma_state p (channels s) (nr_channels s) (last_error s) (thread_chan s) (test_channel s) (test_device s) (engine_free s).
Definition set_error s e := mk_dma_state (params s) (channels s) (nr_channels s) e (thread_chan s) (test_channel s) (test_device s) (engine_free s).
Definition set_test_channel s v := mk_dma_state (params s) (channels s) (nr_channels s) (last_error s) (thread_chan s) v (test_device s) (engine_free s).
Definition set_free s l := mk_dma_state (params s) (channels s) (nr_channels s) (last_error s) (thread_chan s) (test_channel s) (test_device s) l.

(** ** Acquiring channels *)
Definition ioat_dma_match_channel (p : ioat_dma_params) (c : Ch) : bool :=
  if String.eqb (channel p) EmptyString then true else String.eqb (dma_chan_name c) (channel p).
Definition ioat_dma_match_device (p : ioat_dma_params) (c : Ch) : bool :=
  if String.eqb (device p) EmptyString then true else String.eqb (dev_name c) (device p).
Definition dma_filter (p : ioat_dma_params) (c : Ch) : bool := ioat_dma_match_channel p c && ioat_dma_match_device p c.

Definition unpolled (p : ioat_dma_params) : ioat_dma_params :=
  mk_dma_params (buf_size p) (channel p) (device p) (max_channels p) (timeout p) (transfer_size p) false.

Definition ioat_dma_add_channel (s : dma_state) (c : Ch) : dma_state :=
  let p := if has_no_order c && polled (params s) then unpolled (params s) else params s in
  let t := if has_memcpy c then Some c else thread_chan s in
  mk_dma_state p (channels s ++ [c]) (u32 (nr_channels s + 1)) (last_error s) t (test_channel s) (test_device s) (engine_free s).

Fixpoint request_channels (fuel : nat) (s : dma_state) : res dma_state :=
  match fuel with
  | O => Err OutOfFuel
  | S fuel =>
      match dma_request_channel (engine_free s) has_memcpy (dma_filter (params s)) with
      | Some (c, l) =>
          let s := ioat_dma_add_channel (set_free s l) c in
          if negb (max_channels (params s) =? 0) && (max_channels (params s) <=? nr_channels s) then Ok s else request_channels fuel s
      | None => Ok s
      end
  end.

(** [strscpy] into [n] bytes. *)
Definition strscpy (n : nat) (s : string) : string := String.substring 0 (n - 1) s.

(** The module's variables, as they are declared. *)
Definition add_threaded_dma (s : dma_state) : res dma_state :=
  let p := mk_dma_params 4096 (strscpy CHANNEL_NAME_LEN (strim (test_channel s))) (strscpy 32 (strim (test_device s))) 0 3000 1024 true in
  request_channels (S (length (engine_free s))) (set_params s p).

Definition ioat_dma_chan_set (val : string) (s : dma_state) : res (Z * dma_state) :=
  rassert (Nat.ltb (String.length val) CHANNEL_NAME_LEN) ;;;
  let s := set_test_channel s val in
  if existsb (fun c => String.eqb (dma_chan_name c) (strim val)) (channels s) then Ok (- EBUSY, set_error s (- EBUSY))
  else
    let! s := add_threaded_dma s in
    match last (channels s) with
    | Some c =>
        if negb (String.eqb (dma_chan_name c) (strim val)) && negb (String.eqb EmptyString (strim val))
        then Ok (- EINVAL, set_error s (- EINVAL)) else Ok (0, set_error s 0)
    | None => Ok (- EBUSY, set_error s (- EBUSY))
    end.

Definition ioat_dma_cleanup (s : dma_state) : dma_state :=
  mk_dma_state (params s) [] 0 (last_error s) (thread_chan s) (test_channel s) (test_device s) (channels s ++ engine_free s).

(** ** One transfer *)

(** The result, and how often the channel was terminated. *)
Definition ioat_dma_submit (s : dma_state) (src dst size : Z) : res (Z * Z) :=
  let! c := of_opt NullDeref (thread_chan s) in
  let p := polled (params s) in
  let r := dma_transfer c src dst size p in
  if negb (prepared r) || negb (has_cookie r) then Ok (- ENOMEM, 1)
  else
    let done := if p then bool_decide (waited r = DMA_COMPLETE) else called_back r in
    let terms := if p then 1 else 0 in
    if negb done then Ok (- ENOMEM, terms + 1)
    else if negb (bool_decide (waited r = DMA_COMPLETE)) && negb (has_no_order c && bool_decide (waited r = DMA_OUT_OF_ORDER))
      then Ok (- ENOMEM, terms + 1)
    else Ok (0, terms).
End Dma.
Arguments dma_state Ch : clear implicits.
