(* ===== verification/DmaTheorems.v ===== *)
(** * What the DMA client guarantees

    Acquiring channels by name ends and takes exactly the matching ones; a transfer is
    reported as done only when the engine completed it; cleaning up gives everything back. *)

From Stdlib Require Import ZArith Lia String.
From stdpp Require Import base list numbers strings.
From S2P Require Import Prelude Dma.

Section Acquire.
Context {Ch : Type} `{DmaEngine Ch} (strim : string -> string).
Implicit Types s : dma_state Ch.

(** What the last of the new channels makes of the thread's channel. *)
Definition chosen (old : option Ch) (got : list Ch) : option Ch := match last got with Some c => Some c | None => old end.

(** [s'] is [s] with the channels [got] taken from the engine. *)
Record took s s' (got : list Ch) : Prop := {
  tk_channels : channels s' = channels s ++ got;
  tk_free : engine_free s ≡ₚ got ++ engine_free s';
  tk_nr : nr_channels s' = nr_channels s + zlen got;
  tk_thread : thread_chan s' = chosen (thread_chan s) got;
  tk_filter : dma_filter (params s') = dma_filter (params s);
  tk_max : max_channels (params s') = max_channels (params s);
  tk_polled : polled (params s') = polled (params s) && forallb (fun c => negb (has_no_order c)) got;
}.

Lemma took_none s : took s s [].
Proof. split; try done; by rewrite ?app_nil_r, ?Z.add_0_r, ?andb_true_r. Qed.

Lemma took_cons s l c s' got : engine_free s ≡ₚ c :: l -> has_memcpy c = true -> 0 <= nr_channels s < 2 ^ 32 - 1 ->
  took (ioat_dma_add_channel (set_free s l) c) s' got -> took s s' (c :: got).
Proof.
  intros Hl Hc Hn [H1 H2 H3 H4 H5 H6 H7]. unfold ioat_dma_add_channel in *.
  cbn [channels engine_free nr_channels thread_chan params set_free] in *. split.
  - by rewrite H1, <- app_assoc.
  - by rewrite Hl, H2.
  - rewrite H3, u32_id by lia. cbn [length]. lia.
  - rewrite H4, Hc. unfold chosen. rewrite last_cons. by destruct (last got).
  - rewrite H5. by case_match.
  - rewrite H6. by case_match.
  - rewrite H7. cbn [forallb]. destruct (has_no_order c), (polled (params s)) eqn:E; cbn [andb negb polled unpolled]; rewrite ?E; done.
Qed.

Lemma request_spec fuel : forall s, (length (engine_free s) < fuel)%nat -> max_channels (params s) = 0 -> 0 <= nr_channels s ->
  nr_channels s + zlen (engine_free s) < 2 ^ 32 ->
  exists s' got, request_channels fuel s = Ok s' /\ took s s' got /\
    Forall (fun c => has_memcpy c = true /\ dma_filter (params s) c = true) got /\
    Forall (fun c => has_memcpy c = true -> dma_filter (params s) c = false) (engine_free s').
Proof.
  induction fuel as [|fuel IH]; intros s Hf Hm H0 Hn; [lia|]. cbn [request_channels].
  destruct (dma_request_channel _ _ _) as [[c l]|] eqn:E.
  - apply request_some in E as (Hc & Hfc & Hl). pose proof (Permutation_length Hl) as Hlen. cbn [length] in Hlen.
    set (s1 := ioat_dma_add_channel (set_free s l) c) in *.
    assert (dma_filter (params s1) = dma_filter (params s)) as F1 by (unfold s1, ioat_dma_add_channel; cbn; by case_match).
    assert (max_channels (params s1) = 0) as M1 by (unfold s1, ioat_dma_add_channel; cbn; case_match; exact Hm).
    assert (nr_channels s1 = nr_channels s + 1) as N1 by (unfold s1, ioat_dma_add_channel; cbn; rewrite u32_id; lia).
    assert (engine_free s1 = l) as L1 by done. rewrite M1. cbn [Z.eqb negb andb].
    destruct (IH s1) as (s' & got & E' & T & G & R); [rewrite L1; lia|done|lia|rewrite L1; lia|].
    exists s', (c :: got). split; [done|]. split; [by apply (took_cons s l); [..|lia|]|]. rewrite F1 in *. split; [by constructor|done].
  - exists s, []. split; [done|]. split; [apply took_none|]. split; [constructor|]. apply Forall_forall. intros c Hc Hmc. by eapply request_none.
Qed.

Lemma substring_all n w : (String.length w <= n)%nat -> String.substring 0 n w = w.
Proof. revert w. induction n as [|n IH]; intros [|a w] Hl; cbn in *; try lia; [done..|]. by rewrite IH by lia. Qed.

(** A channel goes by [name], or any does. *)
Definition named (name : string) (c : Ch) : Prop := name = EmptyString \/ dma_chan_name c = name.

Lemma filter_named p c : device p = EmptyString -> dma_filter p c = true <-> named (channel p) c.
Proof.
  intros Hd. unfold dma_filter, ioat_dma_match_channel, ioat_dma_match_device, named. rewrite Hd. cbn [String.eqb]. rewrite andb_true_r.
  destruct (String.eqb_spec (channel p) EmptyString); [tauto|]. rewrite String.eqb_eq. tauto.
Qed.

(** C36: acquiring DMA channels by name, of less than 20 characters, from a module that holds none and whose
    allocations succeed: the call ends; it takes from the
    engine exactly the free copy channels of that name (all of them for an empty name) and succeeds
    when there was one; transfers then go to the last, polled unless the engine completes out of
    order.  A transfer is reported as done only when the engine said so, and a failed one
    terminates the channel.  Cleaning up gives the engine back what it had. *)
Theorem dma_client_correct val s :
  channels s = [] -> nr_channels s = 0 -> strim (test_device s) = EmptyString ->
  (String.length (strim val) <= String.length val < 20)%nat -> zlen (engine_free s) < 2 ^ 32 ->
  exists r s', ioat_dma_chan_set strim val s = Ok (r, s') /\ engine_free s ≡ₚ channels s' ++ engine_free s' /\
    Forall (fun c => has_memcpy c = true /\ named (strim val) c) (channels s') /\
    Forall (fun c => has_memcpy c = true -> ~ named (strim val) c) (engine_free s') /\
    r = (if decide (channels s' = []) then - EBUSY else 0) /\ nr_channels s' = zlen (channels s') /\
    engine_free (ioat_dma_cleanup s') ≡ₚ engine_free s /\
    (r = 0 -> exists c, thread_chan s' = Some c /\ c ∈ channels s' /\
      polled (params s') = forallb (fun c => negb (has_no_order c)) (channels s') /\
      forall src dst size, let rep := dma_transfer c src dst size (polled (params s')) in
        exists ret n, ioat_dma_submit s' src dst size = Ok (ret, n) /\
          (ret = 0 <-> prepared rep = true /\ has_cookie rep = true /\
            (if polled (params s') then waited rep = DMA_COMPLETE
             else called_back rep = true /\ (waited rep = DMA_COMPLETE \/ has_no_order c = true /\ waited rep = DMA_OUT_OF_ORDER))) /\
          (ret <> 0 -> 1 <= n)).
Proof.
  intros Hc Hn Hd Hv Hf. unfold ioat_dma_chan_set, CHANNEL_NAME_LEN. replace (Nat.ltb (String.length val) 20) with true by (symmetry; apply Nat.ltb_lt; lia).
  cbn [rassert rbind]. change (channels (set_test_channel s val)) with (channels s). rewrite Hc. cbn [existsb]. unfold add_threaded_dma.
  cbn [set_test_channel test_channel test_device]. rewrite Hd. unfold strscpy, CHANNEL_NAME_LEN. rewrite substring_all by lia.
  change (String.substring 0 _ EmptyString) with EmptyString.
  match goal with |- context [request_channels ?n ?x] => destruct (request_spec n x) as (s' & got & E & T & G & R) end; [cbn; lia|done|cbn; lia|cbn; lia|].
  rewrite E. cbn [rbind]. destruct T as [T1 T2 T3 T4 _ _ T7]. cbn [set_params set_test_channel channels engine_free nr_channels thread_chan params polled] in *.
  rewrite Hc in T1. cbn [app] in T1. rewrite Hn in T3. rewrite T1 in *.
  assert (Forall (fun c => has_memcpy c = true /\ named (strim val) c) got) as G'.
  { eapply Forall_impl; [exact G|]. intros c [H1 H2]. split; [done|]. by apply filter_named in H2. }
  assert (Forall (fun c => has_memcpy c = true -> ~ named (strim val) c) (engine_free s')) as R'.
  { eapply Forall_impl; [exact R|]. intros c H1 H2 H3. specialize (H1 H2). eapply eq_true_false_abs; [|exact H1]. by apply filter_named. }
  destruct (last got) as [c|] eqn:Hl.
  - assert (c ∈ got) as Hin by (apply last_Some in Hl as [l ->]; apply elem_of_app; right; by apply list_elem_of_singleton).
    assert (negb (String.eqb (dma_chan_name c) (strim val)) && negb (String.eqb EmptyString (strim val)) = false) as ->.
    { rewrite Forall_forall in G'. destruct (G' c Hin) as [_ [-> | ->]]; [apply andb_false_r|by rewrite String.eqb_refl]. }
    exists 0, (set_error s' 0). cbn [set_error channels engine_free nr_channels ioat_dma_cleanup thread_chan params]. rewrite T1. split; [done|]. split; [done|].
    split; [done|]. split; [done|]. split; [by rewrite decide_False by (intros ->; done)|]. split; [lia|]. split; [by rewrite T2|]. intros _. exists c.
    rewrite T4. unfold chosen. rewrite Hl. split; [done|]. split; [done|]. split; [done|]. intros src dst size.
    unfold ioat_dma_submit. cbn [set_error thread_chan params]. rewrite T4. unfold chosen. rewrite Hl. cbn [of_opt rbind].
    set (rep := dma_transfer c src dst size (polled (params s'))). destruct rep as [pr ck w cb]. cbn [prepared has_cookie waited called_back].
    destruct pr, ck; cbn [negb orb]; [|eexists _, _; split; [reflexivity|]; split; [split; [done|by intros (? & ? & _)]|lia]..].
    destruct (polled (params s')), w, cb, (has_no_order c); vm_compute; eexists _, _; (split; [reflexivity|]); (split; [split; naive_solver|]); lia || done.
  - apply last_None in Hl as ->. exists (- EBUSY), (set_error s' (- EBUSY)). cbn [set_error channels engine_free nr_channels ioat_dma_cleanup]. rewrite T1.
    split; [done|]. split; [done|]. split; [done|]. split; [done|]. split; [by rewrite decide_True|]. split; [lia|]. split; [by rewrite T2|]. done.
Qed.
End Acquire.

(** ** An engine for examples: channels with a name and whether they complete in order *)
Fixpoint first_match {Ch} (p : Ch -> bool) (l : list Ch) : option (Ch * list Ch) :=
  match l with
  | [] => None
  | c :: l => if p c then Some (c, l) else match first_match p l with Some (d, l) => Some (d, c :: l) | None => None end
  end.

Lemma first_match_some {Ch} (p : Ch -> bool) l c l' : first_match p l = Some (c, l') -> p c = true /\ l ≡ₚ c :: l'.
Proof.
  revert c l'. induction l as [|d l IH]; intros c l' E; cbn in E; [done|]. destruct (p d) eqn:Ed; [injection E as <- <-; done|].
  destruct (first_match p l) as [[x r]|]; [|done]. injection E as <- <-. destruct (IH x r eq_refl) as [H1 H2]. split; [done|].
  rewrite H2. apply Permutation_swap.
Qed.

Lemma first_match_none {Ch} (p : Ch -> bool) l c : first_match p l = None -> c ∈ l -> p c = false.
Proof.
  induction l as [|d l IH]; intros E Hc; cbn in E; [by apply elem_of_nil in Hc|]. destruct (p d) eqn:Ed; [done|].
  destruct (first_match p l) as [[x r]|]; [done|]. apply elem_of_cons in Hc as [->|Hc]; [done|by apply IH].
Qed.

#[refine] Instance demo_engine : DmaEngine (string * bool) := {
  dma_chan_name := fst; dev_name _ := "0000:00:04.7"%string; has_memcpy _ := true; has_no_order := snd;
  dma_request_channel l mask f := first_match (fun c => mask c && f c) l;
  dma_transfer _ src _ _ _ := mk_report true true (if src =? 0 then DMA_ERROR else DMA_COMPLETE) false;
}.
Proof.
  - intros l mask f c l' E. apply first_match_some in E as [H1 H2]. apply andb_true_iff in H1 as [H0 H1]. done.
  - intros l mask f c E Hc Hm. apply (first_match_none _ _ c) in E; [|done]. apply andb_false_iff in E as [E|E]; [congruence|done].
Defined.

Definition demo_dma : dma_state (string * bool) :=
  mk_dma_state (mk_dma_params 0 EmptyString EmptyString 0 0 0 false) [] 0 0 None EmptyString EmptyString
    [("dma6chan0", true); ("dma7chan0", false); ("dma7chan1", false)]%string.

(** The channel main.c asks for. *)
Lemma dma_client_correct_witness : exists r s' n, ioat_dma_chan_set id "dma7chan0" demo_dma = Ok (r, s') /\ r = 0 /\
  channels s' = [("dma7chan0"%string, false)] /\ ioat_dma_submit s' 0x1000 0x2000 64 = Ok (0, n).
Proof.
  destruct (dma_client_correct id "dma7chan0" demo_dma) as (r & s' & E & _ & _ & _ & Hr & _ & _ & Hs); [reflexivity|reflexivity|reflexivity|cbn; lia|cbn; lia|].
  assert (r = 0) as H0 by (vm_compute in E; injection E as <- <-; reflexivity).
  destruct (Hs H0) as (c & _ & _ & Hp & Ht). destruct (Ht 0x1000 0x2000 64) as (ret & n & Es & Hret & _).
  assert (channels s' = [("dma7chan0"%string, false)]) as Hc by (vm_compute in E; injection E as <- <-; reflexivity).
  exists r, s', n. split; [exact E|]. split; [exact H0|]. split; [exact Hc|]. rewrite Es. rewrite (proj2 Hret); [reflexivity|].
  rewrite Hp, Hc. split; [reflexivity|]. split; reflexivity.
Defined.
