(* ===== verification/Wire.v ===== *)
(** * nvme.h, nvme_zns.h, nvme_kv.h: what crosses the link

    The structures of the three headers as [ctype]s; how the 64 bytes of a command become
    the records the other files work with; and the memory at [prp1] after an answer of
    admin.c was stored there. *)

From Stdlib Require Import ZArith Lia String Ascii.
From stdpp Require Import base list numbers strings.
From S2P Require Import Prelude CLayout PciRegs PciConfig Device.
From S2P Require Nvme ZnsFtl KvFtl.

Local Open Scope string_scope.

(** ** Commands *)
Definition common_head : list (string * ctype) := [("opcode", U8); ("flags", U8); ("command_id", U16)].
Definition prps : list (string * ctype) := [("prp1", U64); ("prp2", U64)].

Definition nvme_common_command : ctype := CStruct (common_head ++
  [("nsid", U32); ("cdw2", CArray 2 U32); ("metadata", U64)] ++ prps ++ [("cdw10", CArray 6 U32)]).

Definition nvme_rw_command : ctype := CStruct (common_head ++
  [("nsid", U32); ("rsvd2", U64); ("metadata", U64)] ++ prps ++
  [("slba", U64); ("length", U16); ("control", U16); ("dsmgmt", U32); ("reftag", U32); ("apptag", U16); ("appmask", U16)]).

Definition nvme_get_log_page_command : ctype := CStruct (common_head ++
  [("nsid", U32); ("rsvd2", CArray 2 U64)] ++ prps ++
  [("lid", U8); ("lsp", U8); ("numdl", U16); ("numdu", U16); ("rsvd11", U16);
   ("", CUnion [("", CStruct [("lpol", U32); ("lpou", U32)]); ("lpo", U64)]);
   ("rsvd14", CArray 3 U8); ("csi", U8); ("rsvd15", U32)]).

Definition nvme_dsm_cmd : ctype := CStruct (common_head ++
  [("nsid", U32); ("rsvd2", CArray 2 U64)] ++ prps ++ [("nr", U32); ("attributes", U32); ("rsvd12", CArray 4 U32)]).

Definition nvme_identify : ctype := CStruct (common_head ++
  [("nsid", U32); ("rsvd2", CArray 2 U64)] ++ prps ++ [("cns", U32); ("rsvd11", CArray 5 U32)]).

Definition nvme_features : ctype := CStruct (common_head ++
  [("nsid", U32); ("rsvd2", CArray 2 U64)] ++ prps ++ [("fid", U32); ("dword11", U32); ("rsvd12", CArray 4 U32)]).

Definition nvme_create_cq : ctype := CStruct (common_head ++
  [("rsvd1", CArray 5 U32); ("prp1", U64); ("rsvd8", U64); ("cqid", U16); ("qsize", U16); ("cq_flags", U16); ("irq_vector", U16);
   ("rsvd12", CArray 4 U32)]).

Definition nvme_create_sq : ctype := CStruct (common_head ++
  [("rsvd1", CArray 5 U32); ("prp1", U64); ("rsvd8", U64); ("sqid", U16); ("qsize", U16); ("sq_flags", U16); ("cqid", U16);
   ("rsvd12", CArray 4 U32)]).

Definition nvme_delete_queue : ctype := CStruct (common_head ++
  [("rsvd1", CArray 9 U32); ("qid", U16); ("rsvd10", U16); ("rsvd11", CArray 5 U32)]).

Definition nvme_abort_cmd : ctype := CStruct (common_head ++
  [("rsvd1", CArray 9 U32); ("sqid", U16); ("cid", U16); ("rsvd11", CArray 5 U32)]).

Definition nvme_download_firmware : ctype := CStruct (common_head ++
  [("rsvd1", CArray 5 U32)] ++ prps ++ [("numd", U32); ("offset", U32); ("rsvd12", CArray 4 U32)]).

Definition nvme_format_cmd : ctype := CStruct (common_head ++
  [("nsid", U32); ("rsvd2", CArray 4 U64); ("cdw10", U32); ("rsvd11", CArray 5 U32)]).

(** [struct nvme_command] *)
Definition command_members : list (string * ctype) := [
  ("common", nvme_common_command); ("rw", nvme_rw_command); ("get_log_page", nvme_get_log_page_command);
  ("identify", nvme_identify); ("features", nvme_features); ("create_cq", nvme_create_cq); ("create_sq", nvme_create_sq);
  ("delete_queue", nvme_delete_queue); ("dlfw", nvme_download_firmware); ("format", nvme_format_cmd); ("dsm", nvme_dsm_cmd);
  ("abort", nvme_abort_cmd)].
Definition nvme_command : ctype := CStruct [("", CUnion command_members)].

(** ** Zone commands, cast from [struct nvme_command] *)
Definition nvme_zone_mgmt_recv : ctype := CStruct (common_head ++
  [("nsid", U32); ("cdw2", CArray 2 U32); ("metadata", U64)] ++ prps ++
  [("slba", U64); ("nr_dw", U32);
   ("", CUnion [("DW13", U32); ("", CStruct [("zra", U8); ("zra_specific_field", U8); ("zra_specific_features", bits16 1); ("reserved", bits16 15)])]);
   ("rsvd", CArray 3 U32)]).

Definition nvme_zone_mgmt_send : ctype := CStruct (common_head ++
  [("nsid", U32); ("cdw2", CArray 2 U32); ("metadata", U64)] ++ prps ++
  [("slba", U64); ("reserved", U32);
   ("", CUnion [("DW13", U32); ("", CStruct [("zsa", bits32 8); ("select_all", bits32 1); ("zsaso", bits32 1); ("", bits32 22)])]);
   ("rsvd", CArray 3 U32)]).

Definition nvme_zone_append : ctype := CStruct (common_head ++
  [("nsid", U32); ("cdw2", CArray 2 U32); ("metadata", U64)] ++ prps ++
  [("slba", U64);
   ("", CUnion [("DW12", U32); ("", CStruct [("nr_lba", bits32 16); ("", bits32 4); ("dtype", bits32 4); ("stc", bits32 1); ("piremap", bits32 1);
      ("printfo", bits32 4); ("fua", bits32 1); ("lr", bits32 1)])]);
   ("", CUnion [("DW13", U32); ("", CStruct [("", bits32 16); ("dspec", bits32 16)])]);
   ("DW14", U32);
   ("", CUnion [("DW15", U32); ("", CStruct [("lbat", bits32 16); ("lbatm", bits32 16)])])]).

(** ** Key-value commands *)
Definition nvme_data_ptr : ctype := CUnion [("", CStruct prps)].
Definition kv_key : ctype := CUnion [("", CStruct [("key", CArray 16 U8)]); ("", CStruct [("key_prp", U64); ("key_prp2", U64)])].
Definition kv_head : list (string * ctype) := common_head ++ [("nsid", U32); ("rsvd", U64); ("offset", U32); ("rsvd2", U32)].

Definition nvme_kv_store_command : ctype := CStruct (kv_head ++
  [("dptr", nvme_data_ptr); ("value_len", U32); ("key_len", U8); ("option", U8); ("invalid_byte", bits8 2); ("rsvd3", bits8 6); ("rsvd4", U8); ("", kv_key)]).
Definition nvme_kv_append_command : ctype := nvme_kv_store_command.
Definition nvme_kv_batch_command : ctype := CStruct (kv_head ++
  [("dptr", nvme_data_ptr); ("value_len", U32); ("key_len", U8); ("option", U8); ("rsvd3", U8); ("rsvd4", U8); ("", kv_key)]).
Definition nvme_kv_retrieve_command : ctype := CStruct (kv_head ++
  [("dptr", nvme_data_ptr); ("value_len", U32); ("key_len", U8); ("option", U8); ("rsvd3", U16); ("", kv_key)]).
Definition nvme_kv_delete_command : ctype := CStruct (kv_head ++
  [("rsvd3", CArray 2 U64); ("value_len", U32); ("key_len", U8); ("option", U8); ("rsvd4", U16); ("", kv_key)]).
Definition nvme_kv_exist_command : ctype := nvme_kv_delete_command.
Definition nvme_kv_iter_req_command : ctype := CStruct (common_head ++
  [("nsid", U32); ("rsvd", CArray 4 U64); ("zero", U32); ("iter_handle", U8); ("option", U8); ("rsvd2", U16); ("iter_val", U32); ("iter_bitmask", U32);
   ("rsvd3", U64)]).
Definition nvme_kv_iter_read_command : ctype := CStruct (common_head ++
  [("nsid", U32); ("rsvd", CArray 2 U64); ("dptr", nvme_data_ptr); ("value_len", U32); ("iter_handle", U8); ("option", U8); ("rsvd2", U16);
   ("rsvd3", CArray 2 U64)]).

(** [struct nvme_kv_command] *)
Definition kv_command_members : list (string * ctype) := [
  ("common", nvme_common_command); ("kv_store", nvme_kv_store_command); ("kv_retrieve", nvme_kv_retrieve_command); ("kv_delete", nvme_kv_delete_command);
  ("kv_append", nvme_kv_append_command); ("kv_iter_req", nvme_kv_iter_req_command); ("kv_iter_read", nvme_kv_iter_read_command);
  ("kv_exist", nvme_kv_exist_command); ("kv_batch", nvme_kv_batch_command)].
Definition nvme_kv_command : ctype := CStruct [("", CUnion kv_command_members)].

Definition nvme_completion : ctype := CStruct [
  ("result0", U32); ("result1", U32); ("sq_head", U16); ("sq_id", U16); ("command_id", U16); ("status", U16)].

(** ** Reading a command

    A command is its 64 bytes as one little-endian number. *)
Definition get_field (t : ctype) (m : Z) (f : string) : Z :=
  match field t 0 f with Some (off, n) => get_bits m off n | None => 0 end.

Definition get_flag (t : ctype) (m : Z) (f : string) : bool := negb (Z.eqb (get_field t m f) 0).

(** Element [i] of the array [f], of elements of [n] bits. *)
Definition get_elem (t : ctype) (m : Z) (f : string) (n i : Z) : Z :=
  match field t 0 f with Some (off, _) => get_bits m (off + i * n) n | None => 0 end.

Definition admin_command_of (m : Z) : admin_command :=
  let get := get_field nvme_common_command m in
  mk_admin (get "opcode") (get "command_id") (get "nsid") (get "prp1")
    (get_elem nvme_common_command m "cdw10" 32 0) (get_elem nvme_common_command m "cdw10" 32 1).

Definition rw_command_of (m : Z) : Nvme.nvme_rw_command :=
  let get := get_field nvme_rw_command m in Nvme.mk_rw (get "opcode") (get "slba") (get "length") (get "control").

Definition zone_mgmt_send_of (m : Z) : ZnsFtl.nvme_zone_mgmt_send :=
  let get := get_field nvme_zone_mgmt_send m in let flag := get_flag nvme_zone_mgmt_send m in
  ZnsFtl.mk_mgmt_send (get "slba") (get "zsa") (flag "select_all") (flag "zsaso").

Definition zone_mgmt_recv_of (m : Z) : ZnsFtl.nvme_zone_mgmt_recv :=
  let get := get_field nvme_zone_mgmt_recv m in let flag := get_flag nvme_zone_mgmt_recv m in
  ZnsFtl.mk_mgmt_recv (get "prp1") (get "prp2") (get "slba") (get "nr_dw") (get "zra") (get "zra_specific_field")
    (flag "zra_specific_features").

Definition kv_command_of (m : Z) : KvFtl.nvme_kv_command :=
  let get := get_field nvme_kv_batch_command m in
  KvFtl.mk_kv_command (get "opcode") (get "dptr.prp1") (get "dptr.prp2") (get "value_len") (get "key_len") (get "option") (get "rsvd4")
    (get_elem nvme_kv_batch_command m "key" 8 <$> zseq 16).

(** ** Answers in host memory *)
Definition nvme_id_power_state : ctype := CStruct [
  ("max_power", U16); ("rsvd2", U8); ("flags", U8); ("entry_lat", U32); ("exit_lat", U32); ("read_tput", U8); ("read_lat", U8); ("write_tput", U8);
  ("write_lat", U8); ("idle_power", U16); ("idle_scale", U8); ("rsvd19", U8); ("active_power", U16); ("active_work_scale", U8); ("rsvd23", CArray 9 U8)].

Definition nvme_id_ctrl : ctype := CStruct [
  ("vid", U16); ("ssvid", U16); ("sn", CArray 20 U8); ("mn", CArray 40 U8); ("fr", CArray 8 U8); ("rab", U8); ("ieee", CArray 3 U8); ("mic", U8);
  ("mdts", U8); ("cntlid", U16); ("ver", U32); ("rtd3r", U32); ("rtd3e", U32); ("oaes", U32); ("ctratt", U32); ("rrls", U16); ("cntrltype", U8);
  ("rsvd84", CArray 153 U8); ("oacs", U16); ("acl", U8); ("aerl", U8); ("frmw", U8); ("lpa", U8); ("elpe", U8); ("npss", U8); ("avscc", U8);
  ("apsta", U8); ("wctemp", U16); ("cctemp", U16); ("rsvd270", CArray 242 U8); ("sqes", U8); ("cqes", U8); ("rsvd514", CArray 2 U8); ("nn", U32);
  ("oncs", U16); ("fuses", U16); ("fna", U8); ("vwc", U8); ("awun", U16); ("awupf", U16); ("nvscc", U8); ("rsvd531", U8); ("acwu", U16);
  ("rsvd534", CArray 2 U8); ("sgls", U32); ("rsvd540", CArray 1508 U8); ("psd", CArray 32 nvme_id_power_state); ("vs", CArray 1024 U8)].

Definition nvme_lbaf : ctype := CStruct [("ms", U16); ("ds", U8); ("rp", U8)].

Definition nvme_id_ns : ctype := CStruct [
  ("nsze", U64); ("ncap", U64); ("nuse", U64); ("nsfeat", U8); ("nlbaf", U8); ("flbas", U8); ("mc", U8); ("dpc", U8); ("dps", U8); ("nmic", U8);
  ("rescap", U8); ("fpi", U8); ("rsvd33", U8); ("nawun", U16); ("nawupf", U16); ("nacwu", U16); ("nabsn", U16); ("nabo", U16); ("nabspf", U16);
  ("rsvd46", U16); ("nvmcap", CArray 2 U64); ("rsvd64", CArray 40 U8); ("nguid", CArray 16 U8); ("eui64", CArray 8 U8); ("lbaf", CArray 16 nvme_lbaf);
  ("rsvd192", CArray 192 U8); ("vs", CArray 3712 U8)].

Definition nvme_id_ns_desc : ctype := CStruct [("nidt", U8); ("nidl", U8); ("rsvd", CArray 2 U8); ("nid", CArray 4092 U8)].

Definition nvme_smart_log : ctype := CStruct [
  ("critical_warning", U8); ("temperature", CArray 2 U8); ("avail_spare", U8); ("spare_thresh", U8); ("percent_used", U8); ("rsvd6", CArray 26 U8);
  ("data_units_read", CArray 16 U8); ("data_units_written", CArray 16 U8); ("host_reads", CArray 16 U8); ("host_writes", CArray 16 U8);
  ("ctrl_busy_time", CArray 16 U8); ("power_cycles", CArray 16 U8); ("power_on_hours", CArray 16 U8); ("unsafe_shutdowns", CArray 16 U8);
  ("media_errors", CArray 16 U8); ("num_err_log_entries", CArray 16 U8); ("warning_temp_time", U32); ("critical_comp_time", U32);
  ("temp_sensor", CArray 8 U16); ("rsvd216", CArray 296 U8)].

Definition nvme_effects_log : ctype := CStruct [("acs", CArray 256 U32); ("iocs", CArray 256 U32); ("resv", CArray 2048 U8)].

Definition nvme_id_zns_ctrl : ctype := CStruct [("zasl", U8); ("rsvd1", CArray 4095 U8)].
Definition nvme_zns_lbaf : ctype := CStruct [("zsze", U64); ("zdes", U8); ("resv", CArray 7 U8)].
Definition nvme_id_zns_ns : ctype := CStruct [
  ("zoc", U16); ("ozcs", U16); ("mar", U32); ("mor", U32); ("rrl", U32); ("frl", U32); ("rsv1", CArray 6 U32); ("numzrwa", U32); ("zrwafg", U16);
  ("zrwasz", U16); ("zrwacap", U8); ("rsv2", CArray 2763 U8); ("lbaf", CArray 16 nvme_zns_lbaf); ("rsv3", CArray 768 U8); ("vs", CArray 256 U8)].

(** The byte offset of a member. *)
Definition offset_of (t : ctype) (f : string) : Z := match field t 0 f with Some (off, _) => off / 8 | None => 0 end.

Definition zero_bytes (n m : Z) : Z := set_bits m 0 (8 * n) 0.

(** Consecutive elements of [n] bytes from byte [at_] on. *)
Fixpoint put_elems (at_ n : Z) (l : list Z) (m : Z) : Z :=
  match l with [] => m | x :: l => put_elems (at_ + n) n l (set_bits m (8 * at_) (8 * n) x) end.

Fixpoint put_lbafs (at_ : Z) (l : list Device.nvme_lbaf) (m : Z) : Z :=
  match l with
  | [] => m
  | f :: l => put_lbafs (at_ + sizeof nvme_lbaf) l (fill nvme_lbaf at_ [("ms", ms f); ("ds", ds f); ("rp", rp f)] m)
  end.

(** [snprintf] into a [char] array: the characters and a zero. *)
Fixpoint chars (s : string) : list Z :=
  match s with EmptyString => [0] | String c s => Z.of_N (N_of_ascii c) :: chars s end.

(** [acs[op] = effects], ... *)
Definition put_effects (t : ctype) (f : string) (l : list (Z * Z)) (m : Z) : Z :=
  fold_left (fun m e => set_bits m (8 * (offset_of t f + 4 * fst e)) 32 (snd e)) l m.

(** [memcpy] of the first [len] bytes of a structure. *)
Definition copy_bytes (len src m : Z) : Z := set_bits m 0 (8 * len) src.

(** The memory from [prp1] on, [m], after the page was stored. *)
Definition image (p : host_page) (m : Z) : Z :=
  match p with
  | IdNamespace nsze ncap nuse nlbaf flbas dps lbafs =>
      fill nvme_id_ns 0 [("flbas", flbas); ("nlbaf", nlbaf); ("dps", dps); ("nsze", nsze); ("ncap", ncap); ("nuse", nuse)]
        (put_lbafs (offset_of nvme_id_ns "lbaf") lbafs (zero_bytes PAGE_SIZE m))
  | IdNamespaces ids => put_elems 0 4 ids (zero_bytes (PAGE_SIZE * 2) m)
  | IdNamespaceDesc nidt nidl csi =>
      put_elems (offset_of nvme_id_ns_desc "nid") 1 [csi]
        (fill nvme_id_ns_desc 0 [("nidt", nidt); ("nidl", nidl)] (zero_bytes (sizeof nvme_id_ns_desc) m))
  | IdZnsNamespace zoc ozcs mar mor numzrwa zrwafg zrwasz zrwacap zsze zdes =>
      fill nvme_zns_lbaf (offset_of nvme_id_zns_ns "lbaf") [("zsze", zsze); ("zdes", zdes)]
        (fill nvme_id_zns_ns 0 [("zoc", zoc); ("ozcs", ozcs); ("mar", mar); ("mor", mor); ("numzrwa", numzrwa); ("zrwafg", zrwafg);
           ("zrwasz", zrwasz); ("zrwacap", zrwacap)] (zero_bytes (sizeof nvme_id_zns_ns) m))
  | IdZnsCtrl zasl => fill nvme_id_zns_ctrl 0 [("zasl", zasl)] m
  | IdCtrl nn oncs acl vwc sn mn fr mdts sqes cqes =>
      let m := fill nvme_id_ctrl 0 [("nn", nn); ("oncs", oncs); ("acl", acl); ("vwc", vwc)] (zero_bytes (sizeof nvme_id_ctrl) m) in
      let m := put_elems (offset_of nvme_id_ctrl "sn") 1 (chars sn) m in
      let m := put_elems (offset_of nvme_id_ctrl "mn") 1 (chars mn) m in
      let m := put_elems (offset_of nvme_id_ctrl "fr") 1 (chars fr) m in
      fill nvme_id_ctrl 0 [("mdts", mdts); ("sqes", sqes); ("cqes", cqes)] m
  | SmartLog len spare_thresh => copy_bytes len (fill nvme_smart_log 0 [("spare_thresh", spare_thresh)] 0) m
  | EffectsLog len acs iocs => copy_bytes len (put_effects nvme_effects_log "iocs" iocs (put_effects nvme_effects_log "acs" acs 0)) m
  | ZeroLog len => zero_bytes len m
  end.
