(* ===== verification/WireTheorems.v ===== *)
(** * What the two sides of the link agree on

    The structures of the headers overlay: whatever member of the union a handler reads a
    command through, it finds the same bits.  The answers to identify commands, read at
    the offsets of the NVM Express specification, say what the device is. *)

From Stdlib Require Import ZArith Lia String Ascii.
From stdpp Require Import base list numbers strings.
From S2P Require Import Prelude Config CLayout PciRegs PciConfig PciTheorems IoQueue Dispatch Device Bar Admin HostTheorems Wire.
From S2P Require Nvme ZnsFtl KvFtl SimpleFtl.

(** ** Reading fields *)
Lemma get_field_at t m f off n : field t 0 f = Some (off, n) -> get_field t m f = get_bits m off n.
Proof. unfold get_field. by intros ->. Qed.

Lemma get_elem_at t m f off w n i : field t 0 f = Some (off, w) -> get_elem t m f n i = get_bits m (off + i * n) n.
Proof. unfold get_elem. by intros ->. Qed.

(** A field of a word is a field of the command. *)
Lemma get_get m a n b k : 0 <= a -> 0 <= b -> 0 <= k -> b + k <= n -> get_bits (get_bits m a n) b k = get_bits m (a + b) k.
Proof.
  intros Ha Hb Hk Hn. apply Z.bits_inj'. intros i Hi. rewrite !get_bits_spec by lia.
  destruct (Z.ltb_spec i k); cbn [andb]; [|done]. replace (i + b <? n) with true by lia. cbn [andb]. f_equal. lia.
Qed.

Lemma get_get_low m a n k : 0 <= a -> 0 <= k <= n -> get_bits (get_bits m a n) 0 k = get_bits m a k.
Proof. intros Ha Hk. rewrite get_get by lia. f_equal. lia. Qed.

(** Four bytes in a row are a little-endian word. *)
Lemma le_bytes_word m off : 0 <= off ->
  KvFtl.le_bytes [get_bits m off 8; get_bits m (off + 8) 8; get_bits m (off + 16) 8; get_bits m (off + 24) 8] = get_bits m off 32.
Proof.
  intros Ho. change 32 with (8 + (8 + (8 + 8))). rewrite (get_bits_split m off 8 (8 + (8 + 8))), (get_bits_split m (off + 8) 8 (8 + 8)), (get_bits_split m (off + 8 + 8) 8 8) by lia.
  replace (off + 8 + 8) with (off + 16) by lia. replace (off + 16 + 8) with (off + 24) by lia. cbn [KvFtl.le_bytes].
  assert (forall x y, 0 <= x < 2 ^ 8 -> Z.lor x (Z.shiftl y 8) = x + 2 ^ 8 * y) as Hlor.
  { intros x y Hx. rewrite Z.shiftl_mul_pow2, (Z.mul_comm y) by lia. pose proof (Z.add_lor_land x (2 ^ 8 * y)) as H.
    assert (Z.land x (2 ^ 8 * y) = 0); [|lia]. apply Z.bits_inj'. intros i Hi. rewrite Z.land_spec, Z.bits_0, Z.mul_comm.
    destruct (Z.ltb_spec i 8); [by rewrite Z.mul_pow2_bits_low, andb_false_r by lia|].
    rewrite <- (Z.mod_small x (2 ^ 8)) by lia. by rewrite Z.mod_pow2_bits_high by lia. }
  rewrite !Hlor by (apply get_bits_range; lia). lia.
Qed.

Lemma zseq_16 : zseq 16 = [0; 1; 2; 3; 4; 5; 6; 7; 8; 9; 10; 11; 12; 13; 14; 15].
Proof. by vm_compute. Qed.

(** Fields of closed structures become bits; words of words are flattened. *)
Ltac fields := repeat (erewrite get_field_at by (vm_compute; reflexivity)); repeat (erewrite get_elem_at by (vm_compute; reflexivity)).
Ltac bits := fields; rewrite ?get_get by lia; reflexivity.

Local Open Scope string_scope.

(** C33: the structures a command is read through overlay.  Every member of [struct nvme_command] and
    [struct nvme_kv_command] is 64 bytes and has the same opcode and identifier; the words the
    admin handlers split are the fields of the structure of their command; reads, writes, zone and
    key-value commands find their first PRP, LBA and other fields at the same place whichever structure they are cast to. *)
Theorem commands_overlay m : let c := admin_command_of m in let k := kv_command_of m in
  Forall (fun '(_, t) => sizeof t = SIZEOF_COMMAND /\ get_field t m "opcode" = a_opcode c /\ get_field t m "command_id" = a_command_id c)
    (command_members ++ kv_command_members) /\
  Forall (fun t => get_field t m "qsize" = c_qsize c /\ get_field t m "prp1" = a_prp1 c) [nvme_create_cq; nvme_create_sq] /\
  get_field nvme_create_cq m "cqid" = c_qid c /\ get_field nvme_create_sq m "sqid" = c_qid c /\ get_field nvme_delete_queue m "qid" = c_qid c /\
  get_field nvme_create_cq m "cq_flags" = c_flags c /\ get_field nvme_create_cq m "irq_vector" = c_irq_vector c /\ get_field nvme_create_sq m "cqid" = c_cqid c /\
  get_field nvme_get_log_page_command m "lid" = c_lid c /\ get_field nvme_get_log_page_command m "numdl" = c_numdl c /\
  get_field nvme_get_log_page_command m "numdu" = c_numdu c /\
  get_field nvme_identify m "cns" = c_cns c /\ get_field nvme_features m "fid" = c_fid c /\ get_field nvme_features m "dword11" = c_dword11 c /\
  Forall (fun t => get_field t m "nsid" = a_nsid c /\ get_field t m "prp1" = a_prp1 c)
    [nvme_rw_command; nvme_get_log_page_command; nvme_identify; nvme_features; nvme_zone_mgmt_send; nvme_zone_mgmt_recv; nvme_zone_append] /\
  Forall (fun t => get_field t m "slba" = Nvme.slba (rw_command_of m)) [nvme_zone_mgmt_send; nvme_zone_mgmt_recv; nvme_zone_append] /\
  get_field nvme_zone_append m "nr_lba" = Nvme.length (rw_command_of m) /\
  Forall (fun t => get_field t m "dptr.prp1" = a_prp1 c) [nvme_kv_store_command; nvme_kv_retrieve_command; nvme_kv_iter_read_command; nvme_kv_batch_command] /\
  Forall (fun t => get_field t m "value_len" = KvFtl.value_len k /\ get_field t m "option" = KvFtl.kv_option k)
    [nvme_kv_store_command; nvme_kv_retrieve_command; nvme_kv_delete_command; nvme_kv_exist_command; nvme_kv_iter_read_command; nvme_kv_batch_command] /\
  Forall (fun t => get_field t m "key_len" = KvFtl.key_len k /\ forall i, get_elem t m "key" 8 i = get_elem nvme_kv_batch_command m "key" 8 i)
    [nvme_kv_store_command; nvme_kv_retrieve_command; nvme_kv_delete_command; nvme_kv_exist_command] /\
  get_field nvme_kv_iter_req_command m "iter_val" = KvFtl.iter_val k /\ get_field nvme_kv_iter_req_command m "iter_bitmask" = KvFtl.iter_bitmask k /\
  get_field nvme_kv_iter_req_command m "iter_handle" = KvFtl.iter_handle_of k /\ get_field nvme_kv_iter_read_command m "iter_handle" = KvFtl.iter_handle_of k.
Proof.
  cbv zeta. unfold c_qid, c_qsize, c_flags, c_irq_vector, c_cqid, c_lid, c_numdl, c_numdu, c_cns, c_fid, c_dword11, admin_command_of, rw_command_of, kv_command_of,
    KvFtl.iter_handle_of.
  cbn [a_opcode a_command_id a_nsid a_prp1 a_cdw10 a_cdw11 Nvme.slba Nvme.length KvFtl.value_len KvFtl.kv_option KvFtl.key_len KvFtl.iter_val KvFtl.key].
  repeat first [match goal with |- _ /\ _ => split end | apply Forall_cons | apply Forall_nil_2 | intros i].
  all: try match goal with |- sizeof _ = _ => by vm_compute end.
  all: try (solve [bits]).
  all: unfold KvFtl.iter_val, KvFtl.iter_bitmask; cbn [KvFtl.key]; rewrite zseq_16; cbn [fmap list_fmap take drop]; fields.
  all: symmetry; rewrite <- le_bytes_word by lia; reflexivity.
Qed.

Local Close Scope string_scope.

(** ** Reading answers *)

(** [n] bytes at byte [at_], as the host reads them. *)
Definition rd (m at_ n : Z) : Z := get_bits m (8 * at_) (8 * n).

Lemma land_ones_id v n : 0 <= n -> 0 <= v < 2 ^ n -> Z.land v (Z.ones n) = v.
Proof. intros Hn Hv. rewrite Z.land_ones by lia. by apply Z.mod_small. Qed.

(** Bits no assignment touches. *)
Fixpoint untouched (l : list (option (Z * Z) * Z)) (off n : Z) : bool :=
  match l with
  | [] => true
  | (None, _) :: l => untouched l off n
  | (Some (o, k), _) :: l => (0 <=? o) && (0 <=? k) && ((o + k <=? off) || (off + n <=? o)) && untouched l off n
  end.

Lemma fill_keep t base l m off n : 0 <= off -> 0 <= n -> untouched (writes t base l) off n = true -> get_bits (fill t base l m) off n = get_bits m off n.
Proof.
  unfold fill, writes. intros Ho Hn. revert m. induction l as [|a l IH]; intros m; cbn [fmap list_fmap untouched fold_left]; [done|].
  unfold store at 2. destruct (assoc _ _) as [[o k]|]; [|apply IH]. intros [Hd Hu]%andb_true_iff. rewrite IH by done. apply get_set_other; lia.
Qed.

Lemma put_elems_frame n l : forall at_ m off k, 0 <= at_ -> 0 <= n -> 0 <= off -> 0 <= k ->
  off + k <= 8 * at_ \/ 8 * (at_ + n * zlen l) <= off -> get_bits (put_elems at_ n l m) off k = get_bits m off k.
Proof.
  induction l as [|x l IH]; intros at_ m off k Ha Hn Ho Hk Hd; cbn [put_elems]; [done|]. cbn [length] in Hd.
  rewrite IH by nia. apply get_set_other; nia.
Qed.

Lemma put_elems_get n l : forall at_ m i x, 0 <= at_ -> 0 <= n -> l !! i = Some x ->
  get_bits (put_elems at_ n l m) (8 * (at_ + n * Z.of_nat i)) (8 * n) = Z.land x (Z.ones (8 * n)).
Proof.
  induction l as [|y l IH]; intros at_ m i x Ha Hn Hi; [done|]. cbn [put_elems]. destruct i as [|i]; cbn in Hi.
  - injection Hi as ->. rewrite put_elems_frame by nia. replace (8 * (at_ + n * Z.of_nat 0)) with (8 * at_) by lia. apply get_set_same; lia.
  - replace (at_ + n * Z.of_nat (S i)) with (at_ + n + n * Z.of_nat i) by lia. apply IH; [lia|lia|done].
Qed.

(** What a format looks like at [at_]. *)
Lemma fill_lbaf at_ f m : fill nvme_lbaf at_ [("ms", ms f); ("ds", ds f); ("rp", rp f)]%string m =
  set_bits (set_bits (set_bits m (8 * at_ + 0) 16 (ms f)) (8 * at_ + 16) 8 (ds f)) (8 * at_ + 24) 8 (rp f).
Proof. reflexivity. Qed.

Lemma put_lbafs_frame l : forall at_ m off k, 0 <= at_ -> 0 <= off -> 0 <= k -> off + k <= 8 * at_ -> get_bits (put_lbafs at_ l m) off k = get_bits m off k.
Proof.
  induction l as [|f l IH]; intros at_ m off k Ha Ho Hk Hd; cbn [put_lbafs]; [done|]. change (sizeof nvme_lbaf) with 4. rewrite IH by lia.
  rewrite fill_lbaf, !get_set_other by lia. done.
Qed.

Lemma put_lbafs_ds l : forall at_ m i f, 0 <= at_ -> l !! i = Some f ->
  get_bits (put_lbafs at_ l m) (8 * (at_ + 4 * Z.of_nat i + 2)) 8 = Z.land (ds f) (Z.ones 8).
Proof.
  induction l as [|g l IH]; intros at_ m i f Ha Hi; [done|]. cbn [put_lbafs]. change (sizeof nvme_lbaf) with 4. destruct i as [|i]; cbn in Hi.
  - injection Hi as ->. rewrite put_lbafs_frame, fill_lbaf by lia. rewrite get_set_other by lia.
    replace (8 * (at_ + 4 * Z.of_nat 0 + 2)) with (8 * at_ + 16) by lia. apply get_set_same; lia.
  - replace (at_ + 4 * Z.of_nat (S i)) with (at_ + 4 + 4 * Z.of_nat i) by lia. apply IH; [lia|done].
Qed.

(** ** Pages, at the specification's offsets *)
Ltac keep := rewrite fill_keep by first [lia | vm_compute; reflexivity].
Ltac got := etransitivity; [eapply fill_get; first [lia | vm_compute; reflexivity]|apply land_ones_id; lia].

(** The capacity in bytes: the size in blocks, and the size of a block in the format in use. *)
Definition host_capacity (m : Z) : Z := rd m 0 8 * 2 ^ rd m (128 + 4 * Z.land (rd m 26 1) 0xF + 2) 1.

Lemma image_namespace nsze m : 0 <= nsze < 2 ^ 64 -> let m' := image (IdNamespace nsze nsze nsze 6 0 0 lba_formats) m in
  rd m' 0 8 = nsze /\ rd m' 26 1 = 0 /\ rd m' 25 1 = 6 /\
  (forall i f, lba_formats !! i = Some f -> rd m' (128 + 4 * Z.of_nat i + 2) 1 = ds f).
Proof.
  intros Hz. cbn [image]. unfold rd. split; [got|]. split; [got|]. split; [got|]. intros i f Hf.
  pose proof (lookup_lt_Some _ _ _ Hf) as Hi. change (length lba_formats) with 7%nat in Hi.
  rewrite fill_frame with (lo := 0) (hi := 384) by first [lia | vm_compute; reflexivity].
  change (offset_of nvme_id_ns "lbaf") with 128. change (8 * 1) with 8. rewrite (put_lbafs_ds _ _ _ _ f) by (lia || done).
  apply land_ones_id; [lia|]. do 7 (destruct i as [|i]; [injection Hf as <-; cbn; lia|]). lia.
Qed.

Lemma image_capacity nsze m : 0 <= nsze < 2 ^ 64 -> host_capacity (image (IdNamespace nsze nsze nsze 6 0 0 lba_formats) m) = nsze * 512.
Proof.
  intros Hz. destruct (image_namespace nsze m Hz) as (H1 & H2 & _ & H4). unfold host_capacity. rewrite H1, H2.
  change (Z.land 0 0xF) with 0. specialize (H4 0%nat _ eq_refl). change (Z.of_nat 0) with 0 in H4. rewrite H4. done.
Qed.

(** A string field as the host reads it: the characters before the first zero. *)
Fixpoint host_string (fuel : nat) (m at_ : Z) : string :=
  match fuel with
  | O => EmptyString
  | S fuel => let x := rd m at_ 1 in if x =? 0 then EmptyString else String (ascii_of_N (Z.to_N x)) (host_string fuel m (at_ + 1))
  end.

Fixpoint no_zero (s : string) : bool :=
  match s with EmptyString => true | String c s => negb (N.eqb (N_of_ascii c) 0) && no_zero s end.

Lemma length_chars s : length (chars s) = S (String.length s).
Proof. induction s as [|c s IH]; [done|]. cbn. by rewrite IH. Qed.

Lemma chars_range s i x : chars s !! i = Some x -> 0 <= x < 2 ^ 8.
Proof.
  revert i. induction s as [|c s IH]; intros [|i] Hi; cbn in Hi; try done; [injection Hi as <-; lia| |by eapply IH].
  injection Hi as <-. pose proof (N_ascii_bounded c). lia.
Qed.

Lemma host_string_chars s : forall fuel m at_, (String.length s < fuel)%nat -> no_zero s = true ->
  (forall i x, chars s !! i = Some x -> rd m (at_ + Z.of_nat i) 1 = x) -> host_string fuel m at_ = s.
Proof.
  induction s as [|c s IH]; intros [|fuel] m at_ Hf Hz Hm; cbn in Hf; try lia; cbn [host_string].
  - pose proof (Hm 0%nat 0 eq_refl) as H. rewrite Z.add_0_r in H. by rewrite H.
  - cbn in Hz. apply andb_true_iff in Hz as [Hc Hz]. pose proof (Hm 0%nat _ eq_refl) as H. rewrite Z.add_0_r in H. rewrite H.
    replace (Z.of_N (N_of_ascii c) =? 0) with false by (symmetry; apply Z.eqb_neq; apply negb_true_iff, N.eqb_neq in Hc; lia).
    rewrite N2Z.id, ascii_N_embedding. f_equal. apply IH; [lia|done|]. intros i x Hi.
    replace (at_ + 1 + Z.of_nat i) with (at_ + Z.of_nat (S i)) by lia. by apply Hm.
Qed.

(** The bytes of a string put at [base], whatever is stored elsewhere afterwards. *)
Lemma chars_read s at_ m i x : 0 <= at_ -> chars s !! i = Some x -> get_bits (put_elems at_ 1 (chars s) m) (8 * (at_ + Z.of_nat i)) 8 = x.
Proof.
  intros Ha Hi. pose proof (put_elems_get 1 (chars s) at_ m i x Ha ltac:(lia) Hi) as H. rewrite Z.mul_1_l in H. change (8 * 1) with 8 in H.
  rewrite H. apply land_ones_id; [lia|]. by eapply chars_range.
Qed.

Section ImageCtrl.
Context (nn oncs acl vwc mdts : Z) (sn mn fr : string) (m : Z).
Context (Hnn : 0 <= nn < 2 ^ 32) (Hmd : 0 <= mdts < 2 ^ 8).
Context (Hsn : (String.length sn < 20)%nat) (Hmn : (String.length mn < 40)%nat) (Hfr : (String.length fr < 8)%nat).

Local Notation m' := (image (IdCtrl nn oncs acl vwc sn mn fr mdts 0x66 0x44) m).

Lemma ctrl_numbers : rd m' 516 4 = nn /\ rd m' 77 1 = mdts /\ rd m' 512 1 = 0x66 /\ rd m' 513 1 = 0x44.
Proof.
  unfold rd. cbn [image]. pose proof (length_chars sn). pose proof (length_chars mn). pose proof (length_chars fr).
  change (offset_of nvme_id_ctrl "sn") with 4. change (offset_of nvme_id_ctrl "mn") with 24. change (offset_of nvme_id_ctrl "fr") with 64.
  split; [|split; [got|split; got]]. keep. rewrite !put_elems_frame by lia. got.
Qed.

Lemma ctrl_strings : no_zero sn = true -> no_zero mn = true -> no_zero fr = true ->
  host_string 20 m' 4 = sn /\ host_string 40 m' 24 = mn /\ host_string 8 m' 64 = fr.
Proof.
  intros Z1 Z2 Z3. cbn [image]. pose proof (length_chars sn). pose proof (length_chars mn). pose proof (length_chars fr).
  change (offset_of nvme_id_ctrl "sn") with 4. change (offset_of nvme_id_ctrl "mn") with 24. change (offset_of nvme_id_ctrl "fr") with 64.
  split; [|split]; apply host_string_chars; try done; intros i x Hi; pose proof (lookup_lt_Some _ _ _ Hi); unfold rd; change (8 * 1) with 8.
  all: rewrite fill_frame with (lo := 8 * 77) (hi := 8 * 514) by first [lia | vm_compute; reflexivity].
  - rewrite 2!put_elems_frame by lia. by apply chars_read.
  - rewrite put_elems_frame by lia. by apply chars_read.
  - by apply chars_read.
Qed.
End ImageCtrl.

Lemma image_desc csi m : 0 <= csi < 2 ^ 8 -> let m' := image (IdNamespaceDesc NVME_NIDT_CSI 1 csi) m in rd m' 0 1 = 4 /\ rd m' 1 1 = 1 /\ rd m' 4 1 = csi.
Proof.
  intros Hc. cbn [image]. unfold rd. change (offset_of nvme_id_ns_desc "nid") with 4.
  split; [|split]; [rewrite put_elems_frame by (cbn; lia); got..|].
  etransitivity; [apply (put_elems_get 1 [csi] 4 _ 0 csi); done || lia|]. apply land_ones_id; lia.
Qed.

(** The list of namespace identifiers, which ends at the first zero. *)
Fixpoint host_ids (fuel : nat) (m at_ : Z) : list Z :=
  match fuel with O => [] | S fuel => let x := rd m at_ 4 in if x =? 0 then [] else x :: host_ids fuel m (at_ + 4) end.

Lemma host_ids_put l : forall fuel at_ m, (length l < fuel)%nat -> 0 <= at_ -> Forall (fun x => 0 < x < 2 ^ 32) l ->
  rd m (at_ + 4 * zlen l) 4 = 0 -> host_ids fuel (put_elems at_ 4 l m) at_ = l.
Proof.
  induction l as [|x l IH]; intros [|fuel] at_ m Hf Ha Hx Hz; cbn in Hf; try lia; cbn [host_ids put_elems].
  - cbn in Hz. rewrite Z.add_0_r in Hz. by rewrite Hz.
  - apply Forall_cons in Hx as [Hx Hl]. cbn [length] in Hz.
    assert (rd (put_elems (at_ + 4) 4 l (set_bits m (8 * at_) (8 * 4) x)) at_ 4 = x) as ->.
    { unfold rd. rewrite put_elems_frame by lia. rewrite get_set_same by lia. apply land_ones_id; lia. }
    replace (x =? 0) with false by lia. f_equal. apply IH; [lia|lia|done|]. unfold rd in *. rewrite get_set_other by lia.
    rewrite <- Hz. f_equal. lia.
Qed.

Lemma image_ids ids m : zlen ids < 2048 -> Forall (fun x => 0 < x < 2 ^ 32) ids -> host_ids 2048 (image (IdNamespaces ids) m) 0 = ids.
Proof.
  intros Hl Hi. cbn [image]. apply host_ids_put; [lia|lia|done|]. unfold rd, zero_bytes. change (PAGE_SIZE * 2) with 8192.
  apply Z.bits_inj'. intros i Hb. rewrite get_bits_spec, set_bits_spec, !Z.bits_0 by lia.
  destruct (Z.ltb_spec i (8 * 4)); cbn [andb]; [|done].
  by replace ((0 <=? i + 8 * (0 + 4 * zlen ids)) && (i + 8 * (0 + 4 * zlen ids) <? 0 + 8 * 8192)) with true by lia.
Qed.

(** Zone size in blocks of the first format, and the limits, which are 0's based. *)
Lemma image_zns zoc ozcs mar mor numzrwa zrwafg zrwasz zrwacap zsze m :
  0 <= mar < 2 ^ 32 -> 0 <= mor < 2 ^ 32 -> 0 <= zsze < 2 ^ 64 ->
  let m' := image (IdZnsNamespace zoc ozcs mar mor numzrwa zrwafg zrwasz zrwacap zsze 0) m in
  rd m' 4 4 = mar /\ rd m' 8 4 = mor /\ rd m' 2816 8 = zsze.
Proof.
  intros H1 H2 H3. cbn [image]. unfold rd. change (offset_of nvme_id_zns_ns "lbaf") with 2816.
  split; [|split]; [keep; got..|got].
Qed.

(** ** Identify *)

(** Posting the completion writes no page. *)
Lemma post_pages {N C} (e r r0 r1 : Z) (d d' : vdev N C) : __make_cq_entry_results e r r0 r1 d = Ok d' -> vd_pages d' = vd_pages d.
Proof.
  unfold __make_cq_entry_results. intros E. apply rbind_ok in E as (q & _ & E). apply rbind_ok in E as (c & _ & E). apply rbind_ok in E as (l & _ & E).
  apply rbind_ok in E as (l' & _ & E). case_match; injection E as <-; done.
Qed.

Lemma post_page {N C} (e r r0 r1 addr : Z) p (d d' : vdev N C) : __make_cq_entry_results e r r0 r1 (put_page d addr p) = Ok d' ->
  vd_pages d' = vd_pages d ++ [(addr, p)].
Proof. apply post_pages. Qed.

(** C34: what a host learns from identify commands, reading the answer at the offsets of the NVM Express
    specifications over whatever the memory held: the capacity of the namespace, in whole blocks of
    the format in use; the number of namespaces, the transfer limit, the entry sizes of the queues
    and the names of the controller; the identifiers above the given one; the command set of a
    namespace; of a zoned one the limits, which count from zero, and the size of a zone. *)
Theorem identify_seen {N C} `{HM : HostMemory C} `{NI : NamespaceInfo N} types e (d d' : vdev N C) c cns m :
  sq_entry d e = Ok c -> i32 (c_cns c) = cns -> __nvmev_admin_identify types e d = Ok d' ->
  0 <= vd_nr_ns d < 2048 -> 0 <= vd_mdts d < 2 ^ 8 ->
  (cns = 0 -> exists p n, vd_pages d' = vd_pages d ++ [(a_prp1 c, p)] /\ zget (vns (vd_io d)) (u32 (a_nsid c - 1)) = Some n /\
    (0 <= info_size n < 2 ^ 64 -> host_capacity (image p m) = info_size n / 512 * 512)) /\
  (cns = 1 -> exists p, vd_pages d' = vd_pages d ++ [(a_prp1 c, p)] /\ rd (image p m) 516 4 = vd_nr_ns d /\ rd (image p m) 77 1 = vd_mdts d /\
    2 ^ Z.land (rd (image p m) 512 1) 0xF = SIZEOF_COMMAND /\ 2 ^ Z.land (rd (image p m) 513 1) 0xF = SIZEOF_COMPLETION /\
    host_string 20 (image p m) 4 = "CSL_Virt_SN_01"%string /\ host_string 40 (image p m) 24 = "CSL_Virt_MN_01"%string /\
    host_string 8 (image p m) 64 = "CSL_002"%string) /\
  (cns = 2 -> exists p, vd_pages d' = vd_pages d ++ [(a_prp1 c, p)] /\
    host_ids 2048 (image p m) 0 = filter (fun i => a_nsid c < i) (seqZ 1 (vd_nr_ns d))) /\
  (cns = 3 -> exists p n, vd_pages d' = vd_pages d ++ [(a_prp1 c, p)] /\ zget (vns (vd_io d)) (i32 (a_nsid c - 1)) = Some n /\
    rd (image p m) 0 1 = 4 /\ rd (image p m) 1 1 = 1 /\ rd (image p m) 4 1 = u8 (info_csi n)) /\
  (cns = 5 -> forall n zl, zget (vns (vd_io d)) (i32 (a_nsid c - 1)) = Some n -> zget types (i32 (a_nsid c - 1)) = Some SSD_TYPE_ZNS ->
    info_zns n = Some zl -> 1 <= zl_active zl <= 2 ^ 32 -> 1 <= zl_open zl <= 2 ^ 32 -> 0 <= zl_zone_size zl < 2 ^ 64 ->
    exists p, vd_pages d' = vd_pages d ++ [(a_prp1 c, p)] /\ rd (image p m) 4 4 + 1 = zl_active zl /\ rd (image p m) 8 4 + 1 = zl_open zl /\
      rd (image p m) 2816 8 * 512 = zl_zone_size zl / 512 * 512).
Proof.
  intros Hc Hcns E Hn Hm. unfold __nvmev_admin_identify in E. rewrite Hc in E. cbn [rbind] in E. rewrite Hcns in E.
  split; [|split; [|split; [|split]]]; intros ->; cbn [Z.eqb Pos.eqb] in E.
  - unfold __nvmev_admin_identify_namespace in E. rewrite Hc in E. cbn [rbind] in E. change (flbas_of LBA_BITS) with (@Ok Z 0) in E. cbn [rbind] in E.
    apply rbind_ok in E as (n & En & E). apply aget_ok in En. change (aget lba_formats 0) with (Ok (mk_lbaf 0 9 NVME_LBAF_RP_GOOD)) in E. cbn [rbind] in E.
    eexists _, n. split; [by eapply post_page|]. split; [done|]. intros Hs. cbn [ds]. rewrite Z.shiftr_div_pow2 by lia. change (2 ^ 9) with 512.
    rewrite image_capacity; [done|]. pose proof (Z.div_pos (info_size n) 512). pose proof (Z.div_le_upper_bound (info_size n) 512 (info_size n)). lia.
  - unfold __nvmev_admin_identify_ctrl in E. rewrite Hc in E. cbn [rbind] in E. eexists. split; [by eapply post_page|]. rewrite (u8_id (vd_mdts d)) by done.
    destruct (ctrl_numbers (vd_nr_ns d) 0 3 0 (vd_mdts d) "CSL_Virt_SN_01" "CSL_Virt_MN_01" "CSL_002" m) as (H1 & H2 & H3 & H4); [lia|done|cbn; lia..|].
    destruct (ctrl_strings (vd_nr_ns d) 0 3 0 (vd_mdts d) "CSL_Virt_SN_01" "CSL_Virt_MN_01" "CSL_002" m) as (H5 & H6 & H7); [cbn; lia..|done|done|done|].
    rewrite H1, H2, H3, H4. exact (conj eq_refl (conj eq_refl (conj eq_refl (conj eq_refl (conj H5 (conj H6 H7)))))).
  - unfold __nvmev_admin_identify_namespaces in E. rewrite Hc in E. cbn [rbind] in E. eexists. split; [by eapply post_page|].
    rewrite image_ids; [|pose proof (length_filter (fun i => a_nsid c <? i = true) (seqZ 1 (vd_nr_ns d))); rewrite length_seqZ in *; lia|].
    + apply list_filter_iff. intros i. by rewrite Z.ltb_lt.
    + apply Forall_forall. intros i Hi. apply list_elem_of_filter in Hi as [_ Hi]. apply elem_of_seqZ in Hi. lia.
  - unfold __nvmev_admin_identify_namespace_desc in E. rewrite Hc in E. cbn [rbind] in E. apply rbind_ok in E as (n & En & E). apply aget_ok in En.
    eexists _, n. split; [by eapply post_page|]. split; [done|]. apply image_desc. apply Z.mod_pos_bound. lia.
  - intros n zl En Et Ez H1 H2 H3. unfold __nvmev_admin_identify_zns_namespace in E. rewrite Hc in E. cbn [rbind] in E.
    rewrite (proj2 (aget_ok _ _ _) En), (proj2 (aget_ok _ _ _) Et) in E. cbn [rbind] in E. change (negb (SSD_TYPE_ZNS =? SSD_TYPE_ZNS)) with false in E.
    apply rbind_ok in E as (u & _ & E). rewrite Ez in E. cbn [of_opt rbind] in E. eexists. split; [by eapply post_page|].
    unfold zns_page, BYTE_TO_LBA. rewrite Z.shiftr_div_pow2 by (unfold LBA_BITS; lia). change (2 ^ LBA_BITS) with 512. rewrite !u32_id by lia.
    pose proof (Z.div_pos (zl_zone_size zl) 512). pose proof (Z.div_le_upper_bound (zl_zone_size zl) 512 (zl_zone_size zl)).
    edestruct image_zns as (I1 & I2 & I3); [..|rewrite I1, I2, I3]; lia.
Qed.

(** The last command of the example queue identifies namespace 1. *)
Lemma identify_seen_witness : exists d' p, __nvmev_admin_identify [0; 0] 4 demo_ready = Ok d' /\ vd_pages d' = [(0x5000, p)] /\
  host_capacity (image p 77) = 2 ^ 30.
Proof.
  assert (exists d', __nvmev_admin_identify [0; 0] 4 demo_ready = Ok d') as [d' E] by (eexists; reflexivity).
  destruct (identify_seen [0; 0] 4 demo_ready d' (mk_admin nvme_admin_identify 5 1 0x5000 0 0) 0 77) as (H & _); [reflexivity|reflexivity|exact E|cbn; lia|cbn; lia|].
  destruct (H eq_refl) as (p & n & Hp & Hn & Hs). exists d', p. split; [exact E|]. split; [exact Hp|].
  change (zget _ _) with (Some (SimpleFtl.simple_init_namespace demo_units true 0 (2 ^ 30))) in Hn. injection Hn as <-. apply Hs. cbn. lia.
Defined.
