(* ===== verification/Memory.v ===== *)
(** * What the kernel has given out

    The blocks a module holds - [kmalloc] and [vmalloc] memory, mappings, threads, /proc
    entries, the PCI bus - as a collection; taking, giving back and using one.  Giving back
    or using what is not held is a fault.  The triple [own B m Q] says what [m] does to the
    blocks [B], and that it leaves every other block alone. *)

From Stdlib Require Import ZArith Lia.
From stdpp Require Import base numbers list sets.
From S2P Require Import Prelude.

Inductive block_kind : Type := KMEM | VMEM | MAPPING | THREAD | PROC | BUS.

#[export] Instance block_kind_eq_dec : EqDecision block_kind.
Proof. solve_decision. Defined.

Notation block := (block_kind * Z)%type.

(** [brk]: the next address; [NULL] is 0. *)
Record heap : Type := mk_heap { brk : Z; live : list block }.

(** Whether the kernel refuses the request that would have got this address. *)
Class KernelAlloc : Type := alloc_fails : Z -> bool.

(** ** Operations *)
Section Operations.
Context {KA : KernelAlloc}.

(** [kmalloc], [vmalloc], [memremap], [kthread_create], ...: [NULL] on failure. *)
Definition alloc (k : block_kind) : M heap Z :=
  update_get (fun h => let p := brk h in
    Ok (if alloc_fails p then (0, mk_heap (p + 1) (live h)) else (p, mk_heap (p + 1) ((k, p) :: live h)))).

Definition held (k : block_kind) (p : Z) (h : heap) : bool := bool_decide ((k, p) ∈ live h).

(** A pointer is followed. *)
Definition touch (k : block_kind) (p : Z) : M heap unit :=
  update (fun h => if p =? 0 then Err NullDeref else if held k p h then Ok h else Err BadPointer).

(** The block is given back, whatever the pointer. *)
Definition drop_block (k : block_kind) (p : Z) : M heap unit :=
  update (fun h => if held k p h then Ok (mk_heap (brk h) (filter (fun b => b <> (k, p)) (live h))) else Err BadPointer).

(** [kfree], [vfree]: nothing happens to [NULL]. *)
Definition free (k : block_kind) (p : Z) : M heap unit := when (negb (p =? 0)) (drop_block k p).
End Operations.

(** [for (i = 0; i < n; i++) p[i] = ...] *)
Definition fill (k : block_kind) (p n : Z) : M heap unit := for_each (zseq n) (fun _ => touch k p).

Notation kmalloc := (alloc KMEM).
Notation vmalloc := (alloc VMEM).
Notation kfree := (free KMEM).
Notation vfree := (free VMEM).

(** An array of structures: where it is and what it holds. *)
Record array (A : Type) : Type := mk_array { base : Z; cells : list A }.
Arguments mk_array {A} base cells.
Arguments base {A} a.
Arguments cells {A} a.

(** [for (i = 0; i < n; i++) init(&arr[i])] *)
Fixpoint collect {S X B} (l : list X) (f : X -> M S B) : M S (list B) :=
  match l with
  | [] => ret []
  | x :: l => let* y := f x in let* r := collect l f in ret (y :: r)
  end.
Definition init_array {A} (p n : Z) (f : Z -> M heap A) : M heap (array A) :=
  let* l := collect (zseq n) (fun i => touch KMEM p ;; f i) in ret (mk_array p l).

(** [for (i = 0; i < n; i++) remove(&arr[i])] *)
Definition walk_array {A} (a : array A) (n : Z) (f : A -> M heap unit) : M heap unit :=
  for_each (zseq n) (fun i => touch KMEM (base a) ;; let* x := lift (aget (cells a) i) in f x).

(** ** Triples *)
Definition holds (B : list block) (h : heap) : Prop :=
  live h ≡ₚ B /\ NoDup B /\ Forall (fun b => 0 < b.2 < brk h) B /\ 0 < brk h.

Definition own {A} (B : list block) (m : M heap A) (Q : A -> list block -> Prop) : Prop :=
  forall l, hoare (holds (B ++ l)) m (fun a h => exists B', Q a B' /\ holds (B' ++ l) h).

Lemma holds_perm B B' h : B ≡ₚ B' -> holds B h -> holds B' h.
Proof. intros HB (H1 & H2 & H3 & H4). split; [by rewrite <- HB|]. by rewrite <- HB. Qed.

Section Rules.
Context {A : Type}.
Implicit Types (B F : list block) (Q : A -> list block -> Prop).

Lemma own_perm B B' (m : M heap A) Q : B ≡ₚ B' -> own B m Q -> own B' m Q.
Proof.
  intros HB Hm l. eapply hoare_conseq; [apply (Hm l)| |done]. intros h. apply holds_perm. by rewrite HB.
Qed.

Lemma own_conseq B (m : M heap A) Q Q' : own B m Q -> (forall a X, Q a X -> Q' a X) -> own B m Q'.
Proof. intros Hm HQ l. eapply hoare_conseq; [apply (Hm l)|done|]. intros a h (X & HX & Hh). eauto. Qed.

Lemma own_ret B (a : A) Q : Q a B -> own B (ret a) Q.
Proof. intros HQ l c t h Hh. exists a, t, h. eauto. Qed.

Lemma own_done B B' (a : A) Q : B ≡ₚ B' -> Q a B' -> own B (ret a) Q.
Proof. intros HB HQ. eapply own_perm; [symmetry; exact HB|]. by apply own_ret. Qed.

Lemma own_bind {C} B (m : M heap C) (k : C -> M heap A) R Q :
  own B m R -> (forall c X, R c X -> own X (k c) Q) -> own B (bind m k) Q.
Proof.
  intros Hm Hk l. eapply hoare_bind; [apply (Hm l)|]. intros c s t h (X & HX & Hh). exact (Hk c X HX l s t h Hh).
Qed.

(** A call on some of the blocks: the others [F] are framed. *)
Lemma own_call {C} B B1 F (m : M heap C) (k : C -> M heap A) R Q :
  own B1 m R -> B ≡ₚ B1 ++ F -> (forall c X, R c X -> own (X ++ F) (k c) Q) -> own B (bind m k) Q.
Proof.
  intros Hm HB Hk l. eapply hoare_bind.
  - eapply (hoare_conseq _ (holds (B1 ++ F ++ l))); [apply (Hm (F ++ l))| |done].
    intros h. apply holds_perm. by rewrite HB, app_assoc.
  - intros c s t h (X & HX & Hh). rewrite app_assoc in Hh. exact (Hk c X HX l s t h Hh).
Qed.

Lemma own_assoc {C D} B (m : M heap C) (k : C -> M heap D) (f : D -> M heap A) Q :
  own B (bind m (fun c => bind (k c) f)) Q -> own B (bind (bind m k) f) Q.
Proof.
  intros Hm l c t h Hh. destruct (Hm l c t h Hh) as (a & t' & h' & E & H). exists a, t', h'. split; [|done].
  by rewrite run_bind_assoc.
Qed.

Lemma own_unassoc {C D} B (m : M heap C) (k : C -> M heap D) (f : D -> M heap A) Q :
  own B (bind (bind m k) f) Q -> own B (bind m (fun c => bind (k c) f)) Q.
Proof.
  intros Hm l c t h Hh. destruct (Hm l c t h Hh) as (a & t' & h' & E & H). exists a, t', h'. split; [|done].
  by rewrite <- run_bind_assoc.
Qed.

Lemma own_ext B (m m' : M heap A) Q : (forall c t h, m c t h = m' c t h) -> own B m' Q -> own B m Q.
Proof. intros Hm H l c t h Hh. rewrite Hm. by apply (H l). Qed.

Lemma own_ret_bind {C} B (c : C) (k : C -> M heap A) Q : own B (k c) Q -> own B (bind (ret c) k) Q.
Proof. intros Hk l s t h Hh. exact (Hk l s t h Hh). Qed.

Lemma own_lift {C} B (r : res C) c (k : C -> M heap A) Q : r = Ok c -> own B (k c) Q -> own B (bind (lift r) k) Q.
Proof. intros -> Hk l s t h Hh. exact (Hk l s t h Hh). Qed.

Lemma own_assert B (b : bool) (k : unit -> M heap A) Q : b = true -> own B (k tt) Q -> own B (bind (assert b) k) Q.
Proof. intros -> Hk l s t h Hh. exact (Hk l s t h Hh). Qed.

End Rules.

Section HeapRules.
Context {A : Type} {KA : KernelAlloc}.
Implicit Types (B F : list block) (Q : A -> list block -> Prop).

Lemma own_alloc B k (f : Z -> M heap A) Q : (forall p, alloc_fails p = false) ->
  (forall p, p <> 0 -> own ((k, p) :: B) (f p) Q) -> own B (bind (alloc k) f) Q.
Proof.
  intros Hno Hf l c t h (H1 & H2 & H3 & H4). unfold bind, alloc, update_get. rewrite Hno.
  apply (Hf (brk h) ltac:(lia) l c t). cbn [app]. split; [by constructor|]. cbn [live brk]. split.
  - apply NoDup_cons. split; [|done]. intros Hin. rewrite Forall_forall in H3. specialize (H3 _ Hin). cbn in H3. lia.
  - split; [|lia]. apply Forall_cons. split; [cbn; lia|]. eapply Forall_impl; [exact H3|]. cbn. lia.
Qed.

Lemma own_touch B k p (f : unit -> M heap A) Q : (k, p) ∈ B -> own B (f tt) Q -> own B (bind (touch k p) f) Q.
Proof.
  intros Hin Hf l c t h Hh. pose proof Hh as (H1 & _ & H3 & _). unfold bind, touch, update.
  assert ((k, p) ∈ B ++ l) as Hin' by (apply elem_of_app; by left). rewrite Forall_forall in H3.
  pose proof (H3 _ Hin') as Hp. cbn in Hp. destruct (Z.eqb_spec p 0); [lia|]. unfold held. rewrite bool_decide_true by (by rewrite H1).
  exact (Hf l c t h Hh).
Qed.

Lemma own_drop B B' k p (f : unit -> M heap A) Q : B ≡ₚ (k, p) :: B' -> own B' (f tt) Q -> own B (bind (drop_block k p) f) Q.
Proof.
  intros HB Hf l c t h Hh. apply (holds_perm _ ((k, p) :: B' ++ l)) in Hh; [|by rewrite HB]. destruct Hh as (H1 & H2 & H3 & H4).
  unfold bind, drop_block, update, held. rewrite bool_decide_true by (rewrite H1; left).
  apply NoDup_cons in H2 as [Hn H2]. apply Forall_cons in H3 as [_ H3]. apply (Hf l c t). split; [|done]. cbn [live].
  rewrite H1, filter_cons_False by (by intros H; apply H).
  clear -Hn. induction (B' ++ l) as [|b L IH]; [done|]. apply not_elem_of_cons in Hn as [Hb Hn]. rewrite filter_cons_True by congruence. by rewrite IH.
Qed.

Lemma own_free B B' k p (f : unit -> M heap A) Q : B ≡ₚ (k, p) :: B' -> own B' (f tt) Q -> own B (bind (free k p) f) Q.
Proof.
  intros HB Hf l c t h Hh. assert (0 < p) as Hp.
  { destruct Hh as (_ & _ & H3 & _). rewrite Forall_forall in H3. apply (H3 (k, p)). rewrite HB. left. }
  unfold free. replace (negb (p =? 0)) with true by lia. exact (own_drop B B' k p f Q HB Hf l c t h Hh).
Qed.

Lemma own_free_null B k (f : unit -> M heap A) Q : own B (f tt) Q -> own B (bind (free k 0) f) Q.
Proof. intros Hf l c t h Hh. exact (Hf l c t h Hh). Qed.
End HeapRules.

Lemma own_fill {A} {KA : KernelAlloc} (B : list block) k p n (f : unit -> M heap A) (Q : A -> list block -> Prop) : (k, p) ∈ B -> own B (f tt) Q -> own B (bind (fill k p n) f) Q.
Proof.
  intros Hin Hf. apply (own_bind _ _ _ (fun _ X => X = B)); [|by intros [] X ->]. unfold fill. 
  induction (zseq n) as [|i l IH]; cbn [for_each]; [by apply own_ret|]. by apply own_touch.
Qed.

Lemma own_tail_unit B (m : M heap unit) Q : own B (m ;; ret tt) Q -> own B m Q.
Proof.
  intros Hm l c t h Hh. destruct (Hm l c t h Hh) as (a & t' & h' & E & H). exists a, t', h'. split; [|done].
  unfold bind in E. by destruct (m c t h) as [[[[] ?] ?]|].
Qed.

(** ** Making and clearing structures *)

(** [m] makes a structure that holds [blocks] of it and satisfies [Φ]. *)
Definition makes {A} (blocks : A -> list block) (Φ : A -> Prop) (m : M heap A) : Prop :=
  own [] m (fun a X => X ≡ₚ blocks a /\ Φ a).

(** [m] gives back exactly [B]. *)
Definition clears (B : list block) (m : M heap unit) : Prop := own B m (fun _ X => X = []).

Definition array_blocks {A} (blocks : A -> list block) (a : array A) : list block := (KMEM, base a) :: (cells a ≫= blocks).

Section Structures.
Context {A : Type} (blocks : A -> list block).

(** A pass that turns every [x], with its blocks [from x], into a structure. *)
Lemma own_collect2 {X} (from : X -> list block) (B : list block) (Φ : X -> A -> Prop) (f : X -> M heap A) l :
  (forall x, x ∈ l -> own (from x ++ B) (f x) (fun a Y => Y ≡ₚ blocks a ++ B /\ Φ x a)) ->
  own ((l ≫= from) ++ B) (collect l f) (fun r Y => Y ≡ₚ (r ≫= blocks) ++ B /\ Forall2 Φ l r).
Proof.
  induction l as [|x l IH]; intros Hf; cbn [collect]; [by apply own_ret; split|]. cbn [mbind list_bind].
  eapply (own_call _ (from x ++ B) (l ≫= from)); [apply Hf; left| |].
  { rewrite <- !app_assoc. apply Permutation_app_head, Permutation_app_comm. }
  cbn beta. intros a Y [HY Ha]. eapply (own_call _ ((l ≫= from) ++ B) (blocks a)); [apply IH; intros y Hy; apply Hf; by right| |].
  { rewrite HY, <- app_assoc, (Permutation_app_comm (blocks a)). by rewrite (Permutation_app_comm B). }
  cbn beta. intros r Z (HZ & Hr). eapply (own_done _ (((a :: r) ≫= blocks) ++ B)); [|split; [done|by constructor]].
  cbn [mbind list_bind]. rewrite HZ, (Permutation_app_comm _ (blocks a)), app_assoc. reflexivity.
Qed.

Lemma own_collect (Φ : A -> Prop) {X} (from : X -> list block) (B : list block) (f : X -> M heap A) l :
  (forall x, x ∈ l -> own (from x ++ B) (f x) (fun a Y => Y ≡ₚ blocks a ++ B /\ Φ a)) ->
  own ((l ≫= from) ++ B) (collect l f) (fun r Y => Y ≡ₚ (r ≫= blocks) ++ B /\ Forall Φ r /\ length r = length l).
Proof.
  intros Hf. eapply own_conseq; [by apply (own_collect2 from B (fun _ => Φ))|]. intros r Y [HY HF]. split; [done|].
  split; [by eapply Forall2_Forall_r; [|apply Forall_true]|by eapply eq_sym, Forall2_length].
Qed.

Lemma own_init_array2 p n (Φ : Z -> A -> Prop) (f : Z -> M heap A) : (forall i, 0 <= i < n -> makes blocks (Φ i) (f i)) ->
  own [(KMEM, p)] (init_array p n f) (fun a X => X ≡ₚ array_blocks blocks a /\ base a = p /\ Forall2 Φ (zseq n) (cells a)).
Proof.
  intros Hf. unfold init_array. eapply own_bind.
  - eapply own_perm; [|apply (own_collect2 (fun _ => []) [(KMEM, p)] Φ)]; [by induction (zseq n)|].
    intros i Hi%elem_of_seqZ. apply own_touch; [left|].
    intros l. eapply hoare_conseq; [apply (Hf i ltac:(lia) ((KMEM, p) :: l))|done|]. cbn. intros a h (X & [HX Ha] & Hh).
    exists (X ++ [(KMEM, p)]). split; [split; [by rewrite HX|done]|]. by rewrite <- app_assoc.
  - cbn. intros r X (HX & Hr). eapply own_done; [rewrite HX; apply (Permutation_app_comm _ [_])|]. by split.
Qed.

Lemma own_init_array (Φ : A -> Prop) p n (f : Z -> M heap A) : 0 <= n -> (forall i, 0 <= i < n -> makes blocks Φ (f i)) ->
  own [(KMEM, p)] (init_array p n f) (fun a X => X ≡ₚ array_blocks blocks a /\ base a = p /\ Forall Φ (cells a) /\ zlen (cells a) = n).
Proof.
  intros Hn Hf. eapply own_conseq; [by apply (own_init_array2 p n (fun _ => Φ))|]. intros a X (HX & Hb & HF). split; [done|]. split; [done|].
  split; [by eapply Forall2_Forall_r; [|apply Forall_true]|]. apply Forall2_length in HF. rewrite length_zseq in HF. lia.
Qed.

(** A walk that leaves [to x] of the blocks of every [x]. *)
Lemma own_walk_from (to : A -> list block) p n (f : A -> M heap unit) (l : list A) i a : 0 <= i -> drop (Z.to_nat i) (cells a) = l -> n = zlen l -> base a = p ->
  Forall (fun x => own (blocks x) (f x) (fun _ X => X = to x)) l ->
  own ((KMEM, p) :: (l ≫= blocks)) (for_each (seqZ i n) (fun i => touch KMEM p ;; let* x := lift (aget (cells a) i) in f x))
    (fun _ X => X ≡ₚ (KMEM, p) :: (l ≫= to)).
Proof.
  intros Hi Hl -> Hp Hf. revert i Hi Hl. induction Hf as [|x l Hx _ IH]; intros i Hi Hl; [by apply own_ret|].
  rewrite seqZ_cons by (cbn [length]; lia). cbn [for_each]. rewrite !bind_cons.
  assert (aget (cells a) i = Ok x) as Hg.
  { apply aget_ok. unfold zget. destruct (Z.ltb_spec i 0); [lia|]. by rewrite <- (Nat.add_0_r (Z.to_nat i)), <- lookup_drop, Hl. }
  apply own_assoc, own_touch; [left|]. apply own_assoc. eapply own_lift; [exact Hg|].
  eapply own_call; [exact Hx| |].
  { instantiate (1 := (KMEM, p) :: (l ≫= blocks)). by rewrite Permutation_middle. }
  cbn beta. intros [] X ->. replace (Z.pred (zlen (x :: l))) with (zlen l) by (cbn [length]; lia).
  apply own_tail_unit. eapply own_call; [apply (IH (Z.succ i)); [lia|]|apply Permutation_app_comm|].
  - replace (Z.to_nat (Z.succ i)) with (S (Z.to_nat i)) by lia.
    destruct (cells a !! Z.to_nat i) as [y|] eqn:Hy; [|by rewrite drop_ge in Hl by (by apply lookup_ge_None)].
    rewrite (drop_S _ _ _ Hy) in Hl. by injection Hl.
  - cbn beta. intros [] X HX. apply own_ret. rewrite HX. cbn [app]. by rewrite (Permutation_app_comm (to x)).
Qed.

Lemma own_walk_left (to : A -> list block) n (f : A -> M heap unit) a : zlen (cells a) = n ->
  Forall (fun x => own (blocks x) (f x) (fun _ X => X = to x)) (cells a) ->
  own (array_blocks blocks a) (walk_array a n f) (fun _ X => X ≡ₚ (KMEM, base a) :: (cells a ≫= to)).
Proof. intros Hn Hf. unfold walk_array, zseq. by apply own_walk_from. Qed.

Lemma own_walk_array n (f : A -> M heap unit) a : zlen (cells a) = n -> Forall (fun x => clears (blocks x) (f x)) (cells a) ->
  own (array_blocks blocks a) (walk_array a n f) (fun _ X => X = [(KMEM, base a)]).
Proof.
  intros Hn Hf. eapply own_conseq; [by apply (own_walk_left (fun _ => []))|]. cbn beta. intros _ X HX.
  replace (cells a ≫= (fun _ => [])) with (@nil block) in HX by (clear; by induction (cells a)). by apply Permutation_singleton_r in HX.
Qed.
End Structures.

Lemma array_blocks_eq {A} (blocks : A -> list block) a : array_blocks blocks a = (KMEM, base a) :: (cells a ≫= blocks).
Proof. done. Qed.
#[global] Opaque array_blocks.

(** ** Finding blocks: [Pull X L R] says that [L] is [X] and [R]; the search is over the shape of [L] *)
Class Pull (X L R : list block) : Prop := pull : L ≡ₚ X ++ R.
#[export] Hint Mode Pull ! ! - : typeclass_instances.

#[export] Instance pull_nil L : Pull [] L L | 0.
Proof. unfold Pull. reflexivity. Qed.
#[export] Instance pull_here b L : Pull [b] (b :: L) L | 1.
Proof. unfold Pull. reflexivity. Qed.
#[export] Instance pull_all X : Pull X X [] | 1.
Proof. unfold Pull. by rewrite app_nil_r. Qed.
#[export] Instance pull_first X L : Pull X (X ++ L) L | 1.
Proof. unfold Pull. reflexivity. Qed.
Lemma pull_in_tail X x L R : Pull X L R -> Pull X (x :: L) (x :: R).
Proof. unfold Pull. intros ->. by rewrite Permutation_middle. Qed.
Lemma pull_in_left X L L' R : Pull X L R -> Pull X (L ++ L') (R ++ L').
Proof. unfold Pull. intros ->. by rewrite app_assoc. Qed.
Lemma pull_in_right X L L' R : Pull X L' R -> Pull X (L ++ L') (L ++ R).
Proof. unfold Pull. intros ->. by rewrite !app_assoc, (Permutation_app_comm L X). Qed.
Lemma pull_both b X L R R' : Pull [b] L R -> Pull X R R' -> Pull (b :: X) L R'.
Proof. unfold Pull. by intros -> ->. Qed.
Lemma pull_app X Y L R R' : Pull X L R -> Pull Y R R' -> Pull (X ++ Y) L R'.
Proof. unfold Pull. intros -> ->. by rewrite app_assoc. Qed.
#[export] Hint Extern 2 (Pull ?X (_ :: _) _) => (lazymatch X with [_] => simple eapply pull_in_tail | _ :: _ => fail | _ => simple eapply pull_in_tail end) : typeclass_instances.
#[export] Hint Extern 3 (Pull _ (_ ++ _) _) => simple eapply pull_in_left : typeclass_instances.
#[export] Hint Extern 4 (Pull _ (_ ++ _) _) => simple eapply pull_in_right : typeclass_instances.
#[export] Hint Extern 5 (Pull (_ :: ?X) _ _) => (lazymatch X with [] => fail | _ => simple eapply pull_both end) : typeclass_instances.
#[export] Hint Extern 5 (Pull (_ ++ _) _ _) => simple eapply pull_app : typeclass_instances.

Lemma pull_in b L R : Pull [b] L R -> b ∈ L.
Proof. unfold Pull. intros ->. left. Qed.

(** [L] and [L'] hold the same blocks. *)
Lemma pull_same L L' R : Pull L' L R -> R = [] -> L ≡ₚ L'.
Proof. unfold Pull. intros HP ->. by rewrite HP, app_nil_r. Qed.

Ltac same_blocks := solve [reflexivity | eapply pull_same; [apply _|reflexivity]].

Section PullRules.
Context {A : Type}.
Implicit Types (B F : list block) (Q : A -> list block -> Prop).

Lemma own_give {KA : KernelAlloc} B B' k p (f : unit -> M heap A) Q : Pull [(k, p)] B B' -> own B' (f tt) Q -> own B (bind (free k p) f) Q.
Proof. intros HP. by apply own_free. Qed.

Lemma own_release {KA : KernelAlloc} B B' k p (f : unit -> M heap A) Q : Pull [(k, p)] B B' -> own B' (f tt) Q -> own B (bind (drop_block k p) f) Q.
Proof. intros HP. by apply own_drop. Qed.

Lemma own_do {C} B B1 F (m : M heap C) (k : C -> M heap A) R Q :
  own B1 m R -> Pull B1 B F -> (forall c X, R c X -> own (X ++ F) (k c) Q) -> own B (bind m k) Q.
Proof. intros Hm HP Hk. exact (own_call _ _ _ _ _ _ _ Hm HP Hk). Qed.

(** A structure is made on the side. *)
Lemma own_make {C} B (blocks : C -> list block) Φ (m : M heap C) (k : C -> M heap A) Q :
  makes blocks Φ m -> (forall c, Φ c -> own (blocks c ++ B) (k c) Q) -> own B (bind m k) Q.
Proof.
  intros Hm Hk. eapply own_do; [exact Hm|apply _|]. cbn. intros c X [HX Hc]. eapply own_perm; [|by apply Hk]. by rewrite HX.
Qed.

(** A structure is given back. *)
Lemma own_clear B B1 F (m : M heap unit) (k : unit -> M heap A) Q :
  clears B1 m -> Pull B1 B F -> own F (k tt) Q -> own B (bind m k) Q.
Proof. intros Hm HP Hk. eapply own_do; [exact Hm|exact HP|]. by intros [] X ->. Qed.
End PullRules.

(** A call at the end. *)
Lemma own_end B (m : M heap unit) : own B (m ;; ret tt) (fun _ X => X = []) -> clears B m.
Proof.
  intros Hm l c t h Hh. destruct (Hm l c t h Hh) as (a & t' & h' & E & H). exists a, t', h'. split; [|done].
  unfold bind in E. by destruct (m c t h) as [[[[] t1] h1]|].
Qed.

Lemma own_tail {A} B (m : M heap A) Q : own B (let* a := m in ret a) Q -> own B m Q.
Proof.
  intros Hm l c t h Hh. destruct (Hm l c t h Hh) as (a & t' & h' & E & H). exists a, t', h'. split; [|done].
  unfold bind in E. by destruct (m c t h) as [[[? ?] ?]|].
Qed.

(** One call: whatever can be said of it from what is held. *)
Ltac own_step :=
  lazymatch goal with
  | |- own _ (bind (alloc _) _) _ => apply own_alloc; [assumption|intros ? ?]
  | |- own _ (bind (touch _ _) _) _ => apply own_touch; [eapply pull_in; apply _|]
  | |- own _ (bind (fill _ _ _) _) _ => apply own_fill; [eapply pull_in; apply _|]
  | |- own _ (bind (free _ 0) _) _ => apply own_free_null
  | |- own _ (bind (free _ _) _) _ => eapply own_give; [apply _|]
  | |- own _ (bind (drop_block _ _) _) _ => eapply own_release; [apply _|]
  | |- own _ (bind (lift _) _) _ => eapply own_lift; [reflexivity|]
  | |- own _ (bind (assert _) _) _ => apply own_assert; [assumption|]
  | |- own _ (bind (ret _) _) _ => apply own_ret_bind
  | |- own _ (bind (bind _ _) _) _ => apply own_assoc
  end.
