(* ===== verification/Lifetime.v ===== *)
(** * What the devices hold

    Every allocation of ssd.c, pqueue.c and the initialisers of the FTLs, and what their
    removal gives back: the structures here are the pointers the C structures hold, with the
    contents of the arrays they point to.  What the memory is filled with is in Ssd.v, ConvFtl.v,
    ZnsFtl.v, KvFtl.v. *)

From Stdlib Require Import ZArith Lia.
From stdpp Require Import base numbers list sets.
From S2P Require Import Prelude Config SsdParams Memory.
From S2P Require ZnsFtl.

Section Lifetime.
Context {KA : KernelAlloc}.

(** ** ssd.c *)

(** A page is its [sec]. *)
Definition ssd_init_nand_page (spp : ssdparams) : M heap Z :=
  let* sec := kmalloc in fill KMEM sec (secs_per_pg spp) ;; ret sec.
Definition ssd_remove_nand_page (sec : Z) : M heap unit := kfree sec.

Record nand_block : Type := mk_block { npgs : Z; pg : array Z }.
Record nand_plane : Type := mk_plane { nblks : Z; blk : array nand_block }.
Record nand_lun : Type := mk_lun { npls : Z; pl : array nand_plane }.
Record ssd_channel : Type := mk_ch { nluns : Z; lun : array nand_lun; ch_perf_model : Z }.
Record ssd_pcie : Type := mk_pcie { pcie_at : Z; perf_model : Z }.

(** [sp_nchs]: from the copy of the parameters. *)
Record ssd : Type := mk_ssd { ssd_at : Z; sp_nchs : Z; ch : array ssd_channel; pcie : option ssd_pcie; write_buffer : Z }.

Definition ssd_init_nand_blk_of (n : Z) (spp : ssdparams) : M heap nand_block :=
  let* p := kmalloc in let* a := init_array p n (fun _ => ssd_init_nand_page spp) in ret (mk_block n a).
Definition ssd_init_nand_blk (spp : ssdparams) : M heap nand_block := ssd_init_nand_blk_of (pgs_per_blk spp) spp.
Definition ssd_init_nand_blk_slc (spp : ssdparams) : M heap nand_block := ssd_init_nand_blk_of (pgs_per_blk_slc spp) spp.
Definition ssd_remove_nand_blk (b : nand_block) : M heap unit :=
  walk_array (pg b) (npgs b) ssd_remove_nand_page ;; kfree (base (pg b)).

Definition ssd_init_nand_plane (spp : ssdparams) : M heap nand_plane :=
  let* p := kmalloc in
  let* a := init_array p (blks_per_pl spp) (fun i => if i <? tt_lines_slc spp then ssd_init_nand_blk_slc spp else ssd_init_nand_blk spp) in
  ret (mk_plane (blks_per_pl spp) a).
Definition ssd_remove_nand_plane (x : nand_plane) : M heap unit :=
  walk_array (blk x) (nblks x) ssd_remove_nand_blk ;; kfree (base (blk x)).

Definition ssd_init_nand_lun (spp : ssdparams) : M heap nand_lun :=
  let* p := kmalloc in let* a := init_array p (pls_per_lun spp) (fun _ => ssd_init_nand_plane spp) in ret (mk_lun (pls_per_lun spp) a).
Definition ssd_remove_nand_lun (x : nand_lun) : M heap unit :=
  walk_array (pl x) (npls x) ssd_remove_nand_plane ;; kfree (base (pl x)).

(** [chmodel_init] fills the model. *)
Definition ssd_init_ch (spp : ssdparams) : M heap ssd_channel :=
  let* p := kmalloc in
  let* a := init_array p (luns_per_ch spp) (fun _ => ssd_init_nand_lun spp) in
  let* m := kmalloc in touch KMEM m ;; ret (mk_ch (luns_per_ch spp) a m).
Definition ssd_remove_ch (x : ssd_channel) : M heap unit :=
  kfree (ch_perf_model x) ;; walk_array (lun x) (nluns x) ssd_remove_nand_lun ;; kfree (base (lun x)).

Definition ssd_init_pcie (p : Z) : M heap ssd_pcie :=
  let* m := kmalloc in touch KMEM p ;; touch KMEM m ;; ret (mk_pcie p m).

Definition ssd_init (s : Z) (spp : ssdparams) : M heap ssd :=
  touch KMEM s ;;
  let* c := kmalloc in
  let* a := init_array c (nchs spp) (fun _ => ssd_init_ch spp) in
  let* p := kmalloc in
  let* x := ssd_init_pcie p in
  let* w := kmalloc in touch KMEM w ;; ret (mk_ssd s (nchs spp) a (Some x) w).

Definition ssd_remove (s : ssd) : M heap unit :=
  touch KMEM (ssd_at s) ;;
  kfree (write_buffer s) ;;
  match pcie s with None => ret tt | Some x => touch KMEM (pcie_at x) ;; kfree (perf_model x) ;; kfree (pcie_at x) end ;;
  walk_array (ch s) (sp_nchs s) ssd_remove_ch ;; kfree (base (ch s)).

(** ** pqueue.c: [None] is [NULL] *)
Record pqueue : Type := mk_pq { q_at : Z; q_d : Z }.
Definition pqueue_init : M heap (option pqueue) :=
  let* q := kmalloc in
  if q =? 0 then ret None
  else
    let* d := kmalloc in
    if d =? 0 then kfree q ;; ret None else touch KMEM q ;; ret (Some (mk_pq q d)).
Definition pqueue_free (o : option pqueue) : M heap unit :=
  let* q := lift (of_opt NullDeref o) in touch KMEM (q_at q) ;; kfree (q_d q) ;; kfree (q_at q).

(** ** conv_ftl.c *)
Record line_mgmt : Type := mk_lm { lines : Z; victim_line_pq : option pqueue }.

(** [slm]: only filled in with the cache enabled. *)
Record conv_ftl : Type := mk_conv { f_ssd : ssd; f_slc_mode : bool; maptbl : Z; rmap : Z; lm : line_mgmt; slm : option line_mgmt }.

Definition init_lines (slc : bool) (spp : ssdparams) : M heap (line_mgmt * option line_mgmt) :=
  if slc then
    assert (u32 (u32 (tt_lines_tlc spp) + u32 (tt_lines_slc spp)) =? tt_lines spp) ;;
    let* l := vmalloc in let* sl := vmalloc in
    let* q := pqueue_init in fill VMEM l (tt_lines_tlc spp) ;;
    let* sq := pqueue_init in fill VMEM sl (tt_lines_slc spp) ;;
    ret (mk_lm l q, Some (mk_lm sl sq))
  else
    assert (u32 (blks_per_pl spp) =? tt_lines spp) ;;
    let* l := vmalloc in let* q := pqueue_init in fill VMEM l (blks_per_pl spp) ;;
    ret (mk_lm l q, None).

Definition remove_lines (f : conv_ftl) : M heap unit :=
  pqueue_free (victim_line_pq (lm f)) ;; vfree (lines (lm f)) ;;
  when (f_slc_mode f)
    (let* m := lift (of_opt Uninit (slm f)) in pqueue_free (victim_line_pq m) ;; vfree (lines m)).

Definition init_maptbl (spp : ssdparams) : M heap Z := let* p := vmalloc in fill VMEM p (tt_pgs spp) ;; ret p.
Definition remove_maptbl (f : conv_ftl) : M heap unit := vfree (maptbl f).
Definition init_rmap (spp : ssdparams) : M heap Z := let* p := vmalloc in fill VMEM p (tt_pgs spp) ;; ret p.
Definition remove_rmap (f : conv_ftl) : M heap unit := vfree (rmap f).

Definition conv_init_ftl (slc : bool) (spp : ssdparams) (s : ssd) : M heap conv_ftl :=
  let* m := init_maptbl spp in
  let* r := init_rmap spp in
  let* l := init_lines slc spp in
  ret (mk_conv s slc m r (fst l) (snd l)).
Definition conv_remove_ftl (f : conv_ftl) : M heap unit := remove_lines f ;; remove_rmap f ;; remove_maptbl f.

Definition set_shared (s : ssd) (x : option ssd_pcie) (w : Z) : ssd := mk_ssd (ssd_at s) (sp_nchs s) (ch s) x w.
Definition set_ssd (f : conv_ftl) (s : ssd) : conv_ftl := mk_conv s (f_slc_mode f) (maptbl f) (rmap f) (lm f) (slm f).

(** A part after the first gives its link and write buffer up for those of the first. *)
Definition share_parts (arr : Z) (first f : conv_ftl) : M heap conv_ftl :=
  let s := f_ssd f in
  touch KMEM arr ;; touch KMEM (ssd_at s) ;;
  let* x := lift (of_opt NullDeref (pcie s)) in
  touch KMEM (pcie_at x) ;; kfree (perf_model x) ;; kfree (pcie_at x) ;; kfree (write_buffer s) ;;
  touch KMEM (ssd_at (f_ssd first)) ;;
  ret (set_ssd f (set_shared s (pcie (f_ssd first)) (write_buffer (f_ssd first)))).

(** The namespace: its [ftls]. *)
Definition conv_init_namespace (slc : bool) (nr_parts : Z) (spp : ssdparams) : M heap (array conv_ftl) :=
  let* arr := kmalloc in
  let* a := init_array arr nr_parts (fun _ => let* p := kmalloc in let* s := ssd_init p spp in conv_init_ftl slc spp s) in
  match cells a with
  | [] => ret a
  | first :: rest => let* rest := collect rest (share_parts arr first) in ret (mk_array arr (first :: rest))
  end.

Definition conv_forget_shared (arr : Z) (f : conv_ftl) : M heap conv_ftl :=
  touch KMEM arr ;; touch KMEM (ssd_at (f_ssd f)) ;; ret (set_ssd f (set_shared (f_ssd f) None 0)).

Definition conv_remove_namespace (nr_parts : Z) (a : array conv_ftl) : M heap unit :=
  let* rest := collect (tail (cells a)) (conv_forget_shared (base a)) in
  walk_array (mk_array (base a) (match cells a with [] => [] | f :: _ => f :: rest end)) nr_parts
    (fun f => conv_remove_ftl f ;; ssd_remove (f_ssd f) ;; kfree (ssd_at (f_ssd f))) ;;
  kfree (base a).

(** ** zns_ftl.c: a buffer that the parameters do not ask for stays [NULL] *)
Record zns_ftl : Type := mk_zns {
  z_at : Z; z_ssd : ssd; zone_descs : Z; report_buffer : Z; zrwa_buffer : Z; zone_write_buffer : Z; zp : ZnsFtl.znsparams;
}.

Definition optional_buffers (size nr_zones : Z) : M heap Z := if size =? 0 then ret 0 else kmalloc.
Definition __init_descriptor (p : ZnsFtl.znsparams) : M heap (Z * Z * Z * Z) :=
  let n := ZnsFtl.nr_zones p in
  let* d := kmalloc in
  let* r := kmalloc in
  let* b := optional_buffers (ZnsFtl.zrwa_buffer_size p) n in
  let* w := optional_buffers (ZnsFtl.zone_wb_size p) n in
  fill KMEM d n ;;
  when (negb (ZnsFtl.zrwa_buffer_size p =? 0)) (fill KMEM b n) ;;
  when (negb (ZnsFtl.zone_wb_size p =? 0)) (fill KMEM w n) ;;
  ret (d, r, b, w).
Definition __remove_descriptor (z : zns_ftl) : M heap unit :=
  when (negb (ZnsFtl.zrwa_buffer_size (zp z) =? 0)) (kfree (zrwa_buffer z)) ;;
  when (negb (ZnsFtl.zone_wb_size (zp z) =? 0)) (kfree (zone_write_buffer z)) ;;
  kfree (report_buffer z) ;;
  kfree (zone_descs z).

Definition zns_init_namespace (spp : ssdparams) (p : ZnsFtl.znsparams) : M heap zns_ftl :=
  let* sp := kmalloc in
  let* s := ssd_init sp spp in
  let* z := kmalloc in
  touch KMEM z ;;
  let* x := __init_descriptor p in
  let '(d, r, b, w) := x in ret (mk_zns z s d r b w p).
Definition zns_remove_namespace (z : zns_ftl) : M heap unit :=
  touch KMEM (z_at z) ;;
  ssd_remove (z_ssd z) ;; __remove_descriptor z ;; kfree (ssd_at (z_ssd z)) ;; kfree (z_at z).

(** ** kv_ftl.c: the namespace and its mapped table *)
Record kv_ftl : Type := mk_kv { k_at : Z; kv_mapping_table : Z }.
Definition kv_init_namespace (hash_slots : Z) : M heap kv_ftl :=
  let* f := kmalloc in
  let* t := alloc MAPPING in
  touch KMEM f ;;
  fill MAPPING t hash_slots ;;
  ret (mk_kv f t).
Definition kv_remove_namespace (f : kv_ftl) : M heap unit := kfree (k_at f).
End Lifetime.
