(* ===== verification/LifetimeSpec.v ===== *)
(** * The devices give back what they took

    For every structure of Lifetime.v: the blocks it holds, that its initialiser takes exactly
    these, and that its removal gives exactly these back. *)

From Stdlib Require Import ZArith Lia.
From stdpp Require Import base numbers list sets.
From S2P Require Import Prelude Config SsdParams Memory Lifetime.

Definition pages (sec : Z) : list block := [(KMEM, sec)].
Definition blk_blocks (b : nand_block) : list block := array_blocks pages (pg b).
Definition plane_blocks (x : nand_plane) : list block := array_blocks blk_blocks (blk x).
Definition lun_blocks (x : nand_lun) : list block := array_blocks plane_blocks (pl x).
Definition ch_blocks (x : ssd_channel) : list block := (KMEM, ch_perf_model x) :: array_blocks lun_blocks (lun x).
Definition pcie_blocks (x : ssd_pcie) : list block := [(KMEM, perf_model x); (KMEM, pcie_at x)].

Definition full {A} (n : Z) (ok : A -> Prop) (a : array A) : Prop := zlen (cells a) = n /\ Forall ok (cells a).

(** Array lengths are what the counters say. *)
Definition blk_ok (b : nand_block) : Prop := full (npgs b) (fun _ => True) (pg b).
Definition plane_ok (x : nand_plane) : Prop := full (nblks x) blk_ok (blk x).
Definition lun_ok (x : nand_lun) : Prop := full (npls x) plane_ok (pl x).
Definition ch_ok (x : ssd_channel) : Prop := full (nluns x) lun_ok (lun x).

(** The counts of a geometry. *)
Record counts_nonneg (spp : ssdparams) : Prop := {
  cn_pgs : 0 <= pgs_per_blk spp; cn_pgs_slc : 0 <= pgs_per_blk_slc spp; cn_blks : 0 <= blks_per_pl spp;
  cn_pls : 0 <= pls_per_lun spp; cn_luns : 0 <= luns_per_ch spp; cn_chs : 0 <= nchs spp;
}.

Section Spec.
Context {KA : KernelAlloc} (Hno : forall p, alloc_fails p = false).

(** An array of structures that know their number. *)
Lemma makes_array {A B} (blocks : A -> list block) ok (bs : B -> list block) (P : B -> Prop) n (f : Z -> M heap A) (wrap : array A -> B) :
  0 <= n -> (forall i, 0 <= i < n -> makes blocks ok (f i)) ->
  (forall a, full n ok a -> P (wrap a)) -> (forall a, bs (wrap a) = array_blocks blocks a) ->
  makes bs P (let* p := kmalloc in let* a := init_array p n f in ret (wrap a)).
Proof.
  intros Hn Hf HP Hb. unfold makes. own_step. eapply own_bind; [by apply own_init_array|]. cbn.
  intros a X (HX & _ & Hok & Hl). apply own_ret. split; [by rewrite Hb|]. by apply HP.
Qed.

Lemma clears_array {A} (blocks : A -> list block) ok n (f : A -> M heap unit) a :
  full n ok a -> (forall x, ok x -> clears (blocks x) (f x)) ->
  clears (array_blocks blocks a) (walk_array a n f ;; kfree (base a)).
Proof.
  intros [Hn Hok] Hf. eapply own_bind; [apply own_walk_array; [done|eapply Forall_impl; [exact Hok|done]]|]. cbn.
  intros [] X ->. apply own_end. own_step. by apply own_ret.
Qed.

Lemma page_makes spp : makes pages (fun _ => True) (ssd_init_nand_page spp).
Proof. unfold makes, ssd_init_nand_page. own_step. own_step. by apply own_ret. Qed.
Lemma page_clears sec : clears (pages sec) (ssd_remove_nand_page sec).
Proof. apply own_end. unfold pages, ssd_remove_nand_page. own_step. by apply own_ret. Qed.

Lemma blk_makes n spp : 0 <= n -> makes blk_blocks blk_ok (ssd_init_nand_blk_of n spp).
Proof. intros Hn. eapply makes_array; [done|intros i _; apply page_makes|done|done]. Qed.
Lemma blk_clears b : blk_ok b -> clears (blk_blocks b) (ssd_remove_nand_blk b).
Proof. intros Hb. eapply clears_array; [exact Hb|intros x _; apply page_clears]. Qed.

Section Geometry.
Context (spp : ssdparams) (G : counts_nonneg spp).

Lemma plane_makes : makes plane_blocks plane_ok (ssd_init_nand_plane spp).
Proof. destruct G. eapply makes_array; [done| |done|done]. intros i _. case_match; by apply blk_makes. Qed.
Lemma lun_makes : makes lun_blocks lun_ok (ssd_init_nand_lun spp).
Proof. destruct G. eapply makes_array; [done|intros i _; apply plane_makes|done|done]. Qed.
End Geometry.

Lemma plane_clears x : plane_ok x -> clears (plane_blocks x) (ssd_remove_nand_plane x).
Proof. intros Hx. eapply clears_array; [exact Hx|apply blk_clears]. Qed.
Lemma lun_clears x : lun_ok x -> clears (lun_blocks x) (ssd_remove_nand_lun x).
Proof. intros Hx. eapply clears_array; [exact Hx|apply plane_clears]. Qed.

Lemma ch_makes spp : counts_nonneg spp -> makes ch_blocks ch_ok (ssd_init_ch spp).
Proof.
  intros G. unfold makes, ssd_init_ch. own_step.
  eapply own_bind; [eapply own_init_array; [by destruct G|intros i _; by apply lun_makes]|]. cbn beta. intros a X (HX & _ & Hok & Hl).
  own_step. own_step. apply own_ret. split; [|by split]. by rewrite HX.
Qed.
Lemma ch_clears x : ch_ok x -> clears (ch_blocks x) (ssd_remove_ch x).
Proof. intros Hx. unfold clears, ssd_remove_ch, ch_blocks. own_step. eapply clears_array; [exact Hx|apply lun_clears]. Qed.

(** ** The SSD: its own blocks, and those parts may share *)
Definition core_blocks (s : ssd) : list block := array_blocks ch_blocks (ch s) ++ [(KMEM, ssd_at s)].
Definition link_blocks (x : ssd_pcie) (w : Z) : list block := [(KMEM, w)] ++ pcie_blocks x.

Definition ssd_whole (s : ssd) : Prop := full (sp_nchs s) ch_ok (ch s).

Lemma pcie_makes p : own [(KMEM, p)] (ssd_init_pcie p) (fun x X => X ≡ₚ pcie_blocks x).
Proof. unfold ssd_init_pcie. do 3 own_step. by apply own_ret. Qed.

Lemma ssd_makes p spp : counts_nonneg spp ->
  own [(KMEM, p)] (ssd_init p spp) (fun s X => ssd_at s = p /\ ssd_whole s /\ exists x, pcie s = Some x /\ X ≡ₚ core_blocks s ++ link_blocks x (write_buffer s)).
Proof.
  intros G. unfold ssd_init. own_step. own_step.
  eapply own_do; [eapply (own_init_array ch_blocks ch_ok); [by destruct G|intros i _; by apply ch_makes]|apply _|].
  cbn [app]. intros a X (HX & Hb & Hok & Hl). own_step. eapply own_do; [apply pcie_makes|apply _|]. cbn beta. intros x Y HY.
  own_step. own_step. apply own_ret. split; [done|]. split; [by split|]. exists x. split; [done|].
  unfold core_blocks, link_blocks. cbn [ssd_at ch write_buffer]. rewrite HX, HY. same_blocks.
Qed.

(** The removal leaves the structure to its owner: with its link and write buffer, or after it gave
    them up. *)
Lemma chs_clear s Q : ssd_whole s -> Q tt [(KMEM, ssd_at s)] ->
  own (core_blocks s) (walk_array (ch s) (sp_nchs s) ssd_remove_ch ;; kfree (base (ch s)) ;; ret tt) Q.
Proof.
  intros [Hn Hok] HQ. unfold core_blocks. eapply own_do; [apply (own_walk_array ch_blocks)|apply _|].
  - done.
  - eapply Forall_impl; [exact Hok|]. apply ch_clears.
  - cbn beta. intros [] X ->. own_step. by apply own_ret.
Qed.

Lemma ssd_removed s x : ssd_whole s -> pcie s = Some x ->
  own (core_blocks s ++ link_blocks x (write_buffer s)) (ssd_remove s) (fun _ X => X = [(KMEM, ssd_at s)]).
Proof.
  intros Hs Hx. apply own_tail_unit. unfold ssd_remove, core_blocks, link_blocks, pcie_blocks. rewrite Hx. repeat own_step.
  eapply own_perm; [|by apply (chs_clear s)]. unfold core_blocks. same_blocks.
Qed.

Lemma ssd_clears s x : ssd_whole s -> pcie s = Some x ->
  clears (core_blocks s ++ link_blocks x (write_buffer s)) (ssd_remove s ;; kfree (ssd_at s)).
Proof. intros Hs Hx. apply own_end. own_step. eapply own_bind; [by apply ssd_removed|]. intros [] X ->. own_step. by apply own_ret. Qed.

Lemma ssd_clears_shared s : ssd_whole s -> clears (core_blocks s) (ssd_remove (set_shared s None 0) ;; kfree (ssd_at s)).
Proof.
  intros Hs. apply own_end. own_step. eapply (own_bind _ _ _ (fun _ X => X = [(KMEM, ssd_at s)])).
  - apply own_tail_unit. unfold ssd_remove. cbn [set_shared ssd_at write_buffer pcie ch sp_nchs]. unfold core_blocks. repeat own_step.
    eapply own_perm; [|by apply (chs_clear s)]. unfold core_blocks. same_blocks.
  - intros [] X ->. own_step. by apply own_ret.
Qed.

(** ** Lines *)
Definition pq_blocks (q : pqueue) : list block := [(KMEM, q_d q); (KMEM, q_at q)].
Definition lm_blocks (m : line_mgmt) : list block := from_option pq_blocks [] (victim_line_pq m) ++ [(VMEM, lines m)].
Definition lm_ok (m : line_mgmt) : Prop := is_Some (victim_line_pq m).

(** The second area exists exactly with the cache. *)
Definition lines_blocks (slc : bool) (m : line_mgmt) (o : option line_mgmt) : list block := lm_blocks m ++ from_option lm_blocks [] o.
Definition lines_ok (slc : bool) (m : line_mgmt) (o : option line_mgmt) : Prop :=
  lm_ok m /\ match o with Some m => slc = true /\ lm_ok m | None => slc = false end.

Lemma pqueue_makes : makes (from_option pq_blocks []) is_Some pqueue_init.
Proof.
  unfold makes, pqueue_init. own_step. rewrite (proj2 (Z.eqb_neq p 0)) by done. own_step. rewrite (proj2 (Z.eqb_neq p0 0)) by done.
  own_step. apply own_ret. split; [done|by eexists].
Qed.

Lemma pqueue_clears o : is_Some o -> clears (from_option pq_blocks [] o) (pqueue_free o).
Proof. intros [q ->]. apply own_end. unfold pqueue_free. cbn [from_option]. unfold pq_blocks. repeat own_step. by apply own_ret. Qed.

(** The number of lines is what [init_lines] asserts. *)
Definition lines_fit (slc : bool) (spp : ssdparams) : Prop :=
  (if slc then u32 (u32 (tt_lines_tlc spp) + u32 (tt_lines_slc spp)) else u32 (blks_per_pl spp)) = tt_lines spp.

Lemma lines_makes slc spp : lines_fit slc spp ->
  makes (fun x => lines_blocks slc (fst x) (snd x)) (fun x => lines_ok slc (fst x) (snd x)) (init_lines slc spp).
Proof.
  intros Hf. unfold makes, init_lines, lines_fit in *. destruct slc; apply Z.eqb_eq in Hf.
  - do 3 own_step. eapply own_make; [exact pqueue_makes|]. cbn beta. intros q Hq. own_step. eapply own_make; [exact pqueue_makes|]. cbn beta. intros sq Hsq.
    own_step. apply own_ret. split; [|done]. unfold lines_blocks, lm_blocks. cbn [fst snd from_option victim_line_pq lines]. same_blocks.
  - do 2 own_step. eapply own_make; [exact pqueue_makes|]. cbn beta. intros q Hq. own_step. apply own_ret. split; [|done].
    unfold lines_blocks, lm_blocks. cbn [fst snd from_option victim_line_pq lines]. same_blocks.
Qed.

Lemma lines_clears f : lines_ok (f_slc_mode f) (lm f) (slm f) -> clears (lines_blocks (f_slc_mode f) (lm f) (slm f)) (remove_lines f).
Proof.
  intros [Hm Ho]. apply own_end. unfold remove_lines, lines_blocks, lm_blocks. own_step.
  eapply own_clear; [by apply pqueue_clears|apply _|]. repeat own_step.
  destruct (slm f) as [m|]; [destruct Ho as [-> Ho]|rewrite Ho; by apply own_ret]. cbn [when from_option]. repeat own_step.
  eapply own_clear; [by apply pqueue_clears|apply _|]. repeat own_step. by apply own_ret.
Qed.

(** ** A part of a conventional namespace *)
Definition part_blocks (f : conv_ftl) : list block :=
  lines_blocks (f_slc_mode f) (lm f) (slm f) ++ [(VMEM, rmap f); (VMEM, maptbl f)] ++ core_blocks (f_ssd f).
Definition part_ok (f : conv_ftl) : Prop := lines_ok (f_slc_mode f) (lm f) (slm f) /\ ssd_whole (f_ssd f).

(** With its own link and write buffer. *)
Definition link_of (s : ssd) : list block := from_option (fun x => link_blocks x (write_buffer s)) [] (pcie s).
Definition alone (f : conv_ftl) : Prop := part_ok f /\ is_Some (pcie (f_ssd f)).

Definition init_part (slc : bool) (spp : ssdparams) : M heap conv_ftl := let* p := kmalloc in let* s := ssd_init p spp in conv_init_ftl slc spp s.
Definition remove_part (f : conv_ftl) : M heap unit := conv_remove_ftl f ;; ssd_remove (f_ssd f) ;; kfree (ssd_at (f_ssd f)).

Lemma part_makes slc spp : counts_nonneg spp -> lines_fit slc spp ->
  makes (fun f => part_blocks f ++ link_of (f_ssd f)) alone (init_part slc spp).
Proof.
  intros G Hf. unfold makes, init_part. own_step. eapply own_bind; [by apply ssd_makes|]. cbn beta. intros s X (_ & Hs & x & Hx & HX).
  unfold conv_init_ftl, init_maptbl, init_rmap. repeat own_step. eapply own_make; [by apply lines_makes|]. intros [m o] Ho. apply own_ret.
  split; [|split; [by split|by eexists]]. unfold part_blocks, link_of. cbn [f_ssd f_slc_mode rmap maptbl lm slm fst snd]. rewrite Hx, HX. cbn [from_option].
  generalize (core_blocks s) (link_blocks x (write_buffer s)) (lines_blocks slc m o). intros. same_blocks.
Qed.

Lemma part_clears f : part_ok f -> is_Some (pcie (f_ssd f)) -> clears (part_blocks f ++ link_of (f_ssd f)) (remove_part f).
Proof.
  intros [Hl Hs] [x Hx]. unfold clears, remove_part, conv_remove_ftl, part_blocks, link_of, remove_rmap, remove_maptbl. rewrite Hx. cbn [from_option].
  own_step. eapply own_clear; [by apply lines_clears|apply _|]. repeat own_step. eapply own_perm; [|by apply ssd_clears]. same_blocks.
Qed.

(** Without: they were the first part's. *)
Lemma part_clears_shared f : part_ok f -> clears (part_blocks f) (remove_part (set_ssd f (set_shared (f_ssd f) None 0))).
Proof.
  intros [Hl Hs]. unfold clears, remove_part, conv_remove_ftl, part_blocks, remove_rmap, remove_maptbl.
  own_step. eapply (own_clear _ (lines_blocks (f_slc_mode f) (lm f) (slm f))); [exact (lines_clears (set_ssd f _) Hl)|apply _|]. cbn [set_ssd f_ssd rmap maptbl]. repeat own_step.
  eapply own_perm; [|by apply (ssd_clears_shared (f_ssd f))]. same_blocks.
Qed.

(** ** The conventional namespace: the first part's link and write buffer are everyone's *)
Definition conv_blocks (a : array conv_ftl) : list block :=
  match cells a with [] => [] | f :: _ => link_of (f_ssd f) end ++ (cells a ≫= part_blocks) ++ [(KMEM, base a)].
Definition conv_ok (n : Z) (a : array conv_ftl) : Prop :=
  zlen (cells a) = n /\ match cells a with [] => True | f :: rest => alone f /\ Forall part_ok rest end.

Lemma share_spec arr first f C : alone f -> (KMEM, arr) ∈ C -> (KMEM, ssd_at (f_ssd first)) ∈ C ->
  own ((part_blocks f ++ link_of (f_ssd f)) ++ C) (share_parts arr first f) (fun g X => X ≡ₚ part_blocks g ++ C /\ part_ok g).
Proof.
  intros [[Hl Hs] [x Hx]] H1 H2. unfold share_parts, part_blocks, link_of, core_blocks, link_blocks, pcie_blocks. rewrite Hx. cbn [from_option].
  apply own_touch; [set_solver|]. repeat own_step. apply own_touch; [set_solver|]. apply own_ret. split; [|by split].
  cbn [set_ssd set_shared f_ssd ssd_at ch f_slc_mode lm slm rmap maptbl]. same_blocks.
Qed.

Lemma first_in f l : (KMEM, ssd_at (f_ssd f)) ∈ part_blocks f ++ l.
Proof. unfold part_blocks, core_blocks. set_solver. Qed.

Lemma conv_makes slc n spp : 0 <= n -> counts_nonneg spp -> lines_fit slc spp -> makes conv_blocks (conv_ok n) (conv_init_namespace slc n spp).
Proof.
  intros Hn G Hf. unfold makes, conv_init_namespace. own_step.
  eapply own_bind; [apply own_init_array; [done|intros i _; by apply (part_makes slc spp)]|]. cbn beta. intros a X (HX & Hb & Hok & Hl).
  unfold conv_blocks, conv_ok. destruct (cells a) as [|f rest] eqn:Hc.
  { apply own_ret. rewrite Hc. split; [|by split]. rewrite HX. by rewrite array_blocks_eq, Hc. }
  apply Forall_cons in Hok as [Hf1 Hr].
  eapply (own_call _ ((rest ≫= (fun f => part_blocks f ++ link_of (f_ssd f))) ++ ((KMEM, p) :: part_blocks f)) (link_of (f_ssd f))).
  - apply (own_collect part_blocks part_ok). intros g Hg. rewrite Forall_forall in Hr. apply share_spec; [by apply Hr|left|].
    right. rewrite <- (app_nil_r (part_blocks f)). apply first_in.
  - rewrite HX. rewrite array_blocks_eq, Hc, Hb. rewrite ?bind_cons.
    generalize (rest ≫= (fun f => part_blocks f ++ link_of (f_ssd f))) (part_blocks f) (link_of (f_ssd f)). intros. same_blocks.
  - cbn beta. intros r Y (HY & Hok & Hlr). apply own_ret. cbn [cells base]. split; [|split; [by rewrite <- Hl; cbn [length]; rewrite Hlr|done]].
    rewrite HY. rewrite ?bind_cons. generalize (r ≫= part_blocks) (part_blocks f) (link_of (f_ssd f)). intros. same_blocks.
Qed.

Definition forgot (g : conv_ftl) : Prop := exists f, part_ok f /\ g = set_ssd f (set_shared (f_ssd f) None 0).

Lemma forget_spec arr f C : part_ok f -> (KMEM, arr) ∈ C ->
  own (part_blocks f ++ C) (conv_forget_shared arr f) (fun g X => X ≡ₚ part_blocks g ++ C /\ forgot g).
Proof.
  intros Hf Hin. unfold conv_forget_shared. apply own_touch; [set_solver|]. apply own_touch; [apply first_in|]. apply own_ret.
  split; [done|by exists f].
Qed.

Lemma forgot_clears g : forgot g -> clears (part_blocks g) (remove_part g).
Proof. intros (f & Hf & ->). exact (part_clears_shared f Hf). Qed.

(** The blocks of a part as the removal meets it. *)
Definition part_left (g : conv_ftl) : list block := part_blocks g ++ link_of (f_ssd g).

Lemma forgot_left g : forgot g -> part_left g = part_blocks g.
Proof. intros (f & _ & ->). apply app_nil_r. Qed.

Lemma conv_clears n a : conv_ok n a -> clears (conv_blocks a) (conv_remove_namespace n a).
Proof.
  intros [Hn Ha]. apply own_end. unfold conv_remove_namespace, conv_blocks. destruct (cells a) as [|f rest] eqn:Hc.
  { cbn [tail collect]. cbn [length] in Hn. subst n. own_step. own_step. unfold walk_array. change (zseq (Z.of_nat 0)) with (@nil Z).
    cbn [for_each base]. repeat own_step. by apply own_ret. }
  destruct Ha as [Hf Hr]. cbn [tail]. rewrite bind_cons. own_step.
  eapply (own_call _ ((rest ≫= part_blocks) ++ [(KMEM, base a)]) (part_blocks f ++ link_of (f_ssd f))).
  - apply (own_collect part_blocks forgot). intros g Hg. rewrite Forall_forall in Hr. apply forget_spec; [by apply Hr|left].
  - generalize (rest ≫= part_blocks) (part_blocks f) (link_of (f_ssd f)). intros. same_blocks.
  - cbn beta. intros r X (HX & Hg & Hl). own_step.
    assert ((r ≫= part_left) = r ≫= part_blocks) as Er.
    { clear -Hg. induction Hg as [|g r Hg _ IH]; [done|]. cbn [mbind list_bind]. by rewrite (forgot_left g Hg), IH. }
    eapply (own_do _ (array_blocks part_left (mk_array (base a) (f :: r))) []).
    + apply own_walk_array; [cbn [cells]; rewrite <- Hn; cbn [length]; by rewrite Hl|]. apply Forall_cons. split.
      * destruct Hf. by apply part_clears.
      * eapply Forall_impl; [exact Hg|]. intros g Hg'. cbn beta. rewrite forgot_left by done. by apply forgot_clears.
    + unfold Pull. rewrite HX, app_nil_r. rewrite array_blocks_eq. cbn [cells base]. rewrite bind_cons.
      rewrite Er. unfold part_left. generalize (r ≫= part_blocks) (part_blocks f) (link_of (f_ssd f)). intros. same_blocks.
    + cbn beta. intros [] Y ->. cbn [base app]. repeat own_step. by apply own_ret.
Qed.

(** ** The zoned namespace *)
Definition some_block (size b : Z) : list block := if size =? 0 then [] else [(KMEM, b)].
Definition zns_blocks (z : zns_ftl) : list block :=
  core_blocks (z_ssd z) ++ link_of (z_ssd z) ++ some_block (ZnsFtl.zone_wb_size (zp z)) (zone_write_buffer z) ++
  some_block (ZnsFtl.zrwa_buffer_size (zp z)) (zrwa_buffer z) ++ [(KMEM, report_buffer z); (KMEM, zone_descs z); (KMEM, z_at z)].
Definition zns_ok (z : zns_ftl) : Prop := ssd_whole (z_ssd z) /\ is_Some (pcie (z_ssd z)).

Lemma optional_makes size n : makes (some_block size) (fun _ => True) (optional_buffers size n).
Proof.
  unfold makes, optional_buffers, some_block. destruct (size =? 0); [by apply own_ret|]. apply own_tail. own_step. by apply own_ret.
Qed.

Lemma fill_if B (b : bool) k p n (f : unit -> M heap zns_ftl) Q : (b = true -> (k, p) ∈ B) -> own B (f tt) Q -> own B (bind (when b (fill k p n)) f) Q.
Proof. intros Hin Hf. destruct b; cbn [when]; [apply own_fill; [by apply Hin|done]|by apply own_ret_bind]. Qed.

Lemma some_in size b : negb (size =? 0) = true -> (KMEM, b) ∈ some_block size b.
Proof. unfold some_block. destruct (size =? 0); [done|left]. Qed.

Lemma zns_makes spp p : counts_nonneg spp -> makes zns_blocks zns_ok (zns_init_namespace spp p).
Proof.
  intros G. unfold makes, zns_init_namespace, __init_descriptor. own_step. eapply own_bind; [by apply ssd_makes|].
  intros s X (_ & Hs & x & Hx & HX). repeat own_step.
  eapply own_make; [apply optional_makes|]. intros b _. repeat own_step. eapply own_make; [apply optional_makes|]. intros w _. repeat own_step.
  apply fill_if; [intros Hb; set_solver by eauto using some_in|].
  own_step. apply fill_if; [intros Hb; set_solver by eauto using some_in|]. repeat own_step. apply own_ret.
  split; [|split; [done|by eexists]]. unfold zns_blocks, link_of. cbn [z_ssd zp zone_write_buffer zrwa_buffer report_buffer zone_descs z_at]. rewrite Hx, HX. cbn [from_option].
  generalize (core_blocks s) (link_blocks x (write_buffer s)). intros. same_blocks.
Qed.

Lemma free_if size b : clears (some_block size b) (when (negb (size =? 0)) (kfree b)).
Proof. apply own_end. unfold some_block. destruct (size =? 0); cbn [negb when]; repeat own_step; by apply own_ret. Qed.

Lemma zns_clears z : zns_ok z -> clears (zns_blocks z) (zns_remove_namespace z).
Proof.
  intros [Hs [x Hx]]. apply own_end. unfold zns_remove_namespace, zns_blocks, __remove_descriptor, link_of. rewrite Hx. cbn [from_option]. repeat own_step.
  eapply (own_do _ (core_blocks (z_ssd z) ++ link_blocks x (write_buffer (z_ssd z)))); [by apply ssd_removed|apply _|].
  intros [] X ->. repeat own_step. eapply own_clear; [apply free_if|apply _|]. repeat own_step. eapply own_clear; [apply free_if|apply _|].
  repeat own_step. by apply own_ret.
Qed.

(** ** The key-value namespace: its table stays mapped *)
Definition kv_blocks (f : kv_ftl) : list block := [(KMEM, k_at f)].
Definition kv_left (f : kv_ftl) : list block := [(MAPPING, kv_mapping_table f)].

Lemma kv_makes slots : makes (fun f => kv_blocks f ++ kv_left f) (fun _ => True) (kv_init_namespace slots).
Proof. unfold makes, kv_init_namespace. repeat own_step. apply own_ret. split; [|done]. unfold kv_blocks, kv_left. cbn [k_at kv_mapping_table]. same_blocks. Qed.

Lemma kv_clears f : clears (kv_blocks f) (kv_remove_namespace f).
Proof. apply own_end. unfold kv_blocks, kv_remove_namespace. own_step. by apply own_ret. Qed.
End Spec.
