(* ===== verification/Loaded.v ===== *)
(** * The module between its loading and its unloading

    What main.c, pci.c, io.c and admin.c take from the kernel and give back: loading with
    its error path, the queues a host makes and deletes, the files under /proc, unloading.
    What the parts do with what they hold is in Main.v, Bar.v, Admin.v, IoWorker.v. *)

From Stdlib Require Import ZArith Lia.
From stdpp Require Import base numbers list sets.
From S2P Require Import Prelude SsdParams Memory Lifetime.
From S2P Require ZnsFtl.

Definition EIO : Z := 5.
Definition EINVAL : Z := 22.
Definition NR_MAX_IO_QUEUE : Z := 72.

(** ** What the device structure points to; 0 is [NULL] *)
Record queue : Type := mk_queue { q_struct : Z; q_pages : Z; q_mapped : Z }.
Record admin_queue : Type := mk_adminq { aq_at : Z; nvme_sq : Z; nvme_cq : Z }.
Record worker : Type := mk_worker { work_queue : Z; task_struct : Z }.

(** The FTL of a namespace: its parameters and its memory. *)
Inductive namespace_conf : Type :=
| Simple
| Conv (slc : bool) (nr_parts : Z) (spp : ssdparams)
| Zns (spp : ssdparams) (p : ZnsFtl.znsparams)
| Kv (hash_slots : Z).
Inductive namespace : Type :=
| SimpleNs
| ConvNs (nr_parts : Z) (a : array conv_ftl)
| ZnsNs (z : zns_ftl)
| KvNs (f : kv_ftl).

(** [proc]: the directory, then its files. *)
Record nvmev_dev : Type := mk_dev {
  at_ : Z; virtDev : Z; io_unit_stat : Z; storage_mapped : Z; proc : list Z;
  ns : array namespace;
  virt_bus : Z; bar : Z; old_dbs : Z; old_bar : Z; msix_table : Z;
  io_workers : array worker; dispatcher : Z;
  admin_q : option admin_queue;
  sqes : list (option queue); cqes : list (option queue); nr_sq : Z; nr_cq : Z;
}.

(** Parts of it. *)
Definition set_storage v x m ps := mk_dev (at_ v) (virtDev v) x m ps (ns v) (virt_bus v) (bar v) (old_dbs v) (old_bar v) (msix_table v)
  (io_workers v) (dispatcher v) (admin_q v) (sqes v) (cqes v) (nr_sq v) (nr_cq v).
Definition set_ns v x := mk_dev (at_ v) (virtDev v) (io_unit_stat v) (storage_mapped v) (proc v) x (virt_bus v) (bar v) (old_dbs v) (old_bar v) (msix_table v)
  (io_workers v) (dispatcher v) (admin_q v) (sqes v) (cqes v) (nr_sq v) (nr_cq v).
Definition set_pci v b x d o m := mk_dev (at_ v) (virtDev v) (io_unit_stat v) (storage_mapped v) (proc v) (ns v) b x d o m
  (io_workers v) (dispatcher v) (admin_q v) (sqes v) (cqes v) (nr_sq v) (nr_cq v).
Definition set_workers v w d := mk_dev (at_ v) (virtDev v) (io_unit_stat v) (storage_mapped v) (proc v) (ns v) (virt_bus v) (bar v) (old_dbs v) (old_bar v) (msix_table v)
  w d (admin_q v) (sqes v) (cqes v) (nr_sq v) (nr_cq v).
Definition set_admin v a := mk_dev (at_ v) (virtDev v) (io_unit_stat v) (storage_mapped v) (proc v) (ns v) (virt_bus v) (bar v) (old_dbs v) (old_bar v) (msix_table v)
  (io_workers v) (dispatcher v) a (sqes v) (cqes v) (nr_sq v) (nr_cq v).
Definition set_queues v s c n m := mk_dev (at_ v) (virtDev v) (io_unit_stat v) (storage_mapped v) (proc v) (ns v) (virt_bus v) (bar v) (old_dbs v) (old_bar v) (msix_table v)
  (io_workers v) (dispatcher v) (admin_q v) s c n m.

Section Loaded.
Context {KA : KernelAlloc}.

(** ** Loading *)
Definition VDEV_INIT : M heap nvmev_dev :=
  let* v := kmalloc in
  let* d := kmalloc in
  touch KMEM v ;;
  let none := replicate (Z.to_nat (NR_MAX_IO_QUEUE + 1)) None in
  ret (mk_dev v d 0 0 [] (mk_array 0 []) 0 0 0 0 0 (mk_array 0 []) 0 None none none 0 0).

(** The files: read_times, write_times, io_units, stat, debug. *)
Definition nr_proc_files : Z := 5.
Definition NVMEV_STORAGE_INIT (v : nvmev_dev) : M heap nvmev_dev :=
  let* s := kmalloc in
  let* m := alloc MAPPING in
  let* root := alloc PROC in
  let* files := collect (zseq nr_proc_files) (fun _ => alloc PROC) in
  ret (set_storage v s m (root :: files)).

Definition init_namespace (c : namespace_conf) : M heap namespace :=
  match c with
  | Simple => ret SimpleNs
  | Conv slc n spp => let* a := conv_init_namespace slc n spp in ret (ConvNs n a)
  | Zns spp p => let* z := zns_init_namespace spp p in ret (ZnsNs z)
  | Kv slots => let* f := kv_init_namespace slots in ret (KvNs f)
  end.
Definition NVMEV_NAMESPACE_INIT (cs : list namespace_conf) (v : nvmev_dev) : M heap nvmev_dev :=
  let* p := kmalloc in
  let* a := init_array p (zlen cs) (fun i => let* c := lift (aget cs i) in init_namespace c) in
  ret (set_ns v a).

(** For a device the bus has. *)
Definition add_device (v : nvmev_dev) : M heap nvmev_dev :=
  let* b := alloc MAPPING in
  assert (negb (b =? 0)) ;; touch MAPPING b ;;
  let* d := kmalloc in
  assert (negb (d =? 0)) ;; touch KMEM d ;;
  let* o := kmalloc in
  assert (negb (o =? 0)) ;; touch KMEM o ;;
  let* m := alloc MAPPING in
  touch MAPPING m ;;
  ret (set_pci v (virt_bus v) b d o m).
Fixpoint add_devices (n : nat) (v : nvmev_dev) : M heap nvmev_dev :=
  match n with O => ret v | S n => let* v := add_device v in add_devices n v end.

(** [scan]: what [pci_scan_bus] finds, the number of devices of the new bus. *)
Definition __create_pci_bus (scan : option nat) (v : nvmev_dev) : M heap nvmev_dev :=
  match scan with
  | None => ret v
  | Some n =>
      let* b := alloc BUS in
      let* v := add_devices n v in
      ret (set_pci v b (bar v) (old_dbs v) (old_bar v) (msix_table v))
  end.
Definition NVMEV_PCI_INIT (scan : option nat) (v : nvmev_dev) : M heap (bool * nvmev_dev) :=
  touch KMEM (virtDev v) ;;
  let* v := __create_pci_bus scan v in
  ret (negb (virt_bus v =? 0), v).

Definition NVMEV_IO_WORKER_INIT (nr_io_workers NR_MAX_PARALLEL_IO : Z) (v : nvmev_dev) : M heap nvmev_dev :=
  let* p := kmalloc in
  let* a := init_array p nr_io_workers (fun _ =>
    let* q := kmalloc in
    fill KMEM q NR_MAX_PARALLEL_IO ;;
    let* t := alloc THREAD in
    touch THREAD t ;;
    ret (mk_worker q t)) in
  ret (set_workers v a (dispatcher v)).

Definition NVMEV_DISPATCHER_INIT (v : nvmev_dev) : M heap nvmev_dev :=
  let* t := alloc THREAD in touch THREAD t ;; ret (set_workers v (io_workers v) t).

(** ** Unloading *)
Definition free_admin_queue (o : option admin_queue) : M heap unit :=
  match o with
  | None => ret tt
  | Some q => touch KMEM (aq_at q) ;; kfree (nvme_cq q) ;; kfree (nvme_sq q) ;; kfree (aq_at q)
  end.
Definition VDEV_FINALIZE (v : nvmev_dev) : M heap unit :=
  touch KMEM (at_ v) ;;
  free MAPPING (msix_table v) ;; free MAPPING (bar v) ;;
  kfree (old_bar v) ;; kfree (old_dbs v) ;;
  free_admin_queue (admin_q v) ;;
  kfree (virtDev v) ;; kfree (at_ v).

Definition NVMEV_STORAGE_FINAL (v : nvmev_dev) : M heap unit :=
  for_each (tail (proc v)) (drop_block PROC) ;;
  for_each (take 1 (proc v)) (drop_block PROC) ;;
  free MAPPING (storage_mapped v) ;; kfree (io_unit_stat v).

Definition remove_namespace (x : namespace) : M heap unit :=
  match x with
  | SimpleNs => ret tt
  | ConvNs n a => conv_remove_namespace n a
  | ZnsNs z => zns_remove_namespace z
  | KvNs f => kv_remove_namespace f
  end.
Definition NVMEV_NAMESPACE_FINAL (v : nvmev_dev) : M heap unit :=
  walk_array (ns v) (zlen (cells (ns v))) remove_namespace ;; kfree (base (ns v)).

Definition NVMEV_IO_WORKER_FINAL (nr_io_workers : Z) (v : nvmev_dev) : M heap unit :=
  walk_array (io_workers v) nr_io_workers (fun w => free THREAD (task_struct w) ;; kfree (work_queue w)) ;;
  kfree (base (io_workers v)).
Definition NVMEV_DISPATCHER_FINAL (v : nvmev_dev) : M heap unit := free THREAD (dispatcher v).

(** [kfree(nvmev_vdev->sqes[i])] *)
Definition free_queues (n : Z) (qs : list (option queue)) : M heap unit :=
  for_each (zseq n) (fun i => let* o := lift (aget qs i) in match o with None => ret tt | Some q => kfree (q_struct q) end).

(** ** The module *)

(** [accepted]: what [__load_configs] says of the parameters; the return value and, when
    it is 0, the device. *)
Definition NVMeV_init (accepted : bool) (cs : list namespace_conf) (scan : option nat) (nr_io_workers NR_MAX_PARALLEL_IO : Z) : M heap (Z * option nvmev_dev) :=
  let* v := VDEV_INIT in
  if negb accepted then VDEV_FINALIZE v ;; ret (- EIO, None)
  else
    let* v := NVMEV_STORAGE_INIT v in
    let* v := NVMEV_NAMESPACE_INIT cs v in
    let* r := NVMEV_PCI_INIT scan v in
    let (ok, v) := r : bool * nvmev_dev in
    if negb ok then VDEV_FINALIZE v ;; ret (- EIO, None)
    else
      let* v := NVMEV_IO_WORKER_INIT nr_io_workers NR_MAX_PARALLEL_IO v in
      let* v := NVMEV_DISPATCHER_INIT v in
      touch BUS (virt_bus v) ;;
      ret (0, Some v).

Definition NVMeV_exit (nr_io_workers : Z) (v : nvmev_dev) : M heap unit :=
  free BUS (virt_bus v) ;;
  NVMEV_DISPATCHER_FINAL v ;;
  NVMEV_IO_WORKER_FINAL nr_io_workers v ;;
  NVMEV_NAMESPACE_FINAL v ;;
  NVMEV_STORAGE_FINAL v ;;
  free_queues (nr_sq v) (sqes v) ;;
  free_queues (nr_cq v) (cqes v) ;;
  VDEV_FINALIZE v.

(** ** What a host has the device do *)

(** [valid]: the pages of the queue are memory the kernel manages. *)
Definition make_queue (valid : bool) : M heap queue :=
  let* q := kmalloc in
  touch KMEM q ;;
  let* p := kmalloc in
  let* m := if valid : bool then ret 0 else alloc MAPPING in
  touch KMEM p ;;
  ret (mk_queue q p m).
Definition __nvmev_admin_create_cq (qid : Z) (valid : bool) (v : nvmev_dev) : M heap nvmev_dev :=
  let* q := make_queue valid in
  let* l := lift (aset (cqes v) qid (Some q)) in
  ret (set_queues v (sqes v) l (nr_sq v) (nr_cq v)).
Definition __nvmev_admin_create_sq (qid : Z) (valid : bool) (v : nvmev_dev) : M heap nvmev_dev :=
  let* q := make_queue valid in
  let* l := lift (aset (sqes v) qid (Some q)) in
  ret (set_queues v l (cqes v) (nr_sq v) (nr_cq v)).

Definition remove_queue (o : option queue) : M heap unit :=
  match o with
  | None => ret tt
  | Some q => touch KMEM (q_struct q) ;; kfree (q_pages q) ;; when (negb (q_mapped q =? 0)) (drop_block MAPPING (q_mapped q)) ;; kfree (q_struct q)
  end.
Definition __nvmev_admin_delete_cq (qid : Z) (v : nvmev_dev) : M heap nvmev_dev :=
  let* o := lift (aget (cqes v) qid) in
  let* l := lift (aset (cqes v) qid None) in
  remove_queue o ;; ret (set_queues v (sqes v) l (nr_sq v) (nr_cq v)).
Definition __nvmev_admin_delete_sq (qid : Z) (v : nvmev_dev) : M heap nvmev_dev :=
  let* o := lift (aget (sqes v) qid) in
  let* l := lift (aset (sqes v) qid None) in
  remove_queue o ;; ret (set_queues v l (cqes v) (nr_sq v) (nr_cq v)).

(** The registers of the admin queue. *)
Definition bars_aqa (v : nvmev_dev) : M heap nvmev_dev :=
  match admin_q v with
  | None => let* q := kmalloc in assert (negb (q =? 0)) ;; touch KMEM q ;; ret (set_admin v (Some (mk_adminq q 0 0)))
  | Some q => touch KMEM (aq_at q) ;; ret v
  end.
Definition bars_asq (v : nvmev_dev) : M heap nvmev_dev :=
  match admin_q v with
  | None => ret v
  | Some q =>
      touch KMEM (aq_at q) ;; kfree (nvme_sq q) ;;
      let* p := kmalloc in assert (negb (p =? 0)) ;; touch KMEM p ;; ret (set_admin v (Some (mk_adminq (aq_at q) p (nvme_cq q))))
  end.
Definition bars_acq (v : nvmev_dev) : M heap nvmev_dev :=
  match admin_q v with
  | None => ret v
  | Some q =>
      touch KMEM (aq_at q) ;; kfree (nvme_cq q) ;;
      let* p := kmalloc in assert (negb (p =? 0)) ;; touch KMEM p ;; ret (set_admin v (Some (mk_adminq (aq_at q) (nvme_sq q) p)))
  end.

(** Writing "io_units" replaces the statistics. *)
Definition proc_write_io_units (v : nvmev_dev) : M heap nvmev_dev :=
  let* s := kmalloc in kfree (io_unit_stat v) ;; ret (set_storage v s (storage_mapped v) (proc v)).

Inductive host_step : Type :=
| WriteAqa | WriteAsq | WriteAcq
| SetQueues (sqs cqs : Z)
| CreateSq (qid : Z) (valid : bool) | CreateCq (qid : Z) (valid : bool)
| DeleteSq (qid : Z) | DeleteCq (qid : Z)
| WriteIoUnits.

Definition do_step (x : host_step) (v : nvmev_dev) : M heap nvmev_dev :=
  match x with
  | WriteAqa => bars_aqa v
  | WriteAsq => bars_asq v
  | WriteAcq => bars_acq v
  | SetQueues s c => ret (set_queues v (sqes v) (cqes v) s c)
  | CreateSq qid valid => __nvmev_admin_create_sq qid valid v
  | CreateCq qid valid => __nvmev_admin_create_cq qid valid v
  | DeleteSq qid => __nvmev_admin_delete_sq qid v
  | DeleteCq qid => __nvmev_admin_delete_cq qid v
  | WriteIoUnits => proc_write_io_units v
  end.
Fixpoint do_steps (l : list host_step) (v : nvmev_dev) : M heap nvmev_dev :=
  match l with [] => ret v | x :: l => let* v := do_step x v in do_steps l v end.
End Loaded.
