(* ===== verification/LoadedSpec.v ===== *)
(** * What the loaded module holds

    The blocks behind the pointers of the device structure, that loading takes exactly these, that
    the steps of a host keep the account, and what unloading leaves behind. *)

From Stdlib Require Import ZArith Lia.
From stdpp Require Import base numbers list sets.
From S2P Require Import Prelude SsdParams Memory Lifetime LifetimeSpec Loaded.

(** ** Blocks *)
Definition at_least (k : block_kind) (p : Z) : list block := if p =? 0 then [] else [(k, p)].

Definition queue_rest (q : queue) : list block := (KMEM, q_pages q) :: at_least MAPPING (q_mapped q).
Definition queue_blocks (q : queue) : list block := (KMEM, q_struct q) :: queue_rest q.
Definition table_blocks (l : list (option queue)) : list block := l ≫= from_option queue_blocks [].

Definition ns_blocks (x : namespace) : list block :=
  match x with SimpleNs => [] | ConvNs _ a => conv_blocks a | ZnsNs z => zns_blocks z | KvNs f => kv_blocks f ++ kv_left f end.
Definition ns_left (x : namespace) : list block := match x with KvNs f => kv_left f | _ => [] end.
Definition ns_ok (x : namespace) : Prop := match x with ConvNs n a => conv_ok n a | ZnsNs z => zns_ok z | _ => True end.

Definition aq_blocks (o : option admin_queue) : list block :=
  from_option (fun q => (KMEM, aq_at q) :: at_least KMEM (nvme_sq q) ++ at_least KMEM (nvme_cq q)) [] o.

Definition worker_blocks (w : worker) : list block := [(THREAD, task_struct w); (KMEM, work_queue w)].

(** The structure with its configuration space; storage; bus and registers. *)
Definition vdev_blocks (v : nvmev_dev) : list block := [(KMEM, virtDev v); (KMEM, at_ v)].
Definition storage_blocks (v : nvmev_dev) : list block := (KMEM, io_unit_stat v) :: (MAPPING, storage_mapped v) :: (pair PROC <$> proc v).
Definition pci_blocks (v : nvmev_dev) : list block :=
  [(MAPPING, msix_table v); (MAPPING, bar v); (KMEM, old_bar v); (KMEM, old_dbs v); (BUS, virt_bus v)].
Definition thread_blocks (v : nvmev_dev) : list block := (THREAD, dispatcher v) :: array_blocks worker_blocks (io_workers v).

Definition fixed_blocks (v : nvmev_dev) : list block :=
  vdev_blocks v ++ pci_blocks v ++ thread_blocks v ++ array_blocks ns_blocks (ns v).
Definition dev_blocks (v : nvmev_dev) : list block :=
  fixed_blocks v ++ storage_blocks v ++ aq_blocks (admin_q v) ++ table_blocks (sqes v) ++ table_blocks (cqes v).

(** ** The parameters the initialisers expect *)
Definition conf_ok (c : namespace_conf) : Prop :=
  match c with
  | Conv slc n spp => 0 <= n /\ counts_nonneg spp /\ lines_fit slc spp
  | Zns spp _ => counts_nonneg spp
  | _ => True
  end.

Lemma zget_Forall {A} (P : A -> Prop) l i x : Forall P l -> zget l i = Some x -> P x.
Proof. unfold zget. intros HF Hx. case_match; [done|]. exact (Forall_lookup_1 _ _ _ _ HF Hx). Qed.

(** Key-value namespaces stay mapped. *)
Definition is_kv (c : namespace_conf) : nat := if c is Kv _ then 1 else 0.
Definition kv_of (x : namespace) : nat := if x is KvNs _ then 1 else 0.
Definition kv_count (cs : list namespace_conf) : nat := sum_list (is_kv <$> cs).

(** The namespace is of the kind of its configuration. *)
Definition made_for (c : namespace_conf) (x : namespace) : Prop :=
  match c, x with
  | Simple, SimpleNs => True
  | Conv _ n _, ConvNs m _ => m = n
  | Zns _ _, ZnsNs _ => True
  | Kv _, KvNs _ => True
  | _, _ => False
  end.

Lemma made_kv c x : made_for c x -> kv_of x = is_kv c.
Proof. by destruct c, x. Qed.

Section Spec.
Context {KA : KernelAlloc} (Hno : forall p, alloc_fails p = false).

Lemma ns_makes c : conf_ok c -> makes ns_blocks (fun x => ns_ok x /\ made_for c x) (init_namespace c).
Proof.
  intros Hc. destruct c as [|slc n spp|spp p|slots]; cbn [init_namespace conf_ok] in *.
  - by apply own_ret.
  - destruct Hc as (Hn & G & Hf). eapply own_make; [by apply (conv_makes Hno)|]. intros a Ha. by apply own_done with (B' := conv_blocks a); [rewrite app_nil_r|].
  - eapply own_make; [by apply (zns_makes Hno)|]. intros z Hz. by apply own_done with (B' := zns_blocks z); [rewrite app_nil_r|].
  - eapply own_make; [by apply (kv_makes Hno)|]. intros f _. by apply own_done with (B' := kv_blocks f ++ kv_left f); [rewrite app_nil_r|].
Qed.

Lemma namespaces_make cs p : Forall conf_ok cs ->
  own [(KMEM, p)] (init_array p (zlen cs) (fun i => let* c := lift (aget cs i) in init_namespace c))
    (fun a X => X ≡ₚ array_blocks ns_blocks a /\ Forall ns_ok (cells a) /\ Forall2 made_for cs (cells a)).
Proof.
  intros Hcs. eapply own_conseq.
  - apply (own_init_array2 ns_blocks p (zlen cs) (fun i x => ns_ok x /\ exists c, zget cs i = Some c /\ made_for c x)).
    intros i Hi. destruct (zget_Some cs i Hi) as [c Hc]. unfold makes. eapply own_lift; [by apply aget_ok|].
    eapply own_conseq; [apply ns_makes; by apply (zget_Forall _ cs i)|]. cbn beta. intros x X (HX & Hx & Hk). eauto.
  - cbn beta. intros a X (HX & _ & HF). split; [done|]. split; [eapply Forall2_Forall_r; [exact HF|]; by apply Forall_true; intros i x [Hx _]|].
    pose proof (Forall2_length _ _ _ HF) as Hlen. rewrite length_zseq in Hlen. apply Forall2_same_length_lookup. split; [lia|].
    intros i c x Hc Hx. destruct (Forall2_lookup_r _ _ _ _ _ HF Hx) as (j & Hj & _ & c' & Hc' & Hm). unfold zseq in Hj. apply lookup_seqZ in Hj as [-> Hi].
    unfold zget in Hc'. destruct (Z.ltb_spec (0 + Z.of_nat i) 0); [lia|]. replace (Z.to_nat (0 + Z.of_nat i)) with i in Hc' by lia. congruence.
Qed.

Lemma made_count cs l : Forall2 made_for cs l -> sum_list (kv_of <$> l) = kv_count cs.
Proof.
  unfold kv_count. induction 1 as [|c x cs l Hm _ IH]; [done|]. rewrite !fmap_cons. cbn [sum_list]. by rewrite (made_kv _ _ Hm), IH.
Qed.

Lemma ns_remove x : ns_ok x -> own (ns_blocks x) (remove_namespace x) (fun _ X => X = ns_left x).
Proof.
  intros Hx. destruct x as [|n a|z|f]; cbn [ns_blocks remove_namespace ns_left ns_ok] in *.
  - by apply own_ret.
  - by apply conv_clears.
  - by apply zns_clears.
  - apply own_tail_unit. eapply own_clear; [apply kv_clears|apply _|]. by apply own_ret.
Qed.

Lemma workers_make n k p : 0 <= n ->
  own [(KMEM, p)] (init_array p n (fun _ => let* q := kmalloc in fill KMEM q k ;; let* t := alloc THREAD in touch THREAD t ;; ret (mk_worker q t)))
    (fun a X => X ≡ₚ array_blocks worker_blocks a /\ base a = p /\ Forall (fun _ => True) (cells a) /\ zlen (cells a) = n).
Proof.
  intros Hn. apply own_init_array; [done|]. intros i _. unfold makes. repeat own_step. by apply own_ret.
Qed.

(** ** Loading *)
Record dev_ok (nw : Z) (v : nvmev_dev) : Prop := {
  do_ns : Forall ns_ok (cells (ns v));
  do_workers : zlen (cells (io_workers v)) = nw;
  do_tables : zlen (sqes v) = NR_MAX_IO_QUEUE + 1 /\ zlen (cqes v) = NR_MAX_IO_QUEUE + 1;
}.

(** No queue was made. *)
Definition no_queues (v : nvmev_dev) : Prop :=
  let none := replicate (Z.to_nat (NR_MAX_IO_QUEUE + 1)) None in
  admin_q v = None /\ sqes v = none /\ cqes v = none /\ nr_sq v = 0 /\ nr_cq v = 0.

(** A device with a structure and no more. *)
Definition bare (v : nvmev_dev) : Prop :=
  no_queues v /\ (io_unit_stat v = 0 /\ storage_mapped v = 0 /\ proc v = []) /\
  (virt_bus v = 0 /\ bar v = 0 /\ old_dbs v = 0 /\ old_bar v = 0 /\ msix_table v = 0).

Lemma vdev_make : makes vdev_blocks bare VDEV_INIT.
Proof. unfold makes, VDEV_INIT. do 3 own_step. by apply own_ret. Qed.

(** Of a structure with no PCI device. *)
Definition no_pci (v : nvmev_dev) : Prop := bar v = 0 /\ old_dbs v = 0 /\ old_bar v = 0 /\ msix_table v = 0 /\ admin_q v = None.

Lemma finalize_bare v : no_pci v -> clears (vdev_blocks v) (VDEV_FINALIZE v).
Proof.
  intros (H1 & H2 & H3 & H4 & H5). apply own_end. unfold VDEV_FINALIZE, free_admin_queue, vdev_blocks. rewrite H1, H2, H3, H4, H5.
  repeat own_step. by apply own_ret.
Qed.

Lemma storage_make v B : own B (NVMEV_STORAGE_INIT v)
  (fun w X => exists s m ps, w = set_storage v s m ps /\ length ps = 6%nat /\ X ≡ₚ storage_blocks w ++ B).
Proof.
  unfold NVMEV_STORAGE_INIT. do 3 own_step.
  eapply (own_do _ ((zseq nr_proc_files ≫= (fun _ => [])) ++ [])); [apply (own_collect (fun q => [(PROC, q)]) (fun _ => True))| |].
  - intros x _. cbn [app]. apply own_tail. own_step. by apply own_ret.
  - exact (pull_nil _).
  - cbn beta. intros r X (HX & _ & Hl). apply own_ret. eexists p, p0, (p1 :: r). split; [done|]. split; [cbn; by rewrite Hl|].
    rewrite HX, app_nil_r. unfold storage_blocks. cbn [set_storage io_unit_stat storage_mapped proc]. rewrite fmap_cons.
    replace (r ≫= (fun q => [(PROC, q)])) with (pair PROC <$> r) by (clear; induction r as [|q r IH]; [done|]; by rewrite fmap_cons, bind_cons, IH).
    generalize (pair PROC <$> r). intros. same_blocks.
Qed.

Lemma neqb_true p : p <> 0 -> negb (p =? 0) = true.
Proof. intros Hp. by rewrite (proj2 (Z.eqb_neq p 0)). Qed.

(** One device on the bus. *)
Lemma pci_make v B : (KMEM, virtDev v) ∈ B -> own B (NVMEV_PCI_INIT (Some 1%nat) v)
  (fun r X => exists b x d o m, r = (true, set_pci v b x d o m) /\ X ≡ₚ pci_blocks (set_pci v b x d o m) ++ B).
Proof.
  intros Hin. unfold NVMEV_PCI_INIT, __create_pci_bus. cbn [add_devices]. unfold add_device. apply own_touch; [done|]. do 2 own_step. rename p into b. repeat own_step.
  rename p into x. apply own_assert; [by apply neqb_true|]. repeat own_step. rename p into d. apply own_assert; [by apply neqb_true|]. repeat own_step.
  rename p into o. apply own_assert; [by apply neqb_true|]. repeat own_step. rename p into m.
  cbn [set_pci virt_bus bar old_dbs old_bar msix_table]. apply own_ret. exists b, x, d, o, m. split; [f_equal; by apply neqb_true|].
  unfold pci_blocks. cbn [set_pci virt_bus bar old_dbs old_bar msix_table]. same_blocks.
Qed.

Lemma threads_make v B nw np : 0 <= nw -> own B (let* v := NVMEV_IO_WORKER_INIT nw np v in NVMEV_DISPATCHER_INIT v)
  (fun w X => exists a t, w = set_workers v a t /\ zlen (cells a) = nw /\ X ≡ₚ thread_blocks w ++ B).
Proof.
  intros Hn. unfold NVMEV_IO_WORKER_INIT, NVMEV_DISPATCHER_INIT. repeat own_step.
  eapply own_do; [by apply (workers_make nw np)|apply _|]. cbn beta. intros a X (HX & _ & _ & Hl). repeat own_step. apply own_ret.
  eexists a, _. split; [done|]. split; [done|]. unfold thread_blocks. cbn [set_workers dispatcher io_workers]. rewrite HX. same_blocks.
Qed.

(** The whole of it. *)
Lemma module_make cs nw np : 0 <= nw -> Forall conf_ok cs ->
  own [] (NVMeV_init true cs (Some 1%nat) nw np)
    (fun r X => exists v, r = (0, Some v) /\ X ≡ₚ dev_blocks v /\ dev_ok nw v /\ no_queues v /\ sum_list (kv_of <$> cells (ns v)) = kv_count cs).
Proof.
  intros Hn Hcs. unfold NVMeV_init. eapply own_make; [exact vdev_make|]. intros v0 (Q & _ & _). cbn [negb].
  eapply own_bind; [apply storage_make|]. intros v X (s & m & ps & -> & _ & HX). set (v := set_storage v0 s m ps) in *.
  unfold NVMEV_NAMESPACE_INIT. repeat own_step.
  eapply own_do; [by apply namespaces_make|apply _|]. cbn beta. intros a Y (HY & Ha & Hk). repeat own_step. set (v1 := set_ns v a) in *.
  eapply own_bind; [apply (pci_make v1)|].
  { rewrite HY, HX. unfold vdev_blocks. change (virtDev v1) with (virtDev v0). set_solver. }
  intros r Y2 (b & x & d & o & mm & -> & HZ). cbn [negb]. set (v2 := set_pci v1 b x d o mm) in *.
  apply own_unassoc. eapply own_bind; [by apply threads_make|]. intros w Y3 (wa & td & -> & Hl & HW). set (v3 := set_workers v2 wa td) in *.
  apply own_touch. { rewrite HW, HZ. change (virt_bus v3) with b. unfold pci_blocks. change (virt_bus v2) with b. set_solver. }
  apply own_ret. exists v3. split; [done|]. destruct Q as (Q1 & Q2 & Q3 & Q4 & Q5). split; [|split; [|split; [done|by apply made_count]]].
  - rewrite HW, HZ, HY, HX. unfold dev_blocks, fixed_blocks.
    change (admin_q v3) with (admin_q v0). change (sqes v3) with (sqes v0). change (cqes v3) with (cqes v0). rewrite Q1, Q2, Q3.
    change (table_blocks (replicate _ None)) with (@nil block). cbn [aq_blocks from_option]. rewrite !app_nil_r.
    change (vdev_blocks v3) with (vdev_blocks v0). change (pci_blocks v3) with (pci_blocks v2). change (storage_blocks v3) with (storage_blocks v). change (ns v3) with a.
    generalize (vdev_blocks v0) (pci_blocks v2) (storage_blocks v) (array_blocks ns_blocks a) (thread_blocks v3). intros. same_blocks.
  - split; [done|done|]. change (sqes v3) with (sqes v0). change (cqes v3) with (cqes v0). rewrite Q2, Q3, !length_replicate. done.
Qed.

Lemma module_refused cs scan nw np : own [] (NVMeV_init false cs scan nw np) (fun r X => r = (- EIO, None) /\ X = []).
Proof.
  unfold NVMeV_init. eapply own_make; [exact vdev_make|]. intros v (Q & _ & P). cbn [negb].
  eapply own_clear; [apply (finalize_bare v)|apply _|by apply own_ret]. destruct Q as (Q & _), P as (_ & P). unfold no_pci. tauto.
Qed.

(** What a failure to make the bus leaves. *)
Definition stays (v : nvmev_dev) : list block := storage_blocks v ++ array_blocks ns_blocks (ns v).

(** A load up to its namespaces. *)
Definition load_namespaces (cs : list namespace_conf) : M heap nvmev_dev :=
  let* v := VDEV_INIT in
  let* v := NVMEV_STORAGE_INIT v in
  NVMEV_NAMESPACE_INIT cs v.

(** The device it makes: a structure without a PCI device, the storage with its /proc
    entries, and a namespace per configuration. *)
Record loaded (cs : list namespace_conf) (v : nvmev_dev) : Prop := {
  lo_proc : length (proc v) = 6%nat;
  lo_ns : Forall2 made_for cs (cells (ns v));
  lo_pci : no_pci v;
  lo_bus : virt_bus v = 0;
}.

Lemma namespaces_load cs : Forall conf_ok cs ->
  own [] (load_namespaces cs) (fun v X => X ≡ₚ vdev_blocks v ++ stays v /\ loaded cs v).
Proof.
  intros Hcs. unfold load_namespaces. eapply own_make; [exact vdev_make|]. intros v0 ((Q & _) & _ & P0 & P1 & P2 & P3 & P4).
  eapply own_bind; [apply storage_make|]. intros v X (s & m & ps & -> & Hps & HX). set (v := set_storage v0 s m ps) in *.
  unfold NVMEV_NAMESPACE_INIT. repeat own_step.
  eapply own_do; [by apply namespaces_make|apply _|]. cbn beta. intros a Y (HY & _ & Hm). apply own_ret. set (v1 := set_ns v a) in *.
  split; [|split; [exact Hps|exact Hm|unfold no_pci; by split_and!|exact P0]].
  rewrite HY, HX, app_nil_r. unfold stays. change (vdev_blocks v1) with (vdev_blocks v0).
  change (storage_blocks v1) with (storage_blocks v). change (ns v1) with a.
  generalize (vdev_blocks v0) (storage_blocks v) (array_blocks ns_blocks a). intros. same_blocks.
Qed.

(** Without a bus the load then frees the structure, and only that. *)
Lemma no_bus_end cs v (go_on : nvmev_dev -> M heap (Z * option nvmev_dev)) : loaded cs v ->
  own (vdev_blocks v ++ stays v) (let* r := NVMEV_PCI_INIT None v in let (ok, v) := r : bool * nvmev_dev in
    if negb ok then VDEV_FINALIZE v ;; ret (- EIO, None) else go_on v) (fun r X => r = (- EIO, None) /\ X = stays v).
Proof.
  intros [_ _ Hp Hb]. unfold NVMEV_PCI_INIT, __create_pci_bus. own_step.
  apply own_touch. { unfold vdev_blocks. set_solver. }
  repeat own_step. rewrite Hb. cbn [Z.eqb negb].
  eapply own_clear; [by apply (finalize_bare v)|apply _|by apply own_ret].
Qed.

Lemma init_after_namespaces cs scan nw np c t h v t1 h1 : load_namespaces cs c t h = Ok (v, t1, h1) ->
  NVMeV_init true cs scan nw np c t h =
    (let* r := NVMEV_PCI_INIT scan v in let (ok, v) := r : bool * nvmev_dev in
     if negb ok then VDEV_FINALIZE v ;; ret (- EIO, None)
     else let* v := NVMEV_IO_WORKER_INIT nw np v in let* v := NVMEV_DISPATCHER_INIT v in touch BUS (virt_bus v) ;; ret (0, Some v)) c t1 h1.
Proof.
  intros E. unfold NVMeV_init, load_namespaces, bind in *. destruct (VDEV_INIT c t h) as [[[v0 t0] h0]|]; [|done]. cbn [negb].
  destruct (NVMEV_STORAGE_INIT v0 c t0 h0) as [[[v2 t2] h2]|]; [|done]. by rewrite E.
Qed.

(** ** Unloading *)
Lemma own_for_each {X} (from to : X -> list block) (f : X -> M heap unit) l :
  (forall x, x ∈ l -> own (from x) (f x) (fun _ Y => Y = to x)) -> own (l ≫= from) (for_each l f) (fun _ Y => Y ≡ₚ l ≫= to).
Proof.
  induction l as [|x l IH]; intros Hf; cbn [for_each]; [by apply own_ret|]. rewrite !bind_cons.
  eapply own_call; [apply Hf; left|reflexivity|]. cbn beta. intros [] Y ->. apply own_tail_unit.
  eapply own_call; [apply IH; intros y Hy; apply Hf; by right|apply Permutation_app_comm|]. cbn beta. intros [] Z HZ. apply own_ret.
  rewrite HZ. apply Permutation_app_comm.
Qed.

(** A loop over the first entries of an array. *)
Lemma for_each_take_from {S X} (l : list X) (f : X -> M S unit) c n : forall i t s, 0 <= i -> i + Z.of_nat n <= zlen l ->
  for_each (seqZ i (Z.of_nat n)) (fun i => let* x := lift (aget l i) in f x) c t s = for_each (take n (drop (Z.to_nat i) l)) f c t s.
Proof.
  induction n as [|n IH]; intros i t s Hi Hn; [done|]. rewrite seqZ_cons by lia. destruct (zget_Some l i) as [x Hx]; [lia|].
  assert (l !! Z.to_nat i = Some x) as Hl by (unfold zget in Hx; destruct (Z.ltb_spec i 0); [lia|done]).
  rewrite (drop_S _ _ _ Hl). cbn [for_each take]. rewrite run_bind_assoc, (run_lift _ _ _ _ _ x) by (by apply aget_ok).
  unfold bind. destruct (f x c t s) as [[[[] t'] s']|]; [|done].
  replace (Z.pred (Z.of_nat (Datatypes.S n))) with (Z.of_nat n) by lia. rewrite IH by lia. do 2 f_equal. f_equal. lia.
Qed.

Definition first_queues (n : Z) (l : list (option queue)) : list (option queue) := take (Z.to_nat n) l.
Definition other_queues (n : Z) (l : list (option queue)) : list (option queue) := drop (Z.to_nat n) l.

(** What [free_queues] leaves of a table. *)
Definition table_left (n : Z) (l : list (option queue)) : list block :=
  (first_queues n l ≫= from_option queue_rest []) ++ (other_queues n l ≫= from_option queue_blocks []).

Lemma queues_free n l : 0 <= n <= zlen l -> own (table_blocks l) (free_queues n l) (fun _ X => X ≡ₚ table_left n l).
Proof.
  intros Hn. apply own_tail_unit. eapply own_call.
  - eapply (own_ext _ _ (for_each (first_queues n l) (fun o => match o with None => ret tt | Some q => kfree (q_struct q) end))).
    { intros c t h. unfold free_queues, first_queues. replace n with (Z.of_nat (Z.to_nat n)) by lia.
      unfold zseq. rewrite (for_each_take_from l _ c) by lia. by rewrite Nat2Z.id. }
    apply (own_for_each (from_option queue_blocks []) (from_option queue_rest [])). intros [q|] _; cbn [from_option]; [|by apply own_ret].
    apply own_tail_unit. unfold queue_blocks. own_step. by apply own_ret.
  - unfold table_blocks. rewrite <- (take_drop (Z.to_nat n) l) at 1. by rewrite bind_app.
  - cbn beta. intros [] X HX. apply own_ret. by rewrite HX.
Qed.

Lemma free_at_least k p : clears (at_least k p) (free k p).
Proof. apply own_end. unfold at_least. destruct (Z.eqb_spec p 0) as [->|]; own_step; by apply own_ret. Qed.

Lemma admin_free o : clears (aq_blocks o) (free_admin_queue o).
Proof.
  apply own_end. destruct o as [q|]; [|by apply own_ret]. unfold aq_blocks, free_admin_queue. cbn [from_option]. repeat own_step.
  do 2 (eapply own_clear; [apply free_at_least|apply _|]; repeat own_step). by apply own_ret.
Qed.

(** The end of it: with or without a device on the bus. *)
Definition final_blocks (v : nvmev_dev) : list block :=
  vdev_blocks v ++ [(MAPPING, msix_table v); (MAPPING, bar v); (KMEM, old_bar v); (KMEM, old_dbs v)] ++ aq_blocks (admin_q v).

Lemma finalize_clears v : clears (final_blocks v) (VDEV_FINALIZE v).
Proof.
  apply own_end. unfold VDEV_FINALIZE, final_blocks, vdev_blocks. repeat own_step.
  eapply own_clear; [apply admin_free|apply _|]. repeat own_step. by apply own_ret.
Qed.

Lemma procs_clear ps : clears (pair PROC <$> ps) (for_each ps (drop_block PROC)).
Proof.
  induction ps as [|p ps IH]; cbn [for_each]; [by apply own_ret|]. rewrite fmap_cons. eapply own_drop; [reflexivity|]. exact IH.
Qed.

Lemma storage_clears v : clears (storage_blocks v) (NVMEV_STORAGE_FINAL v).
Proof.
  apply own_end. unfold NVMEV_STORAGE_FINAL, storage_blocks. own_step.
  eapply (own_clear _ (pair PROC <$> tail (proc v)) ((KMEM, io_unit_stat v) :: (MAPPING, storage_mapped v) :: (pair PROC <$> take 1 (proc v)))); [apply procs_clear| |].
  { unfold Pull. destruct (proc v) as [|r ps]; [done|]. cbn [tail take fmap list_fmap]. rewrite firstn_O. fold (pair PROC <$> ps).
    generalize (pair PROC <$> ps). intros. cbn [fmap list_fmap]. same_blocks. }
  own_step. eapply own_clear; [apply procs_clear|apply _|]. repeat own_step. by apply own_ret.
Qed.

Lemma workers_clear nw v : zlen (cells (io_workers v)) = nw -> clears (array_blocks worker_blocks (io_workers v)) (NVMEV_IO_WORKER_FINAL nw v).
Proof.
  intros Hn. apply own_end. unfold NVMEV_IO_WORKER_FINAL. own_step.
  eapply own_do; [apply (own_walk_array worker_blocks); [done|]|apply _|].
  - apply Forall_true. intros w. apply own_end. unfold worker_blocks. repeat own_step. by apply own_ret.
  - cbn beta. intros [] X ->. repeat own_step. by apply own_ret.
Qed.

Lemma ns_final v : Forall ns_ok (cells (ns v)) ->
  own (array_blocks ns_blocks (ns v)) (NVMEV_NAMESPACE_FINAL v) (fun _ X => X ≡ₚ cells (ns v) ≫= ns_left).
Proof.
  intros Hok. apply own_tail_unit. unfold NVMEV_NAMESPACE_FINAL. own_step.
  eapply own_bind; [apply (own_walk_left ns_blocks ns_left); [done|]|].
  - eapply Forall_impl; [exact Hok|]. apply ns_remove.
  - cbn beta. intros [] X HX. eapply own_perm; [symmetry; exact HX|]. repeat own_step. by apply own_ret.
Qed.

(** What unloading leaves. *)
Definition left_blocks (v : nvmev_dev) : list block :=
  (cells (ns v) ≫= ns_left) ++ table_left (nr_sq v) (sqes v) ++ table_left (nr_cq v) (cqes v).

Lemma module_clear nw v : dev_ok nw v -> 0 <= nr_sq v <= NR_MAX_IO_QUEUE + 1 -> 0 <= nr_cq v <= NR_MAX_IO_QUEUE + 1 ->
  own (dev_blocks v) (NVMeV_exit nw v) (fun _ X => X ≡ₚ left_blocks v).
Proof.
  intros [Hns Hw [Hs Hc]] Hns' Hnc. apply own_tail_unit. unfold NVMeV_exit, dev_blocks, fixed_blocks, pci_blocks. own_step.
  pose proof (finalize_clears v) as HF. unfold final_blocks in HF. pose proof (workers_clear nw v Hw) as HT.
  pose proof (storage_clears v) as HS. pose proof (ns_final v Hns) as HN. unfold left_blocks, thread_blocks, NVMEV_DISPATCHER_FINAL.
  revert HF HT HS HN.
  generalize (vdev_blocks v) (array_blocks worker_blocks (io_workers v)) (storage_blocks v) (aq_blocks (admin_q v)) (array_blocks ns_blocks (ns v)) (cells (ns v) ≫= ns_left).
  intros Bv Bt Bs Ba Bn Bl HF HT HS HN. repeat own_step.
  eapply own_clear; [exact HT|apply _|]. own_step.
  eapply own_do; [exact HN|apply _|]. cbn beta. intros [] X HX. own_step. eapply own_clear; [exact HS|apply _|]. own_step.
  eapply own_do; [apply (queues_free (nr_sq v) (sqes v)); lia|apply _|]. cbn beta. intros [] Y HY. own_step.
  eapply own_do; [apply (queues_free (nr_cq v) (cqes v)); lia|apply _|]. cbn beta. intros [] W HW.
  eapply own_clear; [exact HF|apply _|]. apply own_ret. rewrite <- HX, <- HY, <- HW. same_blocks.
Qed.

(** ** The steps of a host *)

(** A queue with mapped pages holds three blocks, any other two. *)
Definition mapped (q : queue) : bool := negb (q_mapped q =? 0).
Definition shape (l : list (option queue)) : list (option bool) := (fun o : option queue => mapped <$> o) <$> l.
Definition cost (o : option bool) : nat := match o with None => 0 | Some b => 2 + Nat.b2n b end.

(** The account of the queues: which there are, how many are granted, the blocks no pointer leads to. *)
Record account : Type := mk_account { ac_sq : list (option bool); ac_cq : list (option bool); ac_nsq : Z; ac_ncq : Z; ac_lost : nat }.

Definition cost_at (l : list (option bool)) (i : Z) : nat := match zget l i with Some o => cost o | None => 0 end.
Definition account_step (x : host_step) (a : account) : account :=
  let '(mk_account s c n m k) := a in
  match x with
  | SetQueues n m => mk_account s c n m k
  | CreateSq i valid => mk_account (zset s i (Some (negb valid))) c n m (k + cost_at s i)
  | CreateCq i valid => mk_account s (zset c i (Some (negb valid))) n m (k + cost_at c i)
  | DeleteSq i => mk_account (zset s i None) c n m k
  | DeleteCq i => mk_account s (zset c i None) n m k
  | _ => a
  end.

Definition qid_ok (i : Z) : Prop := 0 <= i <= NR_MAX_IO_QUEUE.
Definition legal (x : host_step) : Prop :=
  match x with
  | SetQueues n m => 0 <= n <= NR_MAX_IO_QUEUE /\ 0 <= m <= NR_MAX_IO_QUEUE
  | CreateSq i _ | CreateCq i _ | DeleteSq i | DeleteCq i => qid_ok i
  | _ => True
  end.

Definition account_of (v : nvmev_dev) (k : nat) : account := mk_account (shape (sqes v)) (shape (cqes v)) (nr_sq v) (nr_cq v) k.

Lemma length_queue_blocks q : length (queue_blocks q) = cost (Some (mapped q)).
Proof. unfold queue_blocks, queue_rest, at_least, mapped. by destruct (q_mapped q =? 0). Qed.

Lemma length_queue_opt o : length (from_option queue_blocks [] o) = cost (mapped <$> o).
Proof. destruct o; [apply length_queue_blocks|done]. Qed.

Lemma zget_shape l i : zget (shape l) i = (fun o : option queue => mapped <$> o) <$> zget l i.
Proof. unfold zget, shape. case_match; [done|]. by rewrite list_lookup_fmap. Qed.

Lemma zset_shape l i o : shape (zset l i o) = zset (shape l) i (mapped <$> o).
Proof. unfold zset, shape. case_match; [done|]. by rewrite list_fmap_insert. Qed.

Lemma table_split l i o : zget l i = Some o ->
  exists R, table_blocks l ≡ₚ from_option queue_blocks [] o ++ R /\ forall o', table_blocks (zset l i o') ≡ₚ from_option queue_blocks [] o' ++ R.
Proof.
  unfold zget, zset. destruct (i <? 0); [done|]. intros Hi. exists (table_blocks (take (Z.to_nat i) l ++ drop (S (Z.to_nat i)) l)).
  unfold table_blocks. assert (forall o', (take (Z.to_nat i) l ++ o' :: drop (S (Z.to_nat i)) l) ≫= from_option queue_blocks [] ≡ₚ
    from_option queue_blocks [] o' ++ (take (Z.to_nat i) l ++ drop (S (Z.to_nat i)) l) ≫= from_option queue_blocks []) as H.
  { intros o'. rewrite !bind_app, bind_cons. apply Permutation_app_swap_app. }
  split; [rewrite <- (take_drop_middle l _ _ Hi) at 1; apply H|].
  intros o'. rewrite insert_take_drop by (by eapply lookup_lt_Some). apply H.
Qed.

Lemma queue_make valid B : own B (make_queue valid) (fun q X => X ≡ₚ queue_blocks q ++ B /\ mapped q = negb valid).
Proof.
  unfold make_queue. do 3 own_step. destruct valid; repeat own_step; apply own_ret; unfold queue_blocks, queue_rest, mapped, at_least; cbn [q_struct q_pages q_mapped].
  - split; [|done]. cbn [Z.eqb]. same_blocks.
  - rewrite (proj2 (Z.eqb_neq p1 0)) by done. split; [|done]. same_blocks.
Qed.

Lemma queue_remove o : clears (from_option queue_blocks [] o) (remove_queue o).
Proof.
  apply own_end. destruct o as [q|]; [|by apply own_ret]. unfold remove_queue, queue_blocks, queue_rest, at_least. cbn [from_option]. repeat own_step.
  destruct (q_mapped q =? 0); cbn [negb when].
  - repeat own_step. by apply own_ret.
  - repeat own_step. by apply own_ret.
Qed.

Record stepped (nw : Z) (v : nvmev_dev) (a : nat -> account) (w : nvmev_dev) (L : list block) : Prop := {
  st_ok : dev_ok nw w;
  st_ns : ns w = ns v;
  st_account k : account_of w (k + length L) = a k;
}.

(** The tables are replaced. *)
Lemma tables_stepped nw v s c n m x L : dev_ok nw v -> zlen s = zlen (sqes v) -> zlen c = zlen (cqes v) ->
  (forall k, mk_account (shape s) (shape c) n m (k + length L) = account_step x (account_of v k)) ->
  stepped nw v (fun k => account_step x (account_of v k)) (set_queues v s c n m) L.
Proof. intros [D1 D2 [D3 D4]] Hs Hc Ha. split; [split; [done|done|]|done|done]. cbn [set_queues sqes cqes]. lia. Qed.

Lemma dev_blocks_queues v s c n m :
  dev_blocks (set_queues v s c n m) = fixed_blocks v ++ storage_blocks v ++ aq_blocks (admin_q v) ++ table_blocks s ++ table_blocks c.
Proof. done. Qed.

(** A queue takes a slot; what was there is lost. *)
Lemma created l i q o : zget l i = Some o -> exists R, table_blocks l ≡ₚ from_option queue_blocks [] o ++ R /\
  table_blocks (zset l i (Some q)) ≡ₚ queue_blocks q ++ R /\ length (from_option queue_blocks [] o) = cost_at (shape l) i.
Proof.
  intros Ho. destruct (table_split _ _ _ Ho) as (R & HR & Hset). exists R. split; [done|]. split; [apply Hset|].
  unfold cost_at. by rewrite zget_shape, Ho, length_queue_opt.
Qed.

Lemma step_create_sq nw v i valid : dev_ok nw v -> qid_ok i ->
  own (dev_blocks v) (__nvmev_admin_create_sq i valid v)
    (fun w X => exists L, X ≡ₚ dev_blocks w ++ L /\ stepped nw v (fun k => account_step (CreateSq i valid) (account_of v k)) w L).
Proof.
  intros D Hi. pose proof D as [_ _ [D3 D4]]. unfold qid_ok in Hi. unfold __nvmev_admin_create_sq. eapply own_bind; [apply queue_make|]. intros q X [HX Hm].
  destruct (zget_Some (sqes v) i) as [o Ho]; [lia|]. eapply own_lift; [apply aset_in; lia|]. apply own_ret.
  destruct (created _ _ q _ Ho) as (R & HR & Hset & Hlen). exists (from_option queue_blocks [] o). split.
  - rewrite HX, dev_blocks_queues, Hset. unfold dev_blocks. rewrite HR.
    generalize (fixed_blocks v) (storage_blocks v) (aq_blocks (admin_q v)) (queue_blocks q) (from_option queue_blocks [] o) (table_blocks (cqes v)). intros. same_blocks.
  - apply tables_stepped; [done|by rewrite length_zset|done|]. intros k. unfold account_of, account_step. by rewrite zset_shape, <- Hm, Hlen.
Qed.

Lemma step_create_cq nw v i valid : dev_ok nw v -> qid_ok i ->
  own (dev_blocks v) (__nvmev_admin_create_cq i valid v)
    (fun w X => exists L, X ≡ₚ dev_blocks w ++ L /\ stepped nw v (fun k => account_step (CreateCq i valid) (account_of v k)) w L).
Proof.
  intros D Hi. pose proof D as [_ _ [D3 D4]]. unfold qid_ok in Hi. unfold __nvmev_admin_create_cq. eapply own_bind; [apply queue_make|]. intros q X [HX Hm].
  destruct (zget_Some (cqes v) i) as [o Ho]; [lia|]. eapply own_lift; [apply aset_in; lia|]. apply own_ret.
  destruct (created _ _ q _ Ho) as (R & HR & Hset & Hlen). exists (from_option queue_blocks [] o). split.
  - rewrite HX, dev_blocks_queues, Hset. unfold dev_blocks. rewrite HR.
    generalize (fixed_blocks v) (storage_blocks v) (aq_blocks (admin_q v)) (queue_blocks q) (from_option queue_blocks [] o) (table_blocks (sqes v)). intros. same_blocks.
  - apply tables_stepped; [done|done|by rewrite length_zset|]. intros k. unfold account_of, account_step. by rewrite zset_shape, <- Hm, Hlen.
Qed.

Lemma step_delete_sq nw v i : dev_ok nw v -> qid_ok i ->
  own (dev_blocks v) (__nvmev_admin_delete_sq i v)
    (fun w X => exists L, X ≡ₚ dev_blocks w ++ L /\ stepped nw v (fun k => account_step (DeleteSq i) (account_of v k)) w L).
Proof.
  intros D Hi. pose proof D as [_ _ [D3 D4]]. unfold qid_ok in Hi. unfold __nvmev_admin_delete_sq.
  destruct (zget_Some (sqes v) i) as [o Ho]; [lia|]. eapply own_lift; [by apply aget_ok|]. eapply own_lift; [apply aset_in; lia|].
  destruct (table_split _ _ _ Ho) as (R & HR & Hset).
  eapply (own_clear _ _ (fixed_blocks v ++ storage_blocks v ++ aq_blocks (admin_q v) ++ R ++ table_blocks (cqes v))); [apply queue_remove| |].
  - unfold Pull, dev_blocks. rewrite HR.
    generalize (fixed_blocks v) (storage_blocks v) (aq_blocks (admin_q v)) (from_option queue_blocks [] o) (table_blocks (cqes v)). intros. same_blocks.
  - apply own_ret. exists []. split; [by rewrite app_nil_r, dev_blocks_queues, (Hset None)|].
    apply tables_stepped; [done|by rewrite length_zset|done|]. intros k. unfold account_of, account_step. by rewrite zset_shape, Nat.add_0_r.
Qed.

Lemma step_delete_cq nw v i : dev_ok nw v -> qid_ok i ->
  own (dev_blocks v) (__nvmev_admin_delete_cq i v)
    (fun w X => exists L, X ≡ₚ dev_blocks w ++ L /\ stepped nw v (fun k => account_step (DeleteCq i) (account_of v k)) w L).
Proof.
  intros D Hi. pose proof D as [_ _ [D3 D4]]. unfold qid_ok in Hi. unfold __nvmev_admin_delete_cq.
  destruct (zget_Some (cqes v) i) as [o Ho]; [lia|]. eapply own_lift; [by apply aget_ok|]. eapply own_lift; [apply aset_in; lia|].
  destruct (table_split _ _ _ Ho) as (R & HR & Hset).
  eapply (own_clear _ _ (fixed_blocks v ++ storage_blocks v ++ aq_blocks (admin_q v) ++ table_blocks (sqes v) ++ R)); [apply queue_remove| |].
  - unfold Pull, dev_blocks. rewrite HR.
    generalize (fixed_blocks v) (storage_blocks v) (aq_blocks (admin_q v)) (from_option queue_blocks [] o) (table_blocks (sqes v)). intros. same_blocks.
  - apply own_ret. exists []. split; [by rewrite app_nil_r, dev_blocks_queues, (Hset None)|].
    apply tables_stepped; [done|done|by rewrite length_zset|]. intros k. unfold account_of, account_step. by rewrite zset_shape, Nat.add_0_r.
Qed.

(** The registers and the file change no queue. *)
Definition same_tables (v w : nvmev_dev) : Prop :=
  ns w = ns v /\ io_workers w = io_workers v /\ sqes w = sqes v /\ cqes w = cqes v /\ nr_sq w = nr_sq v /\ nr_cq w = nr_cq v.

Lemma same_stepped nw v w x : dev_ok nw v -> same_tables v w -> (forall a, account_step x a = a) -> stepped nw v (fun k => account_step x (account_of v k)) w [].
Proof.
  intros [D1 D2 D3] (H1 & H2 & H3 & H4 & H5 & H6) Hx. split; [split; rewrite ?H1, ?H2, ?H3, ?H4; done|done|].
  intros k. rewrite Hx, Nat.add_0_r. unfold account_of. by rewrite H3, H4, H5, H6.
Qed.

Lemma dev_blocks_admin v o : dev_blocks (set_admin v o) = fixed_blocks v ++ storage_blocks v ++ aq_blocks o ++ table_blocks (sqes v) ++ table_blocks (cqes v).
Proof. done. Qed.

Lemma at_least_block k p : p <> 0 -> at_least k p = [(k, p)].
Proof. intros Hp. unfold at_least. by rewrite (proj2 (Z.eqb_neq p 0)). Qed.

Definition reg_post v (w : nvmev_dev) X : Prop := same_tables v w /\ X ≡ₚ dev_blocks w.

Lemma step_aqa v : own (dev_blocks v) (bars_aqa v) (reg_post v).
Proof.
  unfold bars_aqa. destruct (admin_q v) as [q|] eqn:Hq.
  - apply own_touch; [|by apply own_ret]. unfold dev_blocks. rewrite Hq. cbn [aq_blocks from_option]. set_solver.
  - own_step. apply own_assert; [by apply neqb_true|]. own_step. apply own_ret. split; [done|]. rewrite dev_blocks_admin. unfold dev_blocks. rewrite Hq.
    unfold aq_blocks. cbn [from_option aq_at nvme_sq nvme_cq]. change (at_least KMEM 0) with (@nil block). cbn [app].
    generalize (fixed_blocks v) (storage_blocks v) (table_blocks (sqes v)) (table_blocks (cqes v)). intros. same_blocks.
Qed.

Lemma step_asq v : own (dev_blocks v) (bars_asq v) (reg_post v).
Proof.
  unfold bars_asq. destruct (admin_q v) as [q|] eqn:Hq; [|by apply own_ret]. unfold dev_blocks. rewrite Hq. unfold aq_blocks. cbn [from_option].
  own_step. eapply own_clear; [apply free_at_least|apply _|]. own_step. apply own_assert; [by apply neqb_true|]. own_step. apply own_ret. split; [done|].
  rewrite dev_blocks_admin. unfold aq_blocks. cbn [from_option aq_at nvme_sq nvme_cq]. rewrite (at_least_block _ p) by done.
  generalize (fixed_blocks v) (storage_blocks v) (at_least KMEM (nvme_cq q)) (table_blocks (sqes v)) (table_blocks (cqes v)). intros. same_blocks.
Qed.

Lemma step_acq v : own (dev_blocks v) (bars_acq v) (reg_post v).
Proof.
  unfold bars_acq. destruct (admin_q v) as [q|] eqn:Hq; [|by apply own_ret]. unfold dev_blocks. rewrite Hq. unfold aq_blocks. cbn [from_option].
  own_step. eapply own_clear; [apply free_at_least|apply _|]. own_step. apply own_assert; [by apply neqb_true|]. own_step. apply own_ret. split; [done|].
  rewrite dev_blocks_admin. unfold aq_blocks. cbn [from_option aq_at nvme_sq nvme_cq]. rewrite (at_least_block _ p) by done.
  generalize (fixed_blocks v) (storage_blocks v) (at_least KMEM (nvme_sq q)) (table_blocks (sqes v)) (table_blocks (cqes v)). intros. same_blocks.
Qed.

Lemma step_io_units v : own (dev_blocks v) (proc_write_io_units v) (reg_post v).
Proof.
  unfold proc_write_io_units, dev_blocks, storage_blocks. do 2 own_step. apply own_ret. split; [done|]. unfold dev_blocks.
  change (fixed_blocks (set_storage v _ _ _)) with (fixed_blocks v). unfold storage_blocks. cbn [set_storage io_unit_stat storage_mapped proc admin_q sqes cqes].
  generalize (fixed_blocks v) (pair PROC <$> proc v) (aq_blocks (admin_q v)) (table_blocks (sqes v)) (table_blocks (cqes v)). intros. same_blocks.
Qed.

Lemma step_spec nw v x : dev_ok nw v -> legal x ->
  own (dev_blocks v) (do_step x v) (fun w X => exists L, X ≡ₚ dev_blocks w ++ L /\ stepped nw v (fun k => account_step x (account_of v k)) w L).
Proof.
  intros D Hx. assert (forall m, (forall a, account_step x a = a) -> own (dev_blocks v) m (reg_post v) ->
    own (dev_blocks v) m (fun w X => exists L, X ≡ₚ dev_blocks w ++ L /\ stepped nw v (fun k => account_step x (account_of v k)) w L)) as Hreg.
  { intros m Ha Hm. eapply own_conseq; [exact Hm|]. intros w X [HS HX]. exists []. split; [by rewrite app_nil_r|by apply same_stepped]. }
  destruct x; cbn [do_step legal] in *.
  - apply Hreg; [by intros []|apply step_aqa].
  - apply Hreg; [by intros []|apply step_asq].
  - apply Hreg; [by intros []|apply step_acq].
  - apply own_ret. exists []. split; [by rewrite app_nil_r|]. apply tables_stepped; [done..|]. intros k. by rewrite Nat.add_0_r.
  - by apply step_create_sq.
  - by apply step_create_cq.
  - by apply step_delete_sq.
  - by apply step_delete_cq.
  - apply Hreg; [by intros []|apply step_io_units].
Qed.

Definition account_steps (l : list host_step) (a : account) : account := foldl (fun a x => account_step x a) a l.

Definition granted_ok (v : nvmev_dev) : Prop := 0 <= nr_sq v <= NR_MAX_IO_QUEUE /\ 0 <= nr_cq v <= NR_MAX_IO_QUEUE.

Lemma granted_step a x : legal x -> 0 <= ac_nsq a <= NR_MAX_IO_QUEUE /\ 0 <= ac_ncq a <= NR_MAX_IO_QUEUE ->
  0 <= ac_nsq (account_step x a) <= NR_MAX_IO_QUEUE /\ 0 <= ac_ncq (account_step x a) <= NR_MAX_IO_QUEUE.
Proof. intros Hx Ha. destruct a, x; done. Qed.

Lemma steps_spec nw l : forall v, dev_ok nw v -> granted_ok v -> Forall legal l ->
  own (dev_blocks v) (do_steps l v) (fun w X => exists L, X ≡ₚ dev_blocks w ++ L /\ stepped nw v (fun k => account_steps l (account_of v k)) w L /\ granted_ok w).
Proof.
  induction l as [|x l IH]; intros v D G Hl; cbn [do_steps].
  - apply own_ret. exists []. split; [by rewrite app_nil_r|]. split; [split; [done|done|]|done]. intros k. by rewrite Nat.add_0_r.
  - apply Forall_cons in Hl as [Hx Hl]. eapply own_bind; [by apply step_spec|]. cbn beta. intros w X (L & HX & [S1 S2 S3]).
    assert (granted_ok w) as Gw by (pose proof (granted_step (account_of v 0) x Hx G) as H; rewrite <- (S3 0%nat) in H; exact H).
    apply own_tail. eapply own_call; [by apply IH|exact HX|]. cbn beta. intros u Y (L' & HY & [T1 T2 T3] & Gu). apply own_ret. exists (L' ++ L). split.
    + rewrite HY. by rewrite app_assoc.
    + split; [|done]. split; [done|by rewrite T2|]. intros k.
      change (account_steps (x :: l) (account_of v k)) with (account_steps l (account_step x (account_of v k))). rewrite <- S3, <- T3. f_equal. rewrite length_app. lia.
Qed.

(** A command that names a queue outside the arrays. *)
Definition names_no_queue (x : host_step) : Prop :=
  match x with
  | CreateSq i _ | CreateCq i _ | DeleteSq i | DeleteCq i => ~ qid_ok i
  | _ => False
  end.

Lemma step_bad nw v x B c t h : dev_ok nw v -> names_no_queue x -> holds B h -> do_step x v c t h = Err OutOfBounds.
Proof.
  intros [_ _ [Ds Dc]] Hx Hh.
  assert (forall {A} (l : list A) i, zlen l = NR_MAX_IO_QUEUE + 1 -> ~ qid_ok i -> (0 <=? i) && (i <? zlen l) = false) as Hr.
  { intros A l i -> Hi. unfold qid_ok in Hi. lia. }
  assert (forall {A} (l : list A) i, zlen l = NR_MAX_IO_QUEUE + 1 -> ~ qid_ok i -> aget l i = Err OutOfBounds) as Hg.
  { intros A l i Hl Hi. unfold aget, of_opt. destruct (zget l i) as [y|] eqn:Ey; [|done]. apply zget_range in Ey. unfold qid_ok in Hi. lia. }
  destruct x as [| | | |i valid|i valid|i|i|]; cbn [names_no_queue do_step] in *; try done.
  - destruct (queue_make valid [] B c t h Hh) as (q & t1 & h1 & E & _). unfold __nvmev_admin_create_sq. rewrite (run_bind _ _ _ _ _ _ _ _ E).
    unfold bind, lift, aset. by rewrite Hr.
  - destruct (queue_make valid [] B c t h Hh) as (q & t1 & h1 & E & _). unfold __nvmev_admin_create_cq. rewrite (run_bind _ _ _ _ _ _ _ _ E).
    unfold bind, lift, aset. by rewrite Hr.
  - unfold __nvmev_admin_delete_sq, bind, lift. by rewrite Hg.
  - unfold __nvmev_admin_delete_cq, bind, lift. by rewrite Hg.
Qed.

Lemma do_steps_app l1 l2 v c t h : do_steps (l1 ++ l2) v c t h = bind (do_steps l1 v) (do_steps l2) c t h.
Proof.
  revert v t h. induction l1 as [|x l1 IH]; intros v t h; [done|]. cbn [app do_steps]. rewrite run_bind_assoc.
  unfold bind at 1. symmetry. unfold bind at 1. symmetry.
  destruct (do_step x v c t h) as [[[w t'] h']|]; [|done]. apply IH.
Qed.

(** ** The leak *)
Definition table_cost (n : Z) (l : list (option bool)) : nat :=
  sum_list ((fun o => pred (cost o)) <$> take (Z.to_nat n) l) + sum_list (cost <$> drop (Z.to_nat n) l).

Lemma length_bind {A} (l : list A) (f : A -> list block) : length (l ≫= f) = sum_list ((fun x => length (f x)) <$> l).
Proof. induction l as [|x l IH]; [done|]. rewrite bind_cons, length_app, IH. done. Qed.

Lemma length_table_left n l : length (table_left n l) = table_cost n (shape l).
Proof.
  unfold table_left, table_cost, first_queues, other_queues, shape. rewrite length_app, !length_bind, <- fmap_take, <- fmap_drop, <- !list_fmap_compose.
  f_equal; f_equal; apply list_fmap_ext; intros ? o _; cbn [compose]; [|apply length_queue_opt].
  destruct o as [q|]; [|done]. unfold compose. cbn [from_option fmap option_fmap option_map]. rewrite <- length_queue_blocks. done.
Qed.

Lemma length_ns_left l : length (l ≫= ns_left) = sum_list (kv_of <$> l).
Proof. rewrite length_bind. f_equal. apply list_fmap_ext. by intros ? [| | |] _. Qed.

(** The device as it is loaded. *)
Definition fresh_account : account :=
  let none := replicate (Z.to_nat (NR_MAX_IO_QUEUE + 1)) None in mk_account none none 0 0 0.

(** The number of blocks that unloading does not give back. *)
Definition leaked (cs : list namespace_conf) (l : list host_step) : nat :=
  let a := account_steps l fresh_account in
  kv_count cs + ac_lost a + table_cost (ac_nsq a) (ac_sq a) + table_cost (ac_ncq a) (ac_cq a).

(** What is left after the steps is what the account says. *)
Lemma left_count cs l nw v w L : no_queues v -> sum_list (kv_of <$> cells (ns v)) = kv_count cs ->
  stepped nw v (fun k => account_steps l (account_of v k)) w L -> length (left_blocks w ++ L) = leaked cs l.
Proof.
  intros (_ & Q2 & Q3 & Q4 & Q5) Hkv [_ S2 S3]. unfold left_blocks. rewrite !length_app, !length_table_left, length_ns_left, S2, Hkv. unfold leaked.
  assert (account_of v 0 = fresh_account) as E0 by (unfold account_of; by rewrite Q2, Q3, Q4, Q5).
  specialize (S3 0%nat). rewrite E0 in S3. cbn beta in S3. rewrite <- S3. cbn [account_of ac_lost ac_nsq ac_ncq ac_sq ac_cq]. lia.
Qed.
End Spec.
