(* ===== verification/LoadedTheorems.v ===== *)
(** * Loading and unloading

    The theorems about what the module takes from the kernel: a whole life of it, and the loads
    that fail. *)

From Stdlib Require Import ZArith Lia.
From stdpp Require Import base numbers list sets.
From S2P Require Import Prelude Config SsdParams Memory Lifetime LifetimeSpec Loaded LoadedSpec.
From S2P Require ZnsFtl.

(** C27: a life of the module, with every allocation succeeding: loaded on any namespaces whose
    parameters the initialisers expect, on a bus with its one device, then driven by
    any sequence of register writes, queue commands and writes to its /proc file whose queue
    identifiers are 0 to 72 and whose granted counts are at most 72, then unloaded.
    No step uses or gives back memory that is not held - the link and the write buffer that the
    parts of a namespace share are given back once - and afterwards the kernel has back all but
    [leaked] blocks.  These are counted by the queue commands alone: for a queue still there its array
    of pages and its mapping, its structure too when its number is not below the granted ones,
    all of a queue whose number was used again, and the mapped table of a key-value namespace.
    A queue command with any other identifier, after such a sequence, accesses the arrays of
    queues out of bounds. *)
Theorem module_gives_back {KA : KernelAlloc} cs l nw np B c t h :
  (forall p, alloc_fails p = false) -> 0 <= nw -> Forall conf_ok cs -> Forall legal l -> holds B h ->
  exists v t1 h1 w t2 h2 t3 h3 X,
    NVMeV_init true cs (Some 1%nat) nw np c t h = Ok ((0, Some v), t1, h1) /\
    do_steps l v c t1 h1 = Ok (w, t2, h2) /\
    NVMeV_exit nw w c t2 h2 = Ok (tt, t3, h3) /\
    live h3 ≡ₚ X ++ B /\ length X = leaked cs l /\
    (forall x rest, names_no_queue x -> do_steps (l ++ x :: rest) v c t1 h1 = Err OutOfBounds).
Proof.
  intros Hno Hn Hcs Hl Hh.
  destruct (module_make Hno cs nw np Hn Hcs B c t h Hh) as ([? ?] & t1 & h1 & E1 & X1 & (v & [= -> ->] & HX1 & D & Q & Hkv) & H1).
  assert (granted_ok v) as G by (destruct Q as (_ & _ & _ & Q4 & Q5); unfold granted_ok; rewrite Q4, Q5; done).
  apply (holds_perm _ (dev_blocks v ++ B)) in H1; [|by rewrite HX1].
  destruct (steps_spec Hno nw l v D G Hl B c t1 h1 H1) as (w & t2 & h2 & E2 & X2 & (L & HX2 & S & [G1 G2]) & H2).
  apply (holds_perm _ (dev_blocks w ++ L ++ B)) in H2; [|by rewrite HX2, app_assoc].
  destruct (module_clear Hno nw w (st_ok _ _ _ _ _ S) ltac:(lia) ltac:(lia) (L ++ B) c t2 h2 H2) as ([] & t3 & h3 & E3 & X3 & HX3 & H3).
  exists v, t1, h1, w, t2, h2, t3, h3, (left_blocks w ++ L). do 3 (split; [done|]). split; [|split; [by eapply left_count|]].
  - destruct H3 as [-> _]. by rewrite HX3, app_assoc.
  - intros x rest Hx. rewrite do_steps_app, (run_bind _ _ _ _ _ _ _ _ E2). cbn [do_steps]. unfold bind.
    by rewrite (step_bad Hno nw w x _ c t2 h2 (st_ok _ _ _ _ _ S) Hx H2).
Qed.

(** C28: loads that fail, on namespaces [cs] whose parameters the initialisers expect.  Refused
    parameters: the load returns -EIO and holds nothing.  No bus, with every allocation
    succeeding: let [v] be the device that the load has made when its namespaces are built
    ([load_namespaces]), with one namespace of the right kind per configuration.  The load then returns
    -EIO and has freed the device structure and its configuration space, and nothing else:
    the statistics, the mapping of the storage, the /proc directory with its five files
    and all that the namespaces hold stay.  So the files remain while the structure that their handlers
    work on is no longer held.  No memory for the structure: whatever the other arguments,
    it is written through before it is compared with [NULL]. *)
Theorem failed_load_keeps_files {KA : KernelAlloc} cs nw np B c t h :
  (forall p, alloc_fails p = false) -> holds B h -> Forall conf_ok cs ->
  (forall scan, exists t' h', NVMeV_init false cs scan nw np c t h = Ok ((- EIO, None), t', h') /\ live h' ≡ₚ B) /\
  (exists v t1 h1 t' h', load_namespaces cs c t h = Ok (v, t1, h1) /\
    length (proc v) = 6%nat /\ Forall2 made_for cs (cells (ns v)) /\
    live h1 ≡ₚ vdev_blocks v ++ storage_blocks v ++ array_blocks ns_blocks (ns v) ++ B /\
    NVMeV_init true cs None nw np c t h = Ok ((- EIO, None), t', h') /\
    live h' ≡ₚ storage_blocks v ++ array_blocks ns_blocks (ns v) ++ B /\
    (KMEM, at_ v) ∉ live h' /\ Forall (fun p => (PROC, p) ∈ live h') (proc v)) /\
  (forall (KA' : KernelAlloc) ok scan, @alloc_fails KA' (brk h) = true -> @NVMeV_init KA' ok cs scan nw np c t h = Err NullDeref).
Proof.
  intros Hno Hh Hcs. split; [|split].
  - intros scan. destruct (module_refused Hno cs scan nw np B c t h Hh) as (r & t' & h' & E & X & (-> & ->) & H' & _). by exists t', h'.
  - destruct (namespaces_load Hno cs Hcs B c t h Hh) as (v & t1 & h1 & E1 & X & (HX & Lo) & H1).
    apply (holds_perm _ ((vdev_blocks v ++ stays v) ++ B)) in H1; [|by rewrite HX].
    destruct (no_bus_end Hno cs v (fun v => let* v := NVMEV_IO_WORKER_INIT nw np v in let* v := NVMEV_DISPATCHER_INIT v in touch BUS (virt_bus v) ;; ret (0, Some v))
      Lo B c t1 h1 H1) as (r & t' & h' & E & Y & (-> & ->) & H').
    exists v, t1, h1, t', h'. split; [exact E1|]. split; [apply Lo|]. split; [apply Lo|].
    destruct H1 as (L1 & N1 & _), H' as (L' & _). unfold stays in *. rewrite <- !app_assoc in *. split; [exact L1|].
    split; [by rewrite (init_after_namespaces _ _ _ _ _ _ _ _ _ _ E1)|]. split; [exact L'|]. split.
    + rewrite L'. apply NoDup_app in N1 as (_ & N1 & _). apply N1. unfold vdev_blocks. set_solver.
    + apply Forall_forall. intros p Hp. rewrite L'. apply elem_of_app. left. unfold storage_blocks. do 2 right. by apply list_elem_of_fmap_2.
  - intros KA' ok scan Hf. unfold NVMeV_init, VDEV_INIT, bind, alloc, update_get. rewrite Hf. cbn [brk live].
    destruct (alloc_fails (brk h + 1)); reflexivity.
Qed.

(** ** Example: a simple namespace, one with the cache and one of keys and values *)
Definition demo_alloc : KernelAlloc := fun _ => false.
Definition demo_heap : heap := mk_heap 100 [(KMEM, 7); (THREAD, 8)].
Definition demo_confs : list namespace_conf := [Simple; Conv true 2 small_params; Kv 16].

(** What Linux does with two queues, the pages of one of them outside the kernel's memory; the
    second pair is not deleted. *)
Definition demo_steps : list host_step :=
  [WriteAqa; WriteAsq; WriteAcq; SetQueues 2 2; CreateCq 1 true; CreateSq 1 true; CreateCq 2 true; CreateSq 2 false; WriteIoUnits; DeleteSq 1; DeleteCq 1].

Lemma demo_holds : holds [(KMEM, 7); (THREAD, 8)] demo_heap.
Proof.
  split; [done|]. split; [|split; [|done]].
  - apply NoDup_cons. split; [|apply NoDup_singleton]. set_solver.
  - repeat constructor.
Qed.

Lemma demo_confs_ok : Forall conf_ok demo_confs.
Proof.
  repeat (apply Forall_cons; split); [done| |done|by apply Forall_nil].
  split; [discriminate|]. split; [split; discriminate|reflexivity].
Qed.

Lemma demo_legal : Forall legal demo_steps.
Proof. repeat (apply Forall_cons; split); [..|by apply Forall_nil]; try exact I; try split; try split; discriminate. Qed.

(** The structures, arrays and one mapping of the second pair, and the table of the key-value device. *)
Lemma module_gives_back_witness :
  (exists v t1 h1 w t2 h2 t3 h3 X,
    @NVMeV_init demo_alloc true demo_confs (Some 1%nat) 2 3 (fun _ t => Z.of_nat t) 0%nat demo_heap = Ok ((0, Some v), t1, h1) /\
    @do_steps demo_alloc demo_steps v (fun _ t => Z.of_nat t) t1 h1 = Ok (w, t2, h2) /\
    NVMeV_exit 2 w (fun _ t => Z.of_nat t) t2 h2 = Ok (tt, t3, h3) /\
    live h3 ≡ₚ X ++ [(KMEM, 7); (THREAD, 8)] /\ length X = 6%nat) /\
  leaked [Simple] (demo_steps ++ [DeleteSq 2; DeleteCq 2]) = 0%nat.
Proof.
  split; [|reflexivity].
  destruct (@module_gives_back demo_alloc demo_confs demo_steps 2 3 [(KMEM, 7); (THREAD, 8)] (fun _ t => Z.of_nat t) 0%nat demo_heap (fun _ => eq_refl) ltac:(discriminate) demo_confs_ok demo_legal demo_holds)
    as (v & t1 & h1 & w & t2 & h2 & t3 & h3 & X & E1 & E2 & E3 & HX & Hl & _).
  exists v, t1, h1, w, t2, h2, t3, h3, X. split; [exact E1|]. split; [exact E2|]. split; [exact E3|]. split; [exact HX|]. rewrite Hl. vm_compute. reflexivity.
Defined.

Lemma failed_load_keeps_files_witness :
  exists v t' h', @NVMeV_init demo_alloc true demo_confs None 2 3 (fun _ t => Z.of_nat t) 0%nat demo_heap = Ok ((- EIO, None), t', h') /\
    live h' ≡ₚ storage_blocks v ++ array_blocks ns_blocks (ns v) ++ [(KMEM, 7); (THREAD, 8)] /\ length (cells (ns v)) = 3%nat /\
    (KMEM, at_ v) ∉ live h'.
Proof.
  destruct (@failed_load_keeps_files demo_alloc demo_confs 2 3 [(KMEM, 7); (THREAD, 8)] (fun _ t => Z.of_nat t) 0%nat demo_heap (fun _ => eq_refl) demo_holds demo_confs_ok)
    as (_ & (v & t1 & h1 & t' & h' & _ & _ & Hm & _ & E & L & N & _) & _).
  exists v, t', h'. split; [exact E|]. split; [exact L|]. split; [|exact N]. symmetry. exact (Forall2_length _ _ _ Hm).
Defined.
